(* ===== verification/_CoqProject ===== *)
-Q . S2P
Prelude.v
PyFloat.v
FloatFacts.v
RightSizing.v
Assess.v
Rollup.v
AssessFacts.v
RollupFacts.v
RightSizingProps.v
Redis.v
Sql.v
SqlFacts.v
Inbound.v
BootTime.v
CollectDb.v
CollectFacts.v
Wire.v
PyText.v
IsoFacts.v
DbRetry.v
Handlers.v
PyList.v
Devices.v
Services.v
InventoryMsg.v
StoreFacts.v
CollectRuns.v
HandlerFacts.v
ConsumerProps.v
TaskProps.v
WireProps.v
Queue.v
Reports.v
QueueFacts.v
WorkerFacts.v
QueueProps.v
Pool.v
PoolProps.v
WorkerRuns.v
LoopProps.v
MetricViews.v
Dashboard.v
Signals.v
JsonCodec.v
DashCache.v
DashFacts.v
DashProps.v
TaskService.v
IssueFacts.v
IssueProps.v
ServiceProps.v
InventoryProps.v
EolCatalog.v
OsEol.v
OsEolProps.v
Outbound.v
StorageTree.v
StorageProps.v
ServerViews.v
ViewProps.v
HostRows.v
HostRowProps.v
PeriodCard.v
PeriodProps.v
ActionTable.v
ActionProps.v
Topology.v
Fleet.v
FleetQuery.v
TextFacts.v
TopologyProps.v
FleetProps.v
ExternalApi.v
ExternalProps.v
EnvReport.v
EnvProps.v
ReportQuery.v
ReportQueryProps.v
Snapshot.v
SnapshotProps.v
