(* ===== verification/Prelude.v ===== *)
(** * assessment-engine: a verification library of the engine's core logic

    assessment-engine collects metrics and inventories of servers over RabbitMQ,
    stores them in PostgreSQL/TimescaleDB, judges how well each server is sized, issues
    install tasks to the agents and renders reports.  This library models the code under
    [src/src/assessment_engine/] (paths below are relative to it) and proves what makes
    it correct.  The program has three processes over one database, one Redis and one
    broker: the consumer, the web application and the report worker.

    ** The files, by part of the program

    - Foundations.  [Prelude]: Python's exceptions, the [result] and state-and-exception
      [eff] monads, shared tactics and lemmas.  [PyFloat]: binary64 as SpecFloat, [round]
      and float comparisons; [FloatFacts]: its rounding-error theory.
      [PyText], [IsoFacts], [TextFacts]: the string operations and ISO timestamps in use
      (splitting, stripping and joining included).  [PyList]: stable [sorted], grouping,
      formatting.  [Sql], [SqlFacts]: rows, the statement shapes the repositories build,
      sessions with faults and with other transactions between any two statements, and a
      program logic for them ([keeps], [triple]).  [Redis]: [cache/redis.py] over an
      abstract client with laws, and a concrete client.
    - Right-sizing ([recommendation.py]): [RightSizing] (thresholds, saturation signals),
      [Assess] (the five resource assessments), [Rollup] (host status, prescriptions,
      root cause); facts in [AssessFacts], [RollupFacts]; properties in
      [RightSizingProps].
    - The consumer ([consumer/]): [Inbound] (the DTOs), [Wire] and [BootTime] (mapping of
      metrics messages), [InventoryMsg] (mapping of inventory messages), [Services]
      ([service_classifier.py]), [CollectDb] (every method of [SqlCollectRepository]),
      [DbRetry] (the retry loop), [Handlers] (the task policy, idempotency, restarts, the
      handlers; that of inventories is in [InventoryMsg]); facts in [CollectFacts],
      [StoreFacts], [CollectRuns], [HandlerFacts]; properties in [ConsumerProps], [TaskProps],
      [WireProps], [InventoryProps], [ServiceProps].
    - Report jobs: [Queue] (the job table, the repository and the diagnostic service),
      [Reports] ([report_generator.py], [report_worker.py], [task_reaper.py]), [Pool]
      (any number of workers and issuers over one table: a step is a transaction of the
      service, child reports included, labelled with what it does; the abstract board of
      jobs it refines); facts in [QueueFacts],
      [WorkerFacts], [WorkerRuns]; properties in [QueueProps], [PoolProps], [LoopProps].
    - The metric dashboard: [Devices], [MetricViews], [Dashboard] and [Signals]
      ([metrics_calculator.py]), [JsonCodec] and [DashCache] (the cached copy); facts in
      [DashFacts]; properties in [DashProps].
    - Install tasks: [TaskService] ([task_service.py]); [IssueFacts] is its program
      logic, [IssueProps] its property.
    - Servers: [EolCatalog] and [OsEol] ([mappers/os_eol.py]), [Outbound] (the rows the
      repositories return), [StorageTree] (the device tree of [mappers/server.py]),
      [ServerViews] (the rest of that mapper: cards, badges, addresses, disks);
      properties in [OsEolProps], [StorageProps], [ViewProps].
    - Rows and actions: [HostRows] ([mappers/report.py], [report_summary.py],
      [resource_stats.py], [shared.py]: the row of a server with its diagnosis),
      [PeriodCard] ([period_assessment.py]), [ActionTable] ([mappers/attention.py]: the
      table of what to act on); properties in [HostRowProps], [PeriodProps],
      [ActionProps].
    - The environment: [Topology] ([mappers/topology.py]), [Fleet] (the overview and
      the real-time page of [mappers/attention.py]), [FleetQuery] (the services over
      them in [web/services/query/], who is online, which servers a request names);
      properties in [TopologyProps], [FleetProps].
    - The external API: [ExternalApi] ([mappers/right_sizing_api.py],
      [assessment_api.py], their queries and the three endpoints); properties in
      [ExternalProps].
    - The reports themselves: [EnvReport] ([mappers/environment_report.py]) and
      [ReportQuery] ([web/services/query/report.py]: the report of the environment, of
      a selection, of one server, and of the servers of a selection in one batch);
      properties in [EnvProps], [ReportQueryProps].  [Snapshot]
      ([report_serializer.py]: the JSON a report is stored as, and its restoration);
      properties in [SnapshotProps].

    ** How state and operations correspond

    A Python coroutine that touches the database, Redis or the broker is a function
    [eff S A]: from a state [S] to a [result A] (a value or a raised exception) and the
    state after.  A database is a record of tables, each a list of rows (finite maps of
    column values); a session keeps what is committed, what it sees, and a script that
    says for each coming statement what other transactions commit before it and whether
    it fails.  Nothing is assumed of scripts in the definitions; theorems that need
    other transactions to be well-behaved say so.  The clients of external services
    (Redis, broker, HTTP, query repositories) are type classes of operations; what a
    theorem needs of them is a class of laws with a concrete instance.  A mapper is a
    pure function, into [result] where the code can raise.  A record that several
    classes would share field names with sits in a module of its own, which gives its
    fields their names in the code; only [Snapshot], whose code calls the classes with
    whatever a stored dict holds, works on untyped values.

    ** What the theorems show

    - Right-sizing: the judgement is total and coherent; each gate and threshold is
      characterised; sizings never shrink a mount and are never null.
    - Consumer: every handler keeps the database well-formed under faults and
      interference, each metrics message is stored exactly once, retries are bounded,
      Redis failures never lose a message, and what an inventory says is read back.
    - Tasks: results, sweeps and conflicts are characterised on every branch, and no
      pending install task is left without its message.
    - Report jobs: at most one active job per request, oldest first, exclusive claims for
      any number of workers, a refinement of a board of jobs, and termination of a run.
    - Dashboard: shown rates and percentages against their exact definitions, bounds of
      the memory bar, and the cache round trip.
    - Servers: the storage tree has every device once and always ends; a service's card
      shows the ports that are its own; the support of a system only ages.
    - Rows and actions: a row's label, diagnosis, advice and risk agree with the
      judgement; every bad verdict of a period has its reason beside it; the action table
      has every server that needs action once, worst first.
    - The environment: the figures of the overview add up; a request's filters name
      exactly the servers they should, and what matched nothing is reported; the
      topology has every shared subnet with exactly its members, against a contract told on
      the inventory alone.
    - The external API: an assessment is always given and safe to follow, the two APIs
      agree on a server, and the exported file is the answer of the API.
    - Reports: a report accounts for its rows and warnings, its service catalog counts
      each server where it belongs, and the child reports of a selection, read in one
      batch, are what reading each server alone gives (a refinement of the batch by the
      one-by-one reading); a stored report comes back as it was issued, but for two fields.

    ** Bounds and fuel

    Recursion is structural except where noted in the files: the worker's loop takes the
    number of rounds it runs, and [LoopProps] shows that as many rounds as pending jobs
    suffice; the retry loop's bound is its attempt count; the storage tree's fuel is a
    depth, and [StorageProps] shows that one more than the number of devices suffices
    for every input.  Integers are unbounded in Python and are [Z] here; the database's
    widths are not modelled.  Floats are binary64.

    ** Not modelled, and why

    - The query SQL ([db/repositories/query/*_sql.py]): SQL text for TimescaleDB whose
      computation happens in the database; the services over it take its rows as
      arguments.
    - The task list, the report history and the pages of one server
      ([mappers/task.py], [report_history.py], [query/server.py]): copies of fields.  Templates, routers (but those of
      the external API) and browser scripts: display glue.
    - pydantic validation, SQLAlchemy, aio_pika, httpx, hashlib: libraries, seen through
      the operations the code calls.
    - Process start-up, logging configuration and migrations: I/O.
    - Text is a list of bytes; where Python looks at Unicode classes (isprintable,
      lower-casing) the model decides ASCII and keeps other bytes. *)

From Stdlib Require Export Ascii.
From stdpp Require Export base tactics option list gmap strings pretty.
From Stdlib Require Export ZArith Lia.

#[global] Open Scope Z_scope.
#[global] Set Default Goal Selector "!".
#[export] Set Warnings "-clear-no-such-hyp,-register-all".

(** ** Python exceptions

    The exceptions the modelled code raises or catches.  [DBAPIError] carries
    what the code reads from a SQLAlchemy error (the class of the wrapper and
    the driver's SQLSTATE), the last constructors are the exception classes the
    repository itself declares. *)

Inductive sa_class :=
  | SaOperationalError
  | SaInterfaceError
  | SaIntegrityError
  | SaProgrammingError
  | SaDataError
  | SaDBAPIError.

#[export] Instance sa_class_eq_dec : EqDecision sa_class.
Proof. solve_decision. Defined.

Record dbapi_error := DbapiError {
  dbe_class : sa_class;
  (** [getattr(e.orig, "sqlstate", None)]: absent, or a string *)
  dbe_sqlstate : option string;
}.

#[export] Instance dbapi_error_eq_dec : EqDecision dbapi_error.
Proof. solve_decision. Defined.

Inductive exn :=
  | OverflowError
  | ZeroDivisionError
  | ValueError (msg : string)
  | KeyError (key : string)
  | RuntimeError (msg : string)
  | TimeoutError
  | DBAPIError (e : dbapi_error)
  | TypeError
  | AMQPError
  | RedisError
  | CancelledError
  | ZdmPackageMetaError (msg : string)
  | TaskNotFoundError (msg : string)
  | TaskDuplicatePendingError (msg : string)
  | TaskNotConfiguredError (msg : string)
  | TaskPublishFailedError (msg : string)
  | ReportEnqueueError (msg : string)
  | ReportGenerationError (msg : string)
  | OtherError (msg : string).

#[export] Instance exn_eq_dec : EqDecision exn.
Proof. solve_decision. Defined.

(** ** Outcomes and effects

    [result A] is the outcome of a Python call that may raise; [eff S A] is a
    call that also reads and writes a state [S].  Both are instances of stdpp's
    monad classes, so that [x ← m; k] reads as the sequence of Python
    statements it translates. *)

Inductive result (A : Type) :=
  | Ok (a : A)
  | Raise (e : exn).
Arguments Ok {A} a.
Arguments Raise {A} e.

#[export] Instance result_eq_dec {A} `{EqDecision A} : EqDecision (result A).
Proof. solve_decision. Defined.

#[export] Instance result_ret : MRet result := @Ok.
#[export] Instance result_bind : MBind result := fun A B k m =>
  match m with Ok a => k a | Raise e => Raise e end.
#[export] Instance result_fmap : FMap result := fun A B f m =>
  match m with Ok a => Ok (f a) | Raise e => Raise e end.

Definition is_ok {A} (r : result A) : bool :=
  match r with Ok _ => true | Raise _ => false end.

Definition eff (S A : Type) : Type := S → result A * S.

#[export] Instance eff_ret {S} : MRet (eff S) := fun A a s => (Ok a, s).
#[export] Instance eff_bind {S} : MBind (eff S) := fun A B k m s =>
  match m s with
  | (Ok a, s') => k a s'
  | (Raise e, s') => (Raise e, s')
  end.
#[export] Instance eff_fmap {S} : FMap (eff S) := fun A B f m s =>
  match m s with
  | (Ok a, s') => (Ok (f a), s')
  | (Raise e, s') => (Raise e, s')
  end.

Definition raise {S A} (e : exn) : eff S A := fun s => (Raise e, s).
Definition lift {S A} (r : result A) : eff S A := fun s => (r, s).
Definition gets {S A} (f : S → A) : eff S A := fun s => (Ok (f s), s).
Definition modify {S} (f : S → S) : eff S unit := fun s => (Ok tt, f s).

(** [try: m except: h e] - the handler sees every exception and re-raises the
    ones its [except] clause does not name. *)
Definition try_except {S A} (m : eff S A) (h : exn → eff S A) : eff S A := fun s =>
  match m s with
  | (Ok a, s') => (Ok a, s')
  | (Raise e, s') => h e s'
  end.

(** [for x in l: body x] *)
Fixpoint for_each {S A} (l : list A) (body : A → eff S unit) : eff S unit :=
  match l with
  | [] => mret tt
  | x :: l' => _ ← body x; for_each l' body
  end.

(** [for x in l: acc.append(body x)] *)
Fixpoint for_collect {S A B} (l : list A) (body : A → eff S B) : eff S (list B) :=
  match l with
  | [] => mret []
  | x :: l' => b ← body x; bs ← for_collect l' body; mret (b :: bs)
  end.

(** [[f(x) for x in l]] where [f] may raise *)
Fixpoint map_result {A B} (f : A → result B) (l : list A) : result (list B) :=
  match l with
  | [] => Ok []
  | x :: l' => y ← f x; ys ← map_result f l'; Ok (y :: ys)
  end.

(** The state a call leaves, and its outcome. *)
Definition run_state {S A} (m : eff S A) (s : S) : S := snd (m s).
Definition run_out {S A} (m : eff S A) (s : S) : result A := fst (m s).

Section effect_lemmas.
Context {S : Type}.
Implicit Types s : S.

Lemma bind_ok {A B} (m : eff S A) (k : A → eff S B) s a s' :
  m s = (Ok a, s') → mbind k m s = k a s'.
Proof. intros H. unfold mbind, eff_bind. by rewrite H. Qed.

Lemma bind_raise {A B} (m : eff S A) (k : A → eff S B) s e s' :
  m s = (Raise e, s') → mbind k m s = (Raise e, s').
Proof. intros H. unfold mbind, eff_bind. by rewrite H. Qed.

Lemma bind_inv_ok {A B} (m : eff S A) (k : A → eff S B) s b s2 :
  mbind k m s = (Ok b, s2) → ∃ a s1, m s = (Ok a, s1) ∧ k a s1 = (Ok b, s2).
Proof.
  unfold mbind, eff_bind. destruct (m s) as [[a|e] s1] eqn:E; naive_solver.
Qed.

Lemma bind_inv_raise {A B} (m : eff S A) (k : A → eff S B) s e s2 :
  mbind k m s = (Raise e, s2) →
  m s = (Raise e, s2) ∨ ∃ a s1, m s = (Ok a, s1) ∧ k a s1 = (Raise e, s2).
Proof.
  unfold mbind, eff_bind. destruct (m s) as [[a|e'] s1] eqn:E; naive_solver.
Qed.

Lemma ret_run {A} (a : A) s : (mret a : eff S A) s = (Ok a, s).
Proof. done. Qed.

Lemma try_ok {A} (m : eff S A) h s a s' :
  m s = (Ok a, s') → try_except m h s = (Ok a, s').
Proof. intros H. unfold try_except. by rewrite H. Qed.

Lemma try_raise {A} (m : eff S A) h s e s' :
  m s = (Raise e, s') → try_except m h s = h e s'.
Proof. intros H. unfold try_except. by rewrite H. Qed.

(** A loop whose body keeps an invariant and never raises keeps it and never
raises. *)
Lemma for_each_invariant {A} (I : S → Prop) (body : A → eff S unit) l s :
  (∀ x s0, x ∈ l → I s0 → ∃ s1, body x s0 = (Ok tt, s1) ∧ I s1) →
  I s → ∃ s1, for_each l body s = (Ok tt, s1) ∧ I s1.
Proof.
  revert s. induction l as [|x l IH]; intros s Hb HI; [by exists s|].
  destruct (Hb x s) as (s1 & H1 & HI1); [set_solver|done|].
  cbn. rewrite (bind_ok _ _ _ _ _ H1).
  apply IH; [|done]. intros y s0 Hy. apply Hb. set_solver.
Qed.
End effect_lemmas.

Create Rewrite HintDb effects.
#[export] Hint Rewrite @ret_run : effects.

(** ** Tactics of the development *)

(** One step of symbolic execution: inverts a hypothesis about a bind. *)
Ltac inv_bind :=
  match goal with
  | H : mbind _ _ _ = (Ok _, _) |- _ =>
      apply bind_inv_ok in H as (? & ? & ? & H)
  | H : (mret _) _ = (_, _) |- _ => unfold mret, eff_ret in H; simplify_eq
  end.

(** Case analysis on every [if] and [match] of the goal, closing the branches
    that contradict each other. *)
Ltac split_branches :=
  repeat (case_match; simplify_eq/=; try done).

(** Turns boolean hypotheses into propositions. *)
Ltac to_prop :=
  repeat match goal with
  | H : _ && _ = true |- _ => apply andb_true_iff in H as [? ?]
  | H : _ || _ = false |- _ => apply orb_false_iff in H as [? ?]
  | H : negb _ = true |- _ => apply negb_true_iff in H
  | H : negb _ = false |- _ => apply negb_false_iff in H
  | H : bool_decide _ = true |- _ => apply bool_decide_eq_true_1 in H
  | H : bool_decide _ = false |- _ => apply bool_decide_eq_false_1 in H
  | H : Z.ltb _ _ = true |- _ => apply Z.ltb_lt in H
  | H : Z.ltb _ _ = false |- _ => apply Z.ltb_ge in H
  | H : Z.leb _ _ = true |- _ => apply Z.leb_le in H
  | H : Z.leb _ _ = false |- _ => apply Z.leb_gt in H
  | H : Z.eqb _ _ = true |- _ => apply Z.eqb_eq in H
  | H : Z.eqb _ _ = false |- _ => apply Z.eqb_neq in H
  end.

(** ** Python values shared by the components *)

(** Truthiness of an optional string: [None] and [""] are false. *)
Definition str_truthy (o : option string) : bool :=
  match o with Some s => negb (String.eqb s "") | None => false end.

(** [a or b] on optional strings *)
Definition str_or (o : option string) (d : string) : string :=
  match o with Some s => if String.eqb s "" then d else s | None => d end.

Fixpoint str_join (sep : string) (l : list string) : string :=
  match l with
  | [] => ""
  | [s] => s
  | s :: l' => String.append s (String.append sep (str_join sep l'))
  end.

Lemma str_or_truthy o d : str_truthy o = true → Some (str_or o d) = o.
Proof. destruct o as [s|]; cbn; [|done]. by destruct (String.eqb s ""). Qed.

(** [max] and [min] of a non-empty list of integers *)
Definition max_list_Z (x : Z) (l : list Z) : Z := foldr Z.max x l.

Lemma max_list_Z_ge x l y : y ∈ x :: l → y <= max_list_Z x l.
Proof.
  unfold max_list_Z. induction l as [|z l IH]; cbn; intros H.
  - apply elem_of_cons in H as [->|H]; [lia|by apply not_elem_of_nil in H].
  - assert (y = z ∨ y ∈ x :: l) as [->|?] by set_solver; [lia|].
    specialize (IH ltac:(done)). lia.
Qed.

Lemma max_list_Z_elem x l : max_list_Z x l ∈ x :: l.
Proof.
  unfold max_list_Z. induction l as [|z l IH]; cbn; [set_solver|].
  destruct (Z.max_spec z (foldr Z.max x l)) as [[_ ->]|[_ ->]]; set_solver.
Qed.

(** Membership in a list of literals, as Python's [x in (a, b)] *)
Definition mem {A} `{EqDecision A} (x : A) (l : list A) : bool := bool_decide (x ∈ l).

Lemma mem_true {A} `{EqDecision A} (x : A) l : mem x l = true ↔ x ∈ l.
Proof. apply bool_decide_eq_true. Qed.

(** The distinct elements of a list, first occurrence first (a Python dict's
    key order). *)
Fixpoint dedup_first {A} `{EqDecision A} (l : list A) : list A :=
  match l with
  | [] => []
  | x :: l' => x :: filter (λ y, y ≠ x) (dedup_first l')
  end.

Lemma elem_of_dedup_first {A} `{EqDecision A} (l : list A) x :
  x ∈ dedup_first l ↔ x ∈ l.
Proof.
  revert x. induction l as [|y l IH]; intros x; cbn; [done|].
  rewrite !elem_of_cons, list_elem_of_filter, IH.
  destruct (decide (x = y)); naive_solver.
Qed.

Lemma NoDup_dedup_first {A} `{EqDecision A} (l : list A) : NoDup (dedup_first l).
Proof.
  induction l as [|x l IH]; cbn; constructor.
  - rewrite list_elem_of_filter. naive_solver.
  - by apply NoDup_filter.
Qed.

(** A ground equation or boolean fact decided by evaluation. *)
Ltac by_eval := vm_compute; reflexivity.

(** Proves a membership in a list of literals. *)
Ltac in_list := cbn; repeat first [apply list_elem_of_here | apply list_elem_of_further].

(** Splits a membership in a list of literals. *)
Ltac case_in_list H :=
  lazymatch type of H with
  | _ ∈ [] => by apply not_elem_of_nil in H
  | _ => apply elem_of_cons in H as [H|H]; [rewrite H|case_in_list H]
  end.
