(* ===== verification/PyFloat.v ===== *)
(** * Python floats

    Python's [float] is IEEE 754 binary64.  The code's thresholds and sizing
    formulas are float computations whose rounding is visible (a [math.ceil] of
    a product, a comparison at a threshold), so floats are modelled bit for bit:
    [float] is the Standard Library's executable specification of IEEE
    arithmetic at precision 53 and maximal exponent 1024.  No axiom is used.

    The file holds the operations the code uses (arithmetic, comparison,
    conversion of integers, [math.ceil], [round], fixed-point formatting), the
    order lemmas (a total preorder on the non-NaN floats), and the magnitude
    lemmas that bound results, from which the absence of [OverflowError] in
    [math.ceil] follows. *)

From Stdlib Require Export SpecFloat.
From S2P Require Import Prelude.

Create HintDb pyfloat.

Abbreviation float := spec_float.

Definition fprec : Z := 53.
Definition femax : Z := 1024.

Definition fadd (x y : float) : float := SFadd fprec femax x y.
Definition fsub (x y : float) : float := SFsub fprec femax x y.
Definition fmul (x y : float) : float := SFmul fprec femax x y.
(** [x / y]; every divisor in the code is a non-zero constant or guarded. *)
Definition fdiv (x y : float) : float := SFdiv fprec femax x y.
Definition fabs (x : float) : float := SFabs x.

Definition flt (x y : float) : bool := SFltb x y.
Definition fle (x y : float) : bool := SFleb x y.
Definition fgt (x y : float) : bool := SFltb y x.
Definition fge (x y : float) : bool := SFleb y x.

(** [float(n)], the implicit conversion of an int operand.  The integers of
    the code fit 64 bits, far below the magnitude at which Python raises. *)
Definition of_Z (n : Z) : float := binary_normalize fprec femax n 0 false.

(** The float nearest to the rational [num / den]: Python's true division of
    two ints, and the value of a decimal literal. *)
Definition of_ratio (s : bool) (num : Z) (den : positive) : float :=
  match num with
  | Zpos n =>
      let '(q, e, l) := SFdiv_core_binary fprec femax (Zpos n) 0 (Zpos den) 0 in
      binary_round_aux fprec femax s q e l
  | _ => S754_zero s
  end.

(** [a / b] on ints, for [b > 0] *)
Definition int_truediv (a : Z) (b : positive) : float :=
  of_ratio (a <? 0) (Z.abs a) b.

(** [max(x, y)] and [min(x, y)]: Python keeps the first argument on ties. *)
Definition fmax2 (x y : float) : float := if fgt y x then y else x.
Definition fmin2 (x y : float) : float := if flt y x then y else x.

Definition is_finite (x : float) : bool :=
  match x with S754_zero _ | S754_finite _ _ _ => true | _ => false end.

Definition is_nan (x : float) : bool :=
  match x with S754_nan => true | _ => false end.

(** The truth value of a float: zero is false. *)
Definition float_truthy (x : float) : bool :=
  match x with S754_zero _ => false | _ => true end.

(** ** Conversion to integers *)

(** [num / 2 ^ (- e)] rounded up; exact when [e] is not negative. *)
Definition scaled_ceil (num e : Z) : Z :=
  if 0 <=? e then num * 2 ^ e else - ((- num) / 2 ^ (- e)).

(** Division rounded to nearest, ties to even. *)
Definition div_half_even (num den : Z) : Z :=
  let q := num / den in
  let r := num mod den in
  match Z.compare (2 * r) den with
  | Lt => q
  | Gt => q + 1
  | Eq => if Z.even q then q else q + 1
  end.

(** [num * 2 ^ e] rounded to the nearest integer, ties to even. *)
Definition scaled_round (num e : Z) : Z :=
  if 0 <=? e then num * 2 ^ e else div_half_even num (2 ^ (- e)).

(** [math.ceil(x)] *)
Definition py_ceil (x : float) : result Z :=
  match x with
  | S754_zero _ => Ok 0
  | S754_finite s m e => Ok (scaled_ceil (cond_Zopp s (Zpos m)) e)
  | S754_infinity _ => Raise OverflowError
  | S754_nan => Raise (ValueError "cannot convert float NaN to integer")
  end.

(** [round(x)] *)
Definition py_round (x : float) : result Z :=
  match x with
  | S754_zero _ => Ok 0
  | S754_finite s m e => Ok (scaled_round (cond_Zopp s (Zpos m)) e)
  | S754_infinity _ => Raise OverflowError
  | S754_nan => Raise (ValueError "cannot convert float NaN to integer")
  end.

(** [round(x, nd)] for [nd > 0]: the decimal rounding of the exact value, half
    to even, read back as the nearest float; the sign of a zero is kept. *)
Definition py_round_nd (nd : nat) (x : float) : float :=
  match x with
  | S754_finite s m e =>
      of_ratio s (scaled_round (Zpos m * 10 ^ Z.of_nat nd) e) (Z.to_pos (10 ^ Z.of_nat nd))
  | _ => x
  end.

(** ** Formatting *)

Fixpoint zeros (n : nat) : string :=
  match n with O => "" | S n' => String "0"%char (zeros n') end.

(** A non-negative integer in exactly [n] digits at least, zero padded. *)
Definition pad_digits (n : nat) (x : Z) : string :=
  let s := pretty x in String.append (zeros (n - String.length s)) s.

(** [f"{x:.<nd>f}"] *)
Definition fmt_fixed (nd : nat) (x : float) : string :=
  let signed (s : bool) (body : string) := if s then String "-"%char body else body in
  match x with
  | S754_nan => "nan"
  | S754_infinity s => signed s "inf"
  | S754_zero s =>
      signed s (if nd is O then "0" else String.append "0." (zeros nd))
  | S754_finite s m e =>
      let q := scaled_round (Zpos m * 10 ^ Z.of_nat nd) e in
      let p := 10 ^ Z.of_nat nd in
      let whole : string := pretty (q / p) in
      signed s (if nd is O then whole
                else String.append whole (String "."%char (pad_digits nd (q mod p))))
  end.

(** [f"{n}"] on an int *)
Definition fmt_int (n : Z) : string := pretty n.

Example of_ratio_tenth : of_ratio false 1 10 = S754_finite false 7205759403792794 (-56).
Proof. vm_compute. reflexivity. Qed.

Example ceil_example : py_ceil (fmul (of_Z 10) (of_ratio false 13 10)) = Ok 13.
Proof. vm_compute. reflexivity. Qed.

Example round_example :
  py_round_nd 1 (of_ratio false 125 100) = of_ratio false 12 10 ∧
  py_round_nd 2 (of_ratio false 2675 1000) = of_ratio false 267 100 ∧
  fmt_fixed 1 (of_ratio false 225 100) = "2.2"%string ∧ py_round (of_ratio false 5 2) = Ok 2.
Proof. vm_compute. done. Qed.

(** ** Order

    On the non-NaN floats the comparisons are a total preorder: [fkey] maps a
    float to a triple (class, exponent, mantissa) whose lexicographic order is
    the comparison [SFcompare] computes. *)

Definition fkey (x : float) : Z * Z * Z :=
  match x with
  | S754_infinity true => (-2, 0, 0)
  | S754_finite true m e => (-1, - e, - Zpos m)
  | S754_zero _ => (0, 0, 0)
  | S754_finite false m e => (1, e, Zpos m)
  | S754_infinity false => (2, 0, 0)
  | S754_nan => (3, 0, 0)
  end.

Definition lex_compare (a b : Z * Z * Z) : comparison :=
  match Z.compare a.1.1 b.1.1 with
  | Eq => match Z.compare a.1.2 b.1.2 with
          | Eq => Z.compare a.2 b.2
          | c => c
          end
  | c => c
  end.

Definition lex_le (a b : Z * Z * Z) : Prop :=
  a.1.1 < b.1.1 ∨ (a.1.1 = b.1.1 ∧ (a.1.2 < b.1.2 ∨ (a.1.2 = b.1.2 ∧ a.2 <= b.2))).

Lemma lex_compare_le a b : lex_compare a b ≠ Gt ↔ lex_le a b.
Proof.
  destruct a as [[a1 a2] a3], b as [[b1 b2] b3].
  unfold lex_compare, lex_le; cbn.
  destruct (Z.compare_spec a1 b1), (Z.compare_spec a2 b2), (Z.compare_spec a3 b3);
    split; intros; (congruence || lia).
Qed.

Lemma lex_compare_lt a b : lex_compare a b = Lt ↔ ¬ lex_le b a.
Proof.
  destruct a as [[a1 a2] a3], b as [[b1 b2] b3].
  unfold lex_compare, lex_le; cbn.
  destruct (Z.compare_spec a1 b1), (Z.compare_spec a2 b2), (Z.compare_spec a3 b3);
    split; intros; (congruence || lia).
Qed.

Lemma SFcompare_key x y :
  is_nan x = false → is_nan y = false →
  SFcompare x y = Some (lex_compare (fkey x) (fkey y)).
Proof.
  intros Hx Hy.
  destruct x as [sx|sx| |sx mx ex], y as [sy|sy| |sy my ey]; try done;
    try (destruct sx; done); try (destruct sy; done);
    try (destruct sx, sy; done).
  destruct sx, sy; unfold lex_compare; cbn; try done; f_equal.
  rewrite Z.compare_opp, (Z.compare_antisym ex ey).
  destruct (Z.compare ex ey); done.
Qed.

Lemma fle_iff x y :
  fle x y = true ↔ is_nan x = false ∧ is_nan y = false ∧ lex_le (fkey x) (fkey y).
Proof.
  unfold fle, SFleb.
  destruct (is_nan x) eqn:Hx; [destruct x; cbn in *; naive_solver|].
  destruct (is_nan y) eqn:Hy; [destruct x, y; cbn in *; naive_solver|].
  rewrite SFcompare_key by done.
  rewrite <- lex_compare_le. destruct (lex_compare _ _); naive_solver.
Qed.

Lemma flt_iff x y :
  flt x y = true ↔ is_nan x = false ∧ is_nan y = false ∧ ¬ lex_le (fkey y) (fkey x).
Proof.
  unfold flt, SFltb.
  destruct (is_nan x) eqn:Hx; [destruct x; cbn in *; naive_solver|].
  destruct (is_nan y) eqn:Hy; [destruct x, y; cbn in *; naive_solver|].
  rewrite SFcompare_key by done.
  rewrite <- lex_compare_lt. destruct (lex_compare _ _); naive_solver.
Qed.

Lemma lex_le_trans a b c : lex_le a b → lex_le b c → lex_le a c.
Proof. unfold lex_le. lia. Qed.

Lemma lex_le_total a b : lex_le a b ∨ lex_le b a.
Proof. unfold lex_le. lia. Qed.

Lemma fle_trans x y z : fle x y = true → fle y z = true → fle x z = true.
Proof. rewrite !fle_iff. intros (?&?&?) (?&?&?). eauto using lex_le_trans. Qed.

Lemma fle_refl x : is_nan x = false → fle x x = true.
Proof. intros. apply fle_iff. destruct (lex_le_total (fkey x) (fkey x)); auto. Qed.

Lemma flt_fle x y : flt x y = true → fle x y = true.
Proof.
  rewrite fle_iff, flt_iff. destruct (lex_le_total (fkey x) (fkey y)); naive_solver.
Qed.

Lemma flt_fle_trans x y z : flt x y = true → fle y z = true → flt x z = true.
Proof. rewrite !flt_iff, fle_iff. naive_solver eauto using lex_le_trans. Qed.

Lemma fle_flt_trans x y z : fle x y = true → flt y z = true → flt x z = true.
Proof. rewrite !flt_iff, fle_iff. naive_solver eauto using lex_le_trans. Qed.

(** On non-NaN floats [x < y] is the negation of [y <= x]. *)
Lemma flt_negb_fle x y :
  is_nan x = false → is_nan y = false → flt x y = negb (fle y x).
Proof.
  intros Hx Hy. apply eq_bool_prop_intro.
  rewrite negb_True, !Is_true_true, flt_iff, fle_iff. naive_solver.
Qed.

(** No float is both at least [y] and below it. *)
Lemma flt_fle_absurd x y : flt x y = true → fle y x = true → False.
Proof. rewrite flt_iff, fle_iff. naive_solver. Qed.

Lemma fge_trans x y z : fge x y = true → fge y z = true → fge x z = true.
Proof. unfold fge. eauto using fle_trans. Qed.

Lemma fgt_fge x y : fgt x y = true → fge x y = true.
Proof. apply flt_fle. Qed.

#[export] Hint Resolve fle_trans fle_refl flt_fle flt_fle_trans fle_flt_trans : pyfloat.

(** ** Magnitude

    [mag_le K x]: [x] is finite and below [2 ^ K] in absolute value.  Each
    operation raises the bound by the amount its exact result needs plus one for
    the rounding, so a chain of operations on bounded inputs stays finite and
    [math.ceil] of it returns. *)

Definition mag_le (K : Z) (x : float) : Prop :=
  match x with
  | S754_zero _ => True
  | S754_finite _ m e => e <= K ∧ Zpos m < 2 ^ (K - e)
  | _ => False
  end.

Lemma mag_le_finite K x : mag_le K x → is_finite x = true.
Proof. by destruct x. Qed.

Lemma mag_le_mono K K' x : K <= K' → mag_le K x → mag_le K' x.
Proof.
  intros HK. destruct x as [| | |s m e]; cbn; try done. intros [He Hm].
  split; [lia|]. pose proof (Z.pow_le_mono_r 2 (K - e) (K' - e)). lia.
Qed.

Lemma py_ceil_finite x : is_finite x = true → ∃ z, py_ceil x = Ok z.
Proof. destruct x; cbn; naive_solver. Qed.

Lemma iter_pos_plus {A} (f : A → A) n x :
  SpecFloat.iter_pos f n x = Nat.iter (Pos.to_nat n) f x.
Proof.
  revert x. induction n as [n IH|n IH|]; intros x; cbn.
  - rewrite !IH, <- Nat.iter_add, <- Nat.iter_succ_r. f_equal. lia.
  - rewrite !IH, <- Nat.iter_add. f_equal. lia.
  - done.
Qed.

Lemma shr_1_div r : 0 <= shr_m r → shr_m (shr_1 r) = shr_m r / 2.
Proof.
  destruct r as [m b s]; cbn. intros Hm.
  destruct m as [|[p|p|]|[p|p|]]; cbn; try done; try lia.
  - rewrite (Pos2Z.inj_xI p). apply Z.div_unique with 1; lia.
  - rewrite (Pos2Z.inj_xO p). apply Z.div_unique with 0; lia.
Qed.

Lemma shr_iter_div n r :
  0 <= shr_m r → shr_m (Nat.iter n shr_1 r) = shr_m r / 2 ^ Z.of_nat n.
Proof.
  intros Hr. induction n as [|n IH]; [cbn; by rewrite Z.div_1_r|].
  rewrite Nat.iter_succ, shr_1_div, IH; [|rewrite IH; apply Z.div_pos; lia].
  rewrite Z.div_div by lia. f_equal.
  rewrite Nat2Z.inj_succ, Z.pow_succ_r; lia.
Qed.

Lemma pow2_split a b : 0 <= a → 0 <= b → 2 ^ (a + b) = 2 ^ a * 2 ^ b.
Proof. apply Z.pow_add_r. Qed.

Lemma shr_record_of_loc_m m l : shr_m (shr_record_of_loc m l) = m.
Proof. by destruct l as [|[]]. Qed.

Lemma fexp_le d K : d <= K → 0 <= K → fexp fprec femax d <= K.
Proof. unfold fexp, emin, fprec, femax. lia. Qed.

Lemma digits2_log2 p : Zpos (digits2_pos p) = Z.log2 (Zpos p) + 1.
Proof.
  induction p as [p IH|p IH|]; cbn [digits2_pos]; [| |done].
  - rewrite Pos2Z.inj_succ, IH, Pos2Z.inj_xI, Z.log2_succ_double; lia.
  - rewrite Pos2Z.inj_succ, IH, Pos2Z.inj_xO, Z.log2_double; lia.
Qed.

Lemma Zdigits2_bound m k : 0 <= k → 0 <= m < 2 ^ k → Zdigits2 m <= k.
Proof.
  intros Hk [H0 Hm]. destruct m as [|p|p]; cbn [Zdigits2]; [lia| |lia].
  rewrite digits2_log2. pose proof (Z.log2_lt_pow2 (Zpos p) k). lia.
Qed.

Lemma digits2_upper p : Zpos p < 2 ^ Zpos (digits2_pos p).
Proof. rewrite digits2_log2. pose proof (Z.log2_spec (Zpos p)). lia. Qed.

(** Aligning a mantissa to the target exponent keeps the magnitude bound. *)
Lemma shr_fexp_bound m e l K :
  0 <= K → 0 <= m → e <= K → m < 2 ^ (K - e) →
  let '(r, e') := shr_fexp fprec femax m e l in
  0 <= shr_m r ∧ e' <= K ∧ shr_m r < 2 ^ (K - e').
Proof.
  intros HK Hm He Hlt. unfold shr_fexp, shr.
  set (n := fexp fprec femax (Zdigits2 m + e) - e).
  destruct n as [|p|p] eqn:En; rewrite ?shr_record_of_loc_m; try done.
  rewrite iter_pos_plus, shr_iter_div, shr_record_of_loc_m, positive_nat_Z;
    rewrite ?shr_record_of_loc_m; [|done].
  pose proof (Zdigits2_bound m (K - e)) as Hd.
  pose proof (fexp_le (Zdigits2 m + e) K) as Hf.
  assert (e + Zpos p <= K) as HeK by lia.
  split; [apply Z.div_pos; lia|]. split; [lia|].
  apply Z.div_lt_upper_bound; [lia|].
  rewrite <- pow2_split by lia. by replace (Zpos p + (K - (e + Zpos p))) with (K - e) by lia.
Qed.

Lemma round_nearest_even_bound m l : 0 <= m → m <= round_nearest_even m l <= m + 1.
Proof. intros. destruct l as [|[]]; cbn; try lia. destruct (Z.even m); lia. Qed.

Lemma binary_round_aux_mag s m e l K :
  0 <= K < femax - fprec → 0 <= m → e <= K → m < 2 ^ (K - e) →
  mag_le (K + 1) (binary_round_aux fprec femax s m e l).
Proof.
  intros HK Hm He Hlt. unfold binary_round_aux.
  pose proof (shr_fexp_bound m e l K) as H1.
  destruct (shr_fexp fprec femax m e l) as [r e1].
  destruct H1 as (Hr & He1 & Hr1); [lia..|].
  set (m2 := round_nearest_even _ _).
  assert (shr_m r <= m2 <= shr_m r + 1) as Hm2 by by apply round_nearest_even_bound.
  assert (m2 < 2 ^ (K + 1 - e1)) as Hm2'.
  { replace (K + 1 - e1) with (Z.succ (K - e1)) by lia.
    rewrite Z.pow_succ_r by lia. lia. }
  pose proof (shr_fexp_bound m2 e1 loc_Exact (K + 1)) as H2.
  destruct (shr_fexp fprec femax m2 e1 loc_Exact) as [r2 e2].
  destruct H2 as (Hr2 & He2 & Hr3); [lia..|].
  destruct (shr_m r2) as [|p|p]; [done| |lia].
  destruct (e2 <=? femax - fprec) eqn:E; [done|]. apply Z.leb_gt in E. lia.
Qed.

Lemma fmul_mag K1 K2 x y :
  0 <= K1 + K2 < femax - fprec → mag_le K1 x → mag_le K2 y →
  mag_le (K1 + K2 + 1) (fmul x y).
Proof.
  intros HK. destruct x as [| | |s1 m1 e1], y as [| | |s2 m2 e2]; cbn; try done.
  intros [He1 Hm1] [He2 Hm2]. apply binary_round_aux_mag; try lia.
  replace (K1 + K2 - (e1 + e2)) with ((K1 - e1) + (K2 - e2)) by lia.
  rewrite pow2_split by lia. rewrite Pos2Z.inj_mul. nia.
Qed.

(** Division by a positive float whose exponent is [e2]. *)
Lemma fdiv_mag K x m2 e2 :
  0 <= K - e2 < femax - fprec → mag_le K x →
  mag_le (K - e2 + 1) (fdiv x (S754_finite false m2 e2)).
Proof.
  intros HK. destruct x as [| | |s m e]; cbn -[SFdiv_core_binary]; try done.
  intros [He Hm]. unfold SFdiv_core_binary.
  set (e' := Z.min _ (e - e2)).
  set (sh := e - e2 - e').
  assert (0 <= sh) as Hsh by lia.
  set (m' := match sh with Zpos _ => _ | _ => _ end).
  assert (m' = Zpos m * 2 ^ sh) as Hm'.
  { unfold m'. destruct sh as [|p|p] eqn:E; [lia| |lia].
    by rewrite Z.shiftl_mul_pow2. }
  pose proof (Z_div_mod m' (Zpos m2)) as Hdiv.
  destruct (Z.div_eucl m' (Zpos m2)) as [q r]. destruct Hdiv as [Hq Hr]; [lia|].
  apply binary_round_aux_mag; [lia| |lia|].
  - pose proof (Z.pow_pos_nonneg 2 sh). nia.
  - replace (K - e2 - e') with ((K - e) + sh) by lia.
    rewrite pow2_split by lia. pose proof (Z.pow_pos_nonneg 2 sh). nia.
Qed.

Lemma of_Z_mag n k : 0 <= k < femax - fprec → Z.abs n < 2 ^ k → mag_le (k + 1) (of_Z n).
Proof.
  intros Hk Hn. unfold of_Z, binary_normalize, binary_round, shl_align.
  assert (∀ s p, Zpos p < 2 ^ k →
    mag_le (k + 1)
      (let '(mz, ez) :=
        match fexp fprec femax (Zpos (digits2_pos p) + 0) - 0 with
        | Zneg d => (Pos.iter xO p d, fexp fprec femax (Zpos (digits2_pos p) + 0))
        | _ => (p, 0)
        end in binary_round_aux fprec femax s (Zpos mz) ez loc_Exact)) as H.
  { intros s p Hp.
    destruct (fexp fprec femax (Zpos (digits2_pos p) + 0) - 0) as [|d|d] eqn:E.
    1,2: apply binary_round_aux_mag; try lia; by replace (k - 0) with k by lia.
    apply binary_round_aux_mag; try lia.
    assert (Zpos (Pos.iter xO p d) = Zpos p * 2 ^ Zpos d) as ->.
    { clear. revert p. induction d as [|d IH] using Pos.peano_ind; intros p; [cbn; lia|].
      rewrite Pos.iter_succ, Pos2Z.inj_succ, Z.pow_succ_r, Pos2Z.inj_xO, IH by lia. lia. }
    replace (k - fexp fprec femax (Zpos (digits2_pos p) + 0)) with (k + Zpos d) by lia.
    rewrite pow2_split by lia. pose proof (Z.pow_pos_nonneg 2 (Zpos d)). nia. }
  destruct n as [|p|p]; [done|apply H; lia..].
Qed.

(** A Python float object: the mantissa and exponent are normalised. *)
Definition py_float (x : float) : Prop := valid_binary fprec femax x = true.

Lemma py_float_mantissa s m e : py_float (S754_finite s m e) → Zpos m < 2 ^ 53.
Proof.
  unfold py_float; cbn. unfold bounded, canonical_mantissa. intros H.
  apply andb_true_iff in H as [H _]. apply Z.eqb_eq in H.
  pose proof (digits2_upper m) as Hu.
  assert (Zpos (digits2_pos m) <= 53) as Hd by (unfold fexp, fprec in H; lia).
  pose proof (Z.pow_le_mono_r 2 _ 53 ltac:(lia) Hd). lia.
Qed.

(** A float between zero and a positive constant is bounded by the constant's
    exponent. *)
Lemma py_float_between K x m e :
  py_float x → fle (of_Z 0) x = true → fle x (S754_finite false m e) = true →
  e + 53 <= K → mag_le K x.
Proof.
  intros Hv H0 Hc HK. apply fle_iff in H0 as (_ & _ & H0), Hc as (_ & _ & Hc).
  unfold lex_le in *. destruct x as [s|s| |s mx ex]; try done.
  - destruct s; cbn in *; lia.
  - cbn in *; lia.
  - pose proof (py_float_mantissa _ _ _ Hv) as Hm.
    destruct s; cbn in *; [lia|].
    split; [lia|]. pose proof (Z.pow_le_mono_r 2 53 (K - ex)). lia.
Qed.

#[export] Hint Resolve mag_le_finite : pyfloat.

(** Float operations stay folded under simplification; [vm_compute] evaluates
    them in the examples and witnesses. *)
#[global] Arguments of_Z : simpl never.
#[global] Arguments of_ratio : simpl never.
#[global] Arguments int_truediv : simpl never.
#[global] Arguments fadd : simpl never.
#[global] Arguments fsub : simpl never.
#[global] Arguments fmul : simpl never.
#[global] Arguments fdiv : simpl never.
#[global] Arguments flt : simpl never.
#[global] Arguments fle : simpl never.
#[global] Arguments fgt : simpl never.
#[global] Arguments fge : simpl never.
#[global] Arguments py_ceil : simpl never.
#[global] Arguments py_round : simpl never.
#[global] Arguments fmt_fixed : simpl never.

(** ** [int(x)] and [sum] *)

(** [int(x)] truncates toward zero. *)
Definition py_int (x : float) : result Z :=
  match x with
  | S754_zero _ => Ok 0
  | S754_finite s m e =>
      let a := if 0 <=? e then Zpos m * 2 ^ e else Zpos m / 2 ^ (- e) in
      Ok (cond_Zopp s a)
  | S754_infinity _ => Raise OverflowError
  | S754_nan => Raise (ValueError "cannot convert float NaN to integer")
  end.

(** One step of CPython's compensated summation: the running sum and the
    compensation *)
Definition sum_step (acc : float * float) (x : float) : float * float :=
  let '(s, c) := acc in
  let t := fadd s x in
  let c' := if fge (fabs s) (fabs x)
            then fadd c (fadd (fsub s t) x)
            else fadd c (fadd (fsub x t) s) in
  (t, c').

(** [sum(l)] on a non-empty list of floats *)
Definition py_sum (x : float) (l : list float) : float :=
  let '(s, c) := foldl sum_step (fadd (of_Z 0) x, of_Z 0) l in
  if float_truthy c && is_finite c then fadd s c else s.

Example sum_example :
  py_sum (of_ratio false 1 10) (replicate 9 (of_ratio false 1 10)) = of_Z 1 ∧
  py_int (of_ratio true 27 10) = Ok (-2).
Proof. vm_compute. done. Qed.

#[global] Arguments py_int : simpl never.
#[global] Arguments py_sum : simpl never.
