(* ===== verification/FloatFacts.v ===== *)
(** * Rounding errors of binary64

    What a float operation returns, up to a bounded error: the value of a float on a
    common scale, the error of one rounding, and from these subtraction and the
    decimal rounding of results that are close to a multiple of a tenth.  Results are
    normalised, so that comparison is comparison of values. *)

From S2P Require Import Prelude PyFloat.

(** ** Values

    Every exponent the lemmas meet is above -3000, so the values are integers on the
    scale [2 ^ -3000]. *)

Definition unit_at (e : Z) : Z := 2 ^ (e + 3000).

Definition fval (x : float) : Z :=
  match x with S754_finite s m e => cond_Zopp s (Zpos m * unit_at e) | _ => 0 end.

(** Finite, with an exponent binary64 has *)
Definition regular (x : float) : Prop :=
  match x with S754_zero _ => True | S754_finite _ _ e => -1074 <= e | _ => False end.

Lemma unit_split a b : -3000 <= a → 0 <= b → unit_at (a + b) = unit_at a * 2 ^ b.
Proof. intros. unfold unit_at. rewrite <- Z.pow_add_r by lia. f_equal. lia. Qed.

Lemma unit_pos e : -3000 <= e → 0 < unit_at e.
Proof. intros. apply Z.pow_pos_nonneg; lia. Qed.

Lemma unit_mono a b : -3000 <= a → a <= b → unit_at a <= unit_at b.
Proof. intros. apply Z.pow_le_mono_r; lia. Qed.

#[global] Opaque unit_at.

(** ** One rounding *)

Lemma shr_fexp_spec m e l :
  0 <= m →
  let '(r, e') := shr_fexp fprec femax m e l in
  0 <= shr_m r ∧ e' = Z.max e (fexp fprec femax (Zdigits2 m + e)) ∧ shr_m r = m / 2 ^ (e' - e).
Proof.
  intros Hm. unfold shr_fexp, shr. set (f := fexp fprec femax (Zdigits2 m + e)).
  destruct (f - e) as [|p|p] eqn:En; rewrite ?shr_record_of_loc_m.
  - split; [done|]. split; [lia|]. by rewrite Z.sub_diag, Z.div_1_r.
  - rewrite iter_pos_plus, shr_iter_div, shr_record_of_loc_m, positive_nat_Z
      by (rewrite shr_record_of_loc_m; done).
    split; [apply Z.div_pos; lia|]. split; [lia|]. f_equal. f_equal. lia.
  - split; [done|]. split; [lia|]. by rewrite Z.sub_diag, Z.div_1_r.
Qed.

Lemma div_scale m e k : -3000 <= e → 0 <= k → 0 <= m →
  m / 2 ^ k * unit_at (e + k) <= m * unit_at e < (m / 2 ^ k + 1) * unit_at (e + k).
Proof.
  intros He Hk Hm. rewrite unit_split by lia. pose proof (unit_pos e He).
  pose proof (Z.pow_pos_nonneg 2 k ltac:(lia) Hk).
  pose proof (Z.div_mod m (2 ^ k) ltac:(lia)). pose proof (Z.mod_pos_bound m (2 ^ k) ltac:(lia)).
  split; nia.
Qed.

Lemma round_aux_error s m e l K :
  -1000 <= K < 900 → 0 <= m → -2500 <= e <= K → m < 2 ^ (K - e) →
  let x := binary_round_aux fprec femax s m e l in
  regular x ∧ Z.abs (fval x - cond_Zopp s (m * unit_at e)) <= 2 * unit_at (Z.max e (K - 52)).
Proof.
  intros HK Hm He Hlt. unfold binary_round_aux.
  assert (∀ k d, d <= k → -1000 <= k → fexp fprec femax d <= k - 53) as Hf
    by (intros; unfold fexp, emin, fprec, femax; lia).
  assert (∀ d, -1074 <= fexp fprec femax d) as Hf'
    by (intros; unfold fexp, emin, fprec, femax; lia).
  pose proof (shr_fexp_spec m e l Hm) as H1.
  destruct (shr_fexp fprec femax m e l) as [r e1]. destruct H1 as (Hr & He1 & Hr1).
  pose proof (Zdigits2_bound m (K - e) ltac:(lia) ltac:(lia)) as Hd.
  pose proof (Hf K (Zdigits2 m + e) ltac:(lia) ltac:(lia)).
  pose proof (Hf' (Zdigits2 m + e)).
  assert (e <= e1 <= Z.max e (K - 53) ∧ -1074 <= e1) as [He1' He1''] by lia.
  set (m2 := round_nearest_even _ _).
  assert (shr_m r <= m2 <= shr_m r + 1) as Hm2 by by apply round_nearest_even_bound.
  pose proof (div_scale m e (e1 - e) ltac:(lia) ltac:(lia) Hm) as D1.
  replace (e + (e1 - e)) with e1 in D1 by lia. rewrite <- Hr1 in D1.
  assert (m2 < 2 ^ (K + 1 - e1)) as Hm2'.
  { assert (shr_m r < 2 ^ (K - e1)) as Hb.
    { rewrite Hr1. apply Z.div_lt_upper_bound; [apply Z.pow_pos_nonneg; lia|].
      rewrite <- Z.pow_add_r by lia. by replace (e1 - e + (K - e1)) with (K - e) by lia. }
    replace (K + 1 - e1) with (Z.succ (K - e1)) by lia. rewrite Z.pow_succ_r by lia. lia. }
  pose proof (shr_fexp_spec m2 e1 loc_Exact ltac:(lia)) as H2.
  destruct (shr_fexp fprec femax m2 e1 loc_Exact) as [r2 e2]. destruct H2 as (Hr2 & He2 & Hr3).
  pose proof (Zdigits2_bound m2 (K + 1 - e1) ltac:(lia) ltac:(lia)) as Hd2.
  pose proof (Hf (K + 1) (Zdigits2 m2 + e1) ltac:(lia) ltac:(lia)).
  assert (e1 <= e2 <= Z.max e (K - 52)) as He2' by lia.
  pose proof (div_scale m2 e1 (e2 - e1) ltac:(lia) ltac:(lia) ltac:(lia)) as D2.
  replace (e1 + (e2 - e1)) with e2 in D2 by lia. rewrite <- Hr3 in D2.
  pose proof (unit_mono e1 (Z.max e (K - 52)) ltac:(lia) ltac:(lia)) as U1.
  pose proof (unit_mono e2 (Z.max e (K - 52)) ltac:(lia) ltac:(lia)) as U2.
  pose proof (unit_pos e1 ltac:(lia)).
  assert (Z.abs (shr_m r2 * unit_at e2 - m * unit_at e) <= 2 * unit_at (Z.max e (K - 52))) as E by nia.
  destruct (shr_m r2) as [|p|p] eqn:Ep; [|
    destruct (Z.leb_spec e2 (femax - fprec)); [|unfold femax, fprec in *; lia]|lia].
  - split; [done|]. cbn [fval]. destruct s; cbn [cond_Zopp]; lia.
  - split; [cbn; lia|]. cbn [fval]. destruct s; cbn [cond_Zopp]; lia.
Qed.

(** ** Normalised results *)

Definition canonical (m e : Z) : Prop := e = fexp fprec femax (Zdigits2 m + e).

Definition normal (x : float) : Prop :=
  match x with S754_zero _ => True | S754_finite _ m e => canonical (Zpos m) e | _ => False end.

Lemma digits_bounds m : 0 < m → 2 ^ (Zdigits2 m - 1) <= m < 2 ^ Zdigits2 m ∧ 1 <= Zdigits2 m.
Proof.
  intros Hm. destruct m as [|p|p]; [lia| |lia]. cbn [Zdigits2]. rewrite digits2_log2.
  pose proof (Z.log2_spec (Zpos p) ltac:(lia)). pose proof (Z.log2_nonneg (Zpos p)).
  replace (Z.log2 (Zpos p) + 1 - 1) with (Z.log2 (Zpos p)) by lia.
  replace (Z.log2 (Zpos p) + 1) with (Z.succ (Z.log2 (Zpos p))) by lia. lia.
Qed.

Lemma digits_unique m d : 0 <= d → 2 ^ d <= m < 2 ^ (d + 1) → Zdigits2 m = d + 1.
Proof.
  intros Hd Hm. pose proof (Z.pow_pos_nonneg 2 d ltac:(lia) Hd).
  destruct m as [|p|p]; [lia| |lia]. cbn [Zdigits2]. rewrite digits2_log2. f_equal.
  apply Z.log2_unique; [done|]. by replace (Z.succ d) with (d + 1) by lia.
Qed.

Lemma canonical_bounds m e : 0 < m → canonical m e →
  m < 2 ^ 53 ∧ -1074 <= e ∧ (-1074 < e → 2 ^ 52 <= m).
Proof.
  intros Hm Hc. destruct (digits_bounds m Hm) as [Hd Hd1].
  unfold canonical, fexp, emin, fprec, femax in Hc.
  split; [pose proof (Z.pow_le_mono_r 2 (Zdigits2 m) 53); lia|]. split; [lia|].
  intros He. assert (Zdigits2 m = 53) as E by lia. rewrite E in Hd. lia.
Qed.

Lemma canonical_make m e :
  0 < m < 2 ^ 53 → -1074 <= e → (-1074 < e → 2 ^ 52 <= m) → canonical m e.
Proof.
  intros Hm He H. unfold canonical, fexp, emin, fprec, femax.
  destruct (digits_bounds m ltac:(lia)) as [Hd Hd1].
  assert (Zdigits2 m <= 53) by (apply Zdigits2_bound; lia).
  destruct (decide (e = -1074)) as [->|Hne]; [lia|].
  rewrite (digits_unique m 52); lia.
Qed.

Lemma round_aux_canonical s m e l K :
  -1000 <= K < 900 → 0 <= m → -2500 <= e <= K → m < 2 ^ (K - e) →
  e <= fexp fprec femax (Zdigits2 m + e) →
  normal (binary_round_aux fprec femax s m e l).
Proof.
  intros HK Hm He Hlt Hc. pose proof (round_aux_error s m e l K HK Hm He Hlt) as [Hreg _].
  revert Hreg. unfold binary_round_aux.
  pose proof (shr_fexp_spec m e l Hm) as H1.
  destruct (shr_fexp fprec femax m e l) as [r e1]. destruct H1 as (Hr & He1 & Hr1).
  assert (He1' : e1 = fexp fprec femax (Zdigits2 m + e)) by lia.
  assert (shr_m r < 2 ^ 53 ∧ -1074 <= e1 ∧ (-1074 < e1 → 2 ^ 52 <= shr_m r)) as (B1 & B2 & B3).
  { unfold fexp, emin, fprec, femax in He1'. rewrite Hr1.
    destruct (decide (m = 0)) as [->|Hne]; [rewrite Z.div_0_l by (pose proof (Z.pow_pos_nonneg 2 (e1 - e)); lia);
      cbn [Zdigits2] in He1'; lia|].
    destruct (digits_bounds m ltac:(lia)) as [Hd Hd1].
    pose proof (Z.pow_pos_nonneg 2 (e1 - e) ltac:(lia) ltac:(lia)) as Hp.
    split; [|split; [lia|intros H]].
    - apply Z.div_lt_upper_bound; [done|]. rewrite <- Z.pow_add_r by lia.
      pose proof (Z.pow_le_mono_r 2 (Zdigits2 m) (e1 - e + 53)). lia.
    - apply Z.div_le_lower_bound; [done|]. rewrite <- Z.pow_add_r by lia.
      replace (e1 - e + 52) with (Zdigits2 m - 1) by lia. lia. }
  set (m2 := round_nearest_even _ _).
  assert (shr_m r <= m2 <= shr_m r + 1) as Hm2 by by apply round_nearest_even_bound.
  pose proof (shr_fexp_spec m2 e1 loc_Exact ltac:(lia)) as H2.
  destruct (shr_fexp fprec femax m2 e1 loc_Exact) as [r2 e2]. destruct H2 as (Hr2 & He2 & Hr3).
  destruct (shr_m r2) as [|p|p] eqn:Ep; [done| |lia].
  destruct (e2 <=? femax - fprec); [|done]. intros _. cbn [normal].
  assert (0 < m2) as Hpos by (destruct (decide (m2 = 0)) as [E|]; [rewrite E, Z.div_0_l in Hr3 by
    (pose proof (Z.pow_pos_nonneg 2 (e2 - e1)); lia); done|lia]).
  destruct (decide (m2 = 2 ^ 53)) as [E|Hne].
  - rewrite E in He2, Hr3. change (Zdigits2 (2 ^ 53)) with 54 in He2.
    assert (e2 = e1 + 1) as E2 by (unfold fexp, emin, fprec, femax in He2; lia).
    rewrite Hr3, E2. replace (e1 + 1 - e1) with 1 by lia. change (2 ^ 53 / 2 ^ 1) with (2 ^ 52).
    apply canonical_make; lia.
  - assert (canonical m2 e1) as C by (apply canonical_make; lia).
    unfold canonical in C. rewrite <- C in He2. assert (e2 = e1) as -> by lia.
    rewrite Z.sub_diag, Z.div_1_r in Hr3. by rewrite Hr3.
Qed.

(** The order of normalised non-negative floats is that of their values. *)
Definition nonneg (x : float) : Prop :=
  match x with S754_zero s | S754_finite s _ _ => s = false | _ => False end.

Lemma flt_value x y :
  normal x → normal y → nonneg x → nonneg y → flt x y = true ↔ fval x < fval y.
Proof.
  unfold flt, SFltb.
  assert (∀ m e, canonical (Zpos m) e → 0 < Zpos m * unit_at e) as Hp.
  { intros m e C. destruct (canonical_bounds _ _ (Pos2Z.is_pos m) C) as (_ & ? & _).
    pose proof (unit_pos e). lia. }
  assert (∀ m1 e1 m2 e2, canonical (Zpos m1) e1 → canonical (Zpos m2) e2 → e1 < e2 →
    Zpos m1 * unit_at e1 < Zpos m2 * unit_at e2) as Ho.
  { intros m1 e1 m2 e2 C1 C2 He.
    destruct (canonical_bounds _ _ (Pos2Z.is_pos m1) C1) as (B1 & L1 & _).
    destruct (canonical_bounds _ _ (Pos2Z.is_pos m2) C2) as (_ & _ & B2).
    pose proof (unit_pos e1 ltac:(lia)).
    pose proof (unit_mono (e1 + 1) e2 ltac:(lia) ltac:(lia)).
    rewrite unit_split in * by lia. specialize (B2 ltac:(lia)).
    change (2 ^ 1) with 2 in *. change (2 ^ 53) with (2 * 2 ^ 52) in *. nia. }
  destruct x as [sx| | |sx mx ex], y as [sy| | |sy my ey]; try done; cbn [normal nonneg fval SFcompare];
    intros C1 C2 N1 N2; subst; cbn [cond_Zopp].
  - split; [intros _; by apply Hp|done].
  - split; [done|]. specialize (Hp _ _ C1). lia.
  - destruct (Z.compare_spec ex ey) as [->|L|L].
    + change (Pos.compare_cont Eq mx my) with (Pos.compare mx my).
      destruct (canonical_bounds _ _ (Pos2Z.is_pos mx) C1) as (_ & ? & _).
      pose proof (unit_pos ey ltac:(lia)).
      destruct (Pos.compare_spec mx my) as [->|L|L]; split; try done; try lia; nia.
    + split; [intros _; by apply Ho|done].
    + split; [done|]. specialize (Ho _ _ _ _ C2 C1 L). lia.
Qed.

(** ** Subtraction *)

Lemma iter_xO p d : Zpos (Pos.iter xO p d) = Zpos p * 2 ^ Zpos d.
Proof.
  revert p. induction d as [|d IH] using Pos.peano_ind; intros p; [cbn; lia|].
  rewrite Pos.iter_succ, Pos2Z.inj_succ, Z.pow_succ_r, Pos2Z.inj_xO, IH by lia. lia.
Qed.

Lemma shl_align_value m e e' :
  -3000 <= e' →
  let '(m', e'') := shl_align m e e' in
  e'' = Z.min e e' ∧ Zpos m' = Zpos m * 2 ^ (e - e'')
  ∧ (-3000 <= e → Zpos m' * unit_at e'' = Zpos m * unit_at e).
Proof.
  intros He'. unfold shl_align. destruct (e' - e) as [|d|d] eqn:E.
  1,2: split; [lia|]; rewrite Z.sub_diag; split; [lia|done].
  split; [lia|]. rewrite iter_xO. replace (e - e') with (Zpos d) by lia. split; [done|].
  intros He. replace e with (e' + Zpos d) by lia. rewrite unit_split by lia. ring.
Qed.

Lemma digits_shift m k : 0 < m → 0 <= k → Zdigits2 (m * 2 ^ k) = Zdigits2 m + k.
Proof.
  intros Hm Hk. destruct (digits_bounds m Hm) as [Hd Hd1].
  replace (Zdigits2 m + k) with (Zdigits2 m - 1 + k + 1) by lia. apply digits_unique; [lia|].
  replace (Zdigits2 m - 1 + k + 1) with (Zdigits2 m + k) by lia.
  rewrite !Z.pow_add_r by lia. pose proof (Z.pow_pos_nonneg 2 k ltac:(lia) Hk). nia.
Qed.

Lemma binary_round_error s p e K :
  -900 <= K < 900 → -1074 <= e → Zpos p * unit_at e < unit_at K →
  let x := binary_round fprec femax s p e in
  normal x ∧ Z.abs (fval x - cond_Zopp s (Zpos p * unit_at e)) <= 2 * unit_at (K - 52).
Proof.
  intros HK He Hlt. unfold binary_round.
  set (f := fexp fprec femax (Zpos (digits2_pos p) + e)).
  assert (-1074 <= f) as Hf by (unfold f, fexp, emin, fprec, femax; lia).
  pose proof (shl_align_value p e f ltac:(lia)) as H. destruct (shl_align p e f) as [mz ez].
  destruct H as (Hez & Hm & Hv). specialize (Hv ltac:(lia)).
  assert (Zdigits2 (Zpos mz) + ez = Zpos (digits2_pos p) + e) as Hd
    by (rewrite Hm, digits_shift by lia; cbn [Zdigits2]; lia).
  assert (e < K) as HeK.
  { destruct (Z.lt_ge_cases e K) as [|Hge]; [done|]. pose proof (unit_mono K e ltac:(lia) Hge).
    pose proof (unit_pos e ltac:(lia)). nia. }
  assert (Zpos mz < 2 ^ (K - ez)) as Hmz.
  { rewrite <- Hv in Hlt. replace K with (ez + (K - ez)) in Hlt by lia.
    rewrite unit_split in Hlt by lia. pose proof (unit_pos ez ltac:(lia)). nia. }
  pose proof (Zdigits2_bound (Zpos mz) (K - ez) ltac:(lia) ltac:(lia)) as HdK.
  assert (f <= Z.max (K - 53) (-1074)) as HfK
    by (unfold f, fexp, emin, fprec, femax; lia).
  split.
  - apply (round_aux_canonical _ _ _ _ K); try lia. rewrite Hd. fold f. lia.
  - destruct (round_aux_error s (Zpos mz) ez loc_Exact K) as [_ E]; try lia.
    rewrite Hv in E. replace (Z.max ez (K - 52)) with (K - 52) in E by lia. exact E.
Qed.

Lemma normal_exponent s m e : normal (S754_finite s m e) → -1074 <= e.
Proof. intros C. by destruct (canonical_bounds _ _ (Pos2Z.is_pos m) C) as (_ & ? & _). Qed.

Lemma fsub_error x y K :
  -900 <= K < 900 → normal x → normal y → Z.abs (fval x - fval y) < unit_at K →
  normal (fsub x y) ∧ Z.abs (fval (fsub x y) - (fval x - fval y)) <= 2 * unit_at (K - 52).
Proof.
  intros HK Nx Ny Hlt. pose proof (unit_pos (K - 52) ltac:(lia)) as Hu. unfold fsub.
  destruct x as [sx| | |sx mx ex], y as [sy| | |sy my ey]; try done; cbn [SFsub fval].
  - by destruct sx, sy; split; try done; cbn; lia.
  - split; [done|]. destruct sy; cbn [negb fval cond_Zopp]; lia.
  - split; [done|]. cbn [fval]. lia.
  - pose proof (normal_exponent _ _ _ Nx). pose proof (normal_exponent _ _ _ Ny).
    set (ez := Z.min ex ey).
    pose proof (shl_align_value mx ex ez ltac:(lia)) as Hx.
    pose proof (shl_align_value my ey ez ltac:(lia)) as Hy.
    destruct (shl_align mx ex ez) as [mx' ex'], (shl_align my ey ez) as [my' ey']. cbn [fst].
    destruct Hx as (Ex & _ & Vx), Hy as (Ey & _ & Vy).
    replace ex' with ez in * by lia. replace ey' with ez in * by lia.
    specialize (Vx ltac:(lia)). specialize (Vy ltac:(lia)). cbn [fval] in Hlt.
    set (z := cond_Zopp sx (Zpos mx') - cond_Zopp sy (Zpos my')).
    assert (z * unit_at ez = cond_Zopp sx (Zpos mx * unit_at ex) - cond_Zopp sy (Zpos my * unit_at ey)) as Ez
      by (unfold z; rewrite <- Vx, <- Vy; destruct sx, sy; cbn [cond_Zopp]; ring).
    rewrite <- Ez in *. unfold binary_normalize. pose proof (unit_pos ez ltac:(lia)).
    destruct z as [|p|p] eqn:E; [split; [done|]; cbn; lia| |].
    + destruct (binary_round_error false p ez K HK ltac:(lia)) as [N B]; [lia|].
      split; [exact N|]. exact B.
    + destruct (binary_round_error true p ez K HK ltac:(lia)) as [N B]; [lia|].
      split; [exact N|]. cbn [cond_Zopp] in B. lia.
Qed.

(** ** Tenths

    [near a x j]: [x] is within [a * 2 ^ -39] of [j / 10], scaled by ten. *)

Definition tenth (j : Z) : float := of_ratio false j 10.

Definition near (a : Z) (x : float) (j : Z) : Prop :=
  normal x ∧ Z.abs (10 * fval x - j * unit_at 0) <= a * unit_at (-39).

Lemma unit_0_39 : unit_at 0 = unit_at (-39) * 2 ^ 39.
Proof. rewrite <- unit_split by lia. done. Qed.

Lemma near_sub a b x y i j :
  near a x i → near b y j → Z.abs (i - j) <= 1000 → 0 <= a <= 100 → 0 <= b <= 100 →
  near (a + b + 1) (fsub x y) (i - j).
Proof.
  intros [Nx Ex] [Ny Ey] Hij Ha Hb. pose proof (unit_pos (-39) ltac:(lia)) as Hu.
  pose proof unit_0_39 as H0. assert (unit_at 8 = unit_at (-39) * 2 ^ 47) as H8 by by rewrite <- unit_split by lia.
  assert (unit_at (-39) = unit_at (-44) * 2 ^ 5) as H44 by by rewrite <- unit_split by lia.
  destruct (fsub_error x y 8) as [N E]; [lia|done..| |].
  - rewrite H0 in Ex, Ey. rewrite H8. nia.
  - split; [exact N|]. change (8 - 52) with (-44) in E. rewrite H0 in *. nia.
Qed.

Lemma near_max a x j :
  near a x j → 0 <= j → near a (fmax2 (of_Z 0) x) j ∧ nonneg (fmax2 (of_Z 0) x).
Proof.
  intros [N E] Hj. unfold fmax2, fgt. change (of_Z 0) with (S754_zero false).
  pose proof (unit_pos 0 ltac:(lia)) as Hu.
  destruct x as [s| | |[|] m e]; try done; cbn; try (split; [split; [done|]|done]).
  cbn [fval cond_Zopp] in *. pose proof (normal_exponent _ _ _ N).
  pose proof (unit_pos e ltac:(lia)). nia.
Qed.

Lemma div_half_even_near num den j :
  0 < den → 2 * Z.abs (num - j * den) < den → div_half_even num den = j.
Proof.
  intros Hd Hn. unfold div_half_even.
  pose proof (Z.div_mod num den ltac:(lia)) as D. pose proof (Z.mod_pos_bound num den Hd) as M.
  set (q := num / den) in *. set (r := num mod den) in *.
  assert (E : num - j * den = (q - j) * den + r) by (rewrite D; ring). rewrite E in Hn.
  assert (q - j = 0 ∨ q - j = -1 ∨ 1 <= q - j ∨ q - j <= -2) as [H|[H|[H|H]]] by lia; [| |nia|nia].
  - rewrite H in Hn. destruct (Z.compare_spec (2 * r) den); lia.
  - rewrite H in Hn. destruct (Z.compare_spec (2 * r) den); lia.
Qed.

Lemma scaled_round_near num e j :
  -3000 <= e → 2 * Z.abs (num * unit_at e - j * unit_at 0) < unit_at 0 → scaled_round num e = j.
Proof.
  intros He Hn. unfold scaled_round. destruct (Z.leb_spec 0 e) as [H|H].
  - replace e with (0 + e) in Hn by lia. rewrite unit_split in Hn by lia.
    pose proof (unit_pos 0 ltac:(lia)). nia.
  - apply div_half_even_near; [apply Z.pow_pos_nonneg; lia|].
    replace 0 with (e + - e) in Hn by lia. rewrite !unit_split in Hn by lia.
    pose proof (unit_pos e ltac:(lia)). nia.
Qed.

Lemma round_near a x j :
  near a x j → nonneg x → a <= 100 → 0 <= j → py_round_nd 1 x = tenth j.
Proof.
  intros [N E] Hn Ha Hj. pose proof (unit_pos (-39) ltac:(lia)) as Hu.
  pose proof unit_0_39 as H0.
  destruct x as [s| | |s m e]; [|destruct Hn|destruct Hn|]; cbn in Hn; subst s.
  - cbn [fval] in E. assert (j = 0) as -> by nia. reflexivity.
  - cbn [py_round_nd]. unfold tenth. change (Z.to_pos (10 ^ Z.of_nat 1)) with 10%positive.
    change (10 ^ Z.of_nat 1) with 10. rewrite (scaled_round_near _ _ j); [done| |].
    + pose proof (normal_exponent _ _ _ N). lia.
    + cbn [fval cond_Zopp] in E. rewrite H0 in *. nia.
Qed.

(** The floats of the thousand tenths, checked one by one in units of [2^-60] *)
Definition tenth_ok (j : Z) : bool :=
  match tenth j with
  | S754_zero false => j =? 0
  | S754_finite false m e =>
      (e =? fexp fprec femax (Zdigits2 (Zpos m) + e)) && (-60 <=? e)
      && (Z.abs (10 * (Zpos m * 2 ^ (e + 60)) - j * 2 ^ 60) <=? 2 ^ 21)
  | _ => false
  end.

Lemma tenths_ok j : 0 <= j <= 1000 → tenth_ok j = true.
Proof.
  intros Hj. assert (forallb (λ n, tenth_ok (Z.of_nat n)) (seq 0 1001) = true) as H
    by (vm_compute; reflexivity).
  rewrite forallb_forall in H. specialize (H (Z.to_nat j)).
  rewrite Z2Nat.id in H by lia. apply H, in_seq. lia.
Qed.

Lemma near_tenth j : 0 <= j <= 1000 → near 1 (tenth j) j ∧ nonneg (tenth j).
Proof.
  intros Hj. pose proof (tenths_ok j Hj) as H. unfold tenth_ok in H. unfold near.
  pose proof (unit_pos (-60) ltac:(lia)) as U. pose proof (unit_pos (-39) ltac:(lia)).
  destruct (tenth j) as [[|]| | |[|] m e]; try done.
  - apply Z.eqb_eq in H as ->. split; [|done]. split; [done|]. cbn [fval]. lia.
  - rewrite !andb_true_iff in H. destruct H as [[H1 H2] H3].
    apply Z.eqb_eq in H1. apply Z.leb_le in H2, H3. split; [|done]. split; [exact H1|].
    cbn [fval cond_Zopp].
    assert (unit_at e = unit_at (-60) * 2 ^ (e + 60)) as ->
      by (rewrite <- unit_split by lia; f_equal; lia).
    assert (unit_at 0 = unit_at (-60) * 2 ^ 60) as -> by (by rewrite <- unit_split by lia).
    assert (unit_at (-39) = unit_at (-60) * 2 ^ 21) as -> by (by rewrite <- unit_split by lia).
    replace (10 * (Zpos m * (unit_at (-60) * 2 ^ (e + 60))) - j * (unit_at (-60) * 2 ^ 60))
      with (unit_at (-60) * (10 * (Zpos m * 2 ^ (e + 60)) - j * 2 ^ 60)) by ring.
    rewrite Z.abs_mul, (Z.abs_eq (unit_at (-60))) by lia. nia.
Qed.

(** Clipping to what is left of the bar is [Z.min] on tenths. *)
Lemma clip_tenths a room jr c :
  near a room jr → 0 <= a <= 50 → 0 <= jr <= 1000 → 0 <= c <= 1000 →
  py_round_nd 1 (fmin2 (fmax2 (of_Z 0) room) (tenth c)) = tenth (Z.min c jr).
Proof.
  intros Hr Ha Hj Hc. destruct (near_max a room jr Hr) as [Nr Pr]; [lia|].
  destruct (near_tenth c Hc) as [Nc Pc]. unfold fmin2.
  pose proof (unit_pos (-39) ltac:(lia)) as Hu. pose proof unit_0_39 as H0.
  pose proof (flt_value _ _ (proj1 Nc) (proj1 Nr) Pc Pr) as V.
  destruct (flt (tenth c) _) eqn:F.
  - rewrite (round_near 1 _ c) by (assumption || lia). f_equal.
    assert (fval (tenth c) < fval (fmax2 (of_Z 0) room)) by by apply V.
    destruct Nc as [_ Ec], Nr as [_ Er]. rewrite H0 in *. nia.
  - rewrite (round_near a _ jr) by (assumption || lia). f_equal.
    assert (¬ fval (tenth c) < fval (fmax2 (of_Z 0) room)) by (rewrite <- V; congruence).
    destruct Nc as [_ Ec], Nr as [_ Er]. rewrite H0 in *. nia.
Qed.

(** ** Percentages *)

Lemma round_aux_sign s m e l K :
  -1000 <= K < 900 → 0 <= m → -2500 <= e <= K → m < 2 ^ (K - e) →
  match binary_round_aux fprec femax s m e l with
  | S754_zero s' | S754_finite s' _ _ => s' = s
  | _ => False
  end.
Proof.
  intros HK Hm He Hlt. destruct (round_aux_error s m e l K HK Hm He Hlt) as [Hr _]. revert Hr.
  unfold binary_round_aux. destruct (shr_fexp _ _ _ _ _) as [r1 e1].
  destruct (shr_fexp _ _ _ _ _) as [r2 e2]. destruct (shr_m r2); [done| |done].
  by destruct (_ <=? _).
Qed.

(** A ratio of at most one *)
Lemma ratio_error n p :
  0 < Zpos n <= Zpos p →
  let x := of_ratio false (Zpos n) p in
  regular x ∧ nonneg x ∧ Z.abs (Zpos p * fval x - Zpos n * unit_at 0) <= Zpos p * unit_at (-49).
Proof.
  intros Hnp. unfold of_ratio, SFdiv_core_binary.
  set (d1 := Zdigits2 (Zpos n)). set (d2 := Zdigits2 (Zpos p)).
  assert (d1 <= d2) as Hd.
  { apply Zdigits2_bound; [unfold d2; cbn [Zdigits2]; lia|].
    destruct (digits_bounds (Zpos p) ltac:(lia)) as [Hb _]. fold d2 in Hb. lia. }
  set (e' := Z.min _ _).
  assert (-1074 <= e' <= -53) as He' by (unfold e', fexp, emin, fprec, femax; lia).
  replace (0 - 0 - e') with (- e') by lia.
  assert (match - e' with Z0 => Zpos n | Zpos _ => Z.shiftl (Zpos n) (- e') | Zneg _ => 0 end
    = Zpos n * 2 ^ (- e')) as -> by (destruct (- e') eqn:E; [lia|by rewrite Z.shiftl_mul_pow2|lia]).
  pose proof (Z_div_mod (Zpos n * 2 ^ (- e')) (Zpos p) ltac:(lia)) as D.
  destruct (Z.div_eucl _ _) as [q r]. destruct D as [D Hr].
  pose proof (Z.pow_pos_nonneg 2 (- e') ltac:(lia) ltac:(lia)) as Hs.
  assert (0 <= q <= 2 ^ (- e')) as Hq by nia.
  assert (q < 2 ^ (1 - e')) as Hq'
    by (replace (1 - e') with (Z.succ (- e')) by lia; rewrite Z.pow_succ_r by lia; lia).
  set (l := new_location _ _).
  pose proof (round_aux_sign false q e' l 1 ltac:(lia) ltac:(lia) ltac:(lia) Hq') as Sg.
  pose proof (round_aux_error false q e' l 1 ltac:(lia) ltac:(lia) ltac:(lia) Hq') as [Rg Er].
  split; [exact Rg|]. split; [destruct (binary_round_aux _ _ _ _ _ _); exact Sg|].
  cbn [cond_Zopp] in Er. set (v := fval _) in *.
  assert (unit_at 0 = unit_at e' * 2 ^ (- e')) as H0 by (rewrite <- unit_split by lia; f_equal; lia).
  pose proof (unit_mono (Z.max e' (1 - 52)) (-51) ltac:(lia) ltac:(lia)).
  pose proof (unit_mono e' (-53) ltac:(lia) ltac:(lia)).
  assert (unit_at (-49) = unit_at (-51) * 2 ^ 2) as H49 by by rewrite <- unit_split by lia.
  assert (unit_at (-51) = unit_at (-53) * 2 ^ 2) as H51 by by rewrite <- unit_split by lia.
  pose proof (unit_pos e' ltac:(lia)). pose proof (unit_pos (-53) ltac:(lia)).
  assert (Zpos n * unit_at 0 = Zpos p * (q * unit_at e') + r * unit_at e') as -> by (rewrite H0; nia).
  assert (0 <= r * unit_at e' < Zpos p * unit_at e') by nia.
  assert (Z.abs (v - q * unit_at e') <= 2 * unit_at (-51)) as Ev by lia.
  assert (Z.abs (Zpos p * v - Zpos p * (q * unit_at e')) <= Zpos p * (2 * unit_at (-51))) by nia.
  nia.
Qed.

Lemma scaled_round_close num e :
  -3000 <= e → 2 * Z.abs (scaled_round num e * unit_at 0 - num * unit_at e) <= unit_at 0.
Proof.
  intros He. unfold scaled_round. pose proof (unit_pos e He). destruct (Z.leb_spec 0 e) as [H'|H'].
  - replace (unit_at e) with (unit_at (0 + e)) by (f_equal; lia).
    rewrite unit_split by lia. pose proof (unit_pos 0 ltac:(lia)).
    replace (num * 2 ^ e * unit_at 0 - num * (unit_at 0 * 2 ^ e)) with 0 by ring. cbn. lia.
  - set (den := 2 ^ (- e)). assert (0 < den) as Hd by (apply Z.pow_pos_nonneg; lia).
    assert (unit_at 0 = unit_at e * den) as -> by (unfold den; rewrite <- unit_split by lia; f_equal; lia).
    replace (div_half_even num den * (unit_at e * den) - num * unit_at e)
      with (unit_at e * (div_half_even num den * den - num)) by ring.
    assert (2 * Z.abs (div_half_even num den * den - num) <= den); [|nia].
    unfold div_half_even. pose proof (Z.div_mod num den ltac:(lia)) as D.
    pose proof (Z.mod_pos_bound num den Hd) as M. set (q := num / den) in *. set (r := num mod den) in *.
    destruct (Z.compare_spec (2 * r) den); [destruct (Z.even q)|..]; nia.
Qed.

Lemma abs_scale p a b c : 0 <= p → Z.abs (a - b) <= c → Z.abs (p * a - p * b) <= p * c.
Proof. intros. rewrite <- Z.mul_sub_distr_l, Z.abs_mul, (Z.abs_eq p) by done. nia. Qed.

(** The hundredfold of a ratio of at most one, rounded to a tenth *)
Lemma percent_tenth n p :
  0 < Zpos n <= Zpos p →
  ∃ k, py_round_nd 1 (fmax2 (of_Z 0) (fmul (of_ratio false (Zpos n) p) (of_Z 100))) = tenth k
    ∧ 0 <= k <= 1000 ∧ 1000 * Z.abs (k * Zpos p - 1000 * Zpos n) <= 501 * Zpos p.
Proof.
  intros Hnp. destruct (ratio_error n p Hnp) as (Rx & Px & Ex). set (x := of_ratio false _ p) in *.
  assert (of_Z 100 = S754_finite false 7036874417766400 (-46)) as -> by by vm_compute.
  pose proof (unit_pos 0 ltac:(lia)) as U0. pose proof (unit_pos (-44) ltac:(lia)) as U44.
  assert (unit_at 0 = unit_at (-44) * 2 ^ 44) as H0 by by rewrite <- unit_split by lia.
  assert (unit_at (-44) = unit_at (-49) * 2 ^ 5) as H49 by by rewrite <- unit_split by lia.
  assert (0 <= fval x <= 2 * unit_at 0) as Bx.
  { assert (0 <= fval x) by (destruct x as [| | |[|] m e];
      [cbn [fval]; lia|destruct Px|destruct Px|discriminate Px|];
      cbn [fval cond_Zopp]; cbn in Rx; pose proof (unit_pos e); nia).
    split; [assumption|]. nia. }
  assert (∃ y, fmul x (S754_finite false 7036874417766400 (-46)) = y ∧ nonneg y ∧ regular y
    ∧ Z.abs (fval y - 100 * fval x) <= 2 * unit_at (-44)) as (y & -> & Py & Ry & Ey).
  { eexists. split; [reflexivity|]. destruct x as [s| | |s m e]; [|destruct Px|destruct Px|]; cbn in Px; subst s.
    - split; [reflexivity|]. split; [exact I|]. unfold fmul. cbn [SFmul xorb fval]. lia.
    - cbn [regular] in Rx. cbn [fval cond_Zopp] in Bx |- *. unfold fmul. cbn [SFmul xorb].
      assert (e <= 1) as He.
      { destruct (Z.le_gt_cases e 1) as [|Hgt]; [done|].
        pose proof (unit_mono (0 + 2) e ltac:(lia) ltac:(lia)). rewrite unit_split in * by lia. nia. }
      assert (Zpos (m * 7036874417766400) * unit_at (e + -46) = 100 * (Zpos m * unit_at e)) as Em.
      { assert (unit_at e = unit_at (e + -46) * 2 ^ 46) as ->
          by (rewrite <- unit_split by lia; f_equal; lia).
        rewrite Pos2Z.inj_mul. ring. }
      assert (Zpos (m * 7036874417766400) < 2 ^ (8 - (e + -46))) as Hlt.
      { pose proof (unit_pos (e + -46) ltac:(lia)).
        assert (unit_at 0 * 2 ^ 8 = unit_at (e + -46) * 2 ^ (8 - (e + -46))) as E8.
        { rewrite <- !unit_split by lia. f_equal. lia. }
        nia. }
      pose proof (round_aux_sign false (Zpos (m * 7036874417766400)) (e + -46) loc_Exact 8
        ltac:(lia) ltac:(lia) ltac:(lia) Hlt) as Sg.
      destruct (round_aux_error false (Zpos (m * 7036874417766400)) (e + -46) loc_Exact 8
        ltac:(lia) ltac:(lia) ltac:(lia) Hlt) as [Rg Er].
      split; [destruct (binary_round_aux _ _ _ _ _ _); exact Sg|]. split; [exact Rg|].
      cbn [cond_Zopp] in Er. rewrite Em in Er.
      replace (Z.max (e + -46) (8 - 52)) with (-44) in Er by lia. exact Er. }
  assert (∃ k, py_round_nd 1 (fmax2 (of_Z 0) y) = tenth k ∧ 0 <= k
    ∧ 2 * Z.abs (k * unit_at 0 - 10 * fval y) <= unit_at 0) as (k & Hk & Hk0 & Ek).
  { destruct y as [s| | |s m e]; [|destruct Py|destruct Py|]; cbn in Py; subst s.
    - exists 0. split; [reflexivity|]. split; [lia|]. cbn [fval]. lia.
    - cbn in Ry. exists (scaled_round (Zpos m * 10) e). split; [reflexivity|].
      pose proof (scaled_round_close (Zpos m * 10) e ltac:(lia)) as C. pose proof (unit_pos e ltac:(lia)).
      split; [nia|]. cbn [fval cond_Zopp].
      by replace (10 * (Zpos m * unit_at e)) with (Zpos m * 10 * unit_at e) by ring. }
  exists k. split; [exact Hk|].
  pose proof (abs_scale (Zpos p) (10 * fval y) (1000 * fval x) (20 * unit_at (-44)) ltac:(lia) ltac:(lia)) as A1.
  pose proof (abs_scale (Zpos p) (2 * (k * unit_at 0)) (2 * (10 * fval y)) (unit_at 0) ltac:(lia) ltac:(lia)) as A2.
  set (w := unit_at (-49)) in *. rewrite H49 in *. rewrite H0 in *.
  set (P := Zpos p) in *. set (N := Zpos n) in *. set (X := fval x) in *. set (Y := fval y) in *.
  assert (2 * Z.abs (k * P - 1000 * N) * 2 ^ 44 <= P * 2 ^ 44 + P * 2 ^ 8) as G.
  { apply (Z.mul_le_mono_pos_r _ _ w); [lia|].
    replace (2 * Z.abs (k * P - 1000 * N) * 2 ^ 44 * w) with (2 * Z.abs (k * (P * w) * 2 ^ 44 - 1000 * (N * w) * 2 ^ 44)).
    2: { replace (k * (P * w) * 2 ^ 44 - 1000 * (N * w) * 2 ^ 44) with ((k * P - 1000 * N) * (2 ^ 44 * w)) by ring.
         rewrite Z.abs_mul, (Z.abs_eq (2 ^ 44 * w)) by lia. ring. }
    lia. }
  split; [|lia]. split; [exact Hk0|]. destruct (Z.le_gt_cases k 1000) as [|Hgt]; [assumption|].
  pose proof (Z.mul_le_mono_nonneg_r 1001 k P ltac:(lia) ltac:(lia)). lia.
Qed.

(** ** Rounding does not pass an integer

    A float operation whose exact result is at most an integer below [2 ^ 53] returns at
    most that integer: binary64 holds the integer, and rounding is to nearest.  From this,
    the utilisation formula of the CPU never asks for more cores than the host has while
    the utilisation is under its threshold. *)

(** ** Inexact shifts *)

Lemma shr_iter_exact n m :
  0 <= m → (2 ^ Z.of_nat n | m) →
  loc_of_shr_record (Nat.iter n shr_1 {| shr_m := m; shr_r := false; shr_s := false |}) = loc_Exact.
Proof.
  intros Hm [q ->].
  assert (Nat.iter n shr_1 {| shr_m := q * 2 ^ Z.of_nat n; shr_r := false; shr_s := false |}
          = {| shr_m := q; shr_r := false; shr_s := false |}) as ->; [|done].
  clear Hm. revert q. induction n as [|n IH]; intros q; [cbn; by rewrite Z.mul_1_r|].
  rewrite Nat.iter_succ. replace (q * 2 ^ Z.of_nat (S n)) with (2 * q * 2 ^ Z.of_nat n)
    by (rewrite Nat2Z.inj_succ, Z.pow_succ_r by lia; ring).
  rewrite IH. by destruct q.
Qed.

(** What one alignment leaves, rounded: the quotient, or one more when something was lost *)
Lemma shr_fexp_round m e l :
  0 <= m →
  let '(r, e') := shr_fexp fprec femax m e l in
  let q := m / 2 ^ (e' - e) in
  let m2 := round_nearest_even (shr_m r) (loc_of_shr_record r) in
  m2 = q ∨ m2 = q + 1 ∧ (l ≠ loc_Exact ∨ q * 2 ^ (e' - e) < m).
Proof.
  intros Hm. pose proof (shr_fexp_spec m e l Hm) as S.
  assert (l = loc_Exact → let '(r, e') := shr_fexp fprec femax m e l in
    (2 ^ (e' - e) | m) → loc_of_shr_record r = loc_Exact) as X.
  { intros ->. unfold shr_fexp, shr. destruct (fexp _ _ _ - e) as [|p|p]; [done| |done].
    rewrite iter_pos_plus. intros D. apply shr_iter_exact; [done|]. rewrite positive_nat_Z.
    by replace (Zpos p) with (e + Zpos p - e) by lia. }
  destruct (shr_fexp fprec femax m e l) as [r e']. destruct S as (Hr & He & Hq). cbn zeta.
  rewrite <- Hq. pose proof (round_nearest_even_bound (shr_m r) (loc_of_shr_record r) Hr) as B.
  destruct (decide (round_nearest_even (shr_m r) (loc_of_shr_record r) = shr_m r)) as [|Hne]; [by left|right].
  split; [lia|]. destruct l; [right|by left].
  pose proof (Z.pow_pos_nonneg 2 (e' - e) ltac:(lia) ltac:(lia)) as P.
  pose proof (Z.div_mod m (2 ^ (e' - e)) ltac:(lia)) as D.
  pose proof (Z.mod_pos_bound m (2 ^ (e' - e)) P) as M. rewrite <- Hq in D.
  destruct (decide (m mod 2 ^ (e' - e) = 0)) as [Z0|]; [|lia].
  destruct Hne. rewrite X; [done|done|]. by apply Z.mod_divide; [lia|].
Qed.

(** ** Under an integer *)

(** A non-negative finite float of value at most [N] *)
Definition at_most (N : Z) (x : float) : Prop :=
  regular x ∧ nonneg x ∧ fval x <= N * unit_at 0.

Lemma scaled m e N : -3000 <= e <= 0 →
  (m * unit_at e <= N * unit_at 0 ↔ m <= N * 2 ^ (- e)) ∧ (m * unit_at e < N * unit_at 0 ↔ m < N * 2 ^ (- e)).
Proof.
  intros He. pose proof (unit_pos e ltac:(lia)) as U.
  assert (N * unit_at 0 = N * 2 ^ (- e) * unit_at e) as ->.
  { rewrite <- Z.mul_assoc, (Z.mul_comm (2 ^ _)), <- unit_split by lia. do 2 f_equal. lia. }
  by rewrite <- Z.mul_le_mono_pos_r, <- Z.mul_lt_mono_pos_r.
Qed.

Lemma digits_at_most m e N : 0 <= m → -3000 <= e <= 0 → 0 <= N < 2 ^ 53 → m * unit_at e <= N * unit_at 0 →
  m <= N * 2 ^ (- e) ∧ Zdigits2 m + e <= 53.
Proof.
  intros Hm He HN H. pose proof (Z.pow_pos_nonneg 2 (- e) ltac:(lia) ltac:(lia)).
  assert (m <= N * 2 ^ (- e)) as B by by apply scaled. split; [done|].
  enough (Zdigits2 m <= 53 - e) by lia. apply Zdigits2_bound; [lia|].
  replace (53 - e) with (53 + - e) by lia. rewrite Z.pow_add_r by lia. nia.
Qed.

Lemma round_aux_at_most m e l N :
  0 <= m → -2500 <= e <= 0 → 0 <= N < 2 ^ 53 → m * unit_at e <= N * unit_at 0 →
  (l ≠ loc_Exact → m * unit_at e < N * unit_at 0) →
  at_most N (binary_round_aux fprec femax false m e l).
Proof.
  intros Hm He HN H Hl. destruct (digits_at_most m e N Hm ltac:(lia) HN H) as [B D].
  assert (∀ d, d <= 53 → -1074 <= fexp fprec femax d <= 0) as F by (intros; unfold fexp, emin, fprec, femax; lia).
  unfold binary_round_aux. pose proof (shr_fexp_spec m e l Hm) as S1. pose proof (shr_fexp_round m e l Hm) as R1.
  destruct (shr_fexp fprec femax m e l) as [r e1]. destruct S1 as (Hr & He1 & Hq). cbn zeta in R1.
  pose proof (F _ D) as F1. set (m2 := round_nearest_even _ _) in *.
  pose proof (round_nearest_even_bound (shr_m r) (loc_of_shr_record r) Hr) as Hm2. fold m2 in Hm2.
  set (k := e1 - e) in *. assert (0 <= k) as Hk by lia.
  pose proof (Z.pow_pos_nonneg 2 k ltac:(lia) Hk) as Pk.
  assert (2 ^ (- e) = 2 ^ (- e1) * 2 ^ k) as Ek by (rewrite <- Z.pow_add_r by lia; f_equal; lia).
  assert (m2 <= N * 2 ^ (- e1)) as B2.
  { pose proof (Z.mul_div_le m (2 ^ k) Pk). destruct R1 as [->|[-> R1]]; [nia|].
    enough (m / 2 ^ k < N * 2 ^ (- e1)) by lia. destruct R1 as [R1|R1]; [|nia].
    apply Hl, scaled in R1; [|lia]. nia. }
  assert (m2 * unit_at e1 <= N * unit_at 0) as B3 by (apply scaled; [lia|done]).
  destruct (digits_at_most m2 e1 N ltac:(lia) ltac:(lia) HN B3) as [_ D2].
  pose proof (shr_fexp_spec m2 e1 loc_Exact ltac:(lia)) as S2. pose proof (F _ D2) as F2.
  destruct (shr_fexp fprec femax m2 e1 loc_Exact) as [r2 e2]. destruct S2 as (Hr2 & He2 & Hq2).
  pose proof (div_scale m2 e1 (e2 - e1) ltac:(lia) ltac:(lia) ltac:(lia)) as D3.
  replace (e1 + (e2 - e1)) with e2 in D3 by lia. rewrite <- Hq2 in D3. unfold at_most.
  destruct (shr_m r2) as [|p|p]; [| |lia].
  - split; [done|]. split; [done|]. cbn [fval]. pose proof (unit_pos 0 ltac:(lia)). nia.
  - destruct (Z.leb_spec e2 (femax - fprec)); [|unfold femax, fprec in *; lia].
    split; [cbn; lia|]. split; [done|]. cbn [fval cond_Zopp]. lia.
Qed.

Lemma py_ceil_at_most N x : at_most N x → 0 <= N → ∃ z, py_ceil x = Ok z ∧ z <= N.
Proof.
  intros (R & P & V) HN. destruct x as [s| | |s m e]; [by exists 0|done|done|].
  cbn in P. subst s. cbn [py_ceil fval cond_Zopp] in *. eexists. split; [done|].
  cbn in R. unfold scaled_ceil. pose proof (unit_pos e ltac:(lia)) as U. destruct (Z.leb_spec 0 e) as [He|He].
  - replace (unit_at e) with (unit_at (0 + e)) in V by (f_equal; lia). rewrite unit_split in V by lia.
    apply (Z.mul_le_mono_pos_r _ _ (unit_at 0)); [by apply unit_pos|]. by rewrite <- Z.mul_assoc, (Z.mul_comm (2 ^ e)).
  - apply scaled in V; [|lia]. pose proof (Z.pow_pos_nonneg 2 (- e) ltac:(lia) ltac:(lia)) as Pe.
    apply Z.opp_le_mono. rewrite Z.opp_involutive. apply Z.div_le_lower_bound; [done|].
    cbn [cond_Zopp]. lia.
Qed.

(** ** Integers and products *)

Lemma shr_fexp_id m e l : 0 <= m → fexp fprec femax (Zdigits2 m + e) <= e →
  shr_fexp fprec femax m e l = (shr_record_of_loc m l, e).
Proof. intros Hm H. unfold shr_fexp, shr. destruct (_ - e) eqn:E; [done|lia|done]. Qed.

Lemma of_Z_exact c : 0 < c < 2 ^ 53 →
  ∃ m e, of_Z c = S754_finite false m e ∧ -52 <= e <= 0 ∧ Zdigits2 (Zpos m) = 53
         ∧ Zpos m * unit_at e = c * unit_at 0.
Proof.
  intros Hc. destruct c as [|p|p]; [lia| |lia]. unfold of_Z, binary_normalize, binary_round.
  destruct (digits_bounds (Zpos p) ltac:(lia)) as [Hd Hd1]. cbn [Zdigits2] in Hd, Hd1.
  assert (Zpos (digits2_pos p) <= 53) as Hd2
    by (apply (Zdigits2_bound (Zpos p) 53); [lia|]; lia).
  set (f := fexp _ _ _). assert (f = Zpos (digits2_pos p) - 53) as Hf
    by (unfold f, fexp, emin, fprec, femax; lia).
  pose proof (shl_align_value p 0 f ltac:(lia)) as A. destruct (shl_align p 0 f) as [m e].
  destruct A as (-> & Em & Ev). specialize (Ev ltac:(lia)). rewrite Z.min_r in * by lia.
  assert (Zdigits2 (Zpos m) = 53) as Dm.
  { rewrite Em, digits_shift by lia. cbn [Zdigits2]. lia. }
  assert (fexp fprec femax (Zdigits2 (Zpos m) + f) = f) as Fm
    by (rewrite Dm; unfold fexp, emin, fprec, femax; lia).
  exists m, f. split; [|split; [lia|by split]].
  unfold binary_round_aux. rewrite (shr_fexp_id (Zpos m) f loc_Exact) by lia.
  cbn [shr_record_of_loc loc_of_shr_record shr_m round_nearest_even].
  rewrite (shr_fexp_id (Zpos m) f loc_Exact) by lia. cbn [shr_record_of_loc shr_m].
  by destruct (Z.leb_spec f (femax - fprec)); [|unfold femax, fprec in *; lia].
Qed.

Lemma unit_mul a b : -1500 <= a → -1500 <= b → unit_at a * unit_at b = unit_at (a + b) * unit_at 0.
Proof. intros. Local Transparent unit_at. unfold unit_at. rewrite <- !Z.pow_add_r by lia. f_equal. lia. Qed.

(** [u * c], when [u] is at most [N] *)
Lemma fmul_at_most u c N :
  normal u → nonneg u → fval u <= N * unit_at 0 → 0 <= N < 2 ^ 20 → 0 < c < 2 ^ 31 →
  at_most (N * c) (fmul u (of_Z c)).
Proof.
  intros Nu Pu Vu HN Hc. destruct (of_Z_exact c ltac:(lia)) as (m2 & e2 & -> & He2 & _ & V2).
  assert (0 <= N * c < 2 ^ 53) as HNc by nia. pose proof (unit_pos 0 ltac:(lia)) as U0.
  destruct u as [s| | |s m1 e1]; [|done|done|]; cbn in Pu; subst s; unfold fmul; cbn [SFmul].
  { split; [done|]. split; [done|]. cbn. nia. }
  cbn [fval cond_Zopp] in Vu. destruct (canonical_bounds _ _ (Pos2Z.is_pos m1) Nu) as (_ & E1 & M1).
  assert (e1 <= 0) as E1'.
  { destruct (decide (e1 <= 0)) as [|Hp]; [done|]. specialize (M1 ltac:(lia)).
    pose proof (unit_mono 0 e1 ltac:(lia) ltac:(lia)). nia. }
  cbn [xorb]. pose proof (unit_pos (e1 + e2) ltac:(lia)) as U12. pose proof (unit_mul e1 e2 ltac:(lia) ltac:(lia)) as UM.
  apply round_aux_at_most; [lia|lia|done| |done].
  rewrite Pos2Z.inj_mul. enough (Zpos m1 * Zpos m2 * unit_at (e1 + e2) * unit_at 0 <= N * c * unit_at 0 * unit_at 0) by nia.
  replace (Zpos m1 * Zpos m2 * unit_at (e1 + e2) * unit_at 0)
    with (Zpos m1 * unit_at e1 * (Zpos m2 * unit_at e2)) 
    by (transitivity (Zpos m1 * Zpos m2 * (unit_at e1 * unit_at e2)); [ring|rewrite UM; ring]).
  rewrite V2. replace (N * c * unit_at 0 * unit_at 0) with (N * unit_at 0 * (c * unit_at 0)) by ring.
  apply Z.mul_le_mono_nonneg_r; [nia|done].
Qed.

(** A value at most [N * c], divided by [N] *)
Lemma fdiv_at_most x N c :
  at_most (N * c) x → 0 < N < 2 ^ 20 → 0 < c < 2 ^ 31 → at_most c (fdiv x (of_Z N)).
Proof.
  intros (R & P & V) HN Hc. destruct (of_Z_exact N ltac:(lia)) as (m2 & e2 & -> & He2 & D2 & V2).
  pose proof (unit_pos 0 ltac:(lia)) as U0. assert (0 <= N * c < 2 ^ 53) as HNc by nia.
  destruct x as [s| | |s m1 e1]; [|done|done|]; cbn in P; subst s; unfold fdiv; cbn -[SFdiv_core_binary].
  { split; [done|]. split; [done|]. cbn. nia. }
  cbn [fval cond_Zopp regular] in *. unfold SFdiv_core_binary. rewrite D2.
  set (d1 := Zdigits2 (Zpos m1)). assert (d1 + e1 <= 53) as Hd1.
  { destruct (decide (e1 <= 0)) as [He|He]; [by eapply digits_at_most; eauto with lia|].
    enough (d1 <= 53 - e1) by lia.
    replace (unit_at e1) with (unit_at (0 + e1)) in V by (f_equal; lia). rewrite unit_split in V by lia.
    assert (Zpos m1 * 2 ^ e1 <= N * c) as V' by (apply (Z.mul_le_mono_pos_r _ _ (unit_at 0)); lia).
    assert (e1 < 53) by (destruct (decide (e1 < 53)) as [|Hx]; [done|];
      pose proof (Z.pow_le_mono_r 2 53 e1 ltac:(lia) ltac:(lia)); nia).
    apply Zdigits2_bound; [lia|]. split; [lia|]. apply (Z.mul_lt_mono_pos_r (2 ^ e1)); [apply Z.pow_pos_nonneg; lia|].
    rewrite <- Z.pow_add_r by lia. replace (53 - e1 + e1) with 53 by lia. lia. }
  set (e' := Z.min _ _).
  assert (-1074 <= e' <= 0) as He' by (unfold e', fexp, emin, fprec, femax; lia).
  set (sh := e1 - e2 - e'). assert (0 <= sh) as Hsh by lia.
  assert (match sh with Z0 => Zpos m1 | Zpos _ => Z.shiftl (Zpos m1) sh | Zneg _ => 0 end = Zpos m1 * 2 ^ sh) as ->
    by (destruct sh as [|p|p] eqn:E; [lia|by rewrite Z.shiftl_mul_pow2|lia]).
  pose proof (Z_div_mod (Zpos m1 * 2 ^ sh) (Zpos m2) ltac:(lia)) as Dv.
  destruct (Z.div_eucl _ _) as [q r]. destruct Dv as [Dv Hr].
  assert (Zpos m2 * q + r <= c * 2 ^ (- e') * Zpos m2) as B.
  { rewrite <- Dv. pose proof (unit_pos (e2 + e') ltac:(lia)) as U.
    apply (Z.mul_le_mono_pos_r _ _ (unit_at (e2 + e'))); [done|].
    replace (Zpos m1 * 2 ^ sh * unit_at (e2 + e')) with (Zpos m1 * unit_at e1)
      by (rewrite <- Z.mul_assoc, (Z.mul_comm (2 ^ sh)), <- unit_split by lia; do 2 f_equal; lia).
    replace (c * 2 ^ (- e') * Zpos m2 * unit_at (e2 + e')) with (c * (Zpos m2 * (unit_at (e2 + e') * 2 ^ (- e')))) by ring.
    rewrite <- unit_split by lia. replace (e2 + e' + - e') with e2 by lia. rewrite V2. lia. }
  assert (0 <= q) as Hq by (pose proof (Z.pow_pos_nonneg 2 sh ltac:(lia) Hsh); nia).
  apply round_aux_at_most; [done|lia|lia|apply scaled; [lia|nia]|].
  intros Hl. apply scaled; [lia|]. enough (r ≠ 0) by nia. intros ->. apply Hl.
  unfold new_location, new_location_even, new_location_odd. by destruct (Z.even _).
Qed.

(** [ceil(u * c / N)], for a positive utilisation [u] under [N] *)
Lemma share_at_most u c N :
  py_float u → fgt u (of_Z 0) = true → flt u (of_Z N) = true → 0 < N < 2 ^ 20 → 0 < c < 2 ^ 31 →
  ∃ z, py_ceil (fdiv (fmul u (of_Z c)) (of_Z N)) = Ok z ∧ z <= c.
Proof.
  intros Hv H0 Hlt HN Hc. apply py_ceil_at_most; [|lia]. apply fdiv_at_most; [|done|done].
  destruct (of_Z_exact N ltac:(lia)) as (m & e & EN & He & D & V).
  change (of_Z 0) with (S754_zero false) in H0.
  destruct u as [s|[]| |[] mu eu]; try done; [by rewrite EN in Hlt|].
  assert (normal (S754_finite false mu eu)) as Nu.
  { cbn in *. unfold bounded, canonical_mantissa in Hv. apply andb_true_iff in Hv as [Hv _].
    apply Z.eqb_eq in Hv. symmetry. exact Hv. }
  apply fmul_at_most; [done|done| |lia|done]. apply flt_value in Hlt; [|done|..]; rewrite ?EN in *.
  - cbn [fval cond_Zopp] in *. lia.
  - cbn. unfold canonical. rewrite D. unfold fexp, emin, fprec, femax. lia.
  - done.
  - done.
Qed.

(** ** Total conversions *)

Lemma of_ratio_mag K s n p :
  0 <= K < femax - fprec → 0 <= n < 2 ^ K → mag_le (K + 1) (of_ratio s n p).
Proof.
  intros HK Hn. unfold of_ratio. destruct n as [|n|n]; [done| |lia]. unfold SFdiv_core_binary.
  set (e' := Z.min _ _). assert (e' <= 0) as He by (unfold e'; lia).
  replace (0 - 0 - e') with (- e') by lia.
  assert (match - e' with Z0 => Zpos n | Zpos _ => Z.shiftl (Zpos n) (- e') | Zneg _ => 0 end
    = Zpos n * 2 ^ (- e')) as -> by (destruct (- e') eqn:E; [lia|by rewrite Z.shiftl_mul_pow2|lia]).
  pose proof (Z_div_mod (Zpos n * 2 ^ (- e')) (Zpos p) ltac:(lia)) as D.
  destruct (Z.div_eucl _ _) as [q r]. destruct D as [D Hr].
  pose proof (Z.pow_pos_nonneg 2 (- e') ltac:(lia) ltac:(lia)).
  apply binary_round_aux_mag; [lia|nia|lia|].
  replace (K - e') with (K + - e') by lia. rewrite pow2_split by lia. nia.
Qed.

Lemma scaled_round_bound num e K :
  0 <= num → 0 <= K → e <= K → num < 2 ^ (K - e) → 0 <= scaled_round num e <= 2 ^ K.
Proof.
  intros Hn HK He Hlt. unfold scaled_round. destruct (Z.leb_spec 0 e) as [H|H].
  - pose proof (Z.pow_pos_nonneg 2 e ltac:(lia) H). split; [nia|].
    replace K with ((K - e) + e) by lia. rewrite pow2_split by lia. nia.
  - pose proof (Z.pow_pos_nonneg 2 (- e) ltac:(lia) ltac:(lia)) as P.
    replace (K - e) with (K + - e) in Hlt by lia. rewrite pow2_split in Hlt by lia.
    pose proof (Z.div_lt_upper_bound num (2 ^ - e) (2 ^ K) P ltac:(lia)).
    pose proof (Z.div_pos num (2 ^ - e) Hn P). unfold div_half_even.
    repeat case_match; lia.
Qed.

Lemma round_2_finite x K : mag_le K x → 0 <= K < 900 → is_finite (py_round_nd 2 x) = true.
Proof.
  intros Hx HK. destruct x as [| | |s m e]; try done. cbn in Hx. unfold py_round_nd.
  change (10 ^ Z.of_nat 2) with 100.
  destruct (scaled_round_bound (Zpos m * 100) e (K + 7) ltac:(lia) ltac:(lia) ltac:(lia)) as [B0 B1].
  { replace (K + 7 - e) with ((K - e) + 7) by lia. rewrite pow2_split by lia. lia. }
  eapply mag_le_finite, (of_ratio_mag (K + 8)); [cbv [femax fprec]; lia|].
  pose proof (pow2_split (K + 7) 1 ltac:(lia) ltac:(lia)) as E. replace (K + 7 + 1) with (K + 8) in E by lia. lia.
Qed.
