(* ===== verification/RightSizing.v ===== *)
(** * Right-sizing: inputs, thresholds and saturation signals

    Models the first half of [src/assessment_engine/recommendation.py]: the
    thresholds, [ResourceStats] (the statistics one host is judged by, [None] is
    "not measured"), and the OS-aware saturation predicates every caller shares.
    Times are days or milliseconds as floats, sizes are ints, as in the code. *)

From S2P Require Import Prelude PyFloat.

(** ** Thresholds *)

Definition WINDOW_DAYS : Z := 14.
Definition IDLE_CPU_P95_PCT : Z := 3.
Definition IDLE_NET_MBPS : Z := 2.
Definition IDLE_DISK_IOPS : Z := 5.
Definition IDLE_STRONG_PEAK_PCT : Z := 1.
Definition IDLE_STRONG_NET_KBYTES_PER_S : Z := 1.
Definition BURST_PEAK_FLOOR_CPU_PCT : Z := 30.
Definition BURST_PEAK_FLOOR_MEM_PCT : Z := 50.
Definition CPU_UPSIZE_P95_PCT : Z := 70.
Definition PROCS_RUNNING_PER_CORE_SATURATION : float := of_Z 1.
Definition CPU_RUN_QUEUE_PER_CORE_SATURATION : float := of_Z 2.
Definition DISK_QUEUE_PER_DISK_SATURATION : float := of_Z 2.
Definition WIN_PAGES_INPUT_SATURATION : float := of_Z 20.
Definition PROCS_BLOCKED_DSTATE_SATURATION : float := of_Z 1.

Definition RS_CPU_UNDER_PCT : Z := 70.
Definition RS_CPU_SIZING_TARGET_PCT : Z := 70.
Definition RS_CPU_SAT_HEADROOM : float := of_ratio false 7 10.
Definition RS_CPU_PERCORE_HOLD_PCT : Z := 85.
Definition RS_CPU_STEAL_BIAS_PCT : Z := 5.
Definition RS_MEM_UNDER_PCT : Z := 90.
Definition RS_MEM_SIZING_TARGET_PCT : Z := 80.
Definition RS_DISK_RUNWAY_DAYS : Z := 30.
Definition RS_DISK_TARGET_RUNWAY_DAYS : Z := 365.
Definition RS_DISK_TREND_MIN_SPAN_DAYS : Z := WINDOW_DAYS.
Definition RS_DISK_NEAR_HORIZON_DAYS : Z := 30.
Definition RS_DISK_HEADROOM_TARGET_PCT : Z := 70.
Definition RS_DISK_STATIC_GUARD_PCT : Z := 85.
Definition RS_DISKIO_AWAIT_MS : Z := 20.
Definition RS_DISKIO_UTIL_MIN : float := of_ratio false 5 10.
Definition RS_NET_RETRANS_PCT : float := of_Z 1.
Definition RS_NET_DROP_PCT : float := of_ratio false 5 10.
Definition RS_NET_MIN_TRAFFIC_KBPS : float := of_Z 10.
Definition RS_CONNTRACK_SATURATION_RATIO : float := of_ratio false 8 10.
Definition RS_CONFIDENCE_MIN_HOURS : Z := 30.
Definition RS_DISK_RATE_MIN_SPAN_DAYS : float := int_truediv RS_CONFIDENCE_MIN_HOURS 24.
Definition RS_DOWNSIZE_MIN_SUFFICIENCY : float := of_ratio false 7 10.
Definition RS_BURST_RATIO_MAX : float := of_Z 2.
Definition RS_UTIL_TREND_RISING_PCT_PER_DAY : float := of_ratio false 2 10.
Definition RS_MEM_SATURATION_HEADROOM_PCT : Z := 30.

(** [os_family == "windows"] *)
Definition is_windows (os : option string) : bool := bool_decide (os = Some "windows"%string).

(** [_RS_CPU_SAT_LINE.get(os_family or "", _RS_CPU_SAT_LINE_DEFAULT)] *)
Definition _RS_CPU_SAT_LINE (os : option string) : float :=
  if String.eqb (str_or os "") "windows" then CPU_RUN_QUEUE_PER_CORE_SATURATION
  else PROCS_RUNNING_PER_CORE_SATURATION.

(** ** Inputs *)

Record ResourceStats := {
  cpu_p95_pct : option float;
  cpu_peak_pct : option float;
  cpu_cores : option Z;
  mem_p95_pct : option float;
  disk_used_pct : option float;
  net_avg_kbytes_per_s : option float;
  os_family : option string;
  sample_sufficiency : option float;
  disk_queue_p95 : option float;
  cpu_run_queue_p95 : option float;
  mem_pages_input_rate_p95 : option float;
  cpu_percore_p95_max : option float;
  procs_blocked_p95 : option float;
  procs_running_p95 : option float;
  mem_swap_paging : bool;
  oom_occurred : bool;
  mem_total_mb : option Z;
  mem_near_peak_pct : option float;
  disk_await_p95_ms : option float;
  disk_iops_baseline : option float;
  disk_capacity_runway_days : option float;
  disk_inode_runway_days : option float;
  disk_inode_used_pct : option float;
  disk_capacity_target_gb : option float;
  net_retrans_pct : option float;
  net_drop_pct : option float;
  conntrack_ratio : option float;
  history_hours : option float;
  cpu_burst_ratio : option float;
  util_trend_rising : option bool;
  cpu_steal_p95_pct : option float;
}.

(** [x is not None and x <cmp> c] *)
Definition some_and {A} (o : option A) (p : A → bool) : bool :=
  match o with Some x => p x | None => false end.

Lemma some_and_true {A} (o : option A) p :
  some_and o p = true ↔ ∃ x, o = Some x ∧ p x = true.
Proof. destruct o; cbn; naive_solver. Qed.

Lemma some_and_false {A} (o : option A) p :
  some_and o p = false ↔ ∀ x, o = Some x → p x = false.
Proof. destruct o; cbn; naive_solver. Qed.

(** ** Saturation of the resources *)

Definition disk_io_saturated (stats : ResourceStats) : option bool :=
  match disk_await_p95_ms stats with
  | Some await => Some (fgt await (of_Z RS_DISKIO_AWAIT_MS))
  | None =>
      if is_windows (os_family stats)
      then match disk_queue_p95 stats with
           | Some q => Some (fge q DISK_QUEUE_PER_DISK_SATURATION)
           | None => None
           end
      else None
  end.

Definition cpu_saturated (stats : ResourceStats) : option bool :=
  match cpu_cores stats with
  | None => None
  | Some cores =>
      if cores <=? 0 then None else
      let rq_sat :=
        if is_windows (os_family stats)
        then match cpu_run_queue_p95 stats with
             | None => None
             | Some rq => Some (fge (fdiv rq (of_Z cores)) CPU_RUN_QUEUE_PER_CORE_SATURATION)
             end
        else match procs_running_p95 stats with
             | None => None
             | Some rq => Some (fge (fdiv rq (of_Z cores)) PROCS_RUNNING_PER_CORE_SATURATION)
             end in
      match rq_sat with
      | None => None
      | Some false => Some false
      | Some true =>
          match cpu_p95_pct stats with
          | None => Some true
          | Some util => Some (fge util (of_Z RS_CPU_UNDER_PCT))
          end
      end
  end.

Definition cpu_saturation_index (run_queue : option float) (cores : option Z)
    (os : option string) : option float :=
  match run_queue, cores with
  | Some rq, Some c =>
      if c =? 0 then None else
      let threshold :=
        if is_windows os then CPU_RUN_QUEUE_PER_CORE_SATURATION
        else PROCS_RUNNING_PER_CORE_SATURATION in
      Some (fdiv (fdiv rq (of_Z c)) threshold)
  | _, _ => None
  end.

Definition disk_io_saturation_index (await_ms disk_queue : option float)
    (os : option string) : option float :=
  match await_ms with
  | Some await => Some (fdiv await (of_Z RS_DISKIO_AWAIT_MS))
  | None =>
      if is_windows os
      then match disk_queue with
           | Some q => Some (fdiv q DISK_QUEUE_PER_DISK_SATURATION)
           | None => None
           end
      else None
  end.

Definition mem_pressure_active (paging_major_rate : option float) (os : option string) : bool :=
  match paging_major_rate with
  | None => false
  | Some rate =>
      if is_windows os then fge rate WIN_PAGES_INPUT_SATURATION else fgt rate (of_Z 0)
  end.

Definition net_signal_active (retrans_pct drop_pct conntrack net_kbytes_per_s : option float) : bool :=
  let low_traffic := some_and net_kbytes_per_s (λ n, flt n RS_NET_MIN_TRAFFIC_KBPS) in
  if negb low_traffic && some_and retrans_pct (λ r, fgt r RS_NET_RETRANS_PCT) then true
  else if negb low_traffic && some_and drop_pct (λ d, fgt d RS_NET_DROP_PCT) then true
  else some_and conntrack (λ c, fge c RS_CONNTRACK_SATURATION_RATIO).

Definition mem_saturated (stats : ResourceStats) : option bool :=
  match mem_p95_pct stats with
  | None => None
  | Some util =>
      if flt util (of_Z RS_MEM_UNDER_PCT) then Some false
      else if is_windows (os_family stats)
      then match mem_pages_input_rate_p95 stats with
           | None => None
           | Some r => Some (fge r WIN_PAGES_INPUT_SATURATION)
           end
      else Some (mem_swap_paging stats)
  end.

Definition util_trend_rising_from_slopes (cpu_slope mem_slope : option float) : option bool :=
  let slopes := omap id [cpu_slope; mem_slope] in
  match slopes with
  | [] => None
  | _ => Some (existsb (λ s, fge s RS_UTIL_TREND_RISING_PCT_PER_DAY) slopes)
  end.

Definition is_idle_strong (stats : ResourceStats) : bool :=
  some_and (cpu_peak_pct stats) (λ p, fle p (of_Z IDLE_STRONG_PEAK_PCT)) &&
  some_and (net_avg_kbytes_per_s stats) (λ n, fle n (of_Z IDLE_STRONG_NET_KBYTES_PER_S)).

(** The run-queue gauge the host's OS publishes. *)
Definition _run_queue_value (stats : ResourceStats) : option float :=
  if is_windows (os_family stats) then cpu_run_queue_p95 stats else procs_running_p95 stats.
