(* ===== verification/Assess.v ===== *)
(** * Right-sizing: the five resource assessments

    Models [assess_cpu], [assess_memory], [assess_disk_capacity],
    [assess_disk_io], [assess_network] and [assess_mount_capacity] of
    [src/assessment_engine/recommendation.py] with the sizing formulas and the
    confidence notes.  An assessment is a [result]: [math.ceil] raises on NaN
    and on infinities, and nothing in the code excludes them; [AssessFacts]
    proves that measured inputs never reach that branch. *)

From S2P Require Import Prelude PyFloat RightSizing.

(** ** Vocabulary *)

Inductive ResourceKind := Cpu | Memory | DiskCapacity | DiskIo | Network.

Inductive TriggerKind :=
  | cpu_util | cpu_saturation | mem_util | mem_saturation | mem_oom
  | trig_disk_capacity | trig_disk_io | net_retrans | net_drop | net_conntrack.

Inductive ResourceStatus :=
  | Under | Optimal | Over | Insufficient
  | Filling | CapacityOk
  | IoBound | IoOk
  | Congested | QualityOk
  | Unmeasured.

#[export] Instance ResourceKind_eq_dec : EqDecision ResourceKind.
Proof. solve_decision. Defined.
#[export] Instance TriggerKind_eq_dec : EqDecision TriggerKind.
Proof. solve_decision. Defined.
#[export] Instance ResourceStatus_eq_dec : EqDecision ResourceStatus.
Proof. solve_decision. Defined.

#[export] Instance ResourceKind_countable : Countable ResourceKind.
Proof.
  refine (inj_countable'
    (λ k, match k with Cpu => 0 | Memory => 1 | DiskCapacity => 2 | DiskIo => 3 | Network => 4 end)%nat
    (λ n, match n with
          | 0 => Cpu | 1 => Memory | 2 => DiskCapacity | 3 => DiskIo | _ => Network end%nat) _).
  by intros [].
Defined.

Record ConfidenceNote := {
  low_precision : bool;
  coverage_gap : bool;
  biased : bool;
  nonstationary : bool;
}.

(** The property [ConfidenceNote.high] *)
Definition high (c : ConfidenceNote) : bool :=
  negb (low_precision c || coverage_gap c || biased c).

(** [conf.coverage_gap = True] *)
Definition set_coverage_gap (c : ConfidenceNote) : ConfidenceNote :=
  {| low_precision := low_precision c; coverage_gap := true;
     biased := biased c; nonstationary := nonstationary c |}.

Record ResourceAssessment := {
  kind : ResourceKind;
  status : ResourceStatus;
  triggers : list TriggerKind;
  sizing_target : option Z;
  sizing_floor : option Z;
  confidence : ConfidenceNote;
  detail : string;
}.

(** [ResourceAssessment(kind, status, confidence=conf, detail=d)] with the
    dataclass defaults for the other fields *)
Definition plain_assessment (k : ResourceKind) (st : ResourceStatus) (conf : ConfidenceNote)
    (d : string) : ResourceAssessment :=
  {| kind := k; status := st; triggers := []; sizing_target := None;
     sizing_floor := None; confidence := conf; detail := d |}.

(** [if b: triggers.append(t)] *)
Definition when_trigger (b : bool) (t : TriggerKind) : list TriggerKind := if b then [t] else [].

(** ** Confidence *)

Definition _precision_low (stats : ResourceStats) : bool :=
  if some_and (history_hours stats) (λ h, flt h (of_Z RS_CONFIDENCE_MIN_HOURS)) then true
  else some_and (cpu_burst_ratio stats) (λ r, fgt r RS_BURST_RATIO_MAX).

Definition _base_confidence (stats : ResourceStats) (is_biased util_bearing : bool) : ConfidenceNote :=
  {| low_precision := _precision_low stats;
     coverage_gap := false;
     biased := is_biased;
     nonstationary := if util_bearing then default false (util_trend_rising stats) else false |}.

(** ** CPU *)

Definition _cpu_target_cores (util_pct : float) (cores : Z) (run_queue : option float)
    (os : option string) (saturated : bool) : result Z :=
  util_cores ← (if fgt util_pct (of_Z 0)
                then py_ceil (fdiv (fmul util_pct (of_Z cores)) (of_Z RS_CPU_SIZING_TARGET_PCT))
                else Ok 1);
  sat_cores ← (match run_queue with
               | Some rq =>
                   if saturated && float_truthy rq && fgt rq (of_Z 0)
                   then py_ceil (fdiv rq (fmul (_RS_CPU_SAT_LINE os) RS_CPU_SAT_HEADROOM))
                   else Ok 0
               | None => Ok 0
               end);
  Ok (Z.max (Z.max 1 util_cores) sat_cores).

Definition assess_cpu (stats : ResourceStats) : result ResourceAssessment :=
  let util := cpu_p95_pct stats in
  let cores := cpu_cores stats in
  let sat := cpu_saturated stats in
  let steal_biased := some_and (cpu_steal_p95_pct stats) (λ s, fge s (of_Z RS_CPU_STEAL_BIAS_PCT)) in
  let conf0 := _base_confidence stats steal_biased true in
  let conf1 := match sat with None => set_coverage_gap conf0 | Some _ => conf0 end in
  let conf := match util with None => set_coverage_gap conf1 | Some _ => conf1 end in
  let sat_b := default false sat in
  if bool_decide (util = None) && negb sat_b
  then Ok (plain_assessment Cpu Unmeasured conf "이용률 미측정")
  else match cores with
  | None => Ok (plain_assessment Cpu Unmeasured conf "코어 수 미상")
  | Some c =>
    if c <=? 0 then Ok (plain_assessment Cpu Unmeasured conf "코어 수 미상") else
    target ← _cpu_target_cores (default (of_Z 0) util) c (_run_queue_value stats)
               (os_family stats) sat_b;
    let trigs := when_trigger (some_and util (λ u, fge u (of_Z RS_CPU_UNDER_PCT))) cpu_util
                 ++ when_trigger sat_b cpu_saturation in
    let percore_busy :=
      some_and (cpu_percore_p95_max stats) (λ p, fge p (of_Z RS_CPU_PERCORE_HOLD_PCT)) in
    if negb (bool_decide (trigs = [])) || (c <? target)
    then
      let up := if c <? target then Some target else None in
      let floor := match up with Some _ => None | None => Some (c + 1) end in
      Ok {| kind := Cpu; status := Under; triggers := trigs;
            sizing_target := up; sizing_floor := floor; confidence := conf;
            detail := match up with
                      | Some t => String.append "목표 " (String.append (fmt_int t) "코어")
                      | None => String.append "포화 주도 — 증설(최소 "
                                  (String.append (fmt_int (c + 1)) "코어)")
                      end |}
    else if (target <? c) && negb percore_busy
    then Ok {| kind := Cpu; status := Over; triggers := [];
               sizing_target := Some target; sizing_floor := None; confidence := conf;
               detail := String.append "목표 " (String.append (fmt_int target) "코어") |}
    else Ok {| kind := Cpu; status := Optimal; triggers := [];
               sizing_target := Some c; sizing_floor := None; confidence := conf;
               detail := "" |}
  end.

(** ** Memory *)

Definition _mem_target_mb (near_peak_pct : float) (total_mb : option Z) : result (option Z) :=
  match total_mb with
  | None => Ok None
  | Some total =>
      if fle near_peak_pct (of_Z 0) then Ok None
      else Some <$> py_ceil (fdiv (fmul (of_Z total) near_peak_pct) (of_Z RS_MEM_SIZING_TARGET_PCT))
  end.

Definition _mem_paging_active (stats : ResourceStats) : bool := default false (mem_saturated stats).

(** [math.ceil(total * (1 + RS_MEM_SATURATION_HEADROOM_PCT / 100))] *)
Definition mem_headroom_mb (total : Z) : result Z :=
  py_ceil (fmul (of_Z total)
             (fadd (of_Z 1) (int_truediv RS_MEM_SATURATION_HEADROOM_PCT 100))).

Definition _mem_under_target (util_target : option Z) (stats : ResourceStats) : result (option Z) :=
  let total := mem_total_mb stats in
  extra ← (match total with
           | Some t =>
               if _mem_paging_active stats || oom_occurred stats
               then Some <$> mem_headroom_mb t else Ok None
           | None => Ok None
           end);
  match omap id [util_target; extra] with
  | [] => Ok None
  | x :: l =>
      let up := max_list_Z x l in
      match total with
      | None => Ok (Some up)
      | Some t => Ok (if t <? up then Some up else None)
      end
  end.

Definition assess_memory (stats : ResourceStats) : result ResourceAssessment :=
  let conf := _base_confidence stats false true in
  match mem_p95_pct stats with
  | None =>
      if oom_occurred stats
      then
        floor ← (match mem_total_mb stats with
                 | Some t => Some <$> mem_headroom_mb t
                 | None => Ok None
                 end);
        Ok {| kind := Memory; status := Under; triggers := [mem_oom];
              sizing_target := None; sizing_floor := floor; confidence := conf;
              detail := "이용률 미측정, OOM 발생" |}
      else Ok (plain_assessment Memory Unmeasured (set_coverage_gap conf) "이용률 미측정")
  | Some util =>
      let trigs := when_trigger (fge util (of_Z RS_MEM_UNDER_PCT)) mem_util
                   ++ when_trigger (_mem_paging_active stats) mem_saturation
                   ++ when_trigger (oom_occurred stats) mem_oom in
      let near_peak := default util (mem_near_peak_pct stats) in
      target_mb ← _mem_target_mb near_peak (mem_total_mb stats);
      if negb (bool_decide (trigs = []))
      then
        up ← _mem_under_target target_mb stats;
        floor ← (match up, mem_total_mb stats with
                 | None, Some t => Some <$> mem_headroom_mb t
                 | _, _ => Ok None
                 end);
        Ok {| kind := Memory; status := Under; triggers := trigs;
              sizing_target := up; sizing_floor := floor; confidence := conf;
              detail := match up with
                        | Some u => if u =? 0 then "증설(현재 사양 기준 상향)"
                                    else String.append "목표 " (String.append (fmt_int u) "MB")
                        | None => "증설(현재 사양 기준 상향)"
                        end |}
      else
        match mem_total_mb stats, target_mb with
        | Some total, Some target =>
            if negb (total =? 0) && negb (target =? 0) && (target <? total)
            then Ok {| kind := Memory; status := Over; triggers := [];
                       sizing_target := Some target; sizing_floor := None; confidence := conf;
                       detail := String.append "목표 " (String.append (fmt_int target) "MB") |}
            else Ok {| kind := Memory; status := Optimal; triggers := [];
                       sizing_target := mem_total_mb stats; sizing_floor := None;
                       confidence := conf; detail := "" |}
        | _, _ => Ok {| kind := Memory; status := Optimal; triggers := [];
                        sizing_target := mem_total_mb stats; sizing_floor := None;
                        confidence := conf; detail := "" |}
        end
  end.

(** ** Disk capacity *)

(** [min(vals)] of the runways that are not [None] *)
Definition _min_runway (runways : list (option float)) : option float :=
  match omap id runways with
  | [] => None
  | x :: l => Some (foldl fmin2 x l)
  end.

Definition optional_eq (x : float) (o : option float) : bool := some_and o (λ y, SFeqb x y).

Definition assess_disk_capacity (stats : ResourceStats) : result ResourceAssessment :=
  let conf := _base_confidence stats false false in
  let runway := _min_runway [disk_capacity_runway_days stats; disk_inode_runway_days stats] in
  let used := disk_used_pct stats in
  let inode_used := disk_inode_used_pct stats in
  tgt ← (match disk_capacity_target_gb stats with
         | Some t => if fge t (of_Z 1) then Some <$> py_ceil t else Ok None
         | None => Ok None
         end);
  let suffix (t : option Z) := match t with
    | Some n => if n =? 0 then ""
                else String.append ", 목표 " (String.append (fmt_fixed 0 (of_Z n)) "GB")
    | None => ""
    end in
  let filling (target : option Z) (d : string) :=
    {| kind := DiskCapacity; status := Filling; triggers := [trig_disk_capacity];
       sizing_target := target; sizing_floor := None; confidence := conf; detail := d |} in
  let guard := of_Z RS_DISK_STATIC_GUARD_PCT in
  let static_guard (runway_days used_pct : option float) := match runway_days, used_pct with
    | None, Some u => if fge u guard then Some u else None
    | _, _ => None
    end in
  let byte_static := static_guard (disk_capacity_runway_days stats) used in
  let inode_static := static_guard (disk_inode_runway_days stats) inode_used in
  let imminent := match runway with
    | Some r => if flt r (of_Z RS_DISK_RUNWAY_DAYS) then Some r else None
    | None => None
    end in
  match imminent, byte_static, inode_static with
  | Some r, _, _ =>
      let rtgt := if optional_eq r (disk_capacity_runway_days stats) then tgt else None in
      Ok (filling rtgt (String.append (fmt_fixed 0 r) (String.append "일 후 소진" (suffix rtgt))))
  | None, Some u, _ =>
      Ok (filling tgt (String.append "used " (String.append (fmt_fixed 0 u)
                         (String.append "% (정적 가드)" (suffix tgt)))))
  | None, None, Some u =>
      Ok (filling None (String.append "inode used "
                          (String.append (fmt_fixed 0 u) "% (정적 가드)")))
  | None, None, None =>
      match runway, used, inode_used with
      | None, None, None =>
          Ok (plain_assessment DiskCapacity Unmeasured (set_coverage_gap conf) "용량 미측정")
      | Some r, _, _ =>
          Ok (plain_assessment DiskCapacity CapacityOk conf
                (String.append (fmt_fixed 0 r) "일 여유"))
      | None, Some u, _ =>
          Ok (plain_assessment DiskCapacity CapacityOk conf
                (String.append "used " (String.append (fmt_fixed 0 u) "%")))
      | None, None, Some _ => Ok (plain_assessment DiskCapacity CapacityOk conf "여유")
      end
  end.

(** ** Mount sizing *)

Definition _GIB : positive := 1073741824.

Inductive MountAction := increase | keep.
Inductive EstimateQuality := exact | floor_estimate.

Record MountSizing := {
  current_gib : Z;
  recommended_gib : Z;
  action : MountAction;
  estimate_quality : EstimateQuality;
  note : string;
}.

(** A runway under 30 days, or no trend and a usage at the static guard. *)
Definition axis_filling (runway_days used_pct : option float) : bool :=
  some_and runway_days (λ r, flt r (of_Z RS_DISK_RUNWAY_DAYS)) ||
  (bool_decide (runway_days = None) && some_and used_pct (λ u, fge u (of_Z RS_DISK_STATIC_GUARD_PCT))).

Definition assess_mount_capacity (total_bytes : option Z) (target_bytes : option float)
    (byte_runway_days used_pct inode_runway_days inode_used_pct : option float)
    : result (option MountSizing) :=
  match total_bytes with
  | None => Ok None
  | Some total =>
      if total =? 0 then Ok None else
      current ← py_ceil (int_truediv total _GIB);
      let byte_filling := axis_filling byte_runway_days used_pct in
      let inode_filling := axis_filling inode_runway_days inode_used_pct in
      if byte_filling
      then match target_bytes with
           | Some target =>
               t ← py_ceil (fdiv target (of_Z (Zpos _GIB)));
               let rec_gib := Z.max current t in
               Ok (Some {| current_gib := current; recommended_gib := rec_gib;
                           action := if current <? rec_gib then increase else keep;
                           estimate_quality := exact; note := "" |})
           | None =>
               t ← py_ceil (fdiv (of_Z current) (int_truediv RS_DISK_HEADROOM_TARGET_PCT 100));
               Ok (Some {| current_gib := current; recommended_gib := Z.max current t;
                           action := increase; estimate_quality := floor_estimate; note := "" |})
           end
      else if inode_filling
      then Ok (Some {| current_gib := current; recommended_gib := current; action := keep;
                       estimate_quality := exact;
                       note := "inode 소진 — 파일 정리/재포맷(용량 확장 무관)" |})
      else Ok (Some {| current_gib := current; recommended_gib := current; action := keep;
                       estimate_quality := exact; note := "" |})
  end.

(** ** Disk I/O *)

Definition assess_disk_io (stats : ResourceStats) : result ResourceAssessment :=
  let conf := _base_confidence stats true false in
  match disk_io_saturated stats with
  | None =>
      match disk_iops_baseline stats with
      | Some _ => Ok (plain_assessment DiskIo IoOk conf "device 저활동 (병목 아님)")
      | None => Ok (plain_assessment DiskIo Unmeasured (set_coverage_gap conf) "응답 지연/큐 미측정")
      end
  | Some sat =>
      d ← (match disk_await_p95_ms stats, disk_queue_p95 stats with
           | Some a, _ => Ok (String.append "await p95 " (String.append (fmt_fixed 0 a) "ms"))
           | None, Some q => Ok (String.append "disk queue p95 " (fmt_fixed 1 q))
           | None, None => Raise TypeError
           end);
      Ok (if sat
          then {| kind := DiskIo; status := IoBound; triggers := [trig_disk_io];
                  sizing_target := None; sizing_floor := None; confidence := conf; detail := d |}
          else plain_assessment DiskIo IoOk conf d)
  end.

(** ** Network *)

Definition assess_network (stats : ResourceStats) : ResourceAssessment :=
  let conf := _base_confidence stats false false in
  let retrans := net_retrans_pct stats in
  let drop := net_drop_pct stats in
  let conntrack := conntrack_ratio stats in
  let low_traffic := some_and (net_avg_kbytes_per_s stats) (λ n, flt n RS_NET_MIN_TRAFFIC_KBPS) in
  let trigs :=
    when_trigger (negb low_traffic && some_and retrans (λ r, fgt r RS_NET_RETRANS_PCT)) net_retrans
    ++ when_trigger (negb low_traffic && some_and drop (λ d, fgt d RS_NET_DROP_PCT)) net_drop
    ++ when_trigger (some_and conntrack (λ c, fge c RS_CONNTRACK_SATURATION_RATIO)) net_conntrack in
  if negb (bool_decide (trigs = []))
  then
    let part (o : option float) (f : float → string) := match o with Some x => [f x] | None => [] end in
    let parts :=
      part retrans (λ r, String.append "재전송 " (String.append (fmt_fixed 1 r) "%"))
      ++ part drop (λ d, String.append "드롭 " (String.append (fmt_fixed 2 d) "%"))
      ++ (if mem net_conntrack trigs
          then part conntrack (λ c, String.append "conntrack "
                 (String.append (fmt_fixed 0 (fmul c (of_Z 100))) "%"))
          else []) in
    {| kind := Network; status := Congested; triggers := trigs; sizing_target := None;
       sizing_floor := None; confidence := conf; detail := str_join " " parts |}
  else
    match retrans, drop, conntrack with
    | None, None, None =>
        plain_assessment Network Unmeasured (set_coverage_gap conf) "품질 신호 미측정"
    | _, _, _ => plain_assessment Network QualityOk conf ""
    end.
