(* ===== verification/Rollup.v ===== *)
(** * Right-sizing: host roll-up and prescriptions

    Models the last part of [src/assessment_engine/recommendation.py]:
    [rollup_host] combines the five assessments into a host status and a causal
    root cause, and the display and prescription functions read that result.
    The dict of assessments is a [gmap]; [res_get] is Python's subscript, which
    raises [KeyError] on a missing kind. *)

From S2P Require Import Prelude PyFloat RightSizing Assess.

Inductive HostStatus := HostUnder | HostIdle | HostOver | HostOptimal | HostInsufficient.

Inductive Recommendation :=
  | idle | over_provisioned | under_provisioned | optimal | insufficient_data.

#[export] Instance HostStatus_eq_dec : EqDecision HostStatus.
Proof. solve_decision. Defined.
#[export] Instance Recommendation_eq_dec : EqDecision Recommendation.
Proof. solve_decision. Defined.

Record HostAssessment := {
  resources : gmap ResourceKind ResourceAssessment;
  root_cause : option ResourceKind;
  symptom_of_root : list ResourceKind;
  host_status : HostStatus;
  network_congested : bool;
  host_sample_sufficiency : option float;
}.

Definition kind_name (k : ResourceKind) : string :=
  match k with
  | Cpu => "cpu" | Memory => "memory" | DiskCapacity => "disk_capacity"
  | DiskIo => "disk_io" | Network => "network"
  end.

(** [res[k]] *)
Definition res_get (res : gmap ResourceKind ResourceAssessment) (k : ResourceKind)
    : result ResourceAssessment :=
  match res !! k with Some a => Ok a | None => Raise (KeyError (kind_name k)) end.

(** The dict literal of [rollup_host], in its insertion order *)
Definition res_items (cpu memory disk_capacity disk_io network : ResourceAssessment)
    : list (ResourceKind * ResourceAssessment) :=
  [(Cpu, cpu); (Memory, memory); (DiskCapacity, disk_capacity); (DiskIo, disk_io);
   (Network, network)].

Definition _ROOTABLE_UNDER : list ResourceStatus := [Under; Filling].

Definition rootable (a : ResourceAssessment) : bool := mem (status a) _ROOTABLE_UNDER.

Definition _host_status (stats : ResourceStats) (res : gmap ResourceKind ResourceAssessment)
    (under_kinds : list ResourceKind) : result HostStatus :=
  if negb (bool_decide (under_kinds = [])) then Ok HostUnder else
  a_cpu ← res_get res Cpu;
  a_memory ← res_get res Memory;
  if mem (status a_cpu) [Unmeasured; Insufficient] && mem (status a_memory) [Unmeasured; Insufficient]
  then Ok HostInsufficient else
  let net_mbps := (λ net, fdiv (fmul net (of_Z 8)) (of_Z 1000)) <$> net_avg_kbytes_per_s stats in
  let disk_io_active := some_and (disk_iops_baseline stats) (λ d, fgt d (of_Z IDLE_DISK_IOPS)) in
  if some_and (cpu_p95_pct stats) (λ c, fle c (of_Z IDLE_CPU_P95_PCT))
     && some_and net_mbps (λ n, fle n (of_Z IDLE_NET_MBPS))
     && negb disk_io_active
  then Ok HostIdle
  else if bool_decide (status a_cpu = Over) || bool_decide (status a_memory = Over)
  then Ok HostOver
  else Ok HostOptimal.

Definition root_order : list ResourceKind := [Memory; DiskIo; Cpu; DiskCapacity].

Definition rollup_host (stats : ResourceStats) : result HostAssessment :=
  a_cpu ← assess_cpu stats;
  a_memory ← assess_memory stats;
  a_disk_capacity ← assess_disk_capacity stats;
  a_disk_io ← assess_disk_io stats;
  let a_network := assess_network stats in
  let items := res_items a_cpu a_memory a_disk_capacity a_disk_io a_network in
  let res : gmap ResourceKind ResourceAssessment := list_to_map items in
  let under_kinds := fst <$> filter (λ ka, rootable ka.2 = true) items in
  let mem_pressure := bool_decide (status a_memory = Under) in
  let disk_io_pressure := bool_decide (status a_disk_io = IoBound) in
  let cpu_pressure := bool_decide (status a_cpu = Under) in
  let procs_blocked_high :=
    some_and (procs_blocked_p95 stats) (λ p, fge p PROCS_BLOCKED_DSTATE_SATURATION) in
  let '(root, symptoms) :=
    if mem_pressure && _mem_paging_active stats && (disk_io_pressure || cpu_pressure)
    then (Some Memory,
          filter (λ k, mem k under_kinds || (bool_decide (k = DiskIo) && disk_io_pressure) = true)
                 [DiskIo; Cpu])
    else if disk_io_pressure && cpu_pressure && procs_blocked_high
    then (Some DiskIo, if mem Cpu under_kinds then [Cpu] else [])
    else if negb (bool_decide (under_kinds = []))
    then (head (filter (λ k, mem k under_kinds = true) root_order), [])
    else (None, []) in
  hs ← _host_status stats res under_kinds;
  Ok {| resources := res; root_cause := root; symptom_of_root := symptoms;
        host_status := hs;
        network_congested := bool_decide (status a_network = Congested);
        host_sample_sufficiency := sample_sufficiency stats |}.

(** ** Labels *)

Definition _HOST_STATUS_TO_REC (s : HostStatus) : Recommendation :=
  match s with
  | HostUnder => under_provisioned
  | HostIdle => idle
  | HostOver => over_provisioned
  | HostOptimal => optimal
  | HostInsufficient => insufficient_data
  end.

Definition classify_host (stats : ResourceStats) : result Recommendation :=
  h ← rollup_host stats; Ok (_HOST_STATUS_TO_REC (host_status h)).

Definition host_status_to_recommendation (s : HostStatus) : Recommendation := _HOST_STATUS_TO_REC s.

Definition LABEL_KO (r : Recommendation) : string :=
  match r with
  | idle => "유휴" | over_provisioned => "과다 할당" | under_provisioned => "자원 부족"
  | optimal => "정상" | insufficient_data => "표본 부족"
  end.

Definition CLASSIFICATION_ORDER (r : Recommendation) : Z :=
  match r with
  | under_provisioned => 0 | over_provisioned => 1 | idle => 2 | optimal => 3
  | insufficient_data => 4
  end.

Definition RECOMMENDATION_ACTION_KO (r : Recommendation) : string :=
  match r with
  | under_provisioned => "증설 검토" | over_provisioned => "축소 검토"
  | idle => "종료·통합 검토" | optimal => "적정 — 유지"
  | insufficient_data => "표본 부족 — 관측 지속"
  end.

Definition recommend_action (rec : Recommendation) (stats : ResourceStats) : string :=
  match rec with
  | idle => if is_idle_strong stats then "즉시 종료 검토" else "통합·재배치 검토"
  | _ => RECOMMENDATION_ACTION_KO rec
  end.

Definition RS_STATUS_LABEL_KO (s : ResourceStatus) : string :=
  match s with
  | Under => "부족" | Optimal => "정상" | Over => "과다" | Filling => "용량 임박"
  | CapacityOk => "용량 여유" | IoBound => "I/O 병목" | IoOk => "I/O 정상"
  | Congested => "혼잡" | QualityOk => "품질 정상" | Unmeasured => "미측정"
  | Insufficient => "표본 부족"
  end.

Definition RS_HOST_STATUS_LABEL_KO (s : HostStatus) : string :=
  match s with
  | HostUnder => "자원 부족" | HostIdle => "유휴" | HostOver => "과다 할당"
  | HostOptimal => "정상" | HostInsufficient => "표본 부족"
  end.

Definition RS_RESOURCE_KIND_LABEL_KO (k : ResourceKind) : string :=
  match k with
  | Cpu => "CPU" | Memory => "메모리" | DiskCapacity => "디스크 용량"
  | DiskIo => "디스크 I/O" | Network => "네트워크"
  end.

Definition RS_TRIGGER_LABEL_KO (t : TriggerKind) : string :=
  match t with
  | cpu_util => "CPU 이용률 초과"
  | cpu_saturation => "CPU 실행 큐 포화"
  | mem_util => "메모리 이용률 초과"
  | mem_saturation => "메모리 스왑/페이징 발생"
  | mem_oom => "OOM(메모리 부족) 발생"
  | trig_disk_capacity => "디스크 용량 임박"
  | trig_disk_io => "디스크 I/O 응답 지연"
  | net_retrans => "TCP 재전송 과다"
  | net_drop => "패킷 드롭 과다"
  | net_conntrack => "연결테이블 고갈 임박"
  end.

(** ** Prescriptions *)

Definition _SATURATION_KINDS : list ResourceKind := [Cpu; Memory; DiskIo].

Definition host_saturation_unmeasured (host : HostAssessment) : bool :=
  existsb (λ k, match resources host !! k with
                | Some a => coverage_gap (confidence a)
                | None => false
                end) _SATURATION_KINDS.

Definition _UNDER_ACTION_BASE (k : ResourceKind) : string :=
  match k with
  | Cpu => "CPU 증설" | Memory => "메모리 증설" | DiskCapacity => "스토리지 확장"
  | DiskIo => "디스크 티어 상향" | Network => "네트워크 점검"
  end.

Definition _SIZEABLE_LABEL (k : ResourceKind) : option string :=
  match k with Cpu => Some "CPU"%string | Memory => Some "메모리"%string | _ => None end.

Definition _UNDER_ORDER : list ResourceKind := [Memory; Cpu; DiskIo; DiskCapacity; Network].

(** [s.replace(".0GB", "GB")] for an [s] that ends in ["GB"] and holds one point *)
Fixpoint drop_point_zero (s : string) : string :=
  match s with
  | EmptyString => ""
  | String c s' =>
      if String.eqb s ".0GB" then "GB" else String c (drop_point_zero s')
  end.

Definition _fmt_sizing_target (k : ResourceKind) (target : Z) : string :=
  match k with
  | Cpu => String.append (fmt_int target) "코어"
  | _ => if 1024 <=? target 
         then drop_point_zero (String.append (fmt_fixed 1 (int_truediv target 1024)) "GB")
         else String.append (fmt_int target) "MB"
  end.

Definition _resource_prescription (k : ResourceKind) (ra : ResourceAssessment) : string :=
  match k, sizing_target ra with
  | DiskCapacity, Some t => String.append "스토리지: " (String.append (fmt_fixed 0 (of_Z t)) "GB")
  | _, Some t =>
      match _SIZEABLE_LABEL k with
      | Some l => String.append l (String.append ": " (_fmt_sizing_target k t))
      | None => _UNDER_ACTION_BASE k
      end
  | _, None => _UNDER_ACTION_BASE k
  end.

Definition _under_kinds (host : HostAssessment) : list ResourceKind :=
  filter (λ k, match resources host !! k with Some a => rootable a | None => false end = true)
         _UNDER_ORDER.

Definition prescribed_under_kinds (host : HostAssessment) : list ResourceKind := _under_kinds host.

Definition resource_prescription (k : ResourceKind) (ra : ResourceAssessment) : string :=
  _resource_prescription k ra.

(** [[f(k, host.resources[k]) for k in ks]] *)
Fixpoint map_resources (host : HostAssessment) (f : ResourceKind → ResourceAssessment → string)
    (ks : list ResourceKind) : result (list string) :=
  match ks with
  | [] => Ok []
  | k :: ks' =>
      a ← res_get (resources host) k;
      l ← map_resources host f ks';
      Ok (f k a :: l)
  end.

Definition under_prescription (host : HostAssessment) : result string :=
  str_join " | " <$> map_resources host resource_prescription (prescribed_under_kinds host).

Definition root_cause_display (host : HostAssessment) : string :=
  let under := _under_kinds host in
  match under with
  | [] => ""
  | _ =>
      match symptom_of_root host, root_cause host with
      | (_ :: _) as syms, Some root =>
          String.append (RS_RESOURCE_KIND_LABEL_KO root)
            (String.append " (" (String.append
               (str_join "·" (RS_RESOURCE_KIND_LABEL_KO <$> syms)) " 유발)"))
      | _, _ => str_join "·" (RS_RESOURCE_KIND_LABEL_KO <$> under)
      end
  end.

Definition downsize_prescribable (a : ResourceAssessment) (stats : ResourceStats) : bool :=
  if negb (bool_decide (status a = Over)) then false
  else if negb (high (confidence a)) then false
  else if nonstationary (confidence a) then false
  else negb (match sample_sufficiency stats with
             | None => true
             | Some s => flt s RS_DOWNSIZE_MIN_SUFFICIENCY
             end).
