(* ===== verification/AssessFacts.v ===== *)
(** * Properties of the saturation signals and of the resource assessments *)

From S2P Require Import Prelude PyFloat FloatFacts RightSizing Assess.

(** ** Tactics and shared lemmas *)

(** Inverts the [Ok] of a call in the result monad. *)
Lemma result_bind_ok {A B} (m : result A) (k : A → result B) b :
  (x ← m; k x) = Ok b → ∃ a, m = Ok a ∧ k a = Ok b.
Proof. destruct m; cbn; naive_solver. Qed.

Lemma result_fmap_ok {A B} (f : A → B) (m : result A) b :
  f <$> m = Ok b → ∃ a, m = Ok a ∧ b = f a.
Proof. destruct m; cbn; naive_solver. Qed.

Ltac inv_ok :=
  repeat match goal with
  | H : mbind _ _ = Ok _ |- _ =>
      let a := fresh "a" in let Ha := fresh "Ha" in
      apply result_bind_ok in H as (a & Ha & H)
  | H : _ <$> _ = Ok _ |- _ =>
      let a := fresh "a" in let Ha := fresh "Ha" in
      apply result_fmap_ok in H as (a & Ha & H)
  | H : Ok _ = Ok _ |- _ => injection H as H
  | H : Raise _ = Ok _ |- _ => discriminate H
  end.

(** Case analysis of an [Ok] result on every test of the function that made it. *)
Ltac ok_cases H :=
  repeat (case_match; try discriminate; inv_ok; try subst; cbn in *);
  inv_ok; try subst; cbn in *.

Lemma when_trigger_nil b t : when_trigger b t = [] ↔ b = false.
Proof. by destruct b. Qed.

(** ** Saturation *)

(** The run-queue gauge of the host's OS against the saturation line of that
    OS, as the two branches of [cpu_saturated] compute it. *)
Lemma cpu_saturated_iff stats :
  cpu_saturated stats = Some true ↔
  ∃ cores q, cpu_cores stats = Some cores ∧ 0 < cores ∧ _run_queue_value stats = Some q ∧
    fge (fdiv q (of_Z cores)) (_RS_CPU_SAT_LINE (os_family stats)) = true ∧
    (∀ util, cpu_p95_pct stats = Some util → fge util (of_Z RS_CPU_UNDER_PCT) = true).
Proof.
  unfold cpu_saturated, _run_queue_value, _RS_CPU_SAT_LINE, is_windows.
  assert (String.eqb (str_or (os_family stats) "") "windows" =
          bool_decide (os_family stats = Some "windows"%string)) as ->.
  { destruct (os_family stats) as [s|]; cbn; [|done].
    destruct (String.eqb_spec s "") as [->|]; [done|].
    destruct (String.eqb_spec s "windows") as [->|]; symmetry;
      [by apply bool_decide_eq_true|apply bool_decide_eq_false; congruence]. }
  destruct (cpu_cores stats) as [c|];
    [|split; [done|by intros (?&?&?&_)]].
  destruct (c <=? 0) eqn:Hc; to_prop.
  { split; [done|]. intros (c' & q & [= ->] & ? & _). lia. }
  assert (∀ (sat_line : float) (rq : option float),
    match (match rq with None => None | Some q => Some (fge (fdiv q (of_Z c)) sat_line) end) with
    | None => None
    | Some false => Some false
    | Some true => match cpu_p95_pct stats with
                   | None => Some true
                   | Some util => Some (fge util (of_Z RS_CPU_UNDER_PCT))
                   end
    end = Some true ↔
    ∃ cores q, Some c = Some cores ∧ 0 < cores ∧ rq = Some q ∧
      fge (fdiv q (of_Z cores)) sat_line = true ∧
      (∀ util, cpu_p95_pct stats = Some util → fge util (of_Z RS_CPU_UNDER_PCT) = true)) as H.
  { intros sat_line [q|]; [|split; [done|by intros (?&?&_&_&?&_)]].
    destruct (fge (fdiv q (of_Z c)) sat_line) eqn:Hq.
    - destruct (cpu_p95_pct stats) as [u|]; split.
      + intros [= Hu]. exists c, q. repeat split; try done. by intros ? [= <-].
      + intros (c' & q' & _ & _ & _ & _ & Hu). f_equal. by apply Hu.
      + intros _. by exists c, q.
      + done.
    - split; [done|]. intros (c' & q' & [= <-] & _ & [= <-] & Hq' & _). congruence. }
  case_bool_decide; apply H.
Qed.

Lemma mem_saturated_iff stats :
  mem_saturated stats = Some true ↔
  ∃ util, mem_p95_pct stats = Some util ∧ flt util (of_Z RS_MEM_UNDER_PCT) = false ∧
    (if is_windows (os_family stats)
     then ∃ r, mem_pages_input_rate_p95 stats = Some r ∧ fge r WIN_PAGES_INPUT_SATURATION = true
     else mem_swap_paging stats = true).
Proof.
  unfold mem_saturated.
  destruct (mem_p95_pct stats) as [u|]; [|split; [done|by intros (?&?&_)]].
  destruct (flt u _) eqn:Hu.
  { split; [done|]. intros (u' & [= <-] & Hu' & _). congruence. }
  destruct (is_windows _).
  - destruct (mem_pages_input_rate_p95 stats) as [r|].
    + split; [intros [= Hr]; eauto 10|].
      intros (? & _ & _ & r' & [= <-] & Hr). by f_equal.
    + split; [done|]. by intros (?&_&_&?&?&_).
  - split; [intros [= Hr]; eauto|]. intros (?&_&_&Hr). by f_equal.
Qed.

(** ** CPU *)

Lemma cpu_target_pos util c rq os sat t : _cpu_target_cores util c rq os sat = Ok t → 1 <= t.
Proof. unfold _cpu_target_cores. intros H. inv_ok. lia. Qed.

(** The measured branch of [assess_cpu]: what it decides, given the target. *)
Lemma assess_cpu_measured stats a :
  assess_cpu stats = Ok a → status a ≠ Unmeasured →
  ∃ c t, cpu_cores stats = Some c ∧ 0 < c ∧
    _cpu_target_cores (default (of_Z 0) (cpu_p95_pct stats)) c (_run_queue_value stats)
      (os_family stats) (default false (cpu_saturated stats)) = Ok t ∧
    let pressed := some_and (cpu_p95_pct stats) (λ u, fge u (of_Z RS_CPU_UNDER_PCT)) = true
                   ∨ cpu_saturated stats = Some true ∨ c < t in
    let busy := some_and (cpu_percore_p95_max stats) (λ p, fge p (of_Z RS_CPU_PERCORE_HOLD_PCT)) in
    (pressed ∧ status a = Under
       ∧ sizing_target a = (if c <? t then Some t else None)
       ∧ sizing_floor a = (if c <? t then None else Some (c + 1))
     ∨ ¬ pressed ∧ t < c ∧ busy = false ∧ status a = Over
       ∧ sizing_target a = Some t ∧ sizing_floor a = None
     ∨ ¬ pressed ∧ (t = c ∨ busy = true) ∧ status a = Optimal
       ∧ sizing_target a = Some c ∧ sizing_floor a = None).
Proof.
  intros H Hm. unfold assess_cpu in H.
  destruct (bool_decide _ && _); [inv_ok; subst; done|].
  destruct (cpu_cores stats) as [c|]; [|inv_ok; subst; done].
  destruct (c <=? 0) eqn:Hc; [inv_ok; subst; done|].
  apply result_bind_ok in H as (t & Ht & H). exists c, t.
  to_prop. do 3 (split; [done|]).
  destruct (cpu_saturated stats) as [[]|], (some_and (cpu_p95_pct stats) _);
    cbn in *; destruct (c <? t) eqn:E1, (t <? c) eqn:E2; try lia;
    destruct (some_and (cpu_percore_p95_max stats) _);
    cbn in *; inv_ok; subst; cbn; to_prop;
    (left; naive_solver lia) || (right; naive_solver lia).
Qed.

(** [x is not None and x >= c], for a value that is not NaN, is the negation of
    the [<] test. *)
Lemma fge_negb_flt x c : is_nan x = false → is_nan c = false → fge x c = negb (flt x c).
Proof. intros. unfold fge. rewrite flt_negb_fle by done. by rewrite negb_involutive. Qed.

(** A CPU judged over-provisioned is measured, quiet and not single-threaded. *)
Lemma cpu_over_spec stats a :
  assess_cpu stats = Ok a → status a = Over →
  ∃ c t, cpu_cores stats = Some c ∧ sizing_target a = Some t ∧ sizing_floor a = None ∧
    1 <= t < c ∧
    (∀ u, cpu_p95_pct stats = Some u → fge u (of_Z RS_CPU_UNDER_PCT) = false) ∧
    cpu_saturated stats ≠ Some true ∧
    (∀ p, cpu_percore_p95_max stats = Some p → fge p (of_Z RS_CPU_PERCORE_HOLD_PCT) = false).
Proof.
  intros H Hs. destruct (assess_cpu_measured _ _ H) as (c & t & Hc & Hpos & Ht & D); [congruence|].
  apply cpu_target_pos in Ht as Ht1. exists c, t.
  destruct D as [(_ & Hu & _)|[(Hn & Htc & Hb & _ & Htg & Hfl)|(_ & _ & Ho & _)]]; [congruence| |congruence].
  repeat split; try done.
  - intros u Hu. destruct (fge u _) eqn:E; [|done].
    destruct Hn. left. rewrite Hu. done.
  - intros Hsat. destruct Hn. by right; left.
  - by apply some_and_false.
Qed.

(** The API contract "recommended is never null": an under-provisioned CPU
    carries either an exact target or a floor, and it is above the current size. *)
Lemma cpu_under_spec stats a :
  assess_cpu stats = Ok a → status a = Under →
  ∃ c r, cpu_cores stats = Some c ∧ c < r ∧
    (sizing_target a = Some r ∧ sizing_floor a = None
     ∨ sizing_target a = None ∧ sizing_floor a = Some r).
Proof.
  intros H Hs. destruct (assess_cpu_measured _ _ H) as (c & t & Hc & Hpos & Ht & D); [congruence|].
  destruct D as [(_ & _ & Htg & Hfl)|[(_&_&_&Ho&_)|(_&_&Ho&_)]]; [|congruence..].
  exists c. destruct (c <? t) eqn:E; to_prop.
  - exists t. split; [done|]. split; [done|]. by left.
  - exists (c + 1). split; [done|]. split; [lia|]. by right.
Qed.

(** ** Memory *)

Lemma mem_paging_needs_util stats u :
  mem_p95_pct stats = Some u → flt u (of_Z RS_MEM_UNDER_PCT) = true → _mem_paging_active stats = false.
Proof. intros Hu Hl. unfold _mem_paging_active, mem_saturated. by rewrite Hu, Hl. Qed.

(** What makes a memory assessment, branch by branch. *)
Lemma assess_memory_cases stats a :
  assess_memory stats = Ok a →
  let trig := (∃ u, mem_p95_pct stats = Some u ∧ fge u (of_Z RS_MEM_UNDER_PCT) = true)
              ∨ _mem_paging_active stats = true ∨ oom_occurred stats = true in
  (status a = Under ∧ trig
     ∧ (∀ t, sizing_target a = Some t → sizing_floor a = None ∧
          ∀ total, mem_total_mb stats = Some total → total < t)
     ∧ (∀ total, mem_total_mb stats = Some total → sizing_target a = None →
          ∃ f, mem_headroom_mb total = Ok f ∧ sizing_floor a = Some f))
  ∨ (status a = Unmeasured ∧ mem_p95_pct stats = None ∧ oom_occurred stats = false)
  ∨ (status a = Over ∧ ¬ trig ∧ mem_p95_pct stats ≠ None ∧ ∃ total t,
       mem_total_mb stats = Some total ∧ sizing_target a = Some t ∧ t < total)
  ∨ (status a = Optimal ∧ ¬ trig ∧ mem_p95_pct stats ≠ None).
Proof.
  intros H. unfold assess_memory in H.
  destruct (mem_p95_pct stats) as [u|] eqn:Hu.
  - apply result_bind_ok in H as (tgt & _ & H).
    destruct (bool_decide (_ = [])) eqn:Htr; cbn [negb] in H; to_prop.
    + right; right. apply app_eq_nil in Htr as [H1 Htr]. apply app_eq_nil in Htr as [H2 H3].
      rewrite !when_trigger_nil in *.
      assert (¬ ((∃ u0, Some u = Some u0 ∧ fge u0 (of_Z RS_MEM_UNDER_PCT) = true)
                 ∨ _mem_paging_active stats = true ∨ oom_occurred stats = true)) as Hn.
      { intros [(u' & [= <-] & ?)|[?|?]]; congruence. }
      destruct (mem_total_mb stats) as [total|], tgt as [t|]; cbn in H.
      2-4: right; injection H as <-; done.
      destruct (_ && _ && _) eqn:E; injection H as <-; [left|right]; [|done].
      to_prop. split; [done|]. split; [done|]. split; [done|]. by exists total, t.
    + apply result_bind_ok in H as (up & Hup & H).
      apply result_bind_ok in H as (fl & Hfl & H). injection H as <-. cbn. left.
      split; [done|]. split; [|split].
      * destruct (fge u (of_Z RS_MEM_UNDER_PCT)) eqn:E1; [left; eauto|].
        destruct (_mem_paging_active stats) eqn:E2; [by right; left|].
        destruct (oom_occurred stats) eqn:E3; [by right; right|]. done.
      * intros t ->. cbn in Hfl. injection Hfl as <-. split; [done|].
        intros total Htot. unfold _mem_under_target in Hup. rewrite Htot in Hup.
        apply result_bind_ok in Hup as (ex & _ & Hup).
        destruct (omap id _) as [|x l]; [done|].
        destruct (total <? max_list_Z x l) eqn:E; [|done]. injection Hup as <-. by to_prop.
      * intros total Htot ->. rewrite Htot in Hfl.
        apply result_fmap_ok in Hfl as (f & Hf & ->). eauto.
  - destruct (oom_occurred stats) eqn:Ho.
    + apply result_bind_ok in H as (fl & Hfl & H). injection H as <-. cbn. left.
      split; [done|]. split; [by right; right|]. split; [done|].
      intros total Htot _. rewrite Htot in Hfl.
      apply result_fmap_ok in Hfl as (f & Hf & ->). eauto.
    + injection H as <-. by right; left.
Qed.

(** Below its thresholds the utilisation formula asks for no more cores than there are. *)
Lemma cpu_target_quiet u c rq os :
  py_float u → fge u (of_Z RS_CPU_UNDER_PCT) = false → 0 < c < 2 ^ 31 →
  ∃ t, _cpu_target_cores u c rq os false = Ok t ∧ t <= c.
Proof.
  intros Hv Hu Hc. unfold _cpu_target_cores.
  assert (∃ z, (if fgt u (of_Z 0)
    then py_ceil (fdiv (fmul u (of_Z c)) (of_Z RS_CPU_SIZING_TARGET_PCT)) else Ok 1) = Ok z ∧ z <= c) as (z & -> & Hz).
  { destruct (fgt u (of_Z 0)) eqn:E; [|exists 1; split; [done|lia]].
    apply share_at_most; try done. rewrite fge_negb_flt in Hu; [|by destruct u|done].
    exact (proj1 (negb_false_iff _) Hu). }
  exists (Z.max (Z.max 1 z) 0). split; [by destruct rq|lia].
Qed.

(** A CPU under pressure has a cause of its own. *)
Lemma cpu_under_cause stats a :
  (∀ u, cpu_p95_pct stats = Some u → py_float u) → (∀ c, cpu_cores stats = Some c → c < 2 ^ 31) →
  assess_cpu stats = Ok a → status a = Under →
  some_and (cpu_p95_pct stats) (λ u, fge u (of_Z RS_CPU_UNDER_PCT)) = true ∨ cpu_saturated stats = Some true.
Proof.
  intros Hv Hb H Hs. destruct (assess_cpu_measured _ _ H) as (c & t & Hc & Hp & Ht & D); [congruence|].
  destruct D as [([Hu|[Hu|Hu]] & _)|[(_&_&_&Ho&_)|(_&_&Ho&_)]]; [by left|by right| |congruence..].
  destruct (decide (cpu_saturated stats = Some true)) as [|Hsat]; [by right|left].
  destruct (some_and _ _) eqn:E; [done|exfalso].
  assert (default false (cpu_saturated stats) = false) as Es by (by destruct (cpu_saturated stats) as [[]|]).
  rewrite Es in Ht.
  destruct (cpu_target_quiet (default (of_Z 0) (cpu_p95_pct stats)) c (_run_queue_value stats) (os_family stats))
    as (t' & Ht' & Hle); [..|assert (t = t') by congruence; lia].
  - destruct (cpu_p95_pct stats) as [u|]; [by apply Hv|done].
  - by destruct (cpu_p95_pct stats) as [u|].
  - split; [done|by apply Hb].
Qed.

Lemma cpu_under_triggers stats a :
  assess_cpu stats = Ok a → status a = Under →
  triggers a = when_trigger (some_and (cpu_p95_pct stats) (λ u, fge u (of_Z RS_CPU_UNDER_PCT))) cpu_util
               ++ when_trigger (default false (cpu_saturated stats)) cpu_saturation.
Proof.
  unfold assess_cpu. intros H Hs. destruct (bool_decide _ && _); [inv_ok; subst; done|].
  destruct (cpu_cores stats) as [c|]; [|inv_ok; subst; done]. destruct (c <=? 0); [inv_ok; subst; done|].
  apply result_bind_ok in H as (t & Ht & H). cbn zeta in H.
  destruct (_ || _); [by injection H as <-|]. destruct (_ && _); injection H as <-; done.
Qed.

(** ** Totality

    The measured values are floats Python can hold; percentages lie in
    [[0, 100]], queue lengths and sizes far below the float range. *)

Definition measured_within (o : option float) (hi : float) : Prop :=
  ∀ x, o = Some x → py_float x ∧ fle (of_Z 0) x = true ∧ fle x hi = true.

Record sane_stats (stats : ResourceStats) : Prop := {
  sane_cpu_util : measured_within (cpu_p95_pct stats) (of_Z 100);
  sane_cores : ∀ c, cpu_cores stats = Some c → c < 2 ^ 31;
  sane_queue : measured_within (_run_queue_value stats) (of_Z (2 ^ 40));
  sane_mem_util : measured_within (mem_p95_pct stats) (of_Z 100);
  sane_mem_peak : measured_within (mem_near_peak_pct stats) (of_Z 100);
  sane_mem_total : ∀ t, mem_total_mb stats = Some t → 0 <= t < 2 ^ 44;
  sane_disk_target : measured_within (disk_capacity_target_gb stats) (of_Z (2 ^ 50));
}.

Lemma ceil_mag K x : mag_le K x → ∃ z, py_ceil x = Ok z.
Proof. eauto using py_ceil_finite, mag_le_finite. Qed.

Lemma within_mag K o hi m e x :
  hi = S754_finite false m e → e + 53 <= K → measured_within o hi → o = Some x → mag_le K x.
Proof.
  intros -> HK H Ho. destruct (H x Ho) as (Hv & H0 & H1). eauto using py_float_between.
Qed.

Lemma pct_mag o x : measured_within o (of_Z 100) → o = Some x → mag_le 7 x.
Proof. eapply within_mag; [vm_compute; reflexivity|lia]. Qed.

Lemma queue_mag o x : measured_within o (of_Z (2 ^ 40)) → o = Some x → mag_le 41 x.
Proof. eapply within_mag; [vm_compute; reflexivity|lia]. Qed.

Lemma disk_target_mag o x : measured_within o (of_Z (2 ^ 50)) → o = Some x → mag_le 51 x.
Proof. eapply within_mag; [vm_compute; reflexivity|lia]. Qed.

(** Dividing by a percentage constant, whose exponent is -46. *)
Lemma fdiv_pct_mag K x n m :
  of_Z n = S754_finite false m (-46) → 0 <= K <= 900 → mag_le K x →
  mag_le (K + 47) (fdiv x (of_Z n)).
Proof.
  intros -> HK Hx. replace (K + 47) with (K - (-46) + 1) by lia.
  apply fdiv_mag; [cbv [femax fprec]; lia|done].
Qed.

Lemma fmul_mag' K1 K2 K x y :
  0 <= K1 + K2 < 900 → K = K1 + K2 + 1 → mag_le K1 x → mag_le K2 y → mag_le K (fmul x y).
Proof. intros HK -> ??. apply fmul_mag; [cbv [femax fprec]; lia|done|done]. Qed.

Lemma of_Z_mag' n k : 0 <= k < 900 → Z.abs n < 2 ^ k → mag_le (k + 1) (of_Z n).
Proof. intros. apply of_Z_mag; [cbv [femax fprec]; lia|done]. Qed.

Lemma cpu_target_total util c rq os sat :
  mag_le 7 util → 0 < c < 2 ^ 31 → (∀ q, rq = Some q → mag_le 41 q) →
  ∃ t, _cpu_target_cores util c rq os sat = Ok t.
Proof.
  intros Hu Hc Hq. unfold _cpu_target_cores.
  assert (∃ a, (if fgt util (of_Z 0)
    then py_ceil (fdiv (fmul util (of_Z c)) (of_Z RS_CPU_SIZING_TARGET_PCT)) else Ok 1) = Ok a)
    as [a ->].
  { destruct (fgt _ _); [|by exists 1]. eapply ceil_mag, (fdiv_pct_mag 40);
      [vm_compute; reflexivity|lia|].
    eapply (fmul_mag' 7 32); [lia..|done|]. apply (of_Z_mag' _ 31); lia. }
  cbn. destruct rq as [q|]; [|eauto].
  destruct (_ && _); [|eauto].
  assert (∃ b, py_ceil (fdiv q (fmul (_RS_CPU_SAT_LINE os) RS_CPU_SAT_HEADROOM)) = Ok b)
    as [b ->]; [|eauto].
  unfold _RS_CPU_SAT_LINE. destruct (String.eqb _ _).
  - eapply ceil_mag.
    change (fmul CPU_RUN_QUEUE_PER_CORE_SATURATION RS_CPU_SAT_HEADROOM) with
      (S754_finite false 6305039478318694 (-52)).
    apply (fdiv_mag 41); [cbv [femax fprec]; lia|by apply Hq].
  - eapply ceil_mag.
    change (fmul PROCS_RUNNING_PER_CORE_SATURATION RS_CPU_SAT_HEADROOM) with
      (S754_finite false 6305039478318694 (-53)).
    apply (fdiv_mag 41); [cbv [femax fprec]; lia|by apply Hq].
Qed.

Lemma assess_cpu_total stats : sane_stats stats → ∃ a, assess_cpu stats = Ok a.
Proof.
  intros S. unfold assess_cpu.
  destruct (bool_decide _ && _); [eauto|].
  destruct (cpu_cores stats) as [c|] eqn:Hc; [|eauto].
  destruct (c <=? 0) eqn:E; [eauto|]. to_prop.
  destruct (cpu_target_total (default (of_Z 0) (cpu_p95_pct stats)) c (_run_queue_value stats)
    (os_family stats) (default false (cpu_saturated stats))) as [t ->].
  - destruct (cpu_p95_pct stats) as [u|] eqn:Hu; [|done].
    eapply pct_mag; [apply (sane_cpu_util _ S)|done].
  - pose proof (sane_cores _ S c Hc). lia.
  - intros q Hq. eapply queue_mag; [apply (sane_queue _ S)|done].
  - cbn. destruct (_ || _); [eauto|]. destruct (_ && _); eauto.
Qed.

Lemma mem_headroom_total t : 0 <= t < 2 ^ 44 → ∃ f, mem_headroom_mb t = Ok f.
Proof.
  intros Ht. unfold mem_headroom_mb. eapply ceil_mag, (fmul_mag' 45 1); [lia|done| |].
  - apply (of_Z_mag' _ 44); lia.
  - by vm_compute.
Qed.

Lemma mem_under_target_total tgt stats :
  sane_stats stats → ∃ r, _mem_under_target tgt stats = Ok r.
Proof.
  intros S. unfold _mem_under_target.
  destruct (mem_total_mb stats) as [t|] eqn:Ht.
  - destruct (mem_headroom_total t) as [f Hf]; [by eapply sane_mem_total|].
    destruct (_ || _); rewrite ?Hf; cbn; destruct tgt; cbn; eauto.
  - destruct tgt; cbn; eauto.
Qed.

Lemma assess_memory_total stats : sane_stats stats → ∃ a, assess_memory stats = Ok a.
Proof.
  intros S. unfold assess_memory.
  destruct (mem_p95_pct stats) as [u|] eqn:Hu.
  - assert (∃ r, _mem_target_mb (default u (mem_near_peak_pct stats)) (mem_total_mb stats) = Ok r)
      as [tgt ->].
    { unfold _mem_target_mb. destruct (mem_total_mb stats) as [t|] eqn:Ht; [|eauto].
      destruct (fle _ _); [eauto|].
      destruct (ceil_mag 100 (fdiv (fmul (of_Z t) (default u (mem_near_peak_pct stats)))
        (of_Z RS_MEM_SIZING_TARGET_PCT))) as [z ->]; [|cbn; eauto].
      apply (fdiv_pct_mag 53 _ _ 5629499534213120); [vm_compute; reflexivity|lia|].
      apply (fmul_mag' 45 7); [lia..| |].
      - apply (of_Z_mag' _ 44); [lia|]. pose proof (sane_mem_total _ S t Ht). lia.
      - destruct (mem_near_peak_pct stats) as [p|] eqn:Hp; cbn.
        + eapply pct_mag; [apply (sane_mem_peak _ S)|done].
        + eapply pct_mag; [apply (sane_mem_util _ S)|done]. }
    cbn. destruct (negb _).
    + destruct (mem_under_target_total tgt stats S) as [up ->]. cbn.
      destruct up; [cbn; eauto|]. destruct (mem_total_mb stats) as [t|] eqn:Ht; [|cbn; eauto].
      destruct (mem_headroom_total t) as [f ->]; [by eapply sane_mem_total|cbn; eauto].
    + destruct (mem_total_mb stats), tgt; eauto. destruct (_ && _); eauto.
  - destruct (oom_occurred stats); [|eauto].
    destruct (mem_total_mb stats) as [t|] eqn:Ht; [|cbn; eauto].
    destruct (mem_headroom_total t) as [f ->]; [by eapply sane_mem_total|cbn; eauto].
Qed.

Lemma assess_disk_capacity_total stats : sane_stats stats → ∃ a, assess_disk_capacity stats = Ok a.
Proof.
  intros S. unfold assess_disk_capacity.
  destruct (disk_capacity_target_gb stats) as [t|] eqn:Ht.
  - assert (∃ r, (if fge t (of_Z 1) then Some <$> py_ceil t else Ok None) = Ok r) as [r ->].
    { destruct (fge _ _); [|eauto].
      destruct (ceil_mag 51 t) as [z ->]; [|cbn; eauto].
      eapply disk_target_mag; [apply (sane_disk_target _ S)|done]. }
    cbn. repeat case_match; eauto.
  - cbn. repeat case_match; eauto.
Qed.

Lemma assess_disk_io_total stats : ∃ a, assess_disk_io stats = Ok a.
Proof.
  unfold assess_disk_io, disk_io_saturated.
  destruct (disk_await_p95_ms stats) as [x|]; [cbn; eauto|].
  destruct (is_windows _); [destruct (disk_queue_p95 stats); [cbn; eauto|]|];
    destruct (disk_iops_baseline stats); eauto.
Qed.

(** ** Disk capacity *)

Lemma foldl_fmin2_below x l c :
  is_nan x = false → Forall (λ y, is_nan y = false) l → is_nan c = false →
  flt (foldl fmin2 x l) c = true ↔ flt x c = true ∨ Exists (λ y, flt y c = true) l.
Proof.
  intros Hx Hl Hc. revert x Hx. induction l as [|y l IH]; intros x Hx; cbn.
  { rewrite Exists_nil. tauto. }
  apply Forall_cons in Hl as [Hy Hl]. rewrite Exists_cons, IH; [|done|].
  2: { unfold fmin2. by destruct (flt y x). }
  unfold fmin2. destruct (flt y x) eqn:E.
  - split; [tauto|]. intros [H|H]; [|tauto]. left.
    eapply flt_fle_trans; [exact E|]. by apply flt_fle.
  - rewrite flt_negb_fle in E by done. apply negb_false_iff in E.
    split; [tauto|]. intros [H|[H|H]]; [tauto| |tauto]. left. by eapply fle_flt_trans.
Qed.

Definition not_nan (o : option float) : Prop := ∀ x, o = Some x → is_nan x = false.

(** The host-level verdict and the per-mount predicate use one filling rule on
    each axis. *)
Lemma disk_capacity_filling_iff stats a :
  not_nan (disk_capacity_runway_days stats) → not_nan (disk_inode_runway_days stats) →
  assess_disk_capacity stats = Ok a →
  status a = Filling ↔
  axis_filling (disk_capacity_runway_days stats) (disk_used_pct stats) = true
  ∨ axis_filling (disk_inode_runway_days stats) (disk_inode_used_pct stats) = true.
Proof.
  intros N1 N2 H. unfold assess_disk_capacity in H.
  apply result_bind_ok in H as (tgt & _ & H).
  unfold axis_filling. unfold not_nan in *.
  destruct (disk_capacity_runway_days stats) as [r1|];
    destruct (disk_inode_runway_days stats) as [r2|];
    cbn -[flt fge fmt_fixed] in *.
  - pose proof (foldl_fmin2_below r1 [r2] (of_Z RS_DISK_RUNWAY_DAYS)) as F.
    rewrite Exists_cons, Exists_nil in F. cbn [foldl] in F.
    specialize (F (N1 _ eq_refl) ltac:(constructor; [by apply N2|constructor]) eq_refl).
    rewrite !orb_false_r.
    destruct (flt (fmin2 r1 r2) _) eqn:E; injection H as <-; cbn; naive_solver.
  - destruct (flt r1 _) eqn:E; cbn in *; [injection H as <-; naive_solver|].
    destruct (disk_inode_used_pct stats) as [u|]; cbn in *; [|injection H as <-; naive_solver].
    destruct (fge u _); injection H as <-; naive_solver.
  - destruct (flt r2 _) eqn:E; cbn in *; [injection H as <-; naive_solver|].
    destruct (disk_used_pct stats) as [u|]; cbn in *; [|injection H as <-; naive_solver].
    destruct (fge u _); injection H as <-; naive_solver.
  - destruct (disk_used_pct stats) as [u|]; cbn in *.
    + destruct (fge u _); cbn in *; [injection H as <-; naive_solver|].
      destruct (disk_inode_used_pct stats) as [u2|]; cbn in *; [|injection H as <-; naive_solver].
      destruct (fge u2 _); injection H as <-; naive_solver.
    + destruct (disk_inode_used_pct stats) as [u2|]; cbn in *; [|injection H as <-; naive_solver].
      destruct (fge u2 _); injection H as <-; naive_solver.
Qed.

(** ** Network *)

(** The snapshot signal and the window verdict agree. *)
Lemma net_signal_congested stats :
  net_signal_active (net_retrans_pct stats) (net_drop_pct stats) (conntrack_ratio stats)
    (net_avg_kbytes_per_s stats)
  = bool_decide (status (assess_network stats) = Congested).
Proof.
  unfold net_signal_active, assess_network.
  set (low := some_and (net_avg_kbytes_per_s stats) _).
  set (r := some_and (net_retrans_pct stats) _).
  set (d := some_and (net_drop_pct stats) _).
  set (c := some_and (conntrack_ratio stats) _).
  destruct low, r, d, c; cbn; try done;
    destruct (net_retrans_pct stats), (net_drop_pct stats), (conntrack_ratio stats); done.
Qed.

(** ** Mounts *)

(** Every mount sizing keeps or enlarges the mount. *)
Lemma mount_never_shrinks total target r1 u1 r2 u2 ms :
  assess_mount_capacity total target r1 u1 r2 u2 = Ok (Some ms) →
  current_gib ms <= recommended_gib ms
  ∧ (action ms = keep → recommended_gib ms = current_gib ms)
  ∧ (action ms = increase → axis_filling r1 u1 = true)
  ∧ (axis_filling r1 u1 = false → action ms = keep)
  ∧ (estimate_quality ms = floor_estimate → target = None).
Proof.
  unfold assess_mount_capacity. intros H. destruct total as [t|]; [|done].
  destruct (t =? 0); [done|]. apply result_bind_ok in H as (cur & _ & H).
  destruct (axis_filling r1 u1); [destruct target as [tg|]|].
  - apply result_bind_ok in H as (x & _ & H). injection H as <-. cbn.
    destruct (cur <? Z.max cur x) eqn:E; to_prop; repeat split; try done; try lia.
  - apply result_bind_ok in H as (x & _ & H). injection H as <-. cbn.
    repeat split; try done. lia.
  - destruct (axis_filling r2 u2); injection H as <-; cbn; repeat split; done || lia.
Qed.
