(* ===== verification/RollupFacts.v ===== *)
(** * Properties of the host roll-up and of the prescriptions *)

From S2P Require Import Prelude PyFloat RightSizing Assess AssessFacts Rollup.

(** ** Which statuses each assessment can take *)

Lemma cpu_status stats a :
  assess_cpu stats = Ok a → status a ∈ [Under; Over; Optimal; Unmeasured].
Proof.
  intros H. destruct (decide (status a = Unmeasured)) as [->|Hn]; [in_list|].
  destruct (assess_cpu_measured _ _ H Hn) as (?&?&_&_&_&D).
  destruct D as [(_&->&_)|[(_&_&_&->&_)|(_&_&->&_)]]; in_list.
Qed.

Lemma memory_status stats a :
  assess_memory stats = Ok a → status a ∈ [Under; Over; Optimal; Unmeasured].
Proof. intros H. destruct (assess_memory_cases _ _ H) as [[-> _]|[[-> _]|[[-> _]|[-> _]]]]; in_list. Qed.

Lemma disk_capacity_status stats a :
  assess_disk_capacity stats = Ok a → status a ∈ [Filling; CapacityOk; Unmeasured].
Proof.
  unfold assess_disk_capacity. intros H. apply result_bind_ok in H as (t & _ & H).
  repeat case_match; injection H as <-; in_list.
Qed.

Lemma disk_io_status stats a :
  assess_disk_io stats = Ok a → status a ∈ [IoBound; IoOk; Unmeasured].
Proof.
  unfold assess_disk_io. intros H.
  destruct (disk_io_saturated stats) as [b|].
  - apply result_bind_ok in H as (d & _ & H). injection H as <-. destruct b; in_list.
  - destruct (disk_iops_baseline stats); injection H as <-; in_list.
Qed.

Lemma network_status stats : status (assess_network stats) ∈ [Congested; QualityOk; Unmeasured].
Proof. unfold assess_network. repeat case_match; in_list. Qed.

(** ** The dict of assessments *)

Section dict.
Variables cpu memory disk_capacity disk_io network : ResourceAssessment.

Definition res_of (k : ResourceKind) : ResourceAssessment :=
  match k with
  | Cpu => cpu | Memory => memory | DiskCapacity => disk_capacity
  | DiskIo => disk_io | Network => network
  end.

Lemma res_items_lookup k :
  (list_to_map (res_items cpu memory disk_capacity disk_io network)
  : gmap ResourceKind ResourceAssessment) !! k = Some (res_of k).
Proof. destruct k; reflexivity. Qed.

Lemma res_items_rootable :
  fst <$> filter (λ ka, rootable ka.2 = true) (res_items cpu memory disk_capacity disk_io network)
  = filter (λ k, rootable (res_of k) = true) [Cpu; Memory; DiskCapacity; DiskIo; Network].
Proof.
  unfold res_items. rewrite !filter_cons; cbn [fst snd res_of].
  repeat (case_decide; cbn; try done).
Qed.
End dict.

(** The kinds [rollup_host] finds under pressure, read off the assessments *)
Definition pressed_kinds (cpu memory disk_capacity : ResourceAssessment) : list ResourceKind :=
  (if decide (status cpu = Under) then [Cpu] else [])
  ++ (if decide (status memory = Under) then [Memory] else [])
  ++ (if decide (status disk_capacity = Filling) then [DiskCapacity] else []).

Lemma rootable_true a : rootable a = true ↔ status a = Under ∨ status a = Filling.
Proof. unfold rootable, _ROOTABLE_UNDER. rewrite mem_true. set_solver. Qed.

(** The result of a roll-up, with the five assessments it was made from. *)
Record rolled (stats : ResourceStats) (h : HostAssessment) (c m d i : ResourceAssessment) : Prop := {
  ro_cpu_ok : assess_cpu stats = Ok c;
  ro_memory_ok : assess_memory stats = Ok m;
  ro_disk_capacity_ok : assess_disk_capacity stats = Ok d;
  ro_disk_io_ok : assess_disk_io stats = Ok i;
  ro_lookup : ∀ k, resources h !! k = Some (res_of c m d i (assess_network stats) k);
  ro_status : _host_status stats (resources h) (pressed_kinds c m d) = Ok (host_status h);
  ro_network : network_congested h = bool_decide (status (assess_network stats) = Congested);
  ro_root :
    let mem_led := status m = Under ∧ _mem_paging_active stats = true
                   ∧ (status i = IoBound ∨ status c = Under) in
    let disk_led := status i = IoBound ∧ status c = Under
                    ∧ some_and (procs_blocked_p95 stats)
                        (λ p, fge p PROCS_BLOCKED_DSTATE_SATURATION) = true in
    (mem_led ∧ root_cause h = Some Memory
       ∧ symptom_of_root h = (if decide (status i = IoBound) then [DiskIo] else [])
                              ++ (if decide (status c = Under) then [Cpu] else []))
    ∨ (¬ mem_led ∧ disk_led ∧ root_cause h = Some DiskIo ∧ symptom_of_root h = [Cpu])
    ∨ (¬ mem_led ∧ ¬ disk_led ∧ symptom_of_root h = []
         ∧ root_cause h = if decide (status m = Under) then Some Memory
                          else if decide (status c = Under) then Some Cpu
                          else if decide (status d = Filling) then Some DiskCapacity
                          else None);
}.

(** Case analysis on every status test of the goal. *)
Ltac decide_status :=
  repeat match goal with
  | |- context [decide (status ?x = ?s)] =>
      let E := fresh "E" in destruct (decide (status x = s)) as [E|E];
      [rewrite ?(bool_decide_eq_true_2 (status x = s) E)
      |rewrite ?(bool_decide_eq_false_2 (status x = s) E)]
  end.

Lemma mem_pressed k c m d :
  mem k (pressed_kinds c m d) =
  match k with
  | Cpu => bool_decide (status c = Under)
  | Memory => bool_decide (status m = Under)
  | DiskCapacity => bool_decide (status d = Filling)
  | _ => false
  end.
Proof.
  destruct k; unfold pressed_kinds; decide_status; reflexivity.
Qed.

Lemma pressed_nil c m d :
  pressed_kinds c m d = [] ↔ status c ≠ Under ∧ status m ≠ Under ∧ status d ≠ Filling.
Proof.
  unfold pressed_kinds.
  destruct (decide (status c = Under)), (decide (status m = Under)),
    (decide (status d = Filling)); cbn; split; intros; (done || tauto).
Qed.

Lemma rootable_cpu_memory a :
  status a ∈ [Under; Over; Optimal; Unmeasured] → rootable a = bool_decide (status a = Under).
Proof. unfold rootable. intros H. by case_in_list H. Qed.

Lemma rootable_disk a :
  status a ∈ [Filling; CapacityOk; Unmeasured] → rootable a = bool_decide (status a = Filling).
Proof. unfold rootable. intros H. by case_in_list H. Qed.

Lemma rootable_disk_io a : status a ∈ [IoBound; IoOk; Unmeasured] → rootable a = false.
Proof. unfold rootable. intros H. by case_in_list H. Qed.

Lemma rootable_network stats : rootable (assess_network stats) = false.
Proof.
  pose proof (network_status stats) as H. unfold rootable. by case_in_list H.
Qed.

Lemma rootable_items c m d i stats :
  assess_cpu stats = Ok c → assess_memory stats = Ok m →
  assess_disk_capacity stats = Ok d → assess_disk_io stats = Ok i →
  fst <$> filter (λ ka, rootable ka.2 = true) (res_items c m d i (assess_network stats))
  = pressed_kinds c m d.
Proof.
  intros Hc Hm Hd Hi. rewrite res_items_rootable, !filter_cons, filter_nil. cbn [res_of].
  rewrite (rootable_cpu_memory c), (rootable_cpu_memory m), (rootable_disk d),
    (rootable_disk_io i), rootable_network
    by eauto using cpu_status, memory_status, disk_capacity_status, disk_io_status.
  unfold pressed_kinds; decide_status; reflexivity.
Qed.

Lemma rollup_inv stats h : rollup_host stats = Ok h → ∃ c m d i, rolled stats h c m d i.
Proof.
  unfold rollup_host. intros H.
  apply result_bind_ok in H as (c & Hc & H).
  apply result_bind_ok in H as (m & Hm & H).
  apply result_bind_ok in H as (d & Hd & H).
  apply result_bind_ok in H as (i & Hi & H).
  rewrite (rootable_items c m d i stats) in H by done.
  match type of H with (let '(_, _) := ?p in _) = _ => destruct p as [root syms] eqn:Hrs end.
  apply result_bind_ok in H as (hs & Hhs & H). injection H as <-.
  exists c, m, d, i. constructor; try done; [apply res_items_lookup|]. cbn [root_cause symptom_of_root].
  clear Hhs Hc Hm Hd Hi. unfold root_order in Hrs.
  rewrite !filter_cons, !filter_nil, !mem_pressed in Hrs.
  assert (bool_decide (pressed_kinds c m d = []) =
    negb (bool_decide (status c = Under) || bool_decide (status m = Under)
          || bool_decide (status d = Filling))) as E.
  { unfold pressed_kinds; decide_status; reflexivity. }
  rewrite E in Hrs. clear E. revert Hrs.
  destruct (decide (status i = IoBound)) as [Ei|Ei];
    [rewrite (bool_decide_eq_true_2 _ Ei)|rewrite (bool_decide_eq_false_2 _ Ei)];
  destruct (_mem_paging_active stats), (some_and (procs_blocked_p95 stats) _);
  decide_status; cbn; intros [= <- <-]; cbn; intuition congruence.
Qed.

(** ** Host status *)

Lemma host_status_under stats res under hs :
  _host_status stats res under = Ok hs → hs = HostUnder ↔ under ≠ [].
Proof.
  unfold _host_status. intros H.
  destruct under as [|k under]; cbn in H; [|injection H as <-; done].
  split; [|done]. intros ->.
  apply result_bind_ok in H as (a & _ & H). apply result_bind_ok in H as (b & _ & H).
  repeat case_match; done.
Qed.

(** The list the prescriptions and the display walk, in causal order *)
Lemma under_kinds_rolled stats h c m d i :
  rolled stats h c m d i →
  _under_kinds h = (if decide (status m = Under) then [Memory] else [])
    ++ (if decide (status c = Under) then [Cpu] else [])
    ++ (if decide (status d = Filling) then [DiskCapacity] else []).
Proof.
  intros R. destruct R as [Hc Hm Hd Hi Hl _ _ _]. unfold _under_kinds, _UNDER_ORDER.
  rewrite !filter_cons, filter_nil, !Hl. cbn [res_of].
  rewrite (rootable_cpu_memory c), (rootable_cpu_memory m), (rootable_disk d),
    (rootable_disk_io i), rootable_network
    by eauto using cpu_status, memory_status, disk_capacity_status, disk_io_status.
  decide_status; reflexivity.
Qed.

Lemma root_cause_pressed stats h c m d i :
  rolled stats h c m d i → root_cause h ≠ None ↔ pressed_kinds c m d ≠ [].
Proof.
  intros R. pose proof (ro_root _ _ _ _ _ _ R) as H. rewrite pressed_nil.
  destruct (decide (status m = Under)), (decide (status c = Under)),
    (decide (status d = Filling)); cbn in H; intuition congruence.
Qed.

Lemma host_under_pressed stats h c m d i :
  rolled stats h c m d i → host_status h = HostUnder ↔ pressed_kinds c m d ≠ [].
Proof. intros R. eapply host_status_under, (ro_status _ _ _ _ _ _ R). Qed.

Lemma under_kinds_pressed stats h c m d i :
  rolled stats h c m d i → _under_kinds h ≠ [] ↔ pressed_kinds c m d ≠ [].
Proof.
  intros R. rewrite (under_kinds_rolled _ _ _ _ _ _ R), pressed_nil.
  decide_status; cbn; intuition congruence.
Qed.

(** [res["k"]] of a rolled-up host *)
Lemma rolled_get stats h c m d i k :
  rolled stats h c m d i →
  res_get (resources h) k = Ok (res_of c m d i (assess_network stats) k).
Proof. intros R. unfold res_get. by rewrite (ro_lookup _ _ _ _ _ _ R). Qed.

(** The verdict on one resource of a host *)
Definition verdict_is (h : HostAssessment) (k : ResourceKind) (s : ResourceStatus) : Prop :=
  status <$> resources h !! k = Some s.

Lemma verdict_rolled stats h c m d i k s :
  rolled stats h c m d i → verdict_is h k s ↔ status (res_of c m d i (assess_network stats) k) = s.
Proof.
  intros R. unfold verdict_is. rewrite (ro_lookup _ _ _ _ _ _ R). cbn. split; [by intros [=]|by intros ->].
Qed.

(** What the branches of [_host_status] below "under" establish. *)
Lemma host_status_rest stats h c m d i :
  rolled stats h c m d i → pressed_kinds c m d = [] →
  (host_status h = HostInsufficient → status c = Unmeasured ∧ status m = Unmeasured)
  ∧ (host_status h = HostIdle →
       ¬ (status c = Unmeasured ∧ status m = Unmeasured)
       ∧ (∃ u, cpu_p95_pct stats = Some u ∧ fle u (of_Z IDLE_CPU_P95_PCT) = true)
       ∧ (∃ n, net_avg_kbytes_per_s stats = Some n ∧
            fle (fdiv (fmul n (of_Z 8)) (of_Z 1000)) (of_Z IDLE_NET_MBPS) = true)
       ∧ (∀ io, disk_iops_baseline stats = Some io → fgt io (of_Z IDLE_DISK_IOPS) = false))
  ∧ (host_status h = HostOver → status c = Over ∨ status m = Over)
  ∧ (host_status h = HostOptimal →
       ¬ (status c = Unmeasured ∧ status m = Unmeasured) ∧ status c ≠ Over ∧ status m ≠ Over).
Proof.
  intros R Hp. pose proof (ro_status _ _ _ _ _ _ R) as H. unfold _host_status in H.
  rewrite Hp, (rolled_get _ _ _ _ _ _ Cpu R), (rolled_get _ _ _ _ _ _ Memory R) in H.
  cbn [res_of mbind result_bind bool_decide negb] in H.
  assert (∀ a, status a ∈ [Under; Over; Optimal; Unmeasured] →
    mem (status a) [Unmeasured; Insufficient] = bool_decide (status a = Unmeasured)) as Hu.
  { intros a Ha. by case_in_list Ha. }
  rewrite (Hu c (cpu_status _ _ (ro_cpu_ok _ _ _ _ _ _ R))),
    (Hu m (memory_status _ _ (ro_memory_ok _ _ _ _ _ _ R))) in H. clear Hu.
  cbn -[some_and] in H.
  destruct (bool_decide (status c = Unmeasured) && bool_decide (status m = Unmeasured)) eqn:E1.
  { injection H as <-. to_prop. intuition congruence. }
  assert (¬ (status c = Unmeasured ∧ status m = Unmeasured)) as E1'.
  { intros [Ec Em]. rewrite Ec, Em in E1. done. }
  destruct (some_and (cpu_p95_pct stats) _ && _ && _) eqn:E2.
  { injection H as <-. to_prop. rewrite some_and_true in *.
    split; [congruence|]. split; [intros _|split; congruence].
    split; [done|]. split; [naive_solver|]. split.
    - destruct (net_avg_kbytes_per_s stats) as [n|]; cbn in *; naive_solver.
    - by apply some_and_false. }
  destruct (_ || _) eqn:E3; injection H as <-.
  - split; [congruence|]. split; [congruence|]. split; [|congruence]. intros _.
    apply orb_true_iff in E3 as [E3|E3]; to_prop; auto.
  - to_prop. intuition congruence.
Qed.
