(* ===== verification/RightSizingProps.v ===== *)
(** * Right-sizing: the properties

    The correctness statements of [recommendation.py], each a short application
    of the lemmas of [AssessFacts] and [RollupFacts], with a witness on a
    concrete host where it has hypotheses. *)

From S2P Require Import Prelude PyFloat RightSizing Assess AssessFacts Rollup RollupFacts.

(** A Linux host with four cores and 8 GB: CPU quiet, memory at 95 percent,
    paging, the run queue long, the disk slow. *)
Definition pressed_host : ResourceStats := {|
  cpu_p95_pct := Some (of_Z 80); cpu_peak_pct := Some (of_Z 99); cpu_cores := Some 4;
  mem_p95_pct := Some (of_Z 95); disk_used_pct := Some (of_Z 50);
  net_avg_kbytes_per_s := Some (of_Z 500); os_family := Some "linux"%string;
  sample_sufficiency := Some (of_Z 1); disk_queue_p95 := None; cpu_run_queue_p95 := None;
  mem_pages_input_rate_p95 := None; cpu_percore_p95_max := Some (of_Z 90);
  procs_blocked_p95 := Some (of_Z 2); procs_running_p95 := Some (of_Z 6);
  mem_swap_paging := true; oom_occurred := false; mem_total_mb := Some 8192;
  mem_near_peak_pct := Some (of_Z 96); disk_await_p95_ms := Some (of_Z 35);
  disk_iops_baseline := Some (of_Z 40); disk_capacity_runway_days := Some (of_Z 12);
  disk_inode_runway_days := None; disk_inode_used_pct := Some (of_Z 20);
  disk_capacity_target_gb := Some (of_Z 120); net_retrans_pct := Some (of_ratio false 3 2);
  net_drop_pct := None; conntrack_ratio := None; history_hours := Some (of_Z 336);
  cpu_burst_ratio := Some (of_ratio false 12 10); util_trend_rising := Some false;
  cpu_steal_p95_pct := Some (of_Z 0) |}.

(** An eight-core host that does nearly nothing. *)
Definition quiet_host : ResourceStats := {|
  cpu_p95_pct := Some (of_Z 2); cpu_peak_pct := Some (of_Z 3); cpu_cores := Some 8;
  mem_p95_pct := Some (of_Z 10); disk_used_pct := Some (of_Z 30);
  net_avg_kbytes_per_s := Some (of_Z 5); os_family := Some "linux"%string;
  sample_sufficiency := Some (of_Z 1); disk_queue_p95 := None; cpu_run_queue_p95 := None;
  mem_pages_input_rate_p95 := None; cpu_percore_p95_max := Some (of_Z 6);
  procs_blocked_p95 := Some (of_Z 0); procs_running_p95 := Some (of_Z 1);
  mem_swap_paging := false; oom_occurred := false; mem_total_mb := Some 16384;
  mem_near_peak_pct := Some (of_Z 12); disk_await_p95_ms := Some (of_Z 1);
  disk_iops_baseline := Some (of_Z 1); disk_capacity_runway_days := None;
  disk_inode_runway_days := None; disk_inode_used_pct := Some (of_Z 3);
  disk_capacity_target_gb := None; net_retrans_pct := None;
  net_drop_pct := None; conntrack_ratio := None; history_hours := Some (of_Z 336);
  cpu_burst_ratio := Some (of_Z 1); util_trend_rising := Some false;
  cpu_steal_p95_pct := Some (of_Z 0) |}.

Lemma measured_within_none hi : measured_within None hi.
Proof. by intros x. Qed.

Lemma measured_within_some x hi :
  valid_binary fprec femax x && fle (of_Z 0) x && fle x hi = true → measured_within (Some x) hi.
Proof. intros H y [= <-]. by to_prop. Qed.

Lemma pressed_host_sane : sane_stats pressed_host.
Proof.
  split; cbn; try (apply measured_within_some; by_eval);
    intros ? [= <-]; lia.
Qed.

(** ** Totality *)

Lemma rollup_total stats : sane_stats stats → ∃ h, rollup_host stats = Ok h.
Proof.
  intros S. unfold rollup_host.
  destruct (assess_cpu_total _ S) as [c Hc], (assess_memory_total _ S) as [m Hm],
    (assess_disk_capacity_total _ S) as [d Hd], (assess_disk_io_total stats) as [i Hi].
  rewrite Hc, Hm, Hd, Hi. cbn [mbind result_bind].
  match goal with |- context [let '(_, _) := ?p in _] => destruct p as [root syms] end.
  unfold _host_status, res_get. rewrite !res_items_lookup. cbn [res_of mbind result_bind].
  repeat (case_match; cbn [mbind result_bind]; eauto); eauto.
Qed.

Lemma map_resources_total host f ks :
  (∀ k, ∃ a, resources host !! k = Some a) → ∃ l, map_resources host f ks = Ok l.
Proof.
  intros H. induction ks as [|k ks [l IH]]; cbn; [eauto|].
  destruct (H k) as [a Ha]. unfold res_get. rewrite Ha. cbn. rewrite IH. cbn. eauto.
Qed.

(** C1. A host whose measurements are in range is always judged: the roll-up
    raises no exception on it ([math.ceil] never meets a NaN or an infinity),
    every one of the five resources has an assessment, and the prescription
    text of the host can be built. *)
Theorem rollup_host_total (stats : ResourceStats) (S : sane_stats stats) :
  ∃ h, rollup_host stats = Ok h
    ∧ (∀ k, resources h !! k ≠ None)
    ∧ (∃ r, classify_host stats = Ok r)
    ∧ ∃ text, under_prescription h = Ok text.
Proof.
  destruct (rollup_total _ S) as [h Hh]. exists h. split; [done|].
  destruct (rollup_inv _ _ Hh) as (c & m & d & i & R).
  split; [intros k; by rewrite (ro_lookup _ _ _ _ _ _ R)|].
  split; [unfold classify_host; rewrite Hh; cbn; eauto|].
  unfold under_prescription.
  destruct (map_resources_total h resource_prescription (prescribed_under_kinds h)) as [l ->].
  - intros k. rewrite (ro_lookup _ _ _ _ _ _ R). eauto.
  - cbn. eauto.
Qed.

Lemma rollup_host_total_witness :
  ∃ h, rollup_host pressed_host = Ok h ∧ (∀ k, resources h !! k ≠ None)
    ∧ (∃ r, classify_host pressed_host = Ok r) ∧ ∃ text, under_prescription h = Ok text.
Proof. apply (rollup_host_total pressed_host). exact pressed_host_sane. Defined.

(** ** The host verdict *)

Lemma under_kinds_elem stats h c m d i k :
  rolled stats h c m d i →
  k ∈ prescribed_under_kinds h ↔ ∃ a, resources h !! k = Some a ∧ rootable a = true.
Proof.
  intros R. unfold prescribed_under_kinds, _under_kinds.
  rewrite list_elem_of_filter, (ro_lookup _ _ _ _ _ _ R).
  assert (k ∈ _UNDER_ORDER) as Hk by (destruct k; in_list). naive_solver.
Qed.

Lemma str_join_label_nonempty ks :
  ks ≠ [] → str_join "·" (RS_RESOURCE_KIND_LABEL_KO <$> ks) ≠ ""%string.
Proof. destruct ks as [|k [|k' ks]]; [done|..]; by destruct k. Qed.

Lemma root_cause_display_nonempty h :
  root_cause_display h ≠ ""%string ↔ _under_kinds h ≠ [].
Proof.
  unfold root_cause_display. destruct (_under_kinds h) as [|k ks] eqn:E; [naive_solver|].
  split; [done|]. intros _.
  destruct (symptom_of_root h), (root_cause h) as [rk|]; try by apply str_join_label_nonempty.
  by destruct rk.
Qed.

(** C2. The host verdict "자원 부족", the root cause, the prescribed list and the
    display text cannot disagree: a host is under-provisioned exactly when it has
    a root cause, exactly when some resource is prescribed, exactly when the
    display text is not empty; and what is prescribed is every resource whose
    assessment is under-provisioned or filling up (no resource is dropped because
    another one is the root cause), which can only be memory, CPU or disk
    capacity. *)
Theorem under_host_coherent (stats : ResourceStats) (h : HostAssessment)
  (H : rollup_host stats = Ok h) :
  (host_status h = HostUnder ↔ root_cause h ≠ None)
  ∧ (host_status h = HostUnder ↔ prescribed_under_kinds h ≠ [])
  ∧ (host_status h = HostUnder ↔ root_cause_display h ≠ ""%string)
  ∧ (∀ k, k ∈ prescribed_under_kinds h ↔
       ∃ a, resources h !! k = Some a ∧ (status a = Under ∨ status a = Filling))
  ∧ (∀ k, k ∈ prescribed_under_kinds h → k ∈ [Memory; Cpu; DiskCapacity]).
Proof.
  destruct (rollup_inv _ _ H) as (c & m & d & i & R).
  rewrite (host_under_pressed _ _ _ _ _ _ R), (root_cause_pressed _ _ _ _ _ _ R),
    root_cause_display_nonempty, <- (under_kinds_pressed _ _ _ _ _ _ R).
  repeat split; try done.
  - intros Hk. apply (under_kinds_elem _ _ _ _ _ _ _ R) in Hk as (a & Ha & Hr).
    exists a. by rewrite <- rootable_true.
  - intros (a & Ha & Hr). apply (under_kinds_elem _ _ _ _ _ _ _ R).
    exists a. by rewrite rootable_true.
  - intros k. unfold prescribed_under_kinds. rewrite (under_kinds_rolled _ _ _ _ _ _ R).
    decide_status; set_solver.
Qed.

Definition judged (stats : ResourceStats) : HostAssessment :=
  match rollup_host stats with
  | Ok h => h
  | Raise _ => {| resources := ∅; root_cause := None; symptom_of_root := [];
                  host_status := HostInsufficient; network_congested := false;
                  host_sample_sufficiency := None |}
  end.

Lemma under_host_coherent_witness :
  rollup_host pressed_host = Ok (judged pressed_host)
  ∧ host_status (judged pressed_host) = HostUnder ∧ root_cause (judged pressed_host) ≠ None.
Proof.
  assert (rollup_host pressed_host = Ok (judged pressed_host)) as H by by_eval.
  assert (host_status (judged pressed_host) = HostUnder) as Hu by by_eval.
  split; [exact H|]. split; [exact Hu|].
  exact (proj1 (proj1 (under_host_coherent pressed_host _ H)) Hu).
Defined.

(** The memory pages, and another resource suffers with it. *)
Definition memory_leads (stats : ResourceStats) (h : HostAssessment) : Prop :=
  verdict_is h Memory Under ∧ _mem_paging_active stats = true
  ∧ (verdict_is h DiskIo IoBound ∨ verdict_is h Cpu Under).

(** The CPU waits for a slow disk: processes are blocked on it. *)
Definition disk_leads (stats : ResourceStats) (h : HostAssessment) : Prop :=
  verdict_is h DiskIo IoBound ∧ verdict_is h Cpu Under
  ∧ ∃ p, procs_blocked_p95 stats = Some p ∧ fge p PROCS_BLOCKED_DSTATE_SATURATION = true.

(** C20. The order of causes: memory that is under-provisioned and pages is the root,
    with the slow disk and the short CPU that suffer with it as its symptoms, in this
    order, whenever there is one of them; else a slow disk is the root, with the CPU as
    its only symptom, exactly when the CPU is under-provisioned and processes are blocked
    on the disk; a resource named a symptom is itself under pressure and is never the
    root; and without such a causal chain there are no symptoms and the root is the
    first pressed resource in the order memory, CPU, disk capacity. *)
Theorem root_cause_sound (stats : ResourceStats) (h : HostAssessment)
  (H : rollup_host stats = Ok h) :
  (memory_leads stats h → root_cause h = Some Memory
     ∧ (∀ k, k ∈ symptom_of_root h ↔ k = DiskIo ∧ verdict_is h DiskIo IoBound
                                   ∨ k = Cpu ∧ verdict_is h Cpu Under)
     ∧ symptom_of_root h `sublist_of` [DiskIo; Cpu])
  ∧ (¬ memory_leads stats h → disk_leads stats h →
       root_cause h = Some DiskIo ∧ symptom_of_root h = [Cpu])
  ∧ (¬ memory_leads stats h → ¬ disk_leads stats h →
       symptom_of_root h = []
       ∧ root_cause h = head
           (filter (λ k, k ∈ prescribed_under_kinds h) [Memory; Cpu; DiskCapacity]))
  ∧ (root_cause h = Some DiskIo → disk_leads stats h ∧ symptom_of_root h = [Cpu])
  ∧ (symptom_of_root h ≠ [] → root_cause h = Some Memory →
       _mem_paging_active stats = true)
  ∧ (∀ k, k ∈ symptom_of_root h → root_cause h ≠ Some k
       ∧ (verdict_is h k Under ∨ verdict_is h k IoBound)).
Proof.
  destruct (rollup_inv _ _ H) as (c & m & d & i & R).
  pose proof (λ k s, verdict_rolled _ _ _ _ _ _ k s R) as J.
  unfold prescribed_under_kinds. rewrite (under_kinds_rolled _ _ _ _ _ _ R).
  unfold memory_leads, disk_leads. setoid_rewrite J. cbn [res_of].
  rewrite <- some_and_true.
  pose proof (ro_root _ _ _ _ _ _ R) as HR. cbn zeta in HR.
  destruct HR as [(Hl & -> & Hs)|[(Hn & Hl & -> & Hs)|(Hn1 & Hn2 & Hs & ->)]]; rewrite Hs.
  - pose proof Hl as (Hm & Hp & Hor). split; [intros _; split; [done|]|].
    { destruct (decide (status i = IoBound)), (decide (status c = Under)); cbn;
        (split; [intros k; set_solver|]); repeat constructor. }
    split; [tauto|]. split; [tauto|]. split; [done|]. split; [done|].
    intros k Hk. destruct (decide (status i = IoBound)), (decide (status c = Under)); cbn in Hk;
      case_in_list Hk; cbn; auto.
  - split; [tauto|]. split; [done|]. split; [tauto|]. split; [done|]. split; [done|].
    intros k Hk. case_in_list Hk. cbn. split; [done|tauto].
  - split; [tauto|]. split; [tauto|]. split.
    { intros _ _. split; [done|].
      rewrite !filter_cons, !filter_nil. decide_status; by repeat case_decide; set_solver. }
    split; [by decide_status|]. split; [done|].
    intros k Hk. by apply not_elem_of_nil in Hk.
Qed.

Lemma root_cause_sound_witness :
  root_cause (judged pressed_host) = Some Memory
  ∧ symptom_of_root (judged pressed_host) = [DiskIo; Cpu]
  ∧ _mem_paging_active pressed_host = true.
Proof.
  assert (rollup_host pressed_host = Ok (judged pressed_host)) as H by by_eval.
  assert (root_cause (judged pressed_host) = Some Memory) as Hr by by_eval.
  assert (symptom_of_root (judged pressed_host) = [DiskIo; Cpu]) as Hs by by_eval.
  split; [exact Hr|]. split; [exact Hs|].
  refine (proj1 (proj2 (proj2 (proj2 (proj2 (root_cause_sound pressed_host _ H))))) _ Hr).
  rewrite Hs. discriminate.
Defined.

(** ** Sizing *)

(** "recommended is never null": an under-provisioned CPU always carries
    either a target or a floor, never both, and it is above the present number
    of cores; an under-provisioned memory of known size carries either a target
    above the present size or the 30 percent head-room floor; an over-provisioned
    resource carries a target of at least one core, respectively below the
    present size, and no floor. *)
Theorem sizing_never_null (stats : ResourceStats) (c m : ResourceAssessment)
  (Hc : assess_cpu stats = Ok c) (Hm : assess_memory stats = Ok m) :
  (status c = Under → ∃ cores r, cpu_cores stats = Some cores ∧ cores < r ∧
     (sizing_target c = Some r ∧ sizing_floor c = None
      ∨ sizing_target c = None ∧ sizing_floor c = Some r))
  ∧ (status c = Over → ∃ cores t, cpu_cores stats = Some cores ∧ 1 <= t < cores
       ∧ sizing_target c = Some t ∧ sizing_floor c = None)
  ∧ (∀ total, status m = Under → mem_total_mb stats = Some total →
       (∃ t, sizing_target m = Some t ∧ total < t ∧ sizing_floor m = None)
       ∨ (sizing_target m = None ∧ ∃ f, mem_headroom_mb total = Ok f ∧ sizing_floor m = Some f))
  ∧ (status m = Over → ∃ total t, mem_total_mb stats = Some total
       ∧ sizing_target m = Some t ∧ t < total).
Proof.
  split; [by apply cpu_under_spec|]. split.
  { intros Ho. destruct (cpu_over_spec _ _ Hc Ho) as (cores & t & ?&?&?&?&_). eauto 10. }
  destruct (assess_memory_cases _ _ Hm) as [(Hs & _ & H1 & H2)|[(Hs & _)|[(Hs & _ & _ & H)|(Hs & _)]]].
  2-4: rewrite Hs; split; [done|]; done || by intros _.
  rewrite Hs. split; [|done]. intros total _ Ht.
  destruct (sizing_target m) as [t|] eqn:Et; [left|right; eauto].
  destruct (H1 t eq_refl) as [? Hlt]. eauto.
Qed.

Lemma sizing_never_null_witness :
  ∃ c m, assess_cpu pressed_host = Ok c ∧ assess_memory pressed_host = Ok m
    ∧ status c = Under ∧ sizing_target c = Some 9 ∧
    ∃ cores r, cpu_cores pressed_host = Some cores ∧ cores < r ∧
     (sizing_target c = Some r ∧ sizing_floor c = None
      ∨ sizing_target c = None ∧ sizing_floor c = Some r).
Proof.
  eexists _, _. split; [by_eval|]. split; [by_eval|]. split; [by_eval|]. split; [by_eval|].
  refine (proj1 (sizing_never_null pressed_host _ _ _ _) _); by_eval.
Defined.

(** C21. The CPU dual gate: a CPU is called under-provisioned exactly when the host's
    core count is known and its utilisation reaches 70 percent, or its utilisation is
    unknown and the run queue of its OS reaches the saturation line per core.  The
    sizing formula never adds to that: under the threshold, the cores it asks for,
    rounded as floats round, are no more than the host has. *)
Theorem cpu_under_dual_gate (stats : ResourceStats) (a : ResourceAssessment)
  (V : ∀ u, cpu_p95_pct stats = Some u → py_float u) (B : ∀ c, cpu_cores stats = Some c → c < 2 ^ 31)
  (H : assess_cpu stats = Ok a) :
  status a = Under ↔
  ∃ cores, cpu_cores stats = Some cores ∧ 0 < cores ∧
    ((∃ u, cpu_p95_pct stats = Some u ∧ fge u (of_Z RS_CPU_UNDER_PCT) = true)
     ∨ (cpu_p95_pct stats = None ∧ ∃ q, _run_queue_value stats = Some q
          ∧ fge (fdiv q (of_Z cores)) (_RS_CPU_SAT_LINE (os_family stats)) = true)).
Proof.
  split.
  - intros Hs. destruct (assess_cpu_measured _ _ H) as (c & t & Hc & Hp & _); [congruence|].
    exists c. split; [done|]. split; [done|].
    destruct (cpu_under_cause _ _ V B H Hs) as [Hu|Hu]; [left; by apply some_and_true in Hu|].
    apply cpu_saturated_iff in Hu as (c' & q & Hc' & _ & Hq & Hl & Hu). assert (c' = c) as -> by congruence.
    destruct (cpu_p95_pct stats) as [u|]; [left|right]; eauto.
  - intros (c & Hc & Hp & D). destruct (decide (status a = Unmeasured)) as [Hn|Hn].
    + exfalso. revert H Hn. unfold assess_cpu. rewrite Hc. destruct (Z.leb_spec c 0); [lia|].
      assert (cpu_p95_pct stats = None → cpu_saturated stats = Some true) as Hsat.
      { intros Hu. destruct D as [(u & Hu' & _)|(_ & q & Hq & Hl)]; [congruence|].
        apply cpu_saturated_iff. exists c, q. repeat split; [done..|]. by rewrite Hu. }
      destruct (cpu_p95_pct stats) as [u|]; [|rewrite Hsat by done]; cbn -[default];
        intros Hok Hn; apply result_bind_ok in Hok as (t & _ & Hok);
        destruct (_ || _); [|destruct (_ && _)| |destruct (_ && _)]; injection Hok as <-; done.
    + destruct (assess_cpu_measured _ _ H Hn) as (c' & t & Hc' & _ & _ & P).
      destruct P as [(_ & Hs & _)|[(Hx & _)|(Hx & _)]]; [done|destruct Hx..];
        (destruct D as [(u & Hu & Hl)|(Hu & q & Hq & Hl)];
         [left; by rewrite Hu|right; left; apply cpu_saturated_iff; exists c, q; repeat split; [done..|]; by rewrite Hu]).
Qed.

Lemma cpu_under_dual_gate_witness :
  ∃ a, assess_cpu pressed_host = Ok a ∧ status a = Under.
Proof.
  eexists. split; [by_eval|].
  refine (proj2 (cpu_under_dual_gate pressed_host _ _ _ _) _).
  - intros u [= <-]. by_eval.
  - intros c [= <-]. lia.
  - by_eval.
  - exists 4. split; [by_eval|]. split; [lia|]. left. exists (of_Z 80). split; by_eval.
Defined.

(** Memory is called under-provisioned exactly when an out-of-memory kill was
    seen or its utilisation reaches 90 percent: swapping and paging only colour a
    host that is already at 90 percent, they never label one on their own. *)
Theorem memory_under_iff (stats : ResourceStats) (a : ResourceAssessment)
  (H : assess_memory stats = Ok a) (N : not_nan (mem_p95_pct stats)) :
  status a = Under ↔
  oom_occurred stats = true
  ∨ ∃ u, mem_p95_pct stats = Some u ∧ fge u (of_Z RS_MEM_UNDER_PCT) = true.
Proof.
  assert (_mem_paging_active stats = true →
    ∃ u, mem_p95_pct stats = Some u ∧ fge u (of_Z RS_MEM_UNDER_PCT) = true) as Hp.
  { intros Hp. destruct (mem_p95_pct stats) as [u|] eqn:Hu.
    - exists u. split; [done|]. rewrite fge_negb_flt by (done || by apply N).
      destruct (flt u _) eqn:E; [|done]. by rewrite (mem_paging_needs_util _ _ Hu E) in Hp.
    - unfold _mem_paging_active, mem_saturated in Hp. by rewrite Hu in Hp. }
  destruct (assess_memory_cases _ _ H) as [(Hs & Ht & _)|[(Hs & Hu & Ho)|[(Hs & Hn & _)|(Hs & Hn & _)]]];
    rewrite Hs; [|split; [done|]; intros D; exfalso..]; [tauto| |tauto|tauto].
  destruct D as [D|(u & D & _)]; congruence.
Qed.

Lemma memory_under_iff_witness : ∃ a, assess_memory pressed_host = Ok a ∧ status a = Under.
Proof.
  eexists. split; [by_eval|].
  refine (proj2 (memory_under_iff pressed_host _ _ _) (or_intror _)); [by_eval|..].
  - by intros x [= <-].
  - exists (of_Z 95). split; by_eval.
Defined.

Lemma saturation_measured stats b :
  cpu_saturated stats = Some b → ∃ q, _run_queue_value stats = Some q.
Proof.
  unfold cpu_saturated, _run_queue_value. destruct (cpu_cores stats) as [c|]; [|done].
  destruct (c <=? 0); [done|].
  destruct (is_windows _); [destruct (cpu_run_queue_p95 stats)|destruct (procs_running_p95 stats)]; eauto; done.
Qed.

(** C22. A downsize is prescribed only on solid ground: for a CPU, the utilisation was
    measured and is below 70 percent, the run queue of its OS was measured too and the
    CPU is not saturated (which takes a long queue and a high utilisation together: a
    long queue alone does not stand in the way), the busiest core is below 85 percent,
    steal and burstiness do not bias the sample, the known history is long enough, the
    load is not rising, and the sample covers at least 70 percent of the window; the new
    size is smaller and at least one core. *)
Theorem downsize_sound (stats : ResourceStats) (a : ResourceAssessment)
  (H : assess_cpu stats = Ok a) (D : downsize_prescribable a stats = true) :
  (∃ u, cpu_p95_pct stats = Some u ∧ fge u (of_Z RS_CPU_UNDER_PCT) = false)
  ∧ cpu_saturated stats = Some false
  ∧ (∃ q, _run_queue_value stats = Some q)
  ∧ (∀ p, cpu_percore_p95_max stats = Some p → fge p (of_Z RS_CPU_PERCORE_HOLD_PCT) = false)
  ∧ (∀ s, cpu_steal_p95_pct stats = Some s → fge s (of_Z RS_CPU_STEAL_BIAS_PCT) = false)
  ∧ (∀ r, cpu_burst_ratio stats = Some r → fgt r RS_BURST_RATIO_MAX = false)
  ∧ (∀ t, history_hours stats = Some t → flt t (of_Z RS_CONFIDENCE_MIN_HOURS) = false)
  ∧ util_trend_rising stats ≠ Some true
  ∧ (∃ s, sample_sufficiency stats = Some s ∧ flt s RS_DOWNSIZE_MIN_SUFFICIENCY = false)
  ∧ ∃ cores t, cpu_cores stats = Some cores ∧ sizing_target a = Some t ∧ 1 <= t < cores.
Proof.
  unfold downsize_prescribable in D.
  destruct (bool_decide (status a = Over)) eqn:Ho; [|done]. to_prop. cbn [negb] in D.
  destruct (high (confidence a)) eqn:Hh; [|done]. cbn [negb] in D.
  destruct (nonstationary (confidence a)) eqn:Hns; [done|].
  destruct (cpu_over_spec _ _ H Ho) as (cores & t & Hc & Ht & _ & Hlt & Hu & Hsat & Hpc).
  assert (confidence a =
    let c0 := _base_confidence stats
      (some_and (cpu_steal_p95_pct stats) (λ s, fge s (of_Z RS_CPU_STEAL_BIAS_PCT))) true in
    let c1 := match cpu_saturated stats with None => set_coverage_gap c0 | Some _ => c0 end in
    match cpu_p95_pct stats with None => set_coverage_gap c1 | Some _ => c1 end) as Hconf.
  { revert H Ho. unfold assess_cpu. rewrite Hc.
    destruct (bool_decide _ && _); [by intros [= <-]|].
    destruct (cores <=? 0); [by intros [= <-]|]. intros H _.
    apply result_bind_ok in H as (t' & _ & H).
    destruct (_ || _); [|destruct (_ && _)]; by injection H as <-. }
  rewrite Hconf in Hh, Hns. clear Hconf.
  destruct (cpu_p95_pct stats) as [u|]; destruct (cpu_saturated stats) as [b|] eqn:Hb;
    unfold high in Hh; cbn in Hh, Hns; rewrite ?orb_true_r in Hh; cbn in Hh; try done.
  to_prop. split; [eauto|]. split; [destruct b; congruence|].
  split; [by eapply saturation_measured|]. split; [done|].
  unfold _precision_low in *.
  destruct (some_and (history_hours stats) _) eqn:Hhist; [done|].
  split; [by apply some_and_false|]. split; [by apply some_and_false|].
  split; [by apply some_and_false|].
  split; [by destruct (util_trend_rising stats) as [[]|]|].
  split; [|by exists cores, t]. destruct (sample_sufficiency stats) as [s|]; [|done].
  exists s. split; [done|]. by destruct (flt s _).
Qed.

Lemma downsize_sound_witness :
  ∃ a, assess_cpu quiet_host = Ok a ∧ downsize_prescribable a quiet_host = true
    ∧ cpu_saturated quiet_host = Some false.
Proof.
  eexists. split; [by_eval|]. split; [by_eval|].
  refine (proj1 (proj2 (downsize_sound quiet_host _ _ _))); by_eval.
Defined.

(** A host is called idle only when nothing is under-provisioned, the CPU and
    network were measured and are at or below the idle thresholds (3 percent,
    2 Mbit/s) and no disk activity above the threshold was measured; a host whose
    CPU and memory are both unmeasured is never called idle, over-provisioned or
    optimal. *)
Theorem idle_host_sound (stats : ResourceStats) (h : HostAssessment)
  (H : rollup_host stats = Ok h) :
  (host_status h = HostIdle →
     prescribed_under_kinds h = []
     ∧ (∃ u, cpu_p95_pct stats = Some u ∧ fle u (of_Z IDLE_CPU_P95_PCT) = true)
     ∧ (∃ n, net_avg_kbytes_per_s stats = Some n ∧
          fle (fdiv (fmul n (of_Z 8)) (of_Z 1000)) (of_Z IDLE_NET_MBPS) = true)
     ∧ (∀ io, disk_iops_baseline stats = Some io → fgt io (of_Z IDLE_DISK_IOPS) = false))
  ∧ (∀ c m, resources h !! Cpu = Some c → resources h !! Memory = Some m →
       status c = Unmeasured → status m = Unmeasured →
       host_status h = HostUnder ∨ host_status h = HostInsufficient).
Proof.
  destruct (rollup_inv _ _ H) as (c & m & d & i & R).
  destruct (decide (pressed_kinds c m d = [])) as [Hp|Hp].
  - destruct (host_status_rest _ _ _ _ _ _ R Hp) as (_ & Hidle & Hover & Hopt). split.
    + intros Hs. destruct (Hidle Hs) as (_ & Hc & Hn & Hio). split; [|done].
      apply dec_stable. intros Hne. by apply (under_kinds_pressed _ _ _ _ _ _ R) in Hne.
    + intros c' m'. rewrite !(ro_lookup _ _ _ _ _ _ R). intros [= <-] [= <-] Hc Hm.
      cbn [res_of] in *. destruct (host_status h) eqn:E; auto.
      * exfalso. by destruct (Hidle eq_refl) as [[] _].
      * destruct (Hover eq_refl); congruence.
      * exfalso. by destruct (Hopt eq_refl) as [[] _].
  - assert (host_status h = HostUnder) as -> by by apply (host_under_pressed _ _ _ _ _ _ R).
    split; [done|auto].
Qed.

Lemma idle_host_sound_witness :
  rollup_host quiet_host = Ok (judged quiet_host)
  ∧ host_status (judged quiet_host) = HostIdle
  ∧ prescribed_under_kinds (judged quiet_host) = [].
Proof.
  assert (rollup_host quiet_host = Ok (judged quiet_host)) as H by by_eval.
  assert (host_status (judged quiet_host) = HostIdle) as Hs by by_eval.
  split; [exact H|]. split; [exact Hs|].
  exact (proj1 (proj1 (idle_host_sound quiet_host _ H) Hs)).
Defined.

(** ** Disks *)

(** The host verdict on disk capacity and the per-mount sizing follow one
    rule: the host's disks are filling up exactly when the byte axis or the inode
    axis is filling by the rule the mounts are sized with (a runway under 30 days,
    or no trend and 85 percent used). *)
Theorem disk_filling_rule (stats : ResourceStats) (a : ResourceAssessment)
  (N1 : not_nan (disk_capacity_runway_days stats)) (N2 : not_nan (disk_inode_runway_days stats))
  (H : assess_disk_capacity stats = Ok a) :
  status a = Filling ↔
  axis_filling (disk_capacity_runway_days stats) (disk_used_pct stats) = true
  ∨ axis_filling (disk_inode_runway_days stats) (disk_inode_used_pct stats) = true.
Proof. by apply disk_capacity_filling_iff. Qed.

Lemma disk_filling_rule_witness :
  ∃ a, assess_disk_capacity pressed_host = Ok a ∧ status a = Filling.
Proof.
  eexists. split; [by_eval|].
  refine (proj2 (disk_filling_rule pressed_host _ _ _ _) (or_introl _)).
  - by intros x [= <-].
  - by intros x [=].
  - by_eval.
  - by_eval.
Defined.

(** A mount is never shrunk: the recommended size is at least the present
    size, an increase is recommended only for a mount whose bytes (not whose
    inodes) fill up, "keep" recommends exactly the present size, and an estimate
    is called a floor only when there is no trend target. *)
Theorem mount_sizing_never_shrinks total target r1 u1 r2 u2 (ms : MountSizing)
  (H : assess_mount_capacity total target r1 u1 r2 u2 = Ok (Some ms)) :
  current_gib ms <= recommended_gib ms
  ∧ (action ms = keep → recommended_gib ms = current_gib ms)
  ∧ (action ms = increase → axis_filling r1 u1 = true)
  ∧ (axis_filling r1 u1 = false → action ms = keep)
  ∧ (estimate_quality ms = floor_estimate → target = None).
Proof. by eapply mount_never_shrinks. Qed.

Lemma mount_sizing_never_shrinks_witness :
  ∃ ms, assess_mount_capacity (Some (100 * 1073741824)) None None (Some (of_Z 90)) None None
          = Ok (Some ms)
    ∧ recommended_gib ms = 143 ∧ current_gib ms <= recommended_gib ms.
Proof.
  eexists. split; [by_eval|]. split; [by_eval|].
  refine (proj1 (mount_sizing_never_shrinks (Some (100 * 1073741824)) None None
    (Some (of_Z 90)) None None _ _)). by_eval.
Defined.

(** ** Signals that must agree *)

(** The network signal of a snapshot and the network verdict of the window
    are one rule: the signal is active exactly when the roll-up flags the host's
    network as congested. *)
Theorem network_signal_agrees (stats : ResourceStats) (h : HostAssessment)
  (H : rollup_host stats = Ok h) :
  network_congested h =
  net_signal_active (net_retrans_pct stats) (net_drop_pct stats) (conntrack_ratio stats)
    (net_avg_kbytes_per_s stats).
Proof.
  destruct (rollup_inv _ _ H) as (c & m & d & i & R).
  rewrite (ro_network _ _ _ _ _ _ R). symmetry. apply net_signal_congested.
Qed.

Lemma network_signal_agrees_witness :
  network_congested (judged pressed_host) =
  net_signal_active (Some (of_ratio false 3 2)) None None (Some (of_Z 500)).
Proof. apply (network_signal_agrees pressed_host). by_eval. Defined.

(** The disk signal and the disk index disagree at the threshold: at an
    await of exactly 20 ms the index reads 1.0, which its readers take as
    saturated ([>= 1.0]), while [disk_io_saturated] and the verdict built on it
    say the disk is fine, whatever else was measured. *)
Theorem disk_await_threshold_split (stats : ResourceStats) (a : ResourceAssessment)
  (Hw : disk_await_p95_ms stats = Some (of_Z RS_DISKIO_AWAIT_MS)) (H : assess_disk_io stats = Ok a) :
  disk_io_saturated stats = Some false ∧ status a = IoOk
  ∧ ∃ x, disk_io_saturation_index (disk_await_p95_ms stats) (disk_queue_p95 stats)
           (os_family stats) = Some x ∧ fge x (of_Z 1) = true.
Proof.
  unfold disk_io_saturated, disk_io_saturation_index, assess_disk_io, disk_io_saturated in *.
  rewrite Hw in *. split; [by_eval|]. split.
  - apply result_bind_ok in H as (d & _ & H). by injection H as <-.
  - eexists. split; [done|]. by_eval.
Qed.

Definition slow_disk_host : ResourceStats :=
  {| cpu_p95_pct := None; cpu_peak_pct := None; cpu_cores := None; mem_p95_pct := None;
     disk_used_pct := None; net_avg_kbytes_per_s := None; os_family := Some "linux"%string;
     sample_sufficiency := None; disk_queue_p95 := None; cpu_run_queue_p95 := None;
     mem_pages_input_rate_p95 := None; cpu_percore_p95_max := None; procs_blocked_p95 := None;
     procs_running_p95 := None; mem_swap_paging := false; oom_occurred := false;
     mem_total_mb := None; mem_near_peak_pct := None; disk_await_p95_ms := Some (of_Z 20);
     disk_iops_baseline := None; disk_capacity_runway_days := None;
     disk_inode_runway_days := None; disk_inode_used_pct := None;
     disk_capacity_target_gb := None; net_retrans_pct := None; net_drop_pct := None;
     conntrack_ratio := None; history_hours := None; cpu_burst_ratio := None;
     util_trend_rising := None; cpu_steal_p95_pct := None |}.

Lemma disk_await_threshold_split_witness :
  ∃ a, assess_disk_io slow_disk_host = Ok a ∧ disk_io_saturated slow_disk_host = Some false.
Proof.
  eexists. split; [by_eval|].
  refine (proj1 (disk_await_threshold_split slow_disk_host _ _ _)); by_eval.
Defined.
