(* ===== verification/Redis.v ===== *)
(** * The Redis client and the fail-open helpers

    Models [src/assessment_engine/cache/redis.py].  The Redis server and its
    client library are not part of the repository: [RedisClient] states the
    commands the code sends, over an abstract state, and [RedisLaws] what the code
    relies on (the documented effect of a command that answers, and that a failing
    command raises [RedisError]).  The helpers are generic in the client; the file
    ends with a concrete client, a map with a schedule of outages. *)

From S2P Require Import Prelude.

(** ** The client *)

Class RedisClient (R : Type) := {
  redis_get : string → eff R (option string);
  (** [SET key value EX ex]; [None] is no expiry *)
  redis_set : string → string → option Z → eff R unit;
  (** [SET key value EX ex NX] *)
  redis_set_nx : string → string → Z → eff R bool;
  redis_delete : string → eff R unit;
  redis_mget : list string → eff R (list (option string));
  (** [MULTI; INCR key; EXPIRE key ttl; EXEC], the counter's new value *)
  redis_incr_expire : string → Z → eff R Z;
}.

(** [view r] is what the keys hold now; expiry is a change of state between two
    commands and is not an effect of the commands themselves. *)
Class RedisLaws (R : Type) `{RedisClient R} := {
  view : R → gmap string string;
  get_raises k r e : fst (redis_get k r) = Raise e → e = RedisError;
  set_raises k v ex r e : fst (redis_set k v ex r) = Raise e → e = RedisError;
  set_nx_raises k v ex r e : fst (redis_set_nx k v ex r) = Raise e → e = RedisError;
  delete_raises k r e : fst (redis_delete k r) = Raise e → e = RedisError;
  mget_raises ks r e : fst (redis_mget ks r) = Raise e → e = RedisError;
  incr_raises k ttl r e : fst (redis_incr_expire k ttl r) = Raise e → e = RedisError;
  get_ok k r o r' : redis_get k r = (Ok o, r') → o = view r !! k ∧ view r' = view r;
  set_ok k v ex r r' : redis_set k v ex r = (Ok tt, r') → view r' = <[k := v]> (view r);
  set_nx_ok k v ex r b r' :
    redis_set_nx k v ex r = (Ok b, r') →
    match view r !! k with
    | Some _ => b = false ∧ view r' = view r
    | None => b = true ∧ view r' = <[k := v]> (view r)
    end;
}.

(** ** The helpers

    [except RedisError] - any other exception leaves the helper. *)

Section safe.
Context {R : Type} `{RedisClient R}.

Definition except_redis {A} (m : eff R A) (d : A) : eff R A :=
  try_except m (λ e, match e with RedisError => mret d | _ => raise e end).

Definition safe_get (key : string) : eff R (option string) :=
  except_redis (redis_get key) None.

Definition safe_set (key value : string) (ex : option Z) : eff R bool :=
  except_redis (_ ← redis_set key value ex; mret true) false.

Definition safe_set_nx (key value : string) (ex : Z) : eff R (option bool) :=
  except_redis (b ← redis_set_nx key value ex; mret (Some b)) None.

Definition safe_delete (key : string) : eff R bool :=
  except_redis (_ ← redis_delete key; mret true) false.

Definition safe_mget (keys : list string) : eff R (option (list (option string))) :=
  match keys with
  | [] => mret (Some [])
  | _ => except_redis (l ← redis_mget keys; mret (Some l)) None
  end.

Definition safe_incr_with_ttl (key : string) (ttl : Z) : eff R (option Z) :=
  except_redis (n ← redis_incr_expire key ttl; mret (Some n)) None.
End safe.

(** ** Fail-open *)

Section safe_facts.
Context {R : Type} `{RedisLaws R}.

(** A call that only raises [RedisError] returns once it is guarded. *)
Lemma except_redis_ok {A B} (m : eff R A) (f : A → B) (d : B) r :
  (∀ e, fst (m r) = Raise e → e = RedisError) →
  ∃ a r', except_redis (x ← m; mret (f x)) d r = (Ok a, r').
Proof.
  intros He. unfold except_redis, try_except, mbind, eff_bind.
  destruct (m r) as [[a|e] r'] eqn:E; cbn in *; [by eexists _, _|].
  rewrite (He e eq_refl). by eexists _, _.
Qed.

Lemma safe_get_ok k r : ∃ o r', safe_get k r = (Ok o, r').
Proof.
  unfold safe_get, except_redis, try_except.
  destruct (redis_get k r) as [[a|e] r'] eqn:E; [by eexists _, _|].
  rewrite (get_raises k r e) by by rewrite E. by eexists _, _.
Qed.
Lemma safe_set_ok k v ex r : ∃ b r', safe_set k v ex r = (Ok b, r').
Proof. apply except_redis_ok, set_raises. Qed.
Lemma safe_set_nx_total k v ex r : ∃ b r', safe_set_nx k v ex r = (Ok b, r').
Proof. apply except_redis_ok, set_nx_raises. Qed.
Lemma safe_delete_ok k r : ∃ b r', safe_delete k r = (Ok b, r').
Proof. apply except_redis_ok, delete_raises. Qed.
Lemma safe_mget_ok ks r : ∃ l r', safe_mget ks r = (Ok l, r').
Proof. destruct ks; [by eexists _, _|]. apply except_redis_ok, mget_raises. Qed.
Lemma safe_incr_ok k ttl r : ∃ n r', safe_incr_with_ttl k ttl r = (Ok n, r').
Proof. apply except_redis_ok, incr_raises. Qed.

(** What a duplicate check that got an answer says of the key. *)
Lemma safe_set_nx_answer k v ex r b r' :
  safe_set_nx k v ex r = (Ok (Some b), r') →
  (b = true ↔ view r !! k = None) ∧ is_Some (view r' !! k).
Proof.
  unfold safe_set_nx, except_redis, try_except, mbind, eff_bind.
  destruct (redis_set_nx k v ex r) as [[b0|e] r0] eqn:E; cbn.
  - intros [= <- <-]. apply set_nx_ok in E.
  destruct (view r !! k) eqn:Ev; destruct E as [-> ->];
    rewrite ?Ev, ?lookup_insert_eq; naive_solver.
  - destruct e; cbn; naive_solver.
Qed.
End safe_facts.

(** ** A concrete client

    A map of keys with a schedule of outages: each command takes the next entry,
    [true] being an outage that raises without an effect; after the schedule the
    server answers. *)

Record MapRedis := {
  mr_keys : gmap string string;
  mr_outages : list bool;
}.

Definition mr_command {A} (f : gmap string string → A * gmap string string) : eff MapRedis A := λ r,
  let rest := tail (mr_outages r) in
  if default false (head (mr_outages r))
  then (Raise RedisError, {| mr_keys := mr_keys r; mr_outages := rest |})
  else let '(a, m) := f (mr_keys r) in (Ok a, {| mr_keys := m; mr_outages := rest |}).

(** The integer a counter key holds, 0 when it is absent or not a number *)
Fixpoint parse_nat (acc : Z) (s : string) : option Z :=
  match s with
  | EmptyString => Some acc
  | String c s' =>
      let d := Z.of_nat (Ascii.nat_of_ascii c) - 48 in
      if (0 <=? d) && (d <=? 9) then parse_nat (10 * acc + d) s' else None
  end.

#[export] Instance map_redis_client : RedisClient MapRedis := {
  redis_get k := mr_command (λ m, (m !! k, m));
  redis_set k v _ := mr_command (λ m, (tt, <[k := v]> m));
  redis_set_nx k v _ := mr_command (λ m,
    match m !! k with Some _ => (false, m) | None => (true, <[k := v]> m) end);
  redis_delete k := mr_command (λ m, (tt, base.delete k m));
  redis_mget ks := mr_command (λ m, ((λ k, m !! k) <$> ks, m));
  redis_incr_expire k _ := mr_command (λ m,
    let n := default 0 (m !! k ≫= parse_nat 0) + 1 in (n, <[k := pretty n]> m));
}.

Lemma mr_command_raises {A} (f : gmap string string → A * gmap string string) r e :
  fst (mr_command f r) = Raise e → e = RedisError.
Proof.
  unfold mr_command. destruct (default false _); cbn; [by intros [= <-]|].
  by destruct (f (mr_keys r)).
Qed.

Lemma mr_command_ok {A} (f : gmap string string → A * gmap string string) r a r' :
  mr_command f r = (Ok a, r') → f (mr_keys r) = (a, mr_keys r').
Proof.
  unfold mr_command. destruct (default false _); [done|].
  destruct (f (mr_keys r)) as [b m]. by intros [= -> <-].
Qed.

#[export] Instance map_redis_laws : RedisLaws MapRedis.
Proof.
  refine {| view := mr_keys |}; intros *; try apply mr_command_raises; intros E;
    apply mr_command_ok in E; [naive_solver..|].
  destruct (mr_keys r !! k); by injection E as <- <-.
Defined.
