(* ===== verification/Sql.v ===== *)
(** * Rows, statements and sessions

    The semantics of the SQL the repositories build: column values, rows as
    dicts, tables with the unique keys the models of [src/assessment_engine/db/models]
    declare, the [INSERT ... ON CONFLICT], [UPDATE] and [SELECT] shapes in use, and
    a session: a transaction that sees its own writes and, at READ COMMITTED, what
    other transactions commit between its statements.

    A session carries a script of what happens around each statement: what the
    other transactions commit before it, and whether the statement (or the commit)
    fails.  Nothing is assumed of the script in the definitions. *)

From S2P Require Import Prelude PyFloat.

#[local] Set Warnings "-register-all".

(** ** Values *)

(** A JSON value as JSONB keeps it: objects in the order of their keys. *)
Inductive json :=
  | JNull
  | JBool (b : bool)
  | JInt (n : Z)
  | JFloat (x : float)
  | JStr (s : string)
  | JArr (l : list json)
  | JObj (kvs : list (string * json)).

#[export] Instance float_eq_dec : EqDecision float.
Proof. unfold EqDecision, Decision. repeat decide equality. Defined.

#[export] Instance json_eq_dec : EqDecision json.
Proof.
  unfold EqDecision. fix go 1. intros x y. unfold Decision in *.
  assert (∀ l1 l2 : list json, {l1 = l2} + {l1 ≠ l2}) as dl.
  { fix gol 1. intros l1 l2.
    destruct l1 as [|a l1], l2 as [|b l2]; [by left|by right..|].
    destruct (go a b); [|right; congruence].
    destruct (gol l1 l2); [left|right]; congruence. }
  assert (∀ l1 l2 : list (string * json), {l1 = l2} + {l1 ≠ l2}) as dobj.
  { fix goo 1. intros l1 l2.
    destruct l1 as [|[k a] l1], l2 as [|[k' b] l2]; [by left|by right..|].
    destruct (decide (k = k')); [|right; congruence].
    destruct (go a b); [|right; congruence].
    destruct (goo l1 l2); [left|right]; congruence. }
  destruct x, y; try (by right); [by left|..];
    try match goal with
    | |- {?c ?a = ?c ?b} + {_} =>
        first [destruct (decide (a = b))|destruct (dl a b)|destruct (dobj a b)];
        [left; congruence|right; congruence]
    end.
Defined.

(** A JSON object from its entries: sorted by key, the last value of a key wins. *)
Fixpoint insert_key (k : string) (v : json) (l : list (string * json)) : list (string * json) :=
  match l with
  | [] => [(k, v)]
  | (k', v') :: l' =>
      match String.compare k k' with
      | Lt => (k, v) :: l
      | Eq => (k, v) :: l'
      | Gt => (k', v') :: insert_key k v l'
      end
  end.

Definition jobj (kvs : list (string * json)) : json :=
  JObj (foldl (λ acc kv, insert_key kv.1 kv.2 acc) [] kvs).

(** A column value.  A [datetime] is in microseconds since the epoch. *)
Abbreviation datetime := Z.

Inductive sqlval :=
  | VNull
  | VBool (b : bool)
  | VInt (n : Z)
  | VFloat (x : float)
  | VStr (s : string)
  | VTime (t : datetime)
  | VArr (l : list string)
  | VJson (j : json).

#[export] Instance sqlval_eq_dec : EqDecision sqlval.
Proof. solve_decision. Defined.

(** An optional Python value as a column value *)
Definition vopt {A} (f : A → sqlval) (o : option A) : sqlval :=
  match o with Some x => f x | None => VNull end.

(** A JSONB column; [None] is written as JSON null and reads back as [None]. *)
Definition vjson_list (o : option (list json)) : sqlval :=
  VJson (match o with Some l => JArr l | None => JNull end).

Abbreviation row := (gmap string sqlval).

(** A dict literal: the last of two equal keys wins. *)
Definition dict (kvs : list (string * sqlval)) : row :=
  foldl (λ m kv, <[kv.1 := kv.2]> m) ∅ kvs.

(** The value of a column; a column no statement set is NULL. *)
Definition col (r : row) (c : string) : sqlval := default VNull (r !! c).

(** ** Tables *)

Inductive model :=
  | ServerInventory | ServerInventoryHistory | ServerMetrics
  | ServerCpuCore | ServerDiskIo | ServerNetIo | ServerFilesystem
  | ServerPressure | ServerDiskError | Task.

#[export] Instance model_eq_dec : EqDecision model.
Proof. solve_decision. Defined.

Record db := {
  tables : model → list row;
  (** the sequences behind [server_inventory.id] and the generated uuids *)
  next_id : Z;
  (** [now()] *)
  db_now : datetime;
}.

Definition set_table (m : model) (rows : list row) (d : db) : db :=
  {| tables := λ m', if decide (m' = m) then rows else tables d m';
     next_id := next_id d; db_now := db_now d |}.

Definition bump_id (d : db) : db :=
  {| tables := tables d; next_id := next_id d + 1; db_now := db_now d |}.

(** Two rows agree on the columns of a key. *)
Definition same_key (key : list string) (r r' : row) : bool :=
  forallb (λ c, bool_decide (col r c = col r' c)) key.

(** A unique constraint never counts a row that holds NULL in its key. *)
Definition key_not_null (key : list string) (r : row) : bool :=
  forallb (λ c, negb (bool_decide (col r c = VNull))) key.

Definition IntegrityError (sqlstate : string) : exn :=
  DBAPIError {| dbe_class := SaIntegrityError; dbe_sqlstate := Some sqlstate |}.

(** ** Statements *)

Definition stmt (A : Type) : Type := db → result (A * db).

Definition select {A} (f : db → A) : stmt A := λ d, Ok (f d, d).

(** The foreign key every time-series row and task holds *)
Definition server_exists (d : db) (id : sqlval) : bool :=
  existsb (λ r, bool_decide (col r "id" = id)) (tables d ServerInventory).

(** One row of [INSERT ... ON CONFLICT (key) DO NOTHING] into a table that
    references [server_inventory]: a NULL in a key column and a dangling
    [server_id] are integrity errors, a row with the same key leaves the table as
    it is. *)
Definition insert_row_ignore (m : model) (key : list string) (r : row) : stmt Z := λ d,
  if negb (key_not_null key r) then Raise (IntegrityError "23502")
  else if existsb (same_key key r) (tables d m) then Ok (0, d)
  else if negb (server_exists d (col r "server_id")) then Raise (IntegrityError "23503")
  else Ok (1, set_table m (tables d m ++ [r]) d).

(** [INSERT ... VALUES rows ON CONFLICT (key) DO NOTHING]; the row count.  The
    rows of one statement conflict with each other too. *)
Fixpoint insert_ignore (m : model) (key : list string) (rows : list row) : stmt Z := λ d,
  match rows with
  | [] => Ok (0, d)
  | r :: rows' =>
      '(n, d1) ← insert_row_ignore m key r d;
      '(n', d2) ← insert_ignore m key rows' d1;
      Ok (n + n', d2)
  end.

(** The generated columns of an inserted row *)
Definition generated (d : db) : row :=
  dict [("id", VInt (next_id d)); ("public_id", VStr (pretty (next_id d)))].

(** [INSERT ... ON CONFLICT (key) DO NOTHING RETURNING id] into the inventory;
    the sequence advances whether or not the row goes in. *)
Definition insert_server_ignore (key : list string) (r : row) : stmt (option Z) := λ d,
  let d1 := bump_id d in
  if negb (key_not_null key r) then Raise (IntegrityError "23502")
  else if existsb (same_key key r) (tables d ServerInventory) then Ok (None, d1)
  else Ok (Some (next_id d),
           set_table ServerInventory (tables d ServerInventory ++ [r ∪ generated d]) d1).

(** [INSERT ... ON CONFLICT (key) DO UPDATE SET upd RETURNING id] *)
Definition upsert_server_row (key : list string) (r upd : row) : stmt Z := λ d,
  let d1 := bump_id d in
  if negb (key_not_null key r) then Raise (IntegrityError "23502")
  else
    match find (same_key key r) (tables d ServerInventory) with
    | Some old =>
        match col old "id" with
        | VInt id =>
            Ok (id, set_table ServerInventory
                 ((λ x, if same_key key r x then upd ∪ x else x) <$> tables d ServerInventory) d1)
        | _ => Raise TypeError
        end
    | None => Ok (next_id d,
                  set_table ServerInventory (tables d ServerInventory ++ [r ∪ generated d]) d1)
    end.

(** [UPDATE m SET set WHERE cond]; the row count *)
Definition update_where (m : model) (cond : db → row → bool) (set : db → row) : stmt Z := λ d,
  Ok (Z.of_nat (length (filter (λ r, cond d r = true) (tables d m))),
      set_table m ((λ r, if cond d r then set d ∪ r else r) <$> tables d m) d).

(** The rows a [WHERE] keeps *)
Definition rows_where (m : model) (cond : row → bool) (d : db) : list row :=
  filter (λ r, cond r = true) (tables d m).

(** [scalar_one_or_none] on a list of rows *)
Definition scalar_one_or_none {A} (l : list A) : result (option A) :=
  match l with
  | [] => Ok None
  | [x] => Ok (Some x)
  | _ => Raise (OtherError "MultipleResultsFound")
  end.

(** ** Sessions

    A session runs its statements against a database of any type. *)

Record gstep (D : Type) := {
  (** what the other transactions commit before this statement *)
  st_others : D → D;
  (** the error the statement fails with, if it fails *)
  st_fault : option exn;
  (** a failed commit: whether it was applied before the error came back *)
  st_applied : bool;
}.
Arguments st_others {D} _ _.
Arguments st_fault {D} _.
Arguments st_applied {D} _.

Definition quiet {D} : gstep D := {| st_others := id; st_fault := None; st_applied := false |}.

Record gsession (D : Type) := {
  committed : D;
  current : D;
  script : list (gstep D);
}.
Arguments committed {D} _.
Arguments current {D} _.
Arguments script {D} _.

Abbreviation step := (gstep db).
Abbreviation session := (gsession db).

Definition execute {D A} (q : D → result (A * D)) : eff (gsession D) A := λ s,
  let st := default quiet (head (script s)) in
  let s1 := {| committed := st_others st (committed s); current := st_others st (current s);
               script := tail (script s) |} in
  match st_fault st with
  | Some e => (Raise e, s1)
  | None =>
      match q (current s1) with
      | Ok (a, d) => (Ok a, {| committed := committed s1; current := d; script := script s1 |})
      | Raise e => (Raise e, s1)
      end
  end.

(** [session.commit()] *)
Definition commit {D} : eff (gsession D) unit := λ s,
  let st := default quiet (head (script s)) in
  let c := st_others st (committed s) in
  let v := st_others st (current s) in
  match st_fault st with
  | Some e => (Raise e, {| committed := if st_applied st then v else c; current := v;
                           script := tail (script s) |})
  | None => (Ok tt, {| committed := v; current := v; script := tail (script s) |})
  end.

(** [session.rollback()] *)
Definition rollback {D} : eff (gsession D) unit := λ s,
  (Ok tt, {| committed := committed s; current := committed s; script := script s |}).

(** [async with session_factory() as session: body] - the block starts from what
    is committed and leaving it rolls back what it did not commit. *)
Definition with_session {D A} (body : eff (gsession D) A) : eff (gsession D) A := λ s,
  let '(r, s1) := body {| committed := committed s; current := committed s; script := script s |} in
  (r, {| committed := committed s1; current := committed s1; script := script s1 |}).

(** A statement under a unique index: the whole statement fails when its result
    breaks the index. *)
Definition under_index {A} (ok : db → bool) (q : stmt A) : stmt A := λ d,
  '(a, d') ← q d;
  if ok d' then Ok (a, d') else Raise (IntegrityError "23505").

(** Column lookups stay folded under simplification. *)
#[global] Arguments col : simpl never.
#[global] Arguments generated : simpl never.
#[global] Arguments dict : simpl never.
