(* ===== verification/SqlFacts.v ===== *)
(** * A program logic for sessions

    [keeps I m]: whatever the script of faults and of other transactions, a
    session program keeps a database invariant, on what is committed as well as on
    what the session sees.  [triple P m Q]: if the program returns, the result and
    the database the session then sees satisfy [Q].  Both compose through the
    monad, so each statement is treated once. *)

From S2P Require Import Prelude PyFloat Sql.

(** ** Invariants *)

Record inv_session {D} (I : D → Prop) (s : gsession D) : Prop := {
  inv_committed : I (committed s);
  inv_current : I (current s);
  inv_others : Forall (λ st, ∀ d, I d → I (st_others st d)) (script s);
}.

Definition keeps {D A} (I : D → Prop) (m : eff (gsession D) A) : Prop :=
  ∀ s, inv_session I s → inv_session I (snd (m s)).

Create HintDb keeps.

Section keeps.
Context {D : Type}.
Variable I : D → Prop.

Lemma keeps_ret {A} (a : A) : keeps I (mret a).
Proof. by intros s H. Qed.

Lemma keeps_raise {A} e : keeps I (raise (A := A) e).
Proof. by intros s H. Qed.

Lemma keeps_lift {A} (r : result A) : keeps I (lift r).
Proof. by intros s H. Qed.

Lemma keeps_bind {A B} (m : eff (gsession D) A) (k : A → eff (gsession D) B) :
  keeps I m → (∀ a, keeps I (k a)) → keeps I (x ← m; k x).
Proof.
  intros Hm Hk s Hs. unfold mbind, eff_bind. specialize (Hm s Hs).
  destruct (m s) as [[a|e] s1]; [by apply Hk|done].
Qed.

Lemma inv_step s st : inv_session I s → st = default quiet (head (script s)) →
  (∀ d, I d → I (st_others st d)) ∧
  Forall (λ st, ∀ d, I d → I (st_others st d)) (tail (script s)).
Proof.
  intros [_ _ H] ->. destruct (script s) as [|x l]; cbn; [by split|].
  by apply Forall_cons in H.
Qed.

Lemma keeps_execute {A} (q : D → result (A * D)) :
  (∀ d a d', I d → q d = Ok (a, d') → I d') → keeps I (execute q).
Proof.
  intros Hq s Hs. destruct (inv_step s _ Hs eq_refl) as [Ho Ht].
  destruct Hs as [Hc Hv _]. unfold execute.
  destruct (st_fault _); cbn; [split; cbn; auto|].
  destruct (q _) as [[a d]|e] eqn:E; split; cbn; eauto.
Qed.

Lemma keeps_commit : keeps I commit.
Proof.
  intros s Hs. destruct (inv_step s _ Hs eq_refl) as [Ho Ht]. destruct Hs as [Hc Hv _].
  unfold commit. set (st := default quiet (head (script s))) in *.
  destruct (st_fault st), (st_applied st); split; cbn; auto.
Qed.

Lemma keeps_rollback : keeps I rollback.
Proof. by intros s [Hc Hv Ho]. Qed.

Lemma keeps_with_session {A} (m : eff (gsession D) A) : keeps I m → keeps I (with_session m).
Proof.
  intros Hm [c v l] [Hc Hv Ho]. unfold with_session; cbn in *.
  assert (inv_session I {| committed := c; current := c; script := l |}) as H by by split.
  apply Hm in H. destruct (m _) as [r s1]. cbn. destruct H. by split.
Qed.

Lemma keeps_try {A} (m : eff (gsession D) A) (h : exn → eff (gsession D) A) :
  keeps I m → (∀ e, keeps I (h e)) → keeps I (try_except m h).
Proof.
  intros Hm Hh s Hs. unfold try_except. specialize (Hm s Hs).
  destruct (m s) as [[a|e] s1]; [done|by apply Hh].
Qed.
End keeps.

#[export] Hint Resolve keeps_ret keeps_raise keeps_lift keeps_commit keeps_rollback : keeps.

Ltac keeps_tac :=
  repeat match goal with
  | |- ∀ _, _ => intros ?
  | |- keeps _ (mbind _ _) => apply keeps_bind
  | |- keeps _ (match ?x with _ => _ end) => destruct x
  | |- keeps _ (with_session _) => apply keeps_with_session
  | |- keeps _ _ => solve [auto with keeps]
  end.

(** ** Results

    [R] relates what other transactions may do to the database; it is reflexive
    and transitive. *)

Section triples.
Context {D : Type}.
Variable R : D → D → Prop.

Definition respects (s : gsession D) : Prop :=
  Forall (λ st, ∀ d, R d (st_others st d)) (script s).

(** A predicate that no other transaction can break *)
Definition stable (P : D → Prop) : Prop := ∀ d d', P d → R d d' → P d'.

Definition triple {A} (P : D → Prop) (m : eff (gsession D) A) (Q : A → D → Prop) : Prop :=
  ∀ s, respects s → P (current s) →
  respects (snd (m s)) ∧ match m s with (Ok a, s') => Q a (current s') | _ => True end.

Lemma triple_ret {A} (P : D → Prop) (a : A) (Q : A → D → Prop) :
  (∀ d, P d → Q a d) → triple P (mret a) Q.
Proof. intros H s Hs HP. split; [done|]. cbn. auto. Qed.

Lemma triple_raise {A} P e (Q : A → D → Prop) : triple P (raise e) Q.
Proof. by intros s H HP. Qed.

Lemma triple_lift {A} P (r : result A) (Q : A → D → Prop) :
  (∀ a d, r = Ok a → P d → Q a d) → triple P (lift r) Q.
Proof. intros H s Hs HP. split; [done|]. cbn. destruct r; eauto. Qed.

Lemma triple_bind {A B} P (m : eff (gsession D) A) (k : A → eff (gsession D) B) (M : A → D → Prop) Q :
  triple P m M → (∀ a, triple (M a) (k a) Q) → triple P (x ← m; k x) Q.
Proof.
  intros Hm Hk s Hs HP. unfold mbind, eff_bind. destruct (Hm s Hs HP) as [Hr HM].
  destruct (m s) as [[a|e] s1]; [by apply Hk|done].
Qed.

Lemma triple_pre {A} (P P' : D → Prop) (m : eff (gsession D) A) (Q : A → D → Prop) :
  triple P m Q → (∀ d, P' d → P d) → triple P' m Q.
Proof. intros H HP s Hs Hd. by apply H, HP. Qed.

Lemma triple_weaken {A} (P P' : D → Prop) (m : eff (gsession D) A) (Q Q' : A → D → Prop) :
  triple P m Q → (∀ d, P' d → P d) → (∀ a d, Q a d → Q' a d) → triple P' m Q'.
Proof.
  intros H HP HQ s Hs Hd. destruct (H s Hs (HP _ Hd)) as [Hr Hq]. split; [done|].
  destruct (m s) as [[a|e] s1]; eauto.
Qed.

Lemma respects_step s :
  respects s → (∀ d, R d (st_others (default quiet (head (script s))) d)) ∨ script s = [].
Proof. unfold respects. destruct (script s); [by right|]. rewrite Forall_cons. naive_solver. Qed.

Lemma triple_execute {A} (P : D → Prop) (q : D → result (A * D)) (Q : A → D → Prop) :
  stable P → (∀ d a d', P d → q d = Ok (a, d') → Q a d') → triple P (execute q) Q.
Proof.
  intros HS Hq s Hs HP. unfold execute.
  assert (P (st_others (default quiet (head (script s))) (current s))) as HP'.
  { destruct (respects_step s Hs) as [H| ->]; [by eapply HS|done]. }
  assert (Forall (λ st, ∀ d, R d (st_others st d)) (tail (script s))) as Ht.
  { unfold respects in Hs. destruct (script s); [done|].
  apply Forall_cons in Hs as [_ Hs]. exact Hs. }
  destruct (st_fault _); [done|].
  destruct (q _) as [[a d]|e] eqn:E; split; cbn; eauto.
Qed.
End triples.

(** ** Runs without faults and interference *)

Definition quiet_session {D} (c d : D) : gsession D :=
  {| committed := c; current := d; script := [] |}.

Lemma execute_quiet {D A} (q : D → result (A * D)) c d a d' :
  q d = Ok (a, d') → execute q (quiet_session c d) = (Ok a, quiet_session c d').
Proof. intros H. unfold execute. cbn. unfold id. by rewrite H. Qed.

Lemma execute_quiet_raise {D A} (q : D → result (A * D)) c d e :
  q d = Raise e → execute q (quiet_session c d) = (Raise e, quiet_session c d).
Proof. intros H. unfold execute. cbn. unfold id. by rewrite H. Qed.

Lemma commit_quiet {D} (c d : D) : commit (quiet_session c d) = (Ok tt, quiet_session d d).
Proof. done. Qed.

Lemma with_session_quiet {D A} (m : eff (gsession D) A) d r c' d' :
  m (quiet_session d d) = (r, quiet_session c' d') →
  with_session m (quiet_session d d) = (r, quiet_session c' c').
Proof. intros E. unfold with_session. cbn. fold (quiet_session d d). by rewrite E. Qed.
