(* ===== verification/Inbound.v ===== *)
(** * Inbound data-transfer objects

    Models [src/assessment_engine/db/dtos/inbound.py]: what the consumer's mappers
    build and the repositories store.  Each record sits in a Module of its own
    because the classes share field names.  [vars] is Python's [vars(e)] on the
    flat entry dataclasses: the field name is the column name. *)

From S2P Require Import Prelude PyFloat Sql.

Module Inventory.
Record ServerInventoryCreate := {
  agent_id : string;
  composite_id : option string;
  machine_id : option string;
  hostname : string;
  agent_version : option string;
  collected_at : datetime;
  boot_time : option datetime;
  agent_started_at : option datetime;
  os_family : option string;
  os_id : option string;
  os_version : option string;
  os_codename : option string;
  kernel_version : option string;
  cpu_cores : option Z;
  cpu_model : option string;
  mem_total_bytes : option Z;
  block_devices : list json;
  net_interfaces : list json;
  lvm_vgs : list json;
  ip_external : option (list string);
  services : option (list json);
  listen_ports : list json;
  service_categories : list string;
  arch : option string;
  bits : option Z;
  boot_firmware : option string;
  secure_boot : option bool;
  edition : option string;
  product_name : option string;
  timezone : option string;
  rtc_utc : option bool;
  boot : option json;
  nonblock_mounts : option (list json);
}.
End Inventory.

Module DiskIo.
Record DiskIoEntry := {
  device_id : string;
  device_name : option string;
  io_read_bytes : option Z;
  io_write_bytes : option Z;
  ops_read : option Z;
  ops_write : option Z;
  io_time_s : option float;
  op_read_time_s : option float;
  op_write_time_s : option float;
  pending_ops : option float;
}.

Definition disk_io_vars (e : DiskIoEntry) : list (string * sqlval) := [
  ("device_id", VStr (device_id e)); ("device_name", vopt VStr (device_name e));
  ("io_read_bytes", vopt VInt (io_read_bytes e)); ("io_write_bytes", vopt VInt (io_write_bytes e));
  ("ops_read", vopt VInt (ops_read e)); ("ops_write", vopt VInt (ops_write e));
  ("io_time_s", vopt VFloat (io_time_s e)); ("op_read_time_s", vopt VFloat (op_read_time_s e));
  ("op_write_time_s", vopt VFloat (op_write_time_s e));
  ("pending_ops", vopt VFloat (pending_ops e))]%string.
End DiskIo.

Module NetIo.
Record NetIoEntry := {
  iface_id : string;
  iface_name : option string;
  rx_bytes : option Z;
  tx_bytes : option Z;
  rx_packets : option Z;
  tx_packets : option Z;
  rx_errors : option Z;
  tx_errors : option Z;
  rx_dropped : option Z;
  tx_dropped : option Z;
  link_speed_bps : option Z;
}.

Definition net_io_vars (e : NetIoEntry) : list (string * sqlval) := [
  ("iface_id", VStr (iface_id e)); ("iface_name", vopt VStr (iface_name e));
  ("rx_bytes", vopt VInt (rx_bytes e)); ("tx_bytes", vopt VInt (tx_bytes e));
  ("rx_packets", vopt VInt (rx_packets e)); ("tx_packets", vopt VInt (tx_packets e));
  ("rx_errors", vopt VInt (rx_errors e)); ("tx_errors", vopt VInt (tx_errors e));
  ("rx_dropped", vopt VInt (rx_dropped e)); ("tx_dropped", vopt VInt (tx_dropped e));
  ("link_speed_bps", vopt VInt (link_speed_bps e))]%string.
End NetIo.

Module Filesystem.
Record FilesystemEntry := {
  mountpoint : string;
  device_id : option string;
  fstype : option string;
  used_bytes : option Z;
  free_bytes : option Z;
  inodes_used : option Z;
  inodes_free : option Z;
}.

Definition filesystem_vars (e : FilesystemEntry) : list (string * sqlval) := [
  ("mountpoint", VStr (mountpoint e)); ("device_id", vopt VStr (device_id e));
  ("fstype", vopt VStr (fstype e)); ("used_bytes", vopt VInt (used_bytes e));
  ("free_bytes", vopt VInt (free_bytes e)); ("inodes_used", vopt VInt (inodes_used e));
  ("inodes_free", vopt VInt (inodes_free e))]%string.
End Filesystem.

Module CpuCore.
Record CpuCoreEntry := {
  core_id : Z;
  cpu_user_s : option float;
  cpu_nice_s : option float;
  cpu_system_s : option float;
  cpu_idle_s : option float;
  cpu_iowait_s : option float;
  cpu_irq_s : option float;
  cpu_softirq_s : option float;
  cpu_steal_s : option float;
}.

Definition cpu_core_vars (e : CpuCoreEntry) : list (string * sqlval) := [
  ("core_id", VInt (core_id e));
  ("cpu_user_s", vopt VFloat (cpu_user_s e)); ("cpu_nice_s", vopt VFloat (cpu_nice_s e));
  ("cpu_system_s", vopt VFloat (cpu_system_s e)); ("cpu_idle_s", vopt VFloat (cpu_idle_s e));
  ("cpu_iowait_s", vopt VFloat (cpu_iowait_s e)); ("cpu_irq_s", vopt VFloat (cpu_irq_s e));
  ("cpu_softirq_s", vopt VFloat (cpu_softirq_s e));
  ("cpu_steal_s", vopt VFloat (cpu_steal_s e))]%string.
End CpuCore.

Module Pressure.
Record PressureEntry := {
  resource : string;
  scope : string;
  stall_time_s : option float;
  ratio_avg10 : option float;
  ratio_avg60 : option float;
  ratio_avg300 : option float;
}.

Definition pressure_vars (e : PressureEntry) : list (string * sqlval) := [
  ("resource", VStr (resource e)); ("scope", VStr (scope e));
  ("stall_time_s", vopt VFloat (stall_time_s e)); ("ratio_avg10", vopt VFloat (ratio_avg10 e));
  ("ratio_avg60", vopt VFloat (ratio_avg60 e));
  ("ratio_avg300", vopt VFloat (ratio_avg300 e))]%string.
End Pressure.

Module DiskError.
Record DiskErrorEntry := {
  device_id : string;
  error_kind : string;
  error_class : string;
  member : option string;
  count : option Z;
}.

Definition disk_error_vars (e : DiskErrorEntry) : list (string * sqlval) := [
  ("device_id", VStr (device_id e)); ("error_kind", VStr (error_kind e));
  ("error_class", VStr (error_class e)); ("member", vopt VStr (member e));
  ("count", vopt VInt (count e))]%string.
End DiskError.

Module Metric.
Record ServerMetricCreate := {
  collected_at : datetime;
  boot_time : option datetime;
  agent_started_at : option datetime;
  cpu_user_s : option float;
  cpu_nice_s : option float;
  cpu_system_s : option float;
  cpu_idle_s : option float;
  cpu_iowait_s : option float;
  cpu_irq_s : option float;
  cpu_softirq_s : option float;
  cpu_steal_s : option float;
  cpu_logical_count : option Z;
  cpu_run_queue : option float;
  cpu_blocked : option float;
  cpu_mce : option Z;
  mem_free_bytes : option Z;
  mem_cached_bytes : option Z;
  mem_buffered_bytes : option Z;
  mem_available_bytes : option Z;
  mem_used_bytes : option Z;
  mem_limit_bytes : option Z;
  mem_commit_usage_bytes : option Z;
  mem_commit_limit_bytes : option Z;
  mem_hardware_corrupted_bytes : option Z;
  mem_oom_kill : option Z;
  paging_in : option Z;
  paging_out : option Z;
  paging_major : option Z;
  net_tcp_retransmits : option Z;
  net_conntrack_usage : option Z;
  net_conntrack_limit : option Z;
  disk_io : list DiskIo.DiskIoEntry;
  net_io : list NetIo.NetIoEntry;
  filesystems : list Filesystem.FilesystemEntry;
  cpu_per_core : list CpuCore.CpuCoreEntry;
  pressure : list Pressure.PressureEntry;
  disk_errors : list DiskError.DiskErrorEntry;
}.
End Metric.

Module TaskDto.
Record TaskCreate := {
  target_server_id : Z;
  target_agent_id : string;
  task_type : string;
  params : option json;
  deadline_at : option datetime;
}.

Record TaskResultUpdate := {
  public_id : string;
  status : string;
  failure_reason : option string;
  exit_code : option Z;
  signal_no : option Z;
  task_policy : option bool;
  duration_ms : Z;
  stdout_tail : string;
  stderr_tail : string;
  completed_at : datetime;
}.
End TaskDto.
