(* ===== verification/BootTime.v ===== *)
(** * Boot times: are two readings of the same boot?

    Models [src/assessment_engine/boot_time.py].  Agents compute the boot time as
    now minus uptime, so it jitters by about a second between readings; both
    predicates absorb a difference of up to five seconds and differ on what a
    missing reading means. *)

From S2P Require Import Prelude Sql.

(** [timedelta(seconds=5)] in microseconds *)
Definition BOOT_TIME_JITTER_TOLERANCE : Z := 5000000.

Definition is_counter_reset (cur_boot prev_boot : option datetime) : bool :=
  match cur_boot, prev_boot with
  | Some c, Some p => BOOT_TIME_JITTER_TOLERANCE <? Z.abs (c - p)
  | _, _ => false
  end.

Definition boot_time_changed (prev_boot new_boot : option datetime) : bool :=
  match prev_boot, new_boot with
  | None, None => false
  | None, Some _ | Some _, None => true
  | Some p, Some n => BOOT_TIME_JITTER_TOLERANCE <? Z.abs (p - n)
  end.

(** The conservative test implies the eager one. *)
Lemma counter_reset_changed cur prev :
  is_counter_reset cur prev = true → boot_time_changed prev cur = true.
Proof.
  destruct cur as [c|], prev as [p|]; cbn; try done. intros H. to_prop.
  apply Z.ltb_lt. lia.
Qed.

Lemma boot_time_same prev new :
  boot_time_changed prev new = false ↔
  (prev = None ∧ new = None)
  ∨ ∃ p n, prev = Some p ∧ new = Some n ∧ Z.abs (p - n) <= BOOT_TIME_JITTER_TOLERANCE.
Proof.
  destruct prev as [p|], new as [n|]; cbn; rewrite ?Z.ltb_ge; naive_solver.
Qed.
