(* ===== verification/CollectDb.v ===== *)
(** * The collect repository

    Models [SqlCollectRepository] of [src/assessment_engine/db/repositories/collect_sql.py]
    statement by statement, with the natural keys the models of the time-series
    tables declare.  Every method is a program in the session monad of [Sql]. *)

From S2P Require Import Prelude PyFloat Sql Inbound BootTime.

(** ** Natural keys *)

(** The [UniqueConstraint]s of each model, as [__table_args__] declares them *)
Definition table_uniques (m : model) : list (list string) :=
  match m with
  | ServerInventory => [["agent_id"]; ["public_id"]]
  | ServerInventoryHistory => [["server_id"; "collected_at"]]
  | ServerMetrics => [["server_id"; "collected_at"]]
  | ServerCpuCore => [["server_id"; "core_id"; "collected_at"]]
  | ServerDiskIo => [["server_id"; "device_id"; "collected_at"]]
  | ServerNetIo => [["server_id"; "iface_id"; "collected_at"]]
  | ServerFilesystem => [["server_id"; "mountpoint"; "collected_at"]]
  | ServerPressure => [["server_id"; "resource"; "scope"; "collected_at"]]
  | ServerDiskError =>
      [["server_id"; "device_id"; "error_kind"; "error_class"; "member"; "collected_at"]]
  | Task => [["public_id"]]
  end%string.

Definition _natural_key (uniques : list (list string)) : result (list string) :=
  match uniques with
  | [key] => Ok key
  | _ => Raise (RuntimeError "natural key is not unique")
  end.

(** The dict resolved at import; the models that are not its keys are never
    looked up. *)
Definition _NATURAL_KEYS (m : model) : result (list string) :=
  match m with
  | ServerCpuCore | ServerDiskIo | ServerNetIo | ServerFilesystem | ServerPressure
  | ServerDiskError => _natural_key (table_uniques m)
  | _ => Raise (KeyError "model")
  end.

(** ** Inventory *)

Definition find_server_id (agent : string) : eff session (option Z) :=
  ids ← execute (select (λ d, (λ r, col r "id") <$>
          rows_where ServerInventory (λ r, bool_decide (col r "agent_id" = VStr agent)) d));
  found ← lift (scalar_one_or_none ids);
  mret (match found with Some (VInt id) => Some id | _ => None end).

Definition _INVENTORY_COMPARE_COLS : list string := [
  "agent_version"; "os_family"; "os_id"; "os_version"; "os_codename"; "kernel_version";
  "arch"; "bits"; "boot_firmware"; "secure_boot"; "edition"; "product_name"; "timezone";
  "rtc_utc"; "cpu_cores"; "cpu_model"; "mem_total_bytes"; "boot_time"; "agent_started_at";
  "block_devices"; "net_interfaces"; "lvm_vgs"; "boot"; "nonblock_mounts"; "ip_external";
  "services"; "listen_ports"]%string.

(** The columns the inventory row and its history mirror share *)
Definition inventory_values (data : Inventory.ServerInventoryCreate) : list (string * sqlval) :=
  let json_or_null (o : option json) := VJson (default JNull o) in [
  ("hostname", VStr (Inventory.hostname data));
  ("agent_version", vopt VStr (Inventory.agent_version data));
  ("os_family", vopt VStr (Inventory.os_family data));
  ("os_id", vopt VStr (Inventory.os_id data));
  ("os_version", vopt VStr (Inventory.os_version data));
  ("os_codename", vopt VStr (Inventory.os_codename data));
  ("kernel_version", vopt VStr (Inventory.kernel_version data));
  ("cpu_cores", vopt VInt (Inventory.cpu_cores data));
  ("cpu_model", vopt VStr (Inventory.cpu_model data));
  ("mem_total_bytes", vopt VInt (Inventory.mem_total_bytes data));
  ("boot_time", vopt VTime (Inventory.boot_time data));
  ("agent_started_at", vopt VTime (Inventory.agent_started_at data));
  ("block_devices", VJson (JArr (Inventory.block_devices data)));
  ("net_interfaces", VJson (JArr (Inventory.net_interfaces data)));
  ("lvm_vgs", VJson (JArr (Inventory.lvm_vgs data)));
  ("ip_external", vopt VArr (Inventory.ip_external data));
  ("services", vjson_list (Inventory.services data));
  ("listen_ports", VJson (JArr (Inventory.listen_ports data)));
  ("arch", vopt VStr (Inventory.arch data));
  ("bits", vopt VInt (Inventory.bits data));
  ("boot_firmware", vopt VStr (Inventory.boot_firmware data));
  ("secure_boot", vopt VBool (Inventory.secure_boot data));
  ("edition", vopt VStr (Inventory.edition data));
  ("product_name", vopt VStr (Inventory.product_name data));
  ("timezone", vopt VStr (Inventory.timezone data));
  ("rtc_utc", vopt VBool (Inventory.rtc_utc data));
  ("boot", json_or_null (Inventory.boot data));
  ("nonblock_mounts", vjson_list (Inventory.nonblock_mounts data))]%string.

Definition _inventory_row (data : Inventory.ServerInventoryCreate) : row :=
  dict ([("agent_id", VStr (Inventory.agent_id data));
         ("composite_id", vopt VStr (Inventory.composite_id data));
         ("machine_id", vopt VStr (Inventory.machine_id data))]%string
        ++ inventory_values data
        ++ [("service_categories", VArr (Inventory.service_categories data));
            ("last_seen_at", VTime (Inventory.collected_at data))]%string).

(** The optional datetime a column holds *)
Definition time_of (v : sqlval) : option datetime :=
  match v with VTime t => Some t | _ => None end.

(** [prev.X != new.X] for every tracked column but the boot time, which is
    compared up to jitter *)
Definition _inventory_changed (prev : row) (new : Inventory.ServerInventoryCreate) : bool :=
  let new_row := dict (inventory_values new) in
  existsb (λ c,
    if String.eqb c "boot_time"
    then boot_time_changed (time_of (col prev c)) (Inventory.boot_time new)
    else negb (bool_decide (col prev c = col new_row c))) _INVENTORY_COMPARE_COLS.

Definition _append_inventory_history (server_id : Z) (data : Inventory.ServerInventoryCreate)
    : eff session unit :=
  _ ← execute (insert_ignore ServerInventoryHistory ["server_id"; "collected_at"]%string
        [dict ([("server_id", VInt server_id); ("collected_at", VTime (Inventory.collected_at data))]%string
               ++ inventory_values data)]);
  mret tt.

Definition upsert_server (data : Inventory.ServerInventoryCreate) : eff session Z :=
  prev ← execute (select (λ d,
    head (rows_where ServerInventory
            (λ r, bool_decide (col r "agent_id" = VStr (Inventory.agent_id data))) d)));
  let r := _inventory_row data in
  let update_set := base.delete "agent_id"%string r in
  server_id ← execute (upsert_server_row ["agent_id"%string] r update_set);
  _ ← (if match prev with None => true | Some p => _inventory_changed p data end
       then _append_inventory_history server_id data else mret tt);
  mret server_id.

Definition _insert_placeholder_server (data : Inventory.ServerInventoryCreate)
    : eff session (option Z) :=
  execute (insert_server_ignore ["agent_id"%string] (_inventory_row data)).

Definition ensure_server_id (agent : string) (fallback : Inventory.ServerInventoryCreate)
    : eff session (Z * bool) :=
  found ← find_server_id agent;
  match found with
  | Some server_id => mret (server_id, false)
  | None =>
      new_id ← _insert_placeholder_server fallback;
      match new_id with
      | Some id => mret (id, true)
      | None =>
          again ← find_server_id agent;
          match again with
          | None => raise (RuntimeError "failed to ensure server_id")
          | Some server_id => mret (server_id, false)
          end
      end
  end.

(** ** Tasks *)

(** The partial unique index on pending tasks: [(target_server_id, task_type)]
    where the status is pending *)
Definition is_pending (r : row) : bool := bool_decide (col r "status" = VStr "pending").

Definition pending_unique (d : db) : bool :=
  bool_decide (NoDup ((λ r, (col r "target_server_id", col r "task_type"))
    <$> filter (λ r, is_pending r = true) (tables d Task))).

(** [INSERT INTO tasks ... RETURNING public_id] with the server defaults *)
Definition insert_task (r : row) : stmt string := λ d,
  if negb (server_exists d (col r "target_server_id")) then Raise (IntegrityError "23503")
  else under_index pending_unique (λ d,
    Ok (pretty (next_id d),
        set_table Task (tables d Task ++
          [r ∪ generated d ∪ dict [("created_at"%string, VTime (db_now d))]]) (bump_id d))) d.

Definition create_task (data : TaskDto.TaskCreate) : eff session string :=
  execute (insert_task (dict [
    ("target_server_id", VInt (TaskDto.target_server_id data));
    ("target_agent_id", VStr (TaskDto.target_agent_id data));
    ("task_type", VStr (TaskDto.task_type data));
    ("params", VJson (default JNull (TaskDto.params data)));
    ("status", VStr "pending");
    ("deadline_at", vopt VTime (TaskDto.deadline_at data))]%string)).

(** [status = 'pending' AND deadline_at IS NOT NULL AND deadline_at < now()] *)
Definition overdue (d : db) (r : row) : bool :=
  is_pending r && match col r "deadline_at" with VTime t => t <? db_now d | _ => false end.

(** [values(status="failure", failure_reason="timeout", completed_at=now())] *)
Definition timeout_values (d : db) : row :=
  dict [("status", VStr "failure"); ("failure_reason", VStr "timeout");
        ("completed_at", VTime (db_now d))]%string.

Definition int_in (v : sqlval) (ids : list Z) : bool :=
  match v with VInt n => mem n ids | _ => false end.

Definition expire_overdue_tasks (server_ids : list Z) : eff session Z :=
  match server_ids with
  | [] => mret 0
  | _ => execute (update_where Task
           (λ d r, int_in (col r "target_server_id") server_ids && overdue d r) timeout_values)
  end.

Definition expire_all_overdue_tasks : eff session Z :=
  execute (update_where Task overdue timeout_values).

Definition find_pending_deadline_servers (server_ids : list Z) : eff session (list Z) :=
  match server_ids with
  | [] => mret []
  | _ => execute (select (λ d, dedup_first (omap
           (λ r, match col r "target_server_id" with VInt n => Some n | _ => None end)
           (rows_where Task (λ r, int_in (col r "target_server_id") server_ids && is_pending r
                                  && negb (bool_decide (col r "deadline_at" = VNull))) d))))
  end.

Definition complete_task (data : TaskDto.TaskResultUpdate) : eff session bool :=
  n ← execute (under_index pending_unique (update_where Task
    (λ _ r, bool_decide (col r "public_id" = VStr (TaskDto.public_id data)))
    (λ _, dict [
      ("status", VStr (TaskDto.status data)); ("completed_at", VTime (TaskDto.completed_at data));
      ("failure_reason", vopt VStr (TaskDto.failure_reason data));
      ("exit_code", vopt VInt (TaskDto.exit_code data));
      ("signal_no", vopt VInt (TaskDto.signal_no data));
      ("task_policy", vopt VBool (TaskDto.task_policy data));
      ("duration_ms", VInt (TaskDto.duration_ms data));
      ("stdout_tail", VStr (TaskDto.stdout_tail data));
      ("stderr_tail", VStr (TaskDto.stderr_tail data))]%string)));
  mret (0 <? n).

(** ** Time series *)

Record MetricInsertResult := {
  metrics : Z;
  disk_io : Z;
  net_io : Z;
  filesystem : Z;
  cpu_core : Z;
  pressure : Z;
  disk_error : Z;
}.

Definition child_row (server_id : Z) (collected_at : datetime) (vars : list (string * sqlval)) : row :=
  dict ([("server_id", VInt server_id); ("collected_at", VTime collected_at)]%string ++ vars).

Definition _insert_child (m : model) (server_id : Z) (data : Metric.ServerMetricCreate)
    (entries : list (list (string * sqlval))) (row_hook : row → row) : eff session Z :=
  match entries with
  | [] => mret 0
  | _ =>
      key ← lift (_NATURAL_KEYS m);
      execute (insert_ignore m key
        (row_hook <$> (child_row server_id (Metric.collected_at data) <$> entries)))
  end.

Definition metric_row (server_id : Z) (data : Metric.ServerMetricCreate) : row := dict [
  ("server_id", VInt server_id); ("collected_at", VTime (Metric.collected_at data));
  ("cpu_user_s", vopt VFloat (Metric.cpu_user_s data));
  ("cpu_nice_s", vopt VFloat (Metric.cpu_nice_s data));
  ("cpu_system_s", vopt VFloat (Metric.cpu_system_s data));
  ("cpu_idle_s", vopt VFloat (Metric.cpu_idle_s data));
  ("cpu_iowait_s", vopt VFloat (Metric.cpu_iowait_s data));
  ("cpu_irq_s", vopt VFloat (Metric.cpu_irq_s data));
  ("cpu_softirq_s", vopt VFloat (Metric.cpu_softirq_s data));
  ("cpu_steal_s", vopt VFloat (Metric.cpu_steal_s data));
  ("cpu_logical_count", vopt VInt (Metric.cpu_logical_count data));
  ("cpu_run_queue", vopt VFloat (Metric.cpu_run_queue data));
  ("cpu_blocked", vopt VFloat (Metric.cpu_blocked data));
  ("cpu_mce", vopt VInt (Metric.cpu_mce data));
  ("mem_free_bytes", vopt VInt (Metric.mem_free_bytes data));
  ("mem_cached_bytes", vopt VInt (Metric.mem_cached_bytes data));
  ("mem_buffered_bytes", vopt VInt (Metric.mem_buffered_bytes data));
  ("mem_available_bytes", vopt VInt (Metric.mem_available_bytes data));
  ("mem_used_bytes", vopt VInt (Metric.mem_used_bytes data));
  ("mem_limit_bytes", vopt VInt (Metric.mem_limit_bytes data));
  ("mem_commit_usage_bytes", vopt VInt (Metric.mem_commit_usage_bytes data));
  ("mem_commit_limit_bytes", vopt VInt (Metric.mem_commit_limit_bytes data));
  ("mem_hardware_corrupted_bytes", vopt VInt (Metric.mem_hardware_corrupted_bytes data));
  ("mem_oom_kill", vopt VInt (Metric.mem_oom_kill data));
  ("paging_in", vopt VInt (Metric.paging_in data));
  ("paging_out", vopt VInt (Metric.paging_out data));
  ("paging_major", vopt VInt (Metric.paging_major data));
  ("net_tcp_retransmits", vopt VInt (Metric.net_tcp_retransmits data));
  ("net_conntrack_usage", vopt VInt (Metric.net_conntrack_usage data));
  ("net_conntrack_limit", vopt VInt (Metric.net_conntrack_limit data));
  ("boot_time", vopt VTime (Metric.boot_time data));
  ("agent_started_at", vopt VTime (Metric.agent_started_at data))]%string.

Definition _insert_scalar_metrics (server_id : Z) (data : Metric.ServerMetricCreate)
    : eff session Z :=
  execute (insert_ignore ServerMetrics ["server_id"; "collected_at"]%string
             [metric_row server_id data]).

(** [{**row, "member": row["member"] or ""}] *)
Definition member_hook (r : row) : row :=
  match col r "member" with
  | VNull => <["member"%string := VStr ""]> r
  | _ => r
  end.

Definition record_metrics (server_id : Z) (data : Metric.ServerMetricCreate)
    : eff session MetricInsertResult :=
  n_metrics ← _insert_scalar_metrics server_id data;
  n_disk_io ← _insert_child ServerDiskIo server_id data
                (DiskIo.disk_io_vars <$> Metric.disk_io data) id;
  n_net_io ← _insert_child ServerNetIo server_id data
               (NetIo.net_io_vars <$> Metric.net_io data) id;
  n_filesystem ← _insert_child ServerFilesystem server_id data
                   (Filesystem.filesystem_vars <$> Metric.filesystems data) id;
  n_cpu_core ← _insert_child ServerCpuCore server_id data
                 (CpuCore.cpu_core_vars <$> Metric.cpu_per_core data) id;
  n_pressure ← _insert_child ServerPressure server_id data
                 (Pressure.pressure_vars <$> Metric.pressure data) id;
  n_disk_error ← _insert_child ServerDiskError server_id data
                   (DiskError.disk_error_vars <$> Metric.disk_errors data) member_hook;
  mret {| metrics := n_metrics; disk_io := n_disk_io; net_io := n_net_io;
          filesystem := n_filesystem; cpu_core := n_cpu_core; pressure := n_pressure;
          disk_error := n_disk_error |}.
