(* ===== verification/CollectFacts.v ===== *)
(** * The collect database: well-formedness and the effect of each statement *)

From S2P Require Import Prelude PyFloat Sql SqlFacts Inbound BootTime CollectDb.

(** ** Keys *)

Definition key_vals (key : list string) (r : row) : list sqlval := (λ c, col r c) <$> key.

Lemma same_key_iff key r r' : same_key key r r' = true ↔ key_vals key r = key_vals key r'.
Proof.
  unfold same_key, key_vals. induction key as [|c key IH]; cbn; [done|].
  rewrite andb_true_iff, IH, bool_decide_eq_true.
  split; [intros [H1 H2]; congruence|by intros [= H1 H2]].
Qed.

(** The rows of a table under a unique key that holds no NULL *)
Definition keyed (key : list string) (l : list row) : Prop :=
  Forall (λ r, key_not_null key r = true) l ∧ NoDup (key_vals key <$> l).

Lemma has_key_iff key r l :
  existsb (same_key key r) l = true ↔ key_vals key r ∈ key_vals key <$> l.
Proof.
  rewrite existsb_exists, list_elem_of_fmap. setoid_rewrite same_key_iff.
  split; intros (x & H1 & H2); exists x; split; try done; by apply list_elem_of_In.
Qed.

Lemma keyed_snoc key l r :
  keyed key l → key_not_null key r = true → existsb (same_key key r) l = false →
  keyed key (l ++ [r]).
Proof.
  intros [Hn Hd] Hr He. split.
  - apply Forall_app. by split; [|constructor].
  - rewrite fmap_app. apply NoDup_app. split; [done|]. split; [|by apply NoDup_singleton].
    intros x Hx ->%list_elem_of_singleton. apply has_key_iff in Hx. congruence.
Qed.

(** A key identifies a row. *)
Lemma keyed_inj key l r r' :
  keyed key l → r ∈ l → r' ∈ l → same_key key r r' = true → r = r'.
Proof.
  intros [_ Hd] Hr Hr' H%same_key_iff.
  apply list_elem_of_lookup in Hr as [i Hi], Hr' as [j Hj].
  assert (i = j) as ->; [|congruence].
  eapply NoDup_lookup; [exact Hd| |]; rewrite list_lookup_fmap;
    [by rewrite Hi|rewrite Hj; cbn; congruence].
Qed.

(** ** Tables *)

Lemma tables_set_same m l d : tables (set_table m l d) m = l.
Proof. cbn. by rewrite decide_True. Qed.

Lemma tables_set_other m m' l d : m' ≠ m → tables (set_table m l d) m' = tables d m'.
Proof. intros. cbn. by rewrite decide_False. Qed.

(** The series tables and their natural keys *)
Definition series_key (m : model) : option (list string) :=
  match m with
  | ServerInventory | Task => None
  | _ => head (table_uniques m)
  end.

Lemma natural_key_series m key : _NATURAL_KEYS m = Ok key → series_key m = Some key.
Proof. by destruct m; intros [= <-]. Qed.

(** ** Well-formed databases *)

Record wf (d : db) : Prop := {
  wf_series m key : series_key m = Some key → keyed key (tables d m);
  wf_fk m r : series_key m ≠ None → r ∈ tables d m → server_exists d (col r "server_id") = true;
  wf_agents : keyed ["agent_id"%string] (tables d ServerInventory);
  wf_ids : NoDup ((λ r, col r "id") <$> tables d ServerInventory);
  wf_ids_below : Forall (λ r, ∃ n, col r "id" = VInt n ∧ n < next_id d) (tables d ServerInventory);
  wf_pending : pending_unique d = true;
}.

(** What a statement, and any other transaction, may do: rows of the series
    tables stay as they are, servers keep their identity. *)
Record grows (d d' : db) : Prop := {
  g_series m r : series_key m ≠ None → r ∈ tables d m → r ∈ tables d' m;
  g_servers r : r ∈ tables d ServerInventory → ∃ r', r' ∈ tables d' ServerInventory
    ∧ col r' "id" = col r "id" ∧ col r' "agent_id" = col r "agent_id";
}.

Lemma grows_refl d : grows d d.
Proof. split; eauto. Qed.

Lemma grows_trans d1 d2 d3 : grows d1 d2 → grows d2 d3 → grows d1 d3.
Proof.
  intros H1 H2. split.
  - intros m r Hm Hr. eapply g_series; eauto using g_series.
  - intros r Hr. destruct (g_servers _ _ H1 r Hr) as (r2 & Hr2 & E1 & E2).
    destruct (g_servers _ _ H2 r2 Hr2) as (r3 & Hr3 & E3 & E4). exists r3.
    by rewrite E3, E4.
Qed.

#[export] Instance grows_preorder : PreOrder grows.
Proof. split; [exact grows_refl|exact grows_trans]. Qed.

Lemma server_exists_iff d id :
  server_exists d id = true ↔ ∃ r, r ∈ tables d ServerInventory ∧ col r "id" = id.
Proof.
  unfold server_exists. rewrite existsb_exists. setoid_rewrite bool_decide_eq_true.
  split; intros (r & H1 & H2); exists r; split; try done; by apply list_elem_of_In.
Qed.

Lemma server_exists_grows d d' id :
  grows d d' → server_exists d id = true → server_exists d' id = true.
Proof.
  rewrite !server_exists_iff. intros G (r & Hr & <-).
  destruct (g_servers _ _ G r Hr) as (r' & ? & ? & _). eauto.
Qed.

(** ** [INSERT ... ON CONFLICT DO NOTHING] on a series table *)

(** What a bulk insert did *)
Record inserted (m : model) (key : list string) (rows : list row) (d : db) (n : Z) (d' : db) : Prop := {
  ins_fresh : ∃ fresh, tables d' m = tables d m ++ fresh ∧ n = Z.of_nat (length fresh)
    ∧ fresh `sublist_of` rows;
  ins_frame m' : m' ≠ m → tables d' m' = tables d m';
  ins_next : next_id d' = next_id d;
  ins_now : db_now d' = db_now d;
  ins_present r : r ∈ rows →
    key_not_null key r = true ∧ existsb (same_key key r) (tables d' m) = true;
  ins_keyed : keyed key (tables d m) → keyed key (tables d' m);
  ins_fk r : r ∈ tables d' m → r ∈ tables d m ∨ server_exists d (col r "server_id") = true;
}.

Lemma insert_row_inserted m key r d n d' :
  insert_row_ignore m key r d = Ok (n, d') → inserted m key [r] d n d'.
Proof.
  unfold insert_row_ignore. intros H.
  destruct (key_not_null key r) eqn:Hn; [|done]. cbn [negb] in H.
  destruct (existsb _ _) eqn:He.
  { injection H as <- <-. split; try done.
    - exists []. rewrite app_nil_r. split; [done|]. split; [done|]. apply sublist_nil_l.
    - by intros x ->%list_elem_of_singleton.
    - by left. }
  destruct (server_exists _ _) eqn:Hs; [|done]. injection H as <- <-. split; try done.
  - exists [r]. by rewrite tables_set_same.
  - intros m' Hm. by apply tables_set_other.
  - intros x ->%list_elem_of_singleton. split; [done|]. rewrite tables_set_same, existsb_app.
    cbn. rewrite (proj2 (same_key_iff key r r) eq_refl). by rewrite orb_true_r.
  - intros Hk. rewrite tables_set_same. by apply keyed_snoc.
  - rewrite tables_set_same. intros x Hx. apply elem_of_app in Hx as [Hx|Hx]; [by left|].
    apply list_elem_of_singleton in Hx as ->. by right.
Qed.

Lemma server_exists_ext d d' id :
  tables d' ServerInventory = tables d ServerInventory →
  server_exists d' id = server_exists d id.
Proof. unfold server_exists. by intros ->. Qed.

Lemma insert_ignore_inserted m key rows d n d' :
  m ≠ ServerInventory → insert_ignore m key rows d = Ok (n, d') → inserted m key rows d n d'.
Proof.
  intros Hm. revert d n d'. induction rows as [|r rows IH]; cbn; intros d n d' H.
  { injection H as <- <-. split; try done.
    - exists []. by rewrite app_nil_r.
    - by intros r Hr%not_elem_of_nil.
    - by left. }
  destruct (insert_row_ignore m key r d) as [[n1 d1]|] eqn:E1; [|done]. cbn in H.
  destruct (insert_ignore m key rows d1) as [[n2 d2]|] eqn:E2; [|done]. cbn in H.
  injection H as <- <-. apply insert_row_inserted in E1 as I1. apply IH in E2 as I2.
  destruct (ins_fresh _ _ _ _ _ _ I1) as (f1 & Ht1 & -> & Hs1).
  destruct (ins_fresh _ _ _ _ _ _ I2) as (f2 & Ht2 & -> & Hs2).
  assert (∀ x, key_vals key x ∈ key_vals key <$> tables d1 m →
    existsb (same_key key x) (tables d2 m) = true) as Hmono.
  { intros x Hx. apply has_key_iff. rewrite Ht2, fmap_app, elem_of_app. by left. }
  split.
  - exists (f1 ++ f2). rewrite Ht2, Ht1, app_assoc, length_app. split; [done|]. split; [lia|].
    by apply (sublist_app f1 [r] f2 rows).
  - intros m' Hm'. by rewrite (ins_frame _ _ _ _ _ _ I2), (ins_frame _ _ _ _ _ _ I1).
  - by rewrite (ins_next _ _ _ _ _ _ I2), (ins_next _ _ _ _ _ _ I1).
  - by rewrite (ins_now _ _ _ _ _ _ I2), (ins_now _ _ _ _ _ _ I1).
  - intros x [->|Hx]%elem_of_cons; [|by apply (ins_present _ _ _ _ _ _ I2)].
    destruct (ins_present _ _ _ _ _ _ I1 r) as [? H]; [set_solver|].
    split; [done|]. by apply Hmono, has_key_iff.
  - intros Hk. apply (ins_keyed _ _ _ _ _ _ I2), (ins_keyed _ _ _ _ _ _ I1), Hk.
  - intros x Hx. destruct (ins_fk _ _ _ _ _ _ I2 x Hx) as [Hx1|Hx1].
    + by apply (ins_fk _ _ _ _ _ _ I1).
    + right. erewrite <- server_exists_ext; [exact Hx1|]. by apply (ins_frame _ _ _ _ _ _ I1).
Qed.

(** Inserting rows whose keys are there changes nothing. *)
Lemma insert_ignore_noop m key rows d :
  (∀ r, r ∈ rows → key_not_null key r = true ∧ existsb (same_key key r) (tables d m) = true) →
  insert_ignore m key rows d = Ok (0, d).
Proof.
  induction rows as [|r rows IH]; cbn; intros H; [done|].
  destruct (H r) as [Hn He]; [set_solver|].
  unfold insert_row_ignore. rewrite Hn, He. cbn. rewrite IH; [done|]. set_solver.
Qed.

(** Rows with a key and a server always go in (or are there already). *)
Lemma insert_ignore_total m key rows d :
  m ≠ ServerInventory →
  (∀ r, r ∈ rows → key_not_null key r = true ∧ server_exists d (col r "server_id") = true) →
  ∃ n d', insert_ignore m key rows d = Ok (n, d').
Proof.
  intros Hm. revert d. induction rows as [|r rows IH]; cbn; intros d H; [eauto|].
  destruct (H r) as [Hn He]; [set_solver|].
  destruct (insert_row_ignore m key r d) as [[n1 d1]|] eqn:E1.
  - cbn. destruct (IH d1) as (n2 & d2 & ->); [|cbn; eauto].
    intros x Hx. destruct (H x) as [Hxn Hxs]; [set_solver|]. split; [done|].
    rewrite (server_exists_ext d); [done|].
    by apply (ins_frame _ _ _ _ _ _ (insert_row_inserted _ _ _ _ _ _ E1)).
  - unfold insert_row_ignore in E1. rewrite Hn, He in E1. cbn in E1. by destruct (existsb _ _).
Qed.

Lemma pending_unique_ext d d' : tables d' Task = tables d Task → pending_unique d' = pending_unique d.
Proof. unfold pending_unique. by intros ->. Qed.

Lemma inserted_wf m key rows d n d' :
  series_key m = Some key → inserted m key rows d n d' → wf d → wf d' ∧ grows d d'.
Proof.
  intros Hk I W.
  assert (m ≠ ServerInventory ∧ m ≠ Task) as [Hm1 Hm2] by by destruct m.
  assert (tables d' ServerInventory = tables d ServerInventory) as Hinv
    by by apply (ins_frame _ _ _ _ _ _ I).
  split; [|split].
  - split; rewrite ?Hinv, ?(ins_next _ _ _ _ _ _ I).
    + intros m' key' Hk'. destruct (decide (m' = m)) as [->|Hne].
      * replace key' with key by congruence. apply (ins_keyed _ _ _ _ _ _ I). by apply wf_series.
      * rewrite (ins_frame _ _ _ _ _ _ I) by done. by apply wf_series.
    + intros m' r Hs Hr. rewrite (server_exists_ext d) by done.
      destruct (decide (m' = m)) as [->|Hne].
      * destruct (ins_fk _ _ _ _ _ _ I r Hr); [by eapply wf_fk|done].
      * rewrite (ins_frame _ _ _ _ _ _ I) in Hr by done. by eapply wf_fk.
    + by apply wf_agents.
    + by apply wf_ids.
    + by apply wf_ids_below.
    + rewrite (pending_unique_ext d); [by apply wf_pending|]. by apply (ins_frame _ _ _ _ _ _ I).
  - intros m' r Hs Hr. destruct (decide (m' = m)) as [->|Hne].
    + destruct (ins_fresh _ _ _ _ _ _ I) as (f & -> & _). apply elem_of_app. by left.
    + by rewrite (ins_frame _ _ _ _ _ _ I).
  - rewrite Hinv. eauto.
Qed.

(** ** The other statements *)

(** A statement keeps the database well-formed and only lets it grow. *)
Definition stmt_ok {A} (q : stmt A) : Prop :=
  ∀ d a d', wf d → q d = Ok (a, d') → wf d' ∧ grows d d'.

Create HintDb stmt.

Lemma insert_ignore_ok m key rows : series_key m = Some key → stmt_ok (insert_ignore m key rows).
Proof.
  intros Hk d n d' W H. eapply inserted_wf; [done| |done].
  apply insert_ignore_inserted; [by destruct m|done].
Qed.

Lemma select_ok {A} (f : db → A) : stmt_ok (select f).
Proof. intros d a d' W [= _ <-]. by split. Qed.

Lemma col_union_some (r x : row) c v : r !! c = Some v → col (r ∪ x) c = v.
Proof. intros H. unfold col. by rewrite (lookup_union_Some_l _ _ _ _ H). Qed.

Lemma col_union_none (r x : row) c : r !! c = None → col (r ∪ x) c = col x c.
Proof. intros H. unfold col. by rewrite lookup_union_r. Qed.

Lemma generated_id d : col (generated d) "id" = VInt (next_id d).
Proof. by vm_compute. Qed.

(** A table that is neither the inventory nor the tasks stays, ids stay below the
    sequence. *)
Lemma wf_frame d d' :
  wf d →
  (∀ m, series_key m ≠ None → tables d' m = tables d m) →
  (∀ id, server_exists d id = true → server_exists d' id = true) →
  keyed ["agent_id"%string] (tables d' ServerInventory) →
  NoDup ((λ r, col r "id") <$> tables d' ServerInventory) →
  Forall (λ r, ∃ n, col r "id" = VInt n ∧ n < next_id d') (tables d' ServerInventory) →
  pending_unique d' = true →
  wf d'.
Proof.
  intros W Hs He Ha Hi Hb Hp. split; [| |done..].
  - intros m key Hk. rewrite Hs by congruence. by apply wf_series.
  - intros m r Hk Hr. rewrite Hs in Hr by done. apply He. by eapply wf_fk.
Qed.

Lemma ids_fresh d r : wf d → r ∈ tables d ServerInventory → col r "id" ≠ VInt (next_id d).
Proof.
  intros W Hr E. pose proof (wf_ids_below _ W) as H. rewrite Forall_forall in H.
  destruct (H r Hr) as (n & E' & ?). assert (n = next_id d) by congruence. lia.
Qed.

Lemma ids_below_bump d l :
  Forall (λ r, ∃ n, col r "id" = VInt n ∧ n < next_id d) l →
  Forall (λ r, ∃ n, col r "id" = VInt n ∧ n < next_id d + 1) l.
Proof.
  intros H. eapply Forall_impl; [exact H|]. cbn. intros x (n & ? & ?). exists n. split; [done|lia].
Qed.

(** A new server row, under a fresh id *)
Lemma add_server_ok d r :
  wf d → key_not_null ["agent_id"%string] r = true → r !! "id"%string = None →
  is_Some (r !! "agent_id"%string) →
  existsb (same_key ["agent_id"%string] r) (tables d ServerInventory) = false →
  let d' := set_table ServerInventory (tables d ServerInventory ++ [r ∪ generated d]) (bump_id d) in
  wf d' ∧ grows d d'.
Proof.
  intros W Hn Hid [a Ha] He d'.
  assert (tables d' ServerInventory = tables d ServerInventory ++ [r ∪ generated d]) as Ht
    by apply tables_set_same.
  assert (col (r ∪ generated d) "id" = VInt (next_id d)) as Hnew.
  { rewrite col_union_none by done. apply generated_id. }
  assert (key_vals ["agent_id"%string] (r ∪ generated d) = key_vals ["agent_id"%string] r) as Hkey.
  { cbn. rewrite (col_union_some _ _ _ _ Ha). unfold col. by rewrite Ha. }
  split.
  - apply (wf_frame d); [done| | |rewrite Ht; cbn [next_id bump_id set_table]..|exact (wf_pending d W)].
    + intros m Hm. unfold d'. rewrite tables_set_other; [done|]. by destruct m.
    + intros id. rewrite !server_exists_iff, Ht. intros (x & Hx & <-).
      exists x. split; [|done]. apply elem_of_app. by left.
    + apply keyed_snoc; [by apply wf_agents| |].
      * revert Hn. unfold key_not_null. cbn. rewrite (col_union_some _ _ _ _ Ha).
        unfold col. by rewrite Ha.
      * apply not_true_iff_false. rewrite has_key_iff, Hkey, <- has_key_iff. by rewrite He.
    + rewrite fmap_app. apply NoDup_app. split; [by apply wf_ids|].
      split; [|apply NoDup_singleton]. cbn. rewrite Hnew.
      intros x Hx ->%list_elem_of_singleton. apply list_elem_of_fmap in Hx as (y & Ey & Hy).
      by eapply ids_fresh.
    + apply Forall_app. split; [by apply ids_below_bump, wf_ids_below|].
      constructor; [|done]. exists (next_id d). rewrite Hnew. split; [done|cbn; lia].
  - split.
    + intros m x Hm Hx. unfold d'. rewrite tables_set_other; [done|]. by destruct m.
    + intros x Hx. rewrite Ht. exists x. rewrite elem_of_app. auto.
Qed.

(** The columns an upsert may set *)
Definition inventory_update (upd : row) : Prop :=
  upd !! "id"%string = None ∧ upd !! "agent_id"%string = None.

Lemma insert_server_ignore_ok r :
  r !! "id"%string = None → is_Some (r !! "agent_id"%string) →
  stmt_ok (insert_server_ignore ["agent_id"%string] r).
Proof.
  intros Hid Ha d a d' W. unfold insert_server_ignore.
  destruct (key_not_null _ r) eqn:Hn; [|done]. cbn [negb].
  destruct (existsb _ _) eqn:He; intros [= <- <-]; [|by apply add_server_ok].
  split; [|split; cbn; eauto].
  apply (wf_frame d); [done|done|done| | | |exact (wf_pending d W)].
  - exact (wf_agents d W).
  - exact (wf_ids d W).
  - apply (ids_below_bump d), (wf_ids_below d W).
Qed.

Lemma fmap_ext_keep {A} (f g : row → A) (h : row → row) (l : list row) :
  (∀ x, x ∈ l → f (h x) = g x) → f <$> (h <$> l) = g <$> l.
Proof.
  intros H. rewrite <- list_fmap_compose. apply list_fmap_ext. intros i x Hx.
  apply H. by eapply list_elem_of_lookup_2.
Qed.

Lemma upsert_server_row_ok r upd :
  r !! "id"%string = None → is_Some (r !! "agent_id"%string) → inventory_update upd →
  stmt_ok (upsert_server_row ["agent_id"%string] r upd).
Proof.
  intros Hid Ha [Hu1 Hu2] d a d' W. unfold upsert_server_row.
  destruct (key_not_null _ r) eqn:Hn; [|done]. cbn [negb].
  destruct (find _ _) as [old|] eqn:Hf.
  - destruct (col old "id") as [| |id| | | | |]; try done. intros [= <- <-].
    set (h := λ x, if same_key ["agent_id"%string] r x then upd ∪ x else x).
    set (d' := set_table _ _ _).
    assert (tables d' ServerInventory = h <$> tables d ServerInventory) as Ht
      by apply tables_set_same.
    assert (∀ x, col (h x) "id" = col x "id") as H1.
    { intros x. unfold h. destruct (same_key _ _ _); [|done]. by apply col_union_none. }
    assert (∀ x, col (h x) "agent_id" = col x "agent_id") as H2.
    { intros x. unfold h. destruct (same_key _ _ _); [|done]. by apply col_union_none. }
    assert (∀ x, x ∈ tables d ServerInventory → h x ∈ tables d' ServerInventory) as Hin.
    { intros x Hx. rewrite Ht. by apply list_elem_of_fmap_2. }
    split.
    + apply (wf_frame d); [done| | |rewrite Ht; cbn [next_id bump_id set_table]..|exact (wf_pending d W)].
      * intros m Hm. unfold d'. rewrite tables_set_other; [done|]. by destruct m.
      * intros i. rewrite !server_exists_iff. intros (x & Hx & <-). exists (h x). auto.
      * destruct (wf_agents _ W) as [Hk1 Hk2]. split.
        { apply Forall_fmap. eapply Forall_impl; [exact Hk1|]. intros x.
          unfold key_not_null. cbn. by rewrite H2. }
        erewrite fmap_ext_keep; [exact Hk2|]. intros x _. cbn. by rewrite H2.
      * erewrite fmap_ext_keep; [by apply wf_ids|]. intros x _. apply H1.
      * apply Forall_fmap. eapply Forall_impl; [apply ids_below_bump, wf_ids_below, W|].
        intros x. cbn. by rewrite H1.
    + split.
      * intros m x Hm Hx. unfold d'. rewrite tables_set_other; [done|]. by destruct m.
      * intros x Hx. exists (h x). auto.
  - intros [= <- <-]. apply add_server_ok; try done.
    apply not_true_iff_false. rewrite existsb_exists. intros (x & Hx & E).
    by rewrite (find_none _ _ Hf x Hx) in E.
Qed.

(** Replacing the tasks keeps everything else. *)
Lemma set_tasks_ok d l next now :
  wf d → next_id d <= next →
  let d' := {| tables := tables (set_table Task l d); next_id := next; db_now := now |} in
  pending_unique d' = true → wf d' ∧ grows d d'.
Proof.
  intros W Hn d' Hp.
  assert (∀ m, m ≠ Task → tables d' m = tables d m) as Ht
    by (intros m; apply (tables_set_other Task)).
  split; [apply (wf_frame d); try done; rewrite ?Ht by done|split].
  - intros m Hm. apply Ht. by destruct m.
  - exact (wf_agents d W).
  - exact (wf_ids d W).
  - eapply Forall_impl; [exact (wf_ids_below d W)|]. cbn. intros x (n & ? & ?).
    exists n. split; [done|lia].
  - intros m x Hm Hx. rewrite Ht; [done|]. by destruct m.
  - intros x Hx. rewrite Ht by done. eauto.
Qed.

Lemma under_index_ok {A} (q : stmt A) :
  (∀ d a d', q d = Ok (a, d') → ∃ l next, next_id d <= next ∧
     d' = {| tables := tables (set_table Task l d); next_id := next; db_now := db_now d |}) →
  stmt_ok (under_index pending_unique q).
Proof.
  intros Hq d a d' W H. unfold under_index in H.
  destruct (q d) as [[a1 d1]|] eqn:E; [|done]. cbn in H.
  destruct (pending_unique d1) eqn:Hp; [|done]. injection H as <- <-.
  destruct (Hq _ _ _ E) as (l & next & Hn & ->). by apply set_tasks_ok.
Qed.

Lemma update_tasks_shape cond set d n d' :
  update_where Task cond set d = Ok (n, d') → ∃ l next, next_id d <= next ∧
    d' = {| tables := tables (set_table Task l d); next_id := next; db_now := db_now d |}.
Proof. intros [= _ <-]. eexists _, (next_id d). split; [lia|done]. Qed.

Lemma complete_stmt_ok cond set :
  stmt_ok (under_index pending_unique (update_where Task cond set)).
Proof. apply under_index_ok. apply update_tasks_shape. Qed.

Lemma insert_task_ok r : stmt_ok (insert_task r).
Proof.
  intros d a d' W. unfold insert_task. destruct (negb _); [done|].
  apply (under_index_ok (λ d, Ok _)); [|done]. clear. intros d a d' [= _ <-].
  eexists _, (next_id d + 1). split; [lia|done].
Qed.

(** Turning tasks that are no longer pending keeps the pending index. *)
Lemma expire_stmt_ok cond :
  (∀ d r, cond d r = true → is_pending r = true) →
  stmt_ok (update_where Task cond timeout_values).
Proof.
  intros Hc d n d' W H. destruct (update_tasks_shape _ _ _ _ _ H) as (l & next & Hn & E).
  assert (pending_unique d' = true) as Hp.
  { injection H as _ <-. pose proof (wf_pending d W) as Hp. unfold pending_unique in *.
    apply bool_decide_eq_true in Hp. apply bool_decide_eq_true.
    rewrite tables_set_same. clear W Hn E l next.
    eapply sublist_NoDup; [exact Hp|]. apply fmap_sublist.
    clear Hp. generalize (tables d Task). intros l.
    induction l as [|r l IH]; [done|]. cbn [fmap list_fmap].
    rewrite !filter_cons. destruct (cond d r) eqn:Ec.
    - rewrite decide_False.
      + destruct (decide _); [|done]. by apply sublist_cons.
      + unfold is_pending, timeout_values.
        rewrite (col_union_some _ _ _ (VStr "failure")) by by vm_compute. done.
    - destruct (decide _); [|done]. by apply sublist_skip. }
  subst d'. by apply set_tasks_ok.
Qed.

(** ** The methods keep the invariant *)

(** Well-formed, and grown from [d0] *)
Definition sound (d0 d : db) : Prop := wf d ∧ grows d0 d.

Lemma sound_refl d : wf d → sound d d.
Proof. intros. split; [done|reflexivity]. Qed.

Lemma keeps_stmt {A} d0 (q : stmt A) : stmt_ok q → keeps (sound d0) (execute q).
Proof.
  intros Hq. apply keeps_execute. intros d a d' [W G] H.
  destruct (Hq _ _ _ W H). split; [done|by etrans].
Qed.

Lemma inventory_row_id data : _inventory_row data !! "id"%string = None.
Proof. reflexivity. Qed.

Lemma inventory_row_agent data :
  _inventory_row data !! "agent_id"%string = Some (VStr (Inventory.agent_id data)).
Proof. reflexivity. Qed.

Lemma inventory_update_ok data :
  inventory_update (base.delete "agent_id"%string (_inventory_row data)).
Proof. split; [by rewrite lookup_delete_ne|apply lookup_delete_eq]. Qed.

Section methods.
Variable d0 : db.
Abbreviation keeps := (keeps (sound d0)).

Lemma keeps_select {A} (f : db → A) : keeps (execute (select f)).
Proof. apply keeps_stmt, select_ok. Qed.
Local Hint Resolve keeps_select : keeps.

Lemma keeps_find_server_id agent : keeps (find_server_id agent).
Proof. unfold find_server_id. keeps_tac. Qed.

Lemma keeps_append_history sid data : keeps (_append_inventory_history sid data).
Proof.
  unfold _append_inventory_history. apply keeps_bind; [|auto with keeps].
  apply keeps_stmt, insert_ignore_ok. done.
Qed.
Local Hint Resolve keeps_append_history keeps_find_server_id : keeps.

Lemma keeps_upsert_server data : keeps (upsert_server data).
Proof.
  unfold upsert_server. apply keeps_bind; [auto with keeps|]. intros prev.
  apply keeps_bind.
  - apply keeps_stmt, upsert_server_row_ok;
    [apply inventory_row_id|rewrite inventory_row_agent; eauto|apply inventory_update_ok].
  - keeps_tac.
Qed.

Lemma keeps_insert_placeholder data : keeps (_insert_placeholder_server data).
Proof.
  apply keeps_stmt, insert_server_ignore_ok;
  [apply inventory_row_id|rewrite inventory_row_agent; eauto].
Qed.
Local Hint Resolve keeps_insert_placeholder : keeps.

Lemma keeps_ensure_server_id agent data : keeps (ensure_server_id agent data).
Proof. unfold ensure_server_id. keeps_tac. Qed.

Lemma keeps_insert_child m sid data entries hook : keeps (_insert_child m sid data entries hook).
Proof.
  unfold _insert_child. destruct entries as [|e es]; [auto with keeps|].
  destruct (_NATURAL_KEYS m) as [key|e'] eqn:Hk; [|by intros s Hs].
  apply natural_key_series in Hk.
  exact (keeps_stmt d0 _ (insert_ignore_ok m key _ Hk)).
Qed.

Lemma keeps_insert_scalar sid data : keeps (_insert_scalar_metrics sid data).
Proof. apply keeps_stmt, insert_ignore_ok. done. Qed.
Local Hint Resolve keeps_insert_child keeps_insert_scalar : keeps.

Lemma keeps_record_metrics sid data : keeps (record_metrics sid data).
Proof. unfold record_metrics. keeps_tac. Qed.

Lemma keeps_create_task data : keeps (create_task data).
Proof. apply keeps_stmt, insert_task_ok. Qed.

Lemma keeps_expire_overdue ids : keeps (expire_overdue_tasks ids).
Proof.
  unfold expire_overdue_tasks. destruct ids; [auto with keeps|].
  apply keeps_stmt, expire_stmt_ok. intros d r H. unfold overdue in H. by to_prop.
Qed.

Lemma keeps_expire_all : keeps expire_all_overdue_tasks.
Proof. apply keeps_stmt, expire_stmt_ok. intros d r H. unfold overdue in H. by to_prop. Qed.

Lemma keeps_find_pending ids : keeps (find_pending_deadline_servers ids).
Proof. unfold find_pending_deadline_servers. destruct ids; auto with keeps. Qed.

Lemma keeps_complete_task data : keeps (complete_task data).
Proof.
  unfold complete_task. apply keeps_bind; [|auto with keeps].
  apply keeps_stmt, complete_stmt_ok.
Qed.
End methods.

#[export] Hint Resolve keeps_upsert_server keeps_ensure_server_id keeps_record_metrics
  keeps_create_task keeps_expire_overdue keeps_expire_all keeps_find_pending keeps_complete_task
  keeps_find_server_id keeps_insert_placeholder : keeps.
