(* ===== verification/Wire.v ===== *)
(** * Metrics messages: from datapoint arrays to the storage DTO

    Models the metrics half of [src/assessment_engine/consumer/mappers.py] over the
    message model of [consumer/schemas.py].  A namespace is a dict of metrics, a
    metric a list of datapoints whose attributes are strings or numbers; [None] is
    "not measured" and stays [None] down to the columns. *)

From S2P Require Import Prelude PyFloat Sql Inbound.

(** ** Messages *)

(** [str | int] *)
Inductive attr_val := AStr (s : string) | AInt (n : Z).

Record Datapoint := {
  attr : gmap string attr_val;
  value : option float;
}.

(** The [points] of a [Metric]; its type and unit are not read. *)
Record MetricPoints := { points : list Datapoint }.

Definition Namespace : Type := gmap string MetricPoints.

(** The envelope fields every agent message carries.  An id is its text: the
    [hex] of [message_id], the canonical form of [agent_id]. *)
Record Envelope := {
  message_id : string;
  env_agent_id : string;
  env_collected_at : datetime;
  env_composite_id : option string;
  env_machine_id : option string;
  env_agent_version : option string;
  env_boot_time : option datetime;
  env_agent_started_at : option datetime;
  env_os_family : string;
}.

Record MetricsInput := {
  envelope : Envelope;
  system_cpu : option Namespace;
  system_memory : option Namespace;
  system_disk : option Namespace;
  system_network : option Namespace;
  system_paging : option Namespace;
  system_filesystem : option Namespace;
  system_pressure : option Namespace;
}.

(** ** Looking up datapoints *)

Definition _points (ns : option Namespace) (metric : string) : list Datapoint :=
  match ns with
  | Some m => match m !! metric with Some p => points p | None => [] end
  | None => []
  end.

Definition _attr_key (v : option attr_val) : option string :=
  match v with
  | None => None
  | Some (AStr s) => Some s
  | Some (AInt n) => Some (pretty n)
  end.

(** [all(_attr_key(p.attr.get(k)) == v for k, v in want.items())] *)
Definition attrs_match (want : list (string * option string)) (p : Datapoint) : bool :=
  forallb (λ kv, bool_decide (_attr_key (attr p !! kv.1) = kv.2)) want.

Definition _match (pts : list Datapoint) (want : list (string * option string)) : option float :=
  match find (attrs_match want) pts with Some p => value p | None => None end.

Definition _scalar (ns : option Namespace) (metric : string) : option float :=
  match _points ns metric with p :: _ => value p | [] => None end.

Definition _int (v : option float) : result (option Z) :=
  match v with Some x => Some <$> py_int x | None => Ok None end.

Definition _state_sum (pts : list Datapoint) (state : string) : option float :=
  match omap (λ p, if bool_decide (_attr_key (attr p !! "state"%string) = Some state)
                   then value p else None) pts with
  | [] => None
  | x :: l => Some (py_sum x l)
  end.

Definition _attr_of (pts_lists : list (list Datapoint)) (key : string)
    (want : list (string * option string)) : option string :=
  head (omap (λ p, if attrs_match want p then _attr_key (attr p !! key) else None)
             (concat pts_lists)).

Definition _distinct (pts_lists : list (list Datapoint)) (key : string) : list string :=
  dedup_first (omap (λ p, _attr_key (attr p !! key)) (concat pts_lists)).

(** ** Series *)

Definition _build_disk_io (disk_ns : option Namespace) : result (list DiskIo.DiskIoEntry) :=
  let io := _points disk_ns "disk.io" in
  let ops := _points disk_ns "disk.operations" in
  let io_time := _points disk_ns "disk.io_time" in
  let op_time := _points disk_ns "disk.operation_time" in
  let pending := _points disk_ns "disk.pending_operations" in
  map_result (λ dev,
    let dir (d : string) := [("device", Some dev); ("direction", Some d)]%string in
    rd ← _int (_match io (dir "read"));
    wr ← _int (_match io (dir "write"));
    ord ← _int (_match ops (dir "read"));
    owr ← _int (_match ops (dir "write"));
    Ok {| DiskIo.device_id := dev; DiskIo.device_name := None;
          DiskIo.io_read_bytes := rd; DiskIo.io_write_bytes := wr;
          DiskIo.ops_read := ord; DiskIo.ops_write := owr;
          DiskIo.io_time_s := _match io_time [("device", Some dev)]%string;
          DiskIo.op_read_time_s := _match op_time (dir "read");
          DiskIo.op_write_time_s := _match op_time (dir "write");
          DiskIo.pending_ops := _match pending [("device", Some dev)]%string |})
    (_distinct [io; ops; io_time; op_time; pending] "device").

(** The datapoints of a list that the function keeps, in order *)
Fixpoint omap_result {A B} (f : A → result (option B)) (l : list A) : result (list B) :=
  match l with
  | [] => Ok []
  | x :: l' =>
      y ← f x; ys ← omap_result f l';
      Ok (match y with Some b => b :: ys | None => ys end)
  end.

Definition _build_disk_errors (disk_ns : option Namespace) : result (list DiskError.DiskErrorEntry) :=
  omap_result (λ p,
    match _attr_key (attr p !! "kind"%string) with
    | None => Ok None
    | Some kind =>
        n ← _int (value p);
        Ok (Some {| DiskError.device_id := str_or (_attr_key (attr p !! "device"%string)) "";
                    DiskError.error_kind := kind;
                    DiskError.error_class := str_or (_attr_key (attr p !! "class"%string)) "";
                    DiskError.member := _attr_key (attr p !! "member"%string);
                    DiskError.count := n |})
    end) (_points disk_ns "disk.errors").

Definition _build_net_io (net_ns : option Namespace) : result (list NetIo.NetIoEntry) :=
  let io := _points net_ns "network.io" in
  let pkts := _points net_ns "network.packets" in
  let errs := _points net_ns "network.errors" in
  let drop := _points net_ns "network.dropped" in
  let speed := _points net_ns "network.link.speed" in
  map_result (λ dev,
    let dir (d : string) := [("device", Some dev); ("direction", Some d)]%string in
    rxb ← _int (_match io (dir "receive"));
    txb ← _int (_match io (dir "transmit"));
    rxp ← _int (_match pkts (dir "receive"));
    txp ← _int (_match pkts (dir "transmit"));
    rxe ← _int (_match errs (dir "receive"));
    txe ← _int (_match errs (dir "transmit"));
    rxd ← _int (_match drop (dir "receive"));
    txd ← _int (_match drop (dir "transmit"));
    spd ← _int (_match speed [("device", Some dev)]%string);
    Ok {| NetIo.iface_id := dev; NetIo.iface_name := None;
          NetIo.rx_bytes := rxb; NetIo.tx_bytes := txb;
          NetIo.rx_packets := rxp; NetIo.tx_packets := txp;
          NetIo.rx_errors := rxe; NetIo.tx_errors := txe;
          NetIo.rx_dropped := rxd; NetIo.tx_dropped := txd;
          NetIo.link_speed_bps := spd |})
    (_distinct [io; pkts; errs; drop; speed] "device").

Definition _build_filesystems (fs_ns : option Namespace) : result (list Filesystem.FilesystemEntry) :=
  let usage := _points fs_ns "filesystem.usage" in
  let inodes := _points fs_ns "filesystem.inodes.usage" in
  map_result (λ mp,
    let st (s : string) := [("mountpoint", Some mp); ("state", Some s)]%string in
    used ← _int (_match usage (st "used"));
    free ← _int (_match usage (st "free"));
    iused ← _int (_match inodes (st "used"));
    ifree ← _int (_match inodes (st "free"));
    Ok {| Filesystem.mountpoint := mp;
          Filesystem.device_id := _attr_of [usage; inodes] "device" [("mountpoint", Some mp)]%string;
          Filesystem.fstype := _attr_of [usage] "type" [("mountpoint", Some mp)]%string;
          Filesystem.used_bytes := used; Filesystem.free_bytes := free;
          Filesystem.inodes_used := iused; Filesystem.inodes_free := ifree |})
    (_distinct [usage; inodes] "mountpoint").

Definition is_ascii_digit (c : ascii) : bool :=
  let n := Z.of_nat (nat_of_ascii c) in (48 <=? n) && (n <=? 57).

(** [c.isdigit()] and [int(c)] on ASCII text *)
Definition isdigit (s : string) : bool :=
  negb (String.eqb s "") && forallb is_ascii_digit (String.list_ascii_of_string s).

Definition int_of_digits (s : string) : Z :=
  foldl (λ acc c, 10 * acc + (Z.of_nat (nat_of_ascii c) - 48)) 0 (String.list_ascii_of_string s).

Definition _build_cpu_cores (cpu_time : list Datapoint) : list CpuCore.CpuCoreEntry :=
  omap (λ c,
    if isdigit c
    then
      let st (s : string) := [("cpu", Some c); ("state", Some s)]%string in
      Some {| CpuCore.core_id := int_of_digits c;
              CpuCore.cpu_user_s := _match cpu_time (st "user");
              CpuCore.cpu_nice_s := _match cpu_time (st "nice");
              CpuCore.cpu_system_s := _match cpu_time (st "system");
              CpuCore.cpu_idle_s := _match cpu_time (st "idle");
              CpuCore.cpu_iowait_s := _match cpu_time (st "iowait");
              CpuCore.cpu_irq_s := _match cpu_time (st "irq");
              CpuCore.cpu_softirq_s := _match cpu_time (st "softirq");
              CpuCore.cpu_steal_s := _match cpu_time (st "steal") |}
    else None) (_distinct [cpu_time] "cpu").

Definition _build_pressure (pr_ns : option Namespace) : list Pressure.PressureEntry :=
  let ratio := _points pr_ns "pressure.stall.ratio" in
  let time := _points pr_ns "pressure.stall.time" in
  let keys := dedup_first (omap (λ p,
    match _attr_key (attr p !! "resource"%string), _attr_key (attr p !! "scope"%string) with
    | Some r, Some s => Some (r, s)
    | _, _ => None
    end) (ratio ++ time)) in
  (λ '(r, s),
    let rs := [("resource", Some r); ("scope", Some s)]%string in
    let window (w : string) := rs ++ [("window"%string, Some w)] in
    {| Pressure.resource := r; Pressure.scope := s;
       Pressure.stall_time_s := _match time rs;
       Pressure.ratio_avg10 := _match ratio (window "10"%string);
       Pressure.ratio_avg60 := _match ratio (window "60"%string);
       Pressure.ratio_avg300 := _match ratio (window "300"%string) |}) <$> keys.

(** ** The DTO *)

Definition to_metric_create (data : MetricsInput) : result Metric.ServerMetricCreate :=
  let cpu_ns := system_cpu data in
  let mem_ns := system_memory data in
  let disk_ns := system_disk data in
  let net_ns := system_network data in
  let cpu_time := _points cpu_ns "cpu.time" in
  let mem_usage := _points mem_ns "memory.usage" in
  let paging := _points (system_paging data) "paging.operations" in
  let mem (s : string) := _int (_match mem_usage [("state"%string, Some s)]) in
  let pg (d : string) (t : option string) :=
    _int (_match paging [("direction", Some d); ("type", t)]%string) in
  logical ← _int (_scalar cpu_ns "cpu.logical.count");
  mce ← _int (_scalar cpu_ns "cpu.mce");
  m_free ← mem "free"%string;
  m_cached ← mem "cached"%string;
  m_buffered ← mem "buffered"%string;
  m_available ← mem "available"%string;
  m_used ← mem "used"%string;
  m_limit ← _int (_scalar mem_ns "memory.limit");
  c_usage ← _int (_scalar mem_ns "memory.commit.usage");
  c_limit ← _int (_scalar mem_ns "memory.commit.limit");
  corrupted ← _int (_scalar mem_ns "memory.hardware_corrupted");
  oom ← _int (_scalar mem_ns "memory.oom_kill");
  p_in ← pg "in"%string None;
  p_out ← pg "out"%string None;
  p_major ← pg "in"%string (Some "major"%string);
  retrans ← _int (_scalar net_ns "network.tcp.retransmits");
  ct_usage ← _int (_scalar net_ns "network.conntrack.usage");
  ct_limit ← _int (_scalar net_ns "network.conntrack.limit");
  e_disk_io ← _build_disk_io disk_ns;
  e_net_io ← _build_net_io net_ns;
  e_filesystems ← _build_filesystems (system_filesystem data);
  e_disk_errors ← _build_disk_errors disk_ns;
  Ok {|
    Metric.collected_at := env_collected_at (envelope data);
    Metric.boot_time := env_boot_time (envelope data);
    Metric.agent_started_at := env_agent_started_at (envelope data);
    Metric.cpu_user_s := _state_sum cpu_time "user";
    Metric.cpu_nice_s := _state_sum cpu_time "nice";
    Metric.cpu_system_s := _state_sum cpu_time "system";
    Metric.cpu_idle_s := _state_sum cpu_time "idle";
    Metric.cpu_iowait_s := _state_sum cpu_time "iowait";
    Metric.cpu_irq_s := _state_sum cpu_time "irq";
    Metric.cpu_softirq_s := _state_sum cpu_time "softirq";
    Metric.cpu_steal_s := _state_sum cpu_time "steal";
    Metric.cpu_logical_count := logical;
    Metric.cpu_run_queue := _scalar cpu_ns "cpu.run_queue";
    Metric.cpu_blocked := _scalar cpu_ns "cpu.blocked";
    Metric.cpu_mce := mce;
    Metric.mem_free_bytes := m_free; Metric.mem_cached_bytes := m_cached;
    Metric.mem_buffered_bytes := m_buffered; Metric.mem_available_bytes := m_available;
    Metric.mem_used_bytes := m_used; Metric.mem_limit_bytes := m_limit;
    Metric.mem_commit_usage_bytes := c_usage; Metric.mem_commit_limit_bytes := c_limit;
    Metric.mem_hardware_corrupted_bytes := corrupted; Metric.mem_oom_kill := oom;
    Metric.paging_in := p_in; Metric.paging_out := p_out; Metric.paging_major := p_major;
    Metric.net_tcp_retransmits := retrans;
    Metric.net_conntrack_usage := ct_usage; Metric.net_conntrack_limit := ct_limit;
    Metric.disk_io := e_disk_io; Metric.net_io := e_net_io;
    Metric.filesystems := e_filesystems;
    Metric.cpu_per_core := _build_cpu_cores cpu_time;
    Metric.pressure := _build_pressure (system_pressure data);
    Metric.disk_errors := e_disk_errors |}.

Definition build_placeholder_inventory (data : MetricsInput) : Inventory.ServerInventoryCreate :=
  let env := envelope data in {|
    Inventory.agent_id := env_agent_id env;
    Inventory.composite_id := env_composite_id env;
    Inventory.machine_id := env_machine_id env;
    Inventory.hostname := env_agent_id env;
    Inventory.agent_version := env_agent_version env;
    Inventory.collected_at := env_collected_at env;
    Inventory.boot_time := env_boot_time env;
    Inventory.agent_started_at := env_agent_started_at env;
    Inventory.os_family := Some (env_os_family env);
    Inventory.os_id := None; Inventory.os_version := None; Inventory.os_codename := None;
    Inventory.kernel_version := None; Inventory.cpu_cores := None; Inventory.cpu_model := None;
    Inventory.mem_total_bytes := None;
    Inventory.block_devices := []; Inventory.net_interfaces := []; Inventory.lvm_vgs := [];
    Inventory.ip_external := None; Inventory.services := None; Inventory.listen_ports := [];
    Inventory.service_categories := [];
    Inventory.arch := None; Inventory.bits := None; Inventory.boot_firmware := None;
    Inventory.secure_boot := None; Inventory.edition := None; Inventory.product_name := None;
    Inventory.timezone := None; Inventory.rtc_utc := None; Inventory.boot := None;
    Inventory.nonblock_mounts := None |}.
