(* ===== verification/PyText.v ===== *)
(** * Text: the string operations the code uses

    [str.replace], [str.strip], [str.startswith], [str.split], [uuid.UUID] and
    [datetime.isoformat], as executable functions.  A character is one byte; what
    counts as printable is a parameter where the code asks for it. *)

From S2P Require Import Prelude.

(** ** Strings *)

(** [s.startswith(p)], returning what follows the prefix *)
Fixpoint drop_prefix (p s : string) : option string :=
  match p, s with
  | EmptyString, _ => Some s
  | String a p', String b s' => if Ascii.eqb a b then drop_prefix p' s' else None
  | _, _ => None
  end.

(** [s.replace(p, "")] for a non-empty [p]: occurrences from the left, without
    overlap *)
Fixpoint remove_all (fuel : nat) (p s : string) : string :=
  match fuel with
  | O => s
  | S n =>
      match drop_prefix p s with
      | Some rest => remove_all n p rest
      | None => match s with
                | EmptyString => ""
                | String c s' => String c (remove_all n p s')
                end
      end
  end.

Definition replace_empty (p s : string) : string := remove_all (S (String.length s)) p s.

Fixpoint drop_while (f : ascii → bool) (s : string) : string :=
  match s with
  | String c s' => if f c then drop_while f s' else s
  | EmptyString => ""
  end.

(** [s.strip(chars)] *)
Definition strip_chars (f : ascii → bool) (s : string) : string :=
  String.rev (drop_while f (String.rev (drop_while f s))).

(** [s.split(sep)[0]] for a one-character separator *)
Fixpoint before_char (sep : ascii) (s : string) : string :=
  match s with
  | EmptyString => ""
  | String c s' => if Ascii.eqb c sep then "" else String c (before_char sep s')
  end.

(** [s.split(sep)], for one character *)
Fixpoint split_on (sep : ascii) (s : string) : list string :=
  match s with
  | EmptyString => [""%string]
  | String c s' =>
      if Ascii.eqb c sep then ""%string :: split_on sep s'
      else match split_on sep s' with
           | word :: words => String c word :: words
           | [] => [String c ""]
           end
  end.

Fixpoint filter_chars (f : ascii → bool) (s : string) : string :=
  match s with
  | EmptyString => ""
  | String c s' => if f c then String c (filter_chars f s') else filter_chars f s'
  end.

Fixpoint all_chars (f : ascii → bool) (s : string) : bool :=
  match s with
  | EmptyString => true
  | String c s' => f c && all_chars f s'
  end.

(** [s[:n]] *)
Fixpoint take_chars (n : nat) (s : string) : string :=
  match n, s with
  | S n', String c s' => String c (take_chars n' s')
  | _, _ => ""
  end.

Lemma all_chars_filter f s : all_chars f (filter_chars f s) = true.
Proof. induction s as [|c s IH]; cbn; [done|]. destruct (f c) eqn:E; cbn; by rewrite ?E. Qed.

Lemma all_chars_take f n s : all_chars f s = true → all_chars f (take_chars n s) = true.
Proof.
  revert s. induction n as [|n IH]; intros [|c s]; cbn; try done.
  rewrite !andb_true_iff. naive_solver.
Qed.

Lemma all_chars_append f s t : all_chars f (String.append s t) = all_chars f s && all_chars f t.
Proof.
  induction s as [|c s IH]; [done|].
  change (String.append (String c s) t) with (String c (String.append s t)).
  cbn. by rewrite IH, andb_assoc.
Qed.

Lemma length_take_chars n s : (String.length (take_chars n s) <= n)%nat.
Proof.
  revert s. induction n as [|n IH]; intros [|c s]; cbn; try lia.
  specialize (IH s). lia.
Qed.

Lemma length_append s t :
  String.length (String.append s t) = (String.length s + String.length t)%nat.
Proof.
  induction s as [|c s IH]; [done|].
  change (String.append (String c s) t) with (String c (String.append s t)).
  cbn. by rewrite IH.
Qed.

(** [str.lower], of the ASCII letters *)
Definition lower (c : ascii) : ascii :=
  let n := nat_of_ascii c in if (65 <=? n)%nat && (n <=? 90)%nat then Ascii.ascii_of_nat (n + 32) else c.

Fixpoint str_lower (s : string) : string :=
  match s with
  | EmptyString => ""
  | String c s' => String (lower c) (str_lower s')
  end.

(** [str.upper], of the ASCII letters *)
Definition upper (c : ascii) : ascii :=
  let n := nat_of_ascii c in if (97 <=? n)%nat && (n <=? 122)%nat then Ascii.ascii_of_nat (n - 32) else c.

Fixpoint str_upper (s : string) : string :=
  match s with
  | EmptyString => ""
  | String c s' => String (upper c) (str_upper s')
  end.

(** A prefix of lower-case text, whatever the case in [s] *)
Fixpoint drop_prefix_nocase (p s : string) : option string :=
  match p, s with
  | EmptyString, _ => Some s
  | String a p', String b s' => if Ascii.eqb a (lower b) then drop_prefix_nocase p' s' else None
  | _, _ => None
  end.

(** [p in s] *)
Fixpoint contains (p s : string) : bool :=
  match drop_prefix p s with
  | Some _ => true
  | None => match s with EmptyString => false | String _ s' => contains p s' end
  end.

(** [s.removesuffix(p)] *)
Fixpoint removesuffix (p s : string) : string :=
  match s with
  | EmptyString => ""
  | String c s' => if String.eqb s p then "" else String c (removesuffix p s')
  end.

(** ** Hexadecimal integers and UUIDs *)

Definition hex_value (c : ascii) : option Z :=
  let n := Z.of_nat (nat_of_ascii c) in
  if (48 <=? n) && (n <=? 57) then Some (n - 48)
  else if (97 <=? n) && (n <=? 102) then Some (n - 87)
  else if (65 <=? n) && (n <=? 70) then Some (n - 55)
  else None.

Definition is_space (c : ascii) : bool :=
  mem (Z.of_nat (nat_of_ascii c)) [9; 10; 11; 12; 13; 28; 29; 30; 31; 32; 133; 160].

Definition underscore : ascii := Ascii.ascii_of_nat 95.

(** Digits with single underscores between them; [prev] tells that the previous
    character was a digit. *)
Fixpoint hex_digits (acc : Z) (prev : bool) (s : string) : option Z :=
  match s with
  | EmptyString => if prev then Some acc else None
  | String c s' =>
      if Ascii.eqb c underscore
      then if prev then hex_digits acc false s' else None
      else match hex_value c with
           | Some d => hex_digits (16 * acc + d) true s'
           | None => None
           end
  end.

(** [int(s, 16)]; [None] is [ValueError] *)
Definition parse_hex_int (s : string) : option Z :=
  let s := strip_chars is_space s in
  let '(neg, s) := match s with
                   | String c s' =>
                       if Ascii.eqb c "-" then (true, s')
                       else if Ascii.eqb c "+" then (false, s') else (false, s)
                   | EmptyString => (false, s)
                   end in
  let digits := match s with
                | String z (String x s') =>
                    if Ascii.eqb z "0" && (Ascii.eqb x "x" || Ascii.eqb x "X")
                    then match s' with
                         | String u s'' => if Ascii.eqb u underscore then s'' else s'
                         | EmptyString => s'
                         end
                    else s
                | _ => s
                end in
  (λ n, if (neg : bool) then - n else n) <$> hex_digits 0 false digits.

Definition hex_char (d : Z) : ascii :=
  Ascii.ascii_of_nat (Z.to_nat (if d <? 10 then 48 + d else 87 + d)).

(** [n] in [k] lower-case hexadecimal digits *)
Fixpoint hex_text (k : nat) (n : Z) : string :=
  match k with
  | O => ""
  | S k' => String.append (hex_text k' (n / 16)) (String (hex_char (n mod 16)) "")
  end.

(** [str(uuid)] *)
Definition uuid_text (n : Z) : string :=
  str_join "-" [hex_text 8 (n / 2 ^ 96); hex_text 4 (n / 2 ^ 80 mod 2 ^ 16);
                hex_text 4 (n / 2 ^ 64 mod 2 ^ 16); hex_text 4 (n / 2 ^ 48 mod 2 ^ 16);
                hex_text 12 (n mod 2 ^ 48)].

(** [str(UUID(s))] *)
Definition parse_uuid (s : string) : result string :=
  let is_brace c := Ascii.eqb c "{" || Ascii.eqb c "}" in
  let hex := replace_empty "-" (strip_chars is_brace
               (replace_empty "uuid:" (replace_empty "urn:" s))) in
  if negb (Nat.eqb (String.length hex) 32)
  then Raise (ValueError "badly formed hexadecimal UUID string")
  else match parse_hex_int hex with
       | None => Raise (ValueError "invalid literal for int() with base 16")
       | Some n => if n <? 0 then Raise (ValueError "int is out of range (need a 128-bit value)")
                   else Ok (uuid_text n)
       end.

Example parse_uuid_examples :
  parse_uuid "{0A1b2c3d-0000-4000-8000-0123456789AB}"
    = Ok "0a1b2c3d-0000-4000-8000-0123456789ab"%string ∧
  parse_uuid "task-abc123" = Raise (ValueError "badly formed hexadecimal UUID string").
Proof. vm_compute. done. Qed.

(** A canonical text parses to itself only if it is a UUID: an id that does not
    parse raises [ValueError] and nothing else. *)
Lemma parse_uuid_raises s e : parse_uuid s = Raise e → ∃ msg, e = ValueError msg.
Proof.
  unfold parse_uuid. destruct (negb _); [intros [= <-]; eauto|].
  destruct (parse_hex_int _) as [n|]; [|intros [= <-]; eauto].
  destruct (n <? 0); [intros [= <-]; eauto|done].
Qed.

(** ** Timestamps *)

(** The civil date of a day number (days since 1970-01-01), proleptic Gregorian *)
Definition civil_of_days (z0 : Z) : Z * Z * Z :=
  let z := z0 + 719468 in
  let era := z / 146097 in
  let doe := z mod 146097 in
  let yoe := (doe - doe / 1460 + doe / 36524 - doe / 146096) / 365 in
  let doy := doe - (365 * yoe + yoe / 4 - yoe / 100) in
  let mp := (5 * doy + 2) / 153 in
  let d := doy - (153 * mp + 2) / 5 + 1 in
  let m := if mp <? 10 then mp + 3 else mp - 9 in
  (yoe + era * 400 + (if m <=? 2 then 1 else 0), m, d).

Definition pad (n : nat) (x : Z) : string :=
  let s : string := pretty x in
  String.append (String.concat "" (replicate (n - String.length s) "0"%string)) s.

(** [t.isoformat()] of an aware UTC datetime, in microseconds since the epoch *)
Definition isoformat (t : Z) : string :=
  let us := t mod 1000000 in
  let secs := t / 1000000 in
  let '(y, m, d) := civil_of_days (secs / 86400) in
  let sod := secs mod 86400 in
  String.concat "" [
    pad 4 y; "-"; pad 2 m; "-"; pad 2 d; "T"; pad 2 (sod / 3600)%Z; ":";
    pad 2 (sod / 60 mod 60)%Z; ":"; pad 2 (sod mod 60)%Z;
    if (us =? 0)%Z then "" else String.append "." (pad 6 us); "+00:00"]%string.

Example isoformat_example :
  isoformat 1709251199000250 = "2024-02-29T23:59:59.000250+00:00"%string.
Proof. vm_compute. reflexivity. Qed.

(** [datetime.fromisoformat] on the texts [isoformat] writes for UTC; microseconds
    since the epoch *)
Definition days_of_civil (y m d : Z) : Z :=
  let y' := if m <=? 2 then y - 1 else y in
  let era := y' / 400 in
  let yoe := y' mod 400 in
  let mp := if 2 <? m then m - 3 else m + 9 in
  let doy := (153 * mp + 2) / 5 + d - 1 in
  let doe := yoe * 365 + yoe / 4 - yoe / 100 + doy in
  era * 146097 + doe - 719468.

Definition digit_value (c : ascii) : option Z :=
  let n := Z.of_nat (nat_of_ascii c) in
  if (48 <=? n) && (n <=? 57) then Some (n - 48) else None.

(** [n] decimal digits, and the rest *)
Fixpoint take_digits (n : nat) (acc : Z) (s : string) : option (Z * string) :=
  match n with
  | O => Some (acc, s)
  | S n' =>
      match s with
      | String c s' =>
          match digit_value c with
          | Some d => take_digits n' (10 * acc + d) s'
          | None => None
          end
      | EmptyString => None
      end
  end.

(** One character, and [n] decimal digits *)
Definition take_field (c : string) (n : nat) (s : string) : option (Z * string) :=
  match drop_prefix c s with Some s' => take_digits n 0 s' | None => None end.

Definition days_in_month (y m : Z) : Z :=
  if mem m [4; 6; 9; 11] then 30
  else if m =? 2
  then if (y mod 4 =? 0) && (negb (y mod 100 =? 0) || (y mod 400 =? 0)) then 29 else 28
  else 31.

Definition fromisoformat (s : string) : result Z :=
  let parsed :=
    '(y, s) ← take_digits 4 0 s;
    '(m, s) ← take_field "-" 2 s;
    '(d, s) ← take_field "-" 2 s;
    '(hh, s) ← take_field "T" 2 s;
    '(mm, s) ← take_field ":" 2 s;
    '(ss, s) ← take_field ":" 2 s;
    '(us, s) ← (match take_field "." 6 s with Some r => Some r | None => Some (0, s) end);
    if String.eqb s "+00:00" && (1 <=? y) && (1 <=? m) && (m <=? 12) && (1 <=? d)
       && (d <=? days_in_month y m) && (hh <? 24) && (mm <? 60) && (ss <? 60)
    then Some ((days_of_civil y m d * 86400 + hh * 3600 + mm * 60 + ss) * 1000000 + us)
    else None in
  match parsed with
  | Some t => Ok t
  | None => Raise (ValueError "Invalid isoformat string")
  end.

Example fromisoformat_example :
  fromisoformat "2024-02-29T23:59:59.000250+00:00" = Ok 1709251199000250
  ∧ fromisoformat "2023-02-29T00:00:00+00:00" = Raise (ValueError "Invalid isoformat string").
Proof. vm_compute. done. Qed.
