(* ===== verification/IsoFacts.v ===== *)
(** * Timestamps as text, read back

    [PyText.fromisoformat] inverts [PyText.isoformat] on the years Python's datetime
    has. *)

From S2P Require Import Prelude PyText.

(** ** Digits *)

Lemma take_digits_app a b acc s :
  take_digits (a + b) acc s =
  match take_digits a acc s with Some (v, r) => take_digits b v r | None => None end.
Proof.
  revert acc s. induction a as [|a IH]; intros acc s; [done|]. cbn.
  destruct s as [|c s]; [done|]. destruct (digit_value c); [apply IH|done].
Qed.

Lemma digit_value_pretty n : (n < 10)%N → digit_value (pretty_N_char n) = Some (Z.of_N n).
Proof.
  intros Hn. assert (∃ k, n = N.of_nat k ∧ (k < 10)%nat) as (k & -> & Hk)
    by (exists (N.to_nat n); lia).
  do 10 (destruct k as [|k]; [done|]). lia.
Qed.

(** The digits of a number, followed by [rest] *)
Lemma take_digits_pretty x rest :
  ∃ k, (∀ n, (x < 10 ^ N.of_nat n)%N → (k <= n)%nat)
    ∧ String.length (pretty_N_go x rest) = (k + String.length rest)%nat
    ∧ ∀ acc, take_digits k acc (pretty_N_go x rest) = Some (acc * 10 ^ Z.of_nat k + Z.of_N x, rest).
Proof.
  revert rest. induction x as [x IH] using (well_founded_induction N.lt_wf_0). intros rest.
  destruct (decide (x = 0%N)) as [->|Hx].
  - exists 0%nat. rewrite pretty_N_go_0. split; [lia|]. split; [done|]. intros acc. cbn.
    f_equal. f_equal. lia.
  - rewrite pretty_N_go_step by lia.
    destruct (IH (x / 10)%N ltac:(apply N.div_lt; lia) (String (pretty_N_char (x mod 10)) rest))
      as (k & Hk & Hl & Ht).
    assert (x mod 10 < 10)%N as Hm by (apply N.mod_lt; lia).
    exists (k + 1)%nat. split; [|split].
    + intros n Hn. destruct n as [|n].
      * change (10 ^ N.of_nat 0)%N with 1%N in Hn. lia.
      * assert (k <= n)%nat; [|lia]. apply Hk. apply N.Div0.div_lt_upper_bound.
        by rewrite <- N.pow_succ_r', <- Nat2N.inj_succ.
    + rewrite Hl. cbn. lia.
    + intros acc. rewrite take_digits_app, Ht. cbn. rewrite digit_value_pretty by done.
      f_equal. f_equal. rewrite Nat2Z.inj_add, Z.pow_add_r by lia.
      pose proof (N.div_mod x 10 ltac:(done)) as E.
      assert (Z.of_N x = 10 * Z.of_N (x / 10) + Z.of_N (x mod 10)) as -> by lia.
      change (10 ^ Z.of_nat 1) with 10. lia.
Qed.

Lemma zeros_digits m s :
  take_digits m 0 (String.append (String.concat "" (replicate m "0"%string)) s) = Some (0, s).
Proof.
  induction m as [|m IH]; [done|].
  cbn [replicate]. destruct m as [|m]; [done|].
  change (String.concat "" ("0"%string :: replicate (S m) "0"%string))
    with (String "0"%char (String.concat "" (replicate (S m) "0"%string))).
  exact IH.
Qed.

Lemma append_assoc (a b c : string) :
  String.append (String.append a b) c = String.append a (String.append b c).
Proof.
  induction a as [|x a IH]; [done|].
  change (String x (String.append (String.append a b) c) = String x (String.append a (String.append b c))).
  by rewrite IH.
Qed.

Lemma pretty_N_go_append x s : pretty_N_go x s = String.append (pretty_N_go x "") s.
Proof.
  revert s. induction x as [x IH] using (well_founded_induction N.lt_wf_0). intros s.
  destruct (decide (x = 0%N)) as [->|Hx]; [by rewrite !pretty_N_go_0|].
  rewrite !(pretty_N_go_step x) by lia. rewrite IH by (apply N.div_lt; lia).
  rewrite (IH (x / 10)%N ltac:(apply N.div_lt; lia) (String _ "")).
  by rewrite append_assoc.
Qed.

Lemma pad_digits_read n x s :
  (1 <= n)%nat → 0 <= x < 10 ^ Z.of_nat n →
  take_digits n 0 (String.append (pad n x) s) = Some (x, s).
Proof.
  intros Hn Hx. unfold pad. rewrite append_assoc.
  assert (∃ k, (k <= n)%nat ∧ String.length (pretty x : string) = k
    ∧ take_digits k 0 (String.append (pretty x : string) s) = Some (x, s)) as (k & Hk & Hl & Ht).
  { assert (pretty x = pretty (Z.to_N x)) as -> by (destruct x; [done|done|lia]).
    unfold pretty, pretty_N. destruct (decide (Z.to_N x = 0%N)) as [E|E].
    - exists 1%nat. split; [done|]. split; [done|].
      assert (x = 0) as -> by lia. done.
    - destruct (take_digits_pretty (Z.to_N x) "") as (k & H1 & H2 & _).
      destruct (take_digits_pretty (Z.to_N x) s) as (k' & H1' & H2' & H3').
      exists k. split; [|split].
      + apply H1. apply N2Z.inj_lt. rewrite N2Z.inj_pow, Z2N.id, nat_N_Z by lia. exact (proj2 Hx).
      + rewrite H2. cbn. lia.
      + rewrite <- pretty_N_go_append.
        assert (k' = k) as ->.
        { rewrite pretty_N_go_append, length_append, H2 in H2'. cbn in H2'. lia. }
        rewrite H3'. rewrite Z.mul_0_l, Z.add_0_l, Z2N.id by lia. done. }
  rewrite Hl. replace n with ((n - k) + k)%nat at 1 by lia. rewrite take_digits_app.
  by rewrite zeros_digits.
Qed.

(** ** The calendar *)

(** The properties of one day of the 400-year cycle: its year of the cycle, month and
    day are in range. *)
Definition cycle_day_ok (doe : Z) : bool :=
  let yoe := (doe - doe / 1460 + doe / 36524 - doe / 146096) / 365 in
  let doy := doe - (365 * yoe + yoe / 4 - yoe / 100) in
  let mp := (5 * doy + 2) / 153 in
  let d := doy - (153 * mp + 2) / 5 + 1 in
  let m := if mp <? 10 then mp + 3 else mp - 9 in
  (0 <=? yoe) && (yoe <=? 399) && (0 <=? mp) && (mp <=? 11) && (1 <=? d)
  && (d <=? days_in_month (yoe + (if m <=? 2 then 1 else 0)) m).

(** [p] holds of the [n] integers from [x]. *)
Fixpoint all_from (p : Z → bool) (n : nat) (x : Z) : bool :=
  match n with
  | O => true
  | S n' => if p x then all_from p n' (x + 1) else false
  end.

Lemma all_from_spec p n x y : all_from p n x = true → x <= y < x + Z.of_nat n → p y = true.
Proof.
  revert x. induction n as [|n IH]; cbn [all_from]; intros x H Hy; [lia|].
  destruct (p x) eqn:E; [|done].
  destruct (decide (y = x)) as [->|]; [done|]. apply (IH (x + 1)); [done|lia].
Qed.

(** The first day of a year of the cycle, and the year of a day *)
Definition year_start (y : Z) : Z := 365 * y + y / 4 - y / 100 + y / 400.
Definition year_of (doe : Z) : Z := (doe - doe / 1460 + doe / 36524 - doe / 146096) / 365.

Lemma sub_div_mono k x y : 0 < k → x <= y → x - x / k <= y - y / k.
Proof.
  intros Hk H. assert (y / k <= x / k + (y - x)); [|lia].
  rewrite <-Z.div_add by lia. apply Z.div_le_mono; [done|nia].
Qed.

Lemma year_of_mono x y : x <= y → year_of x <= year_of y.
Proof.
  intros H. apply Z.div_le_mono; [done|].
  change 146096 with (36524 * 4). rewrite <-!Z.div_div by done.
  pose proof (Z.div_le_mono x y 36524 ltac:(done) H).
  pose proof (sub_div_mono 1460 x y ltac:(done) H).
  pose proof (sub_div_mono 4 (x / 36524) (y / 36524) ltac:(done) ltac:(done)). lia.
Qed.

Lemma year_start_covers n doe :
  0 <= doe < year_start (Z.of_nat n) →
  ∃ y, 0 <= y < Z.of_nat n ∧ year_start y <= doe < year_start (y + 1).
Proof.
  induction n as [|n IH]; intros H; [change (year_start (Z.of_nat 0)) with 0 in H; lia|].
  replace (Z.of_nat (S n)) with (Z.of_nat n + 1) in * by lia.
  destruct (Z.ltb_spec doe (year_start (Z.of_nat n))).
  - destruct IH as (y & Hy & He); [lia|]. exists y. split; [lia|done].
  - exists (Z.of_nat n). split; [lia|lia].
Qed.

(** A year of the cycle: its first and last day are of it, and it has a 366th day
    only before the end of a leap February. *)
Definition year_ok (y : Z) : bool :=
  (year_of (year_start y) =? y) && (year_of (year_start (y + 1) - 1) =? y)
  && (year_start (y + 1) - year_start y <=? 366)
  && ((year_start (y + 1) - year_start y <=? 365) || (days_in_month (y + 1) 2 =? 29)).

(** A day of a year that starts in March *)
Definition year_day_ok (doy : Z) : bool :=
  let mp := (5 * doy + 2) / 153 in
  let d := doy - (153 * mp + 2) / 5 + 1 in
  let m := if mp <? 10 then mp + 3 else mp - 9 in
  (0 <=? mp) && (mp <=? 11) && (1 <=? d)
  && (d <=? (if m =? 2 then (if doy =? 365 then 29 else 28) else days_in_month 1 m)).

Lemma years_ok y : 0 <= y < 400 → year_ok y = true.
Proof. intros H. by apply (all_from_spec year_ok 400 0); [vm_compute; reflexivity|]. Qed.

Lemma year_days_ok doy : 0 <= doy < 366 → year_day_ok doy = true.
Proof. intros H. by apply (all_from_spec year_day_ok 366 0); [vm_compute; reflexivity|]. Qed.

Lemma other_month y m : m <> 2 → days_in_month y m = days_in_month 1 m.
Proof. intros H. unfold days_in_month. by rewrite (proj2 (Z.eqb_neq m 2) H). Qed.

Lemma february y : 28 <= days_in_month y 2.
Proof. unfold days_in_month. cbn. repeat case_match; lia. Qed.

Lemma cycle_ok doe : 0 <= doe < 146097 → cycle_day_ok doe = true.
Proof.
  intros H. destruct (year_start_covers 400 doe) as (y & Hy & Hlo & Hhi).
  { change (year_start (Z.of_nat 400)) with 146097. done. }
  change (Z.of_nat 400) with 400 in Hy.
  pose proof (years_ok y Hy) as Hok. unfold year_ok in Hok. to_prop.
  assert (year_of doe = y) as Ey.
  { pose proof (year_of_mono _ _ Hlo). pose proof (year_of_mono doe (year_start (y + 1) - 1)). lia. }
  unfold cycle_day_ok. fold (year_of doe). rewrite Ey.
  replace (doe - (365 * y + y / 4 - y / 100)) with (doe - year_start y)
    by (unfold year_start; rewrite (Z.div_small y 400) by lia; lia).
  set (doy := doe - year_start y). assert (0 <= doy < 366) as Hd by (subst doy; lia).
  pose proof (year_days_ok doy Hd) as Hday. unfold year_day_ok in Hday. cbv zeta in *.
  set (mp := (5 * doy + 2) / 153) in *. set (d := doy - (153 * mp + 2) / 5 + 1) in *.
  set (m := if mp <? 10 then mp + 3 else mp - 9) in *. to_prop.
  assert (d <= days_in_month (y + (if m <=? 2 then 1 else 0)) m) as Hdm.
  { match goal with H : d <= _ |- _ => revert H end.
    destruct (Z.eqb_spec m 2) as [Em|Em]; [rewrite Em|by rewrite (other_month (y + _))].
    change (2 <=? 2) with true. cbv iota. pose proof (february (y + 1)).
    destruct (Z.eqb_spec doy 365); [intros ?|lia].
    match goal with H : _ || _ = true |- _ => apply orb_prop in H as [?|?] end; to_prop; [|lia].
    subst doy. lia. }
  rewrite !andb_true_iff, !Z.leb_le. repeat split; lia.
Qed.

Lemma leap_shift y era m : days_in_month (y + era * 400) m = days_in_month y m.
Proof.
  unfold days_in_month.
  replace ((y + era * 400) mod 4) with (y mod 4)
    by (replace (y + era * 400) with (y + (era * 100) * 4) by ring; by rewrite Z_mod_plus_full).
  replace ((y + era * 400) mod 100) with (y mod 100)
    by (replace (y + era * 400) with (y + (era * 4) * 100) by ring; by rewrite Z_mod_plus_full).
  by rewrite Z_mod_plus_full.
Qed.

Lemma civil_ok z y m d :
  civil_of_days z = (y, m, d) →
  days_of_civil y m d = z ∧ 1 <= m <= 12 ∧ 1 <= d <= days_in_month y m.
Proof.
  unfold civil_of_days.
  set (era := (z + 719468) / 146097). set (doe := (z + 719468) mod 146097).
  assert (Ez : z + 719468 = 146097 * era + doe) by (apply Z.div_mod; lia).
  assert (0 <= doe < 146097) as Hd by (apply Z.mod_pos_bound; lia).
  pose proof (cycle_ok doe Hd) as Hok. unfold cycle_day_ok in Hok.
  set (yoe := (doe - doe / 1460 + doe / 36524 - doe / 146096) / 365) in *.
  set (doy := doe - (365 * yoe + yoe / 4 - yoe / 100)) in *.
  set (mp := (5 * doy + 2) / 153) in *.
  set (d0 := doy - (153 * mp + 2) / 5 + 1) in *.
  clearbody era. set (m0 := if mp <? 10 then mp + 3 else mp - 9) in *.
  rewrite !andb_true_iff in Hok. destruct Hok as [[[[[H1 H2] H3] H4] H5] H6].
  apply Z.leb_le in H1, H2, H3, H4, H5, H6.
  intros [= <- <- <-].
  assert (Hm : 1 <= m0 <= 12) by (unfold m0; destruct (Z.ltb_spec mp 10); lia).
  split; [|split; [done|split; [done|]]].
  - unfold days_of_civil.
    assert ((if m0 <=? 2 then yoe + era * 400 + (if m0 <=? 2 then 1 else 0) - 1
             else yoe + era * 400 + (if m0 <=? 2 then 1 else 0)) = yoe + era * 400) as ->
      by (destruct (m0 <=? 2); lia).
    rewrite Z_mod_plus_full, Z.div_add, (Z.mod_small yoe), (Z.div_small yoe) by lia.
    assert ((if 2 <? m0 then m0 - 3 else m0 + 9) = mp) as ->
      by (unfold m0; destruct (Z.ltb_spec mp 10);
          [destruct (Z.ltb_spec 2 (mp + 3))|destruct (Z.ltb_spec 2 (mp - 9))]; lia).
    unfold d0, doy. lia.
  - replace (yoe + era * 400 + (if m0 <=? 2 then 1 else 0))
      with (yoe + (if m0 <=? 2 then 1 else 0) + era * 400) by ring.
    by rewrite leap_shift.
Qed.

(** ** The round trip *)

(** A datetime of Python: years 1 to 9999 *)
Definition datetime_ok (t : Z) : Prop :=
  let '(y, _, _) := civil_of_days (t / 1000000 / 86400) in 1 <= y <= 9999.

Lemma append_nil_l s : String.append "" s = s.
Proof. done. Qed.

Lemma field_read c n x s :
  (1 <= n)%nat → 0 <= x < 10 ^ Z.of_nat n →
  take_field (String c "") n (String.append (String c "") (String.append (pad n x) s)) = Some (x, s).
Proof.
  intros Hn Hx. unfold take_field.
  change (String.append (String c "") (String.append (pad n x) s))
    with (String c (String.append (pad n x) s)). cbn [drop_prefix].
  rewrite Ascii.eqb_refl. by apply pad_digits_read.
Qed.

Lemma isoformat_read t : datetime_ok t → fromisoformat (isoformat t) = Ok t.
Proof.
  unfold datetime_ok, isoformat. destruct (civil_of_days _) as [[y m] d] eqn:E. intros Hy.
  apply civil_ok in E as (Ed & Hm & Hd).
  assert (d <= 31) by (unfold days_in_month in Hd; repeat case_match; lia).
  set (sod := (t / 1000000) mod 86400) in *. set (us := t mod 1000000).
  assert (0 <= sod < 86400) by (apply Z.mod_pos_bound; lia).
  assert (0 <= us < 1000000) by (apply Z.mod_pos_bound; lia).
  assert (0 <= sod / 3600 < 24)
    by (split; [apply Z.div_pos; lia | apply Z.div_lt_upper_bound; lia]).
  assert (0 <= sod / 60 mod 60 < 60) by (apply Z.mod_pos_bound; lia).
  assert (0 <= sod mod 60 < 60) by (apply Z.mod_pos_bound; lia).
  unfold fromisoformat. cbn [String.concat]. 
  rewrite !append_nil_l.
  rewrite (pad_digits_read 4) by (change (10 ^ Z.of_nat 4) with 10000; lia).
  cbn [mbind option_bind].
  do 5 (rewrite field_read by (first [lia | change (10 ^ Z.of_nat 2) with 100; lia]);
        cbn [mbind option_bind]).
  assert (match take_field "." 6 (String.append
                   (if us =? 0 then "" else String.append "." (pad 6 us)) "+00:00") with
          | Some r => Some r
          | None => Some (0, String.append
                       (if us =? 0 then "" else String.append "." (pad 6 us)) "+00:00")
          end = Some (us, "+00:00"%string)) as ->.
  { destruct (Z.eqb_spec us 0) as [->|]; [done|].
    rewrite append_assoc, field_read; [done|lia|change (10 ^ Z.of_nat 6) with 1000000; lia]. }
  cbn [mbind option_bind].
  rewrite Ed. change (String.eqb "+00:00" "+00:00") with true.
  repeat match goal with
         | |- context [?a <=? ?b] => rewrite (proj2 (Z.leb_le a b)) by lia
         | |- context [?a <? ?b] => rewrite (proj2 (Z.ltb_lt a b)) by lia
         end.
  cbn [andb]. f_equal. subst sod us.
  pose proof (Z.div_mod t 1000000). pose proof (Z.div_mod (t / 1000000) 86400).
  pose proof (Z.div_mod ((t / 1000000) mod 86400) 60).
  pose proof (Z.div_mod ((t / 1000000) mod 86400 / 60) 60).
  assert ((t / 1000000) mod 86400 / 3600 = (t / 1000000) mod 86400 / 60 / 60) as ->
    by (rewrite Z.div_div by lia; done).
  lia.
Qed.

#[global] Arguments isoformat : simpl never.
#[global] Arguments fromisoformat : simpl never.
