(* ===== verification/DbRetry.v ===== *)
(** * Consumer runtime: the world of a handler, and the database retry

    Models [src/assessment_engine/consumer/handlers/_common.py] up to the message
    context.  A handler runs in a [world]: a Redis client, a database session
    factory with its script of faults and interference, the log, and the back-off
    waits.  A wait is recorded by the upper bound of the interval it is drawn
    from. *)

From S2P Require Import Prelude Sql Redis CollectDb.

(** ** The world *)

Inductive level := Debug | Info | Warning | Error.

Record world (R : Type) := World {
  w_redis : R;
  w_db : session;
  w_log : list (level * string);
  w_slept : list Z;
}.
Arguments World {R}.
Arguments w_redis {R}.
Arguments w_db {R}.
Arguments w_log {R}.
Arguments w_slept {R}.

Section world.
Context {R : Type}.

Definition on_redis {A} (m : eff R A) : eff (world R) A := λ w,
  let '(r, x) := m (w_redis w) in
  (r, World x (w_db w) (w_log w) (w_slept w)).

Definition on_db {A} (m : eff session A) : eff (world R) A := λ w,
  let '(r, s) := m (w_db w) in
  (r, World (w_redis w) s (w_log w) (w_slept w)).

Definition log (l : level) (msg : string) : eff (world R) unit := λ w,
  (Ok tt, World (w_redis w) (w_db w) (w_log w ++ [(l, msg)]) (w_slept w)).

(** [await sleep(random.uniform(0, bound))] *)
Definition sleep_uniform (bound : Z) : eff (world R) unit := λ w,
  (Ok tt, World (w_redis w) (w_db w) (w_log w) (w_slept w ++ [bound])).
End world.

(** ** Classifying database failures *)

Definition _RETRYABLE_DB_EXC : list sa_class := [SaOperationalError; SaInterfaceError].
Definition _RETRYABLE_SQLSTATE_PREFIX : string := "08".
Definition _RETRYABLE_SQLSTATES : list string := ["40001"; "40P01"; "57P01"; "57P02"; "57P03"]%string.
Definition _RETRY_MAX_ATTEMPTS : Z := 3.
Definition _RETRY_BACKOFF_BASE_SEC : Z := 2.

Definition sa_class_name (c : sa_class) : string :=
  match c with
  | SaOperationalError => "OperationalError" | SaInterfaceError => "InterfaceError"
  | SaIntegrityError => "IntegrityError" | SaProgrammingError => "ProgrammingError"
  | SaDataError => "DataError" | SaDBAPIError => "DBAPIError"
  end.

Section failures.
(** [type(e.orig).__name__], the driver's own exception class; [None] for an
error without an [orig] *)
Variable orig_class : dbapi_error → option string.

Definition _format_db_err (e : dbapi_error) : string :=
  let sa := String.append "sa=" (sa_class_name (dbe_class e)) in
  match orig_class e with
  | None => sa
  | Some orig =>
    let s := String.append sa (String.append " orig=" orig) in
    if str_truthy (dbe_sqlstate e)
    then String.append s (String.append " sqlstate=" (default "" (dbe_sqlstate e)))
    else s
  end.

Definition _is_retryable_db_exc (e : dbapi_error) : bool :=
  if mem (dbe_class e) _RETRYABLE_DB_EXC then true
  else match dbe_sqlstate e with
     | None => false
     | Some s => String.prefix _RETRYABLE_SQLSTATE_PREFIX s || mem s _RETRYABLE_SQLSTATES
     end.

(** The exceptions [except (DBAPIError, TimeoutError)] catches *)
Definition db_failure (e : exn) : bool :=
  match e with DBAPIError _ | TimeoutError => true | _ => false end.

Definition _describe_db_failure (e : exn) : string * string :=
  match e with
  | DBAPIError d => ("db error", String.append " " (_format_db_err d))
  | _ => ("db timeout", "")
  end%string.

Definition permanent (e : exn) : bool :=
  match e with
  | DBAPIError d => bool_decide (dbe_class d = SaIntegrityError) || negb (_is_retryable_db_exc d)
  | _ => false
  end.

Context {R : Type}.

Definition _is_permanent_db_failure (e : exn) : eff (world R) bool :=
  match e with
  | DBAPIError d =>
    if bool_decide (dbe_class d = SaIntegrityError)
    then _ ← log Error (String.append "db integrity error (non-retryable) " (_format_db_err d));
         mret true
    else if negb (_is_retryable_db_exc d)
    then _ ← log Error (String.append "db error (non-retryable) " (_format_db_err d)); mret true
    else mret false
  | _ => mret false
  end.

(** ** Attempts *)

Definition _db_attempt {T} (fn : eff session T) : eff (world R) T :=
  on_db (with_session (result ← fn; _ ← commit; mret result)).

Definition last_attempt {T} (fn : eff session T) : eff (world R) T :=
  try_except (_db_attempt fn) (λ e,
  if db_failure e
  then
    p ← _is_permanent_db_failure e;
    _ ← ((if (p : bool) then mret tt
          else let '(label, meta) := _describe_db_failure e in
               log Error (String.append label (String.append " after "
                 (String.append (pretty _RETRY_MAX_ATTEMPTS) (String.append " attempts" meta)))))
         : eff (world R) unit);
    raise e
  else raise e).

(** The loop over the attempts that may be retried *)
Fixpoint retry_loop {T} (attempts : list Z) (fn : eff session T) : eff (world R) T :=
  match attempts with
  | [] => last_attempt fn
  | attempt :: rest =>
    outcome ← try_except (r ← _db_attempt fn; mret (Some r)) (λ e,
      if db_failure e
      then
        p ← _is_permanent_db_failure e;
        if (p : bool) then raise e
        else
          let '(label, meta) := _describe_db_failure e in
          _ ← log Warning (String.append label (String.append " attempt="
                (String.append (pretty attempt) meta)));
          mret None
      else raise e);
    match outcome with
    | Some r => mret r
    | None =>
        _ ← sleep_uniform (_RETRY_BACKOFF_BASE_SEC ^ attempt);
        retry_loop rest fn
    end
  end.

Definition _db_retry {T} (fn : eff session T) : eff (world R) T :=
  retry_loop (seqZ 1 (_RETRY_MAX_ATTEMPTS - 1)) fn.
End failures.
