(* ===== verification/Handlers.v ===== *)
(** * The consumer's message handlers

    Models the rest of [src/assessment_engine/consumer/handlers/_common.py] and the
    handlers [metrics.py], [error.py] and [task_result.py], with the settings they
    read ([config.py]) and the wrapper [_run_logged] of [consumer/main.py].

    A message arrives as a body.  Validation is a library call (pydantic) and a
    parameter: it gives the parsed message or the list of errors.  What a handler
    does is a program in the [world] of [DbRetry]; a handler that returns has its
    message acknowledged, one that raises has it rejected without requeue, which
    the broker turns into a dead letter. *)

From S2P Require Import Prelude PyText PyFloat Redis Sql Inbound CollectDb Wire DbRetry.

(** ** What counts as a successful task

    Models [src/assessment_engine/consumer/task_policy.py]: the agent's own
    verdict ([task_policy]) decides first, an allow-list of exit codes per
    operating system only when the agent gave none. *)

Definition _SCRIPT_FAILED_REASON : string := "script_failed".
Definition _UNVERIFIED_REASON : string := "install_unverified".

(** The allow-list keys of a host, from the specific to the general *)
Definition policy_keys (os_family os_version os_id : option string) : list string :=
  if bool_decide (os_family = Some "windows"%string)
  then (if str_truthy os_version then [default "" os_version] else []) ++ ["windows"%string]
  else if bool_decide (os_family = Some "linux"%string) && str_truthy os_id && str_truthy os_version
  then [String.append (default "" os_id)
          (String.append ":" (before_char "." (default "" os_version)))]
  else [].

Definition effective_task_result (status : string) (failure_reason : option string)
    (exit_code : option Z) (os_family os_version os_id : option string)
    (success_exit_codes : gmap string (list Z)) (task_policy : option bool)
    : string * option string :=
  match task_policy with
  | Some true => ("success"%string, None)
  | Some false => ("failure"%string, Some (str_or failure_reason _UNVERIFIED_REASON))
  | None =>
      match exit_code with
      | Some code =>
          if negb (String.eqb status "failure")
             || negb (bool_decide (failure_reason = Some _SCRIPT_FAILED_REASON))
          then (status, failure_reason)
          else if existsb (λ key, match success_exit_codes !! key with
                                  | Some allowed => mem code allowed
                                  | None => false
                                  end) (policy_keys os_family os_version os_id)
          then ("success"%string, None)
          else (status, failure_reason)
      | None => (status, failure_reason)
      end
  end.

(** The fall-back only ever turns a failed script into a success. *)
Lemma effective_fallback status reason exit os ver id codes s r :
  effective_task_result status reason exit os ver id codes None = (s, r) →
  (s = status ∧ r = reason)
  ∨ (s = "success"%string ∧ r = None ∧ status = "failure"%string
     ∧ reason = Some _SCRIPT_FAILED_REASON
     ∧ ∃ code key allowed, exit = Some code ∧ key ∈ policy_keys os ver id
         ∧ codes !! key = Some allowed ∧ code ∈ allowed).
Proof.
  unfold effective_task_result. destruct exit as [code|]; [|intros [= <- <-]; by left].
  destruct (negb _ || negb _) eqn:E; [intros [= <- <-]; by left|]. to_prop.
  destruct (existsb _ _) eqn:Ex; intros [= <- <-]; [right|by left].
  apply existsb_exists in Ex as (key & Hk & Ha).
  destruct (codes !! key) as [allowed|] eqn:Hc; [|done].
  apply String.eqb_eq in H. split; [done|]. split; [done|]. split; [done|]. split; [done|].
  exists code, key, allowed. repeat split; try done; [by apply list_elem_of_In|by apply mem_true].
Qed.

(** ** Handlers *)

(** ** Settings *)

Definition redis_ttl_idempotent : Z := 86400.
Definition redis_ttl_online : Z := 300.
Definition redis_ttl_last_agent_start : Z := 86400.
Definition redis_ttl_agent_restarts : Z := 3600.
Definition redis_ttl_time_invariant_warned : Z := 3600.
Definition agent_restart_alert_threshold : Z := 3.

(** The key templates, applied with [str.format] *)
Definition redis_key_idempotent (x : string) : string := String.append "idempotent:" x.
Definition redis_key_online (id : Z) : string := String.append "online:" (pretty id).
Definition redis_key_cache_metrics (id : Z) : string := String.append "cache:metrics:" (pretty id).
Definition redis_key_last_agent_start (id : Z) : string :=
  String.append "last_agent_start:" (pretty id).
Definition redis_key_agent_restarts (id : Z) : string :=
  String.append "agent_restarts:" (pretty id).
Definition redis_key_time_invariant_warned (agent : string) : string :=
  String.append "time_invariant_warned:" agent.

Definition task_install_success_exit_codes : gmap string (list Z) :=
  list_to_map [("windows", [2]); ("rocky:9", [3]); ("almalinux:9", [3]); ("ol:9", [3]);
               ("centos:9", [3])]%string.

(** ** Validation errors and log text *)

Record validation_error := {
  loc : list string;
  err_type : string;
}.

Definition _VALIDATION_ERR_LIMIT : nat := 5.
Definition _VALIDATION_LOC_MAX : nat := 48.
Definition _ERROR_MESSAGE_LOG_MAX : nat := 500.

Section text.
(** [str.isprintable] on one character *)
Variable isprintable : ascii → bool.

Definition _sanitize_log_text (value : string) (limit : nat) : string :=
  let text := filter_chars isprintable value in
  if Nat.leb (String.length text) limit then text
  else String.append (take_chars limit text) "~".

Definition _sanitize_loc_part (part : string) : string :=
  _sanitize_log_text part _VALIDATION_LOC_MAX.

Definition _format_validation_err (errors : list validation_error) : string :=
  let limit := _VALIDATION_ERR_LIMIT in
  let head := str_join " " ((λ it, String.append (str_join "." (_sanitize_loc_part <$> loc it))
                             (String.append "=" (err_type it))) <$> take limit errors) in
  let more := if Nat.ltb limit (length errors)
            then String.append " +" (String.append (pretty (length errors - limit)%nat) "more")
            else "" in
  String.append "count=" (String.append (pretty (length errors))
  (String.append " " (String.append head more))).

Context {R : Type}.

Definition _parse {T} (validate : string → list validation_error + T) (label body : string)
  : eff (world R) T :=
  match validate body with
  | inr data => mret data
  | inl errs =>
    let detail := _format_validation_err errs in
    _ ← log Error (String.append label (String.append " parse error " detail));
    raise (ValueError (String.append label (String.append " validation failed: " detail)))
  end.

Definition _in_message_context {T} (validate : string → list validation_error + T)
  (label : string) (handle : T → eff (world R) unit) (body : string) : eff (world R) unit :=
  data ← _parse validate label body;
  handle data.
End text.

(** [message.process(requeue=False)] and [_run_logged]: acknowledge or reject, then
    log what the handler raised. *)
Inductive delivery := Acked | Rejected.

Definition process {R} (handler : string → eff (world R) unit) (body : string) : world R → delivery * world R := λ w,
  match handler body w with
  | (Ok _, w') => (Acked, w')
  | (Raise _, w') => (Rejected, run_state (log Error "handler failed") w')
  end.

(** ** Redis-backed guards *)

(** [x is not None and x > y] *)
Definition later_than (o : option datetime) (y : datetime) : bool :=
  match o with Some x => y <? x | None => false end.

Section handlers.
Context {R : Type} `{RedisClient R}.

Definition _check_idempotent (message_id : string) : eff (world R) bool :=
  r ← on_redis (safe_set_nx (redis_key_idempotent message_id) "1" redis_ttl_idempotent);
  mret (match r with None => true | Some b => b end).

Definition _time_warn_allowed (agent_id : string) : eff (world R) bool :=
  r ← on_redis (safe_set_nx (redis_key_time_invariant_warned agent_id) "1"
                redis_ttl_time_invariant_warned);
  mret (negb (bool_decide (r = Some false))).

Definition _log_time_invariants (data : Envelope) : eff (world R) unit :=
  match env_agent_started_at data with
  | None => mret tt
  | Some started =>
    let boot_ok := negb (later_than (env_boot_time data) started) in
    if boot_ok && (started <=? env_collected_at data) then mret tt
    else
      allowed ← _time_warn_allowed (env_agent_id data);
      if negb (allowed : bool) then mret tt
      else
        _ ← ((if later_than (env_boot_time data) started
              then log Warning "time invariant violated boot_time>agent_started_at"
              else mret tt) : eff (world R) unit);
        if env_collected_at data <? started
        then log Warning "time invariant violated agent_started_at>collected_at"
        else mret tt
  end.

Definition _track_agent_restart (server_id : Z) (agent_id : string)
  (agent_started_at : option datetime) : eff (world R) unit :=
  match agent_started_at with
  | None => mret tt
  | Some started =>
    let last_key := redis_key_last_agent_start server_id in
    let counter_key := redis_key_agent_restarts server_id in
    let current_iso := isoformat started in
    last_iso ← on_redis (safe_get last_key);
    _ ← ((if str_truthy last_iso && negb (bool_decide (last_iso = Some current_iso))
          then
            count ← on_redis (safe_incr_with_ttl counter_key redis_ttl_agent_restarts);
            match count with
            | Some n => if agent_restart_alert_threshold <=? n
                        then log Warning (String.append "agent restart frequency alert agent_id="
                               (String.append agent_id (String.append " count=" (pretty n))))
                        else mret tt
            | None => mret tt
            end
          else mret tt) : eff (world R) unit);
    _ ← on_redis (safe_set last_key current_iso (Some redis_ttl_last_agent_start));
    mret tt
  end.

(** ** Metrics *)

Variable orig_class : dbapi_error → option string.

Definition save_metrics (agent_id : string) (placeholder : Inventory.ServerInventoryCreate)
  (dto : Metric.ServerMetricCreate) : eff session (Z * bool * MetricInsertResult) :=
  '(server_id, auto_registered) ← ensure_server_id agent_id placeholder;
  result ← record_metrics server_id dto;
  mret (server_id, auto_registered, result).

Definition store_metrics (data : MetricsInput) : eff (world R) unit :=
  let env := envelope data in
  first ← _check_idempotent (message_id env);
  if negb (first : bool)
  then log Info (String.append "metrics duplicate skipped message_id=" (message_id env))
  else
  _ ← _log_time_invariants env;
  dto ← lift (to_metric_create data);
  let placeholder := build_placeholder_inventory data in
  '(server_id, auto_registered, insert_result) ←
    _db_retry orig_class (save_metrics (env_agent_id env) placeholder dto);
  _ ← ((if (auto_registered : bool)
        then log Info (String.append "auto-registered server from metrics agent_id="
                         (env_agent_id env))
        else mret tt) : eff (world R) unit);
  _ ← on_redis (safe_set (redis_key_online server_id) "1" (Some redis_ttl_online));
  _ ← on_redis (safe_delete (redis_key_cache_metrics server_id));
  _ ← _track_agent_restart server_id (env_agent_id env) (env_agent_started_at env);
  log Debug (String.append "metrics stored agent_id=" (env_agent_id env)).

Variable isprintable : ascii → bool.

Definition make_metrics_handler (validate : string → list validation_error + MetricsInput)
  : string → eff (world R) unit :=
  _in_message_context isprintable validate "metrics" store_metrics.

(** ** Errors *)

Record ErrorInput := {
  err_envelope : Envelope;
  error_code : string;
  error_message : string;
  failed_component : string;
}.

Definition log_error_message (data : ErrorInput) : eff (world R) unit :=
  let env := err_envelope data in
  first ← _check_idempotent (message_id env);
  if negb (first : bool)
  then log Info (String.append "error duplicate skipped message_id=" (message_id env))
  else
  _ ← _log_time_invariants env;
  let sanitized := _sanitize_log_text isprintable (error_message data) _ERROR_MESSAGE_LOG_MAX in
  let msg := if String.eqb sanitized "" then "(empty)"%string else sanitized in
  log Warning (String.append "agent error agent_id=" (String.append (env_agent_id env)
    (String.append " component=" (String.append (failed_component data)
    (String.append " code=" (String.append (error_code data)
    (String.append " msg=" msg))))))).

Definition make_error_handler (validate : string → list validation_error + ErrorInput)
  : string → eff (world R) unit :=
  _in_message_context isprintable validate "error message" log_error_message.

(** ** Task results *)

Record TaskResultInput := {
  tr_message_id : string;
  task_id : string;
  tr_status : string;
  tr_failure_reason : option string;
  tr_exit_code : option Z;
  tr_signal_no : option Z;
  tr_task_policy : option bool;
  tr_duration_ms : Z;
  tr_stdout_tail : string;
  tr_stderr_tail : string;
  tr_completed_at : datetime;
  tr_os_family : string;
  tr_os_version : option string;
  tr_os_id : option string;
}.

Variable success_exit_codes : gmap string (list Z).

Definition task_result_update (task_public_id : string) (data : TaskResultInput)
  : TaskDto.TaskResultUpdate :=
  let '(eff_status, eff_reason) :=
  effective_task_result (tr_status data) (tr_failure_reason data) (tr_exit_code data)
    (Some (tr_os_family data)) (tr_os_version data) (tr_os_id data) success_exit_codes
    (tr_task_policy data) in
  {| TaskDto.public_id := task_public_id; TaskDto.status := eff_status;
   TaskDto.failure_reason := eff_reason; TaskDto.exit_code := tr_exit_code data;
   TaskDto.signal_no := tr_signal_no data; TaskDto.task_policy := tr_task_policy data;
   TaskDto.duration_ms := tr_duration_ms data; TaskDto.stdout_tail := tr_stdout_tail data;
   TaskDto.stderr_tail := tr_stderr_tail data;
   TaskDto.completed_at := tr_completed_at data |}.

Definition store_task_result (data : TaskResultInput) : eff (world R) unit :=
  first ← _check_idempotent (tr_message_id data);
  if negb (first : bool)
  then log Info (String.append "task_result duplicate skipped message_id=" (tr_message_id data))
  else
  match parse_uuid (task_id data) with
  | Raise _ =>
      log Warning (String.append
        "task_result task_id not uuid, unmatchable (silent ack) message_id=" (tr_message_id data))
  | Ok task_public_id =>
      let update := task_result_update task_public_id data in
      updated ← _db_retry orig_class (complete_task update);
      if negb (updated : bool)
      then log Warning (String.append "task_result for unknown task_id="
             (String.append (task_id data) " (silent ack)"))
      else
        _ ← ((if negb (String.eqb (TaskDto.status update) (tr_status data))
              then log Info (String.append "task_result status remapped task_id=" (task_id data))
              else mret tt) : eff (world R) unit);
        log Info (String.append "task_result stored task_id=" (String.append (task_id data)
          (String.append " status=" (TaskDto.status update))))
  end.

Definition make_task_result_handler (validate : string → list validation_error + TaskResultInput)
  : string → eff (world R) unit :=
  _in_message_context isprintable validate "task_result" store_task_result.
End handlers.
