(* ===== verification/PyList.v ===== *)
(** * Lists and formatting, as the read side uses them

    [sorted] (stable), grouping of rows under a key in the order the keys are first
    seen, [sum] of optional numbers, and [format(x, "g")]. *)

From stdpp Require Import sorting.
From S2P Require Import Prelude PyFloat.

(** ** Stable sorting *)

Section sort.
Context {A : Type} (before : A → A → bool).

(** Before the first element it may precede *)
Fixpoint insert_by (x : A) (l : list A) : list A :=
  match l with
  | [] => [x]
  | y :: l' => if before x y then x :: l else y :: insert_by x l'
  end.

Definition sort_by (l : list A) : list A := foldr insert_by [] l.

Lemma insert_by_perm x l : insert_by x l ≡ₚ x :: l.
Proof.
  induction l as [|y l IH]; [done|]. cbn. destruct (before x y); [done|].
  rewrite IH. by apply Permutation_swap.
Qed.

Lemma sort_by_perm l : sort_by l ≡ₚ l.
Proof. induction l as [|x l IH]; [done|]. cbn. by rewrite insert_by_perm, IH. Qed.

Context (total : ∀ x y, before x y = true ∨ before y x = true).

Lemma insert_by_sorted x l :
  Sorted (λ x y, before x y = true) l → Sorted (λ x y, before x y = true) (insert_by x l).
Proof.
  induction l as [|y l IH]; intros Hs; cbn [insert_by]; [by repeat constructor|].
  destruct (before x y) eqn:E; [by constructor; [|constructor]|].
  apply Sorted_inv in Hs as [Hs Hh]. constructor; [by apply IH|].
  assert (before y x = true) by (destruct (total x y); congruence).
  destruct l as [|z l]; cbn [insert_by]; [by constructor|]. inversion Hh; subst.
  destruct (before x z); by constructor.
Qed.

Lemma sort_by_sorted l : Sorted (λ x y, before x y = true) (sort_by l).
Proof. induction l as [|x l IH]; [constructor|]. by apply insert_by_sorted. Qed.
End sort.

(** [sorted(l, key=key)] on ints and on strings, and the former with [reverse=True] *)
Definition sort_asc {A} (key : A → Z) : list A → list A := sort_by (λ x y, key x <=? key y).
Definition sort_desc {A} (key : A → Z) : list A → list A := sort_by (λ x y, key y <=? key x).
Definition sort_str {A} (key : A → string) : list A → list A :=
  sort_by (λ x y, match String.compare (key x) (key y) with Gt => false | _ => true end).

Lemma leb_total (a b : string) : String.leb a b = true ∨ String.leb b a = true.
Proof. destruct (total String.le a b) as [H%Is_true_true|H%Is_true_true]; auto. Qed.

Lemma sort_str_sorted {A} (f : A → string) l :
  StronglySorted (λ x y, String.le (f x) (f y)) (sort_str f l).
Proof.
  apply Sorted_StronglySorted; [intros x y z; apply transitivity|].
  pose proof (sort_by_sorted (λ x y, String.leb (f x) (f y)) (λ x y, leb_total _ _) l) as S.
  change (sort_by (λ x y, String.leb (f x) (f y)) l) with (sort_str f l) in S.
  induction S as [|x m S IH Hd]; constructor; [done|].
  destruct Hd; constructor. by apply Is_true_true.
Qed.

(** ** Grouping *)

Section group.
Context {K A : Type} `{EqDecision K} (key : A → K).

(** [by_dim.setdefault(k, []).append(r)] *)
Fixpoint setdefault_append (k : K) (r : A) (d : list (K * list A)) : list (K * list A) :=
  match d with
  | [] => [(k, [r])]
  | (k', rs) :: d' =>
    if decide (k = k') then (k', rs ++ [r]) :: d' else (k', rs) :: setdefault_append k r d'
  end.

Definition _group_by_dim (rows : list A) : list (K * list A) :=
  foldl (λ d r, setdefault_append (key r) r d) [] rows.

Lemma setdefault_append_keys k r d :
  (setdefault_append k r d).*1 = d.*1 ++ (if decide (k ∈ d.*1) then [] else [k]).
Proof.
  induction d as [|[k' rs] d IH]; [done|]. cbn.
  destruct (decide (k = k')) as [->|Hk]; cbn.
  - rewrite decide_True by by left. by rewrite app_nil_r.
  - change ((λ x : K * list A, x.1) <$> d) with (d.*1). rewrite IH. f_equal. f_equal.
  destruct (decide (k ∈ d.*1)); [by rewrite decide_True by by right|].
  rewrite decide_False; [done|]. by intros [?|?]%elem_of_cons.
Qed.

Lemma setdefault_append_elem k r d k' rs :
  NoDup (d.*1) →
  (k', rs) ∈ setdefault_append k r d ↔
  if decide (k = k')
  then (∃ rs0, (k, rs0) ∈ d ∧ rs = rs0 ++ [r]) ∨ (k ∉ d.*1 ∧ rs = [r])
  else (k', rs) ∈ d.
Proof.
  induction d as [|[k0 rs0] d IH]; intros N; cbn [setdefault_append].
  - rewrite list_elem_of_singleton. destruct (decide (k = k')) as [->|Hk]; [|set_solver].
  split; [|intros [(?&H&_)|[_ ->]]; [by apply not_elem_of_nil in H|done]].
  intros [= ->]. right. split; [apply not_elem_of_nil|done].
  - cbn in N. apply NoDup_cons in N as [N0 N].
  change ((λ x : K * list A, x.1) <$> d) with (d.*1) in *.
  destruct (decide (k = k0)) as [->|Hk0].
  + rewrite elem_of_cons. destruct (decide (k0 = k')) as [->|Hk].
    * split.
      -- intros [[= ->]|H]; [left; exists rs0; split; [by left|done]|].
         destruct N0. apply list_elem_of_fmap. by exists (k', rs).
      -- intros [(rs1 & [[= ->]|H]%elem_of_cons & ->)|[H _]]; [by left| |].
         ++ destruct N0. apply list_elem_of_fmap. by exists (k', rs1).
         ++ destruct H. by left.
    * rewrite elem_of_cons. naive_solver.
  + rewrite elem_of_cons, (IH N).
    destruct (decide (k = k')) as [->|Hk]; [|by rewrite elem_of_cons]. split.
    * intros [[= -> _]|[(rs1 & H & ->)|[H ->]]]; [done| |].
      -- left. exists rs1. split; [by right|done].
      -- right. split; [|done]. cbn. by intros [?|?]%elem_of_cons.
    * intros [(rs1 & [[= -> _]|H]%elem_of_cons & ->)|[H ->]]; [done| |].
      -- right. left. by exists rs1.
      -- right. right. split; [|done]. intros H'. destruct H. by right.
Qed.

Lemma group_by_dim_nodup rows : NoDup ((_group_by_dim rows).*1).
Proof.
  unfold _group_by_dim. induction rows as [|r rows IH] using rev_ind; [constructor|].
  rewrite foldl_app. cbn. rewrite setdefault_append_keys. apply NoDup_app. split; [done|].
  split; [intros k Hk|]; destruct (decide _) as [|Hn]; try by constructor.
  - apply not_elem_of_nil.
  - intros ->%list_elem_of_singleton. by destruct Hn.
  - apply NoDup_singleton.
Qed.

Lemma filter_no_key k rows : k ∉ key <$> rows → filter (λ r, key r = k) rows = [].
Proof.
  induction rows as [|r rows IH]; [done|]. intros H. cbn in H.
  rewrite filter_cons, decide_False by (intros <-; destruct H; apply list_elem_of_here).
  apply IH. intros Hk. destruct H. by right.
Qed.

(** The groups of rows: under each key its rows, in order. *)
Lemma group_by_dim_elem rows k rs :
  (k, rs) ∈ _group_by_dim rows ↔ k ∈ key <$> rows ∧ rs = filter (λ r, key r = k) rows.
Proof.
  revert k rs. induction rows as [|r rows IH] using rev_ind; intros k rs.
  { split; [intros H; by apply not_elem_of_nil in H|]. intros [H _]. by apply not_elem_of_nil in H. }
  pose proof (group_by_dim_nodup rows) as N. unfold _group_by_dim in *. rewrite foldl_app. cbn.
  rewrite setdefault_append_elem by done. set (d := foldl _ [] rows) in *.
  assert (∀ k0, k0 ∈ d.*1 ↔ k0 ∈ key <$> rows) as Hd.
  { intros k0. rewrite list_elem_of_fmap. split.
  - intros ([k1 rs1] & -> & H). by apply IH in H as [H _].
  - intros H. exists (k0, filter (λ r, key r = k0) rows). split; [done|]. by apply IH. }
  rewrite fmap_app, elem_of_app, filter_app. change (key <$> [r]) with [key r].
  rewrite list_elem_of_singleton, filter_cons, filter_nil.
  destruct (decide (key r = k)) as [<-|Hk].
  - rewrite Hd. split.
  + intros [(rs0 & H & ->)|[H ->]].
    * apply IH in H as [H ->]. split; [by left|done].
    * split; [by right|]. by rewrite filter_no_key.
  + intros [_ ->]. destruct (decide (key r ∈ key <$> rows)) as [H|H].
    * left. exists (filter (λ r0, key r0 = key r) rows). split; [by apply IH|done].
    * right. split; [done|]. by rewrite filter_no_key.
  - rewrite IH, app_nil_r. split; [intros [??]; split; [by left|done]|].
  intros [[?|?] ?]; [done|congruence].
Qed.
End group.

(** ** Dicts in the order of their keys' first assignment *)

Section ordered_dict.
Context {K V : Type} `{EqDecision K}.

Fixpoint dict_get (k : K) (d : list (K * V)) : option V :=
  match d with
  | [] => None
  | (k', v) :: d' => if decide (k' = k) then Some v else dict_get k d'
  end.

(** [d[k] = v] *)
Fixpoint dict_set (k : K) (v : V) (d : list (K * V)) : list (K * V) :=
  match d with
  | [] => [(k, v)]
  | (k', v') :: d' => if decide (k' = k) then (k', v) :: d' else (k', v') :: dict_set k v d'
  end.

Lemma dict_get_set_eq k v d : dict_get k (dict_set k v d) = Some v.
Proof.
  induction d as [|[k' v'] d IH]; cbn; [by rewrite decide_True|].
  by destruct (decide (k' = k)) as [->|]; cbn; [rewrite decide_True|rewrite decide_False].
Qed.

Lemma dict_get_set_ne k k' v d : k ≠ k' → dict_get k' (dict_set k v d) = dict_get k' d.
Proof.
  intros Hk. induction d as [|[k0 v0] d IH]; cbn; [by rewrite decide_False|].
  destruct (decide (k0 = k)) as [->|]; cbn; [by rewrite !decide_False|].
  destruct (decide (k0 = k')); [done|apply IH].
Qed.

Lemma dict_set_keys k v d :
  (dict_set k v d).*1 = d.*1 ++ (if decide (k ∈ d.*1) then [] else [k]).
Proof.
  induction d as [|[k' v'] d IH]; [done|]. cbn.
  change ((λ x : K * V, x.1) <$> d) with (d.*1) in *.
  destruct (decide (k' = k)) as [->|Hk]; cbn; change ((λ x : K * V, x.1) <$> ?l) with (l.*1).
  - rewrite decide_True by by left. by rewrite app_nil_r.
  - rewrite IH. cbn. f_equal. f_equal. destruct (decide (k ∈ d.*1)); [by rewrite decide_True by by right|].
    rewrite decide_False; [done|]. by intros [?|?]%elem_of_cons.
Qed.

Lemma dict_get_keys k d : is_Some (dict_get k d) ↔ k ∈ d.*1.
Proof.
  induction d as [|[k' v] d IH]; cbn.
  { split; [intros []; done|intros H; by apply elem_of_nil in H]. }
  change ((λ x : K * V, x.1) <$> d) with (d.*1). rewrite elem_of_cons, <-IH.
  destruct (decide (k' = k)) as [->|]; naive_solver.
Qed.
End ordered_dict.

(** ** Numbers *)

(** [sum(v for v in vals if v is not None)] *)
Definition sum_measured (vals : list (option float)) : float :=
  match omap id vals with [] => of_Z 0 | x :: l => py_sum x l end.

(** [m * 2 ^ e * 10 ^ k] rounded to the nearest integer, ties to even *)
Definition decimal_round (m e k : Z) : Z :=
  if 0 <=? k then scaled_round (m * 10 ^ k) e
  else if 0 <=? e then div_half_even (m * 2 ^ e) (10 ^ (- k))
  else div_half_even m (2 ^ (- e) * 10 ^ (- k)).

Fixpoint strip_zeros (s : string) : string :=
  match s with
  | EmptyString => ""
  | String c s' =>
      match strip_zeros s' with
      | EmptyString => if Ascii.eqb c "0" then "" else String c ""
      | r => String c r
      end
  end.

(** The decimal exponents of binary64, largest first *)
Definition decimal_exponents : list Z := (λ n, 308 - Z.of_nat n) <$> seq 0 633.

(** [format(x, "g")]: six significant digits *)
Definition fmt_g (x : float) : string :=
  let signed (s : bool) (body : string) := if s then String "-"%char body else body in
  let point (whole frac : string) :=
    match strip_zeros frac with
    | EmptyString => whole
    | f => String.append whole (String "."%char f)
    end in
  match x with
  | S754_nan => "nan"
  | S754_infinity s => signed s "inf"
  | S754_zero s => signed s "0"
  | S754_finite s m e =>
      let exp := default (-324) (find (λ k, 100000 <=? decimal_round (Zpos m) e (5 - k)) decimal_exponents) in
      let digits := decimal_round (Zpos m) e (5 - exp) in
      signed s
        (if (-4 <=? exp) && (exp <? 6)
         then let p := 10 ^ (5 - exp) in
              point (pretty (digits / p)) (pad_digits (Z.to_nat (5 - exp)) (digits mod p))
         else str_join "" [point (pretty (digits / 100000)) (pad_digits 5 (digits mod 100000)); "e";
                           if (exp <? 0)%Z then "-" else "+"; pad_digits 2 (Z.abs exp)]%string)
  end.

Example fmt_g_examples :
  fmt_g <$> [of_Z 5; of_ratio false 5 10; of_Z 1000000; of_ratio true 123 100000; of_Z 0;
             of_ratio false 1999999 10; of_ratio false 12 1000000]
  = ["5"; "0.5"; "1e+06"; "-0.00123"; "0"; "200000"; "1.2e-05"]%string.
Proof. vm_compute. reflexivity. Qed.

#[global] Arguments sum_measured : simpl never.
#[global] Arguments fmt_g : simpl never.
