(* ===== verification/Devices.v ===== *)
(** * Device layers and display units

    Models [src/assessment_engine/web/services/device_filters.py] and
    [web/services/unit_converter.py]: which block devices, interfaces and
    filesystems count, and the conversions of bytes to what is shown.

    A node of the inventory's device lists is a JSON object whose text fields the
    wire schema declares as string or null and whose sizes it declares as integers
    ([consumer/schemas.py]); the readers below are [node.get(key)] on such nodes. *)

From S2P Require Import Prelude PyFloat PyText Sql.

(** ** Reading a node *)

Definition node_get (key : string) (node : json) : option json :=
  match node with
  | JObj kvs => match snd <$> find (λ kv, bool_decide (kv.1 = key)) kvs with
                | Some JNull | None => None
                | Some v => Some v
                end
  | _ => None
  end.

Definition node_str (key : string) (node : json) : option string :=
  match node_get key node with Some (JStr s) => Some s | _ => None end.

(** [node.get(key) or 0] *)
Definition node_int (key : string) (node : json) : Z :=
  match node_get key node with Some (JInt n) => n | _ => 0 end.

(** Numbers, booleans and lists under a key *)
Definition get_number (key : string) (node : json) : option Z :=
  match node_get key node with Some (JInt n) => Some n | _ => None end.
Definition get_flag (key : string) (node : json) : option bool :=
  match node_get key node with Some (JBool b) => Some b | _ => None end.
Definition get_list {A} (key : string) (view : json → A) (node : json) : option (list A) :=
  match node_get key node with Some (JArr l) => Some (view <$> l) | _ => None end.
Definition text_of (j : json) : string := match j with JStr s => s | _ => "" end.
Definition get_strs (key : string) : json → option (list string) := get_list key text_of.

(** [json_list(node, key)] *)
Definition node_list (key : string) (node : json) : list json := default [] (get_list key id node).

(** ** Device filters *)

Definition VIRTUAL_FSTYPES : list string :=
  ["tmpfs"; "devtmpfs"; "overlay"; "squashfs"; "proc"; "sysfs"; "cgroup"; "cgroup2"; "mqueue";
   "debugfs"; "tracefs"; "securityfs"; "pstore"; "bpf"; "configfs"; "ramfs"; "autofs"; "hugetlbfs";
   "fusectl"; "nsfs"; "efivarfs"; "binfmt_misc"].

Definition is_physical_disk (dtype : option string) : bool :=
  bool_decide (dtype = Some "disk"%string).

Definition is_lvm_disk (dtype : option string) : bool :=
  match dtype with
  | Some t => mem t ["lvm"; "raid"; "crypt"; "mpath"; "dynamic"]%string
  | None => false
  end.

Definition is_partition (dtype : option string) : bool :=
  bool_decide (dtype = Some "part"%string).

Definition is_swap (dtype : option string) : bool := bool_decide (dtype = Some "swap"%string).

Definition is_virtual_interface (kind : option string) : bool :=
  match kind with
  | Some k => negb (mem k ["physical"; "bond_master"]%string)
  | None => true
  end.

(** [s.startswith(p)] *)
Definition startswith (p s : string) : bool :=
  match drop_prefix p s with Some _ => true | None => false end.

Definition is_data_volume (fstype mountpoint : option string) : bool :=
  if match fstype with Some f => mem f VIRTUAL_FSTYPES | None => false end then false
  else negb (match mountpoint with Some m => startswith "/boot" m | None => false end).

Definition sum_Z (l : list Z) : Z := foldr Z.add 0 l.

Definition disk_total_bytes (block_devices : list json) : Z :=
  sum_Z (node_int "size_bytes" <$> filter (λ d, is_physical_disk (node_str "type" d)) block_devices).

Definition swap_total_bytes (block_devices : list json) : Z :=
  sum_Z (node_int "size_bytes" <$> filter (λ d, is_swap (node_str "type" d)) block_devices).

(** ** Units *)

(** [a / b] on ints, [b] not zero *)
Definition truediv (a b : Z) : float :=
  match b with
  | Zpos p => int_truediv a p
  | Zneg p => int_truediv (- a) p
  | Z0 => S754_nan
  end.

Definition bytes_to_gb (b : option Z) : option float :=
  (λ b, py_round_nd 2 (truediv b (1024 ^ 3))) <$> b.

Definition bytes_to_gib (b : option Z) : option float :=
  match b with
  | Some b => if b =? 0 then None else Some (py_round_nd 1 (truediv b (1024 ^ 3)))
  | None => None
  end.

Definition usage_pct (used total : option Z) : option float :=
  match used, total with
  | Some u, Some t =>
      if t =? 0 then None
      else Some (py_round_nd 1 (fmax2 (of_Z 0) (fmul (truediv u t) (of_Z 100))))
  | _, _ => None
  end.

#[global] Arguments truediv : simpl never.

Example device_filters_examples :
  is_data_volume (Some "ext4"%string) (Some "/boot/efi"%string) = false
  ∧ is_data_volume None (Some "/"%string) = true
  ∧ disk_total_bytes
      [jobj [("type", JStr "disk"); ("size_bytes", JInt 5)]; jobj [("type", JStr "part"); ("size_bytes", JInt 3)];
       jobj [("type", JStr "disk"); ("size_bytes", JNull)]]%string = 5
  ∧ usage_pct (Some 1) (Some 3) = Some (of_ratio false 333 10)
  ∧ bytes_to_gb (Some 32212254720) = Some (of_Z 30).
Proof. vm_compute. done. Qed.
