(* ===== verification/Services.v ===== *)
(** * What a server runs: categories of services, and the ports they listen on

    Models [src/assessment_engine/service_classifier.py] and the workload part of
    [src/assessment_engine/web/services/mappers/server.py].  The lists of services and of
    listening sockets are JSON the consumer validated: a service has a unit, a pid when
    the agent knows it; a socket a protocol, a port, its owner's pid and command when
    the agent may see them. *)

From stdpp Require Import sorting.
From S2P Require Import Prelude PyText PyList Sql Devices.

(** ** Data *)

Module Category.
Record CategoryDef := {
  key : string;
  name_keywords : list string;
  (** a dict *)
  port_names : list (string * list Z);
  badge_class : string;
  label_ko : string;
  desc_ko : string;
  single_instance : bool;
}.
End Category.
Import Category.

(** What [.get] reads of a service and of a socket *)
Record ServiceUnit := {
  unit_name : option string;
  unit_pid : option Z;
  display_name : option string;
}.

Record ListenPort := {
  proto : string;
  port : Z;
  pid : option Z;
  comm : option string;
}.

(** [MatchedPort]: protocol and port *)
Abbreviation MatchedPort := (string * Z)%type.

Definition socket_key (p : ListenPort) : MatchedPort := (proto p, port p).

(** ** What the readers see of a stored service or socket *)

Definition service_view (s : json) : ServiceUnit := {|
  unit_name := node_str "unit" s; unit_pid := get_number "pid" s;
  display_name := node_str "display_name" s |}.

Definition socket_view (p : json) : ListenPort := {|
  proto := default ""%string (node_str "proto" p); port := default 0 (get_number "port" p);
  pid := get_number "pid" p; comm := node_str "comm" p |}.

(** ** The catalog *)

Definition web_def : CategoryDef := {|
  key := "web";
  name_keywords := [
    "nginx"; "httpd"; "apache"; "caddy"; "lighttpd"; "traefik"; "haproxy"; "w3svc"; "iis";
    "openresty"; "tomcat"; "jetty"; "php-fpm"; "gunicorn"; "uwsgi"];
  port_names := [
    ("nginx", [80; 443]); ("apache2", [80; 443]); ("httpd", [80; 443]);
    ("caddy", [80; 443]); ("lighttpd", [80; 443]); ("haproxy", [80; 443]);
    ("traefik", [80; 443; 8080]); ("tomcat", [8080])];
  badge_class := "badge-cat-web";
  label_ko := "웹 / 애플리케이션";
  desc_ko := "Nginx·Apache·HAProxy·Caddy·IIS·Tomcat 등 웹 서버·리버스 프록시·애플리케이션 서버(WAS)";
  single_instance := false |}%string.

Definition db_def : CategoryDef := {|
  key := "db";
  name_keywords := [
    "postgresql"; "postgres"; "mariadb"; "mysqld"; "mysql"; "mongod"; "mongodb";
    "cassandra"; "influxdb"; "sqlservr"; "mssql"; "oracle"; "elasticsearch"; "opensearch";
    "clickhouse"; "db2"];
  port_names := [
    ("postgresql", [5432]); ("postgres", [5432]); ("mysqld", [3306]); ("mysql", [3306]);
    ("mariadb", [3306]); ("mongod", [27017]); ("cassandra", [9042; 9160]);
    ("influxdb", [8086]); ("oracle", [1521]); ("sqlservr", [1433]); ("mssql", [1433]);
    ("elasticsearch", [9200; 9300]); ("opensearch", [9200; 9300]);
    ("clickhouse", [8123; 9000]); ("db2", [50000])];
  badge_class := "badge-cat-db";
  label_ko := "데이터베이스";
  desc_ko := "PostgreSQL·MySQL/MariaDB·MongoDB·SQL Server·Oracle·Elasticsearch 등 관계형·NoSQL·검색 데이터 저장소";
  single_instance := false |}%string.

Definition cache_def : CategoryDef := {|
  key := "cache";
  name_keywords := [
    "redis"; "memcached"; "varnish"; "valkey"; "keydb"; "dragonfly"];
  port_names := [
    ("redis-server", [6379]); ("redis", [6379]); ("memcached", [11211]);
    ("varnish", [6081; 6082]); ("valkey", [6379]); ("keydb", [6379]); ("dragonfly", [6379])];
  badge_class := "badge-cat-cache";
  label_ko := "캐시 / 인메모리";
  desc_ko := "Redis·Memcached·Valkey·Varnish 등 인메모리 캐시·콘텐츠 가속";
  single_instance := false |}%string.

Definition mq_def : CategoryDef := {|
  key := "mq";
  name_keywords := [
    "rabbitmq"; "kafka"; "activemq"; "nats"; "mosquitto"; "pulsar"; "redpanda"; "emqx";
    "artemis"];
  port_names := [
    ("rabbitmq-server", [5672; 15672]); ("rabbitmq", [5672; 15672]); ("kafka", [9092]);
    ("nats-server", [4222; 8222]); ("activemq", [61616; 8161]);
    ("mosquitto", [1883; 8883]); ("pulsar", [6650]); ("emqx", [1883])];
  badge_class := "badge-cat-mq";
  label_ko := "메시지 큐";
  desc_ko := "RabbitMQ·Kafka·NATS·ActiveMQ·MQTT(Mosquitto/EMQX) 등 메시지 브로커";
  single_instance := false |}%string.

Definition container_def : CategoryDef := {|
  key := "container";
  name_keywords := [
    "docker"; "containerd"; "kubelet"; "podman"; "crio"; "k3s"; "k0s"];
  port_names := [
    ];
  badge_class := "badge-cat-container";
  label_ko := "컨테이너 런타임";
  desc_ko := "Docker·containerd·Kubernetes(kubelet/k3s)·Podman 등 컨테이너 런타임 스택 (호스트당 1로 집계)";
  single_instance := true |}%string.

Definition monitor_def : CategoryDef := {|
  key := "monitor";
  name_keywords := [
    "prometheus"; "grafana"; "datadog"; "node_exporter"; "zabbix"; "telegraf"; "collectd";
    "fluentd"; "fluent-bit"; "filebeat"; "victoriametrics"; "loki"; "netdata";
    "alertmanager"];
  port_names := [
    ("prometheus", [9090]); ("node_exporter", [9100]); ("zabbix", [10050; 10051]);
    ("alertmanager", [9093]); ("victoriametrics", [8428]); ("loki", [3100]);
    ("netdata", [19999])];
  badge_class := "badge-cat-monitor";
  label_ko := "모니터링 / 관측";
  desc_ko := "Prometheus·Grafana·Zabbix·node_exporter·Telegraf·Loki 등 메트릭·로그 수집 에이전트";
  single_instance := false |}%string.

Definition remote_def : CategoryDef := {|
  key := "remote";
  name_keywords := [
    "sshd"; "ssh"; "openssh"; "rdp"; "termservice"; "umrdpservice"; "winrm"; "wsmprovhost";
    "tigervnc"; "x11vnc"; "vino"; "vncserver"; "teamviewer"; "anydesk"; "telnetd"];
  port_names := [
    ("sshd", [22]); ("rdp", [3389]); ("termservice", [3389]); ("winrm", [5985; 5986]);
    ("vncserver", [5900; 5901]); ("tigervnc", [5900; 5901]); ("telnetd", [23])];
  badge_class := "badge-cat-remote";
  label_ko := "원격 접속 / 관리";
  desc_ko := "SSH·RDP·WinRM·VNC 등 원격 접속·관리 서비스 (관리 표면 — 대부분 호스트에 존재)";
  single_instance := false |}%string.

Definition file_def : CategoryDef := {|
  key := "file";
  name_keywords := [
    "nfsd"; "nfs"; "rpc.mountd"; "rpcbind"; "smbd"; "samba"; "nmbd"; "vsftpd"; "proftpd";
    "pure-ftpd"; "glusterd"; "ceph-osd"; "minio"; "iscsid"; "tgtd"];
  port_names := [
    ("nfsd", [2049]); ("rpc.mountd", [20048]); ("rpcbind", [111]); ("smbd", [445; 139]);
    ("samba", [445; 139]); ("vsftpd", [21]); ("proftpd", [21]); ("pure-ftpd", [21]);
    ("minio", [9001]); ("iscsid", [3260]); ("tgtd", [3260])];
  badge_class := "badge-cat-file";
  label_ko := "파일 / 스토리지 공유";
  desc_ko := "NFS·SMB(Samba)·FTP·iSCSI·MinIO 등 파일 공유·네트워크 스토리지";
  single_instance := false |}%string.

Definition mail_def : CategoryDef := {|
  key := "mail";
  name_keywords := [
    "postfix"; "sendmail"; "exim"; "exim4"; "dovecot"; "cyrus"; "opendkim"; "rspamd";
    "amavis"; "zimbra"];
  port_names := [
    ("postfix", [25; 587; 465]); ("sendmail", [25]); ("exim", [25]); ("exim4", [25]);
    ("dovecot", [143; 993; 110; 995]); ("cyrus", [143; 993])];
  badge_class := "badge-cat-mail";
  label_ko := "메일";
  desc_ko := "Postfix·Sendmail·Exim(SMTP)·Dovecot(IMAP/POP3) 등 메일 서버";
  single_instance := false |}%string.

Definition infra_def : CategoryDef := {|
  key := "infra";
  name_keywords := [
    "named"; "dnsmasq"; "unbound"; "pdns"; "coredns"; "knot"; "dhcpd"; "dhcp"; "kea";
    "chronyd"; "ntpd"; "slapd"; "sssd"; "winbind"; "squid"; "privoxy"; "snmpd"; "keepalived"];
  port_names := [
    ("named", [53]); ("dnsmasq", [53]); ("unbound", [53]); ("coredns", [53]);
    ("dhcpd", [67]); ("ntpd", [123]); ("chronyd", [123]); ("slapd", [389; 636]);
    ("squid", [3128]); ("snmpd", [161; 162])];
  badge_class := "badge-cat-infra";
  label_ko := "네트워크 인프라";
  desc_ko := "DNS(BIND·dnsmasq)·DHCP·NTP·LDAP·SNMP·프록시 등 네트워크 기반 서비스";
  single_instance := false |}%string.
Definition SERVICE_CATALOG : list CategoryDef :=
  [web_def; db_def; cache_def; mq_def; container_def; monitor_def; remote_def; file_def; mail_def;
   infra_def].

(** ** Indexes *)

Definition _NAME_INDEX : list (string * string) :=
  SERVICE_CATALOG ≫= λ d, (λ kw, (kw, key d)) <$> name_keywords d.

Definition _NAME_PORTS : gmap string (list Z) :=
  list_to_map (reverse (SERVICE_CATALOG ≫= port_names)).

(** [index.setdefault(port, key)] *)
Definition setdefault (index : gmap Z string) (port : Z) (key : string) : gmap Z string :=
  match index !! port with Some _ => index | None => <[port := key]> index end.

Definition _build_port_index : gmap Z string :=
  foldl (λ index '(port, key), setdefault index port key) ∅
    (SERVICE_CATALOG ≫= λ d, port_names d ≫= λ np, (λ port, (port, key d)) <$> np.2).

Definition _PORT_INDEX : gmap Z string := Eval vm_compute in _build_port_index.

Definition SERVICE_CATEGORIES : list string := key <$> SERVICE_CATALOG.

Definition SIGNATURE_CATEGORIES : list string :=
  ["web"; "db"; "cache"; "mq"; "container"; "monitor"]%string.

Definition SINGLE_INSTANCE_CATEGORIES : list string :=
  key <$> filter (λ d, single_instance d = true) SERVICE_CATALOG.

Definition BADGE_CLASS_BY_CATEGORY : list (string * string) :=
  ((λ d, (key d, badge_class d)) <$> SERVICE_CATALOG) ++ [("unknown", "badge-cat-unknown")]%string.

(** ** Classification *)

Fixpoint first_keyword (index : list (string * string)) (text : string) : option string :=
  match index with
  | [] => None
  | (keyword, category) :: index' =>
      if contains keyword text then Some category else first_keyword index' text
  end.

Definition _match_keyword (text : string) : option string :=
  if String.eqb text "" then None else first_keyword _NAME_INDEX text.

(** [sorted(listen_ports, key=lambda x: (x.get("port", 0), x.get("proto", "")))] *)
Definition port_before (p q : ListenPort) : bool :=
  (port p <? port q)
  || ((port p =? port q) && match String.compare (proto p) (proto q) with Gt => false | _ => true end).

Definition sort_ports : list ListenPort → list ListenPort := sort_by port_before.

(** The sockets of a scan that keeps the first socket of each key it accepts *)
Fixpoint scan_ports (accepts : ListenPort → bool) (ports : list ListenPort)
    (seen : gset MatchedPort) : list ListenPort :=
  match ports with
  | [] => []
  | p :: ports' =>
      if decide (socket_key p ∈ seen) then scan_ports accepts ports' seen
      else if accepts p then p :: scan_ports accepts ports' ({[socket_key p]} ∪ seen)
      else scan_ports accepts ports' seen
  end.

Definition comm_lower (p : ListenPort) : string := str_lower (str_or (comm p) "").

(** [name in comm or comm in name], for a command that is not the manager's *)
Definition comm_match (name : string) (p : ListenPort) : bool :=
  let comm := comm_lower p in
  negb (String.eqb comm "") && negb (String.eqb comm "systemd")
  && (contains name comm || contains comm name).

Definition _attributed_ports (unit : string) (listen_ports : list ListenPort) (unit_pid : option Z)
    : list ListenPort :=
  match unit_pid with
  | Some n => scan_ports (λ p, bool_decide (pid p = Some n)) (sort_ports listen_ports) ∅
  | None =>
      let name := str_lower (removesuffix ".service" unit) in
      let well_known := default [] (_NAME_PORTS !! name) in
      scan_ports (λ p, comm_match name p || mem (port p) well_known) (sort_ports listen_ports) ∅
  end.

Definition port_category (p : ListenPort) : option string := _PORT_INDEX !! port p.
Definition comm_category (p : ListenPort) : option string := _match_keyword (comm_lower p).

(** The first that answers *)
Fixpoint first_some {A B} (f : A → option B) (l : list A) : option B :=
  match l with
  | [] => None
  | x :: l' => match f x with Some y => Some y | None => first_some f l' end
  end.

Definition classify (unit : string) (listen_ports : option (list ListenPort)) (unit_pid : option Z)
    : string :=
  let name := removesuffix ".service" (str_lower unit) in
  match _match_keyword name with
  | Some cat => cat
  | None =>
      let attributed := _attributed_ports unit (default [] listen_ports) unit_pid in
      match first_some comm_category attributed with
      | Some cat => cat
      | None => default "unknown"%string (first_some port_category attributed)
      end
  end.

(** Does a socket belong to a unit of this category and pid? *)
Definition belongs (cat : string) (unit_pid : option Z) (p : ListenPort) : bool :=
  match pid p with
  | Some n => bool_decide (unit_pid = Some n)
  | None => negb (String.eqb cat "unknown") && bool_decide (port_category p = Some cat)
  end.

Definition matched_ports (unit : string) (listen_ports : list ListenPort) (unit_pid : option Z)
    : list MatchedPort :=
  let cat := classify unit (Some listen_ports) None in
  socket_key <$> scan_ports (belongs cat unit_pid) (sort_ports listen_ports) ∅.

(** The category of a socket by itself *)
Definition socket_category (p : ListenPort) : option string :=
  match comm_category p with Some cat => Some cat | None => port_category p end.

(** The dict, its keys in the order of their first socket *)
Definition detect_listen_categories (listen_ports : list ListenPort) : list (string * list MatchedPort) :=
  foldl (λ out p, match socket_category p with
                  | Some cat => setdefault_append cat (socket_key p) out
                  | None => out
                  end) []
    (scan_ports (λ p, bool_decide (is_Some (socket_category p))) (sort_ports listen_ports) ∅).

(** ** Baseline services *)

Definition _BASELINE_KEYWORDS : list string :=
  ["sshd"; "ssh"; "openssh"; "rdp"; "termservice"; "umrdpservice"; "winrm"; "wsmprovhost";
   "tigervnc"; "x11vnc"; "vino"; "vncserver"; "telnetd"; "chronyd"; "ntpd"; "ntpdate";
   "timesyncd"; "resolved"; "rpcbind"; "gssproxy"; "sssd"; "winbind"; "systemd-"]%string.

Definition _BASELINE_PORTS : list Z := [22; 23; 3389; 5985; 5986; 5900; 5901; 123; 111].

Definition is_baseline_service (name : option string) : bool :=
  let t := str_lower (str_or name "") in existsb (λ kw, contains kw t) _BASELINE_KEYWORDS.

Definition is_baseline_socket (p : ListenPort) : bool :=
  is_baseline_service (comm p) || mem (port p) _BASELINE_PORTS.

Definition non_baseline_ports (listen_ports : option (list ListenPort)) : list ListenPort :=
  filter (λ p, is_baseline_socket p = false) (default [] listen_ports).

(** The category of a service that is a workload *)
Definition workload_category (listen_ports : option (list ListenPort)) (s : ServiceUnit) : option string :=
  match unit_name s with
  | None => None
  | Some unit =>
      if String.eqb unit "" || is_baseline_service (Some unit) then None
      else
        let cat := classify unit listen_ports (unit_pid s) in
        if String.eqb cat "unknown" then None else Some cat
  end.

(** [sorted] of a set of strings *)
Definition sorted_set (l : list string) : list string := sort_str id (dedup_first l).

Definition compute_service_categories (services : option (list ServiceUnit))
    (listen_ports : option (list ListenPort)) : list string :=
  sorted_set (omap (workload_category listen_ports) (default [] services)
              ++ (detect_listen_categories (non_baseline_ports listen_ports)).*1).

(** ** The workload counter *)

Definition bump (counter : list (string * Z)) (cat : string) : list (string * Z) :=
  dict_set cat (if mem cat SINGLE_INSTANCE_CATEGORIES then 1 else default 0 (dict_get cat counter) + 1) counter.

Definition workload_category_counter (services : option (list ServiceUnit))
    (listen_ports : option (list ListenPort)) : list (string * Z) :=
  let named := foldl bump [] (omap (workload_category listen_ports) (default [] services)) in
  foldl (λ counter cat, match dict_get cat named with Some _ => counter | None => dict_set cat 1 counter end)
    named (detect_listen_categories (non_baseline_ports listen_ports)).*1.

Definition workload_services_by_category (services : option (list ServiceUnit))
    (listen_ports : option (list ListenPort)) : list (string * list string) :=
  foldl (λ by_cat s, match workload_category listen_ports s with
                     | Some cat => setdefault_append cat
                                     (str_or (display_name s) (str_or (unit_name s) "")) by_cat
                     | None => by_cat
                     end) [] (default [] services).
