(* ===== verification/InventoryMsg.v ===== *)
(** * Inventory messages: from the wire to the stored inventory, and their handler

    Models the inventory half of [src/assessment_engine/consumer/mappers.py], the wire
    schema it reads ([consumer/schemas.py], whose validation is pydantic's) and
    [consumer/handlers/inventory.py].  The device lists are stored as JSONB: a node keeps
    its identity fields always, and its layout fields only when they are known. *)

From S2P Require Import Prelude PyFloat PyText PyList Redis Sql Inbound CollectDb Wire DbRetry Handlers Devices Services.

(** ** The wire schema *)

Module BlockDevice.
Record BlockDeviceInfo := {
  name : string;
  type : string;
  size_bytes : option Z;
  fstype : option string;
  mountpoint : option string;
  parent : option string;
  id : option string;
  id_type : option string;
  partition_table : option string;
  sector_size : option Z;
  serial : option string;
  wwn : option string;
  rotational : option bool;
  part_number : option Z;
  part_start_bytes : option Z;
  part_type : option string;
  part_name : option string;
  part_flags : option (list string);
  fs_uuid : option string;
  fs_label : option string;
  block_size : option Z;
  mount_options : option (list string);
  fs_freq : option Z;
  fs_passno : option Z;
  lvm_vg : option string;
  lvm_lv : option string;
  lvm_segtype : option string;
  lvm_stripes : option Z;
  lvm_stripe_size_kib : option Z;
  raid_level : option (Z + string);
  raid_chunk_kib : option Z;
  raid_metadata : option string;
  raid_uuid : option string;
  crypt_type : option string;
}.
End BlockDevice.
Abbreviation BlockDeviceInfo := BlockDevice.BlockDeviceInfo.

Module NetAddress.
Record NetAddressInfo := {
  address : string;
  prefix : option Z;
  family : string;
  origin : option string;
}.
End NetAddress.
Abbreviation NetAddressInfo := NetAddress.NetAddressInfo.

Module Route.
Record RouteInfo := {
  dest : string;
  via : option string;
}.
End Route.
Abbreviation RouteInfo := Route.RouteInfo.

Module NetInterface.
Record NetInterfaceInfo := {
  name : string;
  id : option string;
  id_type : option string;
  kind : option string;
  speed_mbps : option Z;
  addresses : list NetAddressInfo;
  gateway : option string;
  mtu : option Z;
  dns : option (list string);
  routes : option (list RouteInfo);
  bond_mode : option string;
  vlan_id : option Z;
}.
End NetInterface.
Abbreviation NetInterfaceInfo := NetInterface.NetInterfaceInfo.

Module LvmVg.
Record LvmVgInfo := {
  name : string;
  size_bytes : option Z;
  free_bytes : option Z;
  data_percent : option float;
  metadata_percent : option float;
  vg_uuid : option string;
  extent_size_bytes : option Z;
  pv_ids : option (list string);
}.
End LvmVg.
Abbreviation LvmVgInfo := LvmVg.LvmVgInfo.

Module InvService.
Record InventoryServiceInfo := {
  unit : string;
  sub : string;
  pid : option Z;
  exe : option string;
}.
End InvService.
Abbreviation InventoryServiceInfo := InvService.InventoryServiceInfo.

Module InvPort.
Record InventoryListenPortInfo := {
  proto : string;
  addr : string;
  port : Z;
  uid : option Z;
  pid : option Z;
  comm : option string;
}.
End InvPort.
Abbreviation InventoryListenPortInfo := InvPort.InventoryListenPortInfo.

Module Boot.
Record BootInfo := {
  kernel_cmdline : option string;
  root_ref_type : option string;
  grub_install_target : option string;
}.
End Boot.
Abbreviation BootInfo := Boot.BootInfo.

Module NonblockMount.
Record NonblockMountInfo := {
  source : string;
  target : string;
  fstype : option string;
  options : option (list string);
  fs_freq : option Z;
  fs_passno : option Z;
}.
End NonblockMount.
Abbreviation NonblockMountInfo := NonblockMount.NonblockMountInfo.

Module InvInput.
Record InventoryInput := {
  envelope : Envelope;
  hostname : string;
  os_id : option string;
  os_version : option string;
  os_codename : option string;
  kernel_version : option string;
  cpu_model : option string;
  cpu_cores : option Z;
  mem_total_bytes : option Z;
  ip_external : option (list string);
  arch : option string;
  bits : option Z;
  boot_firmware : option string;
  secure_boot : option bool;
  edition : option string;
  product_name : option string;
  timezone : option string;
  rtc_utc : option bool;
  boot : option BootInfo;
  nonblock_mounts : option (list NonblockMountInfo);
  block_devices : list BlockDeviceInfo;
  net_interfaces : list NetInterfaceInfo;
  lvm_vgs : list LvmVgInfo;
  services : option (list InventoryServiceInfo);
  listen_ports : list InventoryListenPortInfo;
}.
End InvInput.
Abbreviation InventoryInput := InvInput.InventoryInput.

(** ** Nodes as JSON *)

Definition json_opt {A} (f : A → json) (o : option A) : json :=
  match o with Some x => f x | None => JNull end.

Definition json_strs (l : list string) : json := JArr (JStr <$> l).

Definition json_int_or_str (v : Z + string) : json :=
  match v with inl n => JInt n | inr s => JStr s end.

(** The keys whose value is not None *)
Definition _sparse (d : list (string * option json)) : list (string * json) :=
  omap (λ kv, (λ v, (kv.1, v)) <$> kv.2) d.

Definition service_dict (s : InventoryServiceInfo) : json := jobj [
  ("unit", JStr (InvService.unit s)); ("sub", JStr (InvService.sub s));
  ("pid", json_opt JInt (InvService.pid s)); ("exe", json_opt JStr (InvService.exe s))]%string.

Definition _svc_dicts (data : InventoryInput) : option (list json) :=
  fmap (M:=list) service_dict <$> InvInput.services data.

Definition listen_port_dict (p : InventoryListenPortInfo) : json := jobj [
  ("proto", JStr (InvPort.proto p)); ("addr", JStr (InvPort.addr p)); ("port", JInt (InvPort.port p));
  ("uid", json_opt JInt (InvPort.uid p)); ("pid", json_opt JInt (InvPort.pid p));
  ("comm", json_opt JStr (InvPort.comm p))]%string.

Definition _lp_dicts (data : InventoryInput) : list json :=
  listen_port_dict <$> InvInput.listen_ports data.

Definition _bd_layout (b : BlockDeviceInfo) : list (string * json) := _sparse [
    ("partition_table", JStr <$> BlockDevice.partition_table b);
    ("sector_size", JInt <$> BlockDevice.sector_size b);
    ("serial", JStr <$> BlockDevice.serial b);
    ("wwn", JStr <$> BlockDevice.wwn b);
    ("rotational", JBool <$> BlockDevice.rotational b);
    ("part_number", JInt <$> BlockDevice.part_number b);
    ("part_start_bytes", JInt <$> BlockDevice.part_start_bytes b);
    ("part_type", JStr <$> BlockDevice.part_type b);
    ("part_name", JStr <$> BlockDevice.part_name b);
    ("part_flags", json_strs <$> BlockDevice.part_flags b);
    ("fs_uuid", JStr <$> BlockDevice.fs_uuid b);
    ("fs_label", JStr <$> BlockDevice.fs_label b);
    ("block_size", JInt <$> BlockDevice.block_size b);
    ("mount_options", json_strs <$> BlockDevice.mount_options b);
    ("fs_freq", JInt <$> BlockDevice.fs_freq b);
    ("fs_passno", JInt <$> BlockDevice.fs_passno b);
    ("lvm_vg", JStr <$> BlockDevice.lvm_vg b);
    ("lvm_lv", JStr <$> BlockDevice.lvm_lv b);
    ("lvm_segtype", JStr <$> BlockDevice.lvm_segtype b);
    ("lvm_stripes", JInt <$> BlockDevice.lvm_stripes b);
    ("lvm_stripe_size_kib", JInt <$> BlockDevice.lvm_stripe_size_kib b);
    ("raid_level", json_int_or_str <$> BlockDevice.raid_level b);
    ("raid_chunk_kib", JInt <$> BlockDevice.raid_chunk_kib b);
    ("raid_metadata", JStr <$> BlockDevice.raid_metadata b);
    ("raid_uuid", JStr <$> BlockDevice.raid_uuid b);
    ("crypt_type", JStr <$> BlockDevice.crypt_type b)]%string.

Definition route_dict (r : RouteInfo) : json :=
  jobj [("dest", JStr (Route.dest r)); ("via", json_opt JStr (Route.via r))]%string.

Definition _ni_layout (n : NetInterfaceInfo) : list (string * json) := _sparse [
    ("mtu", JInt <$> NetInterface.mtu n);
    ("dns", json_strs <$> NetInterface.dns n);
    ("routes", match NetInterface.routes n with
               | None | Some [] => None
               | Some l => Some (JArr (route_dict <$> l))
               end);
    ("bond_mode", JStr <$> NetInterface.bond_mode n);
    ("vlan_id", JInt <$> NetInterface.vlan_id n)]%string.

Definition _vg_layout (v : LvmVgInfo) : list (string * json) := _sparse [
    ("vg_uuid", JStr <$> LvmVg.vg_uuid v);
    ("extent_size_bytes", JInt <$> LvmVg.extent_size_bytes v);
    ("pv_ids", json_strs <$> LvmVg.pv_ids v)]%string.

Definition block_device_dict (b : BlockDeviceInfo) : json := jobj ([
    ("name", JStr (BlockDevice.name b));
    ("type", JStr (BlockDevice.type b));
    ("size_bytes", json_opt JInt (BlockDevice.size_bytes b));
    ("fstype", json_opt JStr (BlockDevice.fstype b));
    ("mountpoint", json_opt JStr (BlockDevice.mountpoint b));
    ("parent", json_opt JStr (BlockDevice.parent b));
    ("id", json_opt JStr (BlockDevice.id b));
    ("id_type", json_opt JStr (BlockDevice.id_type b))]%string ++ _bd_layout b).

Definition address_dict (a : NetAddressInfo) : json := jobj ([
    ("address", JStr (NetAddress.address a));
    ("prefix", json_opt JInt (NetAddress.prefix a));
    ("family", JStr (NetAddress.family a))]%string
  ++ match NetAddress.origin a with Some o => [("origin"%string, JStr o)] | None => [] end).

Definition net_interface_dict (n : NetInterfaceInfo) : json := jobj ([
    ("name", JStr (NetInterface.name n));
    ("id", json_opt JStr (NetInterface.id n));
    ("id_type", json_opt JStr (NetInterface.id_type n));
    ("kind", json_opt JStr (NetInterface.kind n));
    ("speed_mbps", json_opt JInt (NetInterface.speed_mbps n));
    ("addresses", JArr (address_dict <$> NetInterface.addresses n));
    ("gateway", json_opt JStr (NetInterface.gateway n))]%string ++ _ni_layout n).

Definition lvm_vg_dict (v : LvmVgInfo) : json := jobj ([
    ("name", JStr (LvmVg.name v));
    ("size_bytes", json_opt JInt (LvmVg.size_bytes v));
    ("free_bytes", json_opt JInt (LvmVg.free_bytes v));
    ("data_percent", json_opt JFloat (LvmVg.data_percent v));
    ("metadata_percent", json_opt JFloat (LvmVg.metadata_percent v))]%string ++ _vg_layout v).

Definition boot_dict (b : BootInfo) : json := jobj [
    ("kernel_cmdline", json_opt JStr (Boot.kernel_cmdline b));
    ("root_ref_type", json_opt JStr (Boot.root_ref_type b));
    ("grub_install_target", json_opt JStr (Boot.grub_install_target b))]%string.

Definition nonblock_mount_dict (m : NonblockMountInfo) : json := jobj [
    ("source", JStr (NonblockMount.source m));
    ("target", JStr (NonblockMount.target m));
    ("fstype", json_opt JStr (NonblockMount.fstype m));
    ("options", json_opt json_strs (NonblockMount.options m));
    ("fs_freq", json_opt JInt (NonblockMount.fs_freq m));
    ("fs_passno", json_opt JInt (NonblockMount.fs_passno m))]%string.

(** ** The mapping *)

Definition to_inventory_create (data : InventoryInput) : Inventory.ServerInventoryCreate :=
  let env := InvInput.envelope data in
  let services := _svc_dicts data in
  let listen_ports := _lp_dicts data in {|
    Inventory.agent_id := env_agent_id env;
    Inventory.composite_id := env_composite_id env;
    Inventory.machine_id := env_machine_id env;
    Inventory.hostname := InvInput.hostname data;
    Inventory.agent_version := env_agent_version env;
    Inventory.collected_at := env_collected_at env;
    Inventory.boot_time := env_boot_time env;
    Inventory.agent_started_at := env_agent_started_at env;
    Inventory.os_family := Some (env_os_family env);
    Inventory.os_id := InvInput.os_id data;
    Inventory.os_version := InvInput.os_version data;
    Inventory.os_codename := InvInput.os_codename data;
    Inventory.kernel_version := InvInput.kernel_version data;
    Inventory.cpu_cores := InvInput.cpu_cores data;
    Inventory.cpu_model := InvInput.cpu_model data;
    Inventory.mem_total_bytes := InvInput.mem_total_bytes data;
    Inventory.block_devices := block_device_dict <$> InvInput.block_devices data;
    Inventory.net_interfaces := net_interface_dict <$> InvInput.net_interfaces data;
    Inventory.lvm_vgs := lvm_vg_dict <$> InvInput.lvm_vgs data;
    Inventory.ip_external := InvInput.ip_external data;
    Inventory.services := services;
    Inventory.listen_ports := listen_ports;
    Inventory.service_categories := compute_service_categories
      (fmap (M:=list) service_view <$> services) (Some (socket_view <$> listen_ports));
    Inventory.arch := InvInput.arch data;
    Inventory.bits := InvInput.bits data;
    Inventory.boot_firmware := InvInput.boot_firmware data;
    Inventory.secure_boot := InvInput.secure_boot data;
    Inventory.edition := InvInput.edition data;
    Inventory.product_name := InvInput.product_name data;
    Inventory.timezone := InvInput.timezone data;
    Inventory.rtc_utc := InvInput.rtc_utc data;
    Inventory.boot := boot_dict <$> InvInput.boot data;
    Inventory.nonblock_mounts := fmap (M:=list) nonblock_mount_dict <$> InvInput.nonblock_mounts data |}.

(** ** The handler *)

Definition redis_key_cache_inventory (id : Z) : string := String.append "cache:inventory:" (pretty id).

Section handler.
Context {R : Type} `{RedisClient R}.
Variable orig_class : dbapi_error → option string.

Definition store_inventory (data : InventoryInput) : eff (world R) unit :=
  let env := InvInput.envelope data in
  first ← _check_idempotent (message_id env);
  if negb (first : bool)
  then log Info (String.append "inventory duplicate skipped message_id=" (message_id env))
  else
  _ ← _log_time_invariants env;
  let dto := to_inventory_create data in
  server_id ← _db_retry orig_class (upsert_server dto);
  _ ← on_redis (safe_set (redis_key_online server_id) "1" (Some redis_ttl_online));
  _ ← on_redis (safe_delete (redis_key_cache_inventory server_id));
  log Info (String.append "inventory stored agent_id=" (env_agent_id env)).

Variable isprintable : ascii → bool.

Definition make_inventory_handler (validate : string → list validation_error + InventoryInput)
    : string → eff (world R) unit :=
  _in_message_context isprintable validate "inventory" store_inventory.
End handler.
