(* ===== verification/StoreFacts.v ===== *)
(** * Storing a metrics message under faults and interference

    What other transactions may do is [others_ok]: keep the database well-formed
    and only let it grow.  Under that, whatever the script of faults (errors before
    a statement, commits that fail after they were applied), a store that returns
    has left exactly one row per natural key. *)

From S2P Require Import Prelude PyFloat Sql SqlFacts Inbound CollectDb CollectFacts Redis DbRetry.

(** ** The retry loop, and what it leaves in the database *)

(** ** Attempts *)

Section attempts.
Context {R : Type} (orig : dbapi_error → option string).
Implicit Types w : world R.

(** Logging and sleeping touch neither the database nor Redis. *)
Definition same_stores w w' : Prop := w_redis w' = w_redis w ∧ w_db w' = w_db w.

Lemma is_permanent_run e w :
  ∃ w', _is_permanent_db_failure orig e w = (Ok (permanent e), w')
  ∧ same_stores w w' ∧ w_slept w' = w_slept w.
Proof.
  unfold _is_permanent_db_failure, permanent.
  destruct e as [| | | | | |d| | | | | | | | | | | |]; try (by eexists; repeat split).
  destruct (bool_decide _); cbn; [by eexists; repeat split|].
  destruct (negb _); cbn; by eexists; repeat split.
Qed.

Lemma attempt_run {T} (fn : eff session T) w :
  ∃ r s, with_session (result ← fn; _ ← commit; mret result) (w_db w) = (r, s)
  ∧ _db_attempt fn w = (r, World (w_redis w) s (w_log w) (w_slept w)).
Proof.
  unfold _db_attempt, on_db. destruct (with_session _ _) as [r s]. by exists r, s.
Qed.

(** How an attempt that fails ends: a permanent failure, or anything that is not
a database failure, leaves the loop at once. *)
Definition final_error (e : exn) : Prop := db_failure e = false ∨ permanent e = true.

Lemma bind_run {S A B} (m : eff S A) (k : A → eff S B) s :
  mbind k m s = match m s with (Ok a, s') => k a s' | (Raise e, s') => (Raise e, s') end.
Proof. done. Qed.

Lemma try_some_run {S A} (m : eff S A) (h : exn → eff S (option A)) s :
  try_except (r ← m; mret (Some r)) h s =
  match m s with (Ok a, s') => (Ok (Some a), s') | (Raise e, s') => h e s' end.
Proof. unfold try_except, mbind, eff_bind. by destruct (m s) as [[a|e] s']. Qed.

Section outcome.
Context {T : Type} (fn : eff session T).
(** A relation that every attempt keeps *)
Variables (P : session → Prop) (Q : T → session → Prop).
Hypothesis attempt_ok : ∀ s, P s →
  match with_session (result ← fn; _ ← commit; mret result) s with
  | (Ok a, s') => Q a s'
  | (Raise _, s') => P s'
  end.

Definition retry_post (slept : list Z) (bounds : list Z) (w : world R)
  (out : result T * world R) : Prop :=
  w_redis out.2 = w_redis w
  ∧ ∃ k, w_slept out.2 = slept ++ take k bounds ∧ (k <= length bounds)%nat
  ∧ match out.1 with
  | Ok a => Q a (w_db out.2)
  | Raise e => P (w_db out.2) ∧ (final_error e ∨ k = length bounds)
  end.

Lemma last_attempt_post w :
  P (w_db w) → retry_post (w_slept w) [] w (last_attempt orig fn w).
Proof.
  intros HP. unfold last_attempt, try_except.
  destruct (attempt_run fn w) as (r & s & Hs & ->).
  pose proof (attempt_ok _ HP) as H. rewrite Hs in H.
  destruct r as [a|e]; cbn.
  { split; [done|]. exists 0%nat. by rewrite app_nil_r. }
  destruct (db_failure e) eqn:He; cbn.
  2: { split; [done|]. exists 0%nat. rewrite app_nil_r. split; [done|]. split; [done|].
  split; [done|by right]. }
  destruct (is_permanent_run e (World (w_redis w) s (w_log w) (w_slept w)))
  as (w1 & H1 & [Hr Hd] & Hsl).
  rewrite (bind_ok _ _ _ _ _ H1). cbn in *. rewrite <- Hd in H.
  destruct (permanent e), (_describe_db_failure orig e); cbn;
  (split; [done|exists 0%nat; rewrite app_nil_r; split; [done|split; [done|]]]);
  (split; [exact H|by right]).
Qed.

Lemma retry_loop_post attempts w :
  P (w_db w) →
  retry_post (w_slept w) ((λ a, _RETRY_BACKOFF_BASE_SEC ^ a) <$> attempts) w
  (retry_loop orig attempts fn w).
Proof.
  revert w. induction attempts as [|a attempts IH]; intros w HP; [by apply last_attempt_post|].
  cbn [retry_loop].
  destruct (attempt_run fn w) as (r & s & Hs & Ha).
  pose proof (attempt_ok _ HP) as H. rewrite Hs in H.
  rewrite bind_run, try_some_run, Ha. destruct r as [x|e]; cbn.
  { split; [done|]. exists 0%nat. rewrite app_nil_r. split; [done|]. split; [lia|done]. }
  set (w1 := World (w_redis w) s (w_log w) (w_slept w)).
  destruct (db_failure e) eqn:He; cbn.
  2: { split; [done|]. exists 0%nat. rewrite app_nil_r. split; [done|].
  split; [lia|]. split; [done|]. left. by left. }
  destruct (is_permanent_run e w1) as (w2 & H2 & [Hr2 Hd2] & Hs2).
  rewrite (bind_ok _ _ _ _ _ H2).
  destruct (permanent e) eqn:Hp; cbn.
  { split; [done|]. exists 0%nat. rewrite app_nil_r. split; [done|].
  split; [lia|]. split; [cbn; by rewrite Hd2|]. left. by right. }
  destruct (_describe_db_failure orig e) as [label meta]. cbn.
  unfold log, sleep_uniform, mbind, eff_bind, mret, eff_ret; cbn.
  match goal with |- context [retry_loop orig attempts fn ?x] => set (w3 := x) end.
  destruct (IH w3) as (Hr & k & Hsl & Hk & Hout).
  { subst w3. cbn. by rewrite Hd2. }
  split; [rewrite Hr; subst w3; cbn; by rewrite Hr2|].
  exists (S k). split; [|split; [cbn; lia|]].
  - rewrite Hsl. subst w3. cbn. by rewrite Hs2, <- app_assoc.
  - destruct (fst _); [done|]. destruct Hout as [? [?| ->]]; auto.
Qed.

Lemma db_retry_post w :
  P (w_db w) → retry_post (w_slept w) [2; 4] w (_db_retry orig fn w).
Proof. apply (retry_loop_post [1; 2]). Qed.
End outcome.
End attempts.

(** ** The database alone decides

    What a retried program returns, and the database it leaves, depend on the
    database session only: not on Redis, the log or the waits. *)

Fixpoint retry_db {T} (attempts : nat) (fn : eff session T) (s : session) : result T * session :=
  match with_session (result ← fn; _ ← commit; mret result) s with
  | (Ok a, s') => (Ok a, s')
  | (Raise e, s') =>
      match attempts with
      | S n => if db_failure e && negb (permanent e) then retry_db n fn s' else (Raise e, s')
      | O => (Raise e, s')
      end
  end.

Section pure.
Context {R : Type} (orig : dbapi_error → option string) {T : Type} (fn : eff session T).
Implicit Types w : world R.

Local Ltac same_world := eexists; split; [reflexivity|split; reflexivity].

Lemma last_attempt_pure w :
  ∃ w', last_attempt orig fn w = (fst (retry_db 0 fn (w_db w)), w')
  ∧ w_db w' = snd (retry_db 0 fn (w_db w)) ∧ w_redis w' = w_redis w.
Proof.
  unfold last_attempt, try_except. destruct (attempt_run fn w) as (r & s & Hs & ->).
  cbn [retry_db]. rewrite Hs. destruct r as [a|e]; [same_world|].
  destruct (db_failure e); [|same_world].
  destruct (is_permanent_run orig e (World (w_redis w) s (w_log w) (w_slept w)))
  as (w1 & H1 & [Hr Hd] & _).
  rewrite (bind_ok _ _ _ _ _ H1).
  destruct (permanent e), (_describe_db_failure orig e); cbn; eexists; (split; [reflexivity|]); cbn;
  by rewrite Hd, Hr.
Qed.

Lemma retry_loop_pure attempts w :
  ∃ w', retry_loop orig attempts fn w = (fst (retry_db (length attempts) fn (w_db w)), w')
  ∧ w_db w' = snd (retry_db (length attempts) fn (w_db w)) ∧ w_redis w' = w_redis w.
Proof.
  revert w. induction attempts as [|a attempts IH]; intros w; [apply last_attempt_pure|].
  cbn [retry_loop length retry_db]. destruct (attempt_run fn w) as (r & s & Hs & Ha).
  rewrite bind_run, try_some_run, Ha, Hs. destruct r as [x|e]; [same_world|].
  destruct (db_failure e) eqn:He; [|same_world].
  destruct (is_permanent_run orig e (World (w_redis w) s (w_log w) (w_slept w)))
  as (w1 & H1 & [Hr Hd] & _).
  rewrite (bind_ok _ _ _ _ _ H1). destruct (permanent e); cbn [negb andb].
  { exists w1. by rewrite Hd, Hr. }
  destruct (_describe_db_failure orig e) as [label meta].
  unfold log, sleep_uniform, mbind, eff_bind, mret, eff_ret; cbn.
  match goal with |- context [retry_loop orig attempts fn ?x] => set (w3 := x) end.
  destruct (IH w3) as (w' & H & Hd' & Hr'). subst w3. cbn in *.
  rewrite Hd in H, Hd'. rewrite Hd. exists w'. split; [exact H|]. split; [exact Hd'|].
  by rewrite Hr', Hr.
Qed.

Lemma db_retry_pure w :
  ∃ w', _db_retry orig fn w = (fst (retry_db 2 fn (w_db w)), w')
  ∧ w_db w' = snd (retry_db 2 fn (w_db w)) ∧ w_redis w' = w_redis w.
Proof. apply (retry_loop_pure [1; 2]). Qed.
End pure.

(** ** What the operations of a message keep *)

Record others_ok (d d' : db) : Prop := {
  oo_wf : wf d → wf d';
  oo_grows : grows d d';
}.

Lemma others_ok_refl d : others_ok d d.
Proof. by split. Qed.

(** A property of the database that growth keeps *)
Definition mono (F : db → Prop) : Prop := ∀ d d', F d → grows d d' → F d'.

Lemma mono_and F G : mono F → mono G → mono (λ d, F d ∧ G d).
Proof. intros HF HG d d' [] ?. split; [by eapply HF|by eapply HG]. Qed.

Lemma mono_grows d0 : mono (grows d0).
Proof. intros d d' ??. by etrans. Qed.

Lemma respects_inv d0 s :
  respects others_ok s → sound d0 (committed s) → sound d0 (current s) →
  inv_session (sound d0) s.
Proof.
  intros Hr Hc Hv. split; [done|done|]. eapply Forall_impl; [exact Hr|].
  cbn. intros st H d [W G]. split; [by apply H|by etrans; [|apply H]].
Qed.

Abbreviation good := (λ F d, wf d ∧ F d).

Section stores.
Variable d0 : db.

(** ** One attempt *)

Definition attempt_state (s : session) : Prop :=
  respects others_ok s ∧ sound d0 (committed s).

Lemma attempt_post {T} (fn : eff session T) (Q : T → db → Prop) :
  keeps (sound d0) fn →
  triple others_ok (good (grows d0)) fn (λ a, good (Q a)) →
  (∀ a, mono (Q a)) →
  ∀ s, attempt_state s →
  match with_session (result ← fn; _ ← commit; mret result) s with
  | (Ok a, s') => respects others_ok s' ∧ sound d0 (committed s') ∧ Q a (committed s')
  | (Raise _, s') => attempt_state s'
  end.
Proof.
  intros Hk Ht Hm [c v l] [Hr Hc]. unfold with_session, mbind, eff_bind; cbn in *.
  set (s := {| committed := c; current := c; script := l |}).
  assert (inv_session (sound d0) s) as HI by by apply respects_inv.
  destruct (Ht s Hr Hc) as [Hr1 HQ]. apply Hk in HI.
  destruct (fn s) as [[a|e] s1]; cbn in *; [|split; [exact Hr1|exact (inv_committed _ _ HI)]].
  destruct HI as [Hc1 Hv1 _]. unfold commit.
  assert (∀ d d', grows d0 d → others_ok d d' → grows d0 d') as Hg
  by (intros d d' ? [??]; by etrans).
  assert (others_ok (committed s1) (st_others (default quiet (head (script s1))) (committed s1))
  ∧ others_ok (current s1) (st_others (default quiet (head (script s1))) (current s1))
  ∧ Forall (λ st, ∀ d, others_ok d (st_others st d)) (tail (script s1))) as (Oc & Ov & Ol).
  { unfold respects in Hr1. destruct (script s1) as [|st l1]; cbn.
  - by split; [apply others_ok_refl|split; [apply others_ok_refl|]].
  - apply Forall_cons in Hr1 as [??]. auto. }
  assert (∀ d d', sound d0 d → others_ok d d' → sound d0 d') as Hs.
  { intros d d' [W G] [Hw Hgr]. split; [auto|by etrans]. }
  destruct (st_fault _); cbn.
  - split; [exact Ol|]. cbn.
  destruct (st_applied _); [exact (Hs _ _ Hv1 Ov)|exact (Hs _ _ Hc1 Oc)].
  - split; [exact Ol|]. split; [exact (Hs _ _ Hv1 Ov)|].
  exact (Hm a _ _ (proj2 HQ) (oo_grows _ _ Ov)).
Qed.

(** ** Programs whose results grow with the database *)

Lemma stable_good F : mono F → stable others_ok (good F).
Proof. intros HF d d' [W H] [Hw Hg]. split; [auto|by eapply HF]. Qed.

Lemma triple_stmt {A} F (q : stmt A) (G : A → db → Prop) :
  mono F → stmt_ok q → (∀ d a d', wf d → F d → q d = Ok (a, d') → G a d') →
  triple others_ok (good F) (execute q) (λ a, good (λ d, F d ∧ G a d)).
Proof.
  intros HF Hq HG. apply triple_execute; [by apply stable_good|].
  intros d a d' [W H] E. destruct (Hq _ _ _ W E) as [W' G']. split; [done|]. eauto.
Qed.

Definition present (m : model) (key : list string) (r : row) (d : db) : Prop :=
  existsb (same_key key r) (tables d m) = true.

Lemma present_mono m key r : series_key m ≠ None → mono (present m key r).
Proof.
  unfold present. intros Hm d d' H G. apply existsb_exists in H as (x & Hx & E).
  apply existsb_exists. exists x. split; [|done].
  apply list_elem_of_In. eapply g_series; [done|done|]. by apply list_elem_of_In.
Qed.

(** A server with this agent and this id *)
Definition has_server (agent : string) (sid : Z) (d : db) : Prop :=
  ∃ r, r ∈ tables d ServerInventory ∧ col r "id" = VInt sid ∧ col r "agent_id" = VStr agent.

Lemma has_server_mono agent sid : mono (has_server agent sid).
Proof.
  intros d d' (r & Hr & E1 & E2) G. destruct (g_servers _ _ G r Hr) as (r' & Hr' & E3 & E4).
  exists r'. by rewrite E3, E4.
Qed.

(** ** Registering the server *)

Lemma find_server_post F agent :
  mono F →
  triple others_ok (good F) (find_server_id agent)
  (λ o, good (λ d, F d ∧ match o with Some sid => has_server agent sid d | None => True end)).
Proof.
  intros HF. unfold find_server_id.
  eapply triple_bind.
  { apply (triple_stmt F _ (λ ids d, ∀ v, v ∈ ids →
    ∃ r, r ∈ tables d ServerInventory ∧ col r "id" = v ∧ col r "agent_id" = VStr agent));
    [done|apply select_ok|].
  intros d a d' _ _ [= <- <-] v Hv. apply list_elem_of_fmap in Hv as (r & -> & Hr).
  unfold rows_where in Hr. apply list_elem_of_filter in Hr as [E Hr].
  apply bool_decide_eq_true in E. eauto. }
  intros ids. eapply triple_bind.
  { apply (triple_lift _ _ _ (λ o, good (λ d, F d ∧
    match o with
    | Some v => ∃ r, r ∈ tables d ServerInventory ∧ col r "id" = v
                  ∧ col r "agent_id" = VStr agent
    | None => True end))).
  intros o d E (W & H & Hids). split; [done|]. split; [done|].
  destruct ids as [|v [|]]; cbn in E; try done; injection E as <-; [exact I|].
  apply Hids. set_solver. }
  intros o. apply triple_ret. intros d (W & H & Ho). split; [done|]. split; [done|].
  destruct o as [[]|]; try done.
Qed.

Lemma placeholder_post F data :
  mono F →
  triple others_ok (good F) (_insert_placeholder_server data)
  (λ o, good (λ d, F d ∧
     match o with Some sid => has_server (Inventory.agent_id data) sid d | None => True end)).
Proof.
  intros HF. apply triple_stmt; [done| |].
  - apply insert_server_ignore_ok; [apply inventory_row_id|rewrite inventory_row_agent; eauto].
  - intros d o d' W H E. unfold insert_server_ignore in E.
  destruct (negb _); [done|]. destruct (existsb _ _); injection E as <- <-; [done|].
  eexists. split; [rewrite tables_set_same; apply elem_of_app; right; apply list_elem_of_here|].
  rewrite col_union_none by apply inventory_row_id.
  by rewrite generated_id, (col_union_some _ _ _ _ (inventory_row_agent data)).
Qed.

Lemma ensure_server_post F agent data :
  mono F → Inventory.agent_id data = agent →
  triple others_ok (good F) (ensure_server_id agent data)
  (λ r, good (λ d, F d ∧ has_server agent r.1 d)).
Proof.
  intros HF <-. unfold ensure_server_id.
  eapply triple_bind; [by apply find_server_post|]. intros [sid|].
  { by apply triple_ret. }
  eapply triple_bind.
  { eapply triple_pre; [apply (placeholder_post F data HF)|].
  intros d (W & H & _). by split. }
  intros [sid|].
  { by apply triple_ret. }
  eapply triple_bind.
  { eapply triple_pre; [apply (find_server_post F _ HF)|].
  intros d (W & H & _). by split. }
  intros [sid|]; [|apply triple_raise].
  by apply triple_ret.
Qed.

(** ** Recording the series *)

(** The rows [_insert_child] sends for a list of entries *)
Definition child_rows (sid : Z) (data : Metric.ServerMetricCreate)
  (entries : list (list (string * sqlval))) (hook : row → row) : list row :=
  hook <$> (child_row sid (Metric.collected_at data) <$> entries).

Definition all_present (m : model) (rows : list row) (d : db) : Prop :=
  ∀ key r, series_key m = Some key → r ∈ rows → present m key r d.

Lemma all_present_mono m rows : mono (all_present m rows).
Proof.
  intros d d' H G key r Hk Hr. eapply present_mono; [congruence|by apply H|done].
Qed.

Lemma insert_child_post F m sid data entries hook :
  mono F →
  triple others_ok (good F) (_insert_child m sid data entries hook)
  (λ _, good (λ d, F d ∧ all_present m (child_rows sid data entries hook) d)).
Proof.
  intros HF. unfold _insert_child. destruct entries as [|e es].
  { apply triple_ret. intros d [W H]. split; [done|]. split; [done|]. by intros key r _ Hr%not_elem_of_nil. }
  destruct (_NATURAL_KEYS m) as [key|e'] eqn:Hk; [|by intros s Hs HP].
  apply natural_key_series in Hk.
  intros s Hs HP.
  refine (triple_stmt F (insert_ignore m key _) (λ _ d, all_present m _ d) HF
  (insert_ignore_ok m key _ Hk) _ s Hs HP).
  intros d n d' W H E key' r Hk' Hr. replace key' with key by congruence.
  apply insert_ignore_inserted in E; [|by destruct m].
  by apply (ins_present _ _ _ _ _ _ E).
Qed.

Lemma insert_scalar_post F sid data :
  mono F →
  triple others_ok (good F) (_insert_scalar_metrics sid data)
  (λ _, good (λ d, F d ∧ all_present ServerMetrics [metric_row sid data] d)).
Proof.
  intros HF. apply triple_stmt; [done|by apply insert_ignore_ok|].
  intros d n d' W H E key r [= <-] Hr.
  apply insert_ignore_inserted in E; [|done]. by apply (ins_present _ _ _ _ _ _ E).
Qed.

(** Every row of a message *)
Definition message_rows (sid : Z) (data : Metric.ServerMetricCreate) (m : model) : list row :=
  match m with
  | ServerMetrics => [metric_row sid data]
  | ServerDiskIo => child_rows sid data (DiskIo.disk_io_vars <$> Metric.disk_io data) id
  | ServerNetIo => child_rows sid data (NetIo.net_io_vars <$> Metric.net_io data) id
  | ServerFilesystem =>
    child_rows sid data (Filesystem.filesystem_vars <$> Metric.filesystems data) id
  | ServerCpuCore => child_rows sid data (CpuCore.cpu_core_vars <$> Metric.cpu_per_core data) id
  | ServerPressure => child_rows sid data (Pressure.pressure_vars <$> Metric.pressure data) id
  | ServerDiskError =>
    child_rows sid data (DiskError.disk_error_vars <$> Metric.disk_errors data) member_hook
  | _ => []
  end.

Definition message_present (sid : Z) (data : Metric.ServerMetricCreate) (d : db) : Prop :=
  ∀ m, all_present m (message_rows sid data m) d.

Lemma message_present_mono sid data : mono (message_present sid data).
Proof. intros d d' H G m. eapply all_present_mono; [apply H|done]. Qed.

Lemma record_metrics_post F sid data :
  mono F →
  triple others_ok (good F) (record_metrics sid data)
  (λ _, good (λ d, F d ∧ message_present sid data d)).
Proof.
  intros HF. unfold record_metrics.
  eapply triple_bind; [by apply insert_scalar_post|]. intros n1; cbn beta.
  do 6 (eapply triple_bind;
  [apply insert_child_post; repeat apply mono_and; auto using all_present_mono|];
  intros ?; cbn beta).
  apply triple_ret. intros d (W & (((((((HF' & H1) & H2) & H3) & H4) & H5) & H6) & H7)).
  split; [done|]. split; [done|]. intros []; try done; by intros key r _ Hr%not_elem_of_nil.
Qed.
End stores.
