(* ===== verification/CollectRuns.v ===== *)
(** * Runs of the collect repository without faults

    What [record_metrics] and [upsert_server] compute when no statement fails and
    no other transaction interferes: the functional reading of the repository. *)

From S2P Require Import Prelude PyFloat Sql SqlFacts Inbound BootTime CollectDb CollectFacts StoreFacts.

(** ** Rows of a message *)

(** Every row a metrics message sends names the server and has a complete key. *)
Lemma message_rows_key sid data m key r :
  series_key m = Some key → r ∈ message_rows sid data m →
  key_not_null key r = true ∧ col r "server_id" = VInt sid.
Proof.
  assert (∀ (entries : list (list (string * sqlval))) hook,
    (∀ e, e ∈ entries →
      key_not_null key (hook (child_row sid (Metric.collected_at data) e)) = true ∧
      col (hook (child_row sid (Metric.collected_at data) e)) "server_id" = VInt sid) →
    r ∈ child_rows sid data entries hook →
    key_not_null key r = true ∧ col r "server_id" = VInt sid) as H.
  { intros entries hook He Hr. apply list_elem_of_fmap in Hr as (x & -> & Hx).
    apply list_elem_of_fmap in Hx as (e & -> & Hx). by apply He. }
  intros Hk Hr. destruct m; cbn in Hk; try done; injection Hk as <-; cbn in Hr;
    try (by apply not_elem_of_nil in Hr).
  { apply list_elem_of_singleton in Hr as ->. split; vm_compute; reflexivity. }
  all: eapply H; [|exact Hr]; intros e He; apply list_elem_of_fmap in He as (x & -> & _).
  1-5: split; vm_compute; reflexivity.
  unfold member_hook. destruct x as [? ? ? [mb|] ?]; split; vm_compute; reflexivity.
Qed.

(** ** One child table *)

Lemma insert_child_run m sid data entries hook c d key :
  _NATURAL_KEYS m = Ok key → server_exists d (VInt sid) = true →
  (∀ r, r ∈ child_rows sid data entries hook →
     key_not_null key r = true ∧ col r "server_id" = VInt sid) →
  ∃ n d', _insert_child m sid data entries hook (quiet_session c d) = (Ok n, quiet_session c d')
    ∧ inserted m key (child_rows sid data entries hook) d n d'.
Proof.
  intros Hk Hs Hr. unfold _insert_child.
  assert (m ≠ ServerInventory) as Hm by by destruct m.
  destruct (insert_ignore_total m key (child_rows sid data entries hook) d) as (n & d' & E).
  { done. } { intros r H. destruct (Hr r H) as [? ->]. done. }
  destruct entries as [|e es].
  - exists 0, d. split; [done|]. cbn in E. injection E as <- <-.
    by apply insert_ignore_inserted.
  - exists n, d'. rewrite Hk. split; [|by apply insert_ignore_inserted].
    unfold mbind at 1, eff_bind, lift. by apply execute_quiet.
Qed.

Lemma insert_child_noop m sid data entries hook c d key :
  _NATURAL_KEYS m = Ok key →
  (∀ r, r ∈ child_rows sid data entries hook → key_not_null key r = true
     ∧ existsb (same_key key r) (tables d m) = true) →
  _insert_child m sid data entries hook (quiet_session c d) = (Ok 0, quiet_session c d).
Proof.
  intros Hk Hr. unfold _insert_child. destruct entries as [|e es]; [done|].
  rewrite Hk. unfold mbind at 1, eff_bind, lift.
  apply execute_quiet. by apply insert_ignore_noop.
Qed.

(** ** A whole message *)

Definition series_models : list model :=
  [ServerMetrics; ServerDiskIo; ServerNetIo; ServerFilesystem; ServerCpuCore; ServerPressure;
   ServerDiskError].

(** The count a result reports for a table *)
Definition reported (r : MetricInsertResult) (m : model) : Z :=
  match m with
  | ServerMetrics => metrics r | ServerDiskIo => disk_io r | ServerNetIo => net_io r
  | ServerFilesystem => filesystem r | ServerCpuCore => cpu_core r
  | ServerPressure => pressure r | ServerDiskError => disk_error r
  | _ => 0
  end.

(** What recording a message did: table by table a bulk insert, nothing else *)
Record recorded (sid : Z) (data : Metric.ServerMetricCreate) (d : db) (r : MetricInsertResult)
    (d' : db) : Prop := {
  rec_table m key : series_key m = Some key → ∃ fresh,
    tables d' m = tables d m ++ fresh ∧ reported r m = Z.of_nat (length fresh)
    ∧ fresh `sublist_of` message_rows sid data m;
  rec_present m key x : series_key m = Some key → x ∈ message_rows sid data m →
    existsb (same_key key x) (tables d' m) = true;
  rec_inventory : tables d' ServerInventory = tables d ServerInventory;
  rec_tasks : tables d' Task = tables d Task;
}.

Ltac child_step m :=
  match goal with
  | Hs : server_exists ?d (VInt ?sid) = true
    |- context [_insert_child m ?sid ?data ?es ?h (quiet_session ?c ?d)] =>
      let n := fresh "n" in let d' := fresh "d" in let E := fresh "E" in let I := fresh "I" in
      destruct (insert_child_run m sid data es h c d _ eq_refl Hs
        (λ r Hr, message_rows_key sid data m _ r eq_refl Hr)) as (n & d' & E & I);
      rewrite E; cbn beta iota;
      assert (server_exists d' (VInt sid) = true)
        by (rewrite (server_exists_ext d d') by (apply (ins_frame _ _ _ _ _ _ I); done); exact Hs);
      clear E Hs
  end.

(** Follows a table back through the inserts into the other tables. *)
Ltac other_tables :=
  repeat match goal with
  | I : inserted ?m _ _ _ _ ?d' |- context [tables ?d' ?m'] =>
      rewrite (ins_frame _ _ _ _ _ _ I m') by done
  end.

Lemma record_metrics_run sid data c d :
  server_exists d (VInt sid) = true →
  ∃ r d', record_metrics sid data (quiet_session c d) = (Ok r, quiet_session c d')
    ∧ recorded sid data d r d'.
Proof.
  intros Hs. unfold record_metrics, _insert_scalar_metrics.
  destruct (insert_ignore_total ServerMetrics ["server_id"; "collected_at"]%string
    [metric_row sid data] d) as (n0 & d1 & E0); [done| |].
  { intros r Hr. destruct (message_rows_key sid data ServerMetrics _ r eq_refl Hr) as [? ->]. done. }
  rewrite (bind_ok _ _ _ _ _ (execute_quiet _ c _ _ _ E0)).
  apply insert_ignore_inserted in E0 as I0; [|done].
  assert (server_exists d1 (VInt sid) = true) as Hs1.
  { rewrite (server_exists_ext d d1); [done|]. by apply (ins_frame _ _ _ _ _ _ I0). }
  clear E0 Hs. unfold mbind, eff_bind.
  child_step ServerDiskIo. child_step ServerNetIo. child_step ServerFilesystem.
  child_step ServerCpuCore. child_step ServerPressure. child_step ServerDiskError.
  eexists _, _. split; [done|]. split.
  - intros m key Hk. destruct m; cbn in Hk; try done; cbn [reported]; other_tables;
      try match goal with
      | I : inserted ?m _ _ ?d _ ?d' |- context [tables ?d' ?m] =>
          destruct (ins_fresh _ _ _ _ _ _ I) as (f & -> & -> & Hf); exists f; other_tables; done
      end.
    exists []. rewrite app_nil_r. split; [done|]. split; [done|]. apply sublist_nil_l.
  - intros m key x Hk Hx. destruct m; cbn in Hk; try done; injection Hk as <-; other_tables;
      try match goal with
      | I : inserted ?m _ _ _ _ ?d' |- context [tables ?d' ?m] =>
          exact (proj2 (ins_present _ _ _ _ _ _ I x Hx))
      end.
    by apply not_elem_of_nil in Hx.
  - by other_tables.
  - by other_tables.
Qed.

(** A message whose rows are all there leaves the database as it is. *)
Lemma record_metrics_noop sid data c d :
  (∀ m key x, series_key m = Some key → x ∈ message_rows sid data m →
     existsb (same_key key x) (tables d m) = true) →
  record_metrics sid data (quiet_session c d) =
  (Ok {| metrics := 0; disk_io := 0; net_io := 0; filesystem := 0; cpu_core := 0; pressure := 0;
         disk_error := 0 |}, quiet_session c d).
Proof.
  intros H. unfold record_metrics, _insert_scalar_metrics.
  assert (∀ m key x, series_key m = Some key → x ∈ message_rows sid data m →
    key_not_null key x = true ∧ existsb (same_key key x) (tables d m) = true) as H'.
  { intros m key x Hk Hx. split; [|by apply H]. by eapply message_rows_key. }
  rewrite (bind_ok _ _ _ _ _ (execute_quiet _ c _ _ _
    (insert_ignore_noop _ _ _ _ (λ x Hx, H' ServerMetrics _ x eq_refl Hx)))).
  unfold mbind, eff_bind.
  repeat match goal with
  | |- context [_insert_child ?m sid data ?es ?h (quiet_session c d)] =>
      rewrite (insert_child_noop m sid data es h c d _ eq_refl (λ x Hx, H' m _ x eq_refl Hx));
      cbn beta iota
  end.
  done.
Qed.

(** ** Inventory upserts *)

Definition agent_rows (agent : string) (d : db) : list row :=
  rows_where ServerInventory (λ r, bool_decide (col r "agent_id" = VStr agent)) d.

Lemma agent_row_in agent d r :
  r ∈ agent_rows agent d ↔ r ∈ tables d ServerInventory ∧ col r "agent_id" = VStr agent.
Proof. unfold agent_rows, rows_where. rewrite list_elem_of_filter, bool_decide_eq_true. tauto. Qed.

Lemma agent_key_vals agent (r : row) :
  col r "agent_id" = VStr agent ↔ key_vals ["agent_id"%string] r = [VStr agent].
Proof. cbn. split; [by intros ->|by intros [=]]. Qed.

(** The agent key leaves at most one row. *)
Lemma agent_rows_unique agent d r :
  wf d → r ∈ tables d ServerInventory → col r "agent_id" = VStr agent →
  head (agent_rows agent d) = Some r.
Proof.
  intros W Hr Ha. assert (r ∈ agent_rows agent d) as H by by apply agent_row_in.
  destruct (agent_rows agent d) as [|x l] eqn:E; [by apply not_elem_of_nil in H|]. cbn. f_equal.
  assert (x ∈ agent_rows agent d) as Hx by (rewrite E; apply list_elem_of_here).
  apply agent_row_in in Hx as [Hx Hxa].
  eapply keyed_inj; [apply wf_agents, W|done|done|]. apply same_key_iff. cbn. by rewrite Ha, Hxa.
Qed.

Definition history_row (sid : Z) (data : Inventory.ServerInventoryCreate) : row :=
  dict ([("server_id", VInt sid); ("collected_at", VTime (Inventory.collected_at data))]%string
        ++ inventory_values data).

(** A row of the history that is of this server and this collection time *)
Definition history_of (sid : Z) (data : Inventory.ServerInventoryCreate) (x : row) : Prop :=
  col x "server_id" = VInt sid ∧ col x "collected_at" = VTime (Inventory.collected_at data).

(** What an upsert left of the inventory *)
Record upserted (data : Inventory.ServerInventoryCreate) (d : db) (sid : Z) (d' : db) : Prop := {
  up_row : ∃ r, r ∈ tables d' ServerInventory ∧ col r "id" = VInt sid
    ∧ ∀ c v, _inventory_row data !! c = Some v → col r c = v;
  up_same prev : prev ∈ tables d ServerInventory →
    col prev "agent_id" = VStr (Inventory.agent_id data) → col prev "id" = VInt sid;
  up_others x : x ∈ tables d ServerInventory →
    col x "agent_id" ≠ VStr (Inventory.agent_id data) → x ∈ tables d' ServerInventory;
  up_frame m : m ≠ ServerInventory → m ≠ ServerInventoryHistory → tables d' m = tables d m;
  up_history_same prev : prev ∈ tables d ServerInventory →
    col prev "agent_id" = VStr (Inventory.agent_id data) → _inventory_changed prev data = false →
    tables d' ServerInventoryHistory = tables d ServerInventoryHistory;
  up_history_new :
    (∀ prev, prev ∈ tables d ServerInventory →
       col prev "agent_id" = VStr (Inventory.agent_id data) → _inventory_changed prev data = true) →
    (∃ x, x ∈ tables d ServerInventoryHistory ∧ history_of sid data x)
      ∧ tables d' ServerInventoryHistory = tables d ServerInventoryHistory
    ∨ (∀ x, x ∈ tables d ServerInventoryHistory → ¬ history_of sid data x)
      ∧ tables d' ServerInventoryHistory = tables d ServerInventoryHistory ++ [history_row sid data];
}.

Lemma same_agent_iff data x :
  same_key ["agent_id"%string] (_inventory_row data) x = true
  ↔ col x "agent_id" = VStr (Inventory.agent_id data).
Proof.
  rewrite same_key_iff. cbn.
  assert (col (_inventory_row data) "agent_id" = VStr (Inventory.agent_id data)) as ->.
  { unfold col. by rewrite inventory_row_agent. }
  split; [by intros [=]|by intros ->].
Qed.

Lemma update_set_lookup data c v :
  _inventory_row data !! c = Some v → c ≠ "agent_id"%string →
  base.delete "agent_id"%string (_inventory_row data) !! c = Some v.
Proof. intros H Hc. by rewrite lookup_delete_ne. Qed.

(** The statement itself *)
Lemma upsert_row_run data d :
  wf d → ∃ sid d1,
    upsert_server_row ["agent_id"%string] (_inventory_row data)
      (base.delete "agent_id"%string (_inventory_row data)) d = Ok (sid, d1)
    ∧ (∃ r, r ∈ tables d1 ServerInventory ∧ col r "id" = VInt sid
         ∧ ∀ c v, _inventory_row data !! c = Some v → col r c = v)
    ∧ (∀ prev, prev ∈ tables d ServerInventory →
         col prev "agent_id" = VStr (Inventory.agent_id data) → col prev "id" = VInt sid)
    ∧ (∀ x, x ∈ tables d ServerInventory →
         col x "agent_id" ≠ VStr (Inventory.agent_id data) → x ∈ tables d1 ServerInventory)
    ∧ (∀ m, m ≠ ServerInventory → tables d1 m = tables d m).
Proof.
  intros W. unfold upsert_server_row.
  assert (key_not_null ["agent_id"%string] (_inventory_row data) = true) as ->.
  { unfold key_not_null, col; cbn [forallb]. by rewrite inventory_row_agent. }
  cbn [negb]. destruct (find _ _) as [old|] eqn:Hf.
  - apply find_some in Hf as [Hin Hsame]. apply list_elem_of_In in Hin.
    apply same_agent_iff in Hsame as Hag.
    pose proof (wf_ids_below _ W) as Hb. rewrite Forall_forall in Hb.
    destruct (Hb old Hin) as (sid & Hid & _). rewrite Hid.
    eexists sid, _. split; [done|]. rewrite tables_set_same.
    split; [|split; [|split]].
    + eexists. split; [apply list_elem_of_fmap_2; exact Hin|]. rewrite Hsame.
      destruct (inventory_update_ok data) as [Hu1 Hu2].
      split; [by rewrite col_union_none|]. intros c v Hc.
      destruct (decide (c = "agent_id"%string)) as [->|Hne].
      * rewrite col_union_none, Hag by done. rewrite inventory_row_agent in Hc. congruence.
      * by eapply col_union_some, update_set_lookup.
    + intros prev Hp Ha. replace prev with old; [done|].
      eapply keyed_inj; [apply wf_agents, W|done|done|].
      apply same_key_iff. cbn. by rewrite Hag, Ha.
    + intros x Hx Ha. apply list_elem_of_fmap. exists x. split; [|done].
      destruct (same_key _ _ x) eqn:E; [|done]. by apply same_agent_iff in E.
    + intros m Hm. by rewrite tables_set_other.
  - eexists _, _. split; [done|]. rewrite tables_set_same.
    assert (∀ x, x ∈ tables d ServerInventory →
      col x "agent_id" ≠ VStr (Inventory.agent_id data)) as Hno.
    { intros x Hx Ha%same_agent_iff. apply list_elem_of_In in Hx.
      by rewrite (find_none _ _ Hf x Hx) in Ha. }
    split; [|split; [|split]].
    + eexists. split; [apply elem_of_app; right; apply list_elem_of_here|].
      split; [rewrite col_union_none by apply inventory_row_id; apply generated_id|].
      intros c v Hc. by apply col_union_some.
    + intros prev Hp Ha. by destruct (Hno prev Hp).
    + intros x Hx _. apply elem_of_app. by left.
    + intros m Hm. by rewrite tables_set_other.
Qed.

Lemma history_row_key sid data :
  key_not_null ["server_id"; "collected_at"]%string (history_row sid data) = true
  ∧ col (history_row sid data) "server_id" = VInt sid
  ∧ col (history_row sid data) "collected_at" = VTime (Inventory.collected_at data).
Proof. split; [|split]; vm_compute; reflexivity. Qed.

Lemma same_history_iff sid data x :
  same_key ["server_id"; "collected_at"]%string (history_row sid data) x = true ↔ history_of sid data x.
Proof.
  rewrite same_key_iff. unfold history_of, key_vals. cbn [fmap list_fmap].
  destruct (history_row_key sid data) as (_ & -> & ->). split; [by intros [= <- <-]|by intros [-> ->]].
Qed.

Lemma append_history_run sid data c d :
  server_exists d (VInt sid) = true →
  ∃ d', _append_inventory_history sid data (quiet_session c d) = (Ok tt, quiet_session c d')
    ∧ (∀ m, m ≠ ServerInventoryHistory → tables d' m = tables d m)
    ∧ ((∃ x, x ∈ tables d ServerInventoryHistory ∧ history_of sid data x)
         ∧ tables d' ServerInventoryHistory = tables d ServerInventoryHistory
       ∨ (∀ x, x ∈ tables d ServerInventoryHistory → ¬ history_of sid data x)
         ∧ tables d' ServerInventoryHistory = tables d ServerInventoryHistory ++ [history_row sid data]).
Proof.
  intros Hs. destruct (history_row_key sid data) as (Hn & Hsid & _).
  set (key := ["server_id"; "collected_at"]%string) in *. set (r := history_row sid data) in *.
  unfold _append_inventory_history. fold (history_row sid data). fold r. fold key.
  destruct (existsb (same_key key r) (tables d ServerInventoryHistory)) eqn:E.
  - exists d. assert (insert_ignore ServerInventoryHistory key [r] d = Ok (0, d)) as Hi.
    { cbn. unfold insert_row_ignore. by rewrite Hn, E. }
    rewrite (bind_ok _ _ _ _ _ (execute_quiet _ c _ _ _ Hi)). split; [done|]. split; [done|]. left.
    split; [|done]. apply existsb_exists in E as (x & Hx & Hk). exists x.
    split; [by apply list_elem_of_In|]. by apply same_history_iff.
  - set (d' := set_table ServerInventoryHistory (tables d ServerInventoryHistory ++ [r]) d).
    exists d'. assert (insert_ignore ServerInventoryHistory key [r] d = Ok (1, d')) as Hi.
    { cbn. unfold insert_row_ignore. by rewrite Hn, E, Hsid, Hs. }
    rewrite (bind_ok _ _ _ _ _ (execute_quiet _ c _ _ _ Hi)). split; [done|].
    split; [intros m Hm; by apply tables_set_other|]. right. split; [|apply tables_set_same].
    intros x Hx Hk%same_history_iff. apply list_elem_of_In in Hx.
    apply not_true_iff_false in E. apply E. apply existsb_exists. by exists x.
Qed.

Lemma upsert_server_run data c d :
  wf d → ∃ sid d', upsert_server data (quiet_session c d) = (Ok sid, quiet_session c d')
    ∧ upserted data d sid d'.
Proof.
  intros W. destruct (upsert_row_run data d W) as (sid & d1 & E & Hrow & Hsame & Hoth & Hfr).
  unfold upsert_server.
  assert (execute (select (λ d, head (agent_rows (Inventory.agent_id data) d))) (quiet_session c d)
    = (Ok (head (agent_rows (Inventory.agent_id data) d)), quiet_session c d)) as Hsel
    by by apply execute_quiet.
  rewrite (bind_ok _ _ _ _ _ Hsel). cbn zeta.
  rewrite (bind_ok _ _ _ _ _ (execute_quiet _ c _ _ _ E)).
  set (go := match head (agent_rows (Inventory.agent_id data) d) with
             | None => true | Some p => _inventory_changed p data end).
  assert (∀ prev, prev ∈ tables d ServerInventory →
    col prev "agent_id" = VStr (Inventory.agent_id data) →
    go = _inventory_changed prev data) as Hgo.
  { intros prev Hp Ha. unfold go. by rewrite (agent_rows_unique _ _ _ W Hp Ha). }
  destruct go eqn:Eg.
  - destruct (append_history_run sid data c d1) as (d2 & Eh & F & I).
    { apply server_exists_iff. destruct Hrow as (r & ? & ? & _). eauto. }
    rewrite (bind_ok _ _ _ _ _ Eh). exists sid, d2. split; [done|].
    assert (tables d2 ServerInventory = tables d1 ServerInventory) as Ht by by apply F.
    split; rewrite ?Ht; try done.
    + intros m H1 H2. rewrite F by done. by apply Hfr.
    + intros prev Hp Ha Hc. pose proof (Hgo prev Hp Ha). congruence.
    + intros _. by rewrite <- (Hfr ServerInventoryHistory).
  - exists sid, d1. split; [done|]. split; try done.
    + intros m H1 _. by apply Hfr.
    + intros prev Hp Ha _. by apply Hfr.
    + intros Hall. unfold go in Eg. destruct (head _) as [p|] eqn:Ep; [|done].
      assert (p ∈ agent_rows (Inventory.agent_id data) d) as Hp
        by (destruct (agent_rows _ _); [done|injection Ep as ->; apply list_elem_of_here]).
      apply agent_row_in in Hp as [Hp Ha]. pose proof (Hgo p Hp Ha) as Hg.
      by rewrite (Hall p Hp Ha) in Hg.
Qed.
