(* ===== verification/HandlerFacts.v ===== *)
(** * What the handlers do to Redis and to the database *)

From S2P Require Import Prelude PyFloat Redis Sql SqlFacts Inbound CollectDb CollectFacts Wire PyText DbRetry StoreFacts Handlers InventoryMsg.

(** ** Programs that leave the database alone and return *)

Section harmless.
Context {R : Type} `{RedisLaws R}.
Implicit Types w : world R.

(** Returns, whatever Redis does, and leaves the database session as it is. *)
Definition harmless {A} (m : eff (world R) A) : Prop :=
  ∀ w, ∃ a w', m w = (Ok a, w') ∧ w_db w' = w_db w.

Lemma harmless_ret {A} (a : A) : harmless (mret a).
Proof. intros w. by eexists _, _. Qed.

Lemma harmless_log l msg : harmless (log l msg).
Proof. intros w. by eexists _, _. Qed.

Lemma harmless_redis {A} (m : eff R A) : (∀ r, ∃ a r', m r = (Ok a, r')) → harmless (on_redis m).
Proof.
  intros Hm w. destruct (Hm (w_redis w)) as (a & r' & E). unfold on_redis. rewrite E.
  by eexists _, _.
Qed.

Lemma harmless_bind {A B} (m : eff (world R) A) (k : A → eff (world R) B) :
  harmless m → (∀ a, harmless (k a)) → harmless (x ← m; k x).
Proof.
  intros Hm Hk w. destruct (Hm w) as (a & w1 & E1 & D1). destruct (Hk a w1) as (b & w2 & E2 & D2).
  exists b, w2. rewrite (bind_ok _ _ _ _ _ E1), E2. split; [done|congruence].
Qed.

(** A harmless call in front of a program changes neither what it returns nor
what it does to the database, if those depend on the database alone. *)
Lemma harmless_run {A} (m : eff (world R) A) w :
  harmless m → ∃ a w', m w = (Ok a, w') ∧ w_db w' = w_db w.
Proof. intros Hm. apply Hm. Qed.
End harmless.

Create HintDb harmless.
#[export] Hint Resolve harmless_ret harmless_log : harmless.
#[export] Hint Resolve safe_get_ok safe_set_ok safe_set_nx_total safe_delete_ok safe_incr_ok : harmless.

Ltac harmless_tac :=
  repeat match goal with
  | |- ∀ _, _ => intros ?
  | |- harmless (mbind _ _) => apply harmless_bind
  | |- harmless (on_redis _) => apply harmless_redis; auto with harmless
  | |- harmless (match ?x with _ => _ end) => destruct x
  | |- harmless _ => solve [auto with harmless]
  end.

Section handler_facts.
Context {R : Type} `{RedisLaws R}.
Implicit Types w : world R.

Lemma check_idempotent_harmless id : harmless (R := R) (_check_idempotent id).
Proof. unfold _check_idempotent. harmless_tac. Qed.

Lemma time_invariants_harmless env : harmless (R := R) (_log_time_invariants env).
Proof. unfold _log_time_invariants, _time_warn_allowed. harmless_tac. Qed.

Lemma track_restart_harmless sid agent started :
  harmless (R := R) (_track_agent_restart sid agent started).
Proof. unfold _track_agent_restart. harmless_tac. Qed.

(** The duplicate check: what it returns *)
Lemma check_idempotent_run id w :
  ∃ b w', _check_idempotent id w = (Ok b, w') ∧ w_db w' = w_db w
  ∧ (b = false ↔ fst (safe_set_nx (redis_key_idempotent id) "1" redis_ttl_idempotent (w_redis w))
                 = Ok (Some false)).
Proof.
  unfold _check_idempotent, on_redis, mbind, eff_bind.
  destruct (safe_set_nx_total (redis_key_idempotent id) "1" redis_ttl_idempotent (w_redis w))
  as (o & r' & E). rewrite E. eexists _, _. split; [done|]. split; [done|].
  cbn. destruct o as [[]|]; naive_solver.
Qed.

Variable orig : dbapi_error → option string.

(** Everything around the database in the metrics handler is harmless. *)
Lemma store_metrics_run (data : MetricsInput) w dto :
  fst (safe_set_nx (redis_key_idempotent (message_id (envelope data))) "1"
       redis_ttl_idempotent (w_redis w)) ≠ Ok (Some false) →
  to_metric_create data = Ok dto →
  let out := retry_db 2 (save_metrics (env_agent_id (envelope data))
             (build_placeholder_inventory data) dto) (w_db w) in
  ∃ w', store_metrics orig data w
    = (match fst out with Ok _ => Ok tt | Raise e => Raise e end, w')
  ∧ w_db w' = snd out.
Proof.
  intros Hdup Hdto. unfold store_metrics.
  destruct (check_idempotent_run (message_id (envelope data)) w) as (b & w1 & E1 & D1 & Hb).
  rewrite (bind_ok _ _ _ _ _ E1). destruct b; [|by destruct Hdup; apply Hb]. cbn [negb].
  destruct (time_invariants_harmless (envelope data) w1) as ([] & w2 & E2 & D2).
  rewrite (bind_ok _ _ _ _ _ E2). unfold lift. rewrite Hdto.
  unfold mbind at 1, eff_bind at 1. cbn beta iota.
  set (fn := save_metrics _ _ _). rewrite bind_run.
  destruct (db_retry_pure orig fn w2) as (w3 & -> & D3 & _).
  assert (w_db w2 = w_db w) as Ed by congruence. rewrite Ed in *.
  destruct (retry_db 2 fn (w_db w)) as [[[[sid auto] res]|e] s3]; cbn [fst snd] in *; [|eauto].
  match goal with |- context [mbind ?k ?m w3] => assert (harmless (R := R) (mbind k m)) as Hh end.
  { destruct auto; harmless_tac; apply track_restart_harmless. }
  destruct (Hh w3) as ([] & w4 & E4 & D4). exists w4. rewrite E4. split; [done|congruence].
Qed.

Lemma store_metrics_duplicate (data : MetricsInput) w :
  fst (safe_set_nx (redis_key_idempotent (message_id (envelope data))) "1"
       redis_ttl_idempotent (w_redis w)) = Ok (Some false) →
  ∃ w', store_metrics orig data w = (Ok tt, w') ∧ w_db w' = w_db w.
Proof.
  intros Hdup. unfold store_metrics.
  destruct (check_idempotent_run (message_id (envelope data)) w) as (b & w1 & E1 & D1 & Hb).
  rewrite (bind_ok _ _ _ _ _ E1). apply Hb in Hdup as ->. cbn [negb]. eauto.
Qed.

Lemma store_metrics_unmappable (data : MetricsInput) w e :
  fst (safe_set_nx (redis_key_idempotent (message_id (envelope data))) "1"
       redis_ttl_idempotent (w_redis w)) ≠ Ok (Some false) →
  to_metric_create data = Raise e →
  ∃ w', store_metrics orig data w = (Raise e, w') ∧ w_db w' = w_db w.
Proof.
  intros Hdup Hdto. unfold store_metrics.
  destruct (check_idempotent_run (message_id (envelope data)) w) as (b & w1 & E1 & D1 & Hb).
  rewrite (bind_ok _ _ _ _ _ E1). destruct b; [|by destruct Hdup; apply Hb]. cbn [negb].
  destruct (time_invariants_harmless (envelope data) w1) as ([] & w2 & E2 & D2).
  rewrite (bind_ok _ _ _ _ _ E2). unfold lift. rewrite Hdto. exists w2.
  split; [done|congruence].
Qed.

(** Everything around the database in the inventory handler is harmless. *)
Lemma store_inventory_run (data : InventoryInput) w :
  let env := InvInput.envelope data in
  fst (safe_set_nx (redis_key_idempotent (message_id env)) "1"
       redis_ttl_idempotent (w_redis w)) ≠ Ok (Some false) →
  let out := retry_db 2 (upsert_server (to_inventory_create data)) (w_db w) in
  ∃ w', store_inventory orig data w
    = (match fst out with Ok _ => Ok tt | Raise e => Raise e end, w')
  ∧ w_db w' = snd out.
Proof.
  cbn zeta. intros Hdup. unfold store_inventory.
  destruct (check_idempotent_run (message_id (InvInput.envelope data)) w) as (b & w1 & E1 & D1 & Hb).
  rewrite (bind_ok _ _ _ _ _ E1). destruct b; [|by destruct Hdup; apply Hb]. cbn [negb].
  destruct (time_invariants_harmless (InvInput.envelope data) w1) as ([] & w2 & E2 & D2).
  rewrite (bind_ok _ _ _ _ _ E2). set (fn := upsert_server _). rewrite bind_run.
  destruct (db_retry_pure orig fn w2) as (w3 & -> & D3 & _).
  assert (w_db w2 = w_db w) as Ed by congruence. rewrite Ed in *.
  destruct (retry_db 2 fn (w_db w)) as [[sid|e] s3]; cbn [fst snd] in *; [|eauto].
  match goal with |- context [mbind ?k ?m w3] => assert (harmless (R := R) (mbind k m)) as Hh end.
  { harmless_tac. }
  destruct (Hh w3) as ([] & w4 & E4 & D4). exists w4. rewrite E4. split; [done|congruence].
Qed.

Lemma store_inventory_duplicate (data : InventoryInput) w :
  fst (safe_set_nx (redis_key_idempotent (message_id (InvInput.envelope data))) "1"
       redis_ttl_idempotent (w_redis w)) = Ok (Some false) →
  ∃ w', store_inventory orig data w = (Ok tt, w') ∧ w_db w' = w_db w.
Proof.
  intros Hdup. unfold store_inventory.
  destruct (check_idempotent_run (message_id (InvInput.envelope data)) w) as (b & w1 & E1 & D1 & Hb).
  rewrite (bind_ok _ _ _ _ _ E1). apply Hb in Hdup as ->. cbn [negb]. eauto.
Qed.

Lemma store_task_result_run codes (data : TaskResultInput) w id :
  fst (safe_set_nx (redis_key_idempotent (tr_message_id data)) "1"
       redis_ttl_idempotent (w_redis w)) ≠ Ok (Some false) →
  parse_uuid (task_id data) = Ok id →
  let out := retry_db 2 (complete_task (task_result_update codes id data)) (w_db w) in
  ∃ w', store_task_result orig codes data w
    = (match fst out with Ok _ => Ok tt | Raise e => Raise e end, w')
  ∧ w_db w' = snd out.
Proof.
  intros Hdup Hid. unfold store_task_result.
  destruct (check_idempotent_run (tr_message_id data) w) as (b & w1 & E1 & D1 & Hb).
  rewrite (bind_ok _ _ _ _ _ E1). destruct b; [|by destruct Hdup; apply Hb]. cbn [negb].
  rewrite Hid. set (fn := complete_task _). rewrite bind_run.
  destruct (db_retry_pure orig fn w1) as (w3 & -> & D3 & _). rewrite D1 in *.
  destruct (retry_db 2 fn (w_db w)) as [[updated|e] s3]; cbn [fst snd] in *; [|eauto].
  destruct updated; cbn [negb].
  - match goal with |- context [mbind ?k ?m w3] => assert (harmless (R := R) (mbind k m)) as Hh end.
  { harmless_tac. }
  destruct (Hh w3) as ([] & w4 & E4 & D4). exists w4. rewrite E4. split; [done|congruence].
  - eexists. split; [done|]. done.
Qed.

Lemma store_task_result_skips codes (data : TaskResultInput) w :
  (fst (safe_set_nx (redis_key_idempotent (tr_message_id data)) "1"
        redis_ttl_idempotent (w_redis w)) = Ok (Some false)
  ∨ ∃ e, parse_uuid (task_id data) = Raise e) →
  ∃ w', store_task_result orig codes data w = (Ok tt, w') ∧ w_db w' = w_db w.
Proof.
  intros Hskip. unfold store_task_result.
  destruct (check_idempotent_run (tr_message_id data) w) as (b & w1 & E1 & D1 & Hb).
  rewrite (bind_ok _ _ _ _ _ E1). destruct b; cbn [negb]; [|eauto].
  destruct Hskip as [Hdup|[e He]]; [by apply Hb in Hdup|]. rewrite He. eauto.
Qed.
End handler_facts.
