(* ===== verification/ConsumerProps.v ===== *)
(** * The consumer: the properties

    What the message handlers and the collect repository promise: natural keys,
    idempotence, exactly-once storage under faults, fail-open on Redis, bounded
    retries. *)

From S2P Require Import Prelude PyFloat Redis Sql SqlFacts Inbound BootTime CollectDb CollectFacts Wire PyText DbRetry StoreFacts CollectRuns Handlers InventoryMsg HandlerFacts.

(** ** Concrete databases and messages for the witnesses *)

Definition empty_db : db := {| tables := λ _, []; next_id := 1; db_now := 1000000 |}.

Lemma empty_db_wf : wf empty_db.
Proof.
  split; cbn; try (by constructor); try done.
  - intros m key _. split; [done|constructor].
  - intros m r _ Hr. by apply not_elem_of_nil in Hr.
  - split; [done|constructor].
Qed.

Definition sample_envelope : Envelope := {|
  message_id := "5f0c"; env_agent_id := "0a1b2c3d-0000-4000-8000-0123456789ab";
  env_collected_at := 1700000000000000; env_composite_id := None; env_machine_id := None;
  env_agent_version := Some "1.4"%string; env_boot_time := Some 1690000000000000;
  env_agent_started_at := Some 1690000100000000; env_os_family := "linux" |}.

Definition point (attrs : list (string * attr_val)) (v : Z) : Datapoint :=
  {| attr := list_to_map attrs; value := Some (of_Z v) |}.

Definition sample_disk : Namespace := list_to_map [
  ("disk.io"%string, {| points := [
     point [("device", AStr "wwid:1"); ("direction", AStr "read")]%string 10;
     point [("device", AStr "wwid:1"); ("direction", AStr "write")]%string 20;
     point [("device", AStr "wwid:2"); ("direction", AStr "read")]%string 30] |});
  ("disk.errors"%string, {| points := [
     point [("device", AStr "wwid:1"); ("kind", AStr "ext4")]%string 2] |})].

Definition sample_message : MetricsInput := {|
  envelope := sample_envelope; system_cpu := None; system_memory := None;
  system_disk := Some sample_disk; system_network := None; system_paging := None;
  system_filesystem := None; system_pressure := None |}.

Definition sample_dto : Metric.ServerMetricCreate :=
  match to_metric_create sample_message with
  | Ok d => d
  | Raise _ => {| Metric.collected_at := 0; Metric.boot_time := None; Metric.agent_started_at := None;
      Metric.cpu_user_s := None; Metric.cpu_nice_s := None; Metric.cpu_system_s := None;
      Metric.cpu_idle_s := None; Metric.cpu_iowait_s := None; Metric.cpu_irq_s := None;
      Metric.cpu_softirq_s := None; Metric.cpu_steal_s := None; Metric.cpu_logical_count := None;
      Metric.cpu_run_queue := None; Metric.cpu_blocked := None; Metric.cpu_mce := None;
      Metric.mem_free_bytes := None; Metric.mem_cached_bytes := None;
      Metric.mem_buffered_bytes := None; Metric.mem_available_bytes := None;
      Metric.mem_used_bytes := None; Metric.mem_limit_bytes := None;
      Metric.mem_commit_usage_bytes := None; Metric.mem_commit_limit_bytes := None;
      Metric.mem_hardware_corrupted_bytes := None; Metric.mem_oom_kill := None;
      Metric.paging_in := None; Metric.paging_out := None; Metric.paging_major := None;
      Metric.net_tcp_retransmits := None; Metric.net_conntrack_usage := None;
      Metric.net_conntrack_limit := None; Metric.disk_io := []; Metric.net_io := [];
      Metric.filesystems := []; Metric.cpu_per_core := []; Metric.pressure := [];
      Metric.disk_errors := [] |}
  end.

Definition sample_placeholder : Inventory.ServerInventoryCreate :=
  build_placeholder_inventory sample_message.

Definition any_printable (_ : ascii) : bool := true.
Definition no_orig (_ : dbapi_error) : option string := None.

(** The body is accepted and parses to a message. *)
Definition accepts {T} (data : T) (_ : string) : list validation_error + T := inr data.

Definition fresh_world (script : list step) : world MapRedis :=
  World {| mr_keys := ∅; mr_outages := [] |}
        {| committed := empty_db; current := empty_db; script := script |} [] [].

(** The connection is lost after the commit was applied. *)
Definition lost_commit : exn :=
  DBAPIError {| dbe_class := SaDBAPIError; dbe_sqlstate := Some "08006"%string |}.

Definition ambiguous : step := {| st_others := id; st_fault := Some lost_commit; st_applied := true |}.

(** A save of the sample sends four statements before the commit: find, insert,
    metrics, disks, errors. *)
Definition ambiguous_script : list step := [quiet; quiet; quiet; quiet; quiet; ambiguous].

Lemma quiet_others_ok : ∀ d, others_ok d (st_others quiet d).
Proof. intros d. apply others_ok_refl. Qed.

Lemma ambiguous_script_respects : Forall (λ st, ∀ d, others_ok d (st_others st d)) ambiguous_script.
Proof. repeat (constructor; [intros d; apply others_ok_refl|]). constructor. Qed.

(** ** Invariants *)

Lemma retry_db_keeps {T} I n (fn : eff session T) s :
  keeps I fn → inv_session I s → inv_session I (snd (retry_db n fn s)).
Proof.
  intros Hk. assert (keeps I (with_session (result ← fn; _ ← commit; mret result))) as Ha.
  { apply keeps_with_session, keeps_bind; [done|]. intros a.
    apply keeps_bind; auto with keeps. }
  revert s. induction n as [|n IH]; intros s Hs; cbn [retry_db];
    specialize (Ha s Hs) as Hs'; destruct (with_session _ s) as [[a|e] s']; try done.
  destruct (_ && _); [by apply IH|done].
Qed.

Lemma save_metrics_keeps d0 agent placeholder dto :
  keeps (sound d0) (save_metrics agent placeholder dto).
Proof.
  unfold save_metrics. apply keeps_bind; [auto with keeps|]. intros [sid auto].
  apply keeps_bind; auto with keeps.
Qed.

(** The committed database after a delivery *)
Definition db_after {R} (h : string → eff (world R) unit) (body : string) (w : world R) : db :=
  committed (w_db (snd (process h body w))).

Lemma process_db {R} (h : string → eff (world R) unit) body w :
  w_db (snd (process h body w)) = w_db (snd (h body w)).
Proof. unfold process. by destruct (h body w) as [[]]. Qed.

(** A parsed message is handled, an invalid one only logged. *)
Lemma in_context_inr {R T} isp (validate : string → list validation_error + T) label
    (handle : T → eff (world R) unit) body data w :
  validate body = inr data → _in_message_context isp validate label handle body w = handle data w.
Proof. intros H. unfold _in_message_context, _parse. by rewrite H. Qed.

Lemma in_context_inl {R T} isp (validate : string → list validation_error + T) label
    (handle : T → eff (world R) unit) body errs w :
  validate body = inl errs →
  ∃ e w', _in_message_context isp validate label handle body w = (Raise e, w')
    ∧ w_db w' = w_db w ∧ w_redis w' = w_redis w.
Proof. intros H. unfold _in_message_context, _parse. rewrite H. by eexists _, _. Qed.

Section consumer.
Context {R : Type} `{RedisLaws R}.
Variable orig : dbapi_error → option string.

Lemma store_metrics_keeps d0 data (w : world R) :
  inv_session (sound d0) (w_db w) → inv_session (sound d0) (w_db (snd (store_metrics orig data w))).
Proof.
  intros HI.
  destruct (decide (fst (safe_set_nx (redis_key_idempotent (message_id (envelope data))) "1"
  redis_ttl_idempotent (w_redis w)) = Ok (Some false))) as [Hd|Hd].
  { destruct (store_metrics_duplicate orig data w Hd) as (w' & -> & E). cbn. by rewrite E. }
  destruct (to_metric_create data) as [dto|e] eqn:Hm.
  - destruct (store_metrics_run orig data w dto Hd Hm) as (w' & -> & E). cbn. rewrite E.
  apply retry_db_keeps; [apply save_metrics_keeps|done].
  - destruct (store_metrics_unmappable orig data w e Hd Hm) as (w' & -> & E). cbn. by rewrite E.
Qed.

Lemma store_task_result_keeps d0 codes data (w : world R) :
  inv_session (sound d0) (w_db w) →
  inv_session (sound d0) (w_db (snd (store_task_result orig codes data w))).
Proof.
  intros HI.
  destruct (decide (fst (safe_set_nx (redis_key_idempotent (tr_message_id data)) "1"
  redis_ttl_idempotent (w_redis w)) = Ok (Some false))) as [Hd|Hd].
  { destruct (store_task_result_skips orig codes data w) as (w' & -> & E); [by left|].
  cbn. by rewrite E. }
  destruct (parse_uuid (task_id data)) as [id|e] eqn:Hm.
  - destruct (store_task_result_run orig codes data w id Hd Hm) as (w' & -> & E). cbn. rewrite E.
  apply retry_db_keeps; [auto with keeps|done].
  - destruct (store_task_result_skips orig codes data w) as (w' & -> & E); [by eauto|].
  cbn. by rewrite E.
Qed.

Lemma store_inventory_keeps d0 data (w : world R) :
  inv_session (sound d0) (w_db w) → inv_session (sound d0) (w_db (snd (store_inventory orig data w))).
Proof.
  intros HI.
  destruct (decide (fst (safe_set_nx (redis_key_idempotent (message_id (InvInput.envelope data))) "1"
    redis_ttl_idempotent (w_redis w)) = Ok (Some false))) as [Hd|Hd].
  - destruct (store_inventory_duplicate orig data w Hd) as (w' & -> & E). cbn. by rewrite E.
  - destruct (store_inventory_run orig data w Hd) as (w' & -> & E). cbn. rewrite E.
    apply retry_db_keeps; [auto with keeps|done].
Qed.

(** A handler that keeps the invariant on every parsed message keeps the committed
    database sound. *)
Lemma context_keeps {T} isp (validate : string → list validation_error + T) label
    (handle : T → eff (world R) unit) body (w : world R) :
  inv_session (sound (committed (w_db w))) (w_db w) →
  (∀ data, inv_session (sound (committed (w_db w))) (w_db (snd (handle data w)))) →
  sound (committed (w_db w)) (db_after (_in_message_context isp validate label handle) body w).
Proof.
  intros HI Hk. unfold db_after. rewrite process_db. destruct (validate body) as [errs|data] eqn:Ev.
  - destruct (in_context_inl isp validate label handle body errs w Ev) as (e & w' & -> & E & _).
    cbn. rewrite E. apply (inv_committed _ _ HI).
  - rewrite (in_context_inr _ _ _ _ _ _ _ Ev). apply (inv_committed _ _ (Hk data)).
Qed.

(** C3. No message can corrupt the database: whatever the body, the state of
    Redis, the faults of the database and what other transactions commit in
    between (as long as they keep this invariant themselves), the metrics, the
    inventory and the task-result handlers leave the committed database well-formed -
    natural keys unique and complete, every series row of a registered server, one
    inventory row per agent, at most one pending task per server and type - and no
    stored series row and no server is lost. *)
Theorem handlers_keep_database isp vm vi vt codes body (w : world R)
  (HI : inv_session (sound (committed (w_db w))) (w_db w)) :
  sound (committed (w_db w)) (db_after (make_metrics_handler orig isp vm) body w)
  ∧ sound (committed (w_db w)) (db_after (make_inventory_handler orig isp vi) body w)
  ∧ sound (committed (w_db w)) (db_after (make_task_result_handler orig isp codes vt) body w).
Proof.
  split; [|split]; apply context_keeps; try done; intros data.
  - by apply store_metrics_keeps.
  - by apply store_inventory_keeps.
  - by apply store_task_result_keeps.
Qed.
End consumer.

Lemma fresh_world_inv script :
  Forall (λ st, ∀ d, others_ok d (st_others st d)) script →
  inv_session (sound empty_db) (w_db (fresh_world script)).
Proof.
  intros H. apply respects_inv; [exact H| |]; apply sound_refl, empty_db_wf.
Qed.

Lemma handlers_keep_database_witness :
  sound empty_db (db_after (make_metrics_handler no_orig any_printable (accepts sample_message))
    "" (fresh_world ambiguous_script)).
Proof.
  exact (proj1 (handlers_keep_database no_orig any_printable (accepts sample_message)
    (λ _, inl []) (λ _, inl []) task_install_success_exit_codes "" (fresh_world ambiguous_script)
    (fresh_world_inv _ ambiguous_script_respects))).
Defined.

(** ** Exactly once *)

(** The number of rows of a table that agree with [r] on a key *)
Definition copies (key : list string) (r : row) (l : list row) : nat :=
  length (filter (λ x, same_key key r x = true) l).

Lemma keyed_copies key r l :
  keyed key l → existsb (same_key key r) l = true → copies key r l = 1%nat.
Proof.
  intros [_ Hd] He. unfold copies. induction l as [|x l IH]; [done|].
  cbn in He. rewrite fmap_cons in Hd. apply NoDup_cons in Hd as [Hx Hd].
  rewrite filter_cons. destruct (same_key key r x) eqn:E; cbn in He |- *.
  - apply same_key_iff in E.
    assert (filter (λ y, same_key key r y = true) l = []) as ->; [|done].
    destruct (filter _ l) as [|y l'] eqn:Ef; [done|].
    assert (y ∈ filter (λ y, same_key key r y = true) l) as Hy
      by (rewrite Ef; apply list_elem_of_here).
    apply list_elem_of_filter in Hy as [Hy1 Hy2]. apply same_key_iff in Hy1.
    destruct Hx. apply list_elem_of_fmap. exists y. split; [congruence|done].
  - by apply IH.
Qed.

Lemma save_metrics_post d0 agent placeholder dto :
  Inventory.agent_id placeholder = agent →
  triple others_ok (good (grows d0)) (save_metrics agent placeholder dto)
    (λ out, good (λ d, (grows d0 d ∧ has_server agent out.1.1 d) ∧ message_present out.1.1 dto d)).
Proof.
  intros Ha. unfold save_metrics.
  eapply triple_bind; [by apply ensure_server_post; [apply mono_grows|]|].
  intros [sid auto]. cbn [fst].
  eapply triple_bind.
  { apply (record_metrics_post (λ d, grows d0 d ∧ has_server agent sid d)).
    apply mono_and; [apply mono_grows|apply has_server_mono]. }
  intros res. by apply triple_ret.
Qed.

(** C4. Exactly once: if the retried transaction of a metrics message returns,
    then whatever went wrong before - statements that failed, commits that were
    applied although they reported an error, other transactions that stored the same
    message or registered the same host - the committed database holds exactly one
    inventory row for the agent, under the id that was returned, exactly one host
    row for the message, and exactly one row per natural key of every child series
    of the message. *)
Theorem metrics_stored_exactly_once {R} orig agent placeholder dto
  (w w' : world R) sid auto res
  (HI : wf (committed (w_db w))) (HR : respects others_ok (w_db w))
  (Ha : Inventory.agent_id placeholder = agent)
  (H : _db_retry orig (save_metrics agent placeholder dto) w = (Ok (sid, auto, res), w')) :
  let d := committed (w_db w') in
  wf d ∧ grows (committed (w_db w)) d
  ∧ (∃ r, r ∈ tables d ServerInventory ∧ col r "id" = VInt sid
       ∧ col r "agent_id" = VStr agent ∧ copies ["agent_id"%string] r (tables d ServerInventory) = 1%nat)
  ∧ (∀ m key r, series_key m = Some key → r ∈ message_rows sid dto m →
       copies key r (tables d m) = 1%nat).
Proof.
  cbn zeta. set (d0 := committed (w_db w)).
  pose proof (attempt_post d0 _ _ (save_metrics_keeps d0 agent placeholder dto)
    (save_metrics_post d0 agent placeholder dto Ha)) as Hat.
  destruct (db_retry_post (R := R) orig (save_metrics agent placeholder dto) (attempt_state d0)
    (λ out s, respects others_ok s ∧ sound d0 (committed s) ∧
       (grows d0 (committed s) ∧ has_server agent out.1.1 (committed s))
       ∧ message_present out.1.1 dto (committed s))) with (w := w) as (_ & k & _ & _ & Hout).
  - apply Hat. intros out. apply mono_and; [|apply message_present_mono].
    apply mono_and; [apply mono_grows|apply has_server_mono].
  - split; [done|]. by apply sound_refl.
  - rewrite H in Hout. cbn in Hout.
    destruct Hout as (_ & [W G] & [_ (r & Hr & Hid & Hag)] & Hp).
    split; [done|]. split; [done|]. split.
    + exists r. repeat split; try done. apply keyed_copies; [by apply wf_agents|].
      apply existsb_exists. exists r. split; [by apply list_elem_of_In|by apply same_key_iff].
    + intros m key x Hk Hx. apply keyed_copies; [by eapply wf_series|]. by eapply Hp.
Qed.

Definition ambiguous_run : result (Z * bool * MetricInsertResult) * world MapRedis :=
  _db_retry no_orig (save_metrics (env_agent_id sample_envelope) sample_placeholder sample_dto)
    (fresh_world ambiguous_script).

Definition nothing_inserted : MetricInsertResult :=
  {| metrics := 0; disk_io := 0; net_io := 0; filesystem := 0; cpu_core := 0; pressure := 0;
     disk_error := 0 |}.

(** The second attempt finds everything stored by the first, whose commit was
    reported lost. *)
Lemma metrics_stored_exactly_once_witness :
  fst ambiguous_run = Ok (1, false, nothing_inserted)
  ∧ copies ["server_id"; "collected_at"]%string (metric_row 1 sample_dto)
      (tables (committed (w_db (snd ambiguous_run))) ServerMetrics) = 1%nat.
Proof.
  assert (fst ambiguous_run = Ok (1, false, nothing_inserted)) as H by (vm_compute; reflexivity).
  split; [exact H|].
  refine (proj2 (proj2 (proj2 (metrics_stored_exactly_once no_orig
    (env_agent_id sample_envelope) sample_placeholder sample_dto
    (fresh_world ambiguous_script) (snd ambiguous_run) 1 false nothing_inserted _ _ _ _)))
    ServerMetrics _ _ _ _).
  - exact empty_db_wf.
  - exact ambiguous_script_respects.
  - reflexivity.
  - rewrite <- H. apply surjective_pairing.
  - reflexivity.
  - apply list_elem_of_here.
Defined.

(** ** The repository *)

(** Recording a message never fails on a registered server (every key column
    it sends is filled, an absent RAID member included), reports for each of the
    seven tables exactly the number of rows it added, adds only rows of the message
    and changes neither the inventory nor the tasks; recording the same message again
    reports zero everywhere and leaves the database as it is. *)
Theorem record_metrics_idempotent (sid : Z) (data : Metric.ServerMetricCreate) (c d : db)
  (Hs : server_exists d (VInt sid) = true) :
  ∃ r d', record_metrics sid data (quiet_session c d) = (Ok r, quiet_session c d')
    ∧ (∀ m, m ∈ series_models → ∃ fresh, tables d' m = tables d m ++ fresh
         ∧ reported r m = Z.of_nat (length fresh) ∧ fresh `sublist_of` message_rows sid data m)
    ∧ tables d' ServerInventory = tables d ServerInventory ∧ tables d' Task = tables d Task
    ∧ record_metrics sid data (quiet_session c d') = (Ok nothing_inserted, quiet_session c d').
Proof.
  destruct (record_metrics_run sid data c d Hs) as (r & d' & E & Rec).
  exists r, d'. split; [exact E|]. split; [|split; [|split]].
  - intros m Hm. assert (∃ key, series_key m = Some key) as [key Hk].
    { unfold series_models in Hm. case_in_list Hm; by eexists. }
    by apply (rec_table _ _ _ _ _ Rec m key).
  - apply (rec_inventory _ _ _ _ _ Rec).
  - apply (rec_tasks _ _ _ _ _ Rec).
  - apply record_metrics_noop. intros m key x. apply (rec_present _ _ _ _ _ Rec).
Qed.

(** A database with one registered server, id 1 *)
Definition one_server_db : db :=
  match upsert_server_row ["agent_id"%string] (_inventory_row sample_placeholder)
          (base.delete "agent_id"%string (_inventory_row sample_placeholder)) empty_db with
  | Ok (_, d) => d
  | Raise _ => empty_db
  end.

Lemma record_metrics_idempotent_witness :
  server_exists one_server_db (VInt 1) = true ∧
  ∃ r d', record_metrics 1 sample_dto (quiet_session one_server_db one_server_db)
            = (Ok r, quiet_session one_server_db d')
    ∧ record_metrics 1 sample_dto (quiet_session one_server_db d')
      = (Ok nothing_inserted, quiet_session one_server_db d').
Proof.
  assert (server_exists one_server_db (VInt 1) = true) as Hs by (vm_compute; reflexivity).
  split; [exact Hs|].
  destruct (record_metrics_idempotent 1 sample_dto one_server_db one_server_db Hs)
    as (r & d' & H1 & _ & _ & _ & H2).
  exists r, d'. exact (conj H1 H2).
Defined.

(** The placeholder a metrics message registers never touches an existing
    inventory row: every row that the other transactions leave in place is still
    there, unchanged, after [ensure_server_id], whether the row was there before or
    was committed between its three statements and whether statements fail; and an
    id it returns belongs to the agent's row. *)
Theorem placeholder_never_overwrites (agent : string) (fallback : Inventory.ServerInventoryCreate)
  (x : row) (s : session)
  (Hx : inv_session (λ d, x ∈ tables d ServerInventory) s) :
  inv_session (λ d, x ∈ tables d ServerInventory) (snd (ensure_server_id agent fallback s))
  ∧ (wf (current s) → respects others_ok s → Inventory.agent_id fallback = agent →
     match ensure_server_id agent fallback s with
     | (Ok (sid, _), s') => has_server agent sid (current s')
     | (Raise _, _) => True
     end).
Proof.
  split.
  - assert (keeps (λ d, x ∈ tables d ServerInventory) (find_server_id agent)) as Hf.
    { unfold find_server_id. apply keeps_bind; [|intros ?; apply keeps_bind; auto with keeps].
      apply keeps_execute. by intros d a d' H [= _ <-]. }
    assert (keeps (λ d, x ∈ tables d ServerInventory) (_insert_placeholder_server fallback)) as Hp.
    { apply keeps_execute. intros d a d' H. unfold insert_server_ignore.
      destruct (negb _); [done|]. destruct (existsb _ _); intros [= _ <-]; [done|].
      rewrite tables_set_same. apply elem_of_app. by left. }
    assert (keeps (λ d, x ∈ tables d ServerInventory) (ensure_server_id agent fallback)) as Hk.
    { unfold ensure_server_id. keeps_tac. }
    by apply Hk.
  - intros W Hr Ha.
    destruct (ensure_server_post (grows (current s)) agent fallback (mono_grows _) Ha s Hr)
      as [_ H]; [by split; [|reflexivity]|].
    destruct (ensure_server_id agent fallback s) as [[[sid auto]|e] s']; [|done].
    by destruct H as (_ & _ & H).
Qed.

Definition other_row : row := dict [("id", VInt 7); ("agent_id", VStr "other"); ("os_id", VStr "rocky")]%string.

Lemma placeholder_never_overwrites_witness :
  let d := {| tables := λ m, if decide (m = ServerInventory) then [other_row] else [];
              next_id := 8; db_now := 0 |} in
  other_row ∈ tables (current (snd (ensure_server_id "other" sample_placeholder (quiet_session d d))))
    ServerInventory.
Proof.
  intros d.
  refine (inv_current _ _ (proj1 (placeholder_never_overwrites "other" sample_placeholder other_row
    (quiet_session d d) _))).
  split; [apply list_elem_of_here|apply list_elem_of_here|constructor].
Defined.

(** What a message says of its server, column by column *)
Definition message_columns (data : Inventory.ServerInventoryCreate) : list (string * sqlval) := [
  ("hostname", VStr (Inventory.hostname data));
  ("agent_version", vopt VStr (Inventory.agent_version data));
  ("os_family", vopt VStr (Inventory.os_family data)); ("os_id", vopt VStr (Inventory.os_id data));
  ("os_version", vopt VStr (Inventory.os_version data));
  ("os_codename", vopt VStr (Inventory.os_codename data));
  ("kernel_version", vopt VStr (Inventory.kernel_version data));
  ("arch", vopt VStr (Inventory.arch data)); ("bits", vopt VInt (Inventory.bits data));
  ("boot_firmware", vopt VStr (Inventory.boot_firmware data));
  ("secure_boot", vopt VBool (Inventory.secure_boot data));
  ("edition", vopt VStr (Inventory.edition data));
  ("product_name", vopt VStr (Inventory.product_name data));
  ("timezone", vopt VStr (Inventory.timezone data)); ("rtc_utc", vopt VBool (Inventory.rtc_utc data));
  ("cpu_cores", vopt VInt (Inventory.cpu_cores data));
  ("cpu_model", vopt VStr (Inventory.cpu_model data));
  ("mem_total_bytes", vopt VInt (Inventory.mem_total_bytes data));
  ("boot_time", vopt VTime (Inventory.boot_time data));
  ("agent_started_at", vopt VTime (Inventory.agent_started_at data));
  ("block_devices", VJson (JArr (Inventory.block_devices data)));
  ("net_interfaces", VJson (JArr (Inventory.net_interfaces data)));
  ("lvm_vgs", VJson (JArr (Inventory.lvm_vgs data)));
  ("boot", VJson (default JNull (Inventory.boot data)));
  ("nonblock_mounts", vjson_list (Inventory.nonblock_mounts data));
  ("ip_external", vopt VArr (Inventory.ip_external data));
  ("services", vjson_list (Inventory.services data));
  ("listen_ports", VJson (JArr (Inventory.listen_ports data)))]%string.

(** The row holds all of it. *)
Definition holds_message (data : Inventory.ServerInventoryCreate) (r : row) : Prop :=
  ∀ c v, (c, v) ∈ message_columns data → col r c = v.

Lemma holds_by (f : string → option sqlval) data r :
  Forall (λ cv : string * sqlval, f cv.1 = Some cv.2) (message_columns data) →
  (∀ c v, f c = Some v → col r c = v) → holds_message data r.
Proof. intros Hf Hr c v Hc. rewrite Forall_forall in Hf. apply Hr. apply (Hf _ Hc). Qed.

Lemma inventory_row_holds data r :
  (∀ c v, _inventory_row data !! c = Some v → col r c = v) → holds_message data r.
Proof.
  apply (holds_by (λ c, _inventory_row data !! c)). repeat (constructor; [reflexivity|]). constructor.
Qed.

Lemma history_row_holds sid data : holds_message data (history_row sid data).
Proof.
  apply (holds_by (λ c, Some (col (history_row sid data) c))); [|by intros c v [= ->]].
  repeat (constructor; [reflexivity|]). constructor.
Qed.



(** The same inventory collected at another time, with another reading of the boot
    time *)
Definition republished (data : Inventory.ServerInventoryCreate) (t : datetime) (b : option datetime)
    : Inventory.ServerInventoryCreate := {|
  Inventory.agent_id := Inventory.agent_id data;
  Inventory.composite_id := Inventory.composite_id data;
  Inventory.machine_id := Inventory.machine_id data;
  Inventory.hostname := Inventory.hostname data;
  Inventory.agent_version := Inventory.agent_version data;
  Inventory.collected_at := t; Inventory.boot_time := b;
  Inventory.agent_started_at := Inventory.agent_started_at data;
  Inventory.os_family := Inventory.os_family data; Inventory.os_id := Inventory.os_id data;
  Inventory.os_version := Inventory.os_version data;
  Inventory.os_codename := Inventory.os_codename data;
  Inventory.kernel_version := Inventory.kernel_version data;
  Inventory.cpu_cores := Inventory.cpu_cores data; Inventory.cpu_model := Inventory.cpu_model data;
  Inventory.mem_total_bytes := Inventory.mem_total_bytes data;
  Inventory.block_devices := Inventory.block_devices data;
  Inventory.net_interfaces := Inventory.net_interfaces data;
  Inventory.lvm_vgs := Inventory.lvm_vgs data; Inventory.ip_external := Inventory.ip_external data;
  Inventory.services := Inventory.services data;
  Inventory.listen_ports := Inventory.listen_ports data;
  Inventory.service_categories := Inventory.service_categories data;
  Inventory.arch := Inventory.arch data; Inventory.bits := Inventory.bits data;
  Inventory.boot_firmware := Inventory.boot_firmware data;
  Inventory.secure_boot := Inventory.secure_boot data; Inventory.edition := Inventory.edition data;
  Inventory.product_name := Inventory.product_name data;
  Inventory.timezone := Inventory.timezone data; Inventory.rtc_utc := Inventory.rtc_utc data;
  Inventory.boot := Inventory.boot data;
  Inventory.nonblock_mounts := Inventory.nonblock_mounts data |}.

Lemma republished_unchanged data t b (r : row) :
  (∀ k v, _inventory_row data !! k = Some v → col r k = v) →
  boot_time_changed (Inventory.boot_time data) b = false →
  _inventory_changed r (republished data t b) = false.
Proof.
  intros Hr Hb. unfold _inventory_changed. apply not_true_iff_false.
  rewrite existsb_exists. intros (k & Hk & Hc). apply list_elem_of_In in Hk.
  assert (col r k = col (_inventory_row data) k) as E.
  { unfold _INVENTORY_COMPARE_COLS in Hk. case_in_list Hk; apply Hr; reflexivity. }
  rewrite E in Hc. clear E Hr. revert Hc. unfold _INVENTORY_COMPARE_COLS in Hk.
  case_in_list Hk; cbn [String.eqb Ascii.eqb Bool.eqb];
    try (apply not_true_iff_false, negb_false_iff, bool_decide_eq_true; vm_compute; reflexivity).
  change (time_of (col (_inventory_row data) "boot_time"))
    with (time_of (vopt VTime (Inventory.boot_time data))).
  destruct (Inventory.boot_time data) as [p|]; cbn [vopt time_of Inventory.boot_time republished];
    by rewrite Hb.
Qed.

(** Re-publication is silent: publishing the inventory of an agent again, later
    and with a boot time that moved by at most five seconds, succeeds under the same
    id and adds nothing to the history. *)
Theorem republished_inventory_no_history (data : Inventory.ServerInventoryCreate) (d d1 : db)
  (sid : Z) (t : datetime) (b : option datetime)
  (W : wf d) (Hup : upsert_server data (quiet_session d d) = (Ok sid, quiet_session d d1))
  (Hb : boot_time_changed (Inventory.boot_time data) b = false) :
  ∃ d2, upsert_server (republished data t b) (quiet_session d1 d1) = (Ok sid, quiet_session d1 d2)
    ∧ tables d2 ServerInventoryHistory = tables d1 ServerInventoryHistory.
Proof.
  destruct (upsert_server_run data d d W) as (sid' & d1' & E & U).
  rewrite Hup in E. injection E as <- <-.
  assert (inv_session (sound d) (quiet_session d d)) as HI.
  { split; [by apply sound_refl|by apply sound_refl|constructor]. }
  apply (keeps_upsert_server d data) in HI. rewrite Hup in HI.
  destruct (inv_current _ _ HI) as [W1 _]. cbn in W1.
  destruct (up_row _ _ _ _ U) as (r & Hr & Hid & Hcols).
  pose proof (Hcols "agent_id"%string _ (inventory_row_agent data)) as Ha.
  destruct (upsert_server_run (republished data t b) d1 d1 W1) as (sid2 & d2 & E2 & U2).
  pose proof (up_same _ _ _ _ U2 r Hr Ha) as Hid2. rewrite Hid in Hid2. injection Hid2 as <-.
  exists d2. split; [exact E2|].
  apply (up_history_same _ _ _ _ U2 r Hr Ha). by apply republished_unchanged.
Qed.

Lemma republished_inventory_no_history_witness :
  boot_time_changed (Inventory.boot_time sample_placeholder) (Some 1690000003000000) = false ∧
  ∃ d2, upsert_server (republished sample_placeholder 1700000060000000 (Some 1690000003000000))
          (quiet_session
             (current (snd (upsert_server sample_placeholder (quiet_session empty_db empty_db))))
             (current (snd (upsert_server sample_placeholder (quiet_session empty_db empty_db)))))
        = (Ok 1, quiet_session
             (current (snd (upsert_server sample_placeholder (quiet_session empty_db empty_db)))) d2)
    ∧ tables d2 ServerInventoryHistory = tables
        (current (snd (upsert_server sample_placeholder (quiet_session empty_db empty_db))))
        ServerInventoryHistory.
Proof.
  assert (boot_time_changed (Inventory.boot_time sample_placeholder) (Some 1690000003000000) = false)
    as Hb by (vm_compute; reflexivity).
  split; [exact Hb|].
  refine (republished_inventory_no_history sample_placeholder empty_db _ 1 _ _ empty_db_wf _ Hb).
  reflexivity.
Defined.

(** ** Retries *)

(** The retry loop is bounded and honest: it waits at most twice, in intervals
    bounded by 2 and then 4 seconds (six seconds for a message at worst), it does not
    touch Redis, and it gives up early only on an error that is not a database
    failure or that a retry cannot heal; a transient failure is reported only after
    the third attempt. *)
Theorem db_retry_bounded {R T} orig (fn : eff session T) (w : world R) :
  let out := _db_retry orig fn w in
  w_redis (snd out) = w_redis w
  ∧ ∃ waits, w_slept (snd out) = w_slept w ++ waits ∧ waits ∈ [[]; [2]; [2; 4]]
    ∧ ∀ e, fst out = Raise e →
        db_failure e = false ∨ permanent e = true ∨ waits = [2; 4].
Proof.
  cbn zeta.
  destruct (db_retry_post (R := R) orig fn (λ _, True) (λ _ _, True)) with (w := w)
    as (Hr & k & Hs & Hk & Hout); [|done|].
  { intros s _. by destruct (with_session _ s) as [[a|e] s']. }
  split; [done|]. exists (take k [2; 4]). split; [done|].
  assert (k = 0 ∨ k = 1 ∨ k = 2)%nat as Hk' by (cbn in Hk; lia).
  split; [destruct Hk' as [->|[->| ->]]; in_list|].
  intros e He. rewrite He in Hout. destruct Hout as [_ [[?|?]| ->]]; auto.
Qed.

Example ambiguous_run_waits : w_slept (snd ambiguous_run) = [2].
Proof. vm_compute. reflexivity. Qed.

(** ** Deliveries *)

Section deliveries.
Context {R : Type} `{RedisLaws R}.
Variables (orig : dbapi_error → option string) (isp : ascii → bool)
  (validate : string → list validation_error + MetricsInput).

Abbreviation handler := (make_metrics_handler orig isp validate).
Abbreviation idem_check data r :=
  (safe_set_nx (redis_key_idempotent (message_id (envelope data))) "1" redis_ttl_idempotent r).

(** C24. Fail-open: what becomes of a valid metrics message that Redis does not
report as a duplicate - the acknowledgement and the database - is decided by the
retried transaction alone, whatever Redis does, an outage of every command
included; a body that fails validation is rejected without touching either
store. *)
Theorem metrics_delivery_fail_open (body : string) (w : world R) :
  (∀ data dto, validate body = inr data → fst (idem_check data (w_redis w)) ≠ Ok (Some false) →
   to_metric_create data = Ok dto →
   let out := retry_db 2 (save_metrics (env_agent_id (envelope data))
                (build_placeholder_inventory data) dto) (w_db w) in
   fst (process handler body w) = (if is_ok (fst out) then Acked else Rejected)
   ∧ w_db (snd (process handler body w)) = snd out)
  ∧ (∀ errs, validate body = inl errs →
     fst (process handler body w) = Rejected
     ∧ w_db (snd (process handler body w)) = w_db w
     ∧ w_redis (snd (process handler body w)) = w_redis w).
Proof.
  unfold process, make_metrics_handler. split.
  - intros data dto Hv Hd Hm. rewrite (in_context_inr _ _ _ _ _ _ _ Hv).
  destruct (store_metrics_run orig data w dto Hd Hm) as (w' & -> & E). cbn zeta.
  destruct (fst (retry_db _ _ _)); cbn; by rewrite E.
  - intros errs Hv.
  destruct (in_context_inl isp validate "metrics" (store_metrics orig) body errs w Hv)
    as (e & w' & -> & E1 & E2). cbn. by rewrite E1, E2.
Qed.

Lemma log_time_invariants_quiet (env : Envelope) (w : world R) :
  (∀ started, env_agent_started_at env = Some started →
     later_than (env_boot_time env) started = false ∧ started <= env_collected_at env) →
  _log_time_invariants env w = (Ok tt, w).
Proof.
  intros Hc. unfold _log_time_invariants. destruct (env_agent_started_at env) as [s|]; [|done].
  destruct (Hc s eq_refl) as [-> Hs%Z.leb_le]. cbn. by rewrite Hs.
Qed.

(** C25. A message is handled once per idempotency key - including a message whose
handling failed: when the transaction of a first delivery fails (its clock raising
no warning: an agent that says when it started did so after the boot and not after the
collection), the message is rejected to the dead-letter queue with its key set, and
a later delivery of it, the database healthy again and the key not expired, is
acknowledged without any effect on the database. *)
Theorem failed_message_replay_is_dropped (body : string) (data : MetricsInput) dto
  (w : world R) r1 e
  (Hv : validate body = inr data) (Hm : to_metric_create data = Ok dto)
  (Hclock : ∀ started, env_agent_started_at (envelope data) = Some started →
     later_than (env_boot_time (envelope data)) started = false
     ∧ started <= env_collected_at (envelope data))
  (Hfirst : redis_set_nx (redis_key_idempotent (message_id (envelope data))) "1"
            redis_ttl_idempotent (w_redis w) = (Ok true, r1))
  (Hfail : fst (retry_db 2 (save_metrics (env_agent_id (envelope data))
           (build_placeholder_inventory data) dto) (w_db w)) = Raise e) :
  fst (process handler body w) = Rejected
  ∧ ∀ w2 b r2, w_redis w2 = w_redis (snd (process handler body w)) →
    redis_set_nx (redis_key_idempotent (message_id (envelope data))) "1"
      redis_ttl_idempotent (w_redis w2) = (Ok b, r2) →
    fst (process handler body w2) = Acked ∧ w_db (snd (process handler body w2)) = w_db w2.
Proof.
  assert (idem_check data (w_redis w) = (Ok (Some true), r1)) as Hidem.
  { unfold safe_set_nx, except_redis, try_except, mbind, eff_bind. by rewrite Hfirst. }
  assert (∃ w1, store_metrics orig data w = (Raise e, w1) ∧ w_redis w1 = r1) as (w1 & E1 & Er).
  { set (w0 := World r1 (w_db w) (w_log w) (w_slept w)).
  assert (_check_idempotent (message_id (envelope data)) w = (Ok true, w0)) as Ec.
  { unfold _check_idempotent, on_redis. rewrite bind_run, Hidem. done. }
  assert (_log_time_invariants (envelope data) w0 = (Ok tt, w0)) as Et
    by by apply log_time_invariants_quiet.
  assert (lift (to_metric_create data) w0 = (Ok dto, w0)) as El by by rewrite Hm.
  unfold store_metrics. rewrite (bind_ok _ _ _ _ _ Ec). cbn [negb].
  rewrite (bind_ok _ _ _ _ _ Et), (bind_ok _ _ _ _ _ El).
  destruct (db_retry_pure orig (save_metrics (env_agent_id (envelope data))
    (build_placeholder_inventory data) dto) w0) as (w3 & E3 & _ & Hr).
  rewrite bind_run, E3. change (w_db w0) with (w_db w). rewrite Hfail. by exists w3. }
  split.
  - unfold process, make_metrics_handler. rewrite (in_context_inr _ _ _ _ _ _ _ Hv). by rewrite E1.
  - intros w2 b r2 Hw2 Hset. unfold process, make_metrics_handler in *.
  rewrite (in_context_inr _ _ _ _ _ _ w2 Hv).
  rewrite (in_context_inr _ _ _ _ _ _ w Hv), E1 in Hw2. cbn in Hw2.
  destruct (store_metrics_duplicate orig data w2) as (w4 & -> & E4); [|cbn; by rewrite E4].
  apply set_nx_ok in Hset as Hb. rewrite Hw2, Er in Hb.
  apply set_nx_ok in Hfirst as Hv1. destruct (view (w_redis w) !! _); [by destruct Hv1|].
  destruct Hv1 as [_ Hv1]. rewrite Hv1, lookup_insert_eq in Hb. destruct Hb as [-> _].
  unfold safe_set_nx, except_redis, try_except, mbind, eff_bind. by rewrite Hset.
Qed.
End deliveries.

(** A Redis server that is down for every command of the message *)
Definition down_world : world MapRedis :=
  World {| mr_keys := ∅; mr_outages := replicate 20 true |}
        {| committed := empty_db; current := empty_db; script := [] |} [] [].

Lemma metrics_delivery_fail_open_witness :
  fst (process (make_metrics_handler no_orig any_printable (accepts sample_message)) "" down_world)
  = Acked.
Proof.
  assert (to_metric_create sample_message = Ok sample_dto) as Hm by reflexivity.
  assert (fst (safe_set_nx (redis_key_idempotent (message_id (envelope sample_message))) "1"
    redis_ttl_idempotent (w_redis down_world)) ≠ Ok (Some false)) as Hd
    by (vm_compute; discriminate).
  pose proof (proj1 (proj1 (metrics_delivery_fail_open no_orig any_printable
    (accepts sample_message) "" down_world) sample_message sample_dto eq_refl Hd Hm)) as H.
  exact (eq_trans H ltac:(vm_compute; reflexivity)).
Defined.

(** The sample message without a start time, and a database that refuses the first
    statement for good *)
Definition punctual_message : MetricsInput := {|
  envelope := {| message_id := "77aa"; env_agent_id := "a1"; env_collected_at := 5;
                 env_composite_id := None; env_machine_id := None; env_agent_version := None;
                 env_boot_time := Some 1; env_agent_started_at := Some 2; env_os_family := "linux" |};
  system_cpu := None; system_memory := None; system_disk := None; system_network := None;
  system_paging := None; system_filesystem := None; system_pressure := None |}.

Definition punctual_dto : Metric.ServerMetricCreate :=
  match to_metric_create punctual_message with Ok d => d | Raise _ => sample_dto end.

Definition refusal : exn :=
  DBAPIError {| dbe_class := SaProgrammingError; dbe_sqlstate := Some "42501"%string |}.

Definition refusing_world : world MapRedis :=
  fresh_world [{| st_others := id; st_fault := Some refusal; st_applied := false |}].

Definition punctual_handler : string → eff (world MapRedis) unit :=
  make_metrics_handler no_orig any_printable (accepts punctual_message).

Definition redis_after_refusal : MapRedis :=
  w_redis (snd (process punctual_handler "" refusing_world)).

Lemma failed_message_replay_is_dropped_witness :
  fst (process punctual_handler "" refusing_world) = Rejected
  ∧ let w2 := World redis_after_refusal (w_db (fresh_world [])) [] [] in
    fst (process punctual_handler "" w2) = Acked
    ∧ w_db (snd (process punctual_handler "" w2)) = w_db w2.
Proof.
  set (r1 := {| mr_keys := {["idempotent:77aa"%string := "1"%string]}; mr_outages := [] |}).
  assert (redis_set_nx (redis_key_idempotent "77aa") "1" redis_ttl_idempotent
    (w_redis refusing_world) = (Ok true, r1)) as Hfirst by (vm_compute; reflexivity).
  assert (fst (retry_db 2 (save_metrics "a1" (build_placeholder_inventory punctual_message)
    punctual_dto) (w_db refusing_world)) = Raise refusal) as Hfail by (vm_compute; reflexivity).
  assert (redis_set_nx (redis_key_idempotent "77aa") "1" redis_ttl_idempotent redis_after_refusal
    = (Ok false, r1)) as Hsecond by (vm_compute; reflexivity).
  assert (∀ started, env_agent_started_at (envelope punctual_message) = Some started →
    later_than (env_boot_time (envelope punctual_message)) started = false
    ∧ started <= env_collected_at (envelope punctual_message)) as Hclock by by intros s [= <-].
  pose proof (failed_message_replay_is_dropped no_orig any_printable (accepts punctual_message) ""
    punctual_message punctual_dto refusing_world r1 refusal eq_refl eq_refl Hclock Hfirst Hfail)
    as [H1 H2].
  split; [exact H1|].
  exact (H2 (World redis_after_refusal (w_db (fresh_world [])) [] []) false r1 eq_refl Hsecond).
Defined.
