(* ===== verification/TaskProps.v ===== *)
(** * Tasks, policies and messages: the properties

    The life of a task row, the verdict on a task result, the text of log lines and
    the keys of a parsed message. *)

From S2P Require Import Prelude PyFloat Redis Sql SqlFacts Inbound CollectDb CollectFacts Wire PyText DbRetry StoreFacts CollectRuns Handlers HandlerFacts.

(** ** The life of a task *)

(** A task result that does not ask for the pending status cannot break the index. *)
Lemma complete_pending_unique (cond : row → bool) (upd : row) d :
  wf d → (∀ r : row, is_pending (upd ∪ r) = false) →
  pending_unique (set_table Task ((λ r : row, if cond r then upd ∪ r else r) <$> tables d Task) d) = true.
Proof.
  intros W Hu. pose proof (wf_pending d W) as Hp. unfold pending_unique in *.
  apply bool_decide_eq_true in Hp. apply bool_decide_eq_true. rewrite tables_set_same.
  eapply sublist_NoDup; [exact Hp|]. apply fmap_sublist. clear Hp.
  generalize (tables d Task). intros l. induction l as [|r l IH]; [done|].
  cbn [fmap list_fmap]. rewrite !filter_cons. destruct (cond r).
  - rewrite decide_False by (rewrite Hu; done).
    destruct (decide _); [by apply sublist_cons|done].
  - destruct (decide _); [by apply sublist_skip|done].
Qed.

Lemma count_exists (p : row → bool) l :
  (0 <? Z.of_nat (length (filter (λ r, p r = true) l))) = existsb p l.
Proof.
  induction l as [|r l IH]; [done|]. rewrite filter_cons. cbn [existsb].
  destruct (p r); [done|exact IH].
Qed.

(** The columns a task result sets *)
Definition result_columns (data : TaskDto.TaskResultUpdate) : row := dict [
  ("status", VStr (TaskDto.status data)); ("completed_at", VTime (TaskDto.completed_at data));
  ("failure_reason", vopt VStr (TaskDto.failure_reason data));
  ("exit_code", vopt VInt (TaskDto.exit_code data));
  ("signal_no", vopt VInt (TaskDto.signal_no data));
  ("task_policy", vopt VBool (TaskDto.task_policy data));
  ("duration_ms", VInt (TaskDto.duration_ms data));
  ("stdout_tail", VStr (TaskDto.stdout_tail data));
  ("stderr_tail", VStr (TaskDto.stderr_tail data))]%string.

Definition task_named (id : string) (r : row) : bool := bool_decide (col r "public_id" = VStr id).

(** A task result is stored: on a well-formed database, a result whose status is
    not "pending" is written to exactly the task it names, whatever the state that
    task is in (a result that arrives after the deadline overwrites the timeout), no
    other task and no other table changes, the stored columns are the reported ones
    under the verdict of the policy, and the answer tells whether the task exists. *)
Theorem task_result_stored codes (id : string) (data : TaskResultInput) (d : db)
  (W : wf d)
  (Hs : TaskDto.status (task_result_update codes id data) ≠ "pending"%string) :
  let upd := task_result_update codes id data in
  ∃ d', complete_task upd (quiet_session d d)
      = (Ok (existsb (task_named id) (tables d Task)), quiet_session d d')
    ∧ wf d'
    ∧ (∀ m, m ≠ Task → tables d' m = tables d m)
    ∧ (∀ r, r ∈ tables d Task → task_named id r = false → r ∈ tables d' Task)
    ∧ (∀ r, r ∈ tables d Task → task_named id r = true →
         ∃ r', r' ∈ tables d' Task
           ∧ (∀ k v, result_columns upd !! k = Some v → col r' k = v)
           ∧ (∀ k, result_columns upd !! k = None → col r' k = col r k)).
Proof.
  cbn zeta. set (upd := task_result_update codes id data) in *.
  assert (TaskDto.public_id upd = id) as Hid.
  { unfold upd, task_result_update. by destruct (effective_task_result _ _ _ _ _ _ _ _). }
  set (d' := set_table Task ((λ r : row, if task_named id r then result_columns upd ∪ r else r)
               <$> tables d Task) d).
  assert (pending_unique d' = true) as Hp.
  { apply complete_pending_unique; [done|]. intros r. unfold is_pending.
    rewrite (col_union_some _ _ _ (VStr (TaskDto.status upd))) by reflexivity.
    apply bool_decide_eq_false. congruence. }
  assert (under_index pending_unique (update_where Task
     (λ _ r, bool_decide (col r "public_id" = VStr (TaskDto.public_id upd)))
     (λ _, result_columns upd)) d
     = Ok (Z.of_nat (length (filter (λ r, task_named id r = true) (tables d Task))), d')) as E.
  { unfold under_index, update_where. rewrite Hid. cbn [mbind result_bind].
    change (set_table Task _ d) with d'. by rewrite Hp. }
  exists d'. split; [|split; [|split; [|split]]].
  - unfold complete_task. fold (result_columns upd).
    rewrite (bind_ok _ _ _ _ _ (execute_quiet _ d _ _ _ E)), ret_run.
    by rewrite count_exists.
  - by apply (set_tasks_ok d _ (next_id d) (db_now d) W).
  - intros m Hm. by apply tables_set_other.
  - intros r Hr Hn. unfold d'. rewrite tables_set_same. apply list_elem_of_fmap.
    exists r. by rewrite Hn.
  - intros r Hr Hn. exists (result_columns upd ∪ r). split.
    + unfold d'. rewrite tables_set_same. apply list_elem_of_fmap. exists r. by rewrite Hn.
    + split; intros k; [intros v Hk; by apply col_union_some|intros Hk; by apply col_union_none].
Qed.

Definition pending_task : row := dict [("public_id", VStr "00000000-0000-0000-0000-00000000000a");
  ("target_server_id", VInt 1); ("task_type", VStr "install"); ("status", VStr "pending");
  ("deadline_at", VTime 500)]%string.

Definition task_db : db :=
  {| tables := λ m, if decide (m = Task) then [pending_task] else []; next_id := 2;
     db_now := 1000 |}.

Lemma task_db_wf : wf task_db.
Proof.
  split; cbn; try (by constructor).
  - intros m key Hk. destruct m; try done; (split; [done|constructor]).
  - intros m r Hm Hr. destruct m; cbn in *; try done; by apply not_elem_of_nil in Hr.
  - split; [done|constructor].
Qed.

Definition sample_result : TaskResultInput := {|
  tr_message_id := "77"; task_id := "00000000-0000-0000-0000-00000000000a";
  tr_status := "failure"; tr_failure_reason := Some "script_failed"%string;
  tr_exit_code := Some 2; tr_signal_no := None; tr_task_policy := None;
  tr_duration_ms := 1500; tr_stdout_tail := "done"; tr_stderr_tail := "";
  tr_completed_at := 900; tr_os_family := "windows"; tr_os_version := Some "10.0"%string;
  tr_os_id := None |}.

Lemma task_result_stored_witness :
  let upd := task_result_update task_install_success_exit_codes
    "00000000-0000-0000-0000-00000000000a" sample_result in
  TaskDto.status upd = "success"%string
  ∧ ∃ d' r', complete_task upd (quiet_session task_db task_db)
      = (Ok true, quiet_session task_db d')
    ∧ r' ∈ tables d' Task ∧ col r' "status" = VStr "success" ∧ col r' "exit_code" = VInt 2
    ∧ col r' "deadline_at" = VTime 500.
Proof.
  assert (Hs : TaskDto.status (task_result_update task_install_success_exit_codes
    "00000000-0000-0000-0000-00000000000a" sample_result) = "success"%string) by (vm_compute; reflexivity).
  split; [exact Hs|].
  destruct (task_result_stored task_install_success_exit_codes
    "00000000-0000-0000-0000-00000000000a" sample_result task_db task_db_wf
    ltac:(rewrite Hs; discriminate)) as (d' & E & _ & _ & _ & Hupd).
  destruct (Hupd pending_task (list_elem_of_here _ _) eq_refl) as (r' & Hr & Hk & Hn).
  exists d', r'. split; [exact E|]. split; [exact Hr|]. split; [by apply Hk|].
  split; [by apply Hk|]. by rewrite Hn.
Defined.

(** The rows a sweep leaves: the overdue pending tasks of [sel] have failed, the
    others are what they were. *)
Definition swept (sel : row → bool) (d : db) : list row :=
  (λ r, if sel r && overdue d r then timeout_values d ∪ r else r) <$> tables d Task.

Definition overdue_count (sel : row → bool) (d : db) : Z :=
  Z.of_nat (length (filter (λ r, sel r && overdue d r = true) (tables d Task))).

Lemma timed_out_settled d d2 r : overdue d2 (timeout_values d ∪ r) = false.
Proof.
  unfold overdue, is_pending.
  rewrite (col_union_some _ _ "status" (VStr "failure")) by reflexivity. by apply andb_false_iff; left.
Qed.

Lemma swept_again sel d d2 :
  db_now d2 = db_now d → tables d2 Task = swept sel d →
  overdue_count sel d2 = 0 ∧ swept sel d2 = tables d2 Task.
Proof.
  intros Hnow Ht. unfold overdue_count, swept. rewrite Ht. unfold swept.
  assert (∀ r, sel (if sel r && overdue d r then timeout_values d ∪ r else r)
    && overdue d2 (if sel r && overdue d r then timeout_values d ∪ r else r) = false) as Hno.
  { intros r. destruct (sel r && overdue d r) eqn:E; [apply andb_false_iff; right; apply timed_out_settled|].
    rewrite <- E. unfold overdue. by rewrite Hnow. }
  clear Ht. generalize (tables d Task). intros l.
  induction l as [|r l [IH1 IH2]]; [by cbn [fmap list_fmap]|].
  cbn [fmap list_fmap]. rewrite filter_cons, Hno. rewrite decide_False by discriminate.
  split; [exact IH1|]. f_equal. exact IH2.
Qed.

Lemma sweep_run sel d :
  wf d →
  let d' := set_table Task (swept sel d) d in
  update_where Task (λ d r, sel r && overdue d r) timeout_values d = Ok (overdue_count sel d, d')
  ∧ wf d'.
Proof.
  intros W d'. split; [done|].
  refine (proj1 (expire_stmt_ok (λ d r, sel r && overdue d r) _ d (overdue_count sel d) d' W _));
    [|done].
  intros d0 r H. unfold overdue in H. by to_prop.
Qed.

(** What a sweep over the selected tasks does to the database *)
Record sweeps (sel : row → bool) (run : eff session Z) (d d' : db) : Prop := {
  sw_run : run (quiet_session d d) = (Ok (overdue_count sel d), quiet_session d d');
  sw_wf : wf d';
  sw_tasks : tables d' Task = swept sel d;
  sw_frame m : m ≠ Task → tables d' m = tables d m;
  sw_now : db_now d' = db_now d;
}.

Definition any_task : row → bool := λ _, true.

Lemma expire_all_sweeps d :
  wf d → sweeps any_task expire_all_overdue_tasks d (set_table Task (swept any_task d) d).
Proof.
  intros W. destruct (sweep_run any_task d W) as [E W']. 
  apply (Build_sweeps _ _ _ _ (execute_quiet _ d d _ _ E) W' (tables_set_same _ _ _)
    (λ m, tables_set_other _ m _ _) eq_refl).
Qed.

Definition task_of (ids : list Z) (r : row) : bool := int_in (col r "target_server_id") ids.

Lemma expire_ids_sweeps ids d :
  wf d → ∃ d', sweeps (task_of ids) (expire_overdue_tasks ids) d d'.
Proof.
  intros W. destruct ids as [|id ids].
  - exists d. assert (∀ r, task_of [] r = false) as Hno
      by (intros r; unfold task_of, int_in; by destruct (col r _)).
    assert (swept (task_of []) d = tables d Task) as Hs.
    { unfold swept. induction (tables d Task) as [|r l IH]; [done|]. cbn [fmap list_fmap].
      rewrite Hno. cbn. by f_equal. }
    assert (overdue_count (task_of []) d = 0) as Hc.
    { unfold overdue_count. clear Hs. induction (tables d Task) as [|r l IH]; [done|].
      rewrite filter_cons, Hno. exact IH. }
    split; try done. by rewrite Hc.
  - exists (set_table Task (swept (task_of (id :: ids)) d) d).
    destruct (sweep_run (task_of (id :: ids)) d W) as [E W']. 
    apply (Build_sweeps _ _ _ _ (execute_quiet _ d d _ _ E) W' (tables_set_same _ _ _)
      (λ m, tables_set_other _ m _ _) eq_refl).
Qed.

(** The reaper's sweep: on a well-formed database it fails, with the reason
    "timeout" and the database's clock, exactly the pending tasks whose deadline is
    set and strictly past, reports their number, keeps every other task and every
    other table as it was, and leaves nothing for a second sweep at the same time;
    the sweep a page view makes is the same sweep restricted to its servers. *)
Theorem overdue_sweep_exact (ids : list Z) (d : db) (W : wf d) :
  ∃ d_all d_mine d_again,
    sweeps any_task expire_all_overdue_tasks d d_all
    ∧ sweeps (task_of ids) (expire_overdue_tasks ids) d d_mine
    ∧ sweeps any_task expire_all_overdue_tasks d_all d_again
    ∧ overdue_count any_task d_all = 0
    ∧ (∀ m, tables d_again m = tables d_all m).
Proof.
  set (d_all := set_table Task (swept any_task d) d).
  pose proof (expire_all_sweeps d W) as Hall. fold d_all in Hall.
  destruct (expire_ids_sweeps ids d W) as [d_mine Hmine].
  pose proof (expire_all_sweeps d_all (sw_wf _ _ _ _ Hall)) as Hagain.
  destruct (swept_again any_task d d_all (sw_now _ _ _ _ Hall) (sw_tasks _ _ _ _ Hall))
    as [Hc Hs].
  exists d_all, d_mine, (set_table Task (swept any_task d_all) d_all).
  split; [exact Hall|]. split; [exact Hmine|]. split; [exact Hagain|]. split; [exact Hc|].
  intros m. destruct (decide (m = Task)) as [->|Hm].
  - by rewrite (sw_tasks _ _ _ _ Hagain).
  - by rewrite (sw_frame _ _ _ _ Hagain).
Qed.

Lemma overdue_sweep_exact_witness :
  ∃ d', expire_all_overdue_tasks (quiet_session task_db task_db)
      = (Ok 1, quiet_session task_db d')
    ∧ tables d' Task = [timeout_values task_db ∪ pending_task].
Proof.
  destruct (overdue_sweep_exact [1] task_db task_db_wf) as (d' & _ & _ & H & _).
  exists d'. split.
  - exact (sw_run _ _ _ _ H).
  - exact (sw_tasks _ _ _ _ H).
Defined.

(** ** One pending task per server and kind *)

Definition conflicting (data : TaskDto.TaskCreate) (r : row) : bool :=
  is_pending r && bool_decide (col r "target_server_id" = VInt (TaskDto.target_server_id data))
  && bool_decide (col r "task_type" = VStr (TaskDto.task_type data)).

(** Whether the pending index admits one more pending task *)
Lemma pending_unique_snoc d r sid kind n :
  pending_unique d = true → is_pending r = true →
  col r "target_server_id" = VInt sid → col r "task_type" = VStr kind →
  pending_unique {| tables := tables (set_table Task (tables d Task ++ [r]) d); next_id := n;
                    db_now := db_now d |}
  = negb (existsb (λ x, is_pending x && bool_decide (col x "target_server_id" = VInt sid)
                        && bool_decide (col x "task_type" = VStr kind)) (tables d Task)).
Proof.
  unfold pending_unique. intros Hd%bool_decide_eq_true Hr Hs Hk.
  change (tables {| tables := ?t; next_id := _; db_now := _ |} Task) with (t Task).
  rewrite tables_set_same, filter_app, filter_cons, decide_True, filter_nil, fmap_app by done.
  cbn [fmap list_fmap]. rewrite Hs, Hk. apply eq_true_iff_eq.
  rewrite negb_true_iff, bool_decide_eq_true, NoDup_app, <- not_true_iff_false, existsb_exists.
  split.
  - intros (_ & Hn & _) (x & Hx%list_elem_of_In & Hc). to_prop.
    apply (Hn (VInt sid, VStr kind)); [|by apply list_elem_of_singleton].
    apply list_elem_of_fmap. exists x. split; [congruence|]. by apply list_elem_of_filter.
  - intros Hn. split; [exact Hd|]. split; [|by apply NoDup_singleton].
    intros k (x & -> & [Hp Hx]%list_elem_of_filter)%list_elem_of_fmap [= E1 E2]%list_elem_of_singleton.
    apply Hn. exists x. split; [by apply list_elem_of_In|].
    rewrite Hp, E1, E2, !bool_decide_eq_true_2 by done. done.
Qed.

Lemma col_dict_some l c v : dict l !! c = Some v → col (dict l) c = v.
Proof. intros H. unfold col. by rewrite H. Qed.

Definition created_row (data : TaskDto.TaskCreate) (d : db) : row :=
  dict [("target_server_id", VInt (TaskDto.target_server_id data));
    ("target_agent_id", VStr (TaskDto.target_agent_id data));
    ("task_type", VStr (TaskDto.task_type data));
    ("params", VJson (default JNull (TaskDto.params data)));
    ("status", VStr "pending");
    ("deadline_at", vopt VTime (TaskDto.deadline_at data))]%string
  ∪ generated d ∪ dict [("created_at"%string, VTime (db_now d))].

Lemma created_row_cols data d :
  col (created_row data d) "status" = VStr "pending"
  ∧ col (created_row data d) "target_server_id" = VInt (TaskDto.target_server_id data)
  ∧ col (created_row data d) "task_type" = VStr (TaskDto.task_type data)
  ∧ col (created_row data d) "deadline_at" = vopt VTime (TaskDto.deadline_at data)
  ∧ col (created_row data d) "created_at" = VTime (db_now d).
Proof.
  unfold created_row. rewrite <- (assoc_L (∪)).
  split; [by apply col_union_some|]. split; [by apply col_union_some|].
  split; [by apply col_union_some|]. split; [by apply col_union_some|].
  rewrite !col_union_none by reflexivity. reflexivity.
Qed.

(** A task is created once: on a well-formed database, for a server that exists,
    creating a task fails with the unique violation exactly when a pending task of
    the same server and kind is there (the database is then what it was), and
    otherwise appends one pending task with the given columns and a fresh public
    id and keeps everything else; for a server that does not exist it fails with
    the foreign-key violation. *)
Theorem create_task_conflict (data : TaskDto.TaskCreate) (d : db) (W : wf d) :
  if negb (server_exists d (VInt (TaskDto.target_server_id data)))
  then create_task data (quiet_session d d) = (Raise (IntegrityError "23503"), quiet_session d d)
  else if existsb (conflicting data) (tables d Task)
  then create_task data (quiet_session d d) = (Raise (IntegrityError "23505"), quiet_session d d)
  else ∃ d' r, create_task data (quiet_session d d)
      = (Ok (pretty (next_id d)), quiet_session d d')
    ∧ wf d' ∧ tables d' Task = tables d Task ++ [r]
    ∧ (∀ m, m ≠ Task → tables d' m = tables d m)
    ∧ conflicting data r = true
    ∧ col r "deadline_at" = vopt VTime (TaskDto.deadline_at data)
    ∧ col r "created_at" = VTime (db_now d).
Proof.
  destruct (created_row_cols data d) as (Cs & Ct & Ck & Cd & Cc).
  unfold create_task.
  destruct (server_exists d (VInt (TaskDto.target_server_id data))) eqn:Hs; cbn [negb];
    [|apply execute_quiet_raise; unfold insert_task;
      rewrite (col_dict_some _ _ (VInt (TaskDto.target_server_id data))) by reflexivity;
      by rewrite Hs].
  assert (is_pending (created_row data d) = true) as Hp by (unfold is_pending; by rewrite Cs).
  pose proof (pending_unique_snoc d _ _ _ (next_id d + 1) (wf_pending d W) Hp Ct Ck) as Hu.
  fold (conflicting data) in Hu.
  set (d' := {| tables := tables (set_table Task (tables d Task ++ [created_row data d]) d);
                next_id := next_id d + 1; db_now := db_now d |}) in *.
  assert (∀ b, pending_unique d' = b → insert_task (dict [
      ("target_server_id", VInt (TaskDto.target_server_id data));
      ("target_agent_id", VStr (TaskDto.target_agent_id data));
      ("task_type", VStr (TaskDto.task_type data));
      ("params", VJson (default JNull (TaskDto.params data)));
      ("status", VStr "pending");
      ("deadline_at", vopt VTime (TaskDto.deadline_at data))]%string) d
    = if b then Ok (pretty (next_id d), d') else Raise (IntegrityError "23505")) as Hrun.
  { intros b <-. unfold insert_task.
    rewrite (col_dict_some _ _ (VInt (TaskDto.target_server_id data))) by reflexivity.
    rewrite Hs. reflexivity. }
  destruct (existsb (conflicting data) (tables d Task)) eqn:Hc.
  - apply execute_quiet_raise. exact (Hrun false Hu).
  - exists d', (created_row data d). specialize (Hrun true Hu).
    split; [exact (execute_quiet _ d d _ _ Hrun)|].
    split; [exact (proj1 (set_tasks_ok d _ (next_id d + 1) (db_now d) W ltac:(lia) Hu))|].
    split; [apply tables_set_same|]. split; [intros m Hm; by apply tables_set_other|].
    split; [|done]. unfold conflicting. by rewrite Hp, Ct, Ck, !bool_decide_eq_true_2.
Qed.

(** Server 1 with a pending install task *)
Definition busy_db : db :=
  {| tables := λ m, if decide (m = Task) then [pending_task]
       else if decide (m = ServerInventory) then
         [dict [("id", VInt 1); ("agent_id", VStr "0a1b")]%string]
       else [];
     next_id := 2; db_now := 100 |}.

Lemma busy_db_wf : wf busy_db.
Proof.
  split; cbn.
  - intros m key Hk. destruct m; try done; (split; [done|constructor]).
  - intros m r Hm Hr. destruct m; cbn in *; try done; by apply not_elem_of_nil in Hr.
  - split; [by repeat constructor|]. by apply NoDup_singleton.
  - by apply NoDup_singleton.
  - repeat constructor. exists 1. split; [reflexivity|lia].
  - vm_compute. reflexivity.
Qed.

Definition task_request (kind : string) : TaskDto.TaskCreate := {|
  TaskDto.target_server_id := 1; TaskDto.target_agent_id := "0a1b"; TaskDto.task_type := kind;
  TaskDto.params := None; TaskDto.deadline_at := Some 500 |}.

Lemma create_task_conflict_witness :
  create_task (task_request "install") (quiet_session busy_db busy_db)
    = (Raise (IntegrityError "23505"), quiet_session busy_db busy_db)
  ∧ ∃ d', create_task (task_request "collect") (quiet_session busy_db busy_db)
      = (Ok "2"%string, quiet_session busy_db d').
Proof.
  split.
  - pose proof (create_task_conflict (task_request "install") busy_db busy_db_wf) as H.
    assert (server_exists busy_db (VInt 1) = true) as E1 by (vm_compute; reflexivity).
    assert (existsb (conflicting (task_request "install")) (tables busy_db Task) = true) as E2
      by (vm_compute; reflexivity).
    cbn [TaskDto.target_server_id task_request] in H. rewrite E1, E2 in H. exact H.
  - pose proof (create_task_conflict (task_request "collect") busy_db busy_db_wf) as H.
    assert (server_exists busy_db (VInt 1) = true) as E1 by (vm_compute; reflexivity).
    assert (existsb (conflicting (task_request "collect")) (tables busy_db Task) = false) as E2
      by (vm_compute; reflexivity).
    cbn [TaskDto.target_server_id task_request] in H. rewrite E1, E2 in H.
    destruct H as (d' & r & H & _). exists d'. exact H.
Defined.

(** ** The verdict on a task result *)

(** The verdict on a task result: the agent's own check decides whenever it was
    made (a confirmed installation is a success whatever the exit code, an
    unconfirmed one a failure that keeps the reported reason and otherwise says
    "install_unverified"); without it the report stands as it is, except that a
    script that failed with an exit code the allow-list names for the host is a
    success. *)
Theorem effective_task_result_spec (status : string) (reason : option string)
    (exit_code : option Z) (family ver id : option string) (codes : gmap string (list Z))
    (policy : option bool) :
  let verdict := effective_task_result status reason exit_code family ver id codes policy in
  let allowed := ∃ code key l, exit_code = Some code ∧ key ∈ policy_keys family ver id
                   ∧ codes !! key = Some l ∧ code ∈ l in
  match policy with
  | Some true => verdict = ("success"%string, None)
  | Some false => verdict.1 = "failure"%string
      ∧ (∀ r, reason = Some r → r ≠ ""%string → verdict.2 = Some r)
      ∧ (reason = None ∨ reason = Some ""%string → verdict.2 = Some "install_unverified"%string)
  | None =>
      (status = "failure"%string ∧ reason = Some "script_failed"%string ∧ allowed
         → verdict = ("success"%string, None))
      ∧ (¬ (status = "failure"%string ∧ reason = Some "script_failed"%string ∧ allowed)
         → verdict = (status, reason))
  end.
Proof.
  cbn zeta. destruct policy as [[]|].
  - done.
  - split; [done|]. cbn. split.
    + intros r -> Hr. cbn. by destruct r.
    + by intros [-> | ->].
  - destruct (effective_task_result status reason exit_code family ver id codes None)
      as [s r] eqn:E.
    split.
    + intros (-> & -> & code & key & l & -> & Hk & Hl & Hc).
      unfold effective_task_result in E. cbn in E.
      rewrite bool_decide_eq_true_2 in E by done. cbn in E.
      replace (existsb _ _) with true in E; [by injection E as <- <-|].
      symmetry. apply existsb_exists. exists key. split; [by apply list_elem_of_In|].
      rewrite Hl. by apply mem_true.
    + intros Hn. apply effective_fallback in E as [[-> ->]|(-> & -> & Hf & Hr & code & key & l & H)];
        [done|].
      destruct Hn. split; [done|]. split; [done|]. by exists code, key, l.
Qed.

(** ** The text of a log line *)

Lemma all_chars_join printable sep l :
  all_chars printable sep = true → Forall (λ s, all_chars printable s = true) l →
  all_chars printable (str_join sep l) = true.
Proof.
  intros Hs Hl. induction Hl as [|s l Hx Hl IH]; [done|].
  destruct l as [|s' l]; [exact Hx|].
  change (str_join sep (s :: s' :: l))
    with (String.append s (String.append sep (str_join sep (s' :: l)))).
  by rewrite !all_chars_append, Hx, Hs, IH.
Qed.

Lemma sanitize_printable printable value limit :
  printable "~"%char = true → all_chars printable (_sanitize_log_text printable value limit) = true.
Proof.
  intros Ht. unfold _sanitize_log_text. destruct (Nat.leb _ _).
  - apply all_chars_filter.
  - rewrite all_chars_append, (all_chars_take _ _ _ (all_chars_filter _ _)). cbn. by rewrite Ht.
Qed.

Lemma sanitize_length printable value limit :
  (String.length (_sanitize_log_text printable value limit) <= S limit)%nat.
Proof.
  unfold _sanitize_log_text. destruct (Nat.leb _ _) eqn:E.
  - apply Nat.leb_le in E. lia.
  - rewrite length_append. pose proof (length_take_chars limit (filter_chars printable value)).
    cbn. lia.
Qed.

Lemma sanitize_id printable value limit :
  all_chars printable value = true → (String.length value <= limit)%nat →
  _sanitize_log_text printable value limit = value.
Proof.
  intros Hp Hl. unfold _sanitize_log_text.
  assert (filter_chars printable value = value) as ->.
  { clear Hl. induction value as [|c s IH]; [done|]. cbn in *. to_prop. rewrite H. by rewrite IH. }
  by apply Nat.leb_le in Hl as ->.
Qed.

Definition ascii_printable (c : ascii) : bool :=
  let n := nat_of_ascii c in Nat.leb 32 n && Nat.leb n 126.

Lemma pretty_N_char_printable n : ascii_printable (pretty_N_char n) = true.
Proof.
  unfold pretty_N_char. destruct n as [|p]; [done|].
  do 4 (destruct p as [p|p|]; try done).
Qed.

Lemma pretty_printable p n :
  (∀ c, ascii_printable c = true → p c = true) → all_chars p (pretty (n : nat)) = true.
Proof.
  intros Hp.
  assert (∀ x acc, all_chars p acc = true → all_chars p (pretty_N_go x acc) = true) as Hgo.
  { intros x. induction x as [x IH] using (well_founded_induction N.lt_wf_0).
    intros acc Ha. destruct (decide (x = 0%N)) as [->|Hx].
    - by rewrite pretty_N_go_0.
    - rewrite pretty_N_go_step by lia. apply IH; [apply N.div_lt; lia|]. cbn.
      by rewrite (Hp _ (pretty_N_char_printable _)). }
  unfold pretty, pretty_nat, pretty, pretty_N. case_decide; [|by apply Hgo].
  cbn. by rewrite Hp.
Qed.

(** A rejected message cannot forge the log: for any notion of printable that
    includes printable ASCII, the text reported for a message that fails validation
    holds printable characters only, whatever keys the agent put into the message;
    each agent-chosen part of a location takes at most 49 characters; and a
    printable part of up to 48 characters is reported verbatim. *)
Theorem rejection_text_safe (printable : ascii → bool) (errors : list validation_error)
  (Hp : ∀ c, ascii_printable c = true → printable c = true)
  (Ht : Forall (λ e, all_chars printable (err_type e) = true) errors) :
  all_chars printable (_format_validation_err printable errors) = true
  ∧ (∀ part, (String.length (_sanitize_loc_part printable part) <= 49)%nat)
  ∧ (∀ part, all_chars printable part = true → (String.length part <= 48)%nat →
       _sanitize_loc_part printable part = part).
Proof.
  split; [|split; [intros; apply sanitize_length|intros; by apply sanitize_id]].
  unfold _format_validation_err. rewrite !all_chars_append, pretty_printable by done.
  assert (∀ c, ascii_printable c = true → all_chars printable (String c "") = true) as H1
    by (intros c Hc; cbn; by rewrite Hp).
  rewrite (all_chars_join printable " " ((λ it, String.append
      (str_join "." (_sanitize_loc_part printable <$> loc it)) (String.append "=" (err_type it)))
      <$> take _VALIDATION_ERR_LIMIT errors)); [|by apply H1|].
  - cbn [all_chars]. rewrite !Hp by done. cbn [andb].
    destruct (Nat.ltb _ _); [|done]. rewrite !all_chars_append, pretty_printable by done.
    cbn. by rewrite !Hp.
  - apply Forall_fmap. apply (Forall_take _ _VALIDATION_ERR_LIMIT) in Ht.
    eapply Forall_impl; [exact Ht|]. intros e He. cbn beta. unfold compose.
    rewrite !all_chars_append, He, andb_true_r. cbn [all_chars]. rewrite Hp by done.
    rewrite !andb_true_r. apply all_chars_join; [by apply H1|].
    apply Forall_fmap, Forall_true. intros x. apply sanitize_printable. by apply Hp.
Qed.

Lemma rejection_text_safe_witness :
  all_chars ascii_printable (_format_validation_err ascii_printable
    [{| loc := ["metrics"; String "010"%char "forged line"]; err_type := "float_type" |}]%string)
  = true.
Proof.
  apply (rejection_text_safe ascii_printable
    [{| loc := ["metrics"; String "010"%char "forged line"]; err_type := "float_type" |}]%string).
  - by intros c Hc.
  - by repeat constructor.
Defined.
