(* ===== verification/WireProps.v ===== *)
(** * The wire: what the series of a metrics message become

    The properties of the parser [Wire.to_metric_create]. *)

From S2P Require Import Prelude PyFloat Inbound Wire.

Lemma map_result_ok {A B} (f : A → result B) l ys :
  map_result f l = Ok ys → Forall2 (λ x y, f x = Ok y) l ys.
Proof.
  revert ys. induction l as [|x l IH]; intros ys; cbn; [by intros [= <-]|].
  destruct (f x) as [y|] eqn:E; cbn; [|done].
  destruct (map_result f l) as [ys'|]; cbn; [|done]. intros [= <-]. constructor; auto.
Qed.

(** Steps through a chain of fallible computations that succeeded *)
Ltac ok_steps :=
  cbv zeta; repeat lazymatch goal with
  | |- mbind _ ?m = Ok _ → _ => destruct m eqn:?; cbn [mbind result_bind]; [|discriminate]
  end.

(** A series whose entries carry the name they were built for *)
Lemma map_result_names {A B} (f : A → result B) (name : B → A) l ys :
  (∀ x y, f x = Ok y → name y = x) → map_result f l = Ok ys → name <$> ys = l.
Proof.
  intros Hn H%map_result_ok. induction H as [|x y l ys E H IH]; [done|]. cbn.
  by rewrite (Hn _ _ E), IH.
Qed.

(** A point of one of the lists names [dev] under [key]. *)
Definition named (lists : list (list Datapoint)) (key dev : string) : Prop :=
  ∃ p, p ∈ concat lists ∧ _attr_key (attr p !! key) = Some dev.

Lemma distinct_spec lists key :
  NoDup (_distinct lists key) ∧ (∀ dev, dev ∈ _distinct lists key ↔ named lists key dev).
Proof.
  split; [apply NoDup_dedup_first|]. intros dev. unfold _distinct, named.
  rewrite elem_of_dedup_first, list_elem_of_omap. naive_solver.
Qed.

Lemma disk_io_names ns l :
  _build_disk_io ns = Ok l → DiskIo.device_id <$> l =
    _distinct [_points ns "disk.io"; _points ns "disk.operations"; _points ns "disk.io_time";
               _points ns "disk.operation_time"; _points ns "disk.pending_operations"] "device".
Proof.
  apply map_result_names. intros dev y.
  ok_steps. by intros [= <-].
Qed.

Lemma net_io_names ns l :
  _build_net_io ns = Ok l → NetIo.iface_id <$> l =
    _distinct [_points ns "network.io"; _points ns "network.packets"; _points ns "network.errors";
               _points ns "network.dropped"; _points ns "network.link.speed"] "device".
Proof.
  apply map_result_names. intros dev y.
  ok_steps. by intros [= <-].
Qed.

Lemma filesystem_names ns l :
  _build_filesystems ns = Ok l → Filesystem.mountpoint <$> l =
    _distinct [_points ns "filesystem.usage"; _points ns "filesystem.inodes.usage"] "mountpoint".
Proof.
  apply map_result_names. intros mp y.
  ok_steps. by intros [= <-].
Qed.

Definition pressure_key (e : Pressure.PressureEntry) : string * string :=
  (Pressure.resource e, Pressure.scope e).

Lemma pressure_names ns :
  pressure_key <$> _build_pressure ns = dedup_first (omap (λ p,
    match _attr_key (attr p !! "resource"%string), _attr_key (attr p !! "scope"%string) with
    | Some r, Some s => Some (r, s)
    | _, _ => None
    end) (_points ns "pressure.stall.ratio" ++ _points ns "pressure.stall.time")).
Proof.
  unfold _build_pressure. rewrite <- list_fmap_compose.
  rewrite <- (list_fmap_id (dedup_first _)) at 2. apply list_fmap_ext. by intros _ [r s] _.
Qed.

(** The series of a parsed message *)
Lemma to_metric_create_series data dto :
  to_metric_create data = Ok dto →
  _build_disk_io (system_disk data) = Ok (Metric.disk_io dto)
  ∧ _build_net_io (system_network data) = Ok (Metric.net_io dto)
  ∧ _build_filesystems (system_filesystem data) = Ok (Metric.filesystems dto)
  ∧ _build_disk_errors (system_disk data) = Ok (Metric.disk_errors dto)
  ∧ Metric.pressure dto = _build_pressure (system_pressure data)
  ∧ Metric.collected_at dto = env_collected_at (envelope data).
Proof.
  unfold to_metric_create. ok_steps. by intros [= <-].
Qed.

Lemma series_names {A} (name : A → string) (l : list A) lists key :
  name <$> l = _distinct lists key →
  NoDup (name <$> l) ∧ (∀ dev, dev ∈ name <$> l ↔ named lists key dev).
Proof. intros ->. apply distinct_spec. Qed.

(** The series of a metrics message: whenever a message is mapped, its disk, network,
    file system and pressure entries carry pairwise different names (so that no entry
    can be lost to the natural key of its table within one message), there is an entry
    for exactly the names some datapoint of the series carries, and the reading
    keeps the collection time of the message. *)
Theorem series_entries_distinct (data : MetricsInput) (dto : Metric.ServerMetricCreate)
  (H : to_metric_create data = Ok dto) :
  let disk := _points (system_disk data) in
  let net := _points (system_network data) in
  let fs := _points (system_filesystem data) in
  let pr := _points (system_pressure data) in
  (NoDup (DiskIo.device_id <$> Metric.disk_io dto)
    ∧ ∀ dev, dev ∈ DiskIo.device_id <$> Metric.disk_io dto ↔
        named [disk "disk.io"; disk "disk.operations"; disk "disk.io_time";
               disk "disk.operation_time"; disk "disk.pending_operations"]%string "device" dev)
  ∧ (NoDup (NetIo.iface_id <$> Metric.net_io dto)
    ∧ ∀ dev, dev ∈ NetIo.iface_id <$> Metric.net_io dto ↔
        named [net "network.io"; net "network.packets"; net "network.errors";
               net "network.dropped"; net "network.link.speed"]%string "device" dev)
  ∧ (NoDup (Filesystem.mountpoint <$> Metric.filesystems dto)
    ∧ ∀ mp, mp ∈ Filesystem.mountpoint <$> Metric.filesystems dto ↔
        named [fs "filesystem.usage"; fs "filesystem.inodes.usage"]%string "mountpoint" mp)
  ∧ (NoDup (pressure_key <$> Metric.pressure dto)
    ∧ ∀ r s, (r, s) ∈ pressure_key <$> Metric.pressure dto ↔
        ∃ p, p ∈ pr "pressure.stall.ratio"%string ++ pr "pressure.stall.time"%string
          ∧ _attr_key (attr p !! "resource"%string) = Some r
          ∧ _attr_key (attr p !! "scope"%string) = Some s)
  ∧ Metric.collected_at dto = env_collected_at (envelope data).
Proof.
  apply to_metric_create_series in H as (Hd & Hn & Hf & _ & Hp & Hc). cbn zeta.
  split; [by apply series_names, disk_io_names|].
  split; [by apply series_names, net_io_names|].
  split; [by apply series_names, filesystem_names|].
  split; [|exact Hc]. rewrite Hp, pressure_names. split; [apply NoDup_dedup_first|].
  intros r s. rewrite elem_of_dedup_first, list_elem_of_omap. split.
  - intros (p & Hin & Hk). exists p. split; [exact Hin|].
    destruct (_attr_key _), (_attr_key _); naive_solver.
  - intros (p & Hin & Hr & Hs). exists p. split; [exact Hin|]. by rewrite Hr, Hs.
Qed.

Definition wire_point (attrs : list (string * attr_val)) (v : Z) : Datapoint :=
  {| attr := list_to_map attrs; value := Some (of_Z v) |}.

(** A message with two disks, each named by several points *)
Definition two_disks : MetricsInput := {|
  envelope := {|
    message_id := "9"; env_agent_id := "0a1b2c3d-0000-4000-8000-0123456789ab";
    env_collected_at := 1700000000000000; env_composite_id := None; env_machine_id := None;
    env_agent_version := None; env_boot_time := None; env_agent_started_at := None;
    env_os_family := "linux" |};
  system_cpu := None; system_memory := None;
  system_disk := Some (list_to_map [
    ("disk.io"%string, {| points := [
       wire_point [("device", AStr "sda"); ("direction", AStr "read")]%string 10;
       wire_point [("device", AStr "sda"); ("direction", AStr "write")]%string 20] |});
    ("disk.io_time"%string, {| points := [
       wire_point [("device", AStr "sdb")]%string 30;
       wire_point [("device", AStr "sda")]%string 40] |})]);
  system_network := None; system_paging := None; system_filesystem := None;
  system_pressure := None |}.

Lemma series_entries_distinct_witness :
  ∃ dto, to_metric_create two_disks = Ok dto
    ∧ DiskIo.device_id <$> Metric.disk_io dto = ["sda"; "sdb"]%string
    ∧ NoDup (DiskIo.device_id <$> Metric.disk_io dto).
Proof.
  destruct (to_metric_create two_disks) as [dto|] eqn:E; [|by vm_compute in E].
  exists dto. split; [reflexivity|].
  pose proof (series_entries_distinct two_disks dto E) as ((Hn & _) & _).
  split; [|exact Hn]. revert E. vm_compute. by intros [= <-].
Defined.
