(* ===== verification/Queue.v ===== *)
(** * The report job queue

    Models the table of [db/models/diagnostic_job.py], the repository
    [db/repositories/diagnostic_sql.py], [web/services/report_result.py] and the
    service [web/services/diagnostic_service.py] under [src/assessment_engine].

    A job row is a record; the status column takes the four values the code writes.
    The statements are functions on the table; the service runs them in sessions
    ([Sql.gsession]), so that faults and other transactions can come between any
    two of them.  [json.dumps] and [sha256] are parameters: the code uses them as
    functions and nothing else. *)

From stdpp Require Import sorting.
From S2P Require Import Prelude PyFloat Sql PyText.

(** ** The table *)

Inductive JobStatus := pending | running | succeeded | failed.

#[export] Instance JobStatus_eq_dec : EqDecision JobStatus.
Proof. solve_decision. Defined.

Module Job.
Record DiagnosticJob := {
  id : string;
  job_type : string;
  scope : string;
  input_params : json;
  input_hash : string;
  status : JobStatus;
  progress_stage : option string;
  result : option json;
  error_message : option string;
  created_at : datetime;
  started_at : option datetime;
  finished_at : option datetime;
  requested_by : option string;
}.
End Job.
Abbreviation DiagnosticJob := Job.DiagnosticJob.

#[export] Instance DiagnosticJob_eq_dec : EqDecision DiagnosticJob.
Proof. solve_decision. Defined.

Module NewJob.
Record DiagnosticJobCreate := {
  scope : string;
  input_params : json;
  input_hash : string;
  job_type : string;
  requested_by : option string;
}.
End NewJob.

(** The committed table, the rows other transactions hold a lock on, the source of
    generated ids and the clock *)
Record jobs_db := {
  jobs : list DiagnosticJob;
  locked : list string;
  next_job : Z;
  jobs_now : datetime;
}.

Definition set_jobs (l : list DiagnosticJob) (d : jobs_db) : jobs_db :=
  {| jobs := l; locked := locked d; next_job := next_job d; jobs_now := jobs_now d |}.

(** [status IN ('pending', 'running')] *)
Definition active (j : DiagnosticJob) : bool := mem (Job.status j) [pending; running].

(** The columns of the partial unique index *)
Definition job_key (j : DiagnosticJob) : string * string * string :=
  (Job.scope j, Job.input_hash j, Job.job_type j).

Definition new_key (c : NewJob.DiagnosticJobCreate) : string * string * string :=
  (NewJob.scope c, NewJob.input_hash c, NewJob.job_type c).

Definition active_under (key : string * string * string) (j : DiagnosticJob) : bool :=
  active j && bool_decide (job_key j = key).

(** ** Statements *)

Definition jstmt (A : Type) : Type := jobs_db → Prelude.result (A * jobs_db).

Definition job_id_of (n : Z) : string := pretty n.

Definition inserted_job (c : NewJob.DiagnosticJobCreate) (d : jobs_db) : DiagnosticJob := {|
  Job.id := job_id_of (next_job d); Job.job_type := NewJob.job_type c;
  Job.scope := NewJob.scope c; Job.input_params := NewJob.input_params c;
  Job.input_hash := NewJob.input_hash c; Job.status := pending;
  Job.progress_stage := Some "queued"%string; Job.result := None; Job.error_message := None;
  Job.created_at := jobs_now d; Job.started_at := None; Job.finished_at := None;
  Job.requested_by := NewJob.requested_by c |}.

(** [INSERT ... ON CONFLICT (scope, input_hash, job_type) WHERE active DO NOTHING
    RETURNING id] *)
Definition enqueue_stmt (c : NewJob.DiagnosticJobCreate) : jstmt (option string) := λ d,
  if existsb (active_under (new_key c)) (jobs d) then Ok (None, d)
  else Ok (Some (job_id_of (next_job d)),
    {| jobs := jobs d ++ [inserted_job c d]; locked := locked d;
       next_job := next_job d + 1; jobs_now := jobs_now d |}).

Definition active_by_hash (key : string * string * string) (d : jobs_db) : option string :=
  Job.id <$> find (active_under key) (jobs d).

(** [UPDATE diagnostic_jobs SET ... WHERE id = job_id]; the number of rows *)
Definition update_job (job_id : string) (f : DiagnosticJob → DiagnosticJob) (d : jobs_db) : Z * jobs_db :=
  (Z.of_nat (length (filter (λ j, Job.id j = job_id) (jobs d))),
   set_jobs ((λ j, if bool_decide (Job.id j = job_id) then f j else j) <$> jobs d) d).

Definition set_succeeded (r : json) (now : datetime) (j : DiagnosticJob) : DiagnosticJob := {|
  Job.id := Job.id j; Job.job_type := Job.job_type j; Job.scope := Job.scope j;
  Job.input_params := Job.input_params j; Job.input_hash := Job.input_hash j;
  Job.status := succeeded; Job.progress_stage := None; Job.result := Some r;
  Job.error_message := Job.error_message j; Job.created_at := Job.created_at j;
  Job.started_at := Job.started_at j; Job.finished_at := Some now;
  Job.requested_by := Job.requested_by j |}.

Definition set_failed (msg : string) (now : datetime) (j : DiagnosticJob) : DiagnosticJob := {|
  Job.id := Job.id j; Job.job_type := Job.job_type j; Job.scope := Job.scope j;
  Job.input_params := Job.input_params j; Job.input_hash := Job.input_hash j;
  Job.status := failed; Job.progress_stage := None; Job.result := Job.result j;
  Job.error_message := Some msg; Job.created_at := Job.created_at j;
  Job.started_at := Job.started_at j; Job.finished_at := Some now;
  Job.requested_by := Job.requested_by j |}.

Definition set_active (st : JobStatus) (started : option datetime) (stage : string)
    (j : DiagnosticJob) : DiagnosticJob := {|
  Job.id := Job.id j; Job.job_type := Job.job_type j; Job.scope := Job.scope j;
  Job.input_params := Job.input_params j; Job.input_hash := Job.input_hash j;
  Job.status := st; Job.progress_stage := Some stage; Job.result := Job.result j;
  Job.error_message := Job.error_message j; Job.created_at := Job.created_at j;
  Job.started_at := started; Job.finished_at := Job.finished_at j;
  Job.requested_by := Job.requested_by j |}.

(** The first of the rows that come first by [created_at] *)
Fixpoint oldest (l : list DiagnosticJob) : option DiagnosticJob :=
  match l with
  | [] => None
  | j :: l' =>
      match oldest l' with
      | Some k => if Job.created_at k <? Job.created_at j then Some k else Some j
      | None => Some j
      end
  end.

(** [WHERE status = 'pending' ... FOR UPDATE SKIP LOCKED] *)
Definition claimable (d : jobs_db) (j : DiagnosticJob) : bool :=
  bool_decide (Job.status j = pending) && negb (mem (Job.id j) (locked d)).

Definition next_claim (d : jobs_db) : option DiagnosticJob :=
  oldest (filter (λ j, claimable d j = true) (jobs d)).

(** [started_at < now() - stale_seconds]; NULL compares as false *)
Definition stale (stale_seconds : Z) (d : jobs_db) (j : DiagnosticJob) : bool :=
  bool_decide (Job.status j = running)
  && match Job.started_at j with
     | Some t => t <? jobs_now d - stale_seconds * 1000000
     | None => false
     end.

(** [UPDATE ... SET status = 'succeeded' ... WHERE id = job_id]: no condition on the
    present status *)
Definition mark_succeeded_stmt (job_id : string) (r : json) : jstmt unit := λ d,
  Ok (tt, snd (update_job job_id (set_succeeded r (jobs_now d)) d)).

Definition mark_failed_stmt (job_id error_message : string) : jstmt unit := λ d,
  Ok (tt, snd (update_job job_id (set_failed error_message (jobs_now d)) d)).

Definition recover_stmt (stale_seconds : Z) : jstmt Z := λ d,
  Ok (Z.of_nat (length (filter (λ j, stale stale_seconds d j = true) (jobs d))),
      set_jobs ((λ j, if stale stale_seconds d j
                      then set_active pending None "requeued" j else j) <$> jobs d) d).

(** ** The repository *)

Section repository.
Abbreviation db_session := (gsession jobs_db).

Definition enqueue (c : NewJob.DiagnosticJobCreate) : eff db_session (option string) :=
  execute (enqueue_stmt c).

Definition get_active_by_hash (scope input_hash job_type : string) : eff db_session (option string) :=
  execute (λ d, Ok (active_by_hash (scope, input_hash, job_type) d, d)).

Definition get_by_id (job_id : string) : eff db_session (option DiagnosticJob) :=
  execute (λ d, Ok (find (λ j, bool_decide (Job.id j = job_id)) (jobs d), d)).

Definition mark_succeeded (job_id : string) (r : json) : eff db_session unit :=
  execute (mark_succeeded_stmt job_id r).

Definition mark_failed (job_id error_message : string) : eff db_session unit :=
  execute (mark_failed_stmt job_id error_message).

(** [SELECT ... FOR UPDATE SKIP LOCKED LIMIT 1], the flush of the changed row and its
refresh.  The lock on the row lasts to the end of the transaction: no other
transaction changes it between the three statements, which are one step here. *)
Definition claim_stmt : jstmt (option DiagnosticJob) := λ d,
  match next_claim d with
  | None => Ok (None, d)
  | Some row =>
    let d' := snd (update_job (Job.id row) (set_active running (Some (jobs_now d)) "running") d) in
    Ok (find (λ j, bool_decide (Job.id j = Job.id row)) (jobs d'), d')
  end.

Definition claim_next_pending : eff db_session (option DiagnosticJob) := execute claim_stmt.

Definition recover_stale_running (stale_seconds : Z) : eff db_session Z :=
  execute (recover_stmt stale_seconds).

Definition delete_retention (older_than_days : Z) : eff db_session Z :=
  execute (λ d,
  let old j := match Job.finished_at j with
               | Some t => t <? jobs_now d - older_than_days * 86400000000
               | None => false
               end in
  Ok (Z.of_nat (length (filter (λ j, old j = true) (jobs d))),
      set_jobs (filter (λ j, old j = false) (jobs d)) d)).
End repository.

(** *** The issue history *)

(** [d[k]] and [d.get(k)] of a JSON object *)
Definition json_find (k : string) (j : json) : option json :=
  match j with
  | JObj kvs => snd <$> find (λ kv, bool_decide (kv.1 = k)) kvs
  | _ => None
  end.

(** A stable sort by [created_at], newest first ([ORDER BY created_at DESC], and
    [list.sort(key=created_at, reverse=True)]) *)
Fixpoint insert_desc (j : DiagnosticJob) (l : list DiagnosticJob) : list DiagnosticJob :=
  match l with
  | [] => [j]
  | k :: l' => if Job.created_at j <? Job.created_at k then k :: insert_desc j l' else j :: l
  end.

Definition newest_first (l : list DiagnosticJob) : list DiagnosticJob := foldr insert_desc [] l.

(** [input_params->>'server_public_id' = ANY (ids)] or
    [input_params->'server_public_ids' ?| ids] *)
Definition about_servers (ids : list string) (j : DiagnosticJob) : bool :=
  match json_find "server_public_id" (Job.input_params j) with
  | Some (JStr s) => mem s ids
  | _ => false
  end
  || match json_find "server_public_ids" (Job.input_params j) with
     | Some (JArr l) => existsb (λ v, match v with JStr s => mem s ids | _ => false end) l
     | Some (JStr s) => mem s ids
     | Some (JObj kvs) => existsb (λ kv, mem kv.1 ids) kvs
     | _ => false
     end.

Definition opt_eqb (o : option string) (s : string) : bool :=
  match o with None => true | Some x => String.eqb x "" || String.eqb x s end.

Definition recent (days : Z) (scope : option string) (server_public_ids : option (list string))
    (job_type : option string) (d : jobs_db) (j : DiagnosticJob) : bool :=
  (negb (0 <? days) || (jobs_now d - days * 86400000000 <? Job.created_at j))
  && opt_eqb scope (Job.scope j) && opt_eqb job_type (Job.job_type j)
  && match server_public_ids with
     | None | Some [] => true
     | Some ids => about_servers ids j
     end.

Definition list_recent (days : Z) (scope : option string)
    (server_public_ids : option (list string)) (job_type : option string) (limit : nat)
    : eff (gsession jobs_db) (list DiagnosticJob) :=
  execute (λ d, Ok (take limit (newest_first
    (filter (λ j, recent days scope server_public_ids job_type d j = true) (jobs d))), d)).

Definition LIST_RECENT_LIMIT : nat := 200.

(** [len(r.input_params.get("server_public_ids", []))] *)
Definition n_servers (j : DiagnosticJob) : nat :=
  match json_find "server_public_ids" (Job.input_params j) with
  | Some (JArr l) => length l
  | Some (JObj kvs) => length kvs
  | Some (JStr s) => String.length s
  | _ => 0
  end.

(** ** Issuing a report *)

Definition REPORT_KIND_ENV : string := "env_report".

(** [sorted] on strings, by code points *)
Definition sorted_strs (l : list string) : list string := merge_sort String.le l.

Definition _build_input_params (view scope : string) (server_public_ids : list string)
    (time_range : string) (anchor_at : datetime) : json :=
  let params := [("view", JStr view); ("server_public_ids", JArr (JStr <$> sorted_strs server_public_ids));
                 ("time_range", JStr time_range); ("anchor_at", JStr (isoformat anchor_at))]%string in
  jobj (params ++ match server_public_ids with
                  | [pid] => if String.eqb scope "server"
                             then [("server_public_id"%string, JStr pid)] else []
                  | _ => []
                  end).

Definition build_report_result (kind : string) (snapshot : json) (view : string) (aux : option json)
    : json :=
  jobj [("kind", JStr kind); ("snapshot", snapshot); ("view", JStr view);
        ("aux", match aux with
                | None | Some (JObj []) | Some JNull => JObj []
                | Some a => a
                end)]%string.

(** [result["child_jobs"] = child_jobs] *)
Definition json_set (k : string) (v : json) (j : json) : json :=
  match j with JObj kvs => JObj (insert_key k v kvs) | _ => j end.

(** An aware datetime is an instant, so conversion to UTC is the identity here; a
    naive one is read as UTC. *)
Definition normalize_anchor (now : datetime) (at_ : option datetime) : datetime :=
  let t := default now at_ in t - t mod 60000000.

Definition _ENQUEUE_MAX_ATTEMPTS : nat := 2.

Section service.
(** [json.dumps(_, sort_keys=True, separators=(",", ":"))] and the hexadecimal
digest of [hashlib.sha256] *)
Variable json_dumps : json → string.
Variable sha256 : string → string.

Definition compute_hash (scope : string) (params : json) : string :=
  sha256 (String.append scope (String.append "|" (json_dumps params))).

Definition job_create (view scope : string) (server_public_ids : list string)
  (time_range : string) (anchor_at : datetime) (requested_by : option string)
  : NewJob.DiagnosticJobCreate :=
  let input_params := _build_input_params view scope server_public_ids time_range anchor_at in
  {| NewJob.scope := scope; NewJob.input_params := input_params;
   NewJob.input_hash := compute_hash scope input_params;
   NewJob.job_type := String.append view "_report"; NewJob.requested_by := requested_by |}.

Definition emit_report (view scope kind : string) (snapshot : json)
  (server_public_ids : list string) (time_range : string) (anchor_at : datetime)
  (aux child_jobs : option json) (requested_by : option string)
  : eff (gsession jobs_db) (option string) :=
  let c := job_create view scope server_public_ids time_range anchor_at requested_by in
  let base := build_report_result kind snapshot view aux in
  let r := match child_jobs with
         | None | Some (JObj []) => base
         | Some m => json_set "child_jobs" m base
         end in
  with_session (
  new_id ← enqueue c;
  match new_id with
  | None =>
      active_id ← get_active_by_hash scope (NewJob.input_hash c) (NewJob.job_type c);
      _ ← rollback;
      mret active_id
  | Some id =>
      _ ← mark_succeeded id r;
      _ ← commit;
      mret (Some id)
  end).

(** One attempt: the id of the new job, or of the active job it conflicts with *)
Definition enqueue_once (c : NewJob.DiagnosticJobCreate) : eff (gsession jobs_db) (option string) :=
  with_session (
  new_id ← enqueue c;
  match new_id with
  | Some id => _ ← commit; mret (Some id)
  | None =>
      active_id ← get_active_by_hash (NewJob.scope c) (NewJob.input_hash c) (NewJob.job_type c);
      _ ← rollback;
      mret active_id
  end).

Fixpoint enqueue_attempts (n : nat) (c : NewJob.DiagnosticJobCreate)
  : eff (gsession jobs_db) string :=
  match n with
  | O => raise (ReportEnqueueError "enqueue conflict unresolved")
  | S n' =>
    found ← enqueue_once c;
    match found with
    | Some id => mret id
    | None => enqueue_attempts n' c
    end
  end.

Definition enqueue_report (view scope : string) (server_public_ids : list string)
  (time_range : string) (anchor_at : datetime) (requested_by : option string)
  : eff (gsession jobs_db) string :=
  enqueue_attempts _ENQUEUE_MAX_ATTEMPTS
  (job_create view scope server_public_ids time_range anchor_at requested_by).
End service.

(** ** The worker's side *)

Definition claim_pending : eff (gsession jobs_db) (option DiagnosticJob) :=
  with_session (rec ← claim_next_pending; _ ← commit; mret rec).

Definition finish_succeeded (job_id : string) (r : json) : eff (gsession jobs_db) unit :=
  with_session (_ ← mark_succeeded job_id r; commit).

Definition finish_failed (job_id error_message : string) : eff (gsession jobs_db) unit :=
  with_session (_ ← mark_failed job_id error_message; commit).

Definition recover_stale (stale_seconds : Z) : eff (gsession jobs_db) Z :=
  with_session (n ← recover_stale_running stale_seconds; _ ← commit; mret n).

Definition get_report_snapshot (job_id : string) : eff (gsession jobs_db) (option DiagnosticJob) :=
  with_session (get_by_id job_id).

Definition list_reports (days : Z) (view : string) (server_public_ids : option (list string))
    (limit : nat) (scope : option string)
    : eff (gsession jobs_db) (list DiagnosticJob * nat) :=
  let repo_scope := match scope with
                    | Some s => if mem s ["selection"; "single"]%string
                                then Some "server"%string else scope
                    | None => None
                    end in
  with_session (
    merged ← (if String.eqb view "all"
              then customer ← list_recent days repo_scope server_public_ids
                                (Some "customer_report"%string) LIST_RECENT_LIMIT;
                   engineer ← list_recent days repo_scope server_public_ids
                                (Some "engineer_report"%string) LIST_RECENT_LIMIT;
                   mret (customer ++ engineer)
              else list_recent days repo_scope server_public_ids
                     (Some (String.append view "_report")) LIST_RECENT_LIMIT);
    let merged :=
      if bool_decide (scope = Some "selection"%string)
      then filter (λ r, Nat.leb 2 (n_servers r) = true) merged
      else if bool_decide (scope = Some "single"%string)
      then filter (λ r, Nat.eqb (n_servers r) 1 = true) merged
      else merged in
    mret (take limit (newest_first merged), length merged)).
