(* ===== verification/Reports.v ===== *)
(** * Report generation and the background loops

    Models [web/services/report_generator.py], [worker/report_worker.py] and
    [worker/task_reaper.py] under [src/assessment_engine].

    What a report contains comes from the query service, the read side of the
    program: an interface here, whose operations may return anything, raise anything
    and change their own state in any way.  A loop runs until its stop event is set;
    how many rounds that takes is an argument.  [CancelledError] is the one exception
    [except Exception] does not catch. *)

From S2P Require Import Prelude PyFloat Sql PyText Inbound CollectDb DbRetry Queue.

(** ** Attention signals *)

Record AttentionRow := {
  badge_class : string;
  badge_text : string;
  link_href : string;
  link_text : string;
  mount_path : option string;
  meta_text : string;
  meta_at : option datetime;
  eol_days_over : option Z;
}.

Record AttentionSignals := {
  gap_warnings : list AttentionRow;
  os_eol_warnings : list AttentionRow;
  agent_unstable : list AttentionRow;
}.

(** [for row in rows: if row.link_text == hostname: out[key] = text(row)] *)
Definition note_host (hostname key : string) (text : AttentionRow → string)
    (rows : list AttentionRow) (out : gmap string string) : gmap string string :=
  foldl (λ out row, if String.eqb (link_text row) hostname then <[key := text row]> out else out)
    out rows.

Definition attention_for_host (hostname : string) (attention : AttentionSignals)
    : gmap string string :=
  note_host hostname "restart" badge_text (agent_unstable attention)
    (note_host hostname "os_eol" meta_text (os_eol_warnings attention)
      (note_host hostname "gap" badge_text (gap_warnings attention) ∅)).

(** [for row in rows: if row.link_text in by_host: by_host[row.link_text][key] = text(row)] *)
Definition note_hosts (key : string) (text : AttentionRow → string) (rows : list AttentionRow)
    (by_host : gmap string (gmap string string)) : gmap string (gmap string string) :=
  foldl (λ m row, match m !! link_text row with
                  | Some d => <[link_text row := <[key := text row]> d]> m
                  | None => m
                  end) by_host rows.

Definition attention_by_host (hostnames : gset string) (attention : AttentionSignals)
    : gmap string (gmap string string) :=
  note_hosts "restart" badge_text (agent_unstable attention)
    (note_hosts "os_eol" meta_text (os_eol_warnings attention)
      (note_hosts "gap" badge_text (gap_warnings attention) (gset_to_gmap ∅ hostnames))).

Definition json_of_dict {A} (f : A → json) (m : gmap string A) : json :=
  jobj ((λ kv, (kv.1, f kv.2)) <$> map_to_list m).

(** ** The read side *)

Class QueryService (Q : Type) := {
  (** [EnvironmentReportSummary], with what the code reads from it *)
  summary : Type;
  overview_total : summary → Z;
  row_hostnames : summary → list string;
  env_report_to_dict : summary → json;
  get_environment_report : string → datetime → string → eff Q summary;
  resolve_server_ids : list string → eff Q (gmap string Z);
  get_attention_signals : datetime → eff Q AttentionSignals;
  get_single_server_report : string → string → string → datetime → AttentionSignals →
    eff Q (option summary);
  build_child_prefetched_reports : list string → gmap string Z → string → string → datetime →
    AttentionSignals → eff Q (list (string * option summary));
  get_selection_report : list string → string → string → datetime → eff Q (option summary);
}.

(** ** The state of a loop *)

Record loop_world (S : Type) := LoopWorld {
  lw_store : S;
  lw_log : list (level * string);
  (** the waits between rounds *)
  lw_waits : Z;
}.
Arguments LoopWorld {S} _ _ _.
Arguments lw_store {S} _.
Arguments lw_log {S} _.
Arguments lw_waits {S} _.

Definition on_store {S A} (m : eff S A) : eff (loop_world S) A := λ w,
  let '(r, s) := m (lw_store w) in (r, LoopWorld s (lw_log w) (lw_waits w)).

Definition wlog {S} (l : level) (msg : string) : eff (loop_world S) unit := λ w,
  (Ok tt, LoopWorld (lw_store w) (lw_log w ++ [(l, msg)]) (lw_waits w)).

Definition sleep_or_stop {S} : eff (loop_world S) unit := λ w,
  (Ok tt, LoopWorld (lw_store w) (lw_log w) (lw_waits w + 1)).

(** [try: m except Exception as e: h(e)] *)
Definition except_Exception {S A} (m : eff S A) (h : exn → eff S A) : eff S A :=
  try_except m (λ e, if bool_decide (e = CancelledError) then raise e else h e).

(** ** Generating a report *)

Definition DIAGNOSTIC_DEFAULT_TIME_RANGE : string := "14d".

(** [p[key]] read as a string; the queue stores strings there *)
Definition str_field (key : string) (p : json) : Prelude.result string :=
  match json_find key p with
  | None => Raise (KeyError key)
  | Some (JStr s) => Ok s
  | Some _ => Raise TypeError
  end.

Definition strs_field (key : string) (p : json) : Prelude.result (list string) :=
  match json_find key p with
  | None => Raise (KeyError key)
  | Some (JArr l) => mapM (λ v, match v with JStr s => Ok s | _ => Raise TypeError end) l
  | Some _ => Raise TypeError
  end.

Section worker.
Context {Q : Type} `{QueryService Q}.
Variable json_dumps : json → string.
Variable sha256 : string → string.

Definition store : Type := Q * gsession jobs_db.

Definition on_query {A} (m : eff Q A) : eff (loop_world store) A :=
  on_store (λ s, let '(r, q) := m s.1 in (r, (q, s.2))).

Definition on_jobs {A} (m : eff (gsession jobs_db) A) : eff (loop_world store) A :=
  on_store (λ s, let '(r, j) := m s.2 in (r, (s.1, j))).

(** [{"attention_for_host": ...}] of one report *)
Definition host_aux (summary : summary) (pid : string) (attention : AttentionSignals) : json :=
  let hostname := match row_hostnames summary with h :: _ => h | [] => pid end in
  jobj [("attention_for_host"%string, json_of_dict JStr (attention_for_host hostname attention))].

Fixpoint emit_children (view time_range : string) (anchor : datetime)
  (attention : AttentionSignals) (children : list (string * option summary))
  (child_jobs : gmap string string) : eff (loop_world store) (gmap string string) :=
  match children with
  | [] => mret child_jobs
  | (pid, None) :: children' =>
    emit_children view time_range anchor attention children' child_jobs
  | (pid, Some child) :: children' =>
    cid ← on_jobs (emit_report json_dumps sha256 view "server" REPORT_KIND_ENV
                     (env_report_to_dict child) [pid] time_range anchor
                     (Some (host_aux child pid attention)) None None);
    emit_children view time_range anchor attention children'
      (match cid with
       | Some c => if String.eqb c "" then child_jobs else <[pid := c]> child_jobs
       | None => child_jobs
       end)
  end.

Definition build_report_result_for_job (record : DiagnosticJob) : eff (loop_world store) json :=
  let p := Job.input_params record in
  view ← lift (str_field "view" p);
  time_range ← lift (match json_find "time_range" p with
                   | None => Ok DIAGNOSTIC_DEFAULT_TIME_RANGE
                   | Some _ => str_field "time_range" p
                   end);
  anchor_text ← lift (str_field "anchor_at" p);
  anchor ← lift (fromisoformat anchor_text);
  if String.eqb (Job.scope record) "environment"
  then
  summary ← on_query (get_environment_report time_range anchor view);
  if overview_total summary =? 0
  then raise (ReportGenerationError "no registered servers")
  else mret (build_report_result REPORT_KIND_ENV (env_report_to_dict summary) view None)
  else
  ids ← lift (strs_field "server_public_ids" p);
  sid_map ← on_query (resolve_server_ids ids);
  let valid := filter (λ pid, is_Some (sid_map !! pid)) ids in
  match valid with
  | [] => raise (ReportGenerationError "no valid server ids")
  | pid :: others =>
      attention ← on_query (get_attention_signals anchor);
      match others with
      | [] =>
          found ← on_query (get_single_server_report pid view time_range anchor attention);
          match found with
          | None => raise (ReportGenerationError "server not found")
          | Some summary =>
              mret (build_report_result REPORT_KIND_ENV (env_report_to_dict summary) view
                      (Some (host_aux summary pid attention)))
          end
      | _ =>
          children ← on_query (build_child_prefetched_reports valid sid_map view time_range
                                 anchor attention);
          child_jobs ← emit_children view time_range anchor attention children ∅;
          selection ← on_query (get_selection_report valid view time_range anchor);
          match selection with
          | None => raise (ReportGenerationError "no valid server ids")
          | Some sel =>
              let aux := jobj [("attention_by_host"%string,
                json_of_dict (json_of_dict JStr)
                  (attention_by_host (list_to_set (row_hostnames sel)) attention))] in
              mret (json_set "child_jobs" (json_of_dict JStr child_jobs)
                (build_report_result REPORT_KIND_ENV (env_report_to_dict sel) view (Some aux)))
          end
      end
  end.

(** ** The report worker *)

Definition _process_one (rec : DiagnosticJob) : eff (loop_world store) unit :=
  try_except
  (r ← build_report_result_for_job rec;
   _ ← on_jobs (finish_succeeded (Job.id rec) r);
   wlog Info (String.append "report job generated job_id=" (Job.id rec)))
  (λ e,
    match e with
    | ReportGenerationError msg =>
        _ ← on_jobs (finish_failed (Job.id rec) msg);
        wlog Info (String.append "report job failed (generation) job_id=" (Job.id rec))
    | CancelledError => raise e
    | _ =>
        _ ← wlog Error (String.append "report job failed (internal) job_id=" (Job.id rec));
        on_jobs (finish_failed (Job.id rec) "internal error")
    end).

(** One round of the loop; [claim_pending] failing and finding nothing both wait. *)
Definition worker_round : eff (loop_world store) unit :=
  claimed ← except_Exception (Some <$> on_jobs claim_pending)
            (λ _, _ ← wlog Error "report worker claim failed"; mret None);
  match claimed with
  | None | Some None => sleep_or_stop
  | Some (Some rec) =>
    except_Exception (_process_one rec)
      (λ _, wlog Error (String.append "report worker process failed job_id=" (Job.id rec)))
  end.

Fixpoint rounds {S} (n : nat) (round : eff (loop_world S) unit) : eff (loop_world S) unit :=
  match n with
  | O => mret tt
  | Datatypes.S n' => _ ← round; rounds n' round
  end.

Definition run_report_worker (stale_seconds : Z) (until_stop : nat) : eff (loop_world store) unit :=
  _ ← except_Exception
      (recovered ← on_jobs (recover_stale stale_seconds);
       if recovered =? 0 then mret tt else wlog Info "report worker recovered stale running jobs")
      (λ _, wlog Error "report worker stale recovery failed at startup");
  _ ← wlog Info "report worker started";
  _ ← rounds until_stop worker_round;
  wlog Info "report worker stopped".
End worker.

(** ** The task reaper *)

Definition reaper_round : eff (loop_world (gsession db)) unit :=
  _ ← except_Exception
        (expired ← on_store (with_session (n ← expire_all_overdue_tasks; _ ← commit; mret n));
         if expired =? 0 then mret tt else wlog Info "install task reaper expired overdue pending")
        (λ _, wlog Error "install task reaper tick failed");
  sleep_or_stop.

Definition run_task_reaper (until_stop : nat) : eff (loop_world (gsession db)) unit :=
  _ ← wlog Info "install task reaper started";
  _ ← rounds until_stop reaper_round;
  wlog Info "install task reaper stopped".
