(* ===== verification/QueueFacts.v ===== *)
(** * The report job queue: well-formedness and the effect of each statement *)

From S2P Require Import Prelude PyFloat Sql SqlFacts Queue.

(** ** Rows *)

Definition terminal (j : DiagnosticJob) : Prop :=
  Job.status j = succeeded ∨ Job.status j = failed.

Lemma active_iff j : active j = true ↔ Job.status j = pending ∨ Job.status j = running.
Proof. unfold active. rewrite mem_true, elem_of_cons, list_elem_of_singleton. done. Qed.

Lemma active_terminal j : active j = false ↔ terminal j.
Proof.
  rewrite <- not_true_iff_false, active_iff. unfold terminal.
  destruct (Job.status j); intuition congruence.
Qed.

(** What each status says of the other columns *)
Definition coherent (j : DiagnosticJob) : Prop :=
  match Job.status j with
  | pending => Job.started_at j = None ∧ Job.finished_at j = None
      ∧ Job.result j = None ∧ Job.error_message j = None
  | running => Job.started_at j ≠ None ∧ Job.finished_at j = None
      ∧ Job.result j = None ∧ Job.error_message j = None
  | succeeded => Job.finished_at j ≠ None ∧ Job.result j ≠ None
  | failed => Job.finished_at j ≠ None ∧ Job.error_message j ≠ None
  end.

(** The same job at a later time: what identifies it is as it was, and a job that
    has ended has ended for good. *)
Record same_job (j j' : DiagnosticJob) : Prop := {
  sj_id : Job.id j' = Job.id j;
  sj_key : job_key j' = job_key j;
  sj_params : Job.input_params j' = Job.input_params j;
  sj_created : Job.created_at j' = Job.created_at j;
  sj_terminal : terminal j → terminal j';
}.

Lemma same_job_refl j : same_job j j.
Proof. by split. Qed.

Lemma same_job_trans j1 j2 j3 : same_job j1 j2 → same_job j2 j3 → same_job j1 j3.
Proof. intros [] []; split; try congruence; auto. Qed.

Lemma set_succeeded_same r now j : same_job j (set_succeeded r now j).
Proof. split; try done. intros _. by left. Qed.

Lemma set_failed_same msg now j : same_job j (set_failed msg now j).
Proof. split; try done. intros _. by right. Qed.

Lemma set_active_same st started stage j :
  active j = true → same_job j (set_active st started stage j).
Proof. intros Ha. split; try done. intros Ht%active_terminal. congruence. Qed.

(** ** The table *)

Record queue_wf (d : jobs_db) : Prop := {
  q_ids : NoDup (Job.id <$> jobs d);
  q_fresh j : j ∈ jobs d → ∃ n, 0 <= n < next_job d ∧ Job.id j = job_id_of n;
  q_active : NoDup (job_key <$> filter (λ j, active j = true) (jobs d));
  q_coherent j : j ∈ jobs d → coherent j;
  q_next : 0 <= next_job d;
}.

(** No job is lost, and none changes what it is. *)
Definition keeps_jobs (d d' : jobs_db) : Prop :=
  ∀ j, j ∈ jobs d → ∃ j', j' ∈ jobs d' ∧ same_job j j'.

#[export] Instance keeps_jobs_preorder : PreOrder keeps_jobs.
Proof.
  split.
  - intros d j Hj. exists j. split; [done|apply same_job_refl].
  - intros d1 d2 d3 H1 H2 j Hj. destruct (H1 j Hj) as (j2 & Hj2 & S1).
    destruct (H2 j2 Hj2) as (j3 & Hj3 & S2). exists j3. split; [done|].
    by eapply same_job_trans.
Qed.

Definition queue_sound (d0 d : jobs_db) : Prop := queue_wf d ∧ keeps_jobs d0 d.

Lemma queue_sound_refl d : queue_wf d → queue_sound d d.
Proof. by split. Qed.

Lemma job_id_inj m n : 0 <= m → 0 <= n → job_id_of m = job_id_of n → m = n.
Proof. unfold job_id_of. intros _ _ H. by apply (inj pretty). Qed.

(** ** Updating rows in place *)

(** A row-wise update that keeps identities, and makes no ended job active *)
Record row_update (h : DiagnosticJob → DiagnosticJob) (d : jobs_db) : Prop := {
  ru_same j : j ∈ jobs d → same_job j (h j);
  ru_coherent j : j ∈ jobs d → coherent j → coherent (h j);
}.

Lemma row_update_wf h d :
  queue_wf d → row_update h d → queue_sound d (set_jobs (h <$> jobs d) d).
Proof.
  intros W [Hs Hc]. split; [split; cbn|].
  - replace (Job.id <$> (h <$> jobs d)) with (Job.id <$> jobs d); [apply (q_ids d W)|].
    rewrite <- list_fmap_compose. apply list_fmap_ext. intros i j Hj. unfold compose.
    symmetry. apply (sj_id _ _ (Hs j (list_elem_of_lookup_2 _ _ _ Hj))).
  - intros x (j & -> & Hj)%list_elem_of_fmap. rewrite (sj_id _ _ (Hs j Hj)).
    by apply (q_fresh d W).
  - eapply sublist_NoDup; [exact (q_active d W)|]. clear W Hc.
    revert Hs. generalize (jobs d). intros l. induction l as [|j l IH]; intros Hs; [done|].
    cbn [fmap list_fmap]. rewrite !filter_cons.
    assert (Forall (λ j, same_job j (h j)) l) as Hl.
    { apply Forall_forall. intros x Hx. apply Hs. by apply list_elem_of_further. }
    specialize (IH (λ x Hx, Hs x (list_elem_of_further _ _ _ Hx))).
    pose proof (Hs j (list_elem_of_here _ _)) as S.
    destruct (decide (active (h j) = true)) as [Ha|Ha].
    + rewrite decide_True.
      * cbn [fmap list_fmap]. rewrite (sj_key _ _ S). by apply sublist_skip.
      * apply not_false_iff_true. intros Hf%active_terminal.
        apply (sj_terminal _ _ S) in Hf. apply active_terminal in Hf. congruence.
    + destruct (decide (active j = true)); [by apply sublist_cons|done].
  - intros x (j & -> & Hj)%list_elem_of_fmap. apply Hc; [done|]. by apply (q_coherent d W).
  - apply (q_next d W).
  - intros j Hj. exists (h j). split; [|by apply Hs]. apply list_elem_of_fmap. by exists j.
Qed.

Lemma cond_update_wf (p : DiagnosticJob → bool) h d :
  queue_wf d →
  (∀ j, j ∈ jobs d → p j = true → same_job j (h j) ∧ (coherent j → coherent (h j))) →
  queue_sound d (set_jobs ((λ j, if p j then h j else j) <$> jobs d) d).
Proof.
  intros W Hh. apply row_update_wf; [done|]. split; intros j Hj.
  - destruct (p j) eqn:E; [by apply Hh|apply same_job_refl].
  - destruct (p j) eqn:E; [by apply Hh|done].
Qed.

(** ** Each statement keeps the queue *)

Definition qstmt_ok {A} (q : jstmt A) : Prop :=
  ∀ d a d', queue_wf d → q d = Ok (a, d') → queue_sound d d'.

Lemma enqueue_ok c : qstmt_ok (enqueue_stmt c).
Proof.
  intros d a d' W. unfold enqueue_stmt. destruct (existsb _ _) eqn:E.
  { intros [= _ <-]. by apply queue_sound_refl. }
  intros [= _ <-]. pose proof (q_next d W) as Hn. split; [split; cbn|].
  - rewrite fmap_app. apply NoDup_app. split; [apply (q_ids d W)|]. split; [|apply NoDup_singleton].
    intros x (j & -> & Hj)%list_elem_of_fmap Hx%list_elem_of_singleton.
    destruct (q_fresh d W j Hj) as (n & Hlt & Hid). cbn in Hx. rewrite Hid in Hx.
    apply job_id_inj in Hx; lia.
  - intros j [Hj| ->%list_elem_of_singleton]%elem_of_app.
    + destruct (q_fresh d W j Hj) as (n & Hlt & Hid). exists n. split; [lia|done].
    + exists (next_job d). split; [lia|done].
  - rewrite filter_app, filter_cons, decide_True by done. rewrite filter_nil, fmap_app.
    apply NoDup_app. split; [apply (q_active d W)|]. split; [|apply NoDup_singleton].
    intros k (j & -> & [Ha Hj]%list_elem_of_filter)%list_elem_of_fmap Hk%list_elem_of_singleton.
    apply not_true_iff_false in E. apply E. apply existsb_exists. exists j.
    split; [by apply list_elem_of_In|]. unfold active_under. rewrite Ha. cbn.
    by apply bool_decide_eq_true.
  - intros j [Hj| ->%list_elem_of_singleton]%elem_of_app; [by apply (q_coherent d W)|done].
  - lia.
  - intros j Hj. exists j. split; [|apply same_job_refl]. apply elem_of_app. by left.
Qed.

Lemma query_ok {A} (f : jobs_db → A) : qstmt_ok (λ d, Ok (f d, d)).
Proof. intros d a d' W [= _ <-]. by apply queue_sound_refl. Qed.

Lemma update_job_sound job_id h d :
  queue_wf d →
  (∀ j, j ∈ jobs d → Job.id j = job_id → same_job j (h j) ∧ (coherent j → coherent (h j))) →
  queue_sound d (snd (update_job job_id h d)).
Proof.
  intros W Hh. apply cond_update_wf; [done|]. intros j Hj E%bool_decide_eq_true. by apply Hh.
Qed.

Lemma mark_succeeded_ok job_id r : qstmt_ok (mark_succeeded_stmt job_id r).
Proof.
  intros d a d' W [= _ <-]. apply update_job_sound; [done|]. intros j Hj _.
  split; [apply set_succeeded_same|]. by intros _.
Qed.

Lemma mark_failed_ok job_id msg : qstmt_ok (mark_failed_stmt job_id msg).
Proof.
  intros d a d' W [= _ <-]. apply update_job_sound; [done|]. intros j Hj _.
  split; [apply set_failed_same|]. by intros _.
Qed.

Lemma recover_ok stale_seconds : qstmt_ok (recover_stmt stale_seconds).
Proof.
  intros d a d' W [= _ <-]. apply cond_update_wf; [done|]. intros j Hj E.
  unfold stale in E. to_prop. split.
  - apply set_active_same. apply active_iff. by right.
  - unfold coherent. rewrite H. cbn. intuition.
Qed.

Lemma oldest_spec l j :
  oldest l = Some j → j ∈ l ∧ ∀ k, k ∈ l → Job.created_at j <= Job.created_at k.
Proof.
  revert j. induction l as [|x l IH]; intros j; cbn; [done|].
  destruct (oldest l) as [k|] eqn:E.
  - destruct (IH k eq_refl) as [Hk Hmin].
    destruct (Job.created_at k <? Job.created_at x) eqn:L; intros [= <-].
    + split; [by apply list_elem_of_further|]. apply Z.ltb_lt in L.
      intros y [->|Hy]%elem_of_cons; [lia|by apply Hmin].
    + split; [apply list_elem_of_here|]. apply Z.ltb_ge in L.
      intros y [->|Hy]%elem_of_cons; [lia|]. specialize (Hmin y Hy). lia.
  - intros [= <-]. split; [apply list_elem_of_here|]. destruct l as [|y l];
      [|cbn in E; destruct (oldest l) as [k|]; [by destruct (_ <? _)|done]].
    intros y Hy%list_elem_of_singleton. subst. lia.
Qed.

Lemma oldest_none l : oldest l = None → l = [].
Proof. destruct l as [|x l]; cbn; [done|]. destruct (oldest l) as [k|]; [by destruct (_ <? _)|done]. Qed.

Lemma oldest_some l : l ≠ [] → ∃ j, oldest l = Some j.
Proof. intros Hl. destruct (oldest l) eqn:E; [eauto|]. by apply oldest_none in E. Qed.

Lemma next_claim_spec d j :
  next_claim d = Some j → j ∈ jobs d ∧ claimable d j = true
  ∧ ∀ k, k ∈ jobs d → claimable d k = true → Job.created_at j <= Job.created_at k.
Proof.
  intros [[Hc Hj]%list_elem_of_filter Hmin]%oldest_spec. split; [done|]. split; [done|].
  intros k Hk Hck. apply Hmin. by apply list_elem_of_filter.
Qed.

Lemma claimable_pending d j : claimable d j = true → Job.status j = pending.
Proof. unfold claimable. intros H. by to_prop. Qed.

Lemma job_id_unique d j k : queue_wf d → j ∈ jobs d → k ∈ jobs d → Job.id j = Job.id k → j = k.
Proof.
  intros W Hj Hk E. apply list_elem_of_lookup in Hj as [i Hi], Hk as [i' Hi'].
  assert (i = i') as ->; [|congruence].
  eapply NoDup_lookup; [exact (q_ids d W)| |]; rewrite list_lookup_fmap;
    [by rewrite Hi|rewrite Hi'; cbn; congruence].
Qed.

Lemma find_id d j :
  queue_wf d → j ∈ jobs d → find (λ k, bool_decide (Job.id k = Job.id j)) (jobs d) = Some j.
Proof.
  intros W Hj. destruct (find _ _) as [k|] eqn:E.
  - apply find_some in E as [Hk E]. apply bool_decide_eq_true in E. apply list_elem_of_In in Hk.
    by rewrite (job_id_unique d k j W).
  - eapply find_none in E; [|by apply list_elem_of_In]. by apply bool_decide_eq_false in E.
Qed.

Lemma claim_ok : qstmt_ok claim_stmt.
Proof.
  intros d a d' W. unfold claim_stmt. destruct (next_claim d) as [row|] eqn:E.
  - intros [= _ <-]. apply next_claim_spec in E as (Hrow & Hc%claimable_pending & _).
    apply update_job_sound; [done|]. intros j Hj Eid.
    assert (j = row) as -> by by eapply job_id_unique. split.
    + apply set_active_same. apply active_iff. by left.
    + unfold coherent. rewrite Hc. cbn. intros (_ & H). by split.
  - intros [= _ <-]. by apply queue_sound_refl.
Qed.

(** ** The service keeps the queue *)

Section service.
Variable d0 : jobs_db.
Abbreviation I := (queue_sound d0).

Lemma keeps_qstmt {A} (q : jstmt A) : qstmt_ok q → keeps I (execute q).
Proof.
  intros Hq. apply keeps_execute. intros d a d' [W K] E.
  destruct (Hq d a d' W E) as [W' K']. split; [done|]. by etransitivity.
Qed.

Lemma keeps_enqueue c : keeps I (enqueue c).
Proof. apply keeps_qstmt, enqueue_ok. Qed.

Lemma keeps_get_active s h t : keeps I (get_active_by_hash s h t).
Proof. apply keeps_qstmt, query_ok. Qed.

Lemma keeps_get_by_id id : keeps I (get_by_id id).
Proof. apply keeps_qstmt, query_ok. Qed.

Lemma keeps_mark_succeeded id r : keeps I (mark_succeeded id r).
Proof. apply keeps_qstmt, mark_succeeded_ok. Qed.

Lemma keeps_mark_failed id msg : keeps I (mark_failed id msg).
Proof. apply keeps_qstmt, mark_failed_ok. Qed.

Lemma keeps_claim : keeps I claim_next_pending.
Proof. apply keeps_qstmt, claim_ok. Qed.

Lemma keeps_recover n : keeps I (recover_stale_running n).
Proof. apply keeps_qstmt, recover_ok. Qed.

#[local] Hint Resolve keeps_enqueue keeps_get_active keeps_get_by_id keeps_mark_succeeded
keeps_mark_failed keeps_claim keeps_recover : keeps.

Lemma keeps_emit_report dumps sha view scope kind snap ids tr at_ aux ch by_ :
  keeps I (emit_report dumps sha view scope kind snap ids tr at_ aux ch by_).
Proof. unfold emit_report. keeps_tac. Qed.

Lemma keeps_enqueue_once c : keeps I (enqueue_once c).
Proof. unfold enqueue_once. keeps_tac. Qed.

Lemma keeps_enqueue_attempts n c : keeps I (enqueue_attempts n c).
Proof.
  induction n as [|n IH]; [apply keeps_raise|]. cbn [enqueue_attempts].
  apply keeps_bind; [apply keeps_enqueue_once|]. intros [id|]; [apply keeps_ret|exact IH].
Qed.

Lemma keeps_enqueue_report dumps sha view scope ids tr at_ by_ :
  keeps I (enqueue_report dumps sha view scope ids tr at_ by_).
Proof. apply keeps_enqueue_attempts. Qed.

Lemma keeps_claim_pending : keeps I claim_pending.
Proof. unfold claim_pending. keeps_tac. Qed.

Lemma keeps_finish_succeeded id r : keeps I (finish_succeeded id r).
Proof. unfold finish_succeeded. keeps_tac. Qed.

Lemma keeps_finish_failed id msg : keeps I (finish_failed id msg).
Proof. unfold finish_failed. keeps_tac. Qed.

Lemma keeps_recover_stale n : keeps I (recover_stale n).
Proof. unfold recover_stale. keeps_tac. Qed.
End service.

#[export] Hint Resolve keeps_emit_report keeps_enqueue_report keeps_claim_pending
  keeps_finish_succeeded keeps_finish_failed keeps_recover_stale : keeps.
