(* ===== verification/WorkerFacts.v ===== *)
(** * The background loops: what they keep

    [wkeeps I m]: whatever the query service does, whatever faults and other
    transactions come, the program keeps the invariant [I] of the job table. *)

From S2P Require Import Prelude PyFloat Sql SqlFacts DbRetry Queue QueueFacts Reports.

Create HintDb wkeeps.

Section wkeeps.
Context {Q : Type} `{QueryService Q}.
Variable I : jobs_db → Prop.

Definition wkeeps {A} (m : eff (loop_world (Q * gsession jobs_db)) A) : Prop :=
  ∀ w, inv_session I (lw_store w).2 → inv_session I (lw_store (snd (m w))).2.

Lemma wkeeps_ret {A} (a : A) : wkeeps (mret a).
Proof. by intros w Hw. Qed.

Lemma wkeeps_raise {A} e : wkeeps (raise (A := A) e).
Proof. by intros w Hw. Qed.

Lemma wkeeps_lift {A} (r : Prelude.result A) : wkeeps (lift r).
Proof. by intros w Hw. Qed.

Lemma wkeeps_bind {A B} (m : eff _ A) (k : A → eff _ B) :
  wkeeps m → (∀ a, wkeeps (k a)) → wkeeps (x ← m; k x).
Proof.
  intros Hm Hk w Hw. unfold mbind, eff_bind. specialize (Hm w Hw).
  destruct (m w) as [[a|e] w1]; [by apply Hk|done].
Qed.

Lemma wkeeps_fmap {A B} (f : A → B) (m : eff _ A) : wkeeps m → wkeeps (f <$> m).
Proof.
  intros Hm w Hw. specialize (Hm w Hw). unfold fmap, eff_fmap. by destruct (m w) as [[a|e] w1].
Qed.

Lemma wkeeps_try {A} (m : eff _ A) (h : exn → eff _ A) :
  wkeeps m → (∀ e, wkeeps (h e)) → wkeeps (try_except m h).
Proof.
  intros Hm Hh w Hw. unfold try_except. specialize (Hm w Hw).
  destruct (m w) as [[a|e] w1]; [done|by apply Hh].
Qed.

Lemma wkeeps_except {A} (m : eff _ A) (h : exn → eff _ A) :
  wkeeps m → (∀ e, wkeeps (h e)) → wkeeps (except_Exception m h).
Proof.
  intros Hm Hh. apply wkeeps_try; [done|]. intros e. case_bool_decide; [apply wkeeps_raise|done].
Qed.

Lemma wkeeps_query {A} (m : eff Q A) : wkeeps (on_query m).
Proof.
  intros w Hw. unfold on_query, on_store. by destruct (m (lw_store w).1) as [r q].
Qed.

Lemma wkeeps_jobs {A} (m : eff (gsession jobs_db) A) : keeps I m → wkeeps (on_jobs (Q := Q) m).
Proof.
  intros Hm w Hw. unfold on_jobs, on_store. specialize (Hm _ Hw).
  by destruct (m (lw_store w).2) as [r j].
Qed.

Lemma wkeeps_log l msg : wkeeps (wlog l msg).
Proof. by intros w Hw. Qed.

Lemma wkeeps_sleep : wkeeps sleep_or_stop.
Proof. by intros w Hw. Qed.

Lemma wkeeps_rounds n (round : eff _ unit) : wkeeps round → wkeeps (rounds n round).
Proof.
  intros Hr. induction n as [|n IH]; [apply wkeeps_ret|]. by apply wkeeps_bind.
Qed.
End wkeeps.

#[export] Hint Resolve wkeeps_ret wkeeps_raise wkeeps_lift wkeeps_query wkeeps_log wkeeps_sleep
  : wkeeps.

Ltac wkeeps_tac :=
  repeat match goal with
  | |- ∀ _, _ => intros ?
  | |- wkeeps _ (mbind _ _) => apply wkeeps_bind
  | |- wkeeps _ (fmap _ _) => apply wkeeps_fmap
  | |- wkeeps _ (try_except _ _) => apply wkeeps_try
  | |- wkeeps _ (except_Exception _ _) => apply wkeeps_except
  | |- wkeeps _ (on_jobs _) => apply wkeeps_jobs; auto with keeps
  | |- wkeeps _ (rounds _ _) => apply wkeeps_rounds
  | |- wkeeps _ (match ?x with _ => _ end) => destruct x
  | |- wkeeps _ _ => solve [auto with wkeeps]
  end.

Section worker.
Context {Q : Type} `{QueryService Q}.
Variables (dumps : json → string) (sha : string → string) (d0 : jobs_db).
Abbreviation I := (queue_sound d0).

Lemma emit_children_keeps view tr at_ att children acc :
  wkeeps I (emit_children dumps sha view tr at_ att children acc).
Proof.
  revert acc. induction children as [|[pid [child|]] l IH]; intros acc; cbn [emit_children];
  [auto with wkeeps| |apply IH].
  apply wkeeps_bind; [wkeeps_tac|]. intros cid. apply IH.
Qed.

Lemma build_keeps rec : wkeeps I (build_report_result_for_job dumps sha rec).
Proof.
  unfold build_report_result_for_job. wkeeps_tac. apply emit_children_keeps.
Qed.

Lemma process_one_keeps rec : wkeeps I (_process_one dumps sha rec).
Proof.
  unfold _process_one. apply wkeeps_try; [apply wkeeps_bind; [apply build_keeps|]|]; wkeeps_tac.
Qed.

Lemma worker_round_keeps : wkeeps I (worker_round dumps sha).
Proof.
  unfold worker_round. apply wkeeps_bind; [wkeeps_tac|].
  intros [[rec|]|]; [apply wkeeps_except; [apply process_one_keeps|]| |]; wkeeps_tac.
Qed.

Lemma run_report_worker_keeps stale_seconds n : wkeeps I (run_report_worker dumps sha stale_seconds n).
Proof.
  unfold run_report_worker. wkeeps_tac. apply worker_round_keeps.
Qed.
End worker.
