(* ===== verification/QueueProps.v ===== *)
(** * The report queue: the properties of the service and of its repository *)

From stdpp Require Import sorting.
From S2P Require Import Prelude PyFloat Sql SqlFacts DbRetry Queue QueueFacts Reports WorkerFacts.

(** A service at the start of a session, under a script of faults and interference *)
Definition at_start (d : jobs_db) (l : list (gstep jobs_db)) : gsession jobs_db :=
  {| committed := d; current := d; script := l |}.

Definition empty_queue : jobs_db := {| jobs := []; locked := []; next_job := 1; jobs_now := 0 |}.

Lemma empty_queue_wf : queue_wf empty_queue.
Proof.
  split; cbn; try (by constructor); try done; intros j Hj; by apply not_elem_of_nil in Hj.
Qed.

(** C33. The job table under everything that writes it: whatever the query service
    returns, raises or does, whatever statements and commits fail (ambiguous commits
    included) and whatever other transactions do, as long as they keep it themselves,
    a report worker that runs for any number of rounds, an asynchronous issue and a
    synchronous issue leave the committed table well-formed - ids unique, at most one
    active job per scope, input and kind, the columns of each job in accord with its
    status - with no job lost, none changed in what identifies it, and none that had
    ended active again. *)
Theorem report_queue_invariant {Q} `{QueryService Q} dumps sha (d : jobs_db)
  (l : list (gstep jobs_db)) (W : queue_wf d)
  (Others : Forall (λ st, ∀ x, queue_sound d x → queue_sound d (st_others st x)) l)
  (q : Q) logs waits stale_seconds rounds view scope ids tr at_ by_ kind snap aux ch :
  queue_sound d (committed (lw_store (snd (run_report_worker dumps sha stale_seconds rounds
    (LoopWorld (q, at_start d l) logs waits)))).2)
  ∧ queue_sound d (committed (snd (enqueue_report dumps sha view scope ids tr at_ by_ (at_start d l))))
  ∧ queue_sound d (committed (snd (emit_report dumps sha view scope kind snap ids tr at_ aux ch by_
      (at_start d l)))).
Proof.
  assert (inv_session (queue_sound d) (at_start d l)) as HI
    by (split; [by apply queue_sound_refl..|done]).
  split; [|split].
  - apply (inv_committed _ _ (run_report_worker_keeps dumps sha d stale_seconds rounds
      (LoopWorld (q, at_start d l) logs waits) HI)).
  - apply (inv_committed _ _ (keeps_enqueue_report d dumps sha view scope ids tr at_ by_ _ HI)).
  - apply (inv_committed _ _ (keeps_emit_report d dumps sha view scope kind snap ids tr at_ aux ch
      by_ _ HI)).
Qed.

(** A query service that answers every question with the same report *)
#[local] Instance one_report : QueryService unit := {
  summary := unit;
  overview_total _ := 1;
  row_hostnames _ := ["web-1"%string];
  env_report_to_dict _ := JObj [];
  get_environment_report _ _ _ := mret tt;
  resolve_server_ids ids := mret (list_to_map ((λ id, (id, 1)) <$> ids));
  get_attention_signals _ := mret {| gap_warnings := []; os_eol_warnings := []; agent_unstable := [] |};
  get_single_server_report _ _ _ _ _ := mret (Some tt);
  build_child_prefetched_reports ids _ _ _ _ _ := mret ((λ id, (id, Some tt)) <$> ids);
  get_selection_report _ _ _ _ := mret (Some tt);
}.

Definition same_text (s : string) : string := s.
Definition any_dump (_ : json) : string := "params".

Definition lost_commit : gstep jobs_db :=
  {| st_others := id; st_fault := Some (OtherError "connection lost"); st_applied := true |}.

Lemma report_queue_invariant_witness :
  let d := snd (enqueue_report any_dump same_text "customer" "environment" [] "14d" 0 None
                  (at_start empty_queue [])) in
  queue_sound empty_queue (committed d).
Proof.
  refine (proj1 (proj2 (report_queue_invariant (Q := unit) any_dump same_text empty_queue []
    empty_queue_wf _ tt [] 0 3600 0 "customer" "environment" [] "14d" 0 None "" JNull None None))).
  by constructor.
Defined.

(** ** Issuing a report *)

Lemma find_active key d j :
  queue_wf d → j ∈ jobs d → active_under key j = true → find (active_under key) (jobs d) = Some j.
Proof.
  intros W Hj Ha. destruct (find _ _) as [k|] eqn:E.
  - apply find_some in E as [Hk Hak]. apply list_elem_of_In in Hk.
    unfold active_under in *. to_prop. f_equal. pose proof (q_active d W) as Hd.
    assert (k ∈ filter (λ j, active j = true) (jobs d)) as Fk by by apply list_elem_of_filter.
    assert (j ∈ filter (λ j, active j = true) (jobs d)) as Fj by by apply list_elem_of_filter.
    apply list_elem_of_lookup in Fk as [i Hi], Fj as [i' Hi'].
    assert (i = i') as ->; [|congruence].
    eapply NoDup_lookup; [exact Hd| |]; rewrite list_lookup_fmap;
      [by rewrite Hi|rewrite Hi'; cbn; congruence].
  - eapply find_none in E; [|by apply list_elem_of_In]. congruence.
Qed.

Definition appended (c : NewJob.DiagnosticJobCreate) (d : jobs_db) : jobs_db :=
  {| jobs := jobs d ++ [inserted_job c d]; locked := locked d; next_job := next_job d + 1;
     jobs_now := jobs_now d |}.

(** What an issue does to a queue nobody else writes *)
Definition issued (c : NewJob.DiagnosticJobCreate) (d : jobs_db) : string * jobs_db :=
  match find (active_under (new_key c)) (jobs d) with
  | Some j => (Job.id j, d)
  | None => (job_id_of (next_job d), appended c d)
  end.

Lemma existsb_find {A} (p : A → bool) l :
  existsb p l = match find p l with Some _ => true | None => false end.
Proof. induction l as [|x l IH]; [done|]. cbn. destruct (p x); [done|exact IH]. Qed.

Lemma enqueue_stmt_issued c d :
  enqueue_stmt c d = Ok (match find (active_under (new_key c)) (jobs d) with
                         | Some _ => None | None => Some (issued c d).1 end, (issued c d).2).
Proof. unfold enqueue_stmt, issued. rewrite existsb_find. by destruct (find _ _). Qed.

Lemma enqueue_once_quiet c d :
  enqueue_once c (quiet_session d d)
  = (Ok (Some (issued c d).1), quiet_session (issued c d).2 (issued c d).2).
Proof.
  pose proof (enqueue_stmt_issued c d) as H. apply (execute_quiet _ d) in H.
  unfold issued in *. destruct (find _ _) as [j|] eqn:E; cbn [fst snd] in *.
  - apply (with_session_quiet _ d _ d d). unfold enqueue. rewrite (bind_ok _ _ _ _ _ H).
    unfold get_active_by_hash. rewrite (bind_ok _ _ _ _ _ (execute_quiet _ d d _ d eq_refl)).
    cbn. unfold active_by_hash. fold (new_key c). by rewrite E.
  - apply (with_session_quiet _ d _ (appended c d) (appended c d)). unfold enqueue.
    by rewrite (bind_ok _ _ _ _ _ H).
Qed.

Lemma enqueue_report_quiet dumps sha view scope ids tr at_ by_ d :
  let c := job_create dumps sha view scope ids tr at_ by_ in
  enqueue_report dumps sha view scope ids tr at_ by_ (quiet_session d d)
  = (Ok (issued c d).1, quiet_session (issued c d).2 (issued c d).2).
Proof.
  cbn zeta. unfold enqueue_report, _ENQUEUE_MAX_ATTEMPTS. cbn [enqueue_attempts].
  by rewrite (bind_ok _ _ _ _ _ (enqueue_once_quiet _ d)).
Qed.

Lemma sorted_strs_perm l l' : l ≡ₚ l' → sorted_strs l = sorted_strs l'.
Proof.
  intros H. unfold sorted_strs.
  apply (Sorted_unique String.le); [apply Sorted_merge_sort, _..|].
  by rewrite !merge_sort_Permutation.
Qed.

Lemma input_params_perm view scope ids ids' tr at_ :
  ids ≡ₚ ids' → _build_input_params view scope ids tr at_ = _build_input_params view scope ids' tr at_.
Proof.
  intros H. unfold _build_input_params. rewrite (sorted_strs_perm _ _ H).
  pose proof (Permutation_length H) as Hl.
  destruct ids as [|x [|y l]], ids' as [|x' [|y' l']]; try done.
  by apply Permutation_singleton_inj in H as ->.
Qed.

(** Issuing twice joins the same job: with nobody else writing, an issue returns
    the active job of its scope, parameters and kind when there is one and changes
    nothing, and otherwise stores exactly one pending job under a fresh id; issuing
    again - the same servers in any order - returns that id and changes nothing. *)
Theorem enqueue_report_joins dumps sha view scope ids ids' tr at_ by_ by_' (d : jobs_db)
  (W : queue_wf d) (P : ids ≡ₚ ids') :
  let c := job_create dumps sha view scope ids tr at_ by_ in
  ∃ id d', enqueue_report dumps sha view scope ids tr at_ by_ (quiet_session d d)
      = (Ok id, quiet_session d' d')
    ∧ (∀ j, j ∈ jobs d → active_under (new_key c) j = true → id = Job.id j ∧ d' = d)
    ∧ ((∀ j, j ∈ jobs d → active_under (new_key c) j = false) →
        ∃ j, jobs d' = jobs d ++ [j] ∧ Job.id j = id ∧ Job.status j = pending
          ∧ job_key j = new_key c ∧ Job.created_at j = jobs_now d
          ∧ ∀ k, k ∈ jobs d → Job.id k ≠ id)
    ∧ queue_wf d'
    ∧ enqueue_report dumps sha view scope ids' tr at_ by_' (quiet_session d' d')
      = (Ok id, quiet_session d' d').
Proof.
  set (c := job_create dumps sha view scope ids tr at_ by_). cbn zeta.
  set (c' := job_create dumps sha view scope ids' tr at_ by_').
  assert (new_key c' = new_key c) as Hk.
  { unfold c, c', new_key, job_create. cbn. by rewrite (input_params_perm _ _ _ _ _ _ P). }
  exists (issued c d).1, (issued c d).2. rewrite !enqueue_report_quiet. fold c c'.
  split; [done|]. split; [|split; [|split]].
  - intros j Hj Ha. unfold issued. by rewrite (find_active _ d j W Hj Ha).
  - intros Hno. unfold issued. destruct (find _ _) as [j|] eqn:E.
    { apply find_some in E as [Hj Ha]. apply list_elem_of_In in Hj.
      by rewrite (Hno j Hj) in Ha. }
    exists (inserted_job c d). repeat split; try done. intros k Hkj E2.
    destruct (q_fresh d W k Hkj) as (n & Hn & Hid). rewrite Hid in E2.
    apply job_id_inj in E2; lia.
  - pose proof (enqueue_stmt_issued c d) as H. by destruct (enqueue_ok c _ _ _ W H).
  - assert (∃ j, j ∈ jobs (issued c d).2 ∧ active_under (new_key c) j = true
              ∧ Job.id j = (issued c d).1) as (j & Hj & Ha & Hid).
    { unfold issued. destruct (find _ _) as [j|] eqn:E; cbn.
      - apply find_some in E as [Hj Ha]. exists j. by apply list_elem_of_In in Hj.
      - exists (inserted_job c d). split; [apply elem_of_app; right; apply list_elem_of_here|].
        split; [|done]. unfold active_under. cbn. by apply bool_decide_eq_true. }
    pose proof (enqueue_stmt_issued c d) as H. destruct (enqueue_ok c _ _ _ W H) as [W' _].
    revert Hj Ha Hid W'. generalize (issued c d). intros [id d']; cbn. intros Hj Ha <- W'.
    unfold issued. rewrite Hk. by rewrite (find_active _ d' j W' Hj Ha).
Qed.

Definition issue_env (d : jobs_db) :=
  enqueue_report any_dump same_text "customer" "server" ["b"; "a"]%string "14d" 0 None (quiet_session d d).

Lemma enqueue_report_joins_witness :
  ∃ id d', issue_env empty_queue = (Ok id, quiet_session d' d')
    ∧ id = "1"%string
    ∧ enqueue_report any_dump same_text "customer" "server" ["a"; "b"]%string "14d" 0 None
        (quiet_session d' d') = (Ok id, quiet_session d' d').
Proof.
  destruct (enqueue_report_joins any_dump same_text "customer" "server" ["b"; "a"]%string
    ["a"; "b"]%string "14d" 0 None None empty_queue empty_queue_wf
    (perm_swap "a"%string "b"%string [])) as (id & d' & E & _ & _ & _ & E').
  exists id, d'. split; [exact E|]. split; [|exact E'].
  apply (f_equal fst) in E. vm_compute in E. by injection E as <-.
Defined.

(** ** Storing a finished report *)

(** Other transactions that issue no job under the key (they may end or delete some) *)
Definition issues_none (key : string * string * string) (st : gstep jobs_db) : Prop :=
  ∀ d j, j ∈ jobs (st_others st d) → active_under key j = true → j ∈ jobs d.

(** Every active job under the key in the second table is one of the first. *)
Definition no_new_active (key : string * string * string) (d d' : jobs_db) : Prop :=
  ∀ j, j ∈ jobs d' → active_under key j = true → j ∈ jobs d.

Lemma issues_none_step key l d d' :
  Forall (issues_none key) l → no_new_active key d d' →
  no_new_active key d (st_others (default quiet (head l)) d').
Proof.
  intros Hl Hd j Hj Ha. apply Hd; [|done]. destruct l as [|st l]; [done|].
  apply Forall_cons in Hl as [Hst _]. by eapply Hst.
Qed.

Lemma no_new_active_refl key d : no_new_active key d d.
Proof. by intros j Hj _. Qed.

Lemma execute_cases {D A} (q : D → Prelude.result (A * D)) (s : gsession D) :
  let st := default quiet (head (script s)) in
  (∃ e, execute q s = (Raise e, {| committed := st_others st (committed s);
      current := st_others st (current s); script := tail (script s) |}))
  ∨ ∃ a d, q (st_others st (current s)) = Ok (a, d)
    ∧ execute q s = (Ok a, {| committed := st_others st (committed s); current := d;
                              script := tail (script s) |}).
Proof.
  cbn zeta. unfold execute. destruct (st_fault _); [left; eauto|].
  destruct (q _) as [[a d]|e]; [right|left]; eauto.
Qed.

Lemma commit_cases {D} (s : gsession D) :
  let st := default quiet (head (script s)) in
  committed (snd (commit s)) = st_others st (committed s)
  ∨ committed (snd (commit s)) = st_others st (current s).
Proof.
  cbn zeta. unfold commit. destruct (st_fault _); [destruct (st_applied _)|]; auto.
Qed.

Lemma Forall_tail {A} (P : A → Prop) l : Forall P l → Forall P (tail l).
Proof. destruct l; [done|]. by intros [_ H]%Forall_cons. Qed.

(** The row of a new job, once marked as ended, is active in no later view. *)
Lemma insert_then_succeed c d1 st r now :
  issues_none (new_key c) st → existsb (active_under (new_key c)) (jobs d1) = false →
  ∀ j, j ∈ jobs (snd (update_job (job_id_of (next_job d1)) (set_succeeded r now)
                        (st_others st (appended c d1)))) →
    active_under (new_key c) j = false.
Proof.
  intros Hst Hno j (k & -> & Hk)%list_elem_of_fmap. case_bool_decide as Eid; [done|].
  apply not_true_iff_false. intros Ha. specialize (Hst _ _ Hk Ha).
  apply elem_of_app in Hst as [Hk'| ->%list_elem_of_singleton]; [|done].
  apply not_true_iff_false in Hno. apply Hno. apply existsb_exists. exists k.
  split; [by apply list_elem_of_In|done].
Qed.

Lemma issues_none_head key l :
  Forall (issues_none key) l → issues_none key (default quiet (head l)).
Proof. destruct l as [|st l]; [by intros _ d j Hj _|]. by intros [H _]%Forall_cons. Qed.

(** The first statement of a bind, run or failed *)
Ltac step_execute E :=
  match goal with
  | |- context [mbind ?k (execute ?q) ?s] =>
      destruct (execute_cases q s) as [(? & E)|(? & ? & ? & E)]; cbn zeta in E;
      [rewrite (bind_raise _ k _ _ _ E)|rewrite (bind_ok _ k _ _ _ E)]
  end.

Lemma state_bind_ret {S A B} (m : eff S A) (b : B) s :
  snd ((_ ← m; mret b) s) = snd (m s).
Proof. unfold mbind, eff_bind. by destruct (m s) as [[a|e] s']. Qed.

Lemma emit_body_no_new c r h t d l :
  h = NewJob.input_hash c → t = NewJob.job_type c → Forall (issues_none (new_key c)) l →
  no_new_active (new_key c) d (committed (snd (
    (new_id ← enqueue c;
     match new_id with
     | None => active_id ← get_active_by_hash (NewJob.scope c) h t; _ ← rollback; mret active_id
     | Some id => _ ← mark_succeeded id r; _ ← commit; mret (Some id)
     end) (at_start d l)))).
Proof.
  intros -> -> Hl. pose proof (Forall_tail _ _ Hl) as Hl1. pose proof (Forall_tail _ _ Hl1) as Hl2.
  pose proof (no_new_active_refl (new_key c) d) as P0.
  pose proof (issues_none_step _ _ _ _ Hl P0) as P1.
  pose proof (issues_none_step _ _ _ _ Hl1 P1) as P2.
  unfold enqueue. step_execute E1; cbn [script current committed at_start] in *; [exact P1|].
  clear E1. unfold enqueue_stmt in H. set (d1 := st_others (default quiet (head l)) d) in *.
  destruct (existsb _ _) eqn:Ex; injection H as <- <-.
  - unfold get_active_by_hash. step_execute E2; cbn in *; exact P2.
  - unfold mark_succeeded. step_execute E2; cbn [script current committed] in *; [exact P2|].
    clear E2. injection H as _ <-.
    pose proof (insert_then_succeed c d1 _ r
      (jobs_now (st_others (default quiet (head (tail l))) (appended c d1)))
      (issues_none_head _ _ Hl1) Ex) as Hend.
    rewrite state_bind_ret.
    match goal with |- context [commit ?s] => destruct (commit_cases s) as [Ec|Ec] end;
      cbn zeta in Ec; cbn [script current committed] in Ec; rewrite Ec;
      apply issues_none_step; try done.
    intros j Hj Ha. by rewrite (Hend j Hj) in Ha.
Qed.

Lemma update_new c d f :
  queue_wf d →
  snd (update_job (job_id_of (next_job d)) f (appended c d))
  = set_jobs (jobs d ++ [f (inserted_job c d)]) (appended c d).
Proof.
  intros W. unfold update_job. cbn [snd appended jobs]. f_equal. rewrite fmap_app. f_equal.
  - rewrite <- (list_fmap_id (jobs d)) at 2. apply list_fmap_ext. intros i j Hj. cbn.
    rewrite bool_decide_eq_false_2; [done|]. intros E.
    destruct (q_fresh d W j (list_elem_of_lookup_2 _ _ _ Hj)) as (n & Hn & Hid).
    rewrite Hid in E. apply job_id_inj in E; [lia|lia|]. pose proof (q_next d W). lia.
  - cbn. by rewrite bool_decide_eq_true_2.
Qed.

Lemma find_none_active key d :
  (∀ j, j ∈ jobs d → active_under key j = false) → find (active_under key) (jobs d) = None.
Proof.
  intros Hno. destruct (find _ _) as [j|] eqn:E; [|done]. apply find_some in E as [Hj Ha].
  apply list_elem_of_In in Hj. by rewrite (Hno j Hj) in Ha.
Qed.

(** The stored result of a synchronous issue *)
Definition emitted_result (kind : string) (snap : json) (view : string) (aux ch : option json) : json :=
  match ch with
  | None | Some (JObj []) => build_report_result kind snap view aux
  | Some m => json_set "child_jobs" m (build_report_result kind snap view aux)
  end.

Lemma emitted_snapshot kind snap view aux ch :
  json_find "snapshot" (emitted_result kind snap view aux ch) = Some snap.
Proof. destruct ch as [[| | | | | |[|kv l]]|]; reflexivity. Qed.

Lemma emit_quiet dumps sha view scope kind snap ids tr at_ aux ch by_ d :
  let c := job_create dumps sha view scope ids tr at_ by_ in
  queue_wf d → (∀ j, j ∈ jobs d → active_under (new_key c) j = false) →
  let j := set_succeeded (emitted_result kind snap view aux ch) (jobs_now d) (inserted_job c d) in
  let d' := set_jobs (jobs d ++ [j]) (appended c d) in
  emit_report dumps sha view scope kind snap ids tr at_ aux ch by_ (quiet_session d d)
  = (Ok (Some (Job.id j)), quiet_session d' d').
Proof.
  cbn zeta. set (c := job_create dumps sha view scope ids tr at_ by_). intros W Hno.
  pose proof (enqueue_stmt_issued c d) as H. unfold issued in H.
  rewrite (find_none_active _ _ Hno) in H. apply (execute_quiet _ d) in H. cbn [fst snd] in H.
  unfold emit_report. fold c. fold (emitted_result kind snap view aux ch).
  match goal with |- with_session ?m _ = (_, quiet_session ?e _) =>
    apply (with_session_quiet m d _ e e) end.
  unfold enqueue. rewrite (bind_ok _ _ _ _ _ H). unfold mark_succeeded.
  rewrite (bind_ok _ _ _ _ _ (execute_quiet _ d (appended c d) tt _ eq_refl)).
  by rewrite (update_new c d _ W).
Qed.

(** A finished report is stored in one piece: whatever statements or commits fail
    and whatever other transactions do in between (short of issuing the same report
    themselves), a synchronous issue never leaves a new active job of its key in the
    committed table, so no worker can ever claim a child report; and with nobody else
    writing and no active job of the key it appends exactly one job, ended with the
    given snapshot, under the id it returns. *)
Theorem emit_report_never_pending dumps sha view scope kind snap ids tr at_ aux ch by_
  (d : jobs_db) (l : list (gstep jobs_db)) :
  let c := job_create dumps sha view scope ids tr at_ by_ in
  let emit := emit_report dumps sha view scope kind snap ids tr at_ aux ch by_ in
  (Forall (issues_none (new_key c)) l →
     no_new_active (new_key c) d (committed (snd (emit (at_start d l)))))
  ∧ (queue_wf d → (∀ j, j ∈ jobs d → active_under (new_key c) j = false) →
     ∃ j r, emit (quiet_session d d)
         = (Ok (Some (Job.id j)), let d' := set_jobs (jobs d ++ [j]) (appended c d) in
                                  quiet_session d' d')
       ∧ Job.status j = succeeded ∧ job_key j = new_key c ∧ Job.result j = Some r
       ∧ json_find "snapshot" r = Some snap).
Proof.
  cbn zeta. set (c := job_create dumps sha view scope ids tr at_ by_). split.
  - intros Hl. unfold emit_report. fold c. unfold with_session. cbn [committed script at_start].
    match goal with |- context [mbind ?k (enqueue c)] =>
      pose proof (emit_body_no_new c (match ch with
        | None | Some (JObj []) => build_report_result kind snap view aux
        | Some m => json_set "child_jobs" m (build_report_result kind snap view aux) end)
        _ _ d l eq_refl eq_refl Hl) as HH end.
    unfold at_start in HH. match goal with |- context [mbind ?k (enqueue c) ?s] =>
      destruct (mbind k (enqueue c) s) as [o s1] eqn:E end.
    apply (f_equal snd) in E. exact (eq_ind _ (λ s, no_new_active _ d (committed s)) HH _ E).
  - intros W Hno.
    exists (set_succeeded (emitted_result kind snap view aux ch) (jobs_now d) (inserted_job c d)).
    exists (emitted_result kind snap view aux ch).
    split; [by apply emit_quiet|]. by rewrite emitted_snapshot.
Qed.

(** A session whose commit fails after it was applied *)
Definition shaky : list (gstep jobs_db) := [quiet; quiet; lost_commit].

Lemma emit_report_never_pending_witness :
  let c := job_create any_dump same_text "customer" "server" ["a"]%string "14d" 0 None in
  no_new_active (new_key c) empty_queue (committed (snd (emit_report any_dump same_text "customer"
    "server" REPORT_KIND_ENV (JStr "body") ["a"]%string "14d" 0 None None None
    (at_start empty_queue shaky)))).
Proof.
  refine (proj1 (emit_report_never_pending any_dump same_text "customer" "server" REPORT_KIND_ENV
    (JStr "body") ["a"]%string "14d" 0 None None None empty_queue shaky) _).
  repeat (constructor; [by intros d j Hj _|]). constructor.
Defined.

(** ** Claiming *)

(** The row and the table a claim leaves *)
Definition claimed_job (d : jobs_db) (j : DiagnosticJob) : DiagnosticJob :=
  set_active running (Some (jobs_now d)) "running" j.

Definition claimed_db (d : jobs_db) (j : DiagnosticJob) : jobs_db :=
  snd (update_job (Job.id j) (set_active running (Some (jobs_now d)) "running") d).

Lemma claimed_rows d j k :
  queue_wf d → j ∈ jobs d →
  k ∈ jobs (claimed_db d j) ↔ k = claimed_job d j ∨ (k ∈ jobs d ∧ k ≠ j).
Proof.
  intros W Hj. unfold claimed_db, update_job. cbn. rewrite list_elem_of_fmap. split.
  - intros (x & -> & Hx). case_bool_decide as Ei.
    + left. by rewrite (job_id_unique d x j W Hx Hj Ei).
    + right. split; [done|]. by intros ->.
  - intros [-> |[Hk Hne]]; [exists j|exists k]; (split; [|done]).
    + by rewrite bool_decide_eq_true_2.
    + rewrite bool_decide_eq_false_2; [done|]. intros Ei. apply Hne. by eapply job_id_unique.
Qed.

Lemma claim_stmt_some d j :
  queue_wf d → next_claim d = Some j →
  claim_stmt d = Ok (Some (claimed_job d j), claimed_db d j) ∧ queue_wf (claimed_db d j).
Proof.
  intros W E. pose proof (next_claim_spec _ _ E) as (Hj & _ & _).
  assert (claim_stmt d = Ok (find (λ k, bool_decide (Job.id k = Job.id j)) (jobs (claimed_db d j)),
    claimed_db d j)) as H by (unfold claim_stmt; by rewrite E).
  destruct (claim_ok d _ _ W H) as [W' _]. split; [|done]. rewrite H. do 2 f_equal.
  apply (find_id _ (claimed_job d j) W'). apply claimed_rows; [done..|]. by left.
Qed.

Lemma claim_quiet d j :
  queue_wf d → next_claim d = Some j →
  claim_pending (quiet_session d d)
  = (Ok (Some (claimed_job d j)), quiet_session (claimed_db d j) (claimed_db d j)).
Proof.
  intros W E. destruct (claim_stmt_some d j W E) as [Ec _].
  apply (with_session_quiet _ d _ (claimed_db d j) (claimed_db d j)). unfold claim_next_pending.
  by rewrite (bind_ok _ _ _ _ _ (execute_quiet _ d d _ (claimed_db d j) Ec)).
Qed.

Lemma claim_quiet_none d :
  next_claim d = None → claim_pending (quiet_session d d) = (Ok None, quiet_session d d).
Proof.
  intros E. assert (claim_stmt d = Ok (None, d)) as Ec by (unfold claim_stmt; by rewrite E).
  apply (with_session_quiet _ d _ d d). unfold claim_next_pending.
  by rewrite (bind_ok _ _ _ _ _ (execute_quiet _ d d None d Ec)).
Qed.

Lemma next_claim_none d : next_claim d = None → ∀ j, j ∈ jobs d → claimable d j = false.
Proof.
  intros E j Hj. apply not_true_iff_false. intros Hc. apply oldest_none in E.
  eapply not_elem_of_nil. rewrite <- E. apply list_elem_of_filter. split; [exact Hc|exact Hj].
Qed.

(** Claims are first-in, first-out: with nobody else writing, a claim returns
    nothing exactly when no pending job is unlocked, and otherwise a pending,
    unlocked job no younger than any other, now running since the present time; that
    one row changes, every other row stays, and the queue stays well-formed. *)
Theorem claim_takes_oldest (d : jobs_db) (W : queue_wf d) :
  match next_claim d with
  | None => claim_pending (quiet_session d d) = (Ok None, quiet_session d d)
      ∧ ∀ j, j ∈ jobs d → claimable d j = false
  | Some j => ∃ r d', claim_pending (quiet_session d d) = (Ok (Some r), quiet_session d' d')
      ∧ j ∈ jobs d ∧ Job.status j = pending
      ∧ (∀ k, k ∈ jobs d → claimable d k = true → Job.created_at j <= Job.created_at k)
      ∧ same_job j r ∧ Job.status r = running ∧ Job.started_at r = Some (jobs_now d)
      ∧ (∀ k, k ∈ jobs d' ↔ k = r ∨ (k ∈ jobs d ∧ k ≠ j))
      ∧ queue_wf d'
  end.
Proof.
  destruct (next_claim d) as [j|] eqn:E; [|split; [by apply claim_quiet_none|by apply next_claim_none]].
  pose proof (next_claim_spec _ _ E) as (Hj & Hc%claimable_pending & Hmin).
  exists (claimed_job d j), (claimed_db d j).
  split; [by apply claim_quiet|]. split; [done|]. split; [done|]. split; [done|].
  split; [apply set_active_same, active_iff; by left|]. split; [done|]. split; [done|].
  split; [|by apply claim_stmt_some]. intros k. by apply claimed_rows.
Qed.

(** Two pending jobs, the younger one first in the table *)
Definition queued (n created : Z) : DiagnosticJob := {|
  Job.id := job_id_of n; Job.job_type := "customer_report"; Job.scope := "server";
  Job.input_params := JObj []; Job.input_hash := job_id_of n; Job.status := pending;
  Job.progress_stage := Some "queued"%string; Job.result := None; Job.error_message := None;
  Job.created_at := created; Job.started_at := None; Job.finished_at := None;
  Job.requested_by := None |}.

Definition two_queued : jobs_db :=
  {| jobs := [queued 1 20; queued 2 10]; locked := []; next_job := 3; jobs_now := 30 |}.

Lemma two_queued_wf : queue_wf two_queued.
Proof.
  split; cbn.
  - refine (bool_decide_unpack _ _). by vm_compute.
  - intros j [->|[->|[]%not_elem_of_nil]%elem_of_cons]%elem_of_cons; eexists; (split; [|done]); lia.
  - refine (bool_decide_unpack _ _). by vm_compute.
  - by intros j [->|[->|[]%not_elem_of_nil]%elem_of_cons]%elem_of_cons.
  - lia.
Qed.

Lemma claim_takes_oldest_witness :
  ∃ r d', claim_pending (quiet_session two_queued two_queued) = (Ok (Some r), quiet_session d' d')
    ∧ Job.id r = "2"%string ∧ queue_wf d'.
Proof.
  pose proof (claim_takes_oldest two_queued two_queued_wf) as H.
  change (next_claim two_queued) with (Some (queued 2 10)) in H.
  destruct H as (r & d' & E & _ & _ & _ & S & _ & _ & _ & W'). exists r, d'.
  split; [exact E|]. split; [|exact W']. exact (sj_id _ _ S).
Defined.
