(* ===== verification/Pool.v ===== *)
(** * A pool of report workers over one job table

    Several worker processes and issuers share the table.  A step of the pool is a
    transaction of the service ([Queue]: [enqueue_once], [emit_report],
    [finish_succeeded], [finish_failed], [recover_stale]) run against the committed
    table and committed in one piece: nobody sees the rows of a transaction in between,
    and one that fails leaves the table as it is, which is no step.  What other
    transactions do between two statements, and what failing statements and ambiguous
    commits leave behind, is the subject of [QueueProps.report_queue_invariant]; here a
    worker learns whether its commit was applied.

    A claim ([claim_pending]) is two steps, because its row lock is what keeps workers
    apart: the statements of [claim_next_pending] ([claim_stmt]: [SELECT ... FOR UPDATE
    SKIP LOCKED], the change of the row, the flush), which lock the row and keep its new
    version private to the worker, and the commit that publishes that version.  An
    [UPDATE] of a row another worker has locked waits, so it is no step while the lock
    is held.  A worker may die, or give its job up, at any point.  The stale-job
    recovery a starting worker runs is a step of its own; its condition is a parameter:
    [always], or [timely] - no worker is still generating a job that the recovery finds
    overdue.  [delete_retention] is no step: no part of the program calls it. *)

From S2P Require Import Prelude PyFloat Sql SqlFacts Queue QueueFacts QueueProps.

(** ** The steps *)

(** What a worker holds: the new version of a row it has locked, or a job that is its
    own to generate *)
Inductive hold := Claiming (row : DiagnosticJob) | Working (job_id : string).

Definition held (h : hold) : string :=
  match h with Claiming row => Job.id row | Working i => i end.

Record pool := {
  queue : jobs_db;
  (** the workers that hold a job *)
  holders : gmap nat hold;
}.

Definition lock_of (h : hold) : option string :=
  match h with Claiming row => Some (Job.id row) | Working _ => None end.

Definition locks (p : pool) : list string := omap (λ wh, lock_of wh.2) (map_to_list (holders p)).

(** The table as a claim sees it *)
Definition seen (p : pool) : jobs_db :=
  {| jobs := jobs (queue p); locked := locks p; next_job := next_job (queue p);
     jobs_now := jobs_now (queue p) |}.

Definition advance (dt : Z) (d : jobs_db) : jobs_db :=
  {| jobs := jobs d; locked := locked d; next_job := next_job d; jobs_now := jobs_now d + dt |}.

(** A session of the service on its own: its answer and what it commits *)
Definition alone {A} (prog : eff (gsession jobs_db) A) (d : jobs_db)
    : Prelude.result A * jobs_db :=
  let '(r, s) := prog (quiet_session d d) in (r, committed s).

(** The commit of a claim: the row's new version takes the place of the old one. *)
Definition put_row (row : DiagnosticJob) (d : jobs_db) : jobs_db :=
  snd (update_job (Job.id row) (λ _, row) d).

Definition always (_ : pool) (_ : Z) : Prop := True.

(** Running for longer than the limit *)
Definition overdue (stale_seconds : Z) (now : datetime) (j : DiagnosticJob) : Prop :=
  Job.status j = running
  ∧ ∃ t, Job.started_at j = Some t ∧ t + stale_seconds * 1000000 < now.

Definition timely (p : pool) (stale_seconds : Z) : Prop :=
  ∀ w id j, holders p !! w = Some (Working id) → j ∈ jobs (queue p) → Job.id j = id →
    ¬ overdue stale_seconds (jobs_now (queue p)) j.

(** What a step does, with the answer its caller gets *)
Inductive event :=
  | Issuing (c : NewJob.DiagnosticJobCreate) (answer : option string)
  | Emitting (c : NewJob.DiagnosticJobCreate) (snapshot : json) (answer : option string)
  | Ticking (dt : Z)
  | Locking (w : nat) (job_id : string)
  | Committing (w : nat) (job_id : string)
  | Succeeding (w : nat) (job_id : string) (r : json)
  | Failing (w : nat) (job_id msg : string)
  | Dying (w : nat)
  | Recovering (stale_seconds n : Z).

Inductive pool_event (may_recover : pool → Z → Prop) (p : pool) : event → pool → Prop :=
  | step_issue c o d : alone (enqueue_once c) (queue p) = (Ok o, d) →
      pool_event may_recover p (Issuing c o) {| queue := d; holders := holders p |}
  | step_emit dumps sha view scope kind snap ids tr at_ aux ch by_ o d :
      alone (emit_report dumps sha view scope kind snap ids tr at_ aux ch by_) (queue p)
        = (Ok o, d) →
      pool_event may_recover p (Emitting (job_create dumps sha view scope ids tr at_ by_) snap o)
        {| queue := d; holders := holders p |}
  | step_tick dt : 0 <= dt →
      pool_event may_recover p (Ticking dt)
        {| queue := advance dt (queue p); holders := holders p |}
  | step_lock w row d : holders p !! w = None → claim_stmt (seen p) = Ok (Some row, d) →
      pool_event may_recover p (Locking w (Job.id row))
        {| queue := queue p; holders := <[w := Claiming row]> (holders p) |}
  | step_claim w row : holders p !! w = Some (Claiming row) →
      pool_event may_recover p (Committing w (Job.id row))
        {| queue := put_row row (queue p); holders := <[w := Working (Job.id row)]> (holders p) |}
  | step_finish_ok w id r d : holders p !! w = Some (Working id) → id ∉ locks p →
      alone (finish_succeeded id r) (queue p) = (Ok tt, d) →
      pool_event may_recover p (Succeeding w id r)
        {| queue := d; holders := base.delete w (holders p) |}
  | step_finish_fail w id msg d : holders p !! w = Some (Working id) → id ∉ locks p →
      alone (finish_failed id msg) (queue p) = (Ok tt, d) →
      pool_event may_recover p (Failing w id msg)
        {| queue := d; holders := base.delete w (holders p) |}
  | step_die w h : holders p !! w = Some h →
      pool_event may_recover p (Dying w)
        {| queue := queue p; holders := base.delete w (holders p) |}
  | step_recover n k d : may_recover p n → alone (recover_stale n) (queue p) = (Ok k, d) →
      pool_event may_recover p (Recovering n k) {| queue := d; holders := holders p |}.

Definition pool_step (may_recover : pool → Z → Prop) (p p' : pool) : Prop :=
  ∃ e, pool_event may_recover p e p'.

(** The states a pool can be in: no worker holds anything at first. *)
Definition reachable (may_recover : pool → Z → Prop) (p : pool) : Prop :=
  ∃ d, queue_wf d ∧ rtc (pool_step may_recover) {| queue := d; holders := ∅ |} p.

Lemma rtc_invariant {A} (R : relation A) (I : A → Prop) x y :
  (∀ a b, I a → R a b → I b) → I x → rtc R x y → I y.
Proof. intros HI Hx H. induction H; [done|]. eauto. Qed.

Lemma locks_elem p id :
  id ∈ locks p ↔ ∃ w row, holders p !! w = Some (Claiming row) ∧ Job.id row = id.
Proof.
  unfold locks. rewrite list_elem_of_omap. split.
  - intros ([w h] & Hin%elem_of_map_to_list & E). exists w.
    destruct h as [row|]; cbn in E; [|done]. exists row. split; congruence.
  - intros (w & row & Hw & <-). exists (w, Claiming row).
    split; [by apply elem_of_map_to_list|done].
Qed.

(** ** What each transaction does to the table *)

Lemma alone_enqueue c d :
  alone (enqueue_once c) d = (Ok (Some (issued c d).1), (issued c d).2).
Proof. unfold alone. by rewrite enqueue_once_quiet. Qed.

Lemma alone_finish_ok id r d :
  alone (finish_succeeded id r) d = (Ok tt, snd (update_job id (set_succeeded r (jobs_now d)) d)).
Proof. reflexivity. Qed.

Lemma alone_finish_fail id msg d :
  alone (finish_failed id msg) d = (Ok tt, snd (update_job id (set_failed msg (jobs_now d)) d)).
Proof. reflexivity. Qed.

Lemma alone_recover n d :
  alone (recover_stale n) d
  = (Ok (Z.of_nat (length (filter (λ j, stale n d j = true) (jobs d)))),
     set_jobs ((λ j, if stale n d j then set_active pending None "requeued" j else j) <$> jobs d) d).
Proof. reflexivity. Qed.

(** A synchronous issue answers with the active job of its key, or appends a job that
    has ended. *)
Lemma alone_emit dumps sha view scope kind snap ids tr at_ aux ch by_ d :
  let c := job_create dumps sha view scope ids tr at_ by_ in
  queue_wf d →
  alone (emit_report dumps sha view scope kind snap ids tr at_ aux ch by_) d
  = match find (active_under (new_key c)) (jobs d) with
    | Some j => (Ok (Some (Job.id j)), d)
    | None => let j := set_succeeded (emitted_result kind snap view aux ch) (jobs_now d)
                         (inserted_job c d) in
              (Ok (Some (Job.id j)), set_jobs (jobs d ++ [j]) (appended c d))
    end.
Proof.
  cbn zeta. intros W. destruct (find _ _) as [j|] eqn:E.
  - pose proof (enqueue_stmt_issued (job_create dumps sha view scope ids tr at_ by_) d) as H.
    unfold issued in H. rewrite E in H. apply (execute_quiet _ d) in H. cbn [fst snd] in H.
    unfold alone, emit_report, enqueue.
    rewrite (with_session_quiet _ d (Ok (Some (Job.id j))) d d); [done|].
    rewrite (bind_ok _ _ _ _ _ H). unfold get_active_by_hash.
    rewrite (bind_ok _ _ _ _ _ (execute_quiet _ d d _ d eq_refl)).
    unfold active_by_hash.
    match goal with |- context [find (active_under ?k) _] =>
      change k with (new_key (job_create dumps sha view scope ids tr at_ by_)) end.
    by rewrite E.
  - unfold alone. rewrite emit_quiet; [done|done|]. intros j Hj. apply not_true_iff_false.
    intros Ha. eapply find_none in E; [|by apply list_elem_of_In]. congruence.
Qed.

(** ** The status of a job *)

Definition has_status (d : jobs_db) (id : string) (st : JobStatus) : Prop :=
  ∃ j, j ∈ jobs d ∧ Job.id j = id ∧ Job.status j = st.

(** A row stays as it is when another row is appended or changed. *)
Lemma row_append j k l d : j ∈ jobs d → l = jobs d ++ [k] → j ∈ l.
Proof. intros Hj ->. apply elem_of_app. by left. Qed.

Lemma row_other id f d j : Job.id j ≠ id → j ∈ jobs d → j ∈ jobs (snd (update_job id f d)).
Proof.
  intros Hne Hj. apply list_elem_of_fmap. exists j. by rewrite bool_decide_eq_false_2.
Qed.

Lemma row_unstale n d k d' j :
  alone (recover_stale n) d = (Ok k, d') → stale n d j = false → j ∈ jobs d → j ∈ jobs d'.
Proof.
  rewrite alone_recover. intros [= _ <-] Hs Hj. apply list_elem_of_fmap. exists j. by rewrite Hs.
Qed.

Lemma stale_pending n d j : Job.status j ≠ running → stale n d j = false.
Proof. intros H. unfold stale. by rewrite bool_decide_eq_false_2. Qed.

Lemma stale_overdue n d j : stale n d j = true ↔ overdue n (jobs_now d) j.
Proof.
  unfold stale, overdue. rewrite andb_true_iff, bool_decide_eq_true. destruct (Job.started_at j) as [t|].
  - rewrite Z.ltb_lt. split; [intros [H1 H2]|intros [H1 (t' & [= <-] & H2)]]; (split; [done|]).
    + exists t. split; [done|lia].
    + lia.
  - split; [by intros []|]. by intros [_ (t & [=] & _)].
Qed.

Lemma has_status_keep d d' id st :
  (∀ j, Job.id j = id → j ∈ jobs d → j ∈ jobs d') → has_status d id st → has_status d' id st.
Proof. intros H (j & Hj & Ei & Es). exists j. split; [by apply H|done]. Qed.

Lemma has_status_set id f d st st' :
  (∀ j, Job.id (f j) = Job.id j) → (∀ j, Job.status (f j) = st') →
  has_status d id st → has_status (snd (update_job id f d)) id st'.
Proof.
  intros Hf Hst (j & Hj & Ei & _). exists (f j). rewrite Hf, Hst. split; [|done].
  apply list_elem_of_fmap. exists j. by rewrite bool_decide_eq_true_2.
Qed.

Lemma has_status_unique d id st st' :
  queue_wf d → has_status d id st → has_status d id st' → st = st'.
Proof.
  intros W (j & Hj & Ei & Es) (k & Hk & Ei' & Es').
  assert (j = k) as -> by (eapply job_id_unique; eauto; congruence). congruence.
Qed.

Lemma alone_keeps {A} (prog : eff (gsession jobs_db) A) d r d' :
  keeps (queue_sound d) prog → queue_wf d → alone prog d = (r, d') → queue_sound d d'.
Proof.
  intros K W E. assert (inv_session (queue_sound d) (quiet_session d d)) as I0.
  { split; [by apply queue_sound_refl..|]. constructor. }
  apply K in I0. unfold alone in E. destruct (prog (quiet_session d d)) as [r' s].
  injection E as _ <-. by destruct I0.
Qed.

(** A version of a pending row, made running *)
Definition claims_row (d : jobs_db) (row : DiagnosticJob) : Prop :=
  ∃ j, j ∈ jobs d ∧ Job.status j = pending ∧ same_job j row ∧ Job.status row = running
    ∧ coherent row.

Lemma claims_row_pending d row : claims_row d row → has_status d (Job.id row) pending.
Proof. intros (j & Hj & Hp & S & _). exists j. by rewrite (sj_id _ _ S). Qed.

Lemma claims_row_keep d d' row :
  (∀ j, Job.id j = Job.id row → Job.status j = pending → j ∈ jobs d → j ∈ jobs d') →
  claims_row d row → claims_row d' row.
Proof.
  intros H (j & Hj & Hp & S & R). exists j. split; [|done]. apply H; [|done..].
  by rewrite (sj_id _ _ S).
Qed.

Lemma put_row_wf d row : queue_wf d → claims_row d row → queue_wf (put_row row d).
Proof.
  intros W (j & Hj & Hp & S & Hr & Hc). eapply update_job_sound; [done|]. intros k Hk Ek.
  assert (k = j) as -> by (eapply job_id_unique; [done..|]; by rewrite <- (sj_id _ _ S)).
  by split.
Qed.

Lemma put_row_running d row : claims_row d row → has_status (put_row row d) (Job.id row) running.
Proof.
  intros (j & Hj & _ & S & Hr & _). exists row. split; [|done]. apply list_elem_of_fmap.
  exists j. by rewrite bool_decide_eq_true_2 by (symmetry; apply (sj_id _ _ S)).
Qed.

(** The row a claim takes: pending, not locked by another worker *)
Lemma claim_stmt_row d row d' :
  queue_wf d → claim_stmt d = Ok (Some row, d') → claims_row d row ∧ Job.id row ∉ locked d.
Proof.
  intros W. destruct (next_claim d) as [j|] eqn:E; [|unfold claim_stmt; by rewrite E].
  destruct (claim_stmt_some d j W E) as [-> W']. intros [= <- <-].
  apply next_claim_spec in E as (Hj & Hc & _). pose proof (claimable_pending _ _ Hc) as Hp. split.
  - exists j. split; [done|]. split; [done|]. split; [|split; [done|]].
    + apply set_active_same, active_iff. by left.
    + apply (q_coherent _ W'). apply claimed_rows; [done..|]. by left.
  - unfold claimable in Hc. to_prop. cbn. intros Hl%mem_true. congruence.
Qed.

Lemma advance_wf dt d : queue_wf d → queue_wf (advance dt d).
Proof. by intros []. Qed.

Lemma seen_wf p : queue_wf (queue p) → queue_wf (seen p).
Proof. by intros []. Qed.

(** ** The rows a step leaves as they are *)

(** The job whose row a step writes *)
Definition writes (e : event) : option string :=
  match e with
  | Committing _ id | Succeeding _ id _ | Failing _ id _ => Some id
  | _ => None
  end.

(** The jobs a recovery takes back *)
Definition retakes (e : event) (d : jobs_db) (j : DiagnosticJob) : Prop :=
  match e with Recovering n _ => overdue n (jobs_now d) j | _ => False end.

Lemma issued_rows c d j : j ∈ jobs d → j ∈ jobs (issued c d).2.
Proof. intros Hj. unfold issued. destruct (find _ _); [done|]. by eapply row_append. Qed.

Lemma emit_rows dumps sha view scope kind snap ids tr at_ aux ch by_ d r d' j :
  queue_wf d → alone (emit_report dumps sha view scope kind snap ids tr at_ aux ch by_) d = (r, d') →
  j ∈ jobs d → j ∈ jobs d'.
Proof.
  intros W E Hj. rewrite alone_emit in E by done. cbn zeta in E.
  destruct (find _ _); injection E as _ <-; [done|]. by eapply row_append.
Qed.

Lemma event_keeps may p e p' j :
  queue_wf (queue p) → pool_event may p e p' → j ∈ jobs (queue p) →
  writes e ≠ Some (Job.id j) → ¬ retakes e (queue p) j → j ∈ jobs (queue p').
Proof.
  intros W H Hj Hw Hr.
  destruct H as [c o d E|? ? ? ? ? ? ? ? ? ? ? ? o d E| | |w row Hh|w id r d Hh Hl E|w id msg d Hh Hl E| |n k d Hm E];
    cbn in *; try done.
  - rewrite alone_enqueue in E. injection E as _ <-. by apply issued_rows.
  - by eapply emit_rows.
  - apply row_other; [congruence|done].
  - rewrite alone_finish_ok in E. injection E as <-. apply row_other; [congruence|done].
  - rewrite alone_finish_fail in E. injection E as <-. apply row_other; [congruence|done].
  - eapply row_unstale; [done| |done]. apply not_true_iff_false. by rewrite stale_overdue.
Qed.

(** ** Invariants *)

(** What row locks alone ensure *)
Record claims_ok (p : pool) : Prop := {
  co_wf : queue_wf (queue p);
  co_row (w : nat) row : holders p !! w = Some (Claiming row) → claims_row (queue p) row;
  co_one (w w' : nat) row row' :
    holders p !! w = Some (Claiming row) → holders p !! w' = Some (Claiming row') →
    Job.id row = Job.id row' → w = w';
}.

(** What they ensure together with a timely recovery *)
Record exclusive (p : pool) : Prop := {
  ex_claims : claims_ok p;
  ex_running (w : nat) id : holders p !! w = Some (Working id) → has_status (queue p) id running;
  ex_one (w w' : nat) h h' : holders p !! w = Some h → holders p !! w' = Some h' → held h = held h' →
    w = w';
}.

Lemma claims_unheld d : queue_wf d → claims_ok {| queue := d; holders := ∅ |}.
Proof. intros W. by split. Qed.

Lemma exclusive_unheld d : queue_wf d → exclusive {| queue := d; holders := ∅ |}.
Proof. intros W. split; [by apply claims_unheld|done..]. Qed.

Lemma event_wf may p e p' : claims_ok p → pool_event may p e p' → queue_wf (queue p').
Proof.
  intros C H. pose proof (co_wf p C) as W. destruct H; cbn; try done.
  - by destruct (alone_keeps _ _ _ _ (keeps_enqueue_once _ c) W H).
  - by destruct (alone_keeps _ _ _ _ (keeps_emit_report _ _ _ _ _ _ _ _ _ _ _ _ _) W H).
  - by apply advance_wf.
  - apply put_row_wf; [done|]. by eapply co_row.
  - by destruct (alone_keeps _ _ _ _ (keeps_finish_succeeded _ _ _) W H1).
  - by destruct (alone_keeps _ _ _ _ (keeps_finish_failed _ _ _) W H1).
  - by destruct (alone_keeps _ _ _ _ (keeps_recover_stale _ _) W H0).
Qed.

(** Who holds what after a step: the worker of a claim or an end aside, everyone holds
    what it held. *)
Lemma event_holders may p e p' (w : nat) h :
  pool_event may p e p' → holders p' !! w = Some h →
  holders p !! w = Some h
  ∨ (∃ row d, h = Claiming row ∧ holders p !! w = None ∧ claim_stmt (seen p) = Ok (Some row, d)
       ∧ e = Locking w (Job.id row))
  ∨ (∃ row, h = Working (Job.id row) ∧ holders p !! w = Some (Claiming row)
       ∧ e = Committing w (Job.id row)).
Proof.
  intros H Hw. destruct H; cbn in Hw; try (by left);
    try (left; by apply lookup_delete_Some in Hw as [_ Hw]).
  - apply lookup_insert_Some in Hw as [[<- <-]|[_ Hw]]; [right; left|by left].
    by exists row, d.
  - apply lookup_insert_Some in Hw as [[<- <-]|[_ Hw]]; [right; right|by left]. by exists row.
Qed.

(** The row of a claim in flight is written by nobody. *)
Lemma claim_unwritten may p e p' (w : nat) row :
  claims_ok p → pool_event may p e p' → holders p !! w = Some (Claiming row) →
  holders p' !! w = Some (Claiming row) → writes e ≠ Some (Job.id row).
Proof.
  intros C H Hw Hw'. destruct H as [| | | |w2 row2 H2|w2 id r d H2 Hl E|w2 id msg d H2 Hl E| |];
    cbn in *; try done; intros [= Ei].
  - assert (w2 = w) as -> by by eapply (co_one p C).
    rewrite lookup_insert_eq in Hw'. done.
  - apply Hl, locks_elem. by exists w, row.
  - apply Hl, locks_elem. by exists w, row.
Qed.

Lemma claim_kept may p e p' (w : nat) row :
  claims_ok p → pool_event may p e p' → holders p !! w = Some (Claiming row) →
  holders p' !! w = Some (Claiming row) → claims_row (queue p') row.
Proof.
  intros C H Hw Hw'. eapply claims_row_keep; [|by eapply co_row]. intros j Ei Hp Hj.
  eapply event_keeps; [apply (co_wf p C)|done|done|rewrite Ei; by eapply claim_unwritten|].
  destruct e; cbn; try (by intros []). intros [Hr _]. congruence.
Qed.

Lemma locking_row p row d :
  claims_ok p → claim_stmt (seen p) = Ok (Some row, d) →
  claims_row (queue p) row ∧ ∀ (w : nat) row', holders p !! w = Some (Claiming row') →
    Job.id row' ≠ Job.id row.
Proof.
  intros C E. apply (claim_stmt_row _ _ _ (seen_wf p (co_wf p C))) in E as [R Hl].
  split; [exact R|]. intros w row' Hw Ei. apply Hl, locks_elem. by exists w, row'.
Qed.

Lemma claims_step may p p' : claims_ok p → pool_step may p p' → claims_ok p'.
Proof.
  intros C [e H]. split; [by eapply event_wf| |].
  - intros w row Hw.
    destruct (event_holders _ _ _ _ _ _ H Hw) as [Hw0|[(row0 & d & [= <-] & Hn & E & ->)|(? & [=] & _)]].
    + by eapply claim_kept.
    + eapply claims_row_keep; [|by eapply locking_row]. intros j Ei Hp Hj.
      eapply event_keeps; [apply (co_wf p C)|done|done|done|by intros []].
  - intros w1 w2 r1 r2 H1 H2 Ei.
    destruct (event_holders _ _ _ _ _ _ H H1) as [G1|[(x1 & d1 & [= <-] & N1 & E1 & K1)|(? & [=] & _)]];
    destruct (event_holders _ _ _ _ _ _ H H2) as [G2|[(x2 & d2 & [= <-] & N2 & E2 & K2)|(? & [=] & _)]].
    + by eapply (co_one p C).
    + by destruct (proj2 (locking_row _ _ _ C E2) w1 r1 G1).
    + by destruct (proj2 (locking_row _ _ _ C E1) w2 r2 G2).
    + congruence.
Qed.

(** Under exclusion the job a worker holds is written by nobody else. *)
Lemma held_unwritten may p e p' (w : nat) h :
  exclusive p → pool_event may p e p' → holders p !! w = Some h → holders p' !! w = Some h →
  writes e ≠ Some (held h).
Proof.
  intros X H Hw Hw'.
  assert (∀ (w2 : nat) h2, holders p !! w2 = Some h2 → held h2 = held h → w2 = w) as One.
  { intros w2 h2 H2 E. by eapply (ex_one p X). }
  destruct H as [| | | |w2 row2 H2|w2 id r d H2 Hl E|w2 id msg d H2 Hl E| |]; cbn in *; try done;
    intros [= Ei].
  - assert (w2 = w) as -> by by eapply (One _ _ H2). rewrite lookup_insert_eq in Hw'. congruence.
  - assert (w2 = w) as -> by by eapply (One _ _ H2). by rewrite lookup_delete_eq in Hw'.
  - assert (w2 = w) as -> by by eapply (One _ _ H2). by rewrite lookup_delete_eq in Hw'.
Qed.

Lemma locking_free p row d (w : nat) h :
  exclusive p → claim_stmt (seen p) = Ok (Some row, d) → holders p !! w = Some h →
  held h ≠ Job.id row.
Proof.
  intros X E Hw Ei. destruct (locking_row _ _ _ (ex_claims p X) E) as [R Hno].
  destruct h as [row'|id]; cbn in Ei; [by eapply Hno|]. subst.
  pose proof (has_status_unique _ _ _ _ (co_wf p (ex_claims p X)) (claims_row_pending _ _ R)
    (ex_running p X _ _ Hw)). done.
Qed.

Lemma working_kept p e p' (w : nat) id :
  exclusive p → pool_event timely p e p' → holders p !! w = Some (Working id) →
  holders p' !! w = Some (Working id) → has_status (queue p') id running.
Proof.
  intros X H Hw Hw'. eapply has_status_keep; [|by eapply ex_running]. intros j Ei Hj.
  eapply event_keeps; [apply (co_wf p (ex_claims p X))|done|done| |].
  - rewrite Ei. by apply (held_unwritten _ _ _ _ _ _ X H Hw Hw').
  - destruct H; cbn; try by intros []. by eapply H.
Qed.

Lemma committed_row may p (w : nat) id p' :
  pool_event may p (Committing w id) p' →
  ∃ row, holders p !! w = Some (Claiming row) ∧ id = Job.id row ∧ queue p' = put_row row (queue p).
Proof. inversion 1; subst. by eexists. Qed.

Lemma exclusive_step p p' : exclusive p → pool_step timely p p' → exclusive p'.
Proof.
  intros X [e H].
  assert (claims_ok p') as C' by (eapply claims_step; [apply (ex_claims p X)|by exists e]).
  split; [done| |].
  - intros w id Hw.
    destruct (event_holders _ _ _ _ _ _ H Hw) as [G|[(? & ? & [=] & _)|(row & [= ->] & G & ->)]].
    + by eapply working_kept.
    + destruct (committed_row _ _ _ _ _ H) as (row' & G' & E & ->). rewrite E.
      apply put_row_running. by eapply co_row; [apply (ex_claims p X)|].
  - intros w1 w2 h1 h2 H1 H2 Ei.
    destruct (event_holders _ _ _ _ _ _ H H1) as [G1|[(x1 & d1 & -> & N1 & E1 & K1)|(x1 & -> & G1 & K1)]];
    destruct (event_holders _ _ _ _ _ _ H H2) as [G2|[(x2 & d2 & -> & N2 & E2 & K2)|(x2 & -> & G2 & K2)]];
    try congruence; try by eapply (ex_one p X).
    + by destruct (locking_free _ _ _ _ _ X E2 G1).
    + by destruct (locking_free _ _ _ _ _ X E1 G2).
Qed.

Lemma reachable_claims may p : reachable may p → claims_ok p.
Proof.
  intros (d & W & H). eapply rtc_invariant; [|by apply claims_unheld|exact H].
  intros a b. apply claims_step.
Qed.

Lemma reachable_exclusive p : reachable timely p → exclusive p.
Proof.
  intros (d & W & H). eapply rtc_invariant; [|by apply exclusive_unheld|exact H].
  intros a b. apply exclusive_step.
Qed.

(** A job that has ended is never written again. *)
Lemma ended_immutable p p' j :
  exclusive p → pool_step timely p p' → j ∈ jobs (queue p) → terminal j → j ∈ jobs (queue p').
Proof.
  intros X [e H] Hj Ht. pose proof (co_wf p (ex_claims p X)) as W.
  assert (∀ st, has_status (queue p) (Job.id j) st → terminal j → st = pending ∨ st = running → False)
    as Hno.
  { intros st Hs T Hst. assert (has_status (queue p) (Job.id j) (Job.status j)) as Hj' by by exists j.
    pose proof (has_status_unique _ _ _ _ W Hs Hj'). destruct T, Hst; congruence. }
  eapply event_keeps; [done..| |].
  - destruct H; cbn; try done; intros [= Ei].
    + apply (Hno pending); [|done|by left]. rewrite <- Ei. apply claims_row_pending.
      by eapply co_row; [apply (ex_claims p X)|].
    + apply (Hno running); [|done|by right]. rewrite <- Ei. by eapply (ex_running p X).
    + apply (Hno running); [|done|by right]. rewrite <- Ei. by eapply (ex_running p X).
  - destruct e; cbn; try (by intros []). intros [Hr _]. destruct Ht; congruence.
Qed.

(** ** The abstract board

    What the queue promises to those who read it: under each id there is a job of one
    key, which is queued, running or ended with a report or an error. *)

Inductive phase :=
  | Queued
  | Running
  | Ended (ok : bool) (report : option json) (error : option string).

Definition phase_of (j : DiagnosticJob) : phase :=
  match Job.status j with
  | pending => Queued
  | running => Running
  | succeeded => Ended true (Job.result j) (Job.error_message j)
  | failed => Ended false (Job.result j) (Job.error_message j)
  end.

Abbreviation entry := (string * string * string * phase)%type.
Abbreviation board := (gmap string entry).

Definition entry_of (j : DiagnosticJob) : entry := (job_key j, phase_of j).

Definition board_of (d : jobs_db) : board :=
  list_to_map ((λ j, (Job.id j, entry_of j)) <$> jobs d).

Definition unended (ph : phase) : Prop := ph = Queued ∨ ph = Running.

(** An issue under [key]: a job of the key that has not ended answers it, and there is a
    new one, in phase [ph], exactly when there is none. *)
Definition board_issue (key : string * string * string) (ph : phase) (id : string)
    (b b' : board) : Prop :=
  (b' = b ∧ ∃ ph', b !! id = Some (key, ph') ∧ unended ph')
  ∨ ((∀ id' ph', b !! id' = Some (key, ph') → ¬ unended ph')
     ∧ b !! id = None ∧ b' = <[id := (key, ph)]> b).

(** The job goes from one phase to the next, and nothing else changes. *)
Definition board_move (id : string) (ph ph' : phase) (b b' : board) : Prop :=
  ∃ key, b !! id = Some (key, ph) ∧ b' = <[id := (key, ph')]> b.

#[export] Instance overdue_dec n now j : Decision (overdue n now j).
Proof.
  unfold overdue. destruct (decide (Job.status j = running)); [|right; by intros []].
  destruct (Job.started_at j) as [t|]; [|right; by intros (_ & t & [=] & _)].
  destruct (decide (t + n * 1000000 < now)).
  - left. split; [done|]. by exists t.
  - right. intros (_ & t' & [= <-] & H). done.
Defined.

(** The step of the board for each step of the pool *)
Definition board_event (e : event) (d d' : jobs_db) : Prop :=
  let b := board_of d in
  let b' := board_of d' in
  match e with
  | Issuing c answer => ∃ id, answer = Some id ∧ board_issue (new_key c) Queued id b b'
  | Emitting c snap answer => ∃ id r, answer = Some id ∧ json_find "snapshot" r = Some snap
      ∧ board_issue (new_key c) (Ended true (Some r) None) id b b'
  | Ticking _ | Locking _ _ | Dying _ => b' = b
  | Committing _ id => board_move id Queued Running b b'
  | Succeeding _ id r => board_move id Running (Ended true (Some r) None) b b'
  | Failing _ id msg => board_move id Running (Ended false None (Some msg)) b b'
  | Recovering n k =>
      k = Z.of_nat (length (filter (overdue n (jobs_now d)) (jobs d)))
      ∧ dom b' = dom b
      ∧ ∀ j, j ∈ jobs d → b' !! Job.id j
          = Some (job_key j, if decide (overdue n (jobs_now d) j) then Queued else phase_of j)
  end.

Lemma board_lookup d id en :
  queue_wf d → board_of d !! id = Some en ↔ ∃ j, j ∈ jobs d ∧ Job.id j = id ∧ entry_of j = en.
Proof.
  intros W. unfold board_of. rewrite <- (elem_of_list_to_map (M := gmap string)).
  - rewrite list_elem_of_fmap. split.
    + intros (j & [= -> ->] & Hj). by exists j.
    + intros (j & Hj & <- & <-). by exists j.
  - rewrite <- list_fmap_compose. apply (q_ids d W).
Qed.

Lemma board_row d j : queue_wf d → j ∈ jobs d → board_of d !! Job.id j = Some (entry_of j).
Proof. intros W Hj. apply board_lookup; [done|]. by exists j. Qed.

Lemma board_eq d (b : board) :
  queue_wf d →
  (∀ id en, b !! id = Some en ↔ ∃ j, j ∈ jobs d ∧ Job.id j = id ∧ entry_of j = en) →
  board_of d = b.
Proof.
  intros W Hb. apply map_eq. intros id. apply option_eq. intros en.
  by rewrite (board_lookup d id en W), Hb.
Qed.

(** The row of one job is changed. *)
Lemma board_update d id f j0 :
  queue_wf d → queue_wf (snd (update_job id f d)) → j0 ∈ jobs d → Job.id j0 = id →
  Job.id (f j0) = id →
  board_of (snd (update_job id f d)) = <[id := entry_of (f j0)]> (board_of d).
Proof.
  intros W W' Hj0 E0 Hf. apply board_eq; [done|]. intros i en.
  rewrite lookup_insert_Some, board_lookup by done. split.
  - intros [[<- <-]|[Hne (j & Hj & <- & <-)]].
    + exists (f j0). split; [|done]. apply list_elem_of_fmap. exists j0.
      by rewrite bool_decide_eq_true_2.
    + exists j. split; [|done]. by apply row_other.
  - intros (x & (j & -> & Hj)%list_elem_of_fmap & Ei & Ep). case_bool_decide as Eid.
    + assert (j = j0) as -> by (apply (job_id_unique d); [done..|congruence]). left.
      split; congruence.
    + right. split; [congruence|]. by exists j.
Qed.

(** A row is appended. *)
Lemma board_append d d' j :
  queue_wf d → queue_wf d' → jobs d' = jobs d ++ [j] →
  board_of d !! Job.id j = None ∧ board_of d' = <[Job.id j := entry_of j]> (board_of d).
Proof.
  intros W W' E.
  assert (∀ k, k ∈ jobs d → Job.id k ≠ Job.id j) as Hf.
  { intros k Hk Ek. pose proof (q_ids d' W') as N. rewrite E, fmap_app in N.
    apply NoDup_app in N as (_ & N & _). apply (N (Job.id k)).
    - apply list_elem_of_fmap. by exists k.
    - rewrite Ek. apply list_elem_of_here. }
  split.
  - apply eq_None_not_Some. intros [en (k & Hk & Ek & _)%board_lookup]; [|done]. by apply (Hf k).
  - apply board_eq; [done|]. intros i en. rewrite lookup_insert_Some, board_lookup, E by done.
    setoid_rewrite elem_of_app. setoid_rewrite list_elem_of_singleton. split.
    + intros [[<- <-]|[Hne (k & Hk & Ek & Ep)]]; [exists j|exists k]; auto.
    + intros (k & [Hk|Ek] & Ei & Ep); [right|left; by subst].
      split; [|by exists k]. rewrite <- Ei. intros Eq. by apply (Hf k).
Qed.

Lemma active_under_entry key j :
  active_under key j = true ↔ ∃ ph, entry_of j = (key, ph) ∧ unended ph.
Proof.
  unfold active_under, entry_of, phase_of, unended.
  rewrite andb_true_iff, active_iff, bool_decide_eq_true. split.
  - intros [[-> | ->] <-]; eauto.
  - intros (ph & [= <- <-] & Hp). split; [|done]. destruct (Job.status j); intuition congruence.
Qed.

(** Either kind of issue, by the row it appends *)
Lemma board_issues key d d' id j :
  queue_wf d → queue_wf d' → job_key j = key →
  match find (active_under key) (jobs d) with
  | Some k => id = Job.id k ∧ d' = d
  | None => id = Job.id j ∧ jobs d' = jobs d ++ [j]
  end →
  board_issue key (phase_of j) id (board_of d) (board_of d').
Proof.
  intros W W' Hk. destruct (find _ _) as [k|] eqn:E.
  - intros [-> ->]. left. split; [done|]. apply find_some in E as [Hin Ha].
    apply list_elem_of_In in Hin. apply active_under_entry in Ha as (ph & Ea & Hu).
    exists ph. by rewrite board_row, Ea.
  - intros [-> E']. right. destruct (board_append _ _ _ W W' E') as [Hn ->]. split; [|split].
    + intros id' ph' (k & Hin & _ & Ek)%board_lookup Hu; [|done].
      eapply find_none in E; [|by apply list_elem_of_In].
      rewrite <- not_true_iff_false, active_under_entry in E. apply E. by exists ph'.
    + done.
    + by rewrite <- Hk.
Qed.

Lemma board_moves d id f ph :
  queue_wf d → queue_wf (snd (update_job id f d)) → ∀ j, j ∈ jobs d → Job.id j = id →
  Job.id (f j) = id → job_key (f j) = job_key j → phase_of (f j) = ph →
  board_move id (phase_of j) ph (board_of d) (board_of (snd (update_job id f d))).
Proof.
  intros W W' j Hj <- Hf Hk <-. exists (job_key j). split; [by rewrite board_row|].
  rewrite (board_update d _ f j) by done. unfold entry_of. by rewrite Hk.
Qed.

(** The end of a running job *)
Lemma board_finish d id f ok r err :
  queue_wf d → queue_wf (snd (update_job id f d)) → has_status d id running →
  (∀ j, same_job j (f j)) →
  (∀ j, Job.result j = None → Job.error_message j = None → phase_of (f j) = Ended ok r err) →
  board_move id Running (Ended ok r err) (board_of d) (board_of (snd (update_job id f d))).
Proof.
  intros W W' (j & Hj & Ei & Es) Hf Hp. pose proof (q_coherent d W j Hj) as Hc.
  unfold coherent in Hc. rewrite Es in Hc. destruct Hc as (_ & _ & Hr & He).
  replace Running with (phase_of j) by (unfold phase_of; by rewrite Es).
  apply (board_moves d id f _ W W' j Hj Ei).
  - by rewrite (sj_id _ _ (Hf j)).
  - apply (sj_key _ _ (Hf j)).
  - by apply Hp.
Qed.

Lemma stale_filter n d :
  length (filter (λ j, stale n d j = true) (jobs d))
  = length (filter (overdue n (jobs_now d)) (jobs d)).
Proof. f_equal. apply list_filter_iff. intros j. apply stale_overdue. Qed.

Lemma board_recover n k d d' :
  queue_wf d → queue_wf d' → alone (recover_stale n) d = (Ok k, d') → board_event (Recovering n k) d d'.
Proof.
  intros W W' E. rewrite alone_recover in E. injection E as <- Ed. unfold board_event.
  rewrite stale_filter. set (g := λ j, if stale n d j then set_active pending None "requeued" j else j).
  assert (∀ j, Job.id (g j) = Job.id j) as Hg by (intros j; unfold g; by destruct (stale n d j)).
  assert (∀ x, x ∈ jobs d' ↔ ∃ j, x = g j ∧ j ∈ jobs d) as Hin.
  { intros x. rewrite <- Ed. apply list_elem_of_fmap. }
  assert (∀ j, j ∈ jobs d → board_of d' !! Job.id j = Some (entry_of (g j))) as Hb.
  { intros j Hj. rewrite <- Hg. apply board_row; [done|]. apply Hin. by exists j. }
  split; [done|]. split.
  - apply set_eq. intros id. rewrite !elem_of_dom. split.
    + intros [en (x & (j & -> & Hj)%Hin & <- & _)%board_lookup]; [|done].
      rewrite Hg, board_row by done. done.
    + intros [en (j & Hj & <- & _)%board_lookup]; [|done]. by rewrite Hb.
  - intros j Hj. rewrite (Hb j Hj). unfold g. destruct (stale n d j) eqn:Es.
    + rewrite decide_True; [done|]. by apply stale_overdue.
    + rewrite decide_False; [done|]. rewrite <- stale_overdue. by rewrite Es.
Qed.

Lemma board_commit d row :
  queue_wf d → claims_row d row →
  board_move (Job.id row) Queued Running (board_of d) (board_of (put_row row d)).
Proof.
  intros W R. pose proof (put_row_wf d row W R) as W'. destruct R as (j & Hj & Hp & S & Hr & _).
  replace Queued with (phase_of j) by (unfold phase_of; by rewrite Hp).
  apply board_moves; try done.
  - by rewrite (sj_id _ _ S).
  - apply (sj_key _ _ S).
  - unfold phase_of. by rewrite Hr.
Qed.

(** Every step of the pool is the step of the board that it stands for. *)
Lemma pool_simulation p e p' :
  exclusive p → pool_event timely p e p' → board_event e (queue p) (queue p').
Proof.
  intros X H. pose proof (ex_claims p X) as C. pose proof (co_wf p C) as W.
  pose proof (event_wf _ _ _ _ C H) as W'.
  destruct H as [c o d E|dumps sha view scope kind snap ids tr at_ aux ch by_ o d E| | |w row Hw
    |w id r d Hw Hl E|w id msg d Hw Hl E| |n k d Hm E]; cbn [queue] in *; try done.
  - rewrite alone_enqueue in E. injection E as <- <-. eexists. split; [done|].
    apply (board_issues _ _ _ _ (inserted_job c (queue p)) W W'); [done|].
    unfold issued. by destruct (find _ _).
  - rewrite alone_emit in E by done. cbn zeta in E.
    set (c := job_create dumps sha view scope ids tr at_ by_) in *.
    set (r := emitted_result kind snap view aux ch) in *.
    set (j := set_succeeded r (jobs_now (queue p)) (inserted_job c (queue p))) in *.
    exists (default ""%string o), r. split; [by destruct (find _ _); injection E as <- _|].
    split; [apply emitted_snapshot|].
    apply (board_issues (new_key c) _ _ _ j W W'); [done|].
    destruct (find _ _); by injection E as <- <-.
  - apply board_commit; [done|]. by eapply co_row.
  - rewrite alone_finish_ok in E. injection E as <-.
    apply board_finish; [done..|by eapply ex_running|apply set_succeeded_same|].
    intros j Hr He. unfold phase_of. cbn. by rewrite He.
  - rewrite alone_finish_fail in E. injection E as <-.
    apply board_finish; [done..|by eapply ex_running|apply set_failed_same|].
    intros j Hr He. unfold phase_of. cbn. by rewrite Hr.
  - by apply board_recover.
Qed.

Lemma ended_terminal j ph : phase_of j = ph → ¬ unended ph ↔ terminal j.
Proof.
  intros <-. unfold phase_of, unended, terminal. destruct (Job.status j); naive_solver.
Qed.

(** What has ended stays on the board as it is. *)
Lemma board_ended p p' id key ph :
  exclusive p → pool_step timely p p' → ¬ unended ph →
  board_of (queue p) !! id = Some (key, ph) → board_of (queue p') !! id = Some (key, ph).
Proof.
  intros X H Hu Hb. pose proof (co_wf p (ex_claims p X)) as W.
  pose proof (co_wf p' (ex_claims p' (exclusive_step _ _ X H))) as W'.
  apply board_lookup in Hb as (j & Hj & <- & Ee); [|done]. apply board_lookup; [done|].
  exists j. split; [|done]. eapply ended_immutable; [done..|]. eapply ended_terminal; [|exact Hu].
  by injection Ee.
Qed.

(** ** A claim of the service

    The two steps of a claim, one right after the other, are the service's
    [claim_pending]: it takes a pending job that nobody is claiming, no younger than any
    other such job, and finds none only when there is none. *)

Definition unclaimed (p : pool) (j : DiagnosticJob) : Prop :=
  j ∈ jobs (queue p) ∧ Job.status j = pending
  ∧ ∀ (w : nat) row, holders p !! w = Some (Claiming row) → Job.id row ≠ Job.id j.

Definition claims_as_service (may_recover : pool → Z → Prop) (p : pool) (w : nat) : Prop :=
  match alone claim_pending (seen p) with
  | (Ok None, d) => jobs d = jobs (queue p) ∧ ∀ j, ¬ unclaimed p j
  | (Ok (Some row), d) => ∃ j p1 p2,
      unclaimed p j ∧ same_job j row ∧ Job.status row = running
      ∧ (∀ k, unclaimed p k → Job.created_at j <= Job.created_at k)
      ∧ pool_event may_recover p (Locking w (Job.id row)) p1
      ∧ pool_event may_recover p1 (Committing w (Job.id row)) p2
      ∧ holders p2 !! w = Some (Working (Job.id row)) ∧ jobs (queue p2) = jobs d
  | (Raise _, _) => False
  end.

Lemma unclaimed_claimable p j :
  unclaimed p j ↔ j ∈ jobs (queue p) ∧ claimable (seen p) j = true.
Proof.
  unfold unclaimed, claimable. rewrite andb_true_iff, bool_decide_eq_true, negb_true_iff.
  rewrite <- not_true_iff_false, mem_true. cbn [seen locked]. rewrite locks_elem.
  split.
  - intros (Hj & Hp & Hno). split; [done|]. split; [done|]. intros (w & row & Hw & E).
    by eapply Hno.
  - intros (Hj & Hp & Hno). split; [done|]. split; [done|]. intros w row Hw E. apply Hno.
    by exists w, row.
Qed.

Lemma claim_two_steps may p (w : nat) :
  claims_ok p → holders p !! w = None → claims_as_service may p w.
Proof.
  intros C Hw. pose proof (seen_wf p (co_wf p C)) as W. unfold claims_as_service, alone.
  destruct (next_claim (seen p)) as [j|] eqn:E.
  - rewrite (claim_quiet _ j W E). destruct (claim_stmt_some _ j W E) as [Ec _].
    pose proof (next_claim_spec _ _ E) as (Hj & Hc & Hmin).
    pose proof (claimable_pending _ _ Hc) as Hp. cbn [committed quiet_session].
    eexists j, _, _. split; [by apply unclaimed_claimable|].
    split; [apply set_active_same, active_iff; by left|]. split; [done|]. split.
    { intros k [Hk Hck]%unclaimed_claimable. by apply Hmin. }
    split; [by eapply (step_lock may p w)|].
    split; [eapply (step_claim may _ w); apply lookup_insert_eq|].
    split; [apply lookup_insert_eq|]. cbn.
    apply list_fmap_ext. intros i k Hk. case_bool_decide as Ei; [|done].
    apply list_elem_of_lookup_2 in Hk. by rewrite (job_id_unique _ _ _ W Hk Hj Ei).
  - rewrite (claim_quiet_none _ E). cbn. split; [done|].
    intros j [Hj Hc]%unclaimed_claimable. rewrite (next_claim_none _ E j Hj) in Hc. done.
Qed.

(** ** The end of a job

    A worker that ends the job it holds lets go of it, and the row of the job, which was
    running, is now as the worker says: its status, its report or its error, and the
    time. *)

Definition finishes (p p' : pool) (w : nat) (id : string) (st : JobStatus)
    (report : option json) (err : option string) : Prop :=
  holders p !! w = Some (Working id) ∧ holders p' !! w = None
  ∧ ∃ j j', j ∈ jobs (queue p) ∧ Job.id j = id ∧ Job.status j = running
      ∧ j' ∈ jobs (queue p') ∧ same_job j j' ∧ Job.status j' = st
      ∧ Job.result j' = report ∧ Job.error_message j' = err
      ∧ Job.finished_at j' = Some (jobs_now (queue p)).

Definition ends_its_own (e : event) (p p' : pool) : Prop :=
  match e with
  | Succeeding w id r => finishes p p' w id succeeded (Some r) None
  | Failing w id msg => finishes p p' w id failed None (Some msg)
  | _ => True
  end.

Lemma event_ends p e p' : exclusive p → pool_event timely p e p' → ends_its_own e p p'.
Proof.
  intros X H. pose proof (co_wf p (ex_claims p X)) as W.
  destruct H as [| | | | |w id r d Hw Hl E|w id msg d Hw Hl E| |]; try done;
    destruct (ex_running p X _ _ Hw) as (j & Hj & Ei & Es);
    pose proof (q_coherent _ W j Hj) as Hc; unfold coherent in Hc; rewrite Es in Hc;
    destruct Hc as (_ & _ & Hr & He);
    [rewrite alone_finish_ok in E|rewrite alone_finish_fail in E]; injection E as <-;
    (split; [done|]); (split; [apply lookup_delete_eq|]).
  - exists j, (set_succeeded r (jobs_now (queue p)) j). split_and!; try done; [|apply set_succeeded_same].
    apply list_elem_of_fmap. exists j. by rewrite bool_decide_eq_true_2.
  - exists j, (set_failed msg (jobs_now (queue p)) j). split_and!; try done; [|apply set_failed_same].
    apply list_elem_of_fmap. exists j. by rewrite bool_decide_eq_true_2.
Qed.
