(* ===== verification/PoolProps.v ===== *)
(** * A pool of report workers: the properties *)

From S2P Require Import Prelude PyFloat Sql SqlFacts Queue QueueFacts QueueProps Pool.

(** C34. One job, one worker: however the transactions of any number of workers and
    issuers (child reports included) interleave and whichever workers die, two workers
    never claim the same job at the same time, a claimed job is pending in the table
    until its claim commits and what the claim commits is that same job made running,
    and a claim takes the oldest pending job that nobody is claiming and comes back
    empty only when there is none - its two steps together are [claim_pending].  When
    moreover the recovery of stale jobs is timely - it takes no job back that a worker
    is still generating - no two workers hold the same job at all, a job in generation
    is running, a worker ends its own, running job with its own report or error and lets
    go of it, and a job that has ended is never written again. *)
Theorem pool_exclusive (p : pool) :
  (reachable always p →
     claims_ok p ∧ ∀ w, holders p !! w = None → claims_as_service always p w)
  ∧ (reachable timely p → exclusive p
      ∧ (∀ e p', pool_event timely p e p' → ends_its_own e p p')
      ∧ ∀ p' j, pool_step timely p p' → j ∈ jobs (queue p) → terminal j → j ∈ jobs (queue p')).
Proof.
  split; intros R.
  - pose proof (reachable_claims _ p R) as C. split; [done|]. intros w. by apply claim_two_steps.
  - apply reachable_exclusive in R. split; [done|]. split; [|intros p' j; by apply ended_immutable].
    intros e p'. by apply event_ends.
Qed.

(** One pending job; worker 0 has claimed it. *)
Definition one_queued : jobs_db :=
  {| jobs := [queued 1 10]; locked := []; next_job := 2; jobs_now := 30 |}.

Lemma one_queued_wf : queue_wf one_queued.
Proof.
  split; cbn.
  - apply NoDup_singleton.
  - intros j ->%list_elem_of_singleton. exists 1. split; [lia|done].
  - apply NoDup_singleton.
  - by intros j ->%list_elem_of_singleton.
  - lia.
Qed.

Definition start (d : jobs_db) : pool := {| queue := d; holders := ∅ |}.

(** Worker [w] claims the next job. *)
Definition working (w : nat) (p : pool) : pool :=
  match claim_stmt (seen p) with
  | Ok (Some row, _) => {| queue := put_row row (queue p);
      holders := <[w := Working (Job.id row)]> (<[w := Claiming row]> (holders p)) |}
  | _ => p
  end.

(** Claiming a job is two steps. *)
Lemma claim_steps may w p row d :
  holders p !! w = None → claim_stmt (seen p) = Ok (Some row, d) →
  rtc (pool_step may) p (working w p).
Proof.
  intros Hw Hn. unfold working. rewrite Hn.
  eapply rtc_l; [eexists; by apply (step_lock may p w row d)|].
  apply rtc_once. eexists.
  refine (step_claim may {| queue := queue p; holders := <[w := Claiming row]> (holders p) |} w row _).
  apply lookup_insert_eq.
Qed.

Lemma reachable_refl may d : queue_wf d → reachable may (start d).
Proof. intros W. by exists d. Qed.

Lemma reachable_rtc may p p' : reachable may p → rtc (pool_step may) p p' → reachable may p'.
Proof. intros (d & W & H) H'. exists d. split; [done|]. by etransitivity. Qed.

Lemma working_reachable may : reachable may (working 0 (start one_queued)).
Proof.
  apply (reachable_rtc _ _ _ (reachable_refl _ _ one_queued_wf)).
  by eapply claim_steps.
Qed.

Lemma pool_exclusive_witness :
  exclusive (working 0 (start one_queued)) ∧ holders (working 0 (start one_queued)) !! 0%nat
    = Some (Working "1").
Proof.
  split; [|reflexivity].
  exact (proj1 (proj2 (pool_exclusive _) (working_reachable timely))).
Defined.

(** The state after worker [w] has stored a report for the job "1" *)
Definition succeed (w : nat) (r : json) (p : pool) : pool :=
  {| queue := snd (alone (finish_succeeded "1" r) (queue p));
     holders := base.delete w (holders p) |}.

Lemma succeed_event may (w : nat) r p :
  holders p !! w = Some (Working "1") → ("1"%string ∉ locks p) →
  pool_event may p (Succeeding w "1" r) (succeed w r p).
Proof. intros Hw Hl. by apply (step_finish_ok may p w "1"%string r). Qed.

(** C35. Refinement: with a timely recovery, every step of the pool is exactly the step
    of the abstract board - ids, each with a key and a phase, and the report or the
    error of what has ended - that it stands for.  An issue answers with a queued or
    running job of its key if there is one and puts a queued job under a fresh id if
    there is none; a child report likewise, except that its job is ended from the start,
    with the given snapshot, and never seen in another phase; a claim makes a queued job
    running when it commits; a worker ends only a running job, with its own report and
    no error or its own error and no report; a recovery puts exactly the jobs that have
    run for longer than the limit back, and counts them; locking a row, time and dying
    workers leave the board as it is; and an ended job keeps its report and its error for
    good. *)
Theorem pool_refines_board (p : pool) (R : reachable timely p) :
  (∀ e p', pool_event timely p e p' → board_event e (queue p) (queue p'))
  ∧ (∀ p' id key ph, pool_step timely p p' → ¬ unended ph →
       board_of (queue p) !! id = Some (key, ph) → board_of (queue p') !! id = Some (key, ph)).
Proof.
  apply reachable_exclusive in R. split.
  - intros e p'. by apply pool_simulation.
  - intros p' id key ph S. by apply board_ended.
Qed.

Lemma pool_refines_board_witness :
  let p := working 0 (start one_queued) in
  board_of (queue p) = {["1"%string := ("server"%string, "1"%string, "customer_report"%string, Running)]}
  ∧ board_move "1" Running (Ended true (Some JNull) None) (board_of (queue p))
      (board_of (queue (succeed 0 JNull p))).
Proof.
  cbn zeta. split; [vm_compute; reflexivity|].
  refine (proj1 (pool_refines_board _ (working_reachable timely)) (Succeeding 0 "1" JNull) _
    (succeed_event _ _ JNull _ _ _)).
  - reflexivity.
  - intros H. by vm_compute in H; apply not_elem_of_nil in H.
Defined.

(** ** Recovery that is not timely *)

Definition later (dt : Z) (p : pool) : pool :=
  {| queue := advance dt (queue p); holders := holders p |}.

Definition recovered (n : Z) (p : pool) : pool :=
  {| queue := snd (alone (recover_stale n) (queue p)); holders := holders p |}.

(** Worker 0 is slow; worker 1 starts, takes the job back, generates and stores it. *)
Definition overtaken : pool :=
  succeed 1 (JStr "report") (working 1 (recovered 3600 (later 3600000001
    (working 0 (start one_queued))))).

Lemma overtaken_reachable : reachable always overtaken.
Proof.
  apply (reachable_rtc _ _ _ (working_reachable always)).
  eapply rtc_l; [eexists; by apply (step_tick always _ 3600000001)|].
  eapply rtc_l; [eexists; eapply (step_recover always _ 3600); [done|reflexivity]|].
  etransitivity; [|apply rtc_once; eexists; apply succeed_event].
  - by eapply (claim_steps always 1 (recovered 3600 (later 3600000001 (working 0 (start one_queued))))).
  - reflexivity.
  - intros H. by vm_compute in H; apply not_elem_of_nil in H.
Qed.

(** C36. The recovery looks at the age of a job only, so it need not be timely: a
    report that takes longer to generate than the stale limit is taken back by the
    next worker that starts, generated again and stored as succeeded, and then marked
    as failed by the first worker when that one fails (marking checks no status). *)
Theorem late_worker_overwrites (msg : string) :
  reachable always overtaken
  ∧ has_status (queue overtaken) "1" succeeded
  ∧ ∃ p', pool_step always overtaken p' ∧ has_status (queue p') "1" failed
      ∧ ∃ j, j ∈ jobs (queue p') ∧ Job.error_message j = Some msg
          ∧ Job.result j = Some (JStr "report").
Proof.
  split; [exact overtaken_reachable|]. split.
  - eexists. split; [apply list_elem_of_here|]. done.
  - exists {| queue := snd (alone (finish_failed "1" msg) (queue overtaken));
              holders := base.delete 0%nat (holders overtaken) |}. split; [|split].
    + exists (Failing 0 "1" msg).
      apply (step_finish_fail always overtaken 0%nat "1"%string msg); [reflexivity| |reflexivity].
      intros H. by vm_compute in H; apply not_elem_of_nil in H.
    + eexists. split; [apply list_elem_of_here|]. done.
    + eexists. split; [apply list_elem_of_here|]. done.
Qed.
