(* ===== verification/WorkerRuns.v ===== *)
(** * Runs of the report worker without faults

    What the worker does to the table when no statement fails and nobody else writes,
    whatever the query service answers. *)

From S2P Require Import Prelude PyFloat PyText Sql SqlFacts DbRetry Queue QueueFacts Reports WorkerFacts QueueProps Pool.

(** ** Which jobs are pending *)

Definition pending_ids (d : jobs_db) : list string :=
  Job.id <$> filter (λ j, Job.status j = pending) (jobs d).

Lemma pending_ids_update id f d :
  (∀ j, Job.id (f j) = Job.id j) → (∀ j, Job.status (f j) ≠ pending) →
  pending_ids (snd (update_job id f d)) = filter (λ i, i ≠ id) (pending_ids d).
Proof.
  intros Hf Hs. unfold pending_ids. cbn. generalize (jobs d). intros l.
  induction l as [|j l IH]; [done|]. cbn [fmap list_fmap]. rewrite !filter_cons.
  case_bool_decide as E.
  - rewrite decide_False by apply Hs. destruct (decide _); [|done].
    cbn [fmap list_fmap]. rewrite filter_cons, decide_False; [done|]. by intros H.
  - destruct (decide _); [|done]. cbn [fmap list_fmap]. rewrite filter_cons, decide_True by done.
    f_equal. exact IH.
Qed.

Lemma pending_ids_elem d id : id ∈ pending_ids d ↔ has_status d id pending.
Proof.
  unfold pending_ids, has_status. rewrite list_elem_of_fmap. setoid_rewrite list_elem_of_filter.
  naive_solver.
Qed.

Lemma running_update id f d i :
  (∀ j, Job.id (f j) = Job.id j) → i ≠ id →
  has_status (snd (update_job id f d)) i running → has_status d i running.
Proof.
  intros Hf Hne (x & (j & -> & Hj)%list_elem_of_fmap & Ei & Es). exists j.
  case_bool_decide; [rewrite Hf in Ei; congruence|done].
Qed.

(** ** Storing child reports *)

(** [d'] is [d] with ended jobs appended. *)
Record more_ended (d d' : jobs_db) : Prop := {
  me_wf : queue_wf d';
  me_jobs : ∃ l, jobs d' = jobs d ++ l ∧ Forall terminal l;
  me_locked : locked d' = locked d;
}.

Lemma more_ended_refl d : queue_wf d → more_ended d d.
Proof. intros W. split; [done| |done]. exists []. by rewrite app_nil_r. Qed.

Lemma more_ended_trans d1 d2 d3 : more_ended d1 d2 → more_ended d2 d3 → more_ended d1 d3.
Proof.
  intros [W1 (l1 & E1 & T1) L1] [W2 (l2 & E2 & T2) L2]. split; [done| |congruence].
  exists (l1 ++ l2). rewrite E2, E1, (assoc_L (++)). split; [done|]. by apply Forall_app.
Qed.

Lemma more_ended_pending d d' : more_ended d d' → pending_ids d' = pending_ids d.
Proof.
  intros [_ (l & E & T) _]. unfold pending_ids. rewrite E, filter_app, fmap_app.
  replace (filter _ l) with (@nil DiagnosticJob); [by rewrite app_nil_r|].
  symmetry. clear E. induction T as [|j l Hj T IH]; [done|].
  rewrite filter_cons, decide_False by (destruct Hj; congruence). exact IH.
Qed.

Lemma more_ended_running d d' id : more_ended d d' → has_status d' id running → has_status d id running.
Proof.
  intros [_ (l & E & T) _] (j & Hj & Ei & Es). rewrite E in Hj.
  apply elem_of_app in Hj as [Hj|Hj]; [by exists j|].
  rewrite Forall_forall in T. destruct (T j Hj); congruence.
Qed.

Lemma more_ended_keeps d d' : more_ended d d' → keeps_jobs d d'.
Proof.
  intros [_ (l & E & _) _] j Hj. exists j. split; [|apply same_job_refl]. rewrite E.
  apply elem_of_app. by left.
Qed.

Lemma emit_conflict dumps sha view scope kind snap ids tr at_ aux ch by_ d j :
  let c := job_create dumps sha view scope ids tr at_ by_ in
  find (active_under (new_key c)) (jobs d) = Some j →
  emit_report dumps sha view scope kind snap ids tr at_ aux ch by_ (quiet_session d d)
  = (Ok (Some (Job.id j)), quiet_session d d).
Proof.
  cbn zeta. set (c := job_create dumps sha view scope ids tr at_ by_). intros E.
  pose proof (enqueue_stmt_issued c d) as H. unfold issued in H. rewrite E in H.
  apply (execute_quiet _ d) in H. cbn [fst snd] in H. unfold emit_report. fold c.
  apply (with_session_quiet _ d _ d d). unfold enqueue. rewrite (bind_ok _ _ _ _ _ H).
  unfold get_active_by_hash. rewrite (bind_ok _ _ _ _ _ (execute_quiet _ d d _ d eq_refl)).
  change (scope, NewJob.input_hash c, NewJob.job_type c) with (new_key c). cbn.
  unfold active_by_hash. by rewrite E.
Qed.

Lemma emit_total dumps sha view scope kind snap ids tr at_ aux ch by_ d :
  queue_wf d → ∃ r d', emit_report dumps sha view scope kind snap ids tr at_ aux ch by_
      (quiet_session d d) = (Ok r, quiet_session d' d') ∧ more_ended d d'.
Proof.
  intros W. set (c := job_create dumps sha view scope ids tr at_ by_).
  destruct (find (active_under (new_key c)) (jobs d)) as [j|] eqn:E.
  - exists (Some (Job.id j)), d. split; [by apply emit_conflict|by apply more_ended_refl].
  - assert (∀ j, j ∈ jobs d → active_under (new_key c) j = false) as Hno.
    { intros j Hj. eapply find_none in E; [exact E|]. by apply list_elem_of_In. }
    pose proof (emit_quiet dumps sha view scope kind snap ids tr at_ aux ch by_ d W Hno) as R.
    eexists _, _. split; [exact R|]. fold c. split; cbn.
    + pose proof (keeps_emit_report d dumps sha view scope kind snap ids tr at_ aux ch by_
        (quiet_session d d)) as K. rewrite R in K.
      refine (proj1 (inv_committed _ _ (K _))). by split; [apply queue_sound_refl..|].
    + eexists [_]. split; [done|]. constructor; [by left|constructor].
    + done.
Qed.

(** ** Generating without faults *)

Class Uncancelled (Q : Type) `{QueryService Q} := {
  u_env t a v q : fst (get_environment_report t a v q) ≠ Raise CancelledError;
  u_ids l q : fst (resolve_server_ids l q) ≠ Raise CancelledError;
  u_att a q : fst (get_attention_signals a q) ≠ Raise CancelledError;
  u_single p v t a s q : fst (get_single_server_report p v t a s q) ≠ Raise CancelledError;
  u_children l m v t a s q :
    fst (build_child_prefetched_reports l m v t a s q) ≠ Raise CancelledError;
  u_selection l v t a q : fst (get_selection_report l v t a q) ≠ Raise CancelledError;
}.

Section runs.
Context {Q : Type} `{Uncancelled Q}.
Variables (dumps : json → string) (sha : string → string).

(** A worker whose sessions run undisturbed *)
Definition calm (q : Q) (d : jobs_db) lg wt : loop_world (Q * gsession jobs_db) :=
  LoopWorld (q, quiet_session d d) lg wt.

Definition generates {A} (m : eff (loop_world (Q * gsession jobs_db)) A) : Prop :=
  ∀ q d lg wt, queue_wf d → ∃ r q' d',
  m (calm q d lg wt) = (r, calm q' d' lg wt) ∧ more_ended d d' ∧ r ≠ Raise CancelledError.

Lemma gen_ret {A} (a : A) : generates (mret a).
Proof. intros q d lg wt W. exists (Ok a), q, d. split; [done|]. split; [by apply more_ended_refl|done]. Qed.

Lemma gen_lift {A} (r : Prelude.result A) : r ≠ Raise CancelledError → generates (lift r).
Proof. intros Hr q d lg wt W. exists r, q, d. split; [done|]. split; [by apply more_ended_refl|done]. Qed.

Lemma gen_raise {A} e : e ≠ CancelledError → generates (raise (A := A) e).
Proof. intros He. apply (gen_lift (Raise e)). congruence. Qed.

Lemma gen_bind {A B} (m : eff _ A) (k : A → eff _ B) :
  generates m → (∀ a, generates (k a)) → generates (x ← m; k x).
Proof.
  intros Hm Hk q d lg wt W. destruct (Hm q d lg wt W) as ([a|e] & q1 & d1 & E & M & N).
  - destruct (Hk a q1 d1 lg wt (me_wf _ _ M)) as (r & q2 & d2 & E2 & M2 & N2).
  exists r, q2, d2. rewrite (bind_ok _ _ _ _ _ E). split; [done|].
  split; [by eapply more_ended_trans|done].
  - exists (Raise e), q1, d1. rewrite (bind_raise _ _ _ _ _ E). split; [done|]. split; [done|congruence].
Qed.

Lemma gen_query {A} (m : eff Q A) : (∀ q, fst (m q) ≠ Raise CancelledError) → generates (on_query m).
Proof.
  intros Hm q d lg wt W. exists (fst (m q)), (snd (m q)), d.
  split; [|split; [by apply more_ended_refl|done]].
  unfold on_query, on_store, calm. cbn. by destruct (m q).
Qed.

Lemma on_jobs_calm {A} (m : eff (gsession jobs_db) A) q d lg wt r d' :
  m (quiet_session d d) = (r, quiet_session d' d') →
  on_jobs m (calm q d lg wt) = (r, calm q d' lg wt).
Proof. intros E. unfold on_jobs, on_store, calm. cbn. by rewrite E. Qed.

Lemma gen_emit view scope kind snap ids tr at_ aux ch by_ :
  generates (on_jobs (emit_report dumps sha view scope kind snap ids tr at_ aux ch by_)).
Proof.
  intros q d lg wt W.
  destruct (emit_total dumps sha view scope kind snap ids tr at_ aux ch by_ d W) as (r & d' & E & M).
  exists (Ok r), q, d'. split; [by apply on_jobs_calm|done].
Qed.

Lemma gen_children view tr at_ att children acc :
  generates (emit_children dumps sha view tr at_ att children acc).
Proof.
  revert acc. induction children as [|[pid [child|]] l IH]; intros acc; cbn [emit_children].
  - apply gen_ret.
  - apply gen_bind; [apply gen_emit|]. intros cid. apply IH.
  - apply IH.
Qed.

Lemma str_field_raises key p : str_field key p ≠ Raise CancelledError.
Proof. unfold str_field. by destruct (json_find key p) as [[]|]. Qed.

Lemma strs_field_raises key p : strs_field key p ≠ Raise CancelledError.
Proof.
  unfold strs_field. destruct (json_find key p) as [[| | | | |l|]|]; try done.
  induction l as [|v l IH]; [done|]. cbn. destruct v; cbn; try done.
  destruct (mapM _ l) eqn:E; cbn; [done|]. congruence.
Qed.

Lemma fromisoformat_raises s : fromisoformat s ≠ Raise CancelledError.
Proof. unfold fromisoformat. cbv zeta. by destruct (mbind _ _). Qed.

Lemma gen_build rec : generates (build_report_result_for_job dumps sha rec).
Proof.
  unfold build_report_result_for_job.
  apply gen_bind; [apply gen_lift, str_field_raises|intros view].
  apply gen_bind; [apply gen_lift; destruct (json_find _ _); [apply str_field_raises|done]|intros tr].
  apply gen_bind; [apply gen_lift, str_field_raises|intros txt].
  apply gen_bind; [apply gen_lift, fromisoformat_raises|intros at_].
  destruct (String.eqb _ _).
  { apply gen_bind; [apply gen_query; intros; apply u_env|intros s].
  destruct (_ =? _); [by apply gen_raise|apply gen_ret]. }
  apply gen_bind; [apply gen_lift, strs_field_raises|intros ids].
  apply gen_bind; [apply gen_query; intros; apply u_ids|intros m]. cbv zeta.
  destruct (filter _ ids) as [|pid others]; [by apply gen_raise|].
  apply gen_bind; [apply gen_query; intros; apply u_att|intros att].
  destruct others as [|pid2 others].
  { apply gen_bind; [apply gen_query; intros; apply u_single|intros [s|]];
    [apply gen_ret|by apply gen_raise]. }
  apply gen_bind; [apply gen_query; intros; apply u_children|intros ch].
  apply gen_bind; [apply gen_children|intros cj].
  apply gen_bind; [apply gen_query; intros; apply u_selection|intros [s|]];
  [apply gen_ret|by apply gen_raise].
Qed.

(** ** One job *)

(** [d'] is [d] with ended jobs appended and then the job [id] ended. *)
Definition ends_job (id : string) (d d' : jobs_db) : Prop :=
  ∃ d1 f, more_ended d d1 ∧ d' = snd (update_job id f d1)
  ∧ (∀ j, same_job j (f j) ∧ terminal (f j) ∧ coherent (f j)).

Lemma finish_calm id f q d1 lg wt (m : eff (gsession jobs_db) unit) :
  m (quiet_session d1 d1) = (Ok tt, quiet_session (snd (update_job id f d1)) (snd (update_job id f d1))) →
  on_jobs m (calm q d1 lg wt) = (Ok tt, calm q (snd (update_job id f d1)) lg wt).
Proof. apply on_jobs_calm. Qed.

Lemma finish_succeeded_calm id r d :
  finish_succeeded id r (quiet_session d d)
  = (Ok tt, let d' := snd (update_job id (set_succeeded r (jobs_now d)) d) in quiet_session d' d').
Proof. done. Qed.

Lemma finish_failed_calm id msg d :
  finish_failed id msg (quiet_session d d)
  = (Ok tt, let d' := snd (update_job id (set_failed msg (jobs_now d)) d) in quiet_session d' d').
Proof. done. Qed.

Lemma process_one_calm rec q d lg wt :
  queue_wf d → ∃ q' d' lg', _process_one dumps sha rec (calm q d lg wt) = (Ok tt, calm q' d' lg' wt)
  ∧ ends_job (Job.id rec) d d'.
Proof.
  intros W. destruct (gen_build rec q d lg wt W) as (r & q1 & d1 & E & M & N).
  unfold _process_one. destruct r as [r|e].
  - eexists q1, _, _. split.
  + apply try_ok. rewrite (bind_ok _ _ _ _ _ E).
    rewrite (bind_ok _ _ _ _ _ (on_jobs_calm _ _ _ _ _ _ _ (finish_succeeded_calm (Job.id rec) r d1))).
    reflexivity.
  + exists d1, (set_succeeded r (jobs_now d1)). split; [done|]. split; [done|]. intros j.
    split; [apply set_succeeded_same|]. split; [by left|done].
  - assert (∀ msg, ends_job (Job.id rec) d (snd (update_job (Job.id rec) (set_failed msg (jobs_now d1)) d1)))
    as Hf.
  { intros msg. exists d1, (set_failed msg (jobs_now d1)). split; [done|]. split; [done|]. intros j.
    split; [apply set_failed_same|]. split; [by right|done]. }
  assert (∀ msg lg, on_jobs (finish_failed (Job.id rec) msg) (calm q1 d1 lg wt)
    = (Ok tt, calm q1 (snd (update_job (Job.id rec) (set_failed msg (jobs_now d1)) d1)) lg wt)) as Hm
    by (intros; exact (on_jobs_calm _ _ _ _ _ _ _ (finish_failed_calm (Job.id rec) msg d1))).
  set (lg1 := lg ++ [(Error, String.append "report job failed (internal) job_id=" (Job.id rec))]).
  assert (∃ msg lg', (match e with
      | ReportGenerationError msg =>
          _ ← on_jobs (finish_failed (Job.id rec) msg);
          wlog Info (String.append "report job failed (generation) job_id=" (Job.id rec))
      | CancelledError => raise e
      | _ => _ ← wlog Error (String.append "report job failed (internal) job_id=" (Job.id rec));
             on_jobs (finish_failed (Job.id rec) "internal error")
      end) (calm q1 d1 lg wt)
      = (Ok tt, calm q1 (snd (update_job (Job.id rec) (set_failed msg (jobs_now d1)) d1)) lg' wt))
    as (msg & lg' & Eh).
  { destruct e;
      try (exists "internal error"%string, lg1; exact (Hm "internal error"%string lg1));
    [done|]. eexists msg, _. rewrite (bind_ok _ _ _ _ _ (Hm msg lg)). reflexivity. }
  eexists q1, _, lg'. split; [|apply (Hf msg)].
  rewrite (try_raise _ _ _ e (calm q1 d1 lg wt)) by by rewrite (bind_raise _ _ _ _ _ E).
  exact Eh.
Qed.

Lemma ends_job_sound id d d' : ends_job id d d' → queue_sound d d'.
Proof.
  intros (d1 & f & M & -> & Hf). destruct (update_job_sound id f d1 (me_wf _ _ M)) as [W' K].
  { intros j _ _. destruct (Hf j) as (? & ? & ?). by split. }
  split; [done|]. etransitivity; [by apply more_ended_keeps|done].
Qed.

Lemma ends_job_pending id d d' :
  ends_job id d d' → pending_ids d' = filter (λ i, i ≠ id) (pending_ids d).
Proof.
  intros (d1 & f & M & -> & Hf). rewrite pending_ids_update.
  - by rewrite (more_ended_pending _ _ M).
  - intros j. apply Hf.
  - intros j. destruct (Hf j) as (_ & [E|E] & _); by rewrite E.
Qed.

Lemma ends_job_running id d d' i :
  ends_job id d d' → has_status d' i running → i ≠ id ∧ has_status d i running.
Proof.
  intros (d1 & f & M & -> & Hf) Hs.
  assert (i ≠ id) as Hne.
  { intros ->. destruct Hs as (x & (j & -> & Hj)%list_elem_of_fmap & Ei & Es).
  case_bool_decide; [|congruence]. destruct (Hf j) as (_ & [E|E] & _); congruence. }
  split; [done|]. eapply more_ended_running; [done|]. eapply running_update; [|done|exact Hs].
  intros j. apply Hf.
Qed.

(** What a number of rounds does *)
Record progress (d d' : jobs_db) : Prop := {
  pr_sound : queue_sound d d';
  pr_locked : locked d' = locked d;
  pr_running i : has_status d' i running → has_status d i running;
}.

Lemma progress_refl d : queue_wf d → progress d d.
Proof. intros W. split; [by apply queue_sound_refl|done|done]. Qed.

Lemma progress_trans d1 d2 d3 : progress d1 d2 → progress d2 d3 → progress d1 d3.
Proof.
  intros [[_ K1] L1 R1] [[W2 K2] L2 R2]. split; [|congruence|auto].
  split; [done|]. by etransitivity.
Qed.

Lemma worker_round_calm q d lg wt :
  queue_wf d → locked d = [] →
  ∃ q' d' lg' wt', worker_round dumps sha (calm q d lg wt) = (Ok tt, calm q' d' lg' wt')
  ∧ progress d d'
  ∧ (pending_ids d' = [] ∨ (length (pending_ids d') < length (pending_ids d))%nat).
Proof.
  intros W L. unfold worker_round. destruct (next_claim d) as [j|] eqn:E.
  - pose proof (next_claim_spec _ _ E) as (Hj & Hp%claimable_pending & _).
  destruct (claim_stmt_some d j W E) as [Ec W1].
  destruct (claim_ok d _ _ W Ec) as [_ K1].
  destruct (process_one_calm (claimed_job d j) q (claimed_db d j) lg wt W1)
    as (q' & d' & lg' & Ep & He).
  change (Job.id (claimed_job d j)) with (Job.id j) in He.
  exists q', d', lg', wt. split; [|split].
  + assert (except_Exception (Some <$> on_jobs claim_pending)
      (λ _, _ ← wlog Error "report worker claim failed"; mret None) (calm q d lg wt)
      = (Ok (Some (Some (claimed_job d j))), calm q (claimed_db d j) lg wt)) as Ecl.
    { apply try_ok. unfold fmap, eff_fmap.
      by rewrite (on_jobs_calm _ _ _ _ _ _ _ (claim_quiet d j W E)). }
    rewrite (bind_ok _ _ _ _ _ Ecl). by apply try_ok.
  + split; [|destruct He as (d1 & f & [_ _ Hl] & -> & _); exact Hl|].
    * destruct (ends_job_sound _ _ _ He) as [W' K2]. split; [done|]. by etransitivity.
    * intros i Hi. destruct (ends_job_running _ _ _ _ He Hi) as [Hne Hi'].
      unfold claimed_db in Hi'. eapply running_update; [|exact Hne|exact Hi']. done.
  + right. rewrite (ends_job_pending _ _ _ He). unfold claimed_db.
    rewrite pending_ids_update by done. rewrite list_filter_filter.
    apply (length_filter_lt _ _ (Job.id j)); [|by intros []].
    apply pending_ids_elem. by exists j.
  - exists q, d, lg, (wt + 1). split; [|split; [by apply progress_refl|]].
  + assert (except_Exception (Some <$> on_jobs claim_pending)
      (λ _, _ ← wlog Error "report worker claim failed"; mret None) (calm q d lg wt)
      = (Ok (Some None), calm q d lg wt)) as Ecl.
    { apply try_ok. unfold fmap, eff_fmap.
      by rewrite (on_jobs_calm _ _ _ _ _ _ _ (claim_quiet_none d E)). }
    by rewrite (bind_ok _ _ _ _ _ Ecl).
  + left. destruct (pending_ids d) as [|i l] eqn:Ei; [done|].
    assert (i ∈ pending_ids d) as (j & Hj & _ & Hs)%pending_ids_elem
      by (rewrite Ei; apply list_elem_of_here).
    pose proof (next_claim_none d E j Hj) as Hc. unfold claimable in Hc.
    rewrite Hs, L in Hc. by vm_compute in Hc.
Qed.

Lemma rounds_calm n q d lg wt :
  queue_wf d → locked d = [] → (length (pending_ids d) <= n)%nat →
  ∃ q' d' lg' wt', rounds n (worker_round dumps sha) (calm q d lg wt) = (Ok tt, calm q' d' lg' wt')
  ∧ progress d d' ∧ pending_ids d' = [].
Proof.
  revert q d lg wt. induction n as [|n IH]; intros q d lg wt W L Hn.
  - exists q, d, lg, wt. split; [done|]. split; [by apply progress_refl|].
  destruct (pending_ids d); [done|]. cbn in Hn. lia.
  - cbn [rounds]. destruct (worker_round_calm q d lg wt W L) as (q1 & d1 & lg1 & wt1 & E & P & Hlt).
  rewrite (bind_ok _ _ _ _ _ E). destruct P as [[W1 K1] L1 R1].
  destruct (IH q1 d1 lg1 wt1 W1) as (q2 & d2 & lg2 & wt2 & E2 & P2 & H2).
  + by rewrite L1.
  + destruct Hlt as [-> |Hlt]; cbn; lia.
  + exists q2, d2, lg2, wt2. split; [done|]. split; [|done]. eapply progress_trans; [|done]. by split.
Qed.
End runs.
