(* ===== verification/LoopProps.v ===== *)
(** * The report worker's loop: the properties of whole runs *)

From stdpp Require Import sorting.
From S2P Require Import Prelude PyFloat PyText Sql SqlFacts DbRetry Queue QueueFacts Reports WorkerFacts QueueProps Pool WorkerRuns IsoFacts.

(** Pending, or left running by a worker that died long enough ago *)
Definition waiting (stale_seconds : Z) (d : jobs_db) (j : DiagnosticJob) : bool :=
  bool_decide (Job.status j = pending) || stale stale_seconds d j.

Definition recovered_db (stale_seconds : Z) (d : jobs_db) : jobs_db :=
  set_jobs ((λ j, if stale stale_seconds d j then set_active pending None "requeued" j else j)
    <$> jobs d) d.

Lemma recover_calm stale_seconds d :
  recover_stale stale_seconds (quiet_session d d)
  = (Ok (Z.of_nat (length (filter (λ j, stale stale_seconds d j = true) (jobs d)))),
     quiet_session (recovered_db stale_seconds d) (recovered_db stale_seconds d)).
Proof. done. Qed.

Lemma recovered_pending stale_seconds d :
  pending_ids (recovered_db stale_seconds d)
  = Job.id <$> filter (λ j, waiting stale_seconds d j = true) (jobs d).
Proof.
  unfold pending_ids, recovered_db, waiting. cbn [set_jobs jobs].
  assert (∀ j, stale stale_seconds d j = true → Job.status j = running) as Hr
    by (intros j E; unfold stale in E; by to_prop).
  induction (jobs d) as [|j l IH]; [done|]. cbn [fmap list_fmap]. rewrite !filter_cons.
  destruct (stale stale_seconds d j) eqn:E.
  - rewrite decide_True by done. rewrite orb_true_r, decide_True by done. cbn [fmap list_fmap].
    f_equal. exact IH.
  - rewrite orb_false_r. destruct (decide (Job.status j = pending)) as [Hp|Hp].
    + rewrite bool_decide_eq_true_2, decide_True by done. cbn [fmap list_fmap]. f_equal. exact IH.
    + rewrite bool_decide_eq_false_2, decide_False by done. exact IH.
Qed.

Lemma recovered_waiting stale_seconds d j :
  j ∈ jobs d → waiting stale_seconds d j = true →
  has_status (recovered_db stale_seconds d) (Job.id j) pending.
Proof.
  intros Hj Hw. apply pending_ids_elem. rewrite recovered_pending. apply list_elem_of_fmap.
  exists j. split; [done|]. by apply list_elem_of_filter.
Qed.

(** C37. The worker drains the queue: started on any well-formed table whose rows nobody
    else locks or writes, with a query service that may answer or fail in any way
    (short of cancelling the task), a worker that gets as many rounds as there are
    jobs pending or left running by a dead worker returns normally, and leaves every
    one of these jobs ended - succeeded with a result, or failed with a message -
    and none pending. *)
Theorem worker_drains_queue {Q} `{Uncancelled Q} dumps sha stale_seconds (n : nat) (q : Q)
  (d : jobs_db) logs waits (W : queue_wf d) (L : locked d = [])
  (N : (length (filter (λ j, waiting stale_seconds d j = true) (jobs d)) <= n)%nat) :
  ∃ q' d' logs' waits',
    run_report_worker dumps sha stale_seconds n (calm q d logs waits) = (Ok tt, calm q' d' logs' waits')
    ∧ queue_wf d'
    ∧ (∀ j, j ∈ jobs d' → Job.status j ≠ pending)
    ∧ ∀ j, j ∈ jobs d → waiting stale_seconds d j = true →
        ∃ j', j' ∈ jobs d' ∧ same_job j j' ∧ terminal j' ∧ coherent j'.
Proof.
  destruct (recover_ok stale_seconds d _ _ W eq_refl) as [W1 K1].
  change (set_jobs _ d) with (recovered_db stale_seconds d) in *.
  set (d1 := recovered_db stale_seconds d) in *.
  set (m := Z.of_nat (length (filter (λ j, stale stale_seconds d j = true) (jobs d)))).
  set (lg1 := if m =? 0 then logs
              else logs ++ [(Info, "report worker recovered stale running jobs"%string)]).
  assert (except_Exception
      (recovered ← on_jobs (recover_stale stale_seconds);
       if recovered =? 0 then mret tt else wlog Info "report worker recovered stale running jobs")
      (λ _, wlog Error "report worker stale recovery failed at startup") (calm q d logs waits)
    = (Ok tt, calm q d1 lg1 waits)) as E1.
  { apply try_ok. rewrite (bind_ok _ _ _ _ _ (on_jobs_calm _ _ _ _ _ _ _ (recover_calm stale_seconds d))).
    fold m d1. unfold lg1. by destruct (m =? 0). }
  destruct (rounds_calm dumps sha n q d1 (lg1 ++ [(Info, "report worker started"%string)]) waits)
    as (q' & d' & lg' & wt' & E2 & [[W' K'] _ R'] & P').
  - done.
  - exact L.
  - unfold d1. by rewrite recovered_pending, length_fmap.
  - eexists q', d', _, wt'. split.
    { unfold run_report_worker. rewrite (bind_ok _ _ _ _ _ E1).
      rewrite (bind_ok (wlog Info "report worker started") _ _ tt _ eq_refl).
      rewrite (bind_ok _ _ _ _ _ E2). reflexivity. }
    assert (∀ j, j ∈ jobs d' → Job.status j ≠ pending) as Hnone.
    { intros j Hj Hs. eapply not_elem_of_nil. rewrite <- P'. apply pending_ids_elem.
      exists j. by split. }
    split; [done|]. split; [done|]. intros j Hj Hw.
    assert (keeps_jobs d d') as K by by etransitivity.
    destruct (K j Hj) as (j' & Hj' & S). exists j'. split; [done|]. split; [done|].
    split; [|by apply (q_coherent d' W')]. apply active_terminal, not_true_iff_false.
    intros [Hp|Hr]%active_iff; [by apply (Hnone j')|].
    assert (has_status d1 (Job.id j) running) as Hr1.
    { apply R'. exists j'. split; [done|]. split; [apply (sj_id _ _ S)|done]. }
    by pose proof (has_status_unique _ _ _ _ W1 (recovered_waiting _ _ _ Hj Hw) Hr1).
Qed.

#[local] Existing Instance one_report.

#[local] Instance one_report_uncancelled : Uncancelled unit.
Proof. by split. Qed.

(** A pending job, and one a dead worker left running *)
Definition crashed : jobs_db :=
  {| jobs := [claimed_job two_queued (queued 1 20); queued 2 10]; locked := []; next_job := 3;
     jobs_now := 7200000030 |}.

Lemma crashed_wf : queue_wf crashed.
Proof.
  split; cbn.
  - refine (bool_decide_unpack _ _). by vm_compute.
  - intros j [->|[->|[]%not_elem_of_nil]%elem_of_cons]%elem_of_cons; eexists; (split; [|done]); lia.
  - refine (bool_decide_unpack _ _). by vm_compute.
  - by intros j [->|[->|[]%not_elem_of_nil]%elem_of_cons]%elem_of_cons.
  - lia.
Qed.

Lemma worker_drains_queue_witness :
  ∃ q' d' logs' waits',
    run_report_worker any_dump same_text 3600 2 (calm tt crashed [] 0)
      = (Ok tt, calm q' d' logs' waits')
    ∧ ∀ j, j ∈ jobs crashed → ∃ j', j' ∈ jobs d' ∧ same_job j j' ∧ terminal j' ∧ coherent j'.
Proof.
  destruct (worker_drains_queue (Q := unit) any_dump same_text 3600 2 tt crashed [] 0 crashed_wf
    eq_refl ltac:(by vm_compute)) as (q' & d' & lg & wt & E & _ & _ & H).
  exists q', d', lg, wt. split; [exact E|]. intros j Hj. apply H; [exact Hj|].
  by apply elem_of_cons in Hj as [->|[->|[]%not_elem_of_nil]%elem_of_cons].
Defined.

(** ** The report worker and what was issued: the job's parameters, and its children *)

Lemma strs_of_json (l : list string) :
  mapM (λ v, match v with JStr s => Ok s | _ => Raise TypeError end) (JStr <$> l) = Ok l.
Proof. induction l as [|s l IH]; [done|]. cbn in *. by rewrite IH. Qed.

(** What a report is issued with is what the worker generates it from: the
    parameters stored with a job give back, in the worker, the view, the time range,
    the anchor - written with [isoformat] and read with [fromisoformat], on every
    instant Python's datetime has - and the server ids, sorted; so reading never
    fails, and two issues with the same stored parameters agree on all of them. *)
Theorem issued_params_read_back view scope ids time_range anchor
  (A : datetime_ok anchor) :
  let p := _build_input_params view scope ids time_range anchor in
  str_field "view" p = Ok view
  ∧ str_field "time_range" p = Ok time_range
  ∧ (text ← str_field "anchor_at" p; fromisoformat text) = Ok anchor
  ∧ ∃ ids', strs_field "server_public_ids" p = Ok ids' ∧ Sorted String.le ids' ∧ ids' ≡ₚ ids.
Proof.
  cbn zeta. unfold _build_input_params.
  set (extra := match ids with [pid] => _ | _ => _ end).
  assert (extra = [] ∨ ∃ pid, extra = [("server_public_id"%string, JStr pid)]) as Hx.
  { unfold extra. destruct ids as [|i [|]]; eauto. destruct (String.eqb scope "server"); eauto. }
  clearbody extra.
  assert (∃ kvs, jobj ([("view", JStr view);
      ("server_public_ids", JArr (JStr <$> sorted_strs ids));
      ("time_range", JStr time_range); ("anchor_at", JStr (isoformat anchor))]%string ++ extra)
    = JObj kvs
    ∧ snd <$> find (λ kv, bool_decide (kv.1 = "anchor_at"%string)) kvs = Some (JStr (isoformat anchor))
    ∧ snd <$> find (λ kv, bool_decide (kv.1 = "view"%string)) kvs = Some (JStr view)
    ∧ snd <$> find (λ kv, bool_decide (kv.1 = "time_range"%string)) kvs = Some (JStr time_range)
    ∧ snd <$> find (λ kv, bool_decide (kv.1 = "server_public_ids"%string)) kvs
      = Some (JArr (JStr <$> sorted_strs ids))) as (kvs & -> & Ha & Hv & Ht & Hi).
  { destruct Hx as [->|[pid ->]]; eexists; (split; [reflexivity|]); done. }
  unfold str_field, strs_field, json_find.
  rewrite Ha, Hv, Ht, Hi. cbn [fmap option_fmap option_map snd].
  split; [done|]. split; [done|]. split; [by apply isoformat_read|].
  exists (sorted_strs ids). split; [apply strs_of_json|].
  split; [apply Sorted_merge_sort, _|apply merge_sort_Permutation].
Qed.

Lemma issued_params_read_back_witness :
  let p := _build_input_params "customer" "server" ["b"; "a"]%string "14d" 1709251140000000 in
  (text ← str_field "anchor_at" p; fromisoformat text) = Ok 1709251140000000.
Proof.
  refine (proj1 (proj2 (proj2 (issued_params_read_back "customer" "server" ["b"; "a"]%string "14d"
    1709251140000000 _)))).
  vm_compute. split; discriminate.
Defined.

(** ** Children of a selection that fails *)

(** A query service whose selection report fails after the per-server reports *)
#[local] Instance no_selection : QueryService unit := {
  summary := unit;
  overview_total _ := 1;
  row_hostnames _ := ["web-1"%string];
  env_report_to_dict _ := JObj [];
  get_environment_report _ _ _ := mret tt;
  resolve_server_ids ids := mret (list_to_map ((λ id, (id, 1)) <$> ids));
  get_attention_signals _ := mret {| gap_warnings := []; os_eol_warnings := []; agent_unstable := [] |};
  get_single_server_report _ _ _ _ _ := mret (Some tt);
  build_child_prefetched_reports ids _ _ _ _ _ := mret ((λ id, (id, Some tt)) <$> ids);
  get_selection_report _ _ _ _ := raise (OtherError "query failed");
}.

Definition selection_issued : jobs_db :=
  committed (snd (enqueue_report any_dump same_text "customer" "servers" ["a"; "b"]%string "14d"
    60000000 None (quiet_session empty_queue empty_queue))).

(** The worker emits the children of a selection as succeeded jobs before it computes
    the selection itself; when that fails, the job ends failed and the children stay. *)
Example selection_failure_leaves_children :
  let d := committed (lw_store (snd (run_report_worker any_dump same_text 3600 1
             (LoopWorld (tt, quiet_session selection_issued selection_issued) [] 0)))).2 in
  (λ j, (Job.scope j, Job.status j)) <$> jobs d
  = [("servers"%string, failed); ("server"%string, succeeded); ("server"%string, succeeded)].
Proof. vm_compute. reflexivity. Qed.
