(* ===== verification/MetricViews.v ===== *)
(** * Metric rows and what the dashboard shows

    The raw rows a dashboard is computed from ([src/assessment_engine/db/dtos/outbound.py])
    and the view models it is made of ([web/view_models/metric.py]), field by field;
    the classes share field names, so each record has a Module. *)

From S2P Require Import Prelude PyFloat Sql.

(** A Python number that may be an int or a float *)
Inductive number := NInt (n : Z) | NFloat (x : float).

Module Pair.
Record MetricPairRaw := {
  collected_at : datetime;
  cpu_user_s : option float;
  cpu_nice_s : option float;
  cpu_system_s : option float;
  cpu_idle_s : option float;
  cpu_iowait_s : option float;
  cpu_irq_s : option float;
  cpu_softirq_s : option float;
  cpu_steal_s : option float;
  mem_limit_bytes : option Z;
  mem_free_bytes : option Z;
  mem_available_bytes : option Z;
  mem_buffered_bytes : option Z;
  mem_cached_bytes : option Z;
  mem_used_bytes : option Z;
  cpu_run_queue : option float;
  cpu_logical_count : option Z;
  cpu_blocked : option float;
  boot_time : option datetime;
  agent_started_at : option datetime;
}.
End Pair.
Abbreviation MetricPairRaw := Pair.MetricPairRaw.

Module Core.
Record CpuCoreRaw := {
  core_id : Z;
  collected_at : datetime;
  cpu_user_s : option float;
  cpu_nice_s : option float;
  cpu_system_s : option float;
  cpu_idle_s : option float;
  cpu_iowait_s : option float;
  cpu_irq_s : option float;
  cpu_softirq_s : option float;
  cpu_steal_s : option float;
}.
End Core.
Abbreviation CpuCoreRaw := Core.CpuCoreRaw.

Module DiskRow.
Record DiskIoRaw := {
  device_id : string;
  collected_at : datetime;
  io_read_bytes : option Z;
  io_write_bytes : option Z;
  ops_read : option Z;
  ops_write : option Z;
  op_read_time_s : option float;
  op_write_time_s : option float;
  io_time_s : option float;
  pending_ops : option float;
  device_name : option string;
  boot_time : option datetime;
  agent_started_at : option datetime;
}.
End DiskRow.
Abbreviation DiskIoRaw := DiskRow.DiskIoRaw.

Module NetRow.
Record NetIoRaw := {
  iface_id : string;
  collected_at : datetime;
  rx_bytes : option Z;
  tx_bytes : option Z;
  rx_packets : option Z;
  tx_packets : option Z;
  rx_errors : option Z;
  tx_errors : option Z;
  rx_dropped : option Z;
  tx_dropped : option Z;
  link_speed_bps : option Z;
  iface_name : option string;
  boot_time : option datetime;
  agent_started_at : option datetime;
}.
End NetRow.
Abbreviation NetIoRaw := NetRow.NetIoRaw.

Module MountRow.
Record MountUsageRaw := {
  mountpoint : string;
  used_bytes : option Z;
  free_bytes : option Z;
  inodes_used : option Z;
  inodes_free : option Z;
  device_id : option string;
  fstype : option string;
  collected_at : option datetime;
}.
End MountRow.
Abbreviation MountUsageRaw := MountRow.MountUsageRaw.

Record DashboardRaw := {
  metrics : list MetricPairRaw;
  raw_disk_io : list DiskIoRaw;
  raw_net_io : list NetIoRaw;
  filesystems : list MountUsageRaw;
  raw_os_family : option string;
  raw_kernel_version : option string;
  raw_block_devices : option (list json);
  raw_net_interfaces : option (list json);
  raw_cpu_cores : list CpuCoreRaw;
}.

Record SaturationRaw := {
  run_queue : option float;
  await_ms : option float;
  pending_ops : option float;
  disk_io_util_pct : option float;
  paging_major_rate : option float;
  retrans_pct : option float;
  drop_pct : option float;
  conntrack_ratio : option float;
  psi_cpu : option float;
  psi_mem : option float;
  psi_io : option float;
}.

(** [SaturationRaw()] *)
Definition no_saturation : SaturationRaw := {|
  run_queue := None; await_ms := None; pending_ops := None; disk_io_util_pct := None;
  paging_major_rate := None; retrans_pct := None; drop_pct := None; conntrack_ratio := None;
  psi_cpu := None; psi_mem := None; psi_io := None |}.

Record ErrorFleetRaw := {
  measured : bool;
  net_measured : bool;
  disk_err_measured : bool;
  mce_count : Z;
  oom_count : Z;
  corrupted_bytes : option Z;
  net_error_count : Z;
  disk_error_count : Z;
  disk_error_kinds : list string;
  last_error_at : option datetime;
}.

(** ** View models *)

Module Signal.
Record SaturationSignal := {
  key : string;
  label : string;
  state : string;
  value : option number;
  threshold : option float;
  unit_ : option string;
  saturated : option bool;
  detail : option string;
  na_reason : option string;
}.
End Signal.
Abbreviation SaturationSignal := Signal.SaturationSignal.

Module ErrSignal.
Record ErrorSignal := {
  key : string;
  label : string;
  state : string;
  count : option Z;
  context : option string;
  last_at : option datetime;
  window_label : option string;
  detail : option string;
}.
End ErrSignal.
Abbreviation ErrorSignal := ErrSignal.ErrorSignal.

Module CpuView.
Record CpuSnapshot := {
  usage_pct : option float;
  user_pct : option float;
  system_pct : option float;
  iowait_pct : option float;
  steal_pct : option float;
  nice_pct : option float;
}.
End CpuView.
Abbreviation CpuSnapshot := CpuView.CpuSnapshot.

Module CoreView.
Record CpuCoreSnapshot := {
  core_id : Z;
  usage_pct : option float;
  hot : bool;
}.
End CoreView.
Abbreviation CpuCoreSnapshot := CoreView.CpuCoreSnapshot.

Module MemView.
Record MemSnapshot := {
  total_bytes : option Z;
  used_bytes : option Z;
  available_bytes : option Z;
  cached_bytes : option Z;
  buffered_bytes : option Z;
  usage_pct : option float;
  cached_pct : option float;
  buffers_pct : option float;
  free_pct : option float;
}.
End MemView.
Abbreviation MemSnapshot := MemView.MemSnapshot.

Module DiskView.
Record DiskIoSnapshot := {
  device : string;
  read_iops : option float;
  write_iops : option float;
  read_kbps : option float;
  write_kbps : option float;
}.
End DiskView.
Abbreviation DiskIoSnapshot := DiskView.DiskIoSnapshot.

Module NetView.
Record NetIoSnapshot := {
  interface : string;
  rx_kbps : option float;
  tx_kbps : option float;
  rx_pps : option float;
  tx_pps : option float;
}.
End NetView.
Abbreviation NetIoSnapshot := NetView.NetIoSnapshot.

Module MountView.
Record MountDashSnapshot := {
  mount : string;
  total_gb : option float;
  used_gb : option float;
  avail_gb : option float;
  usage_pct : option float;
}.
End MountView.
Abbreviation MountDashSnapshot := MountView.MountDashSnapshot.

Record MetricDashboard := {
  dash_collected_at : option datetime;
  cpu : option CpuSnapshot;
  memory : option MemSnapshot;
  disk_io : list DiskIoSnapshot;
  net_io : list NetIoSnapshot;
  mounts : list MountDashSnapshot;
  disk_usage_pct : option float;
  cpu_saturation : list SaturationSignal;
  mem_saturation : list SaturationSignal;
  disk_saturation : list SaturationSignal;
  net_saturation : list SaturationSignal;
  errors : list ErrorSignal;
  cpu_cores : list CpuCoreSnapshot;
}.
