(* ===== verification/Dashboard.v ===== *)
(** * The metric dashboard: rates and percentages from two samples

    Models [src/assessment_engine/web/services/mappers/metrics_calculator.py]: the
    deltas of cumulative counters (none across a counter reset or without time
    between the samples), the memory bar, the mounts, the os-aware saturation signals
    and the error indicators.  Timestamps are microseconds; ids and attribute texts
    are byte strings, compared as Python compares code points. *)

From S2P Require Import Prelude PyFloat PyText PyList Sql BootTime RightSizing Wire Devices MetricViews.

Definition PSI_STALL_DISPLAY_PCT : float := of_Z 10.

(** ** Rates *)

(** [(a - b).total_seconds()] *)
Definition total_seconds (a b : datetime) : float := truediv (a - b) 1000000.

Definition _delta_rate (cur prev : option Z) (dt : float) : option float :=
  match cur, prev with
  | Some c, Some p =>
      let d := c - p in
      if d <? 0 then None else Some (py_round_nd 1 (fdiv (of_Z d) dt))
  | _, _ => None
  end.

Definition _delta_kbps (cur prev : option Z) (dt : float) : option float :=
  match cur, prev with
  | Some c, Some p =>
      let d := c - p in
      if d <? 0 then None else Some (py_round_nd 1 (fdiv (truediv d 1024) dt))
  | _, _ => None
  end.

Definition _clip_to_remaining (raw_pct : option float) (remaining_room : float) : option float :=
  (λ raw, py_round_nd 1 (fmin2 (fmax2 (of_Z 0) remaining_room) raw)) <$> raw_pct.

(** ** Devices by join key *)

Definition _composite_dev_id (node : json) : option string :=
  let did := node_str "id" node in
  let dtype := node_str "id_type" node in
  if str_truthy did && str_truthy dtype
  then Some (str_join "" [str_or dtype ""; ":"; str_or did ""]%string) else None.

Definition register_node (result : gmap string string) (n : json) : gmap string string :=
  let name := node_str "name" n in
  let cid := _composite_dev_id n in
  match (if str_truthy name then name else cid) with
  | None => result
  | Some display =>
      let result := match cid with Some c => <[c := display]> result | None => result end in
      if str_truthy name then <[String.append "name:" (str_or name "") := display]> result else result
  end.

Definition _physical_dev_names (nodes : option (list json)) (keep : json → bool)
    : option (gmap string string) :=
  match nodes with
  | None | Some [] => None
  | Some ns => Some (foldl register_node ∅ (filter (λ n, keep n = true) ns))
  end.

(** [(names or {}).get(id) or name or id] *)
Definition display_name (names : option (gmap string string)) (id : string) (name : option string) : string :=
  let mapped := match names with Some m => m !! id | None => None end in
  if str_truthy mapped then str_or mapped "" else str_or name id.

(** ** CPU *)

Definition no_cpu : CpuSnapshot := {|
  CpuView.usage_pct := None; CpuView.user_pct := None; CpuView.system_pct := None;
  CpuView.iowait_pct := None; CpuView.steal_pct := None; CpuView.nice_pct := None |}.

Definition cpu_total (r : MetricPairRaw) : float :=
  sum_measured [Pair.cpu_user_s r; Pair.cpu_nice_s r; Pair.cpu_system_s r; Pair.cpu_idle_s r;
                Pair.cpu_iowait_s r; Pair.cpu_irq_s r; Pair.cpu_softirq_s r; Pair.cpu_steal_s r].

(** The share of [delta_total] a component took, never below zero *)
Definition cpu_share (delta_total : float) (c p : option float) : option float :=
  match c, p with
  | Some c, Some p =>
      Some (py_round_nd 1 (fmax2 (of_Z 0) (fmul (fdiv (fsub c p) delta_total) (of_Z 100))))
  | _, _ => None
  end.

Definition compute_cpu (cur prev : option MetricPairRaw) : option CpuSnapshot :=
  match cur, prev with
  | None, _ => None
  | Some _, None => Some no_cpu
  | Some cur, Some prev =>
      if is_counter_reset (Pair.boot_time cur) (Pair.boot_time prev) then Some no_cpu else
      let delta_total := fsub (cpu_total cur) (cpu_total prev) in
      if fle delta_total (of_Z 0) then Some no_cpu else
      let pct f := cpu_share delta_total (f cur) (f prev) in
      Some {|
        CpuView.usage_pct := (λ idle_pct, py_round_nd 1 (fmax2 (of_Z 0) (fsub (of_Z 100) idle_pct)))
                             <$> pct Pair.cpu_idle_s;
        CpuView.user_pct := pct Pair.cpu_user_s;
        CpuView.system_pct := pct Pair.cpu_system_s;
        CpuView.iowait_pct := pct Pair.cpu_iowait_s;
        CpuView.steal_pct := pct Pair.cpu_steal_s;
        CpuView.nice_pct := pct Pair.cpu_nice_s;
      |}
  end.

Definition core_total (r : CpuCoreRaw) : float :=
  sum_measured [Core.cpu_user_s r; Core.cpu_nice_s r; Core.cpu_system_s r; Core.cpu_idle_s r;
                Core.cpu_iowait_s r; Core.cpu_irq_s r; Core.cpu_softirq_s r; Core.cpu_steal_s r].

Definition core_snapshot (core_id : Z) (rows : list CpuCoreRaw) : CpuCoreSnapshot :=
  let unmeasured := {| CoreView.core_id := core_id; CoreView.usage_pct := None; CoreView.hot := false |} in
  match sort_desc Core.collected_at rows with
  | cur :: prev :: _ =>
      let delta_total := fsub (core_total cur) (core_total prev) in
      match Core.cpu_idle_s cur, Core.cpu_idle_s prev with
      | Some ci, Some pi =>
          if fle delta_total (of_Z 0) then unmeasured else
          let idle_pct := fmax2 (of_Z 0) (fmul (fdiv (fsub ci pi) delta_total) (of_Z 100)) in
          let usage := py_round_nd 1 (fmax2 (of_Z 0) (fsub (of_Z 100) idle_pct)) in
          {| CoreView.core_id := core_id; CoreView.usage_pct := Some usage;
             CoreView.hot := fge usage (of_Z RS_CPU_PERCORE_HOLD_PCT) |}
      | _, _ => unmeasured
      end
  | _ => unmeasured
  end.

(** The groups' keys are [str(core_id)], which are as distinct as the ids. *)
Definition compute_cpu_cores (pairs : list CpuCoreRaw) : list CpuCoreSnapshot :=
  (λ kv, core_snapshot kv.1 kv.2) <$> sort_asc fst (_group_by_dim Core.core_id pairs).

(** ** Memory *)

Definition compute_mem (cur : option MetricPairRaw) : option MemSnapshot :=
  match cur with
  | None => None
  | Some cur =>
      match Pair.mem_limit_bytes cur with
      | None => None
      | Some limit =>
          let used := (λ avail, Z.max 0 (limit - avail)) <$> Pair.mem_available_bytes cur in
          let used_pct := usage_pct used (Some limit) in
          let remaining_after_used := fsub (of_Z 100) (default (of_Z 0) used_pct) in
          let cached_pct := _clip_to_remaining (usage_pct (Pair.mem_cached_bytes cur) (Some limit))
                              remaining_after_used in
          let remaining_after_cached := fsub remaining_after_used (default (of_Z 0) cached_pct) in
          let buffers_pct := _clip_to_remaining (usage_pct (Pair.mem_buffered_bytes cur) (Some limit))
                               remaining_after_cached in
          let free_pct := py_round_nd 1
            (fmax2 (of_Z 0) (fsub remaining_after_cached (default (of_Z 0) buffers_pct))) in
          Some {|
            MemView.total_bytes := Some limit;
            MemView.used_bytes := used;
            MemView.available_bytes := Pair.mem_available_bytes cur;
            MemView.cached_bytes := Pair.mem_cached_bytes cur;
            MemView.buffered_bytes := Pair.mem_buffered_bytes cur;
            MemView.usage_pct := used_pct;
            MemView.cached_pct := cached_pct;
            MemView.buffers_pct := buffers_pct;
            MemView.free_pct := Some free_pct;
          |}
      end
  end.

(** ** Disks and interfaces *)

Definition _disk_io_snapshot (rows : list DiskIoRaw) (dev_names : option (gmap string string))
    (first : DiskIoRaw) : DiskIoSnapshot :=
  let display := display_name dev_names (DiskRow.device_id first) (DiskRow.device_name first) in
  let idle := {| DiskView.device := display; DiskView.read_iops := None; DiskView.write_iops := None;
                 DiskView.read_kbps := None; DiskView.write_kbps := None |} in
  match rows with
  | cur :: prev :: _ =>
      let dt := total_seconds (DiskRow.collected_at cur) (DiskRow.collected_at prev) in
      if fle dt (of_Z 0) then idle
      else if is_counter_reset (DiskRow.boot_time cur) (DiskRow.boot_time prev) then idle
      else {|
        DiskView.device := display;
        DiskView.read_iops := _delta_rate (DiskRow.ops_read cur) (DiskRow.ops_read prev) dt;
        DiskView.write_iops := _delta_rate (DiskRow.ops_write cur) (DiskRow.ops_write prev) dt;
        DiskView.read_kbps := _delta_kbps (DiskRow.io_read_bytes cur) (DiskRow.io_read_bytes prev) dt;
        DiskView.write_kbps := _delta_kbps (DiskRow.io_write_bytes cur) (DiskRow.io_write_bytes prev) dt;
      |}
  | _ => idle
  end.

(** [p.device_id in dev_names], everything passing when there is no inventory *)
Definition known_device {A} (id : A → string) (names : option (gmap string string)) (rows : list A) : list A :=
  match names with
  | Some m => filter (λ r, is_Some (m !! id r)) rows
  | None => rows
  end.

(** The groups in key order; a group has at least one row. *)
Definition per_device {A B} (id : A → string) (snapshot : list A → A → B) (rows : list A) : list B :=
  omap (λ kv, match kv.2 with r :: _ => Some (snapshot kv.2 r) | [] => None end)
    (sort_str fst (_group_by_dim id rows)).

Definition compute_disk_io (pairs : list DiskIoRaw) (dev_names : option (gmap string string))
    : list DiskIoSnapshot :=
  per_device DiskRow.device_id (λ rows r, _disk_io_snapshot rows dev_names r)
    (known_device DiskRow.device_id dev_names pairs).

Definition _net_io_snapshot (rows : list NetIoRaw) (iface_names : option (gmap string string))
    (first : NetIoRaw) : NetIoSnapshot :=
  let display := display_name iface_names (NetRow.iface_id first) (NetRow.iface_name first) in
  let idle := {| NetView.interface := display; NetView.rx_kbps := None; NetView.tx_kbps := None;
                 NetView.rx_pps := None; NetView.tx_pps := None |} in
  match rows with
  | cur :: prev :: _ =>
      let dt := total_seconds (NetRow.collected_at cur) (NetRow.collected_at prev) in
      if fle dt (of_Z 0) then idle
      else if is_counter_reset (NetRow.boot_time cur) (NetRow.boot_time prev) then idle
      else {|
        NetView.interface := display;
        NetView.rx_kbps := _delta_kbps (NetRow.rx_bytes cur) (NetRow.rx_bytes prev) dt;
        NetView.tx_kbps := _delta_kbps (NetRow.tx_bytes cur) (NetRow.tx_bytes prev) dt;
        NetView.rx_pps := _delta_rate (NetRow.rx_packets cur) (NetRow.rx_packets prev) dt;
        NetView.tx_pps := _delta_rate (NetRow.tx_packets cur) (NetRow.tx_packets prev) dt;
      |}
  | _ => idle
  end.

Definition compute_net_io (pairs : list NetIoRaw) (iface_names : option (gmap string string))
    : list NetIoSnapshot :=
  per_device NetRow.iface_id (λ rows r, _net_io_snapshot rows iface_names r)
    (known_device NetRow.iface_id iface_names pairs).

(** ** Mounts *)

Definition mount_snapshot (m : MountUsageRaw) : MountDashSnapshot :=
  let total := match MountRow.used_bytes m, MountRow.free_bytes m with
               | Some u, Some f => Some (u + f)
               | _, _ => None
               end in
  {| MountView.mount := MountRow.mountpoint m;
     MountView.total_gb := bytes_to_gb total;
     MountView.used_gb := bytes_to_gb (MountRow.used_bytes m);
     MountView.avail_gb := bytes_to_gb (MountRow.free_bytes m);
     MountView.usage_pct := usage_pct (MountRow.used_bytes m) total |}.

Definition compute_mounts (mounts : list MountUsageRaw) : list MountDashSnapshot :=
  mount_snapshot <$> filter (λ m, is_data_volume (MountRow.fstype m) (Some (MountRow.mountpoint m)) = true)
                       (sort_str MountRow.mountpoint mounts).

(** A measured, non-zero size *)
Definition sized (m : MountDashSnapshot) : bool :=
  match MountView.total_gb m with Some t => float_truthy t | None => false end.

Definition _aggregate_disk_usage (mounts : list MountDashSnapshot) : option float :=
  let sized_mounts := filter (λ m, sized m = true) mounts in
  let total := sum_measured (MountView.total_gb <$> sized_mounts) in
  let used := sum_measured (MountView.used_gb <$> sized_mounts) in
  if fgt total (of_Z 0)
  then Some (py_round_nd 1 (fmul (fdiv used total) (of_Z 100))) else None.

(** ** The dashboard *)

Definition build_dashboard (raw : DashboardRaw) : MetricDashboard :=
  let cur := head (metrics raw) in
  let prev := metrics raw !! 1%nat in
  let phys_disks := _physical_dev_names (raw_block_devices raw)
                      (λ n, is_physical_disk (node_str "type" n)) in
  let phys_ifaces := _physical_dev_names (raw_net_interfaces raw)
                       (λ n, negb (is_virtual_interface (node_str "kind" n))) in
  let mounts := compute_mounts (filesystems raw) in
  {|
    dash_collected_at := Pair.collected_at <$> cur;
    cpu := compute_cpu cur prev;
    memory := compute_mem cur;
    disk_io := compute_disk_io (raw_disk_io raw) phys_disks;
    net_io := compute_net_io (raw_net_io raw) phys_ifaces;
    mounts := mounts;
    disk_usage_pct := _aggregate_disk_usage mounts;
    cpu_saturation := []; mem_saturation := []; disk_saturation := []; net_saturation := [];
    errors := [];
    cpu_cores := compute_cpu_cores (raw_cpu_cores raw);
  |}.
