(* ===== verification/Signals.v ===== *)
(** * Saturation signals and error indicators of the dashboard

    The second half of [src/assessment_engine/web/services/mappers/metrics_calculator.py]:
    [build_saturation_signals], whose verdicts are the domain predicates of
    [RightSizing], and [build_error_signals].  A text is the UTF-8 of the source's. *)

From S2P Require Import Prelude PyFloat PyText PyList Sql RightSizing Wire MetricViews Dashboard.

(** ** PSI *)

(** [re.match] of two dotted numbers at the start; the digits are ASCII *)
Fixpoint span_digits (s : string) : string * string :=
  match s with
  | String c s' =>
      if is_ascii_digit c then let '(d, r) := span_digits s' in (String c d, r) else ("", s)
  | EmptyString => ("", "")
  end.

Definition kernel_numbers (s : string) : option (Z * Z) :=
  match span_digits s with
  | (EmptyString, _) => None
  | (major, String c rest) =>
      if Ascii.eqb c "." then
        match span_digits rest with
        | (EmptyString, _) => None
        | (minor, _) => Some (int_of_digits major, int_of_digits minor)
        end
      else None
  | _ => None
  end.

Definition _psi_supported (kernel_version : option string) : option bool :=
  if negb (str_truthy kernel_version) then None
  else match kernel_numbers (str_or kernel_version "") with
       | None => None
       | Some (major, minor) => Some ((4 <? major) || ((major =? 4) && (20 <=? minor)))
       end.

(** ** Constructors of signals *)

Definition signal_of (key label state : string) (value : option number) (threshold : option float)
    (unit_ : option string) (saturated : option bool) (detail na_reason : option string)
    : SaturationSignal := {|
  Signal.key := key; Signal.label := label; Signal.state := state; Signal.value := value;
  Signal.threshold := threshold; Signal.unit_ := unit_; Signal.saturated := saturated;
  Signal.detail := detail; Signal.na_reason := na_reason |}.

Definition not_applicable (key label reason : string) : SaturationSignal :=
  signal_of key label "not_applicable" None None None None None (Some reason).

Definition no_data (key label : string) : SaturationSignal :=
  signal_of key label "no_data" None None None None None None.

(** [SaturationSignal(state="measured" if v is not None else "no_data", ...)] *)
Definition gauge_signal (key label : string) (value : option float) (shown : float → number)
    (threshold : float) (unit_ : option string) (over : float → bool) (detail : string)
    : SaturationSignal :=
  signal_of key label (match value with Some _ => "measured" | None => "no_data" end)
    (shown <$> value) (Some threshold) unit_ (over <$> value) (Some detail) None.

Definition rounded (nd : nat) (x : float) : number := NFloat (py_round_nd nd x).

Definition _psi_signal (key label : string) (psi_val : option float) (win : bool)
    (supported : option bool) : SaturationSignal :=
  if win then not_applicable key label "Windows 미지원"
  else if bool_decide (supported = Some false)
  then not_applicable key label "구커널 미지원 (PSI Linux 4.20+)"
  else match psi_val with
       | None => no_data key label
       | Some v =>
           signal_of key label "measured" (Some (rounded 1 v)) (Some PSI_STALL_DISPLAY_PCT) (Some "%"%string)
             (Some (fge v PSI_STALL_DISPLAY_PCT))
             (Some (str_join "" ["PSI some(자원 대기로 멈춘 시간 비율), 표시 기준 ";
                                 fmt_fixed 0 PSI_STALL_DISPLAY_PCT; "%"]%string)) None
       end.

Definition _ratio_signal (key label : string) (val : option float) (threshold : float) (desc : string)
    : SaturationSignal :=
  gauge_signal key label val (rounded 2) threshold (Some "%"%string) (λ v, fge v threshold)
    (str_join "" [desc; ", 임계 "; fmt_g threshold; "%"]%string).

(** ** The four axes *)

Record saturation_signals := {
  sig_cpu : list SaturationSignal;
  sig_mem : list SaturationSignal;
  sig_disk : list SaturationSignal;
  sig_net : list SaturationSignal;
}.

Definition run_queue_signal (win : bool) (rq_idx : option float) (rq_percore : option float)
    : SaturationSignal :=
  let rq_threshold := if win then CPU_RUN_QUEUE_PER_CORE_SATURATION else PROCS_RUNNING_PER_CORE_SATURATION in
  signal_of "cpu_run_queue" "실행 큐" (match rq_idx with Some _ => "measured" | None => "no_data" end)
    (rounded 2 <$> rq_percore) (Some rq_threshold) (Some "per_core"%string)
    ((λ i, fge i (of_Z 1)) <$> rq_idx)
    (Some (str_join "" [if win then "Windows Processor Queue Length" else "Linux procs_running";
                        "/코어, 임계 "; fmt_g rq_threshold]%string)) None.

Definition cpu_signals (win : bool) (psi_ok : option bool) (os_family : option string)
    (run_queue_total : option float) (cores : option Z) (steal_pct blocked : option float)
    (sat : SaturationRaw) : list SaturationSignal :=
  let rq_idx := cpu_saturation_index run_queue_total cores os_family in
  let rq_percore := match run_queue_total, cores with
                    | Some rq, Some c => if c =? 0 then None else Some (fdiv rq (of_Z c))
                    | _, _ => None
                    end in
  [run_queue_signal win rq_idx rq_percore;
   (if win then not_applicable "cpu_steal" "Steal" "Windows 미지원"
    else gauge_signal "cpu_steal" "Steal" steal_pct (rounded 1) (of_Z RS_CPU_STEAL_BIAS_PCT)
           (Some "%"%string) (λ v, fge v (of_Z RS_CPU_STEAL_BIAS_PCT))
           (str_join "" ["가상화 경합(steal%), 임계 "; fmt_g (of_Z RS_CPU_STEAL_BIAS_PCT); "%"]%string));
   _psi_signal "cpu_psi" "PSI" (psi_cpu sat) win psi_ok;
   (if win then not_applicable "cpu_blocked" "D-state 블록" "Windows 미지원"
    else gauge_signal "cpu_blocked" "D-state 블록" blocked (rounded 1) PROCS_BLOCKED_DSTATE_SATURATION
           None (λ v, fge v PROCS_BLOCKED_DSTATE_SATURATION)
           (str_join "" ["IO 대기(D-state) 프로세스 수 — 임계 "; fmt_g PROCS_BLOCKED_DSTATE_SATURATION;
                         ", CPU 부하가 실제로 IO 대기발인지 근본원인 근거"]%string))].

(** [round(paging)] raises on an infinite or NaN rate. *)
Definition mem_signals (win : bool) (psi_ok : option bool) (os_family : option string)
    (sat : SaturationRaw) : result (list SaturationSignal) :=
  let paging := paging_major_rate sat in
  let paging_sat := (λ _, mem_pressure_active paging os_family) <$> paging in
  value ← match paging with
          | Some p => n ← py_round p; Ok (Some (NInt n))
          | None => Ok None
          end;
  Ok [signal_of "mem_paging" "페이징" (match paging with Some _ => "measured" | None => "no_data" end)
        value (Some (if win then WIN_PAGES_INPUT_SATURATION else of_Z 0)) (Some "/s"%string) paging_sat
        (Some (if win
               then String.append "Windows Pages Input/sec, 임계 " (fmt_g WIN_PAGES_INPUT_SATURATION)
               else "Linux 하드폴트(refault)/s, 발생(>0) 시 압박"%string)) None;
      _psi_signal "mem_psi" "PSI" (psi_mem sat) win psi_ok].

Definition disk_signals (win : bool) (psi_ok : option bool) (os_family : option string)
    (sat : SaturationRaw) : list SaturationSignal :=
  let di_idx := disk_io_saturation_index (await_ms sat) (pending_ops sat) os_family in
  let over := (λ i, fge i (of_Z 1)) <$> di_idx in
  let response :=
    match await_ms sat, pending_ops sat with
    | Some a, _ =>
        signal_of "disk_await" "응답 지연" "measured" (Some (rounded 1 a)) (Some (of_Z RS_DISKIO_AWAIT_MS))
          (Some "ms"%string) over
          (Some (str_join "" ["IO 응답 지연 await, 임계 "; fmt_g (of_Z RS_DISKIO_AWAIT_MS); "ms"]%string)) None
    | None, Some q =>
        if win
        then signal_of "disk_await" "디스크 큐" "measured" (Some (rounded 2 q))
               (Some DISK_QUEUE_PER_DISK_SATURATION) (Some "ops"%string) over
               (Some (String.append "Windows 큐 깊이(await 폴백), 임계 " (fmt_g DISK_QUEUE_PER_DISK_SATURATION)))
               None
        else no_data "disk_await" "응답 지연"
    | None, None => no_data "disk_await" "응답 지연"
    end in
  [response; _psi_signal "disk_psi" "PSI(io)" (psi_io sat) win psi_ok].

Definition conntrack_signal (win : bool) (ct_ratio : option float) : SaturationSignal :=
  if win then not_applicable "net_conntrack" "conntrack" "Windows 미지원"
  else gauge_signal "net_conntrack" "conntrack" ct_ratio (λ r, rounded 1 (fmul r (of_Z 100)))
         (fmul RS_CONNTRACK_SATURATION_RATIO (of_Z 100)) (Some "%"%string)
         (λ r, fge r RS_CONNTRACK_SATURATION_RATIO)
         (str_join "" ["연결 테이블 사용률, 임계 ";
                       fmt_fixed 0 (fmul RS_CONNTRACK_SATURATION_RATIO (of_Z 100)); "%"]%string).

Definition net_signals (win : bool) (sat : SaturationRaw) : list SaturationSignal :=
  [_ratio_signal "net_retrans" "재전송" (retrans_pct sat) RS_NET_RETRANS_PCT "TCP 재전송율";
   _ratio_signal "net_drop" "드롭" (drop_pct sat) RS_NET_DROP_PCT "패킷 드롭율";
   conntrack_signal win (conntrack_ratio sat)].

Definition build_saturation_signals (os_family kernel_version : option string)
    (run_queue_total : option float) (cores : option Z) (steal_pct : option float)
    (sat : SaturationRaw) (blocked : option float) : result saturation_signals :=
  let win := is_windows os_family in
  let psi_ok := _psi_supported kernel_version in
  mem ← mem_signals win psi_ok os_family sat;
  Ok {| sig_cpu := cpu_signals win psi_ok os_family run_queue_total cores steal_pct blocked sat;
        sig_mem := mem;
        sig_disk := disk_signals win psi_ok os_family sat;
        sig_net := net_signals win sat |}.

(** ** Errors *)

Definition error_of (key label state : string) (count : option Z) (context : option string)
    (last_at : option datetime) (window_label detail : string) : ErrorSignal := {|
  ErrSignal.key := key; ErrSignal.label := label; ErrSignal.state := state; ErrSignal.count := count;
  ErrSignal.context := context; ErrSignal.last_at := last_at;
  ErrSignal.window_label := Some window_label; ErrSignal.detail := Some detail |}.

Definition _error_counter (key label : string) (count : Z) (measured : bool) (detail : string)
    (last_at : option datetime) (context : option string) (window_label : string) : ErrorSignal :=
  if negb measured then error_of key label "no_data" None None None window_label detail
  else if 0 <? count then error_of key label "occurred" (Some count) context last_at window_label detail
  else error_of key label "clean" (Some 0) None None window_label detail.

Definition edac_signal (corrupted : option Z) (window_label : string) (os_family : option string)
    : ErrorSignal :=
  let detail : string := "ECC 정정된 하드웨어 메모리 손상 바이트" in
  let signal state count context := error_of "mem_corrupted" "메모리 손상(EDAC)" state count context None window_label in
  if is_windows os_family then signal "not_applicable" None None "Windows 미지원(WHEA 소스 부재)"%string
  else match corrupted with
       | None => signal "no_data" None None detail
       | Some b =>
           if (0 <? b)%Z
           then signal "occurred" None (Some (String.append (pretty b) " bytes 손상")) detail
           else signal "clean" (Some 0) None detail
       end%string.

Definition build_error_signals (err : ErrorFleetRaw) (window_label : string) (os_family : option string)
    : list ErrorSignal :=
  [_error_counter "cpu_mce" "머신체크(MCE)" (mce_count err) (measured err)
     "CPU/메모리 하드웨어 정정불가 오류(machine check exception)" None None window_label;
   _error_counter "mem_oom" "OOM Kill" (oom_count err) (measured err)
     "메모리 부족으로 커널이 프로세스 강제 종료" None None window_label;
   _error_counter "net_errors" "NIC 에러" (net_error_count err) (net_measured err)
     "네트워크 인터페이스 rx/tx 오류 프레임" None None window_label;
   _error_counter "disk_errors" "디스크 에러" (disk_error_count err) (disk_err_measured err)
     "RAID degraded·파일시스템 손상·IO 오류" (last_error_at err)
     (match disk_error_kinds err with [] => None | ks => Some (str_join ", " ks) end) window_label;
   edac_signal (corrupted_bytes err) window_label os_family].
