(* ===== verification/JsonCodec.v ===== *)
(** * View models as JSON objects, and back

    What [dataclasses.asdict], [json_default] and the reconstruction a class called with the members of [d] as keywords
    do, over [Sql.json]: [src/assessment_engine/web/services/serialization.py] and the
    accessors of [json_types.py].  An object keeps the order of its keys, as a Python
    dict does.

    Python stores a value of any type under a keyword argument; the readers of this
    file are those of the declared types and raise [TypeError] on any other, which no
    text written by the code holds. *)

From S2P Require Import Prelude PyFloat PyText IsoFacts Sql MetricViews Wire.

(** ** Writing *)

Definition jopt {A} (f : A → json) (o : option A) : json :=
  match o with Some x => f x | None => JNull end.

(** A datetime becomes its ISO text. *)
Definition json_default (t : datetime) : json := JStr (isoformat t).

Definition jnumber (n : number) : json :=
  match n with NInt z => JInt z | NFloat x => JFloat x end.

Definition jlist {A} (f : A → json) (l : list A) : json := JArr (f <$> l).

(** ** Reading *)

Definition json_truthy (j : json) : bool :=
  match j with
  | JNull => false
  | JBool b => b
  | JInt n => negb (n =? 0)
  | JFloat x => float_truthy x
  | JStr s => negb (String.eqb s "")
  | JArr l => match l with [] => false | _ => true end
  | JObj l => match l with [] => false | _ => true end
  end.

Fixpoint kw (k : string) (kvs : list (string * json)) : option json :=
  match kvs with
  | [] => None
  | (k', v) :: kvs' => if String.eqb k k' then Some v else kw k kvs'
  end.

Definition r_str (j : json) : result string := match j with JStr s => Ok s | _ => Raise TypeError end.
Definition r_bool (j : json) : result bool := match j with JBool b => Ok b | _ => Raise TypeError end.
Definition r_int (j : json) : result Z := match j with JInt n => Ok n | _ => Raise TypeError end.
Definition r_float (j : json) : result float := match j with JFloat x => Ok x | _ => Raise TypeError end.
Definition r_number (j : json) : result number :=
  match j with JInt n => Ok (NInt n) | JFloat x => Ok (NFloat x) | _ => Raise TypeError end.
Definition r_time (j : json) : result datetime :=
  match j with JStr s => fromisoformat s | _ => Raise TypeError end.

Definition r_opt {A} (rd : json → result A) (j : json) : result (option A) :=
  match j with JNull => Ok None | _ => Some <$> rd j end.

(** The members of an object; anything else has no [get] *)
Definition members (j : json) : result (list (string * json)) :=
  match j with JObj kvs => Ok kvs | _ => Raise TypeError end.

(** a class called with the members of [d] as keywords: no keyword the class has not, and none of the required missing *)
Definition keywords (names : list string) (j : json) : result (list (string * json)) :=
  kvs ← members j;
  if forallb (λ kv, existsb (String.eqb kv.1) names) kvs then Ok kvs else Raise TypeError.

Definition required {A} (rd : json → result A) (k : string) (kvs : list (string * json)) : result A :=
  match kw k kvs with Some v => rd v | None => Raise TypeError end.

(** A keyword with a default, and [d.get(k)] *)
Definition optional {A} (rd : json → result A) (k : string) (d : A) (kvs : list (string * json))
    : result A :=
  match kw k kvs with Some v => rd v | None => Ok d end.

Definition json_list (kvs : list (string * json)) (k : string) : list json :=
  match kw k kvs with Some (JArr l) => l | _ => [] end.

(** A record built from [d["k"]] if that is truthy, else None *)
Definition r_truthy {A} (rd : json → result A) (k : string) (kvs : list (string * json))
    : result (option A) :=
  match kw k kvs with
  | Some v => if json_truthy v then Some <$> rd v else Ok None
  | None => Ok None
  end.

(** ** Reading what was written *)

Lemma r_opt_jopt {A} (rd : json → result A) (f : A → json) (o : option A) :
  (∀ x, o = Some x → rd (f x) = Ok x ∧ f x ≠ JNull) → r_opt rd (jopt f o) = Ok o.
Proof.
  destruct o as [x|]; [|done]. intros H. destruct (H x eq_refl) as [E N]. unfold r_opt. cbn [jopt].
  rewrite E. by destruct (f x).
Qed.

Lemma map_result_fmap {A} (rd : json → result A) (f : A → json) (l : list A) :
  (∀ x, x ∈ l → rd (f x) = Ok x) → map_result rd (f <$> l) = Ok l.
Proof.
  induction l as [|x l IH]; intros H; [done|].
  rewrite fmap_cons. cbn [map_result]. rewrite (H x) by by left.
  cbn [mbind result_bind]. rewrite IH; [done|]. intros y Hy. apply H. by right.
Qed.

Lemma r_opt_float o : r_opt r_float (jopt JFloat o) = Ok o.
Proof. by apply r_opt_jopt. Qed.
Lemma r_opt_int o : r_opt r_int (jopt JInt o) = Ok o.
Proof. by apply r_opt_jopt. Qed.
Lemma r_opt_str o : r_opt r_str (jopt JStr o) = Ok o.
Proof. by apply r_opt_jopt. Qed.
Lemma r_opt_bool o : r_opt r_bool (jopt JBool o) = Ok o.
Proof. by apply r_opt_jopt. Qed.
Lemma r_opt_number o : r_opt r_number (jopt jnumber o) = Ok o.
Proof. apply r_opt_jopt. intros [n|x] _; by split. Qed.
Lemma r_opt_time o : (∀ t, o = Some t → datetime_ok t) → r_opt r_time (jopt json_default o) = Ok o.
Proof. intros H. apply r_opt_jopt. intros t ->. split; [by apply isoformat_read, H|done]. Qed.

Create Rewrite HintDb json_codec.
#[export] Hint Rewrite r_opt_float r_opt_int r_opt_str r_opt_bool r_opt_number : json_codec.

Lemma keywords_ok names kvs :
  forallb (λ kv, existsb (String.eqb kv.1) names) kvs = true → keywords names (JObj kvs) = Ok kvs.
Proof. intros H. unfold keywords. cbn [members mbind result_bind]. by rewrite H. Qed.

(** A record read back from the object it was written as *)
Ltac read_back :=
  try (rewrite keywords_ok by reflexivity); cbn [members];
  repeat (progress (unfold required, optional; cbn [mbind result_bind];
                    cbn [kw String.eqb Ascii.eqb Bool.eqb r_str r_int r_bool];
                    autorewrite with json_codec)).
