(* ===== verification/DashCache.v ===== *)
(** * The dashboard cache: serialisation, and cache-aside reading

    Models the dashboard half of
    [src/assessment_engine/web/services/cache_serializer.py] and [latest_metric] of
    [web/services/query/metric.py].  [json.dumps] and [json.loads] are parameters;
    what is written under them and read from them is modelled. *)

From S2P Require Import Prelude PyFloat PyText Sql Redis Wire Handlers MetricViews Dashboard Signals JsonCodec.

(** ** [dataclasses.asdict] *)

Definition cpu_dict (v : CpuSnapshot) : json := JObj [
  ("usage_pct", jopt JFloat (CpuView.usage_pct v)); ("user_pct", jopt JFloat (CpuView.user_pct v));
  ("system_pct", jopt JFloat (CpuView.system_pct v)); ("iowait_pct", jopt JFloat (CpuView.iowait_pct v));
  ("steal_pct", jopt JFloat (CpuView.steal_pct v)); ("nice_pct", jopt JFloat (CpuView.nice_pct v))]%string.

Definition mem_dict (v : MemSnapshot) : json := JObj [
  ("total_bytes", jopt JInt (MemView.total_bytes v)); ("used_bytes", jopt JInt (MemView.used_bytes v));
  ("available_bytes", jopt JInt (MemView.available_bytes v));
  ("cached_bytes", jopt JInt (MemView.cached_bytes v));
  ("buffered_bytes", jopt JInt (MemView.buffered_bytes v));
  ("usage_pct", jopt JFloat (MemView.usage_pct v)); ("cached_pct", jopt JFloat (MemView.cached_pct v));
  ("buffers_pct", jopt JFloat (MemView.buffers_pct v)); ("free_pct", jopt JFloat (MemView.free_pct v))]%string.

Definition disk_dict (v : DiskIoSnapshot) : json := JObj [
  ("device", JStr (DiskView.device v)); ("read_iops", jopt JFloat (DiskView.read_iops v));
  ("write_iops", jopt JFloat (DiskView.write_iops v)); ("read_kbps", jopt JFloat (DiskView.read_kbps v));
  ("write_kbps", jopt JFloat (DiskView.write_kbps v))]%string.

Definition net_dict (v : NetIoSnapshot) : json := JObj [
  ("interface", JStr (NetView.interface v)); ("rx_kbps", jopt JFloat (NetView.rx_kbps v));
  ("tx_kbps", jopt JFloat (NetView.tx_kbps v)); ("rx_pps", jopt JFloat (NetView.rx_pps v));
  ("tx_pps", jopt JFloat (NetView.tx_pps v))]%string.

Definition mount_dict (v : MountDashSnapshot) : json := JObj [
  ("mount", JStr (MountView.mount v)); ("total_gb", jopt JFloat (MountView.total_gb v));
  ("used_gb", jopt JFloat (MountView.used_gb v)); ("avail_gb", jopt JFloat (MountView.avail_gb v));
  ("usage_pct", jopt JFloat (MountView.usage_pct v))]%string.

Definition signal_dict (v : SaturationSignal) : json := JObj [
  ("key", JStr (Signal.key v)); ("label", JStr (Signal.label v)); ("state", JStr (Signal.state v));
  ("value", jopt jnumber (Signal.value v)); ("threshold", jopt JFloat (Signal.threshold v));
  ("unit", jopt JStr (Signal.unit_ v)); ("saturated", jopt JBool (Signal.saturated v));
  ("detail", jopt JStr (Signal.detail v)); ("na_reason", jopt JStr (Signal.na_reason v))]%string.

Definition error_dict (v : ErrorSignal) : json := JObj [
  ("key", JStr (ErrSignal.key v)); ("label", JStr (ErrSignal.label v));
  ("state", JStr (ErrSignal.state v)); ("count", jopt JInt (ErrSignal.count v));
  ("context", jopt JStr (ErrSignal.context v)); ("last_at", jopt json_default (ErrSignal.last_at v));
  ("window_label", jopt JStr (ErrSignal.window_label v)); ("detail", jopt JStr (ErrSignal.detail v))]%string.

Definition core_dict (v : CpuCoreSnapshot) : json := JObj [
  ("core_id", JInt (CoreView.core_id v)); ("usage_pct", jopt JFloat (CoreView.usage_pct v));
  ("hot", JBool (CoreView.hot v))]%string.

Definition dashboard_dict (v : MetricDashboard) : json := JObj [
  ("collected_at", jopt json_default (dash_collected_at v)); ("cpu", jopt cpu_dict (cpu v));
  ("memory", jopt mem_dict (memory v)); ("disk_io", jlist disk_dict (disk_io v));
  ("net_io", jlist net_dict (net_io v)); ("mounts", jlist mount_dict (mounts v));
  ("disk_usage_pct", jopt JFloat (disk_usage_pct v));
  ("cpu_saturation", jlist signal_dict (cpu_saturation v));
  ("mem_saturation", jlist signal_dict (mem_saturation v));
  ("disk_saturation", jlist signal_dict (disk_saturation v));
  ("net_saturation", jlist signal_dict (net_saturation v));
  ("errors", jlist error_dict (errors v)); ("cpu_cores", jlist core_dict (cpu_cores v))]%string.

(** ** Reconstruction *)

Definition cpu_of (j : json) : result CpuSnapshot :=
  kvs ← keywords ["usage_pct"; "user_pct"; "system_pct"; "iowait_pct"; "steal_pct"; "nice_pct"]%string j;
  a ← required (r_opt r_float) "usage_pct" kvs;
  b ← required (r_opt r_float) "user_pct" kvs;
  c ← required (r_opt r_float) "system_pct" kvs;
  d ← required (r_opt r_float) "iowait_pct" kvs;
  e ← optional (r_opt r_float) "steal_pct" None kvs;
  f ← optional (r_opt r_float) "nice_pct" None kvs;
  Ok {| CpuView.usage_pct := a; CpuView.user_pct := b; CpuView.system_pct := c;
        CpuView.iowait_pct := d; CpuView.steal_pct := e; CpuView.nice_pct := f |}.

Definition mem_of (j : json) : result MemSnapshot :=
  kvs ← keywords ["total_bytes"; "used_bytes"; "available_bytes"; "cached_bytes"; "buffered_bytes";
                  "usage_pct"; "cached_pct"; "buffers_pct"; "free_pct"]%string j;
  a ← required (r_opt r_int) "total_bytes" kvs;
  b ← required (r_opt r_int) "used_bytes" kvs;
  c ← required (r_opt r_int) "available_bytes" kvs;
  d ← required (r_opt r_int) "cached_bytes" kvs;
  e ← required (r_opt r_int) "buffered_bytes" kvs;
  f ← required (r_opt r_float) "usage_pct" kvs;
  g ← optional (r_opt r_float) "cached_pct" None kvs;
  h ← optional (r_opt r_float) "buffers_pct" None kvs;
  i ← optional (r_opt r_float) "free_pct" None kvs;
  Ok {| MemView.total_bytes := a; MemView.used_bytes := b; MemView.available_bytes := c;
        MemView.cached_bytes := d; MemView.buffered_bytes := e; MemView.usage_pct := f;
        MemView.cached_pct := g; MemView.buffers_pct := h; MemView.free_pct := i |}.

Definition disk_of (j : json) : result DiskIoSnapshot :=
  kvs ← keywords ["device"; "read_iops"; "write_iops"; "read_kbps"; "write_kbps"]%string j;
  a ← required r_str "device" kvs;
  b ← required (r_opt r_float) "read_iops" kvs;
  c ← required (r_opt r_float) "write_iops" kvs;
  d ← required (r_opt r_float) "read_kbps" kvs;
  e ← required (r_opt r_float) "write_kbps" kvs;
  Ok {| DiskView.device := a; DiskView.read_iops := b; DiskView.write_iops := c;
        DiskView.read_kbps := d; DiskView.write_kbps := e |}.

Definition net_of (j : json) : result NetIoSnapshot :=
  kvs ← keywords ["interface"; "rx_kbps"; "tx_kbps"; "rx_pps"; "tx_pps"]%string j;
  a ← required r_str "interface" kvs;
  b ← required (r_opt r_float) "rx_kbps" kvs;
  c ← required (r_opt r_float) "tx_kbps" kvs;
  d ← required (r_opt r_float) "rx_pps" kvs;
  e ← required (r_opt r_float) "tx_pps" kvs;
  Ok {| NetView.interface := a; NetView.rx_kbps := b; NetView.tx_kbps := c;
        NetView.rx_pps := d; NetView.tx_pps := e |}.

Definition mount_of (j : json) : result MountDashSnapshot :=
  kvs ← keywords ["mount"; "total_gb"; "used_gb"; "avail_gb"; "usage_pct"]%string j;
  a ← required r_str "mount" kvs;
  b ← required (r_opt r_float) "total_gb" kvs;
  c ← required (r_opt r_float) "used_gb" kvs;
  d ← required (r_opt r_float) "avail_gb" kvs;
  e ← required (r_opt r_float) "usage_pct" kvs;
  Ok {| MountView.mount := a; MountView.total_gb := b; MountView.used_gb := c;
        MountView.avail_gb := d; MountView.usage_pct := e |}.

Definition saturation_of (j : json) : result SaturationSignal :=
  kvs ← keywords ["key"; "label"; "state"; "value"; "threshold"; "unit"; "saturated"; "detail";
                  "na_reason"]%string j;
  a ← required r_str "key" kvs;
  b ← required r_str "label" kvs;
  c ← required r_str "state" kvs;
  d ← optional (r_opt r_number) "value" None kvs;
  e ← optional (r_opt r_float) "threshold" None kvs;
  f ← optional (r_opt r_str) "unit" None kvs;
  g ← optional (r_opt r_bool) "saturated" None kvs;
  h ← optional (r_opt r_str) "detail" None kvs;
  i ← optional (r_opt r_str) "na_reason" None kvs;
  Ok (signal_of a b c d e f g h i).

(** [e["key"]] raises [KeyError] when it is missing, and unknown keys are ignored. *)
Definition _error_signal_from_dict (j : json) : result ErrorSignal :=
  kvs ← members j;
  let item k := match kw k kvs with Some v => r_str v | None => Raise (KeyError k) end in
  a ← item "key"%string;
  b ← item "label"%string;
  c ← item "state"%string;
  d ← optional (r_opt r_int) "count" None kvs;
  e ← optional (r_opt r_str) "context" None kvs;
  f ← r_truthy r_time "last_at" kvs;
  g ← optional (r_opt r_str) "window_label" None kvs;
  h ← optional (r_opt r_str) "detail" None kvs;
  Ok {| ErrSignal.key := a; ErrSignal.label := b; ErrSignal.state := c; ErrSignal.count := d;
        ErrSignal.context := e; ErrSignal.last_at := f; ErrSignal.window_label := g;
        ErrSignal.detail := h |}.

Definition core_of (j : json) : result CpuCoreSnapshot :=
  kvs ← keywords ["core_id"; "usage_pct"; "hot"]%string j;
  a ← required r_int "core_id" kvs;
  b ← required (r_opt r_float) "usage_pct" kvs;
  c ← optional r_bool "hot" false kvs;
  Ok {| CoreView.core_id := a; CoreView.usage_pct := b; CoreView.hot := c |}.

(** [datetime.fromisoformat(raw_ca) if isinstance(raw_ca, str) else None] *)
Definition time_member (k : string) (kvs : list (string * json)) : result (option datetime) :=
  match kw k kvs with Some (JStr s) => Some <$> fromisoformat s | _ => Ok None end.

Definition dashboard_of (data : json) : result MetricDashboard :=
  kvs ← members data;
  at_ ← time_member "collected_at" kvs;
  cpu ← r_truthy cpu_of "cpu" kvs;
  memory ← r_truthy mem_of "memory" kvs;
  disk_io ← map_result disk_of (json_list kvs "disk_io");
  net_io ← map_result net_of (json_list kvs "net_io");
  mounts ← map_result mount_of (json_list kvs "mounts");
  usage ← optional (r_opt r_float) "disk_usage_pct" None kvs;
  cs ← map_result saturation_of (json_list kvs "cpu_saturation");
  ms ← map_result saturation_of (json_list kvs "mem_saturation");
  ds ← map_result saturation_of (json_list kvs "disk_saturation");
  ns ← map_result saturation_of (json_list kvs "net_saturation");
  errs ← map_result _error_signal_from_dict (json_list kvs "errors");
  cores ← map_result core_of (json_list kvs "cpu_cores");
  Ok {| dash_collected_at := at_; cpu := cpu; memory := memory; disk_io := disk_io; net_io := net_io;
        mounts := mounts; disk_usage_pct := usage; cpu_saturation := cs; mem_saturation := ms;
        disk_saturation := ds; net_saturation := ns; errors := errs; cpu_cores := cores |}.

(** ** Cache-aside reading *)

(** The repository's reads a dashboard needs ([MetricQueryRepository]) *)
Class MetricRepo (Q : Type) := {
  latest_dashboard : Z → eff Q (option DashboardRaw);
  latest_saturation : list Z → datetime → eff Q (gmap Z SaturationRaw);
}.

Section latest.
Context {R : Type} `{RedisClient R} {Q : Type} `{MetricRepo Q}.
Variable json_dumps : json → string.
Variable json_loads : string → result json.

Definition dashboard_to_json (v : MetricDashboard) : string := json_dumps (dashboard_dict v).

Definition dashboard_from_json (raw : string) : result MetricDashboard :=
  data ← json_loads raw; dashboard_of data.

Definition redis_ttl_cache_metrics : Z := 60.

Definition on_cache {A} (m : eff R A) : eff (R * Q) A := λ s,
  let '(a, r) := m s.1 in (a, (r, s.2)).
Definition on_repo {A} (m : eff Q A) : eff (R * Q) A := λ s,
  let '(a, q) := m s.2 in (a, (s.1, q)).

Definition with_signals (v : MetricDashboard) (s : saturation_signals) : MetricDashboard := {|
  dash_collected_at := dash_collected_at v; cpu := cpu v; memory := memory v; disk_io := disk_io v;
  net_io := net_io v; mounts := mounts v; disk_usage_pct := disk_usage_pct v;
  cpu_saturation := sig_cpu s; mem_saturation := sig_mem s; disk_saturation := sig_disk s;
  net_saturation := sig_net s; errors := errors v; cpu_cores := cpu_cores v |}.

(** What a miss computes from the raw rows and the saturation sample *)
Definition dashboard_with_signals (raw : DashboardRaw) (sat : SaturationRaw) : result MetricDashboard :=
  let result := build_dashboard raw in
  let cur := head (metrics raw) in
  signals ← build_saturation_signals (raw_os_family raw) (raw_kernel_version raw)
            (cur ≫= Pair.cpu_run_queue) (cur ≫= Pair.cpu_logical_count)
            (cpu result ≫= CpuView.steal_pct) sat (cur ≫= Pair.cpu_blocked);
  Ok (with_signals result signals).

Definition latest_metric (now : datetime) (server_id : Z) (saturation : option SaturationRaw)
  : eff (R * Q) (option MetricDashboard) :=
  let cache_key := redis_key_cache_metrics server_id in
  cached ← on_cache (safe_get cache_key);
  if str_truthy cached
  then v ← lift (dashboard_from_json (str_or cached "")); mret (Some v)
  else
  found ← on_repo (latest_dashboard server_id);
  match found with
  | None => mret None
  | Some raw =>
      match metrics raw with
      | [] => mret None
      | _ =>
          sat ← (match saturation with
                 | Some s => mret s
                 | None =>
                     m ← on_repo (latest_saturation [server_id] (now - 600000000));
                     mret (default no_saturation (m !! server_id))
                 end);
          result ← lift (dashboard_with_signals raw sat);
          _ ← on_cache (safe_set cache_key (dashboard_to_json result) (Some redis_ttl_cache_metrics));
          mret (Some result)
      end
  end.
End latest.
