(* ===== verification/DashFacts.v ===== *)
(** * The dashboard cache: what is read back, and what a read does *)

From stdpp Require Import sorting.
From S2P Require Import Prelude PyFloat PyText IsoFacts Sql Redis Wire Handlers MetricViews Dashboard Signals JsonCodec DashCache FloatFacts PyList BootTime Devices.

(** ** Round trips *)

Lemma cpu_back v : cpu_of (cpu_dict v) = Ok v.
Proof. destruct v. unfold cpu_of, cpu_dict. read_back. done. Qed.
Lemma mem_back v : mem_of (mem_dict v) = Ok v.
Proof. destruct v. unfold mem_of, mem_dict. read_back. done. Qed.
Lemma disk_back v : disk_of (disk_dict v) = Ok v.
Proof. destruct v. unfold disk_of, disk_dict. read_back. done. Qed.
Lemma net_back v : net_of (net_dict v) = Ok v.
Proof. destruct v. unfold net_of, net_dict. read_back. done. Qed.
Lemma mount_back v : mount_of (mount_dict v) = Ok v.
Proof. destruct v. unfold mount_of, mount_dict. read_back. done. Qed.
Lemma saturation_back v : saturation_of (signal_dict v) = Ok v.
Proof. destruct v. unfold saturation_of, signal_dict. read_back. done. Qed.
Lemma core_back v : core_of (core_dict v) = Ok v.
Proof. destruct v. unfold core_of, core_dict. read_back. done. Qed.

Lemma error_back v :
  (∀ t, ErrSignal.last_at v = Some t → datetime_ok t) → _error_signal_from_dict (error_dict v) = Ok v.
Proof.
  destruct v as [k l s c cx [t|] w d]; intros H; unfold _error_signal_from_dict, error_dict; read_back;
    unfold r_truthy; cbn [kw String.eqb Ascii.eqb Bool.eqb jopt ErrSignal.last_at].
  - unfold json_default.
    assert (json_truthy (JStr (isoformat t)) = true) as ->.
    { cbn. apply negb_true_iff, String.eqb_neq. intros E. pose proof (isoformat_read t (H t eq_refl)) as R.
      rewrite E in R. discriminate R. }
    unfold r_time. rewrite (isoformat_read t) by by apply H. cbn [fmap result_fmap]. by read_back.
  - cbn [json_truthy]. by read_back.
Qed.

(** Every time of a dashboard is one of Python's datetimes. *)
Definition dashboard_times (v : MetricDashboard) : Prop :=
  (∀ t, dash_collected_at v = Some t → datetime_ok t)
  ∧ ∀ e t, e ∈ errors v → ErrSignal.last_at e = Some t → datetime_ok t.

Lemma truthy_back {A} (rd : json → result A) (f : A → json) (k : string) kvs (o : option A) :
  kw k kvs = Some (jopt f o) → (∀ x, json_truthy (f x) = true ∧ rd (f x) = Ok x) →
  r_truthy rd k kvs = Ok o.
Proof.
  intros E H. unfold r_truthy. rewrite E. destruct o as [x|]; [|done].
  destruct (H x) as [T R]. cbn [jopt]. by rewrite T, R.
Qed.

Lemma dashboard_back v : dashboard_times v → dashboard_of (dashboard_dict v) = Ok v.
Proof.
  destruct v as [at_ cp mm dk nt mt us cs ms ds ns er cr]. intros [Ht He]. cbn in Ht, He.
  unfold dashboard_of, dashboard_dict. cbn [members mbind result_bind].
  set (kvs := [_; _; _; _; _; _; _; _; _; _; _; _; _]).
  assert (time_member "collected_at" kvs = Ok at_) as ->.
  { unfold time_member. cbn [kvs kw String.eqb Ascii.eqb Bool.eqb]. destruct at_ as [t|]; [|done].
    cbn. rewrite isoformat_read by by apply Ht. done. }
  cbn [mbind result_bind].
  rewrite (truthy_back cpu_of cpu_dict "cpu" kvs cp eq_refl) by (intros x; split; [done|apply cpu_back]).
  cbn [mbind result_bind].
  rewrite (truthy_back mem_of mem_dict "memory" kvs mm eq_refl) by (intros x; split; [done|apply mem_back]).
  cbn [mbind result_bind].
  unfold json_list, optional. subst kvs. cbn [kw String.eqb Ascii.eqb Bool.eqb]. unfold jlist.
  rewrite !(map_result_fmap _ _ _ (λ x _, disk_back x)), !(map_result_fmap _ _ _ (λ x _, net_back x)),
    !(map_result_fmap _ _ _ (λ x _, mount_back x)), !(map_result_fmap _ _ _ (λ x _, saturation_back x)),
    !(map_result_fmap _ _ _ (λ x _, core_back x)), r_opt_float.
  cbn [mbind result_bind].
  rewrite (map_result_fmap _ error_dict er); [done|]. intros e H. apply error_back. intros t E. by apply (He e t).
Qed.


(** ** A read *)

Section read.
Context {R : Type} `{RedisLaws R} {Q : Type} `{MetricRepo Q}.
Variable json_dumps : json → string.
Variable json_loads : string → result json.

(** What a miss computes, without the cache *)
Definition computed (now : datetime) (server_id : Z) (saturation : option SaturationRaw)
  : eff Q (option MetricDashboard) :=
  found ← latest_dashboard server_id;
  match found with
  | None => mret None
  | Some raw =>
    match metrics raw with
    | [] => mret None
    | _ =>
        sat ← (match saturation with
               | Some s => mret s
               | None =>
                   m ← latest_saturation [server_id] (now - 600000000);
                   mret (default no_saturation (m !! server_id))
               end);
        v ← lift (dashboard_with_signals raw sat); mret (Some v)
    end
  end.

Lemma computed_some now server_id saturation q v q' :
  computed now server_id saturation q = (Ok (Some v), q') →
  ∃ raw sat, metrics raw ≠ [] ∧ dashboard_with_signals raw sat = Ok v.
Proof.
  unfold computed. intros (found & q1 & _ & E)%bind_inv_ok.
  destruct found as [raw|]; [|done]. destruct (metrics raw) eqn:Em; [done|].
  apply bind_inv_ok in E as (sat & q2 & _ & E).
  apply bind_inv_ok in E as (w & q3 & Ew & E). injection E as -> _.
  exists raw, sat. rewrite Em. split; [done|]. by injection Ew.
Qed.

Lemma stored {A} k text ex (a : A) r (q : Q) :
  (_ ← on_cache (safe_set k text ex); mret a : eff (R * Q) A) (r, q) = (Ok a, (snd (safe_set k text ex r), q)).
Proof.
  destruct (safe_set_ok k text ex r) as (b & r' & E).
  rewrite (bind_ok _ _ _ b (r', q)) by (unfold on_cache; cbn; by rewrite E). by rewrite E.
Qed.

Lemma latest_metric_miss now server_id saturation r q c r1 :
  safe_get (redis_key_cache_metrics server_id) r = (Ok c, r1) → str_truthy c = false →
  latest_metric json_dumps json_loads now server_id saturation (r, q) =
  match computed now server_id saturation q with
  | (Ok (Some v), q') =>
    (Ok (Some v), (snd (safe_set (redis_key_cache_metrics server_id) (dashboard_to_json json_dumps v)
                          (Some redis_ttl_cache_metrics) r1), q'))
  | (Ok None, q') => (Ok None, (r1, q'))
  | (Raise e, q') => (Raise e, (r1, q'))
  end.
Proof.
  intros E C. unfold latest_metric, computed.
  rewrite (bind_ok _ _ _ c (r1, q)) by (unfold on_cache; cbn; by rewrite E).
  rewrite C. destruct (latest_dashboard server_id q) as [[found|e] q1] eqn:LD.
  2: { rewrite (bind_raise (on_repo _) _ _ e (r1, q1)) by (unfold on_repo; cbn; by rewrite LD).
     by rewrite (bind_raise _ _ _ e q1). }
  rewrite (bind_ok (on_repo _) _ _ found (r1, q1)) by (unfold on_repo; cbn; by rewrite LD).
  rewrite (bind_ok _ _ _ found q1) by done. destruct found as [raw|]; [|done].
  destruct (metrics raw) as [|p l]; [done|].
  assert (∀ sat q2,
  (result ← lift (dashboard_with_signals raw sat);
   _ ← on_cache (safe_set (redis_key_cache_metrics server_id) (dashboard_to_json json_dumps result)
         (Some redis_ttl_cache_metrics));
   mret (Some result) : eff (R * Q) (option MetricDashboard)) (r1, q2)
  = match dashboard_with_signals raw sat with
    | Ok v => (Ok (Some v), (snd (safe_set (redis_key_cache_metrics server_id)
                 (dashboard_to_json json_dumps v) (Some redis_ttl_cache_metrics) r1), q2))
    | Raise e => (Raise e, (r1, q2))
    end) as W.
  { intros sat q2. destruct (dashboard_with_signals raw sat) as [v|e] eqn:D; [|done].
  rewrite (bind_ok _ _ _ v (r1, q2)) by done. apply stored. }
  destruct saturation as [s|].
  - rewrite (bind_ok _ _ _ s (r1, q1)), W by done. rewrite (bind_ok _ _ _ s q1) by done.
  by destruct (dashboard_with_signals raw s).
  - destruct (latest_saturation [server_id] (now - 600000000) q1) as [[m|e] q2] eqn:L.
  + set (s := default no_saturation (m !! server_id)).
    rewrite (bind_ok _ _ _ s (r1, q2)), W
      by (rewrite (bind_ok (on_repo _) _ _ m (r1, q2)); [done|unfold on_repo; cbn [fst snd]; by rewrite L]).
    rewrite (bind_ok _ _ _ s q2) by by rewrite (bind_ok _ _ _ m q2).
    by destruct (dashboard_with_signals raw s).
  + rewrite (bind_raise _ _ _ e (r1, q2)) 
      by (apply bind_raise; unfold on_repo; cbn [fst snd]; by rewrite L).
    by rewrite (bind_raise _ _ _ e q2) by by apply bind_raise.
Qed.

Lemma latest_metric_hit now server_id saturation r q text r1 v :
  safe_get (redis_key_cache_metrics server_id) r = (Ok (Some text), r1) → text ≠ ""%string →
  dashboard_from_json json_loads text = Ok v →
  latest_metric json_dumps json_loads now server_id saturation (r, q) = (Ok (Some v), (r1, q)).
Proof.
  intros E N D. unfold latest_metric.
  rewrite (bind_ok _ _ _ (Some text) (r1, q)) by (unfold on_cache; cbn; by rewrite E).
  assert (str_truthy (Some text) = true) as ->
  by (unfold str_truthy; by destruct text).
  assert (str_or (Some text) "" = text) as -> by (unfold str_or; by destruct text).
  rewrite D. done.
Qed.
End read.

(** ** Rates of cumulative counters

    The sign of what the dashboard's divisions return, and the characterisation of a
    per-device snapshot: one per known device, its rates those of the two newest
    samples and only if these allow one. *)

(** ** Signs *)

(** Not below zero *)
Definition no_neg (x : float) : Prop :=
  match x with
  | S754_zero _ | S754_nan => True
  | S754_finite s _ _ | S754_infinity s => s = false
  end.

Lemma no_neg_flt x : no_neg x → flt x (of_Z 0) = false.
Proof. destruct x as [|[|]| |[|]]; cbn; intros H; try done; congruence. Qed.

Lemma round_aux_no_neg m e l : no_neg (binary_round_aux fprec femax false m e l).
Proof.
  unfold binary_round_aux. destruct (shr_fexp _ _ _ _ _) as [r1 e1].
  destruct (shr_fexp _ _ _ _ _) as [r2 e2]. destruct (shr_m r2); [done| |done].
  by destruct (_ <=? _).
Qed.

Lemma of_ratio_no_neg num den : no_neg (of_ratio false num den).
Proof.
  destruct num as [|n|n]; [done| |done]. unfold of_ratio.
  destruct (SFdiv_core_binary _ _ _ _ _ _) as [[q e] l]. apply round_aux_no_neg.
Qed.

Lemma of_Z_no_neg n : 0 <= n → no_neg (of_Z n).
Proof.
  intros H. unfold of_Z, binary_normalize, binary_round. destruct n as [|n|n]; [done| |lia].
  destruct (shl_align _ _ _). apply round_aux_no_neg.
Qed.

Lemma truediv_no_neg a b : 0 <= a → 0 <= b → no_neg (truediv a b).
Proof.
  intros Ha Hb. unfold truediv, int_truediv. destruct b as [|b|b]; [done| |lia].
  rewrite (proj2 (Z.ltb_ge a 0)) by done. apply of_ratio_no_neg.
Qed.

(** A positive divisor *)
Definition positive_float (x : float) : Prop :=
  match x with S754_finite s _ _ | S754_infinity s => s = false | _ => False end.

Lemma fdiv_no_neg x y : no_neg x → positive_float y → no_neg (fdiv x y).
Proof.
  intros Hx Hy. destruct x as [sx|sx| |sx mx ex], y as [sy|sy| |sy my ey]; try done;
    cbn in Hx, Hy; subst; try done.
  unfold fdiv, SFdiv. destruct (SFdiv_core_binary _ _ _ _ _ _) as [[q e] l]. apply round_aux_no_neg.
Qed.

Lemma round_nd_no_neg nd x : no_neg x → no_neg (py_round_nd nd x).
Proof. destruct x; try done. cbn. intros ->. apply of_ratio_no_neg. Qed.

Lemma round_aux_positive m e l :
  0 < m → -1074 <= e → positive_float (binary_round_aux fprec femax false m e l).
Proof.
  intros Hm He. unfold binary_round_aux.
  assert (∀ m e l, 0 < m → -1074 <= e →
    let '(r, e') := shr_fexp fprec femax m e l in 0 < shr_m r ∧ -1074 <= e') as H.
  { clear. intros m e l Hm He. pose proof (shr_fexp_spec m e l ltac:(lia)) as S.
    destruct (shr_fexp _ _ _ _ _) as [r e']. destruct S as (_ & E & ->).
    destruct (digits_bounds m Hm) as [Hd Hd1]. unfold fexp, emin, fprec, femax in E. split; [|lia].
    apply Z.div_str_pos. split; [apply Z.pow_pos_nonneg; lia|].
    pose proof (Z.pow_le_mono_r 2 (e' - e) (Zdigits2 m - 1)). lia. }
  pose proof (H m e l Hm He) as H1. destruct (shr_fexp _ _ _ _ _) as [r1 e1]. destruct H1 as [H1 H1'].
  pose proof (round_nearest_even_bound (shr_m r1) (loc_of_shr_record r1) ltac:(lia)).
  pose proof (H (round_nearest_even (shr_m r1) (loc_of_shr_record r1)) e1 loc_Exact ltac:(lia) H1') as H2.
  destruct (shr_fexp _ _ _ _ _) as [r2 e2]. destruct H2 as [H2 _].
  destruct (shr_m r2); [lia| |lia]. by destruct (_ <=? _).
Qed.

(** The seconds between two samples are positive exactly if one is later. *)
Lemma total_seconds_positive a b : b < a → positive_float (total_seconds a b).
Proof.
  intros H. unfold total_seconds. destruct (a - b) as [|n|n] eqn:E; [lia| |lia].
  change (positive_float (of_ratio false (Zpos n) 1000000)). unfold of_ratio, SFdiv_core_binary.
  set (e' := Z.min _ _).
  assert (e' = Z.min (fexp fprec femax (Zdigits2 (Zpos n) - 20)) 0) as Ee
    by (unfold e'; f_equal; f_equal; cbn [Zdigits2]; change (Zpos (digits2_pos 1000000)) with 20; lia).
  assert (-1074 <= e' <= 0) as He' by (rewrite Ee; unfold fexp, emin, fprec, femax; lia).
  replace (0 - 0 - e') with (- e') by lia.
  assert (match - e' with Z0 => Zpos n | Zpos _ => Z.shiftl (Zpos n) (- e') | Zneg _ => 0 end
    = Zpos n * 2 ^ (- e')) as -> by (destruct (- e') eqn:E'; [lia|by rewrite Z.shiftl_mul_pow2|lia]).
  pose proof (Z_div_mod (Zpos n * 2 ^ (- e')) 1000000 ltac:(lia)) as D.
  destruct (Z.div_eucl _ _) as [q r]. destruct D as [D Hr].
  apply round_aux_positive; [|lia].
  destruct (digits_bounds (Zpos n) ltac:(lia)) as [Hd Hd1].
  assert (2 ^ 20 <= Zpos n * 2 ^ (- e')); [|lia].
  transitivity (2 ^ (Zdigits2 (Zpos n) - 1) * 2 ^ (- e')); [|nia].
  rewrite <- Z.pow_add_r by lia. apply Z.pow_le_mono_r; [lia|].
  rewrite Ee. unfold fexp, emin, fprec, femax. lia.
Qed.

Lemma round_aux_negative m e l :
  0 <= m → fle (binary_round_aux fprec femax true m e l) (of_Z 0) = true.
Proof.
  intros Hm. unfold binary_round_aux.
  pose proof (shr_fexp_spec m e l Hm) as H1. destruct (shr_fexp _ _ _ _ _) as [r1 e1].
  pose proof (round_nearest_even_bound (shr_m r1) (loc_of_shr_record r1) ltac:(lia)).
  pose proof (shr_fexp_spec (round_nearest_even (shr_m r1) (loc_of_shr_record r1)) e1 loc_Exact ltac:(lia)) as H2.
  destruct (shr_fexp _ _ _ _ _) as [r2 e2]. destruct (shr_m r2); [done| |lia].
  by destruct (_ <=? _).
Qed.

Lemma total_seconds_le a b : fle (total_seconds a b) (of_Z 0) = bool_decide (a <= b).
Proof.
  destruct (Z.le_gt_cases a b) as [Hle|Hgt].
  - rewrite bool_decide_eq_true_2 by done. unfold total_seconds, truediv, int_truediv.
    destruct (Z.lt_ge_cases (a - b) 0) as [Hlt|]; [|by replace (a - b) with 0 by lia].
    rewrite (proj2 (Z.ltb_lt _ 0)) by done. unfold of_ratio.
    destruct (Z.abs (a - b)) as [|n|n] eqn:En; [lia| |lia]. unfold SFdiv_core_binary.
    set (e' := Z.min _ _). replace (0 - 0 - e') with (- e') by lia.
    match goal with |- context [Z.div_eucl ?x ?y] =>
      assert (0 <= x) as Hx by (destruct (- e'); [lia|by apply Z.shiftl_nonneg|lia]);
      pose proof (Z_div_mod x y ltac:(lia)) as D; destruct (Z.div_eucl x y) as [q r] end.
    apply round_aux_negative. nia.
  - rewrite bool_decide_eq_false_2 by lia. pose proof (total_seconds_positive a b Hgt) as Hp.
    destruct (total_seconds a b) as [|[|]| |[|] m e]; try done; by destruct Hp.
Qed.

(** ** Rates *)

Section rates.
Context {Row : Type} (at_ : Row → datetime) (boot : Row → option datetime).

(** Two samples allow a rate: time has passed and no counter reset lies between. *)
Definition comparable (cur prev : Row) : Prop :=
  at_ prev < at_ cur ∧ is_counter_reset (boot cur) (boot prev) = false.

(** [o] is the rate of the counter [ctr] over the rows, newest first: [scale] of its
increase and of the seconds between the two newest, when they allow one and the
counter was measured in both and has not gone back; and it is never negative. *)
Definition rate_of (scale : Z → float → float) (ctr : Row → option Z) (rows : list Row)
  (o : option float) : Prop :=
  (∀ x, o = Some x ↔ ∃ cur prev rest c p,
   rows = cur :: prev :: rest ∧ comparable cur prev ∧ ctr cur = Some c ∧ ctr prev = Some p
   ∧ p <= c ∧ x = py_round_nd 1 (scale (c - p) (total_seconds (at_ cur) (at_ prev))))
  ∧ ∀ x, o = Some x → flt x (of_Z 0) = false.

Definition per_second (d : Z) (dt : float) : float := fdiv (of_Z d) dt.
Definition kilobytes_per_second (d : Z) (dt : float) : float := fdiv (truediv d 1024) dt.

Lemma rate_of_intro scale ctr rows o :
  (∀ d dt, 0 <= d → positive_float dt → no_neg (scale d dt)) →
  o = (match rows with
     | cur :: prev :: _ =>
         let dt := total_seconds (at_ cur) (at_ prev) in
         if fle dt (of_Z 0) then None
         else if is_counter_reset (boot cur) (boot prev) then None
         else match ctr cur, ctr prev with
              | Some c, Some p =>
                  if c - p <? 0 then None else Some (py_round_nd 1 (scale (c - p) dt))
              | _, _ => None
              end
     | _ => None
     end) →
  rate_of scale ctr rows o.
Proof.
  intros Hs Eo.
  assert (∀ x, o = Some x ↔ ∃ cur prev rest c p,
   rows = cur :: prev :: rest ∧ comparable cur prev ∧ ctr cur = Some c ∧ ctr prev = Some p
   ∧ p <= c ∧ x = py_round_nd 1 (scale (c - p) (total_seconds (at_ cur) (at_ prev)))) as H.
  { intros x. rewrite Eo. unfold comparable. split.
  - destruct rows as [|cur [|prev rest]]; [done..|]. cbn zeta. rewrite total_seconds_le.
    case_bool_decide; [done|]. destruct (is_counter_reset _ _) eqn:Er; [done|].
    destruct (ctr cur) as [c|] eqn:Ec, (ctr prev) as [p|] eqn:Ep; try done.
    destruct (Z.ltb_spec (c - p) 0); [done|]. intros [= <-].
    exists cur, prev, rest, c, p. split_and!; (done || lia).
  - intros (cur & prev & rest & c & p & -> & [Ha Hr] & Ec & Ep & Hp & ->). cbn zeta.
    rewrite total_seconds_le, bool_decide_eq_false_2, Hr, Ec, Ep by lia.
    by rewrite (proj2 (Z.ltb_ge (c - p) 0)) by lia. }
  split; [exact H|]. intros x (cur & prev & rest & c & p & _ & [Ha _] & _ & _ & Hp & ->)%H.
  apply no_neg_flt, round_nd_no_neg, Hs; [lia|]. by apply total_seconds_positive.
Qed.
End rates.

Lemma per_second_no_neg d dt : 0 <= d → positive_float dt → no_neg (per_second d dt).
Proof. intros. apply fdiv_no_neg; [by apply of_Z_no_neg|done]. Qed.

Lemma kilobytes_no_neg d dt : 0 <= d → positive_float dt → no_neg (kilobytes_per_second d dt).
Proof. intros. apply fdiv_no_neg; [by apply truediv_no_neg|done]. Qed.

(** ** One snapshot per device *)

Definition str_le (a b : string) : Prop := String.compare a b ≠ Gt.

(** Known to the inventory, or no inventory at all *)
Definition known (names : option (gmap string string)) (id : string) : Prop :=
  match names with Some m => is_Some (m !! id) | None => True end.

Lemma known_device_elem {A} (id : A → string) names rows r :
  r ∈ known_device id names rows ↔ known names (id r) ∧ r ∈ rows.
Proof.
  unfold known_device, known. destruct names as [m|]; [by rewrite list_elem_of_filter|naive_solver].
Qed.

Lemma per_device_views {A B} (id : A → string) (snapshot : list A → A → B) names rows :
  ∃ ids,
    Sorted str_le ids ∧ NoDup ids
    ∧ (∀ k, k ∈ ids ↔ known names k ∧ ∃ r, r ∈ rows ∧ id r = k)
    ∧ Forall2 (λ k b, ∃ first rest, filter (λ r, id r = k) rows = first :: rest
                        ∧ b = snapshot (first :: rest) first)
        ids (per_device id snapshot (known_device id names rows)).
Proof.
  set (rs := known_device id names rows).
  set (g := sort_str fst (_group_by_dim id rs)).
  assert (g ≡ₚ _group_by_dim id rs) as Hg by apply sort_by_perm.
  exists (g.*1). split; [|split; [|split]].
  - assert (Sorted (λ x y : string * list A,
      match String.compare x.1 y.1 with Gt => false | _ => true end = true) g) as S.
    { apply sort_by_sorted. intros [x ?] [y ?]. cbn. rewrite (String.compare_antisym x y).
      destruct (String.compare y x); cbn; auto. }
    clear Hg. induction S as [|x l Hl IH Hh]; [constructor|]. cbn. constructor; [exact IH|].
    destruct Hh as [|y l' Hxy]; constructor. unfold str_le. by destruct (String.compare x.1 y.1).
  - rewrite Hg. apply group_by_dim_nodup.
  - intros k. rewrite Hg, list_elem_of_fmap. split.
    + intros ([k' l] & -> & H). apply group_by_dim_elem in H as [H _]. cbn.
      apply list_elem_of_fmap in H as (r & -> & Hr). apply known_device_elem in Hr as [??].
      split; [done|]. by exists r.
    + intros [Hk (r & Hr & <-)]. exists (id r, filter (λ r', id r' = id r) rs). split; [done|].
      apply group_by_dim_elem. split; [|done]. apply list_elem_of_fmap. exists r. split; [done|].
      by apply known_device_elem.
  - assert (∀ kv, kv ∈ g → ∃ first rest, kv.2 = first :: rest
      ∧ filter (λ r, id r = kv.1) rows = first :: rest) as Hv.
    { intros [k l] H. rewrite Hg in H. apply group_by_dim_elem in H as [Hk ->]. cbn.
      apply list_elem_of_fmap in Hk as (r & -> & Hr).
      assert (filter (λ r', id r' = id r) rs = filter (λ r', id r' = id r) rows) as <-.
      { unfold rs. apply known_device_elem in Hr as [Hk _]. destruct names as [m|]; [|done]. cbn in *.
        rewrite list_filter_filter. apply list_filter_iff. intros x. split; [by intros [??]|].
        intros E. split; [done|]. by rewrite E. }
      destruct (filter (λ r', id r' = id r) rs) as [|f l] eqn:E; [|by exists f, l].
      exfalso. eapply not_elem_of_nil. rewrite <- E. apply list_elem_of_filter. split; [reflexivity|exact Hr]. }
    unfold per_device. fold rs. fold g. clearbody g. clear Hg.
    induction g as [|[k l] g IH]; [constructor|]. cbn.
    destruct (Hv (k, l)) as (f & rest & El & Ef); [by left|]. cbn in El, Ef. subst l. constructor.
    + exists f, rest. by split.
    + apply IH. intros kv H. apply Hv. by right.
Qed.

(** ** The memory bar in tenths

    [Dashboard.compute_mem] computes in binary64; on the tenths it rounds to, the
    computation is one on integers. *)

(** [k] is the share of [bytes] in [limit], in tenths of a percent: within 0.501 of
    the exact one, zero when it is not measured. *)
Definition share (bytes : option Z) (limit k : Z) : Prop :=
  match bytes with
  | Some n => 0 <= k <= 1000 ∧ 1000 * Z.abs (k * limit - 1000 * n) <= 501 * limit
  | None => k = 0
  end.

(** What a part of the bar shows: [k] tenths, or nothing when it is not measured *)
Definition shown (bytes : option Z) (k : Z) : option float := (λ _, tenth k) <$> bytes.

Lemma usage_share bytes limit :
  0 < limit → (∀ n, bytes = Some n → 0 <= n <= limit) →
  ∃ k, usage_pct bytes (Some limit) = shown bytes k ∧ share bytes limit k ∧ 0 <= k <= 1000.
Proof.
  intros Hl Hb. destruct bytes as [n|]; [|by exists 0].
  destruct (Hb n eq_refl) as [H0 Hn]. cbn [usage_pct].
  rewrite (proj2 (Z.eqb_neq limit 0)) by lia. destruct limit as [|p|p]; [lia| |lia].
  destruct n as [|n|n]; [|change (truediv (Zpos n) (Zpos p)) with (of_ratio false (Zpos n) p)|lia].
  - exists 0. split; [done|]. cbn. lia.
  - destruct (percent_tenth n p ltac:(lia)) as (k & -> & Hk & E). by exists k.
Qed.

Lemma clip_shown bytes a room jr k :
  near a room jr → 0 <= a <= 50 → 0 <= jr <= 1000 → 0 <= k <= 1000 → (bytes = None → k = 0) →
  _clip_to_remaining (shown bytes k) room = shown bytes (Z.min k jr)
  ∧ default (of_Z 0) (shown bytes (Z.min k jr)) = tenth (Z.min k jr).
Proof.
  intros Hr Ha Hj Hk H0. destruct bytes as [n|]; cbn.
  - by rewrite (clip_tenths a room jr k).
  - rewrite (H0 eq_refl), Z.min_l by lia. done.
Qed.

Lemma take_tenth a room jr k :
  near a room jr → 0 <= a <= 50 → 0 <= k <= jr → jr <= 1000 → near (a + 2) (fsub room (tenth k)) (jr - k).
Proof.
  intros Hr Ha Hk Hj. replace (a + 2) with (a + 1 + 1) by lia.
  apply near_sub; [done|apply near_tenth| | |]; lia.
Qed.

(** The bytes in use, as the code derives them *)
Definition used_bytes_of (cur : MetricPairRaw) (limit : Z) : option Z :=
  (λ avail, Z.max 0 (limit - avail)) <$> Pair.mem_available_bytes cur.
