(* ===== verification/DashProps.v ===== *)
(** * The metric dashboard: its properties *)

From stdpp Require Import sorting.
From S2P Require Import Prelude PyFloat PyText IsoFacts PyList Sql BootTime Redis RightSizing Wire Handlers Devices MetricViews Dashboard Signals JsonCodec DashCache DashFacts FloatFacts.

(** ** Cache-aside reading *)

(** C40. The dashboard cache loses nothing and costs nothing but time. A read that
    misses the cache computes the dashboard from the repository's rows alone; when
    Redis accepts the write, the text it then holds is read back, by any later read
    that finds it, as the very same dashboard - every snapshot, signal, error and
    time - without asking the repository; and when Redis cannot be reached the read
    still answers with the same dashboard. *)
Theorem dashboard_cache_roundtrip {R} `{RedisLaws R} {Q} `{MetricRepo Q} dumps loads
  now server_id saturation (r : R) (q : Q) v r1 r' q'
  (G : redis_get (redis_key_cache_metrics server_id) r = (Ok None, r1))
  (E : latest_metric dumps loads now server_id saturation (r, q) = (Ok (Some v), (r', q')))
  (S : redis_set (redis_key_cache_metrics server_id) (dashboard_to_json dumps v)
         (Some redis_ttl_cache_metrics) r1 = (Ok tt, r'))
  (T : dashboard_times v)
  (J : loads (dumps (dashboard_dict v)) = Ok (dashboard_dict v))
  (N : dumps (dashboard_dict v) ≠ ""%string) :
  (∃ raw sat, metrics raw ≠ [] ∧ dashboard_with_signals raw sat = Ok v)
  ∧ (∀ now2 sat2 r2 q2 r3,
       view r2 !! redis_key_cache_metrics server_id = view r' !! redis_key_cache_metrics server_id →
       redis_get (redis_key_cache_metrics server_id) r2
         = (Ok (view r2 !! redis_key_cache_metrics server_id), r3) →
       latest_metric dumps loads now2 server_id sat2 (r2, q2) = (Ok (Some v), (r3, q2)))
  ∧ (∀ r2 r3, redis_get (redis_key_cache_metrics server_id) r2 = (Raise RedisError, r3) →
       fst (latest_metric dumps loads now server_id saturation (r2, q)) = Ok (Some v)).
Proof.
  assert (safe_get (redis_key_cache_metrics server_id) r = (Ok None, r1)) as Gs
    by (unfold safe_get, except_redis, try_except; by rewrite G).
  rewrite (latest_metric_miss dumps loads now server_id saturation r q None r1 Gs eq_refl) in E.
  destruct (computed now server_id saturation q) as [[[w|]|e] q1] eqn:C; try done.
  injection E as -> Er ->. split; [by eapply computed_some|]. split.
  - intros now2 sat2 r2 q2 r3 V2 G2. pose proof (set_ok _ _ _ _ _ S) as V.
    rewrite V2, V, lookup_insert_eq in G2.
    apply (latest_metric_hit dumps loads now2 server_id sat2 r2 q2 (dashboard_to_json dumps v) r3).
    + unfold safe_get, except_redis, try_except. by rewrite G2.
    + done.
    + unfold dashboard_from_json, dashboard_to_json. rewrite J. by apply dashboard_back.
  - intros r2 r3 G2.
    rewrite (latest_metric_miss dumps loads now server_id saturation r2 q None r3), C; try done.
    unfold safe_get, except_redis, try_except. by rewrite G2.
Qed.

(** A repository that always has one sample of one server *)
Definition one_pair : MetricPairRaw := {| Pair.collected_at := 1709251199000250;
    Pair.cpu_user_s := Some (of_Z 5); Pair.cpu_nice_s := None; Pair.cpu_system_s := Some (of_Z 1);
    Pair.cpu_idle_s := Some (of_Z 90); Pair.cpu_iowait_s := None; Pair.cpu_irq_s := None;
    Pair.cpu_softirq_s := None; Pair.cpu_steal_s := None; Pair.mem_limit_bytes := Some 3000;
    Pair.mem_free_bytes := Some 500; Pair.mem_available_bytes := Some 2000;
    Pair.mem_buffered_bytes := Some 700; Pair.mem_cached_bytes := Some 1000;
    Pair.mem_used_bytes := None; Pair.cpu_run_queue := Some (of_Z 9);
    Pair.cpu_logical_count := Some 4; Pair.cpu_blocked := None; Pair.boot_time := None;
    Pair.agent_started_at := None |}.

Definition one_sample : DashboardRaw := {|
  metrics := [one_pair]; raw_disk_io := []; raw_net_io := [];
  filesystems := [{| MountRow.mountpoint := "/"; MountRow.used_bytes := Some 32212254720;
    MountRow.free_bytes := Some 10737418240; MountRow.inodes_used := None; MountRow.inodes_free := None;
    MountRow.device_id := None; MountRow.fstype := Some "ext4"%string; MountRow.collected_at := None |}];
  raw_os_family := Some "linux"%string; raw_kernel_version := Some "5.14.0"%string;
  raw_block_devices := None; raw_net_interfaces := None; raw_cpu_cores := [] |}.

#[local] Instance sample_repo : MetricRepo unit := {
  latest_dashboard _ := mret (Some one_sample);
  latest_saturation _ _ := mret ∅;
}.

Definition sample_dashboard : MetricDashboard :=
  match dashboard_with_signals one_sample no_saturation with
  | Ok v => v
  | Raise _ => build_dashboard one_sample
  end.

Definition sample_dumps (_ : json) : string := "dashboard".
Definition sample_loads (_ : string) : result json := Ok (dashboard_dict sample_dashboard).

Definition empty_redis : MapRedis := {| mr_keys := ∅; mr_outages := [] |}.

Definition warm_redis : MapRedis :=
  {| mr_keys := {[ "cache:metrics:7"%string := "dashboard"%string ]}; mr_outages := [] |}.

Lemma dashboard_cache_roundtrip_witness :
  latest_metric sample_dumps sample_loads 99 7 None (warm_redis, tt)
  = (Ok (Some sample_dashboard), (warm_redis, tt)).
Proof.
  assert (redis_get (redis_key_cache_metrics 7) empty_redis = (Ok None, empty_redis)) as G
    by by vm_compute.
  assert (latest_metric sample_dumps sample_loads 0 7 None (empty_redis, tt)
    = (Ok (Some sample_dashboard), (warm_redis, tt))) as E by by vm_compute.
  assert (redis_set (redis_key_cache_metrics 7) (dashboard_to_json sample_dumps sample_dashboard)
    (Some redis_ttl_cache_metrics) empty_redis = (Ok tt, warm_redis)) as S by by vm_compute.
  assert (dashboard_times sample_dashboard) as T.
  { assert (errors sample_dashboard = []) as Er by (vm_compute; reflexivity).
    assert (dash_collected_at sample_dashboard = Some 1709251199000250) as Ec
      by (vm_compute; reflexivity).
    unfold dashboard_times. rewrite Er, Ec. clear. split.
    - intros t [= <-]. vm_compute. split; discriminate.
    - intros e t He. by apply not_elem_of_nil in He. }
  assert (sample_loads (sample_dumps (dashboard_dict sample_dashboard))
    = Ok (dashboard_dict sample_dashboard)) as J by done.
  assert (sample_dumps (dashboard_dict sample_dashboard) ≠ ""%string) as N by done.
  destruct (dashboard_cache_roundtrip sample_dumps sample_loads 0 7 None empty_redis tt
    sample_dashboard empty_redis warm_redis tt G E S T J N) as (_ & Hit & _).
  apply (Hit 99 None warm_redis tt warm_redis eq_refl). by vm_compute.
Defined.

(** ** Memory *)

(** C38. The memory bar is exactly full: whatever the sizes a host reports (cached and
    buffered at most the limit), the four sections shown are whole tenths of a
    percent, none negative, and sum to 1000 tenths although each is the result of
    binary64 divisions, subtractions and decimal roundings; the used section is the
    used share to within 0.501 tenths, and the cached and buffered sections are their
    shares cut to the room the sections before them leave. *)
Theorem memory_bar_full (cur : MetricPairRaw) limit
  (L : Pair.mem_limit_bytes cur = Some limit) (P : 0 < limit)
  (A : ∀ a, Pair.mem_available_bytes cur = Some a → 0 <= a)
  (C : ∀ c, Pair.mem_cached_bytes cur = Some c → 0 <= c <= limit)
  (B : ∀ b, Pair.mem_buffered_bytes cur = Some b → 0 <= b <= limit) :
  ∃ m u c b f c0 b0,
    compute_mem (Some cur) = Some m
    ∧ MemView.usage_pct m = shown (used_bytes_of cur limit) u
    ∧ MemView.cached_pct m = shown (Pair.mem_cached_bytes cur) c
    ∧ MemView.buffers_pct m = shown (Pair.mem_buffered_bytes cur) b
    ∧ MemView.free_pct m = Some (tenth f)
    ∧ u + c + b + f = 1000 ∧ 0 <= u ∧ 0 <= c ∧ 0 <= b ∧ 0 <= f
    ∧ share (used_bytes_of cur limit) limit u
    ∧ share (Pair.mem_cached_bytes cur) limit c0 ∧ c = Z.min c0 (1000 - u)
    ∧ share (Pair.mem_buffered_bytes cur) limit b0 ∧ b = Z.min b0 (1000 - u - c).
Proof.
  destruct (usage_share (used_bytes_of cur limit) limit P) as (u & Eu & Su & Ru).
  { intros n. unfold used_bytes_of. destruct (Pair.mem_available_bytes cur) as [a|]; [|done].
    intros [= <-]. specialize (A a eq_refl). lia. }
  destruct (usage_share _ limit P C) as (c0 & Ec & Sc & Rc).
  destruct (usage_share _ limit P B) as (b0 & Eb & Sb & Rb).
  assert (default (of_Z 0) (shown (used_bytes_of cur limit) u) = tenth u) as Du.
  { unfold shown, share in *. destruct (used_bytes_of cur limit); [done|]. by rewrite Su. }
  assert (near 3 (fsub (of_Z 100) (tenth u)) (1000 - u)) as Nu.
  { assert (of_Z 100 = tenth 1000) as -> by by vm_compute.
    apply (take_tenth 1); [apply near_tenth| | |]; lia. }
  destruct (clip_shown (Pair.mem_cached_bytes cur) 3 _ (1000 - u) c0 Nu) as [Ec' Dc]; [lia..| |].
  { intros E. by rewrite E in Sc. }
  set (c := Z.min c0 (1000 - u)) in *.
  pose proof (take_tenth 3 _ (1000 - u) c Nu ltac:(lia) ltac:(lia) ltac:(lia)) as Nc.
  destruct (clip_shown (Pair.mem_buffered_bytes cur) (3 + 2) _ (1000 - u - c) b0 Nc) as [Eb' Db]; [lia..| |].
  { intros E. by rewrite E in Sb. }
  set (b := Z.min b0 (1000 - u - c)) in *.
  pose proof (take_tenth (3 + 2) _ (1000 - u - c) b Nc ltac:(lia) ltac:(lia) ltac:(lia)) as Nb.
  destruct (near_max _ _ _ Nb) as [Nf Pf]; [lia|].
  pose proof (round_near _ _ _ Nf Pf ltac:(lia) ltac:(lia)) as Ef.
  eexists _, u, c, b, (1000 - u - c - b), c0, b0. unfold compute_mem. rewrite L.
  split; [reflexivity|]. cbn [MemView.usage_pct MemView.cached_pct MemView.buffers_pct MemView.free_pct].
  change ((λ avail : Z, Z.max 0 (limit - avail)) <$> Pair.mem_available_bytes cur) with (used_bytes_of cur limit).
  rewrite Eu, Du, Ec, Ec', Dc, Eb, Eb', Db, Ef.
  split_and!; (done || lia).
Qed.

(** 3000 bytes, a third used, with more cached and buffered than is left *)
Lemma memory_bar_full_witness :
  ∃ m u c b f, compute_mem (Some one_pair) = Some m
    ∧ MemView.usage_pct m = Some (tenth u) ∧ MemView.cached_pct m = Some (tenth c)
    ∧ MemView.buffers_pct m = Some (tenth b) ∧ MemView.free_pct m = Some (tenth f)
    ∧ u + c + b + f = 1000.
Proof.
  destruct (memory_bar_full one_pair 3000 eq_refl ltac:(lia) ltac:(by intros ? [= <-])
    ltac:(intros ? [= <-]; lia) ltac:(intros ? [= <-]; lia))
    as (m & u & c & b & f & c0 & b0 & Em & Eu & Ec & Eb & Ef & S & _).
  exists m, u, c, b, f. split; [exact Em|]. split; [exact Eu|]. split; [exact Ec|].
  split; [exact Eb|]. split; [exact Ef|exact S].
Defined.

(** ** Rates *)

(** What a snapshot shows of the device [id]: a name, and the rates of its counters *)
Definition disk_view (names : option (gmap string string)) (pairs : list DiskIoRaw) (id : string)
    (s : DiskIoSnapshot) : Prop :=
  let rate scale ctr rows := rate_of DiskRow.collected_at DiskRow.boot_time scale ctr rows in
  ∃ first rest, filter (λ r, DiskRow.device_id r = id) pairs = first :: rest
    ∧ DiskView.device s = display_name names id (DiskRow.device_name first)
    ∧ rate per_second DiskRow.ops_read (first :: rest) (DiskView.read_iops s)
    ∧ rate per_second DiskRow.ops_write (first :: rest) (DiskView.write_iops s)
    ∧ rate kilobytes_per_second DiskRow.io_read_bytes (first :: rest) (DiskView.read_kbps s)
    ∧ rate kilobytes_per_second DiskRow.io_write_bytes (first :: rest) (DiskView.write_kbps s).

Definition net_view (names : option (gmap string string)) (pairs : list NetIoRaw) (id : string)
    (s : NetIoSnapshot) : Prop :=
  let rate scale ctr rows := rate_of NetRow.collected_at NetRow.boot_time scale ctr rows in
  ∃ first rest, filter (λ r, NetRow.iface_id r = id) pairs = first :: rest
    ∧ NetView.interface s = display_name names id (NetRow.iface_name first)
    ∧ rate kilobytes_per_second NetRow.rx_bytes (first :: rest) (NetView.rx_kbps s)
    ∧ rate kilobytes_per_second NetRow.tx_bytes (first :: rest) (NetView.tx_kbps s)
    ∧ rate per_second NetRow.rx_packets (first :: rest) (NetView.rx_pps s)
    ∧ rate per_second NetRow.tx_packets (first :: rest) (NetView.tx_pps s).

(** One view per known device that has samples, in the order of the ids *)
Definition one_view_each {A B} (id : A → string) (names : option (gmap string string))
    (view : string → B → Prop) (rows : list A) (views : list B) : Prop :=
  ∃ ids, Sorted str_le ids ∧ NoDup ids
    ∧ (∀ k, k ∈ ids ↔ known names k ∧ ∃ r, r ∈ rows ∧ id r = k)
    ∧ Forall2 view ids views.

Lemma first_has_id {A} (id : A → string) k rows first rest :
  filter (λ r, id r = k) rows = first :: rest → id first = k.
Proof.
  intros E. assert (first ∈ filter (λ r, id r = k) rows) as H by (rewrite E; by left).
  by apply list_elem_of_filter in H as [H _].
Qed.

(** C39. The I/O panel shows each physical disk and interface once, and a rate only
    when two samples give one. There is exactly one snapshot for each device that has
    samples and that the inventory knows (each device at all when there is no
    inventory), in the order of the ids; and each of its rates is present if and only
    if time has passed between the two newest samples, no counter reset lies between
    them, the counter was measured in both and did not go back - in which case it is
    its increase over the seconds between them, to one decimal - and is never
    negative. *)
Theorem device_rates_correct (disks : list DiskIoRaw) (nets : list NetIoRaw)
  (names : option (gmap string string)) :
  one_view_each DiskRow.device_id names (disk_view names disks) disks (compute_disk_io disks names)
  ∧ one_view_each NetRow.iface_id names (net_view names nets) nets (compute_net_io nets names).
Proof.
  split.
  - destruct (per_device_views DiskRow.device_id (λ rows r, _disk_io_snapshot rows names r) names disks)
      as (ids & S & N & M & V). exists ids. split_and!; try done. eapply Forall2_impl; [exact V|]. cbn beta.
    intros k b (first & rest & E & ->). exists first, rest. split; [done|].
    rewrite <- (first_has_id _ _ _ _ _ E). unfold _disk_io_snapshot.
    destruct rest as [|prev rest]; [|destruct (fle _ _) eqn:F; [|destruct (is_counter_reset _ _) eqn:R]];
      split_and!; try done; apply rate_of_intro; auto using per_second_no_neg, kilobytes_no_neg;
      cbn zeta; by rewrite ?F, ?R.
  - destruct (per_device_views NetRow.iface_id (λ rows r, _net_io_snapshot rows names r) names nets)
      as (ids & S & N & M & V). exists ids. split_and!; try done. eapply Forall2_impl; [exact V|]. cbn beta.
    intros k b (first & rest & E & ->). exists first, rest. split; [done|].
    rewrite <- (first_has_id _ _ _ _ _ E). unfold _net_io_snapshot.
    destruct rest as [|prev rest]; [|destruct (fle _ _) eqn:F; [|destruct (is_counter_reset _ _) eqn:R]];
      split_and!; try done; apply rate_of_intro; auto using per_second_no_neg, kilobytes_no_neg;
      cbn zeta; by rewrite ?F, ?R.
Qed.
