(* ===== verification/TaskService.v ===== *)
(** * Issuing install tasks

    Models [src/assessment_engine/web/services/task_service.py].  The services the code
    calls - the read repository, the broker, the HTTP client, the package resolver, the
    clock - are interfaces over one external state [X]; the collect repository and its
    sessions are [CollectDb] and [Sql].  [hashlib.sha256] is a parameter. *)

From stdpp Require Import sorting.
From S2P Require Import Prelude PyText Redis Sql Inbound CollectDb DbRetry Handlers.

(** ** Settings *)

Definition _TASK_TYPE_INSTALL : string := "zconverter_install".
Definition _TASK_QUEUE_MAX_LEN : Z := 100.
Definition zdm_package_path : string := "/download/ZConverter_CloudSource_Setup_Linux.tar.gz".
Definition zdm_package_script : string := "zconverter_install_source/install.sh".
Definition zdm_package_path_windows : string := "/download/ZConverter_CloudSource_Setup_Windows.exe".
Definition redis_key_zdm_package_sha256 (host etag : string) : string :=
  str_join "" ["cache:zdm_package:sha256:"; host; ":"; etag]%string.
Definition redis_ttl_zdm_package_sha256 : Z := 21600.
Definition install_timeout_sec : Z := 600.
Definition install_task_deadline_sec : Z := 3600.
Definition rabbitmq_task_exchange : string := "assessment.tasks".
Definition agent_task_queue (agent_id : string) : string := String.append "agent.tasks." agent_id.
Definition task_install_routing_key (agent_id : string) : string := String.append "task.install." agent_id.
Definition AGENT_CONTRACT_VERSION : string := "1.0".

(** ** Interfaces *)

(** The fields of [ServerDetail] the service reads *)
Module Detail.
Record ServerDetail := {
  id : Z;
  agent_id : string;
  hostname : string;
  os_family : option string;
}.
End Detail.
Abbreviation ServerDetail := Detail.ServerDetail.

Class ServerQueries (X : Type) := {
  resolve_server_ids : list string → eff X (gmap string Z);
  get_servers : list Z → eff X (list ServerDetail);
}.

Class Clock (X : Type) := {
  now_utc : eff X datetime;
  uuid4 : eff X string;
}.

Record queue_arguments := {
  x_message_ttl : Z;
  x_max_length : Z;
  x_overflow : string;
}.

Record amqp_message := {
  body : json;
  persistent : bool;
  content_type : string;
  amqp_message_id : string;
}.

Class Broker (X : Type) := {
  get_exchange : string → eff X string;
  (** a durable queue *)
  declare_queue : string → queue_arguments → eff X unit;
  bind_queue : string → string → string → eff X unit;
  (** exchange, message, routing key *)
  publish : string → amqp_message → string → eff X unit;
}.

(** [httpx.HTTPError]: the name of its class, and its text *)
Record http_error := { he_type : string; he_text : string }.

Record head_response := {
  head_status : Z;
  content_length : option string;
  etag_header : option string;
  last_modified : option string;
}.

(** A streamed response: its status, the chunks received, and the error the stream
    broke with, if it did *)
Record get_response := {
  get_status : Z;
  chunks : list string;
  broken : option http_error;
}.

Class HttpClient (X : Type) := {
  http_head : string → eff X (http_error + head_response);
  http_get : string → eff X (http_error + get_response);
}.

(** ** The world of the service *)

Record service (X : Type) := Service {
  sv_ext : X;
  sv_db : session;
  sv_log : list (level * string);
}.
Arguments Service {X} _ _ _.
Arguments sv_ext {X} _.
Arguments sv_db {X} _.
Arguments sv_log {X} _.

Definition on_ext {X A} (m : eff X A) : eff (service X) A := λ w,
  let '(r, x) := m (sv_ext w) in (r, Service x (sv_db w) (sv_log w)).

Definition on_session {X A} (m : eff session A) : eff (service X) A := λ w,
  let '(r, s) := m (sv_db w) in (r, Service (sv_ext w) s (sv_log w)).

Definition slog {X} (l : level) (msg : string) : eff (service X) unit := λ w,
  (Ok tt, Service (sv_ext w) (sv_db w) (sv_log w ++ [(l, msg)])).

(** [async with session_factory() as session: body] *)
Definition in_session {X A} (body : eff (service X) A) : eff (service X) A := λ w,
  let fresh s := {| committed := committed s; current := committed s; script := script s |} in
  let '(r, w1) := body (Service (sv_ext w) (fresh (sv_db w)) (sv_log w)) in
  (r, Service (sv_ext w1) (fresh (sv_db w1)) (sv_log w1)).

(** ** [repr] of a string and of a list of strings *)

Definition backslash : ascii := Ascii.ascii_of_nat 92.
Definition double_quote : ascii := Ascii.ascii_of_nat 34.
Definition single_quote : ascii := Ascii.ascii_of_nat 39.

Fixpoint has_char (c : ascii) (s : string) : bool :=
  match s with
  | EmptyString => false
  | String d s' => Ascii.eqb c d || has_char c s'
  end.

Fixpoint repr_chars (quote : ascii) (s : string) : string :=
  match s with
  | EmptyString => ""
  | String c s' =>
      let n := nat_of_ascii c in
      let escaped :=
        if Ascii.eqb c quote || Ascii.eqb c backslash then String backslash (String c "")
        else if (n =? 9)%nat then String backslash "t"
        else if (n =? 10)%nat then String backslash "n"
        else if (n =? 13)%nat then String backslash "r"
        else if (n <? 32)%nat || (n =? 127)%nat
        then String backslash (String "x"%char (hex_text 2 (Z.of_nat n)))
        else String c "" in
      String.append escaped (repr_chars quote s')
  end.

(** A text of printable characters but for the ASCII controls *)
Definition py_repr (s : string) : string :=
  let quote := if has_char single_quote s && negb (has_char double_quote s)
               then double_quote else single_quote in
  String quote (String.append (repr_chars quote s) (String quote "")).

Definition repr_list (l : list string) : string :=
  str_join "" ["["; str_join ", " (py_repr <$> l); "]"]%string.

(** ** The package's digest *)

(** [int(s)] of a decimal text *)
Fixpoint dec_digits (acc : Z) (prev : bool) (s : string) : option Z :=
  match s with
  | EmptyString => if prev then Some acc else None
  | String c s' =>
      if Ascii.eqb c underscore
      then if prev then dec_digits acc false s' else None
      else match digit_value c with
           | Some d => dec_digits (10 * acc + d) true s'
           | None => None
           end
  end.

Definition parse_dec_int (s : string) : option Z :=
  match strip_chars is_space s with
  | String c s' =>
      if Ascii.eqb c "-" then Z.opp <$> dec_digits 0 false s'
      else if Ascii.eqb c "+" then dec_digits 0 false s'
      else dec_digits 0 false (String c s')
  | EmptyString => None
  end.

Class BaseZdmPackageResolver (X : Type) := {
  (** host, package path: the digest and the size, or [ZdmPackageMetaError] *)
  resolve : string → string → eff (service X) (string * Z);
}.

Section resolver.
Context {X : Type} `{RedisClient X} `{HttpClient X}.
Variable sha256_hex : string → string.

Definition http_failed {A} (what : string) (e : http_error) : eff (service X) A :=
  raise (ZdmPackageMetaError (str_join "" [what; " failed: "; he_type e; ": "; he_text e]%string)).

(** The size the HEAD response announces *)
Definition announced_size (resp : head_response) : result Z :=
  if negb (head_status resp =? 200)
  then Raise (ZdmPackageMetaError (String.append "HEAD status=" (pretty (head_status resp))))
  else match content_length resp with
       | None => Raise (ZdmPackageMetaError "HEAD missing Content-Length")
       | Some raw =>
           match parse_dec_int raw with
           | None => Raise (ZdmPackageMetaError (String.append "HEAD Content-Length not int: " (py_repr raw)))
           | Some n =>
               if n <=? 0
               then Raise (ZdmPackageMetaError (String.append "HEAD Content-Length non-positive: " (pretty n)))
               else Ok n
           end
       end.

(** The bytes of the streamed body *)
Definition streamed (url : string) : eff (service X) string :=
  got ← on_ext (http_get url);
  match got with
  | inl e => http_failed "GET" e
  | inr resp =>
      if negb (get_status resp =? 200)
      then raise (ZdmPackageMetaError (String.append "GET status=" (pretty (get_status resp))))
      else match broken resp with
           | Some e => http_failed "GET" e
           | None => mret (String.concat "" (chunks resp))
           end
  end.

Definition zdm_resolve (zdm_host package_path : string) : eff (service X) (string * Z) :=
  let url := str_join "" ["http://"; zdm_host; package_path]%string in
  head ← on_ext (http_head url);
  match head with
  | inl e => http_failed "HEAD" e
  | inr resp =>
      size_bytes ← lift (announced_size resp);
      let etag := str_or (etag_header resp) (str_or (last_modified resp) "") in
      let cache_key := if String.eqb etag "" then ""%string else redis_key_zdm_package_sha256 zdm_host etag in
      let use_cache := negb (String.eqb cache_key "") in
      cached ← (if use_cache then on_ext (safe_get cache_key) else mret None);
      if str_truthy cached
      then
        _ ← slog Info (str_join "" ["zdm package meta cache hit host="; zdm_host; " etag="; etag]%string);
        mret (str_or cached "", size_bytes)
      else
        data ← streamed url;
        let bytes_read := Z.of_nat (String.length data) in
        if negb (bytes_read =? size_bytes)
        then raise (ZdmPackageMetaError (str_join "" ["size mismatch: HEAD="; pretty size_bytes; " GET=";
                                                      pretty bytes_read; " — ZDM 측 정합성 깨짐"]%string))
        else
          let hex := sha256_hex data in
          _ ← slog Info (str_join "" ["zdm package meta computed host="; zdm_host; " etag="; etag;
                                      " sha256="; take_chars 16 hex; "... size="; pretty size_bytes]%string);
          _ ← (if use_cache
               then _ ← on_ext (safe_set cache_key hex (Some redis_ttl_zdm_package_sha256)); mret tt
               else mret tt);
          mret (hex, size_bytes)
  end.

#[export] Instance HttpZdmPackageResolver : BaseZdmPackageResolver X := { resolve := zdm_resolve }.
End resolver.

(** ** The address the operator types *)

Definition _extract_zdm_host (zdm_ip : string) : string :=
  let s := match drop_prefix_nocase "http://" zdm_ip with
           | Some r => r
           | None => match drop_prefix_nocase "https://" zdm_ip with Some r => r | None => zdm_ip end
           end in
  before_char "/" (strip_chars (λ c, Ascii.eqb c "/") s).

Definition _resolve_install_dispatch (os_family : string) : result (string * string * option string) :=
  if String.eqb os_family "linux" then Ok (zdm_package_path, "shell"%string, Some zdm_package_script)
  else if String.eqb os_family "windows" then Ok (zdm_package_path_windows, "direct_exec"%string, None)
  else Raise (TaskNotConfiguredError (String.append "unsupported os_family=" (py_repr os_family))).

(** ** Issuing *)

Record TaskCreated := {
  target_public_id : string;
  created_task_id : string;
  target_online : bool;
}.

Section issue.
Context {X : Type} `{RedisClient X} `{ServerQueries X} `{Clock X} `{Broker X}
  `{BaseZdmPackageResolver X}.

Definition _online_targets (server_ids : list Z) : eff (service X) (gmap Z bool) :=
  match server_ids with
  | [] => mret ∅
  | _ =>
      flags ← on_ext (safe_mget (redis_key_online <$> server_ids));
      mret (match flags with
            | None => list_to_map ((λ sid, (sid, true)) <$> server_ids)
            | Some fs => list_to_map (reverse (zip server_ids ((λ f, bool_decide (is_Some f)) <$> fs)))
            end)
  end.

Definition _ensure_machine_queue (agent_id : string) : eff (service X) unit :=
  let queue_name := agent_task_queue agent_id in
  _ ← on_ext (declare_queue queue_name
        {| x_message_ttl := install_task_deadline_sec * 1000; x_max_length := _TASK_QUEUE_MAX_LEN;
           x_overflow := "reject-publish" |});
  exchange ← on_ext (get_exchange rabbitmq_task_exchange);
  on_ext (bind_queue queue_name exchange (task_install_routing_key agent_id)).

(** [issued_at]: the ISO text with ["Z"] for ["+00:00"], which the text ends with *)
Definition zulu (t : datetime) : string := String.append (replace_empty "+00:00" (isoformat t)) "Z".

Definition install_payload (issued_at : datetime) (task_id agent_id zdm_host zdm_user sha256_hex : string)
    (size_bytes : Z) (package_path install_type : string) (install_script : option string) : json :=
  JObj [
    ("message_type", JStr "task.install"); ("schema_version", JStr AGENT_CONTRACT_VERSION);
    ("task_id", JStr task_id); ("agent_id", JStr agent_id); ("issued_at", JStr (zulu issued_at));
    ("download", JObj [("url", JStr (str_join "" ["http://"; zdm_host; package_path]));
                       ("sha256", JStr sha256_hex); ("size_bytes", JInt size_bytes)]);
    ("install", JObj [("type", JStr install_type);
                      ("script", match install_script with Some s => JStr s | None => JNull end);
                      ("args", JArr [JStr "-s"; JStr zdm_host; JStr "-u"; JStr zdm_user]);
                      ("timeout_sec", JInt install_timeout_sec)])]%string.

Definition _publish_install (exchange task_id agent_id zdm_host zdm_user sha256_hex : string)
    (size_bytes : Z) (package_path install_type : string) (install_script : option string)
    : eff (service X) unit :=
  issued_at ← on_ext now_utc;
  message_id ← on_ext uuid4;
  let payload := install_payload issued_at task_id agent_id zdm_host zdm_user sha256_hex size_bytes
                   package_path install_type install_script in
  on_ext (publish exchange
    {| body := payload; persistent := true; content_type := "application/json";
       amqp_message_id := message_id |}
    (task_install_routing_key agent_id)).

(** [dispatch_by_host] and [meta_by_path], over the details in the order of the dict *)
Fixpoint prepare (resolve_host : string) (details : list (Z * ServerDetail))
    (dispatch : gmap Z (string * string * option string)) (meta : gmap string (string * Z))
    : eff (service X) (gmap Z (string * string * option string) * gmap string (string * Z)) :=
  match details with
  | [] => mret (dispatch, meta)
  | (server_id, detail) :: details' =>
      d ← lift (_resolve_install_dispatch (str_or (Detail.os_family detail) "linux"));
      let package_path := d.1.1 in
      let dispatch := <[server_id := d]> dispatch in
      match meta !! package_path with
      | Some _ => prepare resolve_host details' dispatch meta
      | None =>
          m ← try_except (resolve resolve_host package_path)
                (λ e, match e with
                      | ZdmPackageMetaError msg =>
                          _ ← slog Error (str_join "" ["ZDM package meta fetch failed path="; package_path;
                                                       " err="; msg]%string);
                          raise (TaskNotConfiguredError
                            "ZDM 패키지 정보를 가져오지 못해 발행을 취소했습니다. ZDM 서버 연결을 확인하세요.")
                      | _ => raise e
                      end);
          prepare resolve_host details' dispatch (<[package_path := m]> meta)
      end
  end.

Definition broker_failure (e : exn) : bool :=
  match e with AMQPError | TimeoutError => true | _ => false end.

Definition integrity_failure (e : exn) : bool :=
  match e with DBAPIError d => bool_decide (dbe_class d = SaIntegrityError) | _ => false end.

Definition task_of (server_id : Z) (agent_id zdm_ip zdm_user : string) (deadline_at : datetime)
    : TaskDto.TaskCreate := {|
  TaskDto.target_server_id := server_id;
  TaskDto.target_agent_id := agent_id;
  TaskDto.task_type := _TASK_TYPE_INSTALL;
  TaskDto.params := Some (jobj [("zdm_ip", JStr zdm_ip); ("zdm_user", JStr zdm_user)]%string);
  TaskDto.deadline_at := Some deadline_at |}.

(** The transaction of one target: the row, the message, the commit *)
Definition issue_one (exchange zdm_ip zdm_user zdm_host public_id : string) (server_id : Z)
    (detail : ServerDetail) (deadline_at : datetime) (dispatch : string * string * option string)
    (meta : string * Z) : eff (service X) string :=
  let '(package_path, install_type, install_script) := dispatch in
  let '(sha256_hex, size_bytes) := meta in
  in_session (
    task_id ← try_except
      (on_session (create_task (task_of server_id (Detail.agent_id detail) zdm_ip zdm_user deadline_at)))
      (λ e,
        if integrity_failure e
        then
          _ ← slog Warning (str_join "" ["install race conflict server_id="; pretty server_id;
                                         " public_id="; public_id]%string);
          raise (TaskDuplicatePendingError (str_join "" ["발행 도중 다른 작업과 충돌했습니다: ";
            Detail.hostname detail; ". 잠시 후 다시 시도하세요."]%string))
        else raise e);
    _ ← try_except
      (_ ← _ensure_machine_queue (Detail.agent_id detail);
       _publish_install exchange task_id (Detail.agent_id detail) zdm_host zdm_user sha256_hex size_bytes
         package_path install_type install_script)
      (λ e,
        if broker_failure e
        then
          _ ← slog Error (str_join "" ["task.install publish failed server_id="; pretty server_id;
                                       " public_id="; public_id]%string);
          raise (TaskPublishFailedError (str_join "" ["작업 발행 중 broker 오류로 취소했습니다: ";
            Detail.hostname detail; ". 잠시 후 다시 시도하세요."]%string))
        else raise e);
    _ ← on_session commit;
    mret task_id).

Fixpoint issue_all (exchange zdm_ip zdm_user zdm_host : string) (sid_map : gmap string Z)
    (detail_by_id : gmap Z ServerDetail) (deadline_at : datetime) (online_by_id : gmap Z bool)
    (dispatch_by_host : gmap Z (string * string * option string)) (meta_by_path : gmap string (string * Z))
    (public_ids : list string) (created : list TaskCreated) : eff (service X) (list TaskCreated) :=
  match public_ids with
  | [] => mret created
  | public_id :: public_ids' =>
      server_id ← lift (match sid_map !! public_id with Some n => Ok n | None => Raise (KeyError public_id) end);
      match detail_by_id !! server_id with
      | None =>
          _ ← slog Warning (String.append "install server detail missing public_id=" public_id);
          raise (TaskNotFoundError "서버 정보를 불러오지 못해 발행을 취소했습니다.")
      | Some detail =>
          dispatch ← lift (match dispatch_by_host !! server_id with
                           | Some d => Ok d | None => Raise (KeyError (pretty server_id)) end);
          meta ← lift (match meta_by_path !! dispatch.1.1 with
                       | Some m => Ok m | None => Raise (KeyError dispatch.1.1) end);
          task_id ← issue_one exchange zdm_ip zdm_user zdm_host public_id server_id detail deadline_at
                      dispatch meta;
          _ ← slog Info (str_join "" ["task.install published task_id="; task_id; " agent_id=";
                                      Detail.agent_id detail; " target="; public_id]%string);
          issue_all exchange zdm_ip zdm_user zdm_host sid_map detail_by_id deadline_at online_by_id
            dispatch_by_host meta_by_path public_ids'
            (created ++ [{| target_public_id := public_id; created_task_id := task_id;
                            target_online := default true (online_by_id !! server_id) |}])
      end
  end.

(** The dict [{d.id: d for d in details}] and its items, in the order the ids are
  first seen with the detail last seen *)
Definition details_map (details : list ServerDetail) : gmap Z ServerDetail :=
  list_to_map (reverse ((λ d, (Detail.id d, d)) <$> details)).

Definition details_items (details : list ServerDetail) : list (Z * ServerDetail) :=
  omap (λ id, (λ d, (id, d)) <$> details_map details !! id) (dedup_first (Detail.id <$> details)).

(** [str.__lt__] sorting of host names *)
Definition busy_names (details : gmap Z ServerDetail) (busy : list Z) : list string :=
  merge_sort String.le (omap (λ sid, Detail.hostname <$> details !! sid) busy).

Definition create_install_tasks (target_public_ids : list string) (zdm_ip zdm_user : string)
    : eff (service X) (list TaskCreated) :=
  sid_map ← on_ext (resolve_server_ids target_public_ids);
  let missing := filter (λ pid, sid_map !! pid = None) target_public_ids in
  match missing with
  | _ :: _ =>
      _ ← slog Warning (String.append "install target not found public_ids=" (repr_list (take 5 missing)));
      raise (TaskNotFoundError
        "선택한 서버 중 일부를 찾을 수 없어 전체 발행을 취소했습니다 (이미 삭제됐을 수 있음).")
  | [] =>
      let server_ids := omap (λ pid, sid_map !! pid) target_public_ids in
      details ← on_ext (get_servers server_ids);
      let detail_by_id := details_map details in
      '(expired, busy_ids) ← in_session (
        expired ← on_session (expire_overdue_tasks server_ids);
        busy_ids ← on_session (find_pending_deadline_servers server_ids);
        _ ← on_session commit;
        mret (expired, busy_ids));
      _ ← (if expired =? 0 then mret tt
           else slog Info (String.append "expired overdue tasks count=" (pretty expired)));
      match busy_ids with
      | _ :: _ =>
          raise (TaskDuplicatePendingError (String.append
            "이미 설치 작업이 진행 중인 서버가 있어 전체 발행을 취소했습니다: "
            (str_join ", " (busy_names detail_by_id busy_ids))))
      | [] =>
          now ← on_ext now_utc;
          let deadline_at := now + install_task_deadline_sec * 1000000 in
          online_by_id ← _online_targets server_ids;
          let zdm_host := _extract_zdm_host zdm_ip in
          '(dispatch_by_host, meta_by_path) ← prepare zdm_host (details_items details) ∅ ∅;
          exchange ← on_ext (get_exchange rabbitmq_task_exchange);
          issue_all exchange zdm_ip zdm_user zdm_host sid_map detail_by_id deadline_at online_by_id
            dispatch_by_host meta_by_path target_public_ids []
      end
  end.
End issue.
