(* ===== verification/IssueFacts.v ===== *)
(** * A program logic for the task service

    [kept m]: whatever the database scripts and the services answer, a program keeps
    every pending install task of the database backed - it was there before, or the
    broker was handed a message that names it. *)

From S2P Require Import Prelude PyText Redis Sql SqlFacts Inbound CollectDb CollectFacts DbRetry Handlers Devices TaskService.

(** ** Backed tasks *)

(** A task and the agent it is for *)
Definition task_key (r : row) : sqlval * sqlval := (col r "public_id", col r "target_agent_id").

(** Every pending task is a task of [P]. *)
Definition task_backed (P : string * string → Prop) (d : db) : Prop :=
  ∀ r t, r ∈ tables d Task → is_pending r = true → task_key r = (VStr t.1, VStr t.2) → P t.

Lemma task_backed_mono (P P' : string * string → Prop) d :
  (∀ id, P id → P' id) → task_backed P d → task_backed P' d.
Proof. unfold task_backed. eauto. Qed.

(** The task a message installs, and the agent it names *)
Definition message_task (m : amqp_message) : option string := node_str "task_id" (body m).
Definition message_agent (m : amqp_message) : option string := node_str "agent_id" (body m).

(** A message for the task was sent to its agent's queue. *)
Definition announced (l : list (string * amqp_message * string)) (t : string * string) : Prop :=
  ∃ exchange m, (exchange, m, task_install_routing_key t.2) ∈ l
    ∧ message_task m = Some t.1 ∧ message_agent m = Some t.2.

Lemma announced_grows l l' id : l ⊆ l' → announced l id → announced l' id.
Proof. intros H (e & m & Hin & E). exists e, m. auto. Qed.

(** ** What the services do to the broker

    [sent] is what the broker accepted; only [publish] adds to it, and it adds the
    message when it returns. *)

Class BrokerLaws (X : Type) `{RedisClient X} `{ServerQueries X} `{Clock X} `{Broker X}
  `{BaseZdmPackageResolver X} := {
  sent : X → list (string * amqp_message * string);
  publish_sends e m k x x' : publish e m k x = (Ok tt, x') → (e, m, k) ∈ sent x';
  publish_keeps e m k x : sent x ⊆ sent (snd (publish e m k x));
  declare_sent n a x : sent (snd (declare_queue n a x)) = sent x;
  bind_sent n e k x : sent (snd (bind_queue n e k x)) = sent x;
  exchange_sent n x : sent (snd (get_exchange n x)) = sent x;
  now_sent x : sent (snd (now_utc x)) = sent x;
  uuid_sent x : sent (snd (uuid4 x)) = sent x;
  ids_sent l x : sent (snd (resolve_server_ids l x)) = sent x;
  servers_sent l x : sent (snd (get_servers l x)) = sent x;
  mget_sent l x : sent (snd (redis_mget l x)) = sent x;
  resolve_sent h p w : sent (sv_ext (snd (resolve h p w))) = sent (sv_ext w);
  resolve_db h p w : sv_db (snd (resolve h p w)) = sv_db w;
}.

Section kept.
Context {X : Type} `{BrokerLaws X}.
(** the tasks that were there, or that others put there *)
Variable old : string * string → Prop.

Definition known_task (x : X) (id : string * string) : Prop := old id ∨ announced (sent x) id.

(** Other transactions add no pending task but those of [old]. *)
Definition others_ok (s : session) : Prop :=
  Forall (λ st, ∀ (P : string * string → Prop) d, (∀ id, old id → P id) →
            task_backed P d → task_backed P (st_others st d)) (script s).

(** [said]: tasks that were announced; [extra]: the pending tasks the session wrote and
    nothing announces yet *)
Record backed_service (said : list (string * string)) (extra : string * string → Prop) (w : service X) : Prop := {
  bs_committed : task_backed (known_task (sv_ext w)) (committed (sv_db w));
  bs_current : task_backed (λ id, known_task (sv_ext w) id ∨ extra id) (current (sv_db w));
  bs_others : others_ok (sv_db w);
  bs_said : Forall (announced (sent (sv_ext w))) said;
}.

Definition nothing (_ : string * string) : Prop := False.

Definition kept (extra : string * string → Prop) {A} (m : eff (service X) A) : Prop :=
  ∀ said w, backed_service said extra w → backed_service said extra (snd (m w)).

Lemma known_grows x x' : sent x ⊆ sent x' → ∀ id, known_task x id → known_task x' id.
Proof. intros S id [?|?]; [by left|right; by eapply announced_grows]. Qed.

Lemma backed_settled said w :
  backed_service said nothing w ↔ task_backed (known_task (sv_ext w)) (committed (sv_db w))
    ∧ task_backed (known_task (sv_ext w)) (current (sv_db w)) ∧ others_ok (sv_db w)
      ∧ Forall (announced (sent (sv_ext w))) said.
Proof.
  split.
  - intros [Hc Hv Ho Hs]. repeat split; [done| |done..]. eapply task_backed_mono; [|exact Hv]. by intros id [?|[]].
  - intros (Hc & Hv & Ho & Hs). split; [done| |done..]. eapply task_backed_mono; [|exact Hv]. by left.
Qed.

Section extra.
Variable extra : string * string → Prop.
Abbreviation kept := (kept extra).

Lemma kept_ret {A} (a : A) : kept (mret a).
Proof. by intros said w W. Qed.
Lemma kept_raise {A} e : kept (raise (A := A) e).
Proof. by intros said w W. Qed.
Lemma kept_lift {A} (r : result A) : kept (lift r).
Proof. by intros said w W. Qed.
Lemma kept_slog l msg : kept (slog l msg).
Proof. by intros said w [? ? ? ?]. Qed.

Lemma kept_bind {A B} (m : eff (service X) A) (k : A → eff (service X) B) :
  kept m → (∀ a, kept (k a)) → kept (x ← m; k x).
Proof.
  intros Hm Hk said w W. unfold mbind, eff_bind. specialize (Hm said w W).
  destruct (m w) as [[a|e] w1]; [by apply Hk|done].
Qed.

Lemma kept_try {A} (m : eff (service X) A) (h : exn → eff (service X) A) :
  kept m → (∀ e, kept (h e)) → kept (try_except m h).
Proof.
  intros Hm Hh said w W. unfold try_except. specialize (Hm said w W).
  destruct (m w) as [[a|e] w1]; [done|by apply Hh].
Qed.

Lemma kept_ext {A} (m : eff X A) : (∀ x, sent x ⊆ sent (snd (m x))) → kept (on_ext m).
Proof.
  intros Hm said w [Hc Hv Ho Hs]. unfold on_ext. specialize (Hm (sv_ext w)). destruct (m (sv_ext w)) as [r x].
  cbn in *. pose proof (known_grows _ _ Hm).
  split; cbn; [by eapply task_backed_mono|eapply task_backed_mono; [|exact Hv]|done|].
  - intros id [?|?]; auto.
  - eapply Forall_impl; [exact Hs|]. intros id. by apply announced_grows.
Qed.

Lemma kept_quiet {A} (m : eff X A) : (∀ x, sent (snd (m x)) = sent x) → kept (on_ext m).
Proof. intros Hm. apply kept_ext. intros x. by rewrite Hm. Qed.

Lemma kept_resolve h p : kept (resolve h p).
Proof.
  intros said w [Hc Hv Ho Hs]. pose proof (resolve_sent h p w) as E. pose proof (resolve_db h p w) as D.
  assert (∀ id, known_task (sv_ext w) id → known_task (sv_ext (snd (resolve h p w))) id) as K.
  { apply known_grows. by rewrite E. }
  split; rewrite ?D, ?E; [by eapply task_backed_mono|eapply task_backed_mono; [|done]|done..].
  intros id [?|?]; auto.
Qed.
End extra.

(** A session program that keeps every backing keeps ours. *)
Lemma kept_session {A} (m : eff session A) :
  (∀ P : string * string → Prop, keeps (task_backed P) m) → (∀ s, others_ok s → others_ok (snd (m s))) →
  kept nothing (on_session m).
Proof.
  intros Hm Hs said w (Hc & Hv & Ho & Hsaid)%backed_settled. apply backed_settled. unfold on_session.
  assert (inv_session (task_backed (known_task (sv_ext w))) (sv_db w)) as I.
  { split; [done..|]. eapply Forall_impl; [exact Ho|]. intros st Hst d. apply Hst. by left. }
  specialize (Hm _ _ I). specialize (Hs _ Ho). destruct (m (sv_db w)) as [r s]. cbn in *.
  by destruct Hm.
Qed.

Lemma kept_session_ret {A} (a : A) extra : kept extra (on_session (mret a)).
Proof. intros said [x s l] W. exact W. Qed.

Lemma backed_forget said id extra w : backed_service (id :: said) extra w → backed_service said extra w.
Proof. intros [? ? ? [_ ?]%Forall_cons]. by split. Qed.

Lemma others_tail s : others_ok s →
  Forall (λ st, ∀ (P : string * string → Prop) d, (∀ id, old id → P id) →
            task_backed P d → task_backed P (st_others st d)) (tail (script s)).
Proof. unfold others_ok. destruct (script s); [done|]. by intros [_ ?]%Forall_cons. Qed.

Lemma others_head s (P : string * string → Prop) d : others_ok s → (∀ id, old id → P id) →
  task_backed P d → task_backed P (st_others (default quiet (head (script s))) d).
Proof.
  unfold others_ok. destruct (script s) as [|st l]; cbn; [done|].
  intros [Hst _]%Forall_cons Hp. by apply Hst.
Qed.

Lemma others_execute {A} (q : stmt A) s : others_ok s → others_ok (snd (execute q s)).
Proof.
  intros Ho%others_tail. unfold execute. destruct (st_fault _); [done|].
  by destruct (q _) as [[a d]|e].
Qed.

Lemma others_commit s : others_ok s → others_ok (snd (commit s)).
Proof. intros Ho%others_tail. unfold commit. by destruct (st_fault _). Qed.

Lemma kept_execute {A} (q : stmt A) :
  (∀ P d a d', task_backed P d → q d = Ok (a, d') → task_backed P d') →
  kept nothing (on_session (execute q)).
Proof.
  intros Hq. apply kept_session; [|apply others_execute].
  intros P. apply keeps_execute. intros d a d'. apply Hq.
Qed.

Lemma kept_commit : kept nothing (on_session commit).
Proof. apply kept_session; [intros P; apply keeps_commit|apply others_commit]. Qed.

(** A block: what it commits is what counts. *)
Lemma kept_in_session {A} (m : eff (service X) A) extra said said' w :
  (∀ w, backed_service said nothing w → ∃ extra', backed_service said' extra' (snd (m w))) →
  backed_service said extra w → backed_service said' nothing (snd (in_session m w)).
Proof.
  intros Hm [Hc Hv Ho Hs]. unfold in_session.
  set (w0 := Service _ _ _).
  assert (backed_service said nothing w0) as W0 by by apply backed_settled.
  destruct (Hm w0 W0) as [extra' [Hc' _ Ho' Hs']]. destruct (m w0) as [r w1]. by apply backed_settled.
Qed.

Lemma kept_block {A} (m : eff (service X) A) : kept nothing m → kept nothing (in_session m).
Proof. intros Hm said w. apply kept_in_session. eauto. Qed.
End kept.

(** ** The package resolver

    What no client changes, [HttpZdmPackageResolver] leaves alone: what a broker that
    the clients do not reach was sent, and the session. *)

Section resolver.
Context {X T : Type} `{RedisClient X} `{HttpClient X}.
Variable sha256_hex : string → string.
Variable f : X → T.
Hypothesis head_frame : ∀ u x, f (snd (http_head u x)) = f x.
Hypothesis get_frame : ∀ u x, f (snd (http_get u x)) = f x.
Hypothesis redis_get_frame : ∀ k x, f (snd (redis_get k x)) = f x.
Hypothesis redis_set_frame : ∀ k v ex x, f (snd (redis_set k v ex x)) = f x.

Definition framed {A} (m : eff (service X) A) : Prop :=
  ∀ w, f (sv_ext (snd (m w))) = f (sv_ext w) ∧ sv_db (snd (m w)) = sv_db w.

Lemma framed_ret {A} (a : A) : framed (mret a).
Proof. done. Qed.
Lemma framed_raise {A} e : framed (raise (A := A) e).
Proof. done. Qed.
Lemma framed_lift {A} (r : result A) : framed (lift r).
Proof. done. Qed.
Lemma framed_slog l msg : framed (slog l msg).
Proof. done. Qed.

Lemma framed_ext {A} (m : eff X A) : (∀ x, f (snd (m x)) = f x) → framed (on_ext m).
Proof. intros Hm w. unfold on_ext. specialize (Hm (sv_ext w)). by destruct (m (sv_ext w)). Qed.

Lemma framed_bind {A B} (m : eff (service X) A) (k : A → eff (service X) B) :
  framed m → (∀ a, framed (k a)) → framed (x ← m; k x).
Proof.
  intros Hm Hk w. unfold mbind, eff_bind. specialize (Hm w). destruct (m w) as [[a|e] w1]; [|done].
  destruct (Hk a w1) as [-> ->]. exact Hm.
Qed.

Lemma framed_get k : framed (on_ext (safe_get k)).
Proof.
  apply framed_ext. intros x. pose proof (redis_get_frame k x) as E.
  unfold safe_get, except_redis, try_except. by destruct (redis_get k x) as [[a|[]] x'].
Qed.

Lemma framed_set k v ex : framed (on_ext (safe_set k v ex)).
Proof.
  apply framed_ext. intros x. pose proof (redis_set_frame k v ex x) as E.
  unfold safe_set, except_redis, try_except, mbind, eff_bind.
  by destruct (redis_set k v ex x) as [[a|[]] x'].
Qed.

#[local] Hint Resolve framed_ret framed_raise framed_lift framed_slog framed_get framed_set : framed.

Lemma framed_streamed url : framed (streamed url).
Proof.
  unfold streamed. apply framed_bind; [by apply framed_ext|]. intros [e|resp]; [done|].
  destruct (negb _); [done|]. by destruct (broken resp).
Qed.

Lemma framed_resolve host path : framed (zdm_resolve sha256_hex host path).
Proof.
  unfold zdm_resolve. apply framed_bind; [by apply framed_ext|]. intros [e|resp]; [done|].
  apply framed_bind; [auto with framed|intros size]. cbv zeta.
  apply framed_bind; [destruct (negb _); auto with framed|intros cached].
  destruct (str_truthy cached); [by apply framed_bind|].
  apply framed_bind; [apply framed_streamed|intros data]. destruct (negb (_ =? size)); [done|].
  apply framed_bind; [auto with framed|intros _]. apply framed_bind; [|done].
  destruct (negb _); [|done]. apply framed_bind; auto with framed.
Qed.
End resolver.
