(* ===== verification/IssueProps.v ===== *)
(** * Issuing install tasks: the properties

    A pending install task is never left without its message: the row is committed only
    after the broker took the message that names it. *)

From S2P Require Import Prelude PyText Redis Sql SqlFacts Inbound CollectDb CollectFacts DbRetry Handlers Devices TaskService IssueFacts.

(** ** The statements *)

Lemma expire_backed cond (P : string * string → Prop) d n d' :
  (∀ d r, cond d r = true → is_pending r = true) →
  task_backed P d → update_where Task cond timeout_values d = Ok (n, d') → task_backed P d'.
Proof.
  intros Hc HP [= _ <-] r id. rewrite tables_set_same. intros (x & -> & Hx)%list_elem_of_fmap.
  destruct (cond d x); [|by apply HP]. unfold is_pending, timeout_values.
  by rewrite (col_union_some _ _ "status" (VStr "failure")).
Qed.

Lemma insert_task_backed (P : string * string → Prop) r agent d id d' :
  r !! "public_id"%string = None → r !! "target_agent_id"%string = Some (VStr agent) →
  task_backed P d → insert_task r d = Ok (id, d') → task_backed (λ x, P x ∨ (id, agent) = x) d'.
Proof.
  intros Hr Ha HP. unfold insert_task, under_index. destruct (negb _); [done|].
  cbn [mbind result_bind]. destruct (pending_unique _); [|done]. intros [= <- <-] x [pid ag].
  cbn [tables]. rewrite tables_set_same. intros [Hx|Hx]%elem_of_app.
  - intros Hp Hc. left. by eapply HP.
  - apply list_elem_of_singleton in Hx as ->. intros _. unfold task_key.
    replace (col _ "public_id") with (VStr (pretty (next_id d))) by
      (symmetry; unfold col; rewrite <-(assoc_L (∪)), lookup_union_r by done; by vm_compute).
    rewrite <-(assoc_L (∪)), (col_union_some r _ _ _ Ha). intros [= -> ->]. by right.
Qed.

Section issue_backed.
Context {X : Type} `{BrokerLaws X}.
Variable old : string * string → Prop.

Abbreviation backed := (backed_service (X := X) old).
Abbreviation kept := (kept (X := X) old).

Lemma kept_expire ids : kept nothing (on_session (expire_overdue_tasks ids)).
Proof.
  unfold expire_overdue_tasks. destruct ids; [apply kept_session_ret|].
  apply kept_execute. intros P d a d'. apply expire_backed. clear.
  intros d r [_ [? _]%andb_true_iff]%andb_true_iff. done.
Qed.

Lemma kept_find_pending ids : kept nothing (on_session (find_pending_deadline_servers ids)).
Proof.
  unfold find_pending_deadline_servers.
  destruct ids; [apply kept_session_ret|].
  apply kept_execute. by intros P d a d' HP [= _ <-].
Qed.

(** The row of a new task waits for its message. *)
Lemma create_backed said data w : backed said nothing w →
  match on_session (create_task data) w with
  | (Ok id, w') => backed said (λ x, (id, TaskDto.target_agent_id data) = x) w'
  | (Raise _, w') => backed said nothing w'
  end.
Proof.
  intros (Hc & Hv & Ho & Hs)%backed_settled. unfold on_session, create_task, execute.
  set (st := default quiet (head (script (sv_db w)))).
  pose proof (others_tail _ _ Ho) as Ht.
  assert (∀ d, task_backed (known_task old (sv_ext w)) d →
               task_backed (known_task old (sv_ext w)) (st_others st d)) as Hst.
  { intros d. apply others_head with (old := old); [done|]. by left. }
  destruct (st_fault st); [by apply backed_settled; repeat split; cbn; auto|].
  cbn [current committed]. destruct (insert_task _ _) as [[id d']|e] eqn:E.
  - split; cbn; [auto| |done..]. eapply insert_task_backed; [| |by apply Hst|exact E]; done.
  - apply backed_settled; repeat split; cbn; auto.
Qed.

(** ** The message *)

Lemma kept_ensure extra agent : kept extra (_ensure_machine_queue agent).
Proof.
  unfold _ensure_machine_queue.
  apply kept_bind; [apply kept_quiet; intros; apply declare_sent|intros _].
  apply kept_bind; [apply kept_quiet; intros; apply exchange_sent|intros ?].
  apply kept_quiet; intros; apply bind_sent.
Qed.

Lemma kept_publish_install extra exchange id agent host user sha n path ty script :
  kept extra (_publish_install exchange id agent host user sha n path ty script).
Proof.
  unfold _publish_install.
  apply kept_bind; [apply kept_quiet; intros; apply now_sent|intros ?].
  apply kept_bind; [apply kept_quiet; intros; apply uuid_sent|intros ?].
  apply kept_ext; intros; apply publish_keeps.
Qed.

(** A publish that returns announced its task. *)
Lemma publish_announces exchange id agent host user sha n path ty script (w w' : service X) :
  _publish_install exchange id agent host user sha n path ty script w = (Ok tt, w') →
  announced (sent (sv_ext w')) (id, agent).
Proof.
  unfold _publish_install, mbind, eff_bind, on_ext.
  destruct (now_utc (sv_ext w)) as [[t|e] x1]; [|done]. cbn.
  destruct (uuid4 x1) as [[u|e] x2]; [|done]. cbn.
  destruct (publish _ _ _ x2) as [r x3] eqn:E. intros [= -> <-]. cbn.
  eexists _, _. split; [by eapply publish_sends|done].
Qed.

(** ** One target *)

Lemma publish_settles said id extra w :
  (∀ x, extra x → id = x) → announced (sent (sv_ext w)) id → backed said extra w →
  backed (id :: said) nothing w.
Proof.
  intros He Ha [Hc Hv Ho Hs]. split; [done| |done|by constructor].
  eapply task_backed_mono; [|exact Hv]. intros x [?|Hx]; [by left|].
  left. right. by rewrite <-(He x Hx).
Qed.

(** What a program that answers with a task promises *)
Definition settles agent (said : list (string * string)) (r : result string * service X) : Prop :=
  match r with
  | (Ok id, w') => ∃ extra, backed ((id, agent) :: said) extra w'
  | (Raise _, w') => ∃ extra, backed said extra w'
  end.

(** The message, then the commit *)
Lemma publish_step said id agent (pub : eff (service X) unit) w :
  kept (λ x, (id, agent) = x) pub →
  (∀ w', pub w = (Ok tt, w') → announced (sent (sv_ext w')) (id, agent)) →
  backed said (λ x, (id, agent) = x) w → settles agent said ((_ ← pub; _ ← on_session commit; mret id) w).
Proof.
  intros Kp Ka W. specialize (Kp said w W). unfold mbind, eff_bind, settles.
  destruct (pub w) as [[[]|e] w2]; [|by eexists].
  eapply publish_settles in Kp; [|by intros x Hx; exact Hx|by apply Ka].
  apply kept_commit in Kp. cbn [snd] in Kp.
  destruct (on_session commit w2) as [[[]|e] w3]; [by eexists|].
  eexists. by eapply backed_forget.
Qed.

Lemma in_session_settles agent said (m : eff (service X) string) w :
  (∀ w, backed said nothing w → settles agent said (m w)) → backed said nothing w →
  match in_session m w with
  | (Ok id, w') => backed ((id, agent) :: said) nothing w'
  | (Raise _, w') => backed said nothing w'
  end.
Proof.
  intros Hm W. pose proof W as (Hc & Hv & Ho & Hs)%backed_settled. unfold in_session.
  set (w0 := Service _ _ _).
  assert (backed said nothing w0) as W0 by by apply backed_settled.
  specialize (Hm w0 W0). unfold settles in Hm.
  destruct (m w0) as [[id|e] w1], Hm as [extra [Hc' _ Ho' Hs']]; by apply backed_settled.
Qed.

(** One target keeps the store backed, and its task is announced when it returns. *)
Lemma issue_one_backed said exchange ip user host pid sid detail deadline dispatch meta w :
  backed said nothing w →
  match issue_one exchange ip user host pid sid detail deadline dispatch meta w with
  | (Ok id, w') => backed ((id, Detail.agent_id detail) :: said) nothing w'
  | (Raise _, w') => backed said nothing w'
  end.
Proof.
  unfold issue_one. destruct dispatch as [[path ty] script], meta as [sha n].
  apply in_session_settles. clear w. intros w W. unfold mbind at 1, eff_bind at 1.
  unfold try_except at 1.
  pose proof (create_backed _ (task_of sid (Detail.agent_id detail) ip user deadline) w W) as C.
  destruct (on_session _ w) as [[id|e] w1].
  - apply publish_step; [| |exact C].
    + apply kept_try; [apply kept_bind; [apply kept_ensure|intros _; apply kept_publish_install]|].
      intros e. destruct (broker_failure e); [|apply kept_raise].
      apply kept_bind; [apply kept_slog|intros _; apply kept_raise].
    + unfold try_except, mbind, eff_bind. intros w2.
      destruct (_ensure_machine_queue _ w1) as [[[]|e] w3]; [|by destruct (broker_failure e)].
      destruct (_publish_install _ _ _ _ _ _ _ _ _ _ w3) as [[[]|e] w4] eqn:P;
        [|by destruct (broker_failure e)].
      intros [= <-]. by eapply publish_announces.
  - unfold settles. destruct (integrity_failure e); [|by eexists].
    unfold mbind, eff_bind. exists nothing. by apply (kept_slog _ nothing).
Qed.

(** ** All the targets *)

Lemma issue_all_backed said exchange ip user host sids details deadline online disp meta pids created w :
  backed said nothing w → (∀ c, c ∈ created → ∃ agent, (created_task_id c, agent) ∈ said) →
  ∃ said', match issue_all exchange ip user host sids details deadline online disp meta pids created w with
  | (Ok l, w') => backed said' nothing w' ∧ target_public_id <$> l = (target_public_id <$> created) ++ pids
      ∧ ∀ c, c ∈ l → ∃ agent, (created_task_id c, agent) ∈ said'
  | (Raise _, w') => backed said' nothing w'
  end.
Proof.
  revert said created w. induction pids as [|pid pids IH]; intros said created w W Hc.
  { exists said. cbn. by rewrite app_nil_r. }
  cbn [issue_all]. unfold mbind at 1, eff_bind at 1, lift.
  destruct (sids !! pid) as [sid|]; [|by exists said].
  destruct (details !! sid) as [detail|].
  2: { exists said. by apply (kept_slog _ nothing). }
  unfold mbind at 1, eff_bind at 1. destruct (disp !! sid) as [dispatch|]; [|by exists said].
  unfold mbind at 1, eff_bind at 1. destruct (meta !! dispatch.1.1) as [m|]; [|by exists said].
  unfold mbind at 1, eff_bind at 1.
  pose proof (issue_one_backed said exchange ip user host pid sid detail deadline dispatch m w W) as O.
  destruct (issue_one _ _ _ _ _ _ _ _ _ _ w) as [[id|e] w1]; [|by exists said].
  unfold mbind at 1, eff_bind at 1. eapply (kept_slog _ nothing) in O.
  unfold slog in *. cbn [snd] in O.
  match goal with |- ∃ _, match issue_all _ _ _ _ _ _ _ _ _ _ _ (_ ++ [?c]) ?w2 with _ => _ end =>
    destruct (IH ((id, Detail.agent_id detail) :: said) (created ++ [c]) w2 O) as [said' IH'] end.
  2: { exists said'. rewrite fmap_app, <-(assoc_L (++)) in IH'. exact IH'. }
  intros c [(agent & Hin)%Hc|Hin]%elem_of_app; [exists agent; by right|].
  apply list_elem_of_singleton in Hin as ->. exists (Detail.agent_id detail). by left.
Qed.

Lemma kept_prepare extra host details disp meta : kept extra (prepare host details disp meta).
Proof.
  revert disp meta. induction details as [|[sid detail] details IH]; intros disp meta; [apply kept_ret|].
  cbn [prepare]. apply kept_bind; [apply kept_lift|intros d]. destruct (meta !! _); [apply IH|].
  apply kept_bind; [|intros ?; apply IH]. apply kept_try; [apply kept_resolve|].
  intros []; try apply kept_raise. apply kept_bind; [apply kept_slog|intros _; apply kept_raise].
Qed.

Lemma kept_online extra ids : kept extra (_online_targets ids).
Proof.
  unfold _online_targets. destruct ids; [apply kept_ret|].
  apply kept_bind; [|intros ?; apply kept_ret]. apply kept_quiet. intros x.
  pose proof (mget_sent (redis_key_online <$> z :: ids) x) as E.
  unfold safe_mget, except_redis, try_except, mbind, eff_bind. cbn [fmap list_fmap] in *.
  destruct (redis_mget _ x) as [[l|[]] x']; exact E.
Qed.

(** ** The request *)

(** The store is backed at the end, and the answer satisfies [Q]. *)
Definition ends {A} (Q : A → list (string * string) → Prop) (r : result A * service X) : Prop :=
  ∃ said extra, backed said extra (snd r) ∧ ∀ a, fst r = Ok a → Q a said.

Lemma ends_bind {A B} Q said extra (m : eff (service X) A) (k : A → eff (service X) B) w :
  kept extra m → backed said extra w → (∀ a w', backed said extra w' → ends Q (k a w')) →
  ends Q ((x ← m; k x) w).
Proof.
  intros Hm W Hk. unfold mbind, eff_bind. specialize (Hm said w W).
  destruct (m w) as [[a|e] w1]; [by apply Hk|]. by exists said, extra.
Qed.

Lemma ends_raise {A} (Q : A → list (string * string) → Prop) said extra (m : eff (service X) A) w :
  kept extra m → backed said extra w → (∀ a, fst (m w) ≠ Ok a) → ends Q (m w).
Proof. intros Hm W Hn. exists said, extra. split; [by apply Hm|]. by intros a ?%Hn. Qed.

Lemma create_install_ends targets ip user w :
  backed [] (λ _, True) w →
  ends (λ l said, target_public_id <$> l = targets
                  ∧ ∀ c, c ∈ l → ∃ agent, (created_task_id c, agent) ∈ said)
    (create_install_tasks targets ip user w).
Proof.
  intros W. unfold create_install_tasks.
  apply (ends_bind _ [] (λ _, True)); [apply kept_quiet; intros; apply ids_sent|done|].
  clear w W. intros sids w W. cbv zeta. destruct (filter _ _) as [|x xs].
  2: { eapply ends_raise; [|exact W|done].
       apply kept_bind; [apply kept_slog|intros _; apply kept_raise]. }
  apply (ends_bind _ [] (λ _, True)); [apply kept_quiet; intros; apply servers_sent|done|].
  clear w W. intros details w W.
  set (server_ids := omap _ targets). unfold mbind at 1, eff_bind at 1.
  match goal with |- context[in_session ?m w] => set (body := m) end.
  assert (backed [] nothing (snd (in_session body w))) as W'.
  { apply (kept_in_session _ body (λ _, True) []); [|exact W]. intros w0 W0. exists nothing.
    refine (kept_bind _ nothing _ _ (kept_expire _) _ _ _ W0). intros ?.
    apply kept_bind; [apply kept_find_pending|intros ?].
    apply kept_bind; [apply kept_commit|intros ?]. apply kept_ret. }
  destruct (in_session body w) as [[[expired busy]|e] w1]; [|by exists [], nothing].
  clear W w body. rename w1 into w. cbn [snd] in W'.
  apply (ends_bind _ [] nothing); [|done|].
  { destruct (expired =? 0); [apply kept_ret|apply kept_slog]. }
  clear w W'. intros [] w W. destruct busy as [|b bs].
  2: { eapply ends_raise; [apply kept_raise|exact W|done]. }
  apply (ends_bind _ [] nothing); [apply kept_quiet; intros; apply now_sent|done|].
  clear w W. intros now w W. cbv zeta.
  apply (ends_bind _ [] nothing); [apply kept_online|done|].
  clear w W. intros online w W.
  apply (ends_bind _ [] nothing); [apply kept_prepare|done|].
  clear w W. intros [disp meta] w W.
  apply (ends_bind _ [] nothing); [apply kept_quiet; intros; apply exchange_sent|done|].
  clear w W. intros exchange w W.
  destruct (issue_all_backed [] exchange ip user (_extract_zdm_host ip) sids (details_map details)
    (now + install_task_deadline_sec * 1000000) online disp meta targets [] w W) as [said H'];
    [by intros c ?%elem_of_nil|].
  exists said, nothing. destruct (issue_all _ _ _ _ _ _ _ _ _ _ _ _ w) as [[l|e] w1]; [|by split].
  destruct H' as (? & ? & ?). split; [done|]. by intros a [= <-].
Qed.
End issue_backed.

(** ** A concrete world

    A broker that keeps what it takes, a map for the cache, one server, a package of
    three bytes behind [HttpZdmPackageResolver]. *)

Record demo_world := {
  dw_redis : MapRedis;
  dw_sent : list (string * amqp_message * string);
}.

Definition on_redis {A} (m : eff MapRedis A) : eff demo_world A := λ x,
  let '(r, c) := m (dw_redis x) in (r, {| dw_redis := c; dw_sent := dw_sent x |}).

#[local] Instance demo_redis : RedisClient demo_world := {
  redis_get k := on_redis (redis_get k);
  redis_set k v ex := on_redis (redis_set k v ex);
  redis_set_nx k v ex := on_redis (redis_set_nx k v ex);
  redis_delete k := on_redis (redis_delete k);
  redis_mget ks := on_redis (redis_mget ks);
  redis_incr_expire k ttl := on_redis (redis_incr_expire k ttl);
}.

#[local] Instance demo_queries : ServerQueries demo_world := {
  resolve_server_ids l := mret (list_to_map ((λ pid, (pid, 1)) <$> l));
  get_servers l := mret ((λ n, {| Detail.id := n; Detail.agent_id := "agent-1";
    Detail.hostname := "web-1"; Detail.os_family := Some "linux"%string |}) <$> l);
}.

#[local] Instance demo_clock : Clock demo_world := {
  now_utc := mret 1000000; uuid4 := mret "m-1"%string;
}.

#[local] Instance demo_http : HttpClient demo_world := {
  http_head _ := mret (inr {| head_status := 200; content_length := Some "3"%string;
                              etag_header := Some "e1"%string; last_modified := None |});
  http_get _ := mret (inr {| get_status := 200; chunks := ["ab"; "c"]%string; broken := None |});
}.

#[local] Instance demo_broker : Broker demo_world := {
  get_exchange name := mret name;
  declare_queue _ _ := mret tt;
  bind_queue _ _ _ := mret tt;
  publish e m k := λ x, (Ok tt, {| dw_redis := dw_redis x; dw_sent := dw_sent x ++ [(e, m, k)] |});
}.

#[local] Instance demo_resolver : BaseZdmPackageResolver demo_world :=
  HttpZdmPackageResolver (λ data, String.append "sha256-of-" data).

Lemma on_redis_sent {A} (m : eff MapRedis A) x : dw_sent (snd (on_redis m x)) = dw_sent x.
Proof. unfold on_redis. by destruct (m (dw_redis x)). Qed.

#[local] Instance demo_laws : BrokerLaws demo_world.
Proof.
  refine {| sent := dw_sent |}; try done.
  - intros e m k x x' [= <-]. cbn. apply elem_of_app. right. by left.
  - intros e m k x y Hy. cbn. apply elem_of_app. by left.
  - intros l x. apply on_redis_sent.
  - intros h p w. by apply framed_resolve; try done; intros; apply on_redis_sent.
  - intros h p w. by apply (framed_resolve _ dw_sent); try done; intros; apply on_redis_sent.
Defined.

Definition demo_db : db :=
  {| tables := λ m, if decide (m = ServerInventory)
       then [dict [("id", VInt 1); ("agent_id", VStr "agent-1")]%string] else [];
     next_id := 2; db_now := 1000000 |}.

Definition demo_service : service demo_world :=
  Service {| dw_redis := {| mr_keys := ∅; mr_outages := [] |}; dw_sent := [] |}
    (quiet_session demo_db demo_db) [].

(** C5. No install task waits without its message: whatever the broker, the clock, the
    Redis cache, the package server and the other transactions answer, and wherever the
    request fails, every pending task that is committed when [create_install_tasks] ends
    was pending before, or comes from another transaction, or the broker accepted a
    message that names the task and its agent, on that agent's routing key; and when the
    request succeeds it answers one task per target, in order, each of them announced. *)
Theorem install_pending_has_message {X : Type} `{BrokerLaws X} (old : string * string → Prop)
    (targets : list string) (zdm_ip zdm_user : string) (w : service X)
    (Hold : task_backed old (committed (sv_db w))) (Hothers : others_ok old (sv_db w)) :
  let '(r, w') := create_install_tasks targets zdm_ip zdm_user w in
  task_backed (λ t, old t ∨ announced (sent (sv_ext w')) t) (committed (sv_db w'))
  ∧ match r with
    | Ok l => target_public_id <$> l = targets
        ∧ ∀ c, c ∈ l → ∃ agent, announced (sent (sv_ext w')) (created_task_id c, agent)
    | Raise _ => True
    end.
Proof.
  assert (backed_service old [] (λ _, True) w) as W.
  { split; [|by intros r t _ _ _; right|done|done]. eapply task_backed_mono; [|exact Hold]. by left. }
  destruct (create_install_ends old targets zdm_ip zdm_user w W) as (said & extra & [Hc _ _ Hs] & HQ).
  destruct (create_install_tasks targets zdm_ip zdm_user w) as [r w']. cbn [snd fst] in *.
  split; [exact Hc|]. destruct r as [l|e]; [|done]. destruct (HQ l eq_refl) as [Ht Hl].
  split; [done|]. intros c [agent Hin]%Hl. exists agent. rewrite Forall_forall in Hs. by apply Hs.
Qed.

Definition demo_run : result (list TaskCreated) * service demo_world :=
  create_install_tasks ["p-1"]%string "http://10.0.0.9/zdm" "root" demo_service.

Lemma install_pending_has_message_witness :
  match fst demo_run with Ok l => map created_task_id l = ["2"]%string | Raise _ => False end
  ∧ length (tables (committed (sv_db (snd demo_run))) Task) = 1%nat
  ∧ map (λ s, (s.1.1, message_task s.1.2, s.2)) (dw_sent (sv_ext (snd demo_run)))
    = [("assessment.tasks", Some "2", "task.install.agent-1")]%string
  ∧ task_backed (λ t, False ∨ announced (sent (sv_ext (snd demo_run))) t)
      (committed (sv_db (snd demo_run))).
Proof.
  split; [vm_compute; reflexivity|]. split; [vm_compute; reflexivity|].
  split; [vm_compute; reflexivity|].
  pose proof (install_pending_has_message (λ _, False) ["p-1"]%string "http://10.0.0.9/zdm" "root"
    demo_service ltac:(intros r t H%elem_of_nil; destruct H) ltac:(constructor)) as H.
  fold demo_run in H. destruct demo_run as [r w']. exact (proj1 H).
Defined.
