(* ===== verification/ServiceProps.v ===== *)
(** * What a server runs: the properties *)

From stdpp Require Import sorting.
From S2P Require Import Prelude PyText PyList Services.

(** ** Orders *)

Lemma port_before_total p q : port_before p q = true ∨ port_before q p = true.
Proof.
  unfold port_before. destruct (Z.ltb_spec (port p) (port q)); [by left|].
  destruct (Z.ltb_spec (port q) (port p)); [by right|].
  assert (port p = port q) as -> by lia. rewrite Z.eqb_refl. apply leb_total.
Qed.

(** The order of sockets: by port, then by protocol *)
Definition socket_le (a b : MatchedPort) : Prop :=
  a.2 < b.2 ∨ a.2 = b.2 ∧ String.le a.1 b.1.

#[local] Instance socket_le_trans : Transitive socket_le.
Proof.
  intros [a n] [b m] [c k]. unfold socket_le. cbn. intros [?|[-> ?]] [?|[-> ?]]; try (left; lia).
  right. split; [done|]. by transitivity b.
Qed.

Lemma port_before_le p q : port_before p q = true → socket_le (socket_key p) (socket_key q).
Proof.
  unfold port_before, socket_le. cbn. rewrite orb_true_iff, andb_true_iff.
  intros [?|[? H]]; to_prop; [by left|right]. split; [done|]. by apply Is_true_true.
Qed.

(** ** The scan *)

Section scan.
Variable accepts : ListenPort → bool.

Lemma scan_sublist ports seen : scan_ports accepts ports seen `sublist_of` ports.
Proof.
  revert seen. induction ports as [|p ports IH]; intros seen; cbn; [constructor|].
  destruct (decide _); [by apply sublist_cons|].
  destruct (accepts p); [by apply sublist_skip|by apply sublist_cons].
Qed.

Lemma scan_elem ports seen p : p ∈ scan_ports accepts ports seen → p ∈ ports ∧ accepts p = true.
Proof.
  revert seen. induction ports as [|q ports IH]; intros seen; cbn; [intros H; by apply elem_of_nil in H|].
  destruct (decide _); [intros [? ?]%IH; split; [by right|done]|].
  destruct (accepts q) eqn:E; [|intros [? ?]%IH; split; [by right|done]].
  intros [->|Hp]%elem_of_cons; [split; [by left|done]|].
  apply IH in Hp as [? ?]. split; [by right|done].
Qed.

Lemma scan_keys ports seen k :
  k ∈ socket_key <$> scan_ports accepts ports seen
  ↔ k ∉ seen ∧ ∃ p, p ∈ ports ∧ socket_key p = k ∧ accepts p = true.
Proof.
  revert seen. induction ports as [|q ports IH]; intros seen; cbn.
  { split; [intros H; by apply elem_of_nil in H|]. intros (_ & p & H & _). by apply elem_of_nil in H. }
  assert (∀ P : ListenPort → Prop, (∃ p, p ∈ q :: ports ∧ P p) ↔ P q ∨ ∃ p, p ∈ ports ∧ P p) as Hex.
  { intros P. split.
    - intros (p & [->|Hp]%elem_of_cons & H); [by left|right; eauto].
    - intros [H|(p & Hp & H)]; [exists q|exists p]; split; try done; [by left|by right]. }
  rewrite (Hex (λ p, socket_key p = k ∧ accepts p = true)).
  destruct (decide (socket_key q ∈ seen)) as [Hq|Hq]; [|destruct (accepts q) eqn:E].
  - rewrite IH. naive_solver.
  - cbn. rewrite elem_of_cons, IH, not_elem_of_union, not_elem_of_singleton.
    destruct (decide (k = socket_key q)) as [->|Hk]; [by split; [split; [|left]|left]|].
    split; [intros [?|[[_ ?] ?]]; [done|by split; [|right]]|intros [? [[? _]|?]]; [congruence|right]].
    by split.
  - rewrite IH. naive_solver.
Qed.

Lemma scan_nodup ports seen : NoDup (socket_key <$> scan_ports accepts ports seen).
Proof.
  revert seen. induction ports as [|q ports IH]; intros seen; cbn; [constructor|].
  destruct (decide _); [done|]. destruct (accepts q); [|done]. cbn. constructor; [|done].
  rewrite scan_keys. intros [H _]. apply H. by apply elem_of_union_l, elem_of_singleton.
Qed.
End scan.

Lemma sort_ports_elem ports p : p ∈ sort_ports ports ↔ p ∈ ports.
Proof. unfold sort_ports. by rewrite sort_by_perm. Qed.

Lemma sublist_StronglySorted {A} (R : relation A) (l k : list A) :
  l `sublist_of` k → StronglySorted R k → StronglySorted R l.
Proof.
  induction 1 as [|x l k Hs IH|x l k Hs IH]; [done|..]; intros [S Hf]%StronglySorted_inv; [|by apply IH].
  constructor; [by apply IH|]. rewrite Forall_forall in *. intros y Hy.
  apply Hf. by eapply elem_of_sublist.
Qed.

(** The keys a scan of sorted sockets keeps are sorted. *)
Lemma scan_sorted accepts ports seen :
  StronglySorted socket_le (socket_key <$> scan_ports accepts (sort_ports ports) seen).
Proof.
  apply (StronglySorted_fmap _ (λ p q, socket_le (socket_key p) (socket_key q))); [done|].
  eapply sublist_StronglySorted; [apply scan_sublist|].
  apply Sorted_StronglySorted; [intros x y z; apply transitivity|].
  pose proof (sort_by_sorted port_before port_before_total ports) as S. unfold sort_ports.
  induction S as [|p l S IH Hd]; constructor; [done|]. destruct Hd; constructor.
  by apply port_before_le.
Qed.

(** ** Matched ports *)

(** C27. The ports a unit is shown with are exactly its own: a socket that has an owner is
    listed under the unit of that pid and under no other; a socket without an owner under
    a unit whose category the port stands for; each protocol and port once, in order of
    port and protocol. *)
Theorem matched_ports_correct (unit : string) (listen_ports : list ListenPort) (upid : option Z) :
  let cat := classify unit (Some listen_ports) None in
  NoDup (matched_ports unit listen_ports upid)
  ∧ StronglySorted socket_le (matched_ports unit listen_ports upid)
  ∧ ∀ k, k ∈ matched_ports unit listen_ports upid ↔
      ∃ p, p ∈ listen_ports ∧ socket_key p = k ∧
        match pid p with
        | Some n => upid = Some n
        | None => cat ≠ "unknown"%string ∧ _PORT_INDEX !! port p = Some cat
        end.
Proof.
  cbv zeta. unfold matched_ports. set (cat := classify _ _ _).
  split; [apply scan_nodup|]. split; [apply scan_sorted|]. intros k. rewrite scan_keys.
  assert (∀ p, belongs cat upid p = true ↔ match pid p with
    | Some n => upid = Some n
    | None => cat ≠ "unknown"%string ∧ _PORT_INDEX !! port p = Some cat end) as Hb.
  { intros p. unfold belongs. destruct (pid p); [by rewrite bool_decide_eq_true|].
    rewrite andb_true_iff, negb_true_iff, String.eqb_neq, bool_decide_eq_true. done. }
  split.
  - intros (_ & p & Hp & Hk & Ha). exists p. rewrite sort_ports_elem in Hp. by rewrite <-Hb.
  - intros (p & Hp & Hk & Ha). split; [apply not_elem_of_empty|]. exists p. by rewrite sort_ports_elem, Hb.
Qed.

(** ** Categories come from the catalog *)

Lemma first_keyword_in index text cat :
  first_keyword index text = Some cat → cat ∈ index.*2.
Proof.
  induction index as [|[kw c] index IH]; [done|]. cbn.
  destruct (contains kw text); [intros [= ->]; by left|]. intros ?%IH. by right.
Qed.

Lemma forallb_elem {A} (f : A → bool) l x : forallb f l = true → x ∈ l → f x = true.
Proof. intros H Hx. rewrite forallb_forall in H. by apply H, list_elem_of_In. Qed.

Lemma match_keyword_category text cat : _match_keyword text = Some cat → cat ∈ SERVICE_CATEGORIES.
Proof.
  unfold _match_keyword. destruct (String.eqb text ""); [done|]. intros H%first_keyword_in.
  apply mem_true. apply (forallb_elem (λ c, mem c SERVICE_CATEGORIES) _NAME_INDEX.*2); [|exact H].
  vm_compute. reflexivity.
Qed.

Lemma port_index_category n cat : _PORT_INDEX !! n = Some cat → cat ∈ SERVICE_CATEGORIES.
Proof.
  intros H%elem_of_map_to_list. apply mem_true.
  apply (forallb_elem (λ kc : Z * string, mem kc.2 SERVICE_CATEGORIES) (map_to_list _PORT_INDEX) (n, cat));
    [|exact H].
  vm_compute. reflexivity.
Qed.

Lemma unknown_no_category : "unknown"%string ∉ SERVICE_CATEGORIES.
Proof. apply (bool_decide_eq_false_1 ("unknown"%string ∈ SERVICE_CATEGORIES)). vm_compute. reflexivity. Qed.

Lemma first_some_spec {A B} (f : A → option B) l y :
  first_some f l = Some y → ∃ x, x ∈ l ∧ f x = Some y.
Proof.
  induction l as [|x l IH]; [done|]. cbn. destruct (f x) eqn:E.
  - intros [= ->]. exists x. split; [by left|done].
  - intros (z & ? & ?)%IH. exists z. split; [by right|done].
Qed.

Lemma classify_category unit ports upid :
  classify unit ports upid = "unknown"%string ∨ classify unit ports upid ∈ SERVICE_CATEGORIES.
Proof.
  unfold classify. destruct (_match_keyword _) eqn:E; [right; by eapply match_keyword_category|].
  destruct (first_some comm_category _) eqn:E1.
  - apply first_some_spec in E1 as (p & _ & Hp). right. by eapply match_keyword_category.
  - destruct (first_some port_category _) eqn:E2; [|by left].
    apply first_some_spec in E2 as (p & _ & Hp). right. by eapply port_index_category.
Qed.

Lemma workload_category_in ports s cat : workload_category ports s = Some cat → cat ∈ SERVICE_CATEGORIES.
Proof.
  unfold workload_category. destruct (unit_name s) as [u|]; [|done].
  destruct (_ || _); [done|]. cbv zeta. destruct (String.eqb _ "unknown") eqn:E; [done|].
  intros [= <-]. apply String.eqb_neq in E. by destruct (classify_category u ports (unit_pid s)).
Qed.

Lemma socket_category_in p cat : socket_category p = Some cat → cat ∈ SERVICE_CATEGORIES.
Proof.
  unfold socket_category. destruct (comm_category p) eqn:E.
  - intros [= ->]. by eapply match_keyword_category.
  - apply port_index_category.
Qed.

Lemma detect_keys ports cat :
  cat ∈ (detect_listen_categories ports).*1 → cat ∈ SERVICE_CATEGORIES.
Proof.
  unfold detect_listen_categories. generalize (scan_ports (λ p, bool_decide (is_Some (socket_category p)))
    (sort_ports ports) ∅). intros l. induction l as [|p l IH] using rev_ind; [intros H; by apply elem_of_nil in H|].
  rewrite foldl_app. cbn. destruct (socket_category p) as [c|] eqn:E; [|done].
  rewrite setdefault_append_keys, elem_of_app. intros [H|H]; [by apply IH|].
  destruct (decide _); [by apply elem_of_nil in H|]. apply list_elem_of_singleton in H as ->.
  by eapply socket_category_in.
Qed.

(** ** Counting *)

Definition single (cat : string) : bool := mem cat SINGLE_INSTANCE_CATEGORIES.

Definition occurrences (cat : string) (l : list string) : Z :=
  Z.of_nat (length (filter (λ c, c = cat) l)).

Lemma occurrences_cons cat c l :
  occurrences cat (c :: l) = (if decide (c = cat) then 1 else 0) + occurrences cat l.
Proof. unfold occurrences. rewrite filter_cons. destruct (decide (c = cat)); cbn [length]; lia. Qed.

Lemma occurrences_nonneg cat l : 0 <= occurrences cat l.
Proof. unfold occurrences. lia. Qed.

Lemma bump_all_lookup l counter cat :
  dict_get cat (foldl bump counter l) =
  if decide (cat ∈ l) then Some (if single cat then 1 else default 0 (dict_get cat counter) + occurrences cat l)
  else dict_get cat counter.
Proof.
  revert counter. induction l as [|c l IH]; intros counter; [done|]. cbn [foldl].
  rewrite IH, occurrences_cons. unfold bump. fold (single c).
  destruct (decide (c = cat)) as [->|Hc].
  - rewrite (decide_True (P := cat ∈ cat :: l)) by (by left). rewrite dict_get_set_eq. cbn.
    destruct (decide (cat ∈ l)) as [Hin|Hin]; destruct (single cat); f_equal; try lia.
    unfold occurrences. rewrite filter_no_key with (key := id); [cbn; lia|]. by rewrite list_fmap_id.
  - rewrite dict_get_set_ne by done.
    assert (cat ∈ c :: l ↔ cat ∈ l) as Hiff by (rewrite elem_of_cons; naive_solver).
    destruct (decide (cat ∈ l)), (decide (cat ∈ c :: l)); try tauto.
Qed.

Lemma fill_lookup (named counter : list (string * Z)) l cat :
  (∀ c, is_Some (dict_get c named) → dict_get c counter = dict_get c named) →
  dict_get cat (foldl (λ counter cat,
    match dict_get cat named with Some _ => counter | None => dict_set cat 1 counter end) counter l) =
  match dict_get cat named with
  | Some n => Some n
  | None => if decide (cat ∈ l) then Some 1 else dict_get cat counter
  end.
Proof.
  revert counter. induction l as [|c l IH]; intros counter Hc; cbn [foldl].
  { destruct (dict_get cat named) eqn:E; [|done]. by rewrite Hc, E by by rewrite E. }
  destruct (dict_get c named) as [n|] eqn:En.
  - rewrite IH by done. destruct (dict_get cat named) eqn:E; [done|].
    assert (cat ∈ c :: l ↔ cat ∈ l) as Hiff by (rewrite elem_of_cons; naive_solver).
    destruct (decide (cat ∈ l)), (decide (cat ∈ c :: l)); tauto.
  - rewrite IH.
    + destruct (dict_get cat named) eqn:E; [done|]. destruct (decide (cat = c)) as [->|Hne].
      * rewrite (decide_True (P := c ∈ c :: l)) by (by left). rewrite dict_get_set_eq.
        by destruct (decide _).
      * rewrite dict_get_set_ne by done.
        assert (cat ∈ c :: l ↔ cat ∈ l) as Hiff by (rewrite elem_of_cons; naive_solver).
        destruct (decide (cat ∈ l)), (decide (cat ∈ c :: l)); tauto.
    + intros x Hx. destruct (decide (x = c)) as [->|]; [by rewrite En in Hx; destruct Hx|].
      by rewrite dict_get_set_ne, Hc.
Qed.

(** The workload categories of the services, one per service that has one *)
Definition named_categories (services : option (list ServiceUnit)) (ports : option (list ListenPort))
    : list string := omap (workload_category ports) (default [] services).

(** C28. What the ingest stores of a server agrees with what the pages count: the stored
    categories are sorted, each once, all of them of the catalog and none of them
    "unknown"; a category is stored exactly when the workload counter counts it, with the
    number of its services - one when only its sockets show it, and one always for a
    runtime stack such as containers. *)
Theorem service_categories_consistent (services : option (list ServiceUnit))
    (listen_ports : option (list ListenPort)) :
  let cats := compute_service_categories services listen_ports in
  StronglySorted String.le cats ∧ NoDup cats
  ∧ (∀ c, c ∈ cats → c ∈ SERVICE_CATEGORIES) ∧ "unknown"%string ∉ cats
  ∧ ∀ c, dict_get c (workload_category_counter services listen_ports) =
      if decide (c ∈ cats)
      then Some (if single c then 1 else Z.max 1 (occurrences c (named_categories services listen_ports)))
      else None.
Proof.
  cbv zeta. unfold compute_service_categories, workload_category_counter.
  fold (named_categories services listen_ports). set (named := named_categories _ _).
  set (detected := (detect_listen_categories _).*1).
  assert (∀ c, c ∈ sorted_set (named ++ detected) ↔ c ∈ named ∨ c ∈ detected) as Hin.
  { intros c. unfold sorted_set, sort_str. by rewrite sort_by_perm, elem_of_dedup_first, elem_of_app. }
  assert (∀ c, c ∈ sorted_set (named ++ detected) → c ∈ SERVICE_CATEGORIES) as Hcat.
  { intros c [Hc|Hc]%Hin; [|by eapply detect_keys].
    apply list_elem_of_omap in Hc as (s & _ & Hs). by eapply workload_category_in. }
  split; [apply sort_str_sorted|]. split.
  { unfold sorted_set, sort_str. rewrite sort_by_perm. apply NoDup_dedup_first. }
  split; [done|]. split; [intros H%Hcat; by apply unknown_no_category|].
  intros c. rewrite fill_lookup by done. rewrite bump_all_lookup. cbn [default dict_get].
  destruct (decide (c ∈ sorted_set _)) as [H|H]; rewrite Hin in H.
  - destruct (decide (c ∈ named)) as [Hn|Hn].
    + destruct (single c); [done|]. f_equal. pose proof (occurrences_nonneg c named).
      assert (1 <= occurrences c named); [|lia].
      clear -Hn. induction named as [|x l IH]; [by apply elem_of_nil in Hn|].
      rewrite occurrences_cons. pose proof (occurrences_nonneg c l).
      destruct (decide (x = c)); [lia|]. apply elem_of_cons in Hn as [->|Hn]; [done|]. apply IH in Hn. lia.
    + destruct H as [H|H]; [done|]. rewrite decide_True by done.
      assert (occurrences c named = 0) as ->.
      { unfold occurrences. rewrite filter_no_key with (key := id); [done|]. by rewrite list_fmap_id. }
      by destruct (single c).
  - rewrite !decide_False by tauto. done.
Qed.

(** ** Concrete servers *)

Definition socket (pr : string) (n : Z) (owner : option Z) (cmd : option string) : ListenPort :=
  {| proto := pr; port := n; pid := owner; comm := cmd |}.

Definition service (u : string) (n : option Z) : ServiceUnit :=
  {| unit_name := Some u; unit_pid := n; display_name := None |}.

(** A renamed SQL Server is recognised by its socket. *)
Example sql_server_by_port :
  classify "Acme Billing" (Some [socket "tcp" 1433 (Some 77) None]) (Some 77) = "db"%string.
Proof. vm_compute. reflexivity. Qed.

(** Port 22 belongs to the daemon that owns it, not to the socket units around it. *)
Example ssh_port_once :
  let ports := [socket "tcp" 22 (Some 812) (Some "sshd"); socket "tcp6" 22 (Some 812) (Some "sshd")]%string in
  matched_ports "ssh.service" ports (Some 812) = [("tcp", 22); ("tcp6", 22)]%string
  ∧ matched_ports "sshd-unix-local.socket" ports None = [].
Proof. vm_compute. split; reflexivity. Qed.

(** The keyword "rdp" is part of "wordpress": the service is taken for a remote desktop,
    and dropped from the workloads as part of every server's baseline. *)
Example wordpress_is_remote :
  classify "wordpress.service" None None = "remote"%string
  ∧ compute_service_categories (Some [service "wordpress.service" None]) None = [].
Proof. vm_compute. split; reflexivity. Qed.

(** A listening sshd is detected as remote, unlike what the detector's doc says. *)
Example ssh_is_detected :
  detect_listen_categories [socket "tcp" 22 (Some 812) (Some "sshd"%string)]
  = [("remote", [("tcp", 22)])]%string.
Proof. vm_compute. reflexivity. Qed.

Example containers_count_once :
  let counter := workload_category_counter (Some [service "docker.service" None;
    service "containerd.service" None; service "nginx.service" None; service "nginx-admin.service" None]%string) None in
  dict_get "container"%string counter = Some 1 ∧ dict_get "web"%string counter = Some 2.
Proof. vm_compute. split; reflexivity. Qed.
