(* ===== verification/InventoryProps.v ===== *)
(** * Inventory messages: the properties

    What the readers of a stored inventory get back is what the agent sent. *)

From stdpp Require Import sorting.
From S2P Require Import Prelude PyFloat PyText PyList Sql Inbound Wire Devices Services InventoryMsg.

(** ** Reading a stored node *)

Definition get_float (key : string) (j : json) : option float :=
  match node_get key j with Some (JFloat x) => Some x | _ => None end.
Definition get_level (key : string) (j : json) : option (Z + string) :=
  match node_get key j with Some (JInt n) => Some (inl n) | Some (JStr s) => Some (inr s) | _ => None end.

Definition block_device_view (j : json) : BlockDeviceInfo := {|
  BlockDevice.name := default ""%string (node_str "name" j);
  BlockDevice.type := default ""%string (node_str "type" j);
  BlockDevice.size_bytes := get_number "size_bytes" j;
  BlockDevice.fstype := node_str "fstype" j;
  BlockDevice.mountpoint := node_str "mountpoint" j;
  BlockDevice.parent := node_str "parent" j;
  BlockDevice.id := node_str "id" j;
  BlockDevice.id_type := node_str "id_type" j;
  BlockDevice.partition_table := node_str "partition_table" j;
  BlockDevice.sector_size := get_number "sector_size" j;
  BlockDevice.serial := node_str "serial" j;
  BlockDevice.wwn := node_str "wwn" j;
  BlockDevice.rotational := get_flag "rotational" j;
  BlockDevice.part_number := get_number "part_number" j;
  BlockDevice.part_start_bytes := get_number "part_start_bytes" j;
  BlockDevice.part_type := node_str "part_type" j;
  BlockDevice.part_name := node_str "part_name" j;
  BlockDevice.part_flags := get_strs "part_flags" j;
  BlockDevice.fs_uuid := node_str "fs_uuid" j;
  BlockDevice.fs_label := node_str "fs_label" j;
  BlockDevice.block_size := get_number "block_size" j;
  BlockDevice.mount_options := get_strs "mount_options" j;
  BlockDevice.fs_freq := get_number "fs_freq" j;
  BlockDevice.fs_passno := get_number "fs_passno" j;
  BlockDevice.lvm_vg := node_str "lvm_vg" j;
  BlockDevice.lvm_lv := node_str "lvm_lv" j;
  BlockDevice.lvm_segtype := node_str "lvm_segtype" j;
  BlockDevice.lvm_stripes := get_number "lvm_stripes" j;
  BlockDevice.lvm_stripe_size_kib := get_number "lvm_stripe_size_kib" j;
  BlockDevice.raid_level := get_level "raid_level" j;
  BlockDevice.raid_chunk_kib := get_number "raid_chunk_kib" j;
  BlockDevice.raid_metadata := node_str "raid_metadata" j;
  BlockDevice.raid_uuid := node_str "raid_uuid" j;
  BlockDevice.crypt_type := node_str "crypt_type" j |}.

Definition address_view (j : json) : NetAddressInfo := {|
  NetAddress.address := default ""%string (node_str "address" j);
  NetAddress.prefix := get_number "prefix" j;
  NetAddress.family := default ""%string (node_str "family" j);
  NetAddress.origin := node_str "origin" j |}.

Definition route_view (j : json) : RouteInfo := {|
  Route.dest := default ""%string (node_str "dest" j);
  Route.via := node_str "via" j |}.

Definition net_interface_view (j : json) : NetInterfaceInfo := {|
  NetInterface.name := default ""%string (node_str "name" j);
  NetInterface.id := node_str "id" j;
  NetInterface.id_type := node_str "id_type" j;
  NetInterface.kind := node_str "kind" j;
  NetInterface.speed_mbps := get_number "speed_mbps" j;
  NetInterface.addresses := default [] (get_list "addresses" address_view j);
  NetInterface.gateway := node_str "gateway" j;
  NetInterface.mtu := get_number "mtu" j;
  NetInterface.dns := get_strs "dns" j;
  NetInterface.routes := get_list "routes" route_view j;
  NetInterface.bond_mode := node_str "bond_mode" j;
  NetInterface.vlan_id := get_number "vlan_id" j |}.

Definition lvm_vg_view (j : json) : LvmVgInfo := {|
  LvmVg.name := default ""%string (node_str "name" j);
  LvmVg.size_bytes := get_number "size_bytes" j;
  LvmVg.free_bytes := get_number "free_bytes" j;
  LvmVg.data_percent := get_float "data_percent" j;
  LvmVg.metadata_percent := get_float "metadata_percent" j;
  LvmVg.vg_uuid := node_str "vg_uuid" j;
  LvmVg.extent_size_bytes := get_number "extent_size_bytes" j;
  LvmVg.pv_ids := get_strs "pv_ids" j |}.

Definition inv_service_view (j : json) : InventoryServiceInfo := {|
  InvService.unit := default ""%string (node_str "unit" j);
  InvService.sub := default ""%string (node_str "sub" j);
  InvService.pid := get_number "pid" j;
  InvService.exe := node_str "exe" j |}.

Definition inv_port_view (j : json) : InventoryListenPortInfo := {|
  InvPort.proto := default ""%string (node_str "proto" j);
  InvPort.addr := default ""%string (node_str "addr" j);
  InvPort.port := default 0 (get_number "port" j);
  InvPort.uid := get_number "uid" j;
  InvPort.pid := get_number "pid" j;
  InvPort.comm := node_str "comm" j |}.

Definition boot_view (j : json) : BootInfo := {|
  Boot.kernel_cmdline := node_str "kernel_cmdline" j;
  Boot.root_ref_type := node_str "root_ref_type" j;
  Boot.grub_install_target := node_str "grub_install_target" j |}.

Definition nonblock_mount_view (j : json) : NonblockMountInfo := {|
  NonblockMount.source := default ""%string (node_str "source" j);
  NonblockMount.target := default ""%string (node_str "target" j);
  NonblockMount.fstype := node_str "fstype" j;
  NonblockMount.options := get_strs "options" j;
  NonblockMount.fs_freq := get_number "fs_freq" j;
  NonblockMount.fs_passno := get_number "fs_passno" j |}.

(** ** Keys of a stored node *)

Definition assoc {A} (k : string) (l : list (string * A)) : option A :=
  snd <$> find (λ kv, bool_decide (kv.1 = k)) l.

#[local] Arguments assoc : simpl never.

Lemma assoc_cons {A} k k' (v : A) l : assoc k ((k', v) :: l) = if decide (k' = k) then Some v else assoc k l.
Proof. unfold assoc. cbn. case_bool_decide; by destruct (decide _). Qed.

Lemma str_compare_refl k : String.compare k k = Eq.
Proof. pose proof (String.compare_antisym k k) as H. by destruct (String.compare k k). Qed.

Lemma assoc_insert_key k k' v l :
  assoc k (insert_key k' v l) = if decide (k' = k) then Some v else assoc k l.
Proof.
  induction l as [|[k0 v0] l IH]; cbn [insert_key]; [apply assoc_cons|].
  destruct (String.compare k' k0) eqn:E; rewrite ?assoc_cons.
  - apply String.compare_eq_iff in E as ->. by destruct (decide _).
  - done.
  - rewrite IH. destruct (decide (k0 = k)) as [->|], (decide (k' = k)) as [->|]; try done.
    by rewrite str_compare_refl in E.
Qed.

Lemma assoc_not_in {A} k (l : list (string * A)) : k ∉ l.*1 → assoc k l = None.
Proof.
  induction l as [|[k' v] l IH]; [done|]. cbn. rewrite not_elem_of_cons, assoc_cons.
  intros [? ?]. rewrite decide_False by done. by apply IH.
Qed.

Lemma assoc_app {A} k (l1 l2 : list (string * A)) :
  assoc k (l1 ++ l2) = match assoc k l1 with Some v => Some v | None => assoc k l2 end.
Proof.
  induction l1 as [|[k' v] l1 IH]; [done|]. cbn [app]. rewrite !assoc_cons, IH.
  by destruct (decide _).
Qed.

(** A dict whose keys are distinct *)
Lemma assoc_jobj k l :
  NoDup l.*1 → assoc k (foldl (λ acc kv, insert_key kv.1 kv.2 acc) [] l) = assoc k l.
Proof.
  induction l as [|[k' v] l IH] using rev_ind; [done|].
  rewrite fmap_app, NoDup_app. intros (Hl & Hd & _). rewrite foldl_app. cbn.
  rewrite assoc_insert_key, assoc_app, IH, assoc_cons by done.
  destruct (decide (k' = k)) as [->|Hk]; [|by destruct (assoc k l)].
  rewrite assoc_not_in; [done|]. intros H. apply (Hd k H). by left.
Qed.

Lemma sparse_keys d : (_sparse d).*1 `sublist_of` d.*1.
Proof.
  induction d as [|[k o] d IH]; cbn; [constructor|].
  destruct o; [by apply sublist_skip|by apply sublist_cons].
Qed.

Lemma assoc_sparse k d : NoDup d.*1 → assoc k (_sparse d) = mjoin (assoc k d).
Proof.
  induction d as [|[k' o] d IH]; [done|]. cbn [fmap list_fmap]. intros [Hn Hd]%NoDup_cons.
  rewrite assoc_cons. unfold _sparse in *. destruct o as [v|]; cbn.
  - rewrite assoc_cons. destruct (decide (k' = k)); [done|by apply IH].
  - destruct (decide (k' = k)) as [->|]; [|by apply IH]. rewrite IH by done. by rewrite assoc_not_in.
Qed.

Definition not_null (o : option json) : option json :=
  match o with Some JNull | None => None | Some v => Some v end.

(** What [.get] reads of a node: its fixed keys, then its sparse ones *)
Lemma node_get_dict base d k :
  NoDup (base.*1 ++ d.*1) →
  node_get k (jobj (base ++ _sparse d))
  = not_null (match assoc k base with Some v => Some v | None => mjoin (assoc k d) end).
Proof.
  intros N. pose proof N as (Nb & Nd & Ns)%NoDup_app.
  assert (NoDup (base ++ _sparse d).*1) as N'.
  { rewrite fmap_app. eapply sublist_NoDup; [exact N|]. apply sublist_app; [done|apply sparse_keys]. }
  unfold node_get, jobj. change (snd <$> find _ ?l) with (assoc k l). rewrite assoc_jobj by done.
  assert (assoc k (base ++ _sparse d)
    = match assoc k base with Some v => Some v | None => mjoin (assoc k d) end) as ->.
  { by rewrite assoc_app, assoc_sparse. }
  done.
Qed.

Lemma node_get_plain base k :
  NoDup base.*1 → node_get k (jobj base) = not_null (assoc k base).
Proof.
  intros N. pose proof (node_get_dict base [] k) as H. cbn [_sparse omap list_omap fmap list_fmap] in H.
  rewrite !app_nil_r in H. rewrite H by done. by destruct (assoc k base).
Qed.

(** ** What is read back *)

Lemma strs_back (l : list string) : text_of <$> (JStr <$> l) = l.
Proof. rewrite <-list_fmap_compose. apply list_fmap_id. Qed.

(** One field of a node: look its key up, and case on the field. *)
Ltac read_field :=
  unfold node_str, get_number, get_flag, get_float, get_level, get_strs, get_list;
  first [rewrite node_get_dict by (apply (bool_decide_unpack _); vm_compute; exact I)
        |rewrite node_get_plain by (apply (bool_decide_unpack _); vm_compute; exact I)];
  lazymatch goal with
  | |- _ = ?v => lazymatch type of v with
                 | option (Z + string) => destruct v as [[?|?]|]
                 | option _ => destruct v
                 | _ => idtac
                 end
  end;
  lazy -[list_fmap json_strs]; unfold json_strs; try reflexivity;
  f_equal; apply strs_back.

Lemma block_device_back b : block_device_view (block_device_dict b) = b.
Proof.
  destruct b. unfold block_device_view, block_device_dict, _bd_layout. f_equal. all: read_field.
Qed.

Lemma lvm_vg_back v : lvm_vg_view (lvm_vg_dict v) = v.
Proof. destruct v. unfold lvm_vg_view, lvm_vg_dict, _vg_layout. f_equal. all: read_field. Qed.

Lemma inv_service_back s : inv_service_view (service_dict s) = s.
Proof. destruct s. unfold inv_service_view, service_dict. f_equal. all: read_field. Qed.

Lemma inv_port_back p : inv_port_view (listen_port_dict p) = p.
Proof. destruct p. unfold inv_port_view, listen_port_dict. f_equal. all: read_field. Qed.

Lemma boot_back b : boot_view (boot_dict b) = b.
Proof. destruct b. unfold boot_view, boot_dict. f_equal. all: read_field. Qed.

Lemma nonblock_mount_back m : nonblock_mount_view (nonblock_mount_dict m) = m.
Proof. destruct m. unfold nonblock_mount_view, nonblock_mount_dict. f_equal. all: read_field. Qed.

Lemma route_back r : route_view (route_dict r) = r.
Proof. destruct r. unfold route_view, route_dict. f_equal. all: read_field. Qed.

Lemma address_back a : address_view (address_dict a) = a.
Proof.
  assert (address_dict a = jobj ([("address", JStr (NetAddress.address a));
      ("prefix", json_opt JInt (NetAddress.prefix a)); ("family", JStr (NetAddress.family a))]%string
    ++ _sparse [("origin"%string, JStr <$> NetAddress.origin a)])) as ->.
  { unfold address_dict, _sparse. by destruct (NetAddress.origin a). }
  destruct a. unfold address_view. f_equal. all: read_field.
Qed.

Lemma map_view {A B} (view : json → B) (dict : A → json) (f : A → B) (l : list A) :
  (∀ x, view (dict x) = f x) → view <$> (dict <$> l) = f <$> l.
Proof. intros H. rewrite <-list_fmap_compose. apply list_fmap_ext. intros ? x _. apply H. Qed.

Lemma map_back {A} (view : json → A) (dict : A → json) (l : list A) :
  (∀ x, view (dict x) = x) → view <$> (dict <$> l) = l.
Proof. intros H. rewrite (map_view _ _ id) by done. apply list_fmap_id. Qed.

(** An empty list of routes is stored as no routes. *)
Definition without_empty_routes (n : NetInterfaceInfo) : NetInterfaceInfo :=
  match n with
  | NetInterface.Build_NetInterfaceInfo name id id_type kind speed addresses gateway mtu dns routes bond vlan =>
      NetInterface.Build_NetInterfaceInfo name id id_type kind speed addresses gateway mtu dns
        (match routes with Some [] => None | r => r end) bond vlan
  end.

Lemma net_interface_back n : net_interface_view (net_interface_dict n) = without_empty_routes n.
Proof.
  destruct n as [name id id_type kind speed addresses gateway mtu dns routes bond vlan].
  unfold net_interface_view, net_interface_dict, _ni_layout, without_empty_routes. f_equal.
  6: { unfold get_list. rewrite node_get_dict by (apply (bool_decide_unpack _); vm_compute; exact I).
       lazy -[list_fmap address_view address_dict].
       apply map_back, address_back. }
  9: { unfold get_list. rewrite node_get_dict by (apply (bool_decide_unpack _); vm_compute; exact I).
       destruct routes as [[|r l]|]; [reflexivity| |reflexivity].
       lazy -[list_fmap route_view route_dict]. f_equal.
       apply (map_back _ _ (r :: l)), route_back. }
  all: read_field.
Qed.

(** The view a reader has of a message's service *)
Definition message_service (s : InventoryServiceInfo) : ServiceUnit := {|
  unit_name := Some (InvService.unit s); unit_pid := InvService.pid s; display_name := None |}.

Definition message_socket (p : InventoryListenPortInfo) : ListenPort := {|
  proto := InvPort.proto p; port := InvPort.port p; pid := InvPort.pid p; comm := InvPort.comm p |}.

Lemma service_view_dict s : service_view (service_dict s) = message_service s.
Proof. destruct s. unfold service_view, service_dict, message_service. f_equal. all: read_field. Qed.

Lemma socket_view_dict p : socket_view (listen_port_dict p) = message_socket p.
Proof. destruct p. unfold socket_view, listen_port_dict, message_socket. f_equal. all: read_field. Qed.

(** C26. Nothing of an inventory message is lost on the way to its columns: reading the
    stored devices, interfaces, volume groups, services, sockets, mounts and boot
    descriptor back by their keys gives what the agent sent (an empty list of routes
    reads as none), although unknown layout fields are not stored; and the categories
    stored with them are the ones a reader computes from the stored lists. *)
Theorem inventory_read_back (data : InventoryInput) :
  let dto := to_inventory_create data in
  block_device_view <$> Inventory.block_devices dto = InvInput.block_devices data
  ∧ net_interface_view <$> Inventory.net_interfaces dto
    = without_empty_routes <$> InvInput.net_interfaces data
  ∧ lvm_vg_view <$> Inventory.lvm_vgs dto = InvInput.lvm_vgs data
  ∧ fmap (M:=list) inv_service_view <$> Inventory.services dto = InvInput.services data
  ∧ inv_port_view <$> Inventory.listen_ports dto = InvInput.listen_ports data
  ∧ boot_view <$> Inventory.boot dto = InvInput.boot data
  ∧ fmap (M:=list) nonblock_mount_view <$> Inventory.nonblock_mounts dto = InvInput.nonblock_mounts data
  ∧ (let services := fmap (M:=list) message_service <$> InvInput.services data in
     let ports := Some (message_socket <$> InvInput.listen_ports data) in
     fmap (M:=list) service_view <$> Inventory.services dto = services
     ∧ Some (socket_view <$> Inventory.listen_ports dto) = ports
     ∧ Inventory.service_categories dto = compute_service_categories services ports).
Proof.
  cbn zeta. unfold to_inventory_create, _svc_dicts, _lp_dicts. cbn [Inventory.block_devices
    Inventory.net_interfaces Inventory.lvm_vgs Inventory.services Inventory.listen_ports Inventory.boot
    Inventory.nonblock_mounts Inventory.service_categories].
  assert (fmap (M:=list) service_view <$> (fmap (M:=list) service_dict <$> InvInput.services data)
    = fmap (M:=list) message_service <$> InvInput.services data) as ->.
  { destruct (InvInput.services data); [|done]. cbn. f_equal. apply map_view, service_view_dict. }
  rewrite (map_view socket_view _ message_socket) by apply socket_view_dict.
  rewrite !(map_view net_interface_view _ without_empty_routes) by apply net_interface_back.
  rewrite !map_back by auto using block_device_back, lvm_vg_back, inv_port_back.
  repeat split.
  - destruct (InvInput.services data); [|done]. cbn. f_equal. apply map_back, inv_service_back.
  - destruct (InvInput.boot data); [|done]. cbn. by rewrite boot_back.
  - destruct (InvInput.nonblock_mounts data); [|done]. cbn. f_equal. apply map_back, nonblock_mount_back.
Qed.
