(* ===== verification/EolCatalog.v ===== *)
(** * The catalog of OS life cycles

    The data of [src/assessment_engine/web/services/mappers/os_eol_catalog.json], the
    snapshot of endoflife.date that [os_eol.py] loads: per product its release cycles,
    with the dates support, free security patches ([eol]) and paid patches end, and the
    kernel build for Windows. *)

From S2P Require Import Prelude.

Record EolEntry := {
  cycle : string;
  eol : string;
  support : option string;
  extendedSupport : option string;
  build : option string;
}.

Definition entry (c e : string) (s x b : option string) : EolEntry :=
  {| cycle := c; eol := e; support := s; extendedSupport := x; build := b |}.

Definition debian_eol : list EolEntry := [
    entry "13" "2028-08-09" None (Some "2030-06-30") None;
    entry "12" "2026-07-11" None (Some "2028-06-30") None;
    entry "11" "2024-08-14" None (Some "2026-08-31") None;
    entry "10" "2022-09-10" None (Some "2024-06-30") None;
    entry "9" "2020-07-18" None (Some "2022-07-01") None;
    entry "8" "2018-06-17" None (Some "2020-06-30") None;
    entry "7" "2016-04-25" None (Some "2018-05-31") None;
    entry "6" "2014-05-31" None (Some "2016-02-29") None;
    entry "5" "2012-02-06" None (Some "2012-02-06") None;
    entry "4" "2010-02-15" None (Some "2010-02-15") None;
    entry "3.1" "2008-03-31" None (Some "2008-03-31") None;
    entry "3.0" "2006-06-30" None (Some "2006-06-30") None;
    entry "2.2" "2003-06-30" None (Some "2003-06-30") None;
    entry "2.1" "2000-09-30" None (Some "2000-10-30") None;
    entry "2.0" "1999-02-15" None (Some "1999-02-15") None;
    entry "1.3" "1998-12-08" None (Some "1998-12-08") None;
    entry "1.2" "1997-10-23" None (Some "1997-10-23") None;
    entry "1.1" "1996-12-12" None (Some "1996-12-12") None]%string.

Definition ubuntu_eol : list EolEntry := [
    entry "26.04" "2031-04-30" (Some "2031-04-30") (Some "2036-04-30") None;
    entry "25.10" "2026-07-01" (Some "2026-07-01") None None;
    entry "25.04" "2026-01-17" (Some "2026-01-17") None None;
    entry "24.10" "2025-07-10" (Some "2025-07-10") None None;
    entry "24.04" "2029-05-31" (Some "2029-05-31") (Some "2036-05-31") None;
    entry "23.10" "2024-07-12" (Some "2024-07-12") None None;
    entry "23.04" "2024-01-20" (Some "2024-01-20") None None;
    entry "22.10" "2023-07-20" (Some "2023-07-20") None None;
    entry "22.04" "2027-04-01" (Some "2024-09-30") (Some "2032-04-09") None;
    entry "21.10" "2022-07-14" (Some "2022-07-14") None None;
    entry "21.04" "2022-01-20" (Some "2022-01-20") None None;
    entry "20.10" "2021-07-22" (Some "2021-07-22") None None;
    entry "20.04" "2025-05-31" (Some "2022-10-01") (Some "2030-04-02") None;
    entry "19.10" "2020-07-06" (Some "2020-07-06") None None;
    entry "19.04" "2020-01-23" (Some "2020-01-23") None None;
    entry "18.10" "2019-07-18" (Some "2019-07-18") None None;
    entry "18.04" "2023-05-31" (Some "2023-05-31") (Some "2028-04-01") None;
    entry "17.10" "2018-07-19" (Some "2018-07-19") None None;
    entry "17.04" "2018-01-13" (Some "2018-01-13") None None;
    entry "16.10" "2017-07-20" (Some "2017-07-20") None None;
    entry "16.04" "2021-04-02" (Some "2021-04-02") (Some "2026-04-02") None;
    entry "15.10" "2016-07-28" (Some "2016-07-28") None None;
    entry "15.04" "2016-02-04" (Some "2016-02-04") None None;
    entry "14.10" "2015-07-23" (Some "2015-07-23") None None;
    entry "14.04" "2019-04-02" (Some "2019-04-02") (Some "2024-04-02") None;
    entry "13.10" "2014-07-17" (Some "2014-07-17") None None;
    entry "13.04" "2014-01-27" (Some "2014-01-27") None None;
    entry "12.10" "2014-05-16" (Some "2014-05-16") None None;
    entry "12.04" "2017-04-28" (Some "2017-04-28") (Some "2019-04-26") None;
    entry "11.10" "2013-05-09" (Some "2013-05-09") None None;
    entry "11.04" "2012-10-28" (Some "2012-10-28") None None;
    entry "10.10" "2012-04-10" (Some "2012-04-10") None None;
    entry "10.04" "2013-05-09" (Some "2013-05-09") None None;
    entry "9.10" "2011-04-30" (Some "2011-04-30") None None;
    entry "9.04" "2010-10-23" (Some "2010-10-23") None None;
    entry "8.10" "2010-04-30" (Some "2010-04-30") None None;
    entry "8.04" "2013-05-09" (Some "2013-05-09") None None;
    entry "7.10" "2009-04-18" (Some "2009-04-18") None None;
    entry "7.04" "2008-10-19" (Some "2008-10-19") None None;
    entry "6.10" "2008-04-26" (Some "2006-10-26") None None;
    entry "6.06" "2011-06-01" (Some "2011-06-01") None None;
    entry "5.10" "2007-04-13" (Some "2007-04-13") None None;
    entry "5.04" "2006-10-31" (Some "2006-10-31") None None;
    entry "4.10" "2006-04-30" (Some "2004-10-26") None None]%string.

Definition rhel_eol : list EolEntry := [
    entry "10" "2035-05-31" (Some "2030-05-31") (Some "2039-05-31") None;
    entry "9" "2032-05-31" (Some "2027-05-31") (Some "2036-05-31") None;
    entry "8" "2029-05-31" (Some "2024-05-31") (Some "2033-05-31") None;
    entry "7" "2024-06-30" (Some "2019-08-06") (Some "2029-05-31") None;
    entry "6" "2020-11-30" (Some "2016-05-10") (Some "2024-06-30") None;
    entry "5" "2017-03-31" (Some "2013-01-08") (Some "2020-11-30") None;
    entry "4" "2012-02-29" (Some "2009-03-31") (Some "2017-03-31") None]%string.

Definition rocky_linux_eol : list EolEntry := [
    entry "10" "2035-05-31" (Some "2030-05-31") None None;
    entry "9" "2032-05-31" (Some "2027-05-31") None None;
    entry "8" "2029-05-31" (Some "2024-05-31") None None]%string.

Definition almalinux_eol : list EolEntry := [
    entry "10" "2035-05-31" (Some "2030-05-31") None None;
    entry "9" "2032-05-31" (Some "2027-05-31") None None;
    entry "8" "2029-05-31" (Some "2024-05-31") None None]%string.

Definition centos_eol : list EolEntry := [
    entry "8" "2021-12-31" (Some "2021-12-31") None None;
    entry "7" "2024-06-30" (Some "2020-08-06") None None;
    entry "6" "2020-11-30" (Some "2017-05-10") None None;
    entry "5" "2017-03-31" (Some "2014-01-31") None None]%string.

Definition centos_stream_eol : list EolEntry := [
    entry "10" "2030-05-31" (Some "2030-05-31") None None;
    entry "9" "2027-05-31" (Some "2027-05-31") None None;
    entry "8" "2024-05-31" (Some "2024-05-31") None None]%string.

Definition sles_eol : list EolEntry := [
    entry "16.0" "2027-11-30" None (Some "2030-11-30") None;
    entry "15.7" "2031-07-31" None (Some "2034-07-31") None;
    entry "15.6" "2025-12-31" None (Some "2028-12-31") None;
    entry "15.5" "2024-12-31" None (Some "2027-12-31") None;
    entry "15.4" "2023-12-31" None (Some "2026-12-31") None;
    entry "15.3" "2022-12-31" None (Some "2025-12-31") None;
    entry "15.2" "2021-12-31" None (Some "2024-12-31") None;
    entry "12.5" "2024-10-31" None (Some "2027-10-31") None;
    entry "15.1" "2021-01-31" None (Some "2024-01-31") None;
    entry "12.4" "2020-06-30" None (Some "2023-06-30") None;
    entry "15.0" "2019-12-31" None (Some "2022-12-31") None;
    entry "12.3" "2019-06-30" None (Some "2022-06-30") None;
    entry "12.2" "2018-03-31" None (Some "2021-03-31") None;
    entry "12.1" "2017-05-31" None (Some "2020-05-31") None;
    entry "11.4" "2019-03-31" None (Some "2022-03-31") None;
    entry "12.0" "2016-06-30" None (Some "2019-07-01") None;
    entry "11.3" "2016-01-31" None (Some "2019-01-30") None;
    entry "11.2" "2014-01-31" None (Some "2017-01-30") None;
    entry "10.4" "2013-07-31" None (Some "2016-07-30") None;
    entry "11.1" "2012-08-31" None (Some "2015-08-30") None;
    entry "10.3" "2011-10-11" None (Some "2014-10-31") None;
    entry "11.0" "2010-12-31" None (Some "2010-12-31") None;
    entry "10.2" "2010-04-11" None (Some "2013-04-10") None;
    entry "10.1" "2008-11-30" None (Some "2010-12-31") None;
    entry "10.0" "2007-12-31" None (Some "2007-12-31") None]%string.

Definition opensuse_eol : list EolEntry := [
    entry "16.0" "2027-10-31" None None None;
    entry "15.6" "2026-04-30" None None None;
    entry "15.5" "2024-12-31" None None None;
    entry "15.4" "2023-12-07" None None None;
    entry "15.3" "2022-12-31" None None None;
    entry "15.2" "2022-01-04" None None None;
    entry "15.1" "2021-02-02" None None None;
    entry "15.0" "2019-12-03" None None None;
    entry "42.3" "2019-07-01" None None None;
    entry "42.2" "2018-01-26" None None None;
    entry "42.1" "2017-05-17" None None None;
    entry "13.2" "2017-01-17" None None None;
    entry "13.1" "2016-02-03" None None None;
    entry "12.3" "2015-01-29" None None None;
    entry "12.2" "2014-01-15" None None None;
    entry "12.1" "2013-05-15" None None None;
    entry "11.4" "2012-11-05" None None None;
    entry "11.3" "2012-01-20" None None None;
    entry "11.2" "2011-05-12" None None None;
    entry "11.1" "2011-01-14" None None None;
    entry "11.0" "2010-07-26" None None None]%string.

Definition amazon_linux_eol : list EolEntry := [
    entry "2023" "2029-06-30" (Some "2027-06-30") None None;
    entry "2" "2026-06-30" (Some "2026-06-30") None None;
    entry "2018.03" "2023-12-31" (Some "2020-12-31") None None;
    entry "2017.09" "2023-12-31" (Some "2020-12-31") None None;
    entry "2017.03" "2023-12-31" (Some "2020-12-31") None None;
    entry "2016.09" "2023-12-31" (Some "2020-12-31") None None;
    entry "2016.03" "2023-12-31" (Some "2020-12-31") None None;
    entry "2015.09" "2023-12-31" (Some "2020-12-31") None None;
    entry "2015.03" "2023-12-31" (Some "2020-12-31") None None;
    entry "2014.09" "2023-12-31" (Some "2020-12-31") None None;
    entry "2014.03" "2023-12-31" (Some "2020-12-31") None None;
    entry "2013.09" "2023-12-31" (Some "2020-12-31") None None;
    entry "2013.03" "2023-12-31" (Some "2020-12-31") None None;
    entry "2012.09" "2023-12-31" (Some "2020-12-31") None None;
    entry "2012.03" "2023-12-31" (Some "2020-12-31") None None;
    entry "2011.09" "2023-12-31" (Some "2020-12-31") None None;
    entry "2010.11" "2023-12-31" (Some "2020-12-31") None None]%string.

Definition fedora_eol : list EolEntry := [
    entry "44" "2027-06-02" None None None;
    entry "43" "2026-12-09" None None None;
    entry "42" "2026-05-27" None None None;
    entry "41" "2025-12-15" None None None;
    entry "40" "2025-05-13" None None None;
    entry "39" "2024-11-26" None None None;
    entry "38" "2024-05-21" None None None;
    entry "37" "2023-12-05" None None None;
    entry "36" "2023-05-16" None None None;
    entry "35" "2022-12-13" None None None;
    entry "34" "2022-06-07" None None None;
    entry "33" "2021-11-30" None None None;
    entry "32" "2021-05-25" None None None;
    entry "31" "2020-11-24" None None None;
    entry "30" "2020-05-26" None None None;
    entry "29" "2019-11-26" None None None;
    entry "28" "2019-05-28" None None None;
    entry "27" "2018-11-30" None None None;
    entry "26" "2018-05-29" None None None;
    entry "25" "2017-12-12" None None None;
    entry "24" "2017-08-08" None None None;
    entry "23" "2016-12-20" None None None;
    entry "22" "2016-07-19" None None None;
    entry "21" "2015-12-01" None None None;
    entry "20" "2015-06-23" None None None;
    entry "19" "2015-01-06" None None None;
    entry "18" "2014-01-14" None None None;
    entry "17" "2013-07-30" None None None;
    entry "16" "2013-02-12" None None None;
    entry "15" "2012-06-26" None None None;
    entry "14" "2011-12-09" None None None;
    entry "13" "2011-06-24" None None None;
    entry "12" "2010-12-02" None None None;
    entry "11" "2010-06-25" None None None;
    entry "10" "2009-12-17" None None None;
    entry "9" "2009-07-10" None None None;
    entry "8" "2009-01-07" None None None;
    entry "7" "2008-06-13" None None None;
    entry "6" "2007-12-07" None None None;
    entry "5" "2007-07-02" None None None;
    entry "4" "2006-08-07" None None None;
    entry "3" "2006-01-16" None None None;
    entry "2" "2005-04-11" None None None;
    entry "1" "2004-09-20" None None None]%string.

Definition oracle_linux_eol : list EolEntry := [
    entry "9" "2032-06-30" None (Some "2035-06-30") None;
    entry "8" "2029-07-31" None (Some "2032-07-31") None;
    entry "7" "2024-12-31" None (Some "2028-06-30") None;
    entry "6" "2021-03-31" None (Some "2024-12-31") None]%string.

Definition windows_server_eol : list EolEntry := [
    entry "2025" "2034-11-14" (Some "2029-11-13") None (Some "26100");
    entry "23h2-ac" "2025-10-24" (Some "2025-04-24") None (Some "25398");
    entry "2022" "2031-10-14" (Some "2026-10-13") None (Some "20348");
    entry "20h2-sac" "2022-08-09" (Some "2022-08-09") None (Some "19042");
    entry "2004-sac" "2021-12-14" (Some "2021-12-14") None (Some "19041");
    entry "1909-sac" "2021-05-11" (Some "2021-05-11") None (Some "18363");
    entry "1903-sac" "2020-12-08" (Some "2020-12-08") None (Some "18362");
    entry "1809-sac" "2020-11-10" (Some "2020-11-10") None (Some "17763");
    entry "2019" "2029-01-09" (Some "2024-01-09") None (Some "17763");
    entry "1803-sac" "2019-11-12" (Some "2019-11-12") None (Some "17134");
    entry "1709-sac" "2019-04-09" (Some "2019-04-09") None (Some "16299");
    entry "2016" "2027-01-12" (Some "2022-01-11") (Some "2030-01-12") (Some "14393");
    entry "2012-r2" "2023-10-10" (Some "2018-10-09") (Some "2026-10-13") (Some "9600");
    entry "2012" "2023-10-10" (Some "2018-10-09") (Some "2026-10-13") (Some "9200");
    entry "2008-r2-sp1" "2020-01-14" (Some "2015-01-13") (Some "2023-01-10") (Some "7601");
    entry "2008-sp2" "2020-01-14" (Some "2015-01-13") (Some "2023-01-10") (Some "6003");
    entry "2003-sp2" "2015-07-14" (Some "2010-07-13") None (Some "3790");
    entry "2003-sp1" "2009-04-14" (Some "2009-04-14") None (Some "3790");
    entry "2003" "2007-04-10" (Some "2007-04-10") None (Some "3790");
    entry "2000" "2010-07-13" (Some "2005-06-30") None (Some "2195")]%string.

Definition _EOL_CATALOG : list (string * list EolEntry) :=
  [("debian", debian_eol);
   ("ubuntu", ubuntu_eol);
   ("rhel", rhel_eol);
   ("rocky-linux", rocky_linux_eol);
   ("almalinux", almalinux_eol);
   ("centos", centos_eol);
   ("centos-stream", centos_stream_eol);
   ("sles", sles_eol);
   ("opensuse", opensuse_eol);
   ("amazon-linux", amazon_linux_eol);
   ("fedora", fedora_eol);
   ("oracle-linux", oracle_linux_eol);
   ("windows-server", windows_server_eol)]%string.
