(* ===== verification/OsEol.v ===== *)
(** * When an operating system's support ends

    Models [src/assessment_engine/web/services/mappers/os_eol.py].  A date is the number
    of its day since 1970-01-01. *)

From S2P Require Import Prelude PyText EolCatalog.

(** ** Dates *)

(** [date.fromisoformat] of a calendar date, with or without dashes *)
Definition date_fromisoformat (s : string) : result Z :=
  let parsed :=
    '(y, s) ← take_digits 4 0 s;
    let sep := match s with String c _ => if Ascii.eqb c "-" then "-"%string else ""%string | _ => ""%string end in
    '(m, s) ← take_field sep 2 s;
    '(d, s) ← take_field sep 2 s;
    if String.eqb s "" && (1 <=? y) && (1 <=? m) && (m <=? 12) && (1 <=? d) && (d <=? days_in_month y m)
    then Some (days_of_civil y m d) else None in
  match parsed with
  | Some t => Ok t
  | None => Raise (ValueError "Invalid isoformat string")
  end.

Example date_example :
  date_fromisoformat "2024-02-29" = Ok 19782 ∧ date_fromisoformat "20240229" = Ok 19782
  ∧ is_ok (date_fromisoformat "2023-02-29") = false ∧ is_ok (date_fromisoformat "2024-0229") = false.
Proof. vm_compute. repeat split. Qed.

(** ** Distributions *)

Definition _OS_ID_TO_EOL_PRODUCT : gmap string string := list_to_map
  [("debian", "debian"); ("ubuntu", "ubuntu"); ("rhel", "rhel"); ("rocky", "rocky-linux");
   ("almalinux", "almalinux"); ("centos", "centos"); ("sles", "sles"); ("opensuse", "opensuse");
   ("amzn", "amazon-linux"); ("fedora", "fedora"); ("ol", "oracle-linux");
   ("oracle", "oracle-linux")]%string.

Definition _DISTRO_LABELS : gmap string string := list_to_map
  [("debian", "Debian"); ("ubuntu", "Ubuntu"); ("rhel", "RHEL"); ("rocky-linux", "Rocky Linux");
   ("almalinux", "AlmaLinux"); ("centos", "CentOS"); ("centos-stream", "CentOS Stream");
   ("sles", "SLES"); ("opensuse", "openSUSE"); ("amazon-linux", "Amazon Linux");
   ("fedora", "Fedora"); ("oracle-linux", "Oracle Linux"); ("windows-server", "Windows")]%string.

Definition DISTRO_FILTER_OPTIONS : list (string * string) :=
  (λ slug, (slug, default slug (_DISTRO_LABELS !! slug))) <$> _EOL_CATALOG.*1.

Definition os_id_to_distro (os_id : option string) : string :=
  let id := str_or os_id "" in
  if String.eqb id "" then ""
  else if String.eqb id "windows" then "windows-server"
  else default id (_OS_ID_TO_EOL_PRODUCT !! id).

(** ** Stages of support *)

Record OsEolInfo := {
  eol_iso : string;
  support_iso : option string;
  extended_support_iso : option string;
  label : string;
  status : string;
}.

Definition _EOL_SEVERITY : list string := ["full"; "security_only"; "paid_only"; "ended"]%string.

(** [_EOL_SEVERITY.index(s)], of a status *)
Definition severity (s : string) : nat :=
  if String.eqb s "full" then 0 else if String.eqb s "security_only" then 1
  else if String.eqb s "paid_only" then 2 else 3.

(** [iso and date.fromisoformat(iso) <= today] *)
Definition passed (iso : option string) (today : Z) : result bool :=
  match iso with
  | None => Ok false
  | Some s => if String.eqb s "" then Ok false else d ← date_fromisoformat s; Ok (d <=? today)
  end.

Definition _classify_eol (support_iso : option string) (eol_iso : string) (extended_iso : option string)
    (today : Z) : result string :=
  ended ← passed extended_iso today;
  if (ended : bool) then Ok "ended"%string
  else
    d ← date_fromisoformat eol_iso;
    if d <=? today then Ok (if str_truthy extended_iso then "paid_only"%string else "ended"%string)
    else
      security ← passed support_iso today;
      Ok (if (security : bool) then "security_only"%string else "full"%string).

Definition classify_entry (today : Z) (e : EolEntry) : result string :=
  _classify_eol (support e) (eol e) (extendedSupport e) today.

(** [max(entries, key=lambda e: e["eol"])]: the first of the largest *)
Definition latest (e : EolEntry) (es : list EolEntry) : EolEntry :=
  foldl (λ m x, if String.ltb (eol m) (eol x) then x else m) e es.

(** [min(statuses, key=_EOL_SEVERITY.index)] *)
Definition least_severe (s : string) (ss : list string) : string :=
  foldl (λ m x, if (severity x <? severity m)%nat then x else m) s ss.

Definition info_of (e : EolEntry) (label status : string) : OsEolInfo :=
  {| eol_iso := eol e; support_iso := support e; extended_support_iso := extendedSupport e;
     label := label; status := status |}.

Definition catalog_of (product : string) : list EolEntry :=
  default [] (snd <$> find (λ p, String.eqb p.1 product) _EOL_CATALOG).

(** [ver == cycle or ver.startswith(cycle + ".")] *)
Definition of_cycle (ver : string) (e : EolEntry) : bool :=
  String.eqb ver (cycle e)
  || match drop_prefix (String.append (cycle e) ".") ver with Some _ => true | None => false end.

Definition _eol_info (os_id os_version kernel_version : option string) (today : Z)
    : result (option OsEolInfo) :=
  let id := str_or os_id "" in
  if String.eqb id "" then Ok None
  else if String.eqb id "windows" then
    let kernel_build := before_char "." (str_or kernel_version "") in
    match filter (λ e, build e = Some kernel_build) (catalog_of "windows-server") with
    | [] => Ok None
    | e :: es =>
        let rep := latest e es in
        s ← classify_entry today e;
        ss ← map_result (classify_entry today) es;
        Ok (Some (info_of rep (String.append "Windows Server " (cycle rep)) (least_severe s ss)))
    end
  else
    match _OS_ID_TO_EOL_PRODUCT !! id with
    | None => Ok None
    | Some product =>
        match find (of_cycle (str_or os_version "")) (catalog_of product) with
        | None => Ok None
        | Some e =>
            s ← classify_entry today e;
            Ok (Some (info_of e (str_or
              (Some (str_join " " (filter (λ part, part ≠ ""%string) [id; str_or os_version ""]))) "-") s))
        end
    end.

(** The stages without free patches *)
Definition unpatched (i : OsEolInfo) : bool :=
  String.eqb (status i) "paid_only" || String.eqb (status i) "ended".

Definition resolve_os_eol (os_id os_version kernel_version : option string) (today : Z)
    : result (option (string * string)) :=
  info ← _eol_info os_id os_version kernel_version today;
  Ok (match info with
      | Some i => if unpatched i then Some (eol_iso i, label i) else None
      | None => None
      end).

Definition lookup_os_eol : option string → option string → option string → Z → result (option OsEolInfo) :=
  _eol_info.

(** ** Display *)

Record OsEolDisplay := {
  display_label : string;
  css : string;
  title : string;
  sort : Z;
}.

Definition _OS_EOL_DISPLAY : gmap string (string * string * string * Z) := list_to_map
  [("ended", ("지원 종료", "text-danger", "어떤 경로로도 보안 패치 없음 · EOL {eol}", 4));
   ("paid_only", ("무상 종료", "text-danger",
      "무상 보안 패치 종료 {eol} · 연장 지원 단계 — 배포판에 따라 유상 계약이 필요하다", 3));
   ("security_only", ("보안 패치만", "text-warn",
      "기능 업데이트 종료 · 보안 패치는 유지 · 무상 종료 {eol}", 2));
   ("full", ("지원 중", "text-meta", "기능 업데이트 + 보안 패치 · 무상 종료 {eol}", 0))]%string.

Definition _OS_EOL_UNKNOWN : OsEolDisplay := {|
  display_label := "미상"; css := "text-unknown";
  title := "EOL 카탈로그 미수록·미매칭 — 지원 여부 미판정(확인 필요)"; sort := 1 |}%string.

(** [tmpl.format(eol=eol)]; [skip] characters of a placeholder are still to be dropped *)
Fixpoint format_eol (eol : string) (skip : nat) (tmpl : string) : string :=
  match tmpl with
  | EmptyString => ""
  | String c rest =>
      match skip with
      | S k => format_eol eol k rest
      | O => match drop_prefix "{eol}" tmpl with
             | Some _ => String.append eol (format_eol eol 4 rest)
             | None => String c (format_eol eol 0 rest)
             end
      end
  end.

(** [s.split(sep)[0]] *)
Fixpoint before_text (sep s : string) : string :=
  match drop_prefix sep s with
  | Some _ => ""
  | None => match s with EmptyString => "" | String c s' => String c (before_text sep s') end
  end.

Definition os_eol_display (status eol_iso : string) : OsEolDisplay :=
  match _OS_EOL_DISPLAY !! status with
  | None => _OS_EOL_UNKNOWN
  | Some (l, c, tmpl, s) =>
      {| display_label := l; css := c;
         title := if String.eqb eol_iso ""
                  then format_eol "" 0 (before_text " · 무상 종료 {eol}" tmpl)
                  else format_eol eol_iso 0 tmpl;
         sort := s |}
  end.

(** ** Windows labels *)

Definition _WINDOWS_LEGACY_BUILD_LABEL : gmap string string := list_to_map
  [("9600", "2012 R2"); ("9200", "2012"); ("7601", "2008 R2"); ("6003", "2008"); ("3790", "2003");
   ("2195", "2000")]%string.

Definition windows_legacy_version_from_build (kernel_version : option string) : option string :=
  let k := str_or kernel_version "" in
  if String.eqb k "" then None else _WINDOWS_LEGACY_BUILD_LABEL !! before_char "." k.

(** [re.search]: the first position where the pattern matches *)
Fixpoint search {A} (pattern : string → option A) (s : string) : option A :=
  match pattern s with
  | Some x => Some x
  | None => match s with EmptyString => None | String _ s' => search pattern s' end
  end.

Definition is_word_char (c : ascii) : bool :=
  let n := nat_of_ascii c in
  ((48 <=? n) && (n <=? 57) || (65 <=? n) && (n <=? 90) || (97 <=? n) && (n <=? 122)
   || (n =? 95) || (128 <=? n))%nat.

(** [Windows Server (\d{4})(?:\s+(R2))?] *)
Definition server_year (s : string) : option (string * bool) :=
  rest ← drop_prefix_nocase "windows server " s;
  '(_, after) ← take_digits 4 0 rest;
  let spaced := match after with String c _ => is_space c | EmptyString => false end in
  Some (take_chars 4 rest,
        spaced && match drop_prefix_nocase "r2" (drop_while is_space after) with
                  | Some _ => true | None => false end).

(** [Windows (10|11)\b] *)
Definition client_generation (s : string) : option string :=
  rest ← drop_prefix_nocase "windows " s;
  let ends_word (t : string) := match t with String c _ => negb (is_word_char c) | EmptyString => true end in
  match drop_prefix "10" rest with
  | Some t => if ends_word t then Some "10"%string else None
  | None => match drop_prefix "11" rest with
            | Some t => if ends_word t then Some "11"%string else None
            | None => None
            end
  end.

Definition windows_short_label_from_product_name (product_name : option string) : option string :=
  let name := str_or product_name "" in
  if String.eqb name "" then None
  else match search server_year name with
       | Some (year, r2) => Some (if (r2 : bool) then String.append year " R2" else year)
       | None => search client_generation name
       end.

Example windows_labels :
  windows_short_label_from_product_name (Some "Microsoft Windows Server 2012 R2 Standard"%string)
    = Some "2012 R2"%string
  ∧ windows_short_label_from_product_name (Some "Windows Server Datacenter"%string) = None
  ∧ windows_short_label_from_product_name (Some "Windows 11 Pro"%string) = Some "11"%string
  ∧ title (os_eol_display "full" "2030-01-01") = "기능 업데이트 + 보안 패치 · 무상 종료 2030-01-01"%string
  ∧ title (os_eol_display "full" "") = "기능 업데이트 + 보안 패치"%string.
Proof. vm_compute. repeat split. Qed.
