(* ===== verification/OsEolProps.v ===== *)
(** * End of life: the properties

    The support of a system only ages, and the warning fires exactly from the day shown. *)

From S2P Require Import Prelude PyText EolCatalog OsEol.

(** ** The catalog *)

Definition day_of (iso : string) : Z :=
  match date_fromisoformat iso with Ok d => d | Raise _ => 0 end.

Definition day (e : EolEntry) : Z := day_of (eol e).

(** The dates of an entry are dates, and paid support does not end before free support. *)
Definition entry_ok (e : EolEntry) : bool :=
  is_ok (date_fromisoformat (eol e))
  && match support e with Some s => is_ok (date_fromisoformat s) | None => true end
  && match extendedSupport e with
     | Some s => negb (String.eqb s "") && is_ok (date_fromisoformat s) && (day e <=? day_of s)
     | None => true
     end.

Lemma catalog_ok : forallb (λ p : string * list EolEntry, forallb entry_ok p.2) _EOL_CATALOG = true.
Proof. vm_compute. reflexivity. Qed.

Lemma catalog_entry_ok p e : e ∈ catalog_of p → entry_ok e = true.
Proof.
  unfold catalog_of. destruct (find _ _) as [[q l]|] eqn:E; cbn;
    [|intros H; by apply elem_of_nil in H].
  apply find_some in E as [E _]. intros He.
  pose proof (proj1 (forallb_forall _ _) catalog_ok _ E) as Hl.
  apply (proj1 (forallb_forall _ _) Hl). by apply list_elem_of_In.
Qed.

(** The texts of the Windows dates are ordered as the dates. *)
Lemma windows_order :
  forallb (λ a, forallb (λ b, Bool.eqb (String.ltb (eol a) (eol b)) (day a <? day b))
    (catalog_of "windows-server")) (catalog_of "windows-server") = true.
Proof. vm_compute. reflexivity. Qed.

Lemma windows_ltb a b :
  a ∈ catalog_of "windows-server" → b ∈ catalog_of "windows-server" →
  String.ltb (eol a) (eol b) = (day a <? day b).
Proof.
  intros Ha%list_elem_of_In Hb%list_elem_of_In.
  pose proof (proj1 (forallb_forall _ _) windows_order _ Ha) as H.
  by apply (proj1 (forallb_forall _ _) H) in Hb as ?%eqb_prop.
Qed.

(** ** One entry *)

Lemma date_day iso : is_ok (date_fromisoformat iso) = true → date_fromisoformat iso = Ok (day_of iso).
Proof. unfold day_of. by destruct (date_fromisoformat iso). Qed.

(** The stage of an entry with its boundaries as days *)
Definition stage (sup : option Z) (d : Z) (ext : option Z) (t : Z) : string :=
  if match ext with Some x => x <=? t | None => false end then "ended"
  else if d <=? t then if ext then "paid_only" else "ended"
  else if match sup with Some x => x <=? t | None => false end then "security_only" else "full".

Lemma classify_stage e :
  entry_ok e = true →
  ∃ sup ext, (∀ x, ext = Some x → day e <= x)
             ∧ ∀ t, classify_entry t e = Ok (stage sup (day e) ext t).
Proof.
  intros [[Hd Hs]%andb_true_iff Hx]%andb_true_iff. apply date_day in Hd.
  exists (match support e with Some s => if String.eqb s "" then None else Some (day_of s) | None => None end),
    (day_of <$> extendedSupport e).
  split.
  - destruct (extendedSupport e) as [x|]; [|done].
    apply andb_true_iff in Hx as [_ Hx%Z.leb_le]. by intros ? [= <-].
  - intros t'. unfold classify_entry, _classify_eol, stage, passed, str_truthy.
    rewrite Hd. destruct (extendedSupport e) as [x|]; cbn.
    + apply andb_true_iff in Hx as [[Hn Hx]%andb_true_iff _]. apply negb_true_iff in Hn. rewrite Hn.
      rewrite (date_day _ Hx). cbn. unfold day. destruct (_ <=? t'); [done|]. destruct (_ <=? t'); [done|].
      destruct (support e) as [s|]; [|done]. destruct (String.eqb s ""); [done|].
      rewrite (date_day _ Hs). cbn. by destruct (_ <=? t').
    + unfold day. destruct (_ <=? t'); [done|].
      destruct (support e) as [s|]; [|done]. destruct (String.eqb s ""); [done|].
      rewrite (date_day _ Hs). cbn. by destruct (_ <=? t').
Qed.

Lemma severity_stage sup d ext t :
  (∀ x, ext = Some x → d <= x) → (2 <=? severity (stage sup d ext t))%nat = (d <=? t).
Proof.
  intros Hx. unfold stage. destruct ext as [x|]; [specialize (Hx x eq_refl)|].
  - destruct (Z.leb_spec x t), (Z.leb_spec d t); try lia; try done.
    by repeat case_match.
  - destruct (d <=? t); [done|]. by repeat case_match.
Qed.

Lemma stage_mono sup d ext t t' :
  t <= t' → (severity (stage sup d ext t) <= severity (stage sup d ext t'))%nat.
Proof.
  intros Ht. unfold stage.
  assert (∀ o : option Z, match o with Some x => x <=? t | None => false end = true →
                match o with Some x => x <=? t' | None => false end = true) as H.
  { intros [x|]; [|done]. rewrite !Z.leb_le. lia. }
  pose proof (H ext) as Hx. pose proof (H (Some d)) as Hd. pose proof (H sup) as Hs. cbn in Hd.
  destruct (match ext with Some x => x <=? t | None => false end).
  { by rewrite Hx by done. }
  destruct (d <=? t).
  { rewrite Hd by done. destruct ext as [x|]; [|done]. cbn. destruct (x <=? t'); cbn; lia. }
  destruct (match sup with Some x => x <=? t | None => false end); [rewrite Hs by done|];
    repeat match goal with |- context [if ?b then _ else _] => destruct b end; cbn; lia.
Qed.

(** ** Several entries *)

Lemma severity_least s ss n :
  (n <=? severity (least_severe s ss))%nat = forallb (λ x, (n <=? severity x)%nat) (s :: ss).
Proof.
  unfold least_severe. revert s. induction ss as [|x ss IH]; intros s; cbn [foldl]; [cbn; by rewrite andb_true_r|].
  rewrite IH. cbn [forallb]. rewrite andb_assoc. f_equal.
  destruct (severity x <? severity s)%nat eqn:E; [apply Nat.ltb_lt in E|apply Nat.ltb_ge in E];
    destruct (Nat.leb_spec n (severity x)), (Nat.leb_spec n (severity s)); cbn; try done; lia.
Qed.

Lemma latest_spec es e (C : list EolEntry) :
  (∀ a b, a ∈ C → b ∈ C → String.ltb (eol a) (eol b) = (day a <? day b)) →
  (∀ x, x ∈ e :: es → x ∈ C) →
  latest e es ∈ e :: es ∧ ∀ x, x ∈ e :: es → day x <= day (latest e es).
Proof.
  intros HC. revert e. unfold latest. induction es as [|y es IH]; intros e HE; cbn.
  { split; [apply list_elem_of_here|]. by intros x ->%list_elem_of_singleton. }
  rewrite HC by (apply HE; set_solver).
  destruct (Z.ltb_spec (day e) (day y)) as [Hy|Hy].
  - destruct (IH y) as [H1 H2]; [set_solver|]. split; [by apply list_elem_of_further|].
    intros x [->|Hx]%elem_of_cons; [|by apply H2].
    pose proof (H2 y ltac:(apply list_elem_of_here)). lia.
  - destruct (IH e) as [H1 H2]; [set_solver|]. split; [set_solver|].
    intros x [->|[->|Hx]%elem_of_cons]%elem_of_cons.
    + apply H2, list_elem_of_here.
    + pose proof (H2 e ltac:(apply list_elem_of_here)). lia.
    + by apply H2, list_elem_of_further.
Qed.

Lemma least_severe_elem s ss : least_severe s ss ∈ s :: ss.
Proof.
  unfold least_severe. revert s. induction ss as [|x ss IH]; intros s; cbn [foldl]; [apply list_elem_of_here|].
  destruct (severity x <? severity s)%nat; [specialize (IH x)|specialize (IH s)]; set_solver.
Qed.

(** What a look-up answers: [i] with a status of the day, [st]. *)
Definition with_status (i : OsEolInfo) (st : string) : OsEolInfo :=
  {| eol_iso := eol_iso i; support_iso := support_iso i;
     extended_support_iso := extended_support_iso i; label := label i; status := st |}.

(** A status per day that only ages, and whose free patches end on day [d] *)
Definition ages (st : Z → string) (d : Z) : Prop :=
  (∀ t, st t ∈ _EOL_SEVERITY)
  ∧ (∀ t t', t <= t' → (severity (st t) <= severity (st t'))%nat)
  ∧ ∀ t, (2 <=? severity (st t))%nat = (d <=? t).

Lemma entry_ages e : entry_ok e = true →
  ∃ st, ages st (day e) ∧ ∀ t, classify_entry t e = Ok (st t).
Proof.
  intros (sup & ext & Hx & Hc)%classify_stage. exists (stage sup (day e) ext).
  split; [|done]. split; [|split].
  - intros t. unfold stage. repeat case_match; in_list.
  - intros; by apply stage_mono.
  - intros; by apply severity_stage.
Qed.

Lemma entries_age es : (∀ e, e ∈ es → entry_ok e = true) →
  ∃ sts : list (Z → string), Forall2 (λ st e, ages st (day e)) sts es
    ∧ ∀ t, map_result (classify_entry t) es = Ok ((λ st, st t) <$> sts).
Proof.
  induction es as [|e es IH]; intros Hes; [by exists []|].
  destruct (entry_ages e) as (st & Ha & Hst); [apply Hes, list_elem_of_here|].
  destruct IH as (sts & Hf & Hsts); [intros; by apply Hes, list_elem_of_further|].
  exists (st :: sts). split; [by constructor|]. intros t. cbn. by rewrite Hst, Hsts.
Qed.

Lemma least_ages st sts d ds :
  ages st d → Forall2 ages sts ds →
  ∀ m, m ∈ d :: ds → (∀ x, x ∈ d :: ds → x <= m) →
  ages (λ t, least_severe (st t) ((λ st, st t) <$> sts)) m.
Proof.
  intros Ha Hs m Hm Hmax.
  assert (Forall2 ages (st :: sts) (d :: ds)) as HF by by constructor.
  split; [|split].
  - intros t. apply (Forall_forall (.∈ _EOL_SEVERITY) (st t :: ((λ st, st t) <$> sts)));
      [|apply least_severe_elem].
    change (st t :: ((λ st, st t) <$> sts)) with ((λ st, st t) <$> (st :: sts)).
    clear Hm Hmax Ha Hs. induction HF as [|st0 d0 sts0 ds0 [Ha _] _ IH]; cbn; by constructor.
  - intros t t' Ht. apply Nat.leb_le. rewrite severity_least.
    pose proof (severity_least (st t) ((λ st, st t) <$> sts) (severity (least_severe (st t) ((λ st, st t) <$> sts))))
      as H. rewrite Nat.leb_refl in H. symmetry in H.
    revert H. generalize (severity (least_severe (st t) ((λ st0, st0 t) <$> sts))). intros n.
    change (st t :: ((λ st, st t) <$> sts)) with ((λ st, st t) <$> (st :: sts)).
    change (st t' :: ((λ st, st t') <$> sts)) with ((λ st, st t') <$> (st :: sts)).
    clear Hm Hmax Ha Hs. induction HF as [|st0 d0 sts0 ds0 Ha _ IH]; cbn; [done|].
    intros [H1%Nat.leb_le H2]%andb_true_iff. rewrite IH by done.
    rewrite andb_true_r. apply Nat.leb_le. destruct Ha as (_ & Ha & _). specialize (Ha t t' Ht). lia.
  - intros t. rewrite severity_least.
    change (st t :: ((λ st, st t) <$> sts)) with ((λ st, st t) <$> (st :: sts)).
    transitivity (forallb (λ x, x <=? t) (d :: ds)).
    + clear Hm Hmax Ha Hs. induction HF as [|st0 d0 sts0 ds0 (_ & _ & Ha) _ IH]; cbn; [done|].
      f_equal; [apply Ha|apply IH].
    + apply eq_bool_prop_intro. rewrite !Is_true_true, forallb_forall, Z.leb_le. split.
      * intros H. apply Z.leb_le, H, list_elem_of_In, Hm.
      * intros H x Hx%list_elem_of_In. apply Z.leb_le. specialize (Hmax x Hx). lia.
Qed.

Lemma lookup_ages id ver kernel :
  (∀ t, lookup_os_eol id ver kernel t = Ok None)
  ∨ ∃ i st d, date_fromisoformat (eol_iso i) = Ok d ∧ ages st d
              ∧ ∀ t, lookup_os_eol id ver kernel t = Ok (Some (with_status i (st t))).
Proof.
  unfold lookup_os_eol, _eol_info. destruct (String.eqb _ ""); [by left|].
  destruct (String.eqb _ "windows").
  - destruct (filter _ _) as [|e es] eqn:E; [by left|right].
    assert (∀ x, x ∈ e :: es → x ∈ catalog_of "windows-server") as Hin.
    { intros x. rewrite <-E. by intros [_ ?]%list_elem_of_filter. }
    assert (∀ x, x ∈ e :: es → entry_ok x = true) as Hok by (intros; eapply catalog_entry_ok; eauto).
    destruct (latest_spec es e _ windows_ltb Hin) as [Hl Hmax].
    destruct (entry_ages e) as (st & Ha & Hst); [apply Hok, list_elem_of_here|].
    destruct (entries_age es) as (sts & Hf & Hsts); [intros; by apply Hok, list_elem_of_further|].
    exists (info_of (latest e es) (String.append "Windows Server " (cycle (latest e es))) ""),
      (λ t, least_severe (st t) ((λ st, st t) <$> sts)), (day (latest e es)).
    split; [|split].
    + apply date_day. apply Hok in Hl. by apply andb_true_iff in Hl as [[? _]%andb_true_iff _].
    + apply (least_ages st sts (day e) (day <$> es)); [done|by apply Forall2_fmap_r| |].
      * change (day e :: (day <$> es)) with (day <$> (e :: es)). by apply list_elem_of_fmap_2.
      * change (day e :: (day <$> es)) with (day <$> (e :: es)).
        intros x (y & -> & Hy)%list_elem_of_fmap. by apply Hmax.
    + intros t. rewrite Hst. cbn. by rewrite Hsts.
  - destruct (_OS_ID_TO_EOL_PRODUCT !! _) as [p|]; [|by left].
    destruct (find _ _) as [e|] eqn:E; [right|by left].
    apply find_some in E as [E%list_elem_of_In%catalog_entry_ok _].
    destruct (entry_ages e E) as (st & Ha & Hst).
    eexists (info_of e _ ""), st, (day e). split; [|split; [done|]].
    + apply date_day. by apply andb_true_iff in E as [[? _]%andb_true_iff _].
    + intros t. rewrite Hst. reflexivity.
Qed.

(** ** The property *)

Lemma unpatched_severity i :
  status i ∈ _EOL_SEVERITY → unpatched i = (2 <=? severity (status i))%nat.
Proof. unfold unpatched. intros H. case_in_list H; reflexivity. Qed.

(** C32. Looking up the end of life never fails on the shipped catalog, and a system's
    support only ages: on a later day the answer has the same label and dates and a
    stage that is no better.  The warning fires exactly from the day it names: the system
    is reported as without free patches on day [t] if and only if the end-of-life date
    shown with it is not after [t], although for Windows the date is that of the longest
    supported channel of the build and the stage the mildest of all its channels. *)
Theorem os_support_only_ages id ver kernel t t' :
  t <= t' →
  match lookup_os_eol id ver kernel t with
  | Raise _ => False
  | Ok None => lookup_os_eol id ver kernel t' = Ok None ∧ resolve_os_eol id ver kernel t = Ok None
  | Ok (Some i) =>
      status i ∈ _EOL_SEVERITY
      ∧ ∃ st d,
        lookup_os_eol id ver kernel t' = Ok (Some (with_status i st))
        ∧ (severity (status i) <= severity st)%nat
        ∧ date_fromisoformat (eol_iso i) = Ok d
        ∧ resolve_os_eol id ver kernel t = Ok (if d <=? t then Some (eol_iso i, label i) else None)
  end.
Proof.
  intros Ht. unfold resolve_os_eol. change (_eol_info id ver kernel t) with (lookup_os_eol id ver kernel t).
  destruct (lookup_ages id ver kernel) as [H|(i & st & d & Hd & (Hin & Hm & Hf) & H)]; rewrite !H; [done|].
  split; [apply Hin|]. exists (st t'), d. split; [done|]. split; [by apply Hm|]. split; [done|].
  cbn [mbind result_bind]. rewrite unpatched_severity by apply Hin. cbn [status with_status].
  by rewrite Hf.
Qed.

(** Windows build 17763 is both SAC 1809, out of support since 2020-11-10, and Server
    2019, with free patches until 2029-01-09. *)
Lemma os_support_only_ages_witness :
  lookup_os_eol (Some "windows"%string) None (Some "17763.2061"%string) (day_of "2026-01-01")
    = Ok (Some {| eol_iso := "2029-01-09"; support_iso := Some "2024-01-09"; extended_support_iso := None;
                  label := "Windows Server 2019"; status := "security_only" |})%string
  ∧ resolve_os_eol (Some "windows"%string) None (Some "17763.2061"%string) (day_of "2029-01-09")
    = Ok (Some ("2029-01-09", "Windows Server 2019"))%string
  ∧ ∃ st, lookup_os_eol (Some "windows"%string) None (Some "17763.2061"%string) (day_of "2029-01-09")
    = Ok (Some {| eol_iso := "2029-01-09"; support_iso := Some "2024-01-09"; extended_support_iso := None;
                  label := "Windows Server 2019"; status := st |})%string ∧ (1 <= severity st)%nat.
Proof.
  split; [by vm_compute|]. split; [by vm_compute|].
  pose proof (os_support_only_ages (Some "windows"%string) None (Some "17763.2061"%string)
    (day_of "2026-01-01") (day_of "2029-01-09") ltac:(by vm_compute)) as H.
  set (r := lookup_os_eol _ _ _ (day_of "2026-01-01")) in H.
  assert (r = Ok (Some {| eol_iso := "2029-01-09"; support_iso := Some "2024-01-09"; extended_support_iso := None;
                  label := "Windows Server 2019"; status := "security_only" |})%string) as E by by vm_compute.
  rewrite E in H. destruct H as (_ & st & d & H1 & H2 & _). exists st. by split.
Defined.
