(* ===== verification/Outbound.v ===== *)
(** * Rows the query repositories return

    Models the records of [src/assessment_engine/db/dtos/outbound.py] the read side maps:
    [ReportRowRaw], [ServerSummary] and the rest; and
    [web/services/mappers/resource_stats.py], which reads a row as the statistics the
    right-sizing judges by. *)

From S2P Require Import Prelude PyFloat Sql RightSizing Wire.

Module RawRow.
Record ReportRowRaw := {
  server_id : Z;
  public_id : string;
  hostname : string;
  os_family : option string;
  os_id : option string;
  os_version : option string;
  os_codename : option string;
  kernel_version : option string;
  net_interfaces : option (list json);
  services : option (list json);
  last_seen_at : option datetime;
  cpu_p95_pct : option float;
  cpu_avg_pct : option float;
  cpu_peak_pct : option float;
  mem_p95_pct : option float;
  mem_avg_pct : option float;
  mem_peak_pct : option float;
  mem_near_peak_pct : option float;
  listen_ports : option (list json);
  iowait_p95_pct : option float;
  iowait_peak_pct : option float;
  cpu_run_queue_p95 : option float;
  mem_pages_input_rate_p95 : option float;
  cpu_cores : option Z;
  mem_total_bytes : option Z;
  block_devices : option (list json);
  lvm_vgs : option (list json);
  arch : option string;
  bits : option Z;
  boot_firmware : option string;
  secure_boot : option bool;
  edition : option string;
  product_name : option string;
  timezone : option string;
  rtc_utc : option bool;
  boot : option json;
  nonblock_mounts : option (list json);
  boot_time : option datetime;
  worst_mount_used_pct : option float;
  disk_capacity_worst_mount : option string;
  reboot_count : Z;
  agent_restart_count : Z;
  disk_iops_baseline : option Z;
  disk_iops_p95 : option float;
  disk_iops_peak : option float;
  disk_throughput_kbps : option float;
  disk_throughput_kbps_p95 : option float;
  disk_throughput_kbps_peak : option float;
  net_rx_kbps : option float;
  net_rx_kbps_p95 : option float;
  net_rx_kbps_peak : option float;
  net_tx_kbps : option float;
  net_tx_kbps_p95 : option float;
  net_tx_kbps_peak : option float;
  cpu_sufficiency : option float;
  mem_sufficiency : option float;
  cpu_steal_p95_pct : option float;
  cpu_burst_ratio : option float;
  procs_blocked_p95 : option float;
  procs_running_p95 : option float;
  mem_swap_paging : bool;
  oom_occurred : bool;
  history_hours : option float;
  disk_await_p95_ms : option float;
  disk_capacity_runway_days : option float;
  disk_capacity_driving_mount : option string;
  disk_inode_runway_days : option float;
  disk_inode_used_pct : option float;
  disk_capacity_target_gb : option float;
  disk_capacity_proj_30d_pct : option float;
  disk_capacity_driving_used_pct : option float;
  net_drop_pct : option float;
  net_retrans_pct : option float;
  conntrack_ratio : option float;
  cpu_trend_slope : option float;
  mem_trend_slope : option float;
  cpu_percore_p95_max : option float;
}.
End RawRow.
Abbreviation ReportRowRaw := RawRow.ReportRowRaw.

Module SummaryRow.
Record ServerSummary := {
  id : Z;
  public_id : string;
  composite_id : option string;
  hostname : string;
  os_id : option string;
  os_version : option string;
  kernel_version : option string;
  product_name : option string;
  cpu_cores : option Z;
  mem_total_bytes : option Z;
  ip_external : option (list string);
  block_devices : list json;
  service_categories : list string;
  last_seen_at : option datetime;
}.
End SummaryRow.
Abbreviation ServerSummary := SummaryRow.ServerSummary.

Module DetailRow.
Record ServerDetail := {
  id : Z;
  public_id : string;
  agent_id : string;
  composite_id : option string;
  machine_id : option string;
  hostname : string;
  agent_version : option string;
  os_family : option string;
  os_id : option string;
  os_version : option string;
  os_codename : option string;
  kernel_version : option string;
  cpu_cores : option Z;
  cpu_model : option string;
  cpu_arch : option string;
  cpu_bits : option Z;
  mem_total_bytes : option Z;
  boot_time : option datetime;
  agent_started_at : option datetime;
  net_interfaces : list json;
  ip_external : option (list string);
  block_devices : list json;
  lvm_vgs : list json;
  services : option (list json);
  listen_ports : list json;
  last_seen_at : option datetime;
  service_categories : option (list string);
  product_name : option string;
  edition : option string;
}.
End DetailRow.
Abbreviation ServerDetail := DetailRow.ServerDetail.

(** ** The statistics of a row *)

(** [x or 0] on an optional float *)
Definition or_zero (o : option float) : float :=
  match o with Some x => if float_truthy x then x else of_Z 0 | None => of_Z 0 end.

Definition net_avg (raw : ReportRowRaw) : option float :=
  match RawRow.net_rx_kbps raw, RawRow.net_tx_kbps raw with
  | None, None => None
  | rx, tx => Some (fadd (or_zero rx) (or_zero tx))
  end.

(** The sufficiency of an axis that was measured *)
Definition measured_sufficiency (p95 s : option float) : option float :=
  match p95 with Some _ => s | None => None end.

(** [min(suffs) if suffs else None] *)
Definition row_sufficiency (raw : ReportRowRaw) : option float :=
  match measured_sufficiency (RawRow.cpu_p95_pct raw) (RawRow.cpu_sufficiency raw),
        measured_sufficiency (RawRow.mem_p95_pct raw) (RawRow.mem_sufficiency raw) with
  | Some a, Some b => Some (fmin2 a b)
  | Some a, None => Some a
  | None, b => b
  end.

Definition build_resource_stats (raw : ReportRowRaw) (disk_baseline : option Z) : ResourceStats := {|
  cpu_p95_pct := RawRow.cpu_p95_pct raw;
  cpu_peak_pct := RawRow.cpu_peak_pct raw;
  cpu_cores := RawRow.cpu_cores raw;
  mem_p95_pct := RawRow.mem_p95_pct raw;
  disk_used_pct := RawRow.worst_mount_used_pct raw;
  net_avg_kbytes_per_s := net_avg raw;
  os_family := RawRow.os_family raw;
  sample_sufficiency := row_sufficiency raw;
  disk_queue_p95 := None;
  cpu_run_queue_p95 := RawRow.cpu_run_queue_p95 raw;
  mem_pages_input_rate_p95 := RawRow.mem_pages_input_rate_p95 raw;
  cpu_percore_p95_max := RawRow.cpu_percore_p95_max raw;
  procs_blocked_p95 := RawRow.procs_blocked_p95 raw;
  procs_running_p95 := RawRow.procs_running_p95 raw;
  mem_swap_paging := RawRow.mem_swap_paging raw;
  oom_occurred := RawRow.oom_occurred raw;
  mem_total_mb := (λ b, b / 1024 ^ 2) <$> RawRow.mem_total_bytes raw;
  mem_near_peak_pct := RawRow.mem_near_peak_pct raw;
  disk_await_p95_ms := RawRow.disk_await_p95_ms raw;
  (** an int, which Python compares as the number it is *)
  disk_iops_baseline := of_Z <$> disk_baseline;
  disk_capacity_runway_days := RawRow.disk_capacity_runway_days raw;
  disk_inode_runway_days := RawRow.disk_inode_runway_days raw;
  disk_inode_used_pct := RawRow.disk_inode_used_pct raw;
  disk_capacity_target_gb := RawRow.disk_capacity_target_gb raw;
  net_retrans_pct := RawRow.net_retrans_pct raw;
  net_drop_pct := RawRow.net_drop_pct raw;
  conntrack_ratio := RawRow.conntrack_ratio raw;
  history_hours := RawRow.history_hours raw;
  cpu_burst_ratio := RawRow.cpu_burst_ratio raw;
  util_trend_rising :=
    if some_and (RawRow.history_hours raw) (λ h, fge h (of_Z RS_CONFIDENCE_MIN_HOURS))
    then util_trend_rising_from_slopes (RawRow.cpu_trend_slope raw) (RawRow.mem_trend_slope raw)
    else None;
  cpu_steal_p95_pct := RawRow.cpu_steal_p95_pct raw |}.
