(* ===== verification/StorageTree.v ===== *)
(** * The storage layout tree

    Models the tree part of [src/assessment_engine/web/services/mappers/server.py]:
    block devices, which name their parent by id and repeat when they have several, are
    assembled under the physical disks.  The walk threads two mutable sets, the ids
    already placed and the disk each array was first placed under; its recursion takes
    fuel, and [StorageProps] shows that one more than there are devices is enough. *)

From S2P Require Import Prelude PyFloat PyText PyList Sql Devices MetricViews Services.

(** ** Severity of a usage *)

Definition _USAGE_DANGER_PCT : Z := 90.
Definition _USAGE_WARN_PCT : Z := 75.

Inductive _Severity := ok | warn | danger.

Definition _BADGE_CLASS_BY_SEVERITY (s : _Severity) : string :=
  match s with ok => "badge-ok" | warn => "badge-warn" | danger => "badge-danger" end.

Definition _usage_severity (pct : option float) : _Severity :=
  match pct with
  | None => ok
  | Some p => if flt p (of_Z _USAGE_WARN_PCT) then ok
              else if flt p (of_Z _USAGE_DANGER_PCT) then warn else danger
  end.

Definition _usage_badge_class (pct : option float) : string :=
  match pct with Some _ => _BADGE_CLASS_BY_SEVERITY (_usage_severity pct) | None => "" end.

Definition storagesize (gb : option float) : string :=
  match gb with
  | None => "-"
  | Some gb =>
      if fge gb (of_Z 1024) then String.append (fmt_fixed 2 (fdiv gb (of_Z 1024))) " TB"
      else if fge gb (of_Z 1) then String.append (fmt_fixed 2 gb) " GB"
      else String.append (fmt_fixed 2 (fmul gb (of_Z 1024))) " MB"
  end.

(** ** Nodes *)

Inductive StorageNode := mk_StorageNode {
  name : string;
  kind : string;
  kind_label : string;
  size_gb : option float;
  meta : string;
  badges : list string;
  mount : string;
  usage_pct : option float;
  usage_label : string;
  usage_class : string;
  inode_pct : option float;
  inode_label : string;
  inode_class : string;
  children : list StorageNode;
  gauge_info_width_px : option Z;
}.

(** [StorageNode(name=..., kind=..., kind_label=..., size_gb=..., meta=...)] *)
Definition plain_node (name kind kind_label : string) (size_gb : option float) (meta : string) : StorageNode :=
  mk_StorageNode name kind kind_label size_gb meta [] "" None "" "" None "" "" [] None.

Definition _STORAGE_KIND_LABEL : gmap string string := list_to_map
  [("disk", "디스크"); ("part", "파티션"); ("lvm", "LV"); ("raid", "RAID"); ("crypt", "암호화");
   ("swap", "스왑"); ("volume", "볼륨"); ("mpath", "멀티패스"); ("dynamic", "동적 디스크");
   ("unallocated", "미할당"); ("vg_free", "VG 여유")]%string.

Definition _UNALLOC_MIN_BYTES : Z := 64 * 1024 * 1024.
Definition _STREE_INDENT_PX : Z := 33.
Definition _STREE_INFO_TARGET_PX : Z := 340.
Definition _STREE_INFO_MIN_PX : Z := 160.
Definition _SPANNING_KINDS : list string := ["raid"; "mpath"; "dynamic"]%string.

Definition _rotational_label (rotational : option bool) : string :=
  match rotational with Some true => "HDD" | Some false => "SSD" | None => "" end.

Definition _ptable_label (pt : option string) : string :=
  let p := str_or pt "" in
  if String.eqb p "" then ""
  else if String.eqb (str_lower p) "gpt" then "GPT"
  else if mem (str_lower p) ["dos"; "mbr"; "msdos"]%string then "MBR"
  else p.

(** [str(d.get("raid_level"))]: a number or a text *)
Definition raid_level_text (d : json) : option string :=
  match node_get "raid_level" d with
  | Some (JInt n) => Some (pretty n)
  | Some (JStr s) => Some s
  | _ => None
  end.

Definition _raid_level_num (raid_level : option string) : string :=
  match raid_level with
  | None => ""
  | Some s => let s := str_lower s in default s (drop_prefix "raid" s)
  end.

(** [if s := x: parts.append(s)] *)
Definition when_text (s : string) : list string := if String.eqb s "" then [] else [s].

Definition text_at (key : string) (d : json) : string := str_or (node_str key d) "".

Definition _storage_node_meta (d : json) (kind : string) : string * list string :=
  let fst := text_at "fstype" d in
  let mp := text_at "mountpoint" d in
  let parts :=
    if String.eqb kind "disk" then
      when_text (_rotational_label (get_flag "rotational" d)) ++ when_text (_ptable_label (node_str "partition_table" d))
    else if String.eqb kind "lvm" then
      when_text (text_at "lvm_segtype" d)
      ++ (if String.eqb (text_at "lvm_vg" d) "" then [] else [String.append "VG " (text_at "lvm_vg" d)])
      ++ (if String.eqb mp "" then when_text fst else [])
    else if String.eqb kind "swap" then ["[SWAP]"%string]
    else [] in
  let badges :=
    if String.eqb kind "raid" then
      let lvl := _raid_level_num (raid_level_text d) in
      if String.eqb lvl "" then [] else [String.append "RAID" lvl]
    else if String.eqb kind "crypt" then
      let ct := text_at "crypt_type" d in
      [if contains "luks" (str_lower ct) then str_upper ct else "암호화"%string]
    else [] in
  let mounted :=
    if mem kind ["part"; "volume"]%string || (String.eqb kind "lvm" && negb (String.eqb mp ""))
    then when_text fst ++ when_text mp else [] in
  (str_join " · " (parts ++ mounted), badges).

(** [used + free], when both are known *)
Definition sum_known (used free : option Z) : option Z :=
  match used, free with Some u, Some f => Some (u + f) | _, _ => None end.

Definition _attach_fs_usage (node : StorageNode) (fs : MountUsageRaw) : StorageNode :=
  let total := sum_known (MountRow.used_bytes fs) (MountRow.free_bytes fs) in
  let pct := Devices.usage_pct (MountRow.used_bytes fs) total in
  let inode_total := sum_known (MountRow.inodes_used fs) (MountRow.inodes_free fs) in
  let ipct := match inode_total with
              | Some _ => Devices.usage_pct (MountRow.inodes_used fs) inode_total
              | None => inode_pct node
              end in {|
    name := name node; kind := kind node; kind_label := kind_label node; size_gb := size_gb node;
    meta := meta node; badges := badges node; mount := mount node;
    usage_pct := pct;
    usage_label := str_join " / " [storagesize (bytes_to_gb (MountRow.used_bytes fs)); storagesize (bytes_to_gb total)];
    usage_class := _usage_badge_class pct;
    inode_pct := ipct;
    inode_label := match inode_total with
                   | Some _ => match ipct with
                               (** a percentage of one decimal, which [str] writes with it *)
                               | Some p => String.append (fmt_fixed 1 p) "%"
                               | None => ""
                               end
                   | None => inode_label node
                   end;
    inode_class := match inode_total with Some _ => _usage_badge_class ipct | None => inode_class node end;
    children := children node; gauge_info_width_px := gauge_info_width_px node |}.

(** ** The walk *)

Definition dev_id (d : json) : option string := node_str "id" d.
Definition dev_kind (d : json) : string := str_or (node_str "type" d) "?".
Definition dev_name (d : json) : string := default ""%string (node_str "name" d).
Definition dev_size (d : json) : option float := bytes_to_gb (get_number "size_bytes" d).

(** What the recursion changes *)
Record walk := {
  visited : gset (option string);
  array_home : gmap (option string) string;
}.

Definition _member_ref_node (c : json) (homes : gmap (option string) string) : StorageNode :=
  let lvl := _raid_level_num (raid_level_text c) in
  plain_node (dev_name c) "raid_member"
    (if String.eqb lvl "" then "배열 구성원" else str_join "" ["RAID"; lvl; " 구성원"]%string)
    (dev_size c)
    (let home := str_or (homes !! dev_id c) "" in
     if String.eqb home "" then "-> 다른 디스크에 상세" else str_join "" ["-> "; home; " 에 상세"]%string).

(** [visited.add(did)], and the first disk of an array *)
Definition enter (d : json) (root_disk : string) (w : walk) : walk := {|
  visited := {[dev_id d]} ∪ visited w;
  array_home := if mem (dev_kind d) _SPANNING_KINDS && negb (bool_decide (is_Some (array_home w !! dev_id d)))
                then <[dev_id d := root_disk]> (array_home w) else array_home w |}.

(** The loop over the direct children *)
Fixpoint build_children (build : json → walk → option (StorageNode * walk)) (direct : list json) (w : walk)
    : option (list StorageNode * walk) :=
  match direct with
  | [] => Some ([], w)
  | c :: rest =>
      if decide (dev_id c ∈ visited w) then
        let here := if mem (text_at "type" c) _SPANNING_KINDS then [_member_ref_node c (array_home w)] else [] in
        '(nodes, w) ← build_children build rest w;
        Some (here ++ nodes, w)
      else
        '(node, w) ← build c w;
        '(nodes, w) ← build_children build rest w;
        Some (node :: nodes, w)
  end.

Section tree.
Variable block_devices : list json.
Variable lvm_vgs : list json.
Variable filesystems : list MountUsageRaw.

(** [children_map.get(did, [])]: the devices that name [did] as their parent, in order *)
Definition children_of (did : option string) : list json :=
  filter (λ c, node_str "parent" c = did) block_devices.

(** A dict built from a list whose last entry of a key wins; empty keys are left out *)
Definition index_by {A B} (key : A → option string) (value : A → B) (l : list A) : gmap string B :=
  foldl (λ m x, let k := str_or (key x) "" in if String.eqb k "" then m else <[k := value x]> m) ∅ l.

Definition by_id : gmap string json := index_by dev_id id block_devices.
Definition fs_by_mount : gmap string MountUsageRaw := index_by (λ f, Some (MountRow.mountpoint f)) id filesystems.
Definition fs_by_dev : gmap string MountUsageRaw := index_by MountRow.device_id id filesystems.
Definition vg_free_gb : gmap string (option float) :=
  index_by (node_str "name") (λ v, bytes_to_gb (get_number "free_bytes" v)) lvm_vgs.

(** [fs_by_dev.get(did) if did else None) or fs_by_mount.get(mp)] *)
Definition find_fs (did : option string) (mp : string) : option MountUsageRaw :=
  let did := str_or did "" in
  match (if String.eqb did "" then None else fs_by_dev !! did) with
  | Some fs => Some fs
  | None => fs_by_mount !! mp
  end.

Definition with_mount (node : StorageNode) (d : json) (depth : Z) : StorageNode :=
  let mp := text_at "mountpoint" d in
  if negb (String.eqb mp "") && negb (is_swap (Some (kind node)))
     && is_data_volume (node_str "fstype" d) (Some mp)
  then
    let node := mk_StorageNode (name node) (kind node) (kind_label node) (size_gb node) (meta node) (badges node)
      mp (usage_pct node) (usage_label node) (usage_class node) (inode_pct node) (inode_label node)
      (inode_class node) (children node) (gauge_info_width_px node) in
    match find_fs (dev_id d) mp with
    | None => node
    | Some fs =>
        let node := _attach_fs_usage node fs in
        match usage_pct node with
        | None => node
        | Some _ =>
            mk_StorageNode (name node) (kind node) (kind_label node) (size_gb node) (meta node) (badges node)
              (mount node) (usage_pct node) (usage_label node) (usage_class node) (inode_pct node)
              (inode_label node) (inode_class node) (children node)
              (Some (Z.max _STREE_INFO_MIN_PX (_STREE_INFO_TARGET_PX - depth * _STREE_INDENT_PX)))
        end
    end
  else node.

(** The node of a device, before its children *)
Definition own_node (d : json) (depth : Z) : StorageNode :=
  let kind := dev_kind d in
  let node := plain_node (dev_name d) kind (default kind (_STORAGE_KIND_LABEL !! kind)) (dev_size d) "" in
  let '(meta, badges) := _storage_node_meta d kind in
  with_mount (mk_StorageNode (name node) kind (kind_label node) (size_gb node) meta badges
    "" None "" "" None "" "" [] None) d depth.

(** Unallocated space of a physical disk, and free space of the volume groups its
    direct children belong to *)
Definition gap_nodes (d : json) (direct : list json) : list StorageNode :=
  if is_physical_disk (Some (dev_kind d)) then
    let gap := node_int "size_bytes" d - sum_Z (node_int "size_bytes" <$> direct) in
    if _UNALLOC_MIN_BYTES <=? gap then [plain_node "미할당" "unallocated" "미할당" (bytes_to_gb (Some gap)) ""] else []
  else [].

Definition vg_nodes (direct : list json) : list StorageNode :=
  let vgs_here := (λ c, text_at "lvm_vg" c)
    <$> filter (λ c, node_str "type" c = Some "lvm"%string ∧ text_at "lvm_vg" c ≠ ""%string) direct in
  (λ vg, plain_node (String.append "VG " vg) "vg_free" "VG 여유" (default None (vg_free_gb !! vg)) "확장 여력 (미할당)")
    <$> filter (λ vg, is_Some (vg_free_gb !! vg)) (sorted_set vgs_here).

Definition add_children (node : StorageNode) (nodes : list StorageNode) : StorageNode :=
  mk_StorageNode (name node) (kind node) (kind_label node) (size_gb node) (meta node) (badges node)
    (mount node) (usage_pct node) (usage_label node) (usage_class node) (inode_pct node)
    (inode_label node) (inode_class node) (children node ++ nodes) (gauge_info_width_px node).

Fixpoint _build_storage_node (fuel : nat) (root_disk : string) (depth : Z) (d : json) (w : walk)
    : option (StorageNode * walk) :=
  match fuel with
  | O => None
  | S fuel =>
      let direct := children_of (dev_id d) in
      '(nodes, w) ← build_children (_build_storage_node fuel root_disk (depth + 1)) direct (enter d root_disk w);
      Some (add_children (own_node d depth) (nodes ++ gap_nodes d direct ++ vg_nodes direct), w)
  end.

(** The comprehensions over the devices: [wanted] is asked as the walk proceeds *)
Fixpoint build_roots (fuel : nat) (wanted : json → walk → bool) (devs : list json) (w : walk)
    : option (list StorageNode * walk) :=
  match devs with
  | [] => Some ([], w)
  | d :: devs =>
      if wanted d w then
        '(node, w) ← _build_storage_node fuel (dev_name d) 0 d w;
        '(nodes, w) ← build_roots fuel wanted devs w;
        Some (node :: nodes, w)
      else build_roots fuel wanted devs w
  end.

Definition is_disk (d : json) (_ : walk) : bool := is_physical_disk (node_str "type" d).

Definition is_orphan (d : json) (w : walk) : bool :=
  bool_decide (dev_id d ∉ visited w) && negb (is_physical_disk (node_str "type" d))
  && match node_str "parent" d with
     | None => true
     | Some p => negb (bool_decide (is_Some (by_id !! p)))
     end.

Definition build_storage_tree (fuel : nat) : option (list StorageNode) :=
  '(roots, w) ← build_roots fuel is_disk block_devices {| visited := ∅; array_home := ∅ |};
  '(orphans, _) ← build_roots fuel is_orphan block_devices w;
  Some (roots ++ orphans).
End tree.

(** ** Examples *)

Definition dev (type id parent : string) (rest : list (string * json)) : json := jobj ([
  ("name", JStr (if String.eqb id "" then "?"%string else id)); ("type", JStr type);
  ("id", if String.eqb id "" then JNull else JStr id);
  ("parent", if String.eqb parent "" then JNull else JStr parent)]%string ++ rest).

Fixpoint outline (n : StorageNode) : list string :=
  name n :: (kind n :: (children n ≫= outline)).

(** Two disks of a mirror: the array is laid out under the first, the second refers to it. *)
Definition mirror : list json := [
  dev "disk" "sda" "" [("size_bytes", JInt 107374182400)]%string;
  dev "part" "sda1" "sda" [("size_bytes", JInt 53687091200)]%string;
  dev "disk" "sdb" "" [("size_bytes", JInt 107374182400)]%string;
  dev "raid" "md0" "sda1" [("raid_level", JStr "raid1")]%string;
  dev "raid" "md0" "sdb" [("raid_level", JStr "raid1")]%string;
  dev "lvm" "root" "md0" [("lvm_vg", JStr "vg0"); ("mountpoint", JStr "/"); ("fstype", JStr "ext4")]%string;
  dev "lvm" "lost" "gone" []].

Example mirror_tree :
  (λ nodes, nodes ≫= outline) <$> build_storage_tree mirror [jobj [("name", JStr "vg0"); ("free_bytes", JInt 0)]]%string [] 8
  = Some ["sda"; "disk"; "sda1"; "part"; "md0"; "raid"; "root"; "lvm"; "VG vg0"; "vg_free"; "미할당"; "unallocated";
          "sdb"; "disk"; "md0"; "raid_member"; "미할당"; "unallocated"; "lost"; "lvm"]%string.
Proof. vm_compute. reflexivity. Qed.

(** Ids are optional in the schema, and a missing id counts as an id: of the partitions
    without one only the first is placed. *)
Example second_partition_without_id_is_dropped :
  (λ nodes, nodes ≫= outline) <$> build_storage_tree
     [dev "disk" "sda" "" []; dev "part" "" "sda" []; dev "part" "" "sda" []] [] [] 4
  = Some ["sda"; "disk"; "?"; "part"]%string.
Proof. vm_compute. reflexivity. Qed.

(** A disk without an id takes every device without a parent for its child, other disks
    included, which are then shown twice. *)
Example disk_without_id_adopts_disks :
  (λ nodes, nodes ≫= outline) <$> build_storage_tree
     [dev "disk" "" "" []; dev "disk" "sdb" "" []; dev "part" "sdb1" "sdb" []] [] [] 4
  = Some ["?"; "disk"; "sdb"; "disk"; "sdb1"; "part"; "sdb"; "disk"]%string.
Proof. vm_compute. reflexivity. Qed.
