(* ===== verification/StorageProps.v ===== *)
(** * The storage tree: the properties

    Assembling the tree terminates on every inventory, cyclic ones included, and places
    each device once. *)

From S2P Require Import Prelude Sql Devices MetricViews StorageTree.

(** ** What a tree lays out

    [lays_out d depth node rows]: [node] is the node of the device [d], and [rows] are the
    devices laid out below it, [d] first; a child may also be left out, or referred to. *)

Section storage.
Variable block_devices : list json.
Variable lvm_vgs : list json.
Variable filesystems : list MountUsageRaw.

Abbreviation children_of := (children_of block_devices).
Abbreviation own_node := (own_node filesystems).
Abbreviation build_node := (_build_storage_node block_devices lvm_vgs filesystems).
Abbreviation roots_of := (build_roots block_devices lvm_vgs filesystems).

Definition finish (d : json) (depth : Z) (nodes : list StorageNode) : StorageNode :=
  add_children (own_node d depth)
    (nodes ++ gap_nodes d (children_of (dev_id d)) ++ vg_nodes lvm_vgs (children_of (dev_id d))).

Inductive lays_out : json → Z → StorageNode → list json → Prop :=
    | lays_out_node d depth nodes rows :
        lays_out_all (children_of (dev_id d)) (depth + 1) nodes rows →
        lays_out d depth (finish d depth nodes) (d :: rows)
  with lays_out_all : list json → Z → list StorageNode → list json → Prop :=
    | lays_out_nil depth : lays_out_all [] depth [] []
    | lays_out_skip c cs depth nodes rows :
        lays_out_all cs depth nodes rows → lays_out_all (c :: cs) depth nodes rows
    | lays_out_ref c cs depth homes nodes rows :
        lays_out_all cs depth nodes rows → lays_out_all (c :: cs) depth (_member_ref_node c homes :: nodes) rows
    | lays_out_child c cs depth node nodes rows rows' :
        lays_out c depth node rows → lays_out_all cs depth nodes rows' →
        lays_out_all (c :: cs) depth (node :: nodes) (rows ++ rows').

(** ** Reachable devices *)

(** The roots: the disks, and what is neither a disk nor below a known device *)
Definition is_root (d : json) : Prop :=
  d ∈ block_devices
  ∧ (is_physical_disk (node_str "type" d) = true
     ∨ match node_str "parent" d with Some p => by_id block_devices !! p = None | None => True end).

Inductive reach : option string → Prop :=
  | reach_root d : is_root d → reach (dev_id d)
  | reach_child d i : d ∈ block_devices → node_str "parent" d = i → reach i → reach (dev_id d).

(** ** Fuel: the devices whose id is not placed yet *)

Definition unplaced (w : walk) : nat := length (filter (λ d, dev_id d ∉ visited w) block_devices).

Lemma filter_length_le {A} (P Q : A → Prop) `{∀ x, Decision (P x), ∀ x, Decision (Q x)} (l : list A) :
  (∀ x, P x → Q x) → (length (filter P l) <= length (filter Q l))%nat.
Proof.
  intros HPQ. induction l as [|x l IH]; [done|]. rewrite !filter_cons.
  destruct (decide (P x)), (decide (Q x)); cbn; try lia. naive_solver.
Qed.

Lemma filter_length_lt {A} (P Q : A → Prop) `{∀ x, Decision (P x), ∀ x, Decision (Q x)} (l : list A) x :
  (∀ x, P x → Q x) → x ∈ l → Q x → ¬ P x → (length (filter P l) < length (filter Q l))%nat.
Proof.
  intros HPQ [l1 [l2 ->]]%list_elem_of_split HQ HP.
  rewrite !filter_app, !filter_cons, decide_False, decide_True by done.
  rewrite !length_app. cbn.
  pose proof (filter_length_le P Q l1 HPQ). pose proof (filter_length_le P Q l2 HPQ). lia.
Qed.

Lemma unplaced_mono w w' : visited w ⊆ visited w' → (unplaced w' <= unplaced w)%nat.
Proof. intros Hw. apply filter_length_le. set_solver. Qed.

Lemma unplaced_enter d root w :
  d ∈ block_devices → dev_id d ∉ visited w → (unplaced (enter d root w) < unplaced w)%nat.
Proof. intros Hd Hv. apply (filter_length_lt _ _ _ d); [|done..|]; cbn; set_solver. Qed.

(** ** One stretch of the walk

    From [w] to [w'] the devices [rows] were placed: their ids are exactly what became
    visited, once each, and their children are visited too. *)

Record stretch (w w' : walk) (rows : list json) : Prop := {
  st_visited : visited w' = visited w ∪ list_to_set (dev_id <$> rows);
  st_once : NoDup (dev_id <$> rows);
  st_new : ∀ r, r ∈ rows → dev_id r ∉ visited w;
  st_children : ∀ r c, r ∈ rows → c ∈ children_of (dev_id r) → dev_id c ∈ visited w';
}.

Lemma stretch_nil w : stretch w w [].
Proof. split; [set_solver|constructor|..]; intros *; intros H; by apply elem_of_nil in H. Qed.

Lemma elem_of_ids i rows : i ∈@{gset _} list_to_set (dev_id <$> rows) ↔ ∃ r, r ∈ rows ∧ dev_id r = i.
Proof. rewrite elem_of_list_to_set, list_elem_of_fmap. naive_solver. Qed.

Lemma stretch_app w w1 w2 rows1 rows2 :
  stretch w w1 rows1 → stretch w1 w2 rows2 → stretch w w2 (rows1 ++ rows2).
Proof.
  intros [V1 O1 N1 C1] [V2 O2 N2 C2]. split.
  - rewrite V2, V1, fmap_app, list_to_set_app_L. set_solver.
  - rewrite fmap_app. apply NoDup_app. split; [done|]. split; [|done].
    intros i (r & -> & Hr)%list_elem_of_fmap (r' & E & Hr')%list_elem_of_fmap.
    apply (N2 r' Hr'). rewrite V1, <-E. apply elem_of_union_r, elem_of_ids. eauto.
  - intros r [Hr|Hr]%elem_of_app; [by apply N1|]. specialize (N2 r Hr). rewrite V1 in N2. set_solver.
  - intros r c [Hr|Hr]%elem_of_app Hc; [|by eapply C2].
    specialize (C1 r c Hr Hc). rewrite V2. set_solver.
Qed.

(** A device, then what was placed below it *)
Lemma stretch_cons d root w w' rows :
  dev_id d ∉ visited w → stretch (enter d root w) w' rows →
  (∀ c, c ∈ children_of (dev_id d) → dev_id c ∈ visited w') → stretch w w' (d :: rows).
Proof.
  intros Hd [V O N C] HC. cbn [visited enter] in *. split.
  - rewrite V. cbn. set_solver.
  - cbn. apply NoDup_cons. split; [|done].
    intros (r & E & Hr)%list_elem_of_fmap. apply (N r Hr). set_solver.
  - intros r [->|Hr]%elem_of_cons; [done|]. specialize (N r Hr). set_solver.
  - intros r c [->|Hr]%elem_of_cons; [apply HC|by apply C].
Qed.

Lemma stretch_grows w w' rows : stretch w w' rows → visited w ⊆ visited w'.
Proof. intros [-> _ _ _]. set_solver. Qed.

(** ** The recursion *)

Definition below (r : json) : Prop :=
  r ∈ block_devices ∧ ∃ p, p ∈ block_devices ∧ node_str "parent" r = dev_id p.

Definition all_below (rows : list json) : Prop := ∀ r, r ∈ rows → below r.
Definition all_reached (rows : list json) : Prop := ∀ r, r ∈ rows → reach (dev_id r).

Definition node_spec (fuel : nat) : Prop :=
  ∀ root depth d w, d ∈ block_devices → (unplaced (enter d root w) < fuel)%nat →
  ∃ node rows w',
    build_node fuel root depth d w = Some (node, w')
    ∧ lays_out d depth node (d :: rows)
    ∧ stretch (enter d root w) w' rows
    ∧ (∀ c, c ∈ children_of (dev_id d) → dev_id c ∈ visited w')
    ∧ all_below rows ∧ (reach (dev_id d) → all_reached rows).

Lemma children_below d : d ∈ block_devices → all_below (children_of (dev_id d)).
Proof. intros Hd c [Hp Hc]%list_elem_of_filter. split; [done|]. by exists d. Qed.

Lemma children_spec fuel root depth cs w :
  node_spec fuel → all_below cs → (unplaced w <= fuel)%nat →
  ∃ nodes rows w',
    build_children (build_node fuel root depth) cs w = Some (nodes, w')
    ∧ lays_out_all cs depth nodes rows
    ∧ stretch w w' rows
    ∧ (∀ c, c ∈ cs → dev_id c ∈ visited w')
    ∧ all_below rows ∧ (all_reached cs → all_reached rows).
Proof.
  intros Hn. revert w. induction cs as [|c cs IH]; intros w Hk Hf; cbn [build_children].
  { exists [], [], w. split; [done|]. split; [constructor|]. split; [apply stretch_nil|].
    split; [|split]; intros; set_solver. }
  assert (all_below cs) as Hk' by (intros r Hr; apply Hk; by right).
  destruct (decide (dev_id c ∈ visited w)) as [Hc|Hc].
  - destruct (IH w) as (nodes & rows & w' & E & L & S & V & K & R); [done..|]. rewrite E.
    exists ((if mem (text_at "type" c) _SPANNING_KINDS then [_member_ref_node c (array_home w)] else []) ++ nodes),
      rows, w'. split; [done|]. split; [by destruct (mem _ _); [apply lays_out_ref|apply lays_out_skip]|]. split; [done|].
    split; [|split; [done|]].
    + intros c' [->|Hc']%elem_of_cons; [by apply (stretch_grows _ _ _ S)|by apply V].
    + intros Ha. apply R. intros r Hr. apply Ha. by right.
  - pose proof (unplaced_enter c root w (proj1 (Hk c ltac:(by left))) Hc) as Hu.
    destruct (Hn root depth c w) as (node & rows1 & w1 & E1 & L1 & S1 & V1 & K1 & R1);
      [by apply Hk; left|lia|].
    pose proof (stretch_cons _ _ _ _ _ Hc S1 V1) as S1'.
    pose proof (unplaced_mono _ _ (stretch_grows _ _ _ S1')).
    destruct (IH w1) as (nodes & rows & w' & E & L & S & V & K & R); [done|lia|].
    rewrite E1. cbn [mbind option_bind]. rewrite E.
    exists (node :: nodes), ((c :: rows1) ++ rows), w'. split; [done|]. split; [by constructor|].
    split; [by eapply stretch_app|]. split; [|split].
    + intros c' [->|Hc']%elem_of_cons; [|by apply V]. apply (stretch_grows _ _ _ S).
      rewrite (st_visited _ _ _ S1'). set_solver.
    + intros r [[->|?]%elem_of_cons|?]%elem_of_app; [apply Hk; by left|by apply K1|by apply K].
    + intros Ha r [[->|?]%elem_of_cons|?]%elem_of_app; [apply Ha; by left| |].
      * apply R1; [apply Ha; by left|done].
      * apply R; [|done]. intros r' Hr'. apply Ha. by right.
Qed.

Lemma build_spec fuel : node_spec fuel.
Proof.
  induction fuel as [|fuel IH]; intros root depth d w Hd Hf; [lia|].
  destruct (children_spec fuel root (depth + 1) (children_of (dev_id d)) (enter d root w))
    as (nodes & rows & w' & E & L & S & V & K & R); [done|by apply children_below|lia|].
  cbn [_build_storage_node]. rewrite E.
  exists (finish d depth nodes), rows, w'. split; [done|]. split; [by constructor|].
  split; [done|]. split; [done|]. split; [done|]. intros Hr. apply R.
  intros c Hc. apply list_elem_of_filter in Hc as [Hp Hc]. by eapply reach_child.
Qed.

(** More fuel changes nothing. *)
Lemma build_children_mono (f g : json → walk → option (StorageNode * walk)) cs w r :
  (∀ c w r, f c w = Some r → g c w = Some r) →
  build_children f cs w = Some r → build_children g cs w = Some r.
Proof.
  intros Hfg. revert w r. induction cs as [|c cs IH]; intros w r; cbn [build_children]; [done|].
  destruct (decide _).
  - destruct (build_children f cs w) as [[nodes w']|] eqn:E; [|done]. by rewrite (IH _ _ E).
  - destruct (f c w) as [[node w1]|] eqn:E1; [|done]. rewrite (Hfg _ _ _ E1). cbn [mbind option_bind].
    destruct (build_children f cs w1) as [[nodes w']|] eqn:E; [|done]. by rewrite (IH _ _ E).
Qed.

Lemma build_mono fuel fuel' root depth d w r : (fuel <= fuel')%nat →
  build_node fuel root depth d w = Some r → build_node fuel' root depth d w = Some r.
Proof.
  revert fuel' depth d w r. induction fuel as [|fuel IH]; intros [|fuel'] depth d w r Hf; try done; [lia|].
  cbn [_build_storage_node].
  destruct (build_children (build_node fuel root (depth + 1)) _ _) as [[nodes w']|] eqn:E; [|done].
  rewrite (build_children_mono _ (build_node fuel' root (depth + 1)) _ _ _ ltac:(intros; apply IH; [lia|done]) E).
  done.
Qed.

(** ** The roots *)

(** Each root and what lies below it *)
Definition forest (nodes : list StorageNode) (rows : list json) : Prop :=
  ∃ parts, rows = concat parts
           ∧ Forall2 (λ n part, ∃ d below, part = d :: below ∧ lays_out d 0 n part) nodes parts.

Lemma forest_cons d n below nodes rows :
  lays_out d 0 n (d :: below) → forest nodes rows → forest (n :: nodes) ((d :: below) ++ rows).
Proof.
  intros Hl (parts & -> & H). exists ((d :: below) :: parts). split; [done|]. constructor; eauto.
Qed.

Lemma forest_app nodes nodes' rows rows' :
  forest nodes rows → forest nodes' rows' → forest (nodes ++ nodes') (rows ++ rows').
Proof.
  intros (p & -> & H) (p' & -> & H'). exists (p ++ p'). split; [by rewrite concat_app|]. by apply Forall2_app.
Qed.

Section roots.
Variable fuel : nat.
Hypothesis enough : (length block_devices < fuel)%nat.

Lemma enough_for d root w : (unplaced (enter d root w) < fuel)%nat.
Proof. unfold unplaced. pose proof (length_filter (λ d0, dev_id d0 ∉ visited (enter d root w)) block_devices). lia. Qed.

Variable wanted : json → walk → bool.

Lemma roots_total ds w : (∀ d, d ∈ ds → d ∈ block_devices) → ∃ nodes w', roots_of fuel wanted ds w = Some (nodes, w').
Proof.
  revert w. induction ds as [|d ds IH]; intros w Hds; cbn [build_roots]; [eauto|].
  assert (∀ d, d ∈ ds → d ∈ block_devices) as Hds' by (intros; apply Hds; by right).
  destruct (wanted d w); [|by apply IH].
  destruct (build_spec fuel (dev_name d) 0 d w) as (node & rows & w' & -> & _);
    [apply Hds; by left|apply enough_for|].
  cbn [mbind option_bind]. destruct (IH w' Hds') as (nodes & w2 & ->). eauto.
Qed.

(** The walk keeps later roots fresh. *)
Variable fresh : list json → walk → Prop.
Hypothesis fresh_id : ∀ d ds w, fresh (d :: ds) w → wanted d w = true → dev_id d ∉ visited w.
Hypothesis fresh_skip : ∀ d ds w, fresh (d :: ds) w → fresh ds w.
Hypothesis fresh_step : ∀ d ds w w' rows,
  fresh (d :: ds) w → wanted d w = true → stretch w w' (d :: rows) → all_below rows → fresh ds w'.
Hypothesis wanted_root : ∀ d w, d ∈ block_devices → wanted d w = true → is_root d.

Lemma roots_spec ds w nodes w' :
  (∀ d, d ∈ ds → d ∈ block_devices) → fresh ds w → roots_of fuel wanted ds w = Some (nodes, w') →
  ∃ rows, forest nodes rows ∧ stretch w w' rows ∧ all_reached rows
          ∧ ∀ d, d ∈ ds → (∀ w, wanted d w = true ∨ dev_id d ∈ visited w) → dev_id d ∈ visited w'.
Proof.
  revert w nodes. induction ds as [|d ds IH]; intros w nodes Hds Hf; cbn [build_roots].
  { intros [= <- <-]. exists []. split; [by exists []|]. split; [apply stretch_nil|].
    split; intros ? H; by apply elem_of_nil in H. }
  assert (∀ d, d ∈ ds → d ∈ block_devices) as Hds' by (intros; apply Hds; by right).
  destruct (wanted d w) eqn:Hw.
  - destruct (build_spec fuel (dev_name d) 0 d w) as (node & below & w1 & -> & L & S & V & B & R);
      [apply Hds; by left|apply enough_for|].
    apply stretch_cons in S; [|by eapply fresh_id|done]. cbn [mbind option_bind].
    destruct (roots_of fuel wanted ds w1) as [[nodes' w2]|] eqn:E; [|done].
    intros [= <- <-]. destruct (IH w1 nodes') as (rows & F & S2 & R2 & V2); [done| |done|].
    { by eapply fresh_step. }
    exists ((d :: below) ++ rows). split; [by apply forest_cons|]. split; [by eapply stretch_app|].
    pose proof (reach_root d ltac:(eapply wanted_root; [apply Hds; by left|exact Hw])) as Hr.
    split.
    + intros r [[->|Hb]%elem_of_cons|Hb]%elem_of_app; [done|by apply R|by apply R2].
    + intros d' [->|Hd']%elem_of_cons Hw'; [|by apply V2].
      apply (stretch_grows _ _ _ S2). rewrite (st_visited _ _ _ S). set_solver.
  - intros E. destruct (IH w nodes) as (rows & F & S & R & V); [done|by eapply fresh_skip|done|].
    exists rows. split; [done|]. split; [done|]. split; [done|].
    intros d' [->|Hd']%elem_of_cons Hw'; [|by apply V].
    destruct (Hw' w) as [?|?]; [congruence|]. by apply (stretch_grows _ _ _ S).
Qed.
End roots.

Lemma roots_mono fuel fuel' wanted ds w r : (fuel <= fuel')%nat →
  roots_of fuel wanted ds w = Some r → roots_of fuel' wanted ds w = Some r.
Proof.
  intros Hf. revert w r. induction ds as [|d ds IH]; intros w r; cbn [build_roots]; [done|].
  destruct (wanted d w); [|by apply IH].
  destruct (build_node fuel _ _ d w) as [[node w1]|] eqn:E1; [|done].
  rewrite (build_mono _ _ _ _ _ _ _ Hf E1). cbn [mbind option_bind].
  destruct (roots_of fuel wanted ds w1) as [[nodes w']|] eqn:E; [|done]. by rewrite (IH _ _ E).
Qed.

(** ** Inventories whose disks stand for themselves *)

Record inventory_ok : Prop := {
  ids_known : ∀ d, d ∈ block_devices → dev_id d ≠ None;
  disks_once : NoDup (dev_id <$> filter (λ d, is_physical_disk (node_str "type" d) = true) block_devices);
  disks_top : ∀ d r, d ∈ block_devices → is_physical_disk (node_str "type" d) = true →
    r ∈ block_devices → dev_id r = dev_id d → node_str "parent" r = None;
}.

Definition disks_fresh (ds : list json) (w : walk) : Prop :=
  (∀ d, d ∈ ds → d ∈ block_devices)
  ∧ NoDup (dev_id <$> filter (λ d, is_physical_disk (node_str "type" d) = true) ds)
  ∧ ∀ d, d ∈ ds → is_physical_disk (node_str "type" d) = true → dev_id d ∉ visited w.

Lemma disks_fresh_skip d ds w : disks_fresh (d :: ds) w → disks_fresh ds w.
Proof.
  intros (Hin & Hn & Hv). split; [intros; apply Hin; by right|]. split; [|intros; apply Hv; [by right|done]].
  revert Hn. rewrite filter_cons. destruct (decide _); [|done]. cbn. by intros [_ ?]%NoDup_cons.
Qed.

Lemma disks_fresh_step d ds w w' rows :
  inventory_ok → disks_fresh (d :: ds) w → is_disk d w = true →
  stretch w w' (d :: rows) → all_below rows → disks_fresh ds w'.
Proof.
  intros Hok Hf Hd S B. pose proof (disks_fresh_skip _ _ _ Hf) as (Hin & Hn' & Hv'). split; [done|].
  split; [done|]. intros e He Hde. rewrite (st_visited _ _ _ S). destruct Hf as (_ & Hn & _).
  intros [?|(r & [->|Hr]%elem_of_cons & E)%elem_of_ids]%elem_of_union; [by eapply Hv'| |].
  - unfold is_disk in Hd. rewrite filter_cons, decide_True in Hn by done.
    cbn in Hn. apply NoDup_cons in Hn as [Hn _]. apply Hn. rewrite E.
    apply list_elem_of_fmap_2, list_elem_of_filter. done.
  - destruct (B r Hr) as [Hrb (p & Hp & Hpar)].
    pose proof (disks_top Hok e r (Hin e He) Hde Hrb E) as Htop. rewrite Htop in Hpar.
    by apply (ids_known Hok p).
Qed.

Lemma storage_tree_run fuel :
  (length block_devices < fuel)%nat →
  ∃ nodes, build_storage_tree block_devices lvm_vgs filesystems fuel = Some nodes
  ∧ (inventory_ok → ∃ rows, forest nodes rows ∧ NoDup (dev_id <$> rows)
                            ∧ ∀ i, i ∈ dev_id <$> rows ↔ reach i).
Proof.
  intros Hfuel. unfold build_storage_tree. set (w0 := {| visited := ∅; array_home := ∅ |}).
  destruct (roots_total fuel Hfuel is_disk block_devices w0) as (nodes & w1 & E1); [done|]. rewrite E1.
  cbn [mbind option_bind].
  destruct (roots_total fuel Hfuel (is_orphan block_devices) block_devices w1) as (nodes' & w2 & E2); [done|].
  rewrite E2. eexists. split; [done|]. intros Hok.
  eapply (roots_spec fuel Hfuel is_disk disks_fresh) in E1 as (rows & F & S & R & V).
  - eapply (roots_spec fuel Hfuel (is_orphan block_devices) (λ _ _, True)) in E2 as (rows' & F' & S' & R' & V').
    + exists (rows ++ rows'). pose proof (stretch_app _ _ _ _ _ S S') as S2.
      split; [by apply forest_app|]. split; [apply (st_once _ _ _ S2)|].
      assert (∀ i, i ∈ dev_id <$> (rows ++ rows') ↔ i ∈ visited w2) as Hids.
      { intros i. rewrite (st_visited _ _ _ S2), elem_of_union, elem_of_list_to_set. cbn. set_solver. }
      intros i. split.
      * intros (r & -> & [Hr|Hr]%elem_of_app)%list_elem_of_fmap; [by apply R|by apply R'].
      * rewrite Hids. induction 1 as [d [Hd Hroot]|d i Hd Hp _ IHr].
        -- destruct (is_physical_disk (node_str "type" d)) eqn:Hdisk.
           { apply (stretch_grows _ _ _ S'), V; [done|]. intros w. by left. }
           apply V'; [done|]. intros w. destruct (decide (dev_id d ∈ visited w)) as [|Hv]; [by right|left].
           unfold is_orphan. rewrite bool_decide_true, Hdisk by done. destruct Hroot as [?|Hpar]; [done|].
           destruct (node_str "parent" d) as [p|]; [|done]. by rewrite Hpar.
        -- apply Hids, list_elem_of_fmap in IHr as (r & -> & Hr).
           apply (st_children _ _ _ S2 r); [done|]. by apply list_elem_of_filter.
    + by intros d ds w _ [[Hv%bool_decide_eq_true_1 _]%andb_true_iff _]%andb_true_iff.
    + done.
    + done.
    + intros d w Hd [_ Hp]%andb_true_iff. split; [done|]. right.
      destruct (node_str "parent" d) as [p|]; [|done].
      apply negb_true_iff, bool_decide_eq_false_1 in Hp. by apply eq_None_not_Some.
    + done.
    + done.
  - intros d ds w (_ & _ & Hv) Hd. apply Hv; [by left|done].
  - apply disks_fresh_skip.
  - intros. by eapply disks_fresh_step.
  - intros d w Hd Hw. split; [done|]. by left.
  - done.
  - split; [done|]. split; [apply (disks_once Hok)|]. cbn. set_solver.
Qed.
End storage.

(** ** The properties *)

(** C31. Assembling the storage tree terminates on every inventory: whatever the devices
    say of their parents, cycles and missing or repeated ids included, the recursion is
    never deeper than there are devices, and the tree is the same for any larger bound. *)
Theorem storage_tree_terminates devs vgs filesystems :
  ∃ nodes, ∀ k, build_storage_tree devs vgs filesystems (S (length devs) + k) = Some nodes.
Proof.
  destruct (storage_tree_run devs vgs filesystems (S (length devs))) as (nodes & E & _); [lia|].
  exists nodes. intros k. revert E. unfold build_storage_tree.
  destruct (build_roots _ _ _ _ is_disk _ _) as [[roots w]|] eqn:E1; [|done].
  eapply roots_mono in E1 as ->; [|lia]. cbn [mbind option_bind].
  destruct (build_roots _ _ _ _ (is_orphan devs) _ _) as [[orphans w']|] eqn:E2; [|done].
  by eapply roots_mono in E2 as ->; [|lia].
Qed.

(** C30. In an inventory whose devices have ids and whose disks are listed once and have no
    parent, the tree lays each device out exactly once, members of arrays that were laid
    out under another disk being references: the ids laid out are those that can be
    reached, over the parents the devices name, from a disk or from a device whose parent
    is not in the inventory.  (Devices on a cycle of parents cannot be reached and are not
    shown.) *)
Theorem storage_tree_exact devs vgs filesystems :
  inventory_ok devs →
  ∃ nodes rows,
    build_storage_tree devs vgs filesystems (S (length devs)) = Some nodes
    ∧ forest devs vgs filesystems nodes rows
    ∧ NoDup (dev_id <$> rows)
    ∧ ∀ i, i ∈ dev_id <$> rows ↔ reach devs i.
Proof.
  intros Hok. destruct (storage_tree_run devs vgs filesystems (S (length devs))) as (nodes & E & H); [lia|].
  destruct (H Hok) as (rows & ? & ? & ?). by exists nodes, rows.
Qed.

Lemma storage_tree_exact_witness :
  inventory_ok mirror ∧ ∃ nodes rows,
    build_storage_tree mirror [] [] 8 = Some nodes ∧ forest mirror [] [] nodes rows
    ∧ NoDup (dev_id <$> rows) ∧ ∀ i, i ∈ dev_id <$> rows ↔ reach mirror i.
Proof.
  assert (inventory_ok mirror) as Hok; [|split; [exact Hok|exact (storage_tree_exact mirror [] [] Hok)]].
  split.
  - apply (Forall_forall (λ d, dev_id d ≠ None)), (bool_decide_unpack _). vm_compute. exact I.
  - apply (bool_decide_unpack _). vm_compute. exact I.
  - assert (Forall (λ d, Forall (λ r, is_physical_disk (node_str "type" d) = true →
      dev_id r = dev_id d → node_str "parent" r = None) mirror) mirror) as H
      by (apply (bool_decide_unpack _); vm_compute; exact I).
    intros d r Hd Hdisk Hr E. rewrite Forall_forall in H. specialize (H d Hd).
    rewrite Forall_forall in H. by apply (H r).
Defined.
