(* ===== verification/ServerViews.v ===== *)
(** * Server list, details, storage and network views

    Models the rest of [src/assessment_engine/web/services/mappers/server.py]: the view
    models of the list, the detail page, the storage and the network tabs, and of the
    inventory card of reports, from the rows of [Outbound]. *)

From S2P Require Import Prelude PyFloat PyText PyList RightSizing Assess Rollup Sql Wire Devices Services MetricViews Dashboard Outbound EolCatalog OsEol StorageTree.

(** ** View models *)

Module IpAddr.
Record IpAddr := { value : string; is_ipv4 : bool }.
End IpAddr.
Abbreviation IpAddr := IpAddr.IpAddr.

Module IfaceAddress.
Record NetIfaceAddress := { value : string; is_ipv4 : bool; origin : string }.
End IfaceAddress.
Abbreviation NetIfaceAddress := IfaceAddress.NetIfaceAddress.

Module IfaceInfo.
Record NetworkInterfaceInfo := {
  name : string;
  mac : string;
  mtu : option Z;
  speed_mbps : option Z;
  gateway : string;
  dns : list string;
  addresses : list NetIfaceAddress;
}.
End IfaceInfo.
Abbreviation NetworkInterfaceInfo := IfaceInfo.NetworkInterfaceInfo.

Module DiskItem.
Record DiskItem := { name : string; size_gb : option float }.
End DiskItem.
Abbreviation DiskItem := DiskItem.DiskItem.

Module VolumeItem.
Record VolumeItem := { mount : string; fstype : option string; total_gb : option float }.
End VolumeItem.
Abbreviation VolumeItem := VolumeItem.VolumeItem.

Module ServiceItem.
Record ServiceItem := {
  unit : string;
  sub : string;
  category : string;
  ports : list MatchedPort;
  display_name : string;
  (** no mapper gives it: it stays at its default, 1 *)
  category_count : Z;
}.
End ServiceItem.
Abbreviation ServiceItem := ServiceItem.ServiceItem.

Module ListenPortItem.
Record ListenPortItem := {
  proto : string;
  addr : string;
  port : Z;
  uid : option Z;
  pid : option Z;
  comm : option string;
  is_significant : bool;
}.
End ListenPortItem.
Abbreviation ListenPortItem := ListenPortItem.ListenPortItem.

Module MountUsage.
Record MountUsageItem := {
  mount : string;
  fstype : option string;
  total_gb : option float;
  used_gb : option float;
  avail_gb : option float;
  usage_pct : option float;
  badge_class : string;
  bar_color : string;
}.
End MountUsage.
Abbreviation MountUsageItem := MountUsage.MountUsageItem.

Module ListItem.
Record ServerListItem := {
  id : Z;
  public_id : string;
  hostname : string;
  os_id : option string;
  os_version : option string;
  cpu_cores : option Z;
  mem_total_gb : option float;
  storage_total_gb : option float;
  is_online : bool;
  ip_external : option (list string);
  services : list ServiceItem;
  known_services : list ServiceItem;
  show_unknown_badge : bool;
  os_display : string;
  spec_display : string;
  os_eol : string;
  os_eol_status : string;
  os_eol_label : string;
  os_eol_css : string;
  os_eol_title : string;
  os_eol_sort : Z;
  recommendation_label : string;
  provisioning_class : option Recommendation;
  has_operational_event : bool;
  os_distro : string;
}.
End ListItem.
Abbreviation ServerListItem := ListItem.ServerListItem.

Module DetailView.
Record ServerDetailResponse := {
  id : Z;
  public_id : string;
  agent_id : string;
  composite_id : option string;
  machine_id : option string;
  hostname : string;
  agent_version : option string;
  os_family : option string;
  os_id : option string;
  os_version : option string;
  os_codename : option string;
  kernel_version : option string;
  cpu_cores : option Z;
  cpu_model : option string;
  cpu_arch : option string;
  cpu_bits : option Z;
  mem_total_gb : option float;
  swap_total_gb : option float;
  boot_time : option datetime;
  agent_started_at : option datetime;
  ip_internal : list IpAddr;
  ip_external : option (list IpAddr);
  disks : list DiskItem;
  services : option (list ServiceItem);
  listen_ports : list ListenPortItem;
  last_seen_at : option datetime;
  product_name : option string;
  edition : option string;
  sorted_services : list ServiceItem;
  sorted_listen_ports : list ListenPortItem;
  known_services : list ServiceItem;
  show_unknown_badge : bool;
  key_listen_ports : list ListenPortItem;
  os_display : string;
  cpu_display : string;
  disk_total_gb : option float;
  disk_unallocated_gb : option float;
  services_count : nat;
  listen_ports_count : nat;
  disks_count : nat;
  volumes : list VolumeItem;
  volume_total_gb : option float;
  volumes_count : nat;
}.
End DetailView.
Abbreviation ServerDetailResponse := DetailView.ServerDetailResponse.

(** ** Addresses and interfaces *)

(** [sorted(items, key=lambda x: not x.is_ipv4)] *)
Definition ipv4_first {A} (is_ipv4 : A → bool) : list A → list A :=
  sort_asc (λ x, if is_ipv4 x then 0 else 1).

(** [f"{addr}/{prefix}" if prefix is not None else addr] *)
Definition cidr (a : json) : string :=
  let addr := default ""%string (node_str "address" a) in
  match get_number "prefix" a with
  | Some p => str_join "/" [addr; pretty p]
  | None => addr
  end.

Definition is_family_ipv4 (a : json) : bool := bool_decide (node_str "family" a = Some "ipv4"%string).

Definition _to_ip_addrs (net_interfaces : list json) : list IpAddr :=
  ipv4_first IpAddr.is_ipv4
    (filter (λ i, node_str "kind" i ≠ Some "loopback"%string) net_interfaces ≫= λ iface,
       (λ a, {| IpAddr.value := cidr a; IpAddr.is_ipv4 := is_family_ipv4 a |}) <$> node_list "addresses" iface).

Definition _ext_ip_addrs (ips : option (list string)) : list IpAddr :=
  ipv4_first IpAddr.is_ipv4
    ((λ s, {| IpAddr.value := s; IpAddr.is_ipv4 := negb (contains ":" s) |}) <$> default [] ips).

Definition iface_address (a : json) : NetIfaceAddress := {|
  IfaceAddress.value := cidr a; IfaceAddress.is_ipv4 := is_family_ipv4 a;
  IfaceAddress.origin := text_at "origin" a |}.

Definition iface_speed (link_speed_by_iface : gmap string Z) (iface : json) : result (option Z) :=
  match get_number "speed_mbps" iface with
  | Some s => Ok (Some s)
  | None =>
      let id := text_at "id" iface in
      match (if String.eqb id "" then None else link_speed_by_iface !! id) with
      | Some bps => Some <$> py_round (int_truediv bps 1000000)
      | None => Ok None
      end
  end.

Definition interface_info (link_speed_by_iface : gmap string Z) (iface : json) : result NetworkInterfaceInfo :=
  speed ← iface_speed link_speed_by_iface iface;
  Ok {| IfaceInfo.name := default ""%string (node_str "name" iface);
        IfaceInfo.mac := if bool_decide (node_str "id_type" iface = Some "mac"%string)
                         then text_at "id" iface else "";
        IfaceInfo.mtu := get_number "mtu" iface;
        IfaceInfo.speed_mbps := speed;
        IfaceInfo.gateway := text_at "gateway" iface;
        IfaceInfo.dns := default [] (get_strs "dns" iface);
        IfaceInfo.addresses := ipv4_first IfaceAddress.is_ipv4 (iface_address <$> node_list "addresses" iface) |}.

Definition build_network_interfaces (net_interfaces : list json) (link_speed_by_iface : gmap string Z)
    : result (list NetworkInterfaceInfo) :=
  map_result (interface_info link_speed_by_iface)
    (filter (λ i, is_virtual_interface (node_str "kind" i) = false) net_interfaces).

(** ** Disks, volumes, services, sockets *)

(** A mounted data volume: neither swap nor virtual nor boot *)
Definition is_data_node (d : json) : bool :=
  let mp := text_at "mountpoint" d in
  negb (String.eqb mp "") && negb (is_swap (node_str "type" d)) && is_data_volume (node_str "fstype" d) (Some mp).

Definition _to_volumes (block_devices : list json) : list VolumeItem :=
  sort_str VolumeItem.mount
    ((λ d, {| VolumeItem.mount := text_at "mountpoint" d; VolumeItem.fstype := node_str "fstype" d;
              VolumeItem.total_gb := bytes_to_gb (get_number "size_bytes" d) |})
     <$> filter (λ d, is_data_node d = true) block_devices).

Definition _to_disk_item (d : json) : option DiskItem :=
  if is_physical_disk (node_str "type" d)
  then Some {| DiskItem.name := dev_name d; DiskItem.size_gb := dev_size d |} else None.

Definition DYNAMIC_PORT_MIN : Z := 49152.

Definition _to_listen_port_item (p : json) : ListenPortItem :=
  let port := default 0 (get_number "port" p) in {|
    ListenPortItem.proto := default ""%string (node_str "proto" p);
    ListenPortItem.addr := default ""%string (node_str "addr" p);
    ListenPortItem.port := port;
    ListenPortItem.uid := get_number "uid" p;
    ListenPortItem.pid := get_number "pid" p;
    ListenPortItem.comm := node_str "comm" p;
    ListenPortItem.is_significant := port <? DYNAMIC_PORT_MIN |}.

Definition _to_service_item (listen_ports : option (list json)) (s : json) : ServiceItem :=
  let unit := default ""%string (node_str "unit" s) in
  let pid := get_number "pid" s in
  let sockets := fmap (M:=list) socket_view <$> listen_ports in {|
    ServiceItem.unit := unit;
    ServiceItem.sub := default ""%string (node_str "sub" s);
    ServiceItem.category := classify unit sockets pid;
    ServiceItem.ports := match sockets with
                         | None | Some [] => []
                         | Some l => matched_ports unit l pid
                         end;
    ServiceItem.display_name := removesuffix ".service" unit;
    ServiceItem.category_count := 1 |}.

Definition _services_or_none (raw listen_ports : option (list json)) : option (list ServiceItem) :=
  fmap (M:=list) (_to_service_item listen_ports) <$> raw.

Definition _os_display (os_id os_version kernel_version product_name : option string) : string :=
  let ver :=
    if bool_decide (os_id = Some "windows"%string) then
      let short := str_or (windows_short_label_from_product_name product_name) "" in
      if negb (String.eqb short "") then short
      else if String.eqb (str_or os_version "") ""
      then str_or (windows_legacy_version_from_build kernel_version) ""
      else str_or os_version ""
    else str_or os_version "" in
  str_or (Some (str_join " " (filter (λ p, p ≠ ""%string) [str_or os_id ""; ver]))) "-".

(** ** Sizes *)

(** [round(x, n)] of an optional float *)
Definition round_opt (nd : nat) (x : option float) : option float := py_round_nd nd <$> x.

Definition storage_layers_gb (block_devices : list json) : option float * option float * option float :=
  let allocated := bytes_to_gb (Some (disk_total_bytes block_devices)) in
  let fs_bytes := sum_Z (node_int "size_bytes" <$> filter (λ d, is_data_node d = true) block_devices) in
  let filesystem := if fs_bytes =? 0 then None else bytes_to_gb (Some fs_bytes) in
  let unallocated := match allocated, filesystem with
                     | Some a, Some f => Some (py_round_nd 2 (fmax2 (of_Z 0) (fsub a f)))
                     | _, _ => None
                     end in
  (round_opt 2 allocated, round_opt 2 filesystem, unallocated).

(** [x or d] of an optional number *)
Definition num_or {A} (truthy : A → bool) (o : option A) : option A :=
  match o with Some x => if truthy x then Some x else None | None => None end.

Definition spec_display_line (cpu_cores mem_total_bytes : option Z) (block_devices : option (list json)) : string :=
  let disk_bytes := disk_total_bytes (default [] block_devices) in
  let disk_gb := if disk_bytes =? 0 then None else bytes_to_gb (Some disk_bytes) in
  let shown (o : option string) := default "—"%string o in
  str_join " · " [
    shown ((λ c, String.append (pretty c) "코어") <$> num_or (λ c, negb (c =? 0)) cpu_cores);
    shown ((λ m, String.append (fmt_fixed 1 m) "GB") <$> num_or float_truthy (bytes_to_gib mem_total_bytes));
    shown ((λ d, String.append (fmt_fixed 0 d) "GB") <$> num_or float_truthy disk_gb)].

(** ** The list *)

(** [infer_role]: the first category with the largest count *)
Definition most_common_first (counter : list (string * Z)) : option string :=
  match counter with
  | [] => None
  | kv :: rest => Some (foldl (λ (m kv : string * Z), if m.2 <? kv.2 then kv else m) kv rest).1
  end.

(** The counters over raw JSON *)
Definition raw_services : option (list json) → option (list ServiceUnit) := fmap (fmap (M:=list) service_view).
Definition raw_sockets : option (list json) → option (list ListenPort) := fmap (fmap (M:=list) socket_view).

Definition raw_workload_counter (services listen_ports : option (list json)) : list (string * Z) :=
  workload_category_counter (raw_services services) (raw_sockets listen_ports).

Definition infer_role (services listen_ports : option (list json)) : string :=
  default "unknown"%string (most_common_first (raw_workload_counter services listen_ports)).

(** The EOL columns of a row: date, status, and their display *)
Definition eol_columns (info : option OsEolInfo) (unknown : string) : string * string * OsEolDisplay :=
  let '(eol, status) := match info with
                        | Some i => (eol_iso i, OsEol.status i)
                        | None => (""%string, unknown)
                        end in
  (eol, status, os_eol_display status eol).

Definition to_server_list_item (dto : ServerSummary) (raw_period : option ReportRowRaw) (today : option Z)
    (error_hosts : option (gset Z)) : result ServerListItem :=
  info ← (match today with
          | Some t => lookup_os_eol (SummaryRow.os_id dto) (SummaryRow.os_version dto) (SummaryRow.kernel_version dto) t
          | None => Ok None
          end);
  let '(os_eol, os_eol_status, disp) :=
    eol_columns info (match today with Some _ => "unknown"%string | None => ""%string end) in
  let disk_bytes := disk_total_bytes (SummaryRow.block_devices dto) in
  let known := (λ cat, {| ServiceItem.unit := ""; ServiceItem.sub := ""; ServiceItem.category := cat;
                          ServiceItem.ports := []; ServiceItem.display_name := "";
                          ServiceItem.category_count := 1 |})
               <$> filter (.∈ SIGNATURE_CATEGORIES) (SummaryRow.service_categories dto) in
  rec ← (match raw_period with
         | Some raw => h ← rollup_host (build_resource_stats raw None);
                       Ok (Some (host_status_to_recommendation (host_status h)))
         | None => Ok None
         end);
  Ok {| ListItem.id := SummaryRow.id dto;
        ListItem.public_id := SummaryRow.public_id dto;
        ListItem.hostname := SummaryRow.hostname dto;
        ListItem.os_id := SummaryRow.os_id dto;
        ListItem.os_version := SummaryRow.os_version dto;
        ListItem.cpu_cores := SummaryRow.cpu_cores dto;
        ListItem.mem_total_gb := bytes_to_gib (SummaryRow.mem_total_bytes dto);
        ListItem.storage_total_gb := round_opt 1 (if disk_bytes =? 0 then None else bytes_to_gb (Some disk_bytes));
        ListItem.is_online := false;
        ListItem.ip_external := SummaryRow.ip_external dto;
        ListItem.services := known;
        ListItem.known_services := known;
        ListItem.show_unknown_badge := false;
        ListItem.os_display := _os_display (SummaryRow.os_id dto) (SummaryRow.os_version dto)
                                 (SummaryRow.kernel_version dto) (SummaryRow.product_name dto);
        ListItem.spec_display := spec_display_line (SummaryRow.cpu_cores dto) (SummaryRow.mem_total_bytes dto)
                                   (Some (SummaryRow.block_devices dto));
        ListItem.os_eol := os_eol;
        ListItem.os_eol_status := os_eol_status;
        ListItem.os_eol_label := display_label disp;
        ListItem.os_eol_css := css disp;
        ListItem.os_eol_title := title disp;
        ListItem.os_eol_sort := sort disp;
        ListItem.recommendation_label := from_option LABEL_KO ""%string rec;
        ListItem.provisioning_class := rec;
        ListItem.has_operational_event := match error_hosts with
                                          | Some hosts => bool_decide (SummaryRow.id dto ∈ hosts)
                                          | None => false
                                          end;
        ListItem.os_distro := os_id_to_distro (SummaryRow.os_id dto) |}.

(** ** The service card of the detail page *)

(** [f"{p.proto}:{p.port}"] *)
Definition chip_key (p : MatchedPort) : string := str_join ":" [p.1; pretty p.2].

(** Sorting by port, then protocol *)
Definition by_port {A} (key : A → MatchedPort) : list A → list A :=
  sort_by (λ x y, ((key x).2 <? (key y).2)
                  || (((key x).2 =? (key y).2)
                      && match String.compare (key x).1 (key y).1 with Gt => false | _ => true end)).

(** What the loops over the categories have shown so far *)
Record chips := { seen_chip_keys : gset string; shown_port_numbers : gset Z }.

(** [for p in ports: if key not in seen: ...append(p)] *)
Fixpoint take_chips (ports : list MatchedPort) (seen : chips) : list MatchedPort * chips :=
  match ports with
  | [] => ([], seen)
  | p :: ports =>
      if decide (chip_key p ∈ seen_chip_keys seen) then take_chips ports seen
      else let '(taken, seen) := take_chips ports
             {| seen_chip_keys := {[chip_key p]} ∪ seen_chip_keys seen;
                shown_port_numbers := {[p.2]} ∪ shown_port_numbers seen |} in
           (p :: taken, seen)
  end.

(** One badge per category; [rep] is the unit that stands for it *)
Definition badge (category : string) (rep : option ServiceItem) (ports : list MatchedPort) : ServiceItem := {|
  ServiceItem.unit := from_option ServiceItem.unit ""%string rep;
  ServiceItem.sub := from_option ServiceItem.sub ""%string rep;
  ServiceItem.category := category;
  ServiceItem.ports := by_port id ports;
  ServiceItem.display_name := from_option ServiceItem.display_name ""%string rep;
  ServiceItem.category_count := 1 |}.

(** [next((s for s in svcs if s.ports), svcs[0])] *)
Definition representative (svcs : list ServiceItem) : option ServiceItem :=
  match find (λ s, negb (bool_decide (ServiceItem.ports s = []))) svcs with
  | Some s => Some s
  | None => head svcs
  end.

Fixpoint service_badges (listen_by_cat : list (string * list MatchedPort)) (by_cat : list (string * list ServiceItem))
    (seen : chips) : list ServiceItem * chips :=
  match by_cat with
  | [] => ([], seen)
  | (category, svcs) :: rest =>
      let '(ports, seen) := take_chips
        ((svcs ≫= ServiceItem.ports) ++ default [] (dict_get category listen_by_cat)) seen in
      let '(badges, seen) := service_badges listen_by_cat rest seen in
      (badge category (representative svcs) ports :: badges, seen)
  end.

Fixpoint listen_badges (known : list string) (listen_by_cat : list (string * list MatchedPort)) (seen : chips)
    : list ServiceItem * chips :=
  match listen_by_cat with
  | [] => ([], seen)
  | (category, ports) :: rest =>
      if decide (category ∈ known) then listen_badges known rest seen
      else
        let '(ports, seen) := take_chips ports seen in
        let '(badges, seen) := listen_badges known rest seen in
        (badge category None ports :: badges, seen)
  end.

Definition port_key (p : ListenPortItem) : MatchedPort := (ListenPortItem.proto p, ListenPortItem.port p).

(** [{"proto": ..., "port": ..., "comm": ...}] *)
Definition port_socket (p : ListenPortItem) : ListenPort := {|
  proto := ListenPortItem.proto p; port := ListenPortItem.port p; pid := None; comm := ListenPortItem.comm p |}.

Definition services_by_category (services : list ServiceItem) : list (string * list ServiceItem) :=
  _group_by_dim ServiceItem.category (filter (λ s, ServiceItem.category s ≠ "unknown"%string) services).

Definition all_badges (services : list ServiceItem) (listen_ports : list ListenPortItem)
    : list ServiceItem * chips :=
  let listen_by_cat := detect_listen_categories (port_socket <$> listen_ports) in
  let '(named, seen) := service_badges listen_by_cat (services_by_category services)
    {| seen_chip_keys := ∅; shown_port_numbers := ∅ |} in
  let '(others, seen) := listen_badges (ServiceItem.category <$> named) listen_by_cat seen in
  (named ++ others, seen).

Definition enrich_server_detail (detail : ServerDetailResponse) : ServerDetailResponse :=
  let services := default [] (DetailView.services detail) in
  let listen_ports := DetailView.listen_ports detail in
  let '(badges, seen) := all_badges services listen_ports in
  let known := sort_str ServiceItem.category badges in
  let parts := filter (λ p, p ≠ ""%string)
    [str_or (DetailView.cpu_model detail) "";
     match num_or (λ c, negb (c =? 0)) (DetailView.cpu_cores detail) with
     | Some c => String.append (pretty c) " cores"
     | None => ""
     end] in {|
    DetailView.id := DetailView.id detail;
    DetailView.public_id := DetailView.public_id detail;
    DetailView.agent_id := DetailView.agent_id detail;
    DetailView.composite_id := DetailView.composite_id detail;
    DetailView.machine_id := DetailView.machine_id detail;
    DetailView.hostname := DetailView.hostname detail;
    DetailView.agent_version := DetailView.agent_version detail;
    DetailView.os_family := DetailView.os_family detail;
    DetailView.os_id := DetailView.os_id detail;
    DetailView.os_version := DetailView.os_version detail;
    DetailView.os_codename := DetailView.os_codename detail;
    DetailView.kernel_version := DetailView.kernel_version detail;
    DetailView.cpu_cores := DetailView.cpu_cores detail;
    DetailView.cpu_model := DetailView.cpu_model detail;
    DetailView.cpu_arch := DetailView.cpu_arch detail;
    DetailView.cpu_bits := DetailView.cpu_bits detail;
    DetailView.mem_total_gb := DetailView.mem_total_gb detail;
    DetailView.swap_total_gb := DetailView.swap_total_gb detail;
    DetailView.boot_time := DetailView.boot_time detail;
    DetailView.agent_started_at := DetailView.agent_started_at detail;
    DetailView.ip_internal := DetailView.ip_internal detail;
    DetailView.ip_external := DetailView.ip_external detail;
    DetailView.disks := DetailView.disks detail;
    DetailView.services := DetailView.services detail;
    DetailView.listen_ports := listen_ports;
    DetailView.last_seen_at := DetailView.last_seen_at detail;
    DetailView.product_name := DetailView.product_name detail;
    DetailView.edition := DetailView.edition detail;
    DetailView.sorted_services := sort_str ServiceItem.unit services;
    DetailView.sorted_listen_ports := by_port port_key listen_ports;
    DetailView.known_services := known;
    DetailView.show_unknown_badge := negb (bool_decide (services = [])) && bool_decide (known = []);
    DetailView.key_listen_ports := by_port port_key
      (filter (λ p, ListenPortItem.is_significant p = true ∧ ListenPortItem.port p ∉ shown_port_numbers seen)
         listen_ports);
    DetailView.os_display := _os_display (DetailView.os_id detail) (DetailView.os_version detail)
                               (DetailView.kernel_version detail) (DetailView.product_name detail);
    DetailView.cpu_display := str_or (Some (str_join " " parts)) "-";
    DetailView.disk_total_gb := DetailView.disk_total_gb detail;
    DetailView.disk_unallocated_gb := DetailView.disk_unallocated_gb detail;
    DetailView.services_count := length services;
    DetailView.listen_ports_count := length listen_ports;
    DetailView.disks_count := length (DetailView.disks detail);
    DetailView.volumes := DetailView.volumes detail;
    DetailView.volume_total_gb := DetailView.volume_total_gb detail;
    DetailView.volumes_count := length (DetailView.volumes detail) |}.

(** ** The detail page *)

Definition some_if_any {A B} (l : option (list A)) (f : option (list A) → B) : option B :=
  match l with None | Some [] => None | Some _ => Some (f l) end.

Definition to_server_detail (dto : ServerDetail) : ServerDetailResponse :=
  let layers := storage_layers_gb (DetailRow.block_devices dto) in
  enrich_server_detail {|
    DetailView.id := DetailRow.id dto;
    DetailView.public_id := DetailRow.public_id dto;
    DetailView.agent_id := DetailRow.agent_id dto;
    DetailView.composite_id := DetailRow.composite_id dto;
    DetailView.machine_id := DetailRow.machine_id dto;
    DetailView.hostname := DetailRow.hostname dto;
    DetailView.agent_version := DetailRow.agent_version dto;
    DetailView.os_family := DetailRow.os_family dto;
    DetailView.os_id := DetailRow.os_id dto;
    DetailView.os_version := DetailRow.os_version dto;
    DetailView.os_codename := DetailRow.os_codename dto;
    DetailView.kernel_version := DetailRow.kernel_version dto;
    DetailView.cpu_cores := DetailRow.cpu_cores dto;
    DetailView.cpu_model := DetailRow.cpu_model dto;
    DetailView.cpu_arch := DetailRow.cpu_arch dto;
    DetailView.cpu_bits := DetailRow.cpu_bits dto;
    DetailView.mem_total_gb := bytes_to_gib (DetailRow.mem_total_bytes dto);
    DetailView.swap_total_gb := bytes_to_gib (Some (swap_total_bytes (DetailRow.block_devices dto)));
    DetailView.boot_time := DetailRow.boot_time dto;
    DetailView.agent_started_at := DetailRow.agent_started_at dto;
    DetailView.ip_internal := _to_ip_addrs (DetailRow.net_interfaces dto);
    DetailView.ip_external := some_if_any (DetailRow.ip_external dto) _ext_ip_addrs;
    DetailView.disks := omap _to_disk_item (DetailRow.block_devices dto);
    DetailView.services := _services_or_none (DetailRow.services dto) (Some (DetailRow.listen_ports dto));
    DetailView.listen_ports := _to_listen_port_item <$> DetailRow.listen_ports dto;
    DetailView.last_seen_at := DetailRow.last_seen_at dto;
    DetailView.product_name := DetailRow.product_name dto;
    DetailView.edition := DetailRow.edition dto;
    DetailView.sorted_services := [];
    DetailView.sorted_listen_ports := [];
    DetailView.known_services := [];
    DetailView.show_unknown_badge := false;
    DetailView.key_listen_ports := [];
    DetailView.os_display := "";
    DetailView.cpu_display := "";
    DetailView.disk_total_gb := layers.1.1;
    DetailView.disk_unallocated_gb := layers.2;
    DetailView.services_count := 0;
    DetailView.listen_ports_count := 0;
    DetailView.disks_count := 0;
    DetailView.volumes := _to_volumes (DetailRow.block_devices dto);
    DetailView.volume_total_gb := layers.1.2;
    DetailView.volumes_count := 0 |}.

(** ** The storage tab *)

Module StorageRow.
Record StorageWithUsage := {
  server_id : Z;
  public_id : string;
  hostname : string;
  block_devices : list json;
  lvm_vgs : list json;
  filesystems : list MountUsageRaw;
  inventory_at : option datetime;
  os_family : option string;
}.
End StorageRow.
Abbreviation StorageWithUsage := StorageRow.StorageWithUsage.

Module StorageView.
Record StorageDetailResponse := {
  server_id : Z;
  public_id : string;
  hostname : string;
  disks : list DiskItem;
  mounts : list MountUsageItem;
  fs_total_gb : option float;
  snapshot_at : option datetime;
  inventory_at : option datetime;
  disk_total_gb : option float;
  disk_unallocated_gb : option float;
  tree : list StorageNode;
  os_family : option string;
}.
End StorageView.
Abbreviation StorageDetailResponse := StorageView.StorageDetailResponse.

Definition _MOUNT_BAR_COLOR : string := "var(--color-title)".

Definition _build_mount_item (mount : string) (fstype : option string) (used_bytes free_bytes : option Z)
    : MountUsageItem :=
  let total_bytes := sum_known used_bytes free_bytes in
  let pct := Devices.usage_pct used_bytes total_bytes in {|
    MountUsage.mount := mount;
    MountUsage.fstype := fstype;
    MountUsage.total_gb := bytes_to_gb total_bytes;
    MountUsage.used_gb := bytes_to_gb used_bytes;
    MountUsage.avail_gb := bytes_to_gb free_bytes;
    MountUsage.usage_pct := pct;
    MountUsage.badge_class := _usage_badge_class pct;
    MountUsage.bar_color := _MOUNT_BAR_COLOR |}.

Definition storage_mounts (filesystems : list MountUsageRaw) : list MountUsageItem :=
  (λ fs, _build_mount_item (MountRow.mountpoint fs) (MountRow.fstype fs) (MountRow.used_bytes fs)
           (MountRow.free_bytes fs))
  <$> filter (λ fs, is_data_volume (MountRow.fstype fs) (Some (MountRow.mountpoint fs)) = true) filesystems.

(** [max(l) if l else None] *)
Definition max_opt (l : list Z) : option Z :=
  match l with [] => None | x :: l => Some (max_list_Z x l) end.

(** The tree takes the fuel [StorageProps] shows to be enough. *)
Definition to_storage_detail (dto : StorageWithUsage) : option StorageDetailResponse :=
  let mounts := storage_mounts (StorageRow.filesystems dto) in
  let layers := storage_layers_gb (StorageRow.block_devices dto) in
  tree ← build_storage_tree (StorageRow.block_devices dto) (StorageRow.lvm_vgs dto) (StorageRow.filesystems dto)
           (S (length (StorageRow.block_devices dto)));
  Some {|
    StorageView.server_id := StorageRow.server_id dto;
    StorageView.public_id := StorageRow.public_id dto;
    StorageView.hostname := StorageRow.hostname dto;
    StorageView.disks := omap _to_disk_item
      (filter (λ d, is_physical_disk (node_str "type" d) = true) (StorageRow.block_devices dto));
    StorageView.mounts := sort_str MountUsage.mount mounts;
    StorageView.fs_total_gb := match mounts with
                               | [] => None
                               | _ => Some (py_sum (of_Z 0) (omap MountUsage.total_gb mounts))
                               end;
    StorageView.snapshot_at := max_opt (omap MountRow.collected_at (StorageRow.filesystems dto));
    StorageView.inventory_at := StorageRow.inventory_at dto;
    StorageView.disk_total_gb := layers.1.1;
    StorageView.disk_unallocated_gb := layers.2;
    StorageView.tree := tree;
    StorageView.os_family := StorageRow.os_family dto |}.

(** ** The network tab *)

Module NetworkRow.
Record NetworkWithIo := {
  server_id : Z;
  public_id : string;
  hostname : string;
  net_interfaces : list json;
  ip_external : option (list string);
  net_io : list NetIoRaw;
  inventory_at : option datetime;
  os_family : option string;
  link_speed_by_iface : gmap string Z;
}.
End NetworkRow.
Abbreviation NetworkWithIo := NetworkRow.NetworkWithIo.

Module NetworkView.
Record NetworkDetailResponse := {
  server_id : Z;
  public_id : string;
  hostname : string;
  ip_internal : list IpAddr;
  ip_external : option (list IpAddr);
  interfaces : list NetIoSnapshot;
  inventory_at : option datetime;
  snapshot_at : option datetime;
  interfaces_info : list NetworkInterfaceInfo;
  os_family : option string;
}.
End NetworkView.
Abbreviation NetworkDetailResponse := NetworkView.NetworkDetailResponse.

Definition to_network_detail (dto : NetworkWithIo) : result NetworkDetailResponse :=
  infos ← build_network_interfaces (NetworkRow.net_interfaces dto) (NetworkRow.link_speed_by_iface dto);
  Ok {| NetworkView.server_id := NetworkRow.server_id dto;
        NetworkView.public_id := NetworkRow.public_id dto;
        NetworkView.hostname := NetworkRow.hostname dto;
        NetworkView.ip_internal := _to_ip_addrs (NetworkRow.net_interfaces dto);
        NetworkView.ip_external := some_if_any (NetworkRow.ip_external dto) _ext_ip_addrs;
        NetworkView.interfaces := compute_net_io (NetworkRow.net_io dto) None;
        NetworkView.inventory_at := NetworkRow.inventory_at dto;
        NetworkView.snapshot_at := max_opt (NetRow.collected_at <$> NetworkRow.net_io dto);
        NetworkView.interfaces_info := infos;
        NetworkView.os_family := NetworkRow.os_family dto |}.

(** ** The inventory card of a report *)

Module InventorySnapshot.
Record ServerInventorySnapshot := {
  hostname : string;
  os_display : string;
  os_codename : option string;
  kernel_version : option string;
  cpu_model : option string;
  cpu_cores : option Z;
  mem_total_gb : option float;
  swap_total_gb : option float;
  disk_total_gb : option Z;
  ip_internal : list IpAddr;
  ip_external : list IpAddr;
  boot_time : option datetime;
  agent_started_at : option datetime;
  last_seen_at : option datetime;
  agent_version : option string;
  composite_id : option string;
  machine_id : option string;
  is_online : bool;
  public_id : option string;
  agent_id : option string;
  cpu_arch : option string;
  cpu_bits : option Z;
  boot_firmware : option string;
  secure_boot : option bool;
  os_edition : option string;
  timezone : option string;
}.
End InventorySnapshot.
Abbreviation ServerInventorySnapshot := InventorySnapshot.ServerInventorySnapshot.

(** [int(bytes_to_gb(n) or 0)] *)
Definition whole_gb (n : Z) : result Z :=
  match num_or float_truthy (bytes_to_gb (Some n)) with Some gb => py_int gb | None => Ok 0 end.

Definition build_server_inventory (detail : ServerDetail) (is_online : bool) (raw : option ReportRowRaw)
    : result ServerInventorySnapshot :=
  disk_gb ← whole_gb (disk_total_bytes (DetailRow.block_devices detail));
  Ok {| InventorySnapshot.hostname := DetailRow.hostname detail;
        InventorySnapshot.os_display := _os_display (DetailRow.os_id detail) (DetailRow.os_version detail)
                                          (DetailRow.kernel_version detail) (DetailRow.product_name detail);
        InventorySnapshot.os_codename := DetailRow.os_codename detail;
        InventorySnapshot.kernel_version := DetailRow.kernel_version detail;
        InventorySnapshot.cpu_model := DetailRow.cpu_model detail;
        InventorySnapshot.cpu_cores := DetailRow.cpu_cores detail;
        InventorySnapshot.mem_total_gb := bytes_to_gib (DetailRow.mem_total_bytes detail);
        InventorySnapshot.swap_total_gb := bytes_to_gib (Some (swap_total_bytes (DetailRow.block_devices detail)));
        InventorySnapshot.disk_total_gb := Some disk_gb;
        InventorySnapshot.ip_internal := _to_ip_addrs (DetailRow.net_interfaces detail);
        InventorySnapshot.ip_external := _ext_ip_addrs (DetailRow.ip_external detail);
        InventorySnapshot.boot_time := DetailRow.boot_time detail;
        InventorySnapshot.agent_started_at := DetailRow.agent_started_at detail;
        InventorySnapshot.last_seen_at := DetailRow.last_seen_at detail;
        InventorySnapshot.agent_version := DetailRow.agent_version detail;
        InventorySnapshot.composite_id := DetailRow.composite_id detail;
        InventorySnapshot.machine_id := DetailRow.machine_id detail;
        InventorySnapshot.is_online := is_online;
        InventorySnapshot.public_id := Some (DetailRow.public_id detail);
        InventorySnapshot.agent_id := Some (DetailRow.agent_id detail);
        InventorySnapshot.cpu_arch := DetailRow.cpu_arch detail;
        InventorySnapshot.cpu_bits := DetailRow.cpu_bits detail;
        InventorySnapshot.boot_firmware := r ← raw; RawRow.boot_firmware r;
        InventorySnapshot.secure_boot := r ← raw; RawRow.secure_boot r;
        InventorySnapshot.os_edition := r ← raw; RawRow.edition r;
        InventorySnapshot.timezone := r ← raw; RawRow.timezone r |}.
