(* ===== verification/ViewProps.v ===== *)
(** * Server views: the properties

    The service card of the detail page. *)

From stdpp Require Import sorting.
From S2P Require Import Prelude PyText PyList Services ServiceProps ServerViews.

(** ** Chips *)

(** The chips of a list are what has been seen. *)
Definition recorded (shown : list MatchedPort) (seen : chips) : Prop :=
  NoDup (chip_key <$> shown)
  ∧ seen_chip_keys seen = list_to_set (chip_key <$> shown)
  ∧ shown_port_numbers seen = list_to_set (snd <$> shown).

Lemma recorded_perm l1 l2 seen : l1 ≡ₚ l2 → recorded l1 seen → recorded l2 seen.
Proof.
  intros Hp (H1 & H2 & H3). split; [by rewrite <-Hp|]. rewrite H2, H3.
  split; apply list_to_set_perm_L; by rewrite Hp.
Qed.

Lemma take_chips_recorded ports shown seen taken seen' :
  recorded shown seen → take_chips ports seen = (taken, seen') → recorded (shown ++ taken) seen'.
Proof.
  revert shown seen taken. induction ports as [|p ports IH]; intros shown seen taken Hr; cbn [take_chips].
  { intros [= <- <-]. by rewrite app_nil_r. }
  destruct (decide _) as [Hs|Hs]; [by apply IH|].
  destruct (take_chips ports _) as [l s] eqn:E. intros [= <- <-].
  apply (IH (shown ++ [p])) in E; [by rewrite <-app_assoc in E|].
  destruct Hr as (H1 & H2 & H3). unfold recorded. rewrite !fmap_app, !list_to_set_app_L. cbn.
  rewrite H2 in Hs |- *. rewrite H3. split; [|set_solver].
  apply NoDup_app. split; [done|]. split; [|apply NoDup_singleton].
  intros k Hk ->%list_elem_of_singleton. by apply Hs, elem_of_list_to_set.
Qed.

Lemma by_port_perm {A} (key : A → MatchedPort) l : by_port key l ≡ₚ l.
Proof. apply sort_by_perm. Qed.

Lemma service_badges_recorded listen by_cat shown seen badges seen' :
  recorded shown seen → service_badges listen by_cat seen = (badges, seen') →
  recorded (shown ++ (badges ≫= ServiceItem.ports)) seen' ∧ ServiceItem.category <$> badges = by_cat.*1.
Proof.
  revert shown seen badges. induction by_cat as [|[c svcs] by_cat IH]; intros shown seen badges Hr;
    cbn [service_badges].
  { intros [= <- <-]. by rewrite app_nil_r. }
  destruct (take_chips _ seen) as [ports s1] eqn:E1. destruct (service_badges listen by_cat s1) as [bs s2] eqn:E2.
  intros [= <- <-]. apply (take_chips_recorded _ _ _ _ _ Hr) in E1.
  apply (IH _ _ _ E1) in E2 as [Hr2 Hc]. split; [|by cbn; rewrite Hc].
  eapply recorded_perm; [|exact Hr2]. cbn. by rewrite <-app_assoc, by_port_perm.
Qed.

Lemma listen_badges_recorded known listen shown seen badges seen' :
  recorded shown seen → listen_badges known listen seen = (badges, seen') →
  recorded (shown ++ (badges ≫= ServiceItem.ports)) seen'
  ∧ ServiceItem.category <$> badges = filter (.∉ known) listen.*1.
Proof.
  revert shown seen badges. induction listen as [|[c ports] listen IH]; intros shown seen badges Hr;
    cbn [listen_badges].
  { intros [= <- <-]. by rewrite app_nil_r. }
  change (((c, ports) :: listen).*1) with (c :: listen.*1). rewrite filter_cons.
  destruct (decide (c ∈ known)) as [Hc|Hc].
  { rewrite decide_False by tauto. by apply IH. }
  rewrite decide_True by done.
  destruct (take_chips ports seen) as [taken s1] eqn:E1. destruct (listen_badges known listen s1) as [bs s2] eqn:E2.
  intros [= <- <-]. apply (take_chips_recorded _ _ _ _ _ Hr) in E1.
  apply (IH _ _ _ E1) in E2 as [Hr2 Hk]. split; [|by cbn; rewrite Hk].
  eapply recorded_perm; [|exact Hr2]. cbn. by rewrite <-app_assoc, by_port_perm.
Qed.

Lemma all_badges_recorded services listen_ports badges seen :
  all_badges services listen_ports = (badges, seen) → recorded (badges ≫= ServiceItem.ports) seen.
Proof.
  unfold all_badges. destruct (service_badges _ _ _) as [named s1] eqn:E1.
  destruct (listen_badges _ _ s1) as [others s2] eqn:E2. intros [= <- <-].
  apply (service_badges_recorded _ _ []) in E1 as [Hr _]; [|by repeat split; constructor].
  apply (listen_badges_recorded _ _ _ _ _ _ Hr) in E2 as [Hr2 _]. by rewrite bind_app.
Qed.

Lemma detect_nodup ports : NoDup (detect_listen_categories ports).*1.
Proof.
  unfold detect_listen_categories. generalize (scan_ports (λ p, bool_decide (is_Some (socket_category p)))
    (sort_ports ports) ∅). intros l. induction l as [|p l IH] using rev_ind; [constructor|].
  rewrite foldl_app. cbn. destruct (socket_category p) as [c|]; [|done].
  rewrite setdefault_append_keys. apply NoDup_app. split; [done|].
  destruct (decide _) as [|Hn]; [split; [intros ? _ H; by apply elem_of_nil in H|constructor]|].
  split; [|apply NoDup_singleton]. by intros k Hk ->%list_elem_of_singleton.
Qed.

Lemma services_by_category_keys services c :
  c ∈ (services_by_category services).*1 ↔
  c ≠ "unknown"%string ∧ ∃ s, s ∈ services ∧ ServiceItem.category s = c.
Proof.
  unfold services_by_category. rewrite list_elem_of_fmap. split.
  - intros ([k rs] & -> & H). apply group_by_dim_elem in H as [H _]. cbn.
    apply list_elem_of_fmap in H as (s & -> & [Hs Hin]%list_elem_of_filter). eauto.
  - intros (Hc & s & Hs & <-).
    exists (ServiceItem.category s, filter (λ r, ServiceItem.category r = ServiceItem.category s)
      (filter (λ s, ServiceItem.category s ≠ "unknown"%string) services)).
    split; [done|]. apply group_by_dim_elem. split; [|done].
    by apply list_elem_of_fmap_2, list_elem_of_filter.
Qed.

Lemma all_badges_categories services listen_ports badges seen :
  all_badges services listen_ports = (badges, seen) →
  ServiceItem.category <$> badges =
    (services_by_category services).*1
    ++ filter (.∉ (services_by_category services).*1) (detect_listen_categories (port_socket <$> listen_ports)).*1.
Proof.
  unfold all_badges. destruct (service_badges _ _ _) as [named s1] eqn:E1.
  destruct (listen_badges _ _ s1) as [others s2] eqn:E2. intros [= <- <-].
  apply (service_badges_recorded _ _ []) in E1 as [Hr Hc]; [|by repeat split; constructor].
  rewrite Hc in E2. apply (listen_badges_recorded _ _ _ _ _ _ Hr) in E2 as [_ Hk].
  by rewrite fmap_app, Hc, Hk.
Qed.

(** C29. The service card of the detail page shows each category once, in order: the
    categories of the services that have one and those the sockets show.  A socket is a
    chip of at most one badge; and a significant socket whose port is no chip is listed
    among the key ports, so none disappears.  Computing the card again, as the cache does,
    changes nothing. *)
Theorem service_card_correct (detail : ServerDetailResponse) :
  let d := enrich_server_detail detail in
  let badges := DetailView.known_services d in
  let services := default [] (DetailView.services detail) in
  let sockets := DetailView.listen_ports detail in
  let chips := badges ≫= ServiceItem.ports in
  StronglySorted (λ x y, String.le (ServiceItem.category x) (ServiceItem.category y)) badges
  ∧ NoDup (ServiceItem.category <$> badges)
  ∧ (∀ c, c ∈ ServiceItem.category <$> badges ↔
       (c ≠ "unknown"%string ∧ ∃ s, s ∈ services ∧ ServiceItem.category s = c)
       ∨ c ∈ (detect_listen_categories (port_socket <$> sockets)).*1)
  ∧ NoDup chips
  ∧ (∀ p, p ∈ DetailView.key_listen_ports d ↔
       p ∈ sockets ∧ ListenPortItem.is_significant p = true ∧ ListenPortItem.port p ∉ snd <$> chips)
  ∧ enrich_server_detail d = d.
Proof.
  cbv zeta. unfold enrich_server_detail.
  destruct (all_badges _ (DetailView.listen_ports detail)) as [badges seen] eqn:E.
  cbn [DetailView.known_services DetailView.key_listen_ports DetailView.services DetailView.listen_ports].
  pose proof (all_badges_categories _ _ _ _ E) as Hc. pose proof (all_badges_recorded _ _ _ _ E) as (Hk & _ & Hp).
  set (sorted := sort_str ServiceItem.category badges).
  assert (sorted ≡ₚ badges) as Hperm by apply sort_by_perm.
  split; [apply sort_str_sorted|]. split; [|split; [|split; [|split]]].
  - rewrite Hperm, Hc. apply NoDup_app. split; [apply group_by_dim_nodup|].
    split; [|apply NoDup_filter, detect_nodup]. by intros c H [? _]%list_elem_of_filter.
  - intros c. rewrite Hperm, Hc, elem_of_app, list_elem_of_filter, <-services_by_category_keys.
    destruct (decide (c ∈ (services_by_category (default [] (DetailView.services detail))).*1)); tauto.
  - rewrite Hperm. by eapply NoDup_fmap_1.
  - intros p. rewrite (by_port_perm port_key), list_elem_of_filter, Hp, elem_of_list_to_set.
    rewrite Hperm. tauto.
  - rewrite E. reflexivity.
Qed.
