(* ===== verification/HostRows.v ===== *)
(** * Report rows

    Models [src/assessment_engine/web/services/mappers/report.py] and the judgement parts
    of [mappers/shared.py]: one row of a report from one [ReportRowRaw], with its
    diagnosis, its risk and its notes, and the totals over the rows. *)

From S2P Require Import Prelude PyFloat PyText PyList Sql Wire Devices Services EolCatalog OsEol StorageTree RightSizing Assess Rollup Outbound ServerViews.

(** ** Shared vocabulary ([shared.py]) *)

Definition _VARIANCE_BURST_RATIO : float := of_ratio false 15 10.
Definition _REBOOT_UNSTABLE_COUNT : Z := 3.

(** [_CAUSE_LABEL_BY_TRIGGER], in its order *)
Definition _CAUSE_LABEL_BY_TRIGGER : list (TriggerKind * string) :=
  [(cpu_util, "CPU 이용률"); (cpu_saturation, "CPU 포화"); (mem_util, "메모리 이용률");
   (mem_saturation, "메모리 포화"); (trig_disk_capacity, "디스크 용량"); (trig_disk_io, "디스크 I/O")]%string.

Record SaturationAxisDisplay := {
  axis : string;
  axis_signal : string;
  axis_value : string;
  axis_threshold : string;
  axis_measured : bool;
  axis_crossed : bool;
}.

Definition is_some {A} (o : option A) : bool := match o with Some _ => true | None => false end.

(** [f"{x}" if x is not None else "N/A"] *)
Definition or_na {A} (f : A → string) (o : option A) : string := match o with Some x => f x | None => "N/A" end.

(** [rq / cores if rq is not None and cores else None] *)
Definition per_core (rq : option float) (cores : option Z) : option float :=
  match rq, cores with
  | Some rq, Some c => if c =? 0 then None else Some (fdiv rq (of_Z c))
  | _, _ => None
  end.

Definition cpu_axis (tag signal : string) (line : float) (rq : option float) : SaturationAxisDisplay := {|
  axis := "CPU 포화"; axis_signal := signal;
  axis_value := or_na (λ x, String.append tag (fmt_fixed 2 x)) rq;
  axis_threshold := String.append ">= " (fmt_g line);
  axis_measured := is_some rq; axis_crossed := some_and rq (λ x, fge x line) |}.

Definition disk_axis (signal : string) (await_ms : option float) : SaturationAxisDisplay := {|
  axis := "디스크 I/O 포화"; axis_signal := signal;
  axis_value := or_na (λ a, String.append (fmt_fixed 0 a) "ms") await_ms;
  axis_threshold := str_join "" ["> "; fmt_g (of_Z RS_DISKIO_AWAIT_MS); "ms"]%string;
  axis_measured := is_some await_ms; axis_crossed := some_and await_ms (λ a, fgt a (of_Z RS_DISKIO_AWAIT_MS)) |}.

Definition saturation_axis_displays (stats : ResourceStats) : list SaturationAxisDisplay :=
  if is_windows (os_family stats) then
    let pages := mem_pages_input_rate_p95 stats in
    [cpu_axis "W " "Processor Queue Length / core" CPU_RUN_QUEUE_PER_CORE_SATURATION
       (per_core (cpu_run_queue_p95 stats) (cpu_cores stats));
     {| axis := "메모리 포화"; axis_signal := "Memory Pages Input/sec p95";
        axis_value := or_na (λ p, str_join "" ["W "; fmt_fixed 0 p; "/s"]%string) pages;
        axis_threshold := str_join "" [">= "; fmt_g WIN_PAGES_INPUT_SATURATION; "/s"]%string;
        axis_measured := is_some pages;
        axis_crossed := some_and pages (λ p, fge p WIN_PAGES_INPUT_SATURATION) |};
     disk_axis "await p95 (IOCTL ReadTime/WriteTime)" (disk_await_p95_ms stats)]
  else
    [cpu_axis "L " "run queue (procs_running) / core" PROCS_RUNNING_PER_CORE_SATURATION
       (per_core (procs_running_p95 stats) (cpu_cores stats));
     {| axis := "메모리 포화"; axis_signal := "swap page-out";
        axis_value := if mem_swap_paging stats then "L 발생" else "L 없음";
        axis_threshold := "발생 시"; axis_measured := true; axis_crossed := mem_swap_paging stats |};
     disk_axis "await p95" (disk_await_p95_ms stats)].

Definition build_host_confidence_notes (host : HostAssessment) : list string :=
  (if host_saturation_unmeasured host then ["포화 수치 미관측"%string] else [])
  ++ (if existsb (λ k, match resources host !! k with
                       | Some a => low_precision (confidence a)
                       | None => false
                       end) [Cpu; Memory; DiskCapacity; DiskIo; Network]
      then ["표본 부족"%string] else [])
  ++ (if some_and (host_sample_sufficiency host) (λ s, flt s RS_DOWNSIZE_MIN_SUFFICIENCY)
      then ["창 대비 관측 부족"%string] else []).

(** The addresses of the physical interfaces, and the first IPv4 one *)
Definition primary_ip (raw : ReportRowRaw) : option string :=
  head (filter (λ i, is_virtual_interface (node_str "kind" i) = false) (default [] (RawRow.net_interfaces raw))
        ≫= λ i, filter (λ a, is_family_ipv4 a = true) (node_list "addresses" i))
  ≫= node_str "address".

Definition resource_confidence_notes (c : ConfidenceNote) : list string :=
  (if low_precision c then ["표본 부족"%string] else [])
  ++ (if coverage_gap c then ["포화 수치 미관측"%string] else [])
  ++ (if nonstationary c then ["상승 추세"%string] else []).

Definition RISK_LEVEL_ORDER (level : string) : Z :=
  if String.eqb level "high" then 0 else if String.eqb level "attention" then 1
  else if String.eqb level "low_usage" then 2 else if String.eqb level "normal" then 3 else 99.

Definition OS_FAMILY_LABEL_KO : gmap string string := list_to_map
  [("linux", "Linux"); ("windows", "Windows"); ("unknown", "미상")]%string.

Definition BADGE_CLASS (r : Recommendation) : string :=
  match r with
  | idle => "rec-idle" | over_provisioned => "rec-over_provisioned" | under_provisioned => "rec-under_provisioned"
  | optimal => "rec-optimal" | insufficient_data => "rec-insufficient_data"
  end.

(** The order, and the colours, of the donut *)
Definition _DONUT_SEGMENT_DEFS : list (Recommendation * string * string) :=
  [(under_provisioned, "#ef4444", "자원 부족 — 사양 상향 검토");
   (over_provisioned, "var(--color-title)", "자원 여유 — 사양 축소 검토");
   (idle, "#64748b", "미사용 — 종료·통합 검토");
   (optimal, "#22c55e", "적정");
   (insufficient_data, "#cbd5e1", "평가 표본 부족")]%string.

(** ** Saturation signals of the API *)

Definition opt_number (x : option float) : json := match x with Some x => JFloat x | None => JNull end.
Definition opt_flag (b : option bool) : json := match b with Some b => JBool b | None => JNull end.

Definition saturation_dict (signal : string) (value : option float) (threshold : float) (unit : string)
    (saturated : option bool) : json := JObj [
  ("signal", JStr signal); ("value", opt_number (round_opt 2 value)); ("threshold", JFloat threshold);
  ("unit", JStr unit); ("measured", JBool (is_some value)); ("saturated", opt_flag saturated)]%string.

Definition saturation_block (kind : ResourceKind) (stats : ResourceStats) : json :=
  let win := is_windows (os_family stats) in
  match kind with
  | Cpu =>
      let rq := if win then cpu_run_queue_p95 stats else procs_running_p95 stats in
      saturation_dict (if win then "Processor Queue Length/core" else "run queue (procs_running)/core")
        (cpu_saturation_index rq (cpu_cores stats) (os_family stats))
        (if win then CPU_RUN_QUEUE_PER_CORE_SATURATION else PROCS_RUNNING_PER_CORE_SATURATION)
        "per_core" (cpu_saturated stats)
  | Memory =>
      if win then saturation_dict "Pages Input/sec" (mem_pages_input_rate_p95 stats) WIN_PAGES_INPUT_SATURATION
                    "per_sec" (mem_saturated stats)
      else JObj [("signal", JStr "swap page-out"); ("value", JNull); ("threshold", JNull); ("unit", JStr "event");
                 ("measured", JBool (is_some (mem_saturated stats))); ("saturated", opt_flag (mem_saturated stats))]%string
  | _ =>
      match disk_await_p95_ms stats, disk_queue_p95 stats with
      | Some a, _ => saturation_dict "await" (Some a) (of_Z RS_DISKIO_AWAIT_MS) "ms" (disk_io_saturated stats)
      | None, Some q => saturation_dict "Avg Disk Queue Length" (Some q) DISK_QUEUE_PER_DISK_SATURATION "queue"
                          (disk_io_saturated stats)
      | None, None => JObj [("signal", JStr "await"); ("value", JNull); ("threshold", JFloat (of_Z RS_DISKIO_AWAIT_MS));
                            ("unit", JStr "ms"); ("measured", JBool false);
                            ("saturated", opt_flag (disk_io_saturated stats))]%string
      end
  end.

(** ** View models *)

Module WorkloadGroup.
Record ReportWorkloadGroup := { category : string; names_label : string; ports : list string }.
End WorkloadGroup.
Abbreviation ReportWorkloadGroup := WorkloadGroup.ReportWorkloadGroup.

Module ListenItem.
Record ReportListenItem := {
  port : Z;
  proto : string;
  comm : string;
  addr : string;
  uid : option Z;
  pid : option Z;
}.
End ListenItem.
Abbreviation ReportListenItem := ListenItem.ReportListenItem.

Module Row.
Record ReportRowItem := {
  server_id : Z;
  public_id : string;
  hostname : string;
  role : string;
  is_online : bool;
  os_family : option string;
  os_display : string;
  kernel_version : option string;
  internal_ip : option string;
  cpu_p95_pct : option float;
  cpu_avg_pct : option float;
  cpu_peak_pct : option float;
  mem_p95_pct : option float;
  mem_avg_pct : option float;
  mem_peak_pct : option float;
  recommendation : Recommendation;
  recommendation_label : string;
  badge_class : string;
  risk_level : string;
  risk_label : string;
  risk_badge_class : string;
  cpu_cores : option Z;
  mem_total_gb : option float;
  disk_total_gb : option float;
  cpu_run_queue_p95 : option float;
  iowait_p95_pct : option float;
  iowait_peak_pct : option float;
  worst_mount_used_pct : option float;
  disk_capacity_driving_mount : option string;
  disk_capacity_runway_days : option Z;
  uptime_days : option Z;
  reboot_count : Z;
  agent_restart_count : Z;
  cpu_variance_ratio : option float;
  mem_variance_ratio : option float;
  disk_iops_baseline : option Z;
  disk_iops_p95 : option float;
  disk_iops_peak : option float;
  disk_throughput_kbps : option float;
  disk_throughput_kbps_p95 : option float;
  disk_throughput_kbps_peak : option float;
  net_rx_kbps : option float;
  net_rx_kbps_p95 : option float;
  net_rx_kbps_peak : option float;
  net_tx_kbps : option float;
  net_tx_kbps_p95 : option float;
  net_tx_kbps_peak : option float;
  diagnosis : string;
  recommendation_action : string;
  root_cause_label : string;
  net_status_label : string;
  net_congested : bool;
  mem_swap_paging : bool;
  is_partial : bool;
  confidence_notes : list string;
  workload_groups : list ReportWorkloadGroup;
  listen_ports_detail : list ReportListenItem;
  workload_categories : list string;
  signature_workload_categories : list string;
  workload_services : list (string * list string);
  os_eol : string;
  os_eol_status : string;
  os_eol_label : string;
  os_eol_css : string;
  os_eol_title : string;
  os_eol_sort : Z;
  has_operational_event : bool;
}.
End Row.
Abbreviation ReportRowItem := Row.ReportRowItem.

Record ReportTotals := {
  total_vcpus : Z;
  total_memory_gb : float;
  total_disk_gb : Z;
}.

(** ** Risk, action and diagnosis *)

Definition _RISK_FROM_RECOMMENDATION (r : Recommendation) : string * string * string :=
  match r with
  | under_provisioned => ("high", "고위험", "rec-under_provisioned")
  | idle | over_provisioned => ("attention", "주의 필요", "rec-over_provisioned")
  | optimal | insufficient_data => ("normal", "정상", "rec-optimal")
  end%string.

(** [_NET_STATUS_LABEL.get(status, default)] *)
Definition _NET_STATUS_LABEL (s : ResourceStatus) : option string :=
  match s with
  | QualityOk => Some "정상"%string | Congested => Some "혼잡"%string | Unmeasured => Some "미측정"%string
  | _ => None
  end.

Definition _build_recommendation_action (host : HostAssessment) (stats : ResourceStats) : result string :=
  match host_status_to_recommendation (host_status host) with
  | under_provisioned => under_prescription host
  | r => Ok (recommend_action r stats)
  end.

(** [ratio is not None and ratio >= 1.5 and peak is not None and peak > floor] *)
Definition bursts (variance peak : option float) (floor : Z) : bool :=
  some_and variance (λ v, fge v _VARIANCE_BURST_RATIO) && some_and peak (λ p, fgt p (of_Z floor)).

Definition _build_diagnosis (host : HostAssessment) (raw : ReportRowRaw) (cpu_variance mem_variance : option float)
    : result string :=
  memory ← res_get (resources host) Memory;
  cpu ← res_get (resources host) Cpu;
  disk_io ← res_get (resources host) DiskIo;
  disk_capacity ← res_get (resources host) DiskCapacity;
  let under (a : ResourceAssessment) (t : TriggerKind) := bool_decide (status a = Under) && mem t (triggers a) in
  Ok (
    if under memory mem_saturation || under memory mem_oom
    then if is_windows (RawRow.os_family raw) then "메모리 부족 (페이징 과다)" else "메모리 부족 (스왑 발생)"
    else if bool_decide (status disk_io = IoBound) then "디스크 I/O 병목"
    else if under cpu cpu_saturation then "CPU 포화"
    else if under memory mem_util then "메모리 압박"
    else if under cpu cpu_util then "CPU 압박"
    else if bool_decide (status disk_capacity = Filling) then "디스크 용량 임박"
    else if network_congested host then "네트워크 혼잡"
    else if bursts cpu_variance (RawRow.cpu_peak_pct raw) BURST_PEAK_FLOOR_CPU_PCT
            || bursts mem_variance (RawRow.mem_peak_pct raw) BURST_PEAK_FLOOR_MEM_PCT
    then "부하 변동 큼"
    else match host_status host with
         | HostIdle => "거의 미사용"
         | HostOver => "여유 있음"
         | _ => "정상"
         end)%string.

Definition _build_insufficient_reason (raw : ReportRowRaw) (is_online : bool) : string :=
  if negb is_online then "오프라인 — 에이전트 미가동"
  else
    let lacks {A} (o : option A) (name : string) := match o with None => [name] | Some _ => [] end in
    let missing :=
      lacks (RawRow.cpu_p95_pct raw) "CPU" ++ lacks (RawRow.mem_p95_pct raw) "메모리"
      ++ (if is_windows (RawRow.os_family raw) then lacks (RawRow.cpu_run_queue_p95 raw) "run queue"
          else lacks (RawRow.procs_running_p95 raw) "실행 큐")
      ++ lacks (RawRow.disk_await_p95_ms raw) "디스크 응답(await)"
      ++ lacks (RawRow.worst_mount_used_pct raw) "디스크" in
    match missing with
    | [] => "윈도우 내 표본 부족"
    | _ => String.append "메트릭 수집 누락: " (str_join " · " missing)
    end.

(** ** Workloads of one server *)

(** [f"{p.port}/{p.proto}"] *)
Definition port_text (p : MatchedPort) : string := str_join "/" [pretty p.2; p.1].

(** The two dicts of the loop over the services: names and ports per category *)
Definition workload_step (acc : list (string * list string) * list (string * list string)) (si : ServiceItem)
    : list (string * list string) * list (string * list string) :=
  let '(by_cat, by_cat_ports) := acc in
  let cat := ServiceItem.category si in
  if String.eqb cat "unknown" then acc
  else
    let name := str_or (Some (ServiceItem.display_name si)) (ServiceItem.unit si) in
    ((if String.eqb name "" then by_cat else setdefault_append cat name by_cat),
     dict_set cat (default [] (dict_get cat by_cat_ports) ++ (port_text <$> ServiceItem.ports si)) by_cat_ports).

(** [by_cat.setdefault(cat, [])] *)
Definition setdefault_empty {A} (d : list (string * list A)) (cat : string) : list (string * list A) :=
  match dict_get cat d with Some _ => d | None => d ++ [(cat, [])] end.

Definition _build_workload_display (raw : ReportRowRaw) : list ReportWorkloadGroup * list ReportListenItem :=
  let services := default [] (_services_or_none (RawRow.services raw) (RawRow.listen_ports raw)) in
  let sockets := default [] (RawRow.listen_ports raw) in
  let listen := by_port (λ x, (ListenItem.proto x, ListenItem.port x))
    ((λ p, let lp := _to_listen_port_item p in {|
        ListenItem.port := ListenPortItem.port lp; ListenItem.proto := ListenPortItem.proto lp;
        ListenItem.comm := str_or (ListenPortItem.comm lp) ""; ListenItem.addr := ListenPortItem.addr lp;
        ListenItem.uid := ListenPortItem.uid lp; ListenItem.pid := ListenPortItem.pid lp |}) <$> sockets) in
  let '(by_cat, by_cat_ports) := foldl workload_step ([], []) services in
  let by_cat := foldl setdefault_empty by_cat (detect_listen_categories (socket_view <$> sockets)).*1 in
  ((λ cat, {| WorkloadGroup.category := cat;
              WorkloadGroup.names_label := str_join ", " (dedup_first (default [] (dict_get cat by_cat)));
              WorkloadGroup.ports := dedup_first (default [] (dict_get cat by_cat_ports)) |})
   <$> sort_str id by_cat.*1, listen).

(** ** The row *)

(** [peak / p95], when both are there and not zero and p95 is positive *)
Definition variance (p95 peak : option float) : option float :=
  match num_or float_truthy p95, num_or float_truthy peak with
  | Some p, Some k => if fgt p (of_Z 0) then Some (fdiv k p) else None
  | _, _ => None
  end.

Definition us_per_day : Z := 86400 * 1000000.

(** [now.date()], as the number of the day *)
Definition date_of (t : datetime) : Z := t / us_per_day.

Definition int_opt (x : option float) : result (option Z) :=
  match x with Some x => Some <$> py_int x | None => Ok None end.

Definition to_report_row_item (raw : ReportRowRaw) (is_online : bool) (now : datetime) (has_operational_event : bool)
    : result ReportRowItem :=
  info ← lookup_os_eol (RawRow.os_id raw) (RawRow.os_version raw) (RawRow.kernel_version raw) (date_of now);
  let '(os_eol, os_eol_status, disp) := eol_columns info "unknown" in
  let stats := build_resource_stats raw (RawRow.disk_iops_baseline raw) in
  host ← rollup_host stats;
  network ← res_get (resources host) Network;
  let '(workload_groups, listen_ports_detail) := _build_workload_display raw in
  let workload_categories := (raw_workload_counter (RawRow.services raw) (RawRow.listen_ports raw)).*1 in
  let rec := host_status_to_recommendation (host_status host) in
  let '(risk_level, risk_label, risk_badge_class) := _RISK_FROM_RECOMMENDATION rec in
  let cpu_variance := variance (RawRow.cpu_p95_pct raw) (RawRow.cpu_peak_pct raw) in
  let mem_variance := variance (RawRow.mem_p95_pct raw) (RawRow.mem_peak_pct raw) in
  let disk_bytes := disk_total_bytes (default [] (RawRow.block_devices raw)) in
  runway ← int_opt (RawRow.disk_capacity_runway_days raw);
  diagnosis ← (match rec with
               | insufficient_data => Ok (_build_insufficient_reason raw is_online)
               | _ => String.append (if is_online then "" else "오프라인 · ")
                        <$> _build_diagnosis host raw cpu_variance mem_variance
               end);
  action ← _build_recommendation_action host stats;
  Ok {| Row.server_id := RawRow.server_id raw;
        Row.public_id := RawRow.public_id raw;
        Row.hostname := RawRow.hostname raw;
        Row.role := infer_role (RawRow.services raw) (RawRow.listen_ports raw);
        Row.is_online := is_online;
        Row.os_family := RawRow.os_family raw;
        Row.os_display := _os_display (RawRow.os_id raw) (RawRow.os_version raw) (RawRow.kernel_version raw)
                            (RawRow.product_name raw);
        Row.kernel_version := RawRow.kernel_version raw;
        Row.internal_ip := primary_ip raw;
        Row.cpu_p95_pct := RawRow.cpu_p95_pct raw;
        Row.cpu_avg_pct := RawRow.cpu_avg_pct raw;
        Row.cpu_peak_pct := RawRow.cpu_peak_pct raw;
        Row.mem_p95_pct := RawRow.mem_p95_pct raw;
        Row.mem_avg_pct := RawRow.mem_avg_pct raw;
        Row.mem_peak_pct := RawRow.mem_peak_pct raw;
        Row.recommendation := rec;
        Row.recommendation_label := LABEL_KO rec;
        Row.badge_class := BADGE_CLASS rec;
        Row.risk_level := risk_level;
        Row.risk_label := risk_label;
        Row.risk_badge_class := risk_badge_class;
        Row.cpu_cores := RawRow.cpu_cores raw;
        Row.mem_total_gb := bytes_to_gib (RawRow.mem_total_bytes raw);
        Row.disk_total_gb := if disk_bytes =? 0 then None else round_opt 1 (bytes_to_gb (Some disk_bytes));
        Row.cpu_run_queue_p95 := RawRow.cpu_run_queue_p95 raw;
        Row.iowait_p95_pct := RawRow.iowait_p95_pct raw;
        Row.iowait_peak_pct := RawRow.iowait_peak_pct raw;
        Row.worst_mount_used_pct := RawRow.worst_mount_used_pct raw;
        Row.disk_capacity_driving_mount := RawRow.disk_capacity_driving_mount raw;
        Row.disk_capacity_runway_days := runway;
        Row.uptime_days := (λ boot, Z.max 0 ((now - boot) / us_per_day)) <$> RawRow.boot_time raw;
        Row.reboot_count := RawRow.reboot_count raw;
        Row.agent_restart_count := RawRow.agent_restart_count raw;
        Row.cpu_variance_ratio := cpu_variance;
        Row.mem_variance_ratio := mem_variance;
        Row.disk_iops_baseline := RawRow.disk_iops_baseline raw;
        Row.disk_iops_p95 := RawRow.disk_iops_p95 raw;
        Row.disk_iops_peak := RawRow.disk_iops_peak raw;
        Row.disk_throughput_kbps := RawRow.disk_throughput_kbps raw;
        Row.disk_throughput_kbps_p95 := RawRow.disk_throughput_kbps_p95 raw;
        Row.disk_throughput_kbps_peak := RawRow.disk_throughput_kbps_peak raw;
        Row.net_rx_kbps := RawRow.net_rx_kbps raw;
        Row.net_rx_kbps_p95 := RawRow.net_rx_kbps_p95 raw;
        Row.net_rx_kbps_peak := RawRow.net_rx_kbps_peak raw;
        Row.net_tx_kbps := RawRow.net_tx_kbps raw;
        Row.net_tx_kbps_p95 := RawRow.net_tx_kbps_p95 raw;
        Row.net_tx_kbps_peak := RawRow.net_tx_kbps_peak raw;
        Row.diagnosis := diagnosis;
        Row.recommendation_action := action;
        Row.root_cause_label := root_cause_display host;
        Row.net_status_label := default "미측정"%string (_NET_STATUS_LABEL (Assess.status network));
        Row.net_congested := network_congested host;
        Row.mem_swap_paging := RawRow.mem_swap_paging raw;
        Row.is_partial := host_saturation_unmeasured host;
        Row.confidence_notes := build_host_confidence_notes host;
        Row.workload_groups := workload_groups;
        Row.listen_ports_detail := listen_ports_detail;
        Row.workload_categories := workload_categories;
        Row.signature_workload_categories := filter (.∈ SIGNATURE_CATEGORIES) workload_categories;
        Row.workload_services := workload_services_by_category (raw_services (RawRow.services raw))
                                   (raw_sockets (RawRow.listen_ports raw));
        Row.os_eol := os_eol;
        Row.os_eol_status := os_eol_status;
        Row.os_eol_label := display_label disp;
        Row.os_eol_css := css disp;
        Row.os_eol_title := title disp;
        Row.os_eol_sort := sort disp;
        Row.has_operational_event := has_operational_event |}.

(** ** Over the rows of a report *)

(** [sum(l) / len(l) if l else None] *)
Definition mean (l : list float) : option float :=
  match l with [] => None | x :: l' => Some (fdiv (py_sum x l') (of_Z (Z.of_nat (length l)))) end.

Definition compute_report_avg_p95 (rows : list ReportRowItem) : option float * option float :=
  (mean (omap Row.cpu_p95_pct rows), mean (omap Row.mem_p95_pct rows)).

Definition compute_report_totals_from_raw (raws : list ReportRowRaw) : result ReportTotals :=
  disk ← whole_gb (sum_Z ((λ r, disk_total_bytes (default [] (RawRow.block_devices r))) <$> raws));
  Ok {| total_vcpus := sum_Z ((λ r, default 0 (RawRow.cpu_cores r)) <$> raws);
        total_memory_gb := default (of_Z 0)
          (bytes_to_gib (Some (sum_Z ((λ r, default 0 (RawRow.mem_total_bytes r)) <$> raws))));
        total_disk_gb := disk |}.

(** [counter[k] += 1] for each key *)
Definition count_keys {K} `{EqDecision K} (keys : list K) : list (K * Z) :=
  foldl (λ d k, dict_set k (default 0 (dict_get k d) + 1) d) [] keys.

(** [counter.most_common()] *)
Definition most_common {K} (counter : list (K * Z)) : list (K * Z) := sort_desc snd counter.

Definition build_role_distribution (raws : list ReportRowRaw) : list (string * Z) :=
  most_common (count_keys ((λ r, infer_role (RawRow.services r) (RawRow.listen_ports r)) <$> raws)).

(** [sorted(d.items(), key=lambda kv: (-kv[1], kv[0]))] *)
Definition by_count_desc : list (string * Z) → list (string * Z) :=
  sort_by (λ a b, (b.2 <? a.2)
                  || ((b.2 =? a.2) && match String.compare a.1 b.1 with Gt => false | _ => true end)).

Definition build_selection_context (items : list ReportRowItem) (role_distribution : list (string * Z))
    : string * string :=
  let os_counter := count_keys ((λ it, str_or (Row.os_family it) "unknown") <$> items) in
  let counted (sep : string) (kv : string * Z) := str_join sep [kv.1; pretty kv.2] in
  (str_join " | " ((λ kv, counted " " (default kv.1 (OS_FAMILY_LABEL_KO !! kv.1), kv.2)) <$> by_count_desc os_counter),
   str_or (Some (str_join ", " (counted " " <$> by_count_desc role_distribution))) "분류된 워크로드 없음").

(** [-x] *)
Definition fneg (x : float) : float := SFopp x.

(** Python's order of the tuples [(n, x, s)]: the first components that are not equal decide *)
Definition key_lt (a b : Z * float * string) : bool :=
  (a.1.1 <? b.1.1)
  || ((a.1.1 =? b.1.1)
      && (flt a.1.2 b.1.2
          || (fle a.1.2 b.1.2 && fle b.1.2 a.1.2 && match String.compare a.2 b.2 with Lt => true | _ => false end))).

Definition sort_key {A} (key : A → Z * float * string) : list A → list A :=
  sort_by (λ x y, negb (key_lt (key y) (key x))).

Definition row_key (it : ReportRowItem) : Z * float * string :=
  (RISK_LEVEL_ORDER (Row.risk_level it), fneg (or_zero (Row.cpu_p95_pct it)), Row.hostname it).

Definition sort_rows_for_report : list ReportRowItem → list ReportRowItem := sort_key row_key.

(** ** The summary sentences ([report_summary.py]) *)

Inductive ReportView := customer | engineer.

Definition _top_phrase (labels : list string) : string :=
  String.append (str_join ", " (take 3 labels)) (if (3 <? length labels)%nat then " 외" else "").

(** [f"{what} {len(hosts)}대 ({phrase}){rest}"], unless there are none *)
Definition hosts_bullet (what rest : string) (hosts : list string) : list string :=
  match hosts with
  | [] => []
  | _ => [str_join "" [what; " "; pretty (Z.of_nat (length hosts)); "대 ("; _top_phrase hosts; ")"; rest]%string]
  end.

Definition row_stats (r : ReportRowRaw) : ResourceStats := build_resource_stats r (RawRow.disk_iops_baseline r).

Definition filling_label (r : ReportRowRaw) : result (option string) :=
  a ← assess_disk_capacity (row_stats r);
  match RawRow.disk_capacity_runway_days r with
  | Some days =>
      if bool_decide (Assess.status a = Filling) then
        d ← py_int days;
        Ok (Some (str_join "" [RawRow.hostname r; "("; str_or (RawRow.disk_capacity_driving_mount r) "?"; " ";
                               pretty d; "일)"]%string))
      else Ok None
  | None => Ok None
  end.

(** [max(role_cpu, key=lambda k: sum(role_cpu[k]) / len(role_cpu[k]))] with its mean *)
Definition top_cpu_role (rows : list ReportRowItem) : option (string * float) :=
  let by_role := (λ kv : string * list (string * float), (kv.1, default (of_Z 0) (mean kv.2.*2)))
    <$> _group_by_dim fst (omap (λ r, (λ p, (Row.role r, p)) <$> Row.cpu_p95_pct r) rows) in
  match by_role with
  | [] => None
  | kv :: rest => Some (foldl (λ m x : string * float, if flt m.2 x.2 then x else m) kv rest)
  end.

Definition eol_label (today : Z) (r : ReportRowRaw) : result (option string) :=
  w ← resolve_os_eol (RawRow.os_id r) (RawRow.os_version r) (RawRow.kernel_version r) today;
  Ok (fmap (M:=option) (λ w : string * string,
        str_join "" [RawRow.hostname r; "("; w.2; ", EOL "; w.1; ")"]%string) w).

(** [today] stands for the day of the call when the caller gives none. *)
Definition build_report_summary_bullets (rows : list ReportRowItem) (raws : list ReportRowRaw) (view : ReportView)
    (today : Z) : result (list string) :=
  match rows with
  | [] => Ok ["대상 서버 없음."%string]
  | _ =>
      filling ← omap_result filling_label raws;
      eol ← omap_result (eol_label today) raws;
      let saturated (f : ResourceStats → option bool) :=
        RawRow.hostname <$> filter (λ r, f (row_stats r) = Some true) raws in
      Ok (hosts_bullet "디스크 I/O 포화" " — 디스크 병목." (saturated disk_io_saturated)
          ++ hosts_bullet "디스크 채움 임박" "." filling
          ++ hosts_bullet "재부팅 빈번" "."
               ((λ r, str_join "" [Row.hostname r; "("; pretty (Row.reboot_count r); "회)"]%string)
                <$> filter (λ r, _REBOOT_UNSTABLE_COUNT <= Row.reboot_count r) rows)
          ++ (match view with
              | customer => []
              | engineer =>
                  (match top_cpu_role rows with
                   | Some (role, avg) =>
                       if fge avg (of_Z CPU_UPSIZE_P95_PCT)
                       then [str_join "" [role; " 계열 서버의 평균 CPU p95가 "; fmt_fixed 0 avg; "%로 높게 관찰됨."]%string]
                       else []
                   | None => []
                   end)
                  ++ hosts_bullet "CPU 포화" " — run queue/load 가 코어 처리 한계 초과." (saturated cpu_saturated)
                  ++ hosts_bullet "CPU 부하 변동 큼" " — 일시 spike 빈번 (부하 변동성 큼)."
                       (Row.hostname <$> filter (λ r, bursts (Row.cpu_variance_ratio r) (Row.cpu_peak_pct r)
                                                      BURST_PEAK_FLOOR_CPU_PCT = true) rows)
              end)
          ++ hosts_bullet "OS EOL" " — 보안 패치 중단됨." eol)
  end.
