(* ===== verification/HostRowProps.v ===== *)
(** * Report rows: the words a row shows, and the order of the rows *)

From S2P Require Import Prelude PyFloat PyText PyList Sql Wire Devices Services EolCatalog OsEol StorageTree RightSizing Assess Rollup AssessFacts RollupFacts RightSizingProps OsEolProps Outbound ServerViews HostRows.

(** ** Triggers *)

Lemma memory_under_triggers stats a :
  assess_memory stats = Ok a → status a = Under →
  triggers a = when_trigger (some_and (mem_p95_pct stats) (λ u, fge u (of_Z RS_MEM_UNDER_PCT))) mem_util
               ++ when_trigger (_mem_paging_active stats) mem_saturation
               ++ when_trigger (oom_occurred stats) mem_oom
  ∧ triggers a ≠ [].
Proof.
  unfold assess_memory, _mem_paging_active. intros H Hs.
  destruct (mem_p95_pct stats) as [u|] eqn:Hu.
  - apply result_bind_ok in H as (t & _ & H). cbn zeta in H. case_match eqn:E.
    + apply result_bind_ok in H as (up & _ & H). apply result_bind_ok in H as (fl & _ & H).
      injection H as <-. split; [done|]. by to_prop.
    + repeat case_match; injection H as <-; done.
  - unfold mem_saturated. rewrite Hu. destruct (oom_occurred stats); [|by injection H as <-].
    apply result_bind_ok in H as (fl & _ & H). by injection H as <-.
Qed.

Lemma disk_io_bound stats a :
  assess_disk_io stats = Ok a → status a = IoBound ↔ disk_io_saturated stats = Some true.
Proof.
  unfold assess_disk_io. intros H. destruct (disk_io_saturated stats) as [b|].
  - apply result_bind_ok in H as (d & _ & H). injection H as <-. by destruct b.
  - destruct (disk_iops_baseline stats); by injection H as <-.
Qed.

(** ** The diagnosis *)

(** The peak is at least one and a half times the 95th percentile, and above the floor. *)
Definition swings (p95 peak : option float) (floor : Z) : Prop :=
  ∃ p k, p95 = Some p ∧ peak = Some k ∧ fgt p (of_Z 0) = true
    ∧ fge (fdiv k p) (of_ratio false 15 10) = true ∧ fgt k (of_Z floor) = true.

(** The words of a diagnosis, most urgent first, and what each one says *)
Definition findings (raw : ReportRowRaw) (stats : ResourceStats) (host : HostAssessment)
    : list (Prop * string) :=
  let starved := verdict_is host Memory Under
    ∧ (_mem_paging_active stats = true ∨ oom_occurred stats = true) in
  [(starved ∧ RawRow.os_family raw = Some "windows", "메모리 부족 (페이징 과다)");
   (starved ∧ RawRow.os_family raw ≠ Some "windows", "메모리 부족 (스왑 발생)");
   (disk_io_saturated stats = Some true, "디스크 I/O 병목");
   (verdict_is host Cpu Under ∧ cpu_saturated stats = Some true, "CPU 포화");
   (verdict_is host Memory Under
      ∧ some_and (mem_p95_pct stats) (λ u, fge u (of_Z RS_MEM_UNDER_PCT)) = true, "메모리 압박");
   (verdict_is host Cpu Under
      ∧ some_and (cpu_p95_pct stats) (λ u, fge u (of_Z RS_CPU_UNDER_PCT)) = true, "CPU 압박");
   (verdict_is host DiskCapacity Filling, "디스크 용량 임박");
   (verdict_is host Network Congested, "네트워크 혼잡");
   (swings (RawRow.cpu_p95_pct raw) (RawRow.cpu_peak_pct raw) 30
      ∨ swings (RawRow.mem_p95_pct raw) (RawRow.mem_peak_pct raw) 50, "부하 변동 큼");
   (host_status host = HostIdle, "거의 미사용");
   (host_status host = HostOver, "여유 있음");
   (host_status host = HostOptimal ∨ host_status host = HostInsufficient, "정상")]%string.

(** The words that say the host is under pressure *)
Definition pressure_words : list string :=
  ["메모리 부족 (페이징 과다)"; "메모리 부족 (스왑 발생)"; "디스크 I/O 병목"; "CPU 포화"; "메모리 압박"; "CPU 압박";
   "디스크 용량 임박"]%string.

(** The first finding that holds *)
Inductive first_holding : list (Prop * string) → string → Prop :=
  | first_here (P : Prop) w l : P → first_holding ((P, w) :: l) w
  | first_later (P : Prop) v l w : ¬ P → first_holding l w → first_holding ((P, v) :: l) w.

(** What stands behind the word of a diagnosis *)
Definition word_holds (raw : ReportRowRaw) (stats : ResourceStats) (host : HostAssessment)
    (word : string) : Prop :=
  first_holding (findings raw stats host) word
  ∧ (host_status host = HostUnder → word ∈ pressure_words).

Lemma is_windows_iff os : is_windows os = true ↔ os = Some "windows"%string.
Proof. unfold is_windows. by rewrite bool_decide_eq_true. Qed.

(** [a.status == "under" and t in a.triggers], for the triggers a resource can have *)
Definition under_by (a : ResourceAssessment) (t : TriggerKind) : bool :=
  bool_decide (status a = Under) && mem t (triggers a).

Lemma memory_under_by stats a :
  assess_memory stats = Ok a →
  let util := some_and (mem_p95_pct stats) (λ u, fge u (of_Z RS_MEM_UNDER_PCT)) in
  let short := _mem_paging_active stats || oom_occurred stats in
  under_by a mem_saturation || under_by a mem_oom = bool_decide (status a = Under) && short
  ∧ under_by a mem_util = bool_decide (status a = Under) && util
  ∧ (status a = Under → short = false → util = true).
Proof.
  intros H util short. unfold under_by, util, short.
  destruct (decide (status a = Under)) as [E|E]; [|by rewrite (bool_decide_eq_false_2 _ E)].
  destruct (memory_under_triggers _ _ H E) as [-> N]. rewrite (bool_decide_eq_true_2 _ E).
  revert N. by destruct (some_and _ _), (_mem_paging_active stats), (oom_occurred stats).
Qed.

Lemma cpu_under_by stats a :
  assess_cpu stats = Ok a →
  under_by a cpu_saturation = bool_decide (status a = Under) && default false (cpu_saturated stats)
  ∧ under_by a cpu_util = bool_decide (status a = Under)
      && some_and (cpu_p95_pct stats) (λ u, fge u (of_Z RS_CPU_UNDER_PCT)).
Proof.
  intros H. unfold under_by. destruct (decide (status a = Under)) as [E|E]; [|by rewrite (bool_decide_eq_false_2 _ E)].
  rewrite (cpu_under_triggers _ _ H E), (bool_decide_eq_true_2 _ E).
  by destruct (some_and _ _), (cpu_saturated stats) as [[]|].
Qed.

Lemma bursts_swings p95 peak floor :
  0 <= floor → bursts (variance p95 peak) peak floor = true ↔ swings p95 peak floor.
Proof.
  intros Hf. unfold bursts, variance, swings, _VARIANCE_BURST_RATIO.
  rewrite andb_true_iff, !some_and_true. split.
  - intros ((v & Hv & Hr) & k & -> & Hk). destruct p95 as [p|]; [|done]. cbn in Hv.
    destruct (float_truthy p), (float_truthy k); try done.
    destruct (fgt p (of_Z 0)) eqn:Hp; [|done]. injection Hv as <-. by exists p, k.
  - intros (p & k & -> & -> & Hp & Hr & Hk). split; [|by exists k]. exists (fdiv k p).
    split; [|done].
    assert (float_truthy p = true) as Tp by by destruct p.
    assert (float_truthy k = true) as Tk.
    { destruct k; try done. exfalso. revert Hr. by destruct p. }
    unfold num_or. by rewrite Tp, Tk, Hp.
Qed.

Lemma first_if (b : bool) (P : Prop) w rest l :
  (b = true ↔ P) → (b = false → first_holding l rest) →
  first_holding ((P, w) :: l) (if b then w else rest).
Proof.
  intros Hb Hr. destruct b; [apply first_here; tauto|]. apply first_later; [intuition congruence|].
  by apply Hr.
Qed.

Lemma if_split {A} (b e : bool) (x y z : A) :
  (if b then if e then x else y else z) = (if b && e then x else if b && negb e then y else z).
Proof. by destruct b, e. Qed.

Lemma diagnosis_holds raw stats host :
  (∀ u, cpu_p95_pct stats = Some u → py_float u) → (∀ c, cpu_cores stats = Some c → c < 2 ^ 31) →
  rollup_host stats = Ok host →
  ∃ word, _build_diagnosis host raw (variance (RawRow.cpu_p95_pct raw) (RawRow.cpu_peak_pct raw))
            (variance (RawRow.mem_p95_pct raw) (RawRow.mem_peak_pct raw)) = Ok word
          ∧ word_holds raw stats host word.
Proof.
  intros V B H. destruct (rollup_inv _ _ H) as (c & m & d & i & R).
  unfold _build_diagnosis. rewrite !(rolled_get _ _ _ _ _ _ _ R).
  cbn [mbind result_bind res_of]. eexists. split; [reflexivity|].
  pose proof (host_under_pressed _ _ _ _ _ _ R) as U. rewrite pressed_nil in U.
  destruct (memory_under_by _ _ (ro_memory_ok _ _ _ _ _ _ R)) as (M1 & M2 & M3).
  destruct (cpu_under_by _ _ (ro_cpu_ok _ _ _ _ _ _ R)) as (C1 & C2).
  pose proof (cpu_under_cause _ _ V B (ro_cpu_ok _ _ _ _ _ _ R)) as C3.
  pose proof (disk_io_bound _ _ (ro_disk_io_ok _ _ _ _ _ _ R)) as IO.
  unfold word_holds. rewrite (ro_network _ _ _ _ _ _ R).
  unfold under_by in M1, M2, C1, C2. rewrite M1, M2, C1, C2, if_split. clear M1 M2 C1 C2.
  assert (default false (cpu_saturated stats) = true ↔ cpu_saturated stats = Some true) as Es
    by (destruct (cpu_saturated stats) as [[]|]; cbn; intuition congruence).
  assert (∀ w, bool_decide (status m = Under) && (_mem_paging_active stats || oom_occurred stats) && w = false →
    bool_decide (status m = Under) && (_mem_paging_active stats || oom_occurred stats) && negb w = false →
    bool_decide (status c = Under) && default false (cpu_saturated stats) = false →
    bool_decide (status m = Under) && some_and (mem_p95_pct stats) (λ u, fge u (of_Z RS_MEM_UNDER_PCT)) = false →
    bool_decide (status c = Under) && some_and (cpu_p95_pct stats) (λ u, fge u (of_Z RS_CPU_UNDER_PCT)) = false →
    bool_decide (status d = Filling) = false → host_status host ≠ HostUnder) as N.
  { intros w E1 E1' E3 E4 E5 E6%bool_decide_eq_false. rewrite U. intros Hx. apply Hx.
    split; [|split; [|done]]; intros Hu; rewrite (bool_decide_eq_true_2 _ Hu) in *; cbn in *.
    - destruct (C3 Hu) as [C|C]; [congruence|]. apply Es in C. congruence.
    - rewrite M3 in E4; [done|done|]. destruct (_ || _), w; done. }
  split.
  - pose proof (λ k s, verdict_rolled _ _ _ _ _ _ k s R) as J. unfold findings.
    repeat (apply first_if; [|intros ?]).
    + by rewrite J, !andb_true_iff, orb_true_iff, bool_decide_eq_true, is_windows_iff.
    + by rewrite J, !andb_true_iff, orb_true_iff, negb_true_iff, bool_decide_eq_true,
        <- not_true_iff_false, is_windows_iff.
    + by rewrite bool_decide_eq_true.
    + by rewrite J, andb_true_iff, bool_decide_eq_true, Es.
    + by rewrite J, andb_true_iff, bool_decide_eq_true.
    + by rewrite J, andb_true_iff, bool_decide_eq_true.
    + by rewrite J, bool_decide_eq_true.
    + by rewrite J, bool_decide_eq_true.
    + by rewrite orb_true_iff, !bursts_swings.
    + pose proof (N (is_windows (RawRow.os_family raw))) as Hn. repeat (specialize (Hn ltac:(assumption))).
      destruct (host_status host); [by destruct Hn| | | |];
        repeat first [by (apply first_here; auto)|apply first_later; [intuition congruence|]].
  - intros Hu. repeat (case_match; [by in_list|]). exfalso. by eapply (N (is_windows (RawRow.os_family raw))).
Qed.

(** ** One row *)

Lemma py_int_total x : is_finite x = true → ∃ n, py_int x = Ok n.
Proof. destruct x; cbn; naive_solver. Qed.

Lemma prescription_total stats h : rollup_host stats = Ok h → ∃ text, under_prescription h = Ok text.
Proof.
  intros Hh. destruct (rollup_inv _ _ Hh) as (c & m & d & i & R). unfold under_prescription.
  destruct (map_resources_total h resource_prescription (prescribed_under_kinds h)) as [l ->]; [|cbn; eauto].
  intros k. rewrite (ro_lookup _ _ _ _ _ _ R). eauto.
Qed.

Lemma insufficient_status s : host_status_to_recommendation s = insufficient_data ↔ s = HostInsufficient.
Proof. by destruct s. Qed.


(** A host whose disk answers in 35 ms and that is otherwise at ease *)
Definition io_row : ReportRowRaw := {|
  RawRow.server_id := 1; RawRow.public_id := "srv-1"; RawRow.hostname := "db-1";
  RawRow.os_family := Some "linux"%string; RawRow.os_id := Some "ubuntu"%string;
  RawRow.os_version := Some "22.04"%string; RawRow.os_codename := None; RawRow.kernel_version := None;
  RawRow.net_interfaces := None; RawRow.services := None; RawRow.last_seen_at := None;
  RawRow.cpu_p95_pct := Some (of_Z 40); RawRow.cpu_avg_pct := Some (of_Z 30);
  RawRow.cpu_peak_pct := Some (of_Z 60); RawRow.mem_p95_pct := Some (of_Z 50); RawRow.mem_avg_pct := None;
  RawRow.mem_peak_pct := None; RawRow.mem_near_peak_pct := None; RawRow.listen_ports := None;
  RawRow.iowait_p95_pct := None; RawRow.iowait_peak_pct := None; RawRow.cpu_run_queue_p95 := None;
  RawRow.mem_pages_input_rate_p95 := None; RawRow.cpu_cores := Some 4;
  RawRow.mem_total_bytes := Some (8 * 1024 ^ 3); RawRow.block_devices := None; RawRow.lvm_vgs := None;
  RawRow.arch := None; RawRow.bits := None; RawRow.boot_firmware := None; RawRow.secure_boot := None;
  RawRow.edition := None; RawRow.product_name := None; RawRow.timezone := None; RawRow.rtc_utc := None;
  RawRow.boot := None; RawRow.nonblock_mounts := None; RawRow.boot_time := None;
  RawRow.worst_mount_used_pct := Some (of_Z 40); RawRow.disk_capacity_worst_mount := None;
  RawRow.reboot_count := 0; RawRow.agent_restart_count := 0; RawRow.disk_iops_baseline := Some 40;
  RawRow.disk_iops_p95 := None; RawRow.disk_iops_peak := None; RawRow.disk_throughput_kbps := None;
  RawRow.disk_throughput_kbps_p95 := None; RawRow.disk_throughput_kbps_peak := None;
  RawRow.net_rx_kbps := Some (of_Z 900); RawRow.net_rx_kbps_p95 := None; RawRow.net_rx_kbps_peak := None;
  RawRow.net_tx_kbps := None; RawRow.net_tx_kbps_p95 := None; RawRow.net_tx_kbps_peak := None;
  RawRow.cpu_sufficiency := None; RawRow.mem_sufficiency := None; RawRow.cpu_steal_p95_pct := None;
  RawRow.cpu_burst_ratio := None; RawRow.procs_blocked_p95 := None; RawRow.procs_running_p95 := Some (of_Z 2);
  RawRow.mem_swap_paging := false; RawRow.oom_occurred := false; RawRow.history_hours := Some (of_Z 336);
  RawRow.disk_await_p95_ms := Some (of_Z 35); RawRow.disk_capacity_runway_days := None;
  RawRow.disk_capacity_driving_mount := None; RawRow.disk_inode_runway_days := None;
  RawRow.disk_inode_used_pct := None; RawRow.disk_capacity_target_gb := None;
  RawRow.disk_capacity_proj_30d_pct := None; RawRow.disk_capacity_driving_used_pct := None;
  RawRow.net_drop_pct := None; RawRow.net_retrans_pct := None; RawRow.conntrack_ratio := None;
  RawRow.cpu_trend_slope := None; RawRow.mem_trend_slope := None; RawRow.cpu_percore_p95_max := None |}.

Example io_row_is_called_oversized :
  (r ← to_report_row_item io_row true 0 false; Ok (Row.diagnosis r, Row.recommendation_label r, Row.risk_level r))
  = Ok ("디스크 I/O 병목", "과다 할당", "attention")%string.
Proof. vm_compute. reflexivity. Qed.


(** ** The screens *)

Lemma disk_io_baseline raw baseline i i' :
  assess_disk_io (build_resource_stats raw baseline) = Ok i →
  assess_disk_io (build_resource_stats raw None) = Ok i' →
  i = i' ∨ baseline ≠ None ∧ disk_io_saturated (build_resource_stats raw None) = None
           ∧ status i = IoOk ∧ status i' = Unmeasured.
Proof.
  unfold assess_disk_io.
  change (disk_io_saturated (build_resource_stats raw baseline))
    with (disk_io_saturated (build_resource_stats raw None)).
  destruct (disk_io_saturated _) as [b|].
  - intros H H'. left. cut (Ok i = Ok i'); [by intros [=]|]. rewrite <- H, <- H'. reflexivity.
  - destruct baseline as [n|]; intros [= <-] [= <-]; [right|left]; done.
Qed.

(** C19. The report judges a host with its disk operations, the server list, the action
    table and the API judge it without.  What that can change is the disk I/O and the
    idle verdict, and nothing else.  The CPU, the memory, the disk capacity and the
    network are judged the same, and the disk I/O too, except that a disk of which no
    response time and no queue was measured is "ok" in the report and "unmeasured"
    (with a coverage gap, and the notes on confidence that follow from it) elsewhere; it
    is never saturated for one and not for the other.  Cause, symptoms, prescription and
    congestion are the same, and so is the verdict on the host, unless the disk is busier
    than an idle one's, where the report says over-provisioned or normal and the others
    say idle. *)
Theorem disk_baseline_only_hides_idle (raw : ReportRowRaw) (baseline : option Z) (h h' : HostAssessment)
  (H : rollup_host (build_resource_stats raw baseline) = Ok h)
  (H' : rollup_host (build_resource_stats raw None) = Ok h') :
  root_cause h = root_cause h' ∧ symptom_of_root h = symptom_of_root h'
  ∧ prescribed_under_kinds h = prescribed_under_kinds h'
  ∧ network_congested h = network_congested h'
  ∧ (∀ k, k ≠ DiskIo → resources h !! k = resources h' !! k)
  ∧ (verdict_is h DiskIo IoBound ↔ verdict_is h' DiskIo IoBound)
  ∧ (resources h !! DiskIo = resources h' !! DiskIo
     ∨ baseline ≠ None ∧ disk_io_saturated (build_resource_stats raw None) = None
       ∧ verdict_is h DiskIo IoOk ∧ verdict_is h' DiskIo Unmeasured)
  ∧ (host_status h = host_status h'
     ∨ (∃ n, baseline = Some n ∧ fgt (of_Z n) (of_Z IDLE_DISK_IOPS) = true)
       ∧ host_status h' = HostIdle ∧ host_status h ∈ [HostOver; HostOptimal]).
Proof.
  destruct (rollup_inv _ _ H) as (c & m & d & i & R), (rollup_inv _ _ H') as (c' & m' & d' & i' & R').
  assert (Ok c' = Ok c) as [= ->] by (rewrite <- (ro_cpu_ok _ _ _ _ _ _ R), <- (ro_cpu_ok _ _ _ _ _ _ R'); reflexivity).
  assert (Ok m' = Ok m) as [= ->]
    by (rewrite <- (ro_memory_ok _ _ _ _ _ _ R), <- (ro_memory_ok _ _ _ _ _ _ R'); reflexivity).
  assert (Ok d' = Ok d) as [= ->]
    by (rewrite <- (ro_disk_capacity_ok _ _ _ _ _ _ R), <- (ro_disk_capacity_ok _ _ _ _ _ _ R'); reflexivity).
  assert (status i' = IoBound ↔ status i = IoBound) as I.
  { by rewrite (disk_io_bound _ _ (ro_disk_io_ok _ _ _ _ _ _ R)), (disk_io_bound _ _ (ro_disk_io_ok _ _ _ _ _ _ R')). }
  assert (root_cause h = root_cause h' ∧ symptom_of_root h = symptom_of_root h') as [-> ->].
  { pose proof (ro_root _ _ _ _ _ _ R) as Q. pose proof (ro_root _ _ _ _ _ _ R') as Q'. cbn zeta in Q, Q'.
    change (_mem_paging_active (build_resource_stats raw None)) with (_mem_paging_active (build_resource_stats raw baseline)) in Q'.
    change (procs_blocked_p95 (build_resource_stats raw None)) with (procs_blocked_p95 (build_resource_stats raw baseline)) in Q'.
    destruct (decide (status i = IoBound)), (decide (status i' = IoBound)); intuition congruence. }
  split; [done|]. split; [done|]. split.
  { unfold prescribed_under_kinds. by rewrite (under_kinds_rolled _ _ _ _ _ _ R), (under_kinds_rolled _ _ _ _ _ _ R'). }
  split; [by rewrite (ro_network _ _ _ _ _ _ R), (ro_network _ _ _ _ _ _ R')|]. split.
  { intros k Hk. rewrite (ro_lookup _ _ _ _ _ _ R), (ro_lookup _ _ _ _ _ _ R'). by destruct k. }
  split; [by rewrite (verdict_rolled _ _ _ _ _ _ _ _ R), (verdict_rolled _ _ _ _ _ _ _ _ R')|]. split.
  { rewrite (verdict_rolled _ _ _ _ _ _ _ _ R), (verdict_rolled _ _ _ _ _ _ _ _ R'),
      (ro_lookup _ _ _ _ _ _ R), (ro_lookup _ _ _ _ _ _ R'). cbn [res_of].
    destruct (disk_io_baseline _ _ _ _ (ro_disk_io_ok _ _ _ _ _ _ R) (ro_disk_io_ok _ _ _ _ _ _ R'))
      as [-> |D]; [by left|by right]. }
  pose proof (ro_status _ _ _ _ _ _ R) as S. pose proof (ro_status _ _ _ _ _ _ R') as S'. unfold _host_status in S, S'.
  rewrite !(rolled_get _ _ _ _ _ _ _ R) in S. rewrite !(rolled_get _ _ _ _ _ _ _ R') in S'.
  cbn [res_of mbind result_bind] in S, S'. destruct (negb _); [left; congruence|]. destruct (_ && _); [left; congruence|].
  cbn [cpu_p95_pct net_avg_kbytes_per_s disk_iops_baseline build_resource_stats some_and negb fmap option_fmap option_map]
    in S, S'. rewrite andb_true_r in S'.
  match type of S' with (if ?q then _ else _) = _ => destruct q end; [|left; cbn [andb] in *; congruence]. injection S' as <-. cbn [andb] in S.
  destruct baseline as [n|]; cbn in S; [|left; congruence].
  destruct (fgt (of_Z n) (of_Z IDLE_DISK_IOPS)) eqn:E; cbn in S; [right|left; congruence].
  split; [eauto|]. split; [done|]. destruct (_ || _) in S; injection S as <-; in_list.
Qed.

(** The host of [io_row], nearly at rest but for its disk *)
Definition busy_disk_row : ReportRowRaw := {|
  RawRow.server_id := 1; RawRow.public_id := "srv-1"; RawRow.hostname := "db-1";
  RawRow.os_family := Some "linux"%string; RawRow.os_id := Some "ubuntu"%string;
  RawRow.os_version := Some "22.04"%string; RawRow.os_codename := None; RawRow.kernel_version := None;
  RawRow.net_interfaces := None; RawRow.services := None; RawRow.last_seen_at := None;
  RawRow.cpu_p95_pct := Some (of_Z 2); RawRow.cpu_avg_pct := Some (of_Z 30);
  RawRow.cpu_peak_pct := Some (of_Z 60); RawRow.mem_p95_pct := Some (of_Z 50); RawRow.mem_avg_pct := None;
  RawRow.mem_peak_pct := None; RawRow.mem_near_peak_pct := None; RawRow.listen_ports := None;
  RawRow.iowait_p95_pct := None; RawRow.iowait_peak_pct := None; RawRow.cpu_run_queue_p95 := None;
  RawRow.mem_pages_input_rate_p95 := None; RawRow.cpu_cores := Some 4;
  RawRow.mem_total_bytes := Some (8 * 1024 ^ 3); RawRow.block_devices := None; RawRow.lvm_vgs := None;
  RawRow.arch := None; RawRow.bits := None; RawRow.boot_firmware := None; RawRow.secure_boot := None;
  RawRow.edition := None; RawRow.product_name := None; RawRow.timezone := None; RawRow.rtc_utc := None;
  RawRow.boot := None; RawRow.nonblock_mounts := None; RawRow.boot_time := None;
  RawRow.worst_mount_used_pct := Some (of_Z 40); RawRow.disk_capacity_worst_mount := None;
  RawRow.reboot_count := 0; RawRow.agent_restart_count := 0; RawRow.disk_iops_baseline := Some 40;
  RawRow.disk_iops_p95 := None; RawRow.disk_iops_peak := None; RawRow.disk_throughput_kbps := None;
  RawRow.disk_throughput_kbps_p95 := None; RawRow.disk_throughput_kbps_peak := None;
  RawRow.net_rx_kbps := Some (of_Z 5); RawRow.net_rx_kbps_p95 := None; RawRow.net_rx_kbps_peak := None;
  RawRow.net_tx_kbps := None; RawRow.net_tx_kbps_p95 := None; RawRow.net_tx_kbps_peak := None;
  RawRow.cpu_sufficiency := None; RawRow.mem_sufficiency := None; RawRow.cpu_steal_p95_pct := None;
  RawRow.cpu_burst_ratio := None; RawRow.procs_blocked_p95 := None; RawRow.procs_running_p95 := Some (of_Z 2);
  RawRow.mem_swap_paging := false; RawRow.oom_occurred := false; RawRow.history_hours := Some (of_Z 336);
  RawRow.disk_await_p95_ms := Some (of_Z 35); RawRow.disk_capacity_runway_days := None;
  RawRow.disk_capacity_driving_mount := None; RawRow.disk_inode_runway_days := None;
  RawRow.disk_inode_used_pct := None; RawRow.disk_capacity_target_gb := None;
  RawRow.disk_capacity_proj_30d_pct := None; RawRow.disk_capacity_driving_used_pct := None;
  RawRow.net_drop_pct := None; RawRow.net_retrans_pct := None; RawRow.conntrack_ratio := None;
  RawRow.cpu_trend_slope := None; RawRow.mem_trend_slope := None; RawRow.cpu_percore_p95_max := None |}.

Lemma disk_baseline_only_hides_idle_witness :
  ∃ h h', rollup_host (build_resource_stats busy_disk_row (Some 40)) = Ok h
    ∧ rollup_host (build_resource_stats busy_disk_row None) = Ok h'
    ∧ host_status h = HostOver ∧ host_status h' = HostIdle ∧ root_cause h = root_cause h'.
Proof.
  eexists _, _. split; [by_eval|]. split; [by_eval|]. split; [by_eval|]. split; [by_eval|].
  refine (proj1 (disk_baseline_only_hides_idle busy_disk_row (Some 40) _ _ _ _)); by_eval.
Defined.

(** A Windows host with a queue of three per core: the API shows the value as 1.5, a
    multiple of the line, next to the line itself, 2, and calls the axis saturated. *)
Example windows_saturation_value :
  let stats := {| cpu_p95_pct := Some (of_Z 90); cpu_peak_pct := None; cpu_cores := Some 4;
    mem_p95_pct := None; disk_used_pct := None; net_avg_kbytes_per_s := None; os_family := Some "windows"%string;
    sample_sufficiency := None; disk_queue_p95 := None; cpu_run_queue_p95 := Some (of_Z 12);
    mem_pages_input_rate_p95 := None; cpu_percore_p95_max := None; procs_blocked_p95 := None;
    procs_running_p95 := None; mem_swap_paging := false; oom_occurred := false; mem_total_mb := None;
    mem_near_peak_pct := None; disk_await_p95_ms := None; disk_iops_baseline := None;
    disk_capacity_runway_days := None; disk_inode_runway_days := None; disk_inode_used_pct := None;
    disk_capacity_target_gb := None; net_retrans_pct := None; net_drop_pct := None; conntrack_ratio := None;
    history_hours := None; cpu_burst_ratio := None; util_trend_rising := None; cpu_steal_p95_pct := None |} in
  saturation_block Cpu stats = JObj [
    ("signal", JStr "Processor Queue Length/core"); ("value", JFloat (of_ratio false 3 2));
    ("threshold", JFloat (of_Z 2)); ("unit", JStr "per_core"); ("measured", JBool true);
    ("saturated", JBool true)]%string.
Proof. vm_compute. reflexivity. Qed.
