(* ===== verification/PeriodCard.v ===== *)
(** * The period card of one server

    Models [src/assessment_engine/web/services/mappers/period_assessment.py]: utilisation
    and saturation of each resource with their thresholds, the verdicts, the errors and
    the signals behind the confidence. *)

From S2P Require Import Prelude PyFloat PyText PyList Sql Devices EolCatalog OsEol StorageTree MetricViews RightSizing Assess Rollup Outbound ServerViews HostRows.

(** ** View models ([view_models/metric.py]) *)

Module SignalRow.
Record PeriodSignalRow := {
  label : string;
  value : string;
  threshold : string;
  over : bool;
  measured : bool;
}.
End SignalRow.
Abbreviation PeriodSignalRow := SignalRow.PeriodSignalRow.

Module ErrorRow.
Record PeriodErrorRow := {
  key : string;
  label : string;
  badge_text : string;
  badge_class : string;
  note : string;
  sizing_signal : string;
}.
End ErrorRow.
Abbreviation PeriodErrorRow := ErrorRow.PeriodErrorRow.

Record PeriodExtraGroup := { group_label : string; group_rows : list PeriodSignalRow }.

Module Resource.
Record PeriodResource := {
  name : string;
  util_rows : list PeriodSignalRow;
  util_over : Z;
  sat_rows : list PeriodSignalRow;
  sat_over : Z;
  has_util : bool;
  detail_slug : string;
  verdict_label : string;
  verdict_color : string;
  extra_groups : list PeriodExtraGroup;
  error_rows : list PeriodErrorRow;
  verdict_label2 : string;
  verdict_color2 : string;
}.
End Resource.
Abbreviation PeriodResource := Resource.PeriodResource.

Module Period.
Record PeriodAssessment := {
  resources : list PeriodResource;
  error_rows : list PeriodErrorRow;
  window_days : Z;
  classification_label : string;
  classification_color : string;
}.
End Period.
Abbreviation PeriodAssessment := Period.PeriodAssessment.

(** ** Verdicts *)

Definition _pct_str (v : option float) : string := or_na (λ x, String.append (fmt_fixed 1 x) "%") v.

Definition _VERDICT_LABEL (s : ResourceStatus) : option string :=
  match s with
  | Under => Some "부족" | Over => Some "과다" | Filling => Some "용량 임박" | IoBound => Some "I/O 병목"
  | Congested => Some "혼잡" | Unmeasured => Some "미측정" | Insufficient => Some "표본 부족"
  | _ => None
  end%string.

Definition _VERDICT_COLOR (s : ResourceStatus) : option string :=
  match s with
  | Under | Filling | IoBound => Some "#dc2626" | Congested => Some "#d97706" | Over => Some "var(--color-title)"
  | _ => None
  end%string.

Definition _verdict (s : ResourceStatus) : string * string :=
  (default "정상"%string (_VERDICT_LABEL s), default "#94a3b8"%string (_VERDICT_COLOR s)).

(** ** Errors *)

Definition period_error_row (e : ErrorSignal) : PeriodErrorRow :=
  let occurred := String.eqb (ErrSignal.state e) "occurred" in
  let '(text, cls, note) :=
    if occurred
    then (match ErrSignal.count e with Some n => String.append (pretty n) "건" | None => "발생" end,
          "badge-danger", str_or (ErrSignal.context e) "")
    else if String.eqb (ErrSignal.state e) "clean" then ("이상 없음", "badge-ok", "")
    else if String.eqb (ErrSignal.state e) "not_applicable" then ("N/A", "badge-muted", "")
    else ("수집 대기", "badge-muted", "")%string in
  {| ErrorRow.key := ErrSignal.key e; ErrorRow.label := ErrSignal.label e;
     ErrorRow.badge_text := text; ErrorRow.badge_class := cls; ErrorRow.note := note;
     ErrorRow.sizing_signal :=
       if String.eqb (ErrSignal.key e) "mem_oom" && occurred then "메모리 자원 부족" else "" |}.

Definition _period_error_rows (errors : list ErrorSignal) : list PeriodErrorRow := period_error_row <$> errors.

(** ** The signals behind the confidence *)

Definition _extra_row (label : string) (val : option float) (unit : string) (thr : option float) (over : bool)
    : PeriodSignalRow := {|
  SignalRow.label := label;
  SignalRow.value := or_na (λ v, String.append (fmt_fixed 1 v) unit) val;
  SignalRow.threshold := match thr with Some t => str_join "" ["임계 "; fmt_g t; unit]%string | None => "" end;
  SignalRow.over := over;
  SignalRow.measured := is_some val |}.

(** [_extra_row(label, val, unit)], a value without a threshold *)
Definition info_row (label : string) (val : option float) (unit : string) : PeriodSignalRow :=
  _extra_row label val unit None false.

Definition _confidence_rows (stats : ResourceStats) : list PeriodSignalRow :=
  let hours := history_hours stats in
  let suff := sample_sufficiency stats in
  [{| SignalRow.label := "관측 시간";
      SignalRow.value := or_na (λ h, String.append (fmt_fixed 0 h) "h") hours;
      SignalRow.threshold := str_join "" ["최소 "; fmt_g (of_Z RS_CONFIDENCE_MIN_HOURS); "h"]%string;
      SignalRow.over := some_and hours (λ h, flt h (of_Z RS_CONFIDENCE_MIN_HOURS));
      SignalRow.measured := is_some hours |};
   {| SignalRow.label := "표본 충분성";
      SignalRow.value := or_na (λ s, String.append (fmt_fixed 0 (fmul s (of_Z 100))) "%") suff;
      SignalRow.threshold :=
        str_join "" ["최소 "; fmt_g (fmul RS_DOWNSIZE_MIN_SUFFICIENCY (of_Z 100)); "%"]%string;
      SignalRow.over := some_and suff (λ s, flt s RS_DOWNSIZE_MIN_SUFFICIENCY);
      SignalRow.measured := is_some suff |}].

(** [over = val is not None and val >= thr] *)
Definition at_least_row (label : string) (val : option float) (unit : string) (thr : float) : PeriodSignalRow :=
  _extra_row label val unit (Some thr) (some_and val (λ v, fge v thr)).

Definition _cpu_extra_groups (stats : ResourceStats) : list PeriodExtraGroup :=
  [{| group_label := "부하 신호";
      group_rows :=
        [info_row "피크 사용률" (cpu_peak_pct stats) "%";
         at_least_row "코어별 최대 p95" (cpu_percore_p95_max stats) "%" (of_Z RS_CPU_PERCORE_HOLD_PCT);
         at_least_row "D-state 블록 p95" (procs_blocked_p95 stats) "" PROCS_BLOCKED_DSTATE_SATURATION] |};
   {| group_label := "통계 신뢰도";
      group_rows :=
        [_extra_row "버스트 비율(p95/median)" (cpu_burst_ratio stats) "x" (Some RS_BURST_RATIO_MAX)
           (some_and (cpu_burst_ratio stats) (λ b, fgt b RS_BURST_RATIO_MAX));
         at_least_row "Steal 편향 p95" (cpu_steal_p95_pct stats) "%" (of_Z RS_CPU_STEAL_BIAS_PCT)]
        ++ _confidence_rows stats |}].

Definition _mem_extra_groups (stats : ResourceStats) : list PeriodExtraGroup :=
  [{| group_label := "부하 신호"; group_rows := [info_row "Near-peak 사용률" (mem_near_peak_pct stats) "%"] |};
   {| group_label := "통계 신뢰도"; group_rows := _confidence_rows stats |}].

(** [_runway_row] of [_storage_extra_groups] *)
Definition _runway_row (stats : ResourceStats) (label : string) (val : option float) : PeriodSignalRow :=
  let stable := some_and (history_hours stats) (λ h, fge h (of_Z RS_CONFIDENCE_MIN_HOURS)) in
  let '(value, threshold) :=
    match val with
    | Some v => (String.append (fmt_fixed 0 v) "일",
                 str_join "" ["최소 "; fmt_g (of_Z RS_DISK_RUNWAY_DAYS); "일"])
    | None => if stable then ("안정 (추세 없음)", "")
              else ("N/A (관측 부족)", str_join "" ["최소 "; fmt_g (of_Z RS_CONFIDENCE_MIN_HOURS); "h 관측"])
    end%string in
  {| SignalRow.label := label; SignalRow.value := value; SignalRow.threshold := threshold;
     SignalRow.over := some_and val (λ v, flt v (of_Z RS_DISK_RUNWAY_DAYS));
     SignalRow.measured := is_some val || stable |}.

Definition _storage_extra_groups (stats : ResourceStats) : list PeriodExtraGroup :=
  [{| group_label := "통계 신뢰도"; group_rows := _confidence_rows stats |};
   {| group_label := "부하 신호";
      group_rows :=
        [_runway_row stats "용량 소진 잔여일수" (disk_capacity_runway_days stats);
         _runway_row stats "inode 소진 잔여일수" (disk_inode_runway_days stats);
         at_least_row "inode 사용률" (disk_inode_used_pct stats) "%" (of_Z RS_DISK_STATIC_GUARD_PCT);
         info_row "IOPS 활동량(baseline)" (disk_iops_baseline stats) " IOPS";
         info_row "확장 목표 용량(1년 수명)" (disk_capacity_target_gb stats) "GB"] |}].

Definition _network_extra_groups (stats : ResourceStats) : list PeriodExtraGroup :=
  [{| group_label := "부하 신호"; group_rows := [info_row "트래픽 baseline" (net_avg_kbytes_per_s stats) " kB/s"] |};
   {| group_label := "통계 신뢰도"; group_rows := _confidence_rows stats |}].

(** ** The card *)

(** [_u] *)
Definition util_row (label value : string) (val : option float) (thr : float) : PeriodSignalRow := {|
  SignalRow.label := label; SignalRow.value := value;
  SignalRow.threshold := str_join "" ["임계 "; fmt_g thr; "%"]%string;
  SignalRow.over := some_and val (λ v, fge v thr);
  SignalRow.measured := is_some val |}.

Definition removeprefix (p s : string) : string := default s (drop_prefix p s).

(** [_s] *)
Definition sat_row (label : string) (d : SaturationAxisDisplay) : PeriodSignalRow := {|
  SignalRow.label := label; SignalRow.value := axis_value d;
  SignalRow.threshold :=
    if startswith "발생" (axis_threshold d) then axis_threshold d
    else String.append "임계 " (removeprefix "> " (removeprefix ">= " (axis_threshold d)));
  SignalRow.over := axis_crossed d; SignalRow.measured := axis_measured d |}.

(** [_net], and the row of conntrack, whose unit is empty *)
Definition net_row (label : string) (val : option float) (thr : float) (unit : string) : PeriodSignalRow := {|
  SignalRow.label := label;
  SignalRow.value := or_na (λ v, String.append (fmt_fixed 2 v) unit) val;
  SignalRow.threshold := str_join "" ["임계 "; fmt_g thr; unit]%string;
  SignalRow.over := some_and val (λ v, fge v thr);
  SignalRow.measured := is_some val |}.

(** [_over] *)
Definition over_count (rows : list PeriodSignalRow) : Z :=
  Z.of_nat (length (filter (λ r, SignalRow.over r = true) rows)).

(** [_rstat] *)
Definition rstat (host : HostAssessment) (k : ResourceKind) : ResourceStatus :=
  match resources host !! k with Some a => status a | None => Unmeasured end.

Definition card_resource (name slug : string) (util sat : list PeriodSignalRow) (has_util : bool)
    (status : ResourceStatus) (extra : list PeriodExtraGroup) (errors : list PeriodErrorRow)
    (status2 : option ResourceStatus) : PeriodResource := {|
  Resource.name := name;
  Resource.util_rows := util; Resource.util_over := over_count util;
  Resource.sat_rows := sat; Resource.sat_over := over_count sat;
  Resource.has_util := has_util; Resource.detail_slug := slug;
  Resource.verdict_label := (_verdict status).1; Resource.verdict_color := (_verdict status).2;
  Resource.extra_groups := extra; Resource.error_rows := errors;
  Resource.verdict_label2 := match status2 with Some s => (_verdict s).1 | None => "" end;
  Resource.verdict_color2 := match status2 with Some s => (_verdict s).2 | None => "" end |}.

(** The rows of the saturation axes, labelled as on the real-time card *)
Definition axis_rows (stats : ResourceStats) : list PeriodSignalRow :=
  zip_with sat_row ["실행 큐"; "페이징"; "응답 지연"]%string (saturation_axis_displays stats).

Definition net_rows (stats : ResourceStats) : list PeriodSignalRow :=
  [net_row "재전송" (net_retrans_pct stats) RS_NET_RETRANS_PCT "%";
   net_row "드롭" (net_drop_pct stats) RS_NET_DROP_PCT "%";
   net_row "conntrack" (conntrack_ratio stats) RS_CONNTRACK_SATURATION_RATIO ""].

(** The value of the disk's utilisation names the fullest mount. *)
Definition disk_util_value (val : option float) (mount : option string) : string :=
  match val, mount with
  | Some v, Some m => if String.eqb m "" then _pct_str val else str_join "" [_pct_str val; " ("; m; ")"]%string
  | _, _ => _pct_str val
  end.

Definition build_period_assessment (stats : ResourceStats) (errors : option (list ErrorSignal))
    (disk_worst_mount : option string) (window_days : option Z) : result PeriodAssessment :=
  host ← rollup_host stats;
  let rec := host_status_to_recommendation (host_status host) in
  let error_rows := _period_error_rows (default [] errors) in
  let pct (label : string) (val : option float) (thr : Z) := util_row label (_pct_str val) val (of_Z thr) in
  let at_axis (n : nat) := option_list (axis_rows stats !! n) in
  Ok {| Period.window_days := default WINDOW_DAYS window_days;
        Period.error_rows := error_rows;
        Period.classification_label := LABEL_KO rec;
        Period.classification_color :=
          match find (λ d : Recommendation * string * string, bool_decide (d.1.1 = rec)) _DONUT_SEGMENT_DEFS with
          | Some d => d.1.2
          | None => ""
          end;
        Period.resources :=
          [card_resource "CPU" "cpu" [pct "P95 사용률" (cpu_p95_pct stats) RS_CPU_UNDER_PCT] (at_axis 0%nat) true
             (rstat host Cpu) (_cpu_extra_groups stats) [] None;
           card_resource "메모리" "memory" [pct "P95 사용률" (mem_p95_pct stats) RS_MEM_UNDER_PCT] (at_axis 1%nat) true
             (rstat host Memory) (_mem_extra_groups stats)
             (filter (λ r, startswith "mem_" (ErrorRow.key r) = true) error_rows) None;
           card_resource "스토리지" "storage"
             [util_row "사용률 (worst mount)" (disk_util_value (disk_used_pct stats) disk_worst_mount)
                (disk_used_pct stats) (of_Z RS_DISK_STATIC_GUARD_PCT)] (at_axis 2%nat) true
             (rstat host DiskCapacity) (_storage_extra_groups stats) [] (Some (rstat host DiskIo));
           card_resource "네트워크" "network" [] (net_rows stats) false
             (rstat host Network) (_network_extra_groups stats) [] None] |}.
