(* ===== verification/PeriodProps.v ===== *)
(** * The period card: a bad verdict is never shown without the signal behind it *)

From S2P Require Import Prelude PyFloat PyText PyList Sql Devices EolCatalog OsEol StorageTree MetricViews RightSizing Assess Rollup AssessFacts RollupFacts RightSizingProps Outbound ServerViews HostRows HostRowProps PeriodCard.

Lemma over_count_pos r rows : r ∈ rows → SignalRow.over r = true → 0 < over_count rows.
Proof.
  intros Hr Ho. unfold over_count.
  assert (r ∈ filter (λ r, SignalRow.over r = true) rows) as Hf by by apply list_elem_of_filter.
  destruct (filter _ rows) as [|x l]; [by apply elem_of_nil in Hf|cbn; lia].
Qed.

(** A use is over its line when it was measured at the threshold or above. *)
Lemma util_over_iff label value val thr :
  0 < over_count [util_row label value val thr] ↔ ∃ u, val = Some u ∧ fge u thr = true.
Proof.
  rewrite <- some_and_true. unfold over_count. rewrite filter_cons. cbn [SignalRow.over util_row].
  by case_decide as E; cbn; split.
Qed.

(** ** The axes *)

Lemma cpu_axis_over stats :
  cpu_saturated stats = Some true → ∃ r, axis_rows stats !! 0%nat = Some r ∧ SignalRow.over r = true.
Proof.
  intros (c & q & Hc & Hp & Hq & Hl & _)%cpu_saturated_iff.
  unfold axis_rows, saturation_axis_displays. unfold _run_queue_value in Hq. unfold _RS_CPU_SAT_LINE in Hl.
  assert (String.eqb (str_or (os_family stats) "") "windows" = is_windows (os_family stats)) as Ew.
  { unfold is_windows. destruct (os_family stats) as [s|]; cbn; [|done].
    destruct (String.eqb_spec s "") as [->|]; [done|]. destruct (String.eqb_spec s "windows") as [->|]; [done|].
    by rewrite bool_decide_eq_false_2 by congruence. }
  rewrite Ew in *. destruct (is_windows (os_family stats)); (eexists; split; [reflexivity|]);
    cbn [SignalRow.over sat_row axis_crossed cpu_axis]; rewrite ?Hq, Hc; cbn [per_core];
    (destruct (Z.eqb_spec c 0); [lia|done]).
Qed.

Lemma mem_axis_over stats :
  _mem_paging_active stats = true → ∃ r, axis_rows stats !! 1%nat = Some r ∧ SignalRow.over r = true.
Proof.
  unfold _mem_paging_active. destruct (mem_saturated stats) as [[]|] eqn:E; try done. intros _.
  apply mem_saturated_iff in E as (u & _ & _ & E). unfold axis_rows, saturation_axis_displays.
  destruct (is_windows (os_family stats)); (eexists; split; [reflexivity|]); cbn [SignalRow.over sat_row axis_crossed].
  - destruct E as (p & -> & E). exact E.
  - done.
Qed.

Lemma disk_axis_over stats :
  disk_queue_p95 stats = None → disk_io_saturated stats = Some true →
  ∃ r, axis_rows stats !! 2%nat = Some r ∧ SignalRow.over r = true.
Proof.
  unfold disk_io_saturated, axis_rows, saturation_axis_displays. intros Hq H.
  destruct (disk_await_p95_ms stats) as [a|].
  - injection H as H. destruct (is_windows _); (eexists; split; [reflexivity|]); exact H.
  - destruct (is_windows _); [|done]. by rewrite Hq in H.
Qed.

Lemma net_rows_over stats :
  status (assess_network stats) = Congested → ∃ r, r ∈ net_rows stats ∧ SignalRow.over r = true.
Proof.
  intros H. assert (net_signal_active (net_retrans_pct stats) (net_drop_pct stats) (conntrack_ratio stats)
    (net_avg_kbytes_per_s stats) = true) as A by (rewrite net_signal_congested; by apply bool_decide_eq_true).
  unfold net_signal_active in A. unfold net_rows.
  assert (∀ o c, some_and o (λ x, fgt x c) = true → some_and o (λ x, fge x c) = true) as G
    by (intros [x|] c; [apply fgt_fge|done]).
  assert (∀ a b c : PeriodSignalRow, SignalRow.over a = true ∨ SignalRow.over b = true ∨ SignalRow.over c = true →
    ∃ r, r ∈ [a; b; c] ∧ SignalRow.over r = true) as X.
  { intros a b c [D|[D|D]]; eexists; (split; [|exact D]); in_list. }
  apply X. cbn [SignalRow.over net_row].
  destruct (_ && some_and (net_retrans_pct stats) _) eqn:E1; [left; to_prop; auto|].
  destruct (_ && some_and (net_drop_pct stats) _) eqn:E2; [right; left; to_prop; auto|]. by right; right.
Qed.

Lemma runway_or_used stats (label : string) runway used :
  axis_filling runway used = true →
  SignalRow.over (_runway_row stats label runway) = true
  ∨ some_and used (λ u, fge u (of_Z RS_DISK_STATIC_GUARD_PCT)) = true.
Proof.
  unfold axis_filling. intros [H|H]%orb_true_iff; [left|right; by to_prop].
  unfold _runway_row. by destruct runway.
Qed.

Lemma rstat_rolled stats h c m d i k : rolled stats h c m d i →
  rstat h k = status (res_of c m d i (assess_network stats) k).
Proof. intros R. unfold rstat. by rewrite (ro_lookup _ _ _ _ _ _ R). Qed.

(** A row of the groups under one of the labels is over its threshold. *)
Definition extra_over (labels : list string) (groups : list PeriodExtraGroup) : Prop :=
  ∃ g r, g ∈ groups ∧ r ∈ group_rows g ∧ SignalRow.over r = true ∧ SignalRow.label r ∈ labels.

(** The signals a disk can fill by, other than its usage *)
Definition filling_labels : list string := ["용량 소진 잔여일수"; "inode 소진 잔여일수"; "inode 사용률"]%string.

Lemma storage_extra_over stats r :
  r ∈ [_runway_row stats "용량 소진 잔여일수" (disk_capacity_runway_days stats);
       _runway_row stats "inode 소진 잔여일수" (disk_inode_runway_days stats);
       at_least_row "inode 사용률" (disk_inode_used_pct stats) "%" (of_Z RS_DISK_STATIC_GUARD_PCT)] →
  SignalRow.over r = true → extra_over filling_labels (_storage_extra_groups stats).
Proof.
  intros Hr Ho. unfold extra_over, _storage_extra_groups. eexists _, r.
  split; [apply list_elem_of_further, list_elem_of_here|]. split; [cbn [group_rows]; set_solver|].
  split; [done|]. clear Ho. unfold _runway_row, at_least_row, _extra_row in Hr.
  case_in_list Hr; repeat case_match; cbn [SignalRow.label]; unfold filling_labels; in_list.
Qed.

(** The word a card shows for a verdict *)
Definition card_word (s : ResourceStatus) : string :=
  match s with
  | Under => "부족" | Over => "과다" | Filling => "용량 임박" | IoBound => "I/O 병목" | Congested => "혼잡"
  | Unmeasured => "미측정" | Insufficient => "표본 부족"
  | Optimal | CapacityOk | IoOk | QualityOk => "정상"
  end.

Lemma verdict_card s : (_verdict s).1 = card_word s.
Proof. by destruct s. Qed.

(** Each bad word belongs to one verdict. *)
Lemma card_word_inj s s' :
  s' ∈ [Under; Filling; IoBound; Congested] → card_word s = card_word s' → s = s'.
Proof. intros Hs. case_in_list Hs; by destruct s. Qed.

(** C8. The card of a server can always be built from measurements in range; it shows
    the CPU, the memory, the storage and the network, each with the word of the verdict
    on that very resource (the storage with a second one, of its disk I/O), and no bad
    word stands on it without the signal it comes from: where the CPU is called short
    its utilisation or its run queue is over the line, where the memory is called short
    its utilisation or its paging, unless the out-of-memory killer ran; where the disk
    is called a bottleneck its response time, where it is called nearly full its usage,
    one of its two runways or the use of its inodes; and where the network is called
    congested one of its three signals.  A utilisation or a usage is over the line exactly
    when it was measured at the threshold or above: 70, 90 and 85 percent.  The badge of the card is the verdict of the
    lists. *)
Theorem bad_verdicts_are_explained (raw : ReportRowRaw) (baseline : option Z)
  (errors : option (list ErrorSignal)) (mount : option string) (days : option Z)
  (S : sane_stats (build_resource_stats raw baseline))
  (N1 : not_nan (RawRow.disk_capacity_runway_days raw)) (N2 : not_nan (RawRow.disk_inode_runway_days raw)) :
  let stats := build_resource_stats raw baseline in
  ∃ card host cpu memory storage network,
    build_period_assessment stats errors mount days = Ok card
    ∧ rollup_host stats = Ok host
    ∧ Period.classification_label card = LABEL_KO (host_status_to_recommendation (host_status host))
    ∧ Period.resources card = [cpu; memory; storage; network]
    ∧ Resource.detail_slug <$> [cpu; memory; storage; network] = ["cpu"; "memory"; "storage"; "network"]%string
    ∧ (∀ s, verdict_is host Cpu s → Resource.verdict_label cpu = card_word s)
    ∧ (∀ s, verdict_is host Memory s → Resource.verdict_label memory = card_word s)
    ∧ (∀ s, verdict_is host DiskCapacity s → Resource.verdict_label storage = card_word s)
    ∧ (∀ s, verdict_is host DiskIo s → Resource.verdict_label2 storage = card_word s)
    ∧ (∀ s, verdict_is host Network s → Resource.verdict_label network = card_word s)
    ∧ (0 < Resource.util_over cpu ↔ ∃ u, RawRow.cpu_p95_pct raw = Some u ∧ fge u (of_Z 70) = true)
    ∧ (0 < Resource.util_over memory ↔ ∃ u, RawRow.mem_p95_pct raw = Some u ∧ fge u (of_Z 90) = true)
    ∧ (0 < Resource.util_over storage ↔ ∃ u, RawRow.worst_mount_used_pct raw = Some u ∧ fge u (of_Z 85) = true)
    ∧ (Resource.verdict_label cpu = "부족"%string → 0 < Resource.util_over cpu ∨ 0 < Resource.sat_over cpu)
    ∧ (Resource.verdict_label memory = "부족"%string →
         0 < Resource.util_over memory ∨ 0 < Resource.sat_over memory ∨ RawRow.oom_occurred raw = true)
    ∧ (Resource.verdict_label2 storage = "I/O 병목"%string → 0 < Resource.sat_over storage)
    ∧ (Resource.verdict_label storage = "용량 임박"%string →
         0 < Resource.util_over storage ∨ extra_over filling_labels (Resource.extra_groups storage))
    ∧ (Resource.verdict_label network = "혼잡"%string → 0 < Resource.sat_over network).
Proof.
  intros stats. destruct (rollup_total _ S) as [host H]. destruct (rollup_inv _ _ H) as (c & m & d & i & R).
  unfold build_period_assessment. fold stats in H |- *. rewrite H. cbn [mbind result_bind].
  eexists _, host, _, _, _, _. split; [reflexivity|]. split; [done|]. split; [done|]. split; [reflexivity|].
  fold stats in R. rewrite !(rstat_rolled _ _ _ _ _ _ _ R). cbn [res_of].
  cbn [Resource.util_over Resource.sat_over Resource.extra_groups Resource.verdict_label
    Resource.verdict_label2 card_resource]. rewrite !verdict_card.
  split; [reflexivity|].
  do 5 (split; [intros s; rewrite (verdict_rolled _ _ _ _ _ _ _ s R); by intros <-|]).
  do 3 (split; [apply util_over_iff|]).
  split; [|split; [|split; [|split]]]; intros Hw;
    match type of Hw with
    | card_word ?s = "부족"%string => assert (s = Under) as Hu by (apply card_word_inj; [in_list|done])
    | card_word ?s = "I/O 병목"%string => assert (s = IoBound) as Hb by (apply card_word_inj; [in_list|done])
    | card_word ?s = "용량 임박"%string => assert (s = Filling) as Hf by (apply card_word_inj; [in_list|done])
    | card_word ?s = "혼잡"%string => assert (s = Congested) as Hn by (apply card_word_inj; [in_list|done])
    end; clear Hw.
  - destruct (cpu_under_cause stats c) as [D|D]; [..|left|right].
    + intros u Eu. by apply (sane_cpu_util _ S).
    + by apply S.
    + by apply (ro_cpu_ok _ _ _ _ _ _ R).
    + done.
    + eapply over_count_pos; [apply list_elem_of_here|]. exact D.
    + destruct (cpu_axis_over _ D) as (r & -> & Hr). eapply over_count_pos; [apply list_elem_of_here|done].
  - destruct (memory_under_triggers _ _ (ro_memory_ok _ _ _ _ _ _ R) Hu) as [T Tn].
    destruct (_mem_paging_active stats) eqn:Ep.
    { right; left. destruct (mem_axis_over _ Ep) as (r & -> & Hr). eapply over_count_pos; [apply list_elem_of_here|done]. }
    destruct (oom_occurred stats) eqn:Eo; [by right; right|]. left.
    eapply over_count_pos; [apply list_elem_of_here|]. cbn [SignalRow.over util_row].
    destruct (some_and _ _) eqn:Eu; [done|]. by rewrite T in Tn.
  - apply (disk_io_bound _ _ (ro_disk_io_ok _ _ _ _ _ _ R)) in Hb.
    destruct (disk_axis_over stats eq_refl Hb) as (r & -> & Hr). eapply over_count_pos; [apply list_elem_of_here|done].
  - apply (disk_capacity_filling_iff stats d N1 N2 (ro_disk_capacity_ok _ _ _ _ _ _ R)) in Hf.
    destruct Hf as [Hf|Hf]; [apply (runway_or_used stats "용량 소진 잔여일수") in Hf as [Hf|Hf]
                            |apply (runway_or_used stats "inode 소진 잔여일수") in Hf as [Hf|Hf]].
    + right. by eapply storage_extra_over; [|exact Hf]; in_list.
    + left. eapply over_count_pos; [apply list_elem_of_here|exact Hf].
    + right. by eapply storage_extra_over; [|exact Hf]; in_list.
    + right. apply (storage_extra_over stats
        (at_least_row "inode 사용률" (disk_inode_used_pct stats) "%" (of_Z RS_DISK_STATIC_GUARD_PCT))); [in_list|exact Hf].
  - destruct (net_rows_over _ Hn) as (r & Hr & Ho). by eapply over_count_pos.
Qed.

Lemma bad_verdicts_are_explained_witness :
  ∃ card host cpu memory storage network,
    build_period_assessment (build_resource_stats io_row (Some 40)) None None None = Ok card
    ∧ rollup_host (build_resource_stats io_row (Some 40)) = Ok host
    ∧ Period.resources card = [cpu; memory; storage; network]
    ∧ Resource.verdict_label2 storage = "I/O 병목"%string ∧ 0 < Resource.sat_over storage.
Proof.
  destruct (bad_verdicts_are_explained io_row (Some 40) None None None)
    as (card & host & cpu & memory & storage & network & H1 & H2 & _ & H4 & _ & _ & _ & _ & Hio & _ & _ & _ & _ & _ & _ & H5 & _).
  - split; cbn; try (apply measured_within_some; by_eval); try apply measured_within_none;
      intros ? [= <-]; vm_compute; repeat split; done.
  - by intros x.
  - by intros x.
  - exists card, host, cpu, memory, storage, network. split; [exact H1|]. split; [exact H2|]. split; [exact H4|].
    assert (verdict_is host DiskIo IoBound) as E.
    { assert ((λ h, status <$> resources h !! DiskIo) <$> rollup_host (build_resource_stats io_row (Some 40))
        = Ok (Some IoBound)) as E by by_eval.
      rewrite H2 in E. by injection E. }
    split; [exact (Hio _ E)|]. apply H5. exact (Hio _ E).
Defined.

(** Retransmissions of exactly one percent: the row is over its line, the verdict is not. *)
Example retransmissions_at_the_line :
  let row := net_row "재전송" (Some (of_Z 1)) RS_NET_RETRANS_PCT "%" in
  SignalRow.over row = true
  ∧ net_signal_active (Some (of_Z 1)) None None (Some (of_Z 100)) = false.
Proof. by vm_compute. Qed.
