(* ===== verification/ActionTable.v ===== *)
(** * The action table and the attention signals

    Models, of [src/assessment_engine/web/services/mappers/attention.py], the rows of the
    action table and of the operational warnings, and [query/attention.py], which collects
    the warnings. *)

From S2P Require Import Prelude PyFloat Redis Sql Inbound CollectDb Wire PyText DbRetry Handlers PyList Devices Services EolCatalog OsEol StorageTree Reports RightSizing Assess Rollup Outbound ServerViews HostRows.

(** ** View models ([view_models/attention.py]) *)

Module Capacity.
Record CapacityWarningItem := {
  public_id : string;
  hostname : string;
  classification : Recommendation;
  classification_label : string;
  badge_class : string;
  classification_rank : Z;
  active_causes : list string;
  services : list (string * Z);
  confidence_notes : list string;
  recommendation_action : string;
  root_cause_label : string;
  severity_score : float;
  net_status_label : string;
  net_status_color : string;
  disk_io_status_label : string;
  disk_io_status_color : string;
  spec_display : string;
}.
End Capacity.
Abbreviation CapacityWarningItem := Capacity.CapacityWarningItem.

Module Targets.
Record ActionTargets := {
  hosts : list CapacityWarningItem;
  total : Z;
  under_count : Z;
  efficiency_count : Z;
  efficiency_vcpus : Z;
  efficiency_memory_gb : float;
  efficiency_disk_gb : Z;
}.
End Targets.
Abbreviation ActionTargets := Targets.ActionTargets.

(** [MetricGapWarningRaw] *)
Module Gap.
Record MetricGapWarningRaw := { public_id : string; hostname : string; last_metric_at : datetime }.
End Gap.
Abbreviation MetricGapWarningRaw := Gap.MetricGapWarningRaw.

(** ** Rows of the action table *)

Definition _NET_CONGESTED_COLOR : string := "#dc2626".

(** [{t for r in host.resources.values() for t in r.triggers}], as a test *)
Definition hit (host : HostAssessment) (t : TriggerKind) : bool :=
  existsb (λ k, match resources host !! k with Some a => mem t (triggers a) | None => false end)
    [Cpu; Memory; DiskCapacity; DiskIo; Network].

Definition active_causes_of (host : HostAssessment) : list string :=
  snd <$> filter (λ kl, hit host kl.1 = true) _CAUSE_LABEL_BY_TRIGGER.

(** [max(util_vals) if util_vals else 0.0] *)
Definition peak_util (raw : ReportRowRaw) : float :=
  match omap id [RawRow.cpu_p95_pct raw; RawRow.mem_p95_pct raw; RawRow.worst_mount_used_pct raw] with
  | [] => of_Z 0
  | x :: l => foldl fmax2 x l
  end.

(** [(10000.0 if swap_active else 0.0) + len(active_causes) * 100.0 + peak_util] *)
Definition under_severity (swap : bool) (causes : nat) (peak : float) : float :=
  fadd (fadd (if swap then of_Z 10000 else of_Z 0) (fmul (of_Z (Z.of_nat causes)) (of_Z 100))) peak.

Definition to_capacity_warning_item (raw : ReportRowRaw) : result CapacityWarningItem :=
  let stats := build_resource_stats raw None in
  host ← rollup_host stats;
  network ← res_get (resources host) Network;
  disk_io ← res_get (resources host) DiskIo;
  let classification := host_status_to_recommendation (host_status host) in
  let causes := active_causes_of host in
  action_severity ←
    (match classification with
     | under_provisioned =>
         action ← under_prescription host;
         Ok (action, under_severity (hit host mem_saturation) (length causes) (peak_util raw))
     | r => Ok (recommend_action r stats, fsub (of_Z 100) (peak_util raw))
     end);
  Ok {| Capacity.public_id := RawRow.public_id raw;
        Capacity.hostname := RawRow.hostname raw;
        Capacity.classification := classification;
        Capacity.classification_label := LABEL_KO classification;
        Capacity.badge_class := BADGE_CLASS classification;
        Capacity.classification_rank := CLASSIFICATION_ORDER classification;
        Capacity.active_causes := causes;
        Capacity.services := raw_workload_counter (RawRow.services raw) (RawRow.listen_ports raw);
        Capacity.confidence_notes := build_host_confidence_notes host;
        Capacity.recommendation_action := action_severity.1;
        Capacity.root_cause_label := root_cause_display host;
        Capacity.severity_score := action_severity.2;
        (** every status of [assess_network] is a key of the dict *)
        Capacity.net_status_label := default "" (_NET_STATUS_LABEL (Assess.status network));
        Capacity.net_status_color :=
          if bool_decide (Assess.status network = Congested) then _NET_CONGESTED_COLOR else "";
        Capacity.disk_io_status_label := RS_STATUS_LABEL_KO (Assess.status disk_io);
        Capacity.disk_io_status_color :=
          if bool_decide (Assess.status disk_io = IoBound) then _NET_CONGESTED_COLOR else "";
        Capacity.spec_display := spec_display_line (RawRow.cpu_cores raw) (RawRow.mem_total_bytes raw)
                                   (RawRow.block_devices raw) |}.

Definition item_key (it : CapacityWarningItem) : Z * float * string :=
  (CLASSIFICATION_ORDER (Capacity.classification it), fneg (Capacity.severity_score it), Capacity.hostname it).

Definition is_efficiency (it : CapacityWarningItem) : bool :=
  bool_decide (Capacity.classification it ∈ [over_provisioned; idle]).

Definition is_under (it : CapacityWarningItem) : bool :=
  bool_decide (Capacity.classification it = under_provisioned).

(** [(r.mem_total_bytes or 0) / 1024**3] *)
Definition mem_gib (r : ReportRowRaw) : float := int_truediv (default 0 (RawRow.mem_total_bytes r)) (Z.to_pos (1024 ^ 3)).

Definition build_action_targets (raws : list ReportRowRaw) : result ActionTargets :=
  items ← map_result to_capacity_warning_item raws;
  let eff_raws := fst <$> filter (λ ri, is_efficiency ri.2 = true) (zip raws items) in
  disk ← whole_gb (sum_Z ((λ r, disk_total_bytes (default [] (RawRow.block_devices r))) <$> eff_raws));
  Ok {| Targets.hosts := sort_key item_key items;
        Targets.total := Z.of_nat (length items);
        Targets.under_count := Z.of_nat (length (filter (λ it, is_under it = true) items));
        Targets.efficiency_count := Z.of_nat (length eff_raws);
        Targets.efficiency_vcpus := sum_Z ((λ r, default 0 (RawRow.cpu_cores r)) <$> eff_raws);
        Targets.efficiency_memory_gb :=
          match mem_gib <$> eff_raws with [] => of_Z 0 | x :: l => py_round_nd 1 (py_sum x l) end;
        Targets.efficiency_disk_gb := disk |}.

(** ** Operational warnings *)

Definition _ATTN_ACTIVE_BADGE : string := "attn-active".

Definition server_link (public_id : string) : string := String.append "/servers/" public_id.

(** [int((now - raw.last_metric_at).total_seconds() // 60)] *)
Definition gap_minutes (now last : datetime) : Z := (now - last) / (60 * 1000000).

Definition to_gap_warning_item (raw : MetricGapWarningRaw) (now : datetime) : AttentionRow := {|
  badge_class := _ATTN_ACTIVE_BADGE;
  badge_text := String.append (pretty (gap_minutes now (Gap.last_metric_at raw))) "분";
  link_href := server_link (Gap.public_id raw);
  link_text := Gap.hostname raw;
  mount_path := None;
  meta_text := "마지막 수집 ";
  meta_at := Some (Gap.last_metric_at raw);
  eol_days_over := None |}.

(** [(now.date() - date.fromisoformat(eol_iso)).days], or [None] where the date does not parse *)
Definition days_over (today : Z) (eol_iso : string) : option Z :=
  match date_fromisoformat eol_iso with Ok d => Some (today - d) | Raise _ => None end.

Definition to_os_eol_warning_item (raw : ReportRowRaw) (now : datetime) : result (option AttentionRow) :=
  w ← resolve_os_eol (RawRow.os_id raw) (RawRow.os_version raw) (RawRow.kernel_version raw) (date_of now);
  Ok (fmap (M:=option) (λ w : string * string, {|
        badge_class := _ATTN_ACTIVE_BADGE;
        badge_text := w.2;
        link_href := server_link (RawRow.public_id raw);
        link_text := RawRow.hostname raw;
        mount_path := None;
        meta_text := str_join "" [w.2; " · EOL "; w.1]%string;
        meta_at := None;
        eol_days_over := days_over (date_of now) w.1 |}) w).

Definition to_agent_unstable_item (public_id hostname : string) (restart_count : Z) : AttentionRow := {|
  badge_class := _ATTN_ACTIVE_BADGE;
  badge_text := String.append (pretty restart_count) "회";
  link_href := server_link public_id;
  link_text := hostname;
  mount_path := None;
  meta_text := "신뢰도 낮음";
  meta_at := None;
  eol_days_over := None |}.

(** [limit_each is None or len(l) < limit_each], before each append *)
Definition up_to {A} (limit_each : option Z) (l : list A) : list A :=
  match limit_each with Some n => take (Z.to_nat n) l | None => l end.

(** [raws_by_id.get(sid)]: the last row of a server *)
Definition raw_by_id (raws : list ReportRowRaw) (sid : Z) : option ReportRowRaw :=
  last (filter (λ r, RawRow.server_id r = sid) raws).

Definition _assemble_attention (raws_period : list ReportRowRaw) (gap_raws : list MetricGapWarningRaw)
    (restart_counts : list (Z * Z)) (now : datetime) (limit_each : option Z) : result AttentionSignals :=
  eol ← omap_result (λ raw, to_os_eol_warning_item raw now) raws_period;
  let unstable := omap (λ sc : Z * Z,
    if agent_restart_alert_threshold <=? sc.2
    then fmap (M:=option) (λ raw, to_agent_unstable_item (RawRow.public_id raw) (RawRow.hostname raw) sc.2)
           (raw_by_id raws_period sc.1)
    else None) restart_counts in
  Ok {| gap_warnings := (λ r, to_gap_warning_item r now) <$> gap_raws;
        os_eol_warnings := up_to limit_each eol;
        agent_unstable := up_to limit_each unstable |}.

(** [_filter_attention] of [query/_base.py] *)
Definition _filter_attention (attention : AttentionSignals) (hostnames : gset string) : AttentionSignals :=
  let chosen := filter (λ w, link_text w ∈ hostnames) in
  {| gap_warnings := chosen (gap_warnings attention);
     os_eol_warnings := chosen (os_eol_warnings attention);
     agent_unstable := chosen (agent_unstable attention) |}.
