(* ===== verification/ActionProps.v ===== *)
(** * The action table: complete, ordered, and true to its captions *)

From stdpp Require Import sorting.
From S2P Require Import Prelude PyFloat FloatFacts PyText PyList Sql Wire Devices Services EolCatalog OsEol StorageTree Reports RightSizing Assess Rollup AssessFacts RollupFacts RightSizingProps WireProps Outbound ServerViews HostRows HostRowProps ActionTable.

(** ** Sums and negations of floats *)

Lemma fadd_opp x y : fadd x y = fsub x (fneg y).
Proof.
  unfold fadd, fsub, fneg.
  destruct x as [sx|sx| |sx mx ex], y as [sy|sy| |sy my ey]; try destruct sx; try destruct sy; try done;
    cbn [SFadd SFsub SFopp negb]; f_equal; unfold cond_Zopp; lia.
Qed.

Lemma fval_neg x : fval (fneg x) = - fval x.
Proof. destruct x as [s|s| |s m e]; try done. by destruct s; cbn; lia. Qed.

Lemma normal_neg x : normal (fneg x) ↔ normal x.
Proof. by destruct x. Qed.

Lemma flt_neg x y : flt (fneg x) (fneg y) = flt y x.
Proof.
  unfold flt, SFltb, fneg.
  destruct x as [sx|sx| |sx mx ex], y as [sy|sy| |sy my ey]; try destruct sx; try destruct sy; try done;
    cbn [SFopp negb SFcompare]; rewrite (Z.compare_antisym ey ex);
    change (Pos.compare_cont Eq) with Pos.compare; rewrite ?(Pos.compare_antisym my mx);
    by destruct (ey ?= ex), (my ?= mx)%positive.
Qed.

Lemma flt_of_value x y : normal x → normal y → 0 <= fval x < fval y → flt x y = true.
Proof.
  intros Nx Ny Hv. destruct y as [s|s| |s m e]; try done; [cbn in Hv; lia|].
  pose proof (normal_exponent _ _ _ Ny). pose proof (unit_pos e ltac:(lia)).
  destruct s; [cbn in Hv; nia|].
  destruct x as [s'|s'| |s' m' e']; try done.
  pose proof (normal_exponent _ _ _ Nx). pose proof (unit_pos e' ltac:(lia)).
  destruct s'; [cbn in Hv; nia|]. apply flt_value; try done. lia.
Qed.

Lemma fadd_value x y K :
  -900 <= K < 900 → normal x → normal y → Z.abs (fval x + fval y) < unit_at K →
  normal (fadd x y) ∧ Z.abs (fval (fadd x y) - (fval x + fval y)) <= 2 * unit_at (K - 52).
Proof.
  intros HK Nx Ny H. rewrite fadd_opp.
  destruct (fsub_error x (fneg y) K HK Nx) as [N E]; rewrite ?fval_neg, ?normal_neg; try done.
  - by replace (fval x - - fval y) with (fval x + fval y) by lia.
  - split; [done|]. rewrite fval_neg in E. by replace (fval x - - fval y) with (fval x + fval y) in E by lia.
Qed.

(** ** Severity *)

(** A measured percentage *)
Definition percent (x : float) : Prop := py_float x ∧ fle (of_Z 0) x = true ∧ fle x (of_Z 100) = true.

Lemma percent_value x : percent x → normal x ∧ 0 <= fval x <= 100 * unit_at 0.
Proof.
  intros (V & H0 & H1). pose proof (unit_pos 0 ltac:(lia)).
  destruct (of_Z_exact 100 ltac:(lia)) as (m & e & E & He & D & Ev). rewrite E in H1.
  change (of_Z 0) with (S754_zero false) in H0.
  destruct x as [s|[]| |[] mx ex]; try done; try (split; [done|cbn; lia]).
  assert (normal (S754_finite false mx ex)) as Nx.
  { cbn in *. unfold bounded, canonical_mantissa in V. apply andb_true_iff in V as [V _].
    apply Z.eqb_eq in V. symmetry. exact V. }
  pose proof (normal_exponent _ _ _ Nx). pose proof (unit_pos ex ltac:(lia)).
  split; [done|]. split; [cbn; lia|]. rewrite <- Ev.
  destruct (Z.le_gt_cases (fval (S754_finite false mx ex)) (Zpos m * unit_at e)) as [|G]; [done|exfalso].
  assert (flt (S754_finite false m e) (S754_finite false mx ex) = true) as L.
  { apply flt_value; try done. cbn. unfold canonical. rewrite D. unfold fexp, emin, fprec, femax. lia. }
  exact (flt_fle_absurd _ _ L H1).
Qed.

Lemma of_Z_value n : 0 <= n < 2 ^ 53 → normal (of_Z n) ∧ fval (of_Z n) = n * unit_at 0.
Proof.
  intros Hn. destruct (decide (n = 0)) as [->|H0]; [by split|].
  destruct (of_Z_exact n ltac:(lia)) as (m & e & -> & He & D & Ev). split; [|done].
  cbn. unfold canonical. rewrite D. unfold fexp, emin, fprec, femax. lia.
Qed.

Lemma severity_level (swap : bool) n :
  (n <= 6)%nat → fadd (if swap then of_Z 10000 else of_Z 0) (fmul (of_Z (Z.of_nat n)) (of_Z 100))
                 = of_Z ((if swap then 10000 else 0) + 100 * Z.of_nat n).
Proof. intros Hn. do 7 (destruct n as [|n]; [by destruct swap; vm_compute|]). lia. Qed.

Lemma severity_value (swap : bool) n p :
  (n <= 6)%nat → percent p →
  let level := (if swap then 10000 else 0) + 100 * Z.of_nat n in
  normal (under_severity swap n p)
  ∧ level * unit_at 0 - unit_at 0 <= fval (under_severity swap n p) <= (level + 101) * unit_at 0.
Proof.
  intros Hn (Np & Hp)%percent_value level. unfold under_severity. rewrite severity_level by done. fold level.
  assert (0 <= level <= 10600) as Hl by (unfold level; destruct swap; lia).
  destruct (of_Z_value level ltac:(lia)) as [Nl El].
  pose proof (unit_pos (-38) ltac:(lia)) as U.
  assert (unit_at 0 = unit_at (-38) * 2 ^ 38) as H0 by by rewrite <- unit_split by lia.
  assert (unit_at 14 = unit_at (-38) * 2 ^ 52) as H14 by by rewrite <- unit_split by lia.
  destruct (fadd_value (of_Z level) p 14 ltac:(lia) Nl Np) as [N E].
  { rewrite El, H14. rewrite H0 in *. rewrite Z.abs_eq by nia. nia. }
  split; [exact N|]. rewrite El in E. change (14 - 52) with (-38) in E. rewrite H0 in *. lia.
Qed.

Lemma severity_nonneg (swap : bool) n p : (n <= 6)%nat → percent p → 0 <= fval (under_severity swap n p).
Proof.
  intros Hn Hp. destruct (severity_value swap n p Hn Hp) as [_ B]. cbn zeta in B.
  pose proof (unit_pos 0 ltac:(lia)).
  destruct swap; [nia|]. destruct (decide (n = 0%nat)) as [->|]; [|nia].
  apply percent_value in Hp as [Np Hp]. unfold under_severity.
  replace (fadd (of_Z 0) (fmul (of_Z (Z.of_nat 0)) (of_Z 100))) with (S754_zero false) by by vm_compute. unfold fadd.
  destruct p as [s| | |s m e]; try done; cbn [SFadd]; [by destruct s|lia].
Qed.

(** A host that pages is more severe than one that does not. *)
Lemma swap_first n n' p p' :
  (n <= 6)%nat → (n' <= 6)%nat → percent p → percent p' →
  flt (under_severity false n p) (under_severity true n' p') = true.
Proof.
  intros Hn Hn' Hp Hp'. destruct (severity_value false n p Hn Hp) as [N B].
  destruct (severity_value true n' p' Hn' Hp') as [N' B']. cbn zeta in *.
  pose proof (unit_pos 0 ltac:(lia)). pose proof (severity_nonneg false n p Hn Hp).
  apply flt_of_value; [done|done|]. split; [done|nia].
Qed.

(** ** A row of the table *)

Lemma fmax2_either x y : fmax2 x y = x ∨ fmax2 x y = y.
Proof. unfold fmax2. destruct (fgt y x); auto. Qed.

Lemma foldl_fmax2_in x l : foldl fmax2 x l ∈ x :: l.
Proof.
  revert x. induction l as [|y l IH]; intros x; [by left|]. cbn.
  destruct (fmax2_either x y) as [->| ->]; [pose proof (IH x) as I|pose proof (IH y) as I]; revert I;
    rewrite !elem_of_cons; tauto.
Qed.

(** The measurements of a row are in range. *)
Record sane_row (raw : ReportRowRaw) : Prop := {
  sane_row_stats : sane_stats (build_resource_stats raw None);
  sane_row_fill : measured_within (RawRow.worst_mount_used_pct raw) (of_Z 100);
  sane_row_disks : 0 <= disk_total_bytes (default [] (RawRow.block_devices raw)) < 2 ^ 63;
}.

Lemma peak_util_percent raw : sane_row raw → percent (peak_util raw).
Proof.
  intros [S F _]. unfold peak_util.
  pose proof (sane_cpu_util _ S) as C. pose proof (sane_mem_util _ S) as M.
  cbn [build_resource_stats cpu_p95_pct mem_p95_pct] in C, M.
  destruct (omap _ _) as [|x l] eqn:E; [by vm_compute|].
  pose proof (foldl_fmax2_in x l) as I. rewrite <- E in I. revert I.
  rewrite list_elem_of_omap. intros (o & I & Ho). cbn in Ho. subst o.
  apply elem_of_cons in I as [I|[I|[I|I%not_elem_of_nil]%elem_of_cons]%elem_of_cons];
    [by apply C|by apply M|by apply F|done].
Qed.

Lemma active_causes_at_most host : (length (active_causes_of host) <= 6)%nat.
Proof. unfold active_causes_of. rewrite length_fmap. exact (length_filter _ _CAUSE_LABEL_BY_TRIGGER). Qed.

Lemma paging_cause host : "메모리 포화"%string ∈ active_causes_of host ↔ hit host mem_saturation = true.
Proof.
  unfold active_causes_of. rewrite list_elem_of_fmap. split.
  - intros ([k l] & E & [Hh I]%list_elem_of_filter). cbn in E, Hh. subst l.
    repeat (apply elem_of_cons in I as [I|I]; [by simplify_eq|]). by apply not_elem_of_nil in I.
  - intros H. exists (mem_saturation, "메모리 포화"%string). split; [done|]. apply list_elem_of_filter. split; [done|].
    in_list.
Qed.

Definition pages (it : CapacityWarningItem) : Prop := "메모리 포화"%string ∈ Capacity.active_causes it.

(** What the order relies on: a severity is a number, and an under-provisioned host's is [under_severity] *)
Definition scored (it : CapacityWarningItem) : Prop :=
  is_nan (Capacity.severity_score it) = false
  ∧ (Capacity.classification it = under_provisioned →
     ∃ swap n p, (n <= 6)%nat ∧ percent p ∧ Capacity.severity_score it = under_severity swap n p ∧ (pages it ↔ swap = true)).

Lemma normal_not_nan x : normal x → is_nan x = false.
Proof. by destruct x. Qed.

Lemma spare_severity p : percent p → normal (fsub (of_Z 100) p).
Proof.
  intros [N B]%percent_value. destruct (of_Z_value 100 ltac:(lia)) as [N' E].
  pose proof (unit_pos 0 ltac:(lia)).
  apply (fsub_error _ _ 8); [lia|done|done|]. rewrite E.
  replace (unit_at 8) with (unit_at 0 * 2 ^ 8) by by rewrite <- unit_split by lia. lia.
Qed.

(** The item made of a row: the verdict the other screens show, and the causes behind it *)
Definition item_of (raw : ReportRowRaw) (it : CapacityWarningItem) : Prop :=
  Capacity.public_id it = RawRow.public_id raw ∧ Capacity.hostname it = RawRow.hostname raw
  ∧ ∃ host, rollup_host (build_resource_stats raw None) = Ok host
    ∧ Capacity.classification it = host_status_to_recommendation (host_status host)
    ∧ Capacity.active_causes it = active_causes_of host
    ∧ (Capacity.root_cause_label it ≠ ""%string ↔ host_status host = HostUnder).

Lemma capacity_item raw : sane_row raw → ∃ it, to_capacity_warning_item raw = Ok it ∧ item_of raw it ∧ scored it.
Proof.
  intros S. destruct (rollup_total _ (sane_row_stats _ S)) as [host H]. destruct (rollup_inv _ _ H) as (c & m & d & i & R).
  destruct (prescription_total _ _ H) as [text Ht].
  pose proof (host_under_pressed _ _ _ _ _ _ R) as U. rewrite <- (under_kinds_pressed _ _ _ _ _ _ R) in U.
  pose proof (peak_util_percent _ S) as P.
  pose proof (active_causes_at_most host) as A. pose proof (paging_cause host) as G.
  unfold to_capacity_warning_item. cbv zeta. rewrite H. cbn [mbind result_bind].
  rewrite !(rolled_get _ _ _ _ _ _ _ R), Ht. cbn [mbind result_bind].
  pose proof (root_cause_display_nonempty host) as D.
  unfold item_of, scored, pages.
  destruct (host_status host) eqn:Es; cbn [host_status_to_recommendation _HOST_STATUS_TO_REC mbind result_bind];
    (eexists; split; [reflexivity|]);
    cbn [Capacity.public_id Capacity.hostname Capacity.classification Capacity.active_causes
      Capacity.root_cause_label Capacity.severity_score];
    (split; [split; [done|]; split; [done|]; exists host; rewrite ?Es, D, <- U; by repeat split|]);
    (split; [apply normal_not_nan|try done]); eauto using spare_severity.
  - by apply severity_value.
  - intros _. by exists (hit host mem_saturation), (length (active_causes_of host)), (peak_util raw).
Qed.

Lemma whole_gb_total n : 0 <= n < 2 ^ 128 → ∃ gb, whole_gb n = Ok gb.
Proof.
  intros Hn. unfold whole_gb, bytes_to_gb. cbn [num_or fmap option_fmap option_map].
  destruct (float_truthy _); [|eauto]. apply py_int_total.
  apply (round_2_finite _ 129); [|lia]. unfold truediv, int_truediv. change (1024 ^ 3) with (Zpos (1024 ^ 3)).
  apply (of_ratio_mag 128); [done|]. by rewrite Z.abs_eq by lia.
Qed.

(** ** The order *)

Lemma key_lt_asym a b : key_lt a b = true → key_lt b a = true → False.
Proof.
  unfold key_lt. destruct a as [[ra sa] ha], b as [[rb sb] hb]. cbn [fst snd].
  rewrite !orb_true_iff, !andb_true_iff, !orb_true_iff, !andb_true_iff, !Z.ltb_lt, !Z.eqb_eq.
  rewrite (String.compare_antisym ha hb).
  intros [?|[? [Q|[[Q1 Q2] Q3]]]] [?|[? [Q'|[[Q1' Q2'] Q3']]]]; try lia; eauto using flt_fle_absurd, flt_fle.
  by destruct (String.compare hb ha).
Qed.

Lemma sort_key_sorted {A} (key : A → Z * float * string) l :
  Sorted (λ x y, key_lt (key y) (key x) = false) (sort_key key l).
Proof.
  assert (∀ x y, negb (key_lt (key y) (key x)) = true ∨ negb (key_lt (key x) (key y)) = true) as T.
  { intros x y. pose proof (key_lt_asym (key x) (key y)). destruct (key_lt (key y) (key x)); [|by left].
    right. destruct (key_lt (key x) (key y)); naive_solver. }
  pose proof (sort_by_sorted _ T l) as S. unfold sort_key.
  induction S as [|x m S IH Hd]; constructor; [done|]. destruct Hd; constructor. by apply negb_true_iff.
Qed.

Lemma sorted_strengthen {A} (P : A → Prop) (R R' : relation A) l :
  (∀ x y, P x → P y → R x y → R' x y) → Forall P l → Sorted R l → Sorted R' l.
Proof.
  intros Hi HP. induction 1 as [|x m S IH Hd]; constructor; apply Forall_cons in HP as [Hx HP]; [by apply IH|].
  destruct Hd as [|y m Hxy]; constructor. apply Forall_cons in HP as [Hy _]. by apply Hi.
Qed.

(** The order a reader is promised: by class, the most severe first, and among the
    under-provisioned the hosts that page before those that do not *)
Definition earlier (x y : CapacityWarningItem) : Prop :=
  let rank it := CLASSIFICATION_ORDER (Capacity.classification it) in
  rank x < rank y
  ∨ rank x = rank y ∧ fle (Capacity.severity_score y) (Capacity.severity_score x) = true
    ∧ (Capacity.classification y = under_provisioned → pages y → pages x).

Lemma rank_inj r r' : CLASSIFICATION_ORDER r = CLASSIFICATION_ORDER r' → r = r'.
Proof. by destruct r, r'. Qed.

Lemma earlier_trans : Transitive earlier.
Proof.
  intros x y z [H|(H & F & P)] [H'|(H' & F' & P')]; unfold earlier in *; [left; lia|left; lia|left; lia|right].
  split; [lia|]. split; [by eapply fle_trans|]. apply rank_inj in H'. rewrite H' in P. auto.
Qed.

Lemma key_earlier x y : scored x → scored y → key_lt (item_key y) (item_key x) = false → earlier x y.
Proof.
  intros [Nx Sx] [Ny Sy]. unfold key_lt, item_key, earlier. cbn [fst snd]. rewrite orb_false_iff, andb_false_iff.
  intros [H%Z.ltb_ge H'].
  destruct (decide (CLASSIFICATION_ORDER (Capacity.classification x) = CLASSIFICATION_ORDER (Capacity.classification y)))
    as [E|]; [right|left; lia].
  rewrite E, Z.eqb_refl in H'. destruct H' as [|H']; [done|]. apply orb_false_iff in H' as [H' _]. rewrite flt_neg in H'.
  split; [done|]. rewrite flt_negb_fle, negb_false_iff in H' by done. split; [done|].
  intros Uy Py. apply rank_inj in E. rewrite Uy in E.
  destruct (Sx E) as (sx & n & p & Hn & Hp & Ex & Px), (Sy Uy) as (sy & n' & p' & Hn' & Hp' & Ey & Py').
  apply Px. destruct sx; [done|]. apply Py' in Py. subst sy.
  pose proof (swap_first n n' p p' Hn Hn' Hp Hp') as F. rewrite <- Ex, <- Ey in F. destruct (flt_fle_absurd _ _ F H').
Qed.

(** ** The table *)

Lemma efficient_items raws items :
  length raws = length items →
  length (fst <$> filter (λ ri : ReportRowRaw * CapacityWarningItem, is_efficiency ri.2 = true) (zip raws items))
  = length (filter (λ it, is_efficiency it = true) items).
Proof.
  rewrite length_fmap. revert items. induction raws as [|r raws IH]; intros [|it items]; try done. cbn [zip zip_with length].
  intros [= L]. specialize (IH _ L). rewrite !filter_cons. cbn [snd]. destruct (decide _); cbn [length]; by rewrite IH.
Qed.

Lemma sum_Z_bound l B : (∀ x, x ∈ l → 0 <= x < B) → 0 <= sum_Z l ∧ sum_Z l <= Z.of_nat (length l) * B.
Proof.
  induction l as [|x l IH]; intros H; [done|]. cbn [sum_Z foldr length]. fold (sum_Z l).
  destruct (H x ltac:(by left)). destruct IH; [intros; apply H; by right|]. lia.
Qed.

Lemma reclaimed_disk raws items :
  Forall sane_row raws → length raws = length items → Z.of_nat (length raws) < 2 ^ 32 →
  ∃ gb, whole_gb (sum_Z ((λ r, disk_total_bytes (default [] (RawRow.block_devices r)))
    <$> (fst <$> filter (λ ri : ReportRowRaw * CapacityWarningItem, is_efficiency ri.2 = true) (zip raws items)))) = Ok gb.
Proof.
  intros S L B. apply whole_gb_total.
  destruct (sum_Z_bound ((λ r, disk_total_bytes (default [] (RawRow.block_devices r)))
    <$> (fst <$> filter (λ ri : ReportRowRaw * CapacityWarningItem, is_efficiency ri.2 = true) (zip raws items)))
    (2 ^ 63)) as [H0 H1].
  - intros x (r & -> & ([r' it] & -> & [_ H]%list_elem_of_filter)%list_elem_of_fmap)%list_elem_of_fmap.
    apply elem_of_zip_l in H. rewrite Forall_forall in S. by apply sane_row_disks, S.
  - rewrite length_fmap in H1. rewrite (efficient_items _ _ L) in H1.
    pose proof (length_filter (λ it, is_efficiency it = true) items). split; [done|].
    eapply Z.le_lt_trans; [apply H1|]. nia.
Qed.

(** C6. The action table is complete and in its order.  From rows whose measurements are
    in range it is always built; it has one line per server, carrying the verdict the
    rollup gives that server, its causes, and a root cause exactly when the host is
    under-provisioned; the lines come by class, in each class the most severe first,
    and among the under-provisioned every host that pages comes before every host that
    does not; and its captions count the lines. *)
Theorem action_table_complete (raws : list ReportRowRaw)
  (S : Forall sane_row raws) (B : Z.of_nat (length raws) < 2 ^ 32) :
  ∃ t items, build_action_targets raws = Ok t
    ∧ Forall2 item_of raws items ∧ Targets.hosts t ≡ₚ items ∧ StronglySorted earlier (Targets.hosts t)
    ∧ Targets.total t = Z.of_nat (length raws)
    ∧ Targets.under_count t = Z.of_nat (length (filter (λ it, is_under it = true) (Targets.hosts t)))
    ∧ Targets.efficiency_count t = Z.of_nat (length (filter (λ it, is_efficiency it = true) (Targets.hosts t))).
Proof.
  assert (∃ items, map_result to_capacity_warning_item raws = Ok items
    ∧ Forall2 item_of raws items ∧ Forall scored items) as (items & M & I & Sc).
  { clear B. induction S as [|raw raws Hr S (items & M & I & Sc)]; [by exists []|].
    destruct (capacity_item raw Hr) as (it & Hi & Hit & Hs). exists (it :: items). cbn [map_result].
    rewrite Hi, M. cbn. split; [done|]. by split; constructor. }
  pose proof (Forall2_length _ _ _ I) as L. destruct (reclaimed_disk raws items S L B) as [gb G].
  pose proof (sort_by_perm (λ x y, negb (key_lt (item_key y) (item_key x))) items) as P.
  unfold build_action_targets. rewrite M. cbn [mbind result_bind]. rewrite G. cbn [mbind result_bind].
  eexists _, items. split; [reflexivity|]. cbn [Targets.hosts Targets.total Targets.under_count Targets.efficiency_count].
  unfold sort_key. split; [done|]. split; [done|]. split; [|split; [by rewrite L|]].
  - apply Sorted_StronglySorted; [apply earlier_trans|].
    apply (sorted_strengthen scored _ _ _ key_earlier); [by rewrite P|]. apply sort_key_sorted.
  - rewrite P. by rewrite (efficient_items _ _ L).
Qed.

Lemma sane_at_ease raw : raw ∈ [io_row; busy_disk_row] → sane_row raw.
Proof.
  intros [->|[->|I%not_elem_of_nil]%elem_of_cons]%elem_of_cons; try done;
    (split; [split|..]); cbn; try (apply measured_within_some; by_eval); try apply measured_within_none;
    try (intros ? [= <-]); vm_compute; repeat split; done.
Qed.

Lemma action_table_complete_witness :
  (∃ t items, build_action_targets [io_row; busy_disk_row] = Ok t
    ∧ Forall2 item_of [io_row; busy_disk_row] items ∧ StronglySorted earlier (Targets.hosts t) ∧ Targets.total t = 2)
  ∧ (λ t, (Capacity.classification <$> Targets.hosts t, Targets.efficiency_count t))
      <$> build_action_targets [busy_disk_row; io_row] = Ok ([over_provisioned; idle], 2).
Proof.
  split; [|by_eval]. destruct (action_table_complete [io_row; busy_disk_row]) as (t & items & H & I & _ & O & T & _).
  - apply Forall_forall. apply sane_at_ease.
  - done.
  - exists t, items. exact (conj H (conj I (conj O T))).
Defined.
