(* ===== verification/Topology.v ===== *)
(** * The network topology of the inventory

    Models [src/assessment_engine/web/services/mappers/topology.py]: which servers share a
    subnet, as far as the addresses of their interfaces tell.  [ipaddress] is modelled as
    far as the code uses it, for IPv4; an address the inventory tags [ipv4] that is
    not one is unparsable here (Python would also read an IPv6 text under that tag). *)

From S2P Require Import Prelude PyFloat Sql Wire PyText PyList Devices Services JsonCodec Outbound.

(** ** IPv4 ([ipaddress]) *)

Definition octet (s : string) : option Z :=
  if negb (isdigit s) || (3 <? Z.of_nat (String.length s)) then None
  else if startswith "0" s && negb (String.eqb s "0") then None
  else if int_of_digits s <=? 255 then Some (int_of_digits s) else None.

Definition parse_ipv4 (s : string) : option Z :=
  match split_on "." s with
  | [a; b; c; d] =>
      a ← octet a; b ← octet b; c ← octet c; d ← octet d;
      Some (((a * 256 + b) * 256 + c) * 256 + d)
  | _ => None
  end.

Definition ipv4_text (ip : Z) : string :=
  str_join "." (pretty <$> [ip / 2 ^ 24; ip / 2 ^ 16 mod 256; ip / 2 ^ 8 mod 256; ip mod 256]).

(** [ip_interface(f"{addr}/{prefix}")]: the address, where the text and the prefix are valid *)
Definition ip_interface (addr : string) (prefix : Z) : option Z :=
  ip ← parse_ipv4 addr; if (0 <=? prefix) && (prefix <=? 32) then Some ip else None.

Definition is_loopback (ip : Z) : bool := ip / 2 ^ 24 =? 127.
Definition is_link_local (ip : Z) : bool := ip / 2 ^ 16 =? 169 * 256 + 254.

(** A network: its address and its prefix *)
Definition network_of (ip prefix : Z) : Z * Z := (ip / 2 ^ (32 - prefix) * 2 ^ (32 - prefix), prefix).

Definition network_text (net : Z * Z) : string := str_join "/" [ipv4_text net.1; pretty net.2].

(** ** Members *)

Module Member.
Record _Member := {
  pid : string;
  ip : Z;
  gateway : option string;
  origin : option string;
  mtu : option Z;
  speed_mbps : option Z;
}.
End Member.
Abbreviation _Member := Member._Member.

(** The network an address of an interface counts for, with the address itself *)
Definition usable_address (a : json) : option (Z * (Z * Z)) :=
  if negb (bool_decide (node_str "family" a = Some "ipv4"%string)) then None
  else
  addr ← node_str "address" a; prefix ← get_number "prefix" a;
  ip ← ip_interface addr prefix;
  if is_loopback ip || is_link_local ip then None
  else if (prefix =? 0) || (32 <=? prefix) then None
  else Some (ip, network_of ip prefix).

Definition physical_ifaces (h : ServerDetail) : list json :=
  filter (λ i, is_virtual_interface (node_str "kind" i) = false) (DetailRow.net_interfaces h).

(** The memberships an interface offers, in the order of its addresses *)
Definition iface_members (pid : string) (iface : json) : list ((Z * Z) * _Member) :=
  omap (λ a, '(ip, net) ← usable_address a;
             Some (net, {| Member.pid := pid; Member.ip := ip; Member.gateway := node_str "gateway" iface;
                           Member.origin := node_str "origin" a; Member.mtu := get_number "mtu" iface;
                           Member.speed_mbps := get_number "speed_mbps" iface |}))
       (node_list "addresses" iface).

(** [if subnet in seen_nets: continue]: a server is once in a subnet *)
Fixpoint once_per_net (seen : list (Z * Z)) (l : list ((Z * Z) * _Member)) : list ((Z * Z) * _Member) :=
  match l with
  | [] => []
  | nm :: l' => if mem nm.1 seen then once_per_net seen l' else nm :: once_per_net (nm.1 :: seen) l'
  end.

Definition host_members (h : ServerDetail) : list ((Z * Z) * _Member) :=
  once_per_net [] (physical_ifaces h ≫= iface_members (DetailRow.public_id h)).

(** [subnet_members]: the members of each subnet, the subnets in the order they are met *)
Definition subnet_members (hosts : list ServerDetail) : list ((Z * Z) * list _Member) :=
  (λ g : (Z * Z) * list ((Z * Z) * _Member), (g.1, g.2.*2)) <$> _group_by_dim fst (hosts ≫= host_members).

(** The dicts keyed by the public id: the last server of an id stays *)
Definition by_public_id (hosts : list ServerDetail) : list (string * ServerDetail) :=
  foldl (λ d h, dict_set (DetailRow.public_id h) h d) [] hosts.

Definition signature_roles (h : ServerDetail) : list string :=
  sort_str id (filter (λ c, c ∈ SIGNATURE_CATEGORIES) (default [] (DetailRow.service_categories h))).

(** The summary of a physical interface, for the tooltip of a node *)
Definition iface_summary (i : json) : json := JObj [
  ("name", jopt JStr (node_str "name" i));
  ("mac", if bool_decide (node_str "id_type" i = Some "mac"%string) then jopt JStr (node_str "id" i) else JNull);
  ("mtu", jopt JInt (get_number "mtu" i));
  ("gateway", jopt JStr (node_str "gateway" i))]%string.

(** ** Groups *)

(** A subnet as it is shown, or the part of it behind one gateway *)
Module Net.
Record SharedNet := {
  key : string;
  cidr : Z * Z;
  label : string;
  gateway : option string;
  (** [by_pid]: the first membership of each server *)
  members : list (string * _Member);
}.
End Net.
Abbreviation SharedNet := Net.SharedNet.

(** [by_pid.setdefault(m.pid, m)] *)
Definition first_by_pid (members : list _Member) : list (string * _Member) :=
  foldl (λ d m, match dict_get (Member.pid m) d with Some _ => d | None => dict_set (Member.pid m) m d end) [] members.

Definition gateway_truthy (m : _Member) : option string :=
  match Member.gateway m with Some gw => if String.eqb gw "" then None else Some gw | None => None end.

(** [{m.gateway for m in members if m.gateway}], sorted *)
Definition gateways (members : list _Member) : list string := sorted_set (omap gateway_truthy members).

Definition split_subnet (g : (Z * Z) * list _Member) : list SharedNet :=
  let subnet := network_text g.1 in
  match gateways g.2 with
  | (_ :: _ :: _) as gws =>
      (λ gw, {| Net.key := str_join "#" [subnet; gw]; Net.cidr := g.1;
                Net.label := str_join "" [subnet; " (via "; gw; ")"]%string; Net.gateway := Some gw;
                Net.members := first_by_pid (filter (λ m, Member.gateway m = Some gw) g.2) |}) <$> gws
  | gws => [{| Net.key := subnet; Net.cidr := g.1; Net.label := subnet; Net.gateway := head gws;
               Net.members := first_by_pid g.2 |}]
  end.

(** [surviving]: the groups of at least two servers *)
Definition surviving (hosts : list ServerDetail) : list SharedNet :=
  filter (λ n, (2 <= length (Net.members n))%nat) (subnet_members hosts ≫= split_subnet).

(** The order of [ip_network]: by address, then by mask *)
Definition network_before (a b : SharedNet) : bool :=
  (((Net.cidr a).1 <? (Net.cidr b).1)
   || (((Net.cidr a).1 =? (Net.cidr b).1) && ((Net.cidr a).2 <=? (Net.cidr b).2)))%Z.

Definition ordered_nets (hosts : list ServerDetail) : list SharedNet := sort_by network_before (surviving hosts).

(** [sorted(by_pid)] *)
Definition net_pids (n : SharedNet) : list string := sort_str id (Net.members n).*1.

Definition host_subnet_count (nets : list SharedNet) (pid : string) : Z :=
  Z.of_nat (length (filter (λ n, pid ∈ (Net.members n).*1) nets)).

(** [gw_subnet_count] and the gateways of two subnets or more *)
Definition gw_subnet_count (nets : list SharedNet) (gw : string) : Z :=
  Z.of_nat (length (filter (λ n, Net.gateway n = Some gw) nets)).

Definition shared_gws (nets : list SharedNet) : list string :=
  filter (λ gw, 2 <= gw_subnet_count nets gw) (sorted_set (omap Net.gateway nets)).

(** [graph_hosts], sorted *)
Definition graph_hosts (nets : list SharedNet) : list string := sorted_set (nets ≫= net_pids).

(** ** The view models *)

Module SubnetHost.
Record SubnetHost := {
  hostname : string;
  ip : string;
  os_family : string;
  public_id : string;
  roles : list string;
  origin : option string;
  mtu : option Z;
  speed_mbps : option Z;
  is_online : bool;
  multi_homed : bool;
}.
End SubnetHost.
Abbreviation SubnetHost := SubnetHost.SubnetHost.

Module SubnetGroup.
Record SubnetGroup := { net_key : string; host_count : Z; gateway : option string; hosts : list SubnetHost }.
End SubnetGroup.
Abbreviation SubnetGroup := SubnetGroup.SubnetGroup.

Module Topo.
Record NetworkTopology := {
  elements : list json;
  subnet_count : Z;
  host_count : Z;
  multi_homed_count : Z;
  router_count : Z;
  isolated_count : Z;
  subnets : list SubnetGroup;
  caveats : list string;
  has_data : bool;
}.
End Topo.
Abbreviation NetworkTopology := Topo.NetworkTopology.

Definition _CAVEATS : list string :=
  ["추론 토폴로지 — 같은 서브넷(IP·prefix) 공유 기준이며, 실제 통신 가능 여부(방화벽·VLAN 격리)는 반영하지 않습니다.";
   "물리·본딩(bond) 인터페이스 IPv4 주소만 사용합니다 — 가상망(docker·bridge·veth·vlan)·IPv6는 제외했습니다.";
   "사설 IP 대역 중복은 게이트웨이가 다르면 분리하나, 게이트웨이 미제공(구형 OS) 호스트는 한 서브넷으로 합쳐 보일 수 있습니다."]%string.

(** ** The graph *)

Definition subnet_id (n : SharedNet) : json := JStr (String.append "subnet:" (Net.key n)).

Definition subnet_elements (shared : list string) (n : SharedNet) : list json :=
  JObj [("data", JObj [
    ("id", subnet_id n); ("label", JStr (Net.label n)); ("kind", JStr "subnet");
    ("hostCount", JInt (Z.of_nat (length (net_pids n)))); ("gateway", jopt JStr (Net.gateway n))])]%string
  :: match Net.gateway n with
     | Some gw =>
         if mem gw shared
         then [JObj [("data", JObj [("source", JStr (String.append "gw:" gw)); ("target", subnet_id n);
                                    ("kind", JStr "route")])]]%string
         else []
     | None => []
     end.

Definition gateway_element (nets : list SharedNet) (gw : string) : json :=
  JObj [("data", JObj [
    ("id", JStr (String.append "gw:" gw)); ("label", JStr gw); ("kind", JStr "gateway");
    ("subnetCount", JInt (gw_subnet_count nets gw))])]%string.

(** [h.os_family or "unknown"] *)
Definition os_of (h : ServerDetail) : string := str_or (DetailRow.os_family h) "unknown".

Definition host_element (nets : list SharedNet) (pid : string) (h : ServerDetail) : json :=
  JObj [("data", JObj [
    ("id", JStr (String.append "host:" pid)); ("label", JStr (DetailRow.hostname h)); ("kind", JStr "host");
    ("publicId", JStr pid); ("osFamily", JStr (os_of h)); ("roles", JArr (JStr <$> signature_roles h));
    ("multiHomed", JBool (2 <=? host_subnet_count nets pid)%Z);
    ("ifaces", JArr (iface_summary <$> physical_ifaces h))]); ("classes", JStr "collapsed")]%string.

Definition member_element (n : SharedNet) (pid : string) : json :=
  JObj [("data", JObj [("source", JStr (String.append "host:" pid)); ("target", subnet_id n); ("kind", JStr "member")]);
        ("classes", JStr "collapsed")]%string.

(** ** The lists of servers *)

(** [bool(online_by_id and hid is not None and online_by_id.get(hid))] *)
Definition online_host (online_by_id : gmap Z bool) (h : ServerDetail) : bool :=
  default false (online_by_id !! DetailRow.id h).

Definition subnet_host (online_by_id : gmap Z bool) (nets : list SharedNet) (m : _Member) (h : ServerDetail) : SubnetHost := {|
  SubnetHost.hostname := DetailRow.hostname h;
  SubnetHost.ip := ipv4_text (Member.ip m);
  SubnetHost.os_family := os_of h;
  SubnetHost.public_id := Member.pid m;
  SubnetHost.roles := signature_roles h;
  SubnetHost.origin := Member.origin m;
  SubnetHost.mtu := Member.mtu m;
  SubnetHost.speed_mbps := Member.speed_mbps m;
  SubnetHost.is_online := online_host online_by_id h;
  SubnetHost.multi_homed := 2 <=? host_subnet_count nets (Member.pid m) |}.

(** [_subnet_host_sort_key], whose texts are addresses: by the number of the address *)
Definition host_before (a b : Z * SubnetHost) : bool := a.1 <=? b.1.

Definition subnet_group (online_by_id : gmap Z bool) (host_by_pid : list (string * ServerDetail))
    (nets : list SharedNet) (n : SharedNet) : SubnetGroup :=
  let hosts_list := omap (λ pid,
    m ← dict_get pid (Net.members n); h ← dict_get pid host_by_pid;
    Some (Member.ip m, subnet_host online_by_id nets m h)) (net_pids n) in {|
  SubnetGroup.net_key := Net.label n;
  SubnetGroup.host_count := Z.of_nat (length hosts_list);
  SubnetGroup.gateway := Net.gateway n;
  SubnetGroup.hosts := (sort_by host_before hosts_list).*2 |}.

Definition build_network_topology (hosts : list ServerDetail) (online_by_id : gmap Z bool) : NetworkTopology :=
  let host_by_pid := by_public_id hosts in
  let nets := ordered_nets hosts in
  let shared := shared_gws nets in
  let graph := graph_hosts nets in {|
  Topo.elements :=
    (nets ≫= subnet_elements shared)
    ++ (gateway_element nets <$> shared)
    ++ omap (λ pid, host_element nets pid <$> dict_get pid host_by_pid) graph
    ++ (nets ≫= λ n, member_element n <$> net_pids n);
  Topo.subnet_count := Z.of_nat (length nets);
  Topo.host_count := Z.of_nat (length graph);
  Topo.multi_homed_count := Z.of_nat (length (filter (λ pid, 2 <= host_subnet_count nets pid) graph));
  Topo.router_count := Z.of_nat (length shared);
  Topo.isolated_count := Z.of_nat (length host_by_pid) - Z.of_nat (length graph);
  Topo.subnets := subnet_group online_by_id host_by_pid nets <$> nets;
  Topo.caveats := _CAVEATS;
  Topo.has_data := negb (bool_decide (nets = [])) |}.
