(* ===== verification/Fleet.v ===== *)
(** * The environment: overview, real-time card, matching of servers

    Models, of [src/assessment_engine/web/services/mappers/attention.py], the overview of
    the whole environment and its real-time card, and of [web/services/query/_base.py] and
    [query/environment.py] what assembles them from the rows of the repositories: the
    online servers, the network baselines, the counts of the overview, the fresh
    snapshots, and the filters of the external API. *)

From S2P Require Import Prelude PyFloat Redis Sql Inbound CollectDb Wire PyText DbRetry Handlers PyList Devices Services MetricViews Dashboard Signals JsonCodec DashCache EolCatalog OsEol StorageTree Reports RightSizing Assess Rollup Outbound ServerViews HostRows ActionTable.

(** ** Rows and view models *)

Module Util.
Record EnvironmentUtilizationRaw := {
  cpu_avg_pct : option float;
  mem_avg_pct : option float;
  disk_avg_pct : option float;
  sample_size : Z;
  cpu_p95_pct : option float;
  mem_p95_pct : option float;
}.
End Util.
Abbreviation EnvironmentUtilizationRaw := Util.EnvironmentUtilizationRaw.

Module FleetError.
Record FleetErrorRaw := {
  total : Z;
  mce_hosts : Z;
  oom_hosts : Z;
  corrupted_hosts : Z;
  net_error_hosts : Z;
  disk_error_hosts : Z;
}.
End FleetError.
Abbreviation FleetErrorRaw := FleetError.FleetErrorRaw.

Module UtilBar.
Record UtilizationBar := { label : string; pct : option float; bar_color : string; dash_length : float }.
End UtilBar.
Abbreviation UtilizationBar := UtilBar.UtilizationBar.

Module Segment.
Record RiskDonutSegment := {
  key : string;
  label : string;
  color : string;
  count : Z;
  dash_length : float;
  dash_offset : float;
  description : string;
  pct : float;
}.
End Segment.
Abbreviation RiskDonutSegment := Segment.RiskDonutSegment.

Module Donut.
Record SaturationDonut := { label : string; count : Z; total : Z; dash_length : float; color : string }.
End Donut.
Abbreviation SaturationDonut := Donut.SaturationDonut.

Module ErrorItem.
Record FleetErrorItem := {
  key : string;
  label : string;
  affected : Z;
  total : Z;
  detail : option string;
  tone : string;
}.
End ErrorItem.
Abbreviation FleetErrorItem := ErrorItem.FleetErrorItem.

Module Overview.
Record EnvironmentOverview := {
  total : Z;
  online : Z;
  offline : Z;
  total_vcpus : Z;
  total_memory_gb : float;
  total_disk_gb : Z;
  os_distribution : list (string * Z);
  role_distribution : list (string * Z);
  workload_donut : list RiskDonutSegment;
  workload_total : Z;
  role_unknown_count : Z;
  utilization : list UtilizationBar;
  utilization_p95 : list UtilizationBar;
  util_sample_size : Z;
  saturation_donuts : list SaturationDonut;
  error_fleet : list FleetErrorItem;
  os_eol_passed : Z;
  os_eol_security_only : Z;
  os_eol_unknown : Z;
  os_eol_supported : Z;
  risk_donut : list RiskDonutSegment;
  risk_donut_total : Z;
  risk_high_count : Z;
  under_provisioned_hosts : list CapacityWarningItem;
  under_provisioned_hosts_count : Z;
  under_provisioned_hosts_shown : Z;
}.
End Overview.
Abbreviation EnvironmentOverview := Overview.EnvironmentOverview.

(** ** Donuts and bars *)

Definition UTIL_GAUGE_COLOR : string := "var(--color-title)".
Definition _UTIL_COLOR_GAUGE : string := UTIL_GAUGE_COLOR.
Definition _UTIL_COLOR_NONE : string := "#cbd5e1".

Definition _WORKLOAD_COLORS : gmap string string := list_to_map
  [("web", "#2563eb"); ("db", "#e11d48"); ("cache", "#059669"); ("mq", "#9333ea");
   ("container", "#0891b2"); ("monitor", "#ea580c")]%string.

(** [math.pi] *)
Definition math_pi : float := S754_finite false 7074237752028440 (-51).

Definition _DONUT_RADIUS : Z := 42.
Definition _UTIL_DONUT_CIRC : float := fmul (fmul (of_Z 2) math_pi) (of_Z _DONUT_RADIUS).

Definition _bar_color (pct : option float) : string :=
  match pct with None => _UTIL_COLOR_NONE | Some _ => _UTIL_COLOR_GAUGE end.

Definition _dash_length (pct : option float) : float :=
  match pct with
  | None => of_Z 0
  | Some p => fmul (fdiv (fmax2 (of_Z 0) (fmin2 p (of_Z 100))) (of_Z 100)) _UTIL_DONUT_CIRC
  end.

Definition _donut_dash (count total : Z) : float :=
  if (0 <? total) && (0 <? count) then fmul (truediv count total) _UTIL_DONUT_CIRC else of_Z 0.

Definition _donut_pct (count total : Z) : float :=
  if 0 <? total then py_round_nd 1 (fmul (truediv count total) (of_Z 100)) else of_Z 0.

Definition _util_bar (label : string) (pct : option float) : UtilizationBar := {|
  UtilBar.label := label; UtilBar.pct := pct; UtilBar.bar_color := _bar_color pct;
  UtilBar.dash_length := _dash_length pct |}.

(** The segments of a donut, each starting where the one before ends *)
Fixpoint donut_segments (total : Z) (cum_offset : float) (parts : list (string * string * string * string * Z))
    : list RiskDonutSegment :=
  match parts with
  | [] => []
  | (key, label, color, description, count) :: parts' =>
      let dash_length := _donut_dash count total in
      {| Segment.key := key; Segment.label := label; Segment.color := color; Segment.count := count;
         Segment.dash_length := dash_length; Segment.dash_offset := fneg cum_offset;
         Segment.description := description; Segment.pct := _donut_pct count total |}
      :: donut_segments total (fadd cum_offset dash_length) parts'
  end.

(** The wire name of a class *)
Definition rec_name (r : Recommendation) : string :=
  match r with
  | under_provisioned => "under_provisioned" | over_provisioned => "over_provisioned" | idle => "idle"
  | optimal => "optimal" | insufficient_data => "insufficient_data"
  end.

Definition build_risk_donut_segments (risk_counts : list (Recommendation * Z)) : list RiskDonutSegment * Z * Z :=
  let total := sum_Z risk_counts.*2 in
  (donut_segments total (of_Z 0)
     ((λ d : Recommendation * string * string,
         (rec_name d.1.1, LABEL_KO d.1.1, UTIL_GAUGE_COLOR, d.2, default 0 (dict_get d.1.1 risk_counts)))
      <$> _DONUT_SEGMENT_DEFS),
   total, default 0 (dict_get under_provisioned risk_counts)).

Definition _UNDER_PROVISIONED_DISPLAY_MAX : Z := 3.

Definition _build_saturation_donut (label : string) (count total : Z) : SaturationDonut := {|
  Donut.label := label; Donut.count := count; Donut.total := total; Donut.dash_length := _donut_dash count total;
  Donut.color := _UTIL_COLOR_GAUGE |}.

Definition _build_error_fleet (err : option FleetErrorRaw) : list FleetErrorItem :=
  match err with
  | None => []
  | Some err =>
      let item (key label : string) (affected : Z) (detail : string) := {|
        ErrorItem.key := key; ErrorItem.label := label; ErrorItem.affected := affected;
        ErrorItem.total := FleetError.total err; ErrorItem.detail := Some detail; ErrorItem.tone := "danger" |} in
      [item "cpu_mce" "머신체크(MCE)" (FleetError.mce_hosts err) "CPU/메모리 하드웨어 정정불가 오류(machine check)";
       item "mem_oom" "OOM Kill" (FleetError.oom_hosts err) "메모리 부족으로 커널이 프로세스 강제 종료";
       item "mem_corrupted" "메모리 손상(EDAC)" (FleetError.corrupted_hosts err) "ECC 정정된 하드웨어 메모리 손상";
       item "disk_errors" "디스크 에러" (FleetError.disk_error_hosts err) "RAID degraded·파일시스템 손상·IO 오류";
       item "net_errors" "NIC 에러" (FleetError.net_error_hosts err) "네트워크 인터페이스 rx/tx 오류 프레임"]%string
  end.

Record eol_counts := { passed_n : Z; security_only_n : Z; unknown_n : Z; supported_n : Z }.

(** One server in the summary of the OS support stages *)
Definition count_eol (today : Z) (acc : eol_counts) (d : ServerDetail) : result eol_counts :=
  if negb (str_truthy (DetailRow.os_id d)) then Ok acc
  else
  info ← lookup_os_eol (DetailRow.os_id d) (DetailRow.os_version d) (DetailRow.kernel_version d) today;
  let '{| passed_n := p; security_only_n := s; unknown_n := u; supported_n := k |} := acc in
  Ok match info with
     | None => {| passed_n := p; security_only_n := s; unknown_n := u + 1; supported_n := k |}
     | Some i =>
         if mem (OsEol.status i) ["paid_only"; "ended"]%string
         then {| passed_n := p + 1; security_only_n := s; unknown_n := u; supported_n := k |}
         else if String.eqb (OsEol.status i) "security_only"
         then {| passed_n := p; security_only_n := s + 1; unknown_n := u; supported_n := k |}
         else {| passed_n := p; security_only_n := s; unknown_n := u; supported_n := k + 1 |}
     end.

Fixpoint fold_result {A B} (f : B → A → result B) (acc : B) (l : list A) : result B :=
  match l with [] => Ok acc | x :: l' => acc' ← f acc x; fold_result f acc' l' end.

Definition _os_eol_summary (details : list ServerDetail) (today : Z) : result eol_counts :=
  fold_result (count_eol today) {| passed_n := 0; security_only_n := 0; unknown_n := 0; supported_n := 0 |} details.

Definition _workload_donut_segments (role_sorted : list (string * Z)) : list RiskDonutSegment * Z :=
  let total := sum_Z role_sorted.*2 in
  (donut_segments total (of_Z 0)
     ((λ kv : string * Z, (kv.1, kv.1, default "#94a3b8"%string (_WORKLOAD_COLORS !! kv.1), ""%string, kv.2)) <$> role_sorted),
   total).

(** ** The overview *)

(** [role_counter.update(counter)]: the instances of each category add up *)
Definition counter_update (acc counter : list (string * Z)) : list (string * Z) :=
  foldl (λ d kv, dict_set kv.1 (default 0 (dict_get kv.1 d) + kv.2) d) acc counter.

Definition detail_workloads (d : ServerDetail) : list (string * Z) :=
  raw_workload_counter (DetailRow.services d) (Some (DetailRow.listen_ports d)).

(** [(-c.severity_score, c.hostname.lower())] *)
Definition under_key (c : CapacityWarningItem) : Z * float * string :=
  (0, fneg (Capacity.severity_score c), str_lower (Capacity.hostname c)).

(** The sort by [(-count, index in SIGNATURE_CATEGORIES)] of a list in the order of that index *)
Definition role_sorted (role_counter : list (string * Z)) : list (string * Z) :=
  sort_desc snd ((λ cat, (cat, default 0 (dict_get cat role_counter))) <$> SIGNATURE_CATEGORIES).

(** The counts of the saturated hosts, and the size of the sample *)
Record saturation_counts := { sat_cpu : Z; sat_mem : Z; sat_disk_io : Z; sat_net : Z; sat_sample : Z }.

Definition build_environment_overview (today : Z) (details : list ServerDetail) (online_count : Z)
    (utilization : option EnvironmentUtilizationRaw) (risk_counts : option (list (Recommendation * Z)))
    (under_provisioned_hosts : option (list CapacityWarningItem)) (under_limit : option Z)
    (saturations : option saturation_counts) (error_summary : option FleetErrorRaw) : result EnvironmentOverview :=
  let total := Z.of_nat (length details) in
  let total_disk_bytes := sum_Z ((λ d, disk_total_bytes (DetailRow.block_devices d)) <$> details) in
  let os_counter := count_keys ((λ d, str_or (DetailRow.os_family d) "unknown") <$> details) in
  let workloads := detail_workloads <$> details in
  let role_counter := foldl counter_update [] workloads in
  let role_unknown := length (filter (λ counter, counter = []) workloads) in
  let bars (l : EnvironmentUtilizationRaw → list UtilizationBar) :=
    match utilization with Some u => l u | None => [] end in
  let '(risk_segments, risk_total, risk_under) :=
    match risk_counts with Some c => build_risk_donut_segments c | None => ([], 0, 0) end in
  let under_all := sort_key under_key (default [] under_provisioned_hosts) in
  let under_shown := up_to under_limit under_all in
  let roles := role_sorted role_counter in
  let '(workload_segments, wl_total) := _workload_donut_segments roles in
  eol ← _os_eol_summary details today;
  disk_gb ← whole_gb total_disk_bytes;
  Ok {| Overview.total := total;
        Overview.online := online_count;
        Overview.offline := total - online_count;
        Overview.total_vcpus := sum_Z ((λ d, default 0 (DetailRow.cpu_cores d)) <$> details);
        Overview.total_memory_gb :=
          or_zero (bytes_to_gib (Some (sum_Z ((λ d, default 0 (DetailRow.mem_total_bytes d)) <$> details))));
        Overview.total_disk_gb := disk_gb;
        Overview.os_distribution := by_count_desc os_counter;
        Overview.role_distribution := roles;
        Overview.workload_donut := workload_segments;
        Overview.workload_total := wl_total;
        Overview.role_unknown_count := Z.of_nat role_unknown;
        Overview.utilization := bars (λ u,
          [_util_bar "CPU" (Util.cpu_avg_pct u); _util_bar "메모리" (Util.mem_avg_pct u);
           _util_bar "디스크 용량" (Util.disk_avg_pct u)]);
        Overview.utilization_p95 := bars (λ u,
          [_util_bar "CPU" (Util.cpu_p95_pct u); _util_bar "메모리" (Util.mem_p95_pct u)]);
        Overview.util_sample_size := match utilization with Some u => Util.sample_size u | None => 0 end;
        Overview.saturation_donuts :=
          match saturations with
          | Some c =>
              [_build_saturation_donut "CPU 포화" (sat_cpu c) (sat_sample c);
               _build_saturation_donut "메모리 압박" (sat_mem c) (sat_sample c);
               _build_saturation_donut "디스크 I/O 포화" (sat_disk_io c) (sat_sample c);
               _build_saturation_donut "네트워크 혼잡" (sat_net c) (sat_sample c)]
          | None => []
          end;
        Overview.error_fleet := _build_error_fleet error_summary;
        Overview.os_eol_passed := passed_n eol;
        Overview.os_eol_security_only := security_only_n eol;
        Overview.os_eol_unknown := unknown_n eol;
        Overview.os_eol_supported := supported_n eol;
        Overview.risk_donut := risk_segments;
        Overview.risk_donut_total := risk_total;
        Overview.risk_high_count := risk_under;
        Overview.under_provisioned_hosts := under_shown;
        Overview.under_provisioned_hosts_count := Z.of_nat (length under_all);
        Overview.under_provisioned_hosts_shown := Z.of_nat (length under_shown) |}.

(** [_empty_overview] *)
Definition _empty_overview : EnvironmentOverview := {|
  Overview.total := 0; Overview.online := 0; Overview.offline := 0; Overview.total_vcpus := 0;
  Overview.total_memory_gb := of_Z 0; Overview.total_disk_gb := 0; Overview.os_distribution := [];
  Overview.role_distribution := []; Overview.workload_donut := []; Overview.workload_total := 0;
  Overview.role_unknown_count := 0; Overview.utilization := []; Overview.utilization_p95 := [];
  Overview.util_sample_size := 0; Overview.saturation_donuts := []; Overview.error_fleet := [];
  Overview.os_eol_passed := 0; Overview.os_eol_security_only := 0; Overview.os_eol_unknown := 0;
  Overview.os_eol_supported := 0; Overview.risk_donut := []; Overview.risk_donut_total := 0;
  Overview.risk_high_count := 0; Overview.under_provisioned_hosts := [];
  Overview.under_provisioned_hosts_count := 0; Overview.under_provisioned_hosts_shown := 0 |}.

(** ** The overview of the rows ([assemble_overview]) *)

Definition overview_stats (raw : ReportRowRaw) : ResourceStats :=
  build_resource_stats raw (RawRow.disk_iops_baseline raw).

(** [if recommendation.f(stats)]: [None] is no *)
Definition truthy (o : option bool) : bool := default false o.

Definition count_if {A} (p : A → bool) (l : list A) : Z := Z.of_nat (length (filter (λ x, p x = true) l)).

(** One row of the loop: its class, and its line among the under-provisioned *)
Definition judge (raw : ReportRowRaw) : result (Recommendation * option CapacityWarningItem) :=
  rec ← classify_host (overview_stats raw);
  item ← (if bool_decide (rec = under_provisioned) then Some <$> to_capacity_warning_item raw else Ok None);
  Ok (rec, item).

Definition assemble_overview (today : Z) (details : list ServerDetail) (util : EnvironmentUtilizationRaw)
    (raws_period : list ReportRowRaw) (online_by_id : gmap Z bool) (full_under : bool)
    (error_summary : option FleetErrorRaw) : result EnvironmentOverview :=
  judged ← map_result judge raws_period;
  let stats := overview_stats <$> raws_period in
  let cpu_sat := count_if (λ s, truthy (cpu_saturated s)) stats in
  let mem_sat := count_if (λ s, truthy (mem_saturated s)) stats in
  let disk_sat := count_if (λ s, truthy (disk_io_saturated s)) stats in
  let net_cong := count_if (λ s, bool_decide (Assess.status (assess_network s) = Congested)) stats in
  let online_count := count_if (λ d, default false (online_by_id !! DetailRow.id d)) details in
  let sat_total := foldl Z.max (Util.sample_size util) [cpu_sat; mem_sat; disk_sat; net_cong] in
  build_environment_overview today details online_count (Some util) (Some (count_keys judged.*1)) (Some (omap snd judged))
    (if full_under then None else Some _UNDER_PROVISIONED_DISPLAY_MAX)
    (Some {| sat_cpu := cpu_sat; sat_mem := mem_sat; sat_disk_io := disk_sat; sat_net := net_cong;
             sat_sample := sat_total |})
    error_summary.

(** ** The real-time card *)

Module Cell.
Record RealtimeLoadCell := { value : option float; display : string; color : string }.
End Cell.
Abbreviation RealtimeLoadCell := Cell.RealtimeLoadCell.

Module LoadRow.
Record RealtimeLoadRow := {
  hostname : string;
  public_id : string;
  cpu : RealtimeLoadCell;
  mem : RealtimeLoadCell;
  run_queue : RealtimeLoadCell;
  paging : RealtimeLoadCell;
  disk_util : RealtimeLoadCell;
  disk_io : RealtimeLoadCell;
  network : RealtimeLoadCell;
}.
End LoadRow.
Abbreviation RealtimeLoadRow := LoadRow.RealtimeLoadRow.

Module Realtime.
Record EnvironmentRealtime := {
  total : Z;
  online : Z;
  offline : Z;
  sample_size : Z;
  utilization : list UtilizationBar;
  last_collected_at : option datetime;
  load_rows : list RealtimeLoadRow;
  saturation_donuts : list SaturationDonut;
}.
End Realtime.
Abbreviation EnvironmentRealtime := Realtime.EnvironmentRealtime.

(** The dict of one fresh server *)
Module Snap.
Record Snapshot := {
  hostname : string;
  public_id : string;
  os_family : option string;
  cpu_pct : option float;
  mem_pct : option float;
  cpu_sat_index : option float;
  disk_sat_index : option float;
  disk_util_pct : option float;
  paging_rate : option float;
  net_kbps : option float;
  mem_pressure : bool;
  net_congested : bool;
  cpu_cores : option Z;
  mem_used_bytes : option Z;
  mem_total_bytes : option Z;
}.
End Snap.
Abbreviation Snapshot := Snap.Snapshot.

(** [s.get(value) is not None and s.get(weight)]: the pairs both of which count *)
Definition weighted {V} (value : Snapshot → option V) (weight : Snapshot → option Z) (snapshots : list Snapshot)
    : list (V * Z) :=
  omap (λ s, match value s, num_or (λ w, negb (w =? 0)) (weight s) with
             | Some v, Some w => Some (v, w)
             | _, _ => None
             end) snapshots.

Definition _cap_weighted (value : Snapshot → option float) (weight : Snapshot → option Z) (snapshots : list Snapshot)
    : option float :=
  let pairs := weighted value weight snapshots in
  let den := sum_Z pairs.*2 in
  match (λ vw : float * Z, fmul vw.1 (of_Z vw.2)) <$> pairs with
  | [] => None
  | x :: l => if den =? 0 then None else Some (py_round_nd 1 (fdiv (py_sum x l) (of_Z den)))
  end.

Definition _ratio (used total : Snapshot → option Z) (snapshots : list Snapshot) : option float :=
  let pairs := weighted used total snapshots in
  let all := sum_Z pairs.*2 in
  if all =? 0 then None else Some (py_round_nd 1 (fmul (truediv (sum_Z pairs.*1) all) (of_Z 100))).

Definition _net_status_cell (congested : bool) : RealtimeLoadCell :=
  if congested
  then {| Cell.value := Some (of_Z 1); Cell.display := "혼잡"; Cell.color := _NET_CONGESTED_COLOR |}
  else {| Cell.value := Some (of_Z 0); Cell.display := "정상"; Cell.color := "" |}.

Definition _cell (value : option float) (fmt : float → string) (exceeded : bool) : RealtimeLoadCell :=
  match value with
  | None => {| Cell.value := None; Cell.display := "—"; Cell.color := "" |}
  | Some v => {| Cell.value := Some v; Cell.display := fmt v;
                 Cell.color := if exceeded then _NET_CONGESTED_COLOR else "" |}
  end.

Definition _os_tag (os_family : option string) : string := if is_windows os_family then "W" else "L".

Definition _os_cell (value : option float) (os_family : option string) (fmt : float → string) (exceeded : bool)
    : RealtimeLoadCell :=
  _cell value (λ v, str_join " " [_os_tag os_family; fmt v]) exceeded.

(** [(s.get(key) or 0) >= 1.0] *)
Definition index_reached (index : option float) : bool := fge (or_zero index) (of_Z 1).

Definition load_row (s : Snapshot) : RealtimeLoadRow :=
  let shown (nd : nat) (unit : string) (v : float) := String.append (fmt_fixed nd v) unit in {|
  LoadRow.hostname := Snap.hostname s;
  LoadRow.public_id := Snap.public_id s;
  LoadRow.cpu := _cell (Snap.cpu_pct s) (shown 1%nat "%"%string) false;
  LoadRow.mem := _cell (Snap.mem_pct s) (shown 1%nat "%"%string) false;
  LoadRow.run_queue := _cell (Snap.cpu_sat_index s) (shown 2%nat "x"%string) (index_reached (Snap.cpu_sat_index s));
  LoadRow.paging := _os_cell (Snap.paging_rate s) (Snap.os_family s) (shown 2%nat "/s"%string) (Snap.mem_pressure s);
  LoadRow.disk_util := _cell (Snap.disk_util_pct s) (shown 0%nat "%"%string) false;
  LoadRow.disk_io := _cell (Snap.disk_sat_index s) (shown 2%nat "x"%string) (index_reached (Snap.disk_sat_index s));
  LoadRow.network := _net_status_cell (Snap.net_congested s) |}.

Definition build_environment_realtime (total online : Z) (snapshots : list Snapshot)
    (last_collected_at : option datetime) : EnvironmentRealtime :=
  let sample := Z.of_nat (length snapshots) in {|
  Realtime.total := total;
  Realtime.online := online;
  Realtime.offline := total - online;
  Realtime.sample_size := sample;
  Realtime.utilization :=
    [_util_bar "CPU" (_cap_weighted Snap.cpu_pct Snap.cpu_cores snapshots);
     _util_bar "메모리" (_ratio Snap.mem_used_bytes Snap.mem_total_bytes snapshots)];
  Realtime.last_collected_at := last_collected_at;
  Realtime.load_rows := sort_str LoadRow.hostname (load_row <$> snapshots);
  Realtime.saturation_donuts :=
    [_build_saturation_donut "실행 큐 임계" (count_if (λ s, index_reached (Snap.cpu_sat_index s)) snapshots) sample;
     _build_saturation_donut "페이징" (count_if Snap.mem_pressure snapshots) sample;
     _build_saturation_donut "디스크 응답지연 임계"
       (count_if (λ s, index_reached (Snap.disk_sat_index s)) snapshots) sample;
     _build_saturation_donut "네트워크 혼잡" (count_if Snap.net_congested snapshots) sample] |}.
