(* ===== verification/FleetQuery.v ===== *)
(** * The environment's queries

    Models [src/assessment_engine/web/services/query/_base.py], [query/attention.py] and
    [query/environment.py]: what the services read from the repositories and from Redis,
    and how they hand it to the mappers of [Fleet] and [ActionTable]. *)

From S2P Require Import Prelude PyFloat Redis Sql Inbound CollectDb Wire PyText DbRetry Handlers PyList Devices Services MetricViews Dashboard Signals JsonCodec DashCache EolCatalog OsEol StorageTree Reports RightSizing Assess Rollup Outbound ServerViews HostRows ActionTable Fleet.

(** ** The repository *)

Module NetBase.
Record NetIoBaselineRaw := {
  rx_kbps_baseline : option float;
  tx_kbps_baseline : option float;
  rx_p95 : option float;
  rx_peak : option float;
  tx_p95 : option float;
  tx_peak : option float;
}.
End NetBase.
Abbreviation NetIoBaselineRaw := NetBase.NetIoBaselineRaw.

(** The reads of [QueryRepository] the environment needs.  A [dict] keyed by the id of a
    server is a map; the restart counts keep the order of the rows. *)
Class FleetRepo (Q : Type) := {
  list_server_ids : option Z → eff Q (list Z);
  get_servers : list Z → eff Q (list ServerDetail);
  report_aggregate : list Z → float → datetime → eff Q (list ReportRowRaw);
  report_net_io_baseline : list Z → float → datetime → eff Q (gmap Z NetIoBaselineRaw);
  environment_utilization : float → datetime → eff Q EnvironmentUtilizationRaw;
  fleet_error_summary : list Z → datetime → eff Q FleetErrorRaw;
  latest_metric_at : eff Q (option datetime);
  metric_gap_warnings : Z → Z → option Z → eff Q (list MetricGapWarningRaw);
  agent_restart_counts_recent : list Z → datetime → eff Q (list (Z * Z));
}.

(** The default of [list_server_ids]'s [limit] *)
Definition default_limit : option Z := Some 1000.

(** ** What the services share ([_base.py]) *)

(** [dict(pairs)]: the last pair of a key stays *)
Definition dict_of {V} (pairs : list (Z * V)) : gmap Z V := foldl (λ m kv, <[kv.1 := kv.2]> m) ∅ pairs.

Definition seconds (n : Z) : Z := n * 1000000.

(** [replace(raw, **_net_baseline_fields(net))] *)
Definition with_net (raw : ReportRowRaw) (net : option NetIoBaselineRaw) : ReportRowRaw :=
  match net with
  | None => raw
  | Some n => {|
      RawRow.server_id := RawRow.server_id raw; RawRow.public_id := RawRow.public_id raw;
      RawRow.hostname := RawRow.hostname raw; RawRow.os_family := RawRow.os_family raw;
      RawRow.os_id := RawRow.os_id raw; RawRow.os_version := RawRow.os_version raw;
      RawRow.os_codename := RawRow.os_codename raw; RawRow.kernel_version := RawRow.kernel_version raw;
      RawRow.net_interfaces := RawRow.net_interfaces raw; RawRow.services := RawRow.services raw;
      RawRow.last_seen_at := RawRow.last_seen_at raw; RawRow.cpu_p95_pct := RawRow.cpu_p95_pct raw;
      RawRow.cpu_avg_pct := RawRow.cpu_avg_pct raw; RawRow.cpu_peak_pct := RawRow.cpu_peak_pct raw;
      RawRow.mem_p95_pct := RawRow.mem_p95_pct raw; RawRow.mem_avg_pct := RawRow.mem_avg_pct raw;
      RawRow.mem_peak_pct := RawRow.mem_peak_pct raw; RawRow.mem_near_peak_pct := RawRow.mem_near_peak_pct raw;
      RawRow.listen_ports := RawRow.listen_ports raw; RawRow.iowait_p95_pct := RawRow.iowait_p95_pct raw;
      RawRow.iowait_peak_pct := RawRow.iowait_peak_pct raw; RawRow.cpu_run_queue_p95 := RawRow.cpu_run_queue_p95 raw;
      RawRow.mem_pages_input_rate_p95 := RawRow.mem_pages_input_rate_p95 raw; RawRow.cpu_cores := RawRow.cpu_cores raw;
      RawRow.mem_total_bytes := RawRow.mem_total_bytes raw; RawRow.block_devices := RawRow.block_devices raw;
      RawRow.lvm_vgs := RawRow.lvm_vgs raw; RawRow.arch := RawRow.arch raw; RawRow.bits := RawRow.bits raw;
      RawRow.boot_firmware := RawRow.boot_firmware raw; RawRow.secure_boot := RawRow.secure_boot raw;
      RawRow.edition := RawRow.edition raw; RawRow.product_name := RawRow.product_name raw;
      RawRow.timezone := RawRow.timezone raw; RawRow.rtc_utc := RawRow.rtc_utc raw; RawRow.boot := RawRow.boot raw;
      RawRow.nonblock_mounts := RawRow.nonblock_mounts raw; RawRow.boot_time := RawRow.boot_time raw;
      RawRow.worst_mount_used_pct := RawRow.worst_mount_used_pct raw;
      RawRow.disk_capacity_worst_mount := RawRow.disk_capacity_worst_mount raw;
      RawRow.reboot_count := RawRow.reboot_count raw; RawRow.agent_restart_count := RawRow.agent_restart_count raw;
      RawRow.disk_iops_baseline := RawRow.disk_iops_baseline raw; RawRow.disk_iops_p95 := RawRow.disk_iops_p95 raw;
      RawRow.disk_iops_peak := RawRow.disk_iops_peak raw; RawRow.disk_throughput_kbps := RawRow.disk_throughput_kbps raw;
      RawRow.disk_throughput_kbps_p95 := RawRow.disk_throughput_kbps_p95 raw;
      RawRow.disk_throughput_kbps_peak := RawRow.disk_throughput_kbps_peak raw;
      RawRow.net_rx_kbps := NetBase.rx_kbps_baseline n; RawRow.net_rx_kbps_p95 := NetBase.rx_p95 n;
      RawRow.net_rx_kbps_peak := NetBase.rx_peak n; RawRow.net_tx_kbps := NetBase.tx_kbps_baseline n;
      RawRow.net_tx_kbps_p95 := NetBase.tx_p95 n; RawRow.net_tx_kbps_peak := NetBase.tx_peak n;
      RawRow.cpu_sufficiency := RawRow.cpu_sufficiency raw; RawRow.mem_sufficiency := RawRow.mem_sufficiency raw;
      RawRow.cpu_steal_p95_pct := RawRow.cpu_steal_p95_pct raw; RawRow.cpu_burst_ratio := RawRow.cpu_burst_ratio raw;
      RawRow.procs_blocked_p95 := RawRow.procs_blocked_p95 raw; RawRow.procs_running_p95 := RawRow.procs_running_p95 raw;
      RawRow.mem_swap_paging := RawRow.mem_swap_paging raw; RawRow.oom_occurred := RawRow.oom_occurred raw;
      RawRow.history_hours := RawRow.history_hours raw; RawRow.disk_await_p95_ms := RawRow.disk_await_p95_ms raw;
      RawRow.disk_capacity_runway_days := RawRow.disk_capacity_runway_days raw;
      RawRow.disk_capacity_driving_mount := RawRow.disk_capacity_driving_mount raw;
      RawRow.disk_inode_runway_days := RawRow.disk_inode_runway_days raw;
      RawRow.disk_inode_used_pct := RawRow.disk_inode_used_pct raw;
      RawRow.disk_capacity_target_gb := RawRow.disk_capacity_target_gb raw;
      RawRow.disk_capacity_proj_30d_pct := RawRow.disk_capacity_proj_30d_pct raw;
      RawRow.disk_capacity_driving_used_pct := RawRow.disk_capacity_driving_used_pct raw;
      RawRow.net_drop_pct := RawRow.net_drop_pct raw; RawRow.net_retrans_pct := RawRow.net_retrans_pct raw;
      RawRow.conntrack_ratio := RawRow.conntrack_ratio raw; RawRow.cpu_trend_slope := RawRow.cpu_trend_slope raw;
      RawRow.mem_trend_slope := RawRow.mem_trend_slope raw; RawRow.cpu_percore_p95_max := RawRow.cpu_percore_p95_max raw |}
  end.

(** A server seen within the lifetime of an online flag *)
Definition seen_recently (now : datetime) (d : ServerDetail) : bool :=
  some_and (DetailRow.last_seen_at d) (λ t, now - seconds redis_ttl_online <? t).

(** [flags[i] is not None], where [mget] answers with one flag per key *)
Definition flag_at (flags : list (option string)) (i : nat) : result bool :=
  match flags !! i with
  | Some flag => Ok (is_some flag)
  | None => Raise (OtherError "list index out of range")
  end.

Definition online_flags (server_ids : list Z) (flags : list (option string)) : result (gmap Z bool) :=
  pairs ← map_result (λ isid : nat * Z, flag ← flag_at flags isid.1; Ok (isid.2, flag))
            (zip (seq 0 (length server_ids)) server_ids);
  Ok (dict_of pairs).

Section queries.
Context {R : Type} `{RedisClient R} {Q : Type} `{FleetRepo Q}.

Definition _online_map (server_ids : list Z) (details : list ServerDetail) (now : datetime)
    : eff (R * Q) (gmap Z bool) :=
  flags ← on_cache (safe_mget (redis_key_online <$> server_ids));
  match flags with
  | None => mret (dict_of ((λ d, (DetailRow.id d, seen_recently now d)) <$> details))
  | Some flags => lift (online_flags server_ids flags)
  end.

Definition _with_net_baseline (raws : list ReportRowRaw) (server_ids : list Z) (period_days : float) (end_ : datetime)
    : eff (R * Q) (list ReportRowRaw) :=
  net_io ← on_repo (report_net_io_baseline server_ids period_days end_);
  mret ((λ raw, with_net raw (net_io !! RawRow.server_id raw)) <$> raws).

(** ** Attention signals ([query/attention.py]) *)

Definition _ATTENTION_LIMIT_EACH : Z := 5.
Definition _GAP_MINUTES : Z := 5.
Definition _GAP_RECENT_HOURS : Z := 24.

Definition attention_signals (now : datetime) (gap_minutes gap_recent_hours : Z) (limit_each : option Z)
    (end_ : option datetime) (raws : option (list ReportRowRaw)) : eff (R * Q) AttentionSignals :=
  let ref := default now end_ in
  gap_raws ← on_repo (metric_gap_warnings gap_minutes gap_recent_hours limit_each);
  ids_raws ← (match raws with
              | None =>
                  server_ids ← on_repo (list_server_ids default_limit);
                  raws ← (match server_ids with
                          | [] => mret []
                          | _ => on_repo (report_aggregate server_ids (of_Z WINDOW_DAYS) ref)
                          end);
                  mret (server_ids, raws)
              | Some raws => mret (RawRow.server_id <$> raws, raws)
              end);
  restart_counts ← (match ids_raws.1 with
                    | [] => mret []
                    | server_ids => on_repo (agent_restart_counts_recent server_ids (ref - seconds 3600))
                    end);
  lift (_assemble_attention ids_raws.2 gap_raws restart_counts ref limit_each).

Definition get_attention_signals (now : datetime) (limit_each : option Z) (end_ : option datetime)
    (raws : option (list ReportRowRaw)) : eff (R * Q) AttentionSignals :=
  attention_signals now _GAP_MINUTES _GAP_RECENT_HOURS limit_each end_ raws.

Definition get_selection_attention (now : datetime) (server_ids : list Z) (end_ : datetime)
    : eff (R * Q) AttentionSignals :=
  details ← on_repo (get_servers server_ids);
  attention ← get_attention_signals now None (Some end_) None;
  mret (_filter_attention attention (list_to_set (DetailRow.hostname <$> details))).
End queries.

(** ** Matching of servers ([_resolve_matches]) *)

(** [{x.strip() for x in l or [] if x.strip()}] *)
Definition tokens (l : option (list string)) : gset string :=
  list_to_set (filter (λ t, t ≠ ""%string) (strip_chars is_space <$> default [] l)).

(** [_addrs]: the addresses of a server's interfaces *)
Definition _addrs (s : ServerDetail) : list (option string) :=
  DetailRow.net_interfaces s ≫= λ i, node_str "address" <$> node_list "addresses" i.

Definition _disc_match (s : ServerDetail) (disc : string) : bool :=
  String.eqb disc (DetailRow.public_id s) || mem (Some disc) (_addrs s).

Definition addr_in (ips : gset string) (addr : option string) : bool :=
  match addr with Some a => bool_decide (a ∈ ips) | None => false end.

Definition pair_match (s : ServerDetail) (pair : string * string) : bool :=
  String.eqb (DetailRow.hostname s) pair.1 && _disc_match s pair.2.

Definition _match (hn ipset pid : gset string) (pairs : list (string * string)) (s : ServerDetail) : bool :=
  if bool_decide (hn = ∅) && bool_decide (ipset = ∅) && bool_decide (pid = ∅) && bool_decide (pairs = []) then true
  else if bool_decide (DetailRow.hostname s ∈ hn) then true
  else if bool_decide (DetailRow.public_id s ∈ pid) then true
  else if existsb (addr_in ipset) (_addrs s) then true
  else existsb (pair_match s) pairs.

(** [sorted] of a set of strings *)
Definition sorted_tokens (s : gset string) : list string := sort_str id (elements s).

(** The host names more than one server has *)
Definition ambiguous_names (details : list ServerDetail) : gset string :=
  list_to_set (fst <$> filter (λ hc, 1 < hc.2) (count_keys (DetailRow.hostname <$> details))).

Module Matches.
Record Matches := {
  matched : list ServerDetail;
  ambiguous : gset string;
  ambiguous_in_filter : list string;
  unresolved : list string;
  unmatched : list string;
}.
End Matches.
Abbreviation Matches := Matches.Matches.

Definition pair_text (pair : string * string) : string := str_join "~" [pair.1; pair.2].

Definition match_servers (all_details : list ServerDetail) (hn ipset pid : gset string)
    (pairs : list (string * string)) : Matches :=
  let ambiguous := ambiguous_names all_details in
  let all_hostnames : gset string := list_to_set (DetailRow.hostname <$> all_details) in
  let all_addrs : gset string := list_to_set (omap id (all_details ≫= _addrs)) in
  let all_pids : gset string := list_to_set (DetailRow.public_id <$> all_details) in {|
  Matches.matched := filter (λ d, _match hn ipset pid pairs d = true) all_details;
  Matches.ambiguous := ambiguous;
  Matches.ambiguous_in_filter := sorted_tokens (hn ∩ ambiguous);
  Matches.unresolved :=
    pair_text <$> filter (λ p, existsb (λ d, pair_match d p) all_details = false) pairs;
  Matches.unmatched :=
    filter (λ h, h ∉ all_hostnames) (sorted_tokens hn)
    ++ filter (λ i, i ∉ all_addrs) (sorted_tokens ipset)
    ++ filter (λ p, p ∉ all_pids) (sorted_tokens pid) |}.

Definition no_matches : Matches := {|
  Matches.matched := []; Matches.ambiguous := ∅; Matches.ambiguous_in_filter := []; Matches.unresolved := [];
  Matches.unmatched := [] |}.

(** ** Snapshots ([_assemble_realtime]) *)

(** [sum((n.rx_kbps or 0) + (n.tx_kbps or 0) for n in m.net_io) if m.net_io else None] *)
Definition net_rate (net_io : list NetIoSnapshot) : option float :=
  match (λ n, fadd (or_zero (NetView.rx_kbps n)) (or_zero (NetView.tx_kbps n))) <$> net_io with
  | [] => None
  | x :: l => Some (py_sum x l)
  end.

Definition snapshot_of (d : ServerDetail) (sat : SaturationRaw) (m : MetricDashboard) : Snapshot :=
  let rate := net_rate (net_io m) in {|
  Snap.hostname := DetailRow.hostname d;
  Snap.public_id := DetailRow.public_id d;
  Snap.os_family := DetailRow.os_family d;
  Snap.cpu_pct := cpu m ≫= CpuView.usage_pct;
  Snap.mem_pct := memory m ≫= MemView.usage_pct;
  Snap.cpu_sat_index := cpu_saturation_index (run_queue sat) (DetailRow.cpu_cores d) (DetailRow.os_family d);
  Snap.disk_sat_index := disk_io_saturation_index (await_ms sat) (pending_ops sat) (DetailRow.os_family d);
  Snap.disk_util_pct := disk_io_util_pct sat;
  Snap.paging_rate := paging_major_rate sat;
  Snap.net_kbps := rate;
  Snap.mem_pressure := mem_pressure_active (paging_major_rate sat) (DetailRow.os_family d);
  Snap.net_congested :=
    net_signal_active (retrans_pct sat) (drop_pct sat) (MetricViews.conntrack_ratio sat) rate;
  Snap.cpu_cores := DetailRow.cpu_cores d;
  Snap.mem_used_bytes := memory m ≫= MemView.used_bytes;
  Snap.mem_total_bytes := memory m ≫= MemView.total_bytes |}.

(** [not m or not m.collected_at or m.collected_at < fresh_threshold] fails: when it was collected *)
Definition fresh (threshold : datetime) (m : option MetricDashboard) : option (MetricDashboard * datetime) :=
  match m with
  | Some m => match dash_collected_at m with
              | Some t => if t <? threshold then None else Some (m, t)
              | None => None
              end
  | None => None
  end.

(** [if last is None or t > last: last = t] *)
Definition later (last : option datetime) (t : datetime) : option datetime :=
  match last with Some l => if l <? t then Some t else Some l | None => Some t end.

(** ** The queries of the environment *)

Definition DIAGNOSTIC_RANGE_DAYS (time_range : string) : option float :=
  (λ minutes : Z, fdiv (of_Z (minutes * 60)) (of_Z 86400)) <$>
    (list_to_map [("15m", 15); ("1h", 60); ("6h", 360); ("24h", 1440); ("7d", 10080); ("14d", 20160); ("30d", 43200)]
      : gmap string Z) !! time_range.

Module Assessment.
Record EnvironmentAssessment := { overview : EnvironmentOverview; action : ActionTargets }.
End Assessment.
Abbreviation EnvironmentAssessment := Assessment.EnvironmentAssessment.

Definition no_targets : ActionTargets := {|
  Targets.hosts := []; Targets.total := 0; Targets.under_count := 0; Targets.efficiency_count := 0;
  Targets.efficiency_vcpus := 0; Targets.efficiency_memory_gb := of_Z 0; Targets.efficiency_disk_gb := 0 |}.

Module Status.
Record FleetStatus := { online_count : Z; total_count : Z; last_collected_at : option datetime }.
End Status.
Abbreviation FleetStatus := Status.FleetStatus.

Section environment.
Context {R : Type} `{RedisClient R} {Q : Type} `{FleetRepo Q} `{MetricRepo Q}.
Variable json_dumps : json → string.
Variable json_loads : string → result json.

Definition _resolve_matches (hostnames ips public_ids : option (list string)) (pairs : option (list (string * string)))
    : eff (R * Q) Matches :=
  all_ids ← on_repo (list_server_ids None);
  match all_ids with
  | [] => mret no_matches
  | _ =>
      all_details ← on_repo (get_servers all_ids);
      mret (match_servers all_details (tokens hostnames) (tokens ips) (tokens public_ids) (default [] pairs))
  end.

(** The body of the loop over the servers, with what it has gathered *)
Fixpoint gather_snapshots (now : datetime) (detail_by_id : gmap Z ServerDetail) (sat_map : gmap Z SaturationRaw)
    (server_ids : list Z) (online : Z) (snapshots : list Snapshot) (last : option datetime)
    : eff (R * Q) (Z * list Snapshot * option datetime) :=
  match server_ids with
  | [] => mret (online, snapshots, last)
  | sid :: server_ids' =>
      match detail_by_id !! sid with
      | None => gather_snapshots now detail_by_id sat_map server_ids' online snapshots last
      | Some d =>
          let sat := default no_saturation (sat_map !! sid) in
          m ← latest_metric json_dumps json_loads now sid (Some sat);
          match fresh (now - seconds redis_ttl_online) m with
          | None => gather_snapshots now detail_by_id sat_map server_ids' online snapshots last
          | Some (m, t) =>
              gather_snapshots now detail_by_id sat_map server_ids' (online + 1)
                (snapshots ++ [snapshot_of d sat m]) (later last t)
          end
      end
  end.

Definition _assemble_realtime (server_ids : list Z) (details : list ServerDetail) (now : datetime)
    : eff (R * Q) EnvironmentRealtime :=
  let detail_by_id := dict_of ((λ d, (DetailRow.id d, d)) <$> details) in
  sat_map ← on_repo (latest_saturation server_ids (now - seconds redis_ttl_online));
  gathered ← gather_snapshots now detail_by_id sat_map server_ids 0 [] None;
  mret (build_environment_realtime (Z.of_nat (length server_ids)) gathered.1.1 gathered.1.2 gathered.2).

Definition get_environment_realtime (now : datetime) (server_ids : option (list Z)) : eff (R * Q) EnvironmentRealtime :=
  server_ids ← (match server_ids with Some l => mret l | None => on_repo (list_server_ids default_limit) end);
  match server_ids with
  | [] => mret (build_environment_realtime 0 0 [] None)
  | _ => details ← on_repo (get_servers server_ids); _assemble_realtime server_ids details now
  end.

Definition get_environment_assessment (now : datetime) (time_range : string) (anchor_at : option datetime)
    : eff (R * Q) EnvironmentAssessment :=
  let end_ := default now anchor_at in
  period_days ← lift (match DIAGNOSTIC_RANGE_DAYS time_range with Some d => Ok d | None => Raise (KeyError time_range) end);
  server_ids ← on_repo (list_server_ids default_limit);
  match server_ids with
  | [] => mret {| Assessment.overview := _empty_overview; Assessment.action := no_targets |}
  | _ =>
      details ← on_repo (get_servers server_ids);
      raws_period ← on_repo (report_aggregate server_ids period_days end_);
      raws_period ← _with_net_baseline raws_period server_ids period_days end_;
      util ← on_repo (environment_utilization period_days end_);
      online_by_id ← _online_map server_ids details end_;
      overview ← lift (assemble_overview (date_of now) details util raws_period online_by_id false None);
      action ← lift (build_action_targets raws_period);
      mret {| Assessment.overview := overview; Assessment.action := action |}
  end.

(** [datetime(1970, 1, 1, tzinfo=UTC)] *)
Definition epoch : datetime := 0.

Definition get_dashboard_overview (now : datetime) : eff (R * Q) EnvironmentOverview :=
  server_ids ← on_repo (list_server_ids default_limit);
  match server_ids with
  | [] => mret _empty_overview
  | _ =>
      details ← on_repo (get_servers server_ids);
      raws_period ← on_repo (report_aggregate server_ids (of_Z WINDOW_DAYS) now);
      raws_period ← _with_net_baseline raws_period server_ids (of_Z WINDOW_DAYS) now;
      util ← on_repo (environment_utilization (of_Z WINDOW_DAYS) now);
      online_by_id ← _online_map server_ids details now;
      errors ← on_repo (fleet_error_summary server_ids epoch);
      lift (assemble_overview (date_of now) details util raws_period online_by_id false (Some errors))
  end.

Definition get_fleet_status (now : datetime) : eff (R * Q) FleetStatus :=
  server_ids ← on_repo (list_server_ids default_limit);
  match server_ids with
  | [] => mret {| Status.online_count := 0; Status.total_count := 0; Status.last_collected_at := None |}
  | _ =>
      details ← on_repo (get_servers server_ids);
      online_by_id ← _online_map server_ids details now;
      last ← on_repo latest_metric_at;
      mret {| Status.online_count := Z.of_nat (length (filter (λ kv, kv.2 = true) (map_to_list online_by_id)));
              Status.total_count := Z.of_nat (length server_ids);
              Status.last_collected_at := last |}
  end.
End environment.

(** ** The parameters of the external API ([web/routers/_contract_params.py]) *)

Definition split_csv (value : option string) : list string :=
  filter (λ t, t ≠ ""%string) (strip_chars is_space <$> split_on "," (default "" value)).

(** [token.partition("~")] of a token that has one, and both sides not blank *)
Definition parse_pair (token : string) : option (string * string) :=
  match split_on "~" token with
  | host :: ((_ :: _) as rest) =>
      let '(host, disc) := (strip_chars is_space host, strip_chars is_space (str_join "~" rest)) in
      if String.eqb host "" || String.eqb disc "" then None else Some (host, disc)
  | _ => None
  end.

Definition split_pairs : list string → list (string * string) := omap parse_pair.

Definition split_pairs_csv (value : option string) : list (string * string) := split_pairs (split_csv value).
