(* ===== verification/TextFacts.v ===== *)
(** * Facts about Python text: [strip], [split] and [join] *)

From S2P Require Import Prelude PyText IsoFacts FleetQuery.

(** ** Reversal *)

Lemma append_cons c a b : String.append (String c a) b = String c (String.append a b).
Proof. reflexivity. Qed.

Lemma append_empty b : String.append "" b = b.
Proof. reflexivity. Qed.

Lemma append_nil a : String.append a "" = a.
Proof. induction a as [|c a IH]; [done|]. by rewrite append_cons, IH. Qed.

Lemma rev_app_acc a acc : String.rev_app a acc = String.append (String.rev a) acc.
Proof.
  unfold String.rev. revert acc. induction a as [|c a IH]; intros acc; cbn; [done|].
  by rewrite IH, (IH (String c "")), append_assoc.
Qed.

Lemma rev_cons c a : String.rev (String c a) = String.append (String.rev a) (String c "").
Proof. exact (rev_app_acc a (String c "")). Qed.

Lemma rev_append a b : String.rev (String.append a b) = String.append (String.rev b) (String.rev a).
Proof.
  induction a as [|c a IH]; [by rewrite append_nil|].
  by rewrite append_cons, (rev_cons c (String.append a b)), IH, (rev_cons c a), append_assoc.
Qed.

Lemma rev_involutive a : String.rev (String.rev a) = a.
Proof. induction a as [|c a IH]; [done|]. by rewrite rev_cons, rev_append, IH. Qed.

Lemma all_chars_rev f a : all_chars f (String.rev a) = all_chars f a.
Proof.
  induction a as [|c a IH]; [done|]. rewrite rev_cons, all_chars_append, IH. cbn. rewrite andb_true_r. apply andb_comm.
Qed.

(** ** Strip *)

Section strip.
Context (f : ascii → bool).

Definition rstrip (s : string) : string := String.rev (drop_while f (String.rev s)).

Lemma drop_while_all s : all_chars f s = true → drop_while f s = ""%string.
Proof. induction s as [|c s IH]; cbn; [done|]. intros [-> H]%andb_true_iff. by apply IH. Qed.

Lemma drop_while_stop a c b : f c = false → drop_while f (String.append a (String c b)) = String.append (drop_while f a) (String c b).
Proof.
  intros E. induction a as [|x a IH]; rewrite ?append_empty, ?append_cons; cbn [drop_while]; [by rewrite E|].
  by destruct (f x).
Qed.

Lemma drop_while_idem s : drop_while f (drop_while f s) = drop_while f s.
Proof. induction s as [|c s IH]; cbn; [done|]. destruct (f c) eqn:E; [done|]. cbn. by rewrite E. Qed.

Lemma rstrip_stop a c b : f c = false → rstrip (String.append a (String c b)) = String.append a (String c (rstrip b)).
Proof.
  intros E. unfold rstrip. rewrite rev_append, rev_cons, append_assoc, append_cons, append_empty.
  by rewrite drop_while_stop, rev_append, rev_cons, rev_involutive, append_assoc.
Qed.

(** A text is all blank, or has a first character that is not. *)
Lemma first_kept s : all_chars f s = true ∨ ∃ a c b, s = String.append a (String c b) ∧ all_chars f a = true ∧ f c = false.
Proof.
  induction s as [|x s IH]; [by left|]. destruct (f x) eqn:E.
  - destruct IH as [H|(a & c & b & -> & Ha & Hc)]; [left; cbn; by rewrite E|].
    right. exists (String x a), c, b. split; [done|]. split; [cbn; by rewrite E|done].
  - right. by exists ""%string, x, s.
Qed.

Lemma strip_chars_rstrip s : strip_chars f (rstrip s) = strip_chars f s.
Proof.
  unfold strip_chars. change (String.rev (drop_while f (String.rev ?x))) with (rstrip x).
  destruct (first_kept s) as [H|(a & c & b & -> & Ha & Hc)].
  - unfold rstrip at 2. rewrite (drop_while_all (String.rev s)) by by rewrite all_chars_rev. by rewrite (drop_while_all s).
  - rewrite rstrip_stop, !drop_while_stop, (drop_while_all a), !append_empty by done.
    rewrite <- (append_empty (String c (rstrip b))), <- (append_empty (String c b)), !rstrip_stop by done.
    unfold rstrip. by rewrite rev_involutive, drop_while_idem.
Qed.

Lemma strip_chars_lstrip s : strip_chars f (drop_while f s) = strip_chars f s.
Proof. unfold strip_chars. by rewrite drop_while_idem. Qed.

Lemma strip_chars_idem s : strip_chars f (strip_chars f s) = strip_chars f s.
Proof.
  change (strip_chars f s) with (rstrip (drop_while f s)) at 1. by rewrite strip_chars_rstrip, strip_chars_lstrip.
Qed.

(** Around a character that stays *)
Lemma strip_chars_stop a c b : f c = false →
  strip_chars f (String.append a (String c b)) = String.append (drop_while f a) (String c (rstrip b)).
Proof. intros E. unfold strip_chars. rewrite drop_while_stop by done. by apply rstrip_stop. Qed.

Lemma all_chars_drop_while g s : all_chars g s = true → all_chars g (drop_while f s) = true.
Proof.
  induction s as [|c s IH]; cbn; [done|]. destruct (f c); [|done]. intros [_ ?]%andb_true_iff. by apply IH.
Qed.

Lemma all_chars_strip g s : all_chars g s = true → all_chars g (strip_chars f s) = true.
Proof. intros H. unfold strip_chars. rewrite all_chars_rev. apply all_chars_drop_while. rewrite all_chars_rev. by apply all_chars_drop_while. Qed.
End strip.

(** ** Split and join *)

Definition without (sep : ascii) (s : string) : bool := all_chars (λ c, negb (Ascii.eqb c sep)) s.

Lemma split_on_none sep s : without sep s = true → split_on sep s = [s].
Proof.
  unfold without. induction s as [|c s IH]; cbn; [done|]. intros [E H]%andb_true_iff. rewrite negb_true_iff in E.
  by rewrite E, IH.
Qed.

Lemma split_on_first sep a b : without sep a = true → split_on sep (String.append a (String sep b)) = a :: split_on sep b.
Proof.
  unfold without. induction a as [|c a IH]; cbn [all_chars].
  { intros _. rewrite append_empty. cbn. by rewrite Ascii.eqb_refl. }
  intros [E H]%andb_true_iff. rewrite negb_true_iff in E. rewrite append_cons. cbn. by rewrite E, IH.
Qed.

Lemma split_on_join sep l : l ≠ [] → Forall (λ s, without sep s = true) l → split_on sep (str_join (String sep "") l) = l.
Proof.
  intros N. induction 1 as [|s l Hs Hl IH]; [done|]. destruct l as [|t l]; [by apply split_on_none|].
  change (str_join (String sep "") (s :: t :: l)) with (String.append s (String sep (str_join (String sep "") (t :: l)))).
  rewrite split_on_first by done. by rewrite IH.
Qed.

Lemma split_on_nonempty sep s : split_on sep s ≠ [].
Proof. destruct s as [|c s]; cbn; [done|]. destruct (Ascii.eqb c sep); [done|]. by destruct (split_on sep s). Qed.

Lemma join_split_on sep s : str_join (String sep "") (split_on sep s) = s.
Proof.
  induction s as [|c s IH]; [done|]. cbn [split_on]. pose proof (split_on_nonempty sep s) as N.
  destruct (split_on sep s) as [|w ws] eqn:E; [done|]. destruct (Ascii.eqb_spec c sep) as [->|].
  - change (str_join (String sep "") ("" :: w :: ws)) with (String sep (str_join (String sep "") (w :: ws))). by rewrite IH.
  - rewrite <- IH. by destruct ws.
Qed.

(** A text has no separator, or a first one. *)
Lemma first_sep sep s : without sep s = true ∨ ∃ a b, s = String.append a (String sep b) ∧ without sep a = true.
Proof.
  destruct (first_kept (λ c, negb (Ascii.eqb c sep)) s) as [H|(a & c & b & -> & Ha & Hc)]; [by left|right].
  apply negb_false_iff in Hc. apply Ascii.eqb_eq in Hc as ->. by exists a, b.
Qed.

(** ** The pairs of a filter *)

(** A pair is the text before the first tilde and the text after it. *)
Lemma parse_pair_at a b : without "~" a = true →
  parse_pair (String.append a (String "~" b))
  = if String.eqb (strip_chars is_space a) "" || String.eqb (strip_chars is_space b) "" then None
    else Some (strip_chars is_space a, strip_chars is_space b).
Proof.
  intros Ha. unfold parse_pair. rewrite split_on_first by done.
  pose proof (join_split_on "~" b) as J. pose proof (split_on_nonempty "~" b) as N.
  destruct (split_on "~" b) as [|w ws]; [done|]. by rewrite J.
Qed.

(** Blanks around a pair do not matter. *)
Lemma parse_pair_strip t : parse_pair (strip_chars is_space t) = parse_pair t.
Proof.
  destruct (first_sep "~" t) as [H|(a & b & -> & Ha)].
  - unfold parse_pair. rewrite !split_on_none; [done| |]; [exact H|]. by apply all_chars_strip.
  - rewrite strip_chars_stop, !parse_pair_at; [|done|by apply all_chars_drop_while|done].
    by rewrite strip_chars_lstrip, strip_chars_rstrip.
Qed.

Lemma parse_pair_blank t : strip_chars is_space t = ""%string → parse_pair t = None.
Proof. intros E. by rewrite <- parse_pair_strip, E. Qed.
