(* ===== verification/TopologyProps.v ===== *)
(** * The topology shows exactly the servers that share a subnet

    The contract comes first, told on the inventory alone (dotted texts of addresses,
    prefixes, kinds and gateways of interfaces); the lemmas after it show that the
    memberships, the groups, their lists and the counts of [Topology] are what it says. *)

From stdpp Require Import sorting gmap strings.
From S2P Require Import Prelude PyFloat Sql Wire PyText PyList Devices Services JsonCodec Outbound Topology TextFacts.

(** ** The contract, stated on the inventory alone *)

(** The text of an address: four numbers of a byte each, with their dots *)
Definition dotted (text : string) (ip : Z) : Prop :=
  ∃ a b c d, 0 <= a <= 255 ∧ 0 <= b <= 255 ∧ 0 <= c <= 255 ∧ 0 <= d <= 255
    ∧ text = str_join "." [pretty a; pretty b; pretty c; pretty d]
    ∧ ip = ((a * 256 + b) * 256 + c) * 256 + d.

(** 127.0.0.0/8 and 169.254.0.0/16 *)
Definition loopback (ip : Z) : Prop := 127 * 2 ^ 24 <= ip < 128 * 2 ^ 24.
Definition link_local (ip : Z) : Prop := (169 * 256 + 254) * 2 ^ 16 <= ip < (169 * 256 + 255) * 2 ^ 16.

(** The address of an interface counts for a network: the interface is physical or a bond,
    the address is an IPv4 address of no special block, the prefix is that of the network
    and leaves room for other hosts, and the network is the address without its host bits. *)
Definition counts (at_iface : json * json) (ip : Z) (net : Z * Z) : Prop :=
  (node_str "kind" at_iface.1 = Some "physical" ∨ node_str "kind" at_iface.1 = Some "bond_master")%string
  ∧ node_str "family" at_iface.2 = Some "ipv4"%string
  ∧ (∃ text, node_str "address" at_iface.2 = Some text ∧ dotted text ip)
  ∧ get_number "prefix" at_iface.2 = Some net.2 ∧ 0 < net.2 < 32
  ∧ ¬ loopback ip ∧ ¬ link_local ip
  ∧ net.1 = ip - ip mod 2 ^ (32 - net.2).

(** The addresses of a server with their interfaces, as it lists them *)
Definition addresses (h : ServerDetail) : list (json * json) :=
  DetailRow.net_interfaces h ≫= λ i, pair i <$> node_list "addresses" i.

(** A server joins a network through the first of its addresses that counts for it. *)
Definition joins (h : ServerDetail) (net : Z * Z) (m : _Member) : Prop :=
  ∃ before i a after, addresses h = before ++ (i, a) :: after
    ∧ counts (i, a) (Member.ip m) net
    ∧ (∀ x ip, x ∈ before → ¬ counts x ip net)
    ∧ Member.pid m = DetailRow.public_id h ∧ Member.gateway m = node_str "gateway" i
    ∧ Member.origin m = node_str "origin" a ∧ Member.mtu m = get_number "mtu" i
    ∧ Member.speed_mbps m = get_number "speed_mbps" i.

Section contract.
Context (hosts : list ServerDetail).

Definition gateway_of (net : Z * Z) (g : string) : Prop :=
  g ≠ ""%string ∧ ∃ h m, h ∈ hosts ∧ joins h net m ∧ Member.gateway m = Some g.

(** The servers of a network name different gateways: it is taken for several networks. *)
Definition apart (net : Z * Z) : Prop := ∃ g g', g ≠ g' ∧ gateway_of net g ∧ gateway_of net g'.

(** The groups of a network: one for each gateway where it is apart, one otherwise *)
Definition group_key (net : Z * Z) (gw : option string) : Prop :=
  (apart net → ∃ g, gw = Some g ∧ gateway_of net g) ∧ (¬ apart net → ∀ g, gw = Some g ↔ gateway_of net g).

Definition holds (key : (Z * Z) * option string) (h : ServerDetail) (m : _Member) : Prop :=
  h ∈ hosts ∧ joins h key.1 m ∧ (apart key.1 → Member.gateway m = key.2).

Definition holder (key : (Z * Z) * option string) (pid : string) : Prop :=
  ∃ h m, holds key h m ∧ DetailRow.public_id h = pid.

(** The label of a group: the network, and its gateway where it is apart *)
Definition labelled (key : (Z * Z) * option string) (label : string) : Prop :=
  ∃ base, dotted base key.1.1
    ∧ (¬ apart key.1 → label = str_join "/" [base; pretty key.1.2])
    ∧ (apart key.1 → ∃ g, key.2 = Some g
         ∧ label = str_join "" [str_join "/" [base; pretty key.1.2]; " (via "; g; ")"]%string).

(** A group as it is listed: its servers once each, in the order of their addresses, each
    with what it joins the network with *)
Definition listed (keys : list ((Z * Z) * option string)) (online_by_id : gmap Z bool)
    (key : (Z * Z) * option string) (g : SubnetGroup) : Prop :=
  labelled key (SubnetGroup.net_key g)
  ∧ SubnetGroup.gateway g = key.2
  ∧ SubnetGroup.host_count g = Z.of_nat (length (SubnetGroup.hosts g))
  ∧ NoDup (SubnetHost.public_id <$> SubnetGroup.hosts g)
  ∧ (∀ pid, pid ∈ SubnetHost.public_id <$> SubnetGroup.hosts g ↔ holder key pid)
  ∧ ∃ ips, Sorted Z.le ips ∧ Forall2 (λ ip s,
      dotted (SubnetHost.ip s) ip
      ∧ (∃ h m, holds key h m ∧ DetailRow.public_id h = SubnetHost.public_id s ∧ Member.ip m = ip
           ∧ SubnetHost.origin s = Member.origin m ∧ SubnetHost.mtu s = Member.mtu m
           ∧ SubnetHost.speed_mbps s = Member.speed_mbps m)
      ∧ (∃ h, h ∈ hosts ∧ DetailRow.public_id h = SubnetHost.public_id s
           ∧ SubnetHost.hostname s = DetailRow.hostname h
           ∧ SubnetHost.is_online s = default false (online_by_id !! DetailRow.id h))
      ∧ (SubnetHost.multi_homed s = true ↔
           ∃ k k', k ∈ keys ∧ k' ∈ keys ∧ k ≠ k' ∧ holder k (SubnetHost.public_id s) ∧ holder k' (SubnetHost.public_id s)))
    ips (SubnetGroup.hosts g).
End contract.

(** [n] is the number of the texts with the property. *)
Definition counted (P : string → Prop) (n : Z) : Prop :=
  ∃ l, NoDup l ∧ (∀ x, x ∈ l ↔ P x) ∧ n = Z.of_nat (length l).

(** ** Addresses *)

Definition digits : list ascii := String.list_ascii_of_string "0123456789".

Lemma is_digit_in c : is_ascii_digit c = true → c ∈ digits.
Proof. destruct c as [[] [] [] [] [] [] [] []]; vm_compute; intros [=]; in_list. Qed.

(** The digit strings of at most three characters *)
Definition digit_strings : list string :=
  ((λ c, String c "") <$> digits)
  ++ (digits ≫= λ c, (λ d, String c (String d "")) <$> digits)
  ++ (digits ≫= λ c, digits ≫= λ d, (λ e, String c (String d (String e ""))) <$> digits).

Lemma short_digits s : isdigit s = true → (String.length s <= 3)%nat → s ∈ digit_strings.
Proof.
  unfold isdigit, digit_strings. rewrite andb_true_iff, negb_true_iff, !elem_of_app. intros [E D] L.
  destruct s as [|c [|d [|e [|x s]]]]; [done| | | |cbn in L; lia];
    cbn in D; rewrite ?andb_true_iff in D; destruct_and?.
  - left. apply list_elem_of_fmap. exists c. split; [done|]. by apply is_digit_in.
  - right. left. apply list_elem_of_bind. exists c. split; [|by apply is_digit_in].
    apply list_elem_of_fmap. exists d. split; [done|]. by apply is_digit_in.
  - right. right. apply list_elem_of_bind. exists c. split; [|by apply is_digit_in].
    apply list_elem_of_bind. exists d. split; [|by apply is_digit_in].
    apply list_elem_of_fmap. exists e. split; [done|]. by apply is_digit_in.
Qed.

(** An octet that is read is a byte, written as the number it is. *)
Lemma octet_read :
  forallb (λ s, match octet s with Some n => (0 <=? n) && (n <=? 255) && String.eqb s (pretty n) | None => true end)
    digit_strings = true.
Proof. by_eval. Qed.

Lemma octet_written :
  forallb (λ n, bool_decide (octet (pretty n) = Some n) && without "." (pretty n)) (seqZ 0 256) = true.
Proof. by_eval. Qed.

Lemma octet_pretty n : 0 <= n <= 255 → octet (pretty n) = Some n ∧ without "." (pretty n) = true.
Proof.
  intros B. pose proof (proj1 (forallb_forall _ _) octet_written n) as H. cbn beta in H.
  rewrite andb_true_iff, bool_decide_eq_true in H. apply H, list_elem_of_In, elem_of_seqZ. lia.
Qed.

Lemma octet_spec s n : octet s = Some n ↔ 0 <= n <= 255 ∧ s = pretty n.
Proof.
  split; [|intros [B ->]; by apply octet_pretty]. intros E.
  assert (s ∈ digit_strings) as I.
  { revert E. unfold octet. destruct (isdigit s) eqn:D; cbn [negb orb]; [|done].
    destruct (3 <? Z.of_nat (String.length s)) eqn:L; [done|]. intros _. apply short_digits; [done|lia]. }
  pose proof (proj1 (forallb_forall _ _) octet_read s (proj1 (list_elem_of_In _ _) I)) as H. cbn beta in H.
  rewrite E, !andb_true_iff in H. destruct H as [[? ?] ->%String.eqb_eq]. split; [lia|done].
Qed.

Lemma parse_dotted s ip : parse_ipv4 s = Some ip ↔ dotted s ip.
Proof.
  unfold parse_ipv4, dotted. split.
  - pose proof (join_split_on "." s) as J. revert J. destruct (split_on "." s) as [|a [|b [|c [|d [|]]]]]; try done.
    intros J E. destruct (octet a) as [na|] eqn:Ea, (octet b) as [nb|] eqn:Eb, (octet c) as [nc|] eqn:Ec,
      (octet d) as [nd|] eqn:Ed; try done. cbn in E. injection E as <-.
    apply octet_spec in Ea as [? ->], Eb as [? ->], Ec as [? ->], Ed as [? ->]. by exists na, nb, nc, nd.
  - intros (a & b & c & d & Ha & Hb & Hc & Hd & -> & ->).
    apply octet_pretty in Ha as [Ea ?], Hb as [Eb ?], Hc as [Ec ?], Hd as [Ed ?].
    rewrite (split_on_join "." [pretty a; pretty b; pretty c; pretty d]) by (done || by repeat constructor).
    by rewrite Ea, Eb, Ec, Ed.
Qed.

Lemma dotted_bounds s ip : dotted s ip → 0 <= ip < 2 ^ 32.
Proof. intros (a & b & c & d & ? & ? & ? & ? & _ & ->). lia. Qed.

Lemma ipv4_text_dotted ip : 0 <= ip < 2 ^ 32 → dotted (ipv4_text ip) ip.
Proof.
  intros B. exists (ip / 2 ^ 24), (ip / 2 ^ 16 mod 256), (ip / 2 ^ 8 mod 256), (ip mod 256).
  split_and!; try done; Z.to_euclidean_division_equations; lia.
Qed.

(** ** The networks of an address *)

Lemma usable_counts i a ip net :
  is_virtual_interface (node_str "kind" i) = false ∧ usable_address a = Some (ip, net) ↔ counts (i, a) ip net.
Proof.
  unfold counts, usable_address, ip_interface, is_virtual_interface, is_loopback, is_link_local, network_of, mem.
  cbn [fst snd]. split.
  - intros [K U]. destruct (node_str "kind" i) as [k|]; [|done].
    apply negb_false_iff, bool_decide_eq_true in K. apply elem_of_cons in K as K'.
    case_bool_decide as F; [|done]. cbn [negb] in U.
    destruct (node_str "address" a) as [text|]; [|done]. destruct (get_number "prefix" a) as [p|]; [|done].
    cbn in U. destruct (parse_ipv4 text) as [ip'|] eqn:P; [|done]. cbn in U.
    apply parse_dotted in P. unfold loopback, link_local.
    destruct ((0 <=? p) && (p <=? 32)) eqn:B; [|done]. cbn in U.
    destruct (_ || _) eqn:S in U; [done|]. destruct (_ || _) eqn:X in U; [done|].
    apply orb_false_iff in S as [? ?], X as [? ?]. injection U as -> <-. cbn [fst snd].
    split; [case_in_list K; auto|]. split; [done|]. split; [by exists text|].
    split; [done|]. split; [lia|]. assert (0 < 2 ^ (32 - p)) by (apply Z.pow_pos_nonneg; lia).
    split; [Z.to_euclidean_division_equations; lia|]. split; [Z.to_euclidean_division_equations; lia|].
    rewrite Z.mod_eq by lia. lia.
  - intros (K & F & (text & -> & D) & -> & B & NL & NK & N). apply parse_dotted in D.
    rewrite bool_decide_true by done. cbn. rewrite D. cbn. unfold loopback, link_local in *. split; [by destruct K as [-> | ->]|].
    assert (0 < 2 ^ (32 - net.2)) by (apply Z.pow_pos_nonneg; lia).
    replace ((0 <=? net.2) && (net.2 <=? 32)) with true by lia. cbn [mbind option_bind].
    replace ((ip / 2 ^ 24 =? 127) || (ip / 2 ^ 16 =? 169 * 256 + 254)) with false
      by (Z.to_euclidean_division_equations; lia).
    replace ((net.2 =? 0) || (32 <=? net.2)) with false by lia.
    destruct net as [n p]. cbn [fst snd] in *. rewrite N, Z.mod_eq by lia. do 3 f_equal. lia.
Qed.

(** ** Memberships *)

(** The membership of a server in a network: its first usable address in it *)
Definition memberships (h : ServerDetail) : list ((Z * Z) * _Member) :=
  physical_ifaces h ≫= iface_members (DetailRow.public_id h).

Definition membership (h : ServerDetail) (net : Z * Z) : option _Member := dict_get net (memberships h).

Lemma once_per_net_filter seen l net :
  (filter (λ nm : (Z * Z) * _Member, nm.1 = net) (once_per_net seen l)).*2
  = if decide (net ∈ seen) then [] else option_list (dict_get net l).
Proof.
  revert seen. induction l as [|[k m] l IH]; intros seen; cbn [once_per_net dict_get fst]; [by case_decide|].
  unfold mem. case_bool_decide as E.
  - rewrite IH. destruct (decide (net ∈ seen)) as [|N]; [done|]. rewrite decide_False; [done|]. by intros ->.
  - rewrite filter_cons. cbn [fst]. destruct (decide (k = net)) as [->|N].
    + repeat case_decide; try done. by rewrite fmap_cons, IH, decide_True by by left.
    + repeat case_decide; try done; rewrite IH; [by rewrite decide_True by by right|].
      rewrite decide_False; [done|]. rewrite elem_of_cons. naive_solver.
Qed.

(** The members of a subnet: the memberships of the servers that have one, in their order *)
Definition sharers (hosts : list ServerDetail) (net : Z * Z) : list _Member := omap (λ h, membership h net) hosts.

Lemma omap_option_list {A B} (f : A → option B) l : omap f l = l ≫= λ x, option_list (f x).
Proof. induction l as [|x l IH]; [done|]. cbn. rewrite IH. by destruct (f x). Qed.

Lemma filter_bind {A B} (P : B → Prop) `{∀ x, Decision (P x)} (f : A → list B) l :
  filter P (l ≫= f) = l ≫= λ x, filter P (f x).
Proof. induction l as [|x l IH]; [done|]. cbn. by rewrite filter_app, IH. Qed.

Lemma fmap_bind_list {A B C} (g : B → C) (f : A → list B) l : g <$> (l ≫= f) = l ≫= λ x, g <$> f x.
Proof. induction l as [|x l IH]; [done|]. cbn. by rewrite fmap_app, IH. Qed.

Lemma bind_ext_list {A B} (f g : A → list B) l : (∀ x, f x = g x) → l ≫= f = l ≫= g.
Proof. intros H. induction l as [|x l IH]; [done|]. cbn. by rewrite H, IH. Qed.

Lemma sharers_filter hosts net :
  (filter (λ nm : (Z * Z) * _Member, nm.1 = net) (hosts ≫= host_members)).*2 = sharers hosts net.
Proof.
  unfold sharers. rewrite filter_bind, fmap_bind_list, omap_option_list. apply bind_ext_list. intros h.
  unfold host_members. by rewrite once_per_net_filter.
Qed.

Lemma subnet_members_elem hosts g :
  g ∈ subnet_members hosts ↔ g.2 = sharers hosts g.1 ∧ sharers hosts g.1 ≠ [].
Proof.
  destruct g as [net ms]. unfold subnet_members. rewrite list_elem_of_fmap. cbn [fst snd].
  setoid_rewrite <- sharers_filter. split.
  - intros ([k rs] & [= -> ->] & [K ->]%group_by_dim_elem). split; [done|]. intros E%fmap_nil_inv.
    apply list_elem_of_fmap in K as (nm & -> & Hnm). cbn [fst] in E.
    by apply (filter_nil_not_elem_of _ _ nm) in E.
  - intros [-> N]. exists (net, filter (λ nm, nm.1 = net) (hosts ≫= host_members)). split; [done|].
    apply group_by_dim_elem. split; [|done]. apply list_elem_of_fmap.
    destruct (filter (λ nm : (Z * Z) * _Member, nm.1 = net) _) as [|nm l] eqn:E; [done|].
    exists nm. assert (nm ∈ filter (λ nm : (Z * Z) * _Member, nm.1 = net) (hosts ≫= host_members)) as I
      by (rewrite E; by left).
    apply list_elem_of_filter in I as [<- I]. done.
Qed.

(** ** Memberships are what the contract calls joining *)

Lemma omap_bind {A B C} (f : B → option C) (g : A → list B) l : omap f (l ≫= g) = l ≫= λ x, omap f (g x).
Proof. induction l as [|x l IH]; [done|]. cbn. by rewrite omap_app, IH. Qed.

Lemma omap_fmap_list {A B C} (f : B → option C) (g : A → B) (l : list A) : omap f (g <$> l) = omap (f ∘ g) l.
Proof. induction l as [|x l IH]; [done|]. cbn. by rewrite IH. Qed.

(** What an address of an interface offers a server *)
Definition offer (h : ServerDetail) (x : json * json) : option ((Z * Z) * _Member) :=
  if is_virtual_interface (node_str "kind" x.1) then None
  else '(ip, net) ← usable_address x.2;
       Some (net, {| Member.pid := DetailRow.public_id h; Member.ip := ip; Member.gateway := node_str "gateway" x.1;
                     Member.origin := node_str "origin" x.2; Member.mtu := get_number "mtu" x.1;
                     Member.speed_mbps := get_number "speed_mbps" x.1 |}).

Lemma memberships_offers h : memberships h = omap (offer h) (addresses h).
Proof.
  unfold memberships, physical_ifaces, addresses. rewrite omap_bind.
  induction (DetailRow.net_interfaces h) as [|i l IH]; [done|]. rewrite filter_cons. cbn [mbind list_bind].
  rewrite omap_fmap_list. case_decide as K; cbn [mbind list_bind].
  - f_equal; [|exact IH]. unfold iface_members. apply list_omap_ext, Forall_Forall2_diag, Forall_true. intros a.
    unfold offer. cbn [compose fst snd]. by rewrite K.
  - apply not_false_is_true in K. assert (∀ a, offer h (i, a) = None) as O
      by (intros a; unfold offer; cbn [fst]; by rewrite K).
    replace (omap (offer h ∘ pair i) (node_list "addresses" i)) with (@nil ((Z * Z) * _Member));
      [exact IH|]. induction (node_list "addresses" i) as [|a l' IH']; [done|].
    cbn [omap list_omap compose] in *. by rewrite O.
Qed.

Lemma offer_spec h x net m :
  offer h x = Some (net, m) ↔
  counts x (Member.ip m) net ∧ Member.pid m = DetailRow.public_id h ∧ Member.gateway m = node_str "gateway" x.1
  ∧ Member.origin m = node_str "origin" x.2 ∧ Member.mtu m = get_number "mtu" x.1
  ∧ Member.speed_mbps m = get_number "speed_mbps" x.1.
Proof.
  destruct x as [i a], m as [pid ip gw o mtu sp]. rewrite <- usable_counts. unfold offer.
  cbn [fst snd Member.pid Member.ip Member.gateway Member.origin Member.mtu Member.speed_mbps].
  destruct (is_virtual_interface _); [naive_solver|]. destruct (usable_address a) as [[ip' net']|]; cbn; naive_solver.
Qed.

Lemma dict_get_omap {A K V} `{EqDecision K} (f : A → option (K * V)) l k v :
  dict_get k (omap f l) = Some v ↔
  ∃ before x after, l = before ++ x :: after ∧ f x = Some (k, v) ∧ ∀ y w, y ∈ before → f y ≠ Some (k, w).
Proof.
  induction l as [|x l IH]; cbn.
  { split; [done|]. by intros ([|] & x & after & [=] & _). }
  destruct (f x) as [[k' v']|] eqn:E; cbn; [case_decide as Ek; [subst k'|]|].
  - split.
    + intros [= ->]. exists [], x, l. split; [done|]. split; [done|]. by intros y w ?%not_elem_of_nil.
    + intros ([|y before] & z & after & [= -> ->] & Ez & N); [congruence|]. exfalso. by apply (N y v'); [left|].
  - rewrite IH. split.
    + intros (b & z & a & -> & Ez & N). exists (x :: b), z, a. split; [done|]. split; [done|].
      intros y w [->|Hy]%elem_of_cons; [congruence|by apply N].
    + intros ([|y b] & z & a & [= -> ->] & Ez & N); [congruence|]. exists b, z, a. split; [done|]. split; [done|].
      intros y' w Hy. apply N. by right.
  - rewrite IH. split.
    + intros (b & z & a & -> & Ez & N). exists (x :: b), z, a. split; [done|]. split; [done|].
      intros y w [->|Hy]%elem_of_cons; [congruence|by apply N].
    + intros ([|y b] & z & a & [= -> ->] & Ez & N); [congruence|]. exists b, z, a. split; [done|]. split; [done|].
      intros y' w Hy. apply N. by right.
Qed.

Lemma membership_joins h net m : membership h net = Some m ↔ joins h net m.
Proof.
  unfold membership, joins. rewrite memberships_offers, dict_get_omap. split.
  - intros (b & [i a] & l & E & O & N). exists b, i, a, l. split; [done|]. apply offer_spec in O as (C & O).
    split; [done|]. split; [|done]. intros x ip Hx Cx.
    apply (N x {| Member.pid := DetailRow.public_id h; Member.ip := ip; Member.gateway := node_str "gateway" x.1;
                  Member.origin := node_str "origin" x.2; Member.mtu := get_number "mtu" x.1;
                  Member.speed_mbps := get_number "speed_mbps" x.1 |} Hx). by apply offer_spec.
  - intros (b & i & a & l & E & C & N & O). exists b, (i, a), l. split; [done|]. split; [by apply offer_spec|].
    intros y w Hy Oy. apply offer_spec in Oy as (Cy & _). by apply (N _ _ Hy) in Cy.
Qed.

Lemma joins_pid h net m : joins h net m → Member.pid m = DetailRow.public_id h.
Proof. by intros (? & ? & ? & ? & _ & _ & _ & ? & _). Qed.

Lemma joins_range h net m : joins h net m → 0 <= net.1 < 2 ^ 32.
Proof.
  intros (? & ? & ? & ? & _ & (_ & _ & (text & _ & D) & _ & B & _ & _ & E) & _). apply dotted_bounds in D.
  assert (0 < 2 ^ (32 - net.2)) by (apply Z.pow_pos_nonneg; lia). pose proof (Z.mod_pos_bound (Member.ip m) (2 ^ (32 - net.2))).
  pose proof (Z.mod_le (Member.ip m) (2 ^ (32 - net.2))). lia.
Qed.

Lemma sharers_elem hosts net m : m ∈ sharers hosts net ↔ ∃ h, h ∈ hosts ∧ joins h net m.
Proof. unfold sharers. rewrite list_elem_of_omap. by setoid_rewrite membership_joins. Qed.

(** ** Distinct elements *)

Lemma two_elems {A} (l : list A) : NoDup l → (2 <= length l)%nat ↔ ∃ x y, x ∈ l ∧ y ∈ l ∧ x ≠ y.
Proof.
  intros N. destruct l as [|x [|y l]]; cbn; [split; [lia|]..|apply NoDup_cons in N as [Nx _]].
  - by intros (x & _ & ?%not_elem_of_nil & _).
  - intros (a & b & ->%list_elem_of_singleton & ->%list_elem_of_singleton & ?). done.
  - split; [intros _|lia]. exists x, y. split; [by left|]. split; [by right; left|]. intros ->. by apply Nx; left.
Qed.

Lemma nodup_filtered {A B} (f : A → B) (P : A → Prop) `{∀ x, Decision (P x)} l : NoDup (f <$> l) → NoDup (f <$> filter P l).
Proof.
  induction l as [|x l IH]; [done|]. rewrite fmap_cons, NoDup_cons, filter_cons. intros [Nx N].
  case_decide; [|by apply IH]. rewrite fmap_cons, NoDup_cons. split; [|by apply IH].
  intros (y & E & [_ I]%list_elem_of_filter)%list_elem_of_fmap. apply Nx. rewrite E. by apply list_elem_of_fmap_2.
Qed.

Lemma two_filtered {A B} (f : A → B) (P : A → Prop) `{∀ x, Decision (P x)} l :
  NoDup (f <$> l) → (2 <= length (filter P l))%nat ↔ ∃ x y, x ∈ l ∧ y ∈ l ∧ P x ∧ P y ∧ f x ≠ f y.
Proof.
  intros N. rewrite <- (length_fmap f), two_elems by by apply nodup_filtered. split.
  - intros (a & b & (x & -> & [? ?]%list_elem_of_filter)%list_elem_of_fmap & (y & -> & [? ?]%list_elem_of_filter)%list_elem_of_fmap & D).
    by exists x, y.
  - intros (x & y & ? & ? & ? & ? & D). exists (f x), (f y).
    split; [|split; [|done]]; by apply list_elem_of_fmap_2, list_elem_of_filter.
Qed.

(** ** One entry per server *)

Section first.
Implicit Types (d : list (string * _Member)) (l : list _Member).

Lemma first_from d l :
  NoDup d.*1 →
  let d' := foldl (λ d m, match dict_get (Member.pid m) d with Some _ => d | None => dict_set (Member.pid m) m d end) d l in
  NoDup d'.*1 ∧ (∀ pid, pid ∈ d'.*1 ↔ pid ∈ d.*1 ∨ pid ∈ Member.pid <$> l)
  ∧ (∀ pid m, dict_get pid d' = Some m → dict_get pid d = Some m ∨ m ∈ l ∧ Member.pid m = pid).
Proof.
  revert d. induction l as [|x l IH]; intros d N; cbn [foldl].
  { split; [done|]. split; [|by left]. intros pid. cbn. split; [by left|]. intros [|H]; [done|by apply not_elem_of_nil in H]. }
  destruct (dict_get (Member.pid x) d) as [y|] eqn:E.
  - destruct (IH d N) as (N' & K & G). split; [done|]. split.
    + intros pid. rewrite K, fmap_cons, elem_of_cons.
      assert (Member.pid x ∈ d.*1) by (apply dict_get_keys; by eexists). naive_solver.
    + intros pid m H. destruct (G pid m H) as [|[]]; [by left|right]. split; [by right|done].
  - assert (Member.pid x ∉ d.*1) as Nx by (intros H; apply dict_get_keys in H; rewrite E in H; by destruct H).
    destruct (IH (dict_set (Member.pid x) x d)) as (N' & K & G).
    { rewrite dict_set_keys, decide_False by done. apply NoDup_app. split; [done|]. split; [|apply NoDup_singleton].
      intros k Hk ->%list_elem_of_singleton. done. }
    split; [done|]. split.
    + intros pid. rewrite K, dict_set_keys, decide_False, fmap_cons, elem_of_app, list_elem_of_singleton, elem_of_cons by done.
      naive_solver.
    + intros pid m H. destruct (G pid m H) as [H'|[]]; [|right; split; [by right|done]].
      destruct (decide (Member.pid x = pid)) as [<-|Hp].
      * rewrite dict_get_set_eq in H'. injection H' as <-. right. split; [by left|done].
      * rewrite dict_get_set_ne in H' by done. by left.
Qed.

Lemma first_by_pid_spec l :
  NoDup (first_by_pid l).*1 ∧ (∀ pid, pid ∈ (first_by_pid l).*1 ↔ pid ∈ Member.pid <$> l)
  ∧ (∀ pid m, dict_get pid (first_by_pid l) = Some m → m ∈ l ∧ Member.pid m = pid).
Proof.
  destruct (first_from [] l) as (N & K & G); [constructor|]. split; [done|]. split.
  - intros pid. unfold first_by_pid. rewrite K. split; [|by right]. intros [H|]; [by apply not_elem_of_nil in H|done].
  - intros pid m H. by destruct (G pid m H).
Qed.
End first.

Lemma sorted_set_elem l s : s ∈ sorted_set l ↔ s ∈ l.
Proof. unfold sorted_set, sort_str. by rewrite (sort_by_perm _ _), elem_of_dedup_first. Qed.

Lemma sorted_set_nodup l : NoDup (sorted_set l).
Proof. unfold sorted_set, sort_str. rewrite (sort_by_perm _ _). apply NoDup_dedup_first. Qed.

(** ** The groups of a network *)

Section groups.
Context (hosts : list ServerDetail) (net : Z * Z).

Lemma gateways_elem g : g ∈ gateways (sharers hosts net) ↔ gateway_of hosts net g.
Proof.
  unfold gateways, gateway_of, gateway_truthy. rewrite sorted_set_elem, list_elem_of_omap. setoid_rewrite sharers_elem. split.
  - intros (m & (h & Hh & J) & E). destruct (Member.gateway m) as [g'|] eqn:G; [|done].
    destruct (String.eqb_spec g' ""); [done|]. injection E as ->. split; [done|]. by exists h, m.
  - intros (N & h & m & Hh & J & E). exists m. split; [by exists h|]. rewrite E. by destruct (String.eqb_spec g "").
Qed.

Lemma apart_gateways : (2 <= length (gateways (sharers hosts net)))%nat ↔ apart hosts net.
Proof.
  unfold gateways. rewrite two_elems by apply sorted_set_nodup. fold (gateways (sharers hosts net)).
  setoid_rewrite gateways_elem. unfold apart. naive_solver.
Qed.

(** Where the network is apart a group has the members behind its gateway, and all of
    them otherwise. *)
Lemma split_elem n :
  n ∈ split_subnet (net, sharers hosts net) →
  Net.cidr n = net ∧ group_key hosts net (Net.gateway n)
  ∧ NoDup (Net.members n).*1
  ∧ (∀ pid, pid ∈ (Net.members n).*1 ↔ holder hosts (net, Net.gateway n) pid)
  ∧ (∀ pid m, dict_get pid (Net.members n) = Some m →
       ∃ h, holds hosts (net, Net.gateway n) h m ∧ DetailRow.public_id h = pid).
Proof.
  assert (∀ ms gw, (∀ m, m ∈ ms ↔ m ∈ sharers hosts net ∧ (apart hosts net → Member.gateway m = gw)) →
    NoDup (first_by_pid ms).*1
    ∧ (∀ pid, pid ∈ (first_by_pid ms).*1 ↔ holder hosts (net, gw) pid)
    ∧ (∀ pid m, dict_get pid (first_by_pid ms) = Some m → ∃ h, holds hosts (net, gw) h m ∧ DetailRow.public_id h = pid)) as X.
  { intros ms gw Hms. destruct (first_by_pid_spec ms) as (N & K & G). unfold holder, holds. cbn [fst snd].
    setoid_rewrite sharers_elem in Hms. split; [done|]. split.
    - intros pid. rewrite K, list_elem_of_fmap. setoid_rewrite Hms. split.
      + intros (m & -> & (h & Hh & J) & A). exists h, m. by rewrite (joins_pid _ _ _ J).
      + intros (h & m & (Hh & J & A) & <-). exists m. rewrite (joins_pid _ _ _ J). eauto.
    - intros pid m E. destruct (G _ _ E) as [I <-]. apply Hms in I as ((h & Hh & J) & A).
      exists h. by rewrite (joins_pid _ _ _ J). }
  pose proof apart_gateways as A. pose proof gateways_elem as GW. unfold split_subnet. cbn [fst snd].
  destruct (gateways (sharers hosts net)) as [|g [|g' gws]] eqn:E; cbn [length] in A.
  1,2: intros ->%list_elem_of_singleton; cbn [Net.cidr Net.members Net.gateway head];
    (split; [done|]); split; [|apply X; intros m; split; [|by intros []]; intros ?; split; [done|]; intros Z%A; lia];
    (split; [intros Z%A; lia|]); intros _ g0; rewrite <- GW.
  - split; [done|]. by intros ?%not_elem_of_nil.
  - rewrite list_elem_of_singleton. naive_solver.
  - intros (gw & -> & Hgw)%list_elem_of_fmap. cbn [Net.cidr Net.members Net.gateway]. split; [done|].
    assert (apart hosts net) as AP by (apply A; lia). split.
    + split; [|done]. intros _. exists gw. by rewrite <- GW.
    + apply X. intros m. rewrite list_elem_of_filter. tauto.
Qed.

Lemma split_complete gw :
  group_key hosts net gw → ∃ n, n ∈ split_subnet (net, sharers hosts net) ∧ Net.gateway n = gw.
Proof.
  intros [KA KN]. pose proof apart_gateways as A. pose proof gateways_elem as GW. unfold split_subnet. cbn [fst snd].
  destruct (gateways (sharers hosts net)) as [|g [|g' gws]] eqn:E; cbn [length] in A.
  1,2: eexists; (split; [by left|]); cbn [Net.gateway head]; assert (¬ apart hosts net) as NA by (intros Z%A; lia).
  - destruct gw as [g|]; [|done]. destruct (not_elem_of_nil g). by apply GW, KN.
  - symmetry. apply KN, GW; [done|by left].
  - destruct KA as (gw' & -> & Hgw); [apply A; lia|]. apply GW in Hgw.
    eexists. split; [by apply list_elem_of_fmap; eexists|done].
Qed.

Lemma split_nodup : NoDup (Net.gateway <$> split_subnet (net, sharers hosts net)).
Proof.
  unfold split_subnet. cbn [fst snd]. assert (NoDup (gateways (sharers hosts net))) as N by apply sorted_set_nodup.
  destruct (gateways (sharers hosts net)) as [|g [|g' gws]]; [apply NoDup_singleton..|].
  rewrite <- list_fmap_compose. apply (NoDup_fmap_2 Some), N.
Qed.
End groups.

(** ** The servers by id *)

Lemma foldl_by_id l d :
  NoDup d.*1 →
  let d' := foldl (λ d h, dict_set (DetailRow.public_id h) h d) d l in
  NoDup d'.*1 ∧ (∀ pid, pid ∈ d'.*1 ↔ pid ∈ d.*1 ∨ pid ∈ DetailRow.public_id <$> l).
Proof.
  revert d. induction l as [|h l IH]; intros d N; cbn [foldl].
  { split; [done|]. intros pid. cbn. split; [by left|]. intros [|H]; [done|by apply not_elem_of_nil in H]. }
  destruct (IH (dict_set (DetailRow.public_id h) h d)) as (N' & K).
  { rewrite dict_set_keys. case_decide; [by rewrite app_nil_r|]. apply NoDup_app. split; [done|].
    split; [|apply NoDup_singleton]. intros k Hk Ek%list_elem_of_singleton. subst k. contradiction. }
  split; [done|]. intros pid. rewrite K, dict_set_keys, fmap_cons, elem_of_cons.
  rewrite elem_of_app. case_decide as E; [|rewrite list_elem_of_singleton; tauto].
  split; [|intros [|[->|]]; auto]. intros [[|I]|]; auto. by apply not_elem_of_nil in I.
Qed.

Lemma by_public_id_keys hosts :
  NoDup (by_public_id hosts).*1 ∧ ∀ pid, pid ∈ (by_public_id hosts).*1 ↔ pid ∈ DetailRow.public_id <$> hosts.
Proof.
  destruct (foldl_by_id hosts []) as (N & K); [constructor|]. split; [exact N|]. intros pid.
  unfold by_public_id. rewrite K. split; [|by right]. intros [H|]; [by apply not_elem_of_nil in H|done].
Qed.

Lemma omap_total {A B} (f : A → option B) (g : B → A) (l : list A) :
  (∀ x, x ∈ l → ∃ y, f x = Some y ∧ g y = x) → g <$> omap f l = l.
Proof.
  induction l as [|x l IH]; intros H; [done|]. destruct (H x) as (y & E & <-); [by left|]. cbn. rewrite E.
  cbn. f_equal. apply IH. intros z Hz. apply H. by right.
Qed.

(** ** The groups of the topology *)

Definition net_group_key (n : SharedNet) : (Z * Z) * option string := (Net.cidr n, Net.gateway n).

Section topology.
Context (hosts : list ServerDetail).
Notation nets := (ordered_nets hosts).

Lemma nets_elem n :
  n ∈ nets ↔ (2 <= length (Net.members n))%nat
             ∧ ∃ net, n ∈ split_subnet (net, sharers hosts net) ∧ sharers hosts net ≠ [].
Proof.
  unfold ordered_nets, surviving. rewrite (sort_by_perm _ _), list_elem_of_filter, list_elem_of_bind.
  setoid_rewrite subnet_members_elem. split.
  - intros [L ([net ms] & Hn & [E N])]. cbn [fst snd] in E, N. subst ms. eauto.
  - intros (L & net & Hn & N). split; [done|]. exists (net, sharers hosts net). done.
Qed.

Lemma net_spec n :
  n ∈ nets →
  group_key hosts (Net.cidr n) (Net.gateway n) ∧ NoDup (Net.members n).*1 ∧ (2 <= length (Net.members n).*1)%nat
  ∧ (∀ pid, pid ∈ (Net.members n).*1 ↔ holder hosts (net_group_key n) pid)
  ∧ (∀ pid m, dict_get pid (Net.members n) = Some m → ∃ h, holds hosts (net_group_key n) h m ∧ DetailRow.public_id h = pid).
Proof.
  intros (L & net & Hn & _)%nets_elem. unfold net_group_key. rewrite length_fmap.
  destruct (split_elem _ _ _ Hn) as (-> & K & N & H & G). done.
Qed.

Lemma nets_keys net gw :
  (net, gw) ∈ net_group_key <$> nets ↔
  group_key hosts net gw
  ∧ ∃ h h' m m', holds hosts (net, gw) h m ∧ holds hosts (net, gw) h' m' ∧ DetailRow.public_id h ≠ DetailRow.public_id h'.
Proof.
  split.
  - intros (n & [= -> ->] & Hn)%list_elem_of_fmap. destruct (net_spec n Hn) as (K & N & L & H & _). split; [done|].
    apply two_elems in L as (p & q & Hp & Hq & D); [|done].
    apply H in Hp as (h & m & Hm & <-), Hq as (h' & m' & Hm' & <-). by exists h, h', m, m'.
  - intros (K & h & h' & m & m' & Hm & Hm' & D). destruct (split_complete _ _ _ K) as (n & Hn & <-).
    destruct (split_elem _ _ _ Hn) as (Ec & _ & N & H & _). apply list_elem_of_fmap. exists n.
    split; [by unfold net_group_key; rewrite Ec|]. apply nets_elem. split.
    + rewrite <- (length_fmap fst). apply two_elems; [done|]. exists (DetailRow.public_id h), (DetailRow.public_id h').
      split_and!; [by apply H; exists h, m|by apply H; exists h', m'|done].
    + exists net. split; [done|]. destruct Hm as (Hh & J & _). intros Z. apply (not_elem_of_nil m). rewrite <- Z.
      apply sharers_elem. by exists h.
Qed.

Lemma nets_nodup : NoDup (net_group_key <$> nets).
Proof.
  unfold ordered_nets. rewrite (sort_by_perm network_before _). unfold surviving. apply nodup_filtered.
  rewrite fmap_bind_list. assert (NoDup (subnet_members hosts).*1) as N.
  { unfold subnet_members. rewrite <- list_fmap_compose. apply group_by_dim_nodup. }
  assert (∀ g k, g ∈ subnet_members hosts → k ∈ net_group_key <$> split_subnet g → k.1 = g.1) as F.
  { intros [net ms] k [E _]%subnet_members_elem (n & -> & Hn)%list_elem_of_fmap. cbn [fst snd] in *. subst ms.
    by destruct (split_elem _ _ _ Hn). }
  apply NoDup_bind; [| |by apply (NoDup_fmap_1 fst)].
  - intros g g' k Hg Hg' Hk Hk'. pose proof (F _ _ Hg Hk) as E. rewrite (F _ _ Hg' Hk') in E.
    apply subnet_members_elem in Hg as [E1 _], Hg' as [E2 _]. destruct g, g'. cbn [fst snd] in *. congruence.
  - intros [net ms] [E _]%subnet_members_elem. cbn [fst snd] in E. subst ms.
    apply (NoDup_fmap_1 snd). rewrite <- list_fmap_compose. apply split_nodup.
Qed.

Lemma nets_sorted :
  Sorted (λ a b : (Z * Z) * option string, a.1.1 < b.1.1 ∨ a.1.1 = b.1.1 ∧ a.1.2 <= b.1.2) (net_group_key <$> nets).
Proof.
  assert (Sorted (λ a b, network_before a b = true) nets) as S
    by (apply sort_by_sorted; intros a b; unfold network_before; lia).
  induction S as [|n l S IH H]; cbn; constructor; [done|]. destruct H as [|n' l H]; cbn; constructor.
  unfold network_before in H. cbn [fst snd net_group_key]. lia.
Qed.

(** ** The counts *)

Lemma net_pids_perm n : net_pids n ≡ₚ (Net.members n).*1.
Proof. apply sort_by_perm. Qed.

Lemma net_holder n pid : n ∈ nets → pid ∈ (Net.members n).*1 ↔ holder hosts (net_group_key n) pid.
Proof. intros Hn. by destruct (net_spec n Hn) as (_ & _ & _ & H & _). Qed.

Lemma graph_elem pid : pid ∈ graph_hosts nets ↔ ∃ k, k ∈ net_group_key <$> nets ∧ holder hosts k pid.
Proof.
  unfold graph_hosts. rewrite sorted_set_elem, list_elem_of_bind. split.
  - intros (n & H & Hn). rewrite net_pids_perm, net_holder in H by done. exists (net_group_key n).
    split; [by apply list_elem_of_fmap_2|done].
  - intros (k & (n & -> & Hn)%list_elem_of_fmap & H). exists n. by rewrite net_pids_perm, net_holder.
Qed.

Lemma homed_twice pid :
  2 <= host_subnet_count nets pid ↔
  ∃ k k', k ∈ net_group_key <$> nets ∧ k' ∈ net_group_key <$> nets ∧ k ≠ k' ∧ holder hosts k pid ∧ holder hosts k' pid.
Proof.
  unfold host_subnet_count. rewrite <- (Nat2Z.inj_le 2), (two_filtered net_group_key) by apply nets_nodup. split.
  - intros (n & n' & Hn & Hn' & P & P' & D). exists (net_group_key n), (net_group_key n').
    split; [by apply list_elem_of_fmap_2|]. split; [by apply list_elem_of_fmap_2|]. split; [done|].
    split; by apply net_holder.
  - intros (? & ? & (n & -> & Hn)%list_elem_of_fmap & (n' & -> & Hn')%list_elem_of_fmap & D & P & P').
    exists n, n'. split_and!; try done; by apply net_holder.
Qed.

Lemma routers_elem gw :
  gw ∈ shared_gws nets ↔
  ∃ net net', net ≠ net' ∧ (net, Some gw) ∈ net_group_key <$> nets ∧ (net', Some gw) ∈ net_group_key <$> nets.
Proof.
  unfold shared_gws, gw_subnet_count. rewrite list_elem_of_filter, sorted_set_elem, list_elem_of_omap.
  rewrite <- (Nat2Z.inj_le 2), (two_filtered net_group_key) by apply nets_nodup. split.
  - intros ((n & n' & Hn & Hn' & G & G' & D) & _). exists (Net.cidr n), (Net.cidr n').
    unfold net_group_key in D. rewrite G, G' in D. split; [congruence|].
    rewrite <- G at 1. rewrite <- G'. split; by apply (list_elem_of_fmap_2 net_group_key).
  - intros (net & net' & D & (n & [= -> G] & Hn)%list_elem_of_fmap & (n' & [= -> G'] & Hn')%list_elem_of_fmap).
    split; [|by exists n]. exists n, n'. split_and!; try done. unfold net_group_key. congruence.
Qed.

(** ** The lists of servers *)

Lemma net_labelled n : n ∈ nets → labelled hosts (net_group_key n) (Net.label n).
Proof.
  intros Hn. destruct (net_spec n Hn) as (_ & N & L & H & _).
  apply two_elems in L as (p & _ & Hp & _); [|done]. apply H in Hp as (h & m & (_ & J & _) & _).
  exists (ipv4_text (Net.cidr n).1). split; [by apply ipv4_text_dotted, (joins_range _ _ _ J)|].
  apply nets_elem in Hn as (_ & net & Hn & _). pose proof (apart_gateways hosts net) as A. revert Hn.
  unfold split_subnet, net_group_key, network_text. cbn [fst snd].
  destruct (gateways (sharers hosts net)) as [|g [|g' gws]]; cbn [length] in A.
  1,2: intros ->%list_elem_of_singleton; split; [done|]; intros Z%A; cbn in Z; lia.
  intros (gw & -> & _)%list_elem_of_fmap. cbn [Net.cidr Net.gateway Net.label].
  split; [intros []; apply A; lia|]. intros _. by exists gw.
Qed.

Lemma by_public_id_get pid h :
  dict_get pid (by_public_id hosts) = Some h → h ∈ hosts ∧ DetailRow.public_id h = pid.
Proof.
  unfold by_public_id. induction hosts as [|x l IH] using rev_ind; [done|]. rewrite foldl_app. cbn.
  destruct (decide (DetailRow.public_id x = pid)) as [E|D].
  - rewrite E, dict_get_set_eq. intros [= <-]. split; [|done]. by apply elem_of_app; right; left.
  - rewrite dict_get_set_ne by done. intros [I ?]%IH. split; [|done]. by apply elem_of_app; left.
Qed.

Lemma group_listed online n :
  n ∈ nets →
  listed hosts (net_group_key <$> nets) online (net_group_key n) (subnet_group online (by_public_id hosts) nets n).
Proof.
  intros Hn. destruct (net_spec n Hn) as (_ & N & _ & H & G). unfold listed, subnet_group.
  cbn [SubnetGroup.net_key SubnetGroup.gateway SubnetGroup.host_count SubnetGroup.hosts].
  set (f := λ pid, m ← dict_get pid (Net.members n); h ← dict_get pid (by_public_id hosts);
    Some (Member.ip m, subnet_host online nets m h)).
  assert (∀ pid, pid ∈ net_pids n → ∃ m h h', dict_get pid (Net.members n) = Some m
    ∧ f pid = Some (Member.ip m, subnet_host online nets m h') ∧ holds hosts (net_group_key n) h m
    ∧ DetailRow.public_id h = pid ∧ Member.pid m = pid ∧ h' ∈ hosts ∧ DetailRow.public_id h' = pid) as F.
  { intros pid Hp. rewrite net_pids_perm in Hp. apply dict_get_keys in Hp as [m E].
    destruct (G _ _ E) as (h & Hm & Eh). assert (pid ∈ (by_public_id hosts).*1) as [h' E']%dict_get_keys.
    { apply by_public_id_keys, list_elem_of_fmap. exists h. by destruct Hm. }
    destruct (by_public_id_get _ _ E') as [I Eh']. exists m, h, h'. unfold f. rewrite E, E'. cbn.
    destruct Hm as (? & J & ?). split_and!; try done. by rewrite (joins_pid _ _ _ J). }
  assert ((λ x : Z * SubnetHost, SubnetHost.public_id x.2) <$> omap f (net_pids n) = net_pids n) as E.
  { apply omap_total. intros pid Hp. destruct (F pid Hp) as (m & h & h' & _ & -> & _ & _ & Em & _).
    eexists. split; [reflexivity|]. exact Em. }
  set (l := sort_by host_before (omap f (net_pids n))).
  assert (SubnetHost.public_id <$> l.*2 ≡ₚ (Net.members n).*1) as P.
  { rewrite <- list_fmap_compose. unfold l. rewrite (sort_by_perm host_before _), <- net_pids_perm.
    by rewrite (E : SubnetHost.public_id ∘ snd <$> omap f (net_pids n) = _). }
  split; [by apply net_labelled|]. split; [done|].
  split; [unfold l; by rewrite length_fmap, (sort_by_perm host_before _)|].
  split; [by rewrite P|]. split; [intros pid; by rewrite P, H|]. exists l.*1. split.
  - assert (Sorted (λ x y, host_before x y = true) l) as S
      by (apply sort_by_sorted; intros a b; unfold host_before; lia).
    clear -S. induction S as [|x l S IH B]; cbn; constructor; [done|]. destruct B as [|y l B]; cbn; constructor.
    unfold host_before in B. lia.
  - apply Forall2_fmap, Forall_Forall2_diag, Forall_forall. intros x. unfold l.
    rewrite (sort_by_perm host_before _), list_elem_of_omap. intros (pid & Hp & Ef).
    destruct (F pid Hp) as (m & h & h' & _ & Ef' & Hm & Eh & Em & Ih & Eh'). rewrite Ef in Ef'. injection Ef' as ->.
    cbn [fst snd subnet_host SubnetHost.ip SubnetHost.origin SubnetHost.mtu SubnetHost.speed_mbps SubnetHost.public_id
         SubnetHost.hostname SubnetHost.is_online SubnetHost.multi_homed]. rewrite Em.
    split; [|split; [by exists h, m|split; [by exists h'|by rewrite <- homed_twice, Z.leb_le]]].
    destruct Hm as (_ & (? & ? & ? & ? & _ & (_ & _ & (text & _ & D) & _) & _) & _).
    apply ipv4_text_dotted. by apply dotted_bounds in D.
Qed.

Lemma graph_counted :
  counted (λ pid, ∃ k, k ∈ net_group_key <$> nets ∧ holder hosts k pid) (Z.of_nat (length (graph_hosts nets))).
Proof. exists (graph_hosts nets). split; [apply sorted_set_nodup|]. split; [apply graph_elem|done]. Qed.

Lemma isolated_counted :
  counted (λ pid, pid ∈ DetailRow.public_id <$> hosts ∧ ¬ ∃ k, k ∈ net_group_key <$> nets ∧ holder hosts k pid)
    (Z.of_nat (length (by_public_id hosts)) - Z.of_nat (length (graph_hosts nets))).
Proof.
  destruct (by_public_id_keys hosts) as (N & K). set (ids := (by_public_id hosts).*1) in *.
  exists (filter (λ pid, ¬ pid ∈ graph_hosts nets) ids). split; [by apply NoDup_filter|]. split.
  - intros pid. rewrite list_elem_of_filter, K, graph_elem. tauto.
  - pose proof (Permutation_length (filter_app_complement (λ pid, pid ∈ graph_hosts nets) ids)) as L.
    rewrite length_app in L. rewrite (Permutation_length (l := filter _ ids) (l' := graph_hosts nets)) in L.
    + unfold ids in L at 2. rewrite length_fmap in L. lia.
    + apply NoDup_Permutation; [by apply NoDup_filter|apply sorted_set_nodup|]. intros pid.
      rewrite list_elem_of_filter, K. split; [by intros []|]. intros Hp. split; [done|].
      apply graph_elem in Hp as (k & _ & h & m & (Hh & _) & <-). by apply list_elem_of_fmap_2.
Qed.

Lemma multi_homed_counted :
  counted (λ pid, ∃ k k', k ∈ net_group_key <$> nets ∧ k' ∈ net_group_key <$> nets ∧ k ≠ k'
                          ∧ holder hosts k pid ∧ holder hosts k' pid)
    (Z.of_nat (length (filter (λ pid, 2 <= host_subnet_count nets pid) (graph_hosts nets)))).
Proof.
  eexists (filter (λ pid, 2 <= host_subnet_count nets pid) _). split; [apply NoDup_filter, sorted_set_nodup|].
  split; [|done]. intros pid. rewrite list_elem_of_filter, homed_twice, graph_elem.
  split; [by intros []|]. intros Hk. split; [done|]. destruct Hk as (k & ? & ? & _ & _ & ? & _). by exists k.
Qed.

Lemma routers_counted :
  counted (λ gw, ∃ net net', net ≠ net' ∧ (net, Some gw) ∈ net_group_key <$> nets ∧ (net', Some gw) ∈ net_group_key <$> nets)
    (Z.of_nat (length (shared_gws nets))).
Proof.
  exists (shared_gws nets). split; [apply NoDup_filter, sorted_set_nodup|]. split; [apply routers_elem|done].
Qed.
End topology.

(** C18. The topology is exactly the sharing of subnets, told on the inventory alone: dotted
    address texts, their prefix, the kind and the gateway of their interface. A server joins a
    network by the first of its addresses that counts for it. A network is one group, or one
    for each gateway where its servers name different ones; the groups listed are those that
    two servers or more share, each once, in the order of their addresses. Every group shows
    its label, its gateway and exactly its servers, once each, ordered by the addresses they
    join with; each shown address, origin, MTU and speed is of that first address, and a server
    is marked multi-homed if and only if two groups hold it. The counts of subnets, servers,
    multi-homed servers, shared gateways and isolated servers are exact. *)
Theorem topology_exact (hosts : list ServerDetail) (online_by_id : gmap Z bool) :
  let t := build_network_topology hosts online_by_id in
  ∃ keys : list ((Z * Z) * option string),
    Sorted (λ a b, a.1.1 < b.1.1 ∨ a.1.1 = b.1.1 ∧ a.1.2 <= b.1.2) keys
    ∧ NoDup keys
    ∧ (∀ net gw, (net, gw) ∈ keys ↔
         group_key hosts net gw
         ∧ ∃ h h' m m', holds hosts (net, gw) h m ∧ holds hosts (net, gw) h' m'
                        ∧ DetailRow.public_id h ≠ DetailRow.public_id h')
    ∧ Forall2 (listed hosts keys online_by_id) keys (Topo.subnets t)
    ∧ Topo.subnet_count t = Z.of_nat (length keys)
    ∧ counted (λ pid, ∃ k, k ∈ keys ∧ holder hosts k pid) (Topo.host_count t)
    ∧ counted (λ pid, pid ∈ DetailRow.public_id <$> hosts ∧ ¬ ∃ k, k ∈ keys ∧ holder hosts k pid) (Topo.isolated_count t)
    ∧ counted (λ pid, ∃ k k', k ∈ keys ∧ k' ∈ keys ∧ k ≠ k' ∧ holder hosts k pid ∧ holder hosts k' pid)
        (Topo.multi_homed_count t)
    ∧ counted (λ gw, ∃ net net', net ≠ net' ∧ (net, Some gw) ∈ keys ∧ (net', Some gw) ∈ keys) (Topo.router_count t).
Proof.
  intros t. exists (net_group_key <$> ordered_nets hosts). unfold t, build_network_topology.
  cbn [Topo.subnets Topo.subnet_count Topo.host_count Topo.isolated_count Topo.multi_homed_count Topo.router_count].
  split; [apply nets_sorted|]. split; [apply nets_nodup|]. split; [apply nets_keys|]. split.
  { apply Forall2_fmap, Forall_Forall2_diag, Forall_forall, group_listed. }
  split; [by rewrite length_fmap|]. split; [apply graph_counted|]. split; [apply isolated_counted|].
  split; [apply multi_homed_counted|apply routers_counted].
Qed.

(** Two servers of one subnet, and one alone in its own *)
Definition server_at (id : Z) (pid address : string) : ServerDetail := {|
  DetailRow.id := id; DetailRow.public_id := pid; DetailRow.agent_id := pid; DetailRow.composite_id := None;
  DetailRow.machine_id := None; DetailRow.hostname := pid; DetailRow.agent_version := None;
  DetailRow.os_family := None; DetailRow.os_id := None; DetailRow.os_version := None; DetailRow.os_codename := None;
  DetailRow.kernel_version := None; DetailRow.cpu_cores := None; DetailRow.cpu_model := None;
  DetailRow.cpu_arch := None; DetailRow.cpu_bits := None; DetailRow.mem_total_bytes := None;
  DetailRow.boot_time := None; DetailRow.agent_started_at := None;
  DetailRow.net_interfaces := [JObj [("kind", JStr "physical"); ("gateway", JStr "10.0.1.1");
    ("addresses", JArr [JObj [("family", JStr "ipv4"); ("address", JStr address); ("prefix", JInt 24)]])]]%string;
  DetailRow.ip_external := None; DetailRow.block_devices := []; DetailRow.lvm_vgs := []; DetailRow.services := None;
  DetailRow.listen_ports := []; DetailRow.last_seen_at := None; DetailRow.service_categories := None;
  DetailRow.product_name := None; DetailRow.edition := None |}.

Example topology_of_three :
  let t := build_network_topology [server_at 1 "a" "10.0.1.20"; server_at 2 "b" "10.0.1.3"; server_at 3 "c" "10.0.2.9"] ∅ in
  (Topo.host_count t, Topo.isolated_count t,
   (λ g, (SubnetGroup.net_key g, SubnetHost.ip <$> SubnetGroup.hosts g)) <$> Topo.subnets t)
  = (2, 1, [("10.0.1.0/24", ["10.0.1.3"; "10.0.1.20"])])%string.
Proof. vm_compute. reflexivity. Qed.
