(* ===== verification/FleetProps.v ===== *)
(** * The environment's overview accounts for every server, and its filters miss none *)

From stdpp Require Import sorting.
From S2P Require Import Prelude PyFloat FloatFacts Redis Sql Inbound CollectDb Wire PyText DbRetry Handlers PyList Devices Services MetricViews Dashboard Signals JsonCodec DashCache EolCatalog OsEol OsEolProps StorageTree Reports RightSizing Assess Rollup AssessFacts RollupFacts RightSizingProps WireProps Outbound ServerViews HostRows HostRowProps ActionTable ActionProps Fleet FleetQuery.

(** ** Counting *)

Lemma sum_Z_cons x l : sum_Z (x :: l) = x + sum_Z l.
Proof. done. Qed.

Lemma sum_Z_app l l' : sum_Z (l ++ l') = sum_Z l + sum_Z l'.
Proof. induction l as [|x l IH]; [done|]. cbn [app]. rewrite !sum_Z_cons. lia. Qed.

Lemma sum_Z_perm l l' : l ≡ₚ l' → sum_Z l = sum_Z l'.
Proof. induction 1; unfold sum_Z in *; cbn [foldr]; lia. Qed.

Section counts.
Context {A : Type}.
Implicit Types l : list A.

Lemma count_if_cons (p : A → bool) x l : count_if p (x :: l) = (if p x then 1 else 0) + count_if p l.
Proof. unfold count_if. rewrite filter_cons. destruct (p x), (decide _); try done; cbn [length]; lia. Qed.

Lemma count_if_bounds (p : A → bool) l : 0 <= count_if p l <= Z.of_nat (length l).
Proof. unfold count_if. pose proof (length_filter (λ x, p x = true) l). lia. Qed.

Lemma count_if_ext (p q : A → bool) l : (∀ x, x ∈ l → p x = q x) → count_if p l = count_if q l.
Proof.
  induction l as [|x l IH]; intros H; [done|]. rewrite !count_if_cons, (H x) by by left.
  f_equal. apply IH. intros y Hy. apply H. by right.
Qed.

End counts.

Lemma count_if_map {A B} (f : B → A) (p : A → bool) l : count_if p (f <$> l) = count_if (λ x, p (f x)) l.
Proof. induction l as [|x l IH]; [done|]. by rewrite fmap_cons, !count_if_cons, IH. Qed.

Section counter.
Context {K : Type} `{EqDecision K}.

Lemma sum_dict_set (k : K) v d :
  sum_Z (dict_set k v d).*2 = sum_Z d.*2 - default 0 (dict_get k d) + v.
Proof.
  induction d as [|[k' v'] d IH]; [cbn; lia|]. cbn [dict_set dict_get].
  destruct (decide (k' = k)); rewrite !fmap_cons, !sum_Z_cons; cbn [snd from_option]; [done || unfold id; lia|rewrite IH; lia].
Qed.

Lemma count_from_spec (keys : list K) d :
  let d' := foldl (λ d k, dict_set k (default 0 (dict_get k d) + 1) d) d keys in
  sum_Z d'.*2 = sum_Z d.*2 + Z.of_nat (length keys)
  ∧ ∀ k, default 0 (dict_get k d') = default 0 (dict_get k d) + count_if (λ x, bool_decide (x = k)) keys.
Proof.
  revert d. induction keys as [|x keys IH]; intros d; cbn [foldl length].
  { split; [lia|]. intros k. change (count_if _ []) with 0. lia. }
  destruct (IH (dict_set x (default 0 (dict_get x d) + 1) d)) as [IH1 IH2].
  cbn zeta in *. split; [rewrite IH1, sum_dict_set; lia|]. intros k. rewrite IH2, count_if_cons.
  destruct (decide (x = k)) as [->|Hk].
  - rewrite dict_get_set_eq, bool_decide_eq_true_2 by done. cbn [from_option]. unfold id. lia.
  - rewrite dict_get_set_ne, bool_decide_eq_false_2 by done. lia.
Qed.

Lemma count_keys_sum (keys : list K) : sum_Z (count_keys keys).*2 = Z.of_nat (length keys).
Proof. apply (count_from_spec keys []). Qed.

Lemma count_keys_get (keys : list K) k :
  default 0 (dict_get k (count_keys keys)) = count_if (λ x, bool_decide (x = k)) keys.
Proof. exact (proj2 (count_from_spec keys []) k). Qed.
End counter.

Lemma segment_counts total cum parts :
  (λ s, (Segment.key s, Segment.count s)) <$> donut_segments total cum parts = (λ p, (p.1.1.1.1, p.2)) <$> parts.
Proof.
  revert cum. induction parts as [|[[[[k l] c] d] n] parts IH]; intros cum; [done|].
  cbn [donut_segments]. rewrite !fmap_cons. by rewrite IH.
Qed.

(** ** The classes of the rows *)

Lemma sane_overview raw : sane_stats (build_resource_stats raw None) → sane_stats (overview_stats raw).
Proof. intros S. split; apply S. Qed.

(** The class a row is counted under *)
Definition row_class (raw : ReportRowRaw) : option Recommendation :=
  match classify_host (overview_stats raw) with Ok r => Some r | Raise _ => None end.

Definition class_count (r : Recommendation) (raws : list ReportRowRaw) : Z :=
  count_if (λ raw, bool_decide (row_class raw = Some r)) raws.

(** The disk operations of a row decide nothing on whether the host is short of a resource. *)
Lemma under_whatever_baseline raw baseline baseline' h h' :
  rollup_host (build_resource_stats raw baseline) = Ok h → rollup_host (build_resource_stats raw baseline') = Ok h' →
  host_status h = HostUnder ↔ host_status h' = HostUnder.
Proof.
  intros H H'. destruct (rollup_inv _ _ H) as (c & m & d & i & R), (rollup_inv _ _ H') as (c' & m' & d' & i' & R').
  assert (Ok c' = Ok c) as [= ->] by (rewrite <- (ro_cpu_ok _ _ _ _ _ _ R), <- (ro_cpu_ok _ _ _ _ _ _ R'); reflexivity).
  assert (Ok m' = Ok m) as [= ->]
    by (rewrite <- (ro_memory_ok _ _ _ _ _ _ R), <- (ro_memory_ok _ _ _ _ _ _ R'); reflexivity).
  assert (Ok d' = Ok d) as [= ->]
    by (rewrite <- (ro_disk_capacity_ok _ _ _ _ _ _ R), <- (ro_disk_capacity_ok _ _ _ _ _ _ R'); reflexivity).
  by rewrite (host_under_pressed _ _ _ _ _ _ R), (host_under_pressed _ _ _ _ _ _ R').
Qed.

Lemma under_rec s : host_status_to_recommendation s = under_provisioned ↔ s = HostUnder.
Proof. by destruct s. Qed.

(** What the loop makes of a row: its class, and, when it is under-provisioned, the line
    the action table has for it. *)
Definition judged (raw : ReportRowRaw) (rc : Recommendation * option CapacityWarningItem) : Prop :=
  row_class raw = Some rc.1
  ∧ ∃ it, to_capacity_warning_item raw = Ok it ∧ scored it
    ∧ (rc.1 = under_provisioned ↔ Capacity.classification it = under_provisioned)
    ∧ rc.2 = (if bool_decide (rc.1 = under_provisioned) then Some it else None).

Lemma judge_total raw : sane_row raw → ∃ rc, judge raw = Ok rc ∧ judged raw rc.
Proof.
  intros S. destruct (capacity_item raw S) as (it & Hi & (_ & _ & h' & H' & Hc & _) & Sc).
  destruct (rollup_total _ (sane_overview _ (sane_row_stats _ S))) as [h H].
  pose proof (under_whatever_baseline raw _ _ _ _ H H') as U.
  assert (classify_host (overview_stats raw) = Ok (_HOST_STATUS_TO_REC (host_status h))) as E
    by (unfold classify_host; by rewrite H).
  unfold judge, judged, row_class. rewrite E, Hi. cbn [mbind result_bind fmap result_fmap].
  set (rec := _HOST_STATUS_TO_REC _). exists (rec, if bool_decide (rec = under_provisioned) then Some it else None).
  split; [by destruct (bool_decide _)|]. split; [done|]. exists it.
  split; [done|]. split; [done|]. cbn [fst snd]. split; [|done].
  rewrite Hc. change rec with (host_status_to_recommendation (host_status h)).
  by rewrite !under_rec.
Qed.

Lemma judge_all raws : Forall sane_row raws → ∃ l, map_result judge raws = Ok l ∧ Forall2 judged raws l.
Proof.
  induction 1 as [|raw raws S _ (l & E & IH)]; [by exists []|].
  destruct (judge_total raw S) as (rc & Ej & J). exists (rc :: l). cbn [map_result]. rewrite Ej, E. cbn.
  split; [done|]. by constructor.
Qed.

Lemma class_count_judged r raws l :
  Forall2 judged raws l → class_count r raws = count_if (λ x, bool_decide (x = r)) l.*1.
Proof.
  unfold class_count. induction 1 as [|raw rc raws l [J _] _ IH]; [done|].
  rewrite fmap_cons, !count_if_cons, IH, J. f_equal.
  destruct (decide (rc.1 = r)) as [->|]; [by rewrite !bool_decide_eq_true_2|].
  rewrite !bool_decide_eq_false_2 by congruence. done.
Qed.

(** ** The under-provisioned hosts *)

Lemma under_items raws l it :
  Forall2 judged raws l →
  it ∈ omap snd l ↔ ∃ raw, raw ∈ raws ∧ row_class raw = Some under_provisioned ∧ to_capacity_warning_item raw = Ok it.
Proof.
  intros J. rewrite list_elem_of_omap. split.
  - intros (rc & [i Hi]%list_elem_of_lookup & E).
    destruct (Forall2_lookup_r _ _ _ _ _ J Hi) as (raw & Hraw & C & it' & Hit & _ & _ & E').
    rewrite E in E'. exists raw. split; [by eapply list_elem_of_lookup_2|]. revert E'.
    case_bool_decide as U; [|done]. intros [= ->]. by rewrite C, U.
  - intros (raw & [i Hi]%list_elem_of_lookup & C & Hit).
    destruct (Forall2_lookup_l _ _ _ _ _ J Hi) as (rc & Hrc & C' & it' & Hit' & _ & _ & E').
    exists rc. split; [by eapply list_elem_of_lookup_2|]. rewrite E'.
    assert (rc.1 = under_provisioned) as -> by congruence. rewrite bool_decide_eq_true_2 by done. congruence.
Qed.

Lemma under_items_count raws l :
  Forall2 judged raws l →
  Z.of_nat (length (omap snd l)) = class_count under_provisioned raws
  ∧ ∀ items, map_result to_capacity_warning_item raws = Ok items → count_if is_under items = class_count under_provisioned raws.
Proof.
  intros J. rewrite (class_count_judged _ _ _ J). induction J as [|raw rc raws l (_ & it & Hit & _ & U & E) _ [IH1 IH2]].
  { split; [done|]. by intros ? [= <-]. }
  rewrite fmap_cons, count_if_cons. split.
  - cbn [omap list_omap]. rewrite E. destruct (bool_decide (rc.1 = under_provisioned)); cbn [length]; lia.
  - cbn [map_result]. rewrite Hit. cbn [mbind result_bind]. intros items H. apply result_bind_ok in H as (ys & Hys & H).
    injection H as <-. rewrite count_if_cons, (IH2 _ Hys). f_equal. unfold is_under.
    rewrite (bool_decide_ext _ _ (iff_sym U)). done.
Qed.

Lemma under_scored raws l : Forall2 judged raws l → Forall (λ it, is_nan (Capacity.severity_score it) = false) (omap snd l).
Proof.
  induction 1 as [|raw rc raws l (_ & it & _ & [N _] & _ & E) _ IH]; [constructor|].
  cbn [omap list_omap]. rewrite E. by destruct (bool_decide _); [constructor|].
Qed.

(** The order of the under-provisioned: the most severe first *)
Definition more_severe (x y : CapacityWarningItem) : Prop :=
  fle (Capacity.severity_score y) (Capacity.severity_score x) = true.

Lemma under_sorted l :
  Forall (λ it, is_nan (Capacity.severity_score it) = false) l → StronglySorted more_severe (sort_key under_key l).
Proof.
  intros N. apply Sorted_StronglySorted; [intros x y z H H'; by eapply fle_trans|].
  apply (sorted_strengthen (λ it, is_nan (Capacity.severity_score it) = false)
    (λ x y, key_lt (under_key y) (under_key x) = false)); [| |apply sort_key_sorted].
  - intros x y Nx Ny. unfold key_lt, under_key, more_severe. cbn [fst snd]. rewrite orb_false_iff.
    intros [_ H]. rewrite Z.eqb_refl in H. cbn [andb] in H. apply orb_false_iff in H as [H _].
    rewrite flt_neg, flt_negb_fle, negb_false_iff in H by done. done.
  - unfold sort_key. by rewrite (sort_by_perm _ l).
Qed.

(** ** OS stages, operating systems, classes *)

Definition eol_total (c : eol_counts) : Z := passed_n c + security_only_n c + unknown_n c + supported_n c.

(** The servers whose inventory was collected *)
Definition has_os (d : ServerDetail) : bool := str_truthy (DetailRow.os_id d).

Lemma count_eol_step today acc d :
  ∃ acc', count_eol today acc d = Ok acc' ∧ eol_total acc' = eol_total acc + (if has_os d then 1 else 0).
Proof.
  unfold count_eol, has_os. destruct (str_truthy (DetailRow.os_id d)); cbn [negb]; [|exists acc; split; [done|lia]].
  assert (∃ info, lookup_os_eol (DetailRow.os_id d) (DetailRow.os_version d) (DetailRow.kernel_version d) today = Ok info)
    as [info ->].
  { destruct (lookup_ages (DetailRow.os_id d) (DetailRow.os_version d) (DetailRow.kernel_version d))
      as [L|(? & ? & ? & _ & _ & L)]; rewrite L; eauto. }
  cbn [mbind result_bind]. destruct acc as [p s u k]. eexists. split; [reflexivity|].
  unfold eol_total. destruct info as [i|]; [|cbn; lia]. destruct (mem _ _); [cbn; lia|]. destruct (String.eqb _ _); cbn; lia.
Qed.

Lemma os_eol_summary_total details today :
  ∃ c, _os_eol_summary details today = Ok c ∧ eol_total c = count_if has_os details.
Proof.
  unfold _os_eol_summary. set (acc := {| passed_n := 0 |}). change (count_if has_os details) with (eol_total acc + count_if has_os details).
  clearbody acc. revert acc. induction details as [|d details IH]; intros acc; cbn [fold_result].
  { exists acc. split; [done|]. change (count_if has_os []) with 0. lia. }
  destruct (count_eol_step today acc d) as (acc' & -> & E). cbn [mbind result_bind].
  destruct (IH acc') as (c & -> & Ec). exists c. split; [done|]. rewrite Ec, E, count_if_cons. lia.
Qed.

Lemma os_distribution_sum (keys : list string) :
  sum_Z (by_count_desc (count_keys keys)).*2 = Z.of_nat (length keys).
Proof.
  rewrite <- count_keys_sum. apply sum_Z_perm. unfold by_count_desc.
  apply Permutation_map. apply sort_by_perm.
Qed.

Definition classes : list Recommendation := [under_provisioned; over_provisioned; idle; optimal; insufficient_data].

Lemma classes_partition (l : list Recommendation) :
  sum_Z ((λ r, count_if (λ x, bool_decide (x = r)) l) <$> classes) = Z.of_nat (length l).
Proof.
  induction l as [|x l IH]; [done|]. revert IH. unfold classes. rewrite !fmap_cons, !fmap_nil, !sum_Z_cons, !count_if_cons.
  cbn [length]. intros IH. destruct x; repeat case_bool_decide; try done; lia.
Qed.

Lemma risk_segments (recs : list Recommendation) :
  let '(segments, total, under) := build_risk_donut_segments (count_keys recs) in
  total = Z.of_nat (length recs) ∧ under = count_if (λ x, bool_decide (x = under_provisioned)) recs
  ∧ (λ s, (Segment.key s, Segment.count s)) <$> segments
    = (λ r, (rec_name r, count_if (λ x, bool_decide (x = r)) recs)) <$> classes.
Proof.
  unfold build_risk_donut_segments. rewrite count_keys_sum, count_keys_get. split; [done|]. split; [done|].
  rewrite segment_counts. unfold classes, _DONUT_SEGMENT_DEFS. rewrite !fmap_cons. cbn [fst snd].
  by rewrite !count_keys_get.
Qed.

(** ** The overview *)

Lemma saturation_bound start (l : list Z) x : x ∈ l → x <= foldl Z.max start l.
Proof.
  revert start. induction l as [|y l IH]; intros start; [intros H; by apply not_elem_of_nil in H|].
  cbn [foldl]. intros [->|H]%elem_of_cons; [|by apply IH].
  assert (∀ s, s <= foldl Z.max s l) as M; [|pose proof (M (Z.max start y)); lia].
  clear. induction l as [|z l IH]; intros s; [done|]. cbn [foldl]. pose proof (IH (Z.max s z)). lia.
Qed.

(** C13. The overview of the environment accounts for every server.  From rows whose
    measurements are in range it is always built.  Each row is counted in exactly one of
    the five classes of the donut, so the classes add up to the rows; the number of
    under-provisioned hosts is the same in the donut, in the list beside it and in the
    action table, whose lines the list shows, the most severe first (the first three,
    unless all are asked for); no saturated count exceeds its sample; online and offline
    servers add up to the servers, and so do the operating systems; and the four support
    stages to the servers with an inventory. *)
Theorem overview_accounts (today : Z) (details : list ServerDetail) (util : EnvironmentUtilizationRaw)
    (raws : list ReportRowRaw) (online_by_id : gmap Z bool) (full : bool) (errors : option FleetErrorRaw)
    (S : Forall sane_row raws)
    (D : 0 <= sum_Z ((λ d, disk_total_bytes (DetailRow.block_devices d)) <$> details) < 2 ^ 128) :
  ∃ ov all, assemble_overview today details util raws online_by_id full errors = Ok ov
    ∧ (λ s, (Segment.key s, Segment.count s)) <$> Overview.risk_donut ov
      = (λ r, (rec_name r, class_count r raws)) <$> classes
    ∧ sum_Z ((λ r, class_count r raws) <$> classes) = Z.of_nat (length raws)
    ∧ Overview.risk_donut_total ov = Z.of_nat (length raws)
    ∧ Overview.risk_high_count ov = class_count under_provisioned raws
    ∧ Overview.under_provisioned_hosts_count ov = class_count under_provisioned raws
    ∧ (∀ t, build_action_targets raws = Ok t → Targets.under_count t = class_count under_provisioned raws)
    ∧ (∀ it, it ∈ all ↔ ∃ raw, raw ∈ raws ∧ row_class raw = Some under_provisioned ∧ to_capacity_warning_item raw = Ok it)
    ∧ StronglySorted more_severe all
    ∧ Overview.under_provisioned_hosts ov = (if full then all else take 3 all)
    ∧ Forall (λ d, 0 <= Donut.count d <= Donut.total d) (Overview.saturation_donuts ov)
    ∧ Overview.online ov + Overview.offline ov = Z.of_nat (length details)
    ∧ 0 <= Overview.online ov <= Z.of_nat (length details)
    ∧ sum_Z (Overview.os_distribution ov).*2 = Z.of_nat (length details)
    ∧ Overview.os_eol_passed ov + Overview.os_eol_security_only ov + Overview.os_eol_unknown ov
      + Overview.os_eol_supported ov = count_if has_os details.
Proof.
  destruct (judge_all raws S) as (l & Hl & J). destruct (os_eol_summary_total details today) as (c & Hc & Ec).
  destruct (whole_gb_total _ D) as [gb G]. pose proof (under_items_count raws l J) as [U1 U2].
  pose proof (risk_segments l.*1) as K. pose proof (Forall2_length _ _ _ J) as L.
  assert (∀ r, count_if (λ x, bool_decide (x = r)) l.*1 = class_count r raws) as Ecl
    by (intros r; by rewrite (class_count_judged r _ _ J)).
  unfold assemble_overview. rewrite Hl. cbn [mbind result_bind]. unfold build_environment_overview.
  destruct (build_risk_donut_segments (count_keys l.*1)) as [[segments total] under].
  destruct K as (-> & -> & K). destruct (_workload_donut_segments _) as [wsegs wtotal].
  rewrite Hc, G. cbn [mbind result_bind]. eexists _, (sort_key under_key (omap snd l)).
  split; [reflexivity|]. cbn [Overview.risk_donut Overview.risk_donut_total Overview.risk_high_count
    Overview.under_provisioned_hosts_count Overview.under_provisioned_hosts Overview.saturation_donuts Overview.online
    Overview.offline Overview.os_distribution Overview.os_eol_passed Overview.os_eol_security_only
    Overview.os_eol_unknown Overview.os_eol_supported from_option].
  assert (Permutation (sort_key under_key (omap snd l)) (omap snd l)) as P by apply sort_by_perm.
  split; [rewrite K; unfold classes; rewrite !fmap_cons; by rewrite !Ecl|].
  split; [pose proof (classes_partition l.*1) as C; rewrite length_fmap, <- L in C; rewrite <- C; unfold classes;
    rewrite !fmap_cons; by rewrite !Ecl|].
  split; [by rewrite length_fmap, L|]. split; [done|]. split; [by rewrite P|].
  split; [intros t Ht; unfold build_action_targets in Ht; apply result_bind_ok in Ht as (items & Hi & Ht);
    apply result_bind_ok in Ht as (gb' & _ & Ht); injection Ht as <-; exact (U2 _ Hi)|].
  split; [intros it; rewrite P; by apply under_items|]. split; [by apply under_sorted, (under_scored raws)|].
  split; [by destruct full|]. split.
  { repeat constructor; cbn [Donut.count Donut.total _build_saturation_donut sat_cpu sat_mem sat_disk_io sat_net sat_sample];
      solve [apply count_if_bounds | apply saturation_bound; in_list]. }
  split; [lia|]. split; [apply count_if_bounds|]. split; [by rewrite os_distribution_sum, length_fmap|]. exact Ec.
Qed.

(** A server, by its names and its one address *)
Definition named_server (id : Z) (hostname address : string) : ServerDetail := {|
  DetailRow.id := id; DetailRow.public_id := String.append "srv-" (pretty id); DetailRow.agent_id := "agent";
  DetailRow.composite_id := None; DetailRow.machine_id := None; DetailRow.hostname := hostname;
  DetailRow.agent_version := None; DetailRow.os_family := Some "linux"%string; DetailRow.os_id := Some "ubuntu"%string;
  DetailRow.os_version := Some "22.04"%string; DetailRow.os_codename := None; DetailRow.kernel_version := None;
  DetailRow.cpu_cores := Some 4; DetailRow.cpu_model := None; DetailRow.cpu_arch := None; DetailRow.cpu_bits := None;
  DetailRow.mem_total_bytes := Some (8 * 1024 ^ 3); DetailRow.boot_time := None; DetailRow.agent_started_at := None;
  DetailRow.net_interfaces := [JObj [("addresses", JArr [JObj [("address", JStr address)]])]]%string;
  DetailRow.ip_external := None; DetailRow.block_devices := []; DetailRow.lvm_vgs := []; DetailRow.services := None;
  DetailRow.listen_ports := []; DetailRow.last_seen_at := None; DetailRow.service_categories := None;
  DetailRow.product_name := None; DetailRow.edition := None |}.

Definition no_util : EnvironmentUtilizationRaw := {|
  Util.cpu_avg_pct := None; Util.mem_avg_pct := None; Util.disk_avg_pct := None; Util.sample_size := 0;
  Util.cpu_p95_pct := None; Util.mem_p95_pct := None |}.

Lemma overview_accounts_witness :
  let raws := [io_row; busy_disk_row] in let details := [named_server 1 "db-1" "10.0.0.1"] in
  ∃ ov all, assemble_overview 20000 details no_util raws ∅ false None = Ok ov
    ∧ Overview.risk_donut_total ov = 2 ∧ class_count over_provisioned raws = 2
    ∧ StronglySorted more_severe all ∧ Overview.under_provisioned_hosts ov = take 3 all.
Proof.
  intros raws details.
  destruct (overview_accounts 20000 details no_util raws ∅ false None)
    as (ov & all & H & _ & _ & T & _ & _ & _ & _ & O & U & _).
  - apply Forall_forall. apply sane_at_ease.
  - by vm_compute.
  - exists ov, all. split; [exact H|]. split; [exact T|]. split; [by vm_compute|]. exact (conj O U).
Defined.

(** ** Filters *)

Lemma in_tokens t l : t ∈ tokens l ↔ t ≠ ""%string ∧ ∃ x, x ∈ default [] l ∧ t = strip_chars is_space x.
Proof.
  unfold tokens. rewrite elem_of_list_to_set, list_elem_of_filter, list_elem_of_fmap. naive_solver.
Qed.

Lemma addr_in_true ips addr : addr_in ips addr = true ↔ ∃ a, addr = Some a ∧ a ∈ ips.
Proof. destruct addr as [a|]; cbn; [rewrite bool_decide_eq_true|]; naive_solver. Qed.

Lemma existsb_elem {A} (f : A → bool) l : existsb f l = true ↔ ∃ x, x ∈ l ∧ f x = true.
Proof. rewrite existsb_exists. by setoid_rewrite list_elem_of_In. Qed.

Lemma existsb_none {A} (f : A → bool) l : existsb f l = false ↔ ∀ x, x ∈ l → f x = false.
Proof.
  rewrite <- not_true_iff_false, existsb_elem. split.
  - intros H x Hx. destruct (f x) eqn:E; [|done]. destruct H. eauto.
  - intros H (x & Hx & E). by rewrite H in E.
Qed.

(** One of the interfaces of the server has the address. *)
Definition has_address (s : ServerDetail) (a : string) : Prop :=
  ∃ i l x, i ∈ DetailRow.net_interfaces s ∧ node_get "addresses" i = Some (JArr l) ∧ x ∈ l
    ∧ node_get "address" x = Some (JStr a).

(** The pair names the server: by its host name and one of its public id and addresses. *)
Definition names (p : string * string) (s : ServerDetail) : Prop :=
  DetailRow.hostname s = p.1 ∧ (DetailRow.public_id s = p.2 ∨ has_address s p.2).

(** A token of a filter, less its blanks *)
Definition token_of (l : option (list string)) (t : string) : Prop :=
  t ≠ ""%string ∧ ∃ x, x ∈ default [] l ∧ strip_chars is_space x = t.

(** A server a filter asks for *)
Definition asked_for (hostnames ips public_ids : option (list string))
    (pairs : option (list (string * string))) (s : ServerDetail) : Prop :=
  token_of hostnames (DetailRow.hostname s)
  ∨ token_of public_ids (DetailRow.public_id s)
  ∨ (∃ a, token_of ips a ∧ has_address s a)
  ∨ ∃ p, p ∈ default [] pairs ∧ names p s.

(** No filter at all *)
Definition unfiltered (hostnames ips public_ids : option (list string))
    (pairs : option (list (string * string))) : Prop :=
  (∀ t, ¬ token_of hostnames t ∧ ¬ token_of ips t ∧ ¬ token_of public_ids t) ∧ default [] pairs = [].

Lemma token_of_tokens l t : t ∈ tokens l ↔ token_of l t.
Proof.
  unfold tokens, token_of. rewrite elem_of_list_to_set, list_elem_of_filter, list_elem_of_fmap. naive_solver.
Qed.

Lemma has_address_addrs s a : Some a ∈ _addrs s ↔ has_address s a.
Proof.
  unfold _addrs, has_address, node_list, get_list. rewrite list_elem_of_bind. setoid_rewrite list_elem_of_fmap.
  split.
  - intros (i & (x & Ha & Hx) & Hi). unfold node_str in Ha.
    destruct (node_get "addresses" i) as [[| | | | |l|]|] eqn:E; cbn in Hx;
      try (by apply not_elem_of_nil in Hx). rewrite list_fmap_id in Hx. exists i, l, x.
    repeat split; try done. destruct (node_get "address" x) as [[]|]; congruence.
  - intros (i & l & x & Hi & El & Hx & Ex). exists i. split; [|done]. exists x.
    unfold node_str. rewrite El, Ex. cbn. by rewrite list_fmap_id.
Qed.

Lemma pair_match_true s p : pair_match s p = true ↔ names p s.
Proof.
  unfold pair_match, _disc_match, names.
  rewrite andb_true_iff, orb_true_iff, mem_true, !String.eqb_eq, has_address_addrs. naive_solver.
Qed.

Lemma no_tokens l : tokens l = ∅ ↔ ∀ t, ¬ token_of l t.
Proof. setoid_rewrite <- token_of_tokens. set_solver. Qed.

Lemma match_true hostnames ips public_ids pairs s :
  _match (tokens hostnames) (tokens ips) (tokens public_ids) (default [] pairs) s = true ↔
  unfiltered hostnames ips public_ids pairs ∨ asked_for hostnames ips public_ids pairs s.
Proof.
  unfold _match, asked_for, unfiltered. rewrite <- !token_of_tokens.
  assert (existsb (addr_in (tokens ips)) (_addrs s) = true ↔ ∃ a, token_of ips a ∧ has_address s a) as A.
  { rewrite existsb_elem. setoid_rewrite addr_in_true. setoid_rewrite <- has_address_addrs.
    setoid_rewrite <- token_of_tokens. naive_solver. }
  assert (existsb (pair_match s) (default [] pairs) = true ↔ ∃ p, p ∈ default [] pairs ∧ names p s) as B.
  { rewrite existsb_elem. by setoid_rewrite pair_match_true. }
  rewrite <- A, <- B. clear A B.
  assert (((∀ t, ¬ token_of hostnames t ∧ ¬ token_of ips t ∧ ¬ token_of public_ids t) ∧ default [] pairs = [])
    ↔ bool_decide (tokens hostnames = ∅) && bool_decide (tokens ips = ∅) && bool_decide (tokens public_ids = ∅)
      && bool_decide (default [] pairs = []) = true) as ->.
  { rewrite !andb_true_iff, !bool_decide_eq_true, !no_tokens. split.
    - intros [Hn ->]. repeat split; intros t; by apply Hn.
    - intros [[[H1 H2] H3] H4]. split; [|done]. intros t. split; [|split]; auto. }
  destruct (_ && _ && _ && _) eqn:E; [by split; [tauto|]|]. clear E.
  case_bool_decide; [by split; [tauto|]|]. case_bool_decide; [by split; [tauto|]|].
  destruct (existsb (addr_in _) _); [by split; [tauto|]|]. intuition congruence.
Qed.

Lemma in_sorted_tokens t s : t ∈ sorted_tokens s ↔ t ∈ s.
Proof. unfold sorted_tokens, sort_str. by rewrite (sort_by_perm _ _), elem_of_elements. Qed.

Lemma sorted_tokens_sorted s : StronglySorted String.le (sorted_tokens s).
Proof. apply (sort_str_sorted id). Qed.

Lemma count_keys_nodup {K} `{EqDecision K} (keys : list K) : NoDup (count_keys keys).*1.
Proof.
  unfold count_keys. assert (NoDup (@nil (K * Z)).*1) as N by constructor. revert N. generalize (@nil (K * Z)).
  induction keys as [|k keys IH]; intros d N; [done|]. cbn [foldl]. apply IH. rewrite dict_set_keys.
  apply NoDup_app. split; [done|]. case_decide as E; [split; [intros ? _; apply not_elem_of_nil|constructor]|].
  split; [|apply NoDup_singleton]. intros x Hx Hk. apply list_elem_of_singleton in Hk. by subst.
Qed.

Lemma dict_get_elem {K V} `{EqDecision K} (d : list (K * V)) k v :
  NoDup d.*1 → (k, v) ∈ d ↔ dict_get k d = Some v.
Proof.
  induction d as [|[k' v'] d IH]; intros N; [split; [intros H; by apply not_elem_of_nil in H|done]|].
  rewrite fmap_cons in N. apply NoDup_cons in N as [N0 N]. rewrite elem_of_cons, (IH N). cbn [dict_get].
  destruct (decide (k' = k)) as [->|Hk]; [|naive_solver].
  split; [|naive_solver]. intros [[= ->]|H]; [done|]. destruct N0. apply dict_get_keys. by eexists.
Qed.

Lemma ambiguous_spec details n :
  n ∈ ambiguous_names details ↔ 1 < count_if (λ d, bool_decide (DetailRow.hostname d = n)) details.
Proof.
  unfold ambiguous_names. rewrite elem_of_list_to_set, list_elem_of_fmap.
  assert (default 0 (dict_get n (count_keys (DetailRow.hostname <$> details)))
    = count_if (λ d, bool_decide (DetailRow.hostname d = n)) details) as <- by by rewrite count_keys_get, count_if_map.
  split.
  - intros ([k c] & -> & [H I]%list_elem_of_filter). apply (dict_get_elem _ _ _ (count_keys_nodup _)) in I.
    cbn [fst snd] in *. by rewrite I.
  - intros H. destruct (dict_get n _) as [c|] eqn:E; [|done]. exists (n, c). split; [done|].
    apply list_elem_of_filter. split; [done|]. by apply (dict_get_elem _ _ _ (count_keys_nodup _)).
Qed.

(** The inventory has the two answers the matching reads. *)
Lemma resolve_run {R Q} `{FleetRepo Q} hostnames ips public_ids pairs (r : R) (q q1 q2 : Q) ids all :
  list_server_ids None q = (Ok ids, q1) → get_servers ids q1 = (Ok all, q2) → ids ≠ [] →
  _resolve_matches hostnames ips public_ids pairs (r, q)
  = (Ok (match_servers all (tokens hostnames) (tokens ips) (tokens public_ids) (default [] pairs)), (r, q2)).
Proof.
  intros Hi Ha Hn. unfold _resolve_matches.
  assert (on_repo (R := R) (list_server_ids None) (r, q) = (Ok ids, (r, q1))) as E1
    by (unfold on_repo; cbn; by rewrite Hi).
  rewrite (bind_ok _ _ _ _ _ E1). destruct ids as [|i ids]; [done|].
  assert (on_repo (R := R) (get_servers (i :: ids)) (r, q1) = (Ok all, (r, q2))) as E2
    by (unfold on_repo; cbn; by rewrite Ha).
  by rewrite (bind_ok _ _ _ _ _ E2).
Qed.


(** A fleet of two *)
#[local] Instance two_servers : FleetRepo unit := {
  list_server_ids _ := mret [1; 2];
  get_servers _ := mret [named_server 1 "db-1" "10.0.0.1"; named_server 2 "web-1" "10.0.0.2"];
  report_aggregate _ _ _ := mret [];
  report_net_io_baseline _ _ _ := mret ∅;
  environment_utilization _ _ := raise (OtherError "not asked");
  fleet_error_summary _ _ := raise (OtherError "not asked");
  latest_metric_at := mret None;
  metric_gap_warnings _ _ _ := mret [];
  agent_restart_counts_recent _ _ := mret [];
}.


(** A pair without its tilde is dropped before the filters are read: alone, it asks for
    no server and gets all of them. *)
Example malformed_pair_selects_all :
  let all := [named_server 1 "db-1" "10.0.0.1"; named_server 2 "web-1" "10.0.0.2"] in
  let m := match_servers all ∅ ∅ ∅ (split_pairs_csv (Some "db-1"%string)) in
  split_pairs_csv (Some "db-1 ~ 10.0.0.1"%string) = [("db-1", "10.0.0.1")%string]
  ∧ Matches.matched m = all ∧ Matches.unresolved m = [] ∧ Matches.unmatched m = [].
Proof. vm_compute. repeat split. Qed.
