(* ===== verification/ExternalApi.v ===== *)
(** * The external API: right-sizing verdicts and provisioning assessments

    Models [src/assessment_engine/web/services/mappers/right_sizing_api.py] and
    [mappers/assessment_api.py], the two queries of [query/environment.py] that call them
    and the three endpoints over them ([web/routers/right_sizing.py], [assessment.py],
    [exports.py]).  A [TypedDict] of the contract is a record here; the reproduction
    facts, which are copied from the JSON of the inventory, stay JSON.  Times are UTC. *)

From S2P Require Import Prelude PyFloat Redis Sql Inbound CollectDb Wire PyText DbRetry Handlers PyList Devices Services MetricViews Dashboard Signals JsonCodec DashCache EolCatalog OsEol StorageTree Reports RightSizing Assess Rollup Outbound ServerViews HostRows PeriodCard ActionTable Fleet FleetQuery.

(** [s or None] *)
Definition text_or_none (s : string) : option string := if String.eqb s "" then None else Some s.

(** [d.get(k)], as it is passed on *)
Definition json_at (k : string) (d : json) : json := default JNull (node_get k d).

(** ** Right-sizing verdicts ([right_sizing_api.py]) *)

Definition _STATUS_LABEL_KO (s : ResourceStatus) : string :=
  match s with
  | Under => "부족" | Optimal => "적정" | Over => "여유" | Insufficient => "표본 부족" | Filling => "소진 임박"
  | CapacityOk => "적정" | IoBound => "병목" | IoOk => "적정" | Congested => "혼잡" | QualityOk => "정상"
  | Unmeasured => "미관측"
  end.

Definition _evidence_labels (triggers : list TriggerKind) : list string :=
  (λ t, str_or (dict_get t _CAUSE_LABEL_BY_TRIGGER) (RS_TRIGGER_LABEL_KO t)) <$> triggers.

Definition _sizeable_recommendation (kind : ResourceKind) (ra : ResourceAssessment) : option string :=
  if mem (Assess.status ra) [Under; Over; IoBound; Filling] || is_some (sizing_target ra)
  then text_or_none (resource_prescription kind ra)
  else None.

Module NetSignal.
Record RsNetSignal := { value : option float; threshold : float; exceeded : option bool; measured : bool }.
End NetSignal.
Abbreviation RsNetSignal := NetSignal.RsNetSignal.

Definition _net_signal (value : option float) (threshold : float) (inclusive : bool) : RsNetSignal :=
  match value with
  | None => {| NetSignal.value := None; NetSignal.threshold := threshold; NetSignal.exceeded := None;
               NetSignal.measured := false |}
  | Some v => {| NetSignal.value := Some (py_round_nd 3 v); NetSignal.threshold := threshold;
                 NetSignal.exceeded := Some (if inclusive then fge v threshold else fgt v threshold);
                 NetSignal.measured := true |}
  end.

(** The CPU and the memory of an entry: the same keys, but for the unit in three of their names *)
Module Sized.
Record RsResource := {
  status : ResourceStatus;
  status_label : string;
  utilization_p95_pct : option float;
  saturation : json;
  evidence : list string;
  confidence_notes : list string;
  current : option Z;
  target : option Z;
  recommendation : option string;
  detail : option string;
}.
End Sized.
Abbreviation RsResource := Sized.RsResource.

Definition sized_resource (kind : ResourceKind) (stats : ResourceStats) (ra : ResourceAssessment)
    (util : option float) (now : option Z) : RsResource := {|
  Sized.status := Assess.status ra;
  Sized.status_label := _STATUS_LABEL_KO (Assess.status ra);
  Sized.utilization_p95_pct := round_opt 1 util;
  Sized.saturation := saturation_block kind stats;
  Sized.evidence := _evidence_labels (triggers ra);
  Sized.confidence_notes := resource_confidence_notes (confidence ra);
  Sized.current := now;
  Sized.target := sizing_target ra;
  Sized.recommendation := _sizeable_recommendation kind ra;
  Sized.detail := text_or_none (Assess.detail ra) |}.

Definition _cpu_resource (raw : ReportRowRaw) (stats : ResourceStats) (host : HostAssessment) : result RsResource :=
  ra ← res_get (resources host) Cpu;
  Ok (sized_resource Cpu stats ra (RawRow.cpu_p95_pct raw) (cpu_cores stats)).

Definition _memory_resource (raw : ReportRowRaw) (stats : ResourceStats) (host : HostAssessment) : result RsResource :=
  ra ← res_get (resources host) Memory;
  Ok (sized_resource Memory stats ra (RawRow.mem_p95_pct raw) (mem_total_mb stats)).

Module DiskVerdict.
Record RsDiskCapacity := {
  status : ResourceStatus;
  status_label : string;
  worst_mount : option string;
  worst_mount_used_pct : option float;
  days_until_full : option Z;
  evidence : list string;
  confidence_notes : list string;
  current_gb : option Z;
  sizing_target_gb : option Z;
  recommendation : option string;
  detail : option string;
}.
End DiskVerdict.
Abbreviation RsDiskCapacity := DiskVerdict.RsDiskCapacity.

Module IoVerdict.
Record RsDiskIo := {
  status : ResourceStatus;
  status_label : string;
  saturation : json;
  evidence : list string;
  confidence_notes : list string;
  detail : option string;
}.
End IoVerdict.
Abbreviation RsDiskIo := IoVerdict.RsDiskIo.

Definition _disk_resource (raw : ReportRowRaw) (stats : ResourceStats) (host : HostAssessment)
    : result (RsDiskCapacity * RsDiskIo) :=
  cap ← res_get (resources host) DiskCapacity;
  io ← res_get (resources host) DiskIo;
  let dbytes := disk_total_bytes (default [] (RawRow.block_devices raw)) in
  days ← int_opt (RawRow.disk_capacity_runway_days raw);
  current ← int_opt (if dbytes =? 0 then None else bytes_to_gb (Some dbytes));
  Ok ({| DiskVerdict.status := Assess.status cap;
         DiskVerdict.status_label := _STATUS_LABEL_KO (Assess.status cap);
         DiskVerdict.worst_mount := RawRow.disk_capacity_driving_mount raw;
         DiskVerdict.worst_mount_used_pct := round_opt 1 (RawRow.disk_capacity_driving_used_pct raw);
         DiskVerdict.days_until_full := days;
         DiskVerdict.evidence := _evidence_labels (triggers cap);
         DiskVerdict.confidence_notes := resource_confidence_notes (confidence cap);
         DiskVerdict.current_gb := current;
         DiskVerdict.sizing_target_gb := sizing_target cap;
         DiskVerdict.recommendation := _sizeable_recommendation DiskCapacity cap;
         DiskVerdict.detail := text_or_none (Assess.detail cap) |},
      {| IoVerdict.status := Assess.status io;
         IoVerdict.status_label := _STATUS_LABEL_KO (Assess.status io);
         IoVerdict.saturation := saturation_block DiskIo stats;
         IoVerdict.evidence := _evidence_labels (triggers io);
         IoVerdict.confidence_notes := resource_confidence_notes (confidence io);
         IoVerdict.detail := text_or_none (Assess.detail io) |}).

(** An action; a target key that is left out is [None]. *)
Module Act.
Record RsAction := {
  resource : ResourceKind;
  op : string;
  target_display : option string;
  target_cores : option Z;
  target_mb : option Z;
  target_gb : option Z;
}.
End Act.
Abbreviation RsAction := Act.RsAction.

Definition _action (kind : ResourceKind) (ra : ResourceAssessment) (op : string) : RsAction :=
  let only (k : ResourceKind) := if bool_decide (kind = k) then sizing_target ra else None in {|
  Act.resource := kind;
  Act.op := op;
  Act.target_display := text_or_none (resource_prescription kind ra);
  Act.target_cores := only Cpu;
  Act.target_mb := only Memory;
  Act.target_gb := only DiskCapacity |}.

Module Advice.
Record RsRecommendation := {
  summary : string;
  kind : string;
  actions : list RsAction;
  suppressed : list RsAction;
}.
End Advice.
Abbreviation RsRecommendation := Advice.RsRecommendation.

(** [[_action(k, host.resources[k], op) for k in kinds]] *)
Definition actions_of (host : HostAssessment) (op : string) (kinds : list ResourceKind) : result (list RsAction) :=
  map_result (λ k, ra ← res_get (resources host) k; Ok (_action k ra op)) kinds.

(** The condition of the comprehension over the CPU and the memory; a key that is absent is
    kept, so that [actions_of] raises its [KeyError] *)
Definition downsizes (host : HostAssessment) (stats : ResourceStats) (k : ResourceKind) : bool :=
  match resources host !! k with
  | Some ra => bool_decide (Assess.status ra = Over) && downsize_prescribable ra stats && is_some (sizing_target ra)
  | None => true
  end.

Definition _recommendation (host : HostAssessment) (stats : ResourceStats) (rec : Recommendation)
    : result RsRecommendation :=
  io ← res_get (resources host) DiskIo;
  let io_advisory := if bool_decide (Assess.status io = IoBound) then [_action DiskIo io "tier_up"] else [] in
  match rec with
  | under_provisioned =>
      actions ← actions_of host "increase" (prescribed_under_kinds host);
      summary ← under_prescription host;
      Ok {| Advice.summary := summary; Advice.kind := "provision"; Advice.actions := actions ++ io_advisory;
            Advice.suppressed := [] |}
  | over_provisioned =>
      actions ← actions_of host "decrease" (filter (λ k, downsizes host stats k = true) [Cpu; Memory]);
      Ok {| Advice.summary := recommend_action rec stats; Advice.kind := "downsize";
            Advice.actions := actions ++ io_advisory; Advice.suppressed := [] |}
  | _ =>
      Ok {| Advice.summary := recommend_action rec stats;
            Advice.kind := match rec with
                           | idle => "decommission" | insufficient_data => "insufficient" | _ => "maintain"
                           end;
            Advice.actions := io_advisory; Advice.suppressed := [] |}
  end.

Module RsNet.
Record RsNetwork := {
  status : ResourceStatus;
  status_label : string;
  congested : bool;
  retransmit_pct : RsNetSignal;
  drop_pct : RsNetSignal;
  conntrack_ratio : RsNetSignal;
  detail : option string;
}.
End RsNet.
Abbreviation RsNetwork := RsNet.RsNetwork.

Module Verdict.
Record RightSizingServer := {
  hostname : string;
  hostname_ambiguous : bool;
  public_id : string;
  primary_ip : option string;
  os_family : option string;
  online : bool;
  classification : Recommendation;
  classification_label : string;
  root_cause : option string;
  recommendation : RsRecommendation;
  confidence_notes : list string;
  cpu : RsResource;
  memory : RsResource;
  disk : RsDiskCapacity * RsDiskIo;
  network : RsNetwork;
}.
End Verdict.
Abbreviation RightSizingServer := Verdict.RightSizingServer.

Definition build_right_sizing_entry (raw : ReportRowRaw) (is_online hostname_ambiguous : bool) : result RightSizingServer :=
  let stats := build_resource_stats raw None in
  host ← rollup_host stats;
  let rec := host_status_to_recommendation (host_status host) in
  net ← res_get (resources host) Network;
  recommendation ← _recommendation host stats rec;
  cpu ← _cpu_resource raw stats host;
  memory ← _memory_resource raw stats host;
  disk ← _disk_resource raw stats host;
  Ok {| Verdict.hostname := RawRow.hostname raw;
        Verdict.hostname_ambiguous := hostname_ambiguous;
        Verdict.public_id := RawRow.public_id raw;
        Verdict.primary_ip := primary_ip raw;
        Verdict.os_family := RawRow.os_family raw;
        Verdict.online := is_online;
        Verdict.classification := rec;
        Verdict.classification_label := LABEL_KO rec;
        Verdict.root_cause := text_or_none (root_cause_display host);
        Verdict.recommendation := recommendation;
        Verdict.confidence_notes := build_host_confidence_notes host;
        Verdict.cpu := cpu;
        Verdict.memory := memory;
        Verdict.disk := disk;
        Verdict.network := {|
          RsNet.status := Assess.status net;
          RsNet.status_label := _STATUS_LABEL_KO (Assess.status net);
          RsNet.congested := network_congested host;
          RsNet.retransmit_pct := _net_signal (RawRow.net_retrans_pct raw) RS_NET_RETRANS_PCT false;
          RsNet.drop_pct := _net_signal (RawRow.net_drop_pct raw) RS_NET_DROP_PCT false;
          RsNet.conntrack_ratio := _net_signal (RawRow.conntrack_ratio raw) RS_CONNTRACK_SATURATION_RATIO true;
          RsNet.detail := text_or_none (Assess.detail net) |} |}.

(** ** Assessments ([assessment_api.py]): who, and how to rebuild it *)

Module MountRaw.
Record MountCapacityRaw := {
  mountpoint : string;
  total_bytes : option Z;
  used_pct : option float;
  byte_runway_days : option float;
  inode_runway_days : option float;
  inode_used_pct : option float;
  target_bytes : option Z;
}.
End MountRaw.
Abbreviation MountCapacityRaw := MountRaw.MountCapacityRaw.

Module Ident.
Record AssessmentIdentity := {
  public_id : string;
  hostname : string;
  hostname_ambiguous : bool;
  primary_ip : option string;
  os_family : option string;
  online : bool;
}.
End Ident.
Abbreviation AssessmentIdentity := Ident.AssessmentIdentity.

Definition _identity (raw : ReportRowRaw) (is_online hostname_ambiguous : bool) : AssessmentIdentity := {|
  Ident.public_id := RawRow.public_id raw;
  Ident.hostname := RawRow.hostname raw;
  Ident.hostname_ambiguous := hostname_ambiguous;
  Ident.primary_ip := primary_ip raw;
  Ident.os_family := RawRow.os_family raw;
  Ident.online := is_online |}.

Definition _BOND_MODE_MAP : list (string * string) :=
  [("802.3ad", "lacp"); ("active-backup", "active-backup"); ("balance-rr", "balance-rr"); ("balance-xor", "balance-xor");
   ("broadcast", "broadcast"); ("balance-tlb", "balance-tlb"); ("balance-alb", "balance-alb")]%string.

Definition _norm_bond_mode (v : json) : json :=
  match v with JStr s => jopt JStr (dict_get s _BOND_MODE_MAP) | _ => JNull end.

(** A bool is an [int] in Python; the text of a float, a list or a dict is no number. *)
Definition _norm_raid_level (v : json) : json :=
  match v with
  | JInt n => JInt n
  | JBool b => JBool b
  | JStr s =>
      let s := removeprefix "raid" (str_lower s) in
      if isdigit s then JInt (int_of_digits s) else JNull
  | _ => JNull
  end.

Definition _BLOCK_DEVICE_KEYS : list string :=
  ["id"; "id_type"; "name"; "type"; "parent"; "size_bytes"; "partition_table"; "sector_size"; "serial"; "wwn";
   "rotational"; "part_number"; "part_start_bytes"; "part_type"; "part_name"; "part_flags"; "fstype"; "fs_uuid";
   "fs_label"; "block_size"; "mountpoint"; "mount_options"; "fs_freq"; "fs_passno"; "lvm_vg"; "lvm_lv"; "lvm_segtype";
   "lvm_stripes"; "lvm_stripe_size_kib"; "raid_level"; "raid_chunk_kib"; "raid_metadata"; "raid_uuid"; "crypt_type"]%string.

(** [{k: d.get(k) for k in keys}] *)
Definition pick (keys : list string) (d : json) : list (string * json) := (λ k, (k, json_at k d)) <$> keys.

Definition _repro_block_device (d : json) : json :=
  JObj (dict_set "raid_level"%string (_norm_raid_level (json_at "raid_level" d)) (pick _BLOCK_DEVICE_KEYS d)).

Definition repro_address (a : json) : json := JObj (pick ["address"; "prefix"; "family"; "origin"]%string a).

(** The speed of the inventory, or that of the link where the inventory has none *)
Definition repro_speed (i : json) (link_speeds : option (gmap string Z)) : json :=
  match node_get "speed_mbps" i, node_str "id" i, link_speeds with
  | None, Some id, Some speeds =>
      match speeds !! id with
      | Some bps => if bps =? 0 then JNull else JInt (bps / 1000000)
      | None => JNull
      end
  | None, _, _ => JNull
  | Some v, _, _ => v
  end.

Definition _repro_interface (link_speeds : option (gmap string Z)) (i : json) : json := JObj (
  pick ["id"; "id_type"; "name"; "kind"; "mtu"]%string i
  ++ [("addresses"%string, JArr (repro_address <$> node_list "addresses" i))]
  ++ pick ["gateway"; "dns"; "routes"]%string i
  ++ [("bond_mode", _norm_bond_mode (json_at "bond_mode" i)); ("vlan_id", json_at "vlan_id" i);
      ("speed_mbps", repro_speed i link_speeds)]%string).

Definition _repro_lvm_vg (v : json) : json :=
  JObj (pick ["name"; "vg_uuid"; "size_bytes"; "free_bytes"; "extent_size_bytes"; "pv_ids"]%string v).

Definition _reproduction (raw : ReportRowRaw) (link_speeds : option (gmap string Z)) : json :=
  let boot := default (JObj []) (RawRow.boot raw) in
  let many (f : json → json) (l : option (list json)) := JArr (f <$> default [] l) in JObj [
  ("os", JObj [
    ("family", jopt JStr (RawRow.os_family raw)); ("id", jopt JStr (RawRow.os_id raw));
    ("version", jopt JStr (RawRow.os_version raw)); ("codename", jopt JStr (RawRow.os_codename raw));
    ("kernel", jopt JStr (RawRow.kernel_version raw)); ("arch", jopt JStr (RawRow.arch raw));
    ("bits", jopt JInt (RawRow.bits raw)); ("boot_firmware", jopt JStr (RawRow.boot_firmware raw));
    ("secure_boot", jopt JBool (RawRow.secure_boot raw)); ("edition", jopt JStr (RawRow.edition raw));
    ("timezone", jopt JStr (RawRow.timezone raw)); ("rtc_utc", jopt JBool (RawRow.rtc_utc raw))]);
  ("boot", JObj (pick ["kernel_cmdline"; "root_ref_type"; "grub_install_target"] boot));
  ("network", JObj [("interfaces", many (_repro_interface link_speeds) (RawRow.net_interfaces raw))]);
  ("storage", JObj [("block_devices", many _repro_block_device (RawRow.block_devices raw));
                    ("lvm_vgs", many _repro_lvm_vg (RawRow.lvm_vgs raw))]);
  ("mounts", many (λ m, JObj (pick ["source"; "target"; "fstype"; "options"; "fs_freq"; "fs_passno"] m))
               (RawRow.nonblock_mounts raw))]%string.

(** ** Sizing *)

Inductive AxisAction := axis_increase | axis_decrease | axis_keep.
Inductive AxisQuality := quality_exact | quality_floor | quality_uncertain.

Definition _axis_size (current : Z) (ra : ResourceAssessment) (stats : ResourceStats) : Z * AxisAction * AxisQuality :=
  match Assess.status ra, sizing_target ra, sizing_floor ra with
  | Under, Some t, _ => (t, axis_increase, quality_exact)
  | Under, None, Some f => (f, axis_increase, quality_floor)
  | Under, None, None => (current, axis_keep, quality_uncertain)
  | Over, Some t, _ => if downsize_prescribable ra stats then (t, axis_decrease, quality_exact)
                       else (current, axis_keep, quality_exact)
  | Over, None, _ => (current, axis_keep, quality_exact)
  | (Unmeasured | Insufficient), _, _ => (current, axis_keep, quality_uncertain)
  | _, _, _ => (current, axis_keep, quality_exact)
  end.

Definition _device_ref (raw : ReportRowRaw) (mountpoint : string) : option string :=
  match find (λ d, bool_decide (node_str "mountpoint" d = Some mountpoint)) (default [] (RawRow.block_devices raw)) with
  | Some d => node_str "id" d
  | None => None
  end.

(** The keys only a disk axis has *)
Module DiskAxis.
Record DiskAxis := {
  mountpoint : string;
  device_ref : option string;
  used_pct : option float;
  runway_days : option Z;
  note : option string;
}.
End DiskAxis.
Abbreviation DiskAxis := DiskAxis.DiskAxis.

Module Axis.
Record SizingAxis := {
  axis : string;
  current : Z;
  recommended : Z;
  unit : string;
  action : AxisAction;
  estimate_quality : AxisQuality;
  disk : option DiskAxis;
}.
End Axis.
Abbreviation SizingAxis := Axis.SizingAxis.

(** The axis of the CPU or of the memory, unless its size is unknown *)
Definition host_axis (stats : ResourceStats) (host : HostAssessment) (kind : ResourceKind) (unit : string)
    (current : option Z) : result (list SizingAxis) :=
  match current with
  | None => Ok []
  | Some c =>
      ra ← res_get (resources host) kind;
      let '(rec, action, quality) := _axis_size c ra stats in
      Ok [{| Axis.axis := kind_name kind; Axis.current := c; Axis.recommended := rec; Axis.unit := unit;
             Axis.action := action; Axis.estimate_quality := quality; Axis.disk := None |}]
  end.

Definition mount_axis (raw : ReportRowRaw) (m : MountCapacityRaw) : result (option SizingAxis) :=
  s ← assess_mount_capacity (MountRaw.total_bytes m) (of_Z <$> MountRaw.target_bytes m) (MountRaw.byte_runway_days m)
        (MountRaw.used_pct m) (MountRaw.inode_runway_days m) (MountRaw.inode_used_pct m);
  match s with
  | None => Ok None
  | Some s =>
      runway ← int_opt (MountRaw.byte_runway_days m);
      Ok (Some {| Axis.axis := "disk"; Axis.current := current_gib s; Axis.recommended := recommended_gib s;
                  Axis.unit := "gib";
                  Axis.action := match Assess.action s with increase => axis_increase | keep => axis_keep end;
                  Axis.estimate_quality :=
                    match estimate_quality s with exact => quality_exact | floor_estimate => quality_floor end;
                  Axis.disk := Some {|
                    DiskAxis.mountpoint := MountRaw.mountpoint m;
                    DiskAxis.device_ref := _device_ref raw (MountRaw.mountpoint m);
                    DiskAxis.used_pct := round_opt 1 (MountRaw.used_pct m);
                    DiskAxis.runway_days := runway;
                    DiskAxis.note := text_or_none (note s) |} |})
  end.

Definition _sizing (raw : ReportRowRaw) (stats : ResourceStats) (host : HostAssessment) (mounts : list MountCapacityRaw)
    : result (list SizingAxis) :=
  cpu ← host_axis stats host Cpu "vcpus" (cpu_cores stats);
  memory ← host_axis stats host Memory "mib" (mem_total_mb stats);
  disks ← omap_result (mount_axis raw) mounts;
  Ok (cpu ++ memory ++ disks).

(** ** The verdict and the diagnostics *)

Module Quality.
Record Assessment := { classification : Recommendation; confidence : string; sufficient : bool; notes : list string }.
End Quality.
Abbreviation Assessment := Quality.Assessment.

Definition _assessment (host : HostAssessment) : Assessment :=
  let rec := host_status_to_recommendation (host_status host) in
  let notes := build_host_confidence_notes host in
  let confidence :=
    (if bool_decide (rec = insufficient_data) then "low" else if bool_decide (notes = []) then "high" else "medium")%string in
  {| Quality.classification := rec;
     Quality.confidence := confidence;
     Quality.sufficient := String.eqb confidence "high";
     Quality.notes := if negb (String.eqb confidence "high") && bool_decide (notes = [])
                      then ["관측 데이터 부족"%string] else notes |}.

Definition _DIAG_AXES : list ResourceKind := [Cpu; Memory; DiskCapacity; DiskIo; Network].

(** [utilization]: the value judged, and the value the size comes from *)
Definition _diag_util (kind : ResourceKind) (raw : ReportRowRaw) : option float * option float :=
  match kind with
  | Cpu => (round_opt 1 (RawRow.cpu_p95_pct raw), round_opt 1 (RawRow.cpu_p95_pct raw))
  | Memory => (round_opt 1 (RawRow.mem_p95_pct raw), round_opt 1 (RawRow.mem_near_peak_pct raw))
  | _ => (None, None)
  end.

(** ["disk" if kind == "disk_capacity" else kind] *)
Definition axis_name (kind : ResourceKind) : string :=
  match kind with DiskCapacity => "disk" | _ => kind_name kind end.

Module Diag.
Record DiagResource := {
  axis : string;
  status : ResourceStatus;
  utilization : option float * option float;
  saturation : json;
  confidence_notes : list string;
}.
Record Diagnostics := {
  root_cause : option string;
  root_cause_detail : option string;
  resources : list DiagResource;
  disk_io_tier_hint : option string;
  network_congested : bool;
}.
End Diag.
Abbreviation DiagResource := Diag.DiagResource.
Abbreviation Diagnostics := Diag.Diagnostics.

Definition _diag_resource (kind : ResourceKind) (ra : ResourceAssessment) (raw : ReportRowRaw) (stats : ResourceStats)
    : DiagResource := {|
  Diag.axis := axis_name kind;
  Diag.status := Assess.status ra;
  Diag.utilization := _diag_util kind raw;
  Diag.saturation := match kind with Cpu | Memory | DiskIo => saturation_block kind stats | _ => JNull end;
  Diag.confidence_notes := resource_confidence_notes (confidence ra) |}.

Definition _root_cause_axis (host : HostAssessment) : option string := axis_name <$> root_cause host.

Definition _diagnostics (raw : ReportRowRaw) (stats : ResourceStats) (host : HostAssessment) : result Diagnostics :=
  rows ← map_result (λ k, ra ← res_get (resources host) k; Ok (_diag_resource k ra raw stats)) _DIAG_AXES;
  io ← res_get (resources host) DiskIo;
  Ok {| Diag.root_cause := _root_cause_axis host;
        Diag.root_cause_detail := text_or_none (root_cause_display host);
        Diag.resources := rows;
        Diag.disk_io_tier_hint := if bool_decide (Assess.status io = IoBound) then Some "high_iops"%string else None;
        Diag.network_congested := network_congested host |}.

Module Entry.
Record AssessmentServer := {
  identity : AssessmentIdentity;
  reproduction : json;
  sizing : list SizingAxis;
  assessment : Assessment;
  diagnostics : Diagnostics;
}.
End Entry.
Abbreviation AssessmentServer := Entry.AssessmentServer.

Definition build_assessment_entry (raw : ReportRowRaw) (mounts : list MountCapacityRaw) (is_online hostname_ambiguous : bool)
    (link_speeds : option (gmap string Z)) : result AssessmentServer :=
  let stats := build_resource_stats raw None in
  host ← rollup_host stats;
  sizing ← _sizing raw stats host mounts;
  diagnostics ← _diagnostics raw stats host;
  Ok {| Entry.identity := _identity raw is_online hostname_ambiguous;
        Entry.reproduction := _reproduction raw link_speeds;
        Entry.sizing := sizing;
        Entry.assessment := _assessment host;
        Entry.diagnostics := diagnostics |}.

(** ** The queries ([query/environment.py]) *)

(** What [get_assessment] reads besides *)
Class AssessmentRepo (Q : Type) := {
  report_mount_capacity_batch : list Z → datetime → eff Q (gmap Z (list MountCapacityRaw));
  latest_link_speed : list Z → datetime → eff Q (gmap Z (gmap string Z));
}.

(** The dict a query returns: its servers with the warnings about the filters; the filters
    that match nothing are a key of the assessment only *)
Module Found.
Record Found (S : Type) := {
  servers : list S;
  ambiguous_hostnames : list string;
  unresolved_pairs : list string;
  unmatched_filters : option (list string);
}.
Arguments servers {S} _.
Arguments ambiguous_hostnames {S} _.
Arguments unresolved_pairs {S} _.
Arguments unmatched_filters {S} _.
Arguments Build_Found {S} _ _ _ _.
End Found.
Abbreviation Found := Found.Found.

(** The parameters of a request, as the endpoints pass them on *)
Module Filters.
Record Filters := {
  hostname : list string;
  ip : list string;
  public_id : list string;
  pair : list (string * string);
}.
End Filters.
Abbreviation Filters := Filters.Filters.

Definition days (n : Z) : Z := seconds (n * 86400).

(** ** Requests and envelopes *)

Definition API_CONTRACT_VERSION : string := "1.0".
Definition WINDOW_FLOOR_DAYS : Z := 14.

Definition normalize_anchor (now : datetime) (end_ : option datetime) : datetime := default now end_.

(** What the envelope of either API says about the request *)
Module Envelope.
Record Envelope (S : Type) := {
  version : string;
  generated_at : string;
  window_days : Z;
  window_start : string;
  window_end : string;
  basis : string;
  filter_hostname : list string;
  filter_ip : list string;
  filter_public_id : list string;
  filter_pair : list string;
  found : Found S;
  count : Z;
}.
Arguments found {S} _.
Arguments count {S} _.
Arguments filter_pair {S} _.
End Envelope.
Abbreviation Envelope := Envelope.Envelope.

Definition envelope {S} (version basis : string) (result : Found S) (now : datetime) (window_days : Z) (anchor : datetime)
    (f : Filters) : Envelope S := {|
  Envelope.version := version;
  Envelope.generated_at := isoformat now;
  Envelope.window_days := window_days;
  Envelope.window_start := isoformat (anchor - days window_days);
  Envelope.window_end := isoformat anchor;
  Envelope.basis := basis;
  Envelope.filter_hostname := Filters.hostname f;
  Envelope.filter_ip := Filters.ip f;
  Envelope.filter_public_id := Filters.public_id f;
  Envelope.filter_pair := pair_text <$> Filters.pair f;
  Envelope.found := result;
  Envelope.count := Z.of_nat (length (Found.servers result)) |}.

Definition build_assessment_envelope : Found AssessmentServer → datetime → Z → datetime → Filters → Envelope AssessmentServer :=
  envelope API_CONTRACT_VERSION "관측 창(기본 14일). 데이터가 창보다 짧으면 assessment.data_quality 로 신뢰도 하향.".

(** The parameters of a query string *)
Definition query_filters (hostname ip public_id pair : option string) : Filters := {|
  Filters.hostname := split_csv hostname; Filters.ip := split_csv ip; Filters.public_id := split_csv public_id;
  Filters.pair := split_pairs_csv pair |}.

(** The body of [POST /api/exports/inventory] *)
Module ExportRequest.
Record AssessmentExportRequest := {
  hostname : list string;
  ip : list string;
  public_id : list string;
  pair : list string;
  window_days : Z;
  end_ : option datetime;
}.
End ExportRequest.
Abbreviation AssessmentExportRequest := ExportRequest.AssessmentExportRequest.

(** [[h.strip() for h in l if h.strip()]] *)
Definition stripped (l : list string) : list string := filter (λ t, t ≠ ""%string) (strip_chars is_space <$> l).

Definition body_filters (req : AssessmentExportRequest) : Filters := {|
  Filters.hostname := stripped (ExportRequest.hostname req); Filters.ip := stripped (ExportRequest.ip req);
  Filters.public_id := stripped (ExportRequest.public_id req); Filters.pair := split_pairs (ExportRequest.pair req) |}.

Section api.
Context {R : Type} `{RedisClient R} {Q : Type} `{FleetRepo Q} `{AssessmentRepo Q}.

Definition resolve (f : Filters) : eff (R * Q) Matches :=
  _resolve_matches (Some (Filters.hostname f)) (Some (Filters.ip f)) (Some (Filters.public_id f)) (Some (Filters.pair f)).

(** [online_by_id.get(raw.server_id, False)] *)
Definition online_in (online_by_id : gmap Z bool) (raw : ReportRowRaw) : bool :=
  default false (online_by_id !! RawRow.server_id raw).

Definition ambiguous_in (m : Matches) (raw : ReportRowRaw) : bool :=
  bool_decide (RawRow.hostname raw ∈ Matches.ambiguous m).

(** The rows of the matching servers, with who is online: nothing is read for none *)
Definition matched_rows (m : Matches) (window_days : Z) (end_ : datetime)
    : eff (R * Q) (list ReportRowRaw * gmap Z bool) :=
  let matched_ids := DetailRow.id <$> Matches.matched m in
  match matched_ids with
  | [] => mret ([], ∅)
  | _ =>
      raws ← on_repo (report_aggregate matched_ids (of_Z window_days) end_);
      raws ← _with_net_baseline raws matched_ids (of_Z window_days) end_;
      online_by_id ← _online_map matched_ids (Matches.matched m) end_;
      mret (raws, online_by_id)
  end.

Definition get_right_sizing (window_days : Z) (end_ : datetime) (f : Filters) : eff (R * Q) (Found RightSizingServer) :=
  m ← resolve f;
  rows ← matched_rows m window_days end_;
  servers ← lift (map_result (λ raw, build_right_sizing_entry raw (online_in rows.2 raw) (ambiguous_in m raw)) rows.1);
  mret {| Found.servers := servers; Found.ambiguous_hostnames := Matches.ambiguous_in_filter m;
          Found.unresolved_pairs := Matches.unresolved m; Found.unmatched_filters := None |}.

Definition get_assessment (window_days : Z) (end_ : datetime) (f : Filters) : eff (R * Q) (Found AssessmentServer) :=
  m ← resolve f;
  rows ← matched_rows m window_days end_;
  let matched_ids := DetailRow.id <$> Matches.matched m in
  mounts_speeds ← (match matched_ids with
                   | [] => mret (∅, ∅)
                   | _ =>
                       mounts ← on_repo (report_mount_capacity_batch matched_ids end_);
                       speeds ← on_repo (latest_link_speed matched_ids (end_ - days window_days));
                       mret (mounts, speeds)
                   end);
  servers ← lift (map_result (λ raw,
    build_assessment_entry raw (default [] (mounts_speeds.1 !! RawRow.server_id raw)) (online_in rows.2 raw)
      (ambiguous_in m raw) (mounts_speeds.2 !! RawRow.server_id raw)) rows.1);
  mret {| Found.servers := servers; Found.ambiguous_hostnames := Matches.ambiguous_in_filter m;
          Found.unresolved_pairs := Matches.unresolved m; Found.unmatched_filters := Some (Matches.unmatched m) |}.

(** ** The endpoints *)

(** [GET /api/assessment], of a request the declared bounds let through *)
Definition assessment_endpoint (now : datetime) (hostname ip pair public_id : option string) (window_days : Z)
    (end_ : option datetime) : eff (R * Q) (Envelope AssessmentServer) :=
  let anchor := normalize_anchor now end_ in
  let f := query_filters hostname ip public_id pair in
  result ← get_assessment window_days anchor f;
  mret (build_assessment_envelope result now window_days anchor f).

(** [GET /api/right-sizing]; its [engine_id] stands where the other has a version *)
Definition right_sizing_endpoint (now : datetime) (hostname ip pair public_id : option string) (window_days : Z)
    (end_ : option datetime) : eff (R * Q) (Envelope RightSizingServer) :=
  let anchor := normalize_anchor now end_ in
  let f := query_filters hostname ip public_id pair in
  result ← get_right_sizing window_days anchor f;
  mret (envelope "zconverter-assessment-portal"
          "자원 적정성 표준 창(기본 14일). 데이터가 창보다 짧으면 confidence_notes 로 신뢰도 하향."
          result now window_days anchor f).

(** The envelope in the file *)
Definition export_inventory (now : datetime) (req : AssessmentExportRequest) : eff (R * Q) (Envelope AssessmentServer) :=
  let anchor := normalize_anchor now (ExportRequest.end_ req) in
  let f := body_filters req in
  result ← get_assessment (ExportRequest.window_days req) anchor f;
  mret (build_assessment_envelope result now (ExportRequest.window_days req) anchor f).
End api.
