(* ===== verification/ExternalProps.v ===== *)
(** * The contract of the external API *)

From S2P Require Import Prelude PyFloat FloatFacts PyText PyList Redis Sql Wire DbRetry Handlers Devices Services JsonCodec EolCatalog OsEol StorageTree Reports RightSizing Assess Rollup AssessFacts RollupFacts RightSizingProps Outbound ServerViews HostRows HostRowProps PeriodCard ActionTable ActionProps Fleet FleetQuery FleetProps TextFacts ExternalApi.

(** ** Rounding up *)

Lemma py_ceil_above N x z : regular x → N * unit_at 0 < fval x → 0 <= N → py_ceil x = Ok z → N < z.
Proof.
  intros R V HN H. pose proof (unit_pos 0 ltac:(lia)) as U0.
  destruct x as [s| | |s m e]; [cbn in V; nia|done|done|].
  cbn in R. pose proof (unit_pos e ltac:(lia)) as U.
  destruct s; [cbn in V; nia|]. cbn [py_ceil fval cond_Zopp] in *. injection H as <-.
  unfold scaled_ceil. destruct (Z.leb_spec 0 e) as [He|He].
  - replace (unit_at e) with (unit_at (0 + e)) in V by (f_equal; lia). rewrite unit_split in V by lia. nia.
  - destruct (Z.lt_ge_cases N (- (- Zpos m / 2 ^ (- e)))) as [|C]; [done|exfalso].
    enough (Zpos m <= N * 2 ^ (- e)) as B by (apply scaled in B; lia).
    pose proof (Z.pow_pos_nonneg 2 (- e) ltac:(lia) ltac:(lia)) as P.
    pose proof (Z.div_mod (- Zpos m) (2 ^ (- e)) ltac:(lia)). pose proof (Z.mod_pos_bound (- Zpos m) (2 ^ (- e)) P). nia.
Qed.

(** The head-room size is above the present one. *)
Lemma mem_headroom_above t f : 0 < t < 2 ^ 44 → mem_headroom_mb t = Ok f → t < f.
Proof.
  intros Ht H. unfold mem_headroom_mb in H.
  destruct (of_Z_exact t ltac:(lia)) as (m & e & E & He & _ & V). rewrite E in H.
  replace (fadd (of_Z 1) (int_truediv RS_MEM_SATURATION_HEADROOM_PCT 100))
    with (S754_finite false 5854679515581645 (-52)) in H by by vm_compute.
  unfold fmul in H. cbn [SFmul xorb] in H.
  assert (Zpos m = t * 2 ^ (- e)) as Em.
  { pose proof (unit_pos e ltac:(lia)). apply (Z.mul_cancel_r _ _ (unit_at e)); [lia|]. rewrite V.
    rewrite <- Z.mul_assoc, (Z.mul_comm (2 ^ (- e))), <- unit_split by lia. do 2 f_equal. lia. }
  pose proof (Z.pow_pos_nonneg 2 (- e) ltac:(lia) ltac:(lia)) as P.
  destruct (round_aux_error false (Zpos (m * 5854679515581645)) (e + -52) loc_Exact 45) as [R Er].
  1,2,3: lia.
  { rewrite Pos2Z.inj_mul, Em. replace (45 - (e + -52)) with (97 + - e) by lia. rewrite Z.pow_add_r by lia. nia. }
  set (x := binary_round_aux _ _ _ _ _ _) in *. clearbody x. refine (py_ceil_above _ _ _ R _ _ H); [|lia].
  cbn [cond_Zopp] in Er. rewrite Pos2Z.inj_mul, Em in Er.
  pose proof (unit_pos (-52) ltac:(lia)) as U.
  assert (t * 2 ^ (- e) * 5854679515581645 * unit_at (e + -52) = t * 5854679515581645 * unit_at (-52)) as Ev.
  { transitivity (t * 5854679515581645 * (unit_at (e + -52) * 2 ^ (- e))); [ring|].
    rewrite <- unit_split by lia. do 2 f_equal. lia. }
  rewrite Ev in Er. rewrite Z.max_r in Er by lia.
  assert (unit_at (45 - 52) = unit_at (-52) * 2 ^ 45) as E7 by by rewrite <- unit_split by lia.
  assert (unit_at 0 = unit_at (-52) * 2 ^ 52) as E0 by by rewrite <- unit_split by lia.
  rewrite E7 in Er. rewrite E0. assert (unit_at (-52) <= t * unit_at (-52)) by nia. lia.
Qed.

Lemma py_ceil_bound K x z : 0 <= K → mag_le K x → py_ceil x = Ok z → Z.abs z <= 2 ^ K.
Proof.
  intros HK Hx. pose proof (Z.pow_pos_nonneg 2 K ltac:(lia) HK). destruct x as [s| | |s m e]; [by intros [= <-]; lia|done|done|].
  cbn [py_ceil mag_le] in *. destruct Hx as [He Hm]. intros [= <-]. unfold scaled_ceil.
  destruct (Z.leb_spec 0 e) as [H0|H0].
  - assert (2 ^ (K - e) * 2 ^ e = 2 ^ K) by (rewrite <- Z.pow_add_r by lia; f_equal; lia).
    pose proof (Z.pow_pos_nonneg 2 e ltac:(lia) H0). destruct s; cbn [cond_Zopp]; nia.
  - assert (2 ^ K * 2 ^ (- e) = 2 ^ (K - e)) as P by (rewrite <- Z.pow_add_r by lia; f_equal; lia).
    pose proof (Z.pow_pos_nonneg 2 (- e) ltac:(lia) ltac:(lia)) as Pe.
    enough (- 2 ^ K <= - cond_Zopp s (Zpos m) / 2 ^ (- e) <= 2 ^ K) by lia.
    split; [apply Z.div_le_lower_bound; [done|]|apply Z.div_le_upper_bound; [done|]]; destruct s; cbn [cond_Zopp]; nia.
Qed.

Lemma int_opt_total o : (∀ x, o = Some x → is_finite x = true) → ∃ r, int_opt o = Ok r.
Proof.
  intros H. destruct o as [x|]; [|by exists None]. destruct (py_int_total x) as [n E]; [by apply H|].
  exists (Some n). cbn. by rewrite E.
Qed.

(** ** Mounts *)

Record sane_mount (m : MountCapacityRaw) : Prop := {
  sane_mount_total : ∀ n, MountRaw.total_bytes m = Some n → 0 <= n < 2 ^ 63;
  sane_mount_target : ∀ n, MountRaw.target_bytes m = Some n → 0 <= n < 2 ^ 63;
  sane_mount_runway : ∀ x, MountRaw.byte_runway_days m = Some x → is_finite x = true;
}.

Lemma gib_total n : 0 <= n < 2 ^ 63 → ∃ g, py_ceil (int_truediv n _GIB) = Ok g ∧ Z.abs g <= 2 ^ 64.
Proof.
  intros Hn. assert (mag_le 64 (int_truediv n _GIB)) as M.
  { unfold int_truediv. apply (of_ratio_mag 63); [done|]. rewrite Z.abs_eq; lia. }
  destruct (ceil_mag _ _ M) as [g E]. exists g. split; [done|]. by eapply py_ceil_bound.
Qed.

Lemma mount_capacity_total m : sane_mount m →
  ∃ s, assess_mount_capacity (MountRaw.total_bytes m) (of_Z <$> MountRaw.target_bytes m) (MountRaw.byte_runway_days m)
         (MountRaw.used_pct m) (MountRaw.inode_runway_days m) (MountRaw.inode_used_pct m) = Ok s
  ∧ (is_Some s ↔ ∃ n, MountRaw.total_bytes m = Some n ∧ n ≠ 0).
Proof.
  intros S. unfold assess_mount_capacity. destruct (MountRaw.total_bytes m) as [n|] eqn:En.
  2: { exists None. split; [done|]. split; [by intros []|by intros (? & ? & _)]. }
  destruct (n =? 0) eqn:Z0; to_prop.
  { exists None. split; [done|]. split; [by intros []|by intros (? & [= <-] & ?)]. }
  destruct (gib_total n) as (g & Eg & Bg); [by eapply sane_mount_total|]. rewrite Eg. cbn [mbind result_bind].
  assert (∀ s : MountSizing, is_Some (Some s) ↔ ∃ n', Some n = Some n' ∧ n' ≠ 0) as Y
    by (intros s; split; [intros _; by exists n|by eexists]).
  destruct (axis_filling _ (MountRaw.used_pct m)); [|destruct (axis_filling _ _); by eexists].
  destruct (MountRaw.target_bytes m) as [t|] eqn:Et; cbn [fmap option_fmap option_map].
  - destruct (ceil_mag 99 (fdiv (of_Z t) (of_Z (Zpos _GIB)))) as [z ->]; [|cbn [mbind result_bind]; by eexists].
    change (of_Z (Zpos _GIB)) with (S754_finite false 4503599627370496 (-22)).
    apply (mag_le_mono (64 - -22 + 1)); [lia|]. apply fdiv_mag; [cbv [femax fprec]; lia|].
    apply (of_Z_mag' _ 63); [lia|]. pose proof (sane_mount_target _ S _ Et). rewrite Z.abs_eq; lia.
  - destruct (ceil_mag 120 (fdiv (of_Z g) (int_truediv RS_DISK_HEADROOM_TARGET_PCT 100))) as [z ->];
      [|cbn [mbind result_bind]; by eexists].
    replace (int_truediv RS_DISK_HEADROOM_TARGET_PCT 100) with (S754_finite false 6305039478318694 (-53)) by by vm_compute.
    change 120 with (66 - -53 + 1). apply fdiv_mag; [cbv [femax fprec]; lia|].
    apply (of_Z_mag' _ 65); [lia|]. lia.
Qed.

(** ** Axes *)

(** What a consumer may rely on: an increase is one, and never of a disk below its size; a
    decrease is one, and never of a disk; and keep is the present size. *)
Definition axis_sound (a : SizingAxis) : Prop :=
  match Axis.action a with
  | axis_increase => Axis.current a <= Axis.recommended a
                     ∧ (Axis.disk a = None → 0 < Axis.current a → Axis.current a < Axis.recommended a)
  | axis_decrease => Axis.recommended a < Axis.current a ∧ Axis.disk a = None
  | axis_keep => Axis.recommended a = Axis.current a
  end.

Lemma cpu_axis_sound stats c a n q rec act :
  assess_cpu stats = Ok a → cpu_cores stats = Some c → _axis_size c a stats = (rec, act, q) →
  axis_sound {| Axis.axis := n; Axis.current := c; Axis.recommended := rec; Axis.unit := "vcpus"; Axis.action := act;
                Axis.estimate_quality := q; Axis.disk := None |}.
Proof.
  intros H Hc E. pose proof (cpu_status _ _ H) as St. unfold _axis_size, axis_sound in *.
  cbn [Axis.action Axis.current Axis.recommended Axis.disk].
  destruct (Assess.status a) eqn:Es; try (by injection E as <- <- <-); try (exfalso; by case_in_list St).
  - destruct (cpu_under_spec _ _ H Es) as (c' & r & Hc' & Hr & [[T F]|[T F]]);
      rewrite Hc in Hc'; injection Hc' as <-; rewrite T, ?F in E; injection E as <- <- <-; split; [lia|done|lia|done].
  - destruct (cpu_over_spec _ _ H Es) as (c' & r & Hc' & T & _ & Hr & _).
    rewrite Hc in Hc'. injection Hc' as <-. rewrite T in E. destruct (downsize_prescribable _ _); injection E as <- <- <-; [|done].
    split; [lia|done].
Qed.

Lemma memory_axis_sound stats t a n q rec act :
  sane_stats stats → assess_memory stats = Ok a → mem_total_mb stats = Some t → _axis_size t a stats = (rec, act, q) →
  axis_sound {| Axis.axis := n; Axis.current := t; Axis.recommended := rec; Axis.unit := "mib"; Axis.action := act;
                Axis.estimate_quality := q; Axis.disk := None |}.
Proof.
  intros S H Ht E. unfold _axis_size, axis_sound in *. cbn [Axis.action Axis.current Axis.recommended Axis.disk].
  pose proof (sane_mem_total _ S _ Ht) as B.
  destruct (assess_memory_cases _ _ H) as [(Es & _ & T & F)|[(Es & _)|[(Es & _ & _ & total & g & Hg & T & L)|(Es & _)]]];
    rewrite Es in E.
  - destruct (sizing_target a) as [g|] eqn:Eg.
    + destruct (T g eq_refl) as [Ef L]. specialize (L _ Ht). injection E as <- <- <-. split; [lia|done].
    + destruct (F _ Ht eq_refl) as (f & Hf & Ef). rewrite Ef in E. injection E as <- <- <-.
      destruct (decide (t = 0)) as [->|].
      * split; [|done]. replace (mem_headroom_mb 0) with (Ok 0 : result Z) in Hf by by vm_compute. by injection Hf as <-.
      * pose proof (mem_headroom_above t f ltac:(lia) Hf). split; [lia|done].
  - by injection E as <- <- <-.
  - rewrite Ht in Hg. injection Hg as <-. rewrite T in E. destruct (downsize_prescribable _ _); injection E as <- <- <-; done.
  - by injection E as <- <- <-.
Qed.

Lemma mount_axis_spec raw m : sane_mount m →
  ∃ o, mount_axis raw m = Ok o
    ∧ (is_Some o ↔ ∃ n, MountRaw.total_bytes m = Some n ∧ n ≠ 0)
    ∧ ∀ a, o = Some a → axis_sound a ∧ DiskAxis.mountpoint <$> Axis.disk a = Some (MountRaw.mountpoint m).
Proof.
  intros S. destruct (mount_capacity_total m S) as (s & E & Is).
  destruct (int_opt_total (MountRaw.byte_runway_days m)) as [r Er]; [apply (sane_mount_runway _ S)|].
  unfold mount_axis. rewrite E. cbn [mbind result_bind]. destruct s as [s|].
  2: { exists None. split; [done|]. split; [|done]. rewrite <- Is. by split; intros []. }
  rewrite Er. cbn [mbind result_bind]. eexists. split; [reflexivity|].
  split; [rewrite <- Is; by split; intros _; eexists|].
  intros a [= <-]. split; [|done]. destruct (mount_never_shrinks _ _ _ _ _ _ _ E) as (L & K & _).
  unfold axis_sound. cbn [Axis.action Axis.current Axis.recommended Axis.disk].
  destruct (Assess.action s); [by split|by apply K].
Qed.

(** The mounts that are sized: those whose size is known *)
Definition sizeable (m : MountCapacityRaw) : bool := some_and (MountRaw.total_bytes m) (λ n, negb (n =? 0)).

Lemma mount_axes raw mounts : Forall sane_mount mounts →
  ∃ l, omap_result (mount_axis raw) mounts = Ok l ∧ Forall axis_sound l
    ∧ (λ a, DiskAxis.mountpoint <$> Axis.disk a) <$> l
      = Some ∘ MountRaw.mountpoint <$> filter (λ m, sizeable m = true) mounts.
Proof.
  induction 1 as [|m mounts S _ (l & E & F & M)]; [by exists []|].
  destruct (mount_axis_spec raw m S) as (o & Eo & Is & A). cbn [omap_result]. rewrite Eo, E. cbn [mbind result_bind].
  rewrite filter_cons. assert (sizeable m = true ↔ is_Some o) as Sz.
  { rewrite Is. unfold sizeable. destruct (MountRaw.total_bytes m) as [n|]; cbn; [|by split; [|intros (? & ? & _)]].
    rewrite negb_true_iff, Z.eqb_neq. split; [intros; by exists n|by intros (? & [= <-] & ?)]. }
  destruct o as [a|].
  - destruct (A a eq_refl) as [Sa Ma]. exists (a :: l). split; [done|]. split; [by constructor|].
    rewrite decide_True by by apply Sz. cbn [fmap list_fmap]. by rewrite Ma, <- M.
  - exists l. rewrite decide_False; [done|]. rewrite Sz. by intros [].
Qed.

(** ** The sizing of a server *)

(** Which of the CPU and the memory have an axis: those whose size is known *)
Definition host_axes (stats : ResourceStats) : list string :=
  match cpu_cores stats with Some _ => ["cpu"%string] | None => [] end
  ++ match mem_total_mb stats with Some _ => ["memory"%string] | None => [] end.

Lemma host_axis_cpu stats h c m d i :
  rolled stats h c m d i →
  ∃ l, host_axis stats h Cpu "vcpus" (cpu_cores stats) = Ok l ∧ Forall axis_sound l ∧ Forall (λ a, Axis.disk a = None) l
    ∧ Axis.axis <$> l = match cpu_cores stats with Some _ => ["cpu"%string] | None => [] end.
Proof.
  intros R. unfold host_axis. destruct (cpu_cores stats) as [n|] eqn:E; [|by exists []].
  rewrite (rolled_get _ _ _ _ _ _ _ R). cbn [mbind result_bind res_of].
  destruct (_axis_size n c stats) as [[rec act] q] eqn:Ea. eexists. split; [reflexivity|].
  split; [|split; [by repeat constructor|done]]. constructor; [|constructor].
  by eapply cpu_axis_sound; [apply (ro_cpu_ok _ _ _ _ _ _ R)|..].
Qed.

Lemma host_axis_memory stats h c m d i :
  sane_stats stats → rolled stats h c m d i →
  ∃ l, host_axis stats h Memory "mib" (mem_total_mb stats) = Ok l ∧ Forall axis_sound l ∧ Forall (λ a, Axis.disk a = None) l
    ∧ Axis.axis <$> l = match mem_total_mb stats with Some _ => ["memory"%string] | None => [] end.
Proof.
  intros S R. unfold host_axis. destruct (mem_total_mb stats) as [n|] eqn:E; [|by exists []].
  rewrite (rolled_get _ _ _ _ _ _ _ R). cbn [mbind result_bind res_of].
  destruct (_axis_size n m stats) as [[rec act] q] eqn:Ea. eexists. split; [reflexivity|].
  split; [|split; [by repeat constructor|done]]. constructor; [|constructor].
  by eapply memory_axis_sound; [|apply (ro_memory_ok _ _ _ _ _ _ R)|..].
Qed.

Lemma omap_none {A B} (f : A → option B) (l : list A) : Forall (λ a, f a = None) l → omap f l = [].
Proof. by induction 1 as [|a l E _ IH]; [|cbn; rewrite E]. Qed.

Lemma omap_some {A B} (f : A → option B) (l : list A) (k : list B) : f <$> l = Some <$> k → omap f l = k.
Proof.
  revert k. induction l as [|a l IH]; intros [|b k]; try done. cbn. intros [= E H]. rewrite E. f_equal. by apply IH.
Qed.

Lemma filter_none {A} (P : A → Prop) `{∀ x, Decision (P x)} (l : list A) : Forall (λ a, ¬ P a) l → filter P l = [].
Proof. induction 1 as [|a l N _ IH]; [done|]. by rewrite filter_cons_False. Qed.

Lemma filter_all {A} (P : A → Prop) `{∀ x, Decision (P x)} (l : list A) : Forall P l → filter P l = l.
Proof. induction 1 as [|a l N _ IH]; [done|]. by rewrite filter_cons_True, IH. Qed.

Lemma sizing_spec raw stats h c m d i mounts :
  sane_stats stats → rolled stats h c m d i → Forall sane_mount mounts →
  ∃ l, _sizing raw stats h mounts = Ok l ∧ Forall axis_sound l
    ∧ Axis.axis <$> filter (λ a, Axis.disk a = None) l = host_axes stats
    ∧ omap (λ a, DiskAxis.mountpoint <$> Axis.disk a) l
      = MountRaw.mountpoint <$> filter (λ m, sizeable m = true) mounts.
Proof.
  intros S R M. destruct (host_axis_cpu _ _ _ _ _ _ R) as (l1 & E1 & S1 & D1 & A1).
  destruct (host_axis_memory _ _ _ _ _ _ S R) as (l2 & E2 & S2 & D2 & A2).
  destruct (mount_axes raw mounts M) as (l3 & E3 & S3 & A3).
  unfold _sizing. rewrite E1, E2, E3. cbn [mbind result_bind]. eexists. split; [reflexivity|].
  split; [by rewrite !Forall_app|].
  assert (Forall (λ a, Axis.disk a ≠ None) l3) as D3.
  { clear -A3. revert A3. generalize (filter (λ m, sizeable m = true) mounts). induction l3 as [|a l3 IH]; intros [|k ms]; try done.
    cbn. intros [= E H]. constructor; [|by eapply IH]. intros N. by rewrite N in E. }
  rewrite list_fmap_compose in A3. split.
  - rewrite !filter_app, (filter_all _ l1 D1), (filter_all _ l2 D2), (filter_none _ l3 D3), app_nil_r, fmap_app, A1, A2. done.
  - rewrite !omap_app, (omap_some _ l3 _ A3), !omap_none; [done|..].
    + eapply Forall_impl; [exact D2|]. intros a E. cbn in *. by rewrite E.
    + eapply Forall_impl; [exact D1|]. intros a E. cbn in *. by rewrite E.
Qed.

(** ** The verdict *)

Lemma assessment_quality h :
  let q := _assessment h in
  Quality.classification q = host_status_to_recommendation (host_status h)
  ∧ (Quality.confidence q = "high"%string ↔ Quality.notes q = [])
  ∧ (Quality.sufficient q = true ↔ Quality.confidence q = "high"%string)
  ∧ (Quality.classification q = insufficient_data → Quality.confidence q = "low"%string)
  ∧ Quality.confidence q ∈ ["low"; "medium"; "high"]%string.
Proof.
  cbn zeta. unfold _assessment.
  cbn [Quality.classification Quality.confidence Quality.sufficient Quality.notes].
  generalize (build_host_confidence_notes h) as ns. generalize (host_status_to_recommendation (host_status h)) as rec.
  intros rec ns. destruct rec, ns; cbn; repeat split; (done || in_list).
Qed.

Lemma diagnostics_total raw stats h c m d i :
  rolled stats h c m d i →
  ∃ g, _diagnostics raw stats h = Ok g ∧ Diag.root_cause_detail g = text_or_none (root_cause_display h)
    ∧ Diag.axis <$> Diag.resources g = ["cpu"; "memory"; "disk"; "disk_io"; "network"]%string
    ∧ Diag.network_congested g = network_congested h.
Proof.
  intros R. unfold _diagnostics, _DIAG_AXES. cbn [map_result].
  rewrite !(rolled_get _ _ _ _ _ _ _ R). cbn [mbind result_bind]. by eexists.
Qed.


(** ** The two APIs *)

Lemma axis_increase_exact c ra stats r :
  _axis_size c ra stats = (r, axis_increase, quality_exact) ↔ Assess.status ra = Under ∧ sizing_target ra = Some r.
Proof.
  unfold _axis_size. destruct (Assess.status ra), (sizing_target ra), (sizing_floor ra);
    try destruct (downsize_prescribable ra stats); split; naive_solver.
Qed.

Lemma axis_decrease_exact c ra stats r :
  _axis_size c ra stats = (r, axis_decrease, quality_exact)
  ↔ Assess.status ra = Over ∧ sizing_target ra = Some r ∧ downsize_prescribable ra stats = true.
Proof.
  unfold _axis_size. destruct (Assess.status ra), (sizing_target ra), (sizing_floor ra);
    try destruct (downsize_prescribable ra stats); split; naive_solver.
Qed.

(** A memory that is enlarged to a target has a known size. *)
Lemma memory_target_known stats a t :
  assess_memory stats = Ok a → sizing_target a = Some t → mem_total_mb stats ≠ None.
Proof.
  unfold assess_memory. intros H T N. rewrite N in H.
  destruct (mem_p95_pct stats) as [u|].
  - cbn [_mem_target_mb mbind result_bind] in H. destruct (negb _).
    + unfold _mem_under_target in H. rewrite N in H. cbn in H. by injection H as <-.
    + by injection H as <-.
  - destruct (oom_occurred stats); [cbn in H|]; by injection H as <-.
Qed.

Section agree.
Context (stats : ResourceStats) (h : HostAssessment) (c m d i : ResourceAssessment).
Hypothesis Hr : rollup_host stats = Ok h.
Hypothesis R : rolled stats h c m d i.

(** The size of the CPU and of the memory, and their assessments *)
Definition size_known (k : ResourceKind) : option Z :=
  match k with Cpu => cpu_cores stats | Memory => mem_total_mb stats | _ => None end.

Abbreviation assessed k := (res_of c m d i (assess_network stats) k).

Lemma actions_of_rolled op ks : actions_of h op ks = Ok ((λ k, _action k (assessed k) op) <$> ks).
Proof.
  unfold actions_of. induction ks as [|k ks IH]; [done|]. cbn [map_result].
  rewrite (rolled_get _ _ _ _ _ _ _ R). cbn [mbind result_bind]. by rewrite IH.
Qed.

Lemma downsizes_rolled k :
  downsizes h stats k = true
  ↔ Assess.status (assessed k) = Over ∧ downsize_prescribable (assessed k) stats = true ∧ is_Some (sizing_target (assessed k)).
Proof.
  unfold downsizes. rewrite (ro_lookup _ _ _ _ _ _ R), !andb_true_iff, bool_decide_eq_true. unfold is_some.
  destruct (sizing_target _) as [t|].
  - split; [intros [[? ?] _]; by eauto|by intros (? & ? & _)].
  - split; [by intros [_ ?]|by intros (_ & _ & [? ?])].
Qed.

(** The sized actions of a recommendation, other than the hint about the disk's tier *)
Lemma recommendation_actions adv a :
  _recommendation h stats (host_status_to_recommendation (host_status h)) = Ok adv → Act.resource a ∈ [Cpu; Memory] →
  (a ∈ Advice.actions adv ↔
   (host_status h = HostUnder ∧ ∃ k, k ∈ _under_kinds h ∧ a = _action k (assessed k) "increase")
   ∨ (host_status h = HostOver ∧ ∃ k, k ∈ [Cpu; Memory] ∧ downsizes h stats k = true ∧ a = _action k (assessed k) "decrease")).
Proof.
  intros H Ka. destruct (prescription_total _ _ Hr) as [text Et].
  unfold _recommendation in H. rewrite (rolled_get _ _ _ _ _ _ _ R) in H. cbn [mbind result_bind] in H.
  set (io := if bool_decide _ then [_] else []) in H.
  assert (a ∉ io) as Nio.
  { unfold io. case_bool_decide; [|apply not_elem_of_nil]. intros ->%list_elem_of_singleton. cbn in Ka.
    by apply elem_of_cons in Ka as [|[|?%not_elem_of_nil]%elem_of_cons]. }
  destruct (host_status h) eqn:Eh; cbn [host_status_to_recommendation _HOST_STATUS_TO_REC] in H;
    rewrite ?actions_of_rolled, ?Et in H; cbn [mbind result_bind] in H; injection H as <-; cbn [Advice.actions].
  - rewrite elem_of_app, list_elem_of_fmap. unfold prescribed_under_kinds. split.
    + intros [(k & -> & Hk)|]; [|done]. left. eauto.
    + intros [(_ & k & Hk & ->)|(? & _)]; [|done]. left. eauto.
  - split; [done|]. by intros [(? & _)|(? & _)].
  - rewrite elem_of_app, list_elem_of_fmap. setoid_rewrite list_elem_of_filter. split.
    + intros [(k & -> & Hd & Hk)|]; [|done]. right. eauto.
    + intros [(? & _)|(_ & k & Hk & Hd & ->)]; [done|]. left. eauto.
  - split; [done|]. by intros [(? & _)|(? & _)].
  - split; [done|]. by intros [(? & _)|(? & _)].
Qed.

(** The axis of the CPU or of the memory *)
Lemma host_axis_elem k unit l x :
  host_axis stats h k unit (size_known k) = Ok l →
  (x ∈ l ↔ ∃ n, size_known k = Some n
    ∧ _axis_size n (assessed k) stats = (Axis.recommended x, Axis.action x, Axis.estimate_quality x)
    ∧ x = {| Axis.axis := kind_name k; Axis.current := n; Axis.recommended := Axis.recommended x; Axis.unit := unit;
             Axis.action := Axis.action x; Axis.estimate_quality := Axis.estimate_quality x; Axis.disk := None |}).
Proof.
  unfold host_axis. destruct (size_known k) as [n|].
  2: { intros [= <-]. split; [by intros ?%not_elem_of_nil|by intros (? & ? & _)]. }
  rewrite (rolled_get _ _ _ _ _ _ _ R). cbn [mbind result_bind].
  destruct (_axis_size n (assessed k) stats) as [[r act] q] eqn:E. intros [= <-]. rewrite list_elem_of_singleton. split.
  - intros ->. exists n. by rewrite E.
  - intros (n' & [= <-] & E' & ->). rewrite E in E'. injection E' as -> -> ->. done.
Qed.
End agree.

Lemma mount_axis_named raw m a : mount_axis raw m = Ok (Some a) → Axis.axis a = "disk"%string.
Proof.
  unfold mount_axis. intros H. apply result_bind_ok in H as ([s|] & _ & H); [|done].
  apply result_bind_ok in H as (r & _ & H). by injection H as <-.
Qed.

Lemma mount_axes_named raw mounts l : omap_result (mount_axis raw) mounts = Ok l → Forall (λ a, Axis.axis a = "disk"%string) l.
Proof.
  revert l. induction mounts as [|m mounts IH]; intros l H; cbn [omap_result] in H; [by injection H as <-|].
  apply result_bind_ok in H as (o & Ho & H). apply result_bind_ok in H as (l' & Hl & H). injection H as <-.
  destruct o as [a|]; [constructor; [by eapply mount_axis_named|]|]; by apply IH.
Qed.

(** The axes of the CPU and of the memory, among all *)
Lemma sizing_elem raw stats h c m d i mounts l k x :
  rolled stats h c m d i → _sizing raw stats h mounts = Ok l → k ∈ [Cpu; Memory] →
  (x ∈ l ∧ Axis.axis x = kind_name k ↔ ∃ n, size_known stats k = Some n
    ∧ _axis_size n (res_of c m d i (assess_network stats) k) stats = (Axis.recommended x, Axis.action x, Axis.estimate_quality x)
    ∧ x = {| Axis.axis := kind_name k; Axis.current := n; Axis.recommended := Axis.recommended x;
             Axis.unit := match k with Cpu => "vcpus" | _ => "mib" end;
             Axis.action := Axis.action x; Axis.estimate_quality := Axis.estimate_quality x; Axis.disk := None |}).
Proof.
  intros R H Hk. unfold _sizing in H. apply result_bind_ok in H as (l1 & H1 & H).
  apply result_bind_ok in H as (l2 & H2 & H). apply result_bind_ok in H as (l3 & H3 & H). injection H as <-.
  apply mount_axes_named in H3. rewrite Forall_forall in H3.
  change (cpu_cores stats) with (size_known stats Cpu) in H1. change (mem_total_mb stats) with (size_known stats Memory) in H2.
  pose proof (λ x, host_axis_elem _ _ _ _ _ _ R _ _ _ x H1) as X1. pose proof (λ x, host_axis_elem _ _ _ _ _ _ R _ _ _ x H2) as X2.
  assert (∀ x, x ∈ l1 → Axis.axis x = "cpu"%string) as N1 by (intros y (n & _ & _ & ->)%X1; done).
  assert (∀ x, x ∈ l2 → Axis.axis x = "memory"%string) as N2 by (intros y (n & _ & _ & ->)%X2; done).
  rewrite !elem_of_app. apply elem_of_cons in Hk as [->|[->|?%not_elem_of_nil]%elem_of_cons]; [| |done].
  - rewrite <- X1. split; [|by auto].
    intros [[I|[I%N2|I%H3]] E]; [done| |]; by rewrite I in E.
  - rewrite <- X2. split; [|by auto].
    intros [[I%N1|[I|I%H3]] E]; [|done|]; by rewrite I in E.
Qed.

(** What the right-sizing API tells a consumer to do, and what the assessment API sizes *)
Definition target_of (a : RsAction) : option Z :=
  match Act.resource a with
  | Cpu => Act.target_cores a | Memory => Act.target_mb a | DiskCapacity => Act.target_gb a | _ => None
  end.

Definition told (v : RightSizingServer) (op : string) (k : ResourceKind) (t : Z) : Prop :=
  ∃ a, a ∈ Advice.actions (Verdict.recommendation v) ∧ Act.resource a = k ∧ Act.op a = op ∧ target_of a = Some t.

Definition sized (e : AssessmentServer) (k : ResourceKind) (act : AxisAction) (t : Z) : Prop :=
  ∃ x, x ∈ Entry.sizing e ∧ Axis.axis x = kind_name k ∧ Axis.action x = act ∧ Axis.estimate_quality x = quality_exact
       ∧ Axis.recommended x = t.

Lemma target_of_action k ra op : target_of (_action k ra op) = match k with DiskIo | Network => None | _ => sizing_target ra end.
Proof. by destruct k. Qed.

Lemma sized_iff raw stats h c m d i mounts e k act t :
  rolled stats h c m d i → _sizing raw stats h mounts = Ok (Entry.sizing e) → k ∈ [Cpu; Memory] →
  sized e k act t ↔ ∃ n, size_known stats k = Some n
    ∧ _axis_size n (res_of c m d i (assess_network stats) k) stats = (t, act, quality_exact).
Proof.
  intros R H Hk. unfold sized. split.
  - intros (x & Hx & Nx & <- & Qx & <-). apply (conj Hx) in Nx.
    apply (sizing_elem _ _ _ _ _ _ _ _ _ _ _ R H Hk) in Nx as (n & Hn & E & _). rewrite Qx in E. eauto.
  - intros (n & Hn & E).
    set (x := {| Axis.axis := kind_name k; Axis.current := n; Axis.recommended := t;
                 Axis.unit := match k with Cpu => "vcpus" | _ => "mib" end; Axis.action := act;
                 Axis.estimate_quality := quality_exact; Axis.disk := None |}).
    assert (x ∈ Entry.sizing e ∧ Axis.axis x = kind_name k) as [I N].
    { apply (sizing_elem _ _ _ _ _ _ _ _ _ _ _ R H Hk). by exists n. }
    by exists x.
Qed.

Lemma under_kind_elem stats h c m d i k :
  rolled stats h c m d i → k ∈ [Cpu; Memory] →
  k ∈ _under_kinds h ↔ Assess.status (res_of c m d i (assess_network stats) k) = Under.
Proof.
  intros R Hk. rewrite (under_kinds_rolled _ _ _ _ _ _ R), !elem_of_app.
  assert (∀ (P : Prop) `{Decision P} (k' : ResourceKind), k ∈ (if decide P then [k'] else []) ↔ P ∧ k = k') as X.
  { intros P ? k'. destruct (decide P); [rewrite list_elem_of_singleton; tauto|].
    split; [by intros ?%not_elem_of_nil|tauto]. }
  rewrite !X. apply elem_of_cons in Hk as [->|[->|?%not_elem_of_nil]%elem_of_cons]; [| |done]; cbn [res_of];
    split; (intros [[_ ?]|[[? ?]|[_ ?]]]; done) || (intros; tauto) || naive_solver.
Qed.

Lemma told_increase stats h c m d i v k t :
  rollup_host stats = Ok h → rolled stats h c m d i → k ∈ [Cpu; Memory] →
  _recommendation h stats (host_status_to_recommendation (host_status h)) = Ok (Verdict.recommendation v) →
  let ra := res_of c m d i (assess_network stats) k in
  told v "increase" k t ↔ Assess.status ra = Under ∧ sizing_target ra = Some t.
Proof.
  intros Hr R Hk Ha ra. pose proof (under_kind_elem _ _ _ _ _ _ _ R Hk) as U. fold ra in U. rewrite <- U. split.
  - intros (a & I & Ka & Op & T). apply (recommendation_actions _ _ _ _ _ _ Hr R _ _ Ha) in I; [|by rewrite Ka].
    destruct I as [(_ & k' & Hk' & ->)|(_ & k' & _ & _ & ->)]; [|done]. cbn in Ka. subst k'. split; [done|].
    rewrite target_of_action in T. by apply elem_of_cons in Hk as [->|[->|?%not_elem_of_nil]%elem_of_cons].
  - intros [Hu T]. exists (_action k ra "increase"). split; [|split; [done|split; [done|]]].
    + apply (recommendation_actions _ _ _ _ _ _ Hr R _ _ Ha); [done|]. left. split; [|eauto].
      apply (host_under_pressed _ _ _ _ _ _ R), (under_kinds_pressed _ _ _ _ _ _ R). intros E. rewrite E in Hu.
      by apply not_elem_of_nil in Hu.
    + rewrite target_of_action. by apply elem_of_cons in Hk as [->|[->|?%not_elem_of_nil]%elem_of_cons].
Qed.

Lemma told_decrease stats h c m d i v k t :
  rollup_host stats = Ok h → rolled stats h c m d i → k ∈ [Cpu; Memory] →
  _recommendation h stats (host_status_to_recommendation (host_status h)) = Ok (Verdict.recommendation v) →
  let ra := res_of c m d i (assess_network stats) k in
  told v "decrease" k t
  ↔ (Assess.status ra = Over ∧ sizing_target ra = Some t ∧ downsize_prescribable ra stats = true) ∧ host_status h = HostOver.
Proof.
  intros Hr R Hk Ha ra. pose proof (downsizes_rolled _ _ _ _ _ _ R k) as D. fold ra in D. split.
  - intros (a & I & Ka & Op & T). apply (recommendation_actions _ _ _ _ _ _ Hr R _ _ Ha) in I; [|by rewrite Ka].
    destruct I as [(_ & k' & _ & ->)|(Ho & k' & _ & Hd & ->)]; [done|]. cbn in Ka. subst k'.
    rewrite target_of_action in T. apply D in Hd as (? & ? & _).
    by apply elem_of_cons in Hk as [->|[->|?%not_elem_of_nil]%elem_of_cons].
  - intros [(So & T & P) Ho]. exists (_action k ra "decrease"). split; [|split; [done|split; [done|]]].
    + apply (recommendation_actions _ _ _ _ _ _ Hr R _ _ Ha); [done|]. right. split; [done|]. exists k.
      split; [done|]. split; [|done]. apply D. by rewrite T.
    + rewrite target_of_action. by apply elem_of_cons in Hk as [->|[->|?%not_elem_of_nil]%elem_of_cons].
Qed.

(** An under- or over-provisioned resource with a target has a known size. *)
Lemma target_size_known stats h c m d i k t :
  rolled stats h c m d i → k ∈ [Cpu; Memory] →
  let ra := res_of c m d i (assess_network stats) k in
  Assess.status ra ∈ [Under; Over] → sizing_target ra = Some t → is_Some (size_known stats k).
Proof.
  intros R Hk ra Hs T. unfold ra in *. apply elem_of_cons in Hk as [->|[->|?%not_elem_of_nil]%elem_of_cons]; [| |done];
    cbn [res_of size_known] in *.
  - apply elem_of_cons in Hs as [Es|[Es|?%not_elem_of_nil]%elem_of_cons]; [| |done].
    + destruct (cpu_under_spec _ _ (ro_cpu_ok _ _ _ _ _ _ R) Es) as (n & _ & -> & _). by eexists.
    + destruct (cpu_over_spec _ _ (ro_cpu_ok _ _ _ _ _ _ R) Es) as (n & _ & -> & _). by eexists.
  - pose proof (memory_target_known _ _ _ (ro_memory_ok _ _ _ _ _ _ R) T). by destruct (mem_total_mb stats); [eexists|].
Qed.

(** C10. The two APIs say one thing.  Of one row, the right-sizing verdict and the assessment
    have the same classification and the same root cause; the CPU or the memory is told to
    grow to a size exactly when its axis is sized to that size, exactly and upwards; and it is
    told to shrink to a size exactly when its axis is so sized downwards and the host is
    over-provisioned (the assessment also offers the shrinking of an idle host, or of one
    resource of a host that lacks another). *)
Theorem apis_agree (raw : ReportRowRaw) (mounts : list MountCapacityRaw) (is_online ambiguous : bool)
  (speeds : option (gmap string Z)) (e : AssessmentServer) (v : RightSizingServer)
  (He : build_assessment_entry raw mounts is_online ambiguous speeds = Ok e)
  (Hv : build_right_sizing_entry raw is_online ambiguous = Ok v) :
  Quality.classification (Entry.assessment e) = Verdict.classification v
  ∧ Diag.root_cause_detail (Entry.diagnostics e) = Verdict.root_cause v
  ∧ Diag.network_congested (Entry.diagnostics e) = RsNet.congested (Verdict.network v)
  ∧ ∀ k t, k ∈ [Cpu; Memory] →
      (told v "increase" k t ↔ sized e k axis_increase t)
      ∧ (told v "decrease" k t ↔ sized e k axis_decrease t ∧ Verdict.classification v = over_provisioned).
Proof.
  unfold build_assessment_entry in He. apply result_bind_ok in He as (h & Hr & He).
  destruct (rollup_inv _ _ Hr) as (c & m & d & i & R).
  apply result_bind_ok in He as (l & Hl & He). apply result_bind_ok in He as (g & Hg & He).
  unfold build_right_sizing_entry in Hv. rewrite Hr in Hv. cbn [mbind result_bind] in Hv.
  rewrite (rolled_get _ _ _ _ _ _ _ R) in Hv. cbn [mbind result_bind res_of] in Hv.
  apply result_bind_ok in Hv as (adv & Ha & Hv). apply result_bind_ok in Hv as (rc & _ & Hv).
  apply result_bind_ok in Hv as (rm & _ & Hv). apply result_bind_ok in Hv as (rd & _ & Hv).
  destruct (diagnostics_total raw _ _ _ _ _ _ R) as (g' & Hg' & Dg & _ & Ng). rewrite Hg in Hg'. injection Hg' as <-.
  injection He as He. injection Hv as Hv. set (stats := build_resource_stats raw None) in *.
  assert (_sizing raw stats h mounts = Ok (Entry.sizing e)) as Hl' by (by rewrite <- He).
  assert (_recommendation h stats (host_status_to_recommendation (host_status h)) = Ok (Verdict.recommendation v)) as Ha'
    by (by rewrite <- Hv).
  split; [by rewrite <- He, <- Hv|]. split; [by rewrite <- He, <- Hv|]. split; [by rewrite <- He, <- Hv|].
  intros k t Hk. rewrite (told_increase _ _ _ _ _ _ _ _ t Hr R Hk Ha'), (told_decrease _ _ _ _ _ _ _ _ t Hr R Hk Ha'),
    !(sized_iff _ _ _ _ _ _ _ _ _ _ _ t R Hl' Hk).
  setoid_rewrite axis_increase_exact. setoid_rewrite axis_decrease_exact.
  pose proof (target_size_known _ _ _ _ _ _ _ t R Hk) as K. cbn zeta in K.
  assert (Verdict.classification v = over_provisioned ↔ host_status h = HostOver) as ->
    by (rewrite <- Hv; cbn; by destruct (host_status h)).
  split; split.
  - intros [Hs T]. rewrite Hs in K. destruct (K ltac:(in_list) T) as [n Hn]. eauto.
  - by intros (n & _ & Hs & T).
  - intros [(Hs & T & P) Ho]. rewrite Hs in K. destruct (K ltac:(in_list) T) as [n Hn]. eauto 10.
  - intros [(n & _ & Hs & T & P) Ho]. done.
Qed.

(** ** The file *)

Lemma split_csv_join l : Forall (λ t, without "," t = true) l → split_csv (Some (str_join "," l)) = stripped l.
Proof.
  intros H. unfold split_csv, stripped. cbn [from_option id]. destruct (decide (l = [])) as [->|N]; [done|].
  by rewrite split_on_join.
Qed.

Lemma split_pairs_stripped l : split_pairs (stripped l) = split_pairs l.
Proof.
  unfold split_pairs, stripped. induction l as [|t l IH]; [done|]. rewrite fmap_cons, filter_cons.
  destruct (decide (strip_chars is_space t ≠ ""%string)) as [N|N]; cbn [omap list_omap].
  - by rewrite parse_pair_strip, <- IH.
  - rewrite parse_pair_blank, <- IH; [done|]. by destruct (decide (strip_chars is_space t = ""%string)).
Qed.

(** C17. The exported file is the answer of the API.  A request for the file whose tokens hold no
    comma gives what the request for the assessment with the tokens joined by commas gives, for
    the same window: the same servers, warnings, filters and times, errors and effects
    included; blanks around a token, blank tokens and blanks inside a pair make no difference. *)
Theorem export_is_get {R : Type} `{RedisClient R} {Q : Type} `{FleetRepo Q} `{AssessmentRepo Q} (now : datetime)
  (req : AssessmentExportRequest)
  (Hc : Forall (λ t, without "," t = true)
          (ExportRequest.hostname req ++ ExportRequest.ip req ++ ExportRequest.public_id req ++ ExportRequest.pair req)) :
  let joined (l : list string) := Some (str_join "," l) in
  export_inventory now req
  = assessment_endpoint now (joined (ExportRequest.hostname req)) (joined (ExportRequest.ip req))
      (joined (ExportRequest.pair req)) (joined (ExportRequest.public_id req)) (ExportRequest.window_days req)
      (ExportRequest.end_ req).
Proof.
  cbn zeta. rewrite !Forall_app in Hc. destruct Hc as (Hh & Hi & Hp & Hq).
  unfold export_inventory, assessment_endpoint.
  assert (query_filters (Some (str_join "," (ExportRequest.hostname req))) (Some (str_join "," (ExportRequest.ip req)))
            (Some (str_join "," (ExportRequest.public_id req))) (Some (str_join "," (ExportRequest.pair req)))
          = body_filters req) as ->; [|done].
  unfold query_filters, body_filters, split_pairs_csv. by rewrite !split_csv_join, split_pairs_stripped.
Qed.

(** ** Concrete requests *)

(** A volume of 100 GiB with 12 days left on it, and one of unknown size *)
Definition root_mount : MountCapacityRaw := {|
  MountRaw.mountpoint := "/"; MountRaw.total_bytes := Some (100 * 2 ^ 30); MountRaw.used_pct := Some (of_Z 91);
  MountRaw.byte_runway_days := Some (of_Z 12); MountRaw.inode_runway_days := None; MountRaw.inode_used_pct := None;
  MountRaw.target_bytes := Some (150 * 2 ^ 30) |}.

Definition lost_mount : MountCapacityRaw := {|
  MountRaw.mountpoint := "/mnt"; MountRaw.total_bytes := None; MountRaw.used_pct := None; MountRaw.byte_runway_days := None;
  MountRaw.inode_runway_days := None; MountRaw.inode_used_pct := None; MountRaw.target_bytes := None |}.

Lemma sane_mounts : Forall sane_mount [root_mount; lost_mount].
Proof.
  apply Forall_cons_2; [|apply Forall_cons_2; [|by apply Forall_nil]]; split; cbn; intros x; (discriminate || intros [= <-]);
    (lia || by_eval).
Qed.

(** A host with four cores and next to nothing to do *)
Definition quiet_row : ReportRowRaw := {|
  RawRow.server_id := 1; RawRow.public_id := "srv-1"; RawRow.hostname := "db-1";
  RawRow.os_family := Some "linux"%string; RawRow.os_id := Some "ubuntu"%string;
  RawRow.os_version := Some "22.04"%string; RawRow.os_codename := None; RawRow.kernel_version := None;
  RawRow.net_interfaces := None; RawRow.services := None; RawRow.last_seen_at := None;
  RawRow.cpu_p95_pct := Some (of_Z 2); RawRow.cpu_avg_pct := Some (of_Z 2);
  RawRow.cpu_peak_pct := Some (of_Z 3); RawRow.mem_p95_pct := Some (of_Z 10); RawRow.mem_avg_pct := None;
  RawRow.mem_peak_pct := None; RawRow.mem_near_peak_pct := None; RawRow.listen_ports := None;
  RawRow.iowait_p95_pct := None; RawRow.iowait_peak_pct := None; RawRow.cpu_run_queue_p95 := Some (of_Z 1);
  RawRow.mem_pages_input_rate_p95 := None; RawRow.cpu_cores := Some 4;
  RawRow.mem_total_bytes := Some (8 * 1024 ^ 3); RawRow.block_devices := None; RawRow.lvm_vgs := None;
  RawRow.arch := None; RawRow.bits := None; RawRow.boot_firmware := None; RawRow.secure_boot := None;
  RawRow.edition := None; RawRow.product_name := None; RawRow.timezone := None; RawRow.rtc_utc := None;
  RawRow.boot := None; RawRow.nonblock_mounts := None; RawRow.boot_time := None;
  RawRow.worst_mount_used_pct := Some (of_Z 40); RawRow.disk_capacity_worst_mount := None;
  RawRow.reboot_count := 0; RawRow.agent_restart_count := 0; RawRow.disk_iops_baseline := Some 1;
  RawRow.disk_iops_p95 := Some (of_Z 1); RawRow.disk_iops_peak := None; RawRow.disk_throughput_kbps := None;
  RawRow.disk_throughput_kbps_p95 := None; RawRow.disk_throughput_kbps_peak := None;
  RawRow.net_rx_kbps := Some (of_Z 1); RawRow.net_rx_kbps_p95 := None; RawRow.net_rx_kbps_peak := None;
  RawRow.net_tx_kbps := Some (of_Z 1); RawRow.net_tx_kbps_p95 := None; RawRow.net_tx_kbps_peak := None;
  RawRow.cpu_sufficiency := Some (of_Z 1); RawRow.mem_sufficiency := Some (of_Z 1); RawRow.cpu_steal_p95_pct := None;
  RawRow.cpu_burst_ratio := Some (of_Z 1); RawRow.procs_blocked_p95 := None; RawRow.procs_running_p95 := Some (of_Z 2);
  RawRow.mem_swap_paging := false; RawRow.oom_occurred := false; RawRow.history_hours := Some (of_Z 336);
  RawRow.disk_await_p95_ms := Some (of_Z 2); RawRow.disk_capacity_runway_days := None;
  RawRow.disk_capacity_driving_mount := None; RawRow.disk_inode_runway_days := None;
  RawRow.disk_inode_used_pct := None; RawRow.disk_capacity_target_gb := None;
  RawRow.disk_capacity_proj_30d_pct := None; RawRow.disk_capacity_driving_used_pct := None;
  RawRow.net_drop_pct := None; RawRow.net_retrans_pct := None; RawRow.conntrack_ratio := None;
  RawRow.cpu_trend_slope := None; RawRow.mem_trend_slope := None; RawRow.cpu_percore_p95_max := None |}.


(** An idle host: the one API sizes its CPU down to a core, the other does not tell it to shrink. *)
Lemma apis_agree_witness :
  ∃ e v, build_assessment_entry quiet_row [root_mount] true false None = Ok e
    ∧ build_right_sizing_entry quiet_row true false = Ok v
    ∧ sized e Cpu axis_decrease 1 ∧ ¬ told v "decrease" Cpu 1.
Proof.
  assert (is_ok (build_assessment_entry quiet_row [root_mount] true false None) = true) as Oe by by_eval.
  assert (is_ok (build_right_sizing_entry quiet_row true false) = true) as Ov by by_eval.
  assert ((v ← build_right_sizing_entry quiet_row true false; Ok (Verdict.classification v)) = Ok idle) as I by by_eval.
  assert ((e ← build_assessment_entry quiet_row [root_mount] true false None; Ok (head (Entry.sizing e)))
          = Ok (Some {| Axis.axis := "cpu"; Axis.current := 4; Axis.recommended := 1; Axis.unit := "vcpus";
                        Axis.action := axis_decrease; Axis.estimate_quality := quality_exact; Axis.disk := None |})) as S by by_eval.
  destruct (build_assessment_entry quiet_row [root_mount] true false None) as [e|] eqn:He; [|discriminate Oe].
  destruct (build_right_sizing_entry quiet_row true false) as [v|] eqn:Hv; [|discriminate Ov].
  exists e, v. split; [reflexivity|]. split; [reflexivity|]. split.
  - cbn [mbind result_bind] in S. injection S as S. destruct (Entry.sizing e) as [|x l] eqn:El; [discriminate S|].
    injection S as ->. unfold sized. rewrite El. eexists. split; [apply list_elem_of_here|]. repeat split.
  - destruct (apis_agree quiet_row [root_mount] true false None e v He Hv) as (_ & _ & _ & A).
    destruct (A Cpu 1 ltac:(in_list)) as [_ D]. intros [_ O]%D. cbn [mbind result_bind] in I. rewrite O in I. discriminate I.
Defined.

(** A fleet of one server, its disk filling up *)
#[local] Instance one_server : FleetRepo unit := {
  list_server_ids _ := mret [1];
  get_servers ids := mret ((λ n, named_server n "db-1" "10.0.0.1") <$> ids);
  report_aggregate _ _ _ := mret [io_row];
  report_net_io_baseline _ _ _ := mret ∅;
  environment_utilization _ _ := raise (OtherError "not asked");
  fleet_error_summary _ _ := raise (OtherError "not asked");
  latest_metric_at := mret None;
  metric_gap_warnings _ _ _ := mret [];
  agent_restart_counts_recent _ _ := mret [];
}.

#[local] Instance one_volume : AssessmentRepo unit := {
  report_mount_capacity_batch _ _ := mret {[ 1 := [root_mount] ]};
  latest_link_speed _ _ := mret ∅;
}.

Definition idle_world : MapRedis * unit := ({| mr_keys := ∅; mr_outages := [] |}, tt).

Definition for_db_1 : AssessmentExportRequest := {|
  ExportRequest.hostname := [" db-1 "; "db-2"; ""]; ExportRequest.ip := [];
  ExportRequest.public_id := []; ExportRequest.pair := ["db-1 ~ 10.0.0.1"]; ExportRequest.window_days := 14;
  ExportRequest.end_ := Some 0 |}%string.

Lemma export_is_get_witness :
  let get := assessment_endpoint 0 (Some " db-1 ,db-2,") (Some "") (Some "db-1 ~ 10.0.0.1") (Some "") 14 (Some 0) idle_world in
  export_inventory 0 for_db_1 idle_world = get
  ∧ (e ← get.1; Ok (Envelope.count e, Envelope.filter_pair e, Found.unmatched_filters (Envelope.found e)))
    = Ok (1, ["db-1~10.0.0.1"], Some ["db-2"])%string.
Proof.
  cbv zeta. split; [|by_eval]. rewrite (export_is_get 0 for_db_1); [reflexivity|].
  repeat (apply Forall_cons_2; [by_eval|]). apply Forall_nil_2.
Defined.
