(* ===== verification/EnvReport.v ===== *)
(** * The report over many servers

    Models [src/assessment_engine/web/services/mappers/environment_report.py] and its view
    models: from the rows of a report, the overview and the attention signals, the
    counts, the catalog of services, the trends and the sentences that a report of an
    environment, of a selection or of one server shows. *)

From S2P Require Import Prelude PyFloat PyText PyList Sql Wire Devices MetricViews Services EolCatalog OsEol StorageTree Reports RightSizing Assess Rollup Outbound ServerViews HostRows PeriodCard ActionTable Topology Fleet.

(** ** View models ([view_models/environment_report.py], [view_models/report.py]) *)

Module ClassCount.
Record ClassificationCount := {
  key : Recommendation;
  label : string;
  count : Z;
  color : string;
  description : string;
  pct : float;
}.
End ClassCount.
Abbreviation ClassificationCount := ClassCount.ClassificationCount.

Module OsRow.
Record OsCount := { family : string; distro : string; version : string; count : Z; kernel_versions : string }.
End OsRow.
Abbreviation OsCount := OsRow.OsCount.

Module DistBar.
Record DistributionBar := { label : string; count : Z; pct : float }.
End DistBar.
Abbreviation DistributionBar := DistBar.DistributionBar.

Module Breakdown.
Record MemoryBreakdown := {
  used_pct : option float;
  available_pct : option float;
  cached_pct : option float;
  buffers_pct : option float;
}.
Record CpuBreakdown := { user_pct : option float; system_pct : option float; iowait_pct : option float }.
End Breakdown.
Abbreviation MemoryBreakdown := Breakdown.MemoryBreakdown.
Abbreviation CpuBreakdown := Breakdown.CpuBreakdown.

Module SvcHost.
Record ServiceHost := { hostname : string; public_id : string }.
End SvcHost.
Abbreviation ServiceHost := SvcHost.ServiceHost.

Module SvcCount.
Record ServiceNameCount := { name : string; count : Z; hosts : list ServiceHost }.
End SvcCount.
Abbreviation ServiceNameCount := SvcCount.ServiceNameCount.

Module SvcGroup.
Record ServiceCatalogGroup := { category : string; total_count : Z; services : list ServiceNameCount }.
End SvcGroup.
Abbreviation ServiceCatalogGroup := SvcGroup.ServiceCatalogGroup.

Module AttnHost.
Record AttentionHostItem := {
  public_id : string;
  hostname : string;
  os_display : string;
  gap_label : option string;
  os_eol_label : option string;
  restart_label : option string;
  active_count : Z;
}.
End AttnHost.
Abbreviation AttentionHostItem := AttnHost.AttentionHostItem.

Module Imminent.
Record CapacityImminentItem := {
  public_id : string;
  hostname : string;
  worst_mount : string;
  days_until_full : Z;
  used_pct : option float;
}.
End Imminent.
Abbreviation CapacityImminentItem := Imminent.CapacityImminentItem.

Module Summary.
Record ReportSummary := {
  rows : list ReportRowItem;
  period_days : float;
  total : Z;
  online : Z;
  risk_attention : Z;
  risk_high : Z;
  avg_cpu_p95_pct : option float;
  avg_mem_p95_pct : option float;
  totals : ReportTotals;
  summary_bullets : list string;
  role_distribution : list (string * Z);
  os_family_summary : string;
  workload_summary : string;
  generated_at : option datetime;
  anchor_at : option datetime;
}.
End Summary.
Abbreviation ReportSummary := Summary.ReportSummary.

(** The fields of the summary that only the report of one server fills in *)
Module Single.
Record SingleParts := {
  sat_trend : list json;
  server_inventory : option ServerInventorySnapshot;
  memory_breakdown : option MemoryBreakdown;
  cpu_breakdown : option CpuBreakdown;
  period_assessment : option PeriodAssessment;
  storage_tree : list StorageNode;
  network_interfaces : list NetworkInterfaceInfo;
}.
End Single.
Abbreviation SingleParts := Single.SingleParts.

(** Their defaults *)
Definition no_single_parts : SingleParts := {|
  Single.sat_trend := []; Single.server_inventory := None; Single.memory_breakdown := None; Single.cpu_breakdown := None;
  Single.period_assessment := None; Single.storage_tree := []; Single.network_interfaces := [] |}.

Module EnvReport.
Record EnvironmentReportSummary := {
  view : ReportView;
  time_range : string;
  time_range_label : string;
  anchor_at : datetime;
  generated_at : datetime;
  overview : EnvironmentOverview;
  attention : AttentionSignals;
  base : ReportSummary;
  classification_dist : list ClassificationCount;
  os_distribution : list OsCount;
  top_risks : list ReportRowItem;
  summary_bullets_env : list string;
  os_family_dist : list DistributionBar;
  env_metrics : list json;
  os_eol_count : Z;
  os_eol_breakdown_label : string;
  agent_versions_label : string;
  topology : NetworkTopology;
  trend : list json;
  action : ActionTargets;
  service_catalog : list ServiceCatalogGroup;
  attention_hosts : list AttentionHostItem;
  capacity_imminent : list CapacityImminentItem;
  top_risks_count : Z;
  attention_hosts_count : Z;
  capacity_imminent_count : Z;
  single : SingleParts;
}.
End EnvReport.
Abbreviation EnvironmentReportSummary := EnvReport.EnvironmentReportSummary.

(** ** Counts *)

(** A count per classification, in the order of the donut; its share comes later. *)
Definition _count_classifications (rows : list ReportRowItem) : list ClassificationCount :=
  let counts := count_keys (Row.recommendation <$> rows) in
  (λ def : Recommendation * string * string,
    let key := def.1.1 in {|
      ClassCount.key := key;
      ClassCount.label := LABEL_KO key;
      ClassCount.count := default 0 (dict_get key counts);
      ClassCount.color := UTIL_GAUGE_COLOR;
      ClassCount.description := RECOMMENDATION_ACTION_KO key;
      ClassCount.pct := of_Z 0 |}) <$> _DONUT_SEGMENT_DEFS.

Definition with_pct (c : ClassificationCount) (pct : float) : ClassificationCount := {|
  ClassCount.key := ClassCount.key c; ClassCount.label := ClassCount.label c; ClassCount.count := ClassCount.count c;
  ClassCount.color := ClassCount.color c; ClassCount.description := ClassCount.description c; ClassCount.pct := pct |}.

(** [c.pct = round((c.count / total * 100), 1) if total else 0.0] *)
Definition share (total : Z) (c : ClassificationCount) : ClassificationCount :=
  with_pct c (if total =? 0 then of_Z 0
              else py_round_nd 1 (fmul (truediv (ClassCount.count c) total) (of_Z 100))).

Definition _to_distribution_bars (counts : list (string * Z)) (label_map : gmap string string) : list DistributionBar :=
  match counts with
  | [] => []
  | c :: cs =>
      let most := foldl Z.max c.2 cs.*2 in
      let mx := if most =? 0 then 1 else most in
      (λ kv : string * Z, {|
        DistBar.label := default kv.1 (label_map !! kv.1);
        DistBar.count := kv.2;
        DistBar.pct := py_round_nd 1 (fmul (truediv kv.2 mx) (of_Z 100)) |}) <$> by_count_desc counts
  end.

(** ** Trends *)

Module Series.
(** [value], a float or a decimal, as the float of it *)
Record MetricSeries := { collected_at : datetime; value : option float; dimension : option string; kind : option string }.
End Series.
Abbreviation MetricSeries := Series.MetricSeries.

(** [{s.collected_at: f(s.value) for s in series}] *)
Definition series_by (f : float → float) (series : list MetricSeries) : gmap Z (option float) :=
  foldl (λ m s, <[Series.collected_at s := f <$> Series.value s]> m) ∅ series.

(** [sorted(set(cpu_by) | set(mem_by) | set(disk_by))] *)
Definition timestamps (cpu_by mem_by disk_by : gmap Z (option float)) : list Z :=
  sort_asc id (elements (dom cpu_by ∪ dom mem_by ∪ dom disk_by)).

Definition trend_at (by_time : gmap Z (option float)) (t : Z) : json := opt_number (mjoin (by_time !! t)).

Definition trend_rows (cpu mem disk : string) (cpu_by mem_by disk_by : gmap Z (option float)) : list json :=
  (λ t, JObj [("at"%string, JStr (isoformat t)); (cpu, trend_at cpu_by t); (mem, trend_at mem_by t);
              (disk, trend_at disk_by t)]) <$> timestamps cpu_by mem_by disk_by.

Definition build_metric_trend (cpu_series mem_series disk_series : list MetricSeries) : list json :=
  let by_time := series_by (py_round_nd 1) in
  trend_rows "cpu" "mem" "disk" (by_time cpu_series) (by_time mem_series) (by_time disk_series).

Definition build_saturation_trend (cpu_series mem_series disk_series : list MetricSeries) : list json :=
  let by_time := series_by (λ v, v) in
  trend_rows "cpu_sat" "mem_sat" "disk_sat" (by_time cpu_series) (by_time mem_series) (by_time disk_series).

(** ** The catalog of services *)

(** What the loop over the rows has gathered, by category: the hosts of each service name,
    the names and the hosts of a category counted once per host, the servers where the
    category appears, and those where a service of it has a name *)
Record catalog := {
  multi : gmap string (gmap string (list ServiceHost));
  single_names : gmap string (gset string);
  single_hosts : gmap string (list ServiceHost);
  cat_hosts : gmap string (gset string);
  named_hosts : gmap string (gset string);
}.

Definition empty_catalog : catalog := {|
  multi := ∅; single_names := ∅; single_hosts := ∅; cat_hosts := ∅; named_hosts := ∅ |}.

(** [d.setdefault(k, set()).update(xs)], [d.setdefault(k, []).append(x)] *)
Definition add_to (k : string) (xs : gset string) (d : gmap string (gset string)) : gmap string (gset string) :=
  <[k := default ∅ (d !! k) ∪ xs]> d.

Definition append_to {A} (k : string) (x : A) (d : gmap string (list A)) : gmap string (list A) :=
  <[k := default [] (d !! k) ++ [x]]> d.

Definition note_category (public_id : string) (c : catalog) (cat : string) : catalog :=
  if mem cat SIGNATURE_CATEGORIES
  then {| multi := multi c; single_names := single_names c; single_hosts := single_hosts c;
          cat_hosts := add_to cat {[ public_id ]} (cat_hosts c); named_hosts := named_hosts c |}
  else c.

Definition note_services (host : ServiceHost) (c : catalog) (cat_names : string * list string) : catalog :=
  let '(cat, names) := cat_names in
  if negb (mem cat SIGNATURE_CATEGORIES) || bool_decide (names = []) then c
  else
    let named := add_to cat {[ SvcHost.public_id host ]} (named_hosts c) in
    if mem cat SINGLE_INSTANCE_CATEGORIES
    then {| multi := multi c; single_names := add_to cat (list_to_set names) (single_names c);
            single_hosts := append_to cat host (single_hosts c); cat_hosts := cat_hosts c; named_hosts := named |}
    else {| multi := <[cat := foldl (λ m n, append_to n host m) (default ∅ (multi c !! cat)) names]> (multi c);
            single_names := single_names c; single_hosts := single_hosts c; cat_hosts := cat_hosts c;
            named_hosts := named |}.

Definition note_row (c : catalog) (r : ReportRowItem) : catalog :=
  let host := {| SvcHost.hostname := Row.hostname r; SvcHost.public_id := Row.public_id r |} in
  foldl (note_services host) (foldl (note_category (Row.public_id r)) c (Row.workload_categories r))
    (Row.workload_services r).

Definition name_count (name : string) (hosts : list ServiceHost) : ServiceNameCount := {|
  SvcCount.name := name; SvcCount.count := Z.of_nat (length hosts); SvcCount.hosts := hosts |}.

(** The items of a category that have names: [groups] before the supplement *)
Definition named_items (c : catalog) (cat : string) : list ServiceNameCount :=
  match single_hosts c !! cat, multi c !! cat with
  | Some hosts, _ =>
      let names := str_join ", " (sort_str id (elements (default ∅ (single_names c !! cat)))) in
      [name_count (if String.eqb names "" then cat else names) hosts]
  | None, Some cat_map => (λ nh : string * list ServiceHost, name_count nh.1 nh.2) <$> sort_str fst (map_to_list cat_map)
  | None, None => []
  end.

(** The servers of a category where no service of it has a name *)
Definition listen_only (c : catalog) (cat : string) : Z :=
  match cat_hosts c !! cat with
  | Some all_hosts => Z.of_nat (size (all_hosts ∖ default ∅ (named_hosts c !! cat)))
  | None => 0
  end.

Definition _PORT_DETECTED : string := "(포트 탐지)".

Definition service_group (c : catalog) (cat : string) : ServiceCatalogGroup := {|
  SvcGroup.category := cat;
  SvcGroup.total_count := Z.of_nat (size (default ∅ (cat_hosts c !! cat)));
  SvcGroup.services := named_items c cat
    ++ (if listen_only c cat =? 0 then []
        else [{| SvcCount.name := _PORT_DETECTED; SvcCount.count := listen_only c cat; SvcCount.hosts := [] |}]) |}.

Definition _aggregate_service_catalog (rows : list ReportRowItem) : list ServiceCatalogGroup :=
  service_group (foldl note_row empty_catalog rows) <$> SIGNATURE_CATEGORIES.

(** ** Operating systems *)

Definition os_key (d : ServerDetail) : string * string * string :=
  (match DetailRow.os_family d with
   | Some f => if String.eqb f "windows" then "Windows" else if String.eqb f "linux" then "Linux" else "기타"
   | None => "기타"
   end,
   str_or (DetailRow.os_id d) "unknown", str_or (DetailRow.os_version d) "—")%string.

(** The kernels of a group: a set of texts that are not empty *)
Definition kernels_of (details : list ServerDetail) (key : string * string * string) : gset string :=
  list_to_set (filter (λ k, k ≠ ""%string)
    (omap DetailRow.kernel_version (filter (λ d, os_key d = key) details))).

Definition os_before (a b : OsCount) : bool :=
  let le := match String.compare (OsRow.version a) (OsRow.version b) with Gt => false | _ => true end in
  match String.compare (OsRow.family a) (OsRow.family b), String.compare (OsRow.distro a) (OsRow.distro b) with
  | Lt, _ => true | Gt, _ => false
  | Eq, Lt => true | Eq, Gt => false
  | Eq, Eq => le
  end.

Definition _count_os (details : list ServerDetail) : list OsCount :=
  sort_by os_before ((λ kn : string * string * string * Z,
    let '(f, di, v, n) := kn in {|
      OsRow.family := f; OsRow.distro := di; OsRow.version := v; OsRow.count := n;
      OsRow.kernel_versions := str_or (Some (str_join ", " (sort_str id (elements (kernels_of details (f, di, v)))))) "—" |})
    <$> count_keys (os_key <$> details)).

(** ** The cards of the environment *)

(** [{b.label: b.pct for b in bars}] *)
Definition bars_by_label (bars : list UtilizationBar) : list (string * option float) :=
  foldl (λ d b, dict_set (UtilBar.label b) (UtilBar.pct b) d) [] bars.

Definition _pct (v : option float) : string :=
  match v with Some v => String.append (fmt_fixed 1 v) "%" | None => "—" end.

Definition metric_card (label value sub : string) : json :=
  JObj [("label", JStr label); ("value", JStr value); ("sub", JStr sub)]%string.

Definition _sat (sat : list SaturationDonut) (i : nat) : json :=
  match sat !! i with
  | Some d => metric_card (Donut.label d) (String.append (pretty (Donut.count d)) "대")
                (str_join "" ["/ "; pretty (Donut.total d); "대"])
  | None => metric_card "—" "—" ""
  end%string.

Definition _build_env_metrics (overview : EnvironmentOverview) : list json :=
  let util := bars_by_label (Overview.utilization overview) in
  let util_p95 := bars_by_label (Overview.utilization_p95 overview) in
  let shown (d : list (string * option float)) (label : string) := _pct (mjoin (dict_get label d)) in
  let sat := Overview.saturation_donuts overview in
  [metric_card "CPU 이용률" (shown util "CPU") (String.append "p95 " (shown util_p95 "CPU"));
   metric_card "메모리 이용률" (shown util "메모리") (String.append "p95 " (shown util_p95 "메모리"));
   metric_card "디스크 용량" (shown util "디스크 용량") "";
   _sat sat 0; _sat sat 1; _sat sat 2]%string.

(** ** Lists of servers *)

(** No view has a limit: the entries of [_TOP_RISK_N_BY_VIEW] are [None]. *)
Definition _select_top_risks (rows : list ReportRowItem) (view : ReportView) : list ReportRowItem :=
  match view with
  | customer =>
      sort_key (λ r, (0, fneg (or_zero (Row.cpu_p95_pct r)), ""%string)) (filter (λ r, Row.risk_level r = "high"%string) rows)
  | engineer =>
      sort_key (λ r, (RISK_LEVEL_ORDER (Row.risk_level r), fneg (or_zero (Row.cpu_p95_pct r)), ""%string)) rows
  end.

Module Slot.
Record Slot := {
  public_id : string;
  gap_label : option string;
  os_eol_label : option string;
  restart_label : option string;
}.
End Slot.
Abbreviation Slot := Slot.Slot.

Definition with_gap (t : string) (s : Slot) : Slot := {|
  Slot.public_id := Slot.public_id s; Slot.gap_label := Some t; Slot.os_eol_label := Slot.os_eol_label s;
  Slot.restart_label := Slot.restart_label s |}.
Definition with_os_eol (t : string) (s : Slot) : Slot := {|
  Slot.public_id := Slot.public_id s; Slot.gap_label := Slot.gap_label s; Slot.os_eol_label := Some t;
  Slot.restart_label := Slot.restart_label s |}.
Definition with_restart (t : string) (s : Slot) : Slot := {|
  Slot.public_id := Slot.public_id s; Slot.gap_label := Slot.gap_label s; Slot.os_eol_label := Slot.os_eol_label s;
  Slot.restart_label := Some t |}.

(** [href.rsplit("/", 1)[-1]] *)
Definition _pid_from_href (href : string) : string := default ""%string (last (split_on "/" href)).

(** One of the three loops: the slot of the row's host name, a new one when it has none, is given a label *)
Definition note_signal (set : string → Slot → Slot) (text : AttentionRow → string) (by_host : list (string * Slot))
    (rows : list AttentionRow) : list (string * Slot) :=
  foldl (λ d row,
    let new := {| Slot.public_id := _pid_from_href (link_href row); Slot.gap_label := None; Slot.os_eol_label := None;
                  Slot.restart_label := None |} in
    dict_set (link_text row) (set (text row) (default new (dict_get (link_text row) d))) d) by_host rows.

Definition slots (attention : AttentionSignals) : list (string * Slot) :=
  note_signal with_restart badge_text
    (note_signal with_os_eol meta_text (note_signal with_gap badge_text [] (gap_warnings attention))
       (os_eol_warnings attention))
    (agent_unstable attention).

Definition active_labels (s : Slot) : Z :=
  Z.of_nat (length (omap id [Slot.gap_label s; Slot.os_eol_label s; Slot.restart_label s])).

(** [{r.hostname: r.os_display for r in rows}.get(hostname, "")] *)
Definition os_by_host (rows : list ReportRowItem) (hostname : string) : string :=
  foldl (λ shown r, if String.eqb (Row.hostname r) hostname then Row.os_display r else shown) ""%string rows.

Definition attention_item (rows : list ReportRowItem) (hs : string * Slot) : option AttentionHostItem :=
  let '(hostname, s) := hs in
  if active_labels s =? 0 then None
  else Some {|
    AttnHost.public_id := Slot.public_id s; AttnHost.hostname := hostname; AttnHost.os_display := os_by_host rows hostname;
    AttnHost.gap_label := Slot.gap_label s; AttnHost.os_eol_label := Slot.os_eol_label s;
    AttnHost.restart_label := Slot.restart_label s; AttnHost.active_count := active_labels s |}.

(** [(-active_count, hostname)], [(days_until_full, hostname)] *)
Definition by_number_then_text {A} (number : A → Z) (text : A → string) : list A → list A :=
  sort_by (λ a b, (number a <? number b)
                  || ((number a =? number b) && match String.compare (text a) (text b) with Gt => false | _ => true end)).

Definition _extract_attention_hosts (attention : AttentionSignals) (rows : list ReportRowItem) : list AttentionHostItem :=
  by_number_then_text (λ h, - AttnHost.active_count h) AttnHost.hostname (omap (attention_item rows) (slots attention)).

Definition imminent_item (r : ReportRowItem) : option CapacityImminentItem :=
  match Row.disk_capacity_runway_days r, Row.disk_capacity_driving_mount r with
  | Some days, Some mount =>
      if (RS_DISK_RUNWAY_DAYS <=? days) || String.eqb mount "" then None
      else Some {| Imminent.public_id := Row.public_id r; Imminent.hostname := Row.hostname r; Imminent.worst_mount := mount;
                   Imminent.days_until_full := days; Imminent.used_pct := Row.worst_mount_used_pct r |}
  | _, _ => None
  end.

Definition _extract_capacity_imminent (rows : list ReportRowItem) : list CapacityImminentItem :=
  by_number_then_text Imminent.days_until_full Imminent.hostname (omap imminent_item rows).

(** ** Sentences *)

Definition _UNDER_CAUSE_ORDER : list string := _CAUSE_LABEL_BY_TRIGGER.*2.

Definition _under_cause_summary (under_hosts : list CapacityWarningItem) : string :=
  let counts := count_keys (under_hosts ≫= Capacity.active_causes) in
  str_join " · " (omap (λ lbl, (λ n : Z, str_join "" [lbl; " "; pretty n; "대"]%string) <$> dict_get lbl counts)
                    _UNDER_CAUSE_ORDER).

(** [classified.get(key, 0)] *)
Definition classified (dist : list ClassificationCount) (key : Recommendation) : Z :=
  default 0 (dict_get key ((λ c, (ClassCount.key c, ClassCount.count c)) <$> dist)).

Definition _env_summary_bullets (overview : EnvironmentOverview) (attention : AttentionSignals)
    (classification_dist : list ClassificationCount) (under_hosts : list CapacityWarningItem) : list string :=
  let under := classified classification_dist under_provisioned in
  let over := classified classification_dist over_provisioned in
  let idle_n := classified classification_dist idle in
  let insufficient := classified classification_dist insufficient_data in
  let part (k : Recommendation) (n : Z) := str_join " " [LABEL_KO k; pretty n] in
  let resource := str_join "" ["vCPU "; pretty (Overview.total_vcpus overview); " | 메모리 ";
    fmt_fixed 1 (Overview.total_memory_gb overview); " GB | 디스크 "; pretty (Overview.total_disk_gb overview); " GB"] in
  let dist_line := str_join "" ["자원 적정성 분류 — "; part under_provisioned under; " · "; part over_provisioned over;
    " · "; part idle idle_n; " · "; part optimal (classified classification_dist optimal);
    (if insufficient =? 0 then "" else String.append " · " (part insufficient_data insufficient))] in
  let efficiency := over + idle_n in
  let cause := _under_cause_summary under_hosts in
  [str_join "" ["등록 서버 "; pretty (Overview.total overview); "대 ("; resource; ")"];
   str_join "" ["온라인 "; pretty (Overview.online overview); "대 | 오프라인 "; pretty (Overview.offline overview); "대"];
   dist_line]
  ++ (if negb (under =? 0)
      then [str_join " — " [LABEL_KO under_provisioned; (if String.eqb cause "" then "관측 부하 대비 할당 자원 부족" else cause)]]
      else if efficiency =? 0 then []
      else [str_join "" [LABEL_KO over_provisioned; "·"; LABEL_KO idle; " "; pretty efficiency;
                         "대 — 관측 부하 대비 할당 자원 여유"]])
  ++ (match os_eol_warnings attention with
      | [] => []
      | ws => [str_join "" ["OS 지원 종료 "; pretty (Z.of_nat (length ws)); "대"]]
      end)%string.

(** ** The report *)

Definition DIAGNOSTIC_RANGE_LABEL_KR : gmap string string := list_to_map
  [("15m", "15분"); ("1h", "1시간"); ("6h", "6시간"); ("24h", "1일"); ("7d", "7일"); ("14d", "14일"); ("30d", "30일")]%string.

(** [s.split(sep, 1)[0]], for a separator that is not empty *)
Fixpoint before_text (sep s : string) : string :=
  match s with
  | EmptyString => ""
  | String c s' => if is_some (drop_prefix sep s) then "" else String c (before_text sep s')
  end.

(** Both families are shown, with no server at least. *)
Definition with_both_families (bars : list DistributionBar) : list DistributionBar :=
  bars ++ omap (λ key : string,
    let label := default key (OS_FAMILY_LABEL_KO !! key) in
    if mem label (DistBar.label <$> bars) then None
    else Some {| DistBar.label := label; DistBar.count := 0; DistBar.pct := of_Z 0 |}) ["linux"; "windows"]%string.

Definition to_environment_report (view : ReportView) (time_range : string) (anchor_at : datetime)
    (overview : EnvironmentOverview) (attention : AttentionSignals) (base : ReportSummary) (details : list ServerDetail)
    (generated_at : datetime) (action : ActionTargets) (trend : list json) : EnvironmentReportSummary :=
  let rows := Summary.rows base in
  let counted := _count_classifications rows in
  let classified_total := sum_Z (ClassCount.count <$> counted) in
  let dist := share classified_total <$> counted in
  let eol_os := count_keys ((λ w, before_text " · " (meta_text w)) <$> os_eol_warnings attention) in
  let top_risks := _select_top_risks rows view in
  let under_hosts := filter (λ h, Capacity.classification h = under_provisioned) (Targets.hosts action) in
  let attention_hosts := _extract_attention_hosts attention rows in
  let capacity_imminent := _extract_capacity_imminent rows in {|
    EnvReport.view := view;
    EnvReport.time_range := time_range;
    EnvReport.time_range_label := default time_range (DIAGNOSTIC_RANGE_LABEL_KR !! time_range);
    EnvReport.anchor_at := anchor_at;
    EnvReport.generated_at := generated_at;
    EnvReport.overview := overview;
    EnvReport.attention := attention;
    EnvReport.base := base;
    EnvReport.classification_dist := dist;
    EnvReport.os_distribution := _count_os details;
    EnvReport.top_risks := top_risks;
    EnvReport.summary_bullets_env := _env_summary_bullets overview attention dist under_hosts;
    EnvReport.os_family_dist :=
      with_both_families (_to_distribution_bars (Overview.os_distribution overview) OS_FAMILY_LABEL_KO);
    EnvReport.env_metrics := _build_env_metrics overview;
    EnvReport.os_eol_count := Z.of_nat (length (os_eol_warnings attention));
    EnvReport.os_eol_breakdown_label :=
      str_join " · " ((λ on : string * Z, str_join "" [on.1; " "; pretty on.2; "대"]%string) <$> most_common eol_os);
    EnvReport.agent_versions_label :=
      str_join ", " (sorted_set ((λ d, str_or (DetailRow.agent_version d) "미상") <$> details));
    EnvReport.topology := build_network_topology details ∅;
    EnvReport.trend := trend;
    EnvReport.action := action;
    EnvReport.service_catalog := _aggregate_service_catalog rows;
    EnvReport.attention_hosts := attention_hosts;
    EnvReport.capacity_imminent := capacity_imminent;
    EnvReport.top_risks_count := Z.of_nat (length top_risks);
    EnvReport.attention_hosts_count := Z.of_nat (length attention_hosts);
    EnvReport.capacity_imminent_count := Z.of_nat (length capacity_imminent);
    EnvReport.single := no_single_parts |}.
