(* ===== verification/EnvProps.v ===== *)
(** * What the report of an environment counts *)

From stdpp Require Import sorting.
From S2P Require Import Prelude PyFloat Sql Wire PyText PyList Devices MetricViews Services AssessFacts ServiceProps EolCatalog OsEol StorageTree Reports RightSizing Assess Rollup Outbound ServerViews HostRows HostRowProps PeriodCard ActionTable ActionProps Topology Fleet FleetProps EnvReport.

(** ** The services of a row *)

(** The named services of a row: each category once, with some name, and a category of the row *)
Record row_ok (r : ReportRowItem) : Prop := {
  row_cats_once : NoDup (Row.workload_services r).*1;
  row_named : ∀ cat names, (cat, names) ∈ Row.workload_services r → names ≠ [] ∧ cat ∈ Row.workload_categories r;
}.

Lemma workload_services_named services ports :
  let d := workload_services_by_category services ports in
  NoDup d.*1 ∧ ∀ cat names, (cat, names) ∈ d → names ≠ [] ∧ cat ∈ named_categories services ports.
Proof.
  cbn zeta. unfold workload_services_by_category, named_categories. generalize (default [] services) as l.
  induction l as [|s l [N IH]] using rev_ind; [split; [constructor|intros ? ? H; by apply not_elem_of_nil in H]|].
  rewrite foldl_app, omap_app. cbn [foldl]. set (d := foldl _ [] l) in *.
  destruct (workload_category ports s) as [cat|] eqn:E.
  2: { split; [done|]. intros cat names H. destruct (IH _ _ H) as [? ?]. split; [done|]. apply elem_of_app. by left. }
  split.
  - rewrite setdefault_append_keys. destruct (decide (cat ∈ d.*1)) as [|Hn]; [by rewrite app_nil_r|].
    apply NoDup_app. split; [done|]. split; [|apply NoDup_singleton].
    intros x Hx ->%list_elem_of_singleton. by destruct Hn.
  - intros cat' names. rewrite setdefault_append_elem by done. rewrite elem_of_app. cbn [omap list_omap]. rewrite E.
    destruct (decide (cat = cat')) as [->|Hne].
    + intros [(rs0 & _ & ->)|[_ ->]]; (split; [by destruct rs0 || done|right; by apply list_elem_of_singleton]).
    + intros H. destruct (IH _ _ H) as [? ?]. split; [done|by left].
Qed.

Lemma named_category_counted services ports cat :
  cat ∈ named_categories services ports → cat ∈ (workload_category_counter services ports).*1.
Proof.
  intros H. apply dict_get_keys. unfold workload_category_counter. rewrite fill_lookup by done.
  rewrite bump_all_lookup. unfold named_categories in H. rewrite decide_True by done. by eexists.
Qed.

Lemma report_row_ok raw online now event r : to_report_row_item raw online now event = Ok r → row_ok r.
Proof.
  intros H.
  assert (Row.workload_services r = workload_services_by_category (raw_services (RawRow.services raw)) (raw_sockets (RawRow.listen_ports raw))
          ∧ Row.workload_categories r = (raw_workload_counter (RawRow.services raw) (RawRow.listen_ports raw)).*1) as [Es Ec].
  { unfold to_report_row_item in H. apply result_bind_ok in H as (info & _ & H).
    destruct (eol_columns info "unknown") as [[??] ?]. apply result_bind_ok in H as (h & _ & H).
    apply result_bind_ok in H as (? & _ & H). destruct (_build_workload_display raw).
    destruct (_RISK_FROM_RECOMMENDATION _) as [[??] ?]. repeat (apply result_bind_ok in H as (? & _ & H)).
    by injection H as <-. }
  pose proof (workload_services_named (raw_services (RawRow.services raw)) (raw_sockets (RawRow.listen_ports raw))) as [N W].
  split; [by rewrite Es|]. intros cat names Hc. rewrite Es in Hc. destruct (W _ _ Hc) as [? ?]. split; [done|].
  rewrite Ec. by apply named_category_counted.
Qed.

(** ** The fold over the rows, seen at one category *)

Definition has_cat (cat : string) (r : ReportRowItem) : bool := mem cat (Row.workload_categories r).
Definition names_of (cat : string) (r : ReportRowItem) : list string := default [] (dict_get cat (Row.workload_services r)).
Definition host_of (r : ReportRowItem) : ServiceHost := {|
  SvcHost.hostname := Row.hostname r; SvcHost.public_id := Row.public_id r |}.

(** What the catalog holds of a category *)
Record cell := {
  of_category : gset string;
  of_named : gset string;
  of_single : list ServiceHost;
  of_multi : gmap string (list ServiceHost);
}.

Definition cell_at (c : catalog) (cat : string) : cell := {|
  of_category := default ∅ (cat_hosts c !! cat); of_named := default ∅ (named_hosts c !! cat);
  of_single := default [] (single_hosts c !! cat); of_multi := default ∅ (multi c !! cat) |}.

Definition add_category (pid : string) (x : cell) : cell := {|
  of_category := of_category x ∪ {[ pid ]}; of_named := of_named x; of_single := of_single x; of_multi := of_multi x |}.

Definition add_names (cat : string) (host : ServiceHost) (names : list string) (x : cell) : cell :=
  match names with
  | [] => x
  | _ => {| of_category := of_category x; of_named := of_named x ∪ {[ SvcHost.public_id host ]};
            of_single := if single cat then of_single x ++ [host] else of_single x;
            of_multi := if single cat then of_multi x else foldl (λ m n, append_to n host m) (of_multi x) names |}
  end.

Definition add_row (cat : string) (x : cell) (r : ReportRowItem) : cell :=
  add_names cat (host_of r) (names_of cat r) (if has_cat cat r then add_category (Row.public_id r) x else x).

Section at_cat.
Context (cat : string) (Hcat : cat ∈ SIGNATURE_CATEGORIES).

Lemma note_category_cell pid c k :
  cell_at (note_category pid c k) cat
  = if decide (k = cat) then add_category pid (cell_at c cat) else cell_at c cat.
Proof.
  unfold note_category. destruct (decide (k = cat)) as [->|Hk].
  - rewrite (proj2 (mem_true _ _) Hcat). unfold cell_at, add_category, add_to. cbn. by rewrite lookup_insert_eq.
  - destruct (mem k SIGNATURE_CATEGORIES); [|done]. unfold cell_at, add_to. cbn. by rewrite lookup_insert_ne by done.
Qed.

Lemma add_category_twice pid x : add_category pid (add_category pid x) = add_category pid x.
Proof. unfold add_category. cbn. f_equal. set_solver. Qed.

Lemma note_categories_cell pid l c :
  cell_at (foldl (note_category pid) c l) cat = if mem cat l then add_category pid (cell_at c cat) else cell_at c cat.
Proof.
  revert c. induction l as [|k l IH]; intros c; [done|]. cbn [foldl]. rewrite IH, note_category_cell. unfold mem.
  destruct (decide (k = cat)) as [->|Hk].
  - rewrite (bool_decide_eq_true_2 (cat ∈ cat :: l)) by by left. case_bool_decide; [|done]. apply add_category_twice.
  - assert (cat ∈ k :: l ↔ cat ∈ l) as E by (rewrite elem_of_cons; naive_solver).
    by rewrite (bool_decide_ext _ _ E).
Qed.

Lemma note_services_cell host c k names :
  cell_at (note_services host c (k, names)) cat
  = if decide (k = cat) then add_names cat host names (cell_at c cat) else cell_at c cat.
Proof.
  unfold note_services. destruct names as [|n names]; [by rewrite orb_true_r; destruct (decide _)|].
  rewrite (bool_decide_eq_false_2 (n :: names = [])), orb_false_r by done. fold (single k).
  destruct (decide (k = cat)) as [->|Hk].
  - rewrite (proj2 (mem_true _ _) Hcat). cbn [negb]. unfold add_names, cell_at, add_to, append_to.
    destruct (single cat); cbn; by rewrite !lookup_insert_eq.
  - destruct (mem k SIGNATURE_CATEGORIES); [|done]. cbn [negb]. unfold cell_at, add_to, append_to.
    destruct (single k); cbn; by rewrite !lookup_insert_ne by done.
Qed.

Lemma dict_get_none {V} (d : list (string * V)) k : k ∉ d.*1 → dict_get k d = None.
Proof. rewrite <- dict_get_keys. by destruct (dict_get k d); [intros []; eexists|]. Qed.

Lemma note_all_services_cell host l c :
  NoDup l.*1 →
  cell_at (foldl (note_services host) c l) cat = add_names cat host (default [] (dict_get cat l)) (cell_at c cat).
Proof.
  revert c. induction l as [|[k names] l IH]; intros c N; [done|]. cbn [foldl fmap list_fmap] in *.
  apply NoDup_cons in N as [Nk N]. cbn [fst] in Nk. rewrite IH, note_services_cell by done. cbn [dict_get].
  destruct (decide (k = cat)) as [->|]; [|done]. by rewrite (dict_get_none _ _ Nk).
Qed.

Lemma note_rows_cell rows c :
  Forall row_ok rows → cell_at (foldl note_row c rows) cat = foldl (add_row cat) (cell_at c cat) rows.
Proof.
  revert c. induction rows as [|r rows IH]; intros c H; [done|]. apply Forall_cons in H as [Hr H]. cbn [foldl].
  rewrite IH by done. f_equal. unfold note_row, add_row.
  rewrite note_all_services_cell by apply (row_cats_once _ Hr). by rewrite note_categories_cell.
Qed.
End at_cat.

(** ** What the fold holds in the end *)

Definition is_named (cat : string) (r : ReportRowItem) : bool := negb (bool_decide (names_of cat r = [])).

(** A host counts for a name once for each of its services of that name. *)
Definition hosts_running (cat name : string) (rows : list ReportRowItem) : list ServiceHost :=
  rows ≫= λ r, replicate (length (filter (λ n, n = name) (names_of cat r))) (host_of r).

Lemma append_names host names (m : gmap string (list ServiceHost)) n :
  default [] (foldl (λ m n, append_to n host m) m names !! n)
  = default [] (m !! n) ++ replicate (length (filter (λ n', n' = n) names)) host.
Proof.
  revert m. induction names as [|k names IH]; intros m; [by rewrite app_nil_r|]. cbn [foldl]. rewrite IH, filter_cons.
  unfold append_to. destruct (decide (k = n)) as [->|Hk].
  - rewrite lookup_insert_eq. cbn [from_option id length replicate]. by rewrite <- app_assoc.
  - by rewrite lookup_insert_ne by done.
Qed.

Lemma append_names_filled host names (m : gmap string (list ServiceHost)) n :
  (∀ k, m !! k ≠ Some []) → foldl (λ m n, append_to n host m) m names !! n ≠ Some [].
Proof.
  revert m. induction names as [|k names IH]; intros m H; [apply H|]. cbn [foldl]. apply IH. intros k'. unfold append_to.
  destruct (decide (k = k')) as [->|Hk]; [|by rewrite lookup_insert_ne by done].
  rewrite lookup_insert_eq. by destruct (default [] (m !! k')).
Qed.

(** The cell after the rows *)
Record cell_of (cat : string) (rows : list ReportRowItem) (x : cell) : Prop := {
  cell_category : of_category x = list_to_set (Row.public_id <$> filter (λ r, has_cat cat r = true) rows);
  cell_named : of_named x = list_to_set (Row.public_id <$> filter (λ r, is_named cat r = true) rows);
  cell_single : of_single x = if single cat then host_of <$> filter (λ r, is_named cat r = true) rows else [];
  cell_multi : ∀ n, default [] (of_multi x !! n) = if single cat then [] else hosts_running cat n rows;
  cell_filled : ∀ n, of_multi x !! n ≠ Some [];
}.

Lemma cell_of_rows cat rows : cell_of cat rows (foldl (add_row cat) (cell_at empty_catalog cat) rows).
Proof.
  induction rows as [|r rows [C N S M F]] using rev_ind.
  { split; cbn; rewrite ?lookup_empty; cbn; [done|done|by destruct (single cat)|intros n..]; rewrite lookup_empty;
      [by destruct (single cat)|done]. }
  rewrite foldl_app. cbn [foldl]. set (x := foldl _ _ rows) in *. clearbody x.
  unfold add_row. set (y := if has_cat cat r then _ else _).
  assert (of_named y = of_named x ∧ of_single y = of_single x ∧ of_multi y = of_multi x
          ∧ of_category y = list_to_set (Row.public_id <$> filter (λ r, has_cat cat r = true) (rows ++ [r]))) as (Yn & Ys & Ym & Yc).
  { unfold y. rewrite filter_app, fmap_app, list_to_set_app_L, filter_cons, filter_nil.
    destruct (has_cat cat r); cbn; (split; [done|split; [done|split; [done|]]]); rewrite C; set_solver. }
  assert (∀ n, hosts_running cat n (rows ++ [r])
               = hosts_running cat n rows ++ replicate (length (filter (λ k, k = n) (names_of cat r))) (host_of r)) as Hr.
  { intros n. unfold hosts_running. rewrite bind_app. cbn. by rewrite app_nil_r. }
  assert (filter (λ r, is_named cat r = true) (rows ++ [r])
          = filter (λ r, is_named cat r = true) rows ++ (if bool_decide (names_of cat r = []) then [] else [r])) as Fn.
  { rewrite filter_app, filter_cons, filter_nil. f_equal. unfold is_named. by destruct (bool_decide _). }
  clearbody y. unfold add_names. destruct (names_of cat r) as [|n0 names] eqn:En.
  - rewrite bool_decide_eq_true_2, app_nil_r in Fn by done.
    split; [done|by rewrite Yn, Fn|by rewrite Ys, Fn| |by rewrite Ym].
    intros n. rewrite Hr, Ym, M. destruct (single cat); [done|]. cbn. by rewrite app_nil_r.
  - rewrite bool_decide_eq_false_2 in Fn by done. split; cbn [of_category of_named of_single of_multi].
    + done.
    + rewrite Fn, fmap_app, list_to_set_app_L, Yn, N. cbn. set_solver.
    + rewrite Fn, fmap_app, Ys, S. by destruct (single cat).
    + intros n. rewrite Hr. destruct (single cat); [by rewrite Ym, M|]. by rewrite append_names, Ym, M.
    + rewrite Ym. destruct (single cat); [done|]. intros n. by apply append_names_filled.
Qed.

(** ** The groups *)

Section distinct.
Context {A B : Type} `{Countable B} (f : A → B).
Implicit Types l : list A.

Lemma distinct_eq l x y : NoDup (f <$> l) → x ∈ l → y ∈ l → f x = f y → x = y.
Proof.
  induction l as [|z l IH]; intros N Hx Hy E; [by apply not_elem_of_nil in Hx|].
  rewrite fmap_cons in N. apply NoDup_cons in N as [Nz N].
  assert (∀ w, w ∈ l → f z ≠ f w) as D by (intros w Hw Ew; apply Nz; rewrite Ew; apply list_elem_of_fmap; eauto).
  apply elem_of_cons in Hx as [->|Hx], Hy as [->|Hy]; [done|by destruct (D y)|by destruct (D x)|by apply IH].
Qed.

Lemma distinct_size l : NoDup (f <$> l) → size (list_to_set (f <$> l) : gset B) = length l.
Proof. intros N. by rewrite size_list_to_set, length_fmap. Qed.

Lemma distinct_filter (P : A → Prop) `{∀ x, Decision (P x)} l : NoDup (f <$> l) → NoDup (f <$> filter P l).
Proof. intros N. eapply sublist_NoDup; [exact N|]. apply (fmap_sublist f), sublist_filter. Qed.

Lemma distinct_difference (p q : A → bool) l :
  NoDup (f <$> l) →
  (list_to_set (f <$> filter (λ x, p x = true) l) : gset B) ∖ list_to_set (f <$> filter (λ x, q x = true) l)
  = list_to_set (f <$> filter (λ x, p x && negb (q x) = true) l).
Proof.
  intros N. apply set_eq. intros b. rewrite elem_of_difference, !elem_of_list_to_set, !list_elem_of_fmap.
  setoid_rewrite list_elem_of_filter. setoid_rewrite andb_true_iff. setoid_rewrite negb_true_iff. split.
  - intros [(x & -> & Hp & Hx) Hq]. exists x. split; [done|]. split; [|done]. split; [done|].
    apply not_true_iff_false. intros Q. apply Hq. by exists x.
  - intros (x & -> & [Hp Hq] & Hx). split; [by exists x|]. intros (y & E & Hqy & Hy).
    rewrite (distinct_eq l x y) in Hq by done. by rewrite Hq in Hqy.
Qed.
End distinct.

Lemma port_only_count cat rows c :
  NoDup (Row.public_id <$> rows) → cell_of cat rows (cell_at c cat) →
  listen_only c cat = count_if (λ r, has_cat cat r && negb (is_named cat r)) rows
  ∧ Z.of_nat (size (default ∅ (cat_hosts c !! cat))) = count_if (has_cat cat) rows.
Proof.
  intros U X. pose proof (cell_category _ _ _ X) as C. pose proof (cell_named _ _ _ X) as N.
  cbn [of_category of_named cell_at] in C, N. split.
  - transitivity (Z.of_nat (size (default ∅ (cat_hosts c !! cat) ∖ default ∅ (named_hosts c !! cat)))).
    { unfold listen_only. destruct (cat_hosts c !! cat); [done|]. cbn [from_option id]. replace (∅ ∖ _) with (∅ : gset string) by set_solver. done. }
    rewrite C, N, distinct_difference, distinct_size; [done|by apply distinct_filter|done].
  - rewrite C, distinct_size; [done|by apply distinct_filter].
Qed.

(** A category where a service has a name is a category of the row. *)
Lemma named_has_cat cat r : row_ok r → is_named cat r = true → has_cat cat r = true.
Proof.
  intros W H. unfold is_named, names_of in H. destruct (dict_get cat (Row.workload_services r)) as [names|] eqn:E; [|done].
  apply bool_decide_eq_true. refine (proj2 (row_named _ W cat names _)). apply dict_get_elem; [apply (row_cats_once _ W)|done].
Qed.

Lemma named_and_ports cat rows :
  Forall row_ok rows →
  count_if (is_named cat) rows + count_if (λ r, has_cat cat r && negb (is_named cat r)) rows = count_if (has_cat cat) rows.
Proof.
  induction 1 as [|r rows W _ IH]; [done|]. rewrite !count_if_cons, <- IH. pose proof (named_has_cat cat r W).
  destruct (is_named cat r); [rewrite H by done|]; cbn; destruct (has_cat cat r); cbn; lia.
Qed.

Lemma hosts_running_none cat name rows : hosts_running cat name rows = [] ↔ ∀ r, r ∈ rows → name ∉ names_of cat r.
Proof.
  unfold hosts_running. induction rows as [|r rows IH]; [by split; [intros _ r ?%not_elem_of_nil|]|].
  cbn [mbind list_bind]. rewrite app_nil, IH. setoid_rewrite elem_of_cons. split.
  - intros [E H] r' [->|Hr]; [|by apply H]. intros Hn.
    destruct (filter (λ n, n = name) (names_of cat r)) as [|x l] eqn:F; [|done].
    assert (name ∈ filter (λ n, n = name) (names_of cat r)) as I by by apply list_elem_of_filter.
    rewrite F in I. by apply not_elem_of_nil in I.
  - intros H. split; [|eauto]. rewrite (filter_no_key id); [done|]. rewrite list_fmap_id. by apply H; left.
Qed.

(** The named services of a category counted per host, and of one counted per name *)
Lemma named_items_cell c cat :
  single_hosts c !! cat ≠ Some [] →
  named_items c cat =
  match of_single (cell_at c cat) with
  | [] => (λ nh : string * list ServiceHost, name_count nh.1 nh.2) <$> sort_str fst (map_to_list (of_multi (cell_at c cat)))
  | hosts => [name_count (let names := str_join ", " (sort_str id (elements (default ∅ (single_names c !! cat)))) in
                          if String.eqb names "" then cat else names) hosts]
  end.
Proof.
  intros N. unfold named_items, cell_at. cbn [of_single of_multi].
  destruct (single_hosts c !! cat) as [[|h hs]|]; [done|done|]. by destruct (multi c !! cat).
Qed.

Lemma single_hosts_filled rows c cat :
  (∀ k, single_hosts c !! k ≠ Some []) → single_hosts (foldl note_row c rows) !! cat ≠ Some [].
Proof.
  revert c. induction rows as [|r rows IH]; intros c H; [apply H|]. cbn [foldl]. apply IH. unfold note_row.
  assert (∀ l c', (∀ k, single_hosts c' !! k ≠ Some []) →
            ∀ k, single_hosts (foldl (note_services (host_of r)) c' l) !! k ≠ Some []) as S.
  { induction l as [|[k names] l IHl]; intros c' H'; [done|]. cbn [foldl]. apply IHl. intros k'. unfold note_services.
    destruct (_ || _); [apply H'|]. destruct (mem k SINGLE_INSTANCE_CATEGORIES); [|apply H']. cbn. unfold append_to.
    destruct (decide (k = k')) as [->|]; [|by rewrite lookup_insert_ne by done].
    rewrite lookup_insert_eq. by destruct (default [] (single_hosts c' !! k')). }
  apply S. generalize (Row.workload_categories r) as l. revert c H. clear.
  intros c H l. revert c H. induction l as [|k l IH]; intros c H; [done|]. cbn [foldl]. apply IH.
  intros k'. unfold note_category. by destruct (mem k _).
Qed.

(** A server where only a socket shows the category *)
Definition port_only (cat : string) (r : ReportRowItem) : bool := has_cat cat r && negb (is_named cat r).

Definition port_items (n : Z) : list ServiceNameCount :=
  if n =? 0 then [] else [{| SvcCount.name := _PORT_DETECTED; SvcCount.count := n; SvcCount.hosts := [] |}].

(** The rows of a report, each made of its raw row *)
Definition row_of (raw : ReportRowRaw) (r : ReportRowItem) : Prop :=
  ∃ online now event, to_report_row_item raw online now event = Ok r.

Lemma rows_ok raws rows : Forall2 row_of raws rows → Forall row_ok rows.
Proof. induction 1 as [|raw r raws rows (? & ? & ? & H) _ IH]; constructor; [by eapply report_row_ok|done]. Qed.

Lemma sum_port_items n : sum_Z (SvcCount.count <$> port_items n) = n.
Proof. unfold port_items. destruct (Z.eqb_spec n 0) as [->|]; [done|]. cbn. lia. Qed.

Lemma single_items cat rows c :
  single cat = true → cell_of cat rows (cell_at c cat) → single_hosts c !! cat ≠ Some [] →
  (λ it, (SvcCount.count it, SvcCount.hosts it)) <$> named_items c cat
  = match host_of <$> filter (λ r, is_named cat r = true) rows with [] => [] | hosts => [(count_if (is_named cat) rows, hosts)] end.
Proof.
  intros Sc X N. rewrite named_items_cell by done. pose proof (cell_single _ _ _ X) as S. rewrite Sc in S. rewrite S.
  destruct (filter (λ r, is_named cat r = true) rows) as [|r l] eqn:F; cbn [fmap list_fmap].
  - assert (of_multi (cell_at c cat) = ∅) as ->.
    { apply map_eq. intros n. rewrite lookup_empty. pose proof (cell_multi _ _ _ X n) as M. rewrite Sc in M.
      pose proof (cell_filled _ _ _ X n). by destruct (of_multi _ !! n) as [[]|]. }
    by rewrite map_to_list_empty.
  - unfold count_if. rewrite F. cbn. by rewrite length_fmap.
Qed.

Lemma multi_items cat rows c :
  single cat = false → cell_of cat rows (cell_at c cat) → single_hosts c !! cat ≠ Some [] →
  NoDup (SvcCount.name <$> named_items c cat) ∧ StronglySorted String.le (SvcCount.name <$> named_items c cat)
  ∧ (∀ it, it ∈ named_items c cat →
       SvcCount.hosts it = hosts_running cat (SvcCount.name it) rows ∧ SvcCount.count it = Z.of_nat (length (SvcCount.hosts it)))
  ∧ ∀ n, n ∈ SvcCount.name <$> named_items c cat ↔ ∃ r, r ∈ rows ∧ n ∈ names_of cat r.
Proof.
  intros Sc X N. rewrite named_items_cell by done. pose proof (cell_single _ _ _ X) as S. rewrite Sc in S. rewrite S.
  set (m := of_multi (cell_at c cat)) in *. pose proof (cell_multi _ _ _ X) as M. rewrite Sc in M.
  pose proof (cell_filled _ _ _ X) as F. fold m in M, F.
  assert (sort_str fst (map_to_list m) ≡ₚ map_to_list m) as P by (unfold sort_str; apply sort_by_perm).
  rewrite <- list_fmap_compose. change (SvcCount.name ∘ _) with (fst (A:=string) (B:=list ServiceHost)).
  split; [rewrite P; apply NoDup_fst_map_to_list|]. split.
  { pose proof (sort_str_sorted (fst (A:=string) (B:=list ServiceHost)) (map_to_list m)) as So. revert So.
    generalize (sort_str fst (map_to_list m)). clear. induction 1 as [|x l _ IH H]; cbn; constructor; [done|].
    apply Forall_fmap. done. }
  split.
  - intros it ([n hs] & -> & I)%list_elem_of_fmap. rewrite P in I. apply elem_of_map_to_list in I. cbn.
    split; [|done]. rewrite <- M. by rewrite I.
  - intros n. rewrite P. transitivity (is_Some (m !! n)).
    + rewrite list_elem_of_fmap. split; [intros ([k hs] & -> & I); apply elem_of_map_to_list in I; by eexists|].
      intros [hs I]. exists (n, hs). split; [done|]. by apply elem_of_map_to_list.
    + pose proof (hosts_running_none cat n rows) as E. rewrite <- M in E. specialize (F n).
      destruct (m !! n) as [[|h hs]|] eqn:Em; cbn in E; [done| |].
      * split; [intros _|by eexists]. rewrite <- Exists_exists. apply dec_stable. intros C.
        assert (h :: hs = []); [|done]. apply E. intros r Hr Hn. apply C, Exists_exists. by exists r.
      * split; [by intros []|]. intros (r & Hr & Hn). by destruct (proj1 E eq_refl r Hr).
Qed.

(** C16. The service catalog of a report counts each server where it belongs.  Of rows made from
    the raw rows of distinct servers: the groups are the signature categories in their order; a
    group's total is the number of the servers that have the category; the servers where only
    sockets show it are one item "(port detected)", there only when there are some; a runtime
    stack counts each server once, so that its items add up to the total; and in any other
    category the items are the names of the services, in order and each once, with a host
    for every service of that name - a server that runs two of one name counts twice. *)
Theorem service_catalog_counts (raws : list ReportRowRaw) (rows : list ReportRowItem)
  (J : Forall2 row_of raws rows) (U : NoDup (Row.public_id <$> rows)) :
  let catalog := _aggregate_service_catalog rows in
  SvcGroup.category <$> catalog = SIGNATURE_CATEGORIES
  ∧ ∀ g, g ∈ catalog → let cat := SvcGroup.category g in
      SvcGroup.total_count g = count_if (has_cat cat) rows
      ∧ ∃ items, SvcGroup.services g = items ++ port_items (count_if (port_only cat) rows)
        ∧ if single cat
          then sum_Z (SvcCount.count <$> SvcGroup.services g) = SvcGroup.total_count g
               ∧ concat (SvcCount.hosts <$> items) = host_of <$> filter (λ r, is_named cat r = true) rows
          else NoDup (SvcCount.name <$> items) ∧ StronglySorted String.le (SvcCount.name <$> items)
               ∧ (∀ it, it ∈ items → SvcCount.hosts it = hosts_running cat (SvcCount.name it) rows
                                     ∧ SvcCount.count it = Z.of_nat (length (SvcCount.hosts it)))
               ∧ ∀ n, n ∈ SvcCount.name <$> items ↔ ∃ r, r ∈ rows ∧ n ∈ names_of cat r.
Proof.
  cbn zeta. unfold _aggregate_service_catalog. split.
  { rewrite <- list_fmap_compose. apply list_fmap_id. }
  intros g (cat & -> & Hcat)%list_elem_of_fmap. set (c := foldl note_row empty_catalog rows).
  pose proof (rows_ok _ _ J) as W. pose proof (cell_of_rows cat rows) as X. rewrite <- note_rows_cell in X by done. fold c in X.
  destruct (port_only_count cat rows c U X) as [Ep Et]. unfold service_group. cbn [SvcGroup.category SvcGroup.total_count SvcGroup.services].
  rewrite Ep, Et. split; [done|]. exists (named_items c cat). split; [done|].
  pose proof (single_hosts_filled rows empty_catalog cat ltac:(intros k; cbn; by rewrite lookup_empty)) as F. fold c in F.
  destruct (single cat) eqn:Sc; [|by apply multi_items].
  pose proof (single_items cat rows c Sc X F) as I. split.
  - rewrite fmap_app, sum_Z_app. change (if _ =? 0 then _ else _) with (port_items (count_if (port_only cat) rows)).
    rewrite sum_port_items, <- (named_and_ports cat rows W). f_equal.
    replace (SvcCount.count <$> named_items c cat) with (fst <$> ((λ it, (SvcCount.count it, SvcCount.hosts it)) <$> named_items c cat))
      by by rewrite <- list_fmap_compose.
    rewrite I. unfold count_if. destruct (filter _ rows) as [|r l]; [done|]. cbn. lia.
  - replace (SvcCount.hosts <$> named_items c cat) with (snd <$> ((λ it, (SvcCount.count it, SvcCount.hosts it)) <$> named_items c cat))
      by by rewrite <- list_fmap_compose.
    rewrite I. destruct (filter _ rows) as [|r l]; [done|]. cbn. by rewrite app_nil_r.
Qed.

(** ** The rest of the report *)

Lemma count_classifications_spec rows :
  let dist := _count_classifications rows in
  ClassCount.key <$> dist = classes
  ∧ (∀ c, c ∈ dist → ClassCount.count c = count_if (λ r, bool_decide (Row.recommendation r = ClassCount.key c)) rows)
  ∧ sum_Z (ClassCount.count <$> dist) = Z.of_nat (length rows).
Proof.
  cbn zeta. split; [done|]. split.
  - intros c (def & -> & _)%list_elem_of_fmap. cbn. by rewrite count_keys_get, count_if_map.
  - rewrite <- (length_fmap Row.recommendation), <- classes_partition. unfold _count_classifications.
    rewrite <- list_fmap_compose. f_equal. unfold _DONUT_SEGMENT_DEFS, classes. cbn [fmap list_fmap compose ClassCount.count].
    by rewrite !count_keys_get.
Qed.

Lemma shared_elem total (l : list ClassificationCount) c :
  c ∈ share total <$> l → ∃ c0, c0 ∈ l ∧ ClassCount.key c = ClassCount.key c0 ∧ ClassCount.count c = ClassCount.count c0.
Proof. intros (c0 & -> & H)%list_elem_of_fmap. by exists c0. Qed.

Lemma top_risks_perm rows view :
  _select_top_risks rows view ≡ₚ match view with
                                 | customer => filter (λ r, Row.risk_level r = "high"%string) rows
                                 | engineer => rows
                                 end.
Proof. destruct view; apply sort_by_perm. Qed.

(** The text of the last warning about a host *)
Definition told_of (text : AttentionRow → string) (l : list AttentionRow) (name : string) : option string :=
  text <$> last (filter (λ w, link_text w = name) l).

Section signal.
Context (set : string → Slot → Slot) (text : AttentionRow → string) (name : string).

Lemma note_signal_snoc d l w :
  note_signal set text d (l ++ [w])
  = dict_set (link_text w) (set (text w) (default {|
      Slot.public_id := _pid_from_href (link_href w); Slot.gap_label := None; Slot.os_eol_label := None;
      Slot.restart_label := None |} (dict_get (link_text w) (note_signal set text d l)))) (note_signal set text d l).
Proof. unfold note_signal. by rewrite foldl_app. Qed.

Lemma note_signal_label (g : Slot → option string) d l :
  (∀ t s, g (set t s) = Some t) →
  dict_get name (note_signal set text d l) ≫= g = match told_of text l name with Some t => Some t | None => dict_get name d ≫= g end.
Proof.
  intros G. unfold told_of. induction l as [|w l IH] using rev_ind; [done|].
  rewrite note_signal_snoc, filter_app, filter_cons, filter_nil. destruct (decide (link_text w = name)) as [->|Hn].
  - rewrite dict_get_set_eq, last_snoc. cbn. apply G.
  - by rewrite dict_get_set_ne, app_nil_r.
Qed.

Lemma note_signal_other (g : Slot → option string) d l :
  (∀ t s, g (set t s) = g s) → (∀ p, g {| Slot.public_id := p; Slot.gap_label := None; Slot.os_eol_label := None;
                                       Slot.restart_label := None |} = None) →
  dict_get name (note_signal set text d l) ≫= g = dict_get name d ≫= g.
Proof.
  intros G B. induction l as [|w l IH] using rev_ind; [done|]. rewrite note_signal_snoc, <- IH.
  destruct (decide (link_text w = name)) as [->|Hn]; [|by rewrite dict_get_set_ne].
  rewrite dict_get_set_eq. cbn. rewrite G. by destruct (dict_get name _); [|apply B].
Qed.

Lemma note_signal_keys d l :
  (name ∈ (note_signal set text d l).*1 ↔ name ∈ d.*1 ∨ name ∈ link_text <$> l)
  ∧ (NoDup d.*1 → NoDup (note_signal set text d l).*1).
Proof.
  induction l as [|w l [E N]] using rev_ind; [split; [|done]; set_solver|].
  rewrite note_signal_snoc, dict_set_keys, fmap_app. split.
  - rewrite !elem_of_app, E. cbn. rewrite list_elem_of_singleton.
    destruct (decide (link_text w ∈ _)) as [Hw|Hw]; [|rewrite list_elem_of_singleton; tauto].
    split; [intros [?|?%not_elem_of_nil]; tauto|]. intros [?|[?| ->]]; [tauto..|]. left. by apply E.
  - intros D. destruct (decide (link_text w ∈ _)) as [Hw|Hw]; [rewrite app_nil_r; by apply N|].
    apply NoDup_app. split; [by apply N|]. split; [|apply NoDup_singleton]. by intros x Hx ->%list_elem_of_singleton.
Qed.
End signal.

Lemma slot_labels attention name :
  dict_get name (slots attention) ≫= Slot.gap_label = told_of badge_text (gap_warnings attention) name
  ∧ dict_get name (slots attention) ≫= Slot.os_eol_label = told_of meta_text (os_eol_warnings attention) name
  ∧ dict_get name (slots attention) ≫= Slot.restart_label = told_of badge_text (agent_unstable attention) name.
Proof.
  unfold slots. split; [|split].
  - rewrite !note_signal_other, note_signal_label by done. by destruct (told_of _ _ _).
  - rewrite note_signal_other, note_signal_label by done. destruct (told_of _ _ _); [done|]. by rewrite note_signal_other.
  - rewrite note_signal_label by done. destruct (told_of _ _ _); [done|]. by rewrite !note_signal_other.
Qed.

(** The host a warning is about *)
Definition warned (attention : AttentionSignals) (name : string) : Prop :=
  name ∈ link_text <$> (gap_warnings attention ++ os_eol_warnings attention ++ agent_unstable attention).

Lemma slot_keys attention : NoDup (slots attention).*1 ∧ ∀ name, name ∈ (slots attention).*1 ↔ warned attention name.
Proof.
  unfold slots, warned. split; [|intros name].
  - do 3 (apply (note_signal_keys _ _ ""%string)). constructor.
  - rewrite !(proj1 (note_signal_keys _ _ _ _ _)), !fmap_app, !elem_of_app. cbn. pose proof (not_elem_of_nil name). tauto.
Qed.

Lemma told_of_some text l name : name ∈ link_text <$> l → told_of text l name ≠ None.
Proof.
  intros (w & -> & Hw)%list_elem_of_fmap. unfold told_of.
  assert (w ∈ filter (λ w', link_text w' = link_text w) l) as I by by apply list_elem_of_filter.
  destruct (last _) as [w'|] eqn:E; [done|]. apply last_None in E. rewrite E in I. by apply not_elem_of_nil in I.
Qed.

(** The number of the kinds of warnings about a host *)
Definition told_count (attention : AttentionSignals) (name : string) : Z :=
  Z.of_nat (length (omap id [told_of badge_text (gap_warnings attention) name; told_of meta_text (os_eol_warnings attention) name;
                             told_of badge_text (agent_unstable attention) name])).

Lemma told_count_pos attention name : warned attention name → 1 <= told_count attention name <= 3.
Proof.
  unfold warned, told_count. rewrite !fmap_app, !elem_of_app.
  intros H. assert (told_of badge_text (gap_warnings attention) name ≠ None ∨ told_of meta_text (os_eol_warnings attention) name ≠ None
                    ∨ told_of badge_text (agent_unstable attention) name ≠ None) as W.
  { destruct H as [H|[H|H]]; eauto using told_of_some. }
  destruct (told_of badge_text (gap_warnings attention) name), (told_of meta_text (os_eol_warnings attention) name),
    (told_of badge_text (agent_unstable attention) name); cbn; (lia || by destruct W as [|[|]]).
Qed.

Lemma attention_item_of attention rows name s :
  (name, s) ∈ slots attention →
  ∃ it, attention_item rows (name, s) = Some it ∧ AttnHost.hostname it = name
    ∧ AttnHost.gap_label it = told_of badge_text (gap_warnings attention) name
    ∧ AttnHost.os_eol_label it = told_of meta_text (os_eol_warnings attention) name
    ∧ AttnHost.restart_label it = told_of badge_text (agent_unstable attention) name
    ∧ AttnHost.active_count it = told_count attention name.
Proof.
  intros H. destruct (slot_keys attention) as [N K].
  assert (warned attention name) as W by (apply K, list_elem_of_fmap; by exists (name, s)).
  apply dict_get_elem in H; [|done]. destruct (slot_labels attention name) as (G & E & R). rewrite H in G, E, R. cbn in G, E, R.
  assert (active_labels s = told_count attention name) as A by (unfold active_labels, told_count; by rewrite G, E, R).
  unfold attention_item. rewrite A. pose proof (told_count_pos _ _ W).
  destruct (Z.eqb_spec (told_count attention name) 0); [lia|]. by eexists.
Qed.

Lemma strongly_weaken {A} (R R' : relation A) l : (∀ x y, R x y → R' x y) → StronglySorted R l → StronglySorted R' l.
Proof. intros W. induction 1 as [|x l S IH H]; constructor; [done|]. eapply Forall_impl; [exact H|]. cbn. eauto. Qed.

Lemma by_number_sorted {A} (number : A → Z) (text : A → string) l :
  StronglySorted (λ a b, number a <= number b) (by_number_then_text number text l).
Proof.
  apply Sorted_StronglySorted; [intros x y z; lia|].
  eapply (sorted_strengthen (λ _, True)); [|by apply Forall_true|apply sort_by_sorted].
  - cbn. intros x y _ _ [H|[H _]%andb_true_iff]%orb_true_iff; lia.
  - intros x y. destruct (Z.compare_spec (number x) (number y)) as [E|E|E].
    + rewrite E, Z.ltb_irrefl, Z.eqb_refl. cbn. apply leb_total.
    + left. apply orb_true_iff. left. by apply Z.ltb_lt.
    + right. apply orb_true_iff. left. by apply Z.ltb_lt.
Qed.

Lemma os_count_sum details : sum_Z (OsRow.count <$> _count_os details) = Z.of_nat (length details).
Proof.
  unfold _count_os. rewrite (sum_Z_perm _ _ (fmap_Permutation _ _ _ (sort_by_perm _ _))), <- list_fmap_compose.
  rewrite <- (length_fmap os_key details), <- count_keys_sum. f_equal. apply list_fmap_ext. by intros _ [[[f di] v] n] _.
Qed.

(** *** Operating systems *)

Definition family_name (family : option string) : string :=
  (if decide (family = Some "windows") then "Windows"
   else if decide (family = Some "linux") then "Linux" else "기타")%string.

(** The text, unless it is missing or empty *)
Definition known (text : option string) (unknown : string) : string :=
  match text with
  | Some t => if decide (t = ""%string) then unknown else t
  | None => unknown
  end.

(** What a server runs: family, distribution and version, as a report shows them *)
Definition runs (d : ServerDetail) : string * string * string :=
  (family_name (DetailRow.os_family d), known (DetailRow.os_id d) "unknown", known (DetailRow.os_version d) "—").

Definition shown_os (r : OsCount) : string * string * string := (OsRow.family r, OsRow.distro r, OsRow.version r).

(** The kernels of a group, as text: in order, each once *)
Definition kernels_shown (details : list ServerDetail) (r : OsCount) : Prop :=
  ∃ ks, StronglySorted String.le ks ∧ NoDup ks
    ∧ (∀ k, k ∈ ks ↔ k ≠ ""%string ∧ ∃ d, d ∈ details ∧ runs d = shown_os r ∧ DetailRow.kernel_version d = Some k)
    ∧ OsRow.kernel_versions r = match ks with [] => "—"%string | _ => str_join ", " ks end.

Lemma os_key_runs d : os_key d = runs d.
Proof.
  assert (∀ o u, str_or o u = known o u) as E.
  { intros [s|] u; [|done]. cbn. by destruct (String.eqb_spec s ""), (decide _). }
  unfold os_key, runs, family_name. rewrite !E. do 2 f_equal. destruct (DetailRow.os_family d) as [f|]; [|done].
  destruct (String.eqb_spec f "windows") as [->|N]; [done|]. rewrite decide_False by congruence.
  destruct (String.eqb_spec f "linux") as [->|N']; [done|]. by rewrite decide_False by congruence.
Qed.

Lemma count_keys_in {K} `{EqDecision K} (keys : list K) k : k ∈ (count_keys keys).*1 ↔ k ∈ keys.
Proof.
  unfold count_keys. cut (∀ d : list (K * Z), k ∈ (foldl (λ d k, dict_set k (default 0 (dict_get k d) + 1) d) d keys).*1
    ↔ k ∈ d.*1 ∨ k ∈ keys).
  { intros H. rewrite H. cbn. pose proof (not_elem_of_nil k). tauto. }
  induction keys as [|x keys IH]; intros d; cbn [foldl]; [pose proof (not_elem_of_nil k); tauto|].
  rewrite IH, dict_set_keys, elem_of_app, elem_of_cons. case_decide as E.
  - pose proof (not_elem_of_nil k). split; [intros [[?|?]|?]|intros [?|[->|?]]]; auto; tauto.
  - rewrite list_elem_of_singleton. tauto.
Qed.

Lemma str_join_nonempty sep s l : s ≠ ""%string → str_join sep (s :: l) ≠ ""%string.
Proof. intros Hs. destruct s as [|c s]; [done|]. by destruct l. Qed.

Lemma kernels_text details key :
  let r := {| OsRow.family := key.1.1; OsRow.distro := key.1.2; OsRow.version := key.2; OsRow.count := 0;
              OsRow.kernel_versions := str_or (Some (str_join ", " (sort_str id (elements (kernels_of details key))))) "—" |} in
  kernels_shown details r.
Proof.
  cbn zeta. set (ks := sort_str id (elements (kernels_of details key))). exists ks. cbn [OsRow.kernel_versions].
  assert (∀ k, k ∈ ks ↔ k ∈ kernels_of details key) as In.
  { intros k. unfold ks, sort_str. by rewrite (sort_by_perm _ _), elem_of_elements. }
  assert (∀ k, k ∈ ks ↔ k ≠ ""%string ∧ ∃ d, d ∈ details ∧ runs d = key ∧ DetailRow.kernel_version d = Some k) as Ek.
  { intros k. rewrite In. unfold kernels_of. rewrite elem_of_list_to_set, list_elem_of_filter, list_elem_of_omap.
    setoid_rewrite list_elem_of_filter. setoid_rewrite os_key_runs. naive_solver. }
  split; [apply (sort_str_sorted id)|]. split.
  { unfold ks, sort_str. rewrite (sort_by_perm _ _). apply NoDup_elements. }
  split; [by destruct key as [[? ?] ?]|].
  destruct ks as [|k l] eqn:E; [done|]. unfold str_or.
  destruct (String.eqb_spec (str_join ", " (k :: l)) "") as [Hj|]; [|done].
  exfalso. revert Hj. apply str_join_nonempty. apply Ek. by left.
Qed.

Lemma os_distribution_spec details :
  NoDup (shown_os <$> _count_os details)
  ∧ (∀ o, o ∈ shown_os <$> _count_os details ↔ ∃ d, d ∈ details ∧ runs d = o)
  ∧ (∀ r, r ∈ _count_os details →
       OsRow.count r = count_if (λ d, bool_decide (runs d = shown_os r)) details ∧ kernels_shown details r).
Proof.
  assert (shown_os <$> _count_os details ≡ₚ (count_keys (os_key <$> details)).*1) as P.
  { unfold _count_os. rewrite (fmap_Permutation _ _ _ (sort_by_perm _ _)), <- list_fmap_compose.
    apply Permutation_refl', list_fmap_ext. by intros _ [[[f di] v] n] _. }
  pose proof (count_keys_nodup (os_key <$> details)) as N. split; [by rewrite P|]. split.
  - intros o. rewrite P, count_keys_in, list_elem_of_fmap. setoid_rewrite os_key_runs. naive_solver.
  - intros r. unfold _count_os. rewrite (sort_by_perm _ _). intros ([[[f di] v] n] & -> & Hin)%list_elem_of_fmap.
    split; [|exact (kernels_text details (f, di, v))]. cbn [OsRow.count shown_os OsRow.family OsRow.distro OsRow.version].
    apply (dict_get_elem _ _ _ N) in Hin. pose proof (count_keys_get (os_key <$> details) (f, di, v)) as E.
    rewrite Hin in E. cbn in E. rewrite E, count_if_map. apply count_if_ext. intros d _. by rewrite os_key_runs.
Qed.

(** *** Disks that run out *)

(** The line of a row: the very disk of it that runs out *)
Definition line_of (r : ReportRowItem) (it : CapacityImminentItem) : Prop :=
  Imminent.public_id it = Row.public_id r ∧ Imminent.hostname it = Row.hostname r
  ∧ Some (Imminent.worst_mount it) = Row.disk_capacity_driving_mount r
  ∧ Some (Imminent.days_until_full it) = Row.disk_capacity_runway_days r
  ∧ Imminent.used_pct it = Row.worst_mount_used_pct r.

(** It runs out within 30 days, and its mount is known. *)
Definition runs_out (r : ReportRowItem) : Prop :=
  (∃ days, Row.disk_capacity_runway_days r = Some days ∧ days < 30)
  ∧ ∃ mount, Row.disk_capacity_driving_mount r = Some mount ∧ mount ≠ ""%string.

Lemma imminent_line r :
  match imminent_item r with Some it => runs_out r ∧ line_of r it | None => ¬ runs_out r end.
Proof.
  unfold imminent_item, runs_out, line_of.
  destruct (Row.disk_capacity_runway_days r) as [d|]; [|by intros [(? & [=] & _) _]].
  destruct (Row.disk_capacity_driving_mount r) as [m|]; [|by intros [_ (? & [=] & _)]].
  destruct (Z.leb_spec RS_DISK_RUNWAY_DAYS d) as [L|L]; unfold RS_DISK_RUNWAY_DAYS in L; cbn [orb].
  { intros [(? & [= <-] & ?) _]. lia. }
  destruct (String.eqb_spec m ""); [by intros [_ (? & [= <-] & ?)]|]. repeat split; eauto.
Qed.

(** The lines of the rows that run out, one each, in the order of the rows *)
Inductive lines_of : list ReportRowItem → list CapacityImminentItem → Prop :=
  | lines_nil : lines_of [] []
  | lines_skip r rows its : ¬ runs_out r → lines_of rows its → lines_of (r :: rows) its
  | lines_show r it rows its : runs_out r → line_of r it → lines_of rows its → lines_of (r :: rows) (it :: its).

Lemma imminent_lines rows : lines_of rows (omap imminent_item rows).
Proof.
  induction rows as [|r rows IH]; [constructor|]. cbn [omap list_omap]. pose proof (imminent_line r) as L.
  destruct (imminent_item r); [destruct L; by constructor|by constructor].
Qed.

(** C15. A report of many servers accounts for its rows and its warnings.  Whatever it is made
    of: the classes are counted over all the rows, each row once; the risks are all the rows for
    an engineer and the rows at high risk for a customer; the operating systems shown are those
    the servers run, by family, distribution and version, each once, with the number of its
    servers and with their kernels; a host has one line of signals exactly when some warning
    names it, with the text of the last warning of each kind and the number of kinds, most
    first; and the disks that run out are exactly those of the rows whose disk is full within
    30 days and whose mount is known, one line each with its host, mount, days and usage,
    soonest first. *)
Theorem environment_report_accounts (view : ReportView) (time_range : string) (anchor_at generated_at : datetime)
  (overview : EnvironmentOverview) (attention : AttentionSignals) (base : ReportSummary) (details : list ServerDetail)
  (action : ActionTargets) (trend : list json) :
  let s := to_environment_report view time_range anchor_at overview attention base details generated_at action trend in
  let rows := Summary.rows base in
  (ClassCount.key <$> EnvReport.classification_dist s = classes
   ∧ (∀ c, c ∈ EnvReport.classification_dist s →
        ClassCount.count c = count_if (λ r, bool_decide (Row.recommendation r = ClassCount.key c)) rows)
   ∧ sum_Z (ClassCount.count <$> EnvReport.classification_dist s) = Z.of_nat (length rows))
  ∧ (EnvReport.top_risks s ≡ₚ match view with
                              | customer => filter (λ r, Row.risk_level r = "high"%string) rows
                              | engineer => rows
                              end)
  ∧ (NoDup (shown_os <$> EnvReport.os_distribution s)
     ∧ (∀ o, o ∈ shown_os <$> EnvReport.os_distribution s ↔ ∃ d, d ∈ details ∧ runs d = o)
     ∧ (∀ r, r ∈ EnvReport.os_distribution s →
          OsRow.count r = count_if (λ d, bool_decide (runs d = shown_os r)) details ∧ kernels_shown details r)
     ∧ sum_Z (OsRow.count <$> EnvReport.os_distribution s) = Z.of_nat (length details))
  ∧ (NoDup (AttnHost.hostname <$> EnvReport.attention_hosts s)
     ∧ (∀ name, name ∈ AttnHost.hostname <$> EnvReport.attention_hosts s ↔ warned attention name)
     ∧ (∀ it, it ∈ EnvReport.attention_hosts s →
          AttnHost.gap_label it = told_of badge_text (gap_warnings attention) (AttnHost.hostname it)
          ∧ AttnHost.os_eol_label it = told_of meta_text (os_eol_warnings attention) (AttnHost.hostname it)
          ∧ AttnHost.restart_label it = told_of badge_text (agent_unstable attention) (AttnHost.hostname it)
          ∧ AttnHost.active_count it = told_count attention (AttnHost.hostname it)
          ∧ 1 <= AttnHost.active_count it <= 3)
     ∧ StronglySorted (λ a b, AttnHost.active_count b <= AttnHost.active_count a) (EnvReport.attention_hosts s))
  ∧ ((∃ its, lines_of rows its ∧ EnvReport.capacity_imminent s ≡ₚ its)
     ∧ EnvReport.capacity_imminent_count s = Z.of_nat (length (EnvReport.capacity_imminent s))
     ∧ StronglySorted (λ a b, Imminent.days_until_full a <= Imminent.days_until_full b) (EnvReport.capacity_imminent s)).
Proof.
  cbn zeta. unfold to_environment_report.
  cbn [EnvReport.classification_dist EnvReport.top_risks EnvReport.os_distribution EnvReport.attention_hosts
       EnvReport.capacity_imminent EnvReport.capacity_imminent_count].
  set (rows := Summary.rows base). destruct (count_classifications_spec rows) as (K & C & S).
  split; [|split; [apply top_risks_perm|split; [|split]]].
  - rewrite <- !list_fmap_compose. split; [done|]. split; [|done].
    intros c (c0 & H & -> & ->)%shared_elem. by apply C.
  - destruct (os_distribution_spec details) as (N & O & Q). do 3 (split; [done|]). apply os_count_sum.
  - assert (_extract_attention_hosts attention rows ≡ₚ omap (attention_item rows) (slots attention)) as P by apply sort_by_perm.
    assert (∀ l, (∀ ns, ns ∈ l → ns ∈ slots attention) → AttnHost.hostname <$> omap (attention_item rows) l = l.*1) as F.
    { induction l as [|[n s] l IH]; intros H; [done|]. cbn [omap list_omap].
      destruct (attention_item_of attention rows n s (H _ ltac:(by left))) as (it & -> & <- & _).
      rewrite !fmap_cons, IH; [done|]. intros ns I. apply H. by right. }
    specialize (F (slots attention) (λ _ H, H)). destruct (slot_keys attention) as [N E].
    split; [by rewrite P, F|]. split; [intros name; by rewrite P, F|]. split.
    + intros it I. rewrite P in I. apply list_elem_of_omap in I as ([n s] & I & Hit).
      assert (warned attention n) as W by (apply E, list_elem_of_fmap; by exists (n, s)).
      destruct (attention_item_of attention rows n s I) as (it' & Hit' & <- & G & O & U & A). rewrite Hit in Hit'. injection Hit' as <-.
      rewrite A. do 4 (split; [done|]). by apply told_count_pos.
    + eapply strongly_weaken; [|apply (by_number_sorted (λ h, - AttnHost.active_count h))]. cbn. lia.
  - assert (_extract_capacity_imminent rows ≡ₚ omap imminent_item rows) as P by apply sort_by_perm.
    split; [eexists; split; [apply imminent_lines|exact P]|]. split; [|apply by_number_sorted]. done.
Qed.

(** ** A concrete report *)

Definition unit_node (unit shown : string) : json := jobj [("unit", JStr unit); ("display_name", JStr shown)]%string.

(** Two web servers shown under one name, two container runtimes, and a database only its socket shows *)
Definition web_services : list json :=
  [unit_node "nginx.service" "Nginx"; unit_node "nginx-edge.service" "Nginx"; unit_node "docker.service" "Docker";
   unit_node "containerd.service" "containerd"]%string.
Definition postgres_socket : json := jobj [("port", JInt 5432); ("proto", JStr "tcp")]%string.

Definition web_row : ReportRowRaw := {|
  RawRow.server_id := 2; RawRow.public_id := "srv-2"; RawRow.hostname := "web-1";
  RawRow.os_family := Some "linux"%string; RawRow.os_id := Some "ubuntu"%string;
  RawRow.os_version := Some "22.04"%string; RawRow.os_codename := None; RawRow.kernel_version := None;
  RawRow.net_interfaces := None; RawRow.services := Some web_services; RawRow.last_seen_at := None;
  RawRow.cpu_p95_pct := Some (of_Z 40); RawRow.cpu_avg_pct := Some (of_Z 30);
  RawRow.cpu_peak_pct := Some (of_Z 60); RawRow.mem_p95_pct := Some (of_Z 50); RawRow.mem_avg_pct := None;
  RawRow.mem_peak_pct := None; RawRow.mem_near_peak_pct := None; RawRow.listen_ports := Some [postgres_socket];
  RawRow.iowait_p95_pct := None; RawRow.iowait_peak_pct := None; RawRow.cpu_run_queue_p95 := None;
  RawRow.mem_pages_input_rate_p95 := None; RawRow.cpu_cores := Some 4;
  RawRow.mem_total_bytes := Some (8 * 1024 ^ 3); RawRow.block_devices := None; RawRow.lvm_vgs := None;
  RawRow.arch := None; RawRow.bits := None; RawRow.boot_firmware := None; RawRow.secure_boot := None;
  RawRow.edition := None; RawRow.product_name := None; RawRow.timezone := None; RawRow.rtc_utc := None;
  RawRow.boot := None; RawRow.nonblock_mounts := None; RawRow.boot_time := None;
  RawRow.worst_mount_used_pct := Some (of_Z 40); RawRow.disk_capacity_worst_mount := None;
  RawRow.reboot_count := 0; RawRow.agent_restart_count := 0; RawRow.disk_iops_baseline := Some 40;
  RawRow.disk_iops_p95 := None; RawRow.disk_iops_peak := None; RawRow.disk_throughput_kbps := None;
  RawRow.disk_throughput_kbps_p95 := None; RawRow.disk_throughput_kbps_peak := None;
  RawRow.net_rx_kbps := Some (of_Z 900); RawRow.net_rx_kbps_p95 := None; RawRow.net_rx_kbps_peak := None;
  RawRow.net_tx_kbps := None; RawRow.net_tx_kbps_p95 := None; RawRow.net_tx_kbps_peak := None;
  RawRow.cpu_sufficiency := None; RawRow.mem_sufficiency := None; RawRow.cpu_steal_p95_pct := None;
  RawRow.cpu_burst_ratio := None; RawRow.procs_blocked_p95 := None; RawRow.procs_running_p95 := Some (of_Z 2);
  RawRow.mem_swap_paging := false; RawRow.oom_occurred := false; RawRow.history_hours := Some (of_Z 336);
  RawRow.disk_await_p95_ms := Some (of_Z 35); RawRow.disk_capacity_runway_days := None;
  RawRow.disk_capacity_driving_mount := None; RawRow.disk_inode_runway_days := None;
  RawRow.disk_inode_used_pct := None; RawRow.disk_capacity_target_gb := None;
  RawRow.disk_capacity_proj_30d_pct := None; RawRow.disk_capacity_driving_used_pct := None;
  RawRow.net_drop_pct := None; RawRow.net_retrans_pct := None; RawRow.conntrack_ratio := None;
  RawRow.cpu_trend_slope := None; RawRow.mem_trend_slope := None; RawRow.cpu_percore_p95_max := None |}.

Definition sketch (g : ServiceCatalogGroup) : string * Z * list (string * Z) :=
  (SvcGroup.category g, SvcGroup.total_count g, (λ it, (SvcCount.name it, SvcCount.count it)) <$> SvcGroup.services g).

Lemma ok_eq {A} (a b : A) : Ok a = Ok b → a = b.
Proof. by intros [=]. Qed.

(** One server: "Nginx" counts two for one server, the two runtimes count one together. *)
Lemma service_catalog_counts_witness :
  ∃ r, to_report_row_item web_row true 0 false = Ok r
    ∧ sketch <$> _aggregate_service_catalog [r]
      = [("web", 1, [("Nginx", 2)]); ("db", 1, [("(포트 탐지)", 1)]); ("cache", 0, []); ("mq", 0, []);
         ("container", 1, [("Docker, containerd", 1)]); ("monitor", 0, [])]%string
    ∧ ∀ g, g ∈ _aggregate_service_catalog [r] → SvcGroup.total_count g = count_if (has_cat (SvcGroup.category g)) [r].
Proof.
  assert ((r ← to_report_row_item web_row true 0 false; Ok (sketch <$> _aggregate_service_catalog [r]))
          = Ok [("web", 1, [("Nginx", 2)]); ("db", 1, [("(포트 탐지)", 1)]); ("cache", 0, []); ("mq", 0, []);
                ("container", 1, [("Docker, containerd", 1)]); ("monitor", 0, [])]%string) as E by by_eval.
  destruct (to_report_row_item web_row true 0 false) as [r|e] eqn:Hr; [|discriminate E].
  exists r. split; [reflexivity|]. split; [exact (ok_eq _ _ E)|].
  destruct (service_catalog_counts [web_row] [r]) as [_ G].
  - repeat constructor. by exists true, 0, false.
  - apply NoDup_singleton.
  - intros g Hg. by destruct (G g Hg).
Defined.
