(* ===== verification/ReportQuery.v ===== *)
(** * The queries of the reports

    Models [src/assessment_engine/web/services/query/report.py]: the rows of a report
    with their baselines, the report of the environment, of a selection, of one server,
    and the reports of the servers of a selection, whose data are read in one batch.
    The SQL is behind [ReportRepo] and [FleetRepo].  [now] stands for every
    [datetime.now(UTC)]. *)

From S2P Require Import Prelude PyFloat Redis Sql Inbound CollectDb Wire PyText DbRetry Handlers PyList Devices Services MetricViews Dashboard Signals JsonCodec DashCache EolCatalog OsEol StorageTree Reports RightSizing Assess Rollup Outbound ServerViews HostRows PeriodCard ActionTable Topology Fleet FleetQuery EnvReport.

(** ** Windows *)

(** [math.modf], the whole part as an integer *)
Definition modf (x : float) : result (Z * float) := whole ← py_int x; Ok (whole, fsub x (of_Z whole)).

(** [n + x] rounded to the nearest integer, ties to even *)
Definition round_from (n : Z) (x : float) : result Z :=
  match x with
  | S754_zero _ => Ok n
  | S754_finite s m e => if 0 <=? e then Ok (n + cond_Zopp s (Zpos m) * 2 ^ e)
                         else Ok (scaled_round (n * 2 ^ (- e) + cond_Zopp s (Zpos m)) e)
  | _ => Raise OverflowError
  end.

(** [timedelta(days=x)], in microseconds: whole days, whole microseconds of the rest, and what is
    left of that, rounded with the sum *)
Definition timedelta_days (x : float) : result Z :=
  days_frac ← modf x;
  us_left ← modf (fmul (of_Z us_per_day) days_frac.2);
  round_from (days_frac.1 * us_per_day + us_left.1) us_left.2.

Definition TIME_RANGE_TD : gmap string Z := list_to_map ((λ kn : string * Z, (kn.1, seconds (kn.2 * 60))) <$>
  [("15m", 15); ("1h", 60); ("6h", 360); ("24h", 1440); ("7d", 10080); ("14d", 20160); ("30d", 43200)]%string).

Definition AUTO_BUCKET : gmap string string := list_to_map
  [("15m", "1m"); ("1h", "5m"); ("6h", "15m"); ("24h", "30m"); ("7d", "3h"); ("14d", "6h"); ("30d", "12h")]%string.

(** [d[k]] *)
Definition key_of {A} (d : string → option A) (k : string) : result A :=
  match d k with Some x => Ok x | None => Raise (KeyError k) end.

(** ** Rows ([_with_report_baselines]) *)

Module DiskBase.
Record DiskIoBaselineRaw := {
  iops_baseline : option Z;
  throughput_kbps_baseline : option float;
  iops_p95 : option float;
  iops_peak : option float;
  kbps_p95 : option float;
  kbps_peak : option float;
}.
End DiskBase.
Abbreviation DiskIoBaselineRaw := DiskBase.DiskIoBaselineRaw.

(** The counts and the baselines replace what the row has; a baseline that is absent leaves it. *)
Definition _with_report_baselines (raw : ReportRowRaw) (reboot_count agent_restart_count : Z)
    (disk : option DiskIoBaselineRaw) (net : option NetIoBaselineRaw) : ReportRowRaw :=
  let disk_field {A} (old : A) (new : DiskIoBaselineRaw → A) : A := match disk with Some d => new d | None => old end in
  with_net {|
    RawRow.server_id := RawRow.server_id raw; RawRow.public_id := RawRow.public_id raw;
    RawRow.hostname := RawRow.hostname raw; RawRow.os_family := RawRow.os_family raw;
    RawRow.os_id := RawRow.os_id raw; RawRow.os_version := RawRow.os_version raw;
    RawRow.os_codename := RawRow.os_codename raw; RawRow.kernel_version := RawRow.kernel_version raw;
    RawRow.net_interfaces := RawRow.net_interfaces raw; RawRow.services := RawRow.services raw;
    RawRow.last_seen_at := RawRow.last_seen_at raw; RawRow.cpu_p95_pct := RawRow.cpu_p95_pct raw;
    RawRow.cpu_avg_pct := RawRow.cpu_avg_pct raw; RawRow.cpu_peak_pct := RawRow.cpu_peak_pct raw;
    RawRow.mem_p95_pct := RawRow.mem_p95_pct raw; RawRow.mem_avg_pct := RawRow.mem_avg_pct raw;
    RawRow.mem_peak_pct := RawRow.mem_peak_pct raw; RawRow.mem_near_peak_pct := RawRow.mem_near_peak_pct raw;
    RawRow.listen_ports := RawRow.listen_ports raw; RawRow.iowait_p95_pct := RawRow.iowait_p95_pct raw;
    RawRow.iowait_peak_pct := RawRow.iowait_peak_pct raw; RawRow.cpu_run_queue_p95 := RawRow.cpu_run_queue_p95 raw;
    RawRow.mem_pages_input_rate_p95 := RawRow.mem_pages_input_rate_p95 raw; RawRow.cpu_cores := RawRow.cpu_cores raw;
    RawRow.mem_total_bytes := RawRow.mem_total_bytes raw; RawRow.block_devices := RawRow.block_devices raw;
    RawRow.lvm_vgs := RawRow.lvm_vgs raw; RawRow.arch := RawRow.arch raw; RawRow.bits := RawRow.bits raw;
    RawRow.boot_firmware := RawRow.boot_firmware raw; RawRow.secure_boot := RawRow.secure_boot raw;
    RawRow.edition := RawRow.edition raw; RawRow.product_name := RawRow.product_name raw;
    RawRow.timezone := RawRow.timezone raw; RawRow.rtc_utc := RawRow.rtc_utc raw; RawRow.boot := RawRow.boot raw;
    RawRow.nonblock_mounts := RawRow.nonblock_mounts raw; RawRow.boot_time := RawRow.boot_time raw;
    RawRow.worst_mount_used_pct := RawRow.worst_mount_used_pct raw;
    RawRow.disk_capacity_worst_mount := RawRow.disk_capacity_worst_mount raw; RawRow.reboot_count := reboot_count;
    RawRow.agent_restart_count := agent_restart_count;
    RawRow.disk_iops_baseline := disk_field (RawRow.disk_iops_baseline raw) DiskBase.iops_baseline;
    RawRow.disk_iops_p95 := disk_field (RawRow.disk_iops_p95 raw) DiskBase.iops_p95;
    RawRow.disk_iops_peak := disk_field (RawRow.disk_iops_peak raw) DiskBase.iops_peak;
    RawRow.disk_throughput_kbps := disk_field (RawRow.disk_throughput_kbps raw) DiskBase.throughput_kbps_baseline;
    RawRow.disk_throughput_kbps_p95 := disk_field (RawRow.disk_throughput_kbps_p95 raw) DiskBase.kbps_p95;
    RawRow.disk_throughput_kbps_peak := disk_field (RawRow.disk_throughput_kbps_peak raw) DiskBase.kbps_peak;
    RawRow.net_rx_kbps := RawRow.net_rx_kbps raw; RawRow.net_rx_kbps_p95 := RawRow.net_rx_kbps_p95 raw;
    RawRow.net_rx_kbps_peak := RawRow.net_rx_kbps_peak raw; RawRow.net_tx_kbps := RawRow.net_tx_kbps raw;
    RawRow.net_tx_kbps_p95 := RawRow.net_tx_kbps_p95 raw; RawRow.net_tx_kbps_peak := RawRow.net_tx_kbps_peak raw;
    RawRow.cpu_sufficiency := RawRow.cpu_sufficiency raw; RawRow.mem_sufficiency := RawRow.mem_sufficiency raw;
    RawRow.cpu_steal_p95_pct := RawRow.cpu_steal_p95_pct raw; RawRow.cpu_burst_ratio := RawRow.cpu_burst_ratio raw;
    RawRow.procs_blocked_p95 := RawRow.procs_blocked_p95 raw;
    RawRow.procs_running_p95 := RawRow.procs_running_p95 raw; RawRow.mem_swap_paging := RawRow.mem_swap_paging raw;
    RawRow.oom_occurred := RawRow.oom_occurred raw; RawRow.history_hours := RawRow.history_hours raw;
    RawRow.disk_await_p95_ms := RawRow.disk_await_p95_ms raw;
    RawRow.disk_capacity_runway_days := RawRow.disk_capacity_runway_days raw;
    RawRow.disk_capacity_driving_mount := RawRow.disk_capacity_driving_mount raw;
    RawRow.disk_inode_runway_days := RawRow.disk_inode_runway_days raw;
    RawRow.disk_inode_used_pct := RawRow.disk_inode_used_pct raw;
    RawRow.disk_capacity_target_gb := RawRow.disk_capacity_target_gb raw;
    RawRow.disk_capacity_proj_30d_pct := RawRow.disk_capacity_proj_30d_pct raw;
    RawRow.disk_capacity_driving_used_pct := RawRow.disk_capacity_driving_used_pct raw;
    RawRow.net_drop_pct := RawRow.net_drop_pct raw; RawRow.net_retrans_pct := RawRow.net_retrans_pct raw;
    RawRow.conntrack_ratio := RawRow.conntrack_ratio raw; RawRow.cpu_trend_slope := RawRow.cpu_trend_slope raw;
    RawRow.mem_trend_slope := RawRow.mem_trend_slope raw;
    RawRow.cpu_percore_p95_max := RawRow.cpu_percore_p95_max raw |} net.

(** ** Breakdowns ([mappers/server.py]) *)

Module BreakdownRaw.
Record MemoryBreakdownRaw := {
  used_pct : option float;
  available_pct : option float;
  cached_pct : option float;
  buffers_pct : option float;
}.
Record CpuBreakdownRaw := { user_pct : option float; system_pct : option float; iowait_pct : option float }.
End BreakdownRaw.
Abbreviation MemoryBreakdownRaw := BreakdownRaw.MemoryBreakdownRaw.
Abbreviation CpuBreakdownRaw := BreakdownRaw.CpuBreakdownRaw.

Definition build_memory_breakdown (raw : MemoryBreakdownRaw) : MemoryBreakdown := {|
  Breakdown.used_pct := BreakdownRaw.used_pct raw; Breakdown.available_pct := BreakdownRaw.available_pct raw;
  Breakdown.cached_pct := BreakdownRaw.cached_pct raw; Breakdown.buffers_pct := BreakdownRaw.buffers_pct raw |}.

Definition build_cpu_breakdown (raw : CpuBreakdownRaw) : CpuBreakdown := {|
  Breakdown.user_pct := BreakdownRaw.user_pct raw; Breakdown.system_pct := BreakdownRaw.system_pct raw;
  Breakdown.iowait_pct := BreakdownRaw.iowait_pct raw |}.

(** [MemoryBreakdownRaw(None, None, None, None)], [CpuBreakdownRaw(None, None, None)] *)
Definition no_memory : MemoryBreakdownRaw := {|
  BreakdownRaw.used_pct := None; BreakdownRaw.available_pct := None; BreakdownRaw.cached_pct := None;
  BreakdownRaw.buffers_pct := None |}.
Definition no_cpu : CpuBreakdownRaw := {|
  BreakdownRaw.user_pct := None; BreakdownRaw.system_pct := None; BreakdownRaw.iowait_pct := None |}.

(** ** The read side *)

(** What the reports read besides *)
Class ReportRepo (Q : Type) := {
  list_all_server_public_ids : eff Q (list string);
  server_ids_of : list string → eff Q (gmap string Z);
  utilization_of : float → datetime → list Z → eff Q EnvironmentUtilizationRaw;
  report_uptime_stats : list Z → float → datetime → eff Q (gmap Z Z);
  report_agent_restart_stats : list Z → float → datetime → eff Q (gmap Z Z);
  report_disk_io_baseline : list Z → float → datetime → eff Q (gmap Z DiskIoBaselineRaw);
  report_memory_breakdown : Z → float → datetime → eff Q MemoryBreakdownRaw;
  report_cpu_breakdown : Z → float → datetime → eff Q CpuBreakdownRaw;
  report_memory_breakdown_batch : list Z → float → datetime → eff Q (gmap Z MemoryBreakdownRaw);
  report_cpu_breakdown_batch : list Z → float → datetime → eff Q (gmap Z CpuBreakdownRaw);
  latest_errors : Z → datetime → eff Q ErrorFleetRaw;
  metric_trend : string → datetime → datetime → string → option (list Z) → eff Q (list MetricSeries);
  get_storage : Z → eff Q (option StorageWithUsage);
}.

(** One server of a batch *)
Module Prefetch.
Record _ChildPrefetch := {
  raw : ReportRowRaw;
  detail : ServerDetail;
  mem_raw : MemoryBreakdownRaw;
  cpu_raw : CpuBreakdownRaw;
}.
End Prefetch.
Abbreviation _ChildPrefetch := Prefetch._ChildPrefetch.

(** Some error in the window *)
Definition has_event (err : ErrorFleetRaw) : bool :=
  negb (mce_count err =? 0) || negb (oom_count err =? 0) || (0 <? default 0 (corrupted_bytes err))
  || negb (net_error_count err =? 0) || negb (disk_error_count err =? 0).

(** [raw.last_seen_at and raw.last_seen_at > threshold] *)
Definition row_seen_recently (end_ : datetime) (r : ReportRowRaw) : bool :=
  some_and (RawRow.last_seen_at r) (λ t, end_ - seconds redis_ttl_online <? t).

(** The row says a server is online from the flag of its index, or, when the cache is down, from when it was seen. *)
Definition row_online (flags : option (list (option string))) (end_ : datetime) (ir : nat * ReportRowRaw) : result bool :=
  match flags with
  | None => Ok (row_seen_recently end_ ir.2)
  | Some flags => flag_at flags ir.1
  end.

(** The overview of one server *)
Definition single_overview (detail : ServerDetail) (is_online : bool) (disk_gb : Z) : EnvironmentOverview :=
  let e := _empty_overview in {|
  Overview.total := 1; Overview.online := if is_online then 1 else 0; Overview.offline := if is_online then 0 else 1;
  Overview.total_vcpus := default 0 (DetailRow.cpu_cores detail);
  Overview.total_memory_gb := default (of_Z 0) (bytes_to_gib (DetailRow.mem_total_bytes detail));
  Overview.total_disk_gb := disk_gb; Overview.os_distribution := Overview.os_distribution e;
  Overview.role_distribution := Overview.role_distribution e; Overview.workload_donut := Overview.workload_donut e;
  Overview.workload_total := Overview.workload_total e; Overview.role_unknown_count := Overview.role_unknown_count e;
  Overview.utilization := Overview.utilization e; Overview.utilization_p95 := Overview.utilization_p95 e;
  Overview.util_sample_size := Overview.util_sample_size e; Overview.saturation_donuts := Overview.saturation_donuts e;
  Overview.error_fleet := Overview.error_fleet e; Overview.os_eol_passed := Overview.os_eol_passed e;
  Overview.os_eol_security_only := Overview.os_eol_security_only e; Overview.os_eol_unknown := Overview.os_eol_unknown e;
  Overview.os_eol_supported := Overview.os_eol_supported e; Overview.risk_donut := Overview.risk_donut e;
  Overview.risk_donut_total := Overview.risk_donut_total e; Overview.risk_high_count := Overview.risk_high_count e;
  Overview.under_provisioned_hosts := Overview.under_provisioned_hosts e;
  Overview.under_provisioned_hosts_count := Overview.under_provisioned_hosts_count e;
  Overview.under_provisioned_hosts_shown := Overview.under_provisioned_hosts_shown e |}.

(** The summary with its parts of one server *)
Definition with_single (s : EnvironmentReportSummary) (parts : SingleParts) : EnvironmentReportSummary := {|
  EnvReport.view := EnvReport.view s; EnvReport.time_range := EnvReport.time_range s;
  EnvReport.time_range_label := EnvReport.time_range_label s; EnvReport.anchor_at := EnvReport.anchor_at s;
  EnvReport.generated_at := EnvReport.generated_at s; EnvReport.overview := EnvReport.overview s;
  EnvReport.attention := EnvReport.attention s; EnvReport.base := EnvReport.base s;
  EnvReport.classification_dist := EnvReport.classification_dist s; EnvReport.os_distribution := EnvReport.os_distribution s;
  EnvReport.top_risks := EnvReport.top_risks s; EnvReport.summary_bullets_env := EnvReport.summary_bullets_env s;
  EnvReport.os_family_dist := EnvReport.os_family_dist s; EnvReport.env_metrics := EnvReport.env_metrics s;
  EnvReport.os_eol_count := EnvReport.os_eol_count s;
  EnvReport.os_eol_breakdown_label := EnvReport.os_eol_breakdown_label s;
  EnvReport.agent_versions_label := EnvReport.agent_versions_label s; EnvReport.topology := EnvReport.topology s;
  EnvReport.trend := EnvReport.trend s; EnvReport.action := EnvReport.action s;
  EnvReport.service_catalog := EnvReport.service_catalog s; EnvReport.attention_hosts := EnvReport.attention_hosts s;
  EnvReport.capacity_imminent := EnvReport.capacity_imminent s; EnvReport.top_risks_count := EnvReport.top_risks_count s;
  EnvReport.attention_hosts_count := EnvReport.attention_hosts_count s;
  EnvReport.capacity_imminent_count := EnvReport.capacity_imminent_count s; EnvReport.single := parts |}.

(** ** The queries *)

Section queries.
Context {R : Type} `{RedisClient R} {Q : Type} `{FleetRepo Q} `{ReportRepo Q}.
Variable now : datetime.

Definition _build_report_trend (time_range : string) (end_dt : datetime) (server_ids : option (list Z))
    : eff (R * Q) (list json) :=
  let bucket := default "1h"%string (AUTO_BUCKET !! time_range) in
  span ← lift (key_of (λ k, TIME_RANGE_TD !! k) time_range);
  let series (metric : string) := on_repo (metric_trend metric (end_dt - span) end_dt bucket server_ids) in
  cpu_series ← series "cpu.usage_percent"%string;
  mem_series ← series "mem.usage_percent"%string;
  disk_series ← series "fs.usage_percent"%string;
  mret (build_metric_trend cpu_series mem_series disk_series).

Definition _build_report_saturation_trend (time_range : string) (end_dt : datetime) (server_ids : list Z)
    : eff (R * Q) (list json) :=
  let bucket := default "1h"%string (AUTO_BUCKET !! time_range) in
  span ← lift (key_of (λ k, TIME_RANGE_TD !! k) time_range);
  let series (metric : string) := on_repo (metric_trend metric (end_dt - span) end_dt bucket (Some server_ids)) in
  cpu_series ← series "cpu.saturation"%string;
  mem_series ← series "mem.paging_pressure"%string;
  disk_series ← series "disk.saturation"%string;
  mret (build_saturation_trend cpu_series mem_series disk_series).

Definition _assemble_report_raws (server_ids : list Z) (period_days : float) (end_dt : datetime)
    : eff (R * Q) (list ReportRowRaw) :=
  raws ← on_repo (report_aggregate server_ids period_days end_dt);
  uptime_stats ← on_repo (report_uptime_stats server_ids period_days end_dt);
  agent_restart_stats ← on_repo (report_agent_restart_stats server_ids period_days end_dt);
  disk_io ← on_repo (report_disk_io_baseline server_ids period_days end_dt);
  net_io ← on_repo (report_net_io_baseline server_ids period_days end_dt);
  mret ((λ raw, let sid := RawRow.server_id raw in
           _with_report_baselines raw (default 0 (uptime_stats !! sid)) (default 0 (agent_restart_stats !! sid))
             (disk_io !! sid) (net_io !! sid)) <$> raws).

(** The body of the loop over the rows *)
Definition report_item (flags : option (list (option string))) (end_dt window_start : datetime)
    (fetch_operational_events : bool) (ir : nat * ReportRowRaw) : eff (R * Q) ReportRowItem :=
  online ← lift (row_online flags end_dt ir);
  event ← (if fetch_operational_events
           then err ← on_repo (latest_errors (RawRow.server_id ir.2) window_start); mret (has_event err)
           else mret false);
  lift (to_report_row_item ir.2 online end_dt event).

Definition count_rows (p : ReportRowItem → bool) (items : list ReportRowItem) : Z := count_if p items.

Definition get_report (server_ids : list Z) (period_days : float) (end_ : option datetime) (view : ReportView)
    (raws : option (list ReportRowRaw)) (fetch_operational_events : bool) : eff (R * Q) ReportSummary :=
  let end_dt := default now end_ in
  raws ← (match raws with Some l => mret l | None => _assemble_report_raws server_ids period_days end_dt end);
  flags ← on_cache (safe_mget ((λ r, redis_key_online (RawRow.server_id r)) <$> raws));
  window ← lift (timedelta_days period_days);
  items ← for_collect (zip (seq 0 (length raws)) raws)
            (report_item flags end_dt (end_dt - window) fetch_operational_events);
  let '(avg_cpu, avg_mem) := compute_report_avg_p95 items in
  let role_dist := build_role_distribution raws in
  let '(os_family_summary, workload_summary) := build_selection_context items role_dist in
  totals ← lift (compute_report_totals_from_raw raws);
  bullets ← lift (build_report_summary_bullets items raws view (date_of now));
  mret {| Summary.rows := sort_rows_for_report items;
          Summary.period_days := period_days;
          Summary.total := Z.of_nat (length items);
          Summary.online := count_rows Row.is_online items;
          Summary.risk_attention := count_rows (λ it, String.eqb (Row.risk_level it) "attention") items;
          Summary.risk_high := count_rows (λ it, String.eqb (Row.risk_level it) "high") items;
          Summary.avg_cpu_p95_pct := avg_cpu;
          Summary.avg_mem_p95_pct := avg_mem;
          Summary.totals := totals;
          Summary.summary_bullets := bullets;
          Summary.role_distribution := role_dist;
          Summary.os_family_summary := os_family_summary;
          Summary.workload_summary := workload_summary;
          Summary.generated_at := Some now;
          Summary.anchor_at := Some end_dt |}.

(** [ReportSummary(rows=[], period_days=period_days, total=0, ...)] *)
Definition no_rows (period_days : float) : ReportSummary := {|
  Summary.rows := []; Summary.period_days := period_days; Summary.total := 0; Summary.online := 0;
  Summary.risk_attention := 0; Summary.risk_high := 0; Summary.avg_cpu_p95_pct := None; Summary.avg_mem_p95_pct := None;
  Summary.totals := {| total_vcpus := 0; total_memory_gb := of_Z 0; total_disk_gb := 0 |}; Summary.summary_bullets := [];
  Summary.role_distribution := []; Summary.os_family_summary := ""; Summary.workload_summary := "";
  Summary.generated_at := None; Summary.anchor_at := None |}.

(** What the reports of the environment and of a selection read of their servers: the details, the
    rows, the report and the overview of them *)
Definition scope_parts (server_ids : list Z) (details : list ServerDetail) (period_days : float) (end_dt : datetime)
    (view : ReportView) (events : bool) : eff (R * Q) (list ReportRowRaw * ReportSummary * EnvironmentOverview) :=
  raws_window ← _assemble_report_raws server_ids period_days end_dt;
  base ← get_report server_ids period_days (Some end_dt) view (Some raws_window) events;
  online_by_id ← _online_map server_ids details end_dt;
  util ← on_repo (utilization_of period_days end_dt server_ids);
  overview ← lift (assemble_overview (date_of now) details util raws_window online_by_id false None);
  mret (raws_window, base, overview).

Definition report_attention (end_dt : datetime) (raws : option (list ReportRowRaw)) : eff (R * Q) AttentionSignals :=
  attention_signals now _GAP_MINUTES _GAP_RECENT_HOURS None (Some end_dt) raws.

(** [[sid_map[p] for p in public_ids if p in sid_map]] *)
Definition known_ids (sid_map : gmap string Z) (public_ids : list string) : list Z := omap (λ p, sid_map !! p) public_ids.

Definition get_environment_report (time_range : string) (anchor_at : option datetime) (view : ReportView)
    : eff (R * Q) EnvironmentReportSummary :=
  period_days ← lift (key_of DIAGNOSTIC_RANGE_DAYS time_range);
  let end_dt := default now anchor_at in
  public_ids ← on_repo list_all_server_public_ids;
  sid_map ← (match public_ids with [] => mret ∅ | _ => on_repo (server_ids_of public_ids) end);
  let server_ids := known_ids sid_map public_ids in
  parts ← (match server_ids with
           | [] => mret ([], [], no_rows period_days, _empty_overview)
           | _ =>
               details ← on_repo (get_servers server_ids);
               p ← scope_parts server_ids details period_days end_dt view false;
               mret (details, p.1.1, p.1.2, p.2)
           end);
  let '(details, raws_window, base, overview) := parts in
  attention ← report_attention end_dt (Some raws_window);
  trend ← (match server_ids with [] => mret [] | _ => _build_report_trend time_range end_dt None end);
  action ← lift (build_action_targets raws_window);
  mret (to_environment_report view time_range end_dt overview attention base details now action trend).

Definition get_selection_report (server_public_ids : list string) (view : ReportView) (time_range : string)
    (anchor_at : option datetime) : eff (R * Q) (option EnvironmentReportSummary) :=
  period_days ← lift (key_of DIAGNOSTIC_RANGE_DAYS time_range);
  let end_dt := default now anchor_at in
  sid_map ← on_repo (server_ids_of server_public_ids);
  let server_ids := known_ids sid_map server_public_ids in
  match server_ids with
  | [] => mret None
  | _ =>
      details ← on_repo (get_servers server_ids);
      match details with
      | [] => mret None
      | _ =>
          p ← scope_parts server_ids details period_days end_dt view true;
          let '(raws_window, base, overview) := p in
          all ← report_attention end_dt (Some raws_window);
          let attention := _filter_attention all (list_to_set (DetailRow.hostname <$> details)) in
          trend ← _build_report_trend time_range end_dt (Some server_ids);
          action ← lift (build_action_targets raws_window);
          mret (Some (to_environment_report view time_range end_dt overview attention base details now action trend))
      end
  end.

(** The depth of the storage tree is at most the number of the devices. *)
Definition storage_tree_of (s : StorageWithUsage) : result (list StorageNode) :=
  let devices := StorageRow.block_devices s in
  match build_storage_tree devices (StorageRow.lvm_vgs s) (StorageRow.filesystems s) (S (length devices)) with
  | Some nodes => Ok nodes
  | None => Raise (OtherError "maximum recursion depth exceeded")
  end.

(** [raws_window[0]] *)
Definition first_row (raws : list ReportRowRaw) : result ReportRowRaw :=
  match raws with r :: _ => Ok r | [] => Raise (OtherError "list index out of range") end.

(** What the engineer's report of one server has besides *)
Definition engineer_parts (server_id : Z) (period_days : float) (time_range : string) (end_dt : datetime)
    (raws_window : list ReportRowRaw) (prefetch : option _ChildPrefetch) (inventory : option ServerInventorySnapshot)
    : eff (R * Q) SingleParts :=
  breakdowns ← (match prefetch with
                | Some p => mret (Prefetch.mem_raw p, Prefetch.cpu_raw p)
                | None =>
                    mem_raw ← on_repo (report_memory_breakdown server_id period_days end_dt);
                    cpu_raw ← on_repo (report_cpu_breakdown server_id period_days end_dt);
                    mret (mem_raw, cpu_raw)
                end);
  raw0 ← lift (first_row raws_window);
  win_days ← lift (py_int period_days);
  window ← lift (timedelta_days period_days);
  err ← on_repo (latest_errors server_id (end_dt - window));
  let errors := build_error_signals err (str_join "" ["최근 "; pretty win_days; "일"]%string) (RawRow.os_family raw0) in
  period ← lift (build_period_assessment (row_stats raw0) (Some errors) (RawRow.disk_capacity_worst_mount raw0) (Some win_days));
  storage_dto ← on_repo (get_storage server_id);
  tree ← (match storage_dto with Some s => lift (storage_tree_of s) | None => mret [] end);
  interfaces ← lift (build_network_interfaces (default [] (RawRow.net_interfaces raw0)) ∅);
  sat_trend ← _build_report_saturation_trend time_range end_dt [server_id];
  mret {| Single.sat_trend := sat_trend; Single.server_inventory := inventory;
          Single.memory_breakdown := Some (build_memory_breakdown breakdowns.1);
          Single.cpu_breakdown := Some (build_cpu_breakdown breakdowns.2);
          Single.period_assessment := Some period; Single.storage_tree := tree; Single.network_interfaces := interfaces |}.

(** The report of one server, once its detail and its rows are known *)
Definition single_report (server_id : Z) (view : ReportView) (time_range : string) (period_days : float)
    (end_dt : datetime) (attention : option AttentionSignals) (prefetch : option _ChildPrefetch) (detail : ServerDetail)
    (raws_window : list ReportRowRaw) : eff (R * Q) EnvironmentReportSummary :=
  base ← get_report [server_id] period_days (Some end_dt) view (Some raws_window) true;
  attention ← (match attention with Some a => mret a | None => report_attention end_dt None end);
  flag ← on_cache (safe_get (redis_key_online (DetailRow.id detail)));
  let is_online := match flag with
                   | Some f => String.eqb f "1"
                   | None => seen_recently end_dt detail
                   end in
  disk_gb ← lift (whole_gb (disk_total_bytes (DetailRow.block_devices detail)));
  trend ← _build_report_trend time_range end_dt (Some [server_id]);
  action ← lift (build_action_targets raws_window);
  let summary := to_environment_report view time_range end_dt (single_overview detail is_online disk_gb) attention base
                   [detail] now action trend in
  inventory ← lift (build_server_inventory detail is_online (head raws_window));
  parts ← (match view with
           | customer => mret {|
               Single.sat_trend := []; Single.server_inventory := Some inventory; Single.memory_breakdown := None;
               Single.cpu_breakdown := None; Single.period_assessment := None; Single.storage_tree := [];
               Single.network_interfaces := [] |}
           | engineer => engineer_parts server_id period_days time_range end_dt raws_window prefetch (Some inventory)
           end);
  mret (with_single summary parts).

Definition get_single_server_report (server_public_id : string) (view : ReportView) (time_range : string)
    (anchor_at : option datetime) (attention : option AttentionSignals) (prefetch : option _ChildPrefetch)
    : eff (R * Q) (option EnvironmentReportSummary) :=
  period_days ← lift (key_of DIAGNOSTIC_RANGE_DAYS time_range);
  let end_dt := default now anchor_at in
  sid_map ← on_repo (server_ids_of [server_public_id]);
  match sid_map !! server_public_id with
  | None => mret None
  | Some server_id =>
      let report := single_report server_id view time_range period_days end_dt attention prefetch in
      match prefetch with
      | Some p => s ← report (Prefetch.detail p) [Prefetch.raw p]; mret (Some s)
      | None =>
          fetched ← on_repo (get_servers [server_id]);
          match fetched with
          | [] => mret None
          | detail :: _ =>
              raws_window ← _assemble_report_raws [server_id] period_days end_dt;
              s ← report detail raws_window; mret (Some s)
          end
      end
  end.

(** The body of the loop over the servers of the batch *)
Definition child_report (sid_map : gmap string Z) (raws_by_id : gmap Z ReportRowRaw) (details_by_id : gmap Z ServerDetail)
    (mem_by_id : gmap Z MemoryBreakdownRaw) (cpu_by_id : gmap Z CpuBreakdownRaw) (view : ReportView) (time_range : string)
    (anchor_at : datetime) (attention : option AttentionSignals) (pid : string)
    : eff (R * Q) (string * option EnvironmentReportSummary) :=
  match (sid ← sid_map !! pid; raw ← raws_by_id !! sid; detail ← details_by_id !! sid; Some (sid, raw, detail)) with
  | None => mret (pid, None)
  | Some (sid, raw, detail) =>
      summary ← get_single_server_report pid view time_range (Some anchor_at) attention (Some {|
        Prefetch.raw := raw; Prefetch.detail := detail;
        Prefetch.mem_raw := default no_memory (mem_by_id !! sid); Prefetch.cpu_raw := default no_cpu (cpu_by_id !! sid) |});
      mret (pid, summary)
  end.

Definition build_child_prefetched_reports (server_public_ids : list string) (sid_map : gmap string Z) (view : ReportView)
    (time_range : string) (anchor_at : datetime) (attention : option AttentionSignals)
    : eff (R * Q) (list (string * option EnvironmentReportSummary)) :=
  period_days ← lift (key_of DIAGNOSTIC_RANGE_DAYS time_range);
  let sids := known_ids sid_map server_public_ids in
  match sids with
  | [] => mret ((λ p, (p, None)) <$> server_public_ids)
  | _ =>
      raws ← _assemble_report_raws sids period_days anchor_at;
      details ← on_repo (get_servers sids);
      let raws_by_id := dict_of ((λ r, (RawRow.server_id r, r)) <$> raws) in
      let details_by_id := dict_of ((λ d, (DetailRow.id d, d)) <$> details) in
      breakdowns ← (match view with
                    | engineer =>
                        mem_by_id ← on_repo (report_memory_breakdown_batch sids period_days anchor_at);
                        cpu_by_id ← on_repo (report_cpu_breakdown_batch sids period_days anchor_at);
                        mret (mem_by_id, cpu_by_id)
                    | customer => mret (∅, ∅)
                    end);
      for_collect server_public_ids
        (child_report sid_map raws_by_id details_by_id breakdowns.1 breakdowns.2 view time_range anchor_at attention)
  end.
End queries.
