(* ===== verification/ReportQueryProps.v ===== *)
(** * The reports of a batch are the reports of its servers *)

From S2P Require Import Prelude PyFloat Redis Sql Inbound CollectDb Wire PyText DbRetry Handlers PyList Devices Services MetricViews Dashboard Signals JsonCodec DashCache EolCatalog OsEol StorageTree Reports RightSizing Assess Rollup Outbound ServerViews HostRows HostRowProps PeriodCard ActionTable Topology Fleet FleetQuery EnvReport ReportQuery.

(** ** Reads *)

(** A read answers [a] and changes nothing. *)
Definition reads {Q A} (m : eff Q A) (a : A) : Prop := ∀ q, m q = (Ok a, q).

(** What the database holds while the reports are made: the ids of the servers, and by id their
    details, their rows over a window, and the measures the rows are completed with *)
Record tables := {
  t_ids : gmap string Z;
  t_detail : gmap Z ServerDetail;
  t_row : float → datetime → gmap Z ReportRowRaw;
  t_uptime : float → datetime → gmap Z Z;
  t_restarts : float → datetime → gmap Z Z;
  t_disk : float → datetime → gmap Z DiskIoBaselineRaw;
  t_net : float → datetime → gmap Z NetIoBaselineRaw;
  t_mem : float → datetime → gmap Z MemoryBreakdownRaw;
  t_cpu : float → datetime → gmap Z CpuBreakdownRaw;
}.

(** A dict by server answers for the servers asked about. *)
Definition answers {Q A} (m : list Z → eff Q (gmap Z A)) (t : gmap Z A) : Prop :=
  ∀ ids, ∃ d, reads (m ids) d ∧ ∀ i, i ∈ ids → d !! i = t !! i.

(** A list of rows has one for each server asked about that has one, in any order. *)
Definition lists {Q A} (m : list Z → eff Q (list A)) (t : gmap Z A) : Prop :=
  ∀ ids, ∃ rows, reads (m ids) rows ∧ rows ≡ₚ omap (t !!.) (dedup_first ids).

(** The queries read the tables; the query of one server's breakdown has a row of nulls where
    the batch has none; and a server has a row exactly when it has details. *)
Record repo_reads {Q} `{FleetRepo Q} `{ReportRepo Q} (t : tables) : Prop := {
  rr_ids : ∀ ps, ∃ m, reads (server_ids_of ps) m ∧ ∀ p, p ∈ ps → m !! p = t_ids t !! p;
  rr_details : lists get_servers (t_detail t);
  rr_detail_id : ∀ i d, t_detail t !! i = Some d → DetailRow.id d = i;
  rr_rows p e : lists (λ ids, report_aggregate ids p e) (t_row t p e);
  rr_row_id p e i r : t_row t p e !! i = Some r → RawRow.server_id r = i;
  rr_uptime p e : answers (λ ids, report_uptime_stats ids p e) (t_uptime t p e);
  rr_restarts p e : answers (λ ids, report_agent_restart_stats ids p e) (t_restarts t p e);
  rr_disk p e : answers (λ ids, report_disk_io_baseline ids p e) (t_disk t p e);
  rr_net p e : answers (λ ids, report_net_io_baseline ids p e) (t_net t p e);
  rr_mem_batch p e : answers (λ ids, report_memory_breakdown_batch ids p e) (t_mem t p e);
  rr_cpu_batch p e : answers (λ ids, report_cpu_breakdown_batch ids p e) (t_cpu t p e);
  rr_mem p e i : reads (report_memory_breakdown i p e) (default no_memory (t_mem t p e !! i));
  rr_cpu p e i : reads (report_cpu_breakdown i p e) (default no_cpu (t_cpu t p e !! i));
  rr_both p e i : is_Some (t_row t p e !! i) ↔ is_Some (t_detail t !! i);
}.

Lemma bind_ext {S A B} (m : eff S A) (k k' : A → eff S B) w : (∀ a w, k a w = k' a w) → (m ≫= k) w = (m ≫= k') w.
Proof. intros E. unfold mbind, eff_bind. by destruct (m w) as [[a|e] w']. Qed.

Lemma bind_cong {S A B} (m m' : eff S A) (k : A → eff S B) w : m w = m' w → (m ≫= k) w = (m' ≫= k) w.
Proof. intros E. unfold mbind, eff_bind. by rewrite E. Qed.

Lemma for_collect_ext {S A B} (l : list A) (f g : A → eff S B) w :
  (∀ x w, x ∈ l → f x w = g x w) → for_collect l f w = for_collect l g w.
Proof.
  revert w. induction l as [|x l IH]; intros w E; [done|]. cbn [for_collect].
  rewrite (bind_cong (f x) (g x)) by (apply E; by left). apply bind_ext. intros b w'. apply bind_cong, IH.
  intros y w2 Hy. apply E. by right.
Qed.

Lemma bind_read {R Q A B} (m : eff Q A) (a : A) (k : A → eff (R * Q) B) w : reads m a → (on_repo m ≫= k) w = k a w.
Proof. intros E. unfold mbind, eff_bind, on_repo. rewrite E. by destruct w. Qed.

Lemma bind_lift {S A B} (r : result A) (a : A) (k : A → eff S B) w : r = Ok a → (lift r ≫= k) w = k a w.
Proof. by intros ->. Qed.

Lemma bind_assoc_ext {S A B C} (m : eff S A) (k : A → eff S B) (h : B → eff S C) w :
  ((m ≫= k) ≫= h) w = (m ≫= (λ a, k a ≫= h)) w.
Proof. unfold mbind, eff_bind. by destruct (m w) as [[a|e] w']. Qed.

Section batch.
Context {R : Type} `{RedisClient R} {Q : Type} `{FleetRepo Q} `{ReportRepo Q} (t : tables) (L : repo_reads t) (now : datetime).

(** A server's row with its baselines *)
Definition full_row (p : float) (e : datetime) (i : Z) : option ReportRowRaw :=
  (λ r, _with_report_baselines r (default 0 (t_uptime t p e !! i)) (default 0 (t_restarts t p e !! i))
          (t_disk t p e !! i) (t_net t p e !! i)) <$> t_row t p e !! i.

Lemma assemble_rows ids p e w :
  ∃ rows, _assemble_report_raws (R := R) ids p e w = (Ok rows, w) ∧ rows ≡ₚ omap (full_row p e) (dedup_first ids).
Proof.
  destruct (rr_rows t L p e ids) as (rs & E & P). destruct (rr_uptime t L p e ids) as (u & Eu & U).
  destruct (rr_restarts t L p e ids) as (a & Ea & A). destruct (rr_disk t L p e ids) as (d & Ed & D).
  destruct (rr_net t L p e ids) as (n & En & N). eexists. split.
  - unfold _assemble_report_raws. rewrite (bind_read _ _ _ _ E), (bind_read _ _ _ _ Eu), (bind_read _ _ _ _ Ea),
      (bind_read _ _ _ _ Ed), (bind_read _ _ _ _ En). reflexivity.
  - rewrite P. assert (∀ l : list Z, (∀ i, i ∈ l → i ∈ ids) →
      (λ raw, let sid := RawRow.server_id raw in
         _with_report_baselines raw (default 0 (u !! sid)) (default 0 (a !! sid)) (d !! sid) (n !! sid)) <$> omap (t_row t p e !!.) l
      = omap (full_row p e) l) as F.
    { induction l as [|i l IH]; intros I; [done|]. cbn [omap list_omap]. unfold full_row.
      destruct (t_row t p e !! i) as [r|] eqn:Er; cbn [fmap option_fmap option_map].
      - rewrite fmap_cons, (rr_row_id t L p e i r Er), U, A, D, N by (apply I; by left). f_equal.
        apply IH. intros j Hj. apply I. by right.
      - apply IH. intros j Hj. apply I. by right. }
    rewrite F; [done|]. intros i. apply elem_of_dedup_first.
Qed.

Lemma assemble_one i p e w : _assemble_report_raws (R := R) [i] p e w = (Ok (option_list (full_row p e i)), w).
Proof.
  destruct (assemble_rows [i] p e w) as (rows & E & P). rewrite E. do 2 f_equal. cbn in P.
  destruct (full_row p e i); cbn in *; [by apply Permutation_singleton_r in P|by apply Permutation_nil_r in P].
Qed.

Lemma details_one i : reads (get_servers [i]) (option_list (t_detail t !! i)).
Proof.
  destruct (rr_details t L [i]) as (ds & E & P). intros q. rewrite E. do 2 f_equal. cbn in P.
  destruct (t_detail t !! i); cbn in *; [by apply Permutation_singleton_r in P|by apply Permutation_nil_r in P].
Qed.

(** The dict of a list of rows by their ids *)
Lemma dict_of_snoc {V} (l : list (Z * V)) k v : dict_of (l ++ [(k, v)]) = <[k := v]> (dict_of l).
Proof. unfold dict_of. by rewrite foldl_app. Qed.

Lemma dict_of_known {A} (id : A → Z) (f : Z → option A) rows i :
  (∀ x, x ∈ rows → f (id x) = Some x) →
  dict_of ((λ x, (id x, x)) <$> rows) !! i = if decide (i ∈ id <$> rows) then f i else None.
Proof.
  induction rows as [|x rows IH] using rev_ind; intros F; [done|]. rewrite fmap_app. cbn [fmap list_fmap].
  rewrite dict_of_snoc, fmap_app. destruct (decide (id x = i)) as [<-|Hi].
  - rewrite lookup_insert_eq, decide_True by (apply elem_of_app; right; by apply list_elem_of_singleton).
    symmetry. apply F, elem_of_app. right. by apply list_elem_of_singleton.
  - rewrite lookup_insert_ne, IH by (done || (intros y Hy; apply F, elem_of_app; by left)).
    apply decide_ext. rewrite elem_of_app. cbn. rewrite list_elem_of_singleton. naive_solver.
Qed.

Lemma dict_of_rows {A} (id : A → Z) (f : Z → option A) ids rows i :
  (∀ i x, f i = Some x → id x = i) → rows ≡ₚ omap f ids → i ∈ ids → dict_of ((λ x, (id x, x)) <$> rows) !! i = f i.
Proof.
  intros F P I. rewrite (dict_of_known id f).
  - destruct (f i) as [x|] eqn:E; [|by case_decide]. rewrite decide_True; [done|].
    apply list_elem_of_fmap. exists x. split; [by rewrite (F _ _ E)|]. rewrite P. apply list_elem_of_omap. by exists i.
  - intros x Hx. rewrite P in Hx. apply list_elem_of_omap in Hx as (j & _ & Hj). by rewrite (F _ _ Hj).
Qed.

Lemma full_row_id p e i r : full_row p e i = Some r → RawRow.server_id r = i.
Proof.
  unfold full_row. destruct (t_row t p e !! i) as [r0|] eqn:E; [|done]. intros [= <-].
  transitivity (RawRow.server_id r0); [|by eapply rr_row_id]. by destruct (t_disk t p e !! i), (t_net t p e !! i).
Qed.

(** A report of one server is the same with the measures it would read. *)
Lemma single_report_prefetched sid view tr p e att pf detail raws w :
  (view = engineer → Prefetch.mem_raw pf = default no_memory (t_mem t p e !! sid)
                     ∧ Prefetch.cpu_raw pf = default no_cpu (t_cpu t p e !! sid)) →
  single_report (R := R) now sid view tr p e att (Some pf) detail raws w
  = single_report (R := R) now sid view tr p e att None detail raws w.
Proof.
  intros M. unfold single_report. do 6 (apply bind_ext; clear w; intros ? w). apply bind_ext. clear w. intros inv w.
  destruct view; [done|]. destruct (M eq_refl) as [Em Ec]. apply bind_cong.
  unfold engineer_parts. rewrite !bind_assoc_ext, (bind_read _ _ _ _ (rr_mem t L p e sid)), !bind_assoc_ext,
    (bind_read _ _ _ _ (rr_cpu t L p e sid)). by rewrite Em, Ec.
Qed.
Context (anchor : datetime) (view : ReportView) (tr : string) (p : float) (Htr : DIAGNOSTIC_RANGE_DAYS tr = Some p)
  (att : option AttentionSignals).

Abbreviation alone pid := (get_single_server_report (R := R) now pid view tr (Some anchor) att None).

Lemma key_found {A} (d : string → option A) k x : d k = Some x → key_of d k = Ok x.
Proof. unfold key_of. by intros ->. Qed.

(** The report of one server alone *)
Lemma alone_run pid w :
  alone pid w = match t_ids t !! pid with
                | None => (Ok None, w)
                | Some i => match t_detail t !! i with
                            | None => (Ok None, w)
                            | Some d => (s ← single_report now i view tr p anchor att None d (option_list (full_row p anchor i));
                                         mret (Some s)) w
                            end
                end.
Proof.
  unfold get_single_server_report. rewrite (bind_lift _ p) by by apply key_found. cbv zeta. cbn [from_option id].
  destruct (rr_ids t L [pid]) as (m & E & I). rewrite (bind_read _ _ _ _ E), I by by left.
  destruct (t_ids t !! pid) as [i|]; [|done]. rewrite (bind_read _ _ _ _ (details_one i)).
  destruct (t_detail t !! i) as [d|]; [|done]. change (option_list (Some d)) with [d]. cbv iota. by rewrite (bind_ok _ _ _ _ _ (assemble_one i p anchor w)).
Qed.

(** The body of the loop over the batch, with the dicts of it *)
Lemma child_alone sid_map rows details mems cpus pid w :
  sid_map !! pid = t_ids t !! pid →
  (∀ i, t_ids t !! pid = Some i → rows !! i = full_row p anchor i ∧ details !! i = t_detail t !! i
     ∧ (view = engineer → mems !! i = t_mem t p anchor !! i ∧ cpus !! i = t_cpu t p anchor !! i)) →
  child_report now sid_map rows details mems cpus view tr anchor att pid w
  = (s ← alone pid; mret (pid, s)) w.
Proof.
  intros M B. unfold child_report. rewrite M. pose proof (alone_run pid w) as A.
  destruct (t_ids t !! pid) as [i|] eqn:Ei; cbn [mbind option_bind]; [|by rewrite (bind_ok _ _ _ _ _ A)].
  destruct (B i eq_refl) as (-> & -> & Br). pose proof (rr_both t L p anchor i) as Both.
  assert (full_row p anchor i = None ↔ t_row t p anchor !! i = None) as F by (unfold full_row; by destruct (t_row t p anchor !! i)).
  destruct (full_row p anchor i) as [r|] eqn:Er; cbn [mbind option_bind].
  - destruct (t_detail t !! i) as [d|] eqn:Ed.
    2: { destruct (t_row t p anchor !! i) eqn:Et; [|discriminate (proj2 F eq_refl)]. by destruct (proj1 Both ltac:(by eexists)). }
    rewrite (bind_cong _ _ _ _ A). cbn [mbind option_bind]. apply bind_cong. unfold get_single_server_report.
    rewrite (bind_lift _ p) by by apply key_found. cbv zeta. cbn [from_option id].
    destruct (rr_ids t L [pid]) as (m & E & I). rewrite (bind_read _ _ _ _ E), I, Ei by by left.
    apply bind_cong, single_report_prefetched. intros V. destruct (Br V) as [Em Ec].
    cbn [Prefetch.mem_raw Prefetch.cpu_raw]. by rewrite Em, Ec.
  - rewrite (proj1 F eq_refl) in Both. destruct (t_detail t !! i) as [d|]; [by destruct (proj2 Both ltac:(by eexists))|].
    by rewrite (bind_ok _ _ _ _ _ A).
Qed.

Lemma alone_unknown pids w :
  (∀ q, q ∈ pids → t_ids t !! q = None) →
  for_collect pids (λ q, s ← alone q; mret (q, s)) w = (Ok ((λ q, (q, None)) <$> pids), w).
Proof.
  induction pids as [|q pids IH]; intros N; [done|]. cbn [for_collect].
  rewrite (bind_ok _ _ _ (q, None) w).
  2: { rewrite (bind_ok _ _ _ None w); [done|]. by rewrite alone_run, N by by left. }
  rewrite (bind_ok _ _ _ ((λ q, (q, None)) <$> pids) w); [done|]. apply IH. intros q' Hq. apply N. by right.
Qed.
End batch.

(** C11. Reading a batch gives the reports one would read alone.  Over a database that holds
    still, where a server has a row exactly when it has details, and for servers resolved to the
    ids the database gives them: preparing the child reports of a selection, which reads the rows,
    details and breakdowns of all of them at once, gives server by server what reading
    each alone gives - a report or none, the same errors and the same use of the cache. *)
Theorem children_are_single_reports {R : Type} `{RedisClient R} {Q : Type} `{FleetRepo Q} `{ReportRepo Q} (t : tables)
  (L : repo_reads t) (now anchor : datetime) (pids : list string) (sid_map : gmap string Z) (view : ReportView)
  (time_range : string) (att : option AttentionSignals) (K : is_Some (DIAGNOSTIC_RANGE_DAYS time_range))
  (I : ∀ pid, pid ∈ pids → sid_map !! pid = t_ids t !! pid) (w : R * Q) :
  build_child_prefetched_reports now pids sid_map view time_range anchor att w
  = for_collect pids (λ pid, s ← get_single_server_report now pid view time_range (Some anchor) att None; mret (pid, s)) w.
Proof.
  destruct K as [p Hp]. unfold build_child_prefetched_reports. rewrite (bind_lift _ p) by by apply key_found. cbv zeta.
  assert (∀ i, i ∈ known_ids sid_map pids ↔ ∃ pid, pid ∈ pids ∧ t_ids t !! pid = Some i) as Ki.
  { intros i. unfold known_ids. rewrite list_elem_of_omap. split; intros (pid & Hpid & E); exists pid; (split; [done|]).
    - by rewrite <- I.
    - by rewrite I. }
  destruct (known_ids sid_map pids) as [|i0 ids0] eqn:Es.
  { rewrite (alone_unknown t L now anchor view time_range p Hp att); [done|]. intros q Hq.
    destruct (t_ids t !! q) as [i|] eqn:E; [|done]. assert (i ∈ []) as X by (apply Ki; eauto). by apply not_elem_of_nil in X. }
  rewrite <- Es in *. clear i0 ids0 Es. set (ids := known_ids sid_map pids) in *.
  destruct (assemble_rows (R := R) t L ids p anchor w) as (rows & E & P). rewrite (bind_ok _ _ _ _ _ E).
  destruct (rr_details t L ids) as (ds & Ed & D). rewrite (bind_read _ _ _ _ Ed).
  assert (∀ i, i ∈ ids → dict_of ((λ r, (RawRow.server_id r, r)) <$> rows) !! i = full_row t p anchor i) as Rw.
  { intros i Hi. eapply dict_of_rows; [apply (full_row_id t L)|exact P|by apply elem_of_dedup_first]. }
  assert (∀ i, i ∈ ids → dict_of ((λ d, (DetailRow.id d, d)) <$> ds) !! i = t_detail t !! i) as Dt.
  { intros i Hi. eapply (dict_of_rows DetailRow.id (t_detail t !!.)); [apply (rr_detail_id t L)|exact D|by apply elem_of_dedup_first]. }
  assert (∀ pid i, pid ∈ pids → t_ids t !! pid = Some i → i ∈ ids) as Mem by (intros pid i ? ?; apply Ki; eauto).
  destruct view.
  - apply for_collect_ext. intros pid w' Hpid. apply (child_alone t L now anchor customer time_range p Hp att); [by apply I|].
    intros i Hi. split; [by apply Rw, (Mem pid)|]. split; [by apply Dt, (Mem pid)|done].
  - destruct (rr_mem_batch t L p anchor ids) as (mb & Em & Mb). destruct (rr_cpu_batch t L p anchor ids) as (cb & Ec & Cb).
    rewrite bind_assoc_ext, (bind_read _ _ _ _ Em), bind_assoc_ext, (bind_read _ _ _ _ Ec).
    apply for_collect_ext. intros pid w' Hpid. apply (child_alone t L now anchor engineer time_range p Hp att); [by apply I|].
    intros i Hi. pose proof (Mem pid i Hpid Hi). split; [by apply Rw|]. split; [by apply Dt|].
    intros _. by rewrite Mb, Cb.
Qed.

(** ** A concrete fleet *)

(** One server, seen at time 0 *)
Definition db_1 : ServerDetail := {|
  DetailRow.id := 1; DetailRow.public_id := "srv-1"; DetailRow.agent_id := "agent";
  DetailRow.composite_id := None; DetailRow.machine_id := None; DetailRow.hostname := "db-1";
  DetailRow.agent_version := None; DetailRow.os_family := Some "linux"%string; DetailRow.os_id := Some "ubuntu"%string;
  DetailRow.os_version := Some "22.04"%string; DetailRow.os_codename := None; DetailRow.kernel_version := None;
  DetailRow.cpu_cores := Some 4; DetailRow.cpu_model := None; DetailRow.cpu_arch := None; DetailRow.cpu_bits := None;
  DetailRow.mem_total_bytes := Some (8 * 1024 ^ 3); DetailRow.boot_time := None; DetailRow.agent_started_at := None;
  DetailRow.net_interfaces := []; DetailRow.ip_external := None; DetailRow.block_devices := []; DetailRow.lvm_vgs := [];
  DetailRow.services := None; DetailRow.listen_ports := []; DetailRow.last_seen_at := Some 0;
  DetailRow.service_categories := None; DetailRow.product_name := None; DetailRow.edition := None |}.

Definition one_server : tables := {|
  t_ids := {[ "srv-1"%string := 1 ]}; t_detail := {[ 1 := db_1 ]}; t_row _ _ := {[ 1 := io_row ]};
  t_uptime _ _ := {[ 1 := 2 ]}; t_restarts _ _ := ∅; t_disk _ _ := ∅; t_net _ _ := ∅;
  t_mem _ _ := ∅; t_cpu _ _ := ∅ |}.

(** The queries over it *)
Definition picked {A} (t : gmap Z A) (ids : list Z) : eff unit (list A) := mret (omap (t !!.) (dedup_first ids)).

#[local] Instance fleet_of_one : FleetRepo unit := {
  list_server_ids _ := mret [1];
  get_servers := picked (t_detail one_server);
  report_aggregate ids p e := picked (t_row one_server p e) ids;
  report_net_io_baseline _ p e := mret (t_net one_server p e);
  environment_utilization _ _ := raise (OtherError "not asked");
  fleet_error_summary _ _ := raise (OtherError "not asked");
  latest_metric_at := mret None;
  metric_gap_warnings _ _ _ := mret [];
  agent_restart_counts_recent _ _ := mret [];
}.

Definition quiet_errors : ErrorFleetRaw := {|
  measured := true; net_measured := true; disk_err_measured := true; mce_count := 0; oom_count := 0; corrupted_bytes := None;
  net_error_count := 0; disk_error_count := 0; disk_error_kinds := []; last_error_at := None |}.

#[local] Instance reports_of_one : ReportRepo unit := {
  list_all_server_public_ids := mret ["srv-1"%string];
  server_ids_of _ := mret (t_ids one_server);
  utilization_of _ _ _ := raise (OtherError "not asked");
  report_uptime_stats _ p e := mret (t_uptime one_server p e);
  report_agent_restart_stats _ p e := mret (t_restarts one_server p e);
  report_disk_io_baseline _ p e := mret (t_disk one_server p e);
  report_memory_breakdown _ _ _ := mret no_memory;
  report_cpu_breakdown _ _ _ := mret no_cpu;
  report_memory_breakdown_batch _ p e := mret (t_mem one_server p e);
  report_cpu_breakdown_batch _ p e := mret (t_cpu one_server p e);
  latest_errors _ _ := mret quiet_errors;
  metric_trend _ _ _ _ _ := mret [];
  get_storage _ := mret None;
}.

Lemma one_server_reads : repo_reads one_server.
Proof.
  assert (∀ A (t : gmap Z A), lists (picked t) t) as P by (intros A t ids; by eexists).
  assert (∀ A (t : gmap Z A), answers (Q := unit) (λ _, mret t) t) as G by (intros A t ids; by eexists).
  split; intros; try apply P; try apply G; try done.
  - by eexists.
  - cbn in *. by apply lookup_singleton_Some in H as [<- <-].
  - cbn in *. by apply lookup_singleton_Some in H as [<- <-].
  - cbn. destruct (decide (i = 1)) as [->|]; [|by rewrite !lookup_singleton_ne].
    rewrite !lookup_singleton_eq. split; by eexists.
Qed.

Definition cold_cache : MapRedis * unit := ({| mr_keys := ∅; mr_outages := [] |}, tt).

Definition no_attention : AttentionSignals := {| gap_warnings := []; os_eol_warnings := []; agent_unstable := [] |}.

Definition known_1 : gmap string Z := {[ "srv-1"%string := 1 ]}.

(** Who got a report *)
Definition outcomes (l : list (string * option EnvironmentReportSummary)) : list (string * bool) :=
  (λ x, (x.1, is_some x.2)) <$> l.

Lemma children_are_single_reports_witness :
  build_child_prefetched_reports 0 ["srv-1"; "srv-9"]%string known_1 engineer "14d" 0 (Some no_attention) cold_cache
  = for_collect ["srv-1"; "srv-9"]%string (λ pid,
      s ← get_single_server_report 0 pid engineer "14d" (Some 0) (Some no_attention) None; mret (pid, s)) cold_cache
  ∧ outcomes <$> (build_child_prefetched_reports 0 ["srv-1"; "srv-9"]%string known_1 engineer "14d" 0 (Some no_attention)
                    cold_cache).1
    = Ok [("srv-1", true); ("srv-9", false)]%string.
Proof.
  split; [|by_eval].
  apply (children_are_single_reports one_server one_server_reads 0 0 ["srv-1"; "srv-9"]%string known_1 engineer "14d").
  - by eexists.
  - intros pid _. reflexivity.
Defined.

(** When the cache answers but has no flag, the overview of a report goes by when the server was
    seen and its row does not: one server is online above and offline below. *)
Example overview_and_row_disagree :
  fmap (M:=option) (λ s, (Overview.online (EnvReport.overview s), Summary.online (EnvReport.base s)))
  <$> (get_single_server_report 0 "srv-1" customer "14d" (Some 0) (Some no_attention) None cold_cache).1 = Ok (Some (1, 0)).
Proof. vm_compute. reflexivity. Qed.

Definition window_of (tr : string) : result Z := p ← key_of DIAGNOSTIC_RANGE_DAYS tr; timedelta_days p.

(** The window of the trend queries, [round(days * 86400 seconds)], is the
    one the metric pages use for the same range. *)
Example windows_of_ranges :
  map window_of ["15m"; "1h"; "6h"; "24h"; "30d"]%string
  = map (λ tr, Ok (default 0 (TIME_RANGE_TD !! tr))) ["15m"; "1h"; "6h"; "24h"; "30d"]%string.
Proof. vm_compute. reflexivity. Qed.
