(* ===== verification/Snapshot.v ===== *)
(** * Report snapshots: a view model as JSON, and back

    Models [src/assessment_engine/web/services/report_serializer.py] over
    [serialization.py] and the accessors of [json_types.py].  A report is stored as the
    dict of its view model and rendered from that dict ever after, so what does not come
    back is lost from every report that was issued.

    The readers call the dataclasses with whatever the dict holds, so the values are
    Python's, not those of a typed record: a [pyval] is a scalar, a list, a dict or an
    object of one of the view-model classes, whose fields [fields_of] lists with their
    declared types and defaults.  What is no dict raises [TypeError] where the code
    takes its members.  [_build] and the readers build new dicts; that
    [env_report_from_dict] also writes the rebuilt subnets into the dict it was given is
    [spent]. *)

From S2P Require Import Prelude PyFloat Sql PyText IsoFacts PyList.

(** ** View models *)

Inductive cls :=
  | KAttentionRow | KCapacityWarningItem | KAttentionSignals | KUtilizationBar | KRiskDonutSegment
  | KEnvironmentOverview | KActionTargets | KSaturationDonut | KFleetErrorItem | KClassificationCount
  | KOsCount | KDistributionBar | KServerInventorySnapshot | KMemoryBreakdown | KCpuBreakdown
  | KServiceHost | KServiceNameCount | KServiceCatalogGroup | KAttentionHostItem | KCapacityImminentItem
  | KEnvironmentReportSummary | KPeriodSignalRow | KPeriodErrorRow | KPeriodExtraGroup | KPeriodResource
  | KPeriodAssessment | KReportWorkloadGroup | KReportListenItem | KReportRowItem | KReportTotals
  | KReportSummary | KIpAddr | KNetIfaceAddress | KNetworkInterfaceInfo | KStorageNode | KSubnetHost
  | KSubnetGroup | KNetworkTopology.

(** A declared type.  [TStage] is the [str] that holds a support stage; [TJson] is a value the
    code keeps as plain JSON. *)
Inductive fty :=
  | TInt | TFloat | TStr | TStage | TBool | TTime | TJson
  | TOpt (t : fty) | TList (t : fty) | TDict (t : fty) | TObj (c : cls).

Inductive pyval :=
  | PyNone
  | PyBool (b : bool)
  | PyInt (n : Z)
  | PyFlt (x : float)
  | PyStr (s : string)
  | PyTime (t : datetime)
  | PyList (l : list pyval)
  | PyDict (kvs : list (string * pyval))
  | PyObj (c : cls) (fields : list (string * pyval)).

Record field := { f_name : string; f_type : fty; f_default : option pyval }.

Local Open Scope string_scope.

Definition req (k : string) (t : fty) : field := {| f_name := k; f_type := t; f_default := None |}.
Definition opt (k : string) (t : fty) (v : pyval) : field := {| f_name := k; f_type := t; f_default := Some v |}.

Definition AttentionRow_fields : list field := [
  req "badge_class" TStr; req "badge_text" TStr; req "link_href" TStr; req "link_text" TStr;
  opt "mount_path" (TOpt TStr) PyNone; opt "meta_text" TStr (PyStr ""); opt "meta_at" (TOpt TTime) PyNone;
  opt "eol_days_over" (TOpt TInt) PyNone].

Definition CapacityWarningItem_fields : list field := [
  req "public_id" TStr; req "hostname" TStr; opt "classification" TStr (PyStr "under_provisioned");
  opt "classification_label" TStr (PyStr "자원 부족"); opt "badge_class" TStr (PyStr "rec-under_provisioned");
  opt "classification_rank" TInt (PyInt 0); opt "active_causes" (TList TStr) (PyList []);
  opt "services" (TDict TInt) (PyDict []); opt "confidence_notes" (TList TStr) (PyList []);
  opt "recommendation_action" TStr (PyStr ""); opt "root_cause_label" TStr (PyStr "");
  opt "severity_score" TFloat (PyFlt (of_Z 0)); opt "net_status_label" TStr (PyStr "");
  opt "net_status_color" TStr (PyStr ""); opt "disk_io_status_label" TStr (PyStr "");
  opt "disk_io_status_color" TStr (PyStr ""); opt "spec_display" TStr (PyStr "")].

Definition AttentionSignals_fields : list field := [
  req "gap_warnings" (TList (TObj KAttentionRow));
  opt "os_eol_warnings" (TList (TObj KAttentionRow)) (PyList []);
  opt "agent_unstable" (TList (TObj KAttentionRow)) (PyList [])].

Definition UtilizationBar_fields : list field := [
  req "label" TStr; req "pct" (TOpt TFloat); req "bar_color" TStr; req "dash_length" TFloat].

Definition RiskDonutSegment_fields : list field := [
  req "key" TStr; req "label" TStr; req "color" TStr; req "count" TInt; req "dash_length" TFloat;
  req "dash_offset" TFloat; opt "description" TStr (PyStr ""); opt "pct" TFloat (PyFlt (of_Z 0))].

Definition EnvironmentOverview_fields : list field := [
  req "total" TInt; req "online" TInt; req "offline" TInt; req "total_vcpus" TInt; req "total_memory_gb" TFloat;
  req "total_disk_gb" TInt; opt "os_distribution" (TDict TInt) (PyDict []);
  opt "role_distribution" (TDict TInt) (PyDict []);
  opt "workload_donut" (TList (TObj KRiskDonutSegment)) (PyList []); opt "workload_total" TInt (PyInt 0);
  opt "role_unknown_count" TInt (PyInt 0); opt "utilization" (TList (TObj KUtilizationBar)) (PyList []);
  opt "utilization_p95" (TList (TObj KUtilizationBar)) (PyList []); opt "util_sample_size" TInt (PyInt 0);
  opt "saturation_donuts" (TList (TObj KSaturationDonut)) (PyList []);
  opt "error_fleet" (TList (TObj KFleetErrorItem)) (PyList []); opt "os_eol_passed" TInt (PyInt 0);
  opt "os_eol_security_only" TInt (PyInt 0); opt "os_eol_unknown" TInt (PyInt 0);
  opt "os_eol_supported" TInt (PyInt 0); opt "risk_donut" (TList (TObj KRiskDonutSegment)) (PyList []);
  opt "risk_donut_total" TInt (PyInt 0); opt "risk_high_count" TInt (PyInt 0);
  opt "under_provisioned_hosts" (TList (TObj KCapacityWarningItem)) (PyList []);
  opt "under_provisioned_hosts_count" TInt (PyInt 0); opt "under_provisioned_hosts_shown" TInt (PyInt 0)].

Definition ActionTargets_fields : list field := [
  opt "hosts" (TList (TObj KCapacityWarningItem)) (PyList []); opt "total" TInt (PyInt 0);
  opt "under_count" TInt (PyInt 0); opt "efficiency_count" TInt (PyInt 0);
  opt "efficiency_vcpus" TInt (PyInt 0); opt "efficiency_memory_gb" TFloat (PyFlt (of_Z 0));
  opt "efficiency_disk_gb" TInt (PyInt 0)].

Definition SaturationDonut_fields : list field := [
  req "label" TStr; req "count" TInt; req "total" TInt; req "dash_length" TFloat; req "color" TStr].

Definition FleetErrorItem_fields : list field := [
  req "key" TStr; req "label" TStr; req "affected" TInt; req "total" TInt; opt "detail" (TOpt TStr) PyNone;
  opt "tone" TStr (PyStr "danger")].

Definition ClassificationCount_fields : list field := [
  req "key" TStr; req "label" TStr; req "count" TInt; req "color" TStr; opt "description" TStr (PyStr "");
  opt "pct" TFloat (PyFlt (of_Z 0))].

Definition OsCount_fields : list field := [
  req "family" TStr; req "distro" TStr; req "version" TStr; req "count" TInt;
  opt "kernel_versions" TStr (PyStr "—")].

Definition DistributionBar_fields : list field := [
  req "label" TStr; req "count" TInt; opt "pct" TFloat (PyFlt (of_Z 0))].

Definition ServerInventorySnapshot_fields : list field := [
  req "hostname" TStr; req "os_display" TStr; req "os_codename" (TOpt TStr); req "kernel_version" (TOpt TStr);
  req "cpu_model" (TOpt TStr); req "cpu_cores" (TOpt TInt); req "mem_total_gb" (TOpt TFloat);
  req "swap_total_gb" (TOpt TFloat); req "disk_total_gb" (TOpt TInt); req "ip_internal" (TList (TObj KIpAddr));
  req "ip_external" (TList (TObj KIpAddr)); req "boot_time" (TOpt TTime); req "agent_started_at" (TOpt TTime);
  req "last_seen_at" (TOpt TTime); req "agent_version" (TOpt TStr); req "composite_id" (TOpt TStr);
  req "machine_id" (TOpt TStr); req "is_online" TBool; opt "public_id" (TOpt TStr) PyNone;
  opt "agent_id" (TOpt TStr) PyNone; opt "cpu_arch" (TOpt TStr) PyNone; opt "cpu_bits" (TOpt TInt) PyNone;
  opt "boot_firmware" (TOpt TStr) PyNone; opt "secure_boot" (TOpt TBool) PyNone;
  opt "os_edition" (TOpt TStr) PyNone; opt "timezone" (TOpt TStr) PyNone].

Definition MemoryBreakdown_fields : list field := [
  req "used_pct" (TOpt TFloat); req "available_pct" (TOpt TFloat); req "cached_pct" (TOpt TFloat);
  req "buffers_pct" (TOpt TFloat)].

Definition CpuBreakdown_fields : list field := [
  req "user_pct" (TOpt TFloat); req "system_pct" (TOpt TFloat); req "iowait_pct" (TOpt TFloat)].

Definition ServiceHost_fields : list field := [
  req "hostname" TStr; req "public_id" TStr].

Definition ServiceNameCount_fields : list field := [
  req "name" TStr; req "count" TInt; opt "hosts" (TList (TObj KServiceHost)) (PyList [])].

Definition ServiceCatalogGroup_fields : list field := [
  req "category" TStr; opt "total_count" TInt (PyInt 0);
  opt "services" (TList (TObj KServiceNameCount)) (PyList [])].

Definition AttentionHostItem_fields : list field := [
  req "public_id" TStr; req "hostname" TStr; req "os_display" TStr; req "gap_label" (TOpt TStr);
  req "os_eol_label" (TOpt TStr); req "restart_label" (TOpt TStr); req "active_count" TInt].

Definition CapacityImminentItem_fields : list field := [
  req "public_id" TStr; req "hostname" TStr; req "worst_mount" TStr; req "days_until_full" TInt;
  req "used_pct" (TOpt TFloat)].

Definition EnvironmentReportSummary_fields : list field := [
  req "view" TStr; req "time_range" TStr; req "time_range_label" TStr; req "anchor_at" TTime;
  req "generated_at" TTime; req "overview" (TObj KEnvironmentOverview);
  req "attention" (TObj KAttentionSignals); req "base" (TObj KReportSummary);
  req "classification_dist" (TList (TObj KClassificationCount)); req "os_distribution" (TList (TObj KOsCount));
  req "top_risks" (TList (TObj KReportRowItem)); req "summary_bullets_env" (TList TStr);
  opt "os_family_dist" (TList (TObj KDistributionBar)) (PyList []); opt "env_metrics" (TList TJson) (PyList []);
  opt "os_eol_count" TInt (PyInt 0); opt "os_eol_breakdown_label" TStr (PyStr "");
  opt "agent_versions_label" TStr (PyStr ""); opt "topology" (TOpt (TObj KNetworkTopology)) PyNone;
  opt "trend" (TList TJson) (PyList []); opt "sat_trend" (TList TJson) (PyList []);
  opt "action" (TObj KActionTargets) (PyObj KActionTargets [("hosts", PyList []); ("total", PyInt 0); ("under_count", PyInt 0);
    ("efficiency_count", PyInt 0); ("efficiency_vcpus", PyInt 0); ("efficiency_memory_gb", PyFlt (of_Z 0));
    ("efficiency_disk_gb", PyInt 0)]);
  opt "service_catalog" (TList (TObj KServiceCatalogGroup)) (PyList []);
  opt "server_inventory" (TOpt (TObj KServerInventorySnapshot)) PyNone;
  opt "memory_breakdown" (TOpt (TObj KMemoryBreakdown)) PyNone;
  opt "cpu_breakdown" (TOpt (TObj KCpuBreakdown)) PyNone;
  opt "period_assessment" (TOpt (TObj KPeriodAssessment)) PyNone;
  opt "storage_tree" (TList (TObj KStorageNode)) (PyList []);
  opt "network_interfaces" (TList (TObj KNetworkInterfaceInfo)) (PyList []);
  opt "attention_hosts" (TList (TObj KAttentionHostItem)) (PyList []);
  opt "capacity_imminent" (TList (TObj KCapacityImminentItem)) (PyList []);
  opt "top_risks_count" TInt (PyInt 0); opt "attention_hosts_count" TInt (PyInt 0);
  opt "capacity_imminent_count" TInt (PyInt 0)].

Definition PeriodSignalRow_fields : list field := [
  req "label" TStr; req "value" TStr; req "threshold" TStr; req "over" TBool; req "measured" TBool].

Definition PeriodErrorRow_fields : list field := [
  req "key" TStr; req "label" TStr; req "badge_text" TStr; req "badge_class" TStr; req "note" TStr;
  req "sizing_signal" TStr].

Definition PeriodExtraGroup_fields : list field := [
  req "label" TStr; req "rows" (TList (TObj KPeriodSignalRow))].

Definition PeriodResource_fields : list field := [
  req "name" TStr; req "util_rows" (TList (TObj KPeriodSignalRow)); req "util_over" TInt;
  req "sat_rows" (TList (TObj KPeriodSignalRow)); req "sat_over" TInt; req "has_util" TBool;
  req "detail_slug" TStr; req "verdict_label" TStr; req "verdict_color" TStr;
  opt "extra_groups" (TList (TObj KPeriodExtraGroup)) (PyList []);
  opt "error_rows" (TList (TObj KPeriodErrorRow)) (PyList []); opt "verdict_label2" TStr (PyStr "");
  opt "verdict_color2" TStr (PyStr "")].

Definition PeriodAssessment_fields : list field := [
  req "resources" (TList (TObj KPeriodResource)); req "error_rows" (TList (TObj KPeriodErrorRow));
  req "window_days" TInt; req "classification_label" TStr; req "classification_color" TStr].

Definition ReportWorkloadGroup_fields : list field := [
  req "category" TStr; opt "names_label" TStr (PyStr ""); opt "ports" (TList TStr) (PyList [])].

Definition ReportListenItem_fields : list field := [
  req "port" TInt; req "proto" TStr; opt "comm" TStr (PyStr ""); opt "addr" TStr (PyStr "");
  opt "uid" (TOpt TInt) PyNone; opt "pid" (TOpt TInt) PyNone].

Definition ReportRowItem_fields : list field := [
  req "server_id" TInt; req "public_id" TStr; req "hostname" TStr; req "role" TStr; req "is_online" TBool;
  req "os_family" (TOpt TStr); req "os_display" TStr; req "kernel_version" (TOpt TStr);
  req "internal_ip" (TOpt TStr); req "cpu_p95_pct" (TOpt TFloat); req "cpu_avg_pct" (TOpt TFloat);
  req "cpu_peak_pct" (TOpt TFloat); req "mem_p95_pct" (TOpt TFloat); req "mem_avg_pct" (TOpt TFloat);
  req "mem_peak_pct" (TOpt TFloat); req "recommendation" TStr; req "recommendation_label" TStr;
  req "badge_class" TStr; req "risk_level" TStr; req "risk_label" TStr; req "risk_badge_class" TStr;
  opt "cpu_cores" (TOpt TInt) PyNone; opt "mem_total_gb" (TOpt TFloat) PyNone;
  opt "disk_total_gb" (TOpt TFloat) PyNone; opt "cpu_run_queue_p95" (TOpt TFloat) PyNone;
  opt "iowait_p95_pct" (TOpt TFloat) PyNone; opt "iowait_peak_pct" (TOpt TFloat) PyNone;
  opt "worst_mount_used_pct" (TOpt TFloat) PyNone; opt "disk_capacity_driving_mount" (TOpt TStr) PyNone;
  opt "disk_capacity_runway_days" (TOpt TInt) PyNone; opt "uptime_days" (TOpt TInt) PyNone;
  opt "reboot_count" TInt (PyInt 0); opt "agent_restart_count" TInt (PyInt 0);
  opt "cpu_variance_ratio" (TOpt TFloat) PyNone; opt "mem_variance_ratio" (TOpt TFloat) PyNone;
  opt "disk_iops_baseline" (TOpt TInt) PyNone; opt "disk_iops_p95" (TOpt TFloat) PyNone;
  opt "disk_iops_peak" (TOpt TFloat) PyNone; opt "disk_throughput_kbps" (TOpt TFloat) PyNone;
  opt "disk_throughput_kbps_p95" (TOpt TFloat) PyNone; opt "disk_throughput_kbps_peak" (TOpt TFloat) PyNone;
  opt "net_rx_kbps" (TOpt TFloat) PyNone; opt "net_rx_kbps_p95" (TOpt TFloat) PyNone;
  opt "net_rx_kbps_peak" (TOpt TFloat) PyNone; opt "net_tx_kbps" (TOpt TFloat) PyNone;
  opt "net_tx_kbps_p95" (TOpt TFloat) PyNone; opt "net_tx_kbps_peak" (TOpt TFloat) PyNone;
  opt "diagnosis" TStr (PyStr ""); opt "recommendation_action" TStr (PyStr "");
  opt "root_cause_label" TStr (PyStr ""); opt "net_status_label" TStr (PyStr "");
  opt "net_congested" TBool (PyBool false); opt "mem_swap_paging" TBool (PyBool false);
  opt "is_partial" TBool (PyBool false); opt "confidence_notes" (TList TStr) (PyList []);
  opt "workload_groups" (TList (TObj KReportWorkloadGroup)) (PyList []);
  opt "listen_ports_detail" (TList (TObj KReportListenItem)) (PyList []);
  opt "workload_categories" (TList TStr) (PyList []);
  opt "signature_workload_categories" (TList TStr) (PyList []);
  opt "workload_services" (TDict (TList TStr)) (PyDict []); opt "os_eol" TStr (PyStr "");
  opt "os_eol_status" TStage (PyStr ""); opt "os_eol_label" TStr (PyStr ""); opt "os_eol_css" TStr (PyStr "");
  opt "os_eol_title" TStr (PyStr ""); opt "os_eol_sort" TInt (PyInt 0);
  opt "has_operational_event" TBool (PyBool false)].

Definition ReportTotals_fields : list field := [
  req "total_vcpus" TInt; req "total_memory_gb" TFloat; req "total_disk_gb" TInt].

Definition ReportSummary_fields : list field := [
  req "rows" (TList (TObj KReportRowItem)); req "period_days" TFloat; req "total" TInt; req "online" TInt;
  req "risk_attention" TInt; req "risk_high" TInt; opt "avg_cpu_p95_pct" (TOpt TFloat) PyNone;
  opt "avg_mem_p95_pct" (TOpt TFloat) PyNone;
  opt "totals" (TObj KReportTotals)
    (PyObj KReportTotals [("total_vcpus", PyInt 0); ("total_memory_gb", PyInt 0); ("total_disk_gb", PyInt 0)]);
  opt "summary_bullets" (TList TStr) (PyList []); opt "role_distribution" (TDict TInt) (PyDict []);
  opt "os_family_summary" TStr (PyStr ""); opt "workload_summary" TStr (PyStr "");
  opt "generated_at" (TOpt TTime) PyNone; opt "anchor_at" (TOpt TTime) PyNone].

Definition IpAddr_fields : list field := [
  req "value" TStr; req "is_ipv4" TBool].

Definition NetIfaceAddress_fields : list field := [
  req "value" TStr; req "is_ipv4" TBool; opt "origin" TStr (PyStr "")].

Definition NetworkInterfaceInfo_fields : list field := [
  req "name" TStr; opt "mac" TStr (PyStr ""); opt "mtu" (TOpt TInt) PyNone; opt "speed_mbps" (TOpt TInt) PyNone;
  opt "gateway" TStr (PyStr ""); opt "dns" (TList TStr) (PyList []);
  opt "addresses" (TList (TObj KNetIfaceAddress)) (PyList [])].

Definition StorageNode_fields : list field := [
  req "name" TStr; req "kind" TStr; req "kind_label" TStr; req "size_gb" (TOpt TFloat);
  opt "meta" TStr (PyStr ""); opt "badges" (TList TStr) (PyList []); opt "mount" TStr (PyStr "");
  opt "usage_pct" (TOpt TFloat) PyNone; opt "usage_label" TStr (PyStr ""); opt "usage_class" TStr (PyStr "");
  opt "inode_pct" (TOpt TFloat) PyNone; opt "inode_label" TStr (PyStr ""); opt "inode_class" TStr (PyStr "");
  opt "children" (TList (TObj KStorageNode)) (PyList []); opt "gauge_info_width_px" (TOpt TInt) PyNone].

Definition SubnetHost_fields : list field := [
  req "hostname" TStr; req "ip" TStr; req "os_family" TStr; req "public_id" TStr;
  opt "roles" (TList TStr) (PyList []); opt "origin" (TOpt TStr) PyNone; opt "mtu" (TOpt TInt) PyNone;
  opt "speed_mbps" (TOpt TInt) PyNone; opt "is_online" TBool (PyBool false);
  opt "multi_homed" TBool (PyBool false)].

Definition SubnetGroup_fields : list field := [
  req "net_key" TStr; opt "host_count" TInt (PyInt 0); opt "gateway" (TOpt TStr) PyNone;
  opt "hosts" (TList (TObj KSubnetHost)) (PyList [])].

Definition NetworkTopology_fields : list field := [
  req "elements" (TList TJson); req "subnet_count" TInt; req "host_count" TInt; req "multi_homed_count" TInt;
  req "isolated_count" TInt; opt "router_count" TInt (PyInt 0);
  opt "subnets" (TList (TObj KSubnetGroup)) (PyList []); opt "caveats" (TList TStr) (PyList []);
  opt "has_data" TBool (PyBool false)].

Definition fields_of (c : cls) : list field :=
  match c with
  | KAttentionRow => AttentionRow_fields | KCapacityWarningItem => CapacityWarningItem_fields
  | KAttentionSignals => AttentionSignals_fields | KUtilizationBar => UtilizationBar_fields
  | KRiskDonutSegment => RiskDonutSegment_fields | KEnvironmentOverview => EnvironmentOverview_fields
  | KActionTargets => ActionTargets_fields | KSaturationDonut => SaturationDonut_fields
  | KFleetErrorItem => FleetErrorItem_fields | KClassificationCount => ClassificationCount_fields
  | KOsCount => OsCount_fields | KDistributionBar => DistributionBar_fields
  | KServerInventorySnapshot => ServerInventorySnapshot_fields | KMemoryBreakdown => MemoryBreakdown_fields
  | KCpuBreakdown => CpuBreakdown_fields | KServiceHost => ServiceHost_fields
  | KServiceNameCount => ServiceNameCount_fields | KServiceCatalogGroup => ServiceCatalogGroup_fields
  | KAttentionHostItem => AttentionHostItem_fields | KCapacityImminentItem => CapacityImminentItem_fields
  | KEnvironmentReportSummary => EnvironmentReportSummary_fields | KPeriodSignalRow => PeriodSignalRow_fields
  | KPeriodErrorRow => PeriodErrorRow_fields | KPeriodExtraGroup => PeriodExtraGroup_fields
  | KPeriodResource => PeriodResource_fields | KPeriodAssessment => PeriodAssessment_fields
  | KReportWorkloadGroup => ReportWorkloadGroup_fields | KReportListenItem => ReportListenItem_fields
  | KReportRowItem => ReportRowItem_fields | KReportTotals => ReportTotals_fields
  | KReportSummary => ReportSummary_fields | KIpAddr => IpAddr_fields
  | KNetIfaceAddress => NetIfaceAddress_fields | KNetworkInterfaceInfo => NetworkInterfaceInfo_fields
  | KStorageNode => StorageNode_fields | KSubnetHost => SubnetHost_fields
  | KSubnetGroup => SubnetGroup_fields | KNetworkTopology => NetworkTopology_fields
  end.

Definition names (c : cls) : list string := f_name <$> fields_of c.

(** ** To JSON ([serialization.py]) *)

(** [dataclasses.asdict], on any value *)
Fixpoint asdict (v : pyval) : pyval :=
  match v with
  | PyList l => PyList (asdict <$> l)
  | PyDict kvs => PyDict ((λ kv, (kv.1, asdict kv.2)) <$> kvs)
  | PyObj _ fs => PyDict ((λ kv, (kv.1, asdict kv.2)) <$> fs)
  | _ => v
  end.

Fixpoint _jsonable (v : pyval) : pyval :=
  match v with
  | PyTime t => PyStr (isoformat t)
  | PyDict kvs => PyDict ((λ kv, (kv.1, _jsonable kv.2)) <$> kvs)
  | PyList l => PyList (_jsonable <$> l)
  | _ => v
  end.

Definition to_jsonable (v : pyval) : pyval := _jsonable (asdict v).
Definition report_summary_to_dict (v : pyval) : pyval := to_jsonable v.
Definition env_report_to_dict (v : pyval) : pyval := to_jsonable v.

(** ** Reading a dict *)

Abbreviation dict := (list (string * pyval)).

Definition truthy (v : pyval) : bool :=
  match v with
  | PyNone => false
  | PyBool b => b
  | PyInt n => negb (n =? 0)%Z
  | PyFlt x => float_truthy x
  | PyStr s => negb (String.eqb s "")
  | PyList l => match l with [] => false | _ => true end
  | PyDict kvs => match kvs with [] => false | _ => true end
  | PyTime _ | PyObj _ _ => true
  end.

(** [dict(v)], and the members of [v] *)
Definition as_dict (v : pyval) : result dict := match v with PyDict kvs => Ok kvs | _ => Raise TypeError end.

(** [d[k]] *)
Definition item (k : string) (d : dict) : result pyval :=
  match dict_get k d with Some v => Ok v | None => Raise (KeyError k) end.

(** [d.get(k, v)] *)
Definition get_or (k : string) (v : pyval) (d : dict) : pyval := default v (dict_get k d).

Definition json_list (d : dict) (k : string) : list pyval := match dict_get k d with Some (PyList l) => l | _ => [] end.
Definition json_obj (d : dict) (k : string) : pyval := match dict_get k d with Some (PyDict kvs) => PyDict kvs | _ => PyDict [] end.

Definition parse_dt (v : pyval) : result pyval :=
  match v with PyStr s => t ← fromisoformat s; Ok (PyTime t) | _ => Ok v end.

(** ** Rebuilding objects ([report_serializer.py]) *)

Definition _drop_unknown_fields (c : cls) (d : dict) : dict := filter (λ kv, kv.1 ∈ names c) d.

(** What a class called with keywords sets a field to *)
Definition given (kwargs : dict) (f : field) : option pyval :=
  match dict_get (f_name f) kwargs with Some v => Some v | None => f_default f end.

(** A class called with keywords: every keyword is a field, and the fields without a default are given *)
Definition construct (c : cls) (kwargs : dict) : result pyval :=
  if forallb (λ kv, bool_decide (kv.1 ∈ names c)) kwargs then
    fs ← map_result (λ f, match given kwargs f with Some v => Ok (f_name f, v) | None => Raise TypeError end) (fields_of c);
    Ok (PyObj c fs)
  else Raise TypeError.

Definition _build (c : cls) (d : dict) : result pyval := construct c (_drop_unknown_fields c d).
Definition build_from (c : cls) (v : pyval) : result pyval := d ← as_dict v; _build c d.

(** [data[k] = f(data)] *)
Definition rebuild (k : string) (f : dict → result pyval) (data : dict) : result dict :=
  v ← f data; Ok (dict_set k v data).

(** [[f(x) for x in json_list(data, k)]] *)
Definition each (f : pyval → result pyval) (k : string) (data : dict) : result pyval :=
  l ← map_result f (json_list data k); Ok (PyList l).

(** [parse_dt(data.get(k))] *)
Definition time_at (k : string) (data : dict) : result pyval := parse_dt (get_or k PyNone data).

(** [x = data.get(k)], then [f(x) if x else d] *)
Definition if_truthy (f : pyval → result pyval) (k : string) (d : result pyval) (data : dict) : result pyval :=
  let x := get_or k PyNone data in if truthy x then f x else d.

(** [x = data.get(k)], then [if x: data[k] = f(x)] *)
Definition rebuild_truthy (f : pyval → result pyval) (k : string) (data : dict) : result dict :=
  let x := get_or k PyNone data in if truthy x then rebuild k (λ _, f x) data else Ok data.

Definition _LEGACY_OS_EOL_STATUS : list (string * string) :=
  [("eol", "ended"); ("extended", "security_only"); ("supported", "full")].

(** [status in _LEGACY_OS_EOL_STATUS] hashes the status. *)
Definition today_status (data : dict) : result dict :=
  match dict_get "os_eol_status" data with
  | Some (PyStr s) => match dict_get s _LEGACY_OS_EOL_STATUS with
                      | Some s' => Ok (dict_set "os_eol_status" (PyStr s') data)
                      | None => Ok data
                      end
  | Some (PyList _ | PyDict _ | PyObj _ _) => Raise TypeError
  | _ => Ok data
  end.

Definition _report_row_from_dict (r : pyval) : result pyval :=
  data ← as_dict r;
  data ← rebuild "workload_groups" (each (build_from KReportWorkloadGroup) "workload_groups") data;
  data ← rebuild "listen_ports_detail" (each (build_from KReportListenItem) "listen_ports_detail") data;
  data ← today_status data;
  _build KReportRowItem data.

Definition no_totals : pyval :=
  PyObj KReportTotals [("total_vcpus", PyInt 0); ("total_memory_gb", PyFlt (of_Z 0)); ("total_disk_gb", PyInt 0)].

Definition report_summary_from_dict (d : pyval) : result pyval :=
  data ← as_dict d;
  data ← rebuild "rows" (each _report_row_from_dict "rows") data;
  data ← rebuild "totals" (if_truthy (build_from KReportTotals) "totals" (Ok no_totals)) data;
  data ← rebuild "generated_at" (time_at "generated_at") data;
  data ← rebuild "anchor_at" (time_at "anchor_at") data;
  _build KReportSummary data.

(** [rows or []], of a list or nothing *)
Definition _period_signal_rows (rows : pyval) : result pyval :=
  if truthy rows then
    match rows with
    | PyList l => rs ← map_result (build_from KPeriodSignalRow) l; Ok (PyList rs)
    | _ => Raise TypeError
    end
  else Ok (PyList []).

Definition period_extra_group (v : pyval) : result pyval :=
  g ← as_dict v;
  label ← item "label" g;
  rows ← _period_signal_rows (get_or "rows" PyNone g);
  construct KPeriodExtraGroup [("label", label); ("rows", rows)].

Definition period_resource (v : pyval) : result pyval :=
  r ← as_dict v;
  name ← item "name" r;
  util_rows ← _period_signal_rows (get_or "util_rows" PyNone r);
  sat_rows ← _period_signal_rows (get_or "sat_rows" PyNone r);
  extra_groups ← each period_extra_group "extra_groups" r;
  error_rows ← each (build_from KPeriodErrorRow) "error_rows" r;
  construct KPeriodResource [
    ("name", name); ("util_rows", util_rows); ("util_over", get_or "util_over" (PyInt 0) r); ("sat_rows", sat_rows);
    ("sat_over", get_or "sat_over" (PyInt 0) r); ("has_util", get_or "has_util" (PyBool true) r);
    ("detail_slug", get_or "detail_slug" (PyStr "") r); ("verdict_label", get_or "verdict_label" (PyStr "") r);
    ("verdict_color", get_or "verdict_color" (PyStr "") r); ("extra_groups", extra_groups); ("error_rows", error_rows);
    ("verdict_label2", get_or "verdict_label2" (PyStr "") r); ("verdict_color2", get_or "verdict_color2" (PyStr "") r)].

Definition _period_assessment_from_dict (v : pyval) : result pyval :=
  d ← as_dict v;
  resources ← each period_resource "resources" d;
  error_rows ← each (build_from KPeriodErrorRow) "error_rows" d;
  construct KPeriodAssessment [
    ("resources", resources); ("error_rows", error_rows); ("window_days", get_or "window_days" (PyInt 0) d);
    ("classification_label", get_or "classification_label" (PyStr "") d);
    ("classification_color", get_or "classification_color" (PyStr "") d)].

(** The children of a node are read before it is built. *)
Fixpoint _storage_node_from_dict (v : pyval) : result pyval :=
  match v with
  | PyDict data =>
      children ← (fix children (kvs : dict) : result (list pyval) :=
        match kvs with
        | [] => Ok []
        | (k, x) :: kvs => if decide (k = "children")
                           then match x with PyList l => map_result _storage_node_from_dict l | _ => Ok [] end
                           else children kvs
        end) data;
      _build KStorageNode (dict_set "children" (PyList children) data)
  | _ => Raise TypeError
  end.

Definition _network_interface_from_dict (v : pyval) : result pyval :=
  data ← as_dict v;
  data ← rebuild "addresses" (each (build_from KNetIfaceAddress) "addresses") data;
  _build KNetworkInterfaceInfo data.

Definition _capacity_warning_from_dict (v : pyval) : result pyval := data ← as_dict v; _build KCapacityWarningItem data.

Definition _overview_from_dict (v : pyval) : result pyval :=
  data ← as_dict v;
  data ← rebuild "utilization" (each (build_from KUtilizationBar) "utilization") data;
  data ← rebuild "utilization_p95" (each (build_from KUtilizationBar) "utilization_p95") data;
  data ← rebuild "risk_donut" (each (build_from KRiskDonutSegment) "risk_donut") data;
  data ← rebuild "saturation_donuts" (each (build_from KSaturationDonut) "saturation_donuts") data;
  data ← rebuild "error_fleet" (each (build_from KFleetErrorItem) "error_fleet") data;
  data ← rebuild "under_provisioned_hosts" (each _capacity_warning_from_dict "under_provisioned_hosts") data;
  _build KEnvironmentOverview data.

Definition _attention_row_from_dict (v : pyval) : result pyval :=
  data ← as_dict v;
  data ← rebuild "meta_at" (time_at "meta_at") data;
  _build KAttentionRow data.

Definition _attention_from_dict (v : pyval) : result pyval :=
  d ← as_dict v;
  gap_warnings ← each _attention_row_from_dict "gap_warnings" d;
  os_eol_warnings ← each _attention_row_from_dict "os_eol_warnings" d;
  agent_unstable ← each _attention_row_from_dict "agent_unstable" d;
  construct KAttentionSignals
    [("gap_warnings", gap_warnings); ("os_eol_warnings", os_eol_warnings); ("agent_unstable", agent_unstable)].

Definition _action_targets_from_dict (v : pyval) : result pyval :=
  data ← as_dict v;
  data ← rebuild "hosts" (each _capacity_warning_from_dict "hosts") data;
  _build KActionTargets data.

Definition subnet_from (v : pyval) : result pyval :=
  s ← as_dict v;
  net_key ← item "net_key" s;
  hosts ← each (build_from KSubnetHost) "hosts" s;
  construct KSubnetGroup [("net_key", net_key); ("host_count", get_or "host_count" (PyInt 0) s); ("hosts", hosts)].

(** The dict of the topology, with its subnets rebuilt in place *)
Definition topology_dict (v : pyval) : result dict := topo ← as_dict v; rebuild "subnets" (each subnet_from "subnets") topo.
Definition topology_from (v : pyval) : result pyval := topo ← topology_dict v; _build KNetworkTopology topo.

Definition service_name_from (v : pyval) : result pyval :=
  s ← as_dict v;
  name ← item "name" s;
  count ← item "count" s;
  hosts ← each (build_from KServiceHost) "hosts" s;
  construct KServiceNameCount [("name", name); ("count", count); ("hosts", hosts)].

Definition service_group_from (v : pyval) : result pyval :=
  g ← as_dict v;
  category ← item "category" g;
  services ← each service_name_from "services" g;
  construct KServiceCatalogGroup
    [("category", category); ("total_count", get_or "total_count" (PyInt 0) g); ("services", services)].

Definition server_inventory_from (v : pyval) : result pyval :=
  sid ← as_dict v;
  sid ← rebuild "ip_internal" (each (build_from KIpAddr) "ip_internal") sid;
  sid ← rebuild "ip_external" (each (build_from KIpAddr) "ip_external") sid;
  sid ← rebuild "boot_time" (time_at "boot_time") sid;
  sid ← rebuild "agent_started_at" (time_at "agent_started_at") sid;
  sid ← rebuild "last_seen_at" (time_at "last_seen_at") sid;
  _build KServerInventorySnapshot sid.

(** The parts of a report that are read before its topology, and those that are read after it *)
Definition read_first (data : dict) : result dict :=
  data ← rebuild "overview" (λ d, v ← item "overview" d; _overview_from_dict v) data;
  data ← rebuild "attention" (λ d, v ← item "attention" d; _attention_from_dict v) data;
  data ← rebuild "base" (λ d, v ← item "base" d; report_summary_from_dict v) data;
  data ← rebuild "classification_dist" (each (build_from KClassificationCount) "classification_dist") data;
  data ← rebuild "os_distribution" (each (build_from KOsCount) "os_distribution") data;
  rebuild "os_family_dist" (each (build_from KDistributionBar) "os_family_dist") data.

Definition read_rest (data : dict) : result dict :=
  data ← rebuild "top_risks" (each _report_row_from_dict "top_risks") data;
  data ← rebuild "action" (λ d, _action_targets_from_dict (json_obj d "action")) data;
  data ← rebuild "service_catalog" (each service_group_from "service_catalog") data;
  data ← rebuild "attention_hosts" (each (build_from KAttentionHostItem) "attention_hosts") data;
  data ← rebuild "capacity_imminent" (each (build_from KCapacityImminentItem) "capacity_imminent") data;
  data ← rebuild "anchor_at" (time_at "anchor_at") data;
  data ← rebuild "generated_at" (time_at "generated_at") data;
  data ← rebuild_truthy server_inventory_from "server_inventory" data;
  data ← rebuild_truthy (build_from KMemoryBreakdown) "memory_breakdown" data;
  data ← rebuild_truthy (build_from KCpuBreakdown) "cpu_breakdown" data;
  data ← rebuild "period_assessment" (if_truthy _period_assessment_from_dict "period_assessment" (Ok PyNone)) data;
  data ← rebuild "storage_tree" (each _storage_node_from_dict "storage_tree") data;
  rebuild "network_interfaces" (each _network_interface_from_dict "network_interfaces") data.

Definition env_report_from_dict (d : pyval) : result pyval :=
  data ← as_dict d;
  data ← read_first data;
  data ← rebuild "topology" (if_truthy topology_from "topology" (Ok PyNone)) data;
  data ← read_rest data;
  _build KEnvironmentReportSummary data.

(** The dict given to [env_report_from_dict], after it returned: the dict of its topology, which is
    not copied, holds rebuilt subnets. *)
Definition spent (d : dict) : result dict :=
  match dict_get "topology" d with
  | Some topo => if truthy topo then t ← topology_dict topo; Ok (dict_set "topology" (PyDict t) d) else Ok d
  | None => Ok d
  end.
