(* ===== verification/SnapshotProps.v ===== *)
(** * Report snapshots: what comes back of a stored report *)

From S2P Require Import Prelude PyFloat Sql PyText IsoFacts PyList Snapshot.

Local Open Scope string_scope.

(** ** Values of the declared types *)

Lemma pyval_nested_ind (P : pyval → Prop) (HN : P PyNone) (HB : ∀ b, P (PyBool b)) (HI : ∀ n, P (PyInt n))
  (HF : ∀ x, P (PyFlt x)) (HS : ∀ s, P (PyStr s)) (HT : ∀ t, P (PyTime t)) (HL : ∀ l, Forall P l → P (PyList l))
  (HD : ∀ kvs, Forall (λ kv, P kv.2) kvs → P (PyDict kvs)) (HO : ∀ c fs, Forall (λ kv, P kv.2) fs → P (PyObj c fs)) :
  ∀ v, P v.
Proof.
  fix IH 1. intros [ | | | | | |l|kvs|c fs];
    [apply HN|apply HB|apply HI|apply HF|apply HS|apply HT| | |].
  - apply HL. induction l as [|x l IHl]; constructor; [apply IH|apply IHl].
  - apply HD. induction kvs as [|x l IHl]; constructor; [apply IH|apply IHl].
  - apply HO. induction fs as [|x l IHl]; constructor; [apply IH|apply IHl].
Qed.

Definition strip_opt (t : fty) : fty := match t with TOpt t' => t' | _ => t end.

(** A value of a declared type; an [int] is also a [float], and a support stage is none of the words
    that are no longer used. *)
Fixpoint has_type (v : pyval) (t : fty) {struct v} : Prop :=
  match v with
  | PyNone => match t with TOpt _ | TJson => True | _ => False end
  | PyBool _ => match strip_opt t with TBool | TJson => True | _ => False end
  | PyInt _ => match strip_opt t with TInt | TFloat | TJson => True | _ => False end
  | PyFlt _ => match strip_opt t with TFloat | TJson => True | _ => False end
  | PyStr s => match strip_opt t with
               | TStr | TJson => True
               | TStage => dict_get s _LEGACY_OS_EOL_STATUS = None
               | _ => False
               end
  | PyTime at_ => match strip_opt t with TTime => datetime_ok at_ | _ => False end
  | PyList l => match strip_opt t with
                | TList t' => foldr (λ x P, has_type x t' ∧ P) True l
                | TJson => foldr (λ x P, has_type x TJson ∧ P) True l
                | _ => False
                end
  | PyDict kvs => match strip_opt t with
                  | TDict t' => foldr (λ kv P, has_type kv.2 t' ∧ P) True kvs
                  | TJson => foldr (λ kv P, has_type kv.2 TJson ∧ P) True kvs
                  | _ => False
                  end
  | PyObj c fs => match strip_opt t with
                  | TObj c' => c = c' ∧ (fix fields (fs : dict) (fields_c : list field) : Prop :=
                                 match fs, fields_c with
                                 | [], [] => True
                                 | kx :: fs, f :: fields_c => kx.1 = f_name f ∧ has_type kx.2 (f_type f) ∧ fields fs fields_c
                                 | _, _ => False
                                 end) fs (fields_of c)
                  | _ => False
                  end
  end.

(** An object's fields are those of its class, with values of their types. *)
Definition typed (c : cls) (fs : dict) : Prop :=
  Forall2 (λ kx f, kx.1 = f_name f ∧ has_type kx.2 (f_type f)) fs (fields_of c).

Lemma foldr_forall {A} (P : A → Prop) l : foldr (λ x Q, P x ∧ Q) True l ↔ Forall P l.
Proof. induction l as [|x l IH]; cbn; [by rewrite Forall_nil|]. by rewrite Forall_cons, IH. Qed.

Lemma typed_list l t : has_type (PyList l) (TList t) ↔ Forall (λ x, has_type x t) l.
Proof. apply foldr_forall. Qed.

Lemma obj_typed v c : has_type v (TObj c) → ∃ fs, v = PyObj c fs ∧ typed c fs.
Proof.
  intros H. destruct v as [ | | | | | | | |c' fs]; cbn in H; try done. destruct H as [-> H]. exists fs. split; [done|]. unfold typed.
  revert H. generalize (fields_of c). induction fs as [|kx fs IH]; intros [|f l]; try done.
  intros (? & ? & ?). constructor; [done|]. by apply IH.
Qed.

(** Types whose values are their own JSON *)
Fixpoint plain (t : fty) : bool :=
  match t with
  | TInt | TFloat | TStr | TStage | TBool | TJson => true
  | TTime | TObj _ => false
  | TOpt t | TList t | TDict t => plain t
  end.

(** ** To JSON *)

Lemma to_jsonable_list l : to_jsonable (PyList l) = PyList (to_jsonable <$> l).
Proof. unfold to_jsonable. cbn. by rewrite <-list_fmap_compose. Qed.

Lemma to_jsonable_dict kvs : to_jsonable (PyDict kvs) = PyDict (prod_map id to_jsonable <$> kvs).
Proof. unfold to_jsonable. cbn. by rewrite <-list_fmap_compose. Qed.

Lemma to_jsonable_obj c fs : to_jsonable (PyObj c fs) = PyDict (prod_map id to_jsonable <$> fs).
Proof. unfold to_jsonable. cbn. by rewrite <-list_fmap_compose. Qed.

Lemma to_jsonable_fixed kvs :
  Forall (λ kv : string * pyval, to_jsonable kv.2 = kv.2) kvs → prod_map id to_jsonable <$> kvs = kvs.
Proof. induction 1 as [|[k x] l Hx _ IH]; [done|]. rewrite fmap_cons, IH. by cbn in *; rewrite Hx. Qed.

Lemma plain_strip t : plain (strip_opt t) = plain t.
Proof. by destruct t. Qed.

Lemma plain_jsonable v : ∀ t, has_type v t → plain t = true → to_jsonable v = v.
Proof.
  induction v as [ |b|n|x|s|at_|l IH|kvs IH|c fs IH] using pyval_nested_ind; intros t H Hp; try done.
  - cbn in H. rewrite <-plain_strip in Hp. by destruct (strip_opt t).
  - assert (∃ t', Forall (λ x, has_type x t') l ∧ plain t' = true) as (t' & Hl & Hp').
    { cbn in H. rewrite <-plain_strip in Hp. destruct (strip_opt t) as [ | | | | | | |t0|t'|t0|c0]; try done; cbn in Hp;
        apply foldr_forall in H; eauto. }
    rewrite to_jsonable_list. f_equal. revert IH Hl. clear -Hp'. induction l as [|x l IHl]; [done|].
    intros [Hx Hxs]%Forall_cons [Tx Txs]%Forall_cons. rewrite fmap_cons. f_equal; eauto.
  - assert (∃ t', Forall (λ kv : string * pyval, has_type kv.2 t') kvs ∧ plain t' = true) as (t' & Hl & Hp').
    { cbn in H. rewrite <-plain_strip in Hp. destruct (strip_opt t) as [ | | | | | | |t0|t0|t'|c0]; try done; cbn in Hp;
        apply foldr_forall in H; eauto. }
    rewrite to_jsonable_dict. f_equal. apply to_jsonable_fixed. revert IH Hl. clear -Hp'.
    rewrite !Forall_forall. intros IH Hl kv Hkv. eapply IH; eauto.
  - cbn in H. rewrite <-plain_strip in Hp. by destruct (strip_opt t).
Qed.

(** ** What comes back *)

(** A field that does not come back as it was: its objects stay dicts, or it is left at its default. *)
Inductive loss := Lowered | Dropped.
Definition lost (c : cls) (k : string) : option loss :=
  match c with
  | KEnvironmentOverview => if String.eqb k "workload_donut" then Some Lowered else None
  | KSubnetGroup => if String.eqb k "gateway" then Some Dropped else None
  | _ => None
  end.

Fixpoint restored (v : pyval) : pyval :=
  match v with
  | PyList l => PyList (restored <$> l)
  | PyObj c fs => PyObj c ((λ kx, (kx.1, match lost c kx.1 with
                                         | Some Lowered => to_jsonable kx.2
                                         | Some Dropped => PyNone
                                         | None => restored kx.2
                                         end)) <$> fs)
  | _ => v
  end.

Definition kept (c : cls) (k : string) (x : pyval) : pyval :=
  match lost c k with Some Lowered => to_jsonable x | Some Dropped => PyNone | None => restored x end.

Lemma restored_obj c fs : restored (PyObj c fs) = PyObj c ((λ kx, (kx.1, kept c kx.1 kx.2)) <$> fs).
Proof. done. Qed.

Lemma plain_restored v : ∀ t, has_type v t → plain t = true → restored v = v.
Proof.
  induction v as [ |b|n|x|s|at_|l IH|kvs _|c fs IH] using pyval_nested_ind; intros t H Hp; try done.
  - assert (∃ t', Forall (λ x, has_type x t') l ∧ plain t' = true) as (t' & Hl & Hp').
    { cbn in H. rewrite <-plain_strip in Hp. destruct (strip_opt t) as [ | | | | | | |t0|t'|t0|c0]; try done; cbn in Hp;
        apply foldr_forall in H; eauto. }
    cbn. f_equal. revert IH Hl. clear -Hp'. induction l as [|x l IHl]; [done|].
    intros [Hx Hxs]%Forall_cons [Tx Txs]%Forall_cons. rewrite fmap_cons. f_equal; eauto.
  - cbn in H. rewrite <-plain_strip in Hp. by destruct (strip_opt t).
Qed.

(** ** Rebuilding an object field by field *)

(** The declared type of a field *)
Definition type_of (c : cls) (k : string) : option fty :=
  f_type <$> find (λ f, String.eqb (f_name f) k) (fields_of c).

Lemma names_nodup c : NoDup (names c).
Proof. destruct c; apply (bool_decide_unpack _); by vm_compute. Qed.

Lemma typed_names c fs : typed c fs → fs.*1 = names c.
Proof. unfold typed, names. induction 1 as [|kx f fs l [E _] _ IH]; [done|]. by rewrite !fmap_cons, IH, E. Qed.

Lemma typed_get c fs k x : typed c fs → dict_get k fs = Some x ↔ (k, x) ∈ fs.
Proof.
  intros T. assert (N : NoDup fs.*1) by (rewrite (typed_names _ _ T); apply names_nodup).
  clear T. induction fs as [|[k' x'] fs IH]; cbn; [by rewrite elem_of_nil|].
  apply NoDup_cons in N as [N1 N2]. rewrite elem_of_cons. destruct (decide (k' = k)) as [->|E].
  - split; [intros [= ->]; by left|]. intros [[= ->]|H]; [done|]. destruct N1. by apply (list_elem_of_fmap_2 fst) in H.
  - rewrite IH by done. split; [by right|]. intros [[= ??]|H]; done.
Qed.

Lemma typed_field c fs k t : typed c fs → type_of c k = Some t → ∃ x, (k, x) ∈ fs ∧ has_type x t.
Proof.
  unfold typed, type_of. induction 1 as [|kx f fs l [E Hx] _ IH]; [done|]. cbn.
  destruct (String.eqb_spec (f_name f) k) as [<-|]; cbn.
  - intros [= <-]. exists kx.2. split; [|done]. rewrite <-E. destruct kx. by left.
  - intros H. destruct (IH H) as (x & Hin & Ht). exists x. split; [by right|done].
Qed.

Lemma typed_elem c fs k x : typed c fs → (k, x) ∈ fs → ∃ f, f ∈ fields_of c ∧ f_name f = k ∧ has_type x (f_type f).
Proof.
  unfold typed. induction 1 as [|kx f fs l [E Hx] _ IH]; [by intros ?%elem_of_nil|].
  rewrite elem_of_cons. intros [<-|H].
  - exists f. split; [by left|done].
  - destruct (IH H) as (f' & ? & ?). exists f'. split; [by right|done].
Qed.

(** What a constructor does with the keywords of each field *)
Lemma construct_fields (kwargs fs : dict) (l : list field) (g : string → pyval → pyval)
  (T : Forall2 (λ kx f, kx.1 = f_name f ∧ has_type kx.2 (f_type f)) fs l) :
  (∀ f x, f ∈ l → (f_name f, x) ∈ fs → given kwargs f = Some (g (f_name f) x)) →
  map_result (λ f, match given kwargs f with Some v => Ok (f_name f, v) | None => Raise TypeError end) l
  = Ok ((λ kx, (kx.1, g kx.1 kx.2)) <$> fs).
Proof.
  induction T as [|[k x] f fs l [E Hx] _ IH]; [done|]. intros H. cbn in E. subst k. cbn [map_result].
  rewrite (H f x) by left. cbn. rewrite IH; [done|]. intros f' x' ??. apply H; by right.
Qed.

Section fields.
Variables (c : cls) (fs : dict).
Hypothesis T : typed c fs.

(** The fields in [done] hold what comes back, the others still hold JSON. *)
Definition state (done : list string) (data : dict) : Prop :=
  ∀ k x, (k, x) ∈ fs → dict_get k data = Some (if bool_decide (k ∈ done) then kept c k x else to_jsonable x).

Lemma state_start extra : state [] ((prod_map id to_jsonable <$> fs) ++ extra)%list.
Proof.
  intros k x H. apply (typed_get _ _ _ _ T) in H. revert H. clear T.
  induction fs as [|[k' x'] l IH]; [done|]. cbn. destruct (decide (k' = k)); [by intros [= ->]|apply IH].
Qed.

Lemma state_set done data k x :
  state done data → (k, x) ∈ fs → state (k :: done) (dict_set k (kept c k x) data).
Proof.
  intros S H k' x' H'. destruct (decide (k = k')) as [<-|N].
  - rewrite dict_get_set_eq, bool_decide_true by by left.
    apply (typed_get _ _ _ _ T) in H, H'. by simplify_eq.
  - rewrite dict_get_set_ne by done. rewrite (S _ _ H'). f_equal.
    by rewrite (bool_decide_ext (k' ∈ k :: done) (k' ∈ done)) by (rewrite elem_of_cons; naive_solver).
Qed.

(** What a field not yet rebuilt holds *)
Lemma state_json (done : list string) data k t (N : bool_decide (k ∈ done) = false) :
  state done data → type_of c k = Some t →
  ∃ x, (k, x) ∈ fs ∧ has_type x t ∧ dict_get k data = Some (to_jsonable x).
Proof.
  intros S H. destruct (typed_field _ _ _ _ T H) as (x & Hin & Hx). exists x. split_and!; [done..|].
  by rewrite (S _ _ Hin), N.
Qed.

Lemma rebuild_step (done : list string) data k t f (N : bool_decide (k ∈ done) = false) (L : lost c k = None) :
  state done data → type_of c k = Some t →
  (∀ x, has_type x t → dict_get k data = Some (to_jsonable x) → f data = Ok (restored x)) →
  ∃ data', rebuild k f data = Ok data' ∧ state (k :: done) data'.
Proof.
  intros S H F. destruct (state_json _ _ _ _ N S H) as (x & Hin & Hx & Hd).
  exists (dict_set k (kept c k x) data). split; [|by apply state_set].
  unfold rebuild, kept. by rewrite (F _ Hx Hd), L.
Qed.

(** Every field is rebuilt, is its own JSON, or stays JSON. *)
Definition covered (done : list string) : bool :=
  forallb (λ f, match lost c (f_name f) with
                | Some Lowered => negb (bool_decide (f_name f ∈ done))
                | Some Dropped => false
                | None => bool_decide (f_name f ∈ done) || plain (f_type f)
                end) (fields_of c).

Lemma covered_kept done data k x :
  covered done = true → state done data → (k, x) ∈ fs → dict_get k data = Some (kept c k x).
Proof.
  intros C S H. rewrite (S _ _ H). f_equal. destruct (typed_elem _ _ _ _ T H) as (f & Hf & <- & Hx).
  unfold covered in C. rewrite forallb_forall in C. specialize (C f (proj1 (list_elem_of_In _ _) Hf)).
  unfold kept in *. destruct (lost c (f_name f)) as [[]|]; [by apply negb_true_iff in C as ->|done|].
  destruct (bool_decide _); [done|]. cbn in C.
  by rewrite (plain_jsonable _ _ Hx C), (plain_restored _ _ Hx C).
Qed.

(** A class called with a value for every field *)
Lemma construct_ok (kwargs : dict) (g : string → pyval → pyval) :
  forallb (λ kv, bool_decide (kv.1 ∈ names c)) kwargs = true →
  (∀ f x, f ∈ fields_of c → (f_name f, x) ∈ fs → given kwargs f = Some (g (f_name f) x)) →
  construct c kwargs = Ok (PyObj c ((λ kx, (kx.1, g kx.1 kx.2)) <$> fs)).
Proof using T.
  intros K H. unfold construct. by rewrite K, (construct_fields _ fs _ g T H).
Qed.

Lemma known_get (data : dict) k : k ∈ names c → dict_get k (_drop_unknown_fields c data) = dict_get k data.
Proof.
  intros Hk. unfold _drop_unknown_fields. induction data as [|[k' v] data IH]; [done|]. rewrite filter_cons. cbn.
  destruct (decide (k' ∈ names c)) as [H|H]; cbn; [by destruct (decide (k' = k))|].
  rewrite decide_False; [done|]. by intros ->.
Qed.

Lemma built done data : state done data → covered done = true → _build c data = Ok (restored (PyObj c fs)).
Proof.
  intros S C. unfold _build. rewrite restored_obj. apply (construct_ok _ (kept c)).
  - unfold _drop_unknown_fields. apply forallb_forall. intros kv [H _]%list_elem_of_In%list_elem_of_filter.
    by apply bool_decide_eq_true.
  - intros f x Hf H. unfold given. rewrite known_get by by apply list_elem_of_fmap_2.
    by rewrite (covered_kept done data _ _ C S H).
Qed.

(** A class called with what was read of each field *)
Lemma constructed (kwargs : dict) :
  forallb (λ kv, bool_decide (kv.1 ∈ names c)) kwargs = true →
  Forall (λ f, ∃ x, (f_name f, x) ∈ fs ∧ given kwargs f = Some (kept c (f_name f) x)) (fields_of c) →
  construct c kwargs = Ok (restored (PyObj c fs)).
Proof.
  intros K F. rewrite restored_obj. apply (construct_ok _ (kept c) K). intros f x Hf H.
  rewrite Forall_forall in F. destruct (F f Hf) as (x' & H' & ->).
  apply (typed_get _ _ _ _ T) in H, H'. by simplify_eq.
Qed.
End fields.

(** ** Readers *)

#[local] Arguments to_jsonable : simpl never.

(** [g] reads the values of type [t]. *)
Definition reads (t : fty) (g : pyval → result pyval) : Prop :=
  ∀ v, has_type v t → g (to_jsonable v) = Ok (restored v).

(** [f] reads the field [k] of type [t] of a dict. *)
Definition reads_at (k : string) (t : fty) (f : dict → result pyval) : Prop :=
  ∀ data x, has_type x t → dict_get k data = Some (to_jsonable x) → f data = Ok (restored x).

Create HintDb snapshot.

Lemma map_reads t g l :
  reads t g → Forall (λ x, has_type x t) l → map_result g (to_jsonable <$> l) = Ok (restored <$> l).
Proof.
  intros R H. induction H as [|x l Hx _ IH]; [done|]. rewrite fmap_cons. cbn [map_result].
  by rewrite (R _ Hx); cbn; rewrite IH.
Qed.

Lemma list_typed v t : has_type v (TList t) → ∃ l, v = PyList l ∧ Forall (λ x, has_type x t) l.
Proof. intros H. destruct v as [ | | | | | |l| |]; cbn in H; try done. exists l. split; [done|]. by apply foldr_forall. Qed.

Lemma reads_each k t g : reads t g → reads_at k (TList t) (each g k).
Proof.
  intros R data x H E. apply list_typed in H as (l & -> & H). rewrite to_jsonable_list in E.
  unfold each, json_list. rewrite E, (map_reads _ _ _ R H). done.
Qed.

Lemma reads_item k t g : reads t g → reads_at k t (λ d, v ← item k d; g v).
Proof. intros R data x H E. unfold item. rewrite E. by apply R. Qed.

Lemma parse_time x t : strip_opt t = TTime → has_type x t → parse_dt (to_jsonable x) = Ok (restored x).
Proof.
  intros E H. destruct x; cbn in H; try (rewrite E in H; done); [done|]. rewrite E in H. unfold to_jsonable. cbn.
  by rewrite isoformat_read.
Qed.

Lemma reads_time k t : strip_opt t = TTime → reads_at k t (time_at k).
Proof. intros Et data x H E. unfold time_at, get_or. rewrite E. by apply (parse_time _ t). Qed.

Lemma typed_nonempty c fs : typed c fs → fs ≠ [].
Proof. intros T ->. by destruct c; inversion T. Qed.

Lemma obj_truthy c fs : typed c fs → truthy (to_jsonable (PyObj c fs)) = true.
Proof. intros T. rewrite to_jsonable_obj. destruct fs as [|kx fs]; [|done]. by destruct (typed_nonempty _ _ T). Qed.

Lemma opt_obj_typed v c : has_type v (TOpt (TObj c)) → v = PyNone ∨ has_type v (TObj c).
Proof. destruct v; cbn; auto. Qed.

Lemma reads_if k c g : reads (TObj c) g → reads_at k (TOpt (TObj c)) (if_truthy g k (Ok PyNone)).
Proof.
  intros R data x H E. unfold if_truthy, get_or. rewrite E. cbn.
  destruct (opt_obj_typed _ _ H) as [->|Ho]; [done|]. destruct (obj_typed _ _ Ho) as (fs & -> & T).
  rewrite obj_truthy by done. by apply R.
Qed.

Lemma reads_truthy k c g d : reads (TObj c) g → reads_at k (TObj c) (if_truthy g k d).
Proof.
  intros R data x H E. destruct (obj_typed _ _ H) as (fs & -> & T). unfold if_truthy, get_or. rewrite E. cbn.
  rewrite obj_truthy by done. by apply R.
Qed.

#[export] Hint Resolve reads_each reads_item reads_if reads_truthy : snapshot.
#[export] Hint Extern 4 (reads_at _ _ (time_at _)) => (by apply reads_time) : snapshot.

Lemma reads_flat c : covered c [] = true → reads (TObj c) (build_from c).
Proof.
  intros C v H. apply obj_typed in H as (fs & -> & T). rewrite to_jsonable_obj. unfold build_from. cbn [as_dict mbind result_bind].
  apply (built c fs T [] _); [|done]. pose proof (state_start c fs T []) as S. by rewrite app_nil_r in S.
Qed.
#[export] Hint Extern 2 (reads (TObj _) (build_from _)) => (apply reads_flat; reflexivity) : snapshot.

(** The next field a reader rebuilds *)
Lemma field_rebuilt c fs (T : typed c fs) (done : list string) data k t f (N : bool_decide (k ∈ done) = false)
  (L : lost c k = None) (H : type_of c k = Some t) :
  state c fs done data → reads_at k t f → ∃ data', rebuild k f data = Ok data' ∧ state c fs (k :: done) data'.
Proof. intros S R. apply (rebuild_step c fs T done data k t f N L S H). intros x. apply R. Qed.

Ltac field_step :=
  lazymatch goal with
  | T : typed ?c ?fs, S : state ?c ?fs ?done ?data |- context [rebuild ?k ?f ?data] =>
      let d := fresh "data" in let E := fresh "E" in let S' := fresh "S" in
      let t := eval vm_compute in (default TInt (type_of c k)) in
      destruct (field_rebuilt c fs T done data k t f eq_refl eq_refl eq_refl S) as (d & E & S');
      [by eauto with snapshot|rewrite E; clear E S; cbn [mbind result_bind]]
  end.

(** An object of a class, seen as the dict it is stored as *)
Ltac open_object f :=
  let v := fresh "v" in let H := fresh "H" in let S := fresh "S" in
  intros v H; apply obj_typed in H as (fs & -> & T); rewrite to_jsonable_obj; unfold f; cbn [as_dict mbind result_bind];
  pose proof (state_start _ fs T []) as S; rewrite app_nil_r in S.

Ltac all_fields := repeat field_step; eapply built; [eassumption|eassumption|reflexivity].

Lemma reads_capacity_warning : reads (TObj KCapacityWarningItem) _capacity_warning_from_dict.
Proof. by apply reads_flat. Qed.
#[export] Hint Resolve reads_capacity_warning : snapshot.

Lemma reads_overview : reads (TObj KEnvironmentOverview) _overview_from_dict.
Proof. open_object _overview_from_dict. all_fields. Qed.
#[export] Hint Resolve reads_overview : snapshot.

(** ** The classes, one by one *)

(** What a field not rebuilt in place is read from *)
Ltac field_known k :=
  lazymatch goal with
  | T : typed ?c ?fs, S : state ?c ?fs [] ?data |- _ =>
      let t := eval vm_compute in (default TInt (type_of c k)) in
      let x := fresh "x" in let Hin := fresh "Hin" in let Hx := fresh "Hx" in let Hd := fresh "Hd" in
      destruct (state_json c fs T [] data k t eq_refl S eq_refl) as (x & Hin & Hx & Hd);
      lazymatch eval vm_compute in (plain t) with
      | true => rewrite (plain_jsonable x t Hx eq_refl), <-(plain_restored x t Hx eq_refl) in Hd
      | false => idtac
      end
  end.

(** The reader of a field, run *)
Ltac read_field :=
  match goal with
  | Hx : has_type ?x (TList ?t), Hd : dict_get ?k ?data = Some (to_jsonable ?x) |- context [each ?g ?k ?data] =>
      let R := fresh "R" in
      assert (R : reads t g) by eauto with snapshot;
      rewrite (reads_each k t g R data x Hx Hd); clear R; cbn [mbind result_bind]
  | Hd : dict_get ?k ?data = Some _ |- context [item ?k ?data] =>
      unfold item at 1; rewrite Hd; cbn [mbind result_bind]
  end.

Ltac all_given :=
  unfold get_or;
  repeat match goal with Hd : dict_get ?k ?data = Some _ |- context [dict_get ?k ?data] => rewrite Hd end; cbn [default from_option id];
  eapply constructed; [eassumption|reflexivity|];
  repeat (apply Forall_cons_2; [eexists; split; [eassumption|reflexivity]|]); apply Forall_nil_2.

Lemma reads_attention_row : reads (TObj KAttentionRow) _attention_row_from_dict.
Proof. open_object _attention_row_from_dict. all_fields. Qed.
#[export] Hint Resolve reads_attention_row : snapshot.

Lemma reads_attention : reads (TObj KAttentionSignals) _attention_from_dict.
Proof.
  open_object _attention_from_dict.
  field_known "gap_warnings". field_known "os_eol_warnings". field_known "agent_unstable".
  repeat read_field. all_given.
Qed.
#[export] Hint Resolve reads_attention : snapshot.

Lemma reads_signal_rows : reads (TList (TObj KPeriodSignalRow)) _period_signal_rows.
Proof.
  intros v H. apply list_typed in H as (l & -> & H). rewrite to_jsonable_list. unfold _period_signal_rows.
  assert (R : reads (TObj KPeriodSignalRow) (build_from KPeriodSignalRow)) by auto with snapshot.
  rewrite (map_reads _ _ _ R H). by destruct l.
Qed.

Lemma signal_rows_at k data x :
  dict_get k data = Some (to_jsonable x) → has_type x (TList (TObj KPeriodSignalRow)) →
  _period_signal_rows (get_or k PyNone data) = Ok (restored x).
Proof. intros E H. unfold get_or. rewrite E. by apply reads_signal_rows. Qed.

Lemma reads_extra_group : reads (TObj KPeriodExtraGroup) period_extra_group.
Proof.
  open_object period_extra_group. field_known "label". field_known "rows".
  repeat read_field. erewrite signal_rows_at by eassumption. cbn [mbind result_bind]. all_given.
Qed.
#[export] Hint Resolve reads_extra_group : snapshot.

Lemma reads_period_resource : reads (TObj KPeriodResource) period_resource.
Proof.
  open_object period_resource.
  field_known "name". field_known "util_rows". field_known "util_over". field_known "sat_rows". field_known "sat_over".
  field_known "has_util". field_known "detail_slug". field_known "verdict_label". field_known "verdict_color".
  field_known "extra_groups". field_known "error_rows". field_known "verdict_label2". field_known "verdict_color2".
  read_field. do 2 (erewrite signal_rows_at by eassumption; cbn [mbind result_bind]).
  repeat read_field. all_given.
Qed.
#[export] Hint Resolve reads_period_resource : snapshot.

Lemma reads_period_assessment : reads (TObj KPeriodAssessment) _period_assessment_from_dict.
Proof.
  open_object _period_assessment_from_dict. field_known "resources". field_known "error_rows".
  field_known "window_days". field_known "classification_label". field_known "classification_color".
  repeat read_field. all_given.
Qed.
#[export] Hint Resolve reads_period_assessment : snapshot.

Lemma reads_subnet : reads (TObj KSubnetGroup) subnet_from.
Proof.
  open_object subnet_from. field_known "net_key". field_known "host_count". field_known "gateway". field_known "hosts".
  repeat read_field. all_given.
Qed.
#[export] Hint Resolve reads_subnet : snapshot.

Lemma reads_topology : reads (TObj KNetworkTopology) topology_from.
Proof. open_object topology_from. unfold topology_dict. cbn [as_dict mbind result_bind]. all_fields. Qed.
#[export] Hint Resolve reads_topology : snapshot.

Lemma reads_service_name : reads (TObj KServiceNameCount) service_name_from.
Proof. open_object service_name_from. field_known "name". field_known "count". field_known "hosts". repeat read_field. all_given. Qed.
#[export] Hint Resolve reads_service_name : snapshot.

Lemma reads_service_group : reads (TObj KServiceCatalogGroup) service_group_from.
Proof.
  open_object service_group_from. field_known "category". field_known "total_count". field_known "services".
  repeat read_field. all_given.
Qed.
#[export] Hint Resolve reads_service_group : snapshot.

Lemma reads_action : reads (TObj KActionTargets) _action_targets_from_dict.
Proof. open_object _action_targets_from_dict. all_fields. Qed.

Lemma reads_server_inventory : reads (TObj KServerInventorySnapshot) server_inventory_from.
Proof. open_object server_inventory_from. all_fields. Qed.

Lemma reads_interface : reads (TObj KNetworkInterfaceInfo) _network_interface_from_dict.
Proof. open_object _network_interface_from_dict. all_fields. Qed.
#[export] Hint Resolve reads_action reads_server_inventory reads_interface : snapshot.

Lemma today_status_known fs data (done : list string) :
  typed KReportRowItem fs → state KReportRowItem fs done data → bool_decide ("os_eol_status" ∈ done) = false →
  today_status data = Ok data.
Proof.
  intros T S N. destruct (state_json _ _ T done data "os_eol_status" TStage N S eq_refl) as (x & _ & Hx & Hd).
  unfold today_status. rewrite Hd. destruct x as [ | | | |s| | | |]; try (by cbn in Hx).
  change (dict_get s _LEGACY_OS_EOL_STATUS = None) in Hx. change (to_jsonable (PyStr s)) with (PyStr s). cbv beta iota. by rewrite Hx.
Qed.

Lemma reads_report_row : reads (TObj KReportRowItem) _report_row_from_dict.
Proof.
  open_object _report_row_from_dict. repeat field_step.
  erewrite today_status_known by (eassumption || reflexivity). cbn [mbind result_bind].
  all_fields.
Qed.
#[export] Hint Resolve reads_report_row : snapshot.

Lemma reads_report_summary : reads (TObj KReportSummary) report_summary_from_dict.
Proof. open_object report_summary_from_dict. all_fields. Qed.
#[export] Hint Resolve reads_report_summary : snapshot.

Lemma storage_node_eq data :
  _storage_node_from_dict (PyDict data)
  = (data ← rebuild "children" (each _storage_node_from_dict "children") data; _build KStorageNode data).
Proof.
  unfold rebuild, each, json_list. cbn [_storage_node_from_dict].
  assert (E : (fix children (kvs : dict) : result (list pyval) :=
        match kvs with
        | [] => Ok []
        | (k, x) :: kvs => if decide (k = "children")
                           then match x with PyList l => map_result _storage_node_from_dict l | _ => Ok [] end
                           else children kvs
        end) data = map_result _storage_node_from_dict (match dict_get "children" data with Some (PyList l) => l | _ => [] end)).
  { induction data as [|[k x] data IH]; [done|]. cbn [dict_get]. destruct (decide (k = "children")); [by destruct x|done]. }
  rewrite E. by destruct (map_result _ _).
Qed.

Lemma reads_storage_node : reads (TObj KStorageNode) _storage_node_from_dict.
Proof.
  assert (P : ∀ v, (has_type v (TObj KStorageNode) → _storage_node_from_dict (to_jsonable v) = Ok (restored v))
                   ∧ ∀ l, v = PyList l → Forall (λ x, has_type x (TObj KStorageNode)) l →
                     map_result _storage_node_from_dict (to_jsonable <$> l) = Ok (restored <$> l)); [|intros v; apply P].
  induction v as [ |b|n|x|s|at_|l IH|kvs _|c fs IH] using pyval_nested_ind; (split; [intros H|intros l0 [=]]); try done.
  - subst l0. intros H. induction IH as [|x l [Hx _] _ IHl]; [done|]. apply Forall_cons in H as [Tx Txs].
    rewrite fmap_cons. cbn [map_result]. by rewrite (Hx Tx); cbn; rewrite IHl.
  - apply obj_typed in H as (fs' & [= -> ->] & T). rewrite to_jsonable_obj, storage_node_eq.
    pose proof (state_start _ fs' T []) as S. rewrite app_nil_r in S.
    destruct (state_json _ _ T [] _ "children" (TList (TObj KStorageNode)) eq_refl S eq_refl) as (x & Hin & Hx & Hd).
    apply list_typed in Hx as (l & -> & Hl). rewrite Forall_forall in IH. destruct (IH _ Hin) as [_ R].
    unfold rebuild, each, json_list. rewrite Hd, to_jsonable_list, (R l eq_refl Hl). cbn [mbind result_bind].
    apply (built _ _ T ["children"]); [|reflexivity]. by apply (state_set _ _ T [] _ "children" (PyList l)).
Qed.
#[export] Hint Resolve reads_storage_node : snapshot.

(** ** The report *)

Lemma reads_action_at k : reads_at k (TObj KActionTargets) (λ d, _action_targets_from_dict (json_obj d k)).
Proof.
  intros data x H E. destruct (obj_typed _ _ H) as (fs & -> & T). unfold json_obj. rewrite E, to_jsonable_obj.
  rewrite <-(to_jsonable_obj KActionTargets). by apply reads_action.
Qed.
#[export] Hint Resolve reads_action_at : snapshot.

Lemma truthy_rebuilt c fs (T : typed c fs) (done : list string) data k c' g (N : bool_decide (k ∈ done) = false)
  (L : lost c k = None) (H : type_of c k = Some (TOpt (TObj c'))) :
  state c fs done data → reads (TObj c') g →
  ∃ data', rebuild_truthy g k data = Ok data' ∧ state c fs (k :: done) data'.
Proof.
  intros S R. destruct (state_json c fs T done data k _ N S H) as (x & Hin & Hx & Hd).
  pose proof (state_set c fs T done data k x S Hin) as S'. unfold kept in S'. rewrite L in S'.
  unfold rebuild_truthy, get_or. rewrite Hd. cbn. destruct (opt_obj_typed _ _ Hx) as [->|Ho].
  - exists data. split; [done|]. intros k' x' H'. rewrite (S _ _ H'). f_equal.
    rewrite (bool_decide_ext (k' ∈ k :: done) (k' = k ∨ k' ∈ done)) by apply elem_of_cons.
    destruct (decide (k' = k)) as [->|E]; [|by rewrite (bool_decide_ext (k' = k ∨ k' ∈ done) (k' ∈ done)) by naive_solver].
    rewrite N, bool_decide_true by by left. apply (typed_get _ _ _ _ T) in H', Hin. simplify_eq. unfold kept. by rewrite L.
  - destruct (obj_typed _ _ Ho) as (fs' & -> & T'). rewrite obj_truthy by done. unfold rebuild. rewrite (R _ Ho). eauto.
Qed.

Ltac truthy_step :=
  lazymatch goal with
  | T : typed ?c ?fs, S : state ?c ?fs ?done ?data |- context [rebuild_truthy ?g ?k ?data] =>
      let d := fresh "data" in let E := fresh "E" in let S' := fresh "S" in
      let t := eval vm_compute in (default TInt (type_of c k)) in
      lazymatch t with TOpt (TObj ?c') =>
        destruct (truthy_rebuilt c fs T done data k c' g eq_refl eq_refl eq_refl S) as (d & E & S');
        [by eauto with snapshot|rewrite E; clear E S; cbn [mbind result_bind]]
      end
  end.

Lemma first_read fs data (T : typed KEnvironmentReportSummary fs) :
  state KEnvironmentReportSummary fs [] data →
  ∃ data', read_first data = Ok data'
  ∧ state KEnvironmentReportSummary fs ["os_family_dist"; "os_distribution"; "classification_dist"; "base"; "attention"; "overview"] data'.
Proof. intros S. unfold read_first. repeat field_step. eauto. Qed.

Lemma rest_read fs data (T : typed KEnvironmentReportSummary fs) :
  state KEnvironmentReportSummary fs
    ["topology"; "os_family_dist"; "os_distribution"; "classification_dist"; "base"; "attention"; "overview"] data →
  ∃ data' done, read_rest data = Ok data' ∧ state KEnvironmentReportSummary fs done data'
  ∧ covered KEnvironmentReportSummary done = true.
Proof. intros S. unfold read_rest. repeat (field_step || truthy_step). eexists _, _. split_and!; [done|eassumption|reflexivity]. Qed.

(** Nothing of a value is lost: it has none of what does not come back. *)
Fixpoint lossless (v : pyval) : Prop :=
  match v with
  | PyList l => foldr (λ x P, lossless x ∧ P) True l
  | PyObj c fs => foldr (λ kx P, match lost c kx.1 with
                                 | Some Lowered => kx.2 = PyList []
                                 | Some Dropped => kx.2 = PyNone
                                 | None => lossless kx.2
                                 end ∧ P) True fs
  | _ => True
  end.

Lemma fmap_fixed {A} (f : A → A) l : f <$> l = l ↔ Forall (λ x, f x = x) l.
Proof.
  induction l as [|x l IH]; [by split|]. rewrite fmap_cons, Forall_cons, <-IH. split; [intros [= ??]|intros [??]]; by f_equal.
Qed.

(** The type of the only field that stays JSON *)
Lemma lowered_type c f : f ∈ fields_of c → lost c (f_name f) = Some Lowered → f_type f = TList (TObj KRiskDonutSegment).
Proof.
  intros H L. assert (F : Forall (λ f, lost c (f_name f) = Some Lowered → f_type f = TList (TObj KRiskDonutSegment)) (fields_of c)).
  { destruct c; repeat (apply Forall_cons_2; [by cbn|]); apply Forall_nil_2. }
  rewrite Forall_forall in F. by apply F.
Qed.

Lemma lowered_fixed x : has_type x (TList (TObj KRiskDonutSegment)) → to_jsonable x = x ↔ x = PyList [].
Proof.
  intros H. apply list_typed in H as (l & -> & H). rewrite to_jsonable_list. split; [|by intros [= ->]].
  destruct H as [|x l Hx _]; [done|]. apply obj_typed in Hx as (fs & -> & _). rewrite fmap_cons, to_jsonable_obj.
  by intros [=].
Qed.

Lemma restored_fixed v : ∀ t, has_type v t → restored v = v ↔ lossless v.
Proof.
  induction v as [ |b|n|x|s|at_|l IH|kvs _|c fs IH] using pyval_nested_ind; intros t H; try done.
  - assert (∃ t', Forall (λ x, has_type x t') l) as (t' & Hl).
    { cbn in H. destruct (strip_opt t); try done; apply foldr_forall in H; eauto. }
    change (lossless (PyList l)) with (foldr (λ x P, lossless x ∧ P) True l).
    rewrite foldr_forall. transitivity (restored <$> l = l); [split; [by intros [=]|by intros E; cbn; rewrite E]|].
    rewrite fmap_fixed, !Forall_forall in *. naive_solver.
  - assert (∃ c', has_type (PyObj c fs) (TObj c')) as (c' & Ho) by (destruct t as [ | | | | | | |[]| | |]; try done; eauto).
    apply obj_typed in Ho as (fs' & [= <- <-] & T). rewrite restored_obj. cbn [lossless]. rewrite foldr_forall.
    transitivity ((λ kx : string * pyval, (kx.1, kept c kx.1 kx.2)) <$> fs = fs);
      [split; [by intros [=]|by intros ->]|].
    rewrite fmap_fixed, !Forall_forall in *. apply forall_proper. intros [k x]. cbn. unfold kept. split.
    + intros F Hin. destruct (typed_elem _ _ _ _ T Hin) as (f & Hf & <- & Hx). specialize (F Hin). injection F as F.
      destruct (lost c (f_name f)) as [[]|] eqn:L; [|done|by apply (IH _ Hin _ Hx)].
      rewrite (lowered_type _ _ Hf L) in Hx. by apply lowered_fixed.
    + intros F Hin. destruct (typed_elem _ _ _ _ T Hin) as (f & Hf & <- & Hx). specialize (F Hin). f_equal.
      destruct (lost c (f_name f)) as [[]|] eqn:L; [by rewrite F|done|by apply (IH _ Hin _ Hx)].
Qed.

(** C12. An issued report is what was issued, but for two fields.  A report of the declared
    types, stored as JSON and read back - whatever keys the class no longer has were left in
    the store - is rebuilt without error, every object, time and number of it, except that
    the segments of the overview's workload donut come back as dicts and that no subnet of the
    topology keeps its gateway; so it is the same report exactly when the donut is empty and
    no subnet has a gateway. *)
Theorem report_comes_back (v : pyval) (extra : dict) (H : has_type v (TObj KEnvironmentReportSummary)) :
  ∃ kvs, env_report_to_dict v = PyDict kvs
  ∧ env_report_from_dict (PyDict (kvs ++ extra)%list) = Ok (restored v)
  ∧ (restored v = v ↔ lossless v).
Proof.
  pose proof (restored_fixed _ _ H) as F. destruct (obj_typed _ _ H) as (fs & -> & T).
  exists (prod_map id to_jsonable <$> fs). split_and!; [apply to_jsonable_obj| |done].
  unfold env_report_from_dict. cbn [as_dict mbind result_bind].
  destruct (first_read fs _ T (state_start _ fs T extra)) as (data1 & -> & S). cbn [mbind result_bind].
  field_step. destruct (rest_read fs data T S0) as (data2 & done & -> & S & C). cbn [mbind result_bind].
  by apply (built _ fs T done).
Qed.

(** ** A stored report *)

Definition made (c : cls) (kwargs : dict) : pyval := match construct c kwargs with Ok v => v | Raise _ => PyNone end.

Definition a_segment : pyval := made KRiskDonutSegment [
  ("key", PyStr "web"); ("label", PyStr "web"); ("color", PyStr "#234"); ("count", PyInt 2); ("dash_length", PyFlt (of_Z 10));
  ("dash_offset", PyFlt (of_Z 0))].
Definition an_overview (segments : list pyval) : pyval := made KEnvironmentOverview [
  ("total", PyInt 2); ("online", PyInt 2); ("offline", PyInt 0); ("total_vcpus", PyInt 8); ("total_memory_gb", PyFlt (of_Z 16));
  ("total_disk_gb", PyInt 100); ("role_distribution", PyDict [("web", PyInt 2)]); ("workload_donut", PyList segments)].
Definition a_warning : pyval := made KAttentionRow [
  ("badge_class", PyStr "badge"); ("badge_text", PyStr "5"); ("link_href", PyStr "/servers/a"); ("link_text", PyStr "a");
  ("meta_at", PyTime 1700000000000000)].
Definition a_base : pyval := made KReportSummary [
  ("rows", PyList []); ("period_days", PyFlt (of_Z 14)); ("total", PyInt 2); ("online", PyInt 2); ("risk_attention", PyInt 0);
  ("risk_high", PyInt 0); ("anchor_at", PyTime 1700000000000000)].
Definition a_topology (gateway : pyval) : pyval := made KNetworkTopology [
  ("elements", PyList [PyDict [("data", PyDict [("id", PyStr "n1")])]]); ("subnet_count", PyInt 1); ("host_count", PyInt 2);
  ("multi_homed_count", PyInt 0); ("isolated_count", PyInt 0);
  ("subnets", PyList [made KSubnetGroup [("net_key", PyStr "10.0.1.0/24"); ("host_count", PyInt 2); ("gateway", gateway);
    ("hosts", PyList [made KSubnetHost [("hostname", PyStr "a"); ("ip", PyStr "10.0.1.15"); ("os_family", PyStr "linux");
                                        ("public_id", PyStr "a-1")]])]])].
Definition a_tree : pyval :=
  let node (name : string) (children : list pyval) := made KStorageNode [
    ("name", PyStr name); ("kind", PyStr "disk"); ("kind_label", PyStr "disk"); ("size_gb", PyNone);
    ("children", PyList children)] in
  node "sda" [node "sda1" []; node "sda2" [node "root" []]].
Definition a_report (segments : list pyval) (gateway : pyval) : pyval := made KEnvironmentReportSummary [
  ("view", PyStr "engineer"); ("time_range", PyStr "14d"); ("time_range_label", PyStr "14"); ("anchor_at", PyTime 1700000000000000);
  ("generated_at", PyTime 1700000001000000); ("overview", an_overview segments);
  ("attention", made KAttentionSignals [("gap_warnings", PyList [a_warning])]); ("base", a_base);
  ("classification_dist", PyList []); ("os_distribution", PyList []); ("top_risks", PyList []); ("summary_bullets_env", PyList []);
  ("topology", a_topology gateway); ("storage_tree", PyList [a_tree])].

Lemma report_comes_back_witness :
  ∃ kvs, env_report_to_dict (a_report [a_segment] (PyStr "10.0.1.1")) = PyDict kvs
  ∧ env_report_from_dict (PyDict (kvs ++ [("field_of_old", PyInt 1)])%list) = Ok (restored (a_report [a_segment] (PyStr "10.0.1.1")))
  ∧ (restored (a_report [a_segment] (PyStr "10.0.1.1")) = a_report [a_segment] (PyStr "10.0.1.1")
     ↔ lossless (a_report [a_segment] (PyStr "10.0.1.1"))).
Proof. apply report_comes_back. vm_compute. repeat split; discriminate. Defined.

(** The dict of a field, where there is one *)
Fixpoint at_path (path : list string) (v : pyval) : pyval :=
  match path, v with
  | [], _ => v
  | k :: path, (PyObj _ fs | PyDict fs) => match dict_get k fs with Some x => at_path path x | None => PyNone end
  | _ :: path, _ => PyNone
  end.

(** The two losses, at work: the restored subnet has no gateway, and the restored segment is a dict. *)
Example what_is_lost :
  let back := restored (a_report [a_segment] (PyStr "10.0.1.1")) in
  at_path ["overview"; "workload_donut"] back = PyList [to_jsonable a_segment]
  ∧ match at_path ["topology"; "subnets"] back with PyList (s :: _) => at_path ["gateway"] s = PyNone | _ => False end.
Proof. by vm_compute. Qed.

(** A stored dict can be read only once: the first reading leaves rebuilt subnets in it. *)
Example second_reading_fails :
  match env_report_to_dict (a_report [] PyNone) with
  | PyDict kvs => env_report_from_dict (PyDict kvs) = Ok (a_report [] PyNone)
                  ∧ (d ← spent kvs; env_report_from_dict (PyDict d)) = Raise TypeError
  | _ => False
  end.
Proof. by vm_compute. Qed.
